(* ===== verification/_CoqProject ===== *)
-Q . S2P
Prelude.v
Tx.v
Programs.v
Tables.v
Paging.v
GoStr.v
GoTime.v
GoCrypto.v
Password.v
Auth.v
Keyring.v
Regex.v
Net.v
HostingTypes.v
Site.v
Policy.v
Quota.v
DNSTypes.v
DNSRecord.v
DNSExpand.v
DNSPlan.v
DNSPlanProps.v
DNSTables.v
DNSTemplateStore.v
DNSZoneStore.v
DNSSync.v
DNSEdit.v
DNSProvision.v
DNSEditProps.v
DNSStoreFacts.v
DNSConverge.v
DNSInvariant.v
DNSGuards.v
DNSRuns.v
DNSLocal.v
DNSTemplateProps.v
DNSProvisionProps.v
DNSAgent.v
DNSRender.v
DNSAgentProps.v
DNSRenderProps.v
Files.v
FilesProps.v
DNSApply.v
DNSApplyProps.v
DNSWorker.v
DNSServed.v
DNSFindings.v
OpsTypes.v
OpsScope.v
OpsStore.v
OpsNotify.v
OpsDelivery.v
OpsQueries.v
OpsSystem.v
OpsInvariant.v
OpsFeedProps.v
OpsReads.v
OpsDeliveryProps.v
LoginTypes.v
Login.v
LoginHandlers.v
LoginFlow.v
LoginProps.v
LoginSafe.v
LoginOnce.v
LoginSamples.v
LoginFindings.v
RemovalTypes.v
RemovalPreview.v
RemovalFence.v
RemovalStore.v
RemovalSystem.v
RemovalFacts.v
RemovalSound.v
RemovalApprove.v
RemovalChanges.v
RemovalSafe.v
RemovalFinal.v
RemovalProps.v
