(* ===== verification/Prelude.v ===== *)
(** * Nakpanel: a verification development

    Nakpanel is a web hosting panel: a control plane (Go, PostgreSQL, River jobs)
    that keeps what is wanted of a server in its tables, and a privileged agent
    that makes it so. This library models the control plane's own logic and proves
    what makes it correct. Definitions keep the names of the Go functions.

    ** The program's parts and the files that model them

    - Foundations. This file: Go errors, results, 64-bit integers, map iteration,
      struct assignment, and the generic lemmas. [GoStr] the [strings] package,
      [GoTime] dates and times, [Regex] regular expressions, [Net] addresses, [Tx]
      database transactions, [Programs] handlers and workers as trees of questions
      to their environment, with the logic of what they are told before they act,
      [Tables] rows, keys and unique constraints, [Paging] rows read page by page in
      the order of a key.
    - [HostingTypes] (internal/types): the hosting policies and the plan types.
    - [Site] (internal/site/create_site.go): domain names, subdomain labels, user
      names and the containment of paths.
    - [Policy] (internal/control/policy/policy.go): validation of a hosting policy,
      its delegation from provider to reseller to customer to site, and upgrades
      from older documents.
    - [Quota] (internal/control/quota/quota.go): the checks that admit a site, a
      subdomain, a database or a backup under a subscription's limits.
    - DNS, the largest component (internal/control/dnstemplate, and the DNS part of
      internal/control/provision):
      [DNSTypes] the structs; [DNSRecord] and [DNSExpand] validation.go, records,
      record sets, SOA settings, placeholders and template records; [DNSPlan] the
      planner of manager.go, service_defaults.go, provision/dns_services.go and
      domain_preview.go, which compares a zone with a template; [DNSTables] the
      tables, their constraints and the shared statements; [DNSTemplateStore] the
      edits of the template and provider_defaults.go; [DNSZoneStore] the execution
      of a plan and the handlers of one zone; [DNSSync] previews, confirmations,
      the worker of jobs.go and the reports of the zone worker; [DNSEdit] the
      record editor of provision/phase6_repository.go; [DNSProvision] what makes
      records on its own: the zone of a new site, service records, the address of a
      subdomain.
    - The agent's side of DNS (internal/agent/ops): [DNSAgent] validates the request
      for a zone, [DNSRender] writes it as a zone file and a name server
      configuration (phase6.go); [Files] is the file system with its atomic writes,
      snapshots and restoration (create_site.go, site_identity.go); [DNSApply] is
      the handler ConfigureDNSZone with its checks, reload, rollback and revision
      marker (phase6.go, dns_revision.go), and the drift check.
    - Between the two, [DNSWorker]: the zone worker (LoadDNSZoneRequest and
      ConfigureDNSZoneWorker of provision), and the system of tables, host and
      interleaved workers.
    - Operations (internal/control/operations), the record of what the panel does
      and what is wrong: [OpsTypes] model.go and the tables; [OpsScope] scope.go,
      who may see what; [OpsStore] store.go, conditions.go and verification.go,
      issues from their first observation to a verified recovery, operations and
      attempts; [OpsNotify] dispatch.go, delivery_policy.go, job_context.go and
      preferences.go, the publication of events as notifications and mail;
      [OpsDelivery] delivery.go, the mail service; [OpsQueries] queries.go and
      feed.go, the lists, pages and the feed; [OpsSystem] the recorder trigger and
      runs of everything together, [act] by [act].
    - Sign-in (internal/control/auth, http/login_security.go and around it).
      [GoCrypto] digests as classes; [Password] password.go, Argon2id hashes and
      their text; [Auth] totp.go and session.go, one-time codes, recovery codes,
      tokens, and the limiter of repeated passwords (http/server_admin.go);
      [Keyring] serveradmin/crypto.go, secrets under versioned keys; [LoginTypes]
      the tables and statements (store/authstore.go, users.sql); [Login] the
      programs handlers are, their steps and the system of threads;
      [LoginHandlers] and [LoginFlow] the handlers: login and its second step,
      enrolment and removal of factors, logout, repeated passwords, the recovery
      commands (operator/security_recovery.go), the login links of billing panels
      (provisioningapi/sso.go, accounts.go).
    - Website removal (internal/control/provision/site_removal_*.go, site_job_*.go).
      [RemovalTypes] the structs of internal/types/site_removal.go, the digest of an
      inventory, and the tables; [RemovalPreview] site_removal_preview.go and who may
      remove (workspace); [RemovalFence] site_job_fence.go and site_job_scope.go,
      which jobs work on which websites; [RemovalStore] the transactions: a request
      reserves ([reserve]), the worker advances, the end clears the tables
      ([finalize], site_removal_finalize.go), records leave shared zones
      ([prepareDNS], site_removal_shared.go); [RemovalSystem] the handlers, the
      workers and the fence as programs, the triggers of the domain-removal
      migration ([apply_change]), and the system of threads ([step]).

    They interact as the code does: [DNSEdit] and [DNSZoneStore] change records and
    queue a zone job ([bump_zone], [insert_job]); [DNSTemplateStore] changes the
    template and marks zones out of sync; [DNSSync] plans with [DNSPlan] on a
    snapshot read by [zoneByID], and executes the plan with
    [applyZonePlanMutationsTx]; the zone worker ([DNSWorker.Work]) reads the zone,
    sends it to the agent ([ConfigureDNSZone]) and reports with [MarkDNSActive].
    Jobs reach the operations tables through the recorder ([record_job]); what it
    and the observers write is published by [DispatchTx] and mailed by [deliverOne].
    A sign-in handler and a removal are programs ([Programs.prog]), run statement by
    statement between others by [Login.step] and [RemovalSystem.step]; a handler
    hashes with [Password], checks codes with [Auth], and keeps an authenticator's
    secret sealed by [Keyring].
    Every job passes the fence ([fence_work]) before its work; the removal's own job
    ([remove_work]) cancels the jobs in its scope, waits for those at work, asks the
    agent for stage after stage, changes the zones of [DNSTables], and finalizes.

    ** What the theorems show

    - Names and paths ([Site]): accepted names are exactly the well-formed ones; a
      subdomain lies under its parent; path containment is exact.
    - Policies ([Policy]): a policy accepted under a ceiling grants no more than the
      ceiling in any setting, transitively; upgrades keep validity.
    - Quotas ([Quota]): what is admitted keeps the subscription within its limits.
    - Records ([DNSRecord], [DNSExpand], [DNSEditProps]): accepted record sets are
      exactly the servable ones; normal forms; serials grow; a template record
      stays under its site; the editor and the template agree (but for CAA).
    - Plans ([DNSPlanProps]): users' records are untouched, the result is servable
      or the plan is empty, a child's plan stays in the child's names, and the plan
      does not depend on the order Go visits maps in.
    - The store. [DNSConverge]: every change of records is queued for the name
      server. [DNSInvariant]: an inductive step relation of all handlers and
      workers keeps the tables' keys and constraints. [DNSGuards]: a run applies
      what was previewed and loses no user's record. [DNSRuns]: a preview is
      confirmed once, and what was shown is what is done. [DNSLocal]: deletions
      last, and moves of subdomains keep names. [DNSTemplateProps]: edits of the
      template are serialised. [DNSProvisionProps]: automatic records cost nobody
      a record, and a subdomain answers with its address. [DNSFindings]: executions
      the code gets wrong.
    - The agent. [DNSAgentProps]: a zone the control plane accepts is accepted by
      the agent (but for CAA). [DNSRenderProps]: one line per record, and text reads
      back as it was. [DNSApplyProps], for every outcome of the system calls: a zone
      that cannot be applied is put back, one that was applied shows no drift, and a
      stale snapshot never replaces a newer one.
    - End to end ([DNSServed]): in every interleaving of handlers, workers, failures
      and lost answers, a zone the tables call active is the zone that is served.
    - Operations. [OpsInvariant]: no run of actions breaks the tables, and an issue
      is resolved only by a receipt for its last occurrence. [OpsFeedProps] and
      [OpsReads]: published events stay, a reader of the feed misses and repeats
      nothing, and pages enumerate a list. [OpsDeliveryProps]: mail is tried a
      bounded number of times, and depends only on what its reader may see.
    - Sign-in, in every interleaving of requests and commands, with statements
      refused or their answers lost. [LoginProps]: what each handler has been told
      before it acts. [LoginSafe]: every session goes back to a password without a
      confirmed factor, to a second step, or to a login link; factors change only
      on proof; a throttled login looks at no account. [LoginOnce]: codes, recovery
      codes and login tokens are used once, and a challenge admits five guesses.
      [Password], [Keyring]: hashes verify and secrets open, rotated or not.
      [LoginFindings]: runs the code gets wrong.
    - Website removal, in every interleaving of requests, jobs and the changes other
      components make. [RemovalFacts], [RemovalSound], [RemovalChanges]: statements
      and triggers keep every way into a website under removal closed and covered by
      what was approved. [RemovalApprove]: a preview finds exactly the websites
      beneath. [RemovalSafe]: what a thread has been told before it
      acts, and the invariant of the system. [RemovalFinal]: what is
      retained, and what is gone at the end. [RemovalProps]: no other job works on a
      website while it is torn down; the agent is asked only for what was approved,
      in order; backups stay, and a database goes only when chosen and removed.

    ** Abstract specifications

    [Policy] states "within the ceiling" setting by setting and proves the checker
    equal to it; [DNSRecord] states what DNS can serve (one CNAME alone at a name,
    one SPF record, no duplicate) and proves [validateDNSRecordSet] equal to it;
    [DNSConverge.converges], [DNSInvariant.StoreOk] and
    [DNSGuards.applied_as_planned] are the contracts of the store;
    [OpsInvariant.OpsOk] and [OpsFeedProps.FeedOk] those of the operations tables;
    [LoginProps.due] says of every fact of a sign-in what must have come before it,
    [RemovalSafe.due] the same of every question a removal asks;
    [RemovalSound.sound] is the contract of the removal's tables, and
    [RemovalFinal.Spares] and [RemovalFinal.Keeps] say what an end may touch.

    ** Assumptions of the model

    - Strings are bytes. Letter case and quoting of non-ASCII text come from the
      class [GoUnicode]; theorems hold for every instance, witnesses use
      [ascii_only]. The order of map iteration comes from [GoMapOrder], any
      permutation; the order of text in the database from [Collation].
    - A transaction is atomic ([Tx]): the handlers take their row locks before they
      read what they act on. A database call succeeds, except that a query finds no
      row, a unique constraint is violated, or a NULL is scanned into an integer;
      CHECK constraints and foreign keys are not modelled. A River insertion is an
      entry of [db_Jobs]. Row numbers and revisions do not wrap around.
    - [fingerprint] (SHA-256 of a plan), [random] (tokens) and the resolver are
      parameters; nothing is assumed of the fingerprint.
    - The agent's files are a map by path. Which calls fail, and how far an atomic
      write gets before it fails, is decided by an [Environment]; theorems on
      restoration assume that the calls made while undoing succeed. The name
      server's checks and reload, the JSON text of a marker and SHA-256 are
      parameters. A mutex serialises the handlers, which are atomic here.
    - The zone worker's two queries are not one transaction: [DNSWorker] lets the
      tables change between them, keeps every row, request and answer a worker ever
      held, and lets any of them be used at any later time.
    - Operations: times are nanoseconds and a transaction is given the clock it
      reads; rows another transaction has locked ([SKIP LOCKED]) are a predicate;
      the row locks of delivery_scope.go make a delivery atomic. SHA-256 ([SHA256]),
      PostgreSQL's [left] and [ILIKE], the shown name of a resource and the mail
      transport are parameters. The recorder is given the resource, the label and
      the incident the trigger finds for a job.
    - Sign-in: each statement or transaction is one step; it may be refused, or
      take effect and lose its answer. Users, customers, resellers, subscriptions,
      billing accounts and the required-factor setting also change from outside, in
      any way. Argon2id, HMAC-SHA-1, SHA-256, AES-256-GCM and the QR picture are
      classes; laws are assumed of AES-256-GCM (what it seals it opens) and of the
      lengths of digests and keys only. Random bytes and the clock are whatever the
      environment answers. Left out: the middleware that checks CSRF tokens, the
      hash computed for an unknown account to take equal time, diagnostic log lines.
    - Removal: each statement or transaction is one step, refused, done, or done with
      its answer lost; the tables at the start are [sound] and jobs name what they
      work on ([carries_key]). Other components change any table in any way the
      triggers allow ([apply_change]) but add no removal jobs; River keeps a job's
      row running while its worker runs. What the agent answers, the convergence of
      account access and of mail, and the bodies of other jobs are the environment's.
      The inventory stored as JSON is read back as it was written. The descent of the
      recursive query is bounded by the number of websites, and repeats are found
      before that. Left out: panels that die or lose the connection that holds their
      locks, the mutex that keeps two jobs of one panel from changing a subscription's
      runtime at once, and the triggers on the removal's own statements, whose
      operation they let pass.
    - PostgreSQL's [lower] is [to_lower]. Columns only pages show are left out.
    - Recursion is structural, but for [txt_chunks] and [read_strings], whose fuel is
      the length of the text: each step takes at least one byte.

    ** Not modelled

    Generated code (templ, sqlc) and view helpers; the HTTP handlers that only
    parse, call a store and render; RPC transport; start-up and command-line flags.
    The agent's work on processes, accounts, databases, PHP and backups is I/O
    around programs (nginx, systemd, MariaDB, WordPress) this library does not see;
    so are its part in a removal and the staging of certificate files. Around the
    modelled checks, the statements of internal/control/quota that edit plans and
    accounts, the jobs of internal/control/provision for sites, mail and databases,
    PHP applications and backups, and the key file of serveradmin are where this
    development would grow: the jobs first, which [RemovalSystem] has as bodies
    behind the fence. *)

(** ** Libraries *)


From stdpp Require Export base numbers list strings gmap sorting pretty.
From Stdlib Require Export Permutation.

#[export] Set Default Goal Selector "!".

Open Scope Z_scope.

(** ** Go errors

    A Go [error] is its text together with the sentinels [errors.Is] finds in
    its chain: [errors.New] has none, a package-level sentinel is found under
    its own name, and [fmt.Errorf] with [%w] prefixes the text and keeps the
    chain of the wrapped error. *)

Record error := Error { error_text : string; error_chain : list string }.

Definition errors_New (text : string) : error := Error text [].

Definition sentinel (name text : string) : error := Error text [name].

Definition wrapf (prefix : string) (e : error) : error :=
  Error (prefix +:+ error_text e) (error_chain e).

Definition errors_Is (e : error) (name : string) : bool :=
  bool_decide (name ∈ error_chain e).

#[export] Instance error_eq_dec : EqDecision error.
Proof. solve_decision. Defined.

(** ** Results: a value, or the error a Go function returns with it. *)

Inductive result (A : Type) :=
| Ok (a : A)
| Err (e : error).
Arguments Ok {A} a.
Arguments Err {A} e.

#[export] Instance result_eq_dec {A} `{EqDecision A} : EqDecision (result A).
Proof. solve_decision. Defined.

Definition result_bind {A B} (k : A → result B) (m : result A) : result B :=
  match m with
  | Ok a => k a
  | Err e => Err e
  end.

(** [if bad { return err }] followed by the rest of the body. *)
Definition fail_when {A} (bad : bool) (e : error) (k : result A) : result A :=
  if bad then Err e else k.

Definition is_ok {A} (r : result A) : bool :=
  match r with Ok _ => true | Err _ => false end.

(** [fmt.Errorf("prefix: %w", err)] around a failing call. *)
Definition result_wrap {A} (prefix : string) (r : result A) : result A :=
  match r with
  | Ok a => Ok a
  | Err e => Err (wrapf prefix e)
  end.

Declare Scope nak_scope.
Delimit Scope nak_scope with nak.
Notation "'let*' x ':=' m 'in' k" := (result_bind (λ x, k) m)
  (at level 10, x pattern, m at level 100, k at level 200) : nak_scope.
Notation "'return_if' b 'with' e ';;' k" := (fail_when b e k)
  (at level 10, b at level 99, e at level 99, k at level 200) : nak_scope.
Open Scope nak_scope.

(** A loop whose body may return an error: the error of the first element the
    body rejects, in list order. *)
Fixpoint for_each {A} (body : A → result unit) (l : list A) : result unit :=
  match l with
  | [] => Ok ()
  | x :: l' => let* _ := body x in for_each body l'
  end.

(** A loop that builds a list and stops at the first error. *)
Fixpoint map_result {A B} (f : A → result B) (l : list A) : result (list B) :=
  match l with
  | [] => Ok []
  | x :: l' => let* y := f x in let* ys := map_result f l' in Ok (y :: ys)
  end.

(** [for i, x := range list] with a body that may return an error. *)
Definition for_range {A} (body : nat → A → result unit) (l : list A) : result unit :=
  for_each (λ '(i, x), body i x) (imap pair l).

(** ** Machine integers

    [int] and [int64] are 64-bit two's complement on the supported targets;
    [wrap64] is what an arithmetic result becomes when it is stored. *)

Definition wrap64 (z : Z) : Z := (z + 2 ^ 63) `mod` 2 ^ 64 - 2 ^ 63.

Definition int64_min : Z := - 2 ^ 63.
Definition int64_max : Z := 2 ^ 63 - 1.
Definition in_int64 (z : Z) : Prop := int64_min ≤ z ≤ int64_max.

(** ** Go maps

    Ranging over a Go map visits the entries in an order the language leaves
    unspecified. A program point that ranges over a map goes through
    [map_order], of which only this is known: it permutes the entries. *)

Class GoMapOrder := {
  map_order : ∀ {A : Type}, list A → list A;
  map_order_perm : ∀ {A : Type} (l : list A), Permutation (map_order l) l;
}.

(** ** Struct assignment

    [r <| f := v |>] is a copy of the struct [r] whose field [f] holds [v]. The
    setter of a field is derived from the record's eta expansion by abstracting
    the field's projection. *)

Class Eta (R : Type) := eta : R → R.
Class Setter {R T : Type} (proj : R → T) := update : (T → T) → R → R.
#[global] Hint Mode Setter - - + : typeclass_instances.

Ltac derive_setter :=
  lazymatch goal with
  | |- @Setter ?R ?T ?proj =>
      let inst := constr:(_ : Eta R) in
      exact (λ (f : T → T) (r : R),
        ltac:(let e := eval hnf in (@eta R inst r) in
              lazymatch eval pattern (proj r) in e with
              | ?g _ => let t := eval cbv beta in (g (f (proj r))) in exact t
              end))
  end.
#[export] Hint Extern 1 (Setter _) => derive_setter : typeclass_instances.

Notation "r '<|' f ':=' v '|>'" := (update (proj := f) (λ _, v) r)
  (at level 1, f at level 0, v at level 200, left associativity) : nak_scope.

(** ** Tactics *)

(** Break a conjunction of boolean tests, in the goal and the hypotheses. *)
Ltac bool_split :=
  cbv beta in *;
  repeat match goal with
  | H : (_ && _)%bool = true |- _ => apply andb_true_iff in H; destruct H
  | H : (_ || _)%bool = false |- _ => apply orb_false_iff in H; destruct H
  | H : negb _ = true |- _ => apply negb_true_iff in H
  | H : negb _ = false |- _ => apply negb_false_iff in H
  | H : bool_decide _ = true |- _ => apply bool_decide_eq_true in H
  | H : bool_decide _ = false |- _ => apply bool_decide_eq_false in H
  | H : (_ <? _) = true |- _ => apply Z.ltb_lt in H
  | H : (_ <? _) = false |- _ => apply Z.ltb_ge in H
  | H : (_ <=? _) = true |- _ => apply Z.leb_le in H
  | H : (_ <=? _) = false |- _ => apply Z.leb_gt in H
  | H : (_ =? _) = true |- _ => apply Z.eqb_eq in H
  | H : (_ =? _) = false |- _ => apply Z.eqb_neq in H
  | H : String.eqb _ _ = true |- _ => apply String.eqb_eq in H
  | H : String.eqb _ _ = false |- _ => apply String.eqb_neq in H
  end.

(** Walk a successful run backwards through the binds and the early returns:
    each bind yields the intermediate value, each guard its negation. *)
Ltac run_ok :=
  repeat match goal with
  | H : result_bind ?k ?m = Ok _ |- _ =>
      let E := fresh "E" in destruct m eqn:E; cbn [result_bind] in H; [|discriminate H]
  | H : fail_when ?b ?e ?k = Ok _ |- _ =>
      let E := fresh "E" in destruct b eqn:E; cbn [fail_when] in H; [discriminate H|]
  | H : result_wrap ?p ?m = Ok _ |- _ =>
      let E := fresh "E" in destruct m eqn:E; cbn [result_wrap] in H; [|discriminate H]
  | H : Ok _ = Ok _ |- _ => progress simplify_eq
  | H : Err _ = Ok _ |- _ => discriminate H
  end.

Create HintDb nak.
Create Rewrite HintDb nak.

(** ** Lemmas on results and loops *)

Lemma result_bind_Ok {A B} (k : A → result B) (m : result A) b :
  result_bind k m = Ok b ↔ ∃ a, m = Ok a ∧ k a = Ok b.
Proof. destruct m; simpl; naive_solver. Qed.

Lemma result_seq_Ok {B} (m : result unit) (k : result B) b :
  result_bind (λ _, k) m = Ok b ↔ m = Ok () ∧ k = Ok b.
Proof. destruct m as [[]|]; simpl; naive_solver. Qed.

Lemma fail_when_Ok {A} b e (k : result A) a :
  fail_when b e k = Ok a ↔ b = false ∧ k = Ok a.
Proof. destruct b; simpl; naive_solver. Qed.

Lemma result_wrap_Ok {A} p (r : result A) a : result_wrap p r = Ok a ↔ r = Ok a.
Proof. destruct r; simpl; naive_solver. Qed.

Lemma is_ok_true {A} (r : result A) : is_ok r = true ↔ ∃ a, r = Ok a.
Proof. destruct r; simpl; naive_solver. Qed.

Lemma for_each_Ok {A} (body : A → result unit) l :
  for_each body l = Ok () ↔ Forall (λ x, body x = Ok ()) l.
Proof.
  induction l as [|x l IH]; simpl; [naive_solver|].
  rewrite result_bind_Ok, Forall_cons, <- IH.
  split; [intros ([] & ? & ?) | intros [? ?]]; eauto.
Qed.

(** The loop against a property of the elements: [apply] it and characterise
    the body once. *)
Lemma for_each_Forall {A} (P : A → Prop) (body : A → result unit) l :
  (∀ x, body x = Ok () ↔ P x) → for_each body l = Ok () ↔ Forall P l.
Proof. intros HP. rewrite for_each_Ok, !Forall_forall. by setoid_rewrite HP. Qed.

Lemma for_each_perm {A} (body : A → result unit) l l' :
  Permutation l l' → for_each body l = Ok () ↔ for_each body l' = Ok ().
Proof. intros HP. rewrite !for_each_Ok. by rewrite HP. Qed.

(** A failing loop fails with the error of one of its elements. *)
Lemma for_each_Err {A} (body : A → result unit) l e :
  for_each body l = Err e → ∃ x, x ∈ l ∧ body x = Err e.
Proof.
  induction l as [|x l IH]; simpl; [done|].
  destruct (body x) as [[]|e'] eqn:E; simpl.
  - intros (y & ? & ?)%IH. set_solver.
  - intros [= ->]. set_solver.
Qed.

Lemma map_result_Ok {A B} (f : A → result B) l l' :
  map_result f l = Ok l' ↔ Forall2 (λ x y, f x = Ok y) l l'.
Proof.
  revert l'. induction l as [|x l IH]; intros l'; simpl.
  - split; [intros [= <-]; constructor | by inversion 1].
  - rewrite result_bind_Ok. split.
    + intros (y & Hy & (ys & Hys & [= <-])%result_bind_Ok).
      constructor; [done|]. by apply IH.
    + inversion 1 as [|? y ? ys Hy Hys]; simplify_eq.
      exists y. split; [done|]. apply result_bind_Ok. exists ys.
      split; [by apply IH | done].
Qed.

Lemma map_result_length {A B} (f : A → result B) l l' :
  map_result f l = Ok l' → length l' = length l.
Proof. intros H%map_result_Ok. by apply Forall2_length in H. Qed.

Lemma for_range_Ok {A} (body : nat → A → result unit) l :
  for_range body l = Ok () ↔ ∀ i x, l !! i = Some x → body i x = Ok ().
Proof.
  unfold for_range. rewrite for_each_Ok, Forall_lookup. split; intros HF i x.
  - intros Hx. apply (HF i (i, x)). by rewrite list_lookup_imap, Hx.
  - rewrite list_lookup_imap. destruct (l !! i) as [y|] eqn:E; simpl; [|done].
    intros [= <-]. by apply HF.
Qed.

(** A loop over the positions of two lists of the same length. *)
Lemma for_range_zip_Ok {A B} (P : A → B → Prop) (body : nat → A * B → result unit) l k :
  length l = length k → (∀ i x y, body i (x, y) = Ok () ↔ P x y) →
  for_range body (zip l k) = Ok () ↔ Forall2 P l k.
Proof.
  intros Hlen Hbody. rewrite for_range_Ok, Forall2_same_length_lookup. split.
  - intros HF. split; [done|]. intros i x y Hx Hy. apply (Hbody i), HF.
    apply lookup_zip_Some. done.
  - intros [_ HF] i [x y] [Hx Hy]%lookup_zip_Some. apply Hbody. by eapply HF.
Qed.

Lemma NoDup_fmap_elem {A B} (f : A → B) l x y :
  NoDup (f <$> l) → x ∈ l → y ∈ l → f x = f y → x = y.
Proof.
  induction l as [|z l IH]; [by intros _ ?%elem_of_nil|].
  rewrite fmap_cons, NoDup_cons, !elem_of_cons. intros [Hz Hl] [->|Hx] [->|Hy] E; try done; [..|by apply IH].
  - exfalso. apply Hz. rewrite E. by apply list_elem_of_fmap_2.
  - exfalso. apply Hz. rewrite <- E. by apply list_elem_of_fmap_2.
Qed.

(** An invariant of a loop over a list. *)
Lemma foldl_inv {A B} (I : B → Prop) (f : B → A → B) l b :
  (∀ x b, x ∈ l → I b → I (f b x)) → I b → I (foldl f b l).
Proof.
  revert b. induction l as [|x l IH]; intros b Hstep Hb; [done|].
  cbn [foldl]. apply IH; [intros; apply Hstep; [by constructor|done]|].
  apply Hstep; [constructor|done].
Qed.

(** ** Lemmas on machine integers *)

Lemma wrap64_in_range z : in_int64 (wrap64 z).
Proof.
  unfold in_int64, int64_min, int64_max, wrap64.
  pose proof (Z.mod_pos_bound (z + 2 ^ 63) (2 ^ 64)). lia.
Qed.

Lemma wrap64_id z : in_int64 z → wrap64 z = z.
Proof.
  unfold in_int64, int64_min, int64_max, wrap64. intros.
  rewrite Z.mod_small by lia. lia.
Qed.

(** Turn the success of a body into the conjunction of its steps' successes and
    the negations of its guards. *)
Ltac run_iff := repeat first [rewrite result_seq_Ok | rewrite fail_when_Ok].

#[export] Hint Rewrite @result_bind_Ok @fail_when_Ok @result_wrap_Ok @for_each_Ok : nak.
#[export] Hint Resolve wrap64_in_range : nak.

(** ** Lemmas on iteration order *)

Lemma map_order_elem `{GoMapOrder} {A} (l : list A) x : x ∈ map_order l ↔ x ∈ l.
Proof. by rewrite (map_order_perm l). Qed.

Lemma for_each_map_order `{GoMapOrder} {A} (body : A → result unit) l :
  for_each body (map_order l) = Ok () ↔ for_each body l = Ok ().
Proof. apply for_each_perm, map_order_perm. Qed.

(** The two orders the witnesses use. *)
Program Definition insertion_order : GoMapOrder := {| map_order A l := l |}.
Next Obligation. done. Qed.

Program Definition reverse_order : GoMapOrder := {| map_order A l := rev l |}.
Next Obligation. intros A l. symmetry. apply Permutation_rev. Qed.
