(* ===== verification/Tx.v ===== *)
(** * Database transactions

    The body of a transaction is a function of the database that returns a value
    and the database it leaves, or fails. [run_tx] runs it: a failed body rolls
    back. A transaction is atomic: the code takes its row locks ([FOR UPDATE])
    before it reads what it acts on, so bodies do not interleave. *)

From S2P Require Import Prelude.

Definition tx (S A : Type) : Type := S → result (A * S).

Definition tx_ret {S A} (a : A) : tx S A := λ s, Ok (a, s).
Definition tx_bind {S A B} (m : tx S A) (k : A → tx S B) : tx S B :=
  λ s, match m s with
       | Ok (a, s') => k a s'
       | Err e => Err e
       end.
Definition tx_fail {S A} (e : error) : tx S A := λ _, Err e.

(** A query, a statement, and a Go computation that may fail. *)
Definition tx_read {S A} (f : S → A) : tx S A := λ s, Ok (f s, s).
Definition tx_write {S} (f : S → S) : tx S unit := λ s, Ok ((), f s).
Definition tx_lift {S A} (r : result A) : tx S A :=
  λ s, match r with Ok a => Ok (a, s) | Err e => Err e end.

Declare Scope tx_scope.
Delimit Scope tx_scope with tx.
Notation "'let!' x ':=' m 'in' k" := (tx_bind m (λ x, k))
  (at level 10, x pattern, m at level 100, k at level 200) : tx_scope.
Notation "'fail_if' b 'with' e ';;' k" := (if b then tx_fail e else k)
  (at level 10, b at level 99, e at level 99, k at level 200) : tx_scope.
Open Scope tx_scope.

(** [for _, x := range l { ... }] in a transaction. *)
Fixpoint tx_each {S A} (body : A → tx S unit) (l : list A) : tx S unit :=
  match l with
  | [] => tx_ret ()
  | x :: l' => let! _ := body x in tx_each body l'
  end.

(** [defer tx.Rollback()] and [tx.Commit()]: the result and the database. *)
Definition run_tx {S A} (m : tx S A) (s : S) : result A * S :=
  match m s with
  | Ok (a, s') => (Ok a, s')
  | Err e => (Err e, s)
  end.

(** A statement whose error the code ignores ([_, _ = db.ExecContext(...)]). *)
Definition and_then {S A B} (m : S → result A * S) (k : A → S → result B * S) : S → result B * S :=
  λ s, match m s with
       | (Ok a, s') => k a s'
       | (Err e, s') => (Err e, s')
       end.

(** ** What a transaction does to the database

    [steps R m]: every successful run of [m] takes the database along [R]. A
    preorder [R] composes through the whole body, so a component states the
    steps of its statements once and [tx_steps] proves those of the bodies. *)

Definition steps {S A} (R : S → S → Prop) (m : tx S A) : Prop :=
  ∀ s a s', m s = Ok (a, s') → R s s'.

Section Steps.
Context {S : Type} (R : S → S → Prop) `{!PreOrder R}.

Lemma steps_ret {A} (a : A) : steps R (tx_ret a).
Proof. by intros s b s' [= _ <-]. Qed.

Lemma steps_fail {A} e : steps R (tx_fail (A:=A) e).
Proof. by intros s b s' [=]. Qed.

Lemma steps_read {A} (f : S → A) : steps R (tx_read f).
Proof. by intros s b s' [= _ <-]. Qed.

Lemma steps_lift {A} (r : result A) : steps R (tx_lift r).
Proof. intros s b s'. unfold tx_lift. destruct r; [by intros [= _ <-]|done]. Qed.

Lemma steps_write f : (∀ s, R s (f s)) → steps R (tx_write f).
Proof. intros Hf s b s' [= _ <-]. apply Hf. Qed.

Lemma steps_bind {A B} (m : tx S A) (k : A → tx S B) :
  steps R m → (∀ a, steps R (k a)) → steps R (tx_bind m k).
Proof.
  intros Hm Hk s b s'. unfold tx_bind. destruct (m s) as [[a s1]|e] eqn:E; [|done].
  intros Hr. etransitivity; [by eapply Hm|by eapply Hk].
Qed.

Lemma steps_each {A} (body : A → tx S unit) l : (∀ x, steps R (body x)) → steps R (tx_each body l).
Proof. intros Hb. induction l as [|x l IH]; [apply steps_ret|]. by apply steps_bind. Qed.

Lemma steps_run {A} (m : tx S A) s : steps R m → R s (snd (run_tx m s)).
Proof. intros Hm. unfold run_tx. destruct (m s) as [[a s']|e] eqn:E; [by eapply Hm|done]. Qed.

End Steps.

Create HintDb tx_steps.

(** Decompose a body along its binds, branches and loops; the statements are
    left to the hint database. *)
Ltac tx_steps :=
  repeat (cbv zeta; match goal with
  | |- PreOrder _ => typeclasses eauto
  | |- steps _ (tx_bind _ _) => apply steps_bind; [..|intros ?]
  | |- steps _ (tx_ret _) => apply steps_ret
  | |- steps _ (tx_fail _) => apply steps_fail
  | |- steps _ (tx_read _) => apply steps_read
  | |- steps _ (tx_lift _) => apply steps_lift
  | |- steps _ (tx_each _ _) => apply steps_each; [..|intros ?]
  | |- steps _ (if ?b then _ else _) => destruct b
  | |- steps _ (match ?m with Some _ => _ | None => _ end) => destruct m
  | |- steps _ (let '(_, _) := ?x in _) => destruct x
  end); try solve [eauto with tx_steps].

(** As [tx_steps], for bodies that look at the rows of a query. *)
Ltac steps_rows := tx_steps; repeat match goal with
  | |- steps _ (match ?rows with [] => _ | _ :: _ => _ end) => destruct rows; tx_steps
  end.

(** [ends R Q m]: a successful run of [m] goes along [R] and then its last
    transaction along [Q]. *)
Definition ends {S A} (R Q : S → S → Prop) (m : tx S A) : Prop :=
  ∀ s a s', m s = Ok (a, s') → ∃ s1, R s s1 ∧ Q s1 s'.

Section Ends.
Context {S : Type} (R Q : S → S → Prop) `{!PreOrder R}.

Lemma ends_bind {A B} (m : tx S A) (k : A → tx S B) :
  steps R m → (∀ a, ends R Q (k a)) → ends R Q (tx_bind m k).
Proof.
  intros Hm Hk s b s'. unfold tx_bind. destruct (m s) as [[a s1]|e] eqn:E; [|done].
  intros (s2 & Hr & Hq)%Hk. exists s2. split; [|done]. etransitivity; [by eapply Hm|done].
Qed.

Lemma ends_fail {A} e : ends R Q (tx_fail (A:=A) e).
Proof. by intros s b s' [=]. Qed.

Lemma ends_last {A} (m : tx S A) : (∀ s a s', m s = Ok (a, s') → Q s s') → ends R Q m.
Proof. intros Hm s a s' Hr. exists s. split; [reflexivity|eauto]. Qed.
End Ends.

(** As [tx_steps], down to the last transaction. *)
Ltac tx_ends :=
  repeat (cbv zeta; match goal with
  | |- PreOrder _ => typeclasses eauto
  | |- ends _ _ (tx_bind _ _) => apply ends_bind; [..|intros ?]
  | |- ends _ _ (tx_fail _) => apply ends_fail
  | |- ends _ _ (if ?b then _ else _) => destruct b
  | |- ends _ _ (match ?m with Some _ => _ | None => _ end) => destruct m
  | |- ends _ _ (match ?m with Ok _ => _ | Err _ => _ end) => destruct m
  | |- ends _ _ (let '(_, _) := ?x in _) => destruct x
  end); tx_steps.

(** ** Successful runs, backwards *)

Lemma tx_bind_Ok {S A B} (m : tx S A) (k : A → tx S B) s r :
  tx_bind m k s = Ok r ↔ ∃ a s', m s = Ok (a, s') ∧ k a s' = Ok r.
Proof. unfold tx_bind. destruct (m s) as [[a s']|e]; naive_solver. Qed.

Lemma tx_lift_Ok {S A} (r : result A) (s : S) a s' : tx_lift r s = Ok (a, s') ↔ r = Ok a ∧ s' = s.
Proof. unfold tx_lift. destruct r; naive_solver. Qed.

Lemma run_tx_Err {S A} (m : tx S A) s e : fst (run_tx m s) = Err e → snd (run_tx m s) = s.
Proof. unfold run_tx. by destruct (m s) as [[a s']|e']. Qed.

Lemma run_tx_Ok {S A} (m : tx S A) s a : fst (run_tx m s) = Ok a → m s = Ok (a, snd (run_tx m s)).
Proof. unfold run_tx. destruct (m s) as [[b s']|e']; naive_solver. Qed.

(** Walk a successful transaction backwards; the database it started from keeps
    its name. *)
Ltac tx_ok :=
  repeat match goal with
  | H : tx_bind _ _ _ = Ok _ |- _ => apply tx_bind_Ok in H as (? & ? & ? & H)
  | H : tx_read _ _ = Ok _ |- _ => unfold tx_read in H
  | H : tx_write _ _ = Ok _ |- _ => unfold tx_write in H
  | H : tx_ret _ _ = Ok _ |- _ => unfold tx_ret in H
  | H : tx_fail _ _ = Ok _ |- _ => discriminate H
  | H : tx_lift _ _ = Ok _ |- _ => apply tx_lift_Ok in H as [? ->]
  | H : (if ?b then tx_fail _ else _) _ = Ok _ |- _ =>
      let E := fresh "E" in destruct b eqn:E; [discriminate H|]
  | H : Ok (_, _) = Ok (_, _) |- _ => first [injection H as <- <- | injection H as <- | simplify_eq]
  end.
