(* ===== verification/Programs.v ===== *)
(** * Programs that run between others

    A handler or a worker is a program: a tree of questions to its environment, the
    statements and transactions it runs, the locks it takes, the calls it makes,
    and what it does with every answer. A component gives the type of its
    questions; the programs of a component are interleaved by its system, question
    by question. *)

From S2P Require Import Prelude Tx.

Inductive prog (Q : Type → Type) (A : Type) : Type :=
| Done (a : A)
| Ask {B : Type} (q : Q B) (k : B → prog Q A).
Arguments Done {Q A} a.
Arguments Ask {Q A B} q k.

Fixpoint prog_bind {Q A B} (p : prog Q A) (k : A → prog Q B) : prog Q B :=
  match p with
  | Done a => k a
  | Ask q k' => Ask q (λ r, prog_bind (k' r) k)
  end.

Definition ask {Q B} (q : Q B) : prog Q B := Ask q Done.

Declare Scope prog_scope.
Delimit Scope prog_scope with prog.
Notation "'do!' x ':=' p 'in' k" := (prog_bind p (λ x, k))
  (at level 10, x pattern, p at level 100, k at level 200) : prog_scope.
Open Scope prog_scope.

(** ** Statements that fail *)

(** A statement works, is refused, or takes effect and its answer is lost. *)
Inductive fault := Works | Refused | Lost.

Definition connection_error : error := errors_New "driver: bad connection".

Definition with_fault {S B} (f : fault) (m : tx S B) (s : S) : result B * S :=
  match f with
  | Works => run_tx m s
  | Refused => (Err connection_error, s)
  | Lost => (Err connection_error, snd (run_tx m s))
  end.

(** ** What a program is told before it acts

    A program that serves a call [c] collects facts: [learned q r] are those of the
    answer [r] to the question [q]. A [rule] says when a question may be asked and
    how its answers may be judged; [wp c h p Q]: from the facts [h], the program [p]
    keeps to the rule whatever it is answered, and ends with [Q]. *)

Section Logic.
Context {C : Type} {Q : Type → Type} {fact : Type}.
Context (learned : ∀ B, Q B → B → list fact).
Context (rule : C → list fact → ∀ B, Q B → (B → Prop) → Prop).

Fixpoint wp {A} (c : C) (h : list fact) (p : prog Q A) (post : list fact → A → Prop) : Prop :=
  match p with
  | Done a => post h a
  | Ask q k => rule c h _ q (λ r, wp c (h ++ learned _ q r) (k r) post)
  end.

(** A program that may be run by any call at any time. *)
Definition quiet {A} (p : prog Q A) : Prop := ∀ c h, wp c h p (λ _ _, True).
End Logic.

(** A rule that is kept with more to show is kept with less. *)
Class MonotoneRule {C Q fact} (rule : C → list fact → ∀ B, Q B → (B → Prop) → Prop) : Prop :=
  rule_mono : ∀ c h B (q : Q B) (P P' : B → Prop), (∀ r, P r → P' r) → rule c h B q P → rule c h B q P'.
#[export] Hint Mode MonotoneRule - - - ! : typeclass_instances.

Section Laws.
Context {C : Type} {Q : Type → Type} {fact : Type}.
Context {learned : ∀ B, Q B → B → list fact}.
Context {rule : C → list fact → ∀ B, Q B → (B → Prop) → Prop}.
Context {Hmono : MonotoneRule rule}.
#[local] Notation wp := (wp learned rule).
#[local] Notation quiet := (quiet learned rule).
Implicit Types (c : C) (h : list fact).

Lemma wp_bind {A B} c h (p : prog Q A) (k : A → prog Q B) post :
  wp c h p (λ h' a, wp c h' (k a) post) → wp c h (prog_bind p k) post.
Proof.
  revert h. induction p as [a|D q k' IH]; intros h; [done|]. cbn. apply rule_mono. intros r. apply IH.
Qed.

Lemma wp_mono {A} c h (p : prog Q A) (post post' : list fact → A → Prop) :
  wp c h p post → (∀ h' a, h ⊆ h' → post h' a → post' h' a) → wp c h p post'.
Proof.
  revert h. induction p as [a|D q k IH]; intros h; cbn; [intros Hp Hpost; by apply Hpost|].
  intros Hp Hpost. revert Hp. apply rule_mono. intros r Hr. eapply IH; [exact Hr|]. intros h' a Hsub. apply Hpost. set_solver.
Qed.

(** A sequence, by what its first part is known to establish. *)
Lemma wp_seq {A B} c h (p : prog Q A) (k : A → prog Q B) (post1 : list fact → A → Prop) post :
  wp c h p post1 → (∀ h' a, h ⊆ h' → post1 h' a → wp c h' (k a) post) → wp c h (prog_bind p k) post.
Proof. intros Hp Hk. apply wp_bind. by eapply wp_mono. Qed.

Lemma wp_quiet {A B} c h (p : prog Q A) (k : A → prog Q B) post :
  quiet p → (∀ h' a, h ⊆ h' → wp c h' (k a) post) → wp c h (prog_bind p k) post.
Proof. intros Hp Hk. eapply wp_seq; [apply Hp|]. auto. Qed.

Lemma quiet_done {A} (a : A) : quiet (Done a).
Proof. by intros c h. Qed.

Lemma quiet_bind {A B} (p : prog Q A) (k : A → prog Q B) : quiet p → (∀ a, quiet (k a)) → quiet (prog_bind p k).
Proof. intros Hp Hk c h. apply wp_quiet; [done|]. intros. apply Hk. Qed.
End Laws.
