(* ===== verification/Tables.v ===== *)
(** * Tables

    Rows of a table, the SQL statements over them, and what these do: shared by
    the databases of all components. *)

From S2P Require Import Prelude Tx.

Definition ErrNoRows : error := sentinel "sql.ErrNoRows" "sql: no rows in result set".
Definition unique_violation : error :=
  errors_New "pq: duplicate key value violates unique constraint".

(** ** Statements *)

Section Rows.
Context {R : Type}.

(** [SELECT ... WHERE p], [UPDATE ... SET f WHERE p] and [DELETE ... WHERE p]. *)
Definition rows_where (p : R → bool) (rows : list R) : list R := filter (λ r, p r = true) rows.
Definition rows_update (p : R → bool) (f : R → R) (rows : list R) : list R :=
  (λ r, if p r then f r else r) <$> rows.
Definition rows_delete (p : R → bool) (rows : list R) : list R := filter (λ r, p r = false) rows.

(** [QueryRowContext(...).Scan(...)]. *)
Definition query_row (rows : list R) : result R :=
  match rows with
  | r :: _ => Ok r
  | [] => Err ErrNoRows
  end.
End Rows.

#[global] Arguments rows_where : simpl never.
#[global] Arguments rows_update : simpl never.
#[global] Arguments rows_delete : simpl never.

(** The value a query computes from the database, or its error. *)
Definition tx_query {S A} (f : S → result A) : tx S A :=
  λ db, match f db with Ok a => Ok (a, db) | Err e => Err e end.


(** ** Rows *)

Section RowFacts.
Context {R : Type}.
Implicit Types (p q : R → bool) (f : R → R) (rows : list R).

Lemma rows_where_elem p rows r : r ∈ rows_where p rows ↔ p r = true ∧ r ∈ rows.
Proof. unfold rows_where. rewrite list_elem_of_filter. done. Qed.

Lemma rows_delete_elem p rows r : r ∈ rows_delete p rows ↔ p r = false ∧ r ∈ rows.
Proof. unfold rows_delete. rewrite list_elem_of_filter. done. Qed.

Lemma rows_update_elem p f rows r :
  r ∈ rows_update p f rows ↔ ∃ r0, r0 ∈ rows ∧ r = if p r0 then f r0 else r0.
Proof. unfold rows_update. rewrite list_elem_of_fmap. naive_solver. Qed.

Lemma query_row_Ok rows r : query_row rows = Ok r → r ∈ rows.
Proof. destruct rows; simpl; [done|]. intros [= ->]. constructor. Qed.

Lemma query_where_Ok p rows r : query_row (rows_where p rows) = Ok r → r ∈ rows ∧ p r = true.
Proof. intros [? ?]%query_row_Ok%rows_where_elem. done. Qed.

(** A row found by its key. *)
Lemma query_unique (id : R → Z) n rows r :
  NoDup (id <$> rows) → r ∈ rows → id r = n → query_row (rows_where (λ r, id r =? n) rows) = Ok r.
Proof.
  intros Hnd Hr <-. assert (r ∈ rows_where (λ r0, id r0 =? id r) rows) as Hin
    by (apply rows_where_elem; split; [apply Z.eqb_refl|done]).
  destruct (rows_where _ rows) as [|r0 rs] eqn:E; [by apply elem_of_nil in Hin|]. cbn. f_equal.
  assert (r0 ∈ rows_where (λ r0, id r0 =? id r) rows) as [Hid%Z.eqb_eq Hr0]%rows_where_elem
    by (rewrite E; constructor).
  by eapply NoDup_fmap_elem.
Qed.

(** A condition that survives the update selects the updated rows. *)
Lemma rows_where_update q p f rows :
  (∀ r, p r = true → q (f r) = q r) →
  rows_where q (rows_update p f rows) = (λ r, if p r then f r else r) <$> rows_where q rows.
Proof.
  intros Hq. induction rows as [|r rows IH]; [done|]. unfold rows_where, rows_update in *. cbn [fmap list_fmap].
  assert (q (if p r then f r else r) = q r) as E by (destruct (p r) eqn:Ep; [by apply Hq|done]).
  destruct (q r) eqn:Eq.
  - rewrite !filter_cons_True by congruence. by rewrite IH.
  - rewrite !filter_cons_False by congruence. done.
Qed.

Lemma query_where_update q p f rows r :
  (∀ r, p r = true → q (f r) = q r) →
  query_row (rows_where q rows) = Ok r →
  query_row (rows_where q (rows_update p f rows)) = Ok (if p r then f r else r).
Proof. intros Hq. rewrite rows_where_update by done. destruct (rows_where q rows); naive_solver. Qed.

(** An update that leaves the selection alone. *)
Lemma rows_where_update_other q p f rows :
  (∀ r, p r = true → q r = false ∧ q (f r) = false) →
  rows_where q (rows_update p f rows) = rows_where q rows.
Proof.
  intros Hq. rewrite rows_where_update by (intros r Hr; destruct (Hq r Hr); congruence).
  rewrite <- (list_fmap_id (rows_where q rows)) at 2. apply list_fmap_ext. intros i r Hl.
  apply list_elem_of_lookup_2, rows_where_elem in Hl as [Hr _].
  destruct (p r) eqn:Ep; [|done]. destruct (Hq r Ep). congruence.
Qed.

Lemma rows_where_delete_other q p rows :
  (∀ r, p r = true → q r = false) → rows_where q (rows_delete p rows) = rows_where q rows.
Proof.
  intros Hq. unfold rows_where, rows_delete. induction rows as [|r rows IH]; [done|].
  destruct (p r) eqn:Ep.
  - rewrite filter_cons_False by congruence. rewrite IH, filter_cons_False; [done|]. rewrite Hq by done. done.
  - rewrite (filter_cons_True (λ r, p r = false)) by done. rewrite !filter_cons, IH. done.
Qed.

Lemma rows_where_app q rows rows' : rows_where q (rows ++ rows') = rows_where q rows ++ rows_where q rows'.
Proof. apply filter_app. Qed.

Lemma fmap_rows_update {B} (g : R → B) p f rows :
  (∀ r, p r = true → g (f r) = g r) → g <$> rows_update p f rows = g <$> rows.
Proof.
  intros Hg. unfold rows_update. rewrite <- list_fmap_compose. apply list_fmap_ext. intros i r _. cbn.
  destruct (p r) eqn:E; [by apply Hg|done].
Qed.

Lemma rows_delete_sublist p rows : sublist (rows_delete p rows) rows.
Proof. apply sublist_filter. Qed.
End RowFacts.

Lemma tx_query_Ok {S A} (f : S → result A) db a db' :
  tx_query f db = Ok (a, db') ↔ f db = Ok a ∧ db' = db.
Proof. unfold tx_query. destruct (f db); naive_solver. Qed.

(** Walk a successful transaction with queries backwards. *)
Ltac db_ok :=
  repeat first [progress tx_ok
    | match goal with H : tx_query _ _ = Ok _ |- _ => apply tx_query_Ok in H as [? ->] end].

Lemma steps_query {S A} (R : S → S → Prop) `{!PreOrder R} (f : S → result A) :
  steps R (tx_query f).
Proof. intros db a db' [_ ->]%tx_query_Ok. reflexivity. Qed.

(** ** Keys *)

(** Identifiers are unique and come from the sequence. *)
Definition keys_ok {R} (id : R → Z) (rows : list R) (next : Z) : Prop :=
  NoDup (id <$> rows) ∧ Forall (λ r, id r < next) rows.

Section Keys.
Context {R : Type} (id : R → Z).
Implicit Types (rows : list R).

Lemma keys_update p f rows next : (∀ r, id (f r) = id r) → keys_ok id rows next → keys_ok id (rows_update p f rows) next.
Proof.
  intros Hf [Hnd Hlt]. split; [by rewrite fmap_rows_update by auto|].
  apply Forall_forall. intros r (r0 & Hr0 & ->)%rows_update_elem. rewrite Forall_forall in Hlt.
  destruct (p r0); rewrite ?Hf; auto.
Qed.

Lemma keys_delete p rows next : keys_ok id rows next → keys_ok id (rows_delete p rows) next.
Proof.
  intros [Hnd Hlt]. split.
  - eapply sublist_NoDup; [exact Hnd|]. apply fmap_sublist, rows_delete_sublist.
  - apply Forall_forall. intros r [_ Hr]%rows_delete_elem. rewrite Forall_forall in Hlt. auto.
Qed.

Lemma keys_append r rows next : id r = next → keys_ok id rows next → keys_ok id (rows ++ [r]) (next + 1).
Proof.
  intros Hid [Hnd Hlt]. rewrite Forall_forall in Hlt. split.
  - rewrite fmap_app. apply NoDup_app. split_and!; [done| |apply NoDup_singleton].
    intros i (r0 & -> & Hr0)%list_elem_of_fmap Hin. apply list_elem_of_singleton in Hin. apply Hlt in Hr0. lia.
  - apply Forall_forall. intros r0 [Hr0| ->%list_elem_of_singleton]%elem_of_app; [apply Hlt in Hr0|]; lia.
Qed.

Lemma keys_same rows r r' next : keys_ok id rows next → r ∈ rows → r' ∈ rows → id r = id r' → r = r'.
Proof. intros [Hnd _]. by apply NoDup_fmap_elem. Qed.
End Keys.

Lemma keys_next {R} (id : R → Z) rows next : keys_ok id rows next → keys_ok id rows (next + 1).
Proof. intros [Hnd Hlt]. split; [done|]. eapply Forall_impl; [exact Hlt|]. cbn. lia. Qed.

(** Partial uniqueness ([CREATE UNIQUE INDEX ... WHERE p]): no two rows of [p]
    have the same key. *)
Section PartialKeys.
Context {R K : Type} (id : R → Z) (p : R → bool) (key : R → K).
Implicit Types (rows : list R).

Definition unique_where rows : Prop :=
  ∀ a b, a ∈ rows → b ∈ rows → p a = true → p b = true → key a = key b → id a = id b.

Lemma unique_where_update q f rows :
  (∀ r, r ∈ rows → q r = true → id (f r) = id r ∧ key (f r) = key r ∧ (p (f r) = true → p r = true)) →
  unique_where rows → unique_where (rows_update q f rows).
Proof.
  intros Hf Hu a b (a0 & Ha & ->)%rows_update_elem (b0 & Hb & ->)%rows_update_elem.
  destruct (q a0) eqn:Ea, (q b0) eqn:Eb; try (destruct (Hf _ Ha Ea) as (Ia & Ka & Pa)); try (destruct (Hf _ Hb Eb) as (Ib & Kb & Pb));
    intros; rewrite ?Ia, ?Ib; apply Hu; auto; congruence.
Qed.

Lemma unique_where_append r rows :
  (p r = true → ∀ x, x ∈ rows → p x = true → key x ≠ key r) → unique_where rows → unique_where (rows ++ [r]).
Proof.
  intros Hr Hu a b [Ha| ->%list_elem_of_singleton]%elem_of_app [Hb| ->%list_elem_of_singleton]%elem_of_app Pa Pb E;
    [by apply Hu| | |done].
  - by destruct (Hr Pb _ Ha Pa).
  - by destruct (Hr Pa _ Hb Pb).
Qed.
End PartialKeys.

(** The rows of an update, one by one. *)
Lemma Forall_update {R} (P : R → Prop) p f (rows : list R) :
  (∀ r, r ∈ rows → p r = true → P r → P (f r)) → Forall P rows → Forall P (rows_update p f rows).
Proof.
  intros Hf. rewrite !Forall_forall. intros Hp r (r0 & Hr & ->)%rows_update_elem. destruct (p r0) eqn:E; auto.
Qed.

Lemma Forall_append {R} (P : R → Prop) r (rows : list R) : P r → Forall P rows → Forall P (rows ++ [r]).
Proof. intros Hr Hp. apply Forall_app. split; [done|by constructor]. Qed.

(** A new key. *)
Lemma NoDup_append {R K} (key : R → K) r (rows : list R) :
  key r ∉ key <$> rows → NoDup (key <$> rows) → NoDup (key <$> rows ++ [r]).
Proof.
  intros Hr Hnd. rewrite fmap_app. apply NoDup_app. split_and!; [done| |apply NoDup_singleton].
  by intros k Hk ->%list_elem_of_singleton.
Qed.

Lemma existsb_false {R} (p : R → bool) (rows : list R) : existsb p rows = false ↔ ∀ r, r ∈ rows → p r = false.
Proof.
  split.
  - intros E r Hr. apply not_true_iff_false. intros Hp. apply not_true_iff_false in E. apply E, existsb_exists.
    exists r. split; [by apply list_elem_of_In|done].
  - intros Hall. apply not_true_iff_false. intros (r & Hr%list_elem_of_In & Hp)%existsb_exists. by rewrite Hall in Hp.
Qed.
