(* ===== verification/Paging.v ===== *)
(** * Keyset paging

    Reading a table page by page: rows in the order of a key, [limit + 1] of them
    asked for, [limit] shown, and the key of the last one shown is where the next
    page begins. *)

From S2P Require Import Prelude Tx Tables.

Section Order.
Context {R : Type} (key : R → Z).
Implicit Types (rows : list R).

Definition le_key (a b : R) : Prop := key a ≤ key b.
#[export] Instance le_key_dec : RelDecision le_key := λ a b, decide (key a ≤ key b).
#[export] Instance le_key_trans : Transitive le_key.
Proof. unfold le_key. intros a b c. lia. Qed.
#[export] Instance le_key_total : Total le_key.
Proof. unfold le_key. intros a b. lia. Qed.

Definition sorted rows : list R := merge_sort le_key rows.

(** Rows with one key each have one order. *)
Lemma sorted_unique (R' : relation R) `{!Transitive R'} l1 l2 :
  (∀ a b, R' a b → le_key a b) → NoDup (key <$> l1) → l1 ≡ₚ l2 → StronglySorted R' l1 → StronglySorted R' l2 → l1 = l2.
Proof.
  intros Hle Hnd Hp H1 H2. apply (StronglySorted_unique_strong R'); [|done..].
  intros a b Ha Hb Hab Hba. apply Hle in Hab, Hba. rewrite <- Hp in Hb. eapply NoDup_fmap_elem; [exact Hnd|done|done|].
  unfold le_key in *. lia.
Qed.

Lemma sorted_perm rows : sorted rows ≡ₚ rows.
Proof. apply merge_sort_Permutation. Qed.

Lemma sorted_elem rows r : r ∈ sorted rows ↔ r ∈ rows.
Proof. by rewrite sorted_perm. Qed.

Lemma sorted_sorted rows : StronglySorted le_key (sorted rows).
Proof. apply StronglySorted_merge_sort; typeclasses eauto. Qed.

Lemma sorted_strict rows : NoDup (key <$> rows) → StronglySorted (λ a b, key a < key b) (sorted rows).
Proof.
  intros Hnd. assert (NoDup (key <$> sorted rows)) as Hk by by rewrite sorted_perm.
  pose proof (sorted_sorted rows) as Hs. revert Hs Hk. clear Hnd. generalize (sorted rows) as l.
  induction 1 as [|r l Hs IH Hr]; [constructor|]. rewrite fmap_cons. intros [Hnew Hnd]%NoDup_cons. constructor; [by apply IH|].
  rewrite Forall_forall in *. intros x Hx. specialize (Hr x Hx). unfold le_key in Hr.
  assert (key r ≠ key x); [|lia]. intros E. apply Hnew. rewrite E. by apply list_elem_of_fmap_2.
Qed.

(** The rows after a key come last. *)
Lemma sorted_split k (p : R → bool) rows :
  NoDup (key <$> rows) →
  sorted (rows_where p rows) =
    sorted (rows_where (λ r, p r && (key r <=? k)) rows) ++ sorted (rows_where (λ r, p r && (k <? key r)) rows).
Proof.
  intros Hnd. symmetry.
  assert (sorted (rows_where (λ r, p r && (key r <=? k)) rows) ++ sorted (rows_where (λ r, p r && (k <? key r)) rows)
    ≡ₚ rows_where p rows) as Hp.
  { rewrite !sorted_perm. unfold rows_where. clear Hnd. induction rows as [|r rows IH]; [done|].
    rewrite !filter_cons. destruct (p r) eqn:E; cbn; [|done].
    destruct (Z.leb_spec (key r) k), (Z.ltb_spec k (key r)); try lia; cbn.
    - by constructor.
    - symmetry. apply Permutation_cons_app. by symmetry. }
  apply (sorted_unique le_key); [done| | |apply StronglySorted_app; split_and!|apply sorted_sorted].
  - rewrite Hp. eapply sublist_NoDup; [exact Hnd|]. apply fmap_sublist, sublist_filter.
  - by rewrite Hp, sorted_perm.
  - intros a b Ha%sorted_elem%rows_where_elem Hb%sorted_elem%rows_where_elem. destruct Ha, Hb. bool_split. unfold le_key. lia.
  - apply sorted_sorted.
  - apply sorted_sorted.
Qed.

Lemma last_elem rows r : last rows = Some r → r ∈ rows.
Proof. intros [l ->]%last_Some. apply elem_of_app. right. by apply list_elem_of_singleton. Qed.

Lemma last_largest rows r : StronglySorted le_key rows → last rows = Some r → ∀ x, x ∈ rows → key x ≤ key r.
Proof.
  intros Hs [l ->]%last_Some x [Hx| ->%list_elem_of_singleton]%elem_of_app; [|lia].
  eapply (StronglySorted_app_1_elem_of le_key); [exact Hs|done|by apply list_elem_of_singleton].
Qed.

(** ** Pages *)

Context (limit : nat).

(** What is read at once, from the rows still to be read. *)
Definition one_page rows : list R := take limit (sorted rows).
Definition has_more rows : bool := bool_decide (limit < length rows)%nat.

Lemma length_rows_where_lt (p : R → bool) rows r : r ∈ rows → p r = false → (length (rows_where p rows) < length rows)%nat.
Proof.
  unfold rows_where. induction rows as [|x rows IH]; [by intros ?%elem_of_nil|]. rewrite filter_cons.
  intros [->|Hr]%elem_of_cons Ep.
  - rewrite decide_False by congruence. cbn. pose proof (length_filter (λ r, p r = true) rows). lia.
  - specialize (IH Hr Ep). destruct (decide (p x = true)); cbn; lia.
Qed.

Lemma rows_where_True (p : R → bool) rows : (∀ r, r ∈ rows → p r = true) → rows_where p rows = rows.
Proof.
  unfold rows_where. induction rows as [|r rows IH]; [done|]. intros Hp.
  rewrite filter_cons_True by (apply Hp; constructor). f_equal. apply IH. intros x Hx. apply Hp. by constructor.
Qed.

Lemma rows_where_False (p : R → bool) rows : (∀ r, r ∈ rows → p r = false) → rows_where p rows = [].
Proof.
  unfold rows_where. induction rows as [|r rows IH]; [done|]. intros Hp.
  rewrite filter_cons_False by (rewrite Hp by constructor; done). apply IH. intros x Hx. apply Hp. by constructor.
Qed.

(** A page is the rows up to its last one. *)
Lemma one_page_upto rows r :
  NoDup (key <$> rows) → last (one_page rows) = Some r → one_page rows = sorted (rows_where (λ x, key x <=? key r) rows).
Proof.
  intros Hnd El. pose proof (take_drop limit (sorted rows)) as Htd. fold (one_page rows) in Htd.
  pose proof (sorted_sorted rows) as Hs. rewrite <- Htd in Hs.
  assert (NoDup (key <$> one_page rows ++ drop limit (sorted rows))) as Hnd2 by by rewrite Htd, sorted_perm.
  pose proof (StronglySorted_app_1_l _ _ _ Hs) as HsP.
  assert (∀ x, x ∈ one_page rows → key x ≤ key r) as Hle.
  { by apply last_largest. }
  assert (r ∈ one_page rows) as Hr by by apply last_elem.
  assert (∀ x, x ∈ drop limit (sorted rows) → key r < key x) as Hlt.
  { intros x Hx. assert (key r ≤ key x) by exact (StronglySorted_app_1_elem_of le_key _ _ _ _ Hs Hr Hx).
    assert (key r ≠ key x); [|lia]. intros E. rewrite fmap_app in Hnd2. apply NoDup_app in Hnd2 as (_ & Hd & _).
    apply (Hd (key r)); [by apply list_elem_of_fmap_2|]. rewrite E. by apply list_elem_of_fmap_2. }
  apply (sorted_unique le_key); [done| | |exact HsP|apply sorted_sorted].
  - rewrite fmap_app in Hnd2. by apply NoDup_app in Hnd2 as [? _].
  - rewrite sorted_perm. transitivity (rows_where (λ x, key x <=? key r) (one_page rows ++ drop limit (sorted rows)));
      [|rewrite Htd; unfold rows_where; by rewrite sorted_perm].
    unfold rows_where. rewrite filter_app.
    fold (rows_where (λ x, key x <=? key r) (one_page rows)) (rows_where (λ x, key x <=? key r) (drop limit (sorted rows))).
    rewrite rows_where_True, rows_where_False, app_nil_r; [done| |].
    + intros x Hx%Hlt. lia.
    + intros x Hx%Hle. lia.
Qed.

Lemma last_page_elem rows r : last (one_page rows) = Some r → r ∈ rows.
Proof.
  intros Hr%last_elem. apply sorted_elem. rewrite <- (take_drop limit (sorted rows)). apply elem_of_app. by left.
Qed.

Lemma last_page rows : (0 < limit)%nat → has_more rows = true → last (one_page rows) ≠ None.
Proof.
  unfold has_more. rewrite bool_decide_eq_true. intros Hlimit Hmore El%last_None. unfold one_page in El.
  apply (f_equal length) in El. rewrite length_take in El. cbn in El. pose proof (Permutation_length (sorted_perm rows)). lia.
Qed.

(** After a page come the rows after its last one. *)
Lemma next_page rows r :
  NoDup (key <$> rows) → last (one_page rows) = Some r →
  sorted rows = one_page rows ++ sorted (rows_where (λ x, key r <? key x) rows).
Proof.
  intros Hnd El. pose proof (sorted_split (key r) (λ _, true) rows Hnd) as Hs.
  rewrite (rows_where_True (λ _, true)) in Hs by done. cbn [andb] in Hs. rewrite Hs. f_equal. symmetry. by apply one_page_upto.
Qed.

End Order.
