(* ===== verification/GoStr.v ===== *)
(** * The Go [strings] package, on byte strings

    A Go string is a byte sequence; here it is a [string] of [ascii] bytes. The
    functions below are those the modelled code calls, byte for byte on ASCII
    text. Where Go consults the Unicode tables (letter case and [%q] quoting of
    non-ASCII text) the answer comes from [GoUnicode]. White space needs no
    table: [trim_space] knows the encodings of every Unicode space. *)

From S2P Require Import Prelude.
From Stdlib Require Import Ascii.

Class GoUnicode := {
  uni_lower : string → string;
  uni_upper : string → string;
  uni_fold : string → string → bool;
  uni_quote : string → string;
}.

(** ** Bytes *)

Definition code (c : ascii) : Z := Z.of_N (N_of_ascii c).
Definition chr (n : N) : ascii := ascii_of_N n.

Definition in_range (lo hi : Z) (c : ascii) : bool := (lo <=? code c) && (code c <=? hi).
Definition is_digit : ascii → bool := in_range 48 57.
Definition is_upper : ascii → bool := in_range 65 90.
Definition is_lower : ascii → bool := in_range 97 122.
Definition is_ascii_byte (c : ascii) : bool := code c <? 128.
Definition is_space_byte (c : ascii) : bool := in_range 9 13 c || (code c =? 32).

Definition lower_byte (c : ascii) : ascii :=
  if is_upper c then chr (N_of_ascii c + 32) else c.
Definition upper_byte (c : ascii) : ascii :=
  if is_lower c then chr (N_of_ascii c - 32) else c.

(** The double-quote character, as a string. *)
Definition dquote : string := String (chr 34) EmptyString.
(** The byte 0 and other separators the code joins keys with. *)
Definition nul : string := String (chr 0) EmptyString.
Definition newline : string := String (chr 10) EmptyString.

(** ** Whole strings *)

Fixpoint string_forall (p : ascii → bool) (s : string) : bool :=
  match s with
  | EmptyString => true
  | String c s' => p c && string_forall p s'
  end.

Fixpoint string_map (f : ascii → ascii) (s : string) : string :=
  match s with
  | EmptyString => EmptyString
  | String c s' => String (f c) (string_map f s')
  end.

Definition string_rev (s : string) : string :=
  String.string_of_list_ascii (rev (String.list_ascii_of_string s)).

Definition str_len (s : string) : Z := Z.of_nat (String.length s).

Definition is_ascii (s : string) : bool := string_forall is_ascii_byte s.

Fixpoint contains_byte (p : ascii → bool) (s : string) : bool :=
  match s with
  | EmptyString => false
  | String c s' => p c || contains_byte p s'
  end.

(** [strings.ContainsAny(s, chars)] for ASCII [chars]. *)
Definition contains_any (chars s : string) : bool :=
  contains_byte (λ c, contains_byte (Ascii.eqb c) chars) s.

Definition has_prefix (s p : string) : bool := String.prefix p s.

Definition has_suffix (s p : string) : bool := has_prefix (string_rev s) (string_rev p).

Fixpoint string_drop (n : nat) (s : string) : string :=
  match n, s with
  | O, _ => s
  | S n', String _ s' => string_drop n' s'
  | S _, EmptyString => EmptyString
  end.

Fixpoint string_take (n : nat) (s : string) : string :=
  match n, s with
  | S n', String c s' => String c (string_take n' s')
  | _, _ => EmptyString
  end.

Definition trim_prefix (s p : string) : string :=
  if has_prefix s p then string_drop (String.length p) s else s.

Definition trim_suffix (s p : string) : string :=
  if has_suffix s p then string_take (String.length s - String.length p) s else s.

(** [strings.CutPrefix]. *)
Definition cut_prefix (s p : string) : string * bool :=
  if has_prefix s p then (string_drop (String.length p) s, true) else (s, false).

(** [strings.Contains(s, sub)]. *)
Fixpoint contains (s sub : string) : bool :=
  has_prefix s sub ||
  match s with
  | EmptyString => false
  | String _ s' => contains s' sub
  end.

(** [strings.Split(s, sep)] for a one-byte separator. *)
Fixpoint split_on (sep : ascii) (s : string) : list string :=
  match s with
  | EmptyString => [EmptyString]
  | String c s' =>
      if Ascii.eqb c sep then EmptyString :: split_on sep s'
      else match split_on sep s' with
           | [] => [String c EmptyString]
           | w :: ws => String c w :: ws
           end
  end.

(** [strings.Cut(s, sep)] for a one-byte separator. *)
Fixpoint cut_on (sep : ascii) (s : string) : string * string * bool :=
  match s with
  | EmptyString => (EmptyString, EmptyString, false)
  | String c s' =>
      if Ascii.eqb c sep then (EmptyString, s', true)
      else let '(a, b, ok) := cut_on sep s' in (String c a, b, ok)
  end.

(** [strings.Join(parts, sep)]. *)
Fixpoint join (sep : string) (parts : list string) : string :=
  match parts with
  | [] => EmptyString
  | [p] => p
  | p :: ps => p +:+ sep +:+ join sep ps
  end.

(** [strings.ReplaceAll(s, old, new)] for a non-empty [old]: [skip] counts the
    bytes of a replaced occurrence still to be passed over. *)
Fixpoint replace_from (old new : string) (skip : nat) (s : string) : string :=
  match s with
  | EmptyString => EmptyString
  | String c s' =>
      match skip with
      | S k => replace_from old new k s'
      | O => if has_prefix s old
             then new +:+ replace_from old new (String.length old - 1) s'
             else String c (replace_from old new 0 s')
      end
  end.
Definition replace_all (s old new : string) : string := replace_from old new 0 s.

(** ** Letter case *)

Section Case.
Context `{GoUnicode}.

Definition to_lower (s : string) : string :=
  if is_ascii s then string_map lower_byte s else uni_lower s.

Definition to_upper (s : string) : string :=
  if is_ascii s then string_map upper_byte s else uni_upper s.

Definition equal_fold (s t : string) : bool :=
  if is_ascii s && is_ascii t
  then String.eqb (string_map lower_byte s) (string_map lower_byte t)
  else uni_fold s t.

(** [%q]: [strconv.Quote]. *)
Definition hex_digit (n : N) : ascii :=
  if (n <? 10)%N then chr (48 + n) else chr (87 + n).
Definition quote_byte (c : ascii) : string :=
  let n := N_of_ascii c in
  let esc (x : N) := String (chr 92) (String (chr x) EmptyString) in
  if (n =? 34)%N then esc 34%N else if (n =? 92)%N then esc 92%N
  else if (n =? 7)%N then esc 97%N else if (n =? 8)%N then esc 98%N
  else if (n =? 12)%N then esc 102%N else if (n =? 10)%N then esc 110%N
  else if (n =? 13)%N then esc 114%N else if (n =? 9)%N then esc 116%N
  else if (n =? 11)%N then esc 118%N
  else if ((n <? 32) || (n =? 127))%N
  then esc 120%N +:+ String (hex_digit (n / 16)) (String (hex_digit (n `mod` 16)) EmptyString)
  else String c EmptyString.
Fixpoint quote_bytes (s : string) : string :=
  match s with
  | EmptyString => EmptyString
  | String c s' => quote_byte c +:+ quote_bytes s'
  end.
Definition quote (s : string) : string :=
  if is_ascii s then dquote +:+ quote_bytes s +:+ dquote else uni_quote s.

End Case.

(** ** White space *)

(** U+0085 and U+00A0. *)
Definition is_space2 (a b : ascii) : bool :=
  (code a =? 194) && ((code b =? 133) || (code b =? 160)).
(** U+1680, U+2000-U+200A, U+2028, U+2029, U+202F, U+205F and U+3000. *)
Definition is_space3 (a b c : ascii) : bool :=
  ((code a =? 225) && (code b =? 154) && (code c =? 128)) ||
  ((code a =? 226) && (code b =? 128) &&
     (in_range 128 138 c || (code c =? 168) || (code c =? 169) || (code c =? 175))) ||
  ((code a =? 226) && (code b =? 129) && (code c =? 159)) ||
  ((code a =? 227) && (code b =? 128) && (code c =? 128)).

Fixpoint trim_left_with (sp2 : ascii → ascii → bool) (sp3 : ascii → ascii → ascii → bool)
    (s : string) : string :=
  match s with
  | EmptyString => EmptyString
  | String a s1 =>
      if is_space_byte a then trim_left_with sp2 sp3 s1
      else match s1 with
           | String b s2 =>
               if sp2 a b then trim_left_with sp2 sp3 s2
               else match s2 with
                    | String c s3 => if sp3 a b c then trim_left_with sp2 sp3 s3 else s
                    | EmptyString => s
                    end
           | EmptyString => s
           end
  end.

Definition trim_left : string → string := trim_left_with is_space2 is_space3.
(** The same on the reversed string, where an encoding reads backwards. *)
Definition trim_right (s : string) : string :=
  string_rev (trim_left_with (λ a b, is_space2 b a) (λ a b c, is_space3 c b a) (string_rev s)).
(** [strings.TrimSpace]. *)
Definition trim_space (s : string) : string := trim_right (trim_left s).

(** [strings.Fields]: the bytes of the white space a string starts with, and the
    words between white space. *)
Definition space_width (s : string) : nat :=
  match s with
  | String a (String b (String c _)) =>
    if is_space_byte a then 1 else if is_space2 a b then 2 else if is_space3 a b c then 3 else 0
  | String a (String b EmptyString) => if is_space_byte a then 1 else if is_space2 a b then 2 else 0
  | String a EmptyString => if is_space_byte a then 1 else 0
  | EmptyString => 0
  end%nat.

Definition word_end (word : string) (rest : list string) : list string :=
  if String.eqb word "" then rest else word :: rest.

Fixpoint fields_from (skip : nat) (word : string) (s : string) : list string :=
  match s with
  | EmptyString => word_end word []
  | String a rest =>
    match skip with
    | S k => fields_from k word rest
    | O => match space_width s with
           | O => fields_from 0 (word +:+ String a "") rest
           | S k => word_end word (fields_from k "" rest)
           end
    end
  end.

Definition fields (s : string) : list string := fields_from 0 "" s.

(** ** Numbers *)

(** [fmt]'s [%d]. *)
Definition itoa (z : Z) : string := pretty z.

Fixpoint digits_value (acc : Z) (s : string) : option Z :=
  match s with
  | EmptyString => Some acc
  | String c s' => if is_digit c then digits_value (acc * 10 + (code c - 48)) s' else None
  end.

(** [strconv.ParseUint(s, 10, bits)]: a non-empty digit string (a sign or an
    underscore is refused in base 10) whose value fits. *)
Definition parse_uint (bits : Z) (s : string) : option Z :=
  if String.eqb s EmptyString then None
  else match digits_value 0 s with
       | Some v => if v <? 2 ^ bits then Some v else None
       | None => None
       end.

(** [strconv.Atoi]: an optional sign, then digits, in the 64-bit range. *)
Definition atoi (s : string) : option Z :=
  let '(neg, body) :=
    match s with
    | String c s' =>
        if code c =? 45 then (true, s') else if code c =? 43 then (false, s') else (false, s)
    | EmptyString => (false, s)
    end in
  if String.eqb body EmptyString then None
  else match digits_value 0 body with
       | Some v =>
           let v := if neg : bool then - v else v in
           if (int64_min <=? v) && (v <=? int64_max) then Some v else None
       | None => None
       end.

(** * Lemmas *)

(** ** Append, length and reversal *)

Lemma string_app_nil_l s : "" +:+ s = s.
Proof. done. Qed.

Lemma string_app_nil_r s : s +:+ "" = s.
Proof. induction s as [|c s IH]; [done|]. change (String c (s +:+ "") = String c s). by rewrite IH. Qed.

Lemma string_app_cons c s t : String c s +:+ t = String c (s +:+ t).
Proof. done. Qed.

Lemma string_app_assoc s t u : (s +:+ t) +:+ u = s +:+ t +:+ u.
Proof. induction s as [|c s IH]; [done|]. by rewrite !string_app_cons, IH. Qed.

Lemma string_length_app s t : String.length (s +:+ t) = (String.length s + String.length t)%nat.
Proof. induction s as [|c s IH]; [done|]. rewrite string_app_cons. simpl. by rewrite IH. Qed.

Lemma list_ascii_app s t :
  String.list_ascii_of_string (s +:+ t) =
  String.list_ascii_of_string s ++ String.list_ascii_of_string t.
Proof. induction s as [|c s IH]; [done|]. rewrite string_app_cons. simpl. by rewrite IH. Qed.

Lemma string_of_list_app l k :
  String.string_of_list_ascii (l ++ k) =
  String.string_of_list_ascii l +:+ String.string_of_list_ascii k.
Proof. induction l as [|c l IH]; [done|]. simpl. by rewrite IH. Qed.

Lemma string_rev_app s t : string_rev (s +:+ t) = string_rev t +:+ string_rev s.
Proof. unfold string_rev. by rewrite list_ascii_app, rev_app_distr, string_of_list_app. Qed.

Lemma string_rev_involutive s : string_rev (string_rev s) = s.
Proof.
  unfold string_rev.
  by rewrite String.list_ascii_of_string_of_list_ascii, rev_involutive,
    String.string_of_list_ascii_of_string.
Qed.

Lemma string_app_inv_head p s t : p +:+ s = p +:+ t → s = t.
Proof. induction p as [|c p IH]; [done|]. rewrite !string_app_cons. intros [=]. auto. Qed.

#[export] Hint Rewrite string_app_nil_r string_app_assoc string_length_app
  string_rev_app string_rev_involutive : nak.

(** ** Prefixes and suffixes *)

#[global] Arguments has_prefix : simpl never.
#[global] Arguments has_suffix : simpl never.
#[global] Arguments trim_suffix : simpl never.
#[global] Arguments trim_space : simpl never.

Lemma has_prefix_spec s p : has_prefix s p = true ↔ ∃ t, s = p +:+ t.
Proof.
  unfold has_prefix. revert s. induction p as [|c p IH]; intros s.
  - destruct s; simpl; split; eauto.
  - destruct s as [|d s]; simpl.
    + split; [done | by intros [t ?]].
    + destruct (ascii_dec c d) as [->|Hne].
      * rewrite IH. split; intros [t Ht].
        -- exists t. by rewrite Ht.
        -- exists t. rewrite string_app_cons in Ht. by injection Ht.
      * split; [done|]. intros [t Ht]. rewrite string_app_cons in Ht. congruence.
Qed.

Lemma has_prefix_app p t : has_prefix (p +:+ t) p = true.
Proof. apply has_prefix_spec. eauto. Qed.

Lemma has_suffix_spec s p : has_suffix s p = true ↔ ∃ t, s = t +:+ p.
Proof.
  unfold has_suffix. rewrite has_prefix_spec. split; intros [t Ht].
  - exists (string_rev t).
    rewrite <- (string_rev_involutive s), Ht, string_rev_app, string_rev_involutive. done.
  - exists (string_rev t). by rewrite Ht, string_rev_app.
Qed.

Lemma has_suffix_app t p : has_suffix (t +:+ p) p = true.
Proof. apply has_suffix_spec. eauto. Qed.

Lemma string_take_app s t : string_take (String.length s) (s +:+ t) = s.
Proof. induction s as [|c s IH]; [by destruct t|]. rewrite string_app_cons. simpl. by rewrite IH. Qed.

Lemma string_drop_app s t : string_drop (String.length s) (s +:+ t) = t.
Proof. induction s as [|c s IH]; [done|]. by rewrite string_app_cons. Qed.

Lemma trim_suffix_app s p : trim_suffix (s +:+ p) p = s.
Proof.
  unfold trim_suffix. rewrite has_suffix_app, string_length_app.
  replace (_ + _ - _)%nat with (String.length s) by lia. apply string_take_app.
Qed.

Lemma trim_suffix_none s p : has_suffix s p = false → trim_suffix s p = s.
Proof. unfold trim_suffix. by intros ->. Qed.

Lemma trim_prefix_app p s : trim_prefix (p +:+ s) p = s.
Proof. unfold trim_prefix. by rewrite has_prefix_app, string_drop_app. Qed.

#[export] Hint Rewrite has_prefix_app has_suffix_app trim_suffix_app trim_prefix_app : nak.

(** ** Byte predicates over strings *)

Lemma string_forall_app p s t :
  string_forall p (s +:+ t) = string_forall p s && string_forall p t.
Proof.
  induction s as [|c s IH]; [done|]. rewrite string_app_cons. simpl. by rewrite IH, andb_assoc.
Qed.

Lemma string_forall_impl p q s :
  (∀ c, p c = true → q c = true) → string_forall p s = true → string_forall q s = true.
Proof. intros Hpq. induction s as [|c s IH]; simpl; [done|]. intros. bool_split. by rewrite Hpq, IH. Qed.

Lemma contains_byte_forall p s : contains_byte p s = negb (string_forall (λ c, negb (p c)) s).
Proof. induction s as [|c s IH]; simpl; [done|]. rewrite IH. by destruct (p c). Qed.

Lemma contains_byte_false p s :
  contains_byte p s = false ↔ string_forall (λ c, negb (p c)) s = true.
Proof. rewrite contains_byte_forall. by destruct (string_forall _ s). Qed.

Lemma string_forall_rev p s : string_forall p (string_rev s) = string_forall p s.
Proof.
  induction s as [|c s IH]; [done|].
  change (String c s) with (String c "" +:+ s).
  rewrite string_rev_app, !string_forall_app, IH, andb_comm. done.
Qed.

Lemma string_map_id f s : (∀ c, c ∈ String.list_ascii_of_string s → f c = c) → string_map f s = s.
Proof. induction s as [|c s IH]; simpl; [done|]. intros Hf. rewrite Hf, IH; set_solver. Qed.

Lemma string_forall_elem p s c :
  string_forall p s = true → c ∈ String.list_ascii_of_string s → p c = true.
Proof. induction s as [|d s IH]; simpl; [set_solver|]. intros. bool_split. set_solver. Qed.

(** ** Letter case *)

Lemma code_bounds c : 0 ≤ code c < 256.
Proof. unfold code. pose proof (N_ascii_bounded c). lia. Qed.

Lemma code_chr n : (n < 256)%N → code (chr n) = Z.of_N n.
Proof. intros. unfold code, chr. by rewrite N_ascii_embedding. Qed.

Lemma code_inj c d : code c = code d → c = d.
Proof.
  unfold code. intros H%N2Z.inj. rewrite <- (ascii_N_embedding c), <- (ascii_N_embedding d). by rewrite H.
Qed.

Lemma in_range_spec lo hi c : in_range lo hi c = true ↔ lo ≤ code c ≤ hi.
Proof. unfold in_range. rewrite andb_true_iff, !Z.leb_le. done. Qed.

Lemma code_lower_byte c : code (lower_byte c) = if is_upper c then code c + 32 else code c.
Proof.
  unfold lower_byte. destruct (is_upper c) eqn:E; [|done].
  apply in_range_spec in E. rewrite code_chr; unfold code in *; lia.
Qed.

Lemma lower_byte_not_upper c : is_upper (lower_byte c) = false.
Proof.
  destruct (is_upper (lower_byte c)) eqn:E; [|done].
  apply in_range_spec in E. rewrite code_lower_byte in E.
  destruct (is_upper c) eqn:E'; [apply in_range_spec in E'; lia|].
  apply in_range_spec in E. unfold is_upper in E'. congruence.
Qed.

Lemma lower_byte_id c : is_upper c = false → lower_byte c = c.
Proof. unfold lower_byte. by intros ->. Qed.

Lemma lower_byte_idem c : lower_byte (lower_byte c) = lower_byte c.
Proof. apply lower_byte_id, lower_byte_not_upper. Qed.

Lemma string_lower_idem s : string_map lower_byte (string_map lower_byte s) = string_map lower_byte s.
Proof. induction s as [|c s IH]; simpl; [done|]. by rewrite lower_byte_idem, IH. Qed.

Lemma is_ascii_lower s : is_ascii s = true → is_ascii (string_map lower_byte s) = true.
Proof.
  unfold is_ascii, is_ascii_byte. induction s as [|c s IH]; simpl; [done|].
  intros. bool_split. rewrite IH by done. rewrite andb_true_r.
  apply Z.ltb_lt. rewrite code_lower_byte.
  destruct (is_upper c) eqn:E; [apply in_range_spec in E|]; lia.
Qed.

Section CaseLemmas.
Context `{GoUnicode}.

Lemma to_lower_ascii s : is_ascii s = true → to_lower s = string_map lower_byte s.
Proof. unfold to_lower. by intros ->. Qed.

Lemma to_lower_idem s : is_ascii s = true → to_lower (to_lower s) = to_lower s.
Proof.
  intros Hs. rewrite !(to_lower_ascii s) by done.
  rewrite to_lower_ascii by (by apply is_ascii_lower). apply string_lower_idem.
Qed.

Lemma to_lower_id s :
  string_forall (λ c, is_ascii_byte c && negb (is_upper c)) s = true → to_lower s = s.
Proof.
  intros Hs. rewrite to_lower_ascii.
  - apply string_map_id. intros c Hc. apply (string_forall_elem _ _ c) in Hs; [|done].
    bool_split. by apply lower_byte_id.
  - revert Hs. apply string_forall_impl. intros c Hc. by bool_split.
Qed.

Lemma equal_fold_refl s : is_ascii s = true → equal_fold s s = true.
Proof. intros Hs. unfold equal_fold. rewrite Hs. simpl. apply String.eqb_refl. Qed.

Lemma equal_fold_ascii s t : is_ascii s = true → is_ascii t = true →
  equal_fold s t = true ↔ to_lower s = to_lower t.
Proof.
  intros Hs Ht. rewrite !to_lower_ascii by done.
  unfold equal_fold. rewrite Hs, Ht. simpl. apply String.eqb_eq.
Qed.

End CaseLemmas.

Lemma string_snoc s : s = "" ∨ ∃ t c, s = t +:+ String c "".
Proof.
  induction s as [|a s IH]; [by left|right]. destruct IH as [->|(t & c & ->)].
  - by exists "", a.
  - by exists (String a t), c.
Qed.

(** ** White space *)

(** A byte that is neither a space nor the first byte of an encoded space. *)
Definition is_solid (c : ascii) : bool := is_ascii_byte c && negb (is_space_byte c).

Lemma is_solid_not_space2 a b : is_solid a = true → is_space2 a b = false.
Proof. unfold is_solid, is_ascii_byte, is_space2. intros. bool_split. destruct (Z.eqb_spec (code a) 194); first [lia | done]. Qed.

Lemma is_solid_not_space3 a b c : is_solid a = true → is_space3 a b c = false.
Proof.
  unfold is_solid, is_ascii_byte, is_space3. intros. bool_split.
  destruct (Z.eqb_spec (code a) 225), (Z.eqb_spec (code a) 226), (Z.eqb_spec (code a) 227);
    first [lia | done].
Qed.

Lemma is_solid_not_tail2 a b : is_solid b = true → is_space2 a b = false.
Proof.
  unfold is_solid, is_ascii_byte, is_space2. intros. bool_split.
  destruct (Z.eqb_spec (code b) 133), (Z.eqb_spec (code b) 160);
    rewrite ?andb_false_r; first [lia | done].
Qed.

Lemma is_solid_not_tail3 a b c : is_solid c = true → is_space3 a b c = false.
Proof.
  unfold is_solid, is_ascii_byte, is_space3, in_range. intros. bool_split.
  destruct (Z.eqb_spec (code c) 128), (Z.eqb_spec (code c) 168), (Z.eqb_spec (code c) 169),
    (Z.eqb_spec (code c) 175), (Z.eqb_spec (code c) 159), (Z.leb_spec 128 (code c));
    try lia; simpl; by rewrite ?andb_false_r.
Qed.

Lemma is_solid_not_mid3 a b c : is_solid b = true → is_space3 a b c = false.
Proof.
  unfold is_solid, is_ascii_byte, is_space3. intros. bool_split.
  destruct (Z.eqb_spec (code b) 154), (Z.eqb_spec (code b) 128), (Z.eqb_spec (code b) 129);
    try lia; by rewrite ?andb_false_r.
Qed.

Lemma trim_left_with_solid sp2 sp3 c s :
  (∀ b, sp2 c b = false) → (∀ a b, sp3 c a b = false) → is_space_byte c = false →
  trim_left_with sp2 sp3 (String c s) = String c s.
Proof.
  intros H2 H3 Hc. destruct s as [|a [|b s]]; simpl; rewrite Hc, ?H2, ?H3; done.
Qed.

Lemma trim_space_solid s : string_forall is_solid s = true → trim_space s = s.
Proof.
  intros Hs. assert (trim_left s = s) as Hl.
  { destruct s as [|c s]; [done|]. simpl in Hs. bool_split.
    apply trim_left_with_solid.
    - intros. by apply is_solid_not_space2.
    - intros. by apply is_solid_not_space3.
    - unfold is_solid in *. by bool_split. }
  unfold trim_space. rewrite Hl. unfold trim_right.
  rewrite <- (string_rev_involutive s) at 2. f_equal.
  rewrite <- string_forall_rev in Hs.
  destruct (string_rev s) as [|c t]; [done|]. simpl in Hs. bool_split.
  apply trim_left_with_solid.
  - intros. by apply is_solid_not_tail2.
  - intros. by apply is_solid_not_tail3.
  - unfold is_solid in *. by bool_split.
Qed.

(** Trimming strips a prefix, and what is left starts with no space. *)
Lemma trim_left_with_ind sp2 sp3 (P : string → string → Prop) :
  (∀ s, trim_left_with sp2 sp3 s = s → P s s) →
  (∀ x s r, x ≠ "" → P s r → P (x +:+ s) r) →
  ∀ s, P s (trim_left_with sp2 sp3 s).
Proof.
  intros Hbase Hstep s. remember (String.length s) as n eqn:Hn. revert s Hn.
  induction n as [n IH] using (well_founded_induction Nat.lt_wf_0). intros s ->.
  assert (∀ x t, x ≠ "" → s = x +:+ t → P (x +:+ t) (trim_left_with sp2 sp3 t)) as Hrec.
  { intros x t Hx ->. apply Hstep; [done|]. eapply IH; [|reflexivity].
    rewrite string_length_app. destruct x; [done|]. simpl. lia. }
  destruct s as [|a s1]; [by apply Hbase|].
  pose proof (Hbase (String a s1)) as Hb. simpl in *.
  destruct (is_space_byte a); [by apply (Hrec (String a "") s1)|].
  destruct s1 as [|b s2]; [by apply Hb|].
  destruct (sp2 a b); [by apply (Hrec (String a (String b "")) s2)|].
  destruct s2 as [|c s3]; [by apply Hb|].
  destruct (sp3 a b c); [by apply (Hrec (String a (String b (String c ""))) s3)|].
  by apply Hb.
Qed.

Lemma trim_left_with_idem sp2 sp3 s :
  trim_left_with sp2 sp3 (trim_left_with sp2 sp3 s) = trim_left_with sp2 sp3 s.
Proof. apply (trim_left_with_ind sp2 sp3 (λ _ r, trim_left_with sp2 sp3 r = r)); auto. Qed.

Lemma trim_left_with_suffix sp2 sp3 s : ∃ x, s = x +:+ trim_left_with sp2 sp3 s.
Proof.
  apply (trim_left_with_ind sp2 sp3 (λ s r, ∃ x, s = x +:+ r)).
  - intros t _. by exists "".
  - intros x t r _ [y ->]. exists (x +:+ y). by rewrite string_app_assoc.
Qed.

(** A prefix of a string without leading space has none. *)
Lemma trim_left_with_prefix sp2 sp3 x y :
  trim_left_with sp2 sp3 (x +:+ y) = x +:+ y → trim_left_with sp2 sp3 x = x.
Proof.
  intros Hfix.
  assert (∀ p s, p ≠ "" → p +:+ s ≠ trim_left_with sp2 sp3 s) as Hshort.
  { intros p s Hp E. destruct (trim_left_with_suffix sp2 sp3 s) as [z Hz].
    apply (f_equal String.length) in E, Hz. rewrite string_length_app in E, Hz.
    destruct p; [done|]. simpl in E. lia. }
  destruct x as [|a x]; [done|]. rewrite string_app_cons in Hfix. simpl in *.
  destruct (is_space_byte a); [by destruct (Hshort (String a "") (x +:+ y))|].
  destruct x as [|b x]; [done|]. rewrite string_app_cons in Hfix.
  destruct (sp2 a b); [by destruct (Hshort (String a (String b "")) (x +:+ y))|].
  destruct x as [|c x]; [done|]. rewrite string_app_cons in Hfix.
  destruct (sp3 a b c); [by destruct (Hshort (String a (String b (String c ""))) (x +:+ y))|done].
Qed.

Lemma trim_right_prefix s : ∃ x, s = trim_right s +:+ x.
Proof.
  unfold trim_right.
  destruct (trim_left_with_suffix (λ a b, is_space2 b a) (λ a b c, is_space3 c b a) (string_rev s)) as [x Hx].
  exists (string_rev x). rewrite <- string_rev_app, <- Hx. by rewrite string_rev_involutive.
Qed.

Lemma trim_space_idem s : trim_space (trim_space s) = trim_space s.
Proof.
  unfold trim_space. set (u := trim_left s).
  assert (trim_left (trim_right u) = trim_right u) as ->.
  { destruct (trim_right_prefix u) as [x Hx]. apply (trim_left_with_prefix _ _ _ x).
    rewrite <- Hx. apply trim_left_with_idem. }
  unfold trim_right. rewrite string_rev_involutive. f_equal. apply trim_left_with_idem.
Qed.

(** Trimming leaves a solid end in place. *)
Lemma trim_right_solid s c : is_solid c = true → trim_right (s +:+ String c "") = s +:+ String c "".
Proof.
  intros Hc. unfold trim_right. rewrite <- (string_rev_involutive (s +:+ String c "")) at 2. f_equal.
  rewrite string_rev_app. apply trim_left_with_solid.
  - intros. by apply is_solid_not_tail2.
  - intros. by apply is_solid_not_tail3.
  - unfold is_solid in *. by bool_split.
Qed.

Lemma is_ascii_solid s : string_forall is_solid s = true → is_ascii s = true.
Proof. apply string_forall_impl. intros c Hc. unfold is_solid in Hc. by bool_split. Qed.

(** What trimming strips holds no solid byte. *)
Lemma trim_left_strips s :
  ∃ x, s = x +:+ trim_left s ∧ string_forall (λ c, negb (is_solid c)) x = true.
Proof.
  assert (∀ c, is_space_byte c = true → is_solid c = false) as Hsp.
  { intros c Hc. unfold is_solid. by rewrite Hc, andb_false_r. }
  unfold trim_left. remember (String.length s) as n eqn:Hn. revert s Hn.
  induction n as [n IH] using (well_founded_induction Nat.lt_wf_0). intros s ->.
  assert (∀ y t, y ≠ "" → s = y +:+ t → string_forall (λ c, negb (is_solid c)) y = true →
    ∃ x, s = x +:+ trim_left_with is_space2 is_space3 t ∧ string_forall (λ c, negb (is_solid c)) x = true) as Hrec.
  { intros y t Hy -> Hf. edestruct (IH (String.length t)) as (x & Hx & Hxf); [|reflexivity|].
    - rewrite string_length_app. destruct y; [done|]. simpl. lia.
    - exists (y +:+ x). rewrite string_app_assoc, <- Hx, string_forall_app. by rewrite Hf. }
  assert (s = "" +:+ s ∧ string_forall (λ c, negb (is_solid c)) "" = true) as Hbase by done.
  destruct s as [|a s1]; [by exists ""|]. simpl in *.
  destruct (is_space_byte a) eqn:Ea.
  { apply (Hrec (String a "") s1); [done|done|]. simpl. by rewrite Hsp. }
  destruct s1 as [|b s2]; [by exists ""|].
  destruct (is_space2 a b) eqn:E2.
  { apply (Hrec (String a (String b "")) s2); [done|done|]. simpl.
    destruct (is_solid a) eqn:E; [by rewrite is_solid_not_space2 in E2|].
    destruct (is_solid b) eqn:E'; [by rewrite is_solid_not_tail2 in E2|done]. }
  destruct s2 as [|c s3]; [by exists ""|].
  destruct (is_space3 a b c) eqn:E3; [|by exists ""].
  apply (Hrec (String a (String b (String c ""))) s3); [done|done|]. simpl.
  destruct (is_solid a) eqn:E; [by rewrite is_solid_not_space3 in E3|].
  destruct (is_solid c) eqn:E'; [by rewrite is_solid_not_tail3 in E3|].
  destruct (is_solid b) eqn:E''; [|done]. by rewrite is_solid_not_mid3 in E3.
Qed.

(** Trimming keeps an end that starts and ends with solid bytes. *)
Lemma trim_space_keeps_end s c t d : is_solid c = true → is_solid d = true →
  ∃ r, trim_space (s +:+ String c (t +:+ String d "")) = r +:+ String c (t +:+ String d "").
Proof.
  intros Hc Hd. destruct (trim_left_strips (s +:+ String c (t +:+ String d ""))) as (x & Hx & Hxf).
  assert (∃ r, trim_left (s +:+ String c (t +:+ String d "")) = r +:+ String c (t +:+ String d "")) as [r Hr].
  { revert Hx. generalize (trim_left (s +:+ String c (t +:+ String d ""))). intros u.
    revert s. induction x as [|a x IH]; intros s Hx; [by exists s|].
    simpl in Hxf. bool_split. destruct s as [|b s].
    - rewrite string_app_cons in Hx. injection Hx as -> _. congruence.
    - rewrite !string_app_cons in Hx. injection Hx as _ Hx. by eapply IH. }
  exists r. unfold trim_space. rewrite Hr.
  rewrite <- string_app_cons, <- string_app_assoc. by apply trim_right_solid.
Qed.

(** ** Splitting *)

Lemma split_on_nonempty sep s : split_on sep s ≠ [].
Proof.
  destruct s as [|c s]; simpl; [done|]. destruct (Ascii.eqb c sep); [done|].
  by destruct (split_on sep s).
Qed.

Lemma split_on_join sep s : join (String sep "") (split_on sep s) = s.
Proof.
  induction s as [|c s IH]; [done|]. simpl. destruct (Ascii.eqb_spec c sep) as [->|Hne].
  - pose proof (split_on_nonempty sep s). destruct (split_on sep s) as [|w ws]; [done|].
    change (String sep (join (String sep "") (w :: ws)) = String sep s). by rewrite IH.
  - pose proof (split_on_nonempty sep s). destruct (split_on sep s) as [|w ws]; [done|].
    rewrite <- IH. by destruct ws.
Qed.

Lemma split_on_parts sep s :
  Forall (λ w, string_forall (λ c, negb (Ascii.eqb c sep)) w = true) (split_on sep s).
Proof.
  induction s as [|c s IH]; simpl; [by repeat constructor|].
  destruct (Ascii.eqb c sep) eqn:E; [by constructor|].
  destruct (split_on sep s) as [|w ws]; [by repeat constructor; simpl; rewrite E|].
  inversion IH; subst. constructor; [|done]. simpl. by rewrite E.
Qed.

Lemma split_on_forall p sep s :
  p sep = true →
  string_forall p s = true ↔ Forall (λ w, string_forall p w = true) (split_on sep s).
Proof.
  intros Hsep. induction s as [|c s IH]; simpl.
  - split; [by repeat constructor | done].
  - destruct (Ascii.eqb_spec c sep) as [->|Hne].
    + rewrite Hsep. simpl. rewrite IH, Forall_cons. naive_solver.
    + pose proof (split_on_nonempty sep s). destruct (split_on sep s) as [|w ws]; [done|].
      rewrite Forall_cons in IH. rewrite Forall_cons. simpl.
      rewrite !andb_true_iff, IH. naive_solver.
Qed.

Lemma split_on_app sep s t :
  string_forall (λ c, negb (Ascii.eqb c sep)) s = true →
  split_on sep (s +:+ String sep t) = s :: split_on sep t.
Proof.
  induction s as [|c s IH]; intros Hs.
  - simpl. by rewrite Ascii.eqb_refl.
  - apply andb_true_iff in Hs as [Hc%negb_true_iff Hs].
    change (split_on sep (String c (s +:+ String sep t)) = String c s :: split_on sep t).
    simpl. by rewrite Hc, IH.
Qed.

Lemma split_on_last sep t : "" ∈ split_on sep (t +:+ String sep "").
Proof.
  assert (∀ u, ∃ ws, split_on sep (u +:+ String sep "") = ws ++ [""]) as Hsnoc.
  { induction u as [|c u [ws IH]].
    - exists [""]. simpl. by rewrite Ascii.eqb_refl.
    - rewrite string_app_cons. simpl. rewrite IH. destruct (Ascii.eqb c sep).
      + by exists ("" :: ws).
      + destruct ws as [|w ws]; simpl; [|by exists (String c w :: ws)].
        exfalso. apply (f_equal (join (String sep ""))) in IH. rewrite split_on_join in IH.
        by destruct u. }
  destruct (Hsnoc t) as [ws ->]. apply elem_of_app. right. constructor.
Qed.

Lemma split_on_free sep s : string_forall (λ c, negb (Ascii.eqb c sep)) s = true → split_on sep s = [s].
Proof.
  induction s as [|c s IH]; [done|]. cbn [string_forall split_on].
  intros [Hc%negb_true_iff Hs]%andb_true_iff. by rewrite Hc, IH.
Qed.

Lemma split_on_sep sep s t : split_on sep (s +:+ String sep t) = split_on sep s ++ split_on sep t.
Proof.
  induction s as [|c s IH]; [rewrite string_app_nil_l; cbn [split_on]; by rewrite Ascii.eqb_refl|].
  rewrite string_app_cons. cbn [split_on]. rewrite IH. destruct (Ascii.eqb c sep); [done|].
  pose proof (split_on_nonempty sep s) as Hne. by destruct (split_on sep s).
Qed.

(** ** Numbers *)

Lemma digits_value_nonneg s acc v : 0 ≤ acc → digits_value acc s = Some v → 0 ≤ v.
Proof.
  revert acc. induction s as [|c s IH]; simpl; intros acc Hacc; [by intros [= <-]|].
  destruct (is_digit c) eqn:E; [|done]. apply in_range_spec in E. apply IH. lia.
Qed.

Lemma parse_uint_bounds bits s v : parse_uint bits s = Some v → 0 ≤ v < 2 ^ bits.
Proof.
  unfold parse_uint. destruct (String.eqb s ""); [done|].
  destruct (digits_value 0 s) as [w|] eqn:E; [|done].
  destruct (Z.ltb_spec w (2 ^ bits)); [|done]. intros [= <-].
  apply digits_value_nonneg in E; lia.
Qed.

Lemma atoi_in_range s v : atoi s = Some v → in_int64 v.
Proof.
  unfold atoi, in_int64. intros H.
  repeat case_match; simplify_eq; bool_split; lia.
Qed.

(** What [%d] writes of a number that is not negative: its digits. *)
Lemma is_digit_char d : (d < 10)%N → is_digit (pretty_N_char d) = true ∧ code (pretty_N_char d) - 48 = Z.of_N d.
Proof.
  intros Hd. assert (d ∈ [0;1;2;3;4;5;6;7;8;9]%N) as Hin;
    [|by repeat (apply elem_of_cons in Hin as [->|Hin]; [done|]); apply elem_of_nil in Hin].
  destruct d as [|[[[|[]|]|[|[]|]|]|[[|[]|]|[|[]|]|]|]]; first [lia|set_solver].
Qed.

Lemma pretty_go x : ∀ s, ∃ ds, pretty_N_go x s = ds +:+ s ∧ string_forall is_digit ds = true ∧
  (∀ acc t, digits_value acc (ds +:+ t) = digits_value (acc * 10 ^ str_len ds + Z.of_N x) t) ∧
  (∀ k, Z.of_N x < 10 ^ Z.of_nat k → str_len ds ≤ Z.of_nat k) ∧ (x ≠ 0%N → ds ≠ "").
Proof.
  induction x as [x IH] using (well_founded_induction N.lt_wf_0). intros s. destruct (decide (x = 0%N)) as [->|Hx].
  { exists "". rewrite pretty_N_go_0. split_and!; [done|done| |intros; unfold str_len; cbn; lia|done].
    intros acc t. unfold str_len. cbn. f_equal. lia. }
  rewrite pretty_N_go_step by lia. set (c := pretty_N_char (x `mod` 10)).
  destruct (IH (x `div` 10)%N ltac:(apply N.div_lt; lia) (String c s)) as (ds & E & Hd & Hv & Hk & _).
  destruct (is_digit_char (x `mod` 10)) as [Hc Hcode]; [apply N.mod_lt; lia|]. fold c in Hc, Hcode.
  exists (ds +:+ String c ""). rewrite string_app_assoc. split_and!.
  - done.
  - rewrite string_forall_app, Hd. cbn. by rewrite Hc.
  - intros acc t. rewrite string_app_assoc, Hv. change (String c "" +:+ t) with (String c t). cbn [digits_value]. rewrite Hc, Hcode.
    f_equal. unfold str_len. rewrite string_length_app, Nat2Z.inj_add, Z.pow_add_r by lia. cbn [String.length].
    change (10 ^ Z.of_nat 1) with 10. rewrite N2Z.inj_div, N2Z.inj_mod.
    pose proof (Z.div_mod (Z.of_N x) 10 ltac:(lia)). change (Z.of_N 10) with 10. lia.
  - intros k Hlt. unfold str_len in *. rewrite string_length_app, Nat2Z.inj_add. cbn [String.length]. destruct k as [|k].
    + cbn in Hlt. lia.
    + assert (Z.of_nat (String.length ds) ≤ Z.of_nat k); [|lia]. apply Hk. rewrite N2Z.inj_div. change (Z.of_N 10) with 10.
      apply Z.div_lt_upper_bound; [lia|]. rewrite Nat2Z.inj_succ, Z.pow_succ_r in Hlt by lia. lia.
  - intros _. by destruct ds.
Qed.

Lemma itoa_digits z : 0 ≤ z → ∃ ds, itoa z = ds ∧ ds ≠ "" ∧ string_forall is_digit ds = true ∧ digits_value 0 ds = Some z ∧
  ∀ k, (0 < k)%nat → z < 10 ^ Z.of_nat k → str_len ds ≤ Z.of_nat k.
Proof.
  intros Hz. exists (itoa z). split; [done|]. destruct z as [|p|p]; [|clear Hz|lia].
  { split_and!; [done..|]. intros k Hk _. unfold str_len. cbn. lia. }
  unfold itoa. change (pretty (Z.pos p)) with (pretty (N.pos p)). unfold pretty, pretty_N. rewrite decide_False by done.
  destruct (pretty_go (N.pos p) "") as (ds & E & Hd & Hv & Hk & Hne). rewrite E, string_app_nil_r. split_and!; [by apply Hne|done| |].
  - specialize (Hv 0 ""). rewrite string_app_nil_r in Hv. rewrite Hv. cbn. done.
  - intros k _ Hlt. by apply Hk.
Qed.

Lemma parse_uint_itoa bits z : 0 ≤ z < 2 ^ bits → parse_uint bits (itoa z) = Some z.
Proof.
  intros [Hz Hlt]. destruct (itoa_digits z Hz) as (ds & -> & Hne & _ & Hv & _). unfold parse_uint.
  destruct (String.eqb_spec ds ""); [done|]. rewrite Hv. by rewrite (proj2 (Z.ltb_lt _ _)) by done.
Qed.

Lemma atoi_itoa z : 0 ≤ z ≤ int64_max → atoi (itoa z) = Some z.
Proof.
  intros [Hz Hmax]. destruct (itoa_digits z Hz) as (ds & -> & Hne & Hd & Hv & _). unfold atoi. destruct ds as [|c rest]; [done|].
  cbn [string_forall] in Hd. apply andb_true_iff in Hd as [Hc%in_range_spec _].
  destruct (Z.eqb_spec (code c) 45); [lia|]. destruct (Z.eqb_spec (code c) 43); [lia|].
  destruct (String.eqb_spec (String c rest) ""); [done|]. rewrite Hv.
  rewrite (proj2 (Z.leb_le _ _)) by (unfold int64_min; lia). by rewrite (proj2 (Z.leb_le _ _)) by done.
Qed.
