(* ===== verification/GoTime.v ===== *)
(** * Times of the [time] package

    A time is its nanoseconds since 1970 in UTC. *)

From S2P Require Import Prelude GoStr.

Definition second : Z := 1000000000.
Definition minute : Z := 60 * second.
Definition day : Z := 86400 * second.

(** The civil date of a day counted from 1970-01-01 (UTC), as (year, month, day). *)
Definition civil_from_days (days : Z) : Z * Z * Z :=
  let z := days + 719468 in
  let era := z / 146097 in
  let doe := z - era * 146097 in
  let yoe := (doe - doe / 1460 + doe / 36524 - doe / 146096) / 365 in
  let doy := doe - (365 * yoe + yoe / 4 - yoe / 100) in
  let mp := (5 * doy + 2) / 153 in
  let d := doy - (153 * mp + 2) / 5 + 1 in
  let m := if mp <? 10 then mp + 3 else mp - 9 in
  (yoe + era * 400 + (if m <=? 2 then 1 else 0), m, d).

(** [%02d] and its like. *)
Fixpoint zeros (n : nat) : string :=
  match n with
  | O => ""
  | S n => String (chr 48) (zeros n)
  end.

Definition padded (width z : Z) : string := zeros (Z.to_nat (width - str_len (itoa z))) +:+ itoa z.

(** [t.Format("2006-01-02")]. *)
Definition format_date (t : Z) : string :=
  let '(y, m, d) := civil_from_days (t / day) in
  padded 4 y +:+ "-" +:+ padded 2 m +:+ "-" +:+ padded 2 d.

(** The fraction of a second without its trailing zeros, with its point. *)
Fixpoint drop_zeros (s : string) : string :=
  match s with
  | String c rest => if code c =? 48 then drop_zeros rest else s
  | EmptyString => ""
  end.

Definition format_fraction (nanos : Z) : string :=
  if nanos =? 0 then "" else "." +:+ string_rev (drop_zeros (string_rev (padded 9 nanos))).

(** [t.Format(time.RFC3339Nano)] of a time in UTC. *)
Definition format_rfc3339nano (t : Z) : string :=
  let seconds := (t `mod` day) / second in
  format_date t +:+ "T" +:+ padded 2 (seconds / 3600) +:+ ":" +:+ padded 2 (seconds `mod` 3600 / 60) +:+ ":"
  +:+ padded 2 (seconds `mod` 60) +:+ format_fraction (t `mod` second) +:+ "Z".

(** [time.Date(t.Year(), t.Month(), t.Day()+1, 0, 0, 0, 0, time.UTC)]. *)
Definition next_midnight (t : Z) : Z := (t / day + 1) * day.

Example format_sample : format_rfc3339nano 1767225600120000000 = "2026-01-01T00:00:00.12Z" ∧
  format_rfc3339nano 951827696000000000 = "2000-02-29T12:34:56Z".
Proof. vm_compute. auto. Qed.
