(* ===== verification/GoCrypto.v ===== *)
(** * Digests

    The hash functions the code calls, as classes that state what they return,
    and the text a digest is written as. *)

From S2P Require Import Prelude GoStr.
From Stdlib Require Import Ascii.

(** [sha256.Sum256], as its 32 bytes. *)
Class SHA256 := {
  sum256 : string → list Z;
  sum256_length : ∀ s, length (sum256 s) = 32%nat;
  sum256_bytes : ∀ s, Forall (λ b, 0 ≤ b < 256) (sum256 s);
}.

(** HMAC over SHA-1, of a secret and a message, as its 20 bytes. *)
Class HMAC_SHA1 := {
  hmac_sha1 : list Z → list Z → list Z;
  hmac_sha1_length : ∀ k m, length (hmac_sha1 k m) = 20%nat;
  hmac_sha1_bytes : ∀ k m, Forall (λ b, 0 ≤ b < 256) (hmac_sha1 k m);
}.

(** [hex.EncodeToString]. *)
Definition hex_byte (b : Z) : string :=
  String (hex_digit (Z.to_N (b / 16))) (String (hex_digit (Z.to_N (b `mod` 16))) "").
Fixpoint hex_encode (bytes : list Z) : string :=
  match bytes with
  | [] => ""
  | b :: rest => hex_byte b +:+ hex_encode rest
  end.

(** [binary.BigEndian] reads and writes. *)
Definition big_endian (bytes : list Z) : Z := foldl (λ n b, n * 256 + b) 0 bytes.

Fixpoint put_big_endian (n : nat) (z : Z) : list Z :=
  match n with
  | O => []
  | S n => (z / 256 ^ Z.of_nat n) `mod` 256 :: put_big_endian n z
  end.
