(* ===== verification/Password.v ===== *)
(** * Password hashes

    internal/control/auth/password.go: Argon2id hashes in the PHC string format.
    [argon2.IDKey] is the class [Argon2]; base64 without padding, the format and
    its parser are defined here. *)

From S2P Require Import Prelude GoStr.
From Stdlib Require Import Ascii.

(** [argon2.IDKey(password, salt, time, memory, threads, keyLen)]. *)
Class Argon2 := {
  idkey : string → list Z → Z → Z → Z → Z → list Z;
  idkey_length : ∀ p salt t m th n, 0 ≤ n → length (idkey p salt t m th n) = Z.to_nat n;
  idkey_bytes : ∀ p salt t m th n, Forall (λ b, 0 ≤ b < 256) (idkey p salt t m th n);
}.

(** ** [base64.RawStdEncoding] *)

Definition base64_char (v : Z) : ascii :=
  chr (Z.to_N (if v <? 26 then 65 + v else if v <? 52 then 71 + v else if v <? 62 then v - 4 else if v =? 62 then 43 else 47)).

Definition base64_value (c : ascii) : option Z :=
  if is_upper c then Some (code c - 65)
  else if is_lower c then Some (code c - 71)
  else if is_digit c then Some (code c + 4)
  else if code c =? 43 then Some 62
  else if code c =? 47 then Some 63
  else None.

Fixpoint base64_encode (bytes : list Z) : string :=
  match bytes with
  | [] => ""
  | [a] => String (base64_char (a / 4)) (String (base64_char ((a `mod` 4) * 16)) "")
  | [a; b] =>
    String (base64_char (a / 4)) (String (base64_char ((a `mod` 4) * 16 + b / 16)) (String (base64_char ((b `mod` 16) * 4)) ""))
  | a :: b :: c :: rest =>
    String (base64_char (a / 4)) (String (base64_char ((a `mod` 4) * 16 + b / 16))
      (String (base64_char ((b `mod` 16) * 4 + c / 64)) (String (base64_char (c `mod` 64)) (base64_encode rest))))
  end.

(** The decoder skips line breaks, wherever they are. *)
Definition is_line_break (c : ascii) : bool := (code c =? 10) || (code c =? 13).

Fixpoint base64_values (s : string) : option (list Z) :=
  match s with
  | EmptyString => Some []
  | String c rest =>
    if is_line_break c then base64_values rest
    else match base64_value c, base64_values rest with
         | Some v, Some vs => Some (v :: vs)
         | _, _ => None
         end
  end.

(** Groups of four; what is left over of a group is not looked at. *)
Fixpoint base64_bytes (vs : list Z) : option (list Z) :=
  match vs with
  | [] => Some []
  | [_] => None
  | [a; b] => Some [a * 4 + b / 16]
  | [a; b; c] => Some [a * 4 + b / 16; (b `mod` 16) * 16 + c / 4]
  | a :: b :: c :: d :: rest =>
    match base64_bytes rest with
    | Some bytes => Some (a * 4 + b / 16 :: (b `mod` 16) * 16 + c / 4 :: (c `mod` 4) * 64 + d :: bytes)
    | None => None
    end
  end.

Definition base64_decode (s : string) : result (list Z) :=
  match base64_values s with
  | Some vs => match base64_bytes vs with
               | Some bytes => Ok bytes
               | None => Err (errors_New "illegal base64 data")
               end
  | None => Err (errors_New "illegal base64 data")
  end.

(** ** Parameters *)

Definition argon2Version : Z := 19.
Definition maxArgon2Memory : Z := 256 * 1024.
Definition maxArgon2Time : Z := 10.
Definition maxArgon2Threads : Z := 16.
Definition maxArgon2Field : Z := 1024.

Record PasswordParams := mkPasswordParams { pp_Memory : Z; pp_Time : Z; pp_Threads : Z; pp_SaltLength : Z; pp_KeyLength : Z }.

#[export] Instance eta_PasswordParams : Eta PasswordParams := λ p,
  mkPasswordParams (pp_Memory p) (pp_Time p) (pp_Threads p) (pp_SaltLength p) (pp_KeyLength p).

Definition DefaultPasswordParams : PasswordParams := mkPasswordParams (64 * 1024) 3 1 16 32.
Definition TestPasswordParams : PasswordParams := mkPasswordParams 1024 1 1 16 32.

Definition validatePasswordParams (p : PasswordParams) : result unit :=
  return_if (pp_Memory p =? 0) || (pp_Time p =? 0) || (pp_Threads p =? 0) || (pp_SaltLength p =? 0) || (pp_KeyLength p =? 0)
    with errors_New "argon2id parameters must be non-zero" ;;
  return_if (maxArgon2Memory <? pp_Memory p) || (maxArgon2Time <? pp_Time p) || (maxArgon2Threads <? pp_Threads p)
    with errors_New "argon2id work parameters exceed supported limits" ;;
  return_if (maxArgon2Field <? pp_SaltLength p) || (maxArgon2Field <? pp_KeyLength p)
    with errors_New "argon2id salt or key length exceeds supported limits" ;;
  Ok ().

(** ** The PHC format *)

Definition encodePHC (p : PasswordParams) (salt key : list Z) : string :=
  "$argon2id$v=" +:+ itoa argon2Version +:+ "$m=" +:+ itoa (pp_Memory p) +:+ ",t=" +:+ itoa (pp_Time p) +:+ ",p=" +:+ itoa (pp_Threads p)
  +:+ "$" +:+ base64_encode salt +:+ "$" +:+ base64_encode key.

Definition parseVersion (field : string) : result Z :=
  let '(value, ok) := cut_prefix field "v=" in
  return_if negb ok with errors_New "invalid argon2id version field" ;;
  match atoi value with
  | Some version => Ok version
  | None => Err (errors_New "parse argon2id version")
  end.

(** One [key=value] of the parameter field. *)
Definition parseParam (seen : list string) (params : PasswordParams) (part : string) : result (list string * PasswordParams) :=
  let '(key, value, ok) := cut_on "=" part in
  return_if negb ok with errors_New "invalid argon2id parameter field" ;;
  return_if bool_decide (key ∈ seen) with errors_New ("duplicate argon2id parameter " +:+ key) ;;
  match parse_uint 32 value with
  | None => Err (errors_New ("parse argon2id parameter " +:+ key))
  | Some parsed =>
    if String.eqb key "m" then Ok (key :: seen, params <| pp_Memory := parsed |>)
    else if String.eqb key "t" then Ok (key :: seen, params <| pp_Time := parsed |>)
    else if String.eqb key "p" then
      return_if 255 <? parsed with errors_New "argon2id parallelism exceeds uint8" ;;
      Ok (key :: seen, params <| pp_Threads := parsed |>)
    else Err (errors_New ("unknown argon2id parameter " +:+ key))
  end.

Fixpoint parseParts (seen : list string) (params : PasswordParams) (parts : list string) : result PasswordParams :=
  match parts with
  | [] => Ok params
  | part :: rest =>
    let* next := parseParam seen params part in
    parseParts (fst next) (snd next) rest
  end.

Definition parseParams (field : string) : result PasswordParams :=
  let* params := parseParts [] (mkPasswordParams 0 0 0 0 0) (split_on "," field) in
  return_if (pp_Memory params =? 0) || (pp_Time params =? 0) || (pp_Threads params =? 0)
    with errors_New "argon2id parameters must be non-zero" ;;
  Ok params.

Definition decodePHC (encodedHash : string) : result (PasswordParams * list Z * list Z) :=
  match split_on "$" encodedHash with
  | [p0; p1; p2; p3; p4; p5] =>
    return_if negb (String.eqb p0 "") || negb (String.eqb p1 "argon2id") with errors_New "invalid argon2id hash format" ;;
    let* version := parseVersion p2 in
    return_if negb (version =? argon2Version) with errors_New "unsupported argon2id version" ;;
    let* params := parseParams p3 in
    let* salt := base64_decode p4 in
    let* key := base64_decode p5 in
    return_if bool_decide (salt = []) || bool_decide (key = []) with errors_New "argon2id salt and key must be non-empty" ;;
    let params := params <| pp_SaltLength := Z.of_nat (length salt) |> <| pp_KeyLength := Z.of_nat (length key) |> in
    let* _ := validatePasswordParams params in
    Ok (params, salt, key)
  | _ => Err (errors_New "invalid argon2id hash format")
  end.

Section Passwords.
Context `{Argon2}.

(** The salt is what [rand.Read] drew, of the length the parameters ask for. *)
Definition HashPassword (password : string) (p : PasswordParams) (salt : list Z) : result string :=
  let* _ := validatePasswordParams p in
  Ok (encodePHC p salt (idkey password salt (pp_Time p) (pp_Memory p) (pp_Threads p) (pp_KeyLength p))).

Definition VerifyPassword (password encodedHash : string) : result bool :=
  let* decoded := decodePHC encodedHash in
  let '(p, salt, key) := decoded in
  Ok (bool_decide (idkey password salt (pp_Time p) (pp_Memory p) (pp_Threads p) (Z.of_nat (length key)) = key)).
End Passwords.

(** * Theorems *)

(** ** Base64 reads back *)

Definition base64_text (c : ascii) : bool :=
  negb (is_line_break c) && negb (Ascii.eqb c "$") && bool_decide (is_Some (base64_value c)).

Definition char_reads_back (v : Z) : bool :=
  bool_decide (base64_value (base64_char v) = Some v) && base64_text (base64_char v).

Lemma base64_char_value v : 0 ≤ v < 64 → base64_value (base64_char v) = Some v ∧ base64_text (base64_char v) = true.
Proof.
  intros Hv. assert (forallb char_reads_back (seqZ 0 64) = true) as Hall by (vm_compute; reflexivity).
  rewrite forallb_forall in Hall. specialize (Hall v). unfold char_reads_back in Hall. rewrite andb_true_iff, bool_decide_eq_true in Hall.
  apply Hall, list_elem_of_In, elem_of_seqZ. lia.
Qed.

Lemma base64_values_char v s :
  0 ≤ v < 64 → base64_values (String (base64_char v) s) = match base64_values s with Some vs => Some (v :: vs) | None => None end.
Proof.
  intros Hv. destruct (base64_char_value v Hv) as [E Ht]. cbn [base64_values]. rewrite E. unfold base64_text in Ht. bool_split.
  by destruct (is_line_break _).
Qed.

Lemma byte_split b n : 0 < n → n ≠ 0 → 0 ≤ b < 256 → b = (b / n) * n + b `mod` n ∧ 0 ≤ b `mod` n < n ∧ 0 ≤ b / n.
Proof. intros. pose proof (Z.div_mod b n). pose proof (Z.mod_pos_bound b n). pose proof (Z.div_pos b n). lia. Qed.

(** The sextets of one to three bytes, and the bytes they give back. *)
Lemma base64_sextets a b c :
  0 ≤ a < 256 → 0 ≤ b < 256 → 0 ≤ c < 256 →
  (0 ≤ a / 4 < 64 ∧ 0 ≤ (a `mod` 4) * 16 < 64 ∧ 0 ≤ (a `mod` 4) * 16 + b / 16 < 64 ∧ 0 ≤ (b `mod` 16) * 4 < 64 ∧
   0 ≤ (b `mod` 16) * 4 + c / 64 < 64 ∧ 0 ≤ c `mod` 64 < 64) ∧
  (a / 4) * 4 + ((a `mod` 4) * 16) / 16 = a ∧ (a / 4) * 4 + ((a `mod` 4) * 16 + b / 16) / 16 = a ∧
  (((a `mod` 4) * 16 + b / 16) `mod` 16) * 16 + ((b `mod` 16) * 4) / 4 = b ∧
  (((a `mod` 4) * 16 + b / 16) `mod` 16) * 16 + ((b `mod` 16) * 4 + c / 64) / 4 = b ∧
  (((b `mod` 16) * 4 + c / 64) `mod` 4) * 64 + c `mod` 64 = c.
Proof.
  intros Ha Hb Hc. destruct (byte_split a 4) as (Ea & Ra & Qa); [lia..|]. destruct (byte_split b 16) as (Eb & Rb & Qb); [lia..|].
  destruct (byte_split c 64) as (Ec & Rc & Qc); [lia..|].
  revert Ea Ra Qa Eb Rb Qb Ec Rc Qc. generalize (a / 4) (a `mod` 4) (b / 16) (b `mod` 16) (c / 64) (c `mod` 64).
  intros q r s t u v Ea Ra Qa Eb Rb Qb Ec Rc Qc.
  rewrite !Z.div_mul, !Z.div_add_l, (Z.div_small s 16), (Z.div_small u 4) by lia.
  rewrite (Z.add_comm (r * 16) s), Z.mod_add, (Z.add_comm (t * 4) u), Z.mod_add, !Z.mod_small by lia. lia.
Qed.

Lemma base64_encode_values bytes :
  Forall (λ b, 0 ≤ b < 256) bytes → ∃ vs, base64_values (base64_encode bytes) = Some vs ∧ base64_bytes vs = Some bytes.
Proof.
  remember (length bytes) as n eqn:Hn. revert bytes Hn. induction n as [n IH] using (well_founded_induction Nat.lt_wf_0).
  intros [|a [|b [|c rest]]] -> Hb; cbn [base64_encode].
  - by exists [].
  - apply Forall_cons in Hb as [Ha _]. destruct (base64_sextets a 0 0) as ((H1 & H2 & _) & E & _); [lia..|].
    exists [a / 4; (a `mod` 4) * 16]. rewrite !base64_values_char by done. split; [done|]. cbn [base64_bytes]. by rewrite E.
  - rewrite !Forall_cons in Hb. destruct Hb as (Ha & Hb & _).
    destruct (base64_sextets a b 0) as ((H1 & _ & H3 & H4 & _) & _ & E1 & E2 & _); [lia..|].
    eexists [_; _; _]. rewrite !base64_values_char by done. split; [done|]. cbn [base64_bytes]. by rewrite E1, E2.
  - rewrite !Forall_cons in Hb. destruct Hb as (Ha & Hb & Hc & Hrest).
    destruct (base64_sextets a b c) as ((H1 & _ & H3 & _ & H5 & H6) & _ & E1 & _ & E2 & E3); [lia..|].
    destruct (IH (length rest) ltac:(cbn; lia) rest eq_refl Hrest) as (vs & Ev & Eb).
    eexists (_ :: _ :: _ :: _ :: vs). rewrite !base64_values_char, Ev by done. split; [done|].
    cbn [base64_bytes]. by rewrite Eb, E1, E2, E3.
Qed.

Lemma base64_roundtrip bytes : Forall (λ b, 0 ≤ b < 256) bytes → base64_decode (base64_encode bytes) = Ok bytes.
Proof. intros Hb. destruct (base64_encode_values bytes Hb) as (vs & Ev & Eb). unfold base64_decode. by rewrite Ev, Eb. Qed.

Lemma base64_encode_text bytes : Forall (λ b, 0 ≤ b < 256) bytes → string_forall base64_text (base64_encode bytes) = true.
Proof.
  remember (length bytes) as n eqn:Hn. revert bytes Hn. induction n as [n IH] using (well_founded_induction Nat.lt_wf_0).
  intros [|a [|b [|c rest]]] -> Hb; cbn [base64_encode]; [done|..]; rewrite !Forall_cons in Hb; cbn [string_forall].
  - destruct Hb as (Ha & _). destruct (base64_sextets a 0 0) as ((H1 & H2 & _) & _); [lia..|].
    rewrite !andb_true_iff. split_and!; [by apply base64_char_value..|done].
  - destruct Hb as (Ha & Hb & _). destruct (base64_sextets a b 0) as ((H1 & _ & H3 & H4 & _) & _); [lia..|].
    rewrite !andb_true_iff. split_and!; [by apply base64_char_value..|done].
  - destruct Hb as (Ha & Hb & Hc & Hrest). destruct (base64_sextets a b c) as ((H1 & _ & H3 & _ & H5 & H6) & _); [lia..|].
    rewrite !andb_true_iff. split_and!; [by apply base64_char_value..|]. eapply IH; [|done..]. cbn. lia.
Qed.

(** ** The format reads back *)

Definition separators : list ascii := ["$"; ","; "="]%char.
Definition free (c : ascii) (s : string) : Prop := string_forall (λ x, negb (Ascii.eqb x c)) s = true.

Lemma free_app c s t : free c s → free c t → free c (s +:+ t).
Proof. unfold free. intros Hs Ht. by rewrite string_forall_app, Hs, Ht. Qed.

Lemma itoa_free z c : 0 ≤ z → is_digit c = false → free c (itoa z).
Proof.
  intros Hz Hc. destruct (itoa_digits z Hz) as (ds & -> & _ & Hd & _). revert Hd. apply string_forall_impl. intros x Hx.
  destruct (Ascii.eqb_spec x c) as [->|]; [congruence|done].
Qed.

Lemma base64_free bytes : Forall (λ b, 0 ≤ b < 256) bytes → free "$" (base64_encode bytes).
Proof.
  intros Hb. generalize (base64_encode_text bytes Hb). apply string_forall_impl. intros x Hx. unfold base64_text in Hx.
  rewrite !andb_true_iff in Hx. apply Hx.
Qed.

Lemma cut_on_free sep s t : free sep s → cut_on sep (s +:+ String sep t) = (s, t, true).
Proof.
  unfold free. induction s as [|c s IH]; cbn [string_forall].
  - intros _. rewrite string_app_nil_l. cbn [cut_on]. by rewrite Ascii.eqb_refl.
  - intros [Hc%negb_true_iff Hs]%andb_true_iff. specialize (IH Hs). rewrite string_app_cons. cbn [cut_on]. by rewrite Hc, IH.
Qed.

Lemma parseParam_value seen params key z :
  free "=" key → bool_decide (key ∈ seen) = false → 0 ≤ z < 2 ^ 32 →
  parseParam seen params (key +:+ String "=" (itoa z)) =
    if String.eqb key "m" then Ok (key :: seen, params <| pp_Memory := z |>)
    else if String.eqb key "t" then Ok (key :: seen, params <| pp_Time := z |>)
    else if String.eqb key "p" then
      return_if 255 <? z with errors_New "argon2id parallelism exceeds uint8" ;;
      Ok (key :: seen, params <| pp_Threads := z |>)
    else Err (errors_New ("unknown argon2id parameter " +:+ key)).
Proof.
  intros Hk Hseen Hz. unfold parseParam. rewrite cut_on_free by done. cbn [negb fail_when]. rewrite Hseen. cbn [fail_when].
  by rewrite parse_uint_itoa.
Qed.

(** Parameters that are unsigned numbers and pass the validation. *)
Definition params_ok (p : PasswordParams) : Prop :=
  validatePasswordParams p = Ok () ∧ 0 ≤ pp_Memory p ∧ 0 ≤ pp_Time p ∧ 0 ≤ pp_Threads p ∧ 0 ≤ pp_SaltLength p ∧ 0 ≤ pp_KeyLength p.

Lemma params_ok_bounds p :
  params_ok p → 0 < pp_Memory p < 2 ^ 32 ∧ 0 < pp_Time p < 2 ^ 32 ∧ 0 < pp_Threads p ≤ 255 ∧ 0 < pp_SaltLength p ∧ 0 < pp_KeyLength p.
Proof.
  intros (Hv & Hnonneg). unfold validatePasswordParams, maxArgon2Memory, maxArgon2Time, maxArgon2Threads in Hv. run_ok. bool_split. lia.
Qed.

Lemma parseParams_encoded p :
  params_ok p →
  parseParams ("m=" +:+ itoa (pp_Memory p) +:+ ",t=" +:+ itoa (pp_Time p) +:+ ",p=" +:+ itoa (pp_Threads p)) =
    Ok (mkPasswordParams (pp_Memory p) (pp_Time p) (pp_Threads p) 0 0).
Proof.
  intros (Hm & Ht & Hp & _)%params_ok_bounds. unfold parseParams.
  set (parts := ["m" +:+ String "=" (itoa (pp_Memory p)); "t" +:+ String "=" (itoa (pp_Time p)); "p" +:+ String "=" (itoa (pp_Threads p))]).
  assert (split_on "," ("m=" +:+ itoa (pp_Memory p) +:+ ",t=" +:+ itoa (pp_Time p) +:+ ",p=" +:+ itoa (pp_Threads p)) = parts) as ->.
  { change (",t=" +:+ itoa (pp_Time p) +:+ ",p=" +:+ itoa (pp_Threads p)) with
      (String "," ("t=" +:+ itoa (pp_Time p) +:+ String "," ("p=" +:+ itoa (pp_Threads p)))).
    rewrite <- !string_app_assoc, split_on_sep, split_on_sep.
    rewrite !split_on_free; [done|..]; apply free_app; try done; (apply itoa_free; [lia|done]). }
  unfold parts. cbn [parseParts]. rewrite (parseParam_value []) by first [done|lia]. cbn [String.eqb Ascii.eqb Bool.eqb result_bind fst snd].
  rewrite parseParam_value by first [done|lia]. cbn [String.eqb Ascii.eqb Bool.eqb result_bind fst snd].
  rewrite parseParam_value by first [done|lia]. cbn [String.eqb Ascii.eqb Bool.eqb].
  rewrite (proj2 (Z.ltb_ge 255 _)) by lia. cbn [fail_when result_bind fst snd].
  destruct p as [m t th sl kl]. cbn in *. rewrite !(proj2 (Z.eqb_neq _ 0)) by lia. done.
Qed.

Lemma decode_encoded p salt key :
  params_ok p → Forall (λ b, 0 ≤ b < 256) salt → Forall (λ b, 0 ≤ b < 256) key →
  Z.of_nat (length salt) = pp_SaltLength p → Z.of_nat (length key) = pp_KeyLength p →
  decodePHC (encodePHC p salt key) = Ok (p, salt, key).
Proof.
  intros Hok Hsalt Hkey Esalt Ekey. pose proof (params_ok_bounds p Hok) as (Hm & Ht & Hp & Hsl & Hkl).
  set (fields := "m=" +:+ itoa (pp_Memory p) +:+ ",t=" +:+ itoa (pp_Time p) +:+ ",p=" +:+ itoa (pp_Threads p)).
  assert (encodePHC p salt key = "" +:+ String "$" ("argon2id" +:+ String "$" (("v=" +:+ itoa argon2Version) +:+
    String "$" (fields +:+ String "$" (base64_encode salt +:+ String "$" (base64_encode key)))))) as ->.
  { unfold encodePHC, fields. rewrite !string_app_assoc. reflexivity. }
  unfold decodePHC. rewrite !split_on_sep.
  assert (free "$" fields) as Hfields.
  { unfold fields. repeat apply free_app; try done; (apply itoa_free; [lia|done]). }
  rewrite !split_on_free; [|by apply base64_free|by apply base64_free|exact Hfields|done..]. cbn [app].
  change (negb (String.eqb "" "") || negb (String.eqb "argon2id" "argon2id")) with false. cbn [fail_when].
  change (parseVersion ("v=" +:+ itoa argon2Version)) with (Ok argon2Version). cbn [result_bind].
  rewrite Z.eqb_refl. cbn [negb fail_when]. unfold fields. rewrite parseParams_encoded by done. cbn [result_bind].
  rewrite !base64_roundtrip by done. cbn [result_bind].
  rewrite !bool_decide_eq_false_2; [|intros ->; cbn in *; lia..]. cbn [orb fail_when].
  destruct Hok as [Hv _]. rewrite Esalt, Ekey.
  match goal with |- context [validatePasswordParams ?x] => replace x with p by (by destruct p) end.
  by rewrite Hv.
Qed.

Section Roundtrip.
Context `{Argon2}.

(** C38. A password's hash verifies the password and tells others from it: under
    parameters the code accepts, hashing succeeds, and verifying any password
    against the stored text compares its key with the password's, under the salt
    and the costs it was hashed with. *)
Theorem password_roundtrip password p salt :
  params_ok p → Forall (λ b, 0 ≤ b < 256) salt → Z.of_nat (length salt) = pp_SaltLength p →
  ∃ hash, HashPassword password p salt = Ok hash ∧
    (∀ other, VerifyPassword other hash =
      Ok (bool_decide (idkey other salt (pp_Time p) (pp_Memory p) (pp_Threads p) (pp_KeyLength p) =
                       idkey password salt (pp_Time p) (pp_Memory p) (pp_Threads p) (pp_KeyLength p)))) ∧
    VerifyPassword password hash = Ok true.
Proof.
  intros Hok Hsalt Esalt. pose proof Hok as (Hv & _). unfold HashPassword. rewrite Hv. eexists. split; [done|].
  pose proof (params_ok_bounds p Hok) as (_ & _ & _ & _ & Hkl).
  set (key := idkey password salt _ _ _ _).
  assert (Z.of_nat (length key) = pp_KeyLength p) as Ekey by (unfold key; rewrite idkey_length; lia).
  assert (∀ other, VerifyPassword other (encodePHC p salt key) =
    Ok (bool_decide (idkey other salt (pp_Time p) (pp_Memory p) (pp_Threads p) (pp_KeyLength p) = key))) as Hverify.
  { intros other. unfold VerifyPassword. rewrite decode_encoded; [|done..|apply idkey_bytes|done|done]. cbn [result_bind].
    by rewrite Ekey. }
  split; [exact Hverify|]. rewrite Hverify. by rewrite bool_decide_eq_true_2.
Qed.
End Roundtrip.

Module PasswordSamples.
(** A key for the samples: the length of the password, as often as asked. *)
Definition sample_key (p : string) (salt : list Z) (t m th n : Z) : list Z := replicate (Z.to_nat n) (str_len p `mod` 256).

Lemma sample_key_length p salt t m th n : 0 ≤ n → length (sample_key p salt t m th n) = Z.to_nat n.
Proof. intros _. apply length_replicate. Qed.

Lemma sample_key_bytes p salt t m th n : Forall (λ b, 0 ≤ b < 256) (sample_key p salt t m th n).
Proof. apply Forall_replicate, Z.mod_pos_bound. lia. Qed.

#[export] Instance sample_argon2 : Argon2 := {|
  idkey := sample_key;
  idkey_length := sample_key_length;
  idkey_bytes := sample_key_bytes;
|}.
End PasswordSamples.

Lemma password_roundtrip_witness :
  ∃ hash, @HashPassword PasswordSamples.sample_argon2 "correct horse" TestPasswordParams (replicate 16 7) = Ok hash ∧
    @VerifyPassword PasswordSamples.sample_argon2 "correct horse" hash = Ok true.
Proof.
  destruct (@password_roundtrip PasswordSamples.sample_argon2 "correct horse" TestPasswordParams (replicate 16 7))
    as (hash & Hhash & _ & Hverify).
  - repeat split; vm_compute; discriminate.
  - apply Forall_replicate. lia.
  - reflexivity.
  - exists hash. exact (conj Hhash Hverify).
Defined.
