(* ===== verification/Auth.v ===== *)
(** * Authentication: codes, sessions and the guard of repeated passwords

    internal/control/auth (totp.go, session.go), and the [reauthLimiter] of
    internal/control/http/server_admin.go. Times are nanoseconds since 1970. *)

From S2P Require Import Prelude GoStr GoTime GoCrypto Password.
From Stdlib Require Import Ascii.

(** ** One-time codes (totp.go) *)

Definition TOTPSecretSize : Z := 20.
Definition totpDigits : Z := 6.
Definition TOTPStepSeconds : Z := 30.

(** [now.Unix()] rounds down; the division of Go rounds towards zero. *)
Definition TOTPStep (now : Z) : Z := (now / second) `quot` TOTPStepSeconds.

Section TOTP.
Context `{HMAC_SHA1}.

Definition TOTPCode (secret : list Z) (step : Z) : string :=
  let sum := hmac_sha1 secret (put_big_endian 8 (step `mod` 2 ^ 64)) in
  let offset := Z.land (List.last sum 0) 15 in
  let value := Z.land (big_endian (take 4 (drop (Z.to_nat offset) sum))) 2147483647 in
  padded 6 (value `mod` 1000000).

(** The loop over the step now and its neighbours. *)
Fixpoint match_step (secret : list Z) (code : string) (lastUsedStep : Z) (steps : list Z) : Z * bool :=
  match steps with
  | [] => (0, false)
  | step :: rest =>
    if step <=? lastUsedStep then match_step secret code lastUsedStep rest
    else if String.eqb (TOTPCode secret step) code then (step, true)
    else match_step secret code lastUsedStep rest
  end.

Definition VerifyTOTP (secret : list Z) (code : string) (now lastUsedStep : Z) : Z * bool :=
  let code := trim_space code in
  if negb (str_len code =? totpDigits) then (0, false)
  else
    let current := TOTPStep now in
    match_step secret code lastUsedStep [current; current - 1; current + 1].
End TOTP.

(** ** Enrolment *)

(** [base32.StdEncoding.WithPadding(NoPadding)]: [bits] of [acc] are not written yet. *)
Definition base32_char (v : Z) : ascii := chr (Z.to_N (if v <? 26 then 65 + v else 24 + v)).

Fixpoint base32_from (acc bits : Z) (bytes : list Z) : string :=
  match bytes with
  | [] => if bits =? 0 then "" else String (base32_char (acc * 2 ^ (5 - bits))) ""
  | b :: rest =>
    let acc := acc * 256 + b in
    let bits := bits + 8 in
    let c1 := base32_char (acc / 2 ^ (bits - 5)) in
    let acc := acc `mod` 2 ^ (bits - 5) in
    let bits := bits - 5 in
    if bits <? 5 then String c1 (base32_from acc bits rest)
    else String c1 (String (base32_char (acc / 2 ^ (bits - 5))) (base32_from (acc `mod` 2 ^ (bits - 5)) (bits - 5) rest))
  end.

Definition base32_encode (bytes : list Z) : string := base32_from 0 0 bytes.

(** The groups of four, the last of at most four. *)
Fixpoint groups_of_four (s : string) : list string :=
  match s with
  | String a (String b (String c (String d ((String _ _) as rest)))) =>
    String a (String b (String c (String d ""))) :: groups_of_four rest
  | _ => [s]
  end.

Definition FormatTOTPSecret (secret : list Z) : string := join " " (groups_of_four (base32_encode secret)).

(** [url.PathEscape] and [url.QueryEscape]. *)
Definition upper_hex (n : Z) : ascii := if n <? 10 then chr (Z.to_N (48 + n)) else chr (Z.to_N (55 + n)).
Definition is_unreserved (c : ascii) : bool :=
  is_digit c || is_upper c || is_lower c || existsb (Ascii.eqb c) ["-"; "_"; "."; "~"]%char.
Definition percent (c : ascii) : string := String "%" (String (upper_hex (code c / 16)) (String (upper_hex (code c `mod` 16)) "")).

Fixpoint PathEscape (s : string) : string :=
  match s with
  | EmptyString => ""
  | String c s =>
    (if is_unreserved c || existsb (Ascii.eqb c) ["$"; "&"; "+"; ":"; "="; "@"]%char then String c "" else percent c) +:+ PathEscape s
  end.

Fixpoint QueryEscape (s : string) : string :=
  match s with
  | EmptyString => ""
  | String c s =>
    (if is_unreserved c then String c "" else if Ascii.eqb c " " then "+" else percent c) +:+ QueryEscape s
  end.

(** [values.Encode] writes the keys in order. *)
Definition OTPAuthURI (issuer account : string) (secret : list Z) : string :=
  "otpauth://totp/" +:+ PathEscape (issuer +:+ ":" +:+ account) +:+ "?" +:+
  "algorithm=SHA1&digits=6&issuer=" +:+ QueryEscape issuer +:+ "&period=30&secret=" +:+ QueryEscape (base32_encode secret).

(** ** Recovery codes *)

Definition RecoveryCodeCount : Z := 10.
Definition recoveryCodeAlphabet : string := "ABCDEFGHJKMNPQRSTVWXYZ0123456789".
Definition recoveryCodeHalf : nat := 5.

Definition alphabet_byte (b : Z) : ascii :=
  default (chr 0) (String.get (Z.to_nat (b `mod` str_len recoveryCodeAlphabet)) recoveryCodeAlphabet).

(** A code from its ten random bytes. *)
Fixpoint code_from (j : nat) (raw : list Z) : string :=
  match raw with
  | [] => ""
  | value :: rest =>
    (if Nat.eqb j recoveryCodeHalf then "-" else "") +:+ String (alphabet_byte value) (code_from (S j) rest)
  end.

Definition recovery_code (raw : list Z) : string := code_from 0 raw.

Definition NormalizeRecoveryCode `{GoUnicode} (code : string) : string :=
  replace_all (to_upper (trim_space code)) " " "".

(** ** Sessions (session.go) *)

Definition TokenHash `{SHA256} (token : string) : string := hex_encode (sum256 token).

(** [base64.RawURLEncoding.EncodeToString]. *)
Definition base64url_char (c : ascii) : ascii := if Ascii.eqb c "+" then "-"%char else if Ascii.eqb c "/" then "_"%char else c.
Definition base64url_encode (bytes : list Z) : string := string_map base64url_char (base64_encode bytes).

Definition session_token_bytes : Z := 32.
Definition session_ttl : Z := 24 * 60 * minute.

(** [if len(s) > 256 { s = s[:256] }]. *)
Definition user_agent (agent : string) : string := if 256 <? str_len agent then string_take 256 agent else agent.

(** The zero time is absent. *)
Definition RecentlyAuthenticated (now : Z) (authenticatedAt : option Z) (within : Z) : bool :=
  if within <=? 0 then false
  else match authenticatedAt with
       | None => false
       | Some at_ => (at_ <=? now) && (now - at_ <=? within)
       end.

(** ** Repeated passwords (server_admin.go) *)

Definition reauthenticationFailureLimit : Z := 5.
Definition reauthenticationFailureWindow : Z := 15 * minute.
Definition reauthenticationLockout : Z := 15 * minute.

Record reauthAttempt := mkReauthAttempt { ra_failures : Z; ra_windowStarted : Z; ra_lockedUntil : option Z }.

(** The map of [reauthLimiter], under its mutex. *)
Definition reauthLimiter : Type := gmap string reauthAttempt.

Definition allowed (key : string) (now : Z) (l : reauthLimiter) : Z * reauthLimiter :=
  if String.eqb key "" then (0, l)
  else match l !! key with
       | None => (0, l)
       | Some state =>
         match ra_lockedUntil state with
         | Some until => if now <? until then (until - now, l)
                         else if reauthenticationFailureWindow <=? now - ra_windowStarted state then (0, delete key l) else (0, l)
         | None => if reauthenticationFailureWindow <=? now - ra_windowStarted state then (0, delete key l) else (0, l)
         end
       end.

(** The number of failures, and whether the key is locked now ([retryAfter > 0]). *)
Definition failed (key : string) (now : Z) (l : reauthLimiter) : Z * bool * reauthLimiter :=
  if String.eqb key "" then (0, false, l)
  else
    let fresh := mkReauthAttempt 0 now None in
    let state := match l !! key with
                 | None => fresh
                 | Some state => if reauthenticationFailureWindow <=? now - ra_windowStarted state then fresh else state
                 end in
    let failures := ra_failures state + 1 in
    let until := if reauthenticationFailureLimit <=? failures then Some (now + reauthenticationLockout) else ra_lockedUntil state in
    (failures, match until with Some t => now <? t | None => false end,
     <[key := mkReauthAttempt failures (ra_windowStarted state) until]> l).

Definition reset (key : string) (l : reauthLimiter) : reauthLimiter := if String.eqb key "" then l else delete key l.
