(* ===== verification/Keyring.v ===== *)
(** * Encrypted secrets

    internal/control/serveradmin/crypto.go: a secret is encrypted with a key of
    its own, which is encrypted with a versioned master key. AES-256-GCM is the
    class [AESGCM]; the key file ([LoadKeyring]) is not modelled. *)

From S2P Require Import Prelude GoStr GoCrypto.
From Stdlib Require Import Ascii.

Definition EnvelopeAlgorithm : string := "AES-256-GCM".
Definition envelopeKeyBytes : Z := 32.
Definition gcm_nonce_size : Z := 12.
Definition gcm_overhead : Z := 16.

(** [gcm.Seal] and [gcm.Open] of a 32-byte key and a 12-byte nonce. *)
Class AESGCM := {
  gcm_seal : list Z → list Z → list Z → list Z → list Z;
  gcm_open : list Z → list Z → list Z → list Z → option (list Z);
  gcm_open_seal : ∀ key nonce plaintext data, gcm_open key nonce (gcm_seal key nonce plaintext data) data = Some plaintext;
  gcm_seal_length : ∀ key nonce plaintext data,
    Z.of_nat (length (gcm_seal key nonce plaintext data)) = Z.of_nat (length plaintext) + gcm_overhead;
}.

Definition ErrKeyUnavailable : error := sentinel "ErrKeyUnavailable" "secret encryption key is unavailable".
Definition ErrInvalidEnvelope : error := sentinel "ErrInvalidEnvelope" "invalid encrypted secret envelope".

Record Envelope := mkEnvelope {
  en_Algorithm : string;
  en_KeyVersion : Z;
  en_WrappedKeyNonce : list Z;
  en_WrappedDataKey : list Z;
  en_ValueNonce : list Z;
  en_Ciphertext : list Z;
}.

#[export] Instance Envelope_eq_dec : EqDecision Envelope.
Proof. solve_decision. Defined.

Record Keyring := mkKeyring { activeVersion : Z; keys : gmap Z (list Z) }.

Definition zlen {A} (l : list A) : Z := Z.of_nat (length l).

(** ** Keys *)

Definition check_key (entry : Z * list Z) : result unit :=
  let '(version, material) := entry in
  return_if version <? 1 with errors_New ("secret key version " +:+ itoa version +:+ " must be positive");;
  return_if negb (zlen material =? envelopeKeyBytes)
    with errors_New ("secret key version " +:+ itoa version +:+ " must contain exactly " +:+ itoa envelopeKeyBytes +:+ " bytes");;
  Ok ().

Definition NewKeyring `{GoMapOrder} (active : Z) (ks : gmap Z (list Z)) : result Keyring :=
  return_if active <? 1 with errors_New "active secret key version must be positive";;
  return_if Nat.eqb (size ks) 0 with errors_New "at least one secret key is required";;
  let* _ := for_each check_key (map_order (map_to_list ks)) in
  return_if bool_decide (ks !! active = None)
    with errors_New ("active secret key version " +:+ itoa active +:+ " is not present");;
  Ok (mkKeyring active ks).

Definition ActiveVersion (k : option Keyring) : Z :=
  match k with None => 0 | Some k => activeVersion k end.

Definition NeedsRotation (k : option Keyring) (envelope : Envelope) : bool :=
  match k with None => true | Some k => negb (en_KeyVersion envelope =? activeVersion k) end.

(** ** Sealing and opening *)

Definition validateEnvelope (e : Envelope) : result unit :=
  return_if negb (String.eqb (en_Algorithm e) EnvelopeAlgorithm)
            || (en_KeyVersion e <? 1)
            || negb (zlen (en_WrappedKeyNonce e) =? 12)
            || negb (zlen (en_WrappedDataKey e) =? envelopeKeyBytes + 16)
            || negb (zlen (en_ValueNonce e) =? 12)
            || (zlen (en_Ciphertext e) <? 16) with ErrInvalidEnvelope;;
  Ok ().

(** [aes.NewCipher] takes keys of three sizes. *)
Definition newGCM (key : list Z) : result unit :=
  return_if negb (existsb (Z.eqb (zlen key)) [16; 24; 32])
    with errors_New ("crypto/aes: invalid key size " +:+ itoa (zlen key));;
  Ok ().

Fixpoint string_bytes (s : string) : list Z :=
  match s with
  | EmptyString => []
  | String c s => code c :: string_bytes s
  end.

Definition envelopeAAD (purpose : string) (associatedData : list Z) : list Z :=
  string_bytes ("nakpanel:service-secret:v1:" +:+ purpose +:+ nul) ++ associatedData.

Section Cipher.
Context `{AESGCM}.

(** The nonce is what the random source returned. *)
Definition sealAESGCM (key plaintext associatedData : list Z) (nonce : result (list Z)) : result (list Z * list Z) :=
  let* _ := newGCM key in
  let* nonce := result_wrap "generate nonce: " nonce in
  Ok (nonce, gcm_seal key nonce plaintext associatedData).

Definition openAESGCM (key nonce ciphertext associatedData : list Z) : result (list Z) :=
  let* _ := newGCM key in
  return_if negb (zlen nonce =? gcm_nonce_size) with ErrInvalidEnvelope;;
  match gcm_open key nonce ciphertext associatedData with
  | Some plaintext => Ok plaintext
  | None => Err (errors_New "cipher: message authentication failed")
  end.

(** The data key and the two nonces are what the random source returned. *)
Definition Seal (k : option Keyring) (plaintext associatedData : list Z) (dataKey wrapNonce valueNonce : result (list Z)) : result Envelope :=
  match k with
  | None => Err ErrKeyUnavailable
  | Some k =>
    return_if bool_decide (plaintext = []) with errors_New "secret value must not be empty";;
    match keys k !! activeVersion k with
    | None => Err ErrKeyUnavailable
    | Some master =>
      let* dataKey := result_wrap "generate data encryption key: " dataKey in
      let* (wrappedNonce, wrapped) :=
        result_wrap "wrap data encryption key: " (sealAESGCM master dataKey (envelopeAAD "wrap" associatedData) wrapNonce) in
      let* (valueNonce, ciphertext) :=
        result_wrap "encrypt secret value: " (sealAESGCM dataKey plaintext (envelopeAAD "value" associatedData) valueNonce) in
      Ok (mkEnvelope EnvelopeAlgorithm (activeVersion k) wrappedNonce wrapped valueNonce ciphertext)
    end
  end.

(** [fmt.Errorf("%w: detail", err)]. *)
Definition with_detail (e : error) (detail : string) : error := Error (error_text e +:+ ": " +:+ detail) (error_chain e).

Definition Open (k : option Keyring) (envelope : Envelope) (associatedData : list Z) : result (list Z) :=
  match k with
  | None => Err ErrKeyUnavailable
  | Some k =>
    let* _ := validateEnvelope envelope in
    match keys k !! en_KeyVersion envelope with
    | None => Err (with_detail ErrKeyUnavailable ("version " +:+ itoa (en_KeyVersion envelope)))
    | Some master =>
      match openAESGCM master (en_WrappedKeyNonce envelope) (en_WrappedDataKey envelope) (envelopeAAD "wrap" associatedData) with
      | Err _ => Err (with_detail ErrInvalidEnvelope "unwrap data encryption key")
      | Ok dataKey =>
        return_if negb (zlen dataKey =? envelopeKeyBytes) with ErrInvalidEnvelope;;
        match openAESGCM dataKey (en_ValueNonce envelope) (en_Ciphertext envelope) (envelopeAAD "value" associatedData) with
        | Err _ => Err (with_detail ErrInvalidEnvelope "decrypt secret value")
        | Ok plaintext => Ok plaintext
        end
      end
    end
  end.

Definition Rotate (k : option Keyring) (envelope : Envelope) (associatedData : list Z) (dataKey wrapNonce valueNonce : result (list Z)) : result Envelope :=
  let* plaintext := Open k envelope associatedData in
  Seal k plaintext associatedData dataKey wrapNonce valueNonce.
End Cipher.

(** ** Secrets survive sealing and rotation *)

(** What [NewKeyring] makes sure of. *)
Definition keyring_ok (k : Keyring) : Prop :=
  1 ≤ activeVersion k ∧ is_Some (keys k !! activeVersion k) ∧
  map_Forall (λ version material, 1 ≤ version ∧ zlen material = envelopeKeyBytes) (keys k).

Lemma NewKeyring_ok `{GoMapOrder} active ks k : NewKeyring active ks = Ok k → keyring_ok k ∧ activeVersion k = active ∧ keys k = ks.
Proof.
  unfold NewKeyring. intros Hr. run_ok. split; [|done]. bool_split. unfold keyring_ok. cbn. split; [lia|]. split.
  - by apply not_eq_None_Some.
  - intros version material Hv. assert (check_key (version, material) = Ok ()) as Hc.
    { rename select unit into u. destruct u. rewrite for_each_perm in E1 by apply map_order_perm.
      rewrite for_each_Ok, Forall_forall in E1. by apply E1, elem_of_map_to_list. }
    unfold check_key in Hc. run_ok. bool_split. lia.
Qed.

Section SecretFacts.
Context `{AESGCM}.

Lemma newGCM_ok key : zlen key = envelopeKeyBytes → newGCM key = Ok ().
Proof. unfold newGCM. by intros ->. Qed.

(** What is sealed under the active key is opened by any keyring with that key. *)
Lemma open_sealed k k' plaintext data dataKey n1 n2 :
  keyring_ok k → keys k' !! activeVersion k = keys k !! activeVersion k → plaintext ≠ [] →
  zlen dataKey = envelopeKeyBytes → zlen n1 = gcm_nonce_size → zlen n2 = gcm_nonce_size →
  ∃ e, Seal (Some k) plaintext data (Ok dataKey) (Ok n1) (Ok n2) = Ok e ∧ en_KeyVersion e = activeVersion k ∧
    Open (Some k') e data = Ok plaintext.
Proof.
  intros (Hv & [master Hm] & Hks) Hk' Hp Hd Hn1 Hn2. destruct (Hks _ _ Hm) as [_ Hlen].
  rewrite Hm in Hk'. unfold Seal, sealAESGCM. rewrite Hm, bool_decide_eq_false_2 by done. cbn -[newGCM].
  rewrite newGCM_ok by done. cbn -[newGCM]. rewrite newGCM_ok by done. cbn.
  eexists. split; [done|]. split; [done|].
  unfold Open, validateEnvelope, openAESGCM. cbn -[newGCM]. rewrite Hk'. unfold zlen in *. rewrite !gcm_seal_length, !newGCM_ok, Hd, Hn1, Hn2 by done.
  rewrite (proj2 (Z.ltb_ge _ 1)), (proj2 (Z.ltb_ge _ 16)) by (unfold gcm_overhead; lia). cbn -[newGCM].
  rewrite gcm_open_seal, Hd. cbn -[newGCM]. rewrite newGCM_ok by done. cbn. by rewrite gcm_open_seal.
Qed.

(** C39. A secret survives its encryption and the rotation of the master key: what
    a keyring seals it opens, and a keyring with a new active key that retains
    the old one opens it, rotates it to the new key, and opens the result to the
    same secret, which then needs no rotation. *)
Theorem secrets_survive_rotation `{GoMapOrder} active active' ks ks' k k' plaintext data dataKey n1 n2 dataKey' n1' n2' :
  NewKeyring active ks = Ok k → NewKeyring active' ks' = Ok k' → ks' !! active = ks !! active → plaintext ≠ [] →
  zlen dataKey = envelopeKeyBytes → zlen n1 = gcm_nonce_size → zlen n2 = gcm_nonce_size →
  zlen dataKey' = envelopeKeyBytes → zlen n1' = gcm_nonce_size → zlen n2' = gcm_nonce_size →
  ∃ e e', Seal (Some k) plaintext data (Ok dataKey) (Ok n1) (Ok n2) = Ok e ∧
    Open (Some k) e data = Ok plaintext ∧ NeedsRotation (Some k) e = false ∧
    Open (Some k') e data = Ok plaintext ∧
    Rotate (Some k') e data (Ok dataKey') (Ok n1') (Ok n2') = Ok e' ∧
    Open (Some k') e' data = Ok plaintext ∧ NeedsRotation (Some k') e' = false.
Proof.
  intros (Hk & Ea & Ek)%NewKeyring_ok (Hk' & Ea' & Ek')%NewKeyring_ok Hret Hp Hd Hn1 Hn2 Hd' Hn1' Hn2'.
  destruct (open_sealed k k plaintext data dataKey n1 n2) as (e & Hs & Hv & Ho); [done..|].
  destruct (open_sealed k k' plaintext data dataKey n1 n2) as (e0 & Hs0 & _ & Ho'); [done|by rewrite Ea, Ek, Ek'|done..|].
  rewrite Hs in Hs0. injection Hs0 as <-.
  destruct (open_sealed k' k' plaintext data dataKey' n1' n2') as (e' & Hs' & Hv' & Ho''); [done..|].
  exists e, e'. unfold Rotate, NeedsRotation. rewrite Ho', Hv, Hv', !Z.eqb_refl. by repeat split.
Qed.
End SecretFacts.

Module KeyringSamples.
(** A cipher for the samples: the plaintext, and sixteen bytes that depend on nothing. *)
Definition sample_seal (key nonce plaintext data : list Z) : list Z := plaintext ++ replicate 16 0.
Definition sample_open (key nonce ciphertext data : list Z) : option (list Z) :=
  Some (take (length ciphertext - 16) ciphertext).

Lemma sample_open_seal key nonce plaintext data : sample_open key nonce (sample_seal key nonce plaintext data) data = Some plaintext.
Proof. unfold sample_open, sample_seal. rewrite length_app, length_replicate, Nat.add_sub. by rewrite take_app_length. Qed.

Lemma sample_seal_length key nonce plaintext data :
  Z.of_nat (length (sample_seal key nonce plaintext data)) = Z.of_nat (length plaintext) + gcm_overhead.
Proof. unfold sample_seal, gcm_overhead. rewrite length_app, length_replicate. lia. Qed.

#[export] Instance sample_cipher : AESGCM := {|
  gcm_seal := sample_seal;
  gcm_open := sample_open;
  gcm_open_seal := sample_open_seal;
  gcm_seal_length := sample_seal_length;
|}.

#[export] Instance sample_order : GoMapOrder := {|
  map_order := λ A l, l;
  map_order_perm := λ A l, Permutation_refl l;
|}.

Definition key1 : list Z := replicate 32 17.
Definition key2 : list Z := replicate 32 34.
Definition old_ring : Keyring := mkKeyring 1 {[1 := key1]}.
Definition new_ring : Keyring := mkKeyring 2 {[1 := key1; 2 := key2]}.
End KeyringSamples.

Lemma secrets_survive_rotation_witness :
  ∃ e e', @Seal KeyringSamples.sample_cipher (Some KeyringSamples.old_ring) [1; 2; 3] [9] (Ok (replicate 32 5)) (Ok (replicate 12 6)) (Ok (replicate 12 7)) = Ok e ∧
    @Rotate KeyringSamples.sample_cipher (Some KeyringSamples.new_ring) e [9] (Ok (replicate 32 5)) (Ok (replicate 12 6)) (Ok (replicate 12 7)) = Ok e' ∧
    NeedsRotation (Some KeyringSamples.new_ring) e' = false.
Proof.
  destruct (@secrets_survive_rotation KeyringSamples.sample_cipher KeyringSamples.sample_order 1 2
    {[1 := KeyringSamples.key1]} {[1 := KeyringSamples.key1; 2 := KeyringSamples.key2]} KeyringSamples.old_ring KeyringSamples.new_ring
    [1; 2; 3] [9] (replicate 32 5) (replicate 12 6) (replicate 12 7) (replicate 32 5) (replicate 12 6) (replicate 12 7))
    as (e & e' & Hs & _ & _ & _ & Hr & _ & Hn); [first [reflexivity|discriminate]..|].
  exists e, e'. split; [exact Hs|]. split; [exact Hr|exact Hn].
Defined.
