(* ===== verification/Regex.v ===== *)
(** * Regular expressions

    The regular expressions the code compiles with [regexp.MustCompile] are
    written here constructor for constructor, and matched with Brzozowski
    derivatives; [re_match_spec] says the matcher decides the language. Every
    pattern of the code is anchored ([^...$]) except the template placeholders,
    which [replace_all_re] substitutes from the left. *)

From S2P Require Import Prelude GoStr.
From Stdlib Require Import Ascii.

Inductive re :=
| REmpty
| REps
| RCls (p : ascii → bool)
| RCat (a b : re)
| RAlt (a b : re)
| RStar (a : re).

Definition mk_cat (a b : re) : re :=
  match a, b with
  | REmpty, _ => REmpty
  | _, REmpty => REmpty
  | REps, _ => b
  | _, _ => RCat a b
  end.

Definition mk_alt (a b : re) : re :=
  match a, b with
  | REmpty, _ => b
  | _, REmpty => a
  | _, _ => RAlt a b
  end.

Fixpoint nullable (r : re) : bool :=
  match r with
  | REmpty => false
  | REps => true
  | RCls _ => false
  | RCat a b => nullable a && nullable b
  | RAlt a b => nullable a || nullable b
  | RStar _ => true
  end.

Fixpoint der (c : ascii) (r : re) : re :=
  match r with
  | REmpty => REmpty
  | REps => REmpty
  | RCls p => if p c then REps else REmpty
  | RCat a b =>
      let first := mk_cat (der c a) b in
      if nullable a then mk_alt first (der c b) else first
  | RAlt a b => mk_alt (der c a) (der c b)
  | RStar a => mk_cat (der c a) r
  end.

(** [re.MatchString(s)] for an anchored pattern. *)
Fixpoint re_match (r : re) (s : string) : bool :=
  match s with
  | EmptyString => nullable r
  | String c s' => re_match (der c r) s'
  end.

(** ** Pattern notation *)

(** [x?], [x+], [x{lo,hi}] *)
Definition r_opt (r : re) : re := RAlt r REps.
Definition r_plus (r : re) : re := RCat r (RStar r).
Fixpoint r_upto (n : nat) (r : re) : re :=
  match n with
  | O => REps
  | S n' => r_opt (RCat r (r_upto n' r))
  end.
Fixpoint r_times (n : nat) (r : re) : re :=
  match n with
  | O => REps
  | S n' => RCat r (r_times n' r)
  end.
Definition r_range (lo hi : nat) (r : re) : re := RCat (r_times lo r) (r_upto (hi - lo) r).

Definition r_byte (c : ascii) : re := RCls (Ascii.eqb c).
Fixpoint r_lit (s : string) : re :=
  match s with
  | EmptyString => REps
  | String c s' => RCat (r_byte c) (r_lit s')
  end.
Fixpoint r_seq (rs : list re) : re :=
  match rs with
  | [] => REps
  | [r] => r
  | r :: rs' => RCat r (r_seq rs')
  end.
Fixpoint r_alts (rs : list re) : re :=
  match rs with
  | [] => REmpty
  | [r] => r
  | r :: rs' => RAlt r (r_alts rs')
  end.

(** Character classes. *)
Definition c_any (chars : string) (c : ascii) : bool := contains_byte (Ascii.eqb c) chars.
Definition c_or (p q : ascii → bool) (c : ascii) : bool := p c || q c.
(** [[A-Za-z0-9]] *)
Definition c_alnum : ascii → bool := c_or is_digit (c_or is_upper is_lower).
(** [[a-z0-9]] *)
Definition c_lower_alnum : ascii → bool := c_or is_digit is_lower.
(** [\s] *)
Definition c_space (c : ascii) : bool :=
  in_range 9 10 c || in_range 12 13 c || (code c =? 32).

(** ** Substitution *)

Fixpoint longest_match (r : re) (n : nat) (best : option nat) (s : string) : option nat :=
  let best := if nullable r then Some n else best in
  match s with
  | EmptyString => best
  | String c s' => longest_match (der c r) (S n) best s'
  end.

(** [ReplaceAllString] with a literal replacement, for a pattern whose match at
    a given position is unique, such as the placeholders, which end at the first
    closing bracket. *)
Fixpoint replace_re_from (r : re) (new : string) (skip : nat) (s : string) : string :=
  match s with
  | EmptyString => EmptyString
  | String c s' =>
      match skip with
      | S k => replace_re_from r new k s'
      | O => match longest_match r 0 None s with
             | Some (S n) => new +:+ replace_re_from r new n s'
             | _ => String c (replace_re_from r new 0 s')
             end
      end
  end.
Definition replace_all_re (r : re) (s new : string) : string := replace_re_from r new 0 s.

(** ** The language of a pattern *)

Inductive re_in : re → string → Prop :=
| in_eps : re_in REps ""
| in_cls p c : p c = true → re_in (RCls p) (String c "")
| in_cat a b s t : re_in a s → re_in b t → re_in (RCat a b) (s +:+ t)
| in_alt_l a b s : re_in a s → re_in (RAlt a b) s
| in_alt_r a b s : re_in b s → re_in (RAlt a b) s
| in_star_nil a : re_in (RStar a) ""
| in_star_cons a s t : re_in a s → re_in (RStar a) t → re_in (RStar a) (s +:+ t).

#[export] Hint Constructors re_in : nak.

(** * The matcher decides the language *)

Lemma string_app_eq_nil s t : s +:+ t = "" → s = "" ∧ t = "".
Proof. destruct s as [|c s]; [done|]. by rewrite string_app_cons. Qed.

Lemma in_cls_spec p s : re_in (RCls p) s ↔ ∃ c, s = String c "" ∧ p c = true.
Proof. split; [inversion 1; eauto | intros (c & -> & ?); eauto with nak]. Qed.

Lemma in_cat_spec a b s : re_in (RCat a b) s ↔ ∃ x y, s = x +:+ y ∧ re_in a x ∧ re_in b y.
Proof. split; [inversion 1; subst; eauto 6 | intros (x & y & -> & ? & ?); eauto with nak]. Qed.

Lemma in_alt_spec a b s : re_in (RAlt a b) s ↔ re_in a s ∨ re_in b s.
Proof. split; [inversion 1; eauto | intros []; eauto with nak]. Qed.

Lemma in_eps_spec s : re_in REps s ↔ s = "".
Proof. split; [by inversion 1 | intros ->; eauto with nak]. Qed.

Lemma nullable_spec r : nullable r = true ↔ re_in r "".
Proof.
  induction r as [| |p|a IHa b IHb|a IHa b IHb|a IHa]; simpl.
  - split; [done | by inversion 1].
  - split; eauto with nak.
  - split; [done | by inversion 1].
  - rewrite andb_true_iff, IHa, IHb. split.
    + intros [Ha Hb]. exact (in_cat _ _ "" "" Ha Hb).
    + intros (s & t & Heq & Hs & Ht)%in_cat_spec.
      symmetry in Heq. apply string_app_eq_nil in Heq as [-> ->]. done.
  - rewrite orb_true_iff, IHa, IHb. split; [intros []; eauto with nak | inversion 1; eauto].
  - split; eauto with nak.
Qed.

Lemma mk_cat_spec a b s : re_in (mk_cat a b) s ↔ re_in (RCat a b) s.
Proof.
  assert (∀ x, ¬ re_in REmpty x) as Hemp by (intros x; inversion 1).
  destruct a, b; simpl; try done;
    split; intros Hin;
    try (exfalso; by apply (Hemp s));
    try (inversion Hin as [| |? ? x y Hx Hy| | | |]; subst; exfalso; by eapply Hemp);
    try exact (in_cat REps _ "" s in_eps Hin);
    inversion Hin as [| |? ? x y Hx Hy| | | |]; subst; inversion Hx; subst; done.
Qed.

Lemma mk_alt_spec a b s : re_in (mk_alt a b) s ↔ re_in (RAlt a b) s.
Proof.
  assert (∀ x, ¬ re_in REmpty x) as Hemp by (intros x; inversion 1).
  destruct a, b; simpl; try done; (split; intros Hin;
    [eauto with nak | inversion Hin; subst; try done; exfalso; by eapply Hemp]).
Qed.

Lemma in_star_inv a c s :
  re_in (RStar a) (String c s) →
  ∃ x y, s = x +:+ y ∧ re_in a (String c x) ∧ re_in (RStar a) y.
Proof.
  remember (RStar a) as r eqn:Hr. remember (String c s) as w eqn:Hw.
  intros Hin. revert Hr Hw.
  induction Hin as [| | | | | |a' x y Hx _ Hy IH]; intros Hr Hw; try done.
  simplify_eq. destruct x as [|d x].
  - rewrite string_app_nil_l in Hw. subst. by apply IH.
  - rewrite string_app_cons in Hw. simplify_eq. eauto.
Qed.

Lemma der_spec r c s : re_in (der c r) s ↔ re_in r (String c s).
Proof.
  revert s. induction r as [| |p|a IHa b IHb|a IHa b IHb|a IHa]; intros s; simpl.
  - split; inversion 1.
  - split; inversion 1.
  - destruct (p c) eqn:E; split; inversion 1; subst; eauto with nak; congruence.
  - assert (re_in (RCat (der c a) b) s ∨ (re_in a "" ∧ re_in b (String c s)) ↔
            re_in (RCat a b) (String c s)) as <-.
    { split.
      - intros [Hin | [Ha Hb]].
        + inversion Hin as [| |? ? x y Hx Hy| | | |]; subst.
          apply IHa in Hx. exact (in_cat _ _ _ _ Hx Hy).
        + exact (in_cat _ _ "" _ Ha Hb).
      - intros (x & y & Heq & Hx & Hy)%in_cat_spec.
        destruct x as [|d x].
        + rewrite string_app_nil_l in Heq. subst. eauto.
        + rewrite string_app_cons in Heq. simplify_eq. left. apply IHa in Hx. eauto with nak. }
    destruct (nullable a) eqn:E.
    + apply nullable_spec in E. rewrite mk_alt_spec. split.
      * inversion 1; subst; [left; by apply mk_cat_spec | right; by rewrite <- IHb].
      * intros [Hin | [_ Hin]]; [apply in_alt_l; by apply mk_cat_spec|].
        apply in_alt_r. by apply IHb.
    + rewrite mk_cat_spec. rewrite <- nullable_spec, E. naive_solver.
  - rewrite mk_alt_spec. split; inversion 1; subst.
    + apply in_alt_l. by apply IHa.
    + apply in_alt_r. by apply IHb.
    + apply in_alt_l. by apply IHa.
    + apply in_alt_r. by apply IHb.
  - rewrite mk_cat_spec. split.
    + inversion 1 as [| |? ? x y Hx Hy| | | |]; subst. apply IHa in Hx.
      exact (in_star_cons _ _ _ Hx Hy).
    + intros (x & y & -> & Hx & Hy)%in_star_inv. apply IHa in Hx. eauto with nak.
Qed.

Lemma re_match_spec r s : re_match r s = true ↔ re_in r s.
Proof.
  revert r. induction s as [|c s IH]; intros r; simpl; [apply nullable_spec|].
  by rewrite IH, der_spec.
Qed.

(** ** Languages of the derived forms *)

Lemma in_opt_spec r s : re_in (r_opt r) s ↔ re_in r s ∨ s = "".
Proof. unfold r_opt. by rewrite in_alt_spec, in_eps_spec. Qed.

Lemma in_star_cls p s : re_in (RStar (RCls p)) s ↔ string_forall p s = true.
Proof.
  split.
  - remember (RStar (RCls p)) as r eqn:Hr. intros Hin. revert Hr.
    induction Hin as [| | | | | |a x y Hx _ Hy IH]; intros Hr; simplify_eq; [done|].
    rewrite string_forall_app, IH by done. apply in_cls_spec in Hx as (c & -> & Hc).
    simpl. by rewrite Hc.
  - induction s as [|c s IH]; simpl; [eauto with nak|]. intros [Hc Hs]%andb_true_iff.
    exact (in_star_cons _ (String c "") s (in_cls _ _ Hc) (IH Hs)).
Qed.

Lemma in_plus_cls p s : re_in (r_plus (RCls p)) s ↔ s ≠ "" ∧ string_forall p s = true.
Proof.
  unfold r_plus. rewrite in_cat_spec. split.
  - intros (x & y & -> & (c & -> & Hc)%in_cls_spec & Hy%in_star_cls). simpl. by rewrite Hc.
  - destruct s as [|c s]; [by intros []|]. simpl. intros [_ [Hc Hs]%andb_true_iff].
    exists (String c ""), s. split; [done|]. split; [eauto with nak | by apply in_star_cls].
Qed.

Lemma in_upto_cls n p s :
  re_in (r_upto n (RCls p)) s ↔ (String.length s ≤ n)%nat ∧ string_forall p s = true.
Proof.
  revert s. induction n as [|n IH]; intros s; simpl.
  - rewrite in_eps_spec. split; [by intros -> | intros [Hl _]]. destruct s; [done | simpl in Hl; lia].
  - rewrite in_opt_spec, in_cat_spec. split.
    + intros [(x & y & -> & (c & -> & Hc)%in_cls_spec & [Hl Hy]%IH) | ->]; [|split; [simpl; lia|done]].
      rewrite string_app_cons, string_app_nil_l. simpl. rewrite Hc. split; [lia | done].
    + destruct s as [|c s]; simpl; [auto|]. intros [Hl [Hc Hs]%andb_true_iff].
      left. exists (String c ""), s. split; [done|]. split; [eauto with nak|].
      apply IH. split; [lia | done].
Qed.

Lemma in_times_cls n p s :
  re_in (r_times n (RCls p)) s ↔ String.length s = n ∧ string_forall p s = true.
Proof.
  revert s. induction n as [|n IH]; intros s; simpl.
  - rewrite in_eps_spec. split; [by intros -> | intros [Hl _]]. by destruct s.
  - rewrite in_cat_spec. split.
    + intros (x & y & -> & (c & -> & Hc)%in_cls_spec & [Hl Hy]%IH).
      rewrite string_app_cons, string_app_nil_l. simpl. rewrite Hc. split; [lia|done].
    + destruct s as [|c s]; simpl; [intros [Hl _]; lia|]. intros [Hl [Hc Hs]%andb_true_iff].
      exists (String c ""), s. split; [done|]. split; [eauto with nak|]. apply IH. split; [lia|done].
Qed.

Lemma in_lit_spec l s : re_in (r_lit l) s ↔ s = l.
Proof.
  revert s. induction l as [|c l IH]; intros s; simpl; [apply in_eps_spec|].
  rewrite in_cat_spec. split.
  - intros (x & y & -> & (d & -> & <-%Ascii.eqb_eq)%in_cls_spec & ->%IH). done.
  - intros ->. exists (String c ""), l. split; [done|]. split; [|by apply IH].
    apply in_cls_spec. exists c. by rewrite Ascii.eqb_refl.
Qed.

(** The match of [longest_match] is a prefix in the language. *)
Lemma longest_match_spec r n best s m :
  longest_match r n best s = Some m →
  best = Some m ∨ ∃ x y, s = x +:+ y ∧ re_in r x ∧ m = (n + String.length x)%nat.
Proof.
  revert r n best. induction s as [|c s IH]; intros r n best; cbn [longest_match]; intros HE.
  - destruct (nullable r) eqn:En; [|by left]. right. exists "", "".
    apply nullable_spec in En. simplify_eq. simpl. rewrite Nat.add_0_r. done.
  - apply IH in HE as [HE|(x & y & -> & Hx%der_spec & ->)].
    + destruct (nullable r) eqn:En; [|by left]. right. exists "", (String c s).
      apply nullable_spec in En. simplify_eq. simpl. rewrite Nat.add_0_r. done.
    + right. exists (String c x), y. split; [done|]. split; [done|]. simpl. lia.
Qed.

Lemma replace_re_skip r new x s :
  replace_re_from r new (String.length x) (x +:+ s) = replace_re_from r new 0 s.
Proof. induction x as [|c x IH]; [done|]. rewrite string_app_cons. exact IH. Qed.

(** A pattern whose matches all begin with a byte of [p] leaves a string with no
    such byte alone. *)
Lemma longest_match_void n best s : longest_match REmpty n best s = best.
Proof. revert n. induction s as [|c s IH]; intros n; simpl; [done|]. apply IH. Qed.

Lemma replace_re_absent r new p s :
  nullable r = false → (∀ c, p c = false → der c r = REmpty) →
  contains_byte p s = false → replace_all_re r s new = s.
Proof.
  intros Hnull Hder. unfold replace_all_re.
  induction s as [|c s IH]; intros Hs; [done|].
  apply orb_false_iff in Hs as [Hc Hs].
  cbn [replace_re_from longest_match]. rewrite Hnull, Hder, longest_match_void by done.
  by rewrite IH.
Qed.
