(* ===== verification/Net.v ===== *)
(** * The Go [net] package: addresses and CIDR networks

    [net.ParseIP], [IP.To4], [net.ParseCIDR] and [IPNet.String] as the standard
    library defines them. An address is its 16 bytes, an IPv4 address being the
    mapped form; a parsed address remembers which of the two syntaxes it had,
    which decides the width of a CIDR prefix. *)

From S2P Require Import Prelude GoStr.
From Stdlib Require Import Ascii.

Record addr := Addr { addr_is4 : bool; addr_bytes : list Z }.

Definition v4_in_v6_prefix : list Z := [0; 0; 0; 0; 0; 0; 0; 0; 0; 0; 255; 255].

(** ** IPv4 *)

Definition parse_octet (s : string) : option Z :=
  match s with
  | EmptyString => None
  | String c rest =>
      if (code c =? 48) && negb (String.eqb rest "") then None
      else match digits_value 0 s with
           | Some v => if v <=? 255 then Some v else None
           | None => None
           end
  end.

Definition parse_ipv4 (s : string) : option (list Z) :=
  match split_on "." s with
  | [a; b; c; d] =>
      match parse_octet a, parse_octet b, parse_octet c, parse_octet d with
      | Some a, Some b, Some c, Some d => Some [a; b; c; d]
      | _, _, _, _ => None
      end
  | _ => None
  end.

(** ** IPv6 *)

Definition hex_value (c : ascii) : option Z :=
  if is_digit c then Some (code c - 48)
  else if in_range 97 102 c then Some (code c - 87)
  else if in_range 65 70 c then Some (code c - 55)
  else None.

(** The longest run of hexadecimal digits: how many, their value, the rest. *)
Fixpoint hex_run (n : nat) (acc : Z) (s : string) : nat * Z * string :=
  match s with
  | String c s' =>
      match hex_value c with
      | Some v => hex_run (S n) (acc * 16 + v) s'
      | None => (n, acc, s)
      end
  | EmptyString => (n, acc, s)
  end.

(** [fuel] is the number of 16-bit fields still to fill: every turn of the loop
    that continues fills one. [ip] holds the bytes filled, [ell] the offset of
    the ellipsis. The result is the bytes, the ellipsis and the unread rest. *)
Fixpoint ipv6_fields (fuel : nat) (ip : list Z) (ell : option nat) (s : string)
    : option (list Z * option nat * string) :=
  match fuel with
  | O => Some (ip, ell, s)
  | S fuel' =>
      let '(off, acc, rest) := hex_run 0 0 s in
      if (4 <? Z.of_nat off) || (off =? 0)%nat then None
      else
        let dotted := match rest with String c _ => Ascii.eqb c "." | EmptyString => false end in
        if dotted then
          if (match ell with None => negb (length ip =? 12)%nat | Some _ => false end)
             || (16 <? Z.of_nat (length ip) + 4)
          then None
          else match parse_ipv4 s with
               | Some v4 => Some (ip ++ v4, ell, "")
               | None => None
               end
        else
          let ip := ip ++ [acc / 256; acc `mod` 256] in
          match rest with
          | EmptyString => Some (ip, ell, "")
          | String c rest' =>
              if negb (Ascii.eqb c ":") then None
              else match rest' with
                   | EmptyString => None
                   | String d rest'' =>
                       if Ascii.eqb d ":" then
                         match ell with
                         | Some _ => None
                         | None =>
                             if String.eqb rest'' "" then Some (ip, Some (length ip), "")
                             else ipv6_fields fuel' ip (Some (length ip)) rest''
                         end
                       else ipv6_fields fuel' ip ell rest'
                   end
          end
  end.

Definition parse_ipv6 (s : string) : option (list Z) :=
  if contains s "%" then None
  else
    let '(ell, s) := if has_prefix s "::" then (Some 0%nat, string_drop 2 s) else (None, s) in
    if match ell with Some _ => String.eqb s "" | None => false end
    then Some (replicate 16 0)
    else match ipv6_fields 8 [] ell s with
         | Some (ip, ell, rest) =>
             if negb (String.eqb rest "") then None
             else if (length ip <? 16)%nat then
               match ell with
               | None => None
               | Some k => Some (take k ip ++ replicate (16 - length ip) 0 ++ drop k ip)
               end
             else match ell with
                  | Some _ => None
                  | None => Some ip
                  end
         | None => None
         end.

(** [netip.ParseAddr] without a zone: the first of [.], [:] and [%] decides. *)
Fixpoint addr_kind (s : string) : option bool :=
  match s with
  | EmptyString => None
  | String c s' =>
      if Ascii.eqb c "." then Some true
      else if Ascii.eqb c ":" then Some false
      else if Ascii.eqb c "%" then None
      else addr_kind s'
  end.

Definition parse_addr (s : string) : option addr :=
  match addr_kind s with
  | Some true => match parse_ipv4 s with
                 | Some v4 => Some (Addr true (v4_in_v6_prefix ++ v4))
                 | None => None
                 end
  | Some false => match parse_ipv6 s with
                  | Some b => Some (Addr false b)
                  | None => None
                  end
  | None => None
  end.

Definition parse_ip (s : string) : option (list Z) :=
  match parse_addr s with Some a => Some (addr_bytes a) | None => None end.

(** [IP.To4]. *)
Definition to4 (ip : list Z) : option (list Z) :=
  if bool_decide (take 12 ip = v4_in_v6_prefix) then Some (drop 12 ip) else None.

(** ** Networks *)

Record ipnet := IPNet { net_ip : list Z; net_bits : Z }.

Definition dtoi (s : string) : option Z :=
  if String.eqb s "" then None
  else match digits_value 0 s with
       | Some v => if v <? 16777215 then Some v else None
       | None => None
       end.

(** The bytes of an address with all but the first [n] bits cleared. *)
Fixpoint mask_bytes (n : Z) (b : list Z) : list Z :=
  match b with
  | [] => []
  | x :: b' =>
      (if 8 <=? n then x else if n <=? 0 then 0 else Z.land x (256 - 2 ^ (8 - n)))
      :: mask_bytes (n - 8) b'
  end.

Definition parse_cidr (s : string) : option ipnet :=
  let '(a, m, found) := cut_on "/" s in
  if negb found then None
  else match parse_addr a, dtoi m with
       | Some a, Some n =>
           if addr_is4 a then
             if n <=? 32 then Some (IPNet (mask_bytes n (drop 12 (addr_bytes a))) n) else None
           else if n <=? 128 then Some (IPNet (mask_bytes n (addr_bytes a)) n) else None
       | _, _ => None
       end.

(** ** Printing *)

Fixpoint hex_string (fuel : nat) (v : Z) : string :=
  let digit := String (hex_digit (Z.to_N (v `mod` 16))) "" in
  match fuel with
  | O => digit
  | S fuel' => if v <? 16 then digit else hex_string fuel' (v / 16) +:+ digit
  end.

Fixpoint words16 (b : list Z) : list Z :=
  match b with
  | hi :: lo :: b' => (hi * 256 + lo) :: words16 b'
  | _ => []
  end.

Fixpoint zero_run (ws : list Z) : nat :=
  match ws with
  | w :: ws' => if w =? 0 then S (zero_run ws') else O
  | [] => O
  end.

(** The first longest run of at least two zero fields: start and length. *)
Fixpoint best_zero_run (i : nat) (best : nat * nat) (ws : list Z) : nat * nat :=
  match ws with
  | [] => best
  | _ :: ws' =>
      let l := zero_run ws in
      best_zero_run (S i) (if (2 <=? l)%nat && (snd best <? l)%nat then (i, l) else best) ws'
  end.

Definition print_words (ws : list Z) : string := join ":" (map (hex_string 4) ws).

Definition print_ip (ip : list Z) : string :=
  if (length ip =? 4)%nat then join "." (map itoa ip)
  else match to4 ip with
       | Some v4 => join "." (map itoa v4)
       | None =>
           let ws := words16 ip in
           let '(start, len) := best_zero_run 0 (0%nat, 0%nat) ws in
           if (len =? 0)%nat then print_words ws
           else print_words (take start ws) +:+ "::" +:+ print_words (drop (start + len) ws)
       end.

(** [IPNet.String]; a network inside the mapped range prints as IPv4. *)
Definition print_net (n : ipnet) : string :=
  if (length (net_ip n) =? 16)%nat then
    match to4 (net_ip n) with
    | Some v4 => print_ip v4 +:+ "/" +:+ itoa (net_bits n - 96)
    | None => print_ip (net_ip n) +:+ "/" +:+ itoa (net_bits n)
    end
  else print_ip (net_ip n) +:+ "/" +:+ itoa (net_bits n).

(** * Examples *)

Example parse_ip_v4 : parse_ip "192.0.2.10" = Some (v4_in_v6_prefix ++ [192; 0; 2; 10]).
Proof. vm_compute. reflexivity. Qed.

Example parse_ip_v4_leading_zero : parse_ip "192.0.02.10" = None.
Proof. vm_compute. reflexivity. Qed.

Example parse_ip_v6 : parse_ip "2001:db8::10" = Some [32; 1; 13; 184; 0; 0; 0; 0; 0; 0; 0; 0; 0; 0; 0; 16].
Proof. vm_compute. reflexivity. Qed.

Example parse_ip_v6_edges :
  map (λ s, bool_decide (is_Some (parse_ip s)))
    ["::"; "::1"; "1::"; "1:2:3:4:5:6:7:8"; "1:2:3:4:5:6:7::"; "::ffff:1.2.3.4"; "1:2:3:4:5:6:1.2.3.4";
     "1:2:3:4:5:6:7:8:9"; "1::2::3"; ":1"; "1:"; "12345::"; "fe80::1%eth0"; "::1.2.3"; "1:2:3:4::5:6:7:8"]
  = [true; true; true; true; true; true; true;
     false; false; false; false; false; false; false; false].
Proof. vm_compute. reflexivity. Qed.

Example print_net_examples :
  map (λ s, match parse_cidr s with Some n => print_net n | None => "-" end)
    ["10.1.2.3/8"; "2001:db8::1/32"; "::1/128"; "::ffff:10.1.2.3/104"; "10.0.0.0/33"; "::/0"; "1:0:0:2::/64"]
  = ["10.0.0.0/8"; "2001:db8::/32"; "::1/128"; "10.0.0.0/8"; "-"; "::/0"; "1:0:0:2::/64"].
Proof. vm_compute. reflexivity. Qed.
