(* ===== verification/HostingTypes.v ===== *)
(** * Hosting policy, plan and site types

    The structs of [internal/types] that the policy, quota and site components
    exchange, field for field. A field is named after the Go field with a prefix
    for its struct; [int] and [int64] are [Z], a string-typed enumeration is the
    string itself, a nil slice is the empty list. [zero_*] is the Go zero value. *)

From S2P Require Import Prelude.

(** ** [hosting_policy.go] and the presets of [envelope.go] *)

Record LogsPreset := mkLogsPreset {
  logs_StatisticsEngine : string;
  logs_RotationEnabled : bool;
  logs_RetentionDays : Z;
  logs_StatisticsEnabled : bool;
}.

#[export] Instance eta_LogsPreset : Eta LogsPreset := λ r,
  mkLogsPreset (logs_StatisticsEngine r) (logs_RotationEnabled r) (logs_RetentionDays r)
    (logs_StatisticsEnabled r).

Definition zero_LogsPreset : LogsPreset :=
  mkLogsPreset EmptyString false 0 false.

Record HostingResourcePolicy := mkHostingResourcePolicy {
  res_DiskMB : Z;
  res_TrafficMB : Z;
  res_CPUPercent : Z;
  res_MemoryMB : Z;
  res_IOReadMBPS : Z;
  res_IOWriteMBPS : Z;
  res_MaxTasks : Z;
  res_MaxSites : Z;
  res_MaxDatabases : Z;
  res_MaxDatabaseUsers : Z;
  res_MaxMailboxes : Z;
  res_MaxMailAliases : Z;
  res_MaxSFTPIdentities : Z;
  res_MaxScheduledTasks : Z;
  res_MaxBackups : Z;
  res_BackupStorageMB : Z;
  res_MaxApplications : Z;
  res_ContainerStorageMB : Z;
  res_MaxFTPAccounts : Z;
  res_ValkeyMemoryMB : Z;
  res_MaxPHPWorkers : Z;
  res_MaxPHPReleases : Z;
  res_MaxWordPressSites : Z;
}.

#[export] Instance eta_HostingResourcePolicy : Eta HostingResourcePolicy := λ r,
  mkHostingResourcePolicy (res_DiskMB r) (res_TrafficMB r) (res_CPUPercent r) (res_MemoryMB r)
    (res_IOReadMBPS r) (res_IOWriteMBPS r) (res_MaxTasks r) (res_MaxSites r) (res_MaxDatabases
    r) (res_MaxDatabaseUsers r) (res_MaxMailboxes r) (res_MaxMailAliases r)
    (res_MaxSFTPIdentities r) (res_MaxScheduledTasks r) (res_MaxBackups r) (res_BackupStorageMB
    r) (res_MaxApplications r) (res_ContainerStorageMB r) (res_MaxFTPAccounts r)
    (res_ValkeyMemoryMB r) (res_MaxPHPWorkers r) (res_MaxPHPReleases r) (res_MaxWordPressSites
    r).

Definition zero_HostingResourcePolicy : HostingResourcePolicy :=
  mkHostingResourcePolicy 0 0 0 0 0 0 0 0 0 0 0 0 0 0 0 0 0 0 0 0 0 0 0.

Record HostingPermissionPolicy := mkHostingPermissionPolicy {
  perm_Hosting : bool;
  perm_SSH : bool;
  perm_SFTP : bool;
  perm_ScheduledTasks : bool;
  perm_DNS : bool;
  perm_TLS : bool;
  perm_Mail : bool;
  perm_Databases : bool;
  perm_Backups : bool;
  perm_PHPSettings : bool;
  perm_CGI : bool;
  perm_Applications : bool;
  perm_CustomOCIImages : bool;
  perm_ApplicationEgress : bool;
  perm_FTPS : bool;
  perm_Logs : bool;
  perm_Git : bool;
  perm_Staging : bool;
  perm_Valkey : bool;
  perm_Composer : bool;
  perm_ComposerCodeExecution : bool;
  perm_ManagedPHPDeployments : bool;
  perm_PHPWorkers : bool;
  perm_WordPressToolkit : bool;
  perm_WebStatistics : bool;
}.

#[export] Instance eta_HostingPermissionPolicy : Eta HostingPermissionPolicy := λ r,
  mkHostingPermissionPolicy (perm_Hosting r) (perm_SSH r) (perm_SFTP r) (perm_ScheduledTasks r)
    (perm_DNS r) (perm_TLS r) (perm_Mail r) (perm_Databases r) (perm_Backups r)
    (perm_PHPSettings r) (perm_CGI r) (perm_Applications r) (perm_CustomOCIImages r)
    (perm_ApplicationEgress r) (perm_FTPS r) (perm_Logs r) (perm_Git r) (perm_Staging r)
    (perm_Valkey r) (perm_Composer r) (perm_ComposerCodeExecution r) (perm_ManagedPHPDeployments
    r) (perm_PHPWorkers r) (perm_WordPressToolkit r) (perm_WebStatistics r).

Definition zero_HostingPermissionPolicy : HostingPermissionPolicy :=
  mkHostingPermissionPolicy false false false false false false false false false false false
    false false false false false false false false false false false false false false.

Record HostingWebPolicy := mkHostingWebPolicy {
  web_PreferredDomain : string;
  web_HTTPSRedirect : bool;
  web_RequestRatePerSecond : Z;
  web_RequestBurst : Z;
  web_MaxConnections : Z;
  web_StaticCache : bool;
  web_FastCGIMicrocache : bool;
  web_IndexFiles : string;
  web_RequestBodyLimitMB : Z;
  web_Compression : bool;
  web_CacheTTLSeconds : Z;
  web_RateLimitPerSecond : Z;
  web_RateLimitBurst : Z;
  web_ConnectTimeoutSecs : Z;
  web_ReadTimeoutSecs : Z;
  web_SecurityHeaderPreset : string;
  web_AllowedCIDRs : list string;
  web_ErrorDocument404 : string;
  web_ErrorDocument50X : string;
}.

#[export] Instance eta_HostingWebPolicy : Eta HostingWebPolicy := λ r,
  mkHostingWebPolicy (web_PreferredDomain r) (web_HTTPSRedirect r) (web_RequestRatePerSecond r)
    (web_RequestBurst r) (web_MaxConnections r) (web_StaticCache r) (web_FastCGIMicrocache r)
    (web_IndexFiles r) (web_RequestBodyLimitMB r) (web_Compression r) (web_CacheTTLSeconds r)
    (web_RateLimitPerSecond r) (web_RateLimitBurst r) (web_ConnectTimeoutSecs r)
    (web_ReadTimeoutSecs r) (web_SecurityHeaderPreset r) (web_AllowedCIDRs r)
    (web_ErrorDocument404 r) (web_ErrorDocument50X r).

Definition zero_HostingWebPolicy : HostingWebPolicy :=
  mkHostingWebPolicy EmptyString false 0 0 0 false false EmptyString 0 false 0 0 0 0 0
    EmptyString [] EmptyString EmptyString.

Record HostingPHPPolicy := mkHostingPHPPolicy {
  php_DefaultVersion : string;
  php_AllowedVersions : list string;
  php_FPMMaxChildren : Z;
  php_FPMMaxRequests : Z;
  php_MemoryLimitMB : Z;
  php_MaxExecutionSeconds : Z;
  php_MaxInputSeconds : Z;
  php_PostMaxMB : Z;
  php_UploadMaxMB : Z;
  php_DisplayErrors : bool;
  php_LogErrors : bool;
  php_AllowURLFOpen : bool;
  php_ExecEnabled : bool;
  php_FPMMode : string;
  php_FPMIdleTimeoutSecs : Z;
  php_RequestTerminateSecs : Z;
  php_OPcacheEnabled : bool;
  php_OPcacheMemoryMB : Z;
}.

#[export] Instance eta_HostingPHPPolicy : Eta HostingPHPPolicy := λ r,
  mkHostingPHPPolicy (php_DefaultVersion r) (php_AllowedVersions r) (php_FPMMaxChildren r)
    (php_FPMMaxRequests r) (php_MemoryLimitMB r) (php_MaxExecutionSeconds r)
    (php_MaxInputSeconds r) (php_PostMaxMB r) (php_UploadMaxMB r) (php_DisplayErrors r)
    (php_LogErrors r) (php_AllowURLFOpen r) (php_ExecEnabled r) (php_FPMMode r)
    (php_FPMIdleTimeoutSecs r) (php_RequestTerminateSecs r) (php_OPcacheEnabled r)
    (php_OPcacheMemoryMB r).

Definition zero_HostingPHPPolicy : HostingPHPPolicy :=
  mkHostingPHPPolicy EmptyString [] 0 0 0 0 0 0 0 false false false false EmptyString 0 0 false
    0.

Record HostingMailPolicy := mkHostingMailPolicy {
  mail_Enabled : bool;
  mail_MailboxQuotaMB : Z;
  mail_DKIM : bool;
  mail_DMARCPolicy : string;
  mail_SpamFilter : bool;
  mail_Webmail : bool;
  mail_Autoresponders : bool;
  mail_CatchAll : bool;
}.

#[export] Instance eta_HostingMailPolicy : Eta HostingMailPolicy := λ r,
  mkHostingMailPolicy (mail_Enabled r) (mail_MailboxQuotaMB r) (mail_DKIM r) (mail_DMARCPolicy
    r) (mail_SpamFilter r) (mail_Webmail r) (mail_Autoresponders r) (mail_CatchAll r).

Definition zero_HostingMailPolicy : HostingMailPolicy :=
  mkHostingMailPolicy false 0 false EmptyString false false false false.

Record HostingDNSPolicy := mkHostingDNSPolicy {
  dns_Enabled : bool;
  dns_Mode : string;
  dns_DefaultTTL : Z;
  dns_DNSSEC : bool;
}.

#[export] Instance eta_HostingDNSPolicy : Eta HostingDNSPolicy := λ r,
  mkHostingDNSPolicy (dns_Enabled r) (dns_Mode r) (dns_DefaultTTL r) (dns_DNSSEC r).

Definition zero_HostingDNSPolicy : HostingDNSPolicy :=
  mkHostingDNSPolicy false EmptyString 0 false.

Record HostingAccessPolicy := mkHostingAccessPolicy {
  acc_ShellMode : string;
  acc_NspawnImage : string;
  acc_SFTPOnly : bool;
  acc_SSHIdleTimeoutMins : Z;
  acc_FTPSEnabled : bool;
  acc_FTPSPassiveStart : Z;
  acc_FTPSPassiveEnd : Z;
}.

#[export] Instance eta_HostingAccessPolicy : Eta HostingAccessPolicy := λ r,
  mkHostingAccessPolicy (acc_ShellMode r) (acc_NspawnImage r) (acc_SFTPOnly r)
    (acc_SSHIdleTimeoutMins r) (acc_FTPSEnabled r) (acc_FTPSPassiveStart r) (acc_FTPSPassiveEnd
    r).

Definition zero_HostingAccessPolicy : HostingAccessPolicy :=
  mkHostingAccessPolicy EmptyString EmptyString false 0 false 0 0.

Record HostingBackupPolicy := mkHostingBackupPolicy {
  bak_Enabled : bool;
  bak_RetentionDays : Z;
  bak_Schedule : string;
  bak_RemoteTarget : string;
}.

#[export] Instance eta_HostingBackupPolicy : Eta HostingBackupPolicy := λ r,
  mkHostingBackupPolicy (bak_Enabled r) (bak_RetentionDays r) (bak_Schedule r) (bak_RemoteTarget
    r).

Definition zero_HostingBackupPolicy : HostingBackupPolicy :=
  mkHostingBackupPolicy false 0 EmptyString EmptyString.

Record HostingApplicationPolicy := mkHostingApplicationPolicy {
  app_CatalogEnabled : bool;
  app_AllowedCatalogSlugs : list string;
  app_AllowedRegistries : list string;
  app_AllowedRuntimes : list string;
  app_Rootless : bool;
  app_EgressEnabled : bool;
}.

#[export] Instance eta_HostingApplicationPolicy : Eta HostingApplicationPolicy := λ r,
  mkHostingApplicationPolicy (app_CatalogEnabled r) (app_AllowedCatalogSlugs r)
    (app_AllowedRegistries r) (app_AllowedRuntimes r) (app_Rootless r) (app_EgressEnabled r).

Definition zero_HostingApplicationPolicy : HostingApplicationPolicy :=
  mkHostingApplicationPolicy false [] [] [] false false.

Record HostingValkeyPolicy := mkHostingValkeyPolicy {
  vk_Enabled : bool;
  vk_MemoryMB : Z;
  vk_MaxClients : Z;
  vk_IdleTimeoutSeconds : Z;
  vk_EvictionPolicy : string;
  vk_CPUPercent : Z;
  vk_ProcessLimit : Z;
}.

#[export] Instance eta_HostingValkeyPolicy : Eta HostingValkeyPolicy := λ r,
  mkHostingValkeyPolicy (vk_Enabled r) (vk_MemoryMB r) (vk_MaxClients r) (vk_IdleTimeoutSeconds
    r) (vk_EvictionPolicy r) (vk_CPUPercent r) (vk_ProcessLimit r).

Definition zero_HostingValkeyPolicy : HostingValkeyPolicy :=
  mkHostingValkeyPolicy false 0 0 0 EmptyString 0 0.

Record HostingPolicy := mkHostingPolicy {
  hp_SchemaVersion : Z;
  hp_Resources : HostingResourcePolicy;
  hp_Permissions : HostingPermissionPolicy;
  hp_Web : HostingWebPolicy;
  hp_PHP : HostingPHPPolicy;
  hp_Mail : HostingMailPolicy;
  hp_DNS : HostingDNSPolicy;
  hp_Access : HostingAccessPolicy;
  hp_Backups : HostingBackupPolicy;
  hp_Applications : HostingApplicationPolicy;
  hp_Valkey : HostingValkeyPolicy;
  hp_Logs : LogsPreset;
}.

#[export] Instance eta_HostingPolicy : Eta HostingPolicy := λ r,
  mkHostingPolicy (hp_SchemaVersion r) (hp_Resources r) (hp_Permissions r) (hp_Web r) (hp_PHP r)
    (hp_Mail r) (hp_DNS r) (hp_Access r) (hp_Backups r) (hp_Applications r) (hp_Valkey r)
    (hp_Logs r).

Definition zero_HostingPolicy : HostingPolicy :=
  mkHostingPolicy 0 zero_HostingResourcePolicy zero_HostingPermissionPolicy
    zero_HostingWebPolicy zero_HostingPHPPolicy zero_HostingMailPolicy zero_HostingDNSPolicy
    zero_HostingAccessPolicy zero_HostingBackupPolicy zero_HostingApplicationPolicy
    zero_HostingValkeyPolicy zero_LogsPreset.

Record HostingPreset := mkHostingPreset {
  hpre_WebServer : string;
  hpre_PreferredDomain : string;
  hpre_DefaultPHPVersion : string;
  hpre_AllowedPHPVersions : list string;
}.

#[export] Instance eta_HostingPreset : Eta HostingPreset := λ r,
  mkHostingPreset (hpre_WebServer r) (hpre_PreferredDomain r) (hpre_DefaultPHPVersion r)
    (hpre_AllowedPHPVersions r).

Definition zero_HostingPreset : HostingPreset :=
  mkHostingPreset EmptyString EmptyString EmptyString [].

Record PHPPreset := mkPHPPreset {
  phpre_MaxExecutionSeconds : Z;
  phpre_MaxInputSeconds : Z;
  phpre_PostMaxMB : Z;
  phpre_UploadMaxMB : Z;
  phpre_FPMMaxRequests : Z;
  phpre_DisplayErrors : bool;
  phpre_LogErrors : bool;
  phpre_AllowURLFOpen : bool;
}.

#[export] Instance eta_PHPPreset : Eta PHPPreset := λ r,
  mkPHPPreset (phpre_MaxExecutionSeconds r) (phpre_MaxInputSeconds r) (phpre_PostMaxMB r)
    (phpre_UploadMaxMB r) (phpre_FPMMaxRequests r) (phpre_DisplayErrors r) (phpre_LogErrors r)
    (phpre_AllowURLFOpen r).

Definition zero_PHPPreset : PHPPreset :=
  mkPHPPreset 0 0 0 0 0 false false false.

Record MailPreset := mkMailPreset {
  mpre_WebmailEnabled : bool;
  mpre_SpamFilter : bool;
  mpre_DKIM : bool;
  mpre_DMARCPolicy : string;
}.

#[export] Instance eta_MailPreset : Eta MailPreset := λ r,
  mkMailPreset (mpre_WebmailEnabled r) (mpre_SpamFilter r) (mpre_DKIM r) (mpre_DMARCPolicy r).

Definition zero_MailPreset : MailPreset :=
  mkMailPreset false false false EmptyString.

Record DNSPreset := mkDNSPreset {
  dpre_Mode : string;
  dpre_DefaultTTL : Z;
}.

#[export] Instance eta_DNSPreset : Eta DNSPreset := λ r,
  mkDNSPreset (dpre_Mode r) (dpre_DefaultTTL r).

Definition zero_DNSPreset : DNSPreset :=
  mkDNSPreset EmptyString 0.

Record PerformancePreset := mkPerformancePreset {
  perfpre_MaxConnections : Z;
  perfpre_StaticFileCache : bool;
}.

#[export] Instance eta_PerformancePreset : Eta PerformancePreset := λ r,
  mkPerformancePreset (perfpre_MaxConnections r) (perfpre_StaticFileCache r).

Definition zero_PerformancePreset : PerformancePreset :=
  mkPerformancePreset 0 false.

Record ApplicationsPreset := mkApplicationsPreset {
  apre_CatalogEnabled : bool;
  apre_Allowed : list string;
}.

#[export] Instance eta_ApplicationsPreset : Eta ApplicationsPreset := λ r,
  mkApplicationsPreset (apre_CatalogEnabled r) (apre_Allowed r).

Definition zero_ApplicationsPreset : ApplicationsPreset :=
  mkApplicationsPreset false [].

Record PlanServicePresets := mkPlanServicePresets {
  sp_SchemaVersion : Z;
  sp_Hosting : HostingPreset;
  sp_PHP : PHPPreset;
  sp_Mail : MailPreset;
  sp_DNS : DNSPreset;
  sp_Performance : PerformancePreset;
  sp_Logs : LogsPreset;
  sp_Applications : ApplicationsPreset;
}.

#[export] Instance eta_PlanServicePresets : Eta PlanServicePresets := λ r,
  mkPlanServicePresets (sp_SchemaVersion r) (sp_Hosting r) (sp_PHP r) (sp_Mail r) (sp_DNS r)
    (sp_Performance r) (sp_Logs r) (sp_Applications r).

Definition zero_PlanServicePresets : PlanServicePresets :=
  mkPlanServicePresets 0 zero_HostingPreset zero_PHPPreset zero_MailPreset zero_DNSPreset
    zero_PerformancePreset zero_LogsPreset zero_ApplicationsPreset.

Record SubscriptionEntitlements := mkSubscriptionEntitlements {
  ent_PreserveHostingPolicy : bool;
  ent_StatisticsEdited : bool;
  ent_SubscriptionID : Z;
  ent_PlanName : string;
  ent_DiskMB : Z;
  ent_MaxSites : Z;
  ent_MaxDatabases : Z;
  ent_BandwidthMB : Z;
  ent_MaxMailboxes : Z;
  ent_AllowSSH : bool;
  ent_AllowDNS : bool;
  ent_BackupRetentionDays : Z;
  ent_PHPAllowlist : string;
  ent_PHPFPMMaxChildren : Z;
  ent_PHPMemoryMB : Z;
  ent_SiteDiskQuotaMB : Z;
  ent_MaxBackups : Z;
  ent_BackupStorageMB : Z;
  ent_SourceRevision : Z;
  ent_OverusePolicy : string;
  ent_DiskWarningPercent : Z;
  ent_TrafficWarningPercent : Z;
  ent_MaxSubdomains : Z;
  ent_MaxDomainAliases : Z;
  ent_MaxFTPAccounts : Z;
  ent_ValidityDays : Z;
  ent_HostingEnabled : bool;
  ent_DefaultPHPVersion : string;
  ent_AllowTLS : bool;
  ent_AllowBackups : bool;
  ent_AllowPHPSettings : bool;
  ent_ServicePresets : PlanServicePresets;
  ent_HostingPolicy : HostingPolicy;
}.

#[export] Instance eta_SubscriptionEntitlements : Eta SubscriptionEntitlements := λ r,
  mkSubscriptionEntitlements (ent_PreserveHostingPolicy r) (ent_StatisticsEdited r)
    (ent_SubscriptionID r) (ent_PlanName r) (ent_DiskMB r) (ent_MaxSites r) (ent_MaxDatabases r)
    (ent_BandwidthMB r) (ent_MaxMailboxes r) (ent_AllowSSH r) (ent_AllowDNS r)
    (ent_BackupRetentionDays r) (ent_PHPAllowlist r) (ent_PHPFPMMaxChildren r) (ent_PHPMemoryMB
    r) (ent_SiteDiskQuotaMB r) (ent_MaxBackups r) (ent_BackupStorageMB r) (ent_SourceRevision r)
    (ent_OverusePolicy r) (ent_DiskWarningPercent r) (ent_TrafficWarningPercent r)
    (ent_MaxSubdomains r) (ent_MaxDomainAliases r) (ent_MaxFTPAccounts r) (ent_ValidityDays r)
    (ent_HostingEnabled r) (ent_DefaultPHPVersion r) (ent_AllowTLS r) (ent_AllowBackups r)
    (ent_AllowPHPSettings r) (ent_ServicePresets r) (ent_HostingPolicy r).

Definition zero_SubscriptionEntitlements : SubscriptionEntitlements :=
  mkSubscriptionEntitlements false false 0 EmptyString 0 0 0 0 0 false false 0 EmptyString 0 0 0
    0 0 0 EmptyString 0 0 0 0 0 0 false EmptyString false false false zero_PlanServicePresets
    zero_HostingPolicy.

Record SiteResourceLimits := mkSiteResourceLimits {
  srl_DiskQuotaMB : Z;
  srl_PHPFPMMaxChildren : Z;
  srl_PHPMemoryMB : Z;
  srl_PHPFPMMaxRequests : Z;
  srl_PHPMaxExecutionSeconds : Z;
  srl_PHPMaxInputSeconds : Z;
  srl_PHPPostMaxMB : Z;
  srl_PHPUploadMaxMB : Z;
  srl_PHPDisplayErrors : bool;
  srl_PHPLogErrors : bool;
  srl_PHPAllowURLFOpen : bool;
  srl_PHPExecEnabled : bool;
  srl_RequestRatePerSecond : Z;
  srl_RequestBurst : Z;
  srl_MaxConnections : Z;
  srl_StaticCache : bool;
  srl_FastCGIMicrocache : bool;
  srl_RequestBodyLimitMB : Z;
  srl_Compression : bool;
  srl_CacheTTLSeconds : Z;
  srl_ConnectTimeoutSeconds : Z;
  srl_ReadTimeoutSeconds : Z;
  srl_SecurityHeaderPreset : string;
  srl_IndexFiles : string;
  srl_PreferredDomain : string;
  srl_AllowedCIDRs : string;
  srl_ErrorDocument404 : string;
  srl_ErrorDocument50X : string;
  srl_PHPFPMMode : string;
  srl_PHPFPMIdleTimeoutSecs : Z;
  srl_PHPRequestTerminateSecs : Z;
  srl_PHPOPcacheEnabled : bool;
  srl_PHPOPcacheMemoryMB : Z;
}.

#[export] Instance eta_SiteResourceLimits : Eta SiteResourceLimits := λ r,
  mkSiteResourceLimits (srl_DiskQuotaMB r) (srl_PHPFPMMaxChildren r) (srl_PHPMemoryMB r)
    (srl_PHPFPMMaxRequests r) (srl_PHPMaxExecutionSeconds r) (srl_PHPMaxInputSeconds r)
    (srl_PHPPostMaxMB r) (srl_PHPUploadMaxMB r) (srl_PHPDisplayErrors r) (srl_PHPLogErrors r)
    (srl_PHPAllowURLFOpen r) (srl_PHPExecEnabled r) (srl_RequestRatePerSecond r)
    (srl_RequestBurst r) (srl_MaxConnections r) (srl_StaticCache r) (srl_FastCGIMicrocache r)
    (srl_RequestBodyLimitMB r) (srl_Compression r) (srl_CacheTTLSeconds r)
    (srl_ConnectTimeoutSeconds r) (srl_ReadTimeoutSeconds r) (srl_SecurityHeaderPreset r)
    (srl_IndexFiles r) (srl_PreferredDomain r) (srl_AllowedCIDRs r) (srl_ErrorDocument404 r)
    (srl_ErrorDocument50X r) (srl_PHPFPMMode r) (srl_PHPFPMIdleTimeoutSecs r)
    (srl_PHPRequestTerminateSecs r) (srl_PHPOPcacheEnabled r) (srl_PHPOPcacheMemoryMB r).

Definition zero_SiteResourceLimits : SiteResourceLimits :=
  mkSiteResourceLimits 0 0 0 0 0 0 0 0 false false false false 0 0 0 false false 0 false 0 0 0
    EmptyString EmptyString EmptyString EmptyString EmptyString EmptyString EmptyString 0 0
    false 0.

Record CreateSiteReq := mkCreateSiteReq {
  csr_SecureWithSSL : bool;
  csr_RequestedByUserID : Z;
  csr_SiteID : Z;
  csr_ParentSiteID : Z;
  csr_SubscriptionID : Z;
  csr_Username : string;
  csr_Domain : string;
  csr_PHPVersion : string;
  csr_Docroot : string;
  csr_SharedAccount : bool;
  csr_Limits : SiteResourceLimits;
}.

#[export] Instance eta_CreateSiteReq : Eta CreateSiteReq := λ r,
  mkCreateSiteReq (csr_SecureWithSSL r) (csr_RequestedByUserID r) (csr_SiteID r)
    (csr_ParentSiteID r) (csr_SubscriptionID r) (csr_Username r) (csr_Domain r) (csr_PHPVersion
    r) (csr_Docroot r) (csr_SharedAccount r) (csr_Limits r).

Definition zero_CreateSiteReq : CreateSiteReq :=
  mkCreateSiteReq false 0 0 0 0 EmptyString EmptyString EmptyString EmptyString false
    zero_SiteResourceLimits.
