(* ===== verification/Site.v ===== *)
(** * Site names ([internal/site/create_site.go])

    The validators every privileged operation gates on: tenant usernames, domain
    names, subdomain labels, SFTP roots and the runtime limits that end up in
    nginx configuration, with the lexical path containment check. *)

From S2P Require Import Prelude GoStr Regex Net HostingTypes.
From Stdlib Require Import Ascii.

(** ** [path/filepath] on Unix *)

(** [filepath.Clean] keeps a stack of components (innermost first). *)
Definition clean_step (rooted : bool) (stack : list string) (comp : string) : list string :=
  if String.eqb comp "" || String.eqb comp "." then stack
  else if String.eqb comp ".." then
    match stack with
    | top :: rest => if String.eqb top ".." then comp :: stack else rest
    | [] => if rooted then [] else [comp]
    end
  else comp :: stack.

Definition clean_components (rooted : bool) (p : string) : list string :=
  rev (foldl (clean_step rooted) [] (split_on "/" p)).

Definition path_rooted (p : string) : bool := has_prefix p "/".

Definition filepath_Clean (p : string) : string :=
  let comps := clean_components (path_rooted p) p in
  if path_rooted p then "/" +:+ join "/" comps
  else if bool_decide (comps = []) then "." else join "/" comps.

(** [strings.TrimRight(s, "/")]. *)
Fixpoint drop_slashes (s : string) : string :=
  match s with
  | String c s' => if Ascii.eqb c "/" then drop_slashes s' else s
  | EmptyString => s
  end.
Definition trim_right_slash (s : string) : string := string_rev (drop_slashes (string_rev s)).

Definition PathWithinDir (dir p : string) : bool :=
  let dir := trim_right_slash (filepath_Clean dir) in
  let p := filepath_Clean p in
  if String.eqb p dir then true else has_prefix p (dir +:+ "/").

(** ** Patterns *)

Definition usernameRE : re := RCat (RCls is_lower) (r_range 2 31 (RCls c_lower_alnum)).

Definition label_inner : ascii → bool := c_or c_lower_alnum (Ascii.eqb "-").
Definition labelRE : re :=
  RCat (RCls c_lower_alnum)
       (r_opt (RCat (r_upto 61 (RCls label_inner)) (RCls c_lower_alnum))).

Definition phpVersionRE : re :=
  r_seq [r_plus (RCls is_digit); r_byte "."; r_plus (RCls is_digit)].

Definition c_filename : ascii → bool := c_or c_alnum (c_any "._-").
Definition nginxFileListRE : re :=
  RCat (r_plus (RCls c_filename)) (RStar (RCat (r_byte " ") (r_plus (RCls c_filename)))).

Definition errorDocumentRE : re :=
  RCat (r_byte "/") (r_plus (RCls (c_or c_alnum (c_any "._/-")))).

(** ** Usernames *)

Definition reservedUsernames : list string :=
  ["root"; "daemon"; "bin"; "sys"; "sync"; "games"; "man"; "lp"; "mail";
   "news"; "uucp"; "proxy"; "backup"; "list"; "irc"; "gnats"; "nobody";
   "systemd"; "messagebus"; "syslog"; "sshd"; "ntp"; "dnsmasq"; "tss";
   "postgres"; "mysql"; "mariadb"; "redis"; "memcache"; "mongodb";
   "bind"; "named"; "nginx"; "apache"; "httpd"; "www"; "wwwdata";
   "stalwart"; "roundcube"; "adminer"; "nakpanel"; "admin"; "adm";
   "operator"; "ftp"; "ubuntu"; "sudo"; "staff"; "users"; "shadow";
   "disk"; "tty"; "dialout"; "landscape"; "lxd"; "netdev"; "render";
   "scheduler"; "postfix"; "dovecot"; "opendkim"; "clamav"; "spamd"].

Section Validators.
Context `{GoUnicode}.

Definition ValidateUsername (username : string) : result unit :=
  return_if negb (re_match usernameRE username)
    with errors_New "username must match ^[a-z][a-z0-9]{2,31}$" ;;
  return_if bool_decide (username ∈ reservedUsernames)
    with errors_New ("username " +:+ quote username +:+
                     " is reserved and cannot be used for a tenant account") ;;
  Ok ().

(** ** Domain names *)

Definition NormalizeDomain (domain : string) : string :=
  to_lower (trim_suffix (trim_space domain) ".").

Definition ValidateDomain (domain : string) : result unit :=
  return_if (str_len domain <? 4) || (253 <? str_len domain)
    with errors_New "domain length is invalid" ;;
  return_if contains domain ".." || negb (contains domain ".")
    with errors_New "domain must be a fully qualified name" ;;
  for_each (λ label,
    return_if negb (re_match labelRE label)
      with errors_New ("domain label " +:+ quote label +:+ " is invalid") ;;
    Ok ()) (split_on "." domain).

Definition ValidateSubdomainLabel (label : string) : result unit :=
  return_if negb (re_match labelRE label)
    with errors_New "subdomain name must be one DNS label of 1-63 letters, digits, or hyphens" ;;
  Ok ().

Definition ParseSubdomainLabel (input parent : string) : result string :=
  let name := NormalizeDomain input in
  let parent := NormalizeDomain parent in
  let* name :=
    (if has_suffix name ("." +:+ parent) then Ok (trim_suffix name ("." +:+ parent))
     else if contains name "." then Err (errors_New ("subdomain must be under " +:+ parent))
     else Ok name) in
  let* _ := result_wrap ("enter one name such as blog for blog." +:+ parent +:+ ": ")
              (ValidateSubdomainLabel name) in
  Ok name.

(** ** SFTP roots *)

Definition ValidateSFTPRelativeRoot (value : string) : result unit :=
  let clean := filepath_Clean (trim_space value) in
  if String.eqb clean "" || String.eqb clean "." then Ok ()
  else
    let parts := split_on "/" clean in
    let n := length parts in
    return_if (n <? 2)%nat || (3 <? n)%nat
              || negb (bool_decide (nth 0 parts "" = "domains"))
              || negb (is_ok (ValidateDomain (nth 1 parts "")))
      with errors_New "SFTP root must select a hosted domain" ;;
    return_if (n =? 3)%nat && negb (String.eqb (nth 2 parts "") "public_html")
      with errors_New "SFTP root must select the domain root or public_html" ;;
    Ok ().

(** ** Site requests *)

Definition NormalizeCreateSiteRequest (req : CreateSiteReq) : CreateSiteReq :=
  req <| csr_Username := to_lower (trim_space (csr_Username req)) |>
      <| csr_Domain := NormalizeDomain (csr_Domain req) |>
      <| csr_PHPVersion := trim_space (csr_PHPVersion req) |>
      <| csr_Docroot := trim_space (csr_Docroot req) |>.

Definition one_of (value : string) (allowed : list string) : bool :=
  bool_decide (value ∈ allowed).

Definition validateRuntimeLimits (limits : SiteResourceLimits) : result unit :=
  return_if negb (one_of (srl_PreferredDomain limits) [""; "none"; "www"; "root"; "non-www"])
    with errors_New "preferred domain must be none, www, or root" ;;
  return_if negb (one_of (srl_SecurityHeaderPreset limits) [""; "off"; "balanced"; "strict"])
    with errors_New "invalid security header preset" ;;
  return_if negb (String.eqb (srl_IndexFiles limits) "")
            && negb (re_match nginxFileListRE (srl_IndexFiles limits))
    with errors_New "invalid nginx index file list" ;;
  let* _ := for_each (λ cidr,
      let cidr := trim_space cidr in
      if String.eqb cidr "" then Ok ()
      else match parse_cidr cidr with
           | Some _ => Ok ()
           | None => Err (errors_New ("invalid access CIDR " +:+ quote cidr))
           end) (split_on "," (srl_AllowedCIDRs limits)) in
  for_each (λ value,
      return_if negb (String.eqb value "")
                && (negb (has_prefix value "/") || contains value ".."
                    || negb (re_match errorDocumentRE value))
        with errors_New ("invalid nginx error document " +:+ quote value) ;;
      Ok ()) [srl_ErrorDocument404 limits; srl_ErrorDocument50X limits].

Definition validateCreateSiteRequest (req : CreateSiteReq) (validateUsername : bool) : result unit :=
  let* _ := (if validateUsername then ValidateUsername (csr_Username req) else Ok ()) in
  let* _ := ValidateDomain (csr_Domain req) in
  return_if negb (re_match phpVersionRE (csr_PHPVersion req))
    with errors_New ("php version " +:+ quote (csr_PHPVersion req) +:+ " is not supported") ;;
  return_if negb (String.eqb (csr_Docroot req) "")
    with errors_New "docroot must be empty because it is derived by the agent" ;;
  validateRuntimeLimits (csr_Limits req).

Definition ValidateCreateSiteRequest (req : CreateSiteReq) : result unit :=
  validateCreateSiteRequest req true.

Definition ValidateSubscriptionCreateSiteRequest (req : CreateSiteReq) : result unit :=
  validateCreateSiteRequest req false.

End Validators.

(** * Lemmas on the patterns *)

(** A DNS label: 1 to 63 lower-case letters, digits and hyphens, with a letter or
    digit at each end. *)
Definition dns_label (s : string) : Prop :=
  (1 ≤ String.length s ≤ 63)%nat ∧ string_forall label_inner s = true ∧
  has_prefix s "-" = false ∧ has_suffix s "-" = false.

Lemma one_of_elem s l : one_of s l = true ↔ s ∈ l.
Proof. unfold one_of. apply bool_decide_eq_true. Qed.

Lemma lower_alnum_inner c : c_lower_alnum c = true → label_inner c = true.
Proof. unfold label_inner, c_or. by intros ->. Qed.

Lemma lower_alnum_not_hyphen c : c_lower_alnum c = true → Ascii.eqb "-" c = false.
Proof.
  intros Hc. apply Ascii.eqb_neq. intros <-. done.
Qed.

Lemma prefix_byte c s d : has_prefix (String c s) (String d "") = Ascii.eqb d c.
Proof.
  unfold has_prefix. simpl. destruct (ascii_dec d c) as [->|Hne].
  - by rewrite Ascii.eqb_refl; destruct s.
  - symmetry. by apply Ascii.eqb_neq.
Qed.

Lemma string_snoc_cases s : s = "" ∨ ∃ x c, s = x +:+ String c "".
Proof.
  rewrite <- (string_rev_involutive s). destruct (string_rev s) as [|c t]; [by left|].
  right. exists (string_rev t), c. change (String c t) with (String c "" +:+ t). by rewrite string_rev_app.
Qed.

Lemma suffix_byte x c d : has_suffix (x +:+ String c "") (String d "") = Ascii.eqb d c.
Proof. unfold has_suffix. rewrite string_rev_app. apply prefix_byte. Qed.

Lemma labelRE_spec s : re_match labelRE s = true ↔ dns_label s.
Proof.
  unfold labelRE, dns_label. rewrite re_match_spec, in_cat_spec. split.
  - intros (x & y & -> & (c & -> & Hc)%in_cls_spec & Hy).
    rewrite string_app_cons, string_app_nil_l.
    pose proof (lower_alnum_inner _ Hc) as Hi. pose proof (lower_alnum_not_hyphen _ Hc) as Hh.
    apply in_opt_spec in Hy as [(m & z & -> & [Hl Hm]%in_upto_cls & (d & -> & Hd)%in_cls_spec)%in_cat_spec| ->].
    + assert (String c (m +:+ String d "") = String c m +:+ String d "") as -> by done.
      rewrite suffix_byte, string_length_app, string_forall_app, string_app_cons, prefix_byte,
        Hh, (lower_alnum_not_hyphen _ Hd).
      simpl. rewrite Hi, Hm, (lower_alnum_inner _ Hd). split; [lia | done].
    + assert (has_suffix (String c "") "-" = Ascii.eqb "-" c) as -> by apply (suffix_byte "").
      rewrite prefix_byte, Hh. simpl. rewrite Hi. split; [lia | done].
  - intros (Hl & Hi & Hp & Hs). destruct s as [|c s]; [simpl in Hl; lia|].
    rewrite prefix_byte in Hp. simpl in Hi. apply andb_true_iff in Hi as [Hc Hi].
    assert (∀ b, label_inner b = true → Ascii.eqb "-" b = false → c_lower_alnum b = true) as Hin.
    { intros b. unfold label_inner, c_or. rewrite orb_true_iff. intros [?|?] ?; congruence. }
    exists (String c ""), s. split; [done|]. split; [apply in_cls_spec; eauto|].
    apply in_opt_spec. destruct (string_snoc_cases s) as [->|(m & d & ->)]; [by right|]. left.
    change (String c (m +:+ String d "")) with (String c m +:+ String d "") in Hs.
    rewrite suffix_byte in Hs. rewrite string_forall_app in Hi. simpl in Hi, Hl.
    rewrite string_length_app in Hl. simpl in Hl. bool_split.
    apply in_cat_spec. exists m, (String d ""). split; [done|].
    rewrite in_upto_cls, in_cls_spec. split; [split; [lia|done] | eauto].
Qed.

(** Every byte of a label is solid, lower case and not the separator. *)
Lemma label_inner_code c :
  label_inner c = true → code c = 45 ∨ 48 ≤ code c ≤ 57 ∨ 97 ≤ code c ≤ 122.
Proof.
  unfold label_inner, c_lower_alnum, c_or. rewrite !orb_true_iff.
  intros [[?%in_range_spec|?%in_range_spec]|<-%Ascii.eqb_eq]; [lia|lia|by left].
Qed.

Lemma label_inner_solid c :
  label_inner c = true →
  is_solid c && is_ascii_byte c && negb (is_upper c) && negb (Ascii.eqb c ".") = true.
Proof.
  intros Hr%label_inner_code.
  assert (code c ≠ 46) as Hdot by lia.
  unfold is_solid, is_ascii_byte, is_space_byte, is_upper, in_range.
  rewrite (proj2 (Ascii.eqb_neq c ".")) by (intros ->; by apply Hdot).
  repeat match goal with |- context [?a <? ?b] => destruct (Z.ltb_spec a b); [|lia] end.
  repeat match goal with |- context [?a <=? ?b] => destruct (Z.leb_spec a b) end; simpl;
    destruct (Z.eqb_spec (code c) 32); simpl; first [done | lia].
Qed.

Lemma dns_label_bytes p s :
  (∀ c, label_inner c = true → p c = true) → dns_label s → string_forall p s = true.
Proof. intros Hp (_ & Hs & _). revert Hs. by apply string_forall_impl. Qed.

Section Properties.
Context `{GoUnicode}.

Lemma ValidateDomain_inv d :
  ValidateDomain d = Ok () ↔
  4 ≤ str_len d ≤ 253 ∧ contains d ".." = false ∧ contains d "." = true ∧
  Forall dns_label (split_on "." d).
Proof.
  unfold ValidateDomain.
  rewrite !fail_when_Ok, !orb_false_iff, for_each_Ok, Z.ltb_ge, Z.ltb_ge, negb_false_iff.
  assert (∀ ws, Forall (λ l, fail_when (negb (re_match labelRE l))
            (errors_New ("domain label " +:+ quote l +:+ " is invalid")) (Ok ()) = Ok ()) ws
          ↔ Forall dns_label ws) as ->.
  { intros ws. apply Forall_proper; [|done]. intros l.
    rewrite fail_when_Ok, negb_false_iff, labelRE_spec. tauto. }
  intuition lia.
Qed.

Lemma domain_bytes p d :
  (∀ c, label_inner c = true → p c = true) → p "."%char = true →
  ValidateDomain d = Ok () → string_forall p d = true.
Proof.
  intros Hp Hdot (_ & _ & _ & Hl)%ValidateDomain_inv.
  apply (split_on_forall p "."); [done|].
  eapply Forall_impl; [exact Hl|]. intros l. by apply dns_label_bytes.
Qed.

Lemma domain_solid d : ValidateDomain d = Ok () → string_forall is_solid d = true.
Proof. apply domain_bytes; [|done]. intros c Hc%label_inner_solid. by bool_split. Qed.

Lemma domain_lower d : ValidateDomain d = Ok () →
  string_forall (λ c, is_ascii_byte c && negb (is_upper c)) d = true.
Proof.
  apply domain_bytes; [|done]. intros c Hc%label_inner_solid.
  rewrite !andb_true_iff in *. tauto.
Qed.

Lemma domain_no_trailing_dot d : ValidateDomain d = Ok () → has_suffix d "." = false.
Proof.
  intros (_ & _ & _ & Hl)%ValidateDomain_inv.
  destruct (has_suffix d ".") eqn:E; [|done]. apply has_suffix_spec in E as [t ->].
  assert ("" ∈ split_on "." (t +:+ ".")) as Hin by apply split_on_last.
  rewrite Forall_forall in Hl. apply Hl in Hin as [[Hlen _] _]. simpl in Hlen. lia.
Qed.

(** An accepted domain is already in normal form. *)
Lemma NormalizeDomain_valid d : ValidateDomain d = Ok () → NormalizeDomain d = d.
Proof.
  intros Hd. unfold NormalizeDomain.
  rewrite trim_space_solid by (by apply domain_solid).
  rewrite trim_suffix_none by (by apply domain_no_trailing_dot).
  apply to_lower_id. by apply domain_lower.
Qed.

End Properties.
#[export] Hint Resolve domain_solid domain_lower domain_no_trailing_dot : nak.

(** ** Path containment *)

(** A component [filepath.Clean] leaves in a rooted path. *)
Definition clean_comp (c : string) : Prop :=
  c ≠ "" ∧ c ≠ "." ∧ c ≠ ".." ∧ string_forall (λ b, negb (Ascii.eqb b "/")) c = true.

(** Each component preceded by a slash. *)
Fixpoint flat (cs : list string) : string :=
  match cs with
  | [] => ""
  | c :: cs' => "/" +:+ c +:+ flat cs'
  end.

(** Empty, or continuing with a separator. *)
Definition slashy (z : string) : Prop := z = "" ∨ has_prefix z "/" = true.

Lemma clean_step_rooted stack comp :
  string_forall (λ b, negb (Ascii.eqb b "/")) comp = true →
  Forall clean_comp stack → Forall clean_comp (clean_step true stack comp).
Proof.
  intros Hc Hs. unfold clean_step.
  destruct (String.eqb_spec comp ""), (String.eqb_spec comp "."); simpl; try done.
  destruct (String.eqb_spec comp "..").
  - destruct Hs as [|top rest Htop Hrest]; [done|].
    destruct (String.eqb_spec top ".."); [by destruct Htop as (_ & _ & ? & _) | done].
  - by constructor.
Qed.

Lemma clean_components_rooted p : Forall clean_comp (clean_components true p).
Proof.
  unfold clean_components. apply Forall_rev.
  assert (∀ ws st, Forall (λ w, string_forall (λ b, negb (Ascii.eqb b "/")) w = true) ws →
            Forall clean_comp st → Forall clean_comp (foldl (clean_step true) st ws)) as Hfold.
  { induction ws as [|w ws IH]; intros st Hws Hst; simpl; [done|].
    inversion Hws; subst. apply IH; [done|]. by apply clean_step_rooted. }
  apply Hfold; [apply split_on_parts | constructor].
Qed.

Lemma flat_join cs : cs ≠ [] → "/" +:+ join "/" cs = flat cs.
Proof.
  induction cs as [|c cs IH]; [done|]. intros _. destruct cs as [|d cs].
  - simpl. by rewrite string_app_nil_r.
  - change (join "/" (c :: d :: cs)) with (c +:+ "/" +:+ join "/" (d :: cs)).
    rewrite IH by done. done.
Qed.

Lemma flat_slashy cs : slashy (flat cs).
Proof. destruct cs; [by left | right; apply has_prefix_app]. Qed.

Lemma slashy_app y z : slashy y → slashy z → slashy (y +:+ z).
Proof.
  intros [->|Hy] Hz; [done|]. right. apply has_prefix_spec in Hy as [t ->].
  apply has_prefix_spec. exists (t +:+ z). by rewrite string_app_assoc.
Qed.

(** Slash-free heads before separators are determined by the whole. *)
Lemma comp_unique p d x y :
  string_forall (λ b, negb (Ascii.eqb b "/")) p = true →
  string_forall (λ b, negb (Ascii.eqb b "/")) d = true →
  slashy x → slashy y → p +:+ x = d +:+ y → p = d ∧ x = y.
Proof.
  assert (∀ c s z, slashy (String c s) → string_forall (λ b, negb (Ascii.eqb b "/")) (String c z) = true → False)
    as Habs.
  { intros c s z [?|Hp] Hc; [done|]. rewrite prefix_byte in Hp. apply Ascii.eqb_eq in Hp as <-. done. }
  revert d. induction p as [|c p IH]; intros [|e d] Hp Hd Hx Hy Heq; rewrite ?string_app_nil_l in Heq.
  - done.
  - subst x. exfalso. rewrite string_app_cons in Hx. eauto.
  - subst y. exfalso. rewrite string_app_cons in Hy. eauto.
  - rewrite !string_app_cons in Heq. simplify_eq. simpl in Hp, Hd. bool_split.
    destruct (IH d) as [-> ->]; done.
Qed.

Lemma flat_prefix ds ps :
  Forall clean_comp ds → Forall clean_comp ps →
  (∃ z, flat ps = flat ds +:+ z ∧ slashy z) ↔ ds `prefix_of` ps.
Proof.
  intros Hds. revert ps. induction Hds as [|d ds Hd Hds IH]; intros ps Hps.
  - split; [intros _; apply prefix_nil|]. intros _. exists (flat ps). split; [done | apply flat_slashy].
  - destruct Hps as [|p ps Hp Hps].
    + split; [by intros (z & ? & _) | intros [? ?]; done].
    + assert (clean_comp p) as (_ & _ & _ & Hps') by done.
      assert (clean_comp d) as (_ & _ & _ & Hds') by done.
      split.
      * intros (z & Heq & Hz). simpl in Heq. rewrite !string_app_assoc in Heq.
        apply string_app_inv_head in Heq.
        apply comp_unique in Heq as [-> Heq]; [|done|done|apply flat_slashy|apply slashy_app; [apply flat_slashy|done]].
        apply prefix_cons. apply IH; eauto.
      * intros Hpre. apply prefix_cons_inv_1 in Hpre as Hpd. subst p.
        apply prefix_cons_inv_2, IH in Hpre as (z & Heq & Hz); [|done].
        exists z. split; [|done]. simpl. by rewrite Heq, !string_app_assoc.
Qed.

Lemma trim_right_slash_last x c : Ascii.eqb c "/" = false →
  trim_right_slash (x +:+ String c "") = x +:+ String c "".
Proof.
  intros Hc. unfold trim_right_slash. rewrite string_rev_app.
  change (string_rev (String c "")) with (String c ""). rewrite string_app_cons, string_app_nil_l.
  simpl. rewrite Hc. change (String c (string_rev x)) with (string_rev (String c "") +:+ string_rev x).
  by rewrite <- string_rev_app, string_rev_involutive.
Qed.

Lemma flat_trimmed cs : Forall clean_comp cs → trim_right_slash (flat cs) = flat cs.
Proof.
  intros Hcs. destruct cs as [|c0 cs0]; [done|].
  assert (∃ x c, flat (c0 :: cs0) = x +:+ String c "" ∧ Ascii.eqb c "/" = false) as (x & c & -> & Hc).
  { revert c0 Hcs. induction cs0 as [|c1 cs IH]; intros c0 Hcs.
    - inversion Hcs as [|? ? (Hne & _ & _ & Hb) _]; subst.
      destruct (string_snoc_cases c0) as [->|(x & c & ->)]; [done|].
      exists ("/" +:+ x), c. simpl. rewrite string_app_nil_r, string_app_assoc. split; [done|].
      rewrite string_forall_app in Hb. simpl in Hb. by bool_split.
    - inversion Hcs; subst. destruct (IH c1) as (x & c & Heq & Hc); [done|].
      exists ("/" +:+ c0 +:+ x), c. split; [|done].
      change (flat (c0 :: c1 :: cs)) with ("/" +:+ c0 +:+ flat (c1 :: cs)).
      by rewrite Heq, !string_app_assoc. }
  by apply trim_right_slash_last.
Qed.

Lemma clean_rooted_string p : path_rooted p = true →
  filepath_Clean p = "/" +:+ join "/" (clean_components true p).
Proof. unfold filepath_Clean. by intros ->. Qed.

Lemma dir_string d : path_rooted d = true →
  trim_right_slash (filepath_Clean d) = flat (clean_components true d).
Proof.
  intros Hd. rewrite clean_rooted_string by done.
  destruct (decide (clean_components true d = [])) as [->|Hne]; [done|].
  rewrite flat_join by done. apply flat_trimmed, clean_components_rooted.
Qed.

Lemma clean_path_string p : path_rooted p = true →
  filepath_Clean p = flat (clean_components true p) ∨
  (clean_components true p = [] ∧ filepath_Clean p = "/").
Proof.
  intros Hp. rewrite clean_rooted_string by done.
  destruct (decide (clean_components true p = [])) as [->|Hne]; [by right|].
  left. by apply flat_join.
Qed.

(** ** Dots in a domain *)

Lemma contains_dot_split d : contains d "." = true ↔ (2 ≤ length (split_on "." d))%nat.
Proof.
  induction d as [|c d IH]; [split; [intros Hc; by vm_compute in Hc | simpl; lia]|].
  cbn [contains split_on]. rewrite prefix_byte, orb_true_iff, IH, Ascii.eqb_eq.
  pose proof (split_on_nonempty "." d). destruct (Ascii.eqb_spec c ".") as [->|Hne].
  - split; [intros _|auto]. destruct (split_on "." d); [done|simpl; lia].
  - destruct (split_on "." d) as [|w ws]; [done|]. simpl. split; [intros [?|?]; [congruence|done]|auto].
Qed.

Lemma contains_spec s sub : contains s sub = true ↔ ∃ x y, s = x +:+ sub +:+ y.
Proof.
  induction s as [|c s IH].
  - simpl. rewrite orb_false_r, has_prefix_spec. split; [intros [t Ht]; by exists "", t|].
    intros (x & y & Heq). symmetry in Heq. apply string_app_eq_nil in Heq as [_ Heq]. eauto.
  - cbn [contains]. rewrite orb_true_iff, IH, has_prefix_spec. split.
    + intros [[t Ht] | (x & y & ->)]; [by exists "", t | by exists (String c x), y].
    + intros ([|b x] & y & Heq); [left; by exists y|]. rewrite string_app_cons in Heq. simplify_eq.
      right; eauto.
Qed.

Lemma empty_label_contains_dots d : contains d ".." = true → "" ∈ split_on "." d.
Proof.
  intros (x & y & ->)%contains_spec.
  assert ("" ∈ tail (split_on "." (x +:+ ".." +:+ y))) as Hin.
  { induction x as [|c x IH].
    - rewrite string_app_nil_l. change (".." +:+ y) with (String "." (String "." y)). simpl. constructor.
    - rewrite string_app_cons. simpl. destruct (split_on "." (x +:+ ".." +:+ y)) as [|w ws]; [by inversion IH|].
      destruct (Ascii.eqb c "."); [by right | done]. }
  destruct (split_on "." (x +:+ ".." +:+ y)); [done | by right].
Qed.

Lemma dns_labels_no_dots d : Forall dns_label (split_on "." d) → contains d ".." = false.
Proof.
  intros Hl. destruct (contains d "..") eqn:E; [|done].
  apply empty_label_contains_dots in E. rewrite Forall_forall in Hl. apply Hl in E as [[Hlen _] _].
  simpl in Hlen. lia.
Qed.

Lemma dns_label_no_dot l : dns_label l → contains l "." = false.
Proof.
  intros Hl. destruct (contains l ".") eqn:E; [|done]. apply contains_spec in E as (x & y & ->).
  destruct Hl as (_ & Hl & _). rewrite !string_forall_app in Hl. bool_split. done.
Qed.

(** * Properties *)

(** C20. [PathWithinDir] is exact on absolute paths: it accepts [p] under [dir]
    precisely when the components of the cleaned [dir], with every [..]
    resolved, are an initial segment of the components of the cleaned [p]; a
    sibling that shares the prefix as text (/srv/www-data under /srv/www) is
    refused. *)
Theorem path_within_dir_exact dir p :
  path_rooted dir = true → path_rooted p = true →
  PathWithinDir dir p = true ↔ clean_components true dir `prefix_of` clean_components true p.
Proof.
  intros Hd Hp. unfold PathWithinDir. rewrite dir_string by done.
  rewrite <- flat_prefix by apply clean_components_rooted.
  destruct (clean_path_string p Hp) as [-> | [Hnil ->]].
  - destruct (String.eqb_spec (flat (clean_components true p)) (flat (clean_components true dir))) as [->|Hne].
    + split; [intros _|done]. exists "". split; [by rewrite string_app_nil_r | by left].
    + cbv iota. rewrite has_prefix_spec. split.
      * intros [t ->]. exists ("/" +:+ t). split; [by rewrite string_app_assoc | right; apply has_prefix_app].
      * intros (z & Heq & [->|Hz]); [by rewrite string_app_nil_r in Heq|].
        apply has_prefix_spec in Hz as [t ->]. exists t. by rewrite Heq, string_app_assoc.
  - rewrite Hnil. destruct (clean_components true dir) as [|c cs] eqn:E.
    + split; [intros _; exists ""; split; [done|by left] | intros _; reflexivity].
    + pose proof (clean_components_rooted dir) as Hc. rewrite E in Hc. inversion Hc as [|? ? (Hne & _) _]; subst.
      destruct c as [|b c]; [done|]. split; [|by intros (z & ? & _)].
      change (flat (String b c :: cs)) with (String "/" (String b (c +:+ flat cs))).
      destruct (String.eqb_spec "/" (String "/" (String b (c +:+ flat cs)))) as [Heq|_]; [done|].
      rewrite has_prefix_spec. intros [t Heq]. by rewrite !string_app_cons in Heq.
Qed.

Lemma path_within_dir_witness :
  path_rooted "/srv/www/" = true ∧ path_rooted "/srv/www/a/../b" = true ∧
  (PathWithinDir "/srv/www/" "/srv/www/a/../b" = true ↔
   clean_components true "/srv/www/" `prefix_of` clean_components true "/srv/www/a/../b") ∧
  PathWithinDir "/srv/www/" "/srv/www/a/../b" = true ∧
  PathWithinDir "/srv/www" "/srv/www-data/x" = false ∧
  PathWithinDir "/srv/www" "/srv/www/../../etc/passwd" = false.
Proof.
  split; [reflexivity|]. split; [reflexivity|].
  split; [apply (path_within_dir_exact "/srv/www/" "/srv/www/a/../b"); reflexivity|].
  vm_compute. auto.
Defined.

Section DomainProperties.
Context `{GoUnicode}.

(** [ValidateDomain] accepts exactly the fully qualified ASCII host names: 4 to
    253 bytes, at least two labels, every label 1 to 63 lower-case letters,
    digits and hyphens with neither end a hyphen. *)
Theorem validate_domain_exact d :
  ValidateDomain d = Ok () ↔
  4 ≤ str_len d ≤ 253 ∧ (2 ≤ length (split_on "." d))%nat ∧ Forall dns_label (split_on "." d).
Proof.
  rewrite ValidateDomain_inv, contains_dot_split. split; [tauto|].
  intros (? & ? & Hl). pose proof (dns_labels_no_dots _ Hl). tauto.
Qed.

(** A subdomain label accepted from browser input stays beneath the parent it was
    submitted for: it is one DNS label, and the normalised input was either that
    label alone or that label followed by the normalised parent. *)
Theorem parse_subdomain_confined input parent label :
  ParseSubdomainLabel input parent = Ok label →
  dns_label label ∧ contains label "." = false ∧
  (NormalizeDomain input = label ∨
   NormalizeDomain input = label +:+ "." +:+ NormalizeDomain parent).
Proof.
  unfold ParseSubdomainLabel, ValidateSubdomainLabel. intros Hok. run_ok. subst.
  rename E into Hname. apply negb_false_iff, labelRE_spec in E2.
  split; [done|]. split; [by apply dns_label_no_dot|].
  destruct (has_suffix (NormalizeDomain input) ("." +:+ NormalizeDomain parent)) eqn:Hs.
  - right. apply has_suffix_spec in Hs as [t Ht]. rewrite Ht in *.
    rewrite trim_suffix_app in Hname. by simplify_eq.
  - left. destruct (contains (NormalizeDomain input) "."); by simplify_eq.
Qed.

End DomainProperties.

(** A Unicode table for the witnesses: no case mapping outside ASCII. *)
Definition ascii_only : GoUnicode :=
  {| uni_lower := string_map lower_byte; uni_upper := string_map upper_byte; uni_fold := String.eqb; uni_quote s := dquote +:+ s +:+ dquote |}.

Lemma parse_subdomain_witness :
  @ParseSubdomainLabel ascii_only " Blog.Example.com. " "example.com" = Ok "blog" ∧
  dns_label "blog" ∧
  @ParseSubdomainLabel ascii_only "blog.example.net" "example.com" =
    Err (errors_New "subdomain must be under example.com").
Proof.
  assert (@ParseSubdomainLabel ascii_only " Blog.Example.com. " "example.com" = Ok "blog") as Hok
    by (vm_compute; reflexivity).
  split; [exact Hok|]. split; [|vm_compute; reflexivity].
  exact (proj1 (@parse_subdomain_confined ascii_only " Blog.Example.com. " "example.com" "blog" Hok)).
Defined.
