(* ===== verification/Policy.v ===== *)
(** * Hosting policy ([internal/control/policy/policy.go])

    Validation of a policy, the upgrade of stored snapshots, the default policy of
    a set of entitlements, and the delegation order: [ValidateWithin] decides
    whether a policy grants no more than its provider's ceiling, and
    [ValidateSiteWithin] whether a site override stays inside its subscription.
    The patch engine ([Resolve]) is in [PolicyPatch]. *)

From S2P Require Import Prelude GoStr Regex Net HostingTypes Site.
From Stdlib Require Import Ascii.

(** ** Patterns *)

Definition phpVersionRE : re :=
  r_seq [r_plus (RCls is_digit); r_byte "."; r_plus (RCls is_digit)].

Definition nginxFileListRE : re :=
  RCat (r_plus (RCls c_filename)) (RStar (RCat (r_byte " ") (r_plus (RCls c_filename)))).

Definition relativeWebPathRE : re :=
  RCat (r_opt (r_byte "/")) (RStar (RCls (c_or c_alnum (c_any "._/-")))).

(** ** Statistics engine *)

Definition StatisticsEngine (logs : LogsPreset) : string :=
  if negb (String.eqb (logs_StatisticsEngine logs) "") then logs_StatisticsEngine logs
  else if logs_StatisticsEnabled logs then "goaccess"
  else "disabled".

Definition NormalizeLogs (logs : LogsPreset) : LogsPreset :=
  let logs := logs <| logs_StatisticsEngine := StatisticsEngine logs |> in
  logs <| logs_StatisticsEnabled := String.eqb (logs_StatisticsEngine logs) "goaccess" |>.

(** ** Validation *)

Definition validate_limits (p : HostingPolicy) : list (string * Z) :=
  [("disk_mb", res_DiskMB (hp_Resources p));
   ("traffic_mb", res_TrafficMB (hp_Resources p));
   ("cpu_percent", res_CPUPercent (hp_Resources p));
   ("memory_mb", res_MemoryMB (hp_Resources p));
   ("io_read_mbps", res_IOReadMBPS (hp_Resources p));
   ("io_write_mbps", res_IOWriteMBPS (hp_Resources p));
   ("max_tasks", res_MaxTasks (hp_Resources p));
   ("max_sites", res_MaxSites (hp_Resources p));
   ("max_databases", res_MaxDatabases (hp_Resources p));
   ("max_database_users", res_MaxDatabaseUsers (hp_Resources p));
   ("max_mailboxes", res_MaxMailboxes (hp_Resources p));
   ("max_mail_aliases", res_MaxMailAliases (hp_Resources p));
   ("max_sftp_identities", res_MaxSFTPIdentities (hp_Resources p));
   ("max_scheduled_tasks", res_MaxScheduledTasks (hp_Resources p));
   ("max_backups", res_MaxBackups (hp_Resources p));
   ("backup_storage_mb", res_BackupStorageMB (hp_Resources p));
   ("max_applications", res_MaxApplications (hp_Resources p));
   ("container_storage_mb", res_ContainerStorageMB (hp_Resources p));
   ("max_ftp_accounts", res_MaxFTPAccounts (hp_Resources p));
   ("valkey_memory_mb", res_ValkeyMemoryMB (hp_Resources p));
   ("max_php_workers", res_MaxPHPWorkers (hp_Resources p));
   ("max_php_releases", res_MaxPHPReleases (hp_Resources p));
   ("max_wordpress_sites", res_MaxWordPressSites (hp_Resources p));
   ("fpm_max_children", php_FPMMaxChildren (hp_PHP p));
   ("fpm_max_requests", php_FPMMaxRequests (hp_PHP p));
   ("php_memory_limit_mb", php_MemoryLimitMB (hp_PHP p));
   ("mailbox_quota_mb", mail_MailboxQuotaMB (hp_Mail p));
   ("backup_retention_days", bak_RetentionDays (hp_Backups p));
   ("opcache_memory_mb", php_OPcacheMemoryMB (hp_PHP p));
   ("valkey_policy_memory_mb", vk_MemoryMB (hp_Valkey p))].

Definition validate_nonneg (p : HostingPolicy) : list (string * Z) :=
  [("request_rate_per_second", web_RequestRatePerSecond (hp_Web p));
   ("request_burst", web_RequestBurst (hp_Web p));
   ("max_connections", web_MaxConnections (hp_Web p));
   ("max_execution_seconds", php_MaxExecutionSeconds (hp_PHP p));
   ("max_input_seconds", php_MaxInputSeconds (hp_PHP p));
   ("post_max_mb", php_PostMaxMB (hp_PHP p));
   ("upload_max_mb", php_UploadMaxMB (hp_PHP p));
   ("dns_default_ttl", dns_DefaultTTL (hp_DNS p));
   ("ssh_idle_timeout_minutes", acc_SSHIdleTimeoutMins (hp_Access p));
   ("request_body_limit_mb", web_RequestBodyLimitMB (hp_Web p));
   ("cache_ttl_seconds", web_CacheTTLSeconds (hp_Web p));
   ("rate_limit_per_second", web_RateLimitPerSecond (hp_Web p));
   ("rate_limit_burst", web_RateLimitBurst (hp_Web p));
   ("connect_timeout_seconds", web_ConnectTimeoutSecs (hp_Web p));
   ("read_timeout_seconds", web_ReadTimeoutSecs (hp_Web p));
   ("fpm_idle_timeout_seconds", php_FPMIdleTimeoutSecs (hp_PHP p));
   ("request_terminate_timeout_seconds", php_RequestTerminateSecs (hp_PHP p));
   ("valkey_max_clients", vk_MaxClients (hp_Valkey p));
   ("valkey_idle_timeout_seconds", vk_IdleTimeoutSeconds (hp_Valkey p));
   ("valkey_cpu_percent", vk_CPUPercent (hp_Valkey p));
   ("valkey_process_limit", vk_ProcessLimit (hp_Valkey p))].

(** ** The parts of a policy that delegation compares *)

Definition resource_limits (child : HostingPolicy) : list Z :=
  [res_DiskMB (hp_Resources child);
   res_TrafficMB (hp_Resources child);
   res_CPUPercent (hp_Resources child);
   res_MemoryMB (hp_Resources child);
   res_IOReadMBPS (hp_Resources child);
   res_IOWriteMBPS (hp_Resources child);
   res_MaxTasks (hp_Resources child);
   res_MaxSites (hp_Resources child);
   res_MaxDatabases (hp_Resources child);
   res_MaxDatabaseUsers (hp_Resources child);
   res_MaxMailboxes (hp_Resources child);
   res_MaxMailAliases (hp_Resources child);
   res_MaxSFTPIdentities (hp_Resources child);
   res_MaxScheduledTasks (hp_Resources child);
   res_MaxBackups (hp_Resources child);
   res_BackupStorageMB (hp_Resources child);
   res_MaxApplications (hp_Resources child);
   res_ContainerStorageMB (hp_Resources child);
   res_MaxFTPAccounts (hp_Resources child);
   res_ValkeyMemoryMB (hp_Resources child);
   res_MaxPHPWorkers (hp_Resources child);
   res_MaxPHPReleases (hp_Resources child);
   res_MaxWordPressSites (hp_Resources child)].

Definition permission_flags (child : HostingPolicy) : list bool :=
  [perm_Hosting (hp_Permissions child);
   perm_SSH (hp_Permissions child);
   perm_SFTP (hp_Permissions child);
   perm_ScheduledTasks (hp_Permissions child);
   perm_DNS (hp_Permissions child);
   perm_TLS (hp_Permissions child);
   perm_Mail (hp_Permissions child);
   perm_Databases (hp_Permissions child);
   perm_Backups (hp_Permissions child);
   perm_PHPSettings (hp_Permissions child);
   perm_CGI (hp_Permissions child);
   perm_Applications (hp_Permissions child);
   perm_CustomOCIImages (hp_Permissions child);
   perm_ApplicationEgress (hp_Permissions child);
   perm_FTPS (hp_Permissions child);
   perm_Logs (hp_Permissions child);
   perm_Git (hp_Permissions child);
   perm_Staging (hp_Permissions child);
   perm_Valkey (hp_Permissions child);
   perm_Composer (hp_Permissions child);
   perm_ComposerCodeExecution (hp_Permissions child);
   perm_ManagedPHPDeployments (hp_Permissions child);
   perm_PHPWorkers (hp_Permissions child);
   perm_WordPressToolkit (hp_Permissions child);
   perm_WebStatistics (hp_Permissions child)].

Definition bounded_settings (child ceiling : HostingPolicy) : list (string * Z * Z) :=
  [("request_rate_per_second", web_RequestRatePerSecond (hp_Web child), web_RequestRatePerSecond (hp_Web ceiling));
   ("request_burst", web_RequestBurst (hp_Web child), web_RequestBurst (hp_Web ceiling));
   ("max_connections", web_MaxConnections (hp_Web child), web_MaxConnections (hp_Web ceiling));
   ("request_body_limit_mb", web_RequestBodyLimitMB (hp_Web child), web_RequestBodyLimitMB (hp_Web ceiling));
   ("cache_ttl_seconds", web_CacheTTLSeconds (hp_Web child), web_CacheTTLSeconds (hp_Web ceiling));
   ("rate_limit_per_second", web_RateLimitPerSecond (hp_Web child), web_RateLimitPerSecond (hp_Web ceiling));
   ("rate_limit_burst", web_RateLimitBurst (hp_Web child), web_RateLimitBurst (hp_Web ceiling));
   ("connect_timeout_seconds", web_ConnectTimeoutSecs (hp_Web child), web_ConnectTimeoutSecs (hp_Web ceiling));
   ("read_timeout_seconds", web_ReadTimeoutSecs (hp_Web child), web_ReadTimeoutSecs (hp_Web ceiling));
   ("fpm_max_children", php_FPMMaxChildren (hp_PHP child), php_FPMMaxChildren (hp_PHP ceiling));
   ("fpm_max_requests", php_FPMMaxRequests (hp_PHP child), php_FPMMaxRequests (hp_PHP ceiling));
   ("php_memory_limit_mb", php_MemoryLimitMB (hp_PHP child), php_MemoryLimitMB (hp_PHP ceiling));
   ("max_execution_seconds", php_MaxExecutionSeconds (hp_PHP child), php_MaxExecutionSeconds (hp_PHP ceiling));
   ("max_input_seconds", php_MaxInputSeconds (hp_PHP child), php_MaxInputSeconds (hp_PHP ceiling));
   ("post_max_mb", php_PostMaxMB (hp_PHP child), php_PostMaxMB (hp_PHP ceiling));
   ("upload_max_mb", php_UploadMaxMB (hp_PHP child), php_UploadMaxMB (hp_PHP ceiling));
   ("fpm_idle_timeout_seconds", php_FPMIdleTimeoutSecs (hp_PHP child), php_FPMIdleTimeoutSecs (hp_PHP ceiling));
   ("request_terminate_timeout_seconds", php_RequestTerminateSecs (hp_PHP child), php_RequestTerminateSecs (hp_PHP ceiling));
   ("opcache_memory_mb", php_OPcacheMemoryMB (hp_PHP child), php_OPcacheMemoryMB (hp_PHP ceiling));
   ("mailbox_quota_mb", mail_MailboxQuotaMB (hp_Mail child), mail_MailboxQuotaMB (hp_Mail ceiling));
   ("valkey_memory_mb", vk_MemoryMB (hp_Valkey child), vk_MemoryMB (hp_Valkey ceiling));
   ("valkey_max_clients", vk_MaxClients (hp_Valkey child), vk_MaxClients (hp_Valkey ceiling));
   ("valkey_idle_timeout_seconds", vk_IdleTimeoutSeconds (hp_Valkey child), vk_IdleTimeoutSeconds (hp_Valkey ceiling));
   ("valkey_cpu_percent", vk_CPUPercent (hp_Valkey child), vk_CPUPercent (hp_Valkey ceiling));
   ("valkey_process_limit", vk_ProcessLimit (hp_Valkey child), vk_ProcessLimit (hp_Valkey ceiling))].

Definition delegated_flags (child ceiling : HostingPolicy) : list (string * bool * bool) :=
  [("static cache", web_StaticCache (hp_Web child), web_StaticCache (hp_Web ceiling));
   ("FastCGI microcache", web_FastCGIMicrocache (hp_Web child), web_FastCGIMicrocache (hp_Web ceiling));
   ("compression", web_Compression (hp_Web child), web_Compression (hp_Web ceiling));
   ("PHP error display", php_DisplayErrors (hp_PHP child), php_DisplayErrors (hp_PHP ceiling));
   ("PHP error logging", php_LogErrors (hp_PHP child), php_LogErrors (hp_PHP ceiling));
   ("PHP URL fopen", php_AllowURLFOpen (hp_PHP child), php_AllowURLFOpen (hp_PHP ceiling));
   ("PHP process execution", php_ExecEnabled (hp_PHP child), php_ExecEnabled (hp_PHP ceiling));
   ("OPcache", php_OPcacheEnabled (hp_PHP child), php_OPcacheEnabled (hp_PHP ceiling));
   ("mail service", mail_Enabled (hp_Mail child), mail_Enabled (hp_Mail ceiling));
   ("mail DKIM", mail_DKIM (hp_Mail child), mail_DKIM (hp_Mail ceiling));
   ("mail webmail", mail_Webmail (hp_Mail child), mail_Webmail (hp_Mail ceiling));
   ("DNS service", dns_Enabled (hp_DNS child), dns_Enabled (hp_DNS ceiling));
   ("DNSSEC", dns_DNSSEC (hp_DNS child), dns_DNSSEC (hp_DNS ceiling));
   ("FTPS service", acc_FTPSEnabled (hp_Access child), acc_FTPSEnabled (hp_Access ceiling));
   ("application catalog", app_CatalogEnabled (hp_Applications child), app_CatalogEnabled (hp_Applications ceiling));
   ("application egress", app_EgressEnabled (hp_Applications child), app_EgressEnabled (hp_Applications ceiling));
   ("Valkey service", vk_Enabled (hp_Valkey child), vk_Enabled (hp_Valkey ceiling))].

Definition delegated_lists (child ceiling : HostingPolicy) : list (string * list string * list string) :=
  [("PHP versions", php_AllowedVersions (hp_PHP child), php_AllowedVersions (hp_PHP ceiling));
   ("application catalog", app_AllowedCatalogSlugs (hp_Applications child), app_AllowedCatalogSlugs (hp_Applications ceiling));
   ("application registries", app_AllowedRegistries (hp_Applications child), app_AllowedRegistries (hp_Applications ceiling));
   ("application runtimes", app_AllowedRuntimes (hp_Applications child), app_AllowedRuntimes (hp_Applications ceiling))].

Definition site_limits (sitePolicy subscriptionPolicy : HostingPolicy) : list (string * Z * Z) :=
  [("request_rate_per_second", web_RequestRatePerSecond (hp_Web sitePolicy), web_RequestRatePerSecond (hp_Web subscriptionPolicy));
   ("request_burst", web_RequestBurst (hp_Web sitePolicy), web_RequestBurst (hp_Web subscriptionPolicy));
   ("max_connections", web_MaxConnections (hp_Web sitePolicy), web_MaxConnections (hp_Web subscriptionPolicy));
   ("fpm_max_children", php_FPMMaxChildren (hp_PHP sitePolicy), php_FPMMaxChildren (hp_PHP subscriptionPolicy));
   ("fpm_max_requests", php_FPMMaxRequests (hp_PHP sitePolicy), php_FPMMaxRequests (hp_PHP subscriptionPolicy));
   ("php_memory_limit_mb", php_MemoryLimitMB (hp_PHP sitePolicy), php_MemoryLimitMB (hp_PHP subscriptionPolicy));
   ("opcache_memory_mb", php_OPcacheMemoryMB (hp_PHP sitePolicy), php_OPcacheMemoryMB (hp_PHP subscriptionPolicy))].

Definition site_bounded_settings (sitePolicy subscriptionPolicy : HostingPolicy) : list (string * Z * Z) :=
  [("request_body_limit_mb", web_RequestBodyLimitMB (hp_Web sitePolicy), web_RequestBodyLimitMB (hp_Web subscriptionPolicy));
   ("cache_ttl_seconds", web_CacheTTLSeconds (hp_Web sitePolicy), web_CacheTTLSeconds (hp_Web subscriptionPolicy));
   ("connect_timeout_seconds", web_ConnectTimeoutSecs (hp_Web sitePolicy), web_ConnectTimeoutSecs (hp_Web subscriptionPolicy));
   ("read_timeout_seconds", web_ReadTimeoutSecs (hp_Web sitePolicy), web_ReadTimeoutSecs (hp_Web subscriptionPolicy));
   ("fpm_idle_timeout_seconds", php_FPMIdleTimeoutSecs (hp_PHP sitePolicy), php_FPMIdleTimeoutSecs (hp_PHP subscriptionPolicy));
   ("request_terminate_timeout_seconds", php_RequestTerminateSecs (hp_PHP sitePolicy), php_RequestTerminateSecs (hp_PHP subscriptionPolicy));
   ("max_execution_seconds", php_MaxExecutionSeconds (hp_PHP sitePolicy), php_MaxExecutionSeconds (hp_PHP subscriptionPolicy));
   ("max_input_seconds", php_MaxInputSeconds (hp_PHP sitePolicy), php_MaxInputSeconds (hp_PHP subscriptionPolicy));
   ("post_max_mb", php_PostMaxMB (hp_PHP sitePolicy), php_PostMaxMB (hp_PHP subscriptionPolicy));
   ("upload_max_mb", php_UploadMaxMB (hp_PHP sitePolicy), php_UploadMaxMB (hp_PHP subscriptionPolicy))].

Section Validation.
Context `{GoUnicode} `{GoMapOrder}.

(** [for name, value := range map[string]int{...}]: the entry reported is the
    first the iteration meets. *)
Definition check_limits (p : HostingPolicy) : result unit :=
  for_each (λ '(name, value),
    return_if value <? -1 with errors_New (name +:+ " cannot be less than -1") ;; Ok ())
    (map_order (validate_limits p)).

Definition check_nonneg (p : HostingPolicy) : result unit :=
  for_each (λ '(name, value),
    return_if value <? 0 with errors_New (name +:+ " cannot be negative") ;; Ok ())
    (map_order (validate_nonneg p)).

(** [value != "" && value != a && ...]: the value is set and not one of the
    allowed words. *)
Definition outside (value : string) (allowed : list string) : bool :=
  negb (one_of value ("" :: allowed)).

Definition check_php (p : HostingPolicy) : result unit :=
  return_if negb (String.eqb (php_DefaultVersion (hp_PHP p)) "")
            && negb (one_of (php_DefaultVersion (hp_PHP p)) (php_AllowedVersions (hp_PHP p)))
    with errors_New "default PHP version must be allowed" ;;
  let* _ := for_each (λ version,
      return_if negb (re_match phpVersionRE version)
        with errors_New ("unsupported PHP version " +:+ quote version) ;; Ok ())
      (php_AllowedVersions (hp_PHP p)) in
  return_if outside (php_FPMMode (hp_PHP p)) ["ondemand"; "dynamic"; "static"]
    with errors_New ("unsupported PHP-FPM mode " +:+ quote (php_FPMMode (hp_PHP p))) ;;
  Ok ().

Definition check_web (p : HostingPolicy) : result unit :=
  return_if outside (web_SecurityHeaderPreset (hp_Web p)) ["off"; "balanced"; "strict"]
    with errors_New ("unsupported security header preset " +:+ quote (web_SecurityHeaderPreset (hp_Web p))) ;;
  let* _ := for_each (λ cidr,
      return_if negb (bool_decide (is_Some (parse_cidr cidr)))
        with errors_New ("invalid access CIDR " +:+ quote cidr) ;; Ok ())
      (web_AllowedCIDRs (hp_Web p)) in
  return_if negb (String.eqb (web_IndexFiles (hp_Web p)) "")
            && negb (re_match nginxFileListRE (web_IndexFiles (hp_Web p)))
    with errors_New "index files must be a space-separated filename list" ;;
  for_each (λ candidate,
      return_if negb (String.eqb candidate "")
                && (negb (re_match relativeWebPathRE candidate) || contains candidate "..")
        with errors_New ("invalid custom error document " +:+ quote candidate) ;; Ok ())
      [web_ErrorDocument404 (hp_Web p); web_ErrorDocument50X (hp_Web p)].

Definition check_services (p : HostingPolicy) : result unit :=
  return_if outside (vk_EvictionPolicy (hp_Valkey p)) ["allkeys-lru"; "allkeys-lfu"; "volatile-lru"]
    with errors_New ("unsupported Valkey eviction policy " +:+ quote (vk_EvictionPolicy (hp_Valkey p))) ;;
  return_if outside (mail_DMARCPolicy (hp_Mail p)) ["none"; "quarantine"; "reject"]
    with errors_New ("unsupported DMARC policy " +:+ quote (mail_DMARCPolicy (hp_Mail p))) ;;
  return_if outside (dns_Mode (hp_DNS p)) ["authoritative"; "external"]
    with errors_New ("unsupported DNS mode " +:+ quote (dns_Mode (hp_DNS p))) ;;
  return_if outside (acc_ShellMode (hp_Access p)) ["disabled"; "sftp"; "nspawn"]
    with errors_New ("unsupported shell mode " +:+ quote (acc_ShellMode (hp_Access p))) ;;
  let* _ := for_each (λ runtime,
      return_if negb (one_of runtime ["php"; "python"; "node"; "oci"])
        with errors_New ("unsupported application runtime " +:+ quote runtime) ;; Ok ())
      (app_AllowedRuntimes (hp_Applications p)) in
  for_each (λ registry,
      return_if String.eqb (trim_space registry) "" || contains_any "/ \" registry
        with errors_New ("invalid registry " +:+ quote registry) ;; Ok ())
      (app_AllowedRegistries (hp_Applications p)).

Definition Validate (p : HostingPolicy) : result unit :=
  return_if (hp_SchemaVersion p <? 1) || (5 <? hp_SchemaVersion p)
    with errors_New ("unsupported schema version " +:+ itoa (hp_SchemaVersion p)) ;;
  let engine := StatisticsEngine (hp_Logs p) in
  return_if negb (one_of engine ["disabled"; "goaccess"])
    with errors_New ("unsupported statistics engine " +:+ quote engine) ;;
  let* _ := check_limits p in
  let* _ := check_nonneg p in
  let* _ := check_php p in
  let* _ := check_web p in
  check_services p.

End Validation.

(** ** Upgrade of stored snapshots *)

(** [if field == zero { field = value }]. *)
Definition default_string (value default : string) : string :=
  if String.eqb value "" then default else value.
Definition default_int (value default : Z) : Z := if value =? 0 then default else value.

Definition upgrade_v1 (p : HostingPolicy) : HostingPolicy :=
  let php := hp_PHP p in
  let php := php <| php_FPMMode := default_string (php_FPMMode php) "ondemand" |> in
  let php := php <| php_FPMIdleTimeoutSecs := default_int (php_FPMIdleTimeoutSecs php) 10 |> in
  let php := php <| php_RequestTerminateSecs :=
      default_int (php_RequestTerminateSecs php) (wrap64 (php_MaxExecutionSeconds php + 5)) |> in
  let web := hp_Web p in
  let web := web <| web_IndexFiles := default_string (web_IndexFiles web) "index.php index.html" |> in
  let web := web <| web_RequestBodyLimitMB :=
      default_int (web_RequestBodyLimitMB web) (php_PostMaxMB php) |> in
  let web := web <| web_SecurityHeaderPreset :=
      default_string (web_SecurityHeaderPreset web) "balanced" |> in
  let acc := hp_Access p in
  let acc := acc <| acc_FTPSPassiveStart := default_int (acc_FTPSPassiveStart acc) 49152 |> in
  let acc := acc <| acc_FTPSPassiveEnd := default_int (acc_FTPSPassiveEnd acc) 49252 |> in
  let vk := hp_Valkey p in
  let vk := vk <| vk_EvictionPolicy := default_string (vk_EvictionPolicy vk) "allkeys-lru" |> in
  p <| hp_PHP := php |> <| hp_Web := web |> <| hp_Access := acc |> <| hp_Valkey := vk |>.

Definition Upgrade (p : HostingPolicy) : HostingPolicy :=
  if (hp_SchemaVersion p <? 1) || (5 <? hp_SchemaVersion p) then p
  else
    let p := p <| hp_Logs := NormalizeLogs (hp_Logs p) |> in
    let p := if hp_SchemaVersion p =? 1 then upgrade_v1 p else p in
    p <| hp_SchemaVersion := 5 |>.

(** ** The policy of a set of entitlements *)

Definition allowed_php_versions (allowlist : string) : list string :=
  filter (λ version, version ≠ "") (trim_space <$> split_on "," allowlist).

Definition dns_mode_of_preset (mode : string) : string :=
  if one_of mode [""; "primary"; "authoritative"] then "authoritative"
  else if one_of mode ["secondary"; "external"] then "external"
  else mode.

Definition DefaultFromEntitlements (e : SubscriptionEntitlements) : HostingPolicy :=
  let presets := ent_ServicePresets e in
  zero_HostingPolicy
    <| hp_SchemaVersion := 5 |>
    <| hp_Logs := NormalizeLogs (sp_Logs presets) |>
    <| hp_Resources := zero_HostingResourcePolicy
        <| res_DiskMB := ent_DiskMB e |> <| res_TrafficMB := ent_BandwidthMB e |>
        <| res_MaxSites := ent_MaxSites e |> <| res_MaxDatabases := ent_MaxDatabases e |>
        <| res_MaxMailboxes := ent_MaxMailboxes e |>
        <| res_MaxSFTPIdentities := ent_MaxFTPAccounts e |>
        <| res_MaxBackups := ent_MaxBackups e |>
        <| res_BackupStorageMB := ent_BackupStorageMB e |> |>
    <| hp_Permissions := zero_HostingPermissionPolicy
        <| perm_Hosting := ent_HostingEnabled e |> <| perm_SSH := ent_AllowSSH e |>
        <| perm_SFTP := negb (ent_MaxFTPAccounts e =? 0) |>
        <| perm_DNS := ent_AllowDNS e |> <| perm_TLS := ent_AllowTLS e |>
        <| perm_Mail := negb (ent_MaxMailboxes e =? 0) |>
        <| perm_Databases := negb (ent_MaxDatabases e =? 0) |>
        <| perm_Backups := ent_AllowBackups e |>
        <| perm_PHPSettings := ent_AllowPHPSettings e |> |>
    <| hp_Web := zero_HostingWebPolicy
        <| web_PreferredDomain := hpre_PreferredDomain (sp_Hosting presets) |>
        <| web_MaxConnections := perfpre_MaxConnections (sp_Performance presets) |>
        <| web_StaticCache := perfpre_StaticFileCache (sp_Performance presets) |> |>
    <| hp_PHP := zero_HostingPHPPolicy
        <| php_DefaultVersion := ent_DefaultPHPVersion e |>
        <| php_AllowedVersions := allowed_php_versions (ent_PHPAllowlist e) |>
        <| php_FPMMaxChildren := ent_PHPFPMMaxChildren e |>
        <| php_FPMMaxRequests := phpre_FPMMaxRequests (sp_PHP presets) |>
        <| php_MemoryLimitMB := ent_PHPMemoryMB e |>
        <| php_MaxExecutionSeconds := phpre_MaxExecutionSeconds (sp_PHP presets) |>
        <| php_MaxInputSeconds := phpre_MaxInputSeconds (sp_PHP presets) |>
        <| php_PostMaxMB := phpre_PostMaxMB (sp_PHP presets) |>
        <| php_UploadMaxMB := phpre_UploadMaxMB (sp_PHP presets) |>
        <| php_DisplayErrors := phpre_DisplayErrors (sp_PHP presets) |>
        <| php_LogErrors := phpre_LogErrors (sp_PHP presets) |>
        <| php_AllowURLFOpen := phpre_AllowURLFOpen (sp_PHP presets) |> |>
    <| hp_Mail := zero_HostingMailPolicy
        <| mail_Enabled := negb (ent_MaxMailboxes e =? 0) |>
        <| mail_DKIM := mpre_DKIM (sp_Mail presets) |>
        <| mail_DMARCPolicy := mpre_DMARCPolicy (sp_Mail presets) |>
        <| mail_SpamFilter := mpre_SpamFilter (sp_Mail presets) |>
        <| mail_Webmail := mpre_WebmailEnabled (sp_Mail presets) |> |>
    <| hp_DNS := zero_HostingDNSPolicy
        <| dns_Enabled := ent_AllowDNS e |>
        <| dns_Mode := dns_mode_of_preset (dpre_Mode (sp_DNS presets)) |>
        <| dns_DefaultTTL := dpre_DefaultTTL (sp_DNS presets) |> |>
    <| hp_Access := zero_HostingAccessPolicy
        <| acc_ShellMode := "disabled" |> <| acc_SFTPOnly := true |> |>
    <| hp_Backups := zero_HostingBackupPolicy
        <| bak_Enabled := ent_AllowBackups e |>
        <| bak_RetentionDays := ent_BackupRetentionDays e |> |>
    <| hp_Applications := zero_HostingApplicationPolicy
        <| app_CatalogEnabled := apre_CatalogEnabled (sp_Applications presets) |>
        <| app_AllowedCatalogSlugs := apre_Allowed (sp_Applications presets) |>
        <| app_Rootless := true |> |>
    <| hp_Valkey := zero_HostingValkeyPolicy <| vk_EvictionPolicy := "allkeys-lru" |> |>.

(** ** Delegation *)

Definition limitWithin (child ceiling : Z) : bool :=
  if child =? 0 then true
  else if ceiling =? -1 then true
  else if child =? -1 then false
  else (0 <? ceiling) && (child <=? ceiling).

Definition boundedSettingWithin (child ceiling : Z) : bool :=
  if child =? ceiling then true
  else if ceiling =? 0 then true
  else if (ceiling <? 0) || (child <=? 0) then false
  else child <=? ceiling.

Definition securityHeaderStrength (value : string) : Z :=
  if String.eqb value "strict" then 2
  else if String.eqb value "balanced" then 1
  else 0.

Definition stringSubset (child ceiling : list string) : bool :=
  forallb (λ item, one_of item ceiling) child.

Definition check_bounded (owner : string) : list (string * Z * Z) → result unit :=
  for_each (λ '(name, child, ceiling),
    return_if negb (boundedSettingWithin child ceiling)
      with errors_New (name +:+ " exceeds or removes the " +:+ owner +:+ " ceiling") ;; Ok ()).

Definition ValidateWithin (child ceiling : HostingPolicy) : result unit :=
  return_if String.eqb (StatisticsEngine (hp_Logs child)) "goaccess"
            && negb (String.eqb (StatisticsEngine (hp_Logs ceiling)) "goaccess")
    with errors_New "web statistics are not delegated by the provider" ;;
  let* _ := for_range (λ i '(c, p),
      return_if negb (limitWithin c p)
        with errors_New ("resource limit " +:+ itoa (Z.of_nat i) +:+ " exceeds provider ceiling") ;; Ok ())
      (zip (resource_limits child) (resource_limits ceiling)) in
  let* _ := for_range (λ i '(c, p),
      return_if c && negb p
        with errors_New ("permission " +:+ itoa (Z.of_nat i) +:+ " is not delegated by the provider") ;; Ok ())
      (zip (permission_flags child) (permission_flags ceiling)) in
  let* _ := check_bounded "provider" (bounded_settings child ceiling) in
  let* _ := for_each (λ '(name, c, p),
      return_if c && negb p
        with errors_New (name +:+ " is not delegated by the provider") ;; Ok ())
      (delegated_flags child ceiling) in
  let* _ := for_each (λ '(name, c, p),
      return_if negb (stringSubset c p)
        with errors_New (name +:+ " includes a value not delegated by the provider") ;; Ok ())
      (delegated_lists child ceiling) in
  return_if securityHeaderStrength (web_SecurityHeaderPreset (hp_Web child))
            <? securityHeaderStrength (web_SecurityHeaderPreset (hp_Web ceiling))
    with errors_New "security headers cannot be weaker than the provider policy" ;;
  Ok ().

Definition ValidateSiteWithin (sitePolicy subscriptionPolicy : HostingPolicy) : result unit :=
  let* _ := match ValidateWithin sitePolicy subscriptionPolicy with
            | Ok _ => Ok ()
            | Err err => Err (errors_New (replace_all (error_text err) "provider" "subscription"))
            end in
  let* _ := for_each (λ '(name, child, ceiling),
      return_if negb (limitWithin child ceiling)
        with errors_New (name +:+ " exceeds subscription ceiling") ;; Ok ())
      (site_limits sitePolicy subscriptionPolicy) in
  return_if php_ExecEnabled (hp_PHP sitePolicy) && negb (php_ExecEnabled (hp_PHP subscriptionPolicy))
    with errors_New "PHP process execution is not enabled by the subscription" ;;
  let* _ := check_bounded "subscription" (site_bounded_settings sitePolicy subscriptionPolicy) in
  return_if php_AllowURLFOpen (hp_PHP sitePolicy) && negb (php_AllowURLFOpen (hp_PHP subscriptionPolicy))
    with errors_New "PHP URL fopen is not enabled by the subscription" ;;
  return_if php_DisplayErrors (hp_PHP sitePolicy) && negb (php_DisplayErrors (hp_PHP subscriptionPolicy))
    with errors_New "PHP error display is not enabled by the subscription" ;;
  return_if securityHeaderStrength (web_SecurityHeaderPreset (hp_Web sitePolicy))
            <? securityHeaderStrength (web_SecurityHeaderPreset (hp_Web subscriptionPolicy))
    with errors_New "site security headers cannot be weaker than the subscription policy" ;;
  return_if negb (bool_decide (web_AllowedCIDRs (hp_Web subscriptionPolicy) = []))
            && negb (bool_decide (web_AllowedCIDRs (hp_Web sitePolicy)
                                  = web_AllowedCIDRs (hp_Web subscriptionPolicy)))
    with errors_New "site access CIDRs cannot replace a subscription restriction" ;;
  Ok ().

(** * Specification *)

(** A limit permits a usage: [-1] permits every usage. *)
Definition permits (limit n : Z) : Prop := limit = -1 ∨ n ≤ limit.

(** What a delegated policy may not do: exceed a quota its ceiling enforces,
    use a capability or list entry the ceiling does not grant, leave an
    operational setting outside a ceiling that is set, or weaken the security
    headers. *)
Record PolicyWithin (child ceiling : HostingPolicy) : Prop := {
  pw_statistics : StatisticsEngine (hp_Logs child) = "goaccess" →
                  StatisticsEngine (hp_Logs ceiling) = "goaccess";
  pw_limits : Forall2 (λ c p, ∀ n, 0 ≤ n → permits c n → permits p n)
                (resource_limits child) (resource_limits ceiling);
  pw_permissions : Forall2 (λ c p, c = true → p = true)
                     (permission_flags child) (permission_flags ceiling);
  pw_settings : Forall (λ '(_, c, p), p = 0 ∨ c = p ∨ 0 < c ≤ p) (bounded_settings child ceiling);
  pw_flags : Forall (λ '(_, c, p), c = true → p = true) (delegated_flags child ceiling);
  pw_lists : Forall (λ '(_, c, p), c ⊆ p) (delegated_lists child ceiling);
  pw_headers : securityHeaderStrength (web_SecurityHeaderPreset (hp_Web ceiling))
               ≤ securityHeaderStrength (web_SecurityHeaderPreset (hp_Web child));
}.

(** * Lemmas *)

(** ** The comparisons *)

Lemma limitWithin_permits c p : -1 ≤ c → -1 ≤ p →
  limitWithin c p = true ↔ ∀ n, 0 ≤ n → permits c n → permits p n.
Proof.
  intros Hc Hp. unfold limitWithin, permits.
  destruct (c =? 0) eqn:E0; [|destruct (p =? -1) eqn:E1; [|destruct (c =? -1) eqn:E2]]; bool_split.
  - split; [|done]. intros _ n ? [->|?]; lia.
  - naive_solver.
  - split; [done|]. intros HF. destruct (HF (Z.max 0 (p + 1))); lia.
  - rewrite andb_true_iff, Z.ltb_lt, Z.leb_le. split; [intros [? ?] n ? [?|?]; lia|].
    intros HF. destruct (HF c); lia.
Qed.

Lemma limitWithin_refl z : -1 ≤ z → limitWithin z z = true.
Proof. intros. apply limitWithin_permits; auto. Qed.

Lemma limitWithin_trans a b c :
  limitWithin a b = true → limitWithin b c = true → limitWithin a c = true.
Proof.
  unfold limitWithin. intros H1 H2.
  repeat match goal with
  | H : context [if ?x then _ else _] |- _ => destruct x eqn:?
  | |- context [if ?x then _ else _] => destruct x eqn:?
  end; try done; bool_split; try lia.
Qed.

Lemma boundedSettingWithin_spec c p :
  boundedSettingWithin c p = true ↔ p = 0 ∨ c = p ∨ 0 < c ≤ p.
Proof.
  unfold boundedSettingWithin.
  destruct (c =? p) eqn:?; [|destruct (p =? 0) eqn:?; [|destruct ((p <? 0) || (c <=? 0)) eqn:E]];
    bool_split; try (split; [done|]); try naive_solver lia.
Qed.

Lemma boundedSettingWithin_trans a b c :
  boundedSettingWithin a b = true → boundedSettingWithin b c = true →
  boundedSettingWithin a c = true.
Proof. rewrite !boundedSettingWithin_spec. lia. Qed.

Lemma stringSubset_spec child ceiling : stringSubset child ceiling = true ↔ child ⊆ ceiling.
Proof.
  unfold stringSubset. rewrite forallb_forall. setoid_rewrite <- list_elem_of_In.
  setoid_rewrite one_of_elem. done.
Qed.

Lemma not_escalated (c p : bool) : c && negb p = false ↔ (c = true → p = true).
Proof. destruct c, p; naive_solver. Qed.

(** ** What a run of [ValidateWithin] establishes *)

Lemma check_bounded_Ok owner l :
  check_bounded owner l = Ok () ↔ Forall (λ '(_, c, p), boundedSettingWithin c p = true) l.
Proof.
  apply for_each_Forall. intros [[name c] p]. rewrite fail_when_Ok, negb_false_iff. naive_solver.
Qed.

(** The staged checks as one conjunction, each over the list the code walks. *)
Lemma ValidateWithin_Ok child ceiling :
  ValidateWithin child ceiling = Ok () ↔
  (StatisticsEngine (hp_Logs child) = "goaccess" → StatisticsEngine (hp_Logs ceiling) = "goaccess") ∧
  Forall2 (λ c p, limitWithin c p = true) (resource_limits child) (resource_limits ceiling) ∧
  Forall2 (λ c p, c = true → p = true) (permission_flags child) (permission_flags ceiling) ∧
  Forall (λ '(_, c, p), boundedSettingWithin c p = true) (bounded_settings child ceiling) ∧
  Forall (λ '(_, c, p), c = true → p = true) (delegated_flags child ceiling) ∧
  Forall (λ '(_, c, p), c ⊆ p) (delegated_lists child ceiling) ∧
  securityHeaderStrength (web_SecurityHeaderPreset (hp_Web ceiling))
  ≤ securityHeaderStrength (web_SecurityHeaderPreset (hp_Web child)).
Proof.
  unfold ValidateWithin.
  rewrite fail_when_Ok, not_escalated, !String.eqb_eq. apply and_iff_compat_l.
  rewrite !result_seq_Ok, fail_when_Ok, Z.ltb_ge, check_bounded_Ok.
  rewrite (for_range_zip_Ok (λ c p, limitWithin c p = true)),
    (for_range_zip_Ok (λ c p : bool, c = true → p = true)); [|done| |done|].
  - rewrite (for_each_Forall (λ '(_, c, p), c = true → p = true)),
      (for_each_Forall (λ '(_, c, p), c ⊆ p)); [naive_solver|..];
      intros [[name c] p]; rewrite fail_when_Ok.
    + rewrite negb_false_iff, stringSubset_spec. naive_solver.
    + rewrite not_escalated. naive_solver.
  - intros i c p. rewrite fail_when_Ok, not_escalated. naive_solver.
  - intros i c p. rewrite fail_when_Ok, negb_false_iff. naive_solver.
Qed.

(** ** The field lists, pointwise *)

(** A relation between two policies that holds field by field composes. *)
Ltac fields_compose Htrans :=
  intros Hxy Hyz;
  repeat first
    [ apply Forall_cons in Hxy as [? Hxy]; apply Forall_cons in Hyz as [? Hyz];
      apply Forall_cons; split; [eapply Htrans; eassumption|]
    | by apply Forall_nil ].

Section Composition.
Variables (x y z : HostingPolicy).

Lemma bounded_settings_trans (R : Z → Z → Prop) :
  (∀ a b c, R a b → R b c → R a c) →
  Forall (λ '(_, a, b), R a b) (bounded_settings x y) →
  Forall (λ '(_, a, b), R a b) (bounded_settings y z) →
  Forall (λ '(_, a, b), R a b) (bounded_settings x z).
Proof. intros HR. unfold bounded_settings. fields_compose HR. Qed.

Lemma delegated_flags_trans (R : bool → bool → Prop) :
  (∀ a b c, R a b → R b c → R a c) →
  Forall (λ '(_, a, b), R a b) (delegated_flags x y) →
  Forall (λ '(_, a, b), R a b) (delegated_flags y z) →
  Forall (λ '(_, a, b), R a b) (delegated_flags x z).
Proof. intros HR. unfold delegated_flags. fields_compose HR. Qed.

Lemma delegated_lists_trans (R : list string → list string → Prop) :
  (∀ a b c, R a b → R b c → R a c) →
  Forall (λ '(_, a, b), R a b) (delegated_lists x y) →
  Forall (λ '(_, a, b), R a b) (delegated_lists y z) →
  Forall (λ '(_, a, b), R a b) (delegated_lists x z).
Proof. intros HR. unfold delegated_lists. fields_compose HR. Qed.

Lemma bounded_settings_refl (R : Z → Z → Prop) :
  (∀ a, R a a) → Forall (λ '(_, a, b), R a b) (bounded_settings x x).
Proof. intros HR. repeat constructor; apply HR. Qed.

Lemma delegated_flags_refl (R : bool → bool → Prop) :
  (∀ a, R a a) → Forall (λ '(_, a, b), R a b) (delegated_flags x x).
Proof. intros HR. repeat constructor; apply HR. Qed.

Lemma delegated_lists_refl (R : list string → list string → Prop) :
  (∀ a, R a a) → Forall (λ '(_, a, b), R a b) (delegated_lists x x).
Proof. intros HR. repeat constructor; apply HR. Qed.

End Composition.

Lemma Forall2_compose {A} (R : A → A → Prop) l k m :
  (∀ a b c, R a b → R b c → R a c) → Forall2 R l k → Forall2 R k m → Forall2 R l m.
Proof. intros HR Hlk. revert m. induction Hlk; inversion 1; constructor; eauto. Qed.

(** The settings and features the site check repeats are among those of the
    subscription check. *)
Lemma site_bounded_settings_covered (P : Z → Z → Prop) x y :
  Forall (λ '(_, a, b), P a b) (bounded_settings x y) →
  Forall (λ '(_, a, b), P a b) (site_bounded_settings x y).
Proof.
  intros HF. unfold bounded_settings in HF.
  repeat (apply Forall_cons in HF as [? HF]). repeat (constructor; [assumption|]). constructor.
Qed.

Lemma site_flags_covered x y :
  Forall (λ '(_, a, b), a = true → b = true) (delegated_flags x y) →
  (php_ExecEnabled (hp_PHP x) = true → php_ExecEnabled (hp_PHP y) = true) ∧
  (php_AllowURLFOpen (hp_PHP x) = true → php_AllowURLFOpen (hp_PHP y) = true) ∧
  (php_DisplayErrors (hp_PHP x) = true → php_DisplayErrors (hp_PHP y) = true).
Proof.
  intros HF. unfold delegated_flags in HF.
  repeat (apply Forall_cons in HF as [? HF]). auto.
Qed.

(** ** The statistics engine *)

Lemma StatisticsEngine_nonempty logs : StatisticsEngine logs ≠ "".
Proof.
  unfold StatisticsEngine. destruct (String.eqb _ "") eqn:E; cbn [negb]; bool_split; [|done].
  by destruct (logs_StatisticsEnabled logs).
Qed.

Lemma StatisticsEngine_NormalizeLogs logs : StatisticsEngine (NormalizeLogs logs) = StatisticsEngine logs.
Proof.
  unfold StatisticsEngine at 1. cbn -[StatisticsEngine].
  by rewrite (proj2 (String.eqb_neq _ _) (StatisticsEngine_nonempty logs)).
Qed.

Lemma NormalizeLogs_idem logs : NormalizeLogs (NormalizeLogs logs) = NormalizeLogs logs.
Proof. unfold NormalizeLogs at 1. by rewrite StatisticsEngine_NormalizeLogs. Qed.

(** ** What validation establishes *)

Section ValidateLemmas.
Context `{GoUnicode} `{GoMapOrder}.

(** Acceptance, with the two map iterations replaced by their entries. *)
Lemma Validate_Ok p :
  Validate p = Ok () ↔
  1 ≤ hp_SchemaVersion p ≤ 5 ∧
  StatisticsEngine (hp_Logs p) ∈ ["disabled"; "goaccess"] ∧
  Forall (λ '(_, value), -1 ≤ value) (validate_limits p) ∧
  Forall (λ '(_, value), 0 ≤ value) (validate_nonneg p) ∧
  check_php p = Ok () ∧ check_web p = Ok () ∧ check_services p = Ok ().
Proof.
  unfold Validate, check_limits, check_nonneg.
  rewrite !fail_when_Ok, !result_seq_Ok, !for_each_map_order, orb_false_iff, !Z.ltb_ge,
    negb_false_iff, one_of_elem.
  rewrite (for_each_Forall (λ '(_, value), -1 ≤ value)), (for_each_Forall (λ '(_, value), 0 ≤ value)).
  - naive_solver lia.
  - intros [name value]. rewrite fail_when_Ok, Z.ltb_ge. naive_solver.
  - intros [name value]. rewrite fail_when_Ok, Z.ltb_ge. naive_solver.
Qed.

Lemma valid_resource_limits p :
  Validate p = Ok () → Forall (λ z, -1 ≤ z) (resource_limits p).
Proof.
  intros (_ & _ & HF & _)%Validate_Ok. unfold validate_limits in HF.
  repeat (apply Forall_cons in HF as [? HF]). repeat (constructor; [assumption|]). constructor.
Qed.

Lemma outside_default value default allowed :
  one_of default allowed = true → outside value allowed = false →
  outside (default_string value default) allowed = false.
Proof.
  unfold outside, default_string. intros Hin%one_of_elem Hv.
  destruct (String.eqb value ""); [|done].
  by apply negb_false_iff, one_of_elem, elem_of_cons; right.
Qed.

Lemma default_int_nonneg value default : 0 ≤ value → 0 ≤ default → 0 ≤ default_int value default.
Proof. unfold default_int. destruct (_ =? _); auto. Qed.

(** Validation reads the schema version and the statistics engine only through
    their own checks. *)
Lemma valid_schema p v : 1 ≤ v ≤ 5 → Validate p = Ok () → Validate (p <| hp_SchemaVersion := v |>) = Ok ().
Proof. rewrite !Validate_Ok. intros Hv (_ & HF). split; [exact Hv|exact HF]. Qed.

Lemma valid_NormalizeLogs p :
  Validate p = Ok () → Validate (p <| hp_Logs := NormalizeLogs (hp_Logs p) |>) = Ok ().
Proof.
  rewrite !Validate_Ok. intros (Hv & Hs & HF). split; [exact Hv|]. split; [|exact HF].
  change (StatisticsEngine (NormalizeLogs (hp_Logs p)) ∈ ["disabled"; "goaccess"]).
  by rewrite StatisticsEngine_NormalizeLogs.
Qed.

Lemma valid_upgrade_v1 p :
  Validate p = Ok () → php_MaxExecutionSeconds (hp_PHP p) ≤ int64_max - 5 →
  Validate (upgrade_v1 p) = Ok ().
Proof.
  rewrite !Validate_Ok. intros (Hv & Hs & Hl & Hn & Hphp & Hweb & Hsrv) Hmax.
  split; [exact Hv|]. split; [exact Hs|]. split; [exact Hl|].
  split; [|split; [|split]].
  - unfold validate_nonneg in *. repeat (apply Forall_cons in Hn as [? Hn]).
    repeat constructor; try assumption; cbn; apply default_int_nonneg;
      try assumption; [lia|]. rewrite wrap64_id; unfold in_int64, int64_min, int64_max in *; lia.
  - unfold check_php in *. revert Hphp. run_iff. intros (? & ? & ? & _).
    repeat (split; [done|]). split; [|done]. by apply outside_default.
  - unfold check_web in *. revert Hweb. run_iff. intros (? & ? & ? & ?).
    split; [by apply outside_default|]. split; [done|]. split; [|done]. cbn.
    unfold default_string. destruct (String.eqb (web_IndexFiles _) "") eqn:E; [done|by rewrite E].
  - unfold check_services in *. revert Hsrv. run_iff. intros (? & HF).
    split; [by apply outside_default|exact HF].
Qed.

End ValidateLemmas.

(** * Properties *)

Section Properties.
Context `{GoUnicode} `{GoMapOrder}.


(** A valid policy is within itself: re-saving a subscription with the
    ceiling's own values is always admitted. *)
Theorem validate_within_refl (p : HostingPolicy) :
  Validate p = Ok () → ValidateWithin p p = Ok ().
Proof.
  intros Hp%valid_resource_limits. apply ValidateWithin_Ok.
  split; [done|]. split.
  { apply Forall_Forall2_diag. eapply Forall_impl; [exact Hp|]. apply limitWithin_refl. }
  split; [by apply (Forall_Forall2_diag (λ c p : bool, c = true → p = true)), Forall_true|].
  split; [apply (bounded_settings_refl _ (λ c p, boundedSettingWithin c p = true));
          intros a; by apply boundedSettingWithin_spec; right; left|].
  split; [by apply (delegated_flags_refl _ (λ c p : bool, c = true → p = true))|].
  split; [by apply (delegated_lists_refl _ (λ c p : list string, c ⊆ p))|lia].
Qed.

(** C40. Delegation composes: what a reseller grants within its provider's
    ceiling, and a customer within the reseller's grant, is within the
    provider's ceiling, so no chain of delegations escalates. *)
Theorem validate_within_trans (customer reseller provider : HostingPolicy) :
  ValidateWithin customer reseller = Ok () → ValidateWithin reseller provider = Ok () →
  ValidateWithin customer provider = Ok ().
Proof.
  rewrite !ValidateWithin_Ok. intros (?&?&?&?&?&?&?) (?&?&?&?&?&?&?).
  split; [auto|]. split; [by eapply Forall2_compose; [apply limitWithin_trans|..]|].
  split; [eapply (Forall2_compose (λ c p : bool, c = true → p = true)); eauto|].
  split; [eapply (bounded_settings_trans _ _ _ (λ c p, boundedSettingWithin c p = true));
          eauto using boundedSettingWithin_trans|].
  split; [eapply (delegated_flags_trans _ _ _ (λ c p : bool, c = true → p = true)); eauto|].
  split; [eapply (delegated_lists_trans _ _ _ (λ c p : list string, c ⊆ p)); eauto|lia].
  by etrans.
Qed.


(** Upgrading a stored snapshot keeps a valid policy valid, unless its
    execution time is so close to the largest integer that the derived request
    deadline wraps around. *)
Theorem upgrade_preserves_validity (p : HostingPolicy) :
  Validate p = Ok () → php_MaxExecutionSeconds (hp_PHP p) ≤ int64_max - 5 →
  Validate (Upgrade p) = Ok () ∧ hp_SchemaVersion (Upgrade p) = 5.
Proof.
  intros Hp Hmax. assert (Hv := Hp). apply Validate_Ok in Hv as (Hschema & _).
  unfold Upgrade. replace ((hp_SchemaVersion p <? 1) || (5 <? hp_SchemaVersion p)) with false
    by (symmetry; apply orb_false_iff; rewrite !Z.ltb_ge; lia).
  split; [|done]. apply valid_schema; [lia|].
  apply valid_NormalizeLogs in Hp.
  destruct (_ =? 1); [by apply valid_upgrade_v1 | done].
Qed.

(** Upgrading twice is upgrading once, for every stored snapshot. *)
Theorem upgrade_idempotent (p : HostingPolicy) : Upgrade (Upgrade p) = Upgrade p.
Proof.
  unfold Upgrade at 2 3. destruct ((hp_SchemaVersion p <? 1) || (5 <? hp_SchemaVersion p)) eqn:E.
  - unfold Upgrade. by rewrite E.
  - unfold Upgrade. cbn -[upgrade_v1 NormalizeLogs].
    destruct (hp_SchemaVersion p =? 1); cbn; by rewrite NormalizeLogs_idem.
Qed.
End Properties.

(** * Witnesses *)

Module Samples.

(** A provider policy with finite quotas, and a grant inside it. *)
Definition provider : HostingPolicy :=
  zero_HostingPolicy <| hp_SchemaVersion := 5 |>
    <| hp_Resources := zero_HostingResourcePolicy <| res_DiskMB := 1000 |> <| res_MaxSites := -1 |> |>
    <| hp_Permissions := zero_HostingPermissionPolicy <| perm_SSH := true |> <| perm_DNS := true |> |>
    <| hp_PHP := zero_HostingPHPPolicy <| php_AllowedVersions := ["8.2"; "8.3"] |>
        <| php_MemoryLimitMB := -1 |> <| php_PostMaxMB := 64 |> |>
    <| hp_Web := zero_HostingWebPolicy <| web_SecurityHeaderPreset := "balanced" |> |>.

Definition reseller : HostingPolicy :=
  provider <| hp_Resources := zero_HostingResourcePolicy <| res_DiskMB := 500 |> <| res_MaxSites := 10 |> |>
    <| hp_PHP := zero_HostingPHPPolicy <| php_AllowedVersions := ["8.3"] |>
        <| php_MemoryLimitMB := -1 |> <| php_PostMaxMB := 64 |> |>.

Definition customer : HostingPolicy :=
  reseller <| hp_Resources := zero_HostingResourcePolicy <| res_DiskMB := 100 |> |>
    <| hp_Permissions := zero_HostingPermissionPolicy <| perm_DNS := true |> |>
    <| hp_Web := zero_HostingWebPolicy <| web_SecurityHeaderPreset := "strict" |> |>.

Definition stored_v1 : HostingPolicy :=
  provider <| hp_SchemaVersion := 1 |>
    <| hp_PHP := zero_HostingPHPPolicy <| php_MaxExecutionSeconds := 30 |> <| php_PostMaxMB := 64 |> |>.

(** A grant that caps the PHP memory its provider leaves unlimited. *)
Definition capped : HostingPolicy :=
  provider <| hp_PHP := (hp_PHP provider) <| php_MemoryLimitMB := 256 |> |>.

(** A site that asks for fewer connections than a subscription that sets no
    ceiling. *)
Definition throttled : HostingPolicy :=
  provider <| hp_Web := (hp_Web provider) <| web_MaxConnections := 10 |> |>.

End Samples.


Lemma validate_within_refl_witness : ValidateWithin Samples.provider Samples.provider = Ok ().
Proof. apply (@validate_within_refl ascii_only reverse_order). vm_compute. reflexivity. Defined.

Lemma validate_within_trans_witness :
  ValidateWithin Samples.customer Samples.provider = Ok ().
Proof.
  apply (validate_within_trans Samples.customer Samples.reseller Samples.provider);
    vm_compute; reflexivity.
Defined.

Lemma upgrade_preserves_validity_witness :
  @Validate ascii_only reverse_order (Upgrade Samples.stored_v1) = Ok () ∧
  hp_SchemaVersion (Upgrade Samples.stored_v1) = 5.
Proof.
  apply (@upgrade_preserves_validity ascii_only reverse_order); vm_compute; [reflexivity|discriminate].
Defined.

(** The comment on [ValidateWithin] says that an unlimited ceiling accepts every
    finite value; the operational settings that [Validate] lets be unlimited
    take the other comparison, which refuses every finite value under [-1]. *)
Lemma unlimited_setting_refuses_finite :
  @Validate ascii_only insertion_order Samples.capped = Ok () ∧
  @Validate ascii_only insertion_order Samples.provider = Ok () ∧
  ValidateWithin Samples.capped Samples.provider
  = Err (errors_New "php_memory_limit_mb exceeds or removes the provider ceiling").
Proof. vm_compute. done. Qed.

(** [ValidateSiteWithin] compares the rate limits with [limitWithin] as well, for
    which a ceiling of zero admits only zero, although zero is "no additional
    ceiling" for these settings. *)
Lemma unset_site_ceiling_refuses_tighter :
  ValidateWithin Samples.throttled Samples.provider = Ok () ∧
  ValidateSiteWithin Samples.throttled Samples.provider
  = Err (errors_New "max_connections exceeds subscription ceiling").
Proof. vm_compute. done. Qed.
