(* ===== verification/Quota.v ===== *)
(** * Quota checks ([internal/control/quota/quota.go])

    The limits and usage of a subscription, the queries of [SQLStore] that read
    them from the tables, the admission checks for sites, subdomains, databases
    and backups, and the choice of a PHP version. [Store] is the Go interface the
    checks are written against; [SQLStore] is its implementation over the tables. *)

From S2P Require Import Prelude GoStr HostingTypes Site Policy.
From Stdlib Require Import Ascii.

(** ** Limits and usage *)

Record Limits := mkLimits {
  lim_UserID : Z;
  lim_CustomerID : Z;
  lim_SubscriptionID : Z;
  lim_PlanID : Z;
  lim_PlanName : string;
  lim_MaxSites : Z;
  lim_MaxSubdomains : Z;
  lim_MaxDatabases : Z;
  lim_StorageMB : Z;
  lim_MaxBackups : Z;
  lim_BackupStorageMB : Z;
  lim_SiteDiskQuotaMB : Z;
  lim_PHPFPMMaxChildren : Z;
  lim_PHPMemoryMB : Z;
  lim_BandwidthMB : Z;
  lim_OverusePolicy : string;
  lim_PHPAllowlist : string;
  lim_DefaultPHPVersion : string;
  lim_HostingEnabled : bool;
  lim_AllowBackups : bool;
  lim_CreatedAt : Z;
  lim_UpdatedAt : Z;
}.

#[export] Instance eta_Limits : Eta Limits := λ r,
  mkLimits (lim_UserID r) (lim_CustomerID r) (lim_SubscriptionID r) (lim_PlanID r) (lim_PlanName
    r) (lim_MaxSites r) (lim_MaxSubdomains r) (lim_MaxDatabases r) (lim_StorageMB r)
    (lim_MaxBackups r) (lim_BackupStorageMB r) (lim_SiteDiskQuotaMB r) (lim_PHPFPMMaxChildren r)
    (lim_PHPMemoryMB r) (lim_BandwidthMB r) (lim_OverusePolicy r) (lim_PHPAllowlist r)
    (lim_DefaultPHPVersion r) (lim_HostingEnabled r) (lim_AllowBackups r) (lim_CreatedAt r)
    (lim_UpdatedAt r).

Definition zero_Limits : Limits :=
  mkLimits 0 0 0 0 EmptyString 0 0 0 0 0 0 0 0 0 0 EmptyString EmptyString EmptyString false
    false 0 0.

Record Usage := mkUsage {
  use_UserID : Z;
  use_CustomerID : Z;
  use_SubscriptionID : Z;
  use_Sites : Z;
  use_Domains : Z;
  use_Subdomains : Z;
  use_Databases : Z;
  use_Backups : Z;
  use_BackupStorageBytes : Z;
}.

#[export] Instance eta_Usage : Eta Usage := λ r,
  mkUsage (use_UserID r) (use_CustomerID r) (use_SubscriptionID r) (use_Sites r) (use_Domains r)
    (use_Subdomains r) (use_Databases r) (use_Backups r) (use_BackupStorageBytes r).

Definition zero_Usage : Usage :=
  mkUsage 0 0 0 0 0 0 0 0 0.

(** [fmt.Errorf("%w: ...", ErrExceeded)]. *)
Definition ErrExceeded : error := sentinel "ErrExceeded" "quota exceeded".
Definition ErrNoActiveSubscription : error :=
  sentinel "ErrNoActiveSubscription" "no active subscription".

Definition exceeded (detail : string) : error :=
  Error (error_text ErrExceeded +:+ ": " +:+ detail) (error_chain ErrExceeded).

Definition ratio (resource : string) (used allowed : Z) : string :=
  resource +:+ " " +:+ itoa used +:+ " / " +:+ itoa allowed.

(** ** Comparisons *)

Definition limitReached (used allowed : Z) : bool := (0 <=? allowed) && (allowed <=? used).

Definition countLimitReached (used allowed : Z) (policy : string) : bool :=
  if String.eqb policy "normal" || String.eqb policy "notify" then false
  else limitReached used allowed.

Definition positiveLimit (value : Z) : Z := if 0 <? value then value else 0.

(** ** The store interface *)

(** The methods of [Store] the checks call; [EffectiveSubscriptionPolicy] is the
    optional method one of them looks for with a type assertion. *)
Record Store := mkStore {
  GetLimits : Z → result (Limits * bool);
  GetUsage : Z → result Usage;
  GetLimitsForSubscription : Z → result (Limits * bool);
  GetUsageForSubscription : Z → result Usage;
  EffectiveSubscriptionPolicy : option (Z → result HostingPolicy);
}.

(** ** Admission checks *)

(** The three per-site limits that may not be zero. *)
Definition site_runtime_guard {A} (limits : Limits) (k : result A) : result A :=
  return_if lim_SiteDiskQuotaMB limits =? 0 with exceeded "site disk quota is 0 MB" ;;
  return_if lim_PHPFPMMaxChildren limits =? 0 with exceeded "php max children is 0" ;;
  return_if lim_PHPMemoryMB limits =? 0 with exceeded "php memory is 0 MB" ;;
  k.

Definition site_limits_of (limits : Limits) : SiteResourceLimits :=
  zero_SiteResourceLimits
    <| srl_DiskQuotaMB := positiveLimit (lim_SiteDiskQuotaMB limits) |>
    <| srl_PHPFPMMaxChildren := positiveLimit (lim_PHPFPMMaxChildren limits) |>
    <| srl_PHPMemoryMB := positiveLimit (lim_PHPMemoryMB limits) |>.

Definition SiteLimits (store : option Store) (userID : Z) : result SiteResourceLimits :=
  match store with
  | None => Ok zero_SiteResourceLimits
  | Some store =>
    let* (limits, hasLimits) := GetLimits store userID in
    return_if negb hasLimits with ErrNoActiveSubscription ;;
    let* usage := GetUsage store userID in
    return_if countLimitReached (use_Domains usage) (lim_MaxSites limits) (lim_OverusePolicy limits)
      with exceeded (ratio "domains" (use_Domains usage) (lim_MaxSites limits)) ;;
    site_runtime_guard limits (Ok (site_limits_of limits))
  end.

Definition SiteResourceLimitsFromPolicy (p : HostingPolicy) : SiteResourceLimits :=
  zero_SiteResourceLimits
    <| srl_DiskQuotaMB := res_DiskMB (hp_Resources p) |>
    <| srl_PHPFPMMaxChildren := php_FPMMaxChildren (hp_PHP p) |>
    <| srl_PHPMemoryMB := php_MemoryLimitMB (hp_PHP p) |>
    <| srl_PHPFPMMaxRequests := php_FPMMaxRequests (hp_PHP p) |>
    <| srl_PHPMaxExecutionSeconds := php_MaxExecutionSeconds (hp_PHP p) |>
    <| srl_PHPMaxInputSeconds := php_MaxInputSeconds (hp_PHP p) |>
    <| srl_PHPPostMaxMB := php_PostMaxMB (hp_PHP p) |>
    <| srl_PHPUploadMaxMB := php_UploadMaxMB (hp_PHP p) |>
    <| srl_PHPDisplayErrors := php_DisplayErrors (hp_PHP p) |>
    <| srl_PHPLogErrors := php_LogErrors (hp_PHP p) |>
    <| srl_PHPAllowURLFOpen := php_AllowURLFOpen (hp_PHP p) |>
    <| srl_PHPExecEnabled := php_ExecEnabled (hp_PHP p) |>
    <| srl_RequestRatePerSecond := web_RequestRatePerSecond (hp_Web p) |>
    <| srl_RequestBurst := web_RequestBurst (hp_Web p) |>
    <| srl_MaxConnections := web_MaxConnections (hp_Web p) |>
    <| srl_StaticCache := web_StaticCache (hp_Web p) |>
    <| srl_FastCGIMicrocache := web_FastCGIMicrocache (hp_Web p) |>
    <| srl_RequestBodyLimitMB := web_RequestBodyLimitMB (hp_Web p) |>
    <| srl_Compression := web_Compression (hp_Web p) |>
    <| srl_CacheTTLSeconds := web_CacheTTLSeconds (hp_Web p) |>
    <| srl_ConnectTimeoutSeconds := web_ConnectTimeoutSecs (hp_Web p) |>
    <| srl_ReadTimeoutSeconds := web_ReadTimeoutSecs (hp_Web p) |>
    <| srl_SecurityHeaderPreset := web_SecurityHeaderPreset (hp_Web p) |>
    <| srl_IndexFiles := web_IndexFiles (hp_Web p) |>
    <| srl_PHPFPMMode := php_FPMMode (hp_PHP p) |>
    <| srl_PHPFPMIdleTimeoutSecs := php_FPMIdleTimeoutSecs (hp_PHP p) |>
    <| srl_PHPRequestTerminateSecs := php_RequestTerminateSecs (hp_PHP p) |>
    <| srl_PHPOPcacheEnabled := php_OPcacheEnabled (hp_PHP p) |>
    <| srl_PHPOPcacheMemoryMB := php_OPcacheMemoryMB (hp_PHP p) |>.

Definition siteLimitsForSubscription (store : option Store) (subscriptionID : Z) (subdomain : bool)
    : result (SiteResourceLimits * Limits) :=
  match store with
  | None => Ok (zero_SiteResourceLimits, zero_Limits)
  | Some store =>
    let* (limits, hasLimits) := GetLimitsForSubscription store subscriptionID in
    return_if negb hasLimits with ErrNoActiveSubscription ;;
    let* usage := GetUsageForSubscription store subscriptionID in
    return_if negb (lim_HostingEnabled limits) && negb (String.eqb (lim_OverusePolicy limits) "")
      with exceeded "hosting is disabled by the subscription" ;;
    let '(used, allowed, resource) :=
      if subdomain then (use_Subdomains usage, lim_MaxSubdomains limits, "subdomains")
      else (use_Domains usage, lim_MaxSites limits, "domains") in
    return_if countLimitReached used allowed (lim_OverusePolicy limits)
      with exceeded (ratio resource used allowed) ;;
    site_runtime_guard limits
      match EffectiveSubscriptionPolicy store with
      | Some read =>
          let* policy := read subscriptionID in
          Ok (SiteResourceLimitsFromPolicy policy, limits)
      | None => Ok (site_limits_of limits, limits)
      end
  end.

Definition SiteLimitsForSubscription (store : option Store) (subscriptionID : Z) :=
  siteLimitsForSubscription store subscriptionID false.

Definition SiteLimitsForSubdomain (store : option Store) (subscriptionID : Z) :=
  siteLimitsForSubscription store subscriptionID true.

Definition CheckDatabase (store : option Store) (userID : Z) : result unit :=
  match store with
  | None => Ok ()
  | Some store =>
    let* (limits, hasLimits) := GetLimits store userID in
    return_if negb hasLimits with ErrNoActiveSubscription ;;
    let* usage := GetUsage store userID in
    return_if countLimitReached (use_Databases usage) (lim_MaxDatabases limits) (lim_OverusePolicy limits)
      with exceeded (ratio "databases" (use_Databases usage) (lim_MaxDatabases limits)) ;;
    Ok ()
  end.

Definition CheckDatabaseForSubscription (store : option Store) (subscriptionID : Z) : result Limits :=
  match store with
  | None => Ok zero_Limits
  | Some store =>
    let* (limits, hasLimits) := GetLimitsForSubscription store subscriptionID in
    return_if negb hasLimits with ErrNoActiveSubscription ;;
    let* usage := GetUsageForSubscription store subscriptionID in
    return_if countLimitReached (use_Databases usage) (lim_MaxDatabases limits) (lim_OverusePolicy limits)
      with exceeded (ratio "databases" (use_Databases usage) (lim_MaxDatabases limits)) ;;
    Ok limits
  end.

(** [int64(limits.BackupStorageMB) * 1024 * 1024]. *)
Definition max_backup_bytes (limits : Limits) : Z :=
  wrap64 (wrap64 (lim_BackupStorageMB limits * 1024) * 1024).

Definition backup_guard {A} (limits : Limits) (usage : Usage) (k : result A) : result A :=
  return_if negb (lim_AllowBackups limits) && negb (String.eqb (lim_OverusePolicy limits) "")
    with exceeded "backups are disabled by the subscription" ;;
  return_if countLimitReached (use_Backups usage) (lim_MaxBackups limits) (lim_OverusePolicy limits)
    with exceeded (ratio "backups" (use_Backups usage) (lim_MaxBackups limits)) ;;
  return_if (0 <=? lim_BackupStorageMB limits) && (max_backup_bytes limits <=? use_BackupStorageBytes usage)
    with exceeded (ratio "backup storage" (use_BackupStorageBytes usage) (max_backup_bytes limits) +:+ " bytes") ;;
  k.

Definition CheckBackup (store : option Store) (userID : Z) : result unit :=
  match store with
  | None => Ok ()
  | Some store =>
    let* (limits, hasLimits) := GetLimits store userID in
    return_if negb hasLimits with ErrNoActiveSubscription ;;
    let* usage := GetUsage store userID in
    backup_guard limits usage (Ok ())
  end.

Definition CheckBackupForSubscription (store : option Store) (subscriptionID : Z) : result Limits :=
  match store with
  | None => Ok zero_Limits
  | Some store =>
    let* (limits, hasLimits) := GetLimitsForSubscription store subscriptionID in
    return_if negb hasLimits with ErrNoActiveSubscription ;;
    let* usage := GetUsageForSubscription store subscriptionID in
    backup_guard limits usage (Ok limits)
  end.

(** ** PHP versions *)

Definition first_nonempty (l : list string) : string :=
  default "" (head (filter (λ version, version ≠ "") l)).

Definition PreferredNewSitePHPVersion (allowlist configuredDefault : string) : string :=
  let versions := trim_space <$> split_on "," allowlist in
  if one_of "8.4" versions then "8.4"
  else
    let configuredDefault := trim_space configuredDefault in
    if negb (String.eqb configuredDefault "") then configuredDefault
    else first_nonempty versions.

Definition ResolvePHPVersion (limits : Limits) (requested : string) : result string :=
  let requested := trim_space requested in
  if String.eqb (trim_space (lim_PHPAllowlist limits)) "" && String.eqb (lim_OverusePolicy limits) ""
  then Ok requested
  else
    let requested := if String.eqb requested ""
      then PreferredNewSitePHPVersion (lim_PHPAllowlist limits) (lim_DefaultPHPVersion limits)
      else requested in
    return_if String.eqb requested "" with errors_New "subscription has no default PHP version" ;;
    if one_of requested (trim_space <$> split_on "," (lim_PHPAllowlist limits)) then Ok requested
    else Err (errors_New ("PHP " +:+ requested +:+ " is not allowed by the subscription")).

(** ** Validation of limits *)

Definition limits_entries (limits : Limits) : list (string * Z) :=
  [("max_sites", lim_MaxSites limits);
   ("max_databases", lim_MaxDatabases limits);
   ("storage_mb", lim_StorageMB limits);
   ("max_backups", lim_MaxBackups limits);
   ("backup_storage_mb", lim_BackupStorageMB limits);
   ("site_disk_quota_mb", lim_SiteDiskQuotaMB limits);
   ("php_max_children", lim_PHPFPMMaxChildren limits);
   ("php_memory_mb", lim_PHPMemoryMB limits)].

Definition ValidateLimits `{GoMapOrder} (limits : Limits) : result unit :=
  return_if lim_UserID limits <=? 0 with errors_New "quota user id is required" ;;
  for_each (λ '(name, value),
    return_if value <? -1 with errors_New (name +:+ " cannot be less than -1") ;; Ok ())
    (map_order (limits_entries limits)).

(** ** The tables the queries read *)

Record SubscriptionRow := mkSubscriptionRow {
  sub_id : Z; sub_customer_user_id : option Z; sub_customer_id : option Z;
  sub_plan_id : option Z; sub_status : string }.

Record EntitlementRow := mkEntitlementRow {
  ent_subscription_id : Z; ent_limits : Limits }.

Record CustomerRow := mkCustomerRow {
  cus_id : Z; cus_status : string; cus_reseller_id : option Z }.

Record ResellerRow := mkResellerRow { rsl_id : Z; rsl_status : string }.
Record ResellerSubscriptionRow := mkResellerSubscriptionRow { rss_reseller_id : Z; rss_status : string }.

Record SiteRow := mkSiteRow {
  site_owner_user_id : Z; site_subscription_id : Z; site_parent_site_id : option Z;
  site_status : string; site_removal_state : string }.

Record DatabaseRow := mkDatabaseRow {
  db_owner_user_id : Z; db_subscription_id : Z; db_status : string }.

Record BackupRow := mkBackupRow {
  bk_owner_user_id : Z; bk_subscription_id : Z; bk_status : string; bk_size_bytes : Z }.

Record Database := mkDatabase {
  t_subscriptions : list SubscriptionRow;
  t_subscription_entitlements : list EntitlementRow;
  t_customers : list CustomerRow;
  t_reseller_accounts : list ResellerRow;
  t_reseller_subscriptions : list ResellerSubscriptionRow;
  t_sites : list SiteRow;
  t_databases : list DatabaseRow;
  t_backups : list BackupRow;
}.

#[export] Instance eta_Database : Eta Database := λ r,
  mkDatabase (t_subscriptions r) (t_subscription_entitlements r) (t_customers r)
    (t_reseller_accounts r) (t_reseller_subscriptions r) (t_sites r) (t_databases r) (t_backups r).

(** [LEFT JOIN t ON on]: the matching rows, or one row of NULLs. *)
Definition left_join {A} (on : A → bool) (t : list A) : list (option A) :=
  match filter on t with [] => [None] | rows => Some <$> rows end.

(** The customer of a subscription may use it: an active customer without a
    reseller, or one whose reseller and reseller subscription are active. *)
Definition reseller_allows (db : Database) (reseller_id : option Z) : list bool :=
  r ← left_join (λ r, bool_decide (Some (rsl_id r) = reseller_id)) (t_reseller_accounts db);
  rs ← left_join (λ rs, bool_decide (Some (rss_reseller_id rs) = (rsl_id <$> r))
                        && String.eqb (rss_status rs) "active") (t_reseller_subscriptions db);
  [bool_decide (reseller_id = None)
   || bool_decide (rsl_status <$> r = Some "active") && bool_decide (is_Some rs)].

(** The row of the result set: the entitlement columns with the identifiers of
    the subscription; [customer] is what the query selects first. *)
Definition limits_row (s : SubscriptionRow) (e : EntitlementRow) : Limits :=
  (ent_limits e) <| lim_UserID := 0 |> <| lim_CustomerID := 0 |>
    <| lim_SubscriptionID := sub_id s |>
    <| lim_PlanID := default 0 (sub_plan_id s) |>
    <| lim_CreatedAt := lim_UpdatedAt (ent_limits e) |>.

Definition entitlement_of (db : Database) (s : SubscriptionRow) : list EntitlementRow :=
  filter (λ e, ent_subscription_id e = sub_id s) (t_subscription_entitlements db).

Definition user_limits_rows (db : Database) (userID : Z) : list (Z * Limits) :=
  s ← filter (λ s, sub_customer_user_id s = Some userID ∧ sub_status s = "active") (t_subscriptions db);
  e ← entitlement_of db s;
  c ← left_join (λ c, bool_decide (Some (cus_id c) = sub_customer_id s)) (t_customers db);
  ok ← reseller_allows db (c ≫= cus_reseller_id);
  if bool_decide (default "active" (cus_status <$> c) = "active") && ok
  then [(sub_id s, (limits_row s e) <| lim_UserID := userID |>)] else [].

Definition subscription_limits_rows (db : Database) (subscriptionID : Z) : list Limits :=
  s ← filter (λ s, sub_id s = subscriptionID ∧ sub_status s = "active") (t_subscriptions db);
  e ← entitlement_of db s;
  c ← filter (λ c, Some (cus_id c) = sub_customer_id s) (t_customers db);
  ok ← reseller_allows db (cus_reseller_id c);
  if bool_decide (cus_status c = "active") && ok
  then [(limits_row s e) <| lim_CustomerID := default 0 (sub_customer_id s) |>] else [].

(** [ORDER BY s.id LIMIT 1]. *)
Definition first_by_id {A} (rows : list (Z * A)) : option A :=
  snd <$> foldr (λ r best, match best with
                           | Some b => if fst b <? fst r then Some b else Some r
                           | None => Some r
                           end) None rows.

Definition scan_limits (row : option Limits) : Limits * bool :=
  match row with Some limits => (limits, true) | None => (zero_Limits, false) end.

(** [s == nil || s.db == nil] is [None]. *)
Definition not_configured : error := errors_New "quota database is not configured".

Definition sql_GetLimits (s : option Database) (userID : Z) : result (Limits * bool) :=
  match s with
  | None => Err not_configured
  | Some db => Ok (scan_limits (first_by_id (user_limits_rows db userID)))
  end.

Definition sql_GetLimitsForSubscription (s : option Database) (subscriptionID : Z)
    : result (Limits * bool) :=
  match s with
  | None => Err not_configured
  | Some db => Ok (scan_limits (head (subscription_limits_rows db subscriptionID)))
  end.

(** A row counts unless it failed; a site also counts while it is being removed. *)
Definition site_counts (r : SiteRow) : bool :=
  negb (String.eqb (site_status r) "failed") || negb (String.eqb (site_removal_state r) "none").

(** [::int] and [::bigint] raise an error out of range. *)
Definition cast_int (bits : Z) (z : Z) : result Z :=
  return_if negb ((- 2 ^ (bits - 1) <=? z) && (z <? 2 ^ (bits - 1)))
    with errors_New (if bits =? 32 then "integer out of range" else "bigint out of range") ;; Ok z.

Definition count {A} (p : A → bool) (rows : list A) : Z := Z.of_nat (length (filter p rows)).

Definition usage_of (sites : list SiteRow) (databases : list DatabaseRow) (backups : list BackupRow)
    : result Usage :=
  let* all := cast_int 32 (count site_counts sites) in
  let* domains := cast_int 32 (count (λ r, bool_decide (site_parent_site_id r = None) && site_counts r) sites) in
  let* subdomains := cast_int 32 (count (λ r, bool_decide (is_Some (site_parent_site_id r)) && site_counts r) sites) in
  let* dbs := cast_int 32 (count (λ r, negb (String.eqb (db_status r) "failed")) databases) in
  let* bks := cast_int 32 (count (λ r, negb (String.eqb (bk_status r) "failed")) backups) in
  let* bytes := cast_int 64 (foldr Z.add 0 (bk_size_bytes <$> backups)) in
  Ok (zero_Usage <| use_Sites := all |> <| use_Domains := domains |> <| use_Subdomains := subdomains |>
        <| use_Databases := dbs |> <| use_Backups := bks |> <| use_BackupStorageBytes := bytes |>).

Definition sql_GetUsage (s : option Database) (userID : Z) : result Usage :=
  match s with
  | None => Err not_configured
  | Some db =>
    let* usage := usage_of (filter (λ r, site_owner_user_id r = userID) (t_sites db))
                    (filter (λ r, db_owner_user_id r = userID) (t_databases db))
                    (filter (λ r, bk_owner_user_id r = userID) (t_backups db)) in
    Ok (usage <| use_UserID := userID |>)
  end.

Definition sql_GetUsageForSubscription (s : option Database) (subscriptionID : Z) : result Usage :=
  match s with
  | None => Err not_configured
  | Some db =>
    let* usage := usage_of (filter (λ r, site_subscription_id r = subscriptionID) (t_sites db))
                    (filter (λ r, db_subscription_id r = subscriptionID) (t_databases db))
                    (filter (λ r, bk_subscription_id r = subscriptionID) (t_backups db)) in
    Ok (usage <| use_SubscriptionID := subscriptionID |>)
  end.

(** [SQLStore] as a [Store]; the effective policy is read elsewhere and is the
    caller's. *)
Definition SQLStore (db : option Database) (policy : option (Z → result HostingPolicy)) : Store :=
  mkStore (sql_GetLimits db) (sql_GetUsage db) (sql_GetLimitsForSubscription db)
    (sql_GetUsageForSubscription db) policy.

(** * Lemmas *)

Lemma limitReached_false used allowed :
  limitReached used allowed = false ↔ (0 ≤ allowed → used < allowed).
Proof. unfold limitReached. rewrite andb_false_iff, Z.leb_gt, Z.leb_gt. lia. Qed.

(** The policies under which a count is only reported, never refused. *)
Definition lenient (policy : string) : Prop := policy = "normal" ∨ policy = "notify".

Lemma countLimitReached_false used allowed policy :
  countLimitReached used allowed policy = false ↔ lenient policy ∨ (0 ≤ allowed → used < allowed).
Proof.
  unfold countLimitReached, lenient.
  destruct (String.eqb policy "normal" || String.eqb policy "notify") eqn:E.
  - apply orb_true_iff in E as [E|E]; bool_split; naive_solver.
  - bool_split. rewrite limitReached_false. naive_solver.
Qed.

Lemma count_cons {A} (p : A → bool) x l : count p (x :: l) = (if p x then 1 else 0) + count p l.
Proof. unfold count. rewrite filter_cons. destruct (p x); case_decide; simpl; naive_solver lia. Qed.

Lemma filter_cons_eq {A} (f : A → Z) v x l :
  f x = v → filter (λ r, f r = v) (x :: l) = x :: filter (λ r, f r = v) l.
Proof. intros. by rewrite filter_cons, decide_True. Qed.

Lemma cast_int_Ok bits z v : cast_int bits z = Ok v → v = z.
Proof. unfold cast_int. intros HE. by run_ok. Qed.

(** What a usage query returns, when it returns. *)
Lemma usage_of_Ok sites databases backups u :
  usage_of sites databases backups = Ok u →
  use_Sites u = count site_counts sites ∧
  use_Domains u = count (λ r, bool_decide (site_parent_site_id r = None) && site_counts r) sites ∧
  use_Subdomains u = count (λ r, bool_decide (is_Some (site_parent_site_id r)) && site_counts r) sites ∧
  use_Databases u = count (λ r, negb (String.eqb (db_status r) "failed")) databases ∧
  use_Backups u = count (λ r, negb (String.eqb (bk_status r) "failed")) backups ∧
  use_BackupStorageBytes u = foldr Z.add 0 (bk_size_bytes <$> backups).
Proof.
  unfold usage_of. intros HE. run_ok.
  repeat match goal with E : cast_int _ _ = Ok _ |- _ => apply cast_int_Ok in E end.
  subst. done.
Qed.

Lemma left_join_elem {A} (on : A → bool) t r :
  r ∈ left_join on t ↔ (∃ x, r = Some x ∧ x ∈ t ∧ on x = true) ∨ (r = None ∧ ∀ x, x ∈ t → on x = false).
Proof.
  unfold left_join. destruct (filter on t) as [|y l] eqn:E.
  - rewrite list_elem_of_singleton. split.
    + intros ->. right. split; [done|]. intros x Hx. destruct (on x) eqn:Ex; [|done].
      assert (x ∈ filter on t) as Hin by (apply list_elem_of_filter; rewrite Ex; done).
      rewrite E in Hin. by apply elem_of_nil in Hin.
    + intros [(x & -> & Hx & Ex)|[-> _]]; [|done].
      assert (x ∈ filter on t) as Hin by (apply list_elem_of_filter; rewrite Ex; done).
      rewrite E in Hin. by apply elem_of_nil in Hin.
  - rewrite <- E, list_elem_of_fmap. split.
    + intros (x & -> & Hx). left. exists x. apply list_elem_of_filter in Hx as [Hx ?].
      split; [done|]. split; [done|]. by destruct (on x).
    + intros [(x & -> & Hx & Ex)|[-> HF]].
      * exists x. split; [done|]. apply list_elem_of_filter. by rewrite Ex.
      * exfalso. assert (y ∈ filter on t) as Hin by (rewrite E; constructor).
        apply list_elem_of_filter in Hin as [Hy Hin]. by rewrite HF in Hy.
Qed.

(** The reseller condition of both limit queries. *)
Definition reseller_active (db : Database) (reseller_id : option Z) : Prop :=
  ∀ rid, reseller_id = Some rid →
    (∃ r, r ∈ t_reseller_accounts db ∧ rsl_id r = rid ∧ rsl_status r = "active") ∧
    (∃ rs, rs ∈ t_reseller_subscriptions db ∧ rss_reseller_id rs = rid ∧ rss_status rs = "active").

Lemma reseller_allows_spec db reseller_id :
  true ∈ reseller_allows db reseller_id ↔ reseller_active db reseller_id.
Proof.
  unfold reseller_allows, reseller_active. rewrite list_elem_of_bind. split.
  - intros (r & Hr & Hin) rid ->. apply list_elem_of_bind in Hr as (rs & Hrs & Hjoin).
    apply list_elem_of_singleton in Hrs. symmetry in Hrs.
    apply orb_true_iff in Hrs as [?%bool_decide_eq_true|Hrs]; [done|]. bool_split.
    destruct rs as [rs|]; [|by match goal with HN : is_Some None |- _ => destruct HN end].
    destruct r as [r|]; [|done]. simpl in *. simplify_eq.
    apply left_join_elem in Hin as [(? & [= <-] & Hin & On)|[? _]]; [|done].
    apply left_join_elem in Hjoin as [(? & [= <-] & Hjoin & Ons)|[? _]]; [|done].
    bool_split. simplify_eq. split; eauto.
  - intros HF. destruct reseller_id as [rid|].
    + destruct (HF rid eq_refl) as [(r & Hr & Hid & Hst) (rs & Hrs & Hrid & Hrst)].
      exists (Some r). split.
      * apply list_elem_of_bind. exists (Some rs). split.
        { apply list_elem_of_singleton. simpl. by rewrite Hst. }
        apply left_join_elem. left. exists rs. split; [done|]. split; [done|].
        simpl. rewrite Hrst, Hrid, Hid. by rewrite bool_decide_eq_true_2.
      * apply left_join_elem. left. exists r. split; [done|]. split; [done|].
        by rewrite Hid, bool_decide_eq_true_2.
    + assert (∀ {A} (on : A → bool) t, ∃ r, r ∈ left_join on t) as Hne.
      { intros A on t. unfold left_join. destruct (filter on t) as [|x l]; eexists; constructor. }
      edestruct Hne as [r Hr]. exists r. split; [|exact Hr].
      apply list_elem_of_bind. edestruct Hne as [rs Hrs]. exists rs. split; [|exact Hrs].
      by apply list_elem_of_singleton.
Qed.

(** The customers a subscription query accepts. *)
Definition customer_active (db : Database) (s : SubscriptionRow) : Prop :=
  ∃ c, c ∈ t_customers db ∧ Some (cus_id c) = sub_customer_id s ∧ cus_status c = "active" ∧
       reseller_active db (cus_reseller_id c).

Lemma subscription_limits_rows_elem db sid l :
  l ∈ subscription_limits_rows db sid ↔
  ∃ s e, s ∈ t_subscriptions db ∧ sub_id s = sid ∧ sub_status s = "active" ∧
         e ∈ t_subscription_entitlements db ∧ ent_subscription_id e = sid ∧
         customer_active db s ∧ l = (limits_row s e) <| lim_CustomerID := default 0 (sub_customer_id s) |>.
Proof.
  unfold subscription_limits_rows, entitlement_of, customer_active. split.
  - intros (s & Hs & [[Hid Hst] Hin]%list_elem_of_filter)%list_elem_of_bind.
    apply list_elem_of_bind in Hs as (e & He & [Heid Hein]%list_elem_of_filter).
    apply list_elem_of_bind in He as (c & Hc & [Hcid Hcin]%list_elem_of_filter).
    apply list_elem_of_bind in Hc as (ok & Hl & Hok).
    destruct (_ && _) eqn:E; [|by apply elem_of_nil in Hl]. apply list_elem_of_singleton in Hl.
    apply andb_true_iff in E as [E ->]. bool_split. apply reseller_allows_spec in Hok.
    exists s, e. rewrite <- Hid. naive_solver.
  - intros (s & e & Hin & Hid & Hst & Hein & Heid & (c & Hcin & Hcid & Hcst & Hok) & ->).
    apply list_elem_of_bind. exists s. split; [|by apply list_elem_of_filter].
    apply list_elem_of_bind. exists e. split; [|apply list_elem_of_filter; by rewrite Heid, Hid].
    apply list_elem_of_bind. exists c. split; [|by apply list_elem_of_filter].
    apply list_elem_of_bind. exists true. split; [|by apply reseller_allows_spec].
    rewrite (bool_decide_eq_true_2 _ Hcst). simpl. by apply list_elem_of_singleton.
Qed.

(** ** Inserting a row *)

Definition insert_site (db : Database) (r : SiteRow) : Database :=
  db <| t_sites := r :: t_sites db |>.
Definition insert_database (db : Database) (r : DatabaseRow) : Database :=
  db <| t_databases := r :: t_databases db |>.
Definition insert_backup (db : Database) (r : BackupRow) : Database :=
  db <| t_backups := r :: t_backups db |>.

(** A subdomain row has a parent site, a domain row has none. *)
Definition is_subdomain_row (r : SiteRow) : bool := bool_decide (is_Some (site_parent_site_id r)).

Section UsageGrowth.
Variables (sites : list SiteRow) (databases : list DatabaseRow) (backups : list BackupRow).
Variables (u u' : Usage).
Hypothesis Hu : usage_of sites databases backups = Ok u.

Lemma usage_of_site r : usage_of (r :: sites) databases backups = Ok u' →
  if is_subdomain_row r then use_Subdomains u' ≤ use_Subdomains u + 1
  else use_Domains u' ≤ use_Domains u + 1.
Proof.
  intros (_ & Hd' & Hs' & _)%usage_of_Ok. apply usage_of_Ok in Hu as (_ & Hd & Hs & _).
  rewrite count_cons in Hd', Hs'. unfold is_subdomain_row.
  destruct (bool_decide (is_Some _)); destruct (_ && _), (_ && _); lia.
Qed.

Lemma usage_of_database r : usage_of sites (r :: databases) backups = Ok u' →
  use_Databases u' ≤ use_Databases u + 1.
Proof.
  intros (_ & _ & _ & Hd' & _)%usage_of_Ok. apply usage_of_Ok in Hu as (_ & _ & _ & Hd & _).
  rewrite count_cons in Hd'. destruct (negb _); lia.
Qed.

Lemma usage_of_backup r : usage_of sites databases (r :: backups) = Ok u' →
  use_Backups u' ≤ use_Backups u + 1 ∧
  use_BackupStorageBytes u' = use_BackupStorageBytes u + bk_size_bytes r.
Proof.
  intros (_ & _ & _ & _ & Hb' & Hs')%usage_of_Ok. apply usage_of_Ok in Hu as (_ & _ & _ & _ & Hb & Hs).
  rewrite count_cons in Hb'. rewrite fmap_cons in Hs'. cbn [foldr] in Hs'. destruct (negb _); lia.
Qed.

End UsageGrowth.

(** A usage query is one evaluation of [usage_of]. *)
Lemma GetUsageForSubscription_Ok db sid u :
  sql_GetUsageForSubscription (Some db) sid = Ok u ↔
  ∃ u0, usage_of (filter (λ r, site_subscription_id r = sid) (t_sites db))
          (filter (λ r, db_subscription_id r = sid) (t_databases db))
          (filter (λ r, bk_subscription_id r = sid) (t_backups db)) = Ok u0 ∧
        u = u0 <| use_SubscriptionID := sid |>.
Proof. unfold sql_GetUsageForSubscription. rewrite result_bind_Ok. naive_solver. Qed.

Lemma usage_after_site db sid r u u' :
  site_subscription_id r = sid →
  sql_GetUsageForSubscription (Some db) sid = Ok u →
  sql_GetUsageForSubscription (Some (insert_site db r)) sid = Ok u' →
  if is_subdomain_row r then use_Subdomains u' ≤ use_Subdomains u + 1
  else use_Domains u' ≤ use_Domains u + 1.
Proof.
  rewrite !GetUsageForSubscription_Ok. intros Hsid (v & Hv & ->) (v' & Hv' & ->).
  change (t_sites (insert_site db r)) with (r :: t_sites db) in Hv'.
  rewrite (filter_cons_eq site_subscription_id) in Hv' by done.
  exact (usage_of_site _ _ _ _ _ Hv _ Hv').
Qed.

Lemma usage_after_database db sid r u u' :
  db_subscription_id r = sid →
  sql_GetUsageForSubscription (Some db) sid = Ok u →
  sql_GetUsageForSubscription (Some (insert_database db r)) sid = Ok u' →
  use_Databases u' ≤ use_Databases u + 1.
Proof.
  rewrite !GetUsageForSubscription_Ok. intros Hsid (v & Hv & ->) (v' & Hv' & ->).
  change (t_databases (insert_database db r)) with (r :: t_databases db) in Hv'.
  rewrite (filter_cons_eq db_subscription_id) in Hv' by done.
  exact (usage_of_database _ _ _ _ _ Hv _ Hv').
Qed.

Lemma usage_after_backup db sid r u u' :
  bk_subscription_id r = sid →
  sql_GetUsageForSubscription (Some db) sid = Ok u →
  sql_GetUsageForSubscription (Some (insert_backup db r)) sid = Ok u' →
  use_Backups u' ≤ use_Backups u + 1 ∧
  use_BackupStorageBytes u' = use_BackupStorageBytes u + bk_size_bytes r.
Proof.
  rewrite !GetUsageForSubscription_Ok. intros Hsid (v & Hv & ->) (v' & Hv' & ->).
  change (t_backups (insert_backup db r)) with (r :: t_backups db) in Hv'.
  rewrite (filter_cons_eq bk_subscription_id) in Hv' by done.
  exact (usage_of_backup _ _ _ _ _ Hv _ Hv').
Qed.

(** ** What an admission check establishes *)

Lemma max_backup_bytes_small limits :
  0 ≤ lim_BackupStorageMB limits < 2 ^ 43 →
  max_backup_bytes limits = lim_BackupStorageMB limits * 1048576.
Proof.
  intros. unfold max_backup_bytes.
  rewrite (wrap64_id (lim_BackupStorageMB limits * 1024)) by (unfold in_int64, int64_min, int64_max; lia).
  rewrite wrap64_id by (unfold in_int64, int64_min, int64_max; lia). lia.
Qed.

Lemma siteLimitsForSubscription_Ok store sid subdomain rl limits :
  siteLimitsForSubscription (Some store) sid subdomain = Ok (rl, limits) →
  GetLimitsForSubscription store sid = Ok (limits, true) ∧
  ∃ usage, GetUsageForSubscription store sid = Ok usage ∧
    (lim_HostingEnabled limits = true ∨ lim_OverusePolicy limits = "") ∧
    (lenient (lim_OverusePolicy limits) ∨
     if subdomain then 0 ≤ lim_MaxSubdomains limits → use_Subdomains usage < lim_MaxSubdomains limits
     else 0 ≤ lim_MaxSites limits → use_Domains usage < lim_MaxSites limits) ∧
    lim_SiteDiskQuotaMB limits ≠ 0 ∧ lim_PHPFPMMaxChildren limits ≠ 0 ∧ lim_PHPMemoryMB limits ≠ 0.
Proof.
  unfold siteLimitsForSubscription, site_runtime_guard. intros HE.
  destruct (GetLimitsForSubscription store sid) as [[l has]|]; [|done]. cbn [result_bind] in HE.
  destruct has; [|done]. cbn [negb fail_when] in HE.
  destruct (GetUsageForSubscription store sid) as [usage|]; [|done]. cbn [result_bind] in HE.
  destruct (_ && _) eqn:Ehost; [done|]. cbn [fail_when] in HE.
  assert (limits = l ∧ countLimitReached (if subdomain then use_Subdomains usage else use_Domains usage)
    (if subdomain then lim_MaxSubdomains l else lim_MaxSites l) (lim_OverusePolicy l) = false
    ∧ lim_SiteDiskQuotaMB l ≠ 0 ∧ lim_PHPFPMMaxChildren l ≠ 0 ∧ lim_PHPMemoryMB l ≠ 0)
    as (-> & Hcount & Hrest).
  { destruct subdomain; run_ok; destruct (EffectiveSubscriptionPolicy store); run_ok; bool_split; done. }
  split; [done|]. exists usage. split; [done|]. split.
  { apply andb_false_iff in Ehost as [Eh|Eh]; bool_split; auto. }
  split; [|done]. apply countLimitReached_false in Hcount. destruct subdomain; exact Hcount.
Qed.

Lemma backup_guard_Ok {A} limits usage (k : result A) a :
  backup_guard limits usage k = Ok a ↔
  (lim_AllowBackups limits = true ∨ lim_OverusePolicy limits = "") ∧
  (lenient (lim_OverusePolicy limits) ∨ (0 ≤ lim_MaxBackups limits → use_Backups usage < lim_MaxBackups limits)) ∧
  (0 ≤ lim_BackupStorageMB limits → use_BackupStorageBytes usage < max_backup_bytes limits) ∧
  k = Ok a.
Proof.
  unfold backup_guard. run_iff. rewrite countLimitReached_false, !andb_false_iff, !negb_false_iff,
    String.eqb_eq, Z.leb_gt, Z.leb_gt. naive_solver lia.
Qed.

Lemma GetLimitsForSubscription_true db sid limits :
  sql_GetLimitsForSubscription (Some db) sid = Ok (limits, true) →
  limits ∈ subscription_limits_rows db sid.
Proof.
  simpl. destruct (subscription_limits_rows db sid) as [|l rows]; simpl; [done|].
  intros [= <-]. constructor.
Qed.

(** * Properties *)

(** C23. A site or subdomain admitted by [SiteLimitsForSubscription] or
    [SiteLimitsForSubdomain] keeps its subscription within its quota: after the
    row is inserted the count is at most the limit, unless the limit is
    unlimited or the overuse policy only reports. The subscription is active, as
    are its customer and the customer's reseller. *)
Theorem site_admission_within_quota (db : Database) policy (sid : Z) (subdomain : bool)
    (rl : SiteResourceLimits) (limits : Limits) (row : SiteRow) (usage' : Usage) :
  siteLimitsForSubscription (Some (SQLStore (Some db) policy)) sid subdomain = Ok (rl, limits) →
  site_subscription_id row = sid → is_subdomain_row row = subdomain →
  sql_GetUsageForSubscription (Some (insert_site db row)) sid = Ok usage' →
  (lenient (lim_OverusePolicy limits) ∨
   if subdomain then 0 ≤ lim_MaxSubdomains limits → use_Subdomains usage' ≤ lim_MaxSubdomains limits
   else 0 ≤ lim_MaxSites limits → use_Domains usage' ≤ lim_MaxSites limits) ∧
  ∃ s, s ∈ t_subscriptions db ∧ sub_id s = sid ∧ sub_status s = "active" ∧ customer_active db s.
Proof.
  intros (Hl & usage & Hu & _ & Hcount & _)%siteLimitsForSubscription_Ok Hsid Hsub Hu'.
  cbn [SQLStore GetLimitsForSubscription GetUsageForSubscription] in Hl, Hu. split.
  - destruct Hcount as [Hlen|Hcount]; [by left|right].
    pose proof (usage_after_site _ _ _ _ _ Hsid Hu Hu') as Hgrow. rewrite Hsub in Hgrow.
    destruct subdomain; lia.
  - apply GetLimitsForSubscription_true, subscription_limits_rows_elem in Hl.
    destruct Hl as (s & e & Hin & Hid & Hst & _ & _ & Hcust & _). eauto.
Qed.

(** A database admitted by [CheckDatabaseForSubscription] keeps the
    subscription within its database quota. *)
Theorem database_admission_within_quota (db : Database) policy (sid : Z) (limits : Limits)
    (row : DatabaseRow) (usage' : Usage) :
  CheckDatabaseForSubscription (Some (SQLStore (Some db) policy)) sid = Ok limits →
  db_subscription_id row = sid →
  sql_GetUsageForSubscription (Some (insert_database db row)) sid = Ok usage' →
  lenient (lim_OverusePolicy limits) ∨
  (0 ≤ lim_MaxDatabases limits → use_Databases usage' ≤ lim_MaxDatabases limits).
Proof.
  unfold CheckDatabaseForSubscription. cbn [SQLStore GetLimitsForSubscription GetUsageForSubscription].
  intros HE Hsid Hu'. destruct (sql_GetLimitsForSubscription (Some db) sid) as [[l has]|]; [|done].
  cbn [result_bind] in HE. run_ok.
  match goal with E : countLimitReached _ _ _ = false |- _ =>
    apply countLimitReached_false in E as [|Hcount] end; [by left|right].
  pose proof (usage_after_database db _ _ _ _ eq_refl ltac:(eassumption) Hu'). lia.
Qed.

(** Backups are admitted exactly as the subscription promises, as long as
    the storage limit is below 2^43 MB, where its conversion to bytes does not
    wrap: backups are allowed, the count is below the limit or only reported,
    and the stored bytes are strictly below the limit in bytes, which the
    overuse policy does not relax. *)
Theorem backup_admission_exact (store : Store) (sid : Z) (limits l : Limits) (usage : Usage) :
  GetLimitsForSubscription store sid = Ok (l, true) →
  GetUsageForSubscription store sid = Ok usage →
  lim_BackupStorageMB l < 2 ^ 43 →
  CheckBackupForSubscription (Some store) sid = Ok limits ↔
  limits = l ∧
  (lim_AllowBackups l = true ∨ lim_OverusePolicy l = "") ∧
  (lenient (lim_OverusePolicy l) ∨ (0 ≤ lim_MaxBackups l → use_Backups usage < lim_MaxBackups l)) ∧
  (0 ≤ lim_BackupStorageMB l →
   use_BackupStorageBytes usage < lim_BackupStorageMB l * 1048576).
Proof.
  intros Hl Hu Hsmall. unfold CheckBackupForSubscription. rewrite Hl. cbn [result_bind].
  rewrite fail_when_Ok, Hu. cbn [result_bind]. rewrite backup_guard_Ok.
  assert ((0 ≤ lim_BackupStorageMB l → use_BackupStorageBytes usage < max_backup_bytes l)
    ↔ (0 ≤ lim_BackupStorageMB l → use_BackupStorageBytes usage < lim_BackupStorageMB l * 1048576)) as ->.
  { split; intros HF Hpos; [rewrite <- max_backup_bytes_small|rewrite max_backup_bytes_small]; auto. }
  naive_solver.
Qed.

(** The versions of an allowlist. *)
Definition allowlist_versions (limits : Limits) : list string :=
  trim_space <$> split_on "," (lim_PHPAllowlist limits).

Lemma first_nonempty_elem l v : v ∈ l → v ≠ "" → first_nonempty l ∈ l ∧ first_nonempty l ≠ "".
Proof.
  intros Hv Hne. unfold first_nonempty.
  assert (v ∈ filter (λ version, version ≠ "") l) as Hin by (by apply list_elem_of_filter).
  destruct (filter (λ version, version ≠ "") l) as [|x k] eqn:E; [by apply elem_of_nil in Hin|].
  assert (x ∈ filter (λ version, version ≠ "") l) as Hx by (rewrite E; constructor).
  apply list_elem_of_filter in Hx as [? ?]. done.
Qed.

Lemma ResolvePHPVersion_nonempty limits requested v :
  ResolvePHPVersion limits requested = Ok v →
  (trim_space (lim_PHPAllowlist limits) = "" ∧ lim_OverusePolicy limits = "" ∧ v = trim_space requested) ∨
  (v ≠ "" ∧ v ∈ allowlist_versions limits).
Proof.
  unfold ResolvePHPVersion, allowlist_versions. destruct (_ && _) eqn:E.
  - apply andb_true_iff in E as [??]; bool_split. intros [= <-]. by left.
  - intros HE. right. revert HE. run_iff. set (w := if String.eqb _ "" then _ else _).
    destruct (one_of w _) eqn:Ew; [|naive_solver]. intros [Hne [= <-]]. bool_split.
    apply one_of_elem in Ew. done.
Qed.

(** A subscription whose allowlist names a version always resolves a PHP
    version for a request that leaves it open, provided its default is unset or
    allowed: version 8.4 when it is allowed. Whatever is resolved, for any
    request, is a version of the allowlist. *)
Theorem resolve_php_version_allowed (limits : Limits) (requested version v : string) :
  version ∈ allowlist_versions limits → version ≠ "" →
  trim_space (lim_DefaultPHPVersion limits) ∈ "" :: allowlist_versions limits →
  trim_space (lim_PHPAllowlist limits) ≠ "" →
  (∃ chosen, ResolvePHPVersion limits "" = Ok chosen ∧
             ("8.4" ∈ allowlist_versions limits → chosen = "8.4")) ∧
  (ResolvePHPVersion limits requested = Ok v → v ∈ allowlist_versions limits).
Proof.
  intros Hin Hne Hdefault Hlist. split.
  - set (chosen := PreferredNewSitePHPVersion (lim_PHPAllowlist limits) (lim_DefaultPHPVersion limits)).
    assert (chosen ≠ "" ∧ chosen ∈ allowlist_versions limits
            ∧ ("8.4" ∈ allowlist_versions limits → chosen = "8.4")) as (Hc & Hcin & H84).
    { unfold chosen, PreferredNewSitePHPVersion. fold (allowlist_versions limits).
      destruct (one_of "8.4" _) eqn:E84; [apply one_of_elem in E84; done|].
      assert ("8.4" ∉ allowlist_versions limits) as Hnot by (rewrite <- one_of_elem, E84; done).
      destruct (String.eqb (trim_space (lim_DefaultPHPVersion limits)) "") eqn:Ed; bool_split; simpl.
      - destruct (first_nonempty_elem _ _ Hin Hne). done.
      - apply elem_of_cons in Hdefault as [?|?]; done. }
    exists chosen. split; [|done]. unfold ResolvePHPVersion.
    rewrite (proj2 (String.eqb_neq _ _) Hlist). cbn [andb].
    change (trim_space "") with "". rewrite String.eqb_refl. fold chosen (allowlist_versions limits).
    rewrite (proj2 (String.eqb_neq _ _) Hc). cbn [fail_when].
    by rewrite (proj2 (one_of_elem chosen _) Hcin).
  - intros [[? _]|[_ ?]]%ResolvePHPVersion_nonempty; done.
Qed.

(** * Witnesses *)

Module QuotaSamples.

Definition limits : Limits :=
  zero_Limits <| lim_MaxSites := 2 |> <| lim_MaxSubdomains := -1 |> <| lim_MaxDatabases := 1 |>
    <| lim_MaxBackups := 3 |> <| lim_BackupStorageMB := 10 |> <| lim_SiteDiskQuotaMB := 500 |>
    <| lim_PHPFPMMaxChildren := 4 |> <| lim_PHPMemoryMB := 128 |> <| lim_OverusePolicy := "block" |>
    <| lim_PHPAllowlist := "8.2, 8.3" |> <| lim_HostingEnabled := true |> <| lim_AllowBackups := true |>.

Definition site (parent : option Z) : SiteRow := mkSiteRow 7 1 parent "active" "none".

Definition db : Database :=
  mkDatabase [mkSubscriptionRow 1 (Some 7) (Some 3) (Some 9) "active"] [mkEntitlementRow 1 limits]
    [mkCustomerRow 3 "active" (Some 4)] [mkResellerRow 4 "active"]
    [mkResellerSubscriptionRow 4 "active"; mkResellerSubscriptionRow 4 "cancelled"]
    [site None; mkSiteRow 7 1 None "failed" "none"] [] [mkBackupRow 7 1 "active" 1048576].

Definition store : Store := SQLStore (Some db) None.
Definition loaded : Limits :=
  match sql_GetLimitsForSubscription (Some db) 1 with Ok (l, _) => l | Err _ => zero_Limits end.
Definition usage (db : Database) : Usage :=
  match sql_GetUsageForSubscription (Some db) 1 with Ok u => u | Err _ => zero_Usage end.

End QuotaSamples.

Lemma site_admission_within_quota_witness :
  use_Domains (QuotaSamples.usage (insert_site QuotaSamples.db (QuotaSamples.site None))) = 2 ∧
  (lenient (lim_OverusePolicy QuotaSamples.loaded) ∨
   (0 ≤ lim_MaxSites QuotaSamples.loaded →
    use_Domains (QuotaSamples.usage (insert_site QuotaSamples.db (QuotaSamples.site None)))
    ≤ lim_MaxSites QuotaSamples.loaded)).
Proof.
  split; [vm_compute; reflexivity|].
  apply (site_admission_within_quota QuotaSamples.db None 1 false
    (site_limits_of QuotaSamples.loaded) QuotaSamples.loaded (QuotaSamples.site None));
    vm_compute; reflexivity.
Defined.

Lemma database_admission_within_quota_witness :
  let row := mkDatabaseRow 7 1 "pending" in
  lenient "block" ∨
  (0 ≤ 1 → use_Databases (QuotaSamples.usage (insert_database QuotaSamples.db row)) ≤ 1).
Proof.
  apply (database_admission_within_quota QuotaSamples.db None 1 QuotaSamples.loaded
    (mkDatabaseRow 7 1 "pending")); vm_compute; reflexivity.
Defined.

Lemma backup_admission_exact_witness :
  CheckBackupForSubscription (Some QuotaSamples.store) 1 = Ok QuotaSamples.loaded ↔
  QuotaSamples.loaded = QuotaSamples.loaded ∧
  (lim_AllowBackups QuotaSamples.loaded = true ∨ lim_OverusePolicy QuotaSamples.loaded = "") ∧
  (lenient (lim_OverusePolicy QuotaSamples.loaded) ∨ (0 ≤ lim_MaxBackups QuotaSamples.loaded →
     use_Backups (QuotaSamples.usage QuotaSamples.db) < lim_MaxBackups QuotaSamples.loaded)) ∧
  (0 ≤ lim_BackupStorageMB QuotaSamples.loaded →
   use_BackupStorageBytes (QuotaSamples.usage QuotaSamples.db)
   < lim_BackupStorageMB QuotaSamples.loaded * 1048576).
Proof.
  apply (backup_admission_exact QuotaSamples.store 1); vm_compute; reflexivity.
Defined.

Lemma resolve_php_version_allowed_witness :
  (∃ chosen, ResolvePHPVersion QuotaSamples.limits "" = Ok chosen ∧
     ("8.4" ∈ allowlist_versions QuotaSamples.limits → chosen = "8.4")) ∧
  (ResolvePHPVersion QuotaSamples.limits " 8.3" = Ok "8.3" → "8.3" ∈ allowlist_versions QuotaSamples.limits).
Proof.
  apply (resolve_php_version_allowed QuotaSamples.limits " 8.3" "8.2" "8.3");
    [vm_compute; constructor | discriminate | vm_compute; constructor | vm_compute; discriminate].
Defined.
