(* ===== verification/DNSTypes.v ===== *)
(** * DNS types ([internal/types/dns.go], [envelope.go])

    The structs of the DNS template, its zones and its synchronisation runs, with
    the field conventions of [HostingTypes]. Timestamps are [Z] (seconds). *)

From S2P Require Import Prelude.

Record DNSRecord := mkDNSRecord {
  rec_ID : Z;
  rec_ZoneID : Z;
  rec_OwnerSiteID : Z;
  rec_Host : string;
  rec_Type : string;
  rec_Value : string;
  rec_Priority : Z;
  rec_Weight : Z;
  rec_Port : Z;
  rec_TTL : Z;
  rec_Origin : string;
  rec_TemplateRecordKey : string;
  rec_TemplateRevision : Z;
  rec_LocallyModified : bool;
}.

#[export] Instance eta_DNSRecord : Eta DNSRecord := λ r,
  mkDNSRecord (rec_ID r) (rec_ZoneID r) (rec_OwnerSiteID r) (rec_Host r) (rec_Type r) (rec_Value
    r) (rec_Priority r) (rec_Weight r) (rec_Port r) (rec_TTL r) (rec_Origin r)
    (rec_TemplateRecordKey r) (rec_TemplateRevision r) (rec_LocallyModified r).

Definition zero_DNSRecord : DNSRecord :=
  mkDNSRecord 0 0 0 EmptyString EmptyString EmptyString 0 0 0 0 EmptyString EmptyString 0 false.

Record DNSSOASettings := mkDNSSOASettings {
  soa_PrimaryNameserver : string;
  soa_ResponsibleMailbox : string;
  soa_SerialFormat : string;
  soa_DefaultTTL : Z;
  soa_RefreshSeconds : Z;
  soa_RetrySeconds : Z;
  soa_ExpireSeconds : Z;
  soa_MinimumTTL : Z;
}.

#[export] Instance eta_DNSSOASettings : Eta DNSSOASettings := λ r,
  mkDNSSOASettings (soa_PrimaryNameserver r) (soa_ResponsibleMailbox r) (soa_SerialFormat r)
    (soa_DefaultTTL r) (soa_RefreshSeconds r) (soa_RetrySeconds r) (soa_ExpireSeconds r)
    (soa_MinimumTTL r).

Definition zero_DNSSOASettings : DNSSOASettings :=
  mkDNSSOASettings EmptyString EmptyString EmptyString 0 0 0 0 0.

Record DNSTemplateRecord := mkDNSTemplateRecord {
  trec_ID : Z;
  trec_StableKey : string;
  trec_Scope : string;
  trec_HostTemplate : string;
  trec_Type : string;
  trec_ValueTemplate : string;
  trec_Priority : Z;
  trec_Weight : Z;
  trec_Port : Z;
  trec_TTL : Z;
}.

#[export] Instance eta_DNSTemplateRecord : Eta DNSTemplateRecord := λ r,
  mkDNSTemplateRecord (trec_ID r) (trec_StableKey r) (trec_Scope r) (trec_HostTemplate r)
    (trec_Type r) (trec_ValueTemplate r) (trec_Priority r) (trec_Weight r) (trec_Port r)
    (trec_TTL r).

Definition zero_DNSTemplateRecord : DNSTemplateRecord :=
  mkDNSTemplateRecord 0 EmptyString EmptyString EmptyString EmptyString EmptyString 0 0 0 0.

Record DNSTemplateRevision := mkDNSTemplateRevision {
  tpl_ID : Z;
  tpl_Revision : Z;
  tpl_SOA : DNSSOASettings;
  tpl_ZoneStatus : string;
  tpl_SubdomainPolicy : string;
  tpl_TransferCIDRs : list string;
  tpl_Records : list DNSTemplateRecord;
  tpl_CreatedBy : Z;
  tpl_CreatedAt : Z;
  tpl_OptimisticRevision : Z;
}.

#[export] Instance eta_DNSTemplateRevision : Eta DNSTemplateRevision := λ r,
  mkDNSTemplateRevision (tpl_ID r) (tpl_Revision r) (tpl_SOA r) (tpl_ZoneStatus r)
    (tpl_SubdomainPolicy r) (tpl_TransferCIDRs r) (tpl_Records r) (tpl_CreatedBy r)
    (tpl_CreatedAt r) (tpl_OptimisticRevision r).

Definition zero_DNSTemplateRevision : DNSTemplateRevision :=
  mkDNSTemplateRevision 0 0 zero_DNSSOASettings EmptyString EmptyString [] [] 0 0 0.

Record DNSZoneView := mkDNSZoneView {
  zone_ID : Z;
  zone_SiteID : Z;
  zone_ParentZoneID : Z;
  zone_Domain : string;
  zone_Address : string;
  zone_IPv6Address : string;
  zone_Mode : string;
  zone_UpstreamPrimaries : list string;
  zone_TransferCIDRs : list string;
  zone_SOA : DNSSOASettings;
  zone_TemplateRevision : Z;
  zone_TemplateStatus : string;
  zone_DesiredRevision : Z;
  zone_AppliedRevision : Z;
  zone_Status : string;
  zone_LastError : string;
  zone_Records : list DNSRecord;
}.

#[export] Instance eta_DNSZoneView : Eta DNSZoneView := λ r,
  mkDNSZoneView (zone_ID r) (zone_SiteID r) (zone_ParentZoneID r) (zone_Domain r) (zone_Address
    r) (zone_IPv6Address r) (zone_Mode r) (zone_UpstreamPrimaries r) (zone_TransferCIDRs r)
    (zone_SOA r) (zone_TemplateRevision r) (zone_TemplateStatus r) (zone_DesiredRevision r)
    (zone_AppliedRevision r) (zone_Status r) (zone_LastError r) (zone_Records r).

Definition zero_DNSZoneView : DNSZoneView :=
  mkDNSZoneView 0 0 0 EmptyString EmptyString EmptyString EmptyString [] [] zero_DNSSOASettings
    0 EmptyString 0 0 EmptyString EmptyString [].

Record DNSSyncItem := mkDNSSyncItem {
  item_ID : Z;
  item_ZoneID : Z;
  item_OwnerSiteID : Z;
  item_Domain : string;
  item_Outcome : string;
  item_AddedCount : Z;
  item_UpdatedCount : Z;
  item_RemovedCount : Z;
  item_OverrideCount : Z;
  item_ConflictCount : Z;
  item_AdoptedCount : Z;
  item_Detail : string;
}.

#[export] Instance eta_DNSSyncItem : Eta DNSSyncItem := λ r,
  mkDNSSyncItem (item_ID r) (item_ZoneID r) (item_OwnerSiteID r) (item_Domain r) (item_Outcome
    r) (item_AddedCount r) (item_UpdatedCount r) (item_RemovedCount r) (item_OverrideCount r)
    (item_ConflictCount r) (item_AdoptedCount r) (item_Detail r).

Definition zero_DNSSyncItem : DNSSyncItem :=
  mkDNSSyncItem 0 0 0 EmptyString EmptyString 0 0 0 0 0 0 EmptyString.

Record DNSSyncRun := mkDNSSyncRun {
  run_ID : Z;
  run_TemplateRevision : Z;
  run_Scope : string;
  run_Status : string;
  run_PreviewToken : string;
  run_ExpectedStateRevision : Z;
  run_TotalZones : Z;
  run_ChangedZones : Z;
  run_FailedZones : Z;
  run_LastError : string;
  run_CreatedAt : Z;
  run_CompletedAt : option Z;
  run_Items : list DNSSyncItem;
  run_AdoptMatching : bool;
}.

#[export] Instance eta_DNSSyncRun : Eta DNSSyncRun := λ r,
  mkDNSSyncRun (run_ID r) (run_TemplateRevision r) (run_Scope r) (run_Status r)
    (run_PreviewToken r) (run_ExpectedStateRevision r) (run_TotalZones r) (run_ChangedZones r)
    (run_FailedZones r) (run_LastError r) (run_CreatedAt r) (run_CompletedAt r) (run_Items r)
    (run_AdoptMatching r).

Definition zero_DNSSyncRun : DNSSyncRun :=
  mkDNSSyncRun 0 0 EmptyString EmptyString EmptyString 0 0 0 0 EmptyString 0 None [] false.

Record DNSProviderDefaults := mkDNSProviderDefaults {
  pdef_PrimaryNameserver : string;
  pdef_SecondaryNameserver : string;
}.

#[export] Instance eta_DNSProviderDefaults : Eta DNSProviderDefaults := λ r,
  mkDNSProviderDefaults (pdef_PrimaryNameserver r) (pdef_SecondaryNameserver r).

Definition zero_DNSProviderDefaults : DNSProviderDefaults :=
  mkDNSProviderDefaults EmptyString EmptyString.

Record DNSPreviewDomain := mkDNSPreviewDomain {
  pdom_SiteID : Z;
  pdom_Domain : string;
}.

#[export] Instance eta_DNSPreviewDomain : Eta DNSPreviewDomain := λ r,
  mkDNSPreviewDomain (pdom_SiteID r) (pdom_Domain r).

Definition zero_DNSPreviewDomain : DNSPreviewDomain :=
  mkDNSPreviewDomain 0 EmptyString.

Record DNSPreviewRecord := mkDNSPreviewRecord {
  prec_Record : DNSRecord;
  prec_Action : string;
}.

#[export] Instance eta_DNSPreviewRecord : Eta DNSPreviewRecord := λ r,
  mkDNSPreviewRecord (prec_Record r) (prec_Action r).

Definition zero_DNSPreviewRecord : DNSPreviewRecord :=
  mkDNSPreviewRecord zero_DNSRecord EmptyString.

Record DNSDomainPreview := mkDNSDomainPreview {
  dprev_SiteID : Z;
  dprev_Domain : string;
  dprev_ZoneDomain : string;
  dprev_Mode : string;
  dprev_TemplateRevision : Z;
  dprev_Records : list DNSPreviewRecord;
  dprev_Warnings : list string;
}.

#[export] Instance eta_DNSDomainPreview : Eta DNSDomainPreview := λ r,
  mkDNSDomainPreview (dprev_SiteID r) (dprev_Domain r) (dprev_ZoneDomain r) (dprev_Mode r)
    (dprev_TemplateRevision r) (dprev_Records r) (dprev_Warnings r).

Definition zero_DNSDomainPreview : DNSDomainPreview :=
  mkDNSDomainPreview 0 EmptyString EmptyString EmptyString 0 [] [].

Record DNSTemplateSettingsInput := mkDNSTemplateSettingsInput {
  tset_ExpectedRevision : Z;
  tset_SOA : DNSSOASettings;
  tset_ZoneStatus : string;
  tset_SubdomainPolicy : string;
  tset_TransferCIDRs : list string;
}.

#[export] Instance eta_DNSTemplateSettingsInput : Eta DNSTemplateSettingsInput := λ r,
  mkDNSTemplateSettingsInput (tset_ExpectedRevision r) (tset_SOA r) (tset_ZoneStatus r)
    (tset_SubdomainPolicy r) (tset_TransferCIDRs r).

Definition zero_DNSTemplateSettingsInput : DNSTemplateSettingsInput :=
  mkDNSTemplateSettingsInput 0 zero_DNSSOASettings EmptyString EmptyString [].

Record DNSZoneModeInput := mkDNSZoneModeInput {
  zmode_Mode : string;
  zmode_UpstreamPrimaries : list string;
  zmode_ExpectedRevision : Z;
}.

#[export] Instance eta_DNSZoneModeInput : Eta DNSZoneModeInput := λ r,
  mkDNSZoneModeInput (zmode_Mode r) (zmode_UpstreamPrimaries r) (zmode_ExpectedRevision r).

Definition zero_DNSZoneModeInput : DNSZoneModeInput :=
  mkDNSZoneModeInput EmptyString [] 0.

(** The request the control plane sends the agent for a zone, and its answer
    ([envelope.go]). *)
Record ConfigureDNSZoneReq := mkConfigureDNSZoneReq {
  dzr_SiteID : Z;
  dzr_SubscriptionID : Z;
  dzr_ZoneID : Z;
  dzr_DesiredRevision : Z;
  dzr_Domain : string;
  dzr_Address : string;
  dzr_IPv6Address : string;
  dzr_Serial : Z;
  dzr_ZoneDir : string;
  dzr_Mode : string;
  dzr_UpstreamPrimaries : list string;
  dzr_TransferCIDRs : list string;
  dzr_SOA : DNSSOASettings;
  dzr_Records : list DNSRecord;
}.

#[export] Instance eta_ConfigureDNSZoneReq : Eta ConfigureDNSZoneReq := λ r,
  mkConfigureDNSZoneReq (dzr_SiteID r) (dzr_SubscriptionID r) (dzr_ZoneID r) (dzr_DesiredRevision r)
    (dzr_Domain r) (dzr_Address r) (dzr_IPv6Address r) (dzr_Serial r) (dzr_ZoneDir r) (dzr_Mode r)
    (dzr_UpstreamPrimaries r) (dzr_TransferCIDRs r) (dzr_SOA r) (dzr_Records r).

Definition zero_ConfigureDNSZoneReq : ConfigureDNSZoneReq :=
  mkConfigureDNSZoneReq 0 0 0 0 EmptyString EmptyString EmptyString 0 EmptyString EmptyString [] []
    zero_DNSSOASettings [].

Record ConfigureDNSZoneResult := mkConfigureDNSZoneResult {
  dzres_Domain : string;
  dzres_ZonePath : string;
  dzres_IncludePath : string;
  dzres_Serial : Z;
  dzres_DesiredRevision : Z;
  dzres_Mode : string;
}.

#[export] Instance eta_ConfigureDNSZoneResult : Eta ConfigureDNSZoneResult := λ r,
  mkConfigureDNSZoneResult (dzres_Domain r) (dzres_ZonePath r) (dzres_IncludePath r) (dzres_Serial r)
    (dzres_DesiredRevision r) (dzres_Mode r).

#[export] Instance DNSRecord_eq_dec : EqDecision DNSRecord.
Proof. solve_decision. Defined.

#[export] Instance DNSSOASettings_eq_dec : EqDecision DNSSOASettings.
Proof. solve_decision. Defined.

#[export] Instance DNSTemplateRecord_eq_dec : EqDecision DNSTemplateRecord.
Proof. solve_decision. Defined.

#[export] Instance DNSSyncItem_eq_dec : EqDecision DNSSyncItem.
Proof. solve_decision. Defined.

#[export] Instance ConfigureDNSZoneReq_eq_dec : EqDecision ConfigureDNSZoneReq.
Proof. solve_decision. Defined.
