(* ===== verification/DNSRecord.v ===== *)
(** * DNS records ([internal/control/dnstemplate/validation.go])

    Normalisation and validation of single records and record sets, expansion of
    template records, validation of template revisions, SOA settings and transfer
    networks, and the zone serial ([nextDNSSerial] of [manager.go]). Regular
    expressions are the derivatives of [Regex]; the submatches of the CAA and DS
    patterns are the fields of the matched value. *)

From S2P Require Import Prelude GoStr GoTime Regex Net Site DNSTypes.
From Stdlib Require Import Ascii.

(** ** Patterns *)

Definition placeholder_name : re := r_plus (RCls (c_or c_lower_alnum (c_any "_-"))).

Definition ipv4PlaceholderRE : re := r_seq [r_lit "<ip."; placeholder_name; r_byte ">"].
Definition ipv6PlaceholderRE : re := r_seq [r_lit "<ipv6."; placeholder_name; r_byte ">"].

Definition templatePlaceholderRE : re :=
  r_seq [r_byte "<";
         r_alts [r_lit "domain"; r_lit "subdomain"; r_lit "hostname";
                 RCat (r_lit "ip.") placeholder_name; RCat (r_lit "ipv6.") placeholder_name];
         r_byte ">"].

Definition dnsOwnerRE : re :=
  RAlt (r_byte "@")
    (RCat (RCls (c_or c_alnum (c_any "_")))
          (r_opt (RCat (RStar (RCls (c_or c_alnum (c_any "._-")))) (RCls (c_or c_alnum (c_any "_-")))))).

Definition templateRecordKeyRE : re :=
  RCat (RCls c_alnum) (r_range 0 95 (RCls (c_or c_alnum (c_any "_.-")))).

Definition is_crlf (c : ascii) : bool := (code c =? 10) || (code c =? 13).
Definition is_dquote (c : ascii) : bool := code c =? 34.

Definition caaValueRE : re :=
  r_seq [r_range 1 3 (RCls is_digit); r_plus (RCls c_space);
         r_alts [r_lit "issue"; r_lit "issuewild"; r_lit "iodef"]; r_plus (RCls c_space);
         RCls is_dquote; r_plus (RCls (λ c, negb (is_dquote c || is_crlf c))); RCls is_dquote].

Definition c_hex : ascii → bool := c_or is_digit (c_or (in_range 65 70) (in_range 97 102)).

Definition dsValueRE : re :=
  r_seq [r_range 1 5 (RCls is_digit); r_plus (RCls c_space);
         r_range 1 3 (RCls is_digit); r_plus (RCls c_space);
         r_range 1 3 (RCls is_digit); r_plus (RCls c_space); r_plus (RCls c_hex)].

(** [strings.ContainsAny(s, "\r\n\x00")]. *)
Definition has_control (s : string) : bool := contains_byte (λ c, is_crlf c || (code c =? 0)) s.

(** The submatches of a value one of the two patterns matched: the runs of
    non-space bytes. *)
Definition fields_of (s : string) : list string :=
  filter (λ f, f ≠ "") (split_on " " (string_map (λ c, if c_space c then " "%char else c) s)).

Definition atoi_or_zero (s : string) : Z := default 0 (atoi s).

(** ** Expansion of placeholders *)

Record expansionContext := mkExpansionContext {
  ctx_domain : string;
  ctx_subdomain : string;
  ctx_hostname : string;
  ctx_ipv4 : string;
  ctx_ipv6 : string;
}.

Section Records.
Context `{GoUnicode} `{GoMapOrder}.

Definition expandPlaceholders (value : string) (values : expansionContext) : string :=
  let replacements := [("<domain>", ctx_domain values); ("<subdomain>", ctx_subdomain values);
                       ("<hostname>", ctx_hostname values)] in
  let value := foldl (λ value '(old, replacement), replace_all value old replacement)
                 value (map_order replacements) in
  let value := replace_all_re ipv4PlaceholderRE value (ctx_ipv4 values) in
  replace_all_re ipv6PlaceholderRE value (ctx_ipv6 values).

Definition validatePlaceholders (value : string) : result unit :=
  return_if contains_any "<>" (replace_all_re templatePlaceholderRE value "")
    with errors_New "contains an unsupported placeholder" ;;
  Ok ().

(** ** One record *)

Definition canonicalTarget (value : string) : string :=
  trim_suffix (to_lower (trim_space value)) ".".

Definition validateTarget (value : string) : result unit :=
  let target := canonicalTarget value in
  return_if String.eqb target "" with errors_New "target cannot be blank" ;;
  ValidateDomain target.

Definition validSRVOwner (host : string) : bool :=
  match split_on "." (to_lower (trim_space host)) with
  | l0 :: l1 :: _ => (1 <? str_len l0) && (1 <? str_len l1) && has_prefix l0 "_" && has_prefix l1 "_"
  | _ => false
  end.

Definition valid_label (label : string) : bool :=
  negb (String.eqb label "" || (63 <? str_len label))
  && negb (has_prefix label "-" || has_suffix label "-").

Definition validDNSOwnerLabels (host : string) : bool :=
  if String.eqb host "@" then true else forallb valid_label (split_on "." host).

Definition clearRecordFields (record : DNSRecord) : DNSRecord :=
  record <| rec_Priority := 0 |> <| rec_Weight := 0 |> <| rec_Port := 0 |>.

Definition port_range (z : Z) : bool := (0 <=? z) && (z <=? 65535).

(** The cases of the type switch. *)
Definition normalize_address (v4 : bool) (record : DNSRecord) : result DNSRecord :=
  let is_v4 := match parse_ip (rec_Value record) with
               | Some ip => Some (bool_decide (is_Some (to4 ip)))
               | None => None
               end in
  return_if negb (bool_decide (is_v4 = Some v4))
    with errors_New (if v4 then "A record requires an IPv4 address" else "AAAA record requires an IPv6 address") ;;
  Ok (clearRecordFields record).

Definition normalize_cname (record : DNSRecord) : result DNSRecord :=
  return_if String.eqb (rec_Host record) "@"
    with errors_New "a CNAME record cannot be created at the zone apex" ;;
  let* _ := result_wrap "CNAME: " (validateTarget (rec_Value record)) in
  Ok (clearRecordFields (record <| rec_Value := canonicalTarget (rec_Value record) |>)).

Definition normalize_mx_ns (record : DNSRecord) : result DNSRecord :=
  let* _ := result_wrap (rec_Type record +:+ ": ") (validateTarget (rec_Value record)) in
  let record := record <| rec_Value := canonicalTarget (rec_Value record) |> in
  if String.eqb (rec_Type record) "MX" then
    return_if negb (port_range (rec_Priority record)) with errors_New "MX priority is invalid" ;;
    Ok (record <| rec_Weight := 0 |> <| rec_Port := 0 |>)
  else Ok (clearRecordFields record).

Definition normalize_txt (record : DNSRecord) : result DNSRecord :=
  return_if String.eqb (rec_Value record) "" || (4096 <? str_len (rec_Value record))
    with errors_New "TXT value must contain 1 to 4096 characters" ;;
  Ok (clearRecordFields record).

Definition normalize_srv (record : DNSRecord) : result DNSRecord :=
  return_if negb (validSRVOwner (rec_Host record))
    with errors_New "SRV host must use the _service._protocol form" ;;
  return_if negb (port_range (rec_Priority record)) || negb (port_range (rec_Weight record))
            || (rec_Port record <? 1) || (65535 <? rec_Port record)
    with errors_New "SRV priority, weight, or port is invalid" ;;
  let* _ := result_wrap "SRV: " (validateTarget (rec_Value record)) in
  Ok (record <| rec_Value := canonicalTarget (rec_Value record) |>).

Definition normalize_caa (record : DNSRecord) : result DNSRecord :=
  return_if negb (re_match caaValueRE (rec_Value record))
    with errors_New ("CAA value must be: flags tag " +:+ dquote +:+ "value" +:+ dquote) ;;
  return_if 255 <? atoi_or_zero (nth 0 (fields_of (rec_Value record)) "")
    with errors_New "CAA flags must be between 0 and 255" ;;
  Ok (clearRecordFields record).

Definition ds_digest_length (digestType : Z) : Z :=
  if digestType =? 1 then 40 else if digestType =? 2 then 64 else if digestType =? 4 then 96 else 0.

Definition normalize_ds (record : DNSRecord) : result DNSRecord :=
  return_if negb (re_match dsValueRE (rec_Value record))
    with errors_New "DS value must contain key-tag algorithm digest-type digest" ;;
  let group i := nth i (fields_of (rec_Value record)) "" in
  let keyTag := atoi_or_zero (group 0%nat) in
  let algorithm := atoi_or_zero (group 1%nat) in
  return_if (65535 <? keyTag) || (algorithm <? 1) || (255 <? algorithm)
    with errors_New "DS key tag or algorithm is invalid" ;;
  let wantLength := ds_digest_length (atoi_or_zero (group 2%nat)) in
  return_if (wantLength =? 0) || negb (str_len (group 3%nat) =? wantLength)
    with errors_New "DS digest length does not match its digest type" ;;
  Ok (clearRecordFields record).

Definition normalize_by_type (record : DNSRecord) : result DNSRecord :=
  let type_is t := String.eqb (rec_Type record) t in
  if type_is "A" then normalize_address true record
  else if type_is "AAAA" then normalize_address false record
  else if type_is "CNAME" then normalize_cname record
  else if type_is "MX" || type_is "NS" then normalize_mx_ns record
  else if type_is "TXT" then normalize_txt record
  else if type_is "SRV" then normalize_srv record
  else if type_is "CAA" then normalize_caa record
  else if type_is "DS" then normalize_ds record
  else Err (errors_New ("unsupported DNS record type " +:+ quote (rec_Type record))).

(** The fields as the checks see them: trimmed, in canonical case, with the
    default host and TTL. *)
Definition trim_record (record : DNSRecord) : DNSRecord :=
  let record := record <| rec_Host := to_lower (trim_space (rec_Host record)) |> in
  let record := if String.eqb (rec_Host record) "" then record <| rec_Host := "@" |> else record in
  let record := record <| rec_Type := to_upper (trim_space (rec_Type record)) |> in
  let record := record <| rec_Value := trim_space (rec_Value record) |> in
  if rec_TTL record =? 0 then record <| rec_TTL := 3600 |> else record.

Definition host_valid (host : string) : bool :=
  (str_len host <=? 253) && re_match dnsOwnerRE host && validDNSOwnerLabels host
  && negb (contains_byte (λ c, is_crlf c || (code c =? 0) || (code c =? 32) || (code c =? 9)) host).

Definition normalizeRecord (domain : string) (record : DNSRecord) : result DNSRecord :=
  let record := trim_record record in
  return_if (rec_TTL record <? 60) || (86400 <? rec_TTL record)
    with errors_New "DNS TTL must be between 60 and 86400 seconds" ;;
  return_if negb (host_valid (rec_Host record)) with errors_New "DNS host is invalid" ;;
  return_if has_control (rec_Value record) with errors_New "DNS value contains control characters" ;;
  let* _ := if negb (String.eqb (rec_Host record) "@") && negb (contains (rec_Host record) "_")
            then result_wrap "invalid DNS host: " (ValidateDomain (rec_Host record +:+ "." +:+ domain))
            else Ok () in
  normalize_by_type record.

(** ** Template records *)

(** [host] moved under the subdomain of the site it is expanded for. *)
Definition scope_host (subdomain host : string) : string :=
  if String.eqb subdomain "" then host
  else if String.eqb host "@" then subdomain
  else if negb (String.eqb host subdomain) && negb (has_suffix host ("." +:+ subdomain))
       then host +:+ "." +:+ subdomain
       else host.

(** [None] is [omit]. *)
Definition expandTemplateRecord (record : DNSTemplateRecord) (values : expansionContext)
    : result (option DNSRecord) :=
  if String.eqb (trec_Scope record) "root" && negb (String.eqb (ctx_subdomain values) "") then Ok None
  else if String.eqb (trec_Scope record) "subdomain" && String.eqb (ctx_subdomain values) "" then Ok None
  else
    let host := expandPlaceholders (trec_HostTemplate record) values in
    let value := expandPlaceholders (trec_ValueTemplate record) values in
    let host := scope_host (ctx_subdomain values) host in
    if contains (trec_ValueTemplate record) "<ipv6." && String.eqb (ctx_ipv6 values) "" then Ok None
    else
      let expanded := zero_DNSRecord
        <| rec_Host := host |> <| rec_Type := trec_Type record |> <| rec_Value := value |>
        <| rec_Priority := trec_Priority record |> <| rec_Weight := trec_Weight record |>
        <| rec_Port := trec_Port record |> <| rec_TTL := trec_TTL record |>
        <| rec_Origin := "template" |> <| rec_TemplateRecordKey := trec_StableKey record |> in
      let* normalized := normalizeRecord (ctx_domain values) expanded in
      Ok (Some normalized).

Definition sample_context (subdomain : string) : expansionContext :=
  mkExpansionContext "example.test" subdomain "panel.example.test" "192.0.2.10" "2001:db8::10".

Definition trim_template_record (record : DNSTemplateRecord) : DNSTemplateRecord :=
  let record := record
    <| trec_StableKey := trim_space (trec_StableKey record) |>
    <| trec_Scope := to_lower (trim_space (trec_Scope record)) |>
    <| trec_HostTemplate := to_lower (trim_space (trec_HostTemplate record)) |>
    <| trec_Type := to_upper (trim_space (trec_Type record)) |>
    <| trec_ValueTemplate := trim_space (trec_ValueTemplate record) |> in
  let record := if String.eqb (trec_Scope record) "" then record <| trec_Scope := "all" |> else record in
  if trec_TTL record =? 0 then record <| trec_TTL := 3600 |> else record.

Definition sample_contexts (scope : string) : list expansionContext :=
  let contexts := if String.eqb scope "subdomain" then [] else [sample_context ""] in
  if String.eqb scope "all" || String.eqb scope "subdomain"
  then contexts ++ [sample_context "shop"] else contexts.

Definition validateTemplateRecord (record : DNSTemplateRecord) : result DNSTemplateRecord :=
  let record := trim_template_record record in
  return_if negb (re_match templateRecordKeyRE (trec_StableKey record))
    with errors_New "template record key must contain 1 to 96 letters, numbers, dots, underscores, or hyphens" ;;
  return_if negb (one_of (trec_Scope record) ["all"; "root"; "subdomain"])
    with errors_New "template record scope must be all, root, or subdomain" ;;
  let* _ := for_each (λ value,
      return_if String.eqb value "" || has_control value
        with errors_New "DNS template fields cannot be blank or contain control characters" ;; Ok ())
      [trec_HostTemplate record; trec_ValueTemplate record] in
  let* _ := result_wrap "host template: " (validatePlaceholders (trec_HostTemplate record)) in
  let* _ := result_wrap "value template: " (validatePlaceholders (trec_ValueTemplate record)) in
  let* _ := for_each (λ sample,
      let* expanded := expandTemplateRecord record sample in
      match expanded with
      | None => Err (errors_New "template record is not valid for its selected scope")
      | Some expanded => let* _ := normalizeRecord (ctx_domain sample) expanded in Ok ()
      end) (sample_contexts (trec_Scope record)) in
  Ok record.

(** ** Record sets *)

Record ownerState := mkOwnerState { own_total : Z; own_cnames : Z; own_spf : Z }.

#[export] Instance eta_ownerState : Eta ownerState := λ r,
  mkOwnerState (own_total r) (own_cnames r) (own_spf r).

Definition owner_host (record : DNSRecord) : string := to_lower (trim_space (rec_Host record)).
Definition owner_type (record : DNSRecord) : string := to_upper (trim_space (rec_Type record)).
Definition is_spf (record : DNSRecord) : bool :=
  String.eqb (owner_type record) "TXT" && has_prefix (to_lower (trim_space (rec_Value record))) "v=spf1".

Definition identity_value (record : DNSRecord) : string :=
  if one_of (owner_type record) ["CNAME"; "MX"; "NS"; "SRV"]
  then canonicalTarget (trim_space (rec_Value record)) else trim_space (rec_Value record).

Definition record_identity (record : DNSRecord) : string :=
  join nul [owner_host record; owner_type record; identity_value record;
            itoa (rec_Priority record); itoa (rec_Weight record); itoa (rec_Port record)].

Definition bump (b : bool) (z : Z) : Z := if b then z + 1 else z.

Definition add_owner (owners : gmap string ownerState) (record : DNSRecord) : gmap string ownerState :=
  let state := default (mkOwnerState 0 0 0) (owners !! owner_host record) in
  <[owner_host record := mkOwnerState (own_total state + 1)
      (bump (String.eqb (owner_type record) "CNAME") (own_cnames state))
      (bump (is_spf record) (own_spf state))]> owners.

Fixpoint collect_owners (owners : gmap string ownerState) (identities : gset string)
    (records : list DNSRecord) : result (gmap string ownerState) :=
  match records with
  | [] => Ok owners
  | record :: rest =>
    let owners := add_owner owners record in
    return_if bool_decide (record_identity record ∈ identities)
      with errors_New ("duplicate " +:+ owner_type record +:+ " record at " +:+ quote (owner_host record)) ;;
    collect_owners owners ({[record_identity record]} ∪ identities) rest
  end.

Definition check_owners (owners : gmap string ownerState) : result unit :=
  for_each (λ '(host, state),
    return_if 1 <? own_spf state
      with errors_New ("only one SPF policy is allowed at " +:+ quote host) ;;
    return_if (0 <? own_cnames state) && negb (own_total state =? 1)
      with errors_New ("CNAME record at " +:+ quote host +:+ " cannot coexist with another record") ;;
    Ok ()) (map_order (map_to_list owners)).

Definition validateDNSRecordSet (records : list DNSRecord) : result unit :=
  let* owners := collect_owners ∅ ∅ records in
  check_owners owners.

(** ** Comparison of records *)

Definition recordsSameRData (left right : DNSRecord) : bool :=
  let valueEqual := if String.eqb (rec_Type left) "TXT" then String.eqb (rec_Value left) (rec_Value right)
    else equal_fold (trim_suffix (rec_Value left) ".") (trim_suffix (rec_Value right) ".") in
  equal_fold (rec_Host left) (rec_Host right) && String.eqb (rec_Type left) (rec_Type right)
  && valueEqual && (rec_Priority left =? rec_Priority right)
  && (rec_Weight left =? rec_Weight right) && (rec_Port left =? rec_Port right).

Definition recordsEqual (left right : DNSRecord) : bool :=
  recordsSameRData left right && (rec_TTL left =? rec_TTL right).

(** ** Template revisions *)

Definition system_samples (sample : expansionContext) : list DNSRecord :=
  let sys host type value := zero_DNSRecord <| rec_Host := host |> <| rec_Type := type |>
    <| rec_Value := value |> <| rec_TTL := 3600 |> in
  [sys "@" "NS" ("ns1." +:+ ctx_domain sample);
   sys "ns1" "A" (ctx_ipv4 sample);
   sys "webmail" "A" (ctx_ipv4 sample)].

Definition appendMissingSystemSampleRecords (records : list DNSRecord) (sample : expansionContext)
    : list DNSRecord :=
  foldl (λ records wanted,
    if existsb (λ existing, recordsSameRData existing wanted) records then records
    else records ++ [wanted]) records (system_samples sample).

Fixpoint normalize_template_records (seenKeys : gset string) (records : list DNSTemplateRecord)
    : result (list DNSTemplateRecord) :=
  match records with
  | [] => Ok []
  | record :: rest =>
    let* value := result_wrap ("template record " +:+ quote (trec_StableKey record) +:+ ": ")
                    (validateTemplateRecord record) in
    return_if bool_decide (trec_StableKey value ∈ seenKeys)
      with errors_New ("template record key " +:+ quote (trec_StableKey value) +:+ " is duplicated") ;;
    let* normalized := normalize_template_records ({[trec_StableKey value]} ∪ seenKeys) rest in
    Ok (value :: normalized)
  end.

(** The expansions that are not omitted. *)
Fixpoint expand_all (records : list DNSTemplateRecord) (sample : expansionContext)
    : result (list DNSRecord) :=
  match records with
  | [] => Ok []
  | record :: rest =>
    let* expanded := result_wrap ("expand template record " +:+ quote (trec_StableKey record) +:+ ": ")
                       (expandTemplateRecord record sample) in
    let* others := expand_all rest sample in
    Ok (match expanded with Some r => r :: others | None => others end)
  end.

Definition sample_record_set (normalized : list DNSTemplateRecord) (sample : expansionContext)
    : result (list DNSRecord) :=
  let* records := expand_all normalized sample in
  let records := if String.eqb (ctx_subdomain sample) ""
    then appendMissingSystemSampleRecords records sample else records in
  let* _ := result_wrap "template record set is invalid: " (validateDNSRecordSet records) in
  Ok records.

Definition validateTemplateRevision (template : DNSTemplateRevision) : result unit :=
  let* normalized := normalize_template_records ∅ (tpl_Records template) in
  let* root := sample_record_set normalized (sample_context "") in
  let* child := sample_record_set normalized (sample_context "shop") in
  result_wrap "template conflicts when a subdomain uses its parent zone: "
    (validateDNSRecordSet (root ++ child)).

(** ** SOA settings and transfer networks *)

Definition validateTemplateDomain (value : string) : result unit :=
  let* _ := validatePlaceholders value in
  ValidateDomain (trim_suffix (expandPlaceholders (trim_space value) (sample_context "shop")) ".").

Definition soa_checks (settings : DNSSOASettings) : list (string * Z * Z * Z) :=
  [("default TTL", soa_DefaultTTL settings, 60, 86400);
   ("refresh", soa_RefreshSeconds settings, 300, 86400);
   ("retry", soa_RetrySeconds settings, 60, 86400);
   ("expire", soa_ExpireSeconds settings, 86400, 2419200);
   ("minimum TTL", soa_MinimumTTL settings, 60, 86400)].

Definition validateSOA (settings : DNSSOASettings) : result unit :=
  let* _ := result_wrap "primary nameserver: " (validateTemplateDomain (soa_PrimaryNameserver settings)) in
  let* _ := result_wrap "responsible mailbox: " (validateTemplateDomain (soa_ResponsibleMailbox settings)) in
  return_if negb (one_of (soa_SerialFormat settings) ["unix"; "date-counter"])
    with errors_New "SOA serial format is invalid" ;;
  for_each (λ '(name, value, min, max),
    return_if (value <? min) || (max <? value)
      with errors_New (name +:+ " must be between " +:+ itoa min +:+ " and " +:+ itoa max) ;; Ok ())
    (soa_checks settings).

Fixpoint collect_cidrs (seen : gset string) (values : list string) : result (list string) :=
  match values with
  | [] => Ok []
  | raw :: rest =>
    let raw := trim_space raw in
    if String.eqb raw "" then collect_cidrs seen rest
    else match parse_cidr raw with
         | None => Err (errors_New ("invalid transfer CIDR " +:+ quote raw))
         | Some network =>
           let value := print_net network in
           if bool_decide (value ∈ seen) then collect_cidrs seen rest
           else let* result := collect_cidrs ({[value]} ∪ seen) rest in Ok (value :: result)
         end
  end.

Definition validateCIDRs (values : list string) : result (list string) := collect_cidrs ∅ values.

End Records.

(** ** Zone serials *)

(** [strconv.ParseInt(now.Format("20060102")+"00", 10, 64)]. *)
Definition date_base (now : Z) : Z :=
  let '(y, m, d) := civil_from_days (now / 86400) in y * 1000000 + m * 10000 + d * 100.

Definition nextDNSSerial (now previous : Z) (format : string) : result Z :=
  let* serial :=
    if String.eqb format "date-counter" then
      let base := date_base now in
      if (base <=? previous) && (previous <? base + 99) then Ok (previous + 1)
      else if (base + 99 <=? previous) && (previous <? base + 100)
        then Err (errors_New "the DNS serial date counter is exhausted for today")
      else if base <? previous then Ok (previous + 1)
      else Ok base
    else if now <=? previous then Ok (previous + 1) else Ok now in
  return_if (serial <? 1) || (4294967295 <? serial)
    with errors_New "the next DNS serial exceeds the RFC 1982 32-bit range" ;;
  Ok serial.

(** * Lemmas *)

Lemma port_range_spec z : port_range z = true ↔ 0 ≤ z ≤ 65535.
Proof. unfold port_range. rewrite andb_true_iff, !Z.leb_le. done. Qed.

(** ** Record sets *)

Section RecordSets.
Context `{GoUnicode} `{GoMapOrder}.

Definition at_owner (host : string) (records : list DNSRecord) : list DNSRecord :=
  filter (λ r, owner_host r = host) records.
Definition is_cname (r : DNSRecord) : bool := String.eqb (owner_type r) "CNAME".

Definition number {A} (p : A → bool) (l : list A) : Z := Z.of_nat (length (filter p l)).

(** What the owner map holds for a host: the tallies of its records. *)
Definition tally (host : string) (records : list DNSRecord) : ownerState :=
  mkOwnerState (Z.of_nat (length (at_owner host records)))
    (number is_cname (at_owner host records)) (number is_spf (at_owner host records)).

Lemma number_snoc {A} (p : A → bool) l x : number p (l ++ [x]) = bump (p x) (number p l).
Proof.
  unfold number, bump. rewrite filter_app, length_app, filter_cons. destruct (p x); case_decide; simpl; naive_solver lia.
Qed.

Lemma tally_snoc host records r :
  tally host (records ++ [r]) =
  if bool_decide (owner_host r = host)
  then mkOwnerState (own_total (tally host records) + 1)
         (bump (is_cname r) (own_cnames (tally host records)))
         (bump (is_spf r) (own_spf (tally host records)))
  else tally host records.
Proof.
  unfold tally, at_owner. rewrite filter_app, filter_cons. case_bool_decide as E.
  - rewrite decide_True by done. rewrite filter_nil, !number_snoc, length_app. cbn. f_equal. lia.
  - rewrite decide_False by done. by rewrite filter_nil, app_nil_r.
Qed.

Definition owners_ok (owners : gmap string ownerState) (seen : list DNSRecord) : Prop :=
  ∀ host, owners !! host =
    if bool_decide (host ∈ owner_host <$> seen) then Some (tally host seen) else None.

Lemma tally_absent host seen : host ∉ owner_host <$> seen → tally host seen = mkOwnerState 0 0 0.
Proof.
  intros Hnot. unfold tally. replace (at_owner host seen) with (@nil DNSRecord); [done|].
  unfold at_owner. induction seen as [|r seen IH]; [done|].
  rewrite fmap_cons, not_elem_of_cons in Hnot. rewrite filter_cons, decide_False; naive_solver.
Qed.

Lemma add_owner_ok owners seen r : owners_ok owners seen → owners_ok (add_owner owners r) (seen ++ [r]).
Proof.
  intros HI host. unfold add_owner. rewrite fmap_app, tally_snoc.
  assert (default (mkOwnerState 0 0 0) (owners !! owner_host r) = tally (owner_host r) seen) as ->.
  { rewrite HI. case_bool_decide; [done|]. symmetry. by apply tally_absent. }
  destruct (decide (owner_host r = host)) as [<-|Hne].
  - rewrite lookup_insert_eq, !bool_decide_eq_true_2; [done|done|]. set_solver.
  - rewrite lookup_insert_ne, HI by done. rewrite (bool_decide_eq_false_2 (owner_host r = host)) by done.
    rewrite (bool_decide_ext (host ∈ owner_host <$> seen) (host ∈ (owner_host <$> seen) ++ (owner_host <$> [r]))); [done|].
    simpl. rewrite elem_of_app, list_elem_of_singleton. naive_solver.
Qed.

(** The state of the loop after the records [seen]. *)
Record collected (owners : gmap string ownerState) (identities : gset string) (seen : list DNSRecord) : Prop := {
  col_owners : owners_ok owners seen;
  col_identities : ∀ x, x ∈ identities ↔ x ∈ record_identity <$> seen;
  col_nodup : NoDup (record_identity <$> seen);
}.

Lemma collected_empty : collected ∅ ∅ [].
Proof. split; [|set_solver|constructor]. intros host. by rewrite bool_decide_eq_false_2 by set_solver. Qed.

Lemma collected_snoc owners identities seen r :
  collected owners identities seen → record_identity r ∉ identities →
  collected (add_owner owners r) ({[record_identity r]} ∪ identities) (seen ++ [r]).
Proof.
  intros [HI Hids Hnd] Hnew. split; [by apply add_owner_ok| |].
  - intros x. rewrite fmap_app, elem_of_union, elem_of_app, elem_of_singleton, Hids.
    simpl. rewrite list_elem_of_singleton. naive_solver.
  - rewrite fmap_app. apply NoDup_app. split; [done|]. split; [|apply NoDup_singleton].
    intros x Hx ->%list_elem_of_singleton. by apply Hnew, Hids.
Qed.

Lemma collect_owners_sound owners identities seen records owners' :
  collected owners identities seen → collect_owners owners identities records = Ok owners' →
  NoDup (record_identity <$> seen ++ records) ∧ owners_ok owners' (seen ++ records).
Proof.
  revert owners identities seen. induction records as [|r rest IH]; intros owners ids seen HI Hrun.
  - simpl in Hrun. rewrite app_nil_r. destruct HI. by simplify_eq.
  - cbn [collect_owners] in Hrun. apply fail_when_Ok in Hrun as [Hnew Hrun]. bool_split.
    apply (IH _ _ _ (collected_snoc _ _ _ _ HI Hnew)) in Hrun. by rewrite <- app_assoc in Hrun.
Qed.

Lemma collect_owners_complete owners identities seen records :
  collected owners identities seen → NoDup (record_identity <$> seen ++ records) →
  ∃ owners', collect_owners owners identities records = Ok owners'.
Proof.
  revert owners identities seen. induction records as [|r rest IH]; intros owners ids seen HI Hnd.
  - by eexists.
  - assert (record_identity r ∉ ids) as Hnew.
    { rewrite (col_identities _ _ _ HI). intros Hin. rewrite fmap_app in Hnd.
      apply NoDup_app in Hnd as (_ & Hdis & _). apply (Hdis _ Hin). rewrite fmap_cons. constructor. }
    cbn [collect_owners]. rewrite (bool_decide_eq_false_2 _ Hnew). cbn [fail_when].
    apply (IH _ _ (seen ++ [r]) (collected_snoc _ _ _ _ HI Hnew)). by rewrite <- app_assoc.
Qed.

(** A record set DNS can serve: no record twice, at most one SPF policy per
    owner, and an owner with a CNAME has nothing else. *)
Record WellFormedSet (records : list DNSRecord) : Prop := {
  wfs_identities : NoDup (record_identity <$> records);
  wfs_spf : ∀ host, number is_spf (at_owner host records) ≤ 1;
  wfs_cname : ∀ r r', r ∈ records → r' ∈ records → is_cname r = true → owner_host r' = owner_host r → r' = r;
}.

Lemma at_owner_elem host records r : r ∈ at_owner host records ↔ owner_host r = host ∧ r ∈ records.
Proof. unfold at_owner. by rewrite list_elem_of_filter. Qed.

Lemma number_pos {A} (p : A → bool) l : 0 < number p l ↔ ∃ x, x ∈ l ∧ p x = true.
Proof.
  unfold number. split.
  - intros Hpos. destruct (filter p l) as [|x k] eqn:E; [simpl in Hpos; lia|].
    assert (x ∈ filter p l) as Hx by (rewrite E; constructor).
    apply list_elem_of_filter in Hx as [Hp Hx]. exists x. split; [done|]. by destruct (p x).
  - intros (x & Hx & Hp). assert (x ∈ filter p l) as Hin by (apply list_elem_of_filter; by rewrite Hp).
    destruct (filter p l); [by apply elem_of_nil in Hin|simpl; lia].
Qed.

(** Over records with distinct identities, "alone at its owner" is the count the
    code compares with one. *)
Lemma cname_alone records :
  NoDup (record_identity <$> records) →
  (∀ r r', r ∈ records → r' ∈ records → is_cname r = true → owner_host r' = owner_host r → r' = r) ↔
  (∀ host, 0 < own_cnames (tally host records) → own_total (tally host records) = 1).
Proof.
  intros Hnd%NoDup_fmap_1. split.
  - intros HF host (r & [<- Hr]%at_owner_elem & Hc)%number_pos. cbn.
    assert (at_owner (owner_host r) records = [r]) as ->; [|done].
    assert (NoDup (at_owner (owner_host r) records)) as Hnd' by by apply NoDup_filter.
    assert (r ∈ at_owner (owner_host r) records) as Hin by by apply at_owner_elem.
    assert (∀ r', r' ∈ at_owner (owner_host r) records → r' = r) as Hall
      by (intros r' [? ?]%at_owner_elem; eauto).
    destruct (at_owner (owner_host r) records) as [|x [|y l]]; [by apply elem_of_nil in Hin| |].
    + by rewrite (Hall x) by constructor.
    + exfalso. apply NoDup_cons in Hnd' as [Hx _].
      rewrite (Hall x), (Hall y) in Hx by (repeat constructor). apply Hx. constructor.
  - intros HF r r' Hr Hr' Hc Ho.
    assert (own_total (tally (owner_host r) records) = 1) as Htot.
    { apply HF, number_pos. exists r. by rewrite at_owner_elem. }
    cbn in Htot. destruct (at_owner (owner_host r) records) as [|x [|y l]] eqn:E; simpl in Htot; [lia| |lia].
    assert (r ∈ [x]) as ->%list_elem_of_singleton by by rewrite <- E, at_owner_elem.
    assert (r' ∈ [x]) as ->%list_elem_of_singleton by by rewrite <- E, at_owner_elem.
    done.
Qed.

Lemma owner_check_Ok owners records :
  owners_ok owners records →
  check_owners owners = Ok () ↔
  ∀ host, own_spf (tally host records) ≤ 1 ∧
    (0 < own_cnames (tally host records) → own_total (tally host records) = 1).
Proof.
  intros HI. unfold check_owners. rewrite for_each_map_order.
  rewrite (for_each_Forall (λ '(_, state), own_spf state ≤ 1 ∧ (0 < own_cnames state → own_total state = 1))).
  2: { intros [host state]. run_iff. rewrite Z.ltb_ge, andb_false_iff, negb_false_iff, Z.ltb_ge, Z.eqb_eq.
       naive_solver lia. }
  rewrite Forall_forall. split.
  - intros HF host. destruct (decide (host ∈ owner_host <$> records)) as [Hin|Hout].
    + apply (HF (host, tally host records)), elem_of_map_to_list.
      by rewrite (HI host), bool_decide_eq_true_2.
    + rewrite tally_absent by done. cbn. lia.
  - intros HF [host state] Hin%elem_of_map_to_list. rewrite (HI host) in Hin.
    case_bool_decide; simplify_eq. apply HF.
Qed.

Lemma validateDNSRecordSet_Ok records :
  validateDNSRecordSet records = Ok () ↔ WellFormedSet records.
Proof.
  unfold validateDNSRecordSet. rewrite result_bind_Ok. split.
  - intros (owners & Hrun & Hcheck).
    apply (collect_owners_sound _ _ _ _ _ collected_empty) in Hrun as [Hnd HI].
    pose proof (proj1 (owner_check_Ok _ _ HI) Hcheck) as Hall.
    split; [done|intros host; exact (proj1 (Hall host))|].
    apply cname_alone; [done|]. intros host. exact (proj2 (Hall host)).
  - intros [Hnd Hspf Hcname].
    destruct (collect_owners_complete _ _ _ records collected_empty Hnd) as [owners Hrun].
    exists owners. split; [exact Hrun|].
    apply (collect_owners_sound _ _ _ _ _ collected_empty) in Hrun as [_ HI].
    apply (owner_check_Ok _ _ HI). intros host. split; [apply Hspf|].
    by apply (proj1 (cname_alone records Hnd) Hcname).
Qed.

#[global] Instance WellFormedSet_proper : Proper ((≡ₚ) ==> iff) WellFormedSet.
Proof.
  assert (∀ l k, l ≡ₚ k → WellFormedSet l → WellFormedSet k) as Hone.
  { intros l k HP [Hnd Hspf Hc]. split.
    - by rewrite <- HP.
    - intros host. rewrite <- (Hspf host). unfold number, at_owner. by rewrite HP.
    - intros r r'. rewrite <- !HP. apply Hc. }
  intros l k HP. split; apply Hone; [done|by symmetry].
Qed.

Lemma WellFormedSet_app_l l k : WellFormedSet (l ++ k) → WellFormedSet l.
Proof.
  intros [Hnd Hspf Hc]. split.
  - rewrite fmap_app in Hnd. by apply NoDup_app in Hnd as [? _].
  - intros host. specialize (Hspf host). unfold number, at_owner in *.
    rewrite !filter_app, length_app in Hspf. lia.
  - intros r r' Hr Hr'. apply Hc; set_solver.
Qed.

End RecordSets.

(** ** Normalisation *)

Section Normalisation.
Context `{GoUnicode}.

Definition record_types : list string := ["A"; "AAAA"; "CNAME"; "MX"; "NS"; "TXT"; "SRV"; "CAA"; "DS"].
Definition target_types : list string := ["CNAME"; "MX"; "NS"; "SRV"].

(** The constraints of the [dns_records] table and of the zone file on a
    record. *)
Record CanonicalRecord (domain : string) (r : DNSRecord) : Prop := {
  can_type : rec_Type r ∈ record_types;
  can_ttl : 60 ≤ rec_TTL r ≤ 86400;
  can_host : host_valid (rec_Host r) = true;
  can_name : rec_Host r = "@" ∨ contains (rec_Host r) "_" = true
             ∨ ValidateDomain (rec_Host r +:+ "." +:+ domain) = Ok ();
  can_value : has_control (rec_Value r) = false;
  can_priority : if one_of (rec_Type r) ["MX"; "SRV"] then 0 ≤ rec_Priority r ≤ 65535 else rec_Priority r = 0;
  can_service : if String.eqb (rec_Type r) "SRV"
                then 0 ≤ rec_Weight r ≤ 65535 ∧ 1 ≤ rec_Port r ≤ 65535
                else rec_Weight r = 0 ∧ rec_Port r = 0;
  can_target : rec_Type r ∈ target_types → ValidateDomain (rec_Value r) = Ok ();
  can_address : rec_Type r ∈ ["A"; "AAAA"] →
                ∃ ip, parse_ip (rec_Value r) = Some ip ∧ (rec_Type r = "A" ↔ is_Some (to4 ip));
  can_apex : rec_Type r = "CNAME" → rec_Host r ≠ "@";
  can_text : rec_Type r = "TXT" → 1 ≤ str_len (rec_Value r) ≤ 4096;
}.

(** What the type switch does to a record it accepts. *)
Record Switched (t r : DNSRecord) : Prop := {
  sw_type : rec_Type t ∈ record_types;
  sw_shape : r = t <| rec_Value := rec_Value r |> <| rec_Priority := rec_Priority r |>
                   <| rec_Weight := rec_Weight r |> <| rec_Port := rec_Port r |>;
  sw_value : if one_of (rec_Type t) target_types
             then rec_Value r = canonicalTarget (rec_Value t) ∧ ValidateDomain (rec_Value r) = Ok ()
             else rec_Value r = rec_Value t;
  sw_priority : if one_of (rec_Type t) ["MX"; "SRV"] then 0 ≤ rec_Priority r ≤ 65535 else rec_Priority r = 0;
  sw_service : if String.eqb (rec_Type t) "SRV"
               then 0 ≤ rec_Weight r ≤ 65535 ∧ 1 ≤ rec_Port r ≤ 65535
               else rec_Weight r = 0 ∧ rec_Port r = 0;
  sw_again : normalize_by_type r = Ok r;
}.

(** A validated target is already canonical. *)
Lemma canonicalTarget_valid v : ValidateDomain v = Ok () → canonicalTarget v = v.
Proof.
  intros Hv. unfold canonicalTarget.
  rewrite trim_space_solid by (by apply domain_solid).
  rewrite to_lower_id by (by apply domain_lower).
  by rewrite trim_suffix_none by (by apply domain_no_trailing_dot).
Qed.

Lemma validateTarget_Ok v : validateTarget v = Ok () ↔ ValidateDomain (canonicalTarget v) = Ok ().
Proof.
  unfold validateTarget. rewrite fail_when_Ok, String.eqb_neq. split; [naive_solver|].
  intros Hd. split; [|done]. intros E. rewrite E in Hd. discriminate Hd.
Qed.

Lemma validateTarget_canonical v :
  validateTarget v = Ok () → validateTarget (canonicalTarget v) = Ok ().
Proof. rewrite !validateTarget_Ok. intros Hd. by rewrite canonicalTarget_valid. Qed.

Lemma type_switch (P : DNSRecord → result DNSRecord → Prop) t :
  (rec_Type t = "A" → P t (normalize_address true t)) →
  (rec_Type t = "AAAA" → P t (normalize_address false t)) →
  (rec_Type t = "CNAME" → P t (normalize_cname t)) →
  (rec_Type t = "MX" ∨ rec_Type t = "NS" → P t (normalize_mx_ns t)) →
  (rec_Type t = "TXT" → P t (normalize_txt t)) →
  (rec_Type t = "SRV" → P t (normalize_srv t)) →
  (rec_Type t = "CAA" → P t (normalize_caa t)) →
  (rec_Type t = "DS" → P t (normalize_ds t)) →
  (∀ e, P t (Err e)) → P t (normalize_by_type t).
Proof.
  intros. unfold normalize_by_type.
  repeat match goal with
  | |- context [if ?b then _ else _] => destruct b eqn:?
  end; bool_split; auto.
  match goal with E : _ || _ = true |- _ => apply orb_true_iff in E as [E|E] end; bool_split; auto.
Qed.

(** One case of the switch: the type is known, so the tables it indexes reduce. *)
Ltac switched Ht :=
  split; cbn -[canonicalTarget ValidateDomain]; rewrite ?Ht; try done; try assumption;
  [by repeat constructor | unfold normalize_by_type; cbn -[canonicalTarget ValidateDomain]; rewrite Ht].

Lemma switched_address v4 t r :
  rec_Type t = (if v4 : bool then "A" else "AAAA") → normalize_address v4 t = Ok r → Switched t r.
Proof.
  intros Ht [Hg [= <-]]%fail_when_Ok.
  destruct v4; switched Ht; unfold normalize_address; cbn; by rewrite Hg.
Qed.

Lemma switched_cname t r : rec_Type t = "CNAME" → normalize_cname t = Ok r → Switched t r.
Proof.
  unfold normalize_cname. intros Ht. run_iff. intros (Hg & Hv%result_wrap_Ok & [= <-]).
  pose proof (validateTarget_canonical _ Hv) as Hv'. apply validateTarget_Ok in Hv.
  switched Ht. cbn -[canonicalTarget ValidateDomain validateTarget]. unfold normalize_cname.
  cbn -[canonicalTarget validateTarget]. rewrite Hg, Hv'. cbn -[canonicalTarget].
  by rewrite (canonicalTarget_valid _ Hv).
Qed.

Lemma switched_mx_ns t r :
  rec_Type t = "MX" ∨ rec_Type t = "NS" → normalize_mx_ns t = Ok r → Switched t r.
Proof.
  unfold normalize_mx_ns. intros Ht [Hv%result_wrap_Ok HE]%result_seq_Ok.
  pose proof (validateTarget_canonical _ Hv) as Hv'. apply validateTarget_Ok in Hv.
  cbn -[canonicalTarget port_range] in HE.
  destruct Ht as [Ht|Ht]; rewrite Ht in HE; cbn -[canonicalTarget port_range] in HE.
  - apply fail_when_Ok in HE as [Hp [= <-]]. assert (0 ≤ rec_Priority t ≤ 65535) by (bool_split; by apply port_range_spec).
    switched Ht.
    cbn -[canonicalTarget validateTarget]. unfold normalize_mx_ns.
    cbn -[canonicalTarget validateTarget port_range]. rewrite Hv', Ht. cbn -[canonicalTarget port_range].
    by rewrite Hp, (canonicalTarget_valid _ Hv).
  - injection HE as <-. switched Ht. cbn -[canonicalTarget validateTarget]. unfold normalize_mx_ns.
    cbn -[canonicalTarget validateTarget]. rewrite Hv', Ht. cbn -[canonicalTarget].
    by rewrite (canonicalTarget_valid _ Hv).
Qed.

Lemma switched_txt t r : rec_Type t = "TXT" → normalize_txt t = Ok r → Switched t r.
Proof.
  intros Ht [Hg [= <-]]%fail_when_Ok. switched Ht. unfold normalize_txt. cbn -[str_len Z.ltb].
  by rewrite Hg.
Qed.

Lemma switched_srv t r : rec_Type t = "SRV" → normalize_srv t = Ok r → Switched t r.
Proof.
  unfold normalize_srv. intros Ht. run_iff. intros (Hg & Hp & Hv%result_wrap_Ok & [= <-]).
  pose proof (validateTarget_canonical _ Hv) as Hv'. apply validateTarget_Ok in Hv.
  assert (0 ≤ rec_Priority t ≤ 65535 ∧ 0 ≤ rec_Weight t ≤ 65535 ∧ 1 ≤ rec_Port t ≤ 65535) as (? & ?).
  { bool_split. rewrite !port_range_spec in *. lia. }
  switched Ht. cbn -[canonicalTarget validateTarget]. unfold normalize_srv.
  cbn -[canonicalTarget validateTarget validSRVOwner port_range Z.ltb].
  rewrite Hg, Hp, Hv'. cbn -[canonicalTarget]. by rewrite (canonicalTarget_valid _ Hv).
Qed.

Lemma switched_caa t r : rec_Type t = "CAA" → normalize_caa t = Ok r → Switched t r.
Proof.
  unfold normalize_caa. intros Ht. run_iff. intros (Hg & Hf & [= <-]).
  switched Ht. unfold normalize_caa. cbn -[caaValueRE re_match fields_of atoi_or_zero Z.ltb].
  by rewrite Hg, Hf.
Qed.

Lemma switched_ds t r : rec_Type t = "DS" → normalize_ds t = Ok r → Switched t r.
Proof.
  unfold normalize_ds. intros Ht. run_iff. intros (Hg & Hk & Hd & [= <-]).
  switched Ht. unfold normalize_ds.
  cbn -[dsValueRE re_match fields_of atoi_or_zero ds_digest_length str_len Z.ltb Z.eqb].
  by rewrite Hg, Hk, Hd.
Qed.

Lemma normalize_by_type_Ok t r : normalize_by_type t = Ok r → Switched t r.
Proof.
  apply (type_switch (λ t res, res = Ok r → Switched t r)).
  - apply (switched_address true).
  - apply (switched_address false).
  - apply switched_cname.
  - apply switched_mx_ns.
  - apply switched_txt.
  - apply switched_srv.
  - apply switched_caa.
  - apply switched_ds.
  - done.
Qed.

Lemma switched_host t r : Switched t r → rec_Host r = rec_Host t ∧ rec_Type r = rec_Type t ∧ rec_TTL r = rec_TTL t.
Proof. intros [_ Hs _ _ _ _]. by rewrite Hs. Qed.

Lemma switched_meta t r : Switched t r →
  rec_Origin r = rec_Origin t ∧ rec_TemplateRecordKey r = rec_TemplateRecordKey t ∧
  rec_LocallyModified r = rec_LocallyModified t.
Proof. intros [_ Hs _ _ _ _]. by rewrite Hs. Qed.

Lemma trim_record_meta r :
  rec_Origin (trim_record r) = rec_Origin r ∧
  rec_TemplateRecordKey (trim_record r) = rec_TemplateRecordKey r ∧
  rec_LocallyModified (trim_record r) = rec_LocallyModified r.
Proof.
  unfold trim_record. cbn -[to_lower to_upper trim_space].
  destruct (String.eqb (to_lower _) ""); cbn -[to_lower to_upper trim_space];
    destruct (rec_TTL r =? 0); done.
Qed.

Lemma domain_no_control v : ValidateDomain v = Ok () → has_control v = false.
Proof.
  intros Hv. unfold has_control. rewrite contains_byte_forall. apply negb_false_iff.
  revert Hv. apply domain_bytes; [|done]. intros c Hc%label_inner_code. unfold is_crlf.
  destruct (Z.eqb_spec (code c) 10), (Z.eqb_spec (code c) 13), (Z.eqb_spec (code c) 0); simpl; lia || done.
Qed.

(** The guards before the type switch, on a record whose fields are trimmed. *)
Definition record_guards (domain : string) (t : DNSRecord) : Prop :=
  60 ≤ rec_TTL t ≤ 86400 ∧ host_valid (rec_Host t) = true ∧ has_control (rec_Value t) = false ∧
  (rec_Host t = "@" ∨ contains (rec_Host t) "_" = true ∨
   ValidateDomain (rec_Host t +:+ "." +:+ domain) = Ok ()).

Lemma name_guard_Ok domain host :
  (if negb (String.eqb host "@") && negb (contains host "_")
   then result_wrap "invalid DNS host: " (ValidateDomain (host +:+ "." +:+ domain)) else Ok ()) = Ok () ↔
  host = "@" ∨ contains host "_" = true ∨ ValidateDomain (host +:+ "." +:+ domain) = Ok ().
Proof.
  destruct (String.eqb host "@") eqn:Eh, (contains host "_") eqn:Eu;
    bool_split; cbn [negb andb]; rewrite ?result_wrap_Ok; naive_solver.
Qed.

Lemma normalizeRecord_Ok domain r r' :
  normalizeRecord domain r = Ok r' ↔
  record_guards domain (trim_record r) ∧ normalize_by_type (trim_record r) = Ok r'.
Proof.
  unfold normalizeRecord, record_guards. cbv zeta. set (t := trim_record r). run_iff.
  rewrite orb_false_iff, !Z.ltb_ge, negb_false_iff.
  rewrite name_guard_Ok. tauto.
Qed.

Lemma switched_guards domain t r : Switched t r → record_guards domain t → record_guards domain r.
Proof.
  intros Hs (Httl & Hhost & Hval & Hname). pose proof (switched_host _ _ Hs) as (Ehost & _ & Ettl).
  unfold record_guards. rewrite Ettl, Ehost.
  split; [done|]. split; [done|]. split; [|done].
  pose proof (sw_value _ _ Hs) as Hv. destruct (one_of _ target_types).
  - destruct Hv as [_ Hd]. by apply domain_no_control.
  - by rewrite Hv.
Qed.

Lemma switched_canonical domain t r : record_guards domain t → Switched t r → CanonicalRecord domain r.
Proof.
  intros Hg Hs. apply (switched_guards _ _ _ Hs) in Hg as (Httl & Hhost & Hval & Hname).
  pose proof (switched_host _ _ Hs) as (_ & Ety & _).
  destruct Hs as [Hty _ Hv Hp Hw Hagain]. rewrite <- Ety in *.
  split; try done.
  - intros Htarget. unfold one_of in Hv. rewrite bool_decide_eq_true_2 in Hv by done. by destruct Hv.
  - intros Ha. assert (∀ v4, normalize_address v4 r = Ok r →
      ∃ ip, parse_ip (rec_Value r) = Some ip ∧ (v4 = true ↔ is_Some (to4 ip))) as Haddr.
    { intros v4 [Hn _]%fail_when_Ok. bool_split.
      destruct (parse_ip (rec_Value r)) as [ip|]; [|done]. exists ip. split; [done|].
      injection Hn as Hn. rewrite <- Hn. apply bool_decide_eq_true. }
    revert Ha Hagain. unfold normalize_by_type. intros [E|E%list_elem_of_singleton]%elem_of_cons; rewrite E; cbn.
    + intros (ip & ? & ?)%(Haddr true). exists ip. naive_solver.
    + intros (ip & ? & ?)%(Haddr false). exists ip. naive_solver.
  - intros E. revert Hagain. unfold normalize_by_type. rewrite E. cbn. unfold normalize_cname.
    run_iff. intros [Hn _]. by bool_split.
  - intros E. revert Hagain. unfold normalize_by_type. rewrite E. cbn -[str_len].
    unfold normalize_txt. run_iff. intros [Hn _]. bool_split. split; [|lia].
    unfold str_len in *. destruct (rec_Value r); simpl; [done|lia].
Qed.

Lemma normalizeRecord_meta domain r r' : normalizeRecord domain r = Ok r' →
  rec_Origin r' = rec_Origin r ∧ rec_TemplateRecordKey r' = rec_TemplateRecordKey r ∧
  rec_LocallyModified r' = rec_LocallyModified r.
Proof.
  intros [_ Hs%normalize_by_type_Ok]%normalizeRecord_Ok.
  destruct (switched_meta _ _ Hs) as (-> & -> & ->). apply trim_record_meta.
Qed.

(** ** Normalising twice *)

Definition owner_byte (c : ascii) : bool := c_or c_alnum (c_any "._-@") c.

Lemma owner_byte_solid c : owner_byte c = true → is_solid c = true.
Proof. destruct c as [[] [] [] [] [] [] [] []]; vm_compute; done. Qed.

Lemma host_valid_bytes host : host_valid host = true → string_forall owner_byte host = true.
Proof.
  unfold host_valid. intros Hh. bool_split.
  match goal with Hm : re_match dnsOwnerRE host = true |- _ => rename Hm into HM end.
  apply re_match_spec, in_alt_spec in HM as [Hat|HM].
  - unfold r_byte in Hat. apply in_cls_spec in Hat as (c & -> & <-%Ascii.eqb_eq). done.
  - apply in_cat_spec in HM as (x & y & -> & (c & -> & Hc)%in_cls_spec & Hy%in_opt_spec).
    rewrite string_forall_app. apply andb_true_iff. split.
    { simpl. rewrite andb_true_r. revert Hc. destruct c as [[] [] [] [] [] [] [] []]; vm_compute; done. }
    destruct Hy as [Hy| ->]; [|done].
    apply in_cat_spec in Hy as (z & w & -> & Hz%in_star_cls & (d & -> & Hd)%in_cls_spec).
    rewrite string_forall_app. apply andb_true_iff. split.
    + revert Hz. apply string_forall_impl. intros [[] [] [] [] [] [] [] []]; vm_compute; done.
    + simpl. rewrite andb_true_r. revert Hd. destruct d as [[] [] [] [] [] [] [] []]; vm_compute; done.
Qed.

Lemma host_valid_solid host : host_valid host = true → string_forall is_solid host = true.
Proof. intros Hh%host_valid_bytes. revert Hh. apply string_forall_impl, owner_byte_solid. Qed.

Lemma trim_space_ascii s : is_ascii s = true → is_ascii (trim_space s) = true.
Proof.
  intros Hs. unfold trim_space. destruct (trim_left_with_suffix is_space2 is_space3 s) as [x Hx].
  destruct (trim_right_prefix (trim_left s)) as [y Hy].
  unfold is_ascii in *. fold trim_left in Hx. rewrite Hx, string_forall_app in Hs.
  apply andb_true_iff in Hs as [_ Hs]. rewrite Hy, string_forall_app in Hs. by bool_split.
Qed.

(** The fields of a trimmed record. *)
Lemma trim_record_fields r :
  rec_Host (trim_record r) = (let h := to_lower (trim_space (rec_Host r)) in if String.eqb h "" then "@" else h) ∧
  rec_Type (trim_record r) = to_upper (trim_space (rec_Type r)) ∧
  rec_Value (trim_record r) = trim_space (rec_Value r) ∧
  rec_TTL (trim_record r) = (if rec_TTL r =? 0 then 3600 else rec_TTL r).
Proof.
  unfold trim_record. cbn -[to_lower to_upper trim_space]. destruct (String.eqb (to_lower _) "");
    cbn -[to_lower to_upper trim_space]; destruct (rec_TTL r =? 0); done.
Qed.

(** A record whose fields are already trimmed is left alone. *)
Lemma trim_record_id r :
  to_lower (trim_space (rec_Host r)) = rec_Host r → rec_Host r ≠ "" →
  to_upper (trim_space (rec_Type r)) = rec_Type r → trim_space (rec_Value r) = rec_Value r →
  rec_TTL r ≠ 0 → trim_record r = r.
Proof.
  intros Eh Hne Et Ev Httl. unfold trim_record. cbn -[to_lower to_upper trim_space].
  rewrite Eh, (proj2 (String.eqb_neq _ _) Hne). cbn -[to_lower to_upper trim_space].
  rewrite Et, Ev, (proj2 (Z.eqb_neq _ _) Httl). by destruct r.
Qed.

Lemma record_type_upper ty : ty ∈ record_types → to_upper (trim_space ty) = ty.
Proof.
  intros Hty. unfold record_types in Hty.
  repeat (apply elem_of_cons in Hty as [->|Hty]; [vm_compute; reflexivity|]). by apply elem_of_nil in Hty.
Qed.

Lemma normalizeRecord_again domain r r' :
  is_ascii (rec_Host r) = true → normalizeRecord domain r = Ok r' → normalizeRecord domain r' = Ok r'.
Proof.
  intros Hascii [Hg Hs%normalize_by_type_Ok]%normalizeRecord_Ok.
  pose proof (switched_guards _ _ _ Hs Hg) as Hg'.
  pose proof (trim_record_fields r) as (Eh & _ & Ev & _).
  pose proof (switched_host _ _ Hs) as (Eh' & Et' & _).
  assert (trim_record r' = r') as Hid.
  { apply trim_record_id.
    - rewrite Eh'. assert (string_forall is_solid (rec_Host (trim_record r)) = true) as Hsolid
        by (apply host_valid_solid; by destruct Hg as (_ & ? & _)).
      rewrite (trim_space_solid _ Hsolid), Eh. cbv zeta.
      destruct (String.eqb _ ""); [done|]. apply to_lower_idem. by apply trim_space_ascii.
    - rewrite Eh', Eh. cbv zeta. destruct (String.eqb (to_lower _) "") eqn:E; [done|by bool_split].
    - apply record_type_upper. rewrite Et'. apply (sw_type _ _ Hs).
    - pose proof (sw_value _ _ Hs) as Hv. destruct (one_of _ target_types).
      + destruct Hv as [_ Hd]. apply trim_space_solid. by apply domain_solid.
      + rewrite Hv, Ev. apply trim_space_idem.
    - destruct Hg' as [? _]. lia. }
  apply normalizeRecord_Ok. rewrite Hid. split; [done|]. apply (sw_again _ _ Hs).
Qed.

End Normalisation.

(** * Properties *)

Section Properties.
Context `{GoUnicode} `{GoMapOrder}.

(** C32. [validateDNSRecordSet] accepts exactly the well-formed sets, whatever
    order the owner map is ranged over: no record twice, at most one SPF policy
    per owner, and nothing beside a CNAME. In particular acceptance does not
    depend on the order of the records. *)
Theorem validate_record_set_exact (records : list DNSRecord) :
  validateDNSRecordSet records = Ok () ↔ WellFormedSet records.
Proof. apply validateDNSRecordSet_Ok. Qed.

(** A record [normalizeRecord] accepts satisfies the constraints of the
    [dns_records] table and of its type: a known type, a TTL within a day, a
    valid host that is not the apex for a CNAME, a validated target, an address
    of the right family, and priority, weight and port only where they mean
    something and in 16 bits. *)
Theorem normalize_record_canonical (domain : string) (r r' : DNSRecord) :
  normalizeRecord domain r = Ok r' → CanonicalRecord domain r'.
Proof.
  intros [Hg Hs%normalize_by_type_Ok]%normalizeRecord_Ok. by eapply switched_canonical.
Qed.

(** Normalisation is idempotent: a normalised record is stored and checked
    again without being changed. *)
Theorem normalize_record_idempotent (domain : string) (r r' : DNSRecord) :
  is_ascii (rec_Host r) = true → normalizeRecord domain r = Ok r' → normalizeRecord domain r' = Ok r'.
Proof. apply normalizeRecord_again. Qed.

End Properties.

Lemma serial_in_range previous s e :
  previous < s → ∀ serial,
  (return_if (s <? 1) || (4294967295 <? s) with e ;; Ok s) = Ok serial →
  previous < serial ∧ 1 ≤ serial ≤ 4294967295.
Proof. intros Hs serial. rewrite fail_when_Ok, orb_false_iff, !Z.ltb_ge. intros [? [= <-]]. lia. Qed.

Lemma serial_accepted s e :
  1 ≤ s ≤ 4294967295 →
  is_ok (return_if (s <? 1) || (4294967295 <? s) with e ;; Ok s) = true.
Proof. intros Hs. by rewrite !(proj2 (Z.ltb_ge _ _)) by lia. Qed.

(** The next serial of a zone is strictly greater than the previous one and
    fits the 32-bit serial space, in both formats. It is refused exactly when
    the day's counter is used up or the successor leaves that space. *)
Theorem next_serial_monotone (now previous : Z) (format : string) :
  (∀ serial, nextDNSSerial now previous format = Ok serial →
     previous < serial ∧ 1 ≤ serial ≤ 4294967295) ∧
  (0 ≤ previous < 4294967295 → 1 ≤ date_base now ≤ 4294967295 → now ≤ 4294967295 →
   is_ok (nextDNSSerial now previous format)
   = negb (String.eqb format "date-counter" && (previous =? date_base now + 99))).
Proof.
  unfold nextDNSSerial. generalize (date_base now). intros base.
  destruct (String.eqb format "date-counter"); cbn [andb negb].
  - destruct (Z.leb_spec base previous), (Z.ltb_spec previous (base + 99)),
      (Z.leb_spec (base + 99) previous), (Z.ltb_spec previous (base + 100)),
      (Z.ltb_spec base previous), (Z.eqb_spec previous (base + 99)); try (exfalso; lia);
      cbn [andb negb result_bind];
      first [by split | split; [apply serial_in_range; lia|intros; apply serial_accepted; lia]].
  - destruct (Z.leb_spec now previous); cbn [result_bind];
      (split; [apply serial_in_range; lia|intros; apply serial_accepted; lia]).
Qed.

(** * Witnesses *)

Module RecordSamples.

Definition rec (host type value : string) : DNSRecord :=
  zero_DNSRecord <| rec_Host := host |> <| rec_Type := type |> <| rec_Value := value |>.

Definition mail : DNSRecord := (rec " WWW." " cname " " Mail.Example.COM. ") <| rec_Host := "WWW" |>.

End RecordSamples.

Lemma normalize_record_canonical_witness :
  @CanonicalRecord ascii_only "example.com" ((RecordSamples.rec "www" "CNAME" "mail.example.com") <| rec_TTL := 3600 |>).
Proof.
  apply (@normalize_record_canonical ascii_only "example.com" RecordSamples.mail).
  vm_compute. reflexivity.
Defined.

Lemma normalize_record_idempotent_witness :
  @normalizeRecord ascii_only "example.com"
    ((RecordSamples.rec "www" "CNAME" "mail.example.com") <| rec_TTL := 3600 |>)
  = Ok ((RecordSamples.rec "www" "CNAME" "mail.example.com") <| rec_TTL := 3600 |>).
Proof.
  apply (@normalize_record_idempotent ascii_only "example.com" RecordSamples.mail);
    vm_compute; reflexivity.
Defined.
