(* ===== verification/DNSExpand.v ===== *)
(** * Expansion of DNS templates

    Lemmas and properties of [expandPlaceholders] and [expandTemplateRecord]
    ([DNSRecord]): on text that [validatePlaceholders] accepts, a placeholder is
    replaced wherever it stands whatever order the replacement map is ranged
    over, and a record expanded for a subdomain stays under that subdomain. *)

From S2P Require Import Prelude GoStr Regex Site DNSTypes DNSRecord.
From Stdlib Require Import Ascii.

(** ** Template text as literal bytes and placeholders *)

Inductive piece := Lit (c : ascii) | Hole (t : string).

Definition is_bracket (c : ascii) : bool := (code c =? 60) || (code c =? 62).
Definition plain (s : string) : bool := string_forall (λ c, negb (is_bracket c)) s.

Definition piece_text (p : piece) : string := match p with Lit c => String c "" | Hole t => t end.

Fixpoint text (ps : list piece) : string :=
  match ps with [] => "" | p :: ps => piece_text p +:+ text ps end.

Fixpoint lits (s : string) : list piece :=
  match s with EmptyString => [] | String c s => Lit c :: lits s end.

(** [<] body [>]. *)
Definition bracketed (t : string) : Prop := ∃ b, t = "<" +:+ b +:+ ">" ∧ plain b = true.

Definition piece_ok (p : piece) : Prop :=
  match p with Lit c => is_bracket c = false | Hole t => bracketed t end.

(** Substitution of one placeholder. *)
Definition fill (token replacement : string) (p : piece) : list piece :=
  match p with
  | Lit c => [Lit c]
  | Hole t => if String.eqb t token then lits replacement else [Hole t]
  end.

(** * Lemmas *)

Lemma text_app ps qs : text (ps ++ qs) = text ps +:+ text qs.
Proof. induction ps as [|p ps IH]; simpl; [done|]. by rewrite IH, string_app_assoc. Qed.

Lemma text_lits s : text (lits s) = s.
Proof. induction s as [|c s IH]; simpl; [done|]. by rewrite IH. Qed.

Lemma lits_ok s : plain s = true → Forall piece_ok (lits s).
Proof.
  unfold plain. induction s as [|c s IH]; simpl; [constructor|].
  intros Hs. bool_split. constructor; [done|auto].
Qed.

(** *** Replacing a token in a text *)

Lemma replace_from_skip old new x s :
  replace_from old new (String.length x) (x +:+ s) = replace_from old new 0 s.
Proof. induction x as [|c x IH]; [done|]. rewrite string_app_cons. exact IH. Qed.

Lemma replace_all_hit old new s :
  old ≠ "" → replace_all (old +:+ s) old new = new +:+ replace_all s old new.
Proof.
  intros Hold. unfold replace_all. destruct old as [|c old]; [done|].
  rewrite string_app_cons. cbn [replace_from].
  replace (has_prefix (String c (old +:+ s)) (String c old)) with true
    by (symmetry; apply has_prefix_spec; exists s; by rewrite string_app_cons).
  f_equal. simpl. rewrite Nat.sub_0_r. apply replace_from_skip.
Qed.

Lemma replace_all_miss old new c s :
  has_prefix (String c s) old = false →
  replace_all (String c s) old new = String c (replace_all s old new).
Proof. intros Hmiss. unfold replace_all. cbn [replace_from]. by rewrite Hmiss. Qed.

Lemma bracket_prefix b s c : has_prefix (String c s) ("<" +:+ b) = true → c = "<"%char.
Proof. intros [t Ht]%has_prefix_spec. rewrite !string_app_cons in Ht. by injection Ht. Qed.

(** Text without an opening bracket is passed over. *)
Lemma replace_all_plain b old new s :
  plain b = true → replace_all (b +:+ s) ("<" +:+ old) new = b +:+ replace_all s ("<" +:+ old) new.
Proof.
  unfold plain. induction b as [|c b IH]; [done|]. simpl. intros Hb. bool_split.
  rewrite string_app_cons, replace_all_miss, IH; [done|done|].
  destruct (has_prefix _ _) eqn:E; [|done]. apply bracket_prefix in E as ->. done.
Qed.

(** Two placeholders, one a prefix of a text starting with the other, are equal:
    each ends at the first closing bracket. *)
Lemma bracketed_prefix t token s :
  bracketed t → bracketed token → has_prefix (t +:+ s) token = true → t = token.
Proof.
  intros (b & -> & Hb) (b' & -> & Hb') [x Hx]%has_prefix_spec.
  rewrite !string_app_assoc, !string_app_cons in Hx. injection Hx as Hx. do 2 f_equal.
  rewrite !string_app_nil_l in Hx. revert b' Hb' Hx. induction b as [|c b IH]; intros [|c' b'] Hb' Hx; [done|..].
  - rewrite string_app_cons in Hx. injection Hx as <- _. discriminate Hb'.
  - rewrite string_app_cons in Hx. injection Hx as -> _. discriminate Hb.
  - rewrite !string_app_cons in Hx. injection Hx as <- Hx. f_equal.
    unfold plain in *. simpl in Hb, Hb'. bool_split. by eapply IH.
Qed.

Lemma replace_all_text token new ps :
  bracketed token → Forall piece_ok ps →
  replace_all (text ps) token new = text (ps ≫= fill token new).
Proof.
  intros Htok. induction ps as [|p ps IH]; [done|]. intros [Hp Hps]%Forall_cons.
  cbn [text]. rewrite bind_cons, text_app, <- IH by done.
  destruct Htok as (b & -> & Hb). destruct p as [c|t]; cbn [piece_text fill].
  - change (String c "" +:+ text ps) with (String c (text ps)).
    rewrite replace_all_miss; [done|]. destruct (has_prefix _ _) eqn:E; [|done].
    apply bracket_prefix in E as ->. done.
  - destruct (String.eqb_spec t ("<" +:+ b +:+ ">")) as [->|Hne].
    + by rewrite replace_all_hit, text_lits.
    + destruct Hp as (b0 & -> & Hb0). rewrite string_app_assoc. cbn [text piece_text].
      rewrite string_app_nil_r, !string_app_assoc, string_app_cons, string_app_nil_l.
      rewrite replace_all_miss.
      2: { destruct (has_prefix _ _) eqn:E; [|done]. exfalso. apply Hne.
           apply (bracketed_prefix _ _ (text ps)); [by eexists|by eexists|].
           by rewrite string_app_assoc, string_app_cons, string_app_nil_l, string_app_assoc. }
      rewrite replace_all_plain by done. rewrite string_app_cons, string_app_nil_l.
      rewrite replace_all_miss; [by rewrite string_app_cons|].
      destruct (has_prefix _ _) eqn:E; [|done]. apply bracket_prefix in E. done.
Qed.

Lemma fill_ok token new ps : plain new = true → Forall piece_ok ps → Forall piece_ok (ps ≫= fill token new).
Proof.
  intros Hnew. induction 1 as [|p ps Hp Hps IH]; [constructor|].
  rewrite bind_cons. apply Forall_app. split; [|done].
  destruct p as [c|t]; cbn [fill]; [by repeat constructor|].
  destruct (String.eqb t token); [by apply lits_ok|by repeat constructor].
Qed.

Lemma fill_lits token new s : lits s ≫= fill token new = lits s.
Proof. induction s as [|c s IH]; [done|]. cbn [lits]. rewrite bind_cons, IH. done. Qed.

(** Fillings of distinct placeholders commute. *)
Lemma fill_swap t1 r1 t2 r2 (ps : list piece) : t1 ≠ t2 →
  (ps ≫= fill t1 r1) ≫= fill t2 r2 = (ps ≫= fill t2 r2) ≫= fill t1 r1.
Proof.
  intros Hne. induction ps as [|p ps IH]; [done|].
  rewrite !bind_cons, !bind_app, IH. f_equal.
  destruct p as [c|t]; [done|]. cbn [fill].
  destruct (String.eqb t t1) eqn:E1, (String.eqb t t2) eqn:E2.
  - bool_split. congruence.
  - rewrite fill_lits. cbn. by rewrite E1, app_nil_r.
  - rewrite fill_lits. cbn. by rewrite E2, app_nil_r.
  - cbn. by rewrite E1, E2.
Qed.

(** ** Validated text *)

Lemma plain_app s t : plain (s +:+ t) = plain s && plain t.
Proof. apply string_forall_app. Qed.

Lemma placeholder_name_plain x : re_in placeholder_name x → plain x = true.
Proof.
  unfold placeholder_name. intros [_ Hx]%in_plus_cls. revert Hx.
  apply string_forall_impl. intros [[] [] [] [] [] [] [] []]; vm_compute; done.
Qed.

Lemma placeholder_shape t : re_in templatePlaceholderRE t → bracketed t.
Proof.
  unfold templatePlaceholderRE. cbn [r_seq r_alts].
  intros (x & y & -> & Hx & (b & z & -> & Hb & Hz)%in_cat_spec)%in_cat_spec.
  apply in_cls_spec in Hx as (c & -> & <-%Ascii.eqb_eq), Hz as (d & -> & <-%Ascii.eqb_eq).
  exists b. split; [done|].
  repeat apply in_alt_spec in Hb as [->%in_lit_spec|Hb]; try done.
  apply in_alt_spec in Hb as [Hb|Hb];
    apply in_cat_spec in Hb as (x & y & -> & ->%in_lit_spec & Hy%placeholder_name_plain); by rewrite plain_app, Hy.
Qed.

Lemma validated_text v :
  plain (replace_all_re templatePlaceholderRE v "") = true →
  ∃ ps, v = text ps ∧ Forall piece_ok ps.
Proof.
  remember (String.length v) as n eqn:Hn. revert v Hn.
  induction n as [n IH] using (well_founded_induction Nat.lt_wf_0). intros v -> Hv.
  destruct v as [|c v]; [by exists []|].
  unfold replace_all_re in Hv. cbn [replace_re_from] in Hv.
  assert (plain (String c (replace_re_from templatePlaceholderRE "" 0 v)) = true →
    ∃ ps, String c v = text ps ∧ Forall piece_ok ps) as Hmiss.
  { intros Hc. unfold plain in Hc. simpl in Hc. bool_split.
    destruct (IH (String.length v)) with (v := v) as (ps & -> & Hps); [simpl; lia|done|done|].
    exists (Lit c :: ps). split; [done|]. by constructor. }
  destruct (longest_match _ _ _ _) as [[|k]|] eqn:E; [by apply Hmiss| |by apply Hmiss].
  apply longest_match_spec in E as [?|(x & y & Hxy & Hx & Hk)]; [done|].
  destruct x as [|c' x]; [done|]. rewrite string_app_cons in Hxy. injection Hxy as <- ->.
  simpl in Hk. injection Hk as ->. rewrite string_app_nil_l, replace_re_skip in Hv.
  destruct (IH (String.length y)) with (v := y) as (ps & -> & Hps); [|done|done|].
  { simpl. rewrite string_length_app. lia. }
  exists (Hole (String c x) :: ps). split; [done|]. constructor; [|done]. by apply placeholder_shape.
Qed.

Lemma validatePlaceholders_text v :
  validatePlaceholders v = Ok () → ∃ ps, v = text ps ∧ Forall piece_ok ps.
Proof.
  unfold validatePlaceholders. intros [Hv _]%fail_when_Ok. apply validated_text.
  unfold contains_any in Hv. rewrite contains_byte_forall in Hv. bool_split.
  revert Hv. unfold plain. apply string_forall_impl.
  intros [[] [] [] [] [] [] [] []]; vm_compute; done.
Qed.

(** ** The loop over the replacements *)

Definition fill_all (ps : list piece) (replacements : list (string * string)) : list piece :=
  foldl (λ ps '(token, new), ps ≫= fill token new) ps replacements.

Definition replacement_ok (r : string * string) : Prop := bracketed (fst r) ∧ plain (snd r) = true.

Lemma replace_loop_text replacements ps :
  Forall replacement_ok replacements → Forall piece_ok ps →
  foldl (λ value '(old, new), replace_all value old new) (text ps) replacements
  = text (fill_all ps replacements).
Proof.
  unfold fill_all. revert ps. induction replacements as [|[old new] rs IH]; intros ps Hrs Hps; [done|].
  apply Forall_cons in Hrs as [[Hold Hnew] Hrs]. cbn [foldl]. simpl in Hold, Hnew.
  rewrite replace_all_text by done. apply IH; [done|]. by apply fill_ok.
Qed.

Lemma fill_all_perm rs rs' ps :
  Permutation rs rs' → NoDup rs.*1 → fill_all ps rs = fill_all ps rs'.
Proof.
  intros HP. revert ps. induction HP as [|[t r] rs rs' HP IH|[t1 r1] [t2 r2] rs|rs1 rs2 rs3 HP1 IH1 HP2 IH2];
    intros ps Hnd; [done|..].
  - apply NoDup_cons in Hnd as [_ Hnd]. by apply IH.
  - unfold fill_all. cbn [foldl]. f_equal. apply fill_swap.
    apply NoDup_cons in Hnd as [Hnot _]. intros ->. apply Hnot. simpl. constructor.
  - rewrite IH1 by done. apply IH2. by rewrite <- HP1.
Qed.

Definition context_plain (values : expansionContext) : Prop :=
  plain (ctx_domain values) = true ∧ plain (ctx_subdomain values) = true ∧ plain (ctx_hostname values) = true.

Lemma expandPlaceholders_order (order1 order2 : GoMapOrder) (value : string)
    (values : expansionContext) :
  validatePlaceholders value = Ok () → context_plain values →
  @expandPlaceholders order1 value values = @expandPlaceholders order2 value values.
Proof.
  intros (ps & -> & Hps)%validatePlaceholders_text (Hd & Hs & Hh).
  unfold expandPlaceholders. do 2 f_equal.
  set (rs := [("<domain>", ctx_domain values); ("<subdomain>", ctx_subdomain values);
              ("<hostname>", ctx_hostname values)]).
  assert (Forall replacement_ok rs) as Hrs.
  { unfold rs. apply Forall_cons; split; [split; [by exists "domain"|done]|].
    apply Forall_cons; split; [split; [by exists "subdomain"|done]|].
    apply Forall_singleton. split; [by exists "hostname"|done]. }
  assert (NoDup rs.*1) as Hnd by (apply (bool_decide_unpack _); vm_compute; done).
  assert (∀ o : GoMapOrder, foldl (λ v '(old, new), replace_all v old new) (text ps) (map_order rs)
          = text (fill_all ps rs)) as Hany.
  { intros o. rewrite replace_loop_text; [|by rewrite map_order_perm|done].
    f_equal. apply fill_all_perm; [apply map_order_perm|]. by rewrite map_order_perm. }
  by rewrite !Hany.
Qed.

(** * Properties *)

(** On text that [validatePlaceholders] accepts, the expansion does not
    depend on the order Go ranges over the replacement map: every iteration
    order gives the same text. *)
Theorem expand_placeholders_deterministic (order1 order2 : GoMapOrder) (value : string)
    (values : expansionContext) :
  validatePlaceholders value = Ok () → context_plain values →
  @expandPlaceholders order1 value values = @expandPlaceholders order2 value values.
Proof. apply expandPlaceholders_order. Qed.

(** ** Confinement to the subdomain *)

(** A subdomain prefix as the zone snapshot derives it: non-empty, lower case,
    no space or control byte. *)
Definition prefix_ok (sub : string) : Prop :=
  sub ≠ "" ∧ string_forall (λ c, is_solid c && negb (is_upper c)) sub = true.

Definition under (sub host : string) : Prop := host = sub ∨ ∃ p, host = p +:+ "." +:+ sub.

Section Confinement.
Context `{GoUnicode} `{GoMapOrder}.

(** [strings.ToLower] maps rune by rune, so an ASCII end is lowered on its own. *)
Hypothesis to_lower_tail : ∀ s t, is_ascii t = true → to_lower (s +:+ t) = to_lower s +:+ to_lower t.

Lemma prefix_ok_lower sub : prefix_ok sub → to_lower ("." +:+ sub) = "." +:+ sub.
Proof.
  intros [_ Hsub]. apply to_lower_id. simpl. revert Hsub. apply string_forall_impl.
  intros c. unfold is_solid. rewrite !andb_true_iff. tauto.
Qed.

Lemma prefix_ok_solid sub : prefix_ok sub → string_forall is_solid sub = true.
Proof. intros [_ Hsub]. revert Hsub. apply string_forall_impl. intros c. rewrite andb_true_iff. tauto. Qed.

Lemma scope_host_under sub host : sub ≠ "" → under sub (scope_host sub host).
Proof.
  intros Hsub. unfold scope_host, under. rewrite (proj2 (String.eqb_neq _ _) Hsub).
  destruct (String.eqb host "@"); [by left|].
  destruct (String.eqb host sub) eqn:E; bool_split; [by left; subst|]. cbn [negb andb].
  destruct (has_suffix host ("." +:+ sub)) eqn:E'; cbn [negb]; right.
  - apply has_suffix_spec in E' as [p Hp]. by exists p.
  - by exists host.
Qed.

(** Trimming and lowering a host keep it under the prefix. *)
Lemma under_normal sub host : prefix_ok sub → under sub host → under sub (to_lower (trim_space host)).
Proof.
  intros Hsub. assert (string_forall is_solid sub = true) as Hsolid by by apply prefix_ok_solid.
  intros [->|[p ->]].
  - left. rewrite trim_space_solid by done. destruct Hsub as [_ Hsub]. apply to_lower_id.
    revert Hsub. apply string_forall_impl. intros c. unfold is_solid. rewrite !andb_true_iff. tauto.
  - right. destruct (string_snoc sub) as [->|(t & d & ->)]; [by destruct Hsub|].
    rewrite string_forall_app in Hsolid. apply andb_true_iff in Hsolid as [_ Hd]. simpl in Hd.
    rewrite andb_true_r in Hd.
    destruct (trim_space_keeps_end p "." t d) as [q Hq]; [done|done|].
    rewrite string_app_cons, string_app_nil_l. rewrite Hq.
    exists (to_lower q). rewrite <- (string_app_nil_l (t +:+ _)), <- string_app_cons at 1.
    rewrite to_lower_tail; [by rewrite prefix_ok_lower|].
    rewrite is_ascii_solid; [done|]. simpl. by apply prefix_ok_solid.
Qed.

Lemma expandTemplateRecord_under (record : DNSTemplateRecord) (values : expansionContext) (r : DNSRecord) :
  prefix_ok (ctx_subdomain values) →
  expandTemplateRecord record values = Ok (Some r) →
  under (ctx_subdomain values) (rec_Host r).
Proof.
  intros Hsub. unfold expandTemplateRecord.
  destruct (_ && _); [done|]. destruct (_ && _); [done|]. destruct (_ && _); [done|].
  rewrite result_bind_Ok. intros (r' & Hn & [= <-]).
  apply normalizeRecord_Ok in Hn as [_ Hsw%normalize_by_type_Ok].
  pose proof (switched_host _ _ Hsw) as (-> & _ & _).
  rewrite (proj1 (trim_record_fields _)). cbn -[to_lower trim_space expandPlaceholders].
  pose proof (under_normal _ _ Hsub (scope_host_under _
    (expandPlaceholders (trec_HostTemplate record) values) (proj1 Hsub))) as Hunder.
  destruct (String.eqb (to_lower _) "") eqn:E; [|done]. exfalso. bool_split. rewrite E in Hunder.
  destruct Hunder as [Hu|[p Hp]]; [by destruct Hsub|]. destruct p; discriminate Hp.
Qed.

(** A template record expanded for a site that lives under a prefix of the
    zone yields a record whose host is that prefix or below it: whatever the
    template says, it cannot write at the zone's apex or beside the site. *)
Theorem expand_template_confined (record : DNSTemplateRecord) (values : expansionContext) (r : DNSRecord) :
  prefix_ok (ctx_subdomain values) →
  expandTemplateRecord record values = Ok (Some r) →
  under (ctx_subdomain values) (rec_Host r).
Proof. apply expandTemplateRecord_under. Qed.

End Confinement.

(** * Witnesses *)

Module ExpandSamples.

Definition values : expansionContext :=
  mkExpansionContext "example.com" "shop" "panel.example.com" "192.0.2.10" "".

Definition record : DNSTemplateRecord :=
  zero_DNSTemplateRecord <| trec_Scope := "all" |> <| trec_HostTemplate := "mail" |>
    <| trec_Type := "A" |> <| trec_ValueTemplate := "<ip.mail>" |> <| trec_TTL := 300 |>.

Definition expanded : DNSRecord :=
  zero_DNSRecord <| rec_Host := "mail.shop" |> <| rec_Type := "A" |> <| rec_Value := "192.0.2.10" |>
    <| rec_TTL := 300 |> <| rec_Origin := "template" |>.

Lemma to_lower_tail s t : is_ascii t = true →
  @to_lower ascii_only (s +:+ t) = @to_lower ascii_only s +:+ @to_lower ascii_only t.
Proof.
  intros _. assert (∀ u, @to_lower ascii_only u = string_map lower_byte u) as Hmap.
  { intros u. unfold to_lower. by destruct (is_ascii u). }
  rewrite !Hmap. induction s as [|c s IH]; [done|]. rewrite !string_app_cons. simpl. by rewrite IH.
Qed.

End ExpandSamples.

Lemma expand_placeholders_deterministic_witness :
  @expandPlaceholders insertion_order "mail.<subdomain>.<domain>" ExpandSamples.values
  = @expandPlaceholders reverse_order "mail.<subdomain>.<domain>" ExpandSamples.values.
Proof.
  apply expand_placeholders_deterministic; [vm_compute; reflexivity|].
  split; [|split]; vm_compute; reflexivity.
Defined.

Lemma expand_template_confined_witness : under "shop" (rec_Host ExpandSamples.expanded).
Proof.
  apply (@expand_template_confined ascii_only reverse_order ExpandSamples.to_lower_tail
    ExpandSamples.record ExpandSamples.values ExpandSamples.expanded).
  - split; [discriminate|vm_compute; reflexivity].
  - vm_compute. reflexivity.
Defined.
