(* ===== verification/DNSPlan.v ===== *)
(** * Planning a zone synchronisation

    The planner of [internal/control/dnstemplate]: [compareZone] and
    [compareWholeZone] ([manager.go]) compute what a template revision changes in
    a zone, [withServiceDefaults] ([service_defaults.go]) and
    [PlanServiceDNSRecords] ([provision/dns_services.go]) add the records of the
    configured services, [validateZonePlan] withdraws a plan whose result DNS
    could not serve, and [buildDomainPreview] ([domain_preview.go]) shows it. *)

From S2P Require Import Prelude GoStr Regex Net Site DNSTypes DNSRecord.
From Stdlib Require Import Ascii.

(** ** Snapshots and plans *)

Record DNSServiceState := mkDNSServiceState { svc_FTPS : bool; svc_Webmail : bool }.

Record siteExpansion := mkSiteExpansion {
  exp_Domain : string;
  exp_Subdomain : string;
  exp_AdoptionCompleted : bool;
  exp_Services : option DNSServiceState;
}.

Record zoneSnapshot := mkZoneSnapshot {
  zs_View : DNSZoneView;
  zs_AuthoritativeSiteID : Z;
  zs_SuppressedKeys : gmap Z (gset string);
  zs_SiteDomain : string;
  zs_ParentDomain : string;
  zs_Hostname : string;
  zs_AdoptionCompleted : bool;
  zs_AdoptMatching : bool;
  zs_Services : option DNSServiceState;
  zs_SubdomainSite : gmap Z siteExpansion;
}.

#[export] Instance eta_zoneSnapshot : Eta zoneSnapshot := λ r,
  mkZoneSnapshot (zs_View r) (zs_AuthoritativeSiteID r) (zs_SuppressedKeys r) (zs_SiteDomain r)
    (zs_ParentDomain r) (zs_Hostname r) (zs_AdoptionCompleted r) (zs_AdoptMatching r)
    (zs_Services r) (zs_SubdomainSite r).

Definition zs_Records (z : zoneSnapshot) : list DNSRecord := zone_Records (zs_View z).
Definition zs_SiteID (z : zoneSnapshot) : Z := zone_SiteID (zs_View z).

(** [zone.SiteID = siteID]. *)
Definition set_SiteID (z : zoneSnapshot) (siteID : Z) : zoneSnapshot :=
  z <| zs_View := (zs_View z) <| zone_SiteID := siteID |> |>.

Definition suppressed (z : zoneSnapshot) (key : string) : bool :=
  bool_decide (key ∈ default ∅ (zs_SuppressedKeys z !! zs_SiteID z)).

Definition expansionForSite (z : zoneSnapshot) (siteID : Z) : expansionContext :=
  mkExpansionContext (zone_Domain (zs_View z))
    (match zs_SubdomainSite z !! siteID with Some expansion => exp_Subdomain expansion | None => "" end)
    (zs_Hostname z) (zone_Address (zs_View z)) (zone_IPv6Address (zs_View z)).

Record zonePlan := mkZonePlan {
  plan_item : DNSSyncItem;
  plan_add : list DNSRecord;
  plan_update : gmap Z DNSRecord;
  plan_remove : list Z;
  plan_adopt : gmap Z DNSRecord;
  plan_settingsChanged : bool;
  plan_retryConvergence : bool;
}.

#[export] Instance eta_zonePlan : Eta zonePlan := λ r,
  mkZonePlan (plan_item r) (plan_add r) (plan_update r) (plan_remove r) (plan_adopt r)
    (plan_settingsChanged r) (plan_retryConvergence r).

Definition empty_plan : zonePlan := mkZonePlan zero_DNSSyncItem [] ∅ [] ∅ false false.

(** [plan.item.<Count> += n]. *)
Definition count_added (n : Z) (p : zonePlan) : zonePlan :=
  p <| plan_item := (plan_item p) <| item_AddedCount := item_AddedCount (plan_item p) + n |> |>.
Definition count_updated (n : Z) (p : zonePlan) : zonePlan :=
  p <| plan_item := (plan_item p) <| item_UpdatedCount := item_UpdatedCount (plan_item p) + n |> |>.
Definition count_removed (n : Z) (p : zonePlan) : zonePlan :=
  p <| plan_item := (plan_item p) <| item_RemovedCount := item_RemovedCount (plan_item p) + n |> |>.
Definition count_override (n : Z) (p : zonePlan) : zonePlan :=
  p <| plan_item := (plan_item p) <| item_OverrideCount := item_OverrideCount (plan_item p) + n |> |>.
Definition count_conflict (n : Z) (p : zonePlan) : zonePlan :=
  p <| plan_item := (plan_item p) <| item_ConflictCount := item_ConflictCount (plan_item p) + n |> |>.
Definition count_adopted (n : Z) (p : zonePlan) : zonePlan :=
  p <| plan_item := (plan_item p) <| item_AdoptedCount := item_AdoptedCount (plan_item p) + n |> |>.

(** [sort.Slice] by site. *)
Definition site_le (a b : Z * siteExpansion) : Prop := fst a ≤ fst b.
#[export] Instance site_le_dec : RelDecision site_le := λ a b, decide (fst a ≤ fst b).

Section Planner.
Context `{GoUnicode} `{GoMapOrder}.

(** ** What existing records say about a wanted one *)

Definition systemRecordDisposition (records : list DNSRecord) (wanted : DNSRecord) : bool * bool :=
  let fix go conflict records :=
    match records with
    | [] => (false, conflict)
    | record :: rest =>
      if negb (String.eqb (rec_Origin record) "system") then go conflict rest
      else if recordsEqual record wanted then (true, false)
      else
        let conflict := conflict || recordsSameRData record wanted in
        let conflict := conflict ||
          equal_fold (rec_Host record) (rec_Host wanted) &&
          (String.eqb (rec_Type record) "CNAME" || String.eqb (rec_Type wanted) "CNAME" ||
           String.eqb (rec_Type record) (rec_Type wanted) && negb (String.eqb (rec_Type record) "NS")
             && negb (String.eqb (rec_Type record) "TXT")) in
        go conflict rest
    end in go false records.

Definition preserved_by (wanted record : DNSRecord) : bool :=
  if String.eqb (rec_Origin record) "template" && negb (rec_LocallyModified record)
     || negb (equal_fold (rec_Host record) (rec_Host wanted))
     || negb (String.eqb (rec_Type record) (rec_Type wanted)) then false
  else
    let lower s := to_lower (trim_space s) in
    String.eqb (rec_Type wanted) "MX" ||
    String.eqb (rec_Type wanted) "TXT" &&
      (has_prefix (lower (rec_Value wanted)) "v=spf1" && has_prefix (lower (rec_Value record)) "v=spf1"
       || contains (to_lower (rec_Host wanted)) "_domainkey"
       || equal_fold (rec_Host wanted) "_dmarc"
       || has_prefix (to_lower (rec_Host wanted)) "_dmarc.").

Definition preserveMailRouting (records : list DNSRecord) (wanted : DNSRecord) : bool :=
  existsb (preserved_by wanted) records.

(** The returned record has [ID] 0 when there is no equivalent one. *)
Definition findEquivalent (records : list DNSRecord) (wanted : DNSRecord) (ownerSiteID : Z)
    : DNSRecord * bool :=
  let fix go conflict records :=
    match records with
    | [] => (zero_DNSRecord, conflict)
    | record :: rest =>
      if String.eqb (rec_Origin record) "system" then go conflict rest
      else
        let sameOwner := (rec_OwnerSiteID record =? 0) || (rec_OwnerSiteID record =? ownerSiteID) in
        if sameOwner && recordsEqual record wanted then (record, false)
        else
          let conflict := conflict || sameOwner && recordsSameRData record wanted in
          let conflict := conflict ||
            equal_fold (rec_Host record) (rec_Host wanted) &&
            (String.eqb (rec_Type record) "CNAME" || String.eqb (rec_Type wanted) "CNAME" ||
             String.eqb (rec_Type record) (rec_Type wanted) && negb (String.eqb (rec_Type record) "TXT")
               && String.eqb (rec_Origin record) "custom") in
          go conflict rest
    end in go false records.

Definition blocks_adoption (match_ wanted record : DNSRecord) : bool :=
  if (rec_ID record =? rec_ID match_) || negb (equal_fold (rec_Host record) (rec_Host wanted)) then false
  else String.eqb (rec_Type record) "CNAME" ||
       String.eqb (rec_Type record) (rec_Type wanted) && negb (String.eqb (rec_Type record) "TXT")
         && negb (recordsEqual record wanted).

Definition canAdoptDNSRecord (records : list DNSRecord) (match_ wanted : DNSRecord) : bool :=
  String.eqb (rec_Origin match_) "custom" && negb (existsb (blocks_adoption match_ wanted) records).

(** ** Service records *)

Definition service_record (prefix address host key : string) : DNSRecord :=
  zero_DNSRecord
    <| rec_Host := if String.eqb prefix "" then host else host +:+ "." +:+ prefix |>
    <| rec_Type := "A" |> <| rec_Value := address |> <| rec_TTL := 3600 |>
    <| rec_Origin := "system" |> <| rec_TemplateRecordKey := "service-" +:+ key |>.

Fixpoint nameserver_hosts (domain : string) (seen : gset string) (records : list DNSRecord) : list string :=
  match records with
  | [] => []
  | record :: rest =>
    if negb (String.eqb (rec_Host record) "@") || negb (String.eqb (rec_Type record) "NS")
    then nameserver_hosts domain seen rest
    else
      let name := trim_suffix (to_lower (rec_Value record)) "." in
      let host := trim_suffix name ("." +:+ to_lower domain) in
      if String.eqb host name || String.eqb host "" || bool_decide (host ∈ seen)
      then nameserver_hosts domain seen rest
      else host :: nameserver_hosts domain ({[host]} ∪ seen) rest
  end.

Definition DNSServiceDefaults (domain address prefix : string) (records : list DNSRecord)
    (ftps webmail : bool) : list DNSRecord :=
  let add := service_record prefix address in
  (if ftps then [add "ftp" "ftp"] else []) ++
  (if webmail then [add "webmail" "webmail"] else []) ++
  (if String.eqb prefix ""
   then (λ host, add host ("nameserver-" +:+ host)) <$> nameserver_hosts domain ∅ records
   else []).

Definition serviceDNSConflict (record wanted : DNSRecord) : bool :=
  if String.eqb (rec_Type record) "CNAME" || String.eqb (rec_Type wanted) "CNAME" then true
  else if negb (String.eqb (rec_Type record) (rec_Type wanted)) then false
  else if negb (String.eqb (rec_Type record) "TXT") then true
  else if equal_fold (rec_Host record) "_dmarc" || has_prefix (to_lower (rec_Host record)) "_dmarc." then true
  else if existsb (λ prefix, has_prefix (to_lower (trim_space (rec_Value record))) prefix
                             && has_prefix (to_lower (trim_space (rec_Value wanted))) prefix)
            ["v=spf1"; "v=dmarc1"] then true
  else contains (to_lower (rec_Host record)) "_domainkey"
       || String.eqb (rec_Value record) (rec_Value wanted).

Definition IsEndpointDNSRecord (record : DNSRecord) : bool :=
  String.eqb (rec_Origin record) "system" &&
  (has_prefix (rec_TemplateRecordKey record) "service-" ||
   String.eqb (rec_Type record) "A" &&
     (String.eqb (rec_Host record) "ns1" || String.eqb (rec_Host record) "webmail"
      || String.eqb (rec_Host record) "ftp")).

Definition mail_record_key (record : DNSRecord) : string :=
  join nul [rec_Host record; rec_Type record; rec_Value record;
            itoa (rec_Priority record); itoa (rec_TTL record)].

Definition seen_count (seen : gmap string Z) (key : string) : Z := default 0 (seen !! key).

Definition mailRecordSetsEqual (current desired : list DNSRecord) : bool :=
  if negb (length current =? length desired)%nat then false
  else
    let seen := foldl (λ seen record,
        <[mail_record_key record := seen_count seen (mail_record_key record) + 1]> seen)
      (∅ : gmap string Z) current in
    let fix go seen desired :=
      match desired with
      | [] => true
      | record :: rest =>
        let key := mail_record_key record in
        if seen_count seen key =? 0 then false
        else go (<[key := seen_count seen key - 1]> seen) rest
      end in go seen desired.

Definition service_blocked (owns : DNSRecord → bool) (current : list DNSRecord) (wanted : DNSRecord) : bool :=
  existsb (λ record, negb (owns record) && equal_fold (rec_Host record) (rec_Host wanted)
                     && serviceDNSConflict record wanted) current.

(** [add], [remove] and [preserved]. *)
Definition PlanServiceDNSRecords (current desired : list DNSRecord) (owns : DNSRecord → bool)
    : list DNSRecord * list Z * Z :=
  let allowed := filter (λ wanted, service_blocked owns current wanted = false) desired in
  let preserved := Z.of_nat (length (filter (λ wanted, service_blocked owns current wanted = true) desired)) in
  let remove := rec_ID <$> filter (λ record, owns record = true ∧
      existsb (λ wanted, mailRecordSetsEqual [record] [wanted]) allowed = false) current in
  let add := filter (λ wanted,
      existsb (λ record, owns record && mailRecordSetsEqual [record] [wanted]) current = false) allowed in
  (add, remove, preserved).

(** The records a plan leaves in the zone. *)
Definition planned_records (records : list DNSRecord) (plan : zonePlan) : list DNSRecord :=
  ((λ record, default record (plan_update plan !! rec_ID record)) <$>
     filter (λ record, rec_ID record ∉ plan_remove plan) records) ++ plan_add plan.

Definition owned_or_shared (z : zoneSnapshot) (record : DNSRecord) : bool :=
  (rec_OwnerSiteID record =? 0) || (rec_OwnerSiteID record =? zs_SiteID z).

(** The desired service records that are not suppressed, and how many are. *)
Definition wanted_services (z : zoneSnapshot) (prefix : string) (desired : list DNSRecord)
    : list DNSRecord * Z :=
  let is_suppressed record := suppressed z (trim_suffix (rec_Host record) ("." +:+ prefix) +:+ "-a") in
  ((λ record, record <| rec_OwnerSiteID := zs_SiteID z |>) <$>
     filter (λ record, is_suppressed record = false) desired,
   Z.of_nat (length (filter (λ record, is_suppressed record = true) desired))).

(** One position of the adoption loop over [candidate]. *)
Definition adopt_service (z : zoneSnapshot) (wanted : list DNSRecord)
    (state : list DNSRecord * zonePlan) (i : nat) : list DNSRecord * zonePlan :=
  let '(candidate, plan) := state in
  match candidate !! i with
  | None => state
  | Some record =>
    if negb (String.eqb (rec_Origin record) "custom") || negb (owned_or_shared z record) then state
    else match List.find (λ value, recordsEqual record value && canAdoptDNSRecord candidate record value) wanted with
         | None => state
         | Some value =>
           let value := value <| rec_ID := rec_ID record |> in
           let plan := if bool_decide (is_Some (plan_adopt plan !! rec_ID record)) then plan
                       else count_adopted 1 plan in
           (<[i := value]> candidate,
            plan <| plan_adopt := <[rec_ID record := value]> (plan_adopt plan) |>)
         end
  end.

Definition withServiceDefaults (z : zoneSnapshot) (plan : zonePlan) : zonePlan :=
  match zs_Services z with
  | None => plan
  | Some services =>
    let candidate := planned_records (zs_Records z) plan in
    let prefix := ctx_subdomain (expansionForSite z (zs_SiteID z)) in
    let desired := DNSServiceDefaults (zone_Domain (zs_View z)) (zone_Address (zs_View z)) prefix
                     candidate (svc_FTPS services) (svc_Webmail services) in
    let '(wanted, hidden) := wanted_services z prefix desired in
    let plan := count_override hidden plan in
    let '(candidate, plan) :=
      if zs_AdoptMatching z
      then foldl (adopt_service z wanted) (candidate, plan) (seq 0 (length candidate))
      else (candidate, plan) in
    let '(add, remove, preserved) := PlanServiceDNSRecords candidate wanted
        (λ record, owned_or_shared z record && IsEndpointDNSRecord record) in
    let plan := plan <| plan_add := plan_add plan ++ add |> in
    let plan := plan <| plan_remove := plan_remove plan ++ remove |> in
    count_override preserved (count_removed (Z.of_nat (length remove))
      (count_added (Z.of_nat (length add)) plan))
  end.

(** ** The comparison of a zone with a template *)

Definition template_by_key (z : zoneSnapshot) : gmap string DNSRecord :=
  foldl (λ byKey record,
    if negb (owned_or_shared z record) then byKey
    else if String.eqb (rec_Origin record) "template" && negb (String.eqb (rec_TemplateRecordKey record) "")
         then <[rec_TemplateRecordKey record := record]> byKey else byKey)
    ∅ (zs_Records z).

Definition compare_settings (template : DNSTemplateRevision) (z : zoneSnapshot) (plan : zonePlan) : zonePlan :=
  let authoritative := zs_SiteID z =? zs_AuthoritativeSiteID z in
  let plan := if authoritative && negb (zone_TemplateRevision (zs_View z) =? tpl_Revision template)
    then count_updated 1 (plan <| plan_settingsChanged := true |>) else plan in
  if authoritative && String.eqb (zone_Status (zs_View z)) "failed" then
    let plan := plan <| plan_retryConvergence := true |> in
    if plan_settingsChanged plan then plan else count_updated 1 plan
  else plan.

(** The case analysis for an expanded record. *)
Definition compare_expanded (z : zoneSnapshot) (byKey : gmap string DNSRecord) (stableKey : string)
    (expanded : DNSRecord) (plan : zonePlan) : zonePlan :=
  if preserveMailRouting (zs_Records z) expanded then count_override 1 plan
  else match byKey !! stableKey with
  | Some existing =>
    if rec_LocallyModified existing then count_override 1 plan
    else if negb (recordsEqual existing expanded) then
      let expanded := expanded <| rec_ID := rec_ID existing |> in
      count_updated 1 (plan <| plan_update := <[rec_ID existing := expanded]> (plan_update plan) |>)
    else plan
  | None =>
    let '(systemSatisfied, systemConflict) := systemRecordDisposition (zs_Records z) expanded in
    if systemSatisfied then plan
    else if systemConflict then count_override 1 plan
    else
      let '(equivalent, conflict) := findEquivalent (zs_Records z) expanded (zs_SiteID z) in
      if 0 <? rec_ID equivalent then
        if zs_AdoptMatching z && canAdoptDNSRecord (zs_Records z) equivalent expanded then
          let expanded := expanded <| rec_ID := rec_ID equivalent |> in
          count_adopted 1 (plan <| plan_adopt := <[rec_ID equivalent := expanded]> (plan_adopt plan) |>)
        else if negb (recordsEqual equivalent expanded)
                || negb (canAdoptDNSRecord (zs_Records z) equivalent expanded)
             then count_override 1 plan
        else plan
      else if conflict then count_override 1 plan
      else count_added 1 (plan <| plan_add := plan_add plan ++ [expanded] |>)
  end.

(** One template record: the plan and the keys the template wants so far. *)
Definition compare_template_record (template : DNSTemplateRevision) (z : zoneSnapshot)
    (byKey : gmap string DNSRecord) (state : zonePlan * gset string) (record : DNSTemplateRecord)
    : zonePlan * gset string :=
  let '(plan, wantedKeys) := state in
  if suppressed z (trec_StableKey record) then (count_override 1 plan, wantedKeys)
  else match expandTemplateRecord record (expansionForSite z (zs_SiteID z)) with
  | Err _ => (count_conflict 1 plan, wantedKeys)
  | Ok None => (plan, wantedKeys)
  | Ok (Some expanded) =>
    let expanded := expanded <| rec_OwnerSiteID := zs_SiteID z |>
                             <| rec_TemplateRevision := tpl_Revision template |> in
    (compare_expanded z byKey (trec_StableKey record) expanded plan,
     {[trec_StableKey record]} ∪ wantedKeys)
  end.

(** One record of the zone: removed when the template no longer wants it. *)
Definition compare_removal (z : zoneSnapshot) (wantedKeys : gset string) (plan : zonePlan)
    (existing : DNSRecord) : zonePlan :=
  if negb (owned_or_shared z existing) then plan
  else if negb (String.eqb (rec_Origin existing) "template")
          || bool_decide (rec_TemplateRecordKey existing ∈ wantedKeys) then plan
  else if rec_LocallyModified existing then count_override 1 plan
  else count_removed 1 (plan <| plan_remove := plan_remove plan ++ [rec_ID existing] |>).

(** ** Plans that are applied *)

Definition plan_outcome (item : DNSSyncItem) : string :=
  if 0 <? item_ConflictCount item then "conflict"
  else if 0 <? item_OverrideCount item then "overridden"
  else if 0 <? item_AddedCount item then "added"
  else if 0 <? item_UpdatedCount item then "updated"
  else if 0 <? item_RemovedCount item then "removed"
  else if 0 <? item_AdoptedCount item then "updated"
  else "unchanged".

Definition plan_detail (item : DNSSyncItem) : string :=
  let part n what := if 0 <? n then [itoa n +:+ " " +:+ what] else [] in
  join ", " (part (item_AddedCount item) "add" ++ part (item_UpdatedCount item) "update" ++
    part (item_RemovedCount item) "remove" ++ part (item_OverrideCount item) "override preserved" ++
    part (item_AdoptedCount item) "adopt (values unchanged)" ++ part (item_ConflictCount item) "conflict").

Definition finalizeZonePlan (plan : zonePlan) : zonePlan :=
  let item := plan_item plan in
  plan <| plan_item := item <| item_Outcome := plan_outcome item |> <| item_Detail := plan_detail item |> |>.

(** The plan emptied when the records it leaves are not a valid set. *)
Definition withdraw_plan (err : error) (plan : zonePlan) : zonePlan :=
  let item := plan_item plan in
  plan <| plan_add := [] |> <| plan_update := ∅ |> <| plan_remove := [] |> <| plan_adopt := ∅ |>
    <| plan_item := item <| item_AddedCount := 0 |> <| item_UpdatedCount := 0 |>
        <| item_RemovedCount := 0 |> <| item_AdoptedCount := 0 |>
        <| item_ConflictCount := item_ConflictCount item + 1 |>
        <| item_Detail := error_text err |> |>.

Definition validateZonePlan (z : zoneSnapshot) (plan : zonePlan) : zonePlan :=
  match validateDNSRecordSet (planned_records (zs_Records z) plan) with
  | Ok _ => finalizeZonePlan plan
  | Err err => finalizeZonePlan (withdraw_plan err plan)
  end.

Definition compareZone (template : DNSTemplateRevision) (z : zoneSnapshot) : zonePlan :=
  let plan := compare_settings template z empty_plan in
  let '(plan, wantedKeys) := foldl (compare_template_record template z (template_by_key z))
                               (plan, ∅) (tpl_Records template) in
  let plan := foldl (compare_removal z wantedKeys) plan (zs_Records z) in
  validateZonePlan z (withServiceDefaults z plan).

Definition mergeZonePlan (target source : zonePlan) : zonePlan :=
  let t := plan_item target in
  let s := plan_item source in
  mkZonePlan
    (t <| item_AddedCount := item_AddedCount t + item_AddedCount s |>
       <| item_UpdatedCount := item_UpdatedCount t + item_UpdatedCount s |>
       <| item_RemovedCount := item_RemovedCount t + item_RemovedCount s |>
       <| item_OverrideCount := item_OverrideCount t + item_OverrideCount s |>
       <| item_ConflictCount := item_ConflictCount t + item_ConflictCount s |>
       <| item_AdoptedCount := item_AdoptedCount t + item_AdoptedCount s |>)
    (plan_add target ++ plan_add source)
    (plan_update source ∪ plan_update target)
    (plan_remove target ++ plan_remove source)
    (plan_adopt source ∪ plan_adopt target)
    (plan_settingsChanged target || plan_settingsChanged source)
    (plan_retryConvergence target || plan_retryConvergence source).

(** The snapshot a child site is compared with. *)
Definition child_snapshot (z : zoneSnapshot) (siteID : Z) (expansion : siteExpansion) : zoneSnapshot :=
  (set_SiteID z siteID) <| zs_AdoptionCompleted := exp_AdoptionCompleted expansion |>
    <| zs_Services := exp_Services expansion |>.

Definition sorted_sites (z : zoneSnapshot) : list (Z * siteExpansion) :=
  merge_sort site_le (map_order (map_to_list (zs_SubdomainSite z))).

Definition compareWholeZone (template : DNSTemplateRevision) (z : zoneSnapshot) : zonePlan :=
  let combined := mergeZonePlan empty_plan (compareZone template z) in
  let combined := foldl (λ combined '(siteID, expansion),
      mergeZonePlan combined (compareZone template (child_snapshot z siteID expansion)))
    combined (sorted_sites z) in
  validateZonePlan z combined.

Definition zonePlanForApply (template : DNSTemplateRevision) (z : zoneSnapshot) (partialOwnerApply : bool) : zonePlan :=
  if partialOwnerApply then compareZone template z else compareWholeZone template z.

(** ** The preview of one domain *)

Definition preview_le (a b : DNSPreviewRecord) : Prop :=
  let x := prec_Record a in let y := prec_Record b in
  if negb (String.eqb (rec_Host x) (rec_Host y)) then String.ltb (rec_Host x) (rec_Host y) = true
  else if negb (String.eqb (rec_Type x) (rec_Type y)) then String.ltb (rec_Type x) (rec_Type y) = true
  else String.leb (rec_Value x) (rec_Value y) = true.

#[export] Instance preview_le_dec : RelDecision preview_le.
Proof. intros a b. unfold preview_le. cbv zeta. repeat case_match; apply _. Defined.

(** [sort.SliceStable]. *)
Fixpoint stable_insert (x : DNSPreviewRecord) (l : list DNSPreviewRecord) : list DNSPreviewRecord :=
  match l with
  | [] => [x]
  | y :: l' => if decide (preview_le x y) then x :: l else y :: stable_insert x l'
  end.
Definition stable_sort (l : list DNSPreviewRecord) : list DNSPreviewRecord := foldr stable_insert [] l.

Definition preview_plan (template : DNSTemplateRevision) (z : zoneSnapshot) (siteID : Z) : zonePlan :=
  if negb (String.eqb (zone_Mode (zs_View z)) "primary") then empty_plan
  else if siteID =? zs_AuthoritativeSiteID z then compareWholeZone template z
  else
    let expansion := default (mkSiteExpansion "" "" false None) (zs_SubdomainSite z !! siteID) in
    compareZone template (child_snapshot z siteID expansion).

Definition preview_visible (z : zoneSnapshot) (siteID : Z) (domain : string) (record : DNSRecord) : bool :=
  if siteID =? zs_AuthoritativeSiteID z then true
  else
    let prefix := trim_suffix domain ("." +:+ zone_Domain (zs_View z)) in
    String.eqb (rec_Host record) prefix || has_suffix (rec_Host record) ("." +:+ prefix).

Definition preview_record (plan : zonePlan) (record : DNSRecord) : DNSPreviewRecord :=
  let action := if String.eqb (rec_Origin record) "custom" || rec_LocallyModified record
                then "Preserved" else "Unchanged" in
  let '(shown, action) := match plan_update plan !! rec_ID record with
                          | Some updated => (updated, "Update")
                          | None => (record, action)
                          end in
  mkDNSPreviewRecord shown (if bool_decide (rec_ID shown ∈ plan_remove plan) then "Remove" else action).

Definition buildDomainPreview (template : DNSTemplateRevision) (z : zoneSnapshot) (siteID : Z)
    (domain : string) : DNSDomainPreview :=
  let plan := preview_plan template z siteID in
  let visible := preview_visible z siteID domain in
  let warnings :=
    (if String.eqb (zone_Mode (zs_View z)) "primary" then []
     else ["This zone is not primary. Only current records are shown; the template will not change it."]) ++
    (if 0 <? item_ConflictCount (plan_item plan)
     then ["Some template records conflict with this zone. Review synchronization impact before applying."]
     else []) in
  let current := preview_record plan <$> filter (λ record, visible record = true) (zs_Records z) in
  let added := (λ record, mkDNSPreviewRecord record "Add") <$> filter (λ record, visible record = true) (plan_add plan) in
  mkDNSDomainPreview siteID domain (zone_Domain (zs_View z)) (zone_Mode (zs_View z))
    (tpl_Revision template) (stable_sort (current ++ added)) warnings.

End Planner.

(** * Lemmas *)

Section PlanLemmas.
Context `{GoUnicode} `{GoMapOrder}.

(** ** What a plan may touch *)

(** A record synchronisation manages for the site: its own or a shared one,
    from the template and not edited since, or the address of a service. *)
Definition managed (z : zoneSnapshot) (r : DNSRecord) : Prop :=
  owned_or_shared z r = true ∧
  ((rec_Origin r = "template" ∧ rec_LocallyModified r = false) ∨ IsEndpointDNSRecord r = true).

Definition manages_id (z : zoneSnapshot) (id : Z) : Prop :=
  ∃ r, r ∈ zs_Records z ∧ rec_ID r = id ∧ managed z r.

Record TouchesManaged (z : zoneSnapshot) (origins : list string) (plan : zonePlan) : Prop := {
  tm_remove : ∀ id, id ∈ plan_remove plan → manages_id z id ∨ is_Some (plan_adopt plan !! id);
  tm_update : ∀ id r', plan_update plan !! id = Some r' →
    manages_id z id ∧ rec_ID r' = id ∧ rec_Origin r' = "template";
  tm_add : ∀ r, r ∈ plan_add plan → rec_Origin r ∈ origins;
  tm_adopt : zs_AdoptMatching z = false → plan_adopt plan = ∅;
}.

Lemma TouchesManaged_empty z origins : TouchesManaged z origins empty_plan.
Proof. split; cbn; [by intros id ?%elem_of_nil|intros ??; by rewrite lookup_empty|by intros r ?%elem_of_nil|done]. Qed.

(** The counters are no part of it. *)
Lemma TouchesManaged_counters z origins p q :
  plan_add q = plan_add p → plan_update q = plan_update p → plan_remove q = plan_remove p →
  plan_adopt q = plan_adopt p → TouchesManaged z origins p → TouchesManaged z origins q.
Proof. intros Ea Eu Er Ed [Hr Hu Ha Had]. split; rewrite ?Ea, ?Eu, ?Er, ?Ed; done. Qed.

Lemma template_by_key_elem z key r :
  template_by_key z !! key = Some r →
  r ∈ zs_Records z ∧ owned_or_shared z r = true ∧ rec_Origin r = "template".
Proof.
  unfold template_by_key.
  apply (foldl_inv (λ byKey, byKey !! key = Some r →
    r ∈ zs_Records z ∧ owned_or_shared z r = true ∧ rec_Origin r = "template")); [|by rewrite lookup_empty].
  intros x byKey Hx IH. destruct (owned_or_shared z x) eqn:Eo; [cbn [negb]|done].
  destruct (_ && _) eqn:E; [|done]. bool_split.
  rewrite lookup_insert_Some. naive_solver.
Qed.

Lemma compare_settings_touches t z : TouchesManaged z ["template"] (compare_settings t z empty_plan).
Proof.
  apply (TouchesManaged_counters z _ empty_plan); [..|apply TouchesManaged_empty]; unfold compare_settings;
    repeat case_match; reflexivity.
Qed.

Ltac counters := eapply TouchesManaged_counters; [..|eassumption]; reflexivity.

Lemma expanded_origin record values r :
  expandTemplateRecord record values = Ok (Some r) → rec_Origin r = "template".
Proof.
  unfold expandTemplateRecord. repeat (case_match; [done|]).
  rewrite result_bind_Ok. intros (r' & Hn & [= <-]).
  by apply normalizeRecord_meta in Hn as (-> & _).
Qed.

Lemma compare_expanded_touches z key expanded plan :
  rec_Origin expanded = "template" →
  TouchesManaged z ["template"] plan → TouchesManaged z ["template"] (compare_expanded z (template_by_key z) key expanded plan).
Proof.
  intros Horigin HT. unfold compare_expanded.
  destruct (preserveMailRouting _ _); [counters|].
  destruct (template_by_key z !! key) as [existing|] eqn:Ek.
  - destruct (rec_LocallyModified existing) eqn:Elm; [counters|].
    destruct (negb _); [|done]. apply template_by_key_elem in Ek as (Hin & Hown & Horg).
    destruct HT as [Hr Hu Ha Had]. split; cbn; [exact Hr| |exact Ha|exact Had].
    intros id r'. rewrite lookup_insert_Some. intros [[<- <-]|[_ Hl]]; [|by apply Hu].
    split; [|done]. exists existing. unfold managed. naive_solver.
  - destruct (systemRecordDisposition _ _) as [[] []]; [done|done|counters|].
    destruct (findEquivalent _ _ _) as [equivalent conflict].
    destruct (0 <? rec_ID equivalent).
    + destruct (zs_AdoptMatching z) eqn:Eadopt; cbn [andb].
      * destruct (canAdoptDNSRecord _ _ _); cbn [negb orb].
        -- destruct HT as [Hr Hu Ha Had]. split; cbn; [|exact Hu|exact Ha|congruence].
           intros id Hid. destruct (Hr id Hid) as [?|[? Hl]]; [by left|right].
           destruct (decide (rec_ID equivalent = id)) as [<-|]; [by rewrite lookup_insert_eq|].
           rewrite lookup_insert_ne by done. by eexists.
        -- rewrite orb_true_r. counters.
      * destruct (_ || _); [counters|done].
    + destruct conflict; [counters|]. destruct HT as [Hr Hu Ha Had].
      split; cbn; [exact Hr|exact Hu| |exact Had].
      intros r [? | ->%list_elem_of_singleton]%elem_of_app; [auto|]. rewrite Horigin. constructor.
Qed.

Lemma compare_template_record_touches t z state record :
  TouchesManaged z ["template"] (fst state) →
  TouchesManaged z ["template"] (fst (compare_template_record t z (template_by_key z) state record)).
Proof.
  intros HT. destruct state as [plan keys]. unfold compare_template_record.
  destruct (suppressed z _); [counters|].
  destruct (expandTemplateRecord _ _) as [[expanded|]|] eqn:E; [|done|counters].
  apply compare_expanded_touches; [|done]. by apply expanded_origin in E.
Qed.

Lemma compare_removal_touches z keys plan existing :
  existing ∈ zs_Records z →
  TouchesManaged z ["template"] plan → TouchesManaged z ["template"] (compare_removal z keys plan existing).
Proof.
  intros Hin HT. unfold compare_removal.
  destruct (owned_or_shared z existing) eqn:Eo; cbn [negb]; [|done].
  destruct (String.eqb _ "template") eqn:Et; cbn [negb orb]; [|done]. bool_split.
  destruct (bool_decide _); [done|]. destruct (rec_LocallyModified existing) eqn:El; [counters|].
  destruct HT as [Hr Hu Ha Had]. split; cbn; [|exact Hu|exact Ha|exact Had].
  intros id [? | ->%list_elem_of_singleton]%elem_of_app; [by apply Hr|].
  left. exists existing. unfold managed. naive_solver.
Qed.

(** ** The service records *)

Lemma PlanServiceDNSRecords_elem current desired owns add remove preserved :
  PlanServiceDNSRecords current desired owns = (add, remove, preserved) →
  (∀ r, r ∈ add → r ∈ desired) ∧
  (∀ id, id ∈ remove → ∃ r, r ∈ current ∧ owns r = true ∧ rec_ID r = id).
Proof.
  unfold PlanServiceDNSRecords. intros [= <- <- _]. split.
  - intros r [_ [_ Hr]%list_elem_of_filter]%list_elem_of_filter. done.
  - intros id (r & -> & [[Ho _] Hr]%list_elem_of_filter)%list_elem_of_fmap. eauto.
Qed.

Lemma DNSServiceDefaults_system domain address prefix records ftps webmail r :
  r ∈ DNSServiceDefaults domain address prefix records ftps webmail →
  rec_Origin r = "system" ∧ IsEndpointDNSRecord r = true ∧
  ∃ host, rec_Host r = if String.eqb prefix "" then host else host +:+ "." +:+ prefix.
Proof.
  assert (∀ host key, rec_Origin (service_record prefix address host key) = "system" ∧
    IsEndpointDNSRecord (service_record prefix address host key) = true ∧
    ∃ h, rec_Host (service_record prefix address host key) = if String.eqb prefix "" then h else h +:+ "." +:+ prefix) as Hs.
  { intros host key. split; [done|]. split; [|by exists host].
    unfold IsEndpointDNSRecord. cbn -[has_prefix]. by rewrite has_prefix_app. }
  unfold DNSServiceDefaults. rewrite !elem_of_app. intros [Hr|[Hr|Hr]].
  - destruct ftps; [apply list_elem_of_singleton in Hr as ->; apply Hs|by apply elem_of_nil in Hr].
  - destruct webmail; [apply list_elem_of_singleton in Hr as ->; apply Hs|by apply elem_of_nil in Hr].
  - destruct (String.eqb prefix "") eqn:E; [|by apply elem_of_nil in Hr].
    apply list_elem_of_fmap in Hr as (host & -> & _). destruct (Hs host ("nameserver-" +:+ host)) as (? & ? & h & Hh).
    split; [done|]. split; [done|]. by exists h.
Qed.

Lemma planned_records_elem records plan r :
  r ∈ planned_records records plan →
  (∃ r0, r0 ∈ records ∧ rec_ID r0 ∉ plan_remove plan ∧ r = default r0 (plan_update plan !! rec_ID r0)) ∨
  r ∈ plan_add plan.
Proof.
  unfold planned_records. rewrite elem_of_app. intros [Hr|]; [left|by right].
  apply list_elem_of_fmap in Hr as (r0 & -> & [Hn Hin]%list_elem_of_filter). eauto.
Qed.

(** A candidate the service planner may remove: a managed record of the zone, or
    one being adopted. *)
Definition removable (z : zoneSnapshot) (plan : zonePlan) (r : DNSRecord) : Prop :=
  owned_or_shared z r && IsEndpointDNSRecord r = true →
  manages_id z (rec_ID r) ∨ is_Some (plan_adopt plan !! rec_ID r).

Lemma planned_removable z plan :
  TouchesManaged z ["template"] plan →
  ∀ r, r ∈ planned_records (zs_Records z) plan → removable z plan r.
Proof.
  intros [_ Hu Ha _] r Hr Hown. apply andb_true_iff in Hown as [Ho He].
  assert (rec_Origin r = "template" → False) as Hnot.
  { intros E. unfold IsEndpointDNSRecord in He. by rewrite E in He. }
  apply planned_records_elem in Hr as [(r0 & Hin & _ & ->)|Hr].
  - destruct (plan_update plan !! rec_ID r0) as [u|] eqn:E; simpl in *.
    + exfalso. apply Hnot. by apply Hu in E as (_ & _ & ?).
    + left. exists r0. split; [done|]. split; [done|]. split; [done|]. by right.
  - exfalso. apply Hnot. by apply Ha, list_elem_of_singleton in Hr.
Qed.

Lemma adopt_service_inv z wanted plan0 state i :
  zs_AdoptMatching z = true →
  TouchesManaged z ["template"] (snd state) ∧ (∀ r, r ∈ fst state → removable z (snd state) r) ∧
    plan_add (snd state) = plan_add plan0 →
  let state' := adopt_service z wanted state i in
  TouchesManaged z ["template"] (snd state') ∧ (∀ r, r ∈ fst state' → removable z (snd state') r) ∧
    plan_add (snd state') = plan_add plan0.
Proof.
  intros Hadopt (HT & Hrem & Hadd). destruct state as [candidate plan]. unfold adopt_service.
  destruct (candidate !! i) as [record|] eqn:Ei; [|done]. destruct (_ || _); [done|].
  destruct (List.find _ _) as [value|]; [|done]. cbn [fst snd].
  set (v := value <| rec_ID := rec_ID record |>).
  set (plan1 := if bool_decide _ then _ else _).
  assert (plan_add plan1 = plan_add plan ∧ plan_update plan1 = plan_update plan ∧
          plan_remove plan1 = plan_remove plan ∧ plan_adopt plan1 = plan_adopt plan) as (Ea & Eu & Er & Ed)
    by (unfold plan1; destruct (bool_decide _); done).
  assert (∀ id, is_Some (plan_adopt plan !! id) → is_Some (<[rec_ID record := v]> (plan_adopt plan1) !! id)) as Hmono.
  { intros id Hid. rewrite Ed. destruct (decide (rec_ID record = id)) as [<-|];
      [by rewrite lookup_insert_eq|by rewrite lookup_insert_ne]. }
  split; [|split].
  - destruct HT as [Hr Hu Ha Had].
    split; cbn -[insert lookup]; rewrite ?Ea, ?Eu, ?Er; [|exact Hu|exact Ha|congruence].
    intros id Hid. destruct (Hr id Hid); auto.
  - intros r Hr Hown. cbn -[insert lookup]. apply list_elem_of_lookup in Hr as [j Hj].
    destruct (decide (i = j)) as [<-|Hij].
    + rewrite list_lookup_insert_eq in Hj by (by eapply lookup_lt_Some). injection Hj as <-.
      right. change (rec_ID v) with (rec_ID record). by rewrite lookup_insert_eq.
    + rewrite list_lookup_insert_ne in Hj by done.
      destruct (Hrem r) as [|Hs]; [by eapply list_elem_of_lookup_2|done|by left|right; by apply Hmono].
  - cbn. by rewrite Ea.
Qed.

Lemma withServiceDefaults_touches z plan :
  TouchesManaged z ["template"] plan → TouchesManaged z ["template"; "system"] (withServiceDefaults z plan).
Proof.
  intros HT. unfold withServiceDefaults. destruct (zs_Services z) as [services|].
  2: { destruct HT as [Hr Hu Ha Had]. split; try done. intros r Hr'. apply Ha in Hr'. set_solver. }
  cbv zeta. destruct (wanted_services _ _ _) as [wanted hidden] eqn:Ew.
  assert (∀ r, r ∈ wanted → rec_Origin r = "system") as Hwanted.
  { intros r Hr. unfold wanted_services in Ew. injection Ew as <- _.
    apply list_elem_of_fmap in Hr as (r0 & -> & [_ Hr0]%list_elem_of_filter).
    by apply DNSServiceDefaults_system in Hr0 as (? & _). }
  set (start := (planned_records (zs_Records z) plan, count_override hidden plan)).
  set (state := if zs_AdoptMatching z then foldl _ start _ else start).
  assert (TouchesManaged z ["template"] (snd state) ∧ (∀ r, r ∈ fst state → removable z (snd state) r) ∧
    plan_add (snd state) = plan_add plan) as (HT' & Hrem & Hadd).
  { assert (TouchesManaged z ["template"] (snd start) ∧ (∀ r, r ∈ fst start → removable z (snd start) r) ∧
      plan_add (snd start) = plan_add plan) as Hstart.
    { assert (TouchesManaged z ["template"] (count_override hidden plan)) as HT1
        by by apply (TouchesManaged_counters z _ plan).
      split; [exact HT1|]. split; [|done]. exact (planned_removable z _ HT1). }
    unfold state. destruct (zs_AdoptMatching z) eqn:Eadopt; [|done].
    apply (foldl_inv (λ s, TouchesManaged z ["template"] (snd s) ∧ (∀ r, r ∈ fst s → removable z (snd s) r) ∧
      plan_add (snd s) = plan_add plan)); [|done].
    intros i s _ Hs. by apply adopt_service_inv. }
  destruct state as [candidate plan1]. cbn [fst snd] in *.
  destruct (PlanServiceDNSRecords _ _ _) as [[add remove] preserved] eqn:Ep.
  apply PlanServiceDNSRecords_elem in Ep as [Hpadd Hpremove].
  destruct HT' as [Hr Hu Ha Had]. split; cbn -[elem_of].
  - intros id [Hid|Hid]%elem_of_app; [by apply Hr|].
    apply Hpremove in Hid as (r & Hin & Hown & <-). by apply Hrem.
  - exact Hu.
  - intros r [Hin|Hin]%elem_of_app; [apply Ha in Hin; set_solver|].
    apply Hpadd, Hwanted in Hin as ->. set_solver.
  - exact Had.
Qed.

Lemma validateZonePlan_touches z origins plan :
  TouchesManaged z origins plan → TouchesManaged z origins (validateZonePlan z plan).
Proof.
  intros HT. unfold validateZonePlan. destruct (validateDNSRecordSet _).
  - eapply TouchesManaged_counters; [..|exact HT]; reflexivity.
  - eapply (TouchesManaged_counters z origins empty_plan); [..|apply TouchesManaged_empty]; reflexivity.
Qed.

Lemma compareZone_touches t z : TouchesManaged z ["template"; "system"] (compareZone t z).
Proof.
  unfold compareZone. destruct (foldl _ _ _) as [plan keys] eqn:E.
  apply validateZonePlan_touches, withServiceDefaults_touches.
  assert (TouchesManaged z ["template"] plan) as HT.
  { change plan with (fst (plan, keys)). rewrite <- E.
    apply (foldl_inv (λ s, TouchesManaged z ["template"] (fst s))); [|apply compare_settings_touches].
    intros record s _. apply compare_template_record_touches. }
  apply foldl_inv; [|done]. intros r p Hr. by apply compare_removal_touches.
Qed.

End PlanLemmas.
