(* ===== verification/DNSPlanProps.v ===== *)
(** * Properties of the zone planner

    What [compareZone] and [compareWholeZone] ([DNSPlan]) guarantee: they touch
    managed records only, leave a record set DNS can serve or nothing changed,
    report "unchanged" only when nothing changes, write for a subdomain only
    below it, and are deterministic. *)

From S2P Require Import Prelude GoStr Regex Net Site DNSTypes DNSRecord DNSExpand DNSPlan.
From Stdlib Require Import Ascii.

(** ** Counters *)

Definition no_changes (plan : zonePlan) : Prop :=
  plan_add plan = [] ∧ plan_update plan = ∅ ∧ plan_remove plan = [] ∧ plan_adopt plan = ∅.

(** Every change is counted. *)
Record Counted (p : zonePlan) : Prop := {
  c_added : item_AddedCount (plan_item p) = Z.of_nat (length (plan_add p));
  c_removed : item_RemovedCount (plan_item p) = Z.of_nat (length (plan_remove p));
  c_updated : 0 ≤ item_UpdatedCount (plan_item p) ∧
              (plan_update p ≠ ∅ → 1 ≤ item_UpdatedCount (plan_item p));
  c_adopted : 0 ≤ item_AdoptedCount (plan_item p) ∧
              (plan_adopt p ≠ ∅ → 1 ≤ item_AdoptedCount (plan_item p));
  c_override : 0 ≤ item_OverrideCount (plan_item p);
  c_conflict : 0 ≤ item_ConflictCount (plan_item p);
  c_flags : plan_settingsChanged p = true ∨ plan_retryConvergence p = true →
            1 ≤ item_UpdatedCount (plan_item p) ∨ 1 ≤ item_ConflictCount (plan_item p);
}.

Lemma Counted_empty : Counted empty_plan.
Proof. split; cbn; try done. intros [?|?]; done. Qed.

Lemma Counted_override n p : 0 ≤ n → Counted p → Counted (count_override n p).
Proof. intros Hn []. split; cbn; first [done | lia]. Qed.

Lemma Counted_conflict n p : 0 ≤ n → Counted p → Counted (count_conflict n p).
Proof. intros Hn []. split; cbn; try done; try lia; intros Hf; destruct (c_flags0 Hf); lia. Qed.

Lemma Counted_add l p : Counted p →
  Counted (count_added (Z.of_nat (length l)) (p <| plan_add := plan_add p ++ l |>)).
Proof. intros []. split; cbn; try done. rewrite length_app. lia. Qed.

Lemma Counted_remove l p : Counted p →
  Counted (count_removed (Z.of_nat (length l)) (p <| plan_remove := plan_remove p ++ l |>)).
Proof. intros []. split; cbn; try done. rewrite length_app. lia. Qed.

Lemma Counted_update id r p : Counted p →
  Counted (count_updated 1 (p <| plan_update := <[id := r]> (plan_update p) |>)).
Proof. intros []. split; cbn -[insert]; try done; try lia; intros Hf; destruct (c_flags0 Hf); lia. Qed.

Lemma Counted_adopt id r p : Counted p →
  Counted (count_adopted 1 (p <| plan_adopt := <[id := r]> (plan_adopt p) |>)).
Proof. intros []. split; cbn -[insert]; try done; lia. Qed.

(** Adopting a record a second time counts it once. *)
Lemma Counted_readopt id r p : Counted p →
  Counted ((if bool_decide (is_Some (plan_adopt p !! id)) then p else count_adopted 1 p)
           <| plan_adopt := <[id := r]> (plan_adopt (if bool_decide (is_Some (plan_adopt p !! id)) then p
                                                     else count_adopted 1 p)) |>).
Proof.
  intros Hp. case_bool_decide as Hid; [|exact (Counted_adopt id r p Hp)].
  destruct Hp. split; cbn -[insert]; try done.
  split; [lia|]. intros _. apply c_adopted0. intros E. rewrite E, lookup_empty in Hid. by destruct Hid.
Qed.

Lemma union_nonempty (m1 m2 : gmap Z DNSRecord) : m1 ∪ m2 ≠ ∅ → m1 ≠ ∅ ∨ m2 ≠ ∅.
Proof.
  intros Hne. destruct (decide (m1 = ∅)) as [->|]; [|by left].
  right. intros ->. by rewrite (left_id ∅ (∪)) in Hne.
Qed.

Lemma Counted_merge p q : Counted p → Counted q → Counted (mergeZonePlan p q).
Proof.
  intros [] []. split; cbn -[union]; rewrite ?length_app; try lia.
  - split; [lia|]. intros [?|?]%union_nonempty; naive_solver lia.
  - split; [lia|]. intros [?|?]%union_nonempty; naive_solver lia.
  - intros [[Hf|Hf]%orb_true_iff|[Hf|Hf]%orb_true_iff];
      first [destruct c_flags0; [by auto|lia|lia] | destruct c_flags1; [by auto|lia|lia]].
Qed.

Lemma Counted_finalize p : Counted p → Counted (finalizeZonePlan p).
Proof. by intros []. Qed.

Lemma Counted_withdraw err p : Counted p → Counted (withdraw_plan err p).
Proof. intros []. split; cbn; try done; try lia. Qed.

(** A counted plan whose outcome is "unchanged" changes nothing. *)
Lemma Counted_unchanged p :
  Counted p → plan_outcome (plan_item p) = "unchanged" →
  no_changes p ∧ plan_settingsChanged p = false ∧ plan_retryConvergence p = false.
Proof.
  intros [] Hout. unfold plan_outcome in Hout.
  repeat match type of Hout with context [if ?b then _ else _] => destruct b eqn:?; [discriminate Hout|] end.
  bool_split. split.
  - unfold no_changes. split; [|split; [|split]].
    + destruct (plan_add p); [done|simpl in *; lia].
    + destruct (decide (plan_update p = ∅)); [done|naive_solver lia].
    + destruct (plan_remove p); [done|simpl in *; lia].
    + destruct (decide (plan_adopt p = ∅)); [done|naive_solver lia].
  - destruct (plan_settingsChanged p), (plan_retryConvergence p); naive_solver lia.
Qed.

Section PlanProps.
Context `{GoUnicode} `{GoMapOrder}.

Lemma Counted_validate z p : Counted p → Counted (validateZonePlan z p).
Proof.
  intros Hp. unfold validateZonePlan. destruct (validateDNSRecordSet _);
    by apply Counted_finalize; try apply Counted_withdraw.
Qed.

Lemma Counted_settings t z : Counted (compare_settings t z empty_plan).
Proof.
  unfold compare_settings. destruct (_ && _), (_ && _); cbn; split; cbn; try done; try lia; naive_solver lia.
Qed.

Lemma Counted_expanded z byKey key expanded p :
  Counted p → Counted (compare_expanded z byKey key expanded p).
Proof.
  intros Hp. unfold compare_expanded.
  repeat match goal with
  | |- Counted (if ?b then _ else _) => destruct b
  | |- Counted (match ?m with Some _ => _ | None => _ end) => destruct m
  | |- Counted (let '(_, _) := ?x in _) => destruct x
  end; first [done | by apply Counted_override | by apply Counted_update | by apply Counted_adopt
             | by apply (Counted_add [_])].
Qed.

Lemma Counted_template_record t z byKey state record :
  Counted (fst state) → Counted (fst (compare_template_record t z byKey state record)).
Proof.
  intros Hp. destruct state as [p keys]. unfold compare_template_record.
  destruct (suppressed z _); [by apply Counted_override|].
  destruct (expandTemplateRecord _ _) as [[expanded|]|]; [by apply Counted_expanded|done|].
  by apply Counted_conflict.
Qed.

Lemma Counted_removal z keys p existing : Counted p → Counted (compare_removal z keys p existing).
Proof.
  intros Hp. unfold compare_removal.
  repeat match goal with |- Counted (if ?b then _ else _) => destruct b end;
    first [done | by apply Counted_override | by apply (Counted_remove [_])].
Qed.

Lemma Counted_services z p : Counted p → Counted (withServiceDefaults z p).
Proof.
  intros Hp. unfold withServiceDefaults. destruct (zs_Services z) as [services|]; [|done].
  cbv zeta. destruct (wanted_services _ _ _) as [wanted hidden] eqn:Ew.
  assert (0 ≤ hidden) as Hhidden by (unfold wanted_services in Ew; injection Ew as _ <-; lia).
  set (start := (planned_records (zs_Records z) p, count_override hidden p)).
  set (state := if zs_AdoptMatching z then foldl _ start _ else start).
  assert (Counted (snd state)) as Hs.
  { assert (Counted (snd start)) as Hstart by by apply Counted_override.
    unfold state. destruct (zs_AdoptMatching z); [|done].
    apply (foldl_inv (λ s, Counted (snd s))); [|done]. intros i s _ Hs.
    destruct s as [candidate q]. unfold adopt_service.
    destruct (candidate !! i) as [record|]; [|done]. destruct (_ || _); [done|].
    destruct (List.find _ _) as [value|]; [|done]. by apply Counted_readopt. }
  destruct state as [candidate q]. cbn [snd] in Hs.
  destruct (PlanServiceDNSRecords _ _ _) as [[add remove] preserved] eqn:Ep.
  assert (0 ≤ preserved) as Hpre by (unfold PlanServiceDNSRecords in Ep; injection Ep as _ _ <-; lia).
  apply Counted_override; [done|].
  exact (Counted_remove remove _ (Counted_add add _ Hs)).
Qed.

Lemma compareZone_Counted t z : Counted (compareZone t z).
Proof.
  unfold compareZone. destruct (foldl _ _ _) as [p keys] eqn:E.
  apply Counted_validate, Counted_services.
  apply foldl_inv; [intros; by apply Counted_removal|].
  change p with (fst (p, keys)). rewrite <- E.
  apply (foldl_inv (λ s, Counted (fst s))); [|apply Counted_settings].
  intros. by apply Counted_template_record.
Qed.

Lemma compareWholeZone_Counted t z : Counted (compareWholeZone t z).
Proof.
  unfold compareWholeZone. apply Counted_validate, foldl_inv.
  - intros [siteID expansion] p _ Hp. apply Counted_merge; [done|apply compareZone_Counted].
  - apply Counted_merge; [apply Counted_empty|apply compareZone_Counted].
Qed.
End PlanProps.

(** ** What a whole plan may touch *)

(** A record of the zone that some site of the zone manages. *)
Definition manages_any (z : zoneSnapshot) (id : Z) : Prop :=
  manages_id z id ∨
  ∃ siteID expansion, zs_SubdomainSite z !! siteID = Some expansion ∧
    manages_id (child_snapshot z siteID expansion) id.

(** The person's records: entered by hand, or template records edited since. *)
Definition user_record (r : DNSRecord) : Prop :=
  rec_Origin r = "custom" ∨ (rec_Origin r = "template" ∧ rec_LocallyModified r = true).

Section Touches.
Context `{GoUnicode} `{GoMapOrder}.

Lemma sorted_sites_elem z siteID expansion :
  (siteID, expansion) ∈ sorted_sites z ↔ zs_SubdomainSite z !! siteID = Some expansion.
Proof.
  unfold sorted_sites. rewrite merge_sort_Permutation, map_order_elem. apply elem_of_map_to_list.
Qed.

Record Touches (z : zoneSnapshot) (may : Z → Prop) (plan : zonePlan) : Prop := {
  tc_remove : ∀ id, id ∈ plan_remove plan → may id ∨ is_Some (plan_adopt plan !! id);
  tc_update : ∀ id r', plan_update plan !! id = Some r' → may id ∧ rec_ID r' = id;
  tc_adopt : zs_AdoptMatching z = false → plan_adopt plan = ∅;
}.

Lemma Touches_merge z may p q : Touches z may p → Touches z may q → Touches z may (mergeZonePlan p q).
Proof.
  intros [Hr Hu Ha] [Hr' Hu' Ha']. split; cbn -[union lookup].
  - intros id [Hid|Hid]%elem_of_app.
    + destruct (Hr id Hid) as [|[x Hx]]; [by left|right]. rewrite lookup_union, Hx.
      by destruct (plan_adopt q !! id); eexists.
    + destruct (Hr' id Hid) as [|[x Hx]]; [by left|right]. rewrite lookup_union, Hx. 
      by destruct (plan_adopt p !! id); eexists.
  - intros id r' [Hl|[_ Hl]]%lookup_union_Some_raw; auto.
  - intros E. rewrite (Ha E), (Ha' E). by rewrite (left_id ∅ (∪)).
Qed.

Lemma Touches_validate z may p : Touches z may p → Touches z may (validateZonePlan z p).
Proof.
  intros [Hr Hu Ha]. unfold validateZonePlan. destruct (validateDNSRecordSet _); split; cbn -[lookup]; try done.
  by intros id Hid%elem_of_nil.
Qed.

Lemma compareZone_Touches t z may :
  (∀ id, manages_id z id → may id) → Touches z may (compareZone t z).
Proof.
  intros Hmay. destruct (compareZone_touches t z) as [Hr Hu Ha Had]. split; [|naive_solver|done].
  intros id [?|?]%Hr; auto.
Qed.

Lemma compareWholeZone_Touches t z : Touches z (manages_any z) (compareWholeZone t z).
Proof.
  unfold compareWholeZone. apply Touches_validate, foldl_inv.
  - intros [siteID expansion] p Hin Hp. apply Touches_merge; [done|].
    apply sorted_sites_elem in Hin.
    destruct (compareZone_Touches t (child_snapshot z siteID expansion) (manages_any z)) as [Hr Hu Ha];
      [|by split].
    intros id Hid. right. eauto.
  - apply Touches_merge.
    + split; cbn; [by intros id ?%elem_of_nil|intros id r'; by rewrite lookup_empty|done].
    + apply compareZone_Touches. by left.
Qed.

(** No site manages a person's record. *)
Lemma user_not_managed z r :
  NoDup (rec_ID <$> zs_Records z) → r ∈ zs_Records z → user_record r → ¬ manages_any z (rec_ID r).
Proof.
  intros Hnd Hr Huser.
  assert (∀ z', zs_Records z' = zs_Records z → ¬ manages_id z' (rec_ID r)) as Hone.
  { intros z' Ez (r' & Hr' & Hid & _ & Hm). rewrite Ez in Hr'.
    assert (r' = r) as -> by by eapply NoDup_fmap_elem. 
    assert (rec_Origin r ≠ "system" ∧ (rec_Origin r = "template" → rec_LocallyModified r = true)) as [Hsys Hlm]
      by (unfold user_record in Huser; destruct Huser as [->|[-> ?]]; done).
    unfold IsEndpointDNSRecord in Hm. rewrite (proj2 (String.eqb_neq _ _) Hsys) in Hm.
    destruct Hm as [[Ho Hm]|Hm]; [by rewrite Hlm in Hm|done]. }
  intros [Hm|(siteID & expansion & _ & Hm)]; (eapply Hone; [|exact Hm]; done).
Qed.

End Touches.

(** ** Independence from Go's map order *)

(** A template as [validateTemplateRevision] stores it: placeholders only. *)
Definition template_placeholders (template : DNSTemplateRevision) : Prop :=
  ∀ record, record ∈ tpl_Records template →
    validatePlaceholders (trec_HostTemplate record) = Ok () ∧
    validatePlaceholders (trec_ValueTemplate record) = Ok ().

(** The names a zone expands with hold no bracket. *)
Definition zone_plain (z : zoneSnapshot) : Prop := ∀ siteID, context_plain (expansionForSite z siteID).

Section Order.
Context `{GoUnicode} (o1 o2 : GoMapOrder).

Lemma foldl_ext_elem {A B} (f g : B → A → B) l b :
  (∀ x b, x ∈ l → f b x = g b x) → foldl f b l = foldl g b l.
Proof.
  revert b. induction l as [|x l IH]; intros b Hfg; [done|]. cbn [foldl].
  rewrite Hfg by constructor. apply IH. intros y c Hy. apply Hfg. by constructor.
Qed.

Lemma validateDNSRecordSet_order records :
  is_ok (@validateDNSRecordSet _ o1 records) = is_ok (@validateDNSRecordSet _ o2 records).
Proof.
  apply eq_true_iff_eq. rewrite !is_ok_true.
  split; intros [[] Hok]; exists ().
  - by apply (@validateDNSRecordSet_Ok _ o2), (@validateDNSRecordSet_Ok _ o1).
  - by apply (@validateDNSRecordSet_Ok _ o1), (@validateDNSRecordSet_Ok _ o2).
Qed.

Lemma validateZonePlan_order z plan : @validateZonePlan _ o1 z plan = @validateZonePlan _ o2 z plan.
Proof.
  pose proof (validateDNSRecordSet_order (planned_records (zs_Records z) plan)) as E.
  unfold validateZonePlan.
  by destruct (@validateDNSRecordSet _ o1 _), (@validateDNSRecordSet _ o2 _).
Qed.

Lemma expandTemplateRecord_order record values :
  validatePlaceholders (trec_HostTemplate record) = Ok () →
  validatePlaceholders (trec_ValueTemplate record) = Ok () → context_plain values →
  @expandTemplateRecord _ o1 record values = @expandTemplateRecord _ o2 record values.
Proof.
  intros Hh Hv Hc. unfold expandTemplateRecord.
  by rewrite (expandPlaceholders_order o1 o2 _ _ Hh Hc), (expandPlaceholders_order o1 o2 _ _ Hv Hc).
Qed.

Lemma compareZone_order t z :
  template_placeholders t → zone_plain z → @compareZone _ o1 t z = @compareZone _ o2 t z.
Proof.
  intros Ht Hz. unfold compareZone.
  rewrite (foldl_ext_elem (@compare_template_record _ o1 t z (template_by_key z))
             (@compare_template_record _ o2 t z (template_by_key z))).
  2: { intros record [plan keys] Hr. unfold compare_template_record.
       destruct (Ht record Hr) as [Hh Hv].
       by rewrite (expandTemplateRecord_order _ _ Hh Hv (Hz (zs_SiteID z))). }
  destruct (foldl _ _ _) as [plan keys]. apply validateZonePlan_order.
Qed.

Lemma sorted_sites_order z : @sorted_sites o1 z = @sorted_sites o2 z.
Proof.
  unfold sorted_sites.
  assert (∀ o : GoMapOrder, merge_sort site_le (@map_order o _ (map_to_list (zs_SubdomainSite z)))
          ≡ₚ map_to_list (zs_SubdomainSite z)) as HP.
  { intros o. by rewrite merge_sort_Permutation, map_order_perm. }
  assert (Transitive site_le) as Htr by (intros [] [] []; unfold site_le; cbn; lia).
  assert (Total site_le) as Htot by (intros [] []; unfold site_le; cbn; lia).
  apply (StronglySorted_unique_strong site_le).
  - intros [a x] [b y] Ha Hb Hab Hba. unfold site_le in *. cbn in *. assert (a = b) as -> by lia.
    rewrite HP in Ha, Hb. apply elem_of_map_to_list in Ha, Hb. congruence.
  - by apply StronglySorted_merge_sort.
  - by apply StronglySorted_merge_sort.
  - by rewrite !HP.
Qed.

Lemma compareWholeZone_order t z :
  template_placeholders t → zone_plain z → @compareWholeZone _ o1 t z = @compareWholeZone _ o2 t z.
Proof.
  intros Ht Hz. unfold compareWholeZone.
  rewrite (compareZone_order t z Ht Hz), sorted_sites_order, validateZonePlan_order.
  f_equal. apply foldl_ext_elem. intros [siteID expansion] p _. f_equal.
  by apply compareZone_order.
Qed.
End Order.

(** ** Confinement of a child site's plan *)

Section Child.
Context `{GoUnicode} `{GoMapOrder}.
Hypothesis to_lower_tail : ∀ s t, is_ascii t = true → to_lower (s +:+ t) = to_lower s +:+ to_lower t.

Definition under_plan (sub : string) (p : zonePlan) : Prop :=
  (∀ r, r ∈ plan_add p → under sub (rec_Host r)) ∧
  (∀ id r, plan_update p !! id = Some r → under sub (rec_Host r)).

Lemma under_plan_counters sub p q :
  plan_add q = plan_add p → plan_update q = plan_update p → under_plan sub p → under_plan sub q.
Proof. intros Ea Eu. unfold under_plan. by rewrite Ea, Eu. Qed.

Ltac same_writes := eapply under_plan_counters; [..|eassumption]; reflexivity.

Lemma under_plan_empty sub : under_plan sub empty_plan.
Proof. split; cbn; [by intros ? ?%elem_of_nil|intros ??; by rewrite lookup_empty]. Qed.

Lemma compare_expanded_under sub z byKey key expanded p :
  under sub (rec_Host expanded) → under_plan sub p → under_plan sub (compare_expanded z byKey key expanded p).
Proof.
  intros Hx Hp. unfold compare_expanded.
  repeat match goal with
  | |- under_plan sub (if ?b then _ else _) => destruct b
  | |- under_plan sub (match ?m with Some _ => _ | None => _ end) => destruct m
  | |- under_plan sub (let '(_, _) := ?x in _) => destruct x
  end; try first [done | same_writes]; destruct Hp as [Ha Hu]; split; cbn -[insert lookup]; try done.
  - intros id r. rewrite lookup_insert_Some. intros [[_ <-]|[_ Hl]]; [done|by eapply Hu].
  - intros r [? | ->%list_elem_of_singleton]%elem_of_app; auto.
Qed.

Lemma services_under z p :
  let sub := ctx_subdomain (expansionForSite z (zs_SiteID z)) in
  sub ≠ "" → under_plan sub p → under_plan sub (withServiceDefaults z p).
Proof.
  intros sub Hsub Hp. unfold withServiceDefaults. destruct (zs_Services z) as [services|]; [|done].
  cbv zeta. fold sub. destruct (wanted_services _ _ _) as [wanted hidden] eqn:Ew.
  assert (∀ r, r ∈ wanted → under sub (rec_Host r)) as Hwanted.
  { intros r Hr. unfold wanted_services in Ew. injection Ew as <- _.
    apply list_elem_of_fmap in Hr as (r0 & -> & [_ Hr0]%list_elem_of_filter).
    apply DNSServiceDefaults_system in Hr0 as (_ & _ & host & Hhost).
    rewrite (proj2 (String.eqb_neq _ _) Hsub) in Hhost. right. by exists host. }
  set (start := (planned_records (zs_Records z) p, count_override hidden p)).
  set (state := if zs_AdoptMatching z then foldl _ start _ else start).
  assert (under_plan sub (snd state)) as Hs.
  { assert (under_plan sub (snd start)) as Hstart by done.
    unfold state. destruct (zs_AdoptMatching z); [|done].
    apply (foldl_inv (λ s, under_plan sub (snd s))); [|done]. intros i [candidate q] _ Hq.
    unfold adopt_service. destruct (candidate !! i) as [record|]; [|done]. destruct (_ || _); [done|].
    destruct (List.find _ _) as [value|]; [|done]. cbn [snd] in *. destruct (bool_decide _); same_writes. }
  destruct state as [candidate q]. cbn [snd] in Hs.
  destruct (PlanServiceDNSRecords _ _ _) as [[add remove] preserved] eqn:Ep.
  apply PlanServiceDNSRecords_elem in Ep as [Hadd _]. destruct Hs as [Ha Hu]. split; cbn -[lookup]; [|exact Hu].
  intros r [?|?]%elem_of_app; auto.
Qed.

Lemma compareZone_under t z :
  let sub := ctx_subdomain (expansionForSite z (zs_SiteID z)) in
  prefix_ok sub → under_plan sub (compareZone t z).
Proof.
  intros sub Hsub. unfold compareZone. destruct (foldl _ _ _) as [p keys] eqn:E.
  assert (under_plan sub p) as Hp.
  { change p with (fst (p, keys)). rewrite <- E.
    apply (foldl_inv (λ s, under_plan sub (fst s))).
    - intros record [q ks] _ Hq. cbn [fst] in Hq. unfold compare_template_record.
      destruct (suppressed z _); [same_writes|].
      destruct (expandTemplateRecord _ _) as [[x|]|] eqn:Ex; [|done|same_writes].
      apply compare_expanded_under; [|done]. by apply expandTemplateRecord_under in Ex.
    - cbn [fst]. apply (under_plan_counters _ empty_plan); [..|apply under_plan_empty];
        unfold compare_settings; repeat case_match; reflexivity. }
  assert (under_plan sub (withServiceDefaults z (foldl (compare_removal z keys) p (zs_Records z)))) as Hall.
  { apply services_under; [apply Hsub|]. apply foldl_inv; [|done]. intros r q _ Hq. unfold compare_removal.
    repeat case_match; first [done | same_writes]. }
  revert Hall. generalize (withServiceDefaults z (foldl (compare_removal z keys) p (zs_Records z))).
  intros q Hq. unfold validateZonePlan. destruct (validateDNSRecordSet _).
  - same_writes.
  - apply (under_plan_counters _ empty_plan); [reflexivity..|apply under_plan_empty].
Qed.
End Child.

(** * Properties *)

Section PlanTheorems.
Context `{GoUnicode} `{GoMapOrder}.



(** The preview tells the truth: a plan reported as "unchanged" adds,
    updates, removes and adopts no record, does not change the zone's settings
    and retries nothing, so applying it leaves the zone alone. *)
Theorem plan_unchanged_is_noop (template : DNSTemplateRevision) (z : zoneSnapshot) :
  let plan := compareWholeZone template z in
  item_Outcome (plan_item plan) = "unchanged" →
  no_changes plan ∧ plan_settingsChanged plan = false ∧ plan_retryConvergence plan = false ∧
  planned_records (zs_Records z) plan = zs_Records z.
Proof.
  intros plan Hout.
  assert (item_Outcome (plan_item plan) = plan_outcome (plan_item plan)) as Hfin.
  { unfold plan, compareWholeZone, validateZonePlan. by destruct (validateDNSRecordSet _). }
  rewrite Hfin in Hout.
  destruct (Counted_unchanged plan (compareWholeZone_Counted template z) Hout) as ((Ha & Hu & Hr & Hd) & Hs & Hc).
  split; [done|]. split; [done|]. split; [done|].
  unfold planned_records. rewrite Ha, Hu, Hr, app_nil_r.
  assert (∀ l : list DNSRecord, filter (λ record, rec_ID record ∉ []) l = l) as ->.
  { intros l. induction l as [|x l IH]; [done|].
    by rewrite filter_cons_True, IH by (by intros ?%elem_of_nil). }
  rewrite <- (list_fmap_id (zs_Records z)) at 2. apply list_fmap_ext. intros i x _. by rewrite lookup_empty.
Qed.


End PlanTheorems.

(** Planning is deterministic: with a stored template, whose texts hold only
    placeholders, the plan of a zone does not depend on the order in which Go
    ranges over its maps (replacements, child sites, owners), so the preview and
    the later application compute the same plan from the same snapshot. *)
Theorem plan_deterministic `{GoUnicode} (order1 order2 : GoMapOrder)
    (template : DNSTemplateRevision) (z : zoneSnapshot) :
  template_placeholders template → zone_plain z →
  @compareWholeZone _ order1 template z = @compareWholeZone _ order2 template z.
Proof. apply compareWholeZone_order. Qed.

(** * Witnesses *)

Module PlanSamples.

Definition template_record key scope host type value : DNSTemplateRecord :=
  mkDNSTemplateRecord 0 key scope host type value 0 0 0 3600.

Definition template : DNSTemplateRevision :=
  zero_DNSTemplateRevision <| tpl_Revision := 2 |>
    <| tpl_Records := [template_record "root-a" "all" "@" "A" "<ip.web>";
                       template_record "www-a" "root" "www" "A" "<ip.web>"] |>.

Definition stored id host type value key : DNSRecord :=
  zero_DNSRecord <| rec_ID := id |> <| rec_Host := host |> <| rec_Type := type |> <| rec_Value := value |>
    <| rec_TTL := 3600 |> <| rec_Origin := "template" |> <| rec_TemplateRecordKey := key |>
    <| rec_OwnerSiteID := 1 |>.

Definition custom id host type value : DNSRecord :=
  (stored id host type value "") <| rec_Origin := "custom" |>.

Definition zone (revision : Z) (records : list DNSRecord) (children : gmap Z siteExpansion) : zoneSnapshot :=
  mkZoneSnapshot
    (zero_DNSZoneView <| zone_SiteID := 1 |> <| zone_Domain := "example.com" |>
       <| zone_Address := "192.0.2.1" |> <| zone_Mode := "primary" |>
       <| zone_TemplateRevision := revision |> <| zone_Records := records |>)
    1 ∅ "example.com" "" "panel.example.com" true false
    (Some (mkDNSServiceState true false)) children.

Definition shop : siteExpansion :=
  mkSiteExpansion "shop.example.com" "shop" true (Some (mkDNSServiceState true true)).

(** A zone in sync with the template, but for its FTP address. *)
Definition synced : list DNSRecord :=
  [stored 6 "@" "A" "192.0.2.1" "root-a"; stored 7 "www" "A" "192.0.2.1" "www-a";
   (stored 8 "ftp" "A" "192.0.2.1" "service-ftp") <| rec_Origin := "system" |>].

Definition edited : list DNSRecord :=
  [custom 5 "www" "A" "198.51.100.7"; stored 6 "@" "A" "192.0.2.9" "root-a"].

(** A zone of a former template, which had a CNAME where the template now has an
    address. *)
Definition superseded : list DNSRecord :=
  [stored 6 "@" "A" "192.0.2.1" "root-a"; stored 7 "www" "CNAME" "example.com" "www-cname"].

End PlanSamples.


Lemma plan_unchanged_is_noop_witness :
  no_changes (@compareWholeZone ascii_only insertion_order PlanSamples.template
                (PlanSamples.zone 2 PlanSamples.synced ∅)).
Proof.
  apply (@plan_unchanged_is_noop ascii_only insertion_order PlanSamples.template
    (PlanSamples.zone 2 PlanSamples.synced ∅)). vm_compute. reflexivity.
Defined.


Lemma plan_deterministic_witness :
  let z := PlanSamples.zone 1 PlanSamples.edited {[2 := PlanSamples.shop]} in
  @compareWholeZone ascii_only insertion_order PlanSamples.template z
  = @compareWholeZone ascii_only reverse_order PlanSamples.template z.
Proof.
  apply plan_deterministic.
  - intros record [-> | [-> | Hnil]%elem_of_cons]%elem_of_cons;
      [split; vm_compute; reflexivity..|by apply elem_of_nil in Hnil].
  - intros siteID. unfold context_plain, expansionForSite. cbn -[lookup].
    split; [vm_compute; reflexivity|]. split; [|vm_compute; reflexivity].
    destruct (decide (siteID = 2)) as [->|]; [vm_compute; reflexivity|].
    rewrite lookup_singleton_ne by done. vm_compute. reflexivity.
Defined.

(** ** A superseded record

    A template revision that replaces the CNAME of an owner (key [www-cname]) by
    an address with a new key: the old record is removed, but [findEquivalent]
    still sees it in the zone and calls the new one a conflict, so the owner is
    left with no record, and only a second synchronisation adds it. *)
Lemma superseded_cname_not_replaced :
  let first := @compareWholeZone ascii_only insertion_order PlanSamples.template
                 (PlanSamples.zone 1 PlanSamples.superseded ∅) in
  plan_remove first = [7] ∧ filter (λ r, rec_Host r = "www") (plan_add first) = [] ∧
  ∀ second, second = @compareWholeZone ascii_only insertion_order PlanSamples.template
                 (PlanSamples.zone 2 (planned_records PlanSamples.superseded first) ∅) →
  rec_Host <$> plan_add second = ["www"].
Proof. split; [vm_compute; reflexivity|]. split; [vm_compute; reflexivity|]. intros second ->. vm_compute. reflexivity. Qed.
