(* ===== verification/DNSTables.v ===== *)
(** * The database of the DNS components

    The tables behind [internal/control/dnstemplate] and the DNS part of
    [internal/control/provision], as the migrations define them: rows, unique
    constraints, and the statements and queries the code shares. A NULL number
    or text is the zero value the queries read it as ([COALESCE]); the columns
    only the page shows (time stamps) are left out. *)

From S2P Require Import Prelude Tx Tables GoStr Site DNSTypes DNSRecord DNSPlan.

(** A row of [dns_zones]; [zr_ParentZoneID] is 0 for NULL. *)
Record ZoneRow := mkZoneRow {
  zr_ID : Z;
  zr_OwnerUserID : Z;
  zr_SiteID : Z;
  zr_ParentZoneID : Z;
  zr_Domain : string;
  zr_Address : string;
  zr_IPv6Address : string;
  zr_Serial : Z;
  zr_Status : string;
  zr_Mode : string;
  zr_UpstreamPrimaries : list string;
  zr_SOAOverride : option DNSSOASettings;
  zr_TransferCIDRs : option (list string);
  zr_TemplateRevision : Z;
  zr_TemplateStatus : string;
  zr_DesiredRevision : Z;
  zr_AppliedRevision : Z;
  zr_ZonePath : string;
  zr_LastError : string;
}.

#[export] Instance eta_ZoneRow : Eta ZoneRow := λ r,
  mkZoneRow (zr_ID r) (zr_OwnerUserID r) (zr_SiteID r) (zr_ParentZoneID r) (zr_Domain r)
    (zr_Address r) (zr_IPv6Address r) (zr_Serial r) (zr_Status r) (zr_Mode r)
    (zr_UpstreamPrimaries r) (zr_SOAOverride r) (zr_TransferCIDRs r) (zr_TemplateRevision r)
    (zr_TemplateStatus r) (zr_DesiredRevision r) (zr_AppliedRevision r) (zr_ZonePath r)
    (zr_LastError r).

(** The columns of [sites] the DNS components use; [st_ParentSiteID] is 0 for NULL. *)
Record DNSSite := mkDNSSite {
  st_ID : Z;
  st_SubscriptionID : Z;
  st_Domain : string;
  st_ParentSiteID : Z;
  st_DNSZoneMode : string;
  st_AdoptionCompleted : bool;
  st_Status : string;
  st_RemovalState : string;
}.

#[export] Instance eta_DNSSite : Eta DNSSite := λ r,
  mkDNSSite (st_ID r) (st_SubscriptionID r) (st_Domain r) (st_ParentSiteID r) (st_DNSZoneMode r)
    (st_AdoptionCompleted r) (st_Status r) (st_RemovalState r).

(** A row of [ftp_accounts]; [ftp_SiteID] is 0 for NULL. *)
Record FTPAccount := mkFTPAccount {
  ftp_SubscriptionID : Z;
  ftp_SiteID : Z;
  ftp_Enabled : bool;
  ftp_ConvergenceStatus : string;
}.

#[export] Instance eta_FTPAccount : Eta FTPAccount := λ r,
  mkFTPAccount (ftp_SubscriptionID r) (ftp_SiteID r) (ftp_Enabled r) (ftp_ConvergenceStatus r).

(** A row of [webmail_hosts]. *)
Record WebmailHost := mkWebmailHost {
  wh_SiteID : Z;
  wh_Status : string;
}.

#[export] Instance eta_WebmailHost : Eta WebmailHost := λ r,
  mkWebmailHost (wh_SiteID r) (wh_Status r).

(** A row of [mail_domains]. *)
Record MailDomain := mkMailDomain {
  md_SiteID : Z;
  md_Enabled : bool;
  md_DeleteRequested : bool;
  md_ConvergenceStatus : string;
  md_LastError : string;
}.

#[export] Instance eta_MailDomain : Eta MailDomain := λ r,
  mkMailDomain (md_SiteID r) (md_Enabled r) (md_DeleteRequested r) (md_ConvergenceStatus r)
    (md_LastError r).

(** A row of [dns_template_sync_runs]; [sr_TargetZoneID] and [sr_ActorUserID] are 0 for NULL. *)
Record SyncRun := mkSyncRun {
  sr_ID : Z;
  sr_TemplateRevision : Z;
  sr_Scope : string;
  sr_TargetZoneID : Z;
  sr_Status : string;
  sr_PreviewToken : string;
  sr_ExpectedStateRevision : Z;
  sr_Confirmation : string;
  sr_ActorUserID : Z;
  sr_TotalZones : Z;
  sr_ChangedZones : Z;
  sr_FailedZones : Z;
  sr_LastError : string;
  sr_AdoptMatching : bool;
}.

#[export] Instance eta_SyncRun : Eta SyncRun := λ r,
  mkSyncRun (sr_ID r) (sr_TemplateRevision r) (sr_Scope r) (sr_TargetZoneID r) (sr_Status r)
    (sr_PreviewToken r) (sr_ExpectedStateRevision r) (sr_Confirmation r) (sr_ActorUserID r)
    (sr_TotalZones r) (sr_ChangedZones r) (sr_FailedZones r) (sr_LastError r) (sr_AdoptMatching r).

(** A row of [dns_template_sync_items]: its counters, outcome and detail are a [DNSSyncItem]; [si_OwnerSiteID] is 0 for NULL. *)
Record SyncItem := mkSyncItem {
  si_ID : Z;
  si_RunID : Z;
  si_ZoneID : Z;
  si_OwnerSiteID : Z;
  si_ExpectedZoneRevision : Z;
  si_DesiredRevision : option Z;
  si_Counts : DNSSyncItem;
  si_PlanFingerprint : string;
}.

#[export] Instance eta_SyncItem : Eta SyncItem := λ r,
  mkSyncItem (si_ID r) (si_RunID r) (si_ZoneID r) (si_OwnerSiteID r) (si_ExpectedZoneRevision r)
    (si_DesiredRevision r) (si_Counts r) (si_PlanFingerprint r).

(** The jobs these components queue. *)
Inductive Job :=
| ConfigureDNSZoneArgs (ZoneID DesiredRevision : Z) (Bulk : bool)
| SyncTemplateArgs (RunID : Z)
| ConfigureMailArgs.

(** The tables, the sequences behind their identifiers, the jobs handed to River
    and the clock behind [now()]. *)
Record DNSStore := mkDNSStore {
  db_ActiveRevisionID : Z;
  db_DefaultRevisionID : Z;
  db_OptimisticRevision : Z;
  db_Revisions : list DNSTemplateRevision;
  db_Zones : list ZoneRow;
  db_Records : list DNSRecord;
  db_Deletions : list (Z * Z * string);
  db_Sites : list DNSSite;
  db_FTPAccounts : list FTPAccount;
  db_WebmailHosts : list WebmailHost;
  db_MailDomains : list MailDomain;
  db_Hostname : option string;
  db_Runs : list SyncRun;
  db_Items : list SyncItem;
  db_RevisionSeq : Z;
  db_TemplateRecordSeq : Z;
  db_ZoneSeq : Z;
  db_RecordSeq : Z;
  db_RunSeq : Z;
  db_ItemSeq : Z;
  db_Jobs : list Job;
  db_Clock : Z;
}.

#[export] Instance eta_DNSStore : Eta DNSStore := λ r,
  mkDNSStore (db_ActiveRevisionID r) (db_DefaultRevisionID r) (db_OptimisticRevision r)
    (db_Revisions r) (db_Zones r) (db_Records r) (db_Deletions r) (db_Sites r) (db_FTPAccounts r)
    (db_WebmailHosts r) (db_MailDomains r) (db_Hostname r) (db_Runs r) (db_Items r)
    (db_RevisionSeq r) (db_TemplateRecordSeq r) (db_ZoneSeq r) (db_RecordSeq r) (db_RunSeq r)
    (db_ItemSeq r) (db_Jobs r) (db_Clock r).

(** ** Statements *)

Definition insert_job (job : Job) : tx DNSStore unit :=
  tx_write (λ db, db <| db_Jobs := db_Jobs db ++ [job] |>).

Definition update_zones (p : ZoneRow → bool) (f : ZoneRow → ZoneRow) : tx DNSStore unit :=
  tx_write (λ db, db <| db_Zones := rows_update p f (db_Zones db) |>).

Definition update_sites (p : DNSSite → bool) (f : DNSSite → DNSSite) : tx DNSStore unit :=
  tx_write (λ db, db <| db_Sites := rows_update p f (db_Sites db) |>).

Definition update_runs (p : SyncRun → bool) (f : SyncRun → SyncRun) : tx DNSStore unit :=
  tx_write (λ db, db <| db_Runs := rows_update p f (db_Runs db) |>).

Definition update_items (p : SyncItem → bool) (f : SyncItem → SyncItem) : tx DNSStore unit :=
  tx_write (λ db, db <| db_Items := rows_update p f (db_Items db) |>).

Definition zone_by_id (id : Z) (db : DNSStore) : result ZoneRow :=
  query_row (rows_where (λ z, zr_ID z =? id) (db_Zones db)).

(** ** [dns_records]

    Two rows collide when they have the same identity
    ([dns_records_identity_key], NULLs not distinct) or are template records of
    the same owner and key ([dns_records_template_owner_key_idx]). *)

Definition same_identity (a b : DNSRecord) : bool :=
  (rec_ZoneID a =? rec_ZoneID b) && String.eqb (rec_Host a) (rec_Host b)
  && String.eqb (rec_Type a) (rec_Type b) && String.eqb (rec_Value a) (rec_Value b)
  && (rec_Priority a =? rec_Priority b) && (rec_Weight a =? rec_Weight b) && (rec_Port a =? rec_Port b).

Definition same_template_key (a b : DNSRecord) : bool :=
  String.eqb (rec_Origin a) "template" && String.eqb (rec_Origin b) "template"
  && (rec_ZoneID a =? rec_ZoneID b) && negb (rec_OwnerSiteID a =? 0) && negb (String.eqb (rec_TemplateRecordKey a) "")
  && (rec_OwnerSiteID a =? rec_OwnerSiteID b)
  && String.eqb (rec_TemplateRecordKey a) (rec_TemplateRecordKey b).

Definition collides (a b : DNSRecord) : bool := same_identity a b || same_template_key a b.

(** [INSERT ...], with and without [ON CONFLICT DO NOTHING]. *)
Definition append_record (record : DNSRecord) (db : DNSStore) : DNSStore :=
  (db <| db_Records := db_Records db ++ [record <| rec_ID := db_RecordSeq db |>] |>)
    <| db_RecordSeq := db_RecordSeq db + 1 |>.

Definition insert_record (record : DNSRecord) : tx DNSStore unit :=
  let! rows := tx_read db_Records in
  fail_if existsb (collides record) rows with unique_violation ;;
  tx_write (append_record record).

Definition insert_record_or_nothing (record : DNSRecord) : tx DNSStore unit :=
  let! rows := tx_read db_Records in
  if existsb (collides record) rows
  then tx_write (λ db, db <| db_RecordSeq := db_RecordSeq db + 1 |>)
  else tx_write (append_record record).

(** [UPDATE dns_records SET f WHERE p]: the rows affected. The constraints are
    checked row by row as the statement goes. *)
Definition update_records (p : DNSRecord → bool) (f : DNSRecord → DNSRecord) : tx DNSStore Z :=
  let! rows := tx_read db_Records in
  fail_if existsb (λ r, p r && existsb (λ r', negb (rec_ID r' =? rec_ID r) && collides (f r) r') rows) rows
    with unique_violation ;;
  let! _ := tx_write (λ db, db <| db_Records := rows_update p f rows |>) in
  tx_ret (Z.of_nat (length (rows_where p rows))).

Definition delete_records (p : DNSRecord → bool) : tx DNSStore Z :=
  let! rows := tx_read db_Records in
  let! _ := tx_write (λ db, db <| db_Records := rows_delete p rows |>) in
  tx_ret (Z.of_nat (length (rows_where p rows))).

(** ** Nullable columns *)

Definition nullableID (value : Z) : option Z := if value <=? 0 then None else Some value.

Definition nullablePriority (recordType : string) (value : Z) : option Z :=
  if String.eqb recordType "MX" || String.eqb recordType "SRV" then Some value else None.

Definition nullableSRV (recordType : string) (value : Z) : option Z :=
  if String.eqb recordType "SRV" then Some value else None.

(** A NULL column as the queries read it back. *)
Definition stored_number (value : option Z) : Z := default 0 value.

(** The data columns of a record, as a statement stores them in a row. *)
Definition store_rdata (from to : DNSRecord) : DNSRecord :=
  to <| rec_Host := rec_Host from |> <| rec_Type := rec_Type from |> <| rec_Value := rec_Value from |>
     <| rec_Priority := stored_number (nullablePriority (rec_Type from) (rec_Priority from)) |>
     <| rec_Weight := stored_number (nullableSRV (rec_Type from) (rec_Weight from)) |>
     <| rec_Port := stored_number (nullableSRV (rec_Type from) (rec_Port from)) |>
     <| rec_TTL := rec_TTL from |>.

(** ** Queries *)

(** How the database orders text: the collation it was created with. *)
Class Collation := text_leb : string → string → bool.

Section Queries.
Context `{GoUnicode} `{GoMapOrder} `{Collation}.

(** [ORDER BY] over several text columns and a number. *)
Fixpoint columns_leb (a b : list string) : bool :=
  match a, b with
  | x :: a', y :: b' => if String.eqb x y then columns_leb a' b' else text_leb x y
  | [], _ => true
  | _ :: _, [] => false
  end.

Definition record_le (a b : DNSRecord) : Prop :=
  (if String.eqb (rec_Host a) (rec_Host b) && String.eqb (rec_Type a) (rec_Type b)
   then rec_ID a <=? rec_ID b
   else columns_leb [rec_Host a; rec_Type a] [rec_Host b; rec_Type b]) = true.
#[export] Instance record_le_dec : RelDecision record_le := λ a b, decide (_ = true).

Definition template_record_le (a b : DNSTemplateRecord) : Prop :=
  columns_leb [trec_Scope a; trec_HostTemplate a; trec_Type a; trec_StableKey a]
    [trec_Scope b; trec_HostTemplate b; trec_Type b; trec_StableKey b] = true.
#[export] Instance template_record_le_dec : RelDecision template_record_le := λ a b, decide (_ = true).

Definition templateByID (id : Z) (db : DNSStore) : result DNSTemplateRevision :=
  let* template := query_row (rows_where (λ t, tpl_ID t =? id) (db_Revisions db)) in
  Ok (template <| tpl_Records := merge_sort template_record_le (tpl_Records template) |>
               <| tpl_OptimisticRevision := 0 |>).

Definition activeTemplate (db : DNSStore) : result DNSTemplateRevision :=
  let* template := templateByID (db_ActiveRevisionID db) db in
  Ok (template <| tpl_OptimisticRevision := db_OptimisticRevision db |>).

Definition templateByRevision (revision : Z) (db : DNSStore) : result DNSTemplateRevision :=
  let* template := query_row (rows_where (λ t, tpl_Revision t =? revision) (db_Revisions db)) in
  templateByID (tpl_ID template) db.

Definition LoadDNSServiceFlags (siteID : Z) (db : DNSStore) : DNSServiceState :=
  mkDNSServiceState
    (existsb (λ ftp, existsb (λ site, (st_SubscriptionID site =? ftp_SubscriptionID ftp) && (st_ID site =? siteID)
        && ((ftp_SiteID ftp =? 0) || (ftp_SiteID ftp =? st_ID site))
        && ftp_Enabled ftp && String.eqb (ftp_ConvergenceStatus ftp) "in_sync") (db_Sites db)) (db_FTPAccounts db))
    (existsb (λ host, (wh_SiteID host =? siteID) && String.eqb (wh_Status host) "active") (db_WebmailHosts db)).

Definition expandSOA (settings : DNSSOASettings) (domain hostname : string) : DNSSOASettings :=
  let values := mkExpansionContext domain "" hostname "" "" in
  let settings := settings <| soa_PrimaryNameserver := expandPlaceholders (soa_PrimaryNameserver settings) values |> in
  settings <| soa_ResponsibleMailbox := expandPlaceholders (soa_ResponsibleMailbox settings) values |>.

(** [COALESCE(NULLIF(hostname,''),zone.domain)]. *)
Definition zone_hostname (db : DNSStore) (zone : ZoneRow) : string :=
  match db_Hostname db with
  | Some hostname => if String.eqb hostname "" then zr_Domain zone else hostname
  | None => zr_Domain zone
  end.

Definition suppressed_keys (zoneID : Z) (deletions : list (Z * Z * string)) : gmap Z (gset string) :=
  foldl (λ suppressed '(zone, owner, key),
      if zone =? zoneID then <[owner := {[key]} ∪ default ∅ (suppressed !! owner)]> suppressed else suppressed)
    ∅ deletions.

Definition parent_mode_child (siteID : Z) (child : DNSSite) : bool :=
  (st_ParentSiteID child =? siteID) && String.eqb (st_DNSZoneMode child) "parent".

Definition subdomain_sites (zone : ZoneRow) (db : DNSStore) : gmap Z siteExpansion :=
  foldl (λ sites child,
      <[st_ID child := mkSiteExpansion (st_Domain child)
          (trim_suffix (st_Domain child) ("." +:+ zr_Domain zone)) (st_AdoptionCompleted child)
          (Some (LoadDNSServiceFlags (st_ID child) db))]> sites)
    ∅ (rows_where (parent_mode_child (zr_SiteID zone)) (db_Sites db)).

Definition zone_records (zoneID : Z) (db : DNSStore) : list DNSRecord :=
  rows_where (λ r, rec_ZoneID r =? zoneID) (db_Records db).

Definition zoneByID (zoneID : Z) (db : DNSStore) : result zoneSnapshot :=
  let* zone := zone_by_id zoneID db in
  let* site := query_row (rows_where (λ s, st_ID s =? zr_SiteID zone) (db_Sites db)) in
  let parent := rows_where (λ s, st_ID s =? st_ParentSiteID site) (db_Sites db) in
  let hostname := zone_hostname db zone in
  let* template := templateByRevision (zr_TemplateRevision zone) db in
  let soa := default zero_DNSSOASettings (zr_SOAOverride zone) in
  let soa := if String.eqb (soa_PrimaryNameserver soa) "" then expandSOA (tpl_SOA template) (zr_Domain zone) hostname else soa in
  Ok (mkZoneSnapshot
    (mkDNSZoneView (zr_ID zone) (zr_SiteID zone) (zr_ParentZoneID zone) (zr_Domain zone) (zr_Address zone)
       (zr_IPv6Address zone) (zr_Mode zone) (zr_UpstreamPrimaries zone) (default [] (zr_TransferCIDRs zone)) soa
       (zr_TemplateRevision zone) (zr_TemplateStatus zone) (zr_DesiredRevision zone) (zr_AppliedRevision zone)
       (zr_Status zone) (zr_LastError zone) (merge_sort record_le (zone_records zoneID db)))
    (zr_SiteID zone) (suppressed_keys zoneID (db_Deletions db)) (st_Domain site)
    (match parent with p :: _ => st_Domain p | [] => "" end) hostname (st_AdoptionCompleted site) false
    (Some (LoadDNSServiceFlags (zr_SiteID zone) db)) (subdomain_sites zone db)).

(** The row of the zone that serves a site: its own, or its parent's. *)
Definition serving_zone (siteID : Z) (db : DNSStore) : result (DNSSite * ZoneRow) :=
  let* site := query_row (rows_where (λ s, st_ID s =? siteID) (db_Sites db)) in
  let parent := rows_where (λ s, st_ID s =? st_ParentSiteID site) (db_Sites db) in
  let owner := match parent with
               | p :: _ => if String.eqb (st_DNSZoneMode site) "parent" then st_ID p else st_ID site
               | [] => st_ID site
               end in
  let* zone := query_row (rows_where (λ z, zr_SiteID z =? owner) (db_Zones db)) in
  Ok (site, zone).

Definition zoneForSiteTx (siteID : Z) (db : DNSStore) : result zoneSnapshot :=
  let* serving := serving_zone siteID db in
  zoneByID (zr_ID (snd serving)) db.

(** ** Convergence: serials, revisions and jobs *)

Definition nextZoneSerialTx (now zoneID : Z) (db : DNSStore) : result Z :=
  let* zone := zone_by_id zoneID db in
  let* revision := query_row (rows_where (λ t, tpl_Revision t =? zr_TemplateRevision zone) (db_Revisions db)) in
  let format := match zr_SOAOverride zone with
                | Some soa => soa_SerialFormat soa
                | None => soa_SerialFormat (tpl_SOA revision)
                end in
  nextDNSSerial now (zr_Serial zone) format.

(** A site's mail is routed by its own zone or its parent's. *)
Definition mail_domain_affected (db : DNSStore) (zoneIDs : list Z) (domain : MailDomain) : bool :=
  md_Enabled domain && negb (md_DeleteRequested domain) &&
  existsb (λ site, (st_ID site =? md_SiteID domain) &&
    existsb (λ zone, bool_decide (zr_ID zone ∈ zoneIDs)
                     && ((st_ID site =? zr_SiteID zone) || (st_ParentSiteID site =? zr_SiteID zone))) (db_Zones db))
    (db_Sites db).

Definition EnqueueMailDNSRecheckTx (zoneIDs : list Z) : tx DNSStore unit :=
  let! db := tx_read (λ db, db) in
  let affected := mail_domain_affected db zoneIDs in
  let! _ := tx_write (λ db, db <| db_MailDomains := rows_update affected
      (λ d, d <| md_ConvergenceStatus := "pending" |> <| md_LastError := "" |>) (db_MailDomains db) |>) in
  if 0 <? Z.of_nat (length (rows_where affected (db_MailDomains db))) then insert_job ConfigureMailArgs else tx_ret ().

(** The new serial and the next desired revision, and the job that applies them. *)
Definition bump_zone (now zoneID : Z) : tx DNSStore Z :=
  let! serial := tx_query (nextZoneSerialTx now zoneID) in
  let! _ := update_zones (λ z, zr_ID z =? zoneID)
    (λ z, z <| zr_DesiredRevision := zr_DesiredRevision z + 1 |> <| zr_Serial := serial |>
            <| zr_Status := "pending" |> <| zr_LastError := "" |>) in
  let! zone := tx_query (zone_by_id zoneID) in
  tx_ret (zr_DesiredRevision zone).

Definition enqueueZoneTx (now zoneID : Z) (bulk : bool) : tx DNSStore unit :=
  let! _ := EnqueueMailDNSRecheckTx [zoneID] in
  let! revision := bump_zone now zoneID in
  insert_job (ConfigureDNSZoneArgs zoneID revision bulk).

Definition enqueueTwoZonesTx (now firstZoneID secondZoneID : Z) (bulk : bool) : tx DNSStore unit :=
  let! _ := EnqueueMailDNSRecheckTx [firstZoneID; secondZoneID] in
  tx_each (λ zoneID,
      let! revision := bump_zone now zoneID in
      insert_job (ConfigureDNSZoneArgs zoneID revision bulk))
    [firstZoneID; secondZoneID].

(** A record that makes its zone "customized". *)
Definition customized_record (zoneID : Z) (record : DNSRecord) : bool :=
  (rec_ZoneID record =? zoneID) &&
  (String.eqb (rec_Origin record) "custom"
   || String.eqb (rec_Origin record) "template" && rec_LocallyModified record).

Definition template_status (db : DNSStore) (revision : Z) (zone : ZoneRow) : string :=
  if bool_decide (is_Some (zr_SOAOverride zone)) || bool_decide (is_Some (zr_TransferCIDRs zone))
     || existsb (customized_record (zr_ID zone)) (db_Records db) then "customized"
  else if zr_TemplateRevision zone =? revision then "in_sync"
  else "out_of_sync".

Definition refreshZoneTemplateStatusTx (zoneID : Z) : tx DNSStore unit :=
  let! db := tx_read (λ db, db) in
  match rows_where (λ t, tpl_ID t =? db_ActiveRevisionID db) (db_Revisions db) with
  | [] => tx_ret ()
  | revision :: _ =>
    update_zones (λ z, zr_ID z =? zoneID)
      (λ z, z <| zr_TemplateStatus := template_status db (tpl_Revision revision) z |>)
  end.

End Queries.
