(* ===== verification/DNSTemplateStore.v ===== *)
(** * Revisions of the DNS template

    The template half of [internal/control/dnstemplate/manager.go] and
    [provider_defaults.go]: every edit writes a new, validated revision under the
    optimistic revision its author saw, and marks the zones out of sync. *)

From S2P Require Import Prelude Tx Tables GoStr Net Site DNSTypes DNSRecord DNSPlan DNSTables.

Definition ErrStalePreview : error := sentinel "ErrStalePreview" "DNS synchronization preview is stale".
Definition ErrConflict : error := sentinel "ErrConflict" "DNS record conflicts with an existing record".

Section Templates.
Context `{GoUnicode} `{GoMapOrder} `{Collation}.

(** ** Writing a revision *)

Definition markZonesOutOfSyncTx : tx DNSStore unit :=
  update_zones (λ z, String.eqb (zr_TemplateStatus z) "in_sync")
    (λ z, z <| zr_TemplateStatus := "out_of_sync" |>).

(** [COALESCE(max(revision),0)+1]. *)
Definition next_revision (revisions : list DNSTemplateRevision) : Z :=
  match tpl_Revision <$> revisions with
  | [] => 0
  | r :: rs => foldr Z.max r rs
  end + 1.

Definition store_template_record (id : Z) (record : DNSTemplateRecord) : DNSTemplateRecord :=
  record <| trec_ID := id |>
    <| trec_Priority := stored_number (nullablePriority (trec_Type record) (trec_Priority record)) |>
    <| trec_Weight := stored_number (nullableSRV (trec_Type record) (trec_Weight record)) |>
    <| trec_Port := stored_number (nullableSRV (trec_Type record) (trec_Port record)) |>.

Definition insertRevisionTx (actorID : Z) (template : DNSTemplateRevision) : tx DNSStore Z :=
  let! db := tx_read (λ db, db) in
  let id := db_RevisionSeq db in
  let records := imap (λ i, store_template_record (db_TemplateRecordSeq db + Z.of_nat i)) (tpl_Records template) in
  fail_if negb (bool_decide (NoDup (trec_StableKey <$> records))) with unique_violation ;;
  let row := template <| tpl_ID := id |> <| tpl_Revision := next_revision (db_Revisions db) |>
      <| tpl_Records := records |> <| tpl_CreatedBy := stored_number (nullableID actorID) |>
      <| tpl_CreatedAt := db_Clock db |> <| tpl_OptimisticRevision := 0 |> in
  let! _ := tx_write (λ db,
      (db <| db_Revisions := db_Revisions db ++ [row] |>)
        <| db_RevisionSeq := id + 1 |>
        <| db_TemplateRecordSeq := db_TemplateRecordSeq db + Z.of_nat (length records) |>) in
  tx_ret id.

(** [UPDATE dns_template_state SET active_revision_id=$1, optimistic_revision=optimistic_revision+1]. *)
Definition activate_revision (id : Z) : tx DNSStore unit :=
  tx_write (λ db, (db <| db_ActiveRevisionID := id |>) <| db_OptimisticRevision := db_OptimisticRevision db + 1 |>).

Definition createRevision (actorID expectedRevision : Z)
    (mutate : DNSTemplateRevision → result DNSTemplateRevision) : tx DNSStore Z :=
  let! currentRevision := tx_read db_OptimisticRevision in
  fail_if negb (currentRevision =? expectedRevision) with ErrStalePreview ;;
  let! current := tx_query activeTemplate in
  fail_if negb (tpl_OptimisticRevision current =? expectedRevision) with ErrStalePreview ;;
  let! current := tx_lift (mutate current) in
  let! _ := tx_lift (validateTemplateRevision current) in
  let! id := insertRevisionTx actorID current in
  let! revision := tx_read db_OptimisticRevision in
  fail_if negb (revision =? expectedRevision) with ErrStalePreview ;;
  let! _ := activate_revision id in
  let! _ := markZonesOutOfSyncTx in
  tx_ret id.

Definition ResetTemplate (actorID expectedRevision : Z) : tx DNSStore Z :=
  let! currentRevision := tx_read db_OptimisticRevision in
  let! defaultID := tx_read db_DefaultRevisionID in
  fail_if negb (currentRevision =? expectedRevision) with ErrStalePreview ;;
  let! current := tx_query activeTemplate in
  fail_if negb (tpl_OptimisticRevision current =? expectedRevision) with ErrStalePreview ;;
  let! defaultTemplate := tx_query (templateByID defaultID) in
  let defaultTemplate := defaultTemplate <| tpl_ID := 0 |> <| tpl_Revision := 0 |> in
  let! _ := tx_lift (validateTemplateRevision defaultTemplate) in
  let! id := insertRevisionTx actorID defaultTemplate in
  let! _ := activate_revision id in
  let! _ := markZonesOutOfSyncTx in
  tx_ret id.

(** ** The edits *)

Definition SaveSettings (actorID : Z) (input : DNSTemplateSettingsInput) : tx DNSStore Z :=
  let! _ := tx_lift (validateSOA (tset_SOA input)) in
  fail_if negb (one_of (tset_ZoneStatus input) ["active"; "disabled"])
    with errors_New "zone status must be active or disabled" ;;
  fail_if negb (one_of (tset_SubdomainPolicy input) ["parent"; "separate"])
    with errors_New "subdomain policy must be parent or separate" ;;
  let! cidrs := tx_lift (validateCIDRs (tset_TransferCIDRs input)) in
  createRevision actorID (tset_ExpectedRevision input) (λ current,
    Ok (current <| tpl_SOA := tset_SOA input |> <| tpl_ZoneStatus := tset_ZoneStatus input |>
                <| tpl_SubdomainPolicy := tset_SubdomainPolicy input |> <| tpl_TransferCIDRs := cidrs |>)).

(** The record with the given identifier, replaced but for its key. *)
Fixpoint replace_template_record (recordID : Z) (record : DNSTemplateRecord) (records : list DNSTemplateRecord)
    : result (list DNSTemplateRecord) :=
  match records with
  | [] => Err ErrNoRows
  | existing :: rest =>
    if trec_ID existing =? recordID
    then Ok (record <| trec_StableKey := trec_StableKey existing |> :: rest)
    else let* rest := replace_template_record recordID record rest in Ok (existing :: rest)
  end.

Definition upsert_mutation (recordID : Z) (record : DNSTemplateRecord) (current : DNSTemplateRevision)
    : result DNSTemplateRevision :=
  if recordID =? 0 then
    return_if existsb (λ existing, String.eqb (trec_StableKey existing) (trec_StableKey record)) (tpl_Records current)
      with errors_New "template record key already exists" ;;
    Ok (current <| tpl_Records := tpl_Records current ++ [record] |>)
  else
    let* records := replace_template_record recordID record (tpl_Records current) in
    Ok (current <| tpl_Records := records |>).

(** [random] is the hexadecimal text of the twelve random bytes. *)
Definition UpsertTemplateRecord (random : string) (actorID recordID expectedRevision : Z)
    (record : DNSTemplateRecord) : tx DNSStore Z :=
  let record := if (recordID =? 0) && String.eqb (trim_space (trec_StableKey record)) ""
                then record <| trec_StableKey := "record_" +:+ random |> else record in
  let! record := tx_lift (validateTemplateRecord record) in
  createRevision actorID expectedRevision (upsert_mutation recordID record).

Fixpoint delete_template_record (recordID : Z) (records : list DNSTemplateRecord) : result (list DNSTemplateRecord) :=
  match records with
  | [] => Err ErrNoRows
  | existing :: rest =>
    if trec_ID existing =? recordID then Ok rest
    else let* rest := delete_template_record recordID rest in Ok (existing :: rest)
  end.

Definition DeleteTemplateRecord (actorID recordID expectedRevision : Z) : tx DNSStore Z :=
  createRevision actorID expectedRevision (λ current,
    let* records := delete_template_record recordID (tpl_Records current) in
    Ok (current <| tpl_Records := records |>)).

(** ** Provider nameservers *)

(** The records the provider's nameservers replace. *)
Definition provider_replaces (record : DNSTemplateRecord) : bool :=
  String.eqb (trec_Type record) "NS" && String.eqb (trec_HostTemplate record) "@"
    && negb (String.eqb (trec_Scope record) "subdomain")
  || String.eqb (trec_StableKey record) "ns1-a" && String.eqb (trec_HostTemplate record) "ns1"
    && String.eqb (trec_ValueTemplate record) "<ip.dns>".

Definition nameserver_record (key value : string) : DNSTemplateRecord :=
  zero_DNSTemplateRecord <| trec_StableKey := key |> <| trec_Scope := "root" |> <| trec_HostTemplate := "@" |>
    <| trec_Type := "NS" |> <| trec_ValueTemplate := value |> <| trec_TTL := 3600 |>.

Definition nameserver_input (value : string) : string := to_lower (trim_suffix (trim_space value) ".").

Definition withProviderDefaults (current : DNSTemplateRevision) (input : DNSProviderDefaults)
    : result DNSTemplateRevision :=
  let primary := nameserver_input (pdef_PrimaryNameserver input) in
  let secondary := nameserver_input (pdef_SecondaryNameserver input) in
  return_if negb (is_ok (ValidateDomain primary)) || negb (is_ok (ValidateDomain secondary)) || String.eqb primary secondary
    with errors_New "enter two different fully qualified nameserver hostnames" ;;
  let records := filter (λ record, provider_replaces record = false) (tpl_Records current) in
  let current := current <| tpl_Records :=
      records ++ [nameserver_record "primary-ns" primary; nameserver_record "secondary-ns" secondary] |> in
  let current := current <| tpl_SOA := (tpl_SOA current) <| soa_PrimaryNameserver := primary |> |> in
  let* _ := validateTemplateRevision current in
  Ok current.

Definition PreviewProviderDefaults (input : DNSProviderDefaults) (db : DNSStore) : result DNSTemplateRevision :=
  let* current := activeTemplate db in
  withProviderDefaults current input.

Definition SaveProviderDefaults (actorID expectedRevision : Z) (input : DNSProviderDefaults) : tx DNSStore Z :=
  createRevision actorID expectedRevision (λ current, withProviderDefaults current input).

Definition providerDefaults (current : DNSTemplateRevision) : DNSProviderDefaults :=
  let primary := soa_PrimaryNameserver (tpl_SOA current) in
  let secondary :=
    match List.find (λ record, String.eqb (trec_Type record) "NS" && negb (String.eqb (trec_Scope record) "subdomain")
                        && String.eqb (trec_HostTemplate record) "@" && negb (String.eqb (trec_ValueTemplate record) primary))
            (tpl_Records current) with
    | Some record => trec_ValueTemplate record
    | None => ""
    end in
  mkDNSProviderDefaults primary secondary.

(** [net.IP.Equal]: an IPv4 address and its IPv6 form are the same address. *)
Definition ip_equal (a b : list Z) : bool :=
  if (length a =? length b)%nat then bool_decide (a = b)
  else if (length a =? 4)%nat && (length b =? 16)%nat then bool_decide (b = v4_in_v6_prefix ++ a)
  else if (length a =? 16)%nat && (length b =? 4)%nat then bool_decide (a = v4_in_v6_prefix ++ b)
  else false.

Definition nameserversShareAddress (primary secondary : list (list Z)) : bool :=
  existsb (λ a, existsb (ip_equal a) secondary) primary.

(** [lookupIP] is the resolver: the addresses of a name, or nothing on an error. *)
Definition providerWarnings (lookupIP : string → option (list (list Z))) (input : DNSProviderDefaults) : list string :=
  if contains (pdef_PrimaryNameserver input) "<" || String.eqb (pdef_SecondaryNameserver input) ""
  then ["Provider nameservers are not configured. Domain-relative defaults are still in use."]
  else match lookupIP (pdef_PrimaryNameserver input), lookupIP (pdef_SecondaryNameserver input) with
  | Some primary, Some secondary =>
    if nameserversShareAddress primary secondary
    then ["Both nameservers share an IP address. This is a single-server setup, not redundant DNS."]
    else []
  | _, _ => ["Nameserver addresses could not be verified. Check delegation and glue records at the registrar before applying."]
  end.

End Templates.
