(* ===== verification/DNSZoneStore.v ===== *)
(** * Zones: applying a plan, modes, and the zone of a subdomain

    The zone half of [internal/control/dnstemplate/manager.go]: the statements
    that execute a plan ([applyZonePlanMutationsTx]) and the handlers that change
    one zone, with their guards. [river] says whether the job queue is
    configured; [now] is the manager's clock. *)

From S2P Require Import Prelude Tx Tables GoStr Net Site DNSTypes DNSRecord DNSPlan DNSTables DNSTemplateStore.

Section Zones.
Context `{GoUnicode} `{GoMapOrder} `{Collation}.

(** ** Executing a plan *)

Definition plan_deletes (zoneID : Z) (ids : list Z) (record : DNSRecord) : bool :=
  (rec_ZoneID record =? zoneID) && bool_decide (rec_ID record ∈ ids)
  && one_of (rec_Origin record) ["template"; "system"] && negb (rec_LocallyModified record).

Definition plan_insert (zoneID templateRevision : Z) (record : DNSRecord) : DNSRecord :=
  let '(origin, revision) :=
    if String.eqb (rec_Origin record) "system" then ("system", 0) else ("template", templateRevision) in
  (store_rdata record zero_DNSRecord)
    <| rec_ZoneID := zoneID |> <| rec_OwnerSiteID := rec_OwnerSiteID record |> <| rec_Origin := origin |>
    <| rec_TemplateRecordKey := rec_TemplateRecordKey record |> <| rec_TemplateRevision := revision |>
    <| rec_LocallyModified := false |>.

Definition plan_updates (zoneID id : Z) (record : DNSRecord) : bool :=
  (rec_ID record =? id) && (rec_ZoneID record =? zoneID)
  && String.eqb (rec_Origin record) "template" && negb (rec_LocallyModified record).

Definition plan_update_row (templateRevision : Z) (wanted record : DNSRecord) : DNSRecord :=
  (store_rdata wanted record) <| rec_TemplateRevision := templateRevision |> <| rec_LocallyModified := false |>.

Definition plan_adopts (zoneID id : Z) (record : DNSRecord) : bool :=
  (rec_ID record =? id) && (rec_ZoneID record =? zoneID) && String.eqb (rec_Origin record) "custom".

Definition plan_adopt_row (templateRevision : Z) (wanted record : DNSRecord) : DNSRecord :=
  record <| rec_OwnerSiteID := rec_OwnerSiteID wanted |> <| rec_Origin := rec_Origin wanted |>
    <| rec_TemplateRecordKey := rec_TemplateRecordKey wanted |>
    <| rec_TemplateRevision := if String.eqb (rec_Origin wanted) "system" then 0 else templateRevision |>
    <| rec_LocallyModified := false |>.

Definition applyZonePlanMutationsTx (zoneID templateRevision : Z) (plan : zonePlan) : tx DNSStore unit :=
  let! _ := (if 0 <? Z.of_nat (length (plan_remove plan))
             then let! _ := delete_records (plan_deletes zoneID (plan_remove plan)) in tx_ret ()
             else tx_ret ()) in
  let! _ := tx_each (λ record, insert_record_or_nothing (plan_insert zoneID templateRevision record)) (plan_add plan) in
  let! _ := tx_each (λ idrecord,
      let! _ := update_records (plan_updates zoneID (fst idrecord)) (plan_update_row templateRevision (snd idrecord)) in
      tx_ret ()) (map_order (map_to_list (plan_update plan))) in
  tx_each (λ idrecord,
      let! _ := update_records (plan_adopts zoneID (fst idrecord)) (plan_adopt_row templateRevision (snd idrecord)) in
      tx_ret ()) (map_order (map_to_list (plan_adopt plan))).

(** [UPDATE sites SET dns_template_adoption_completed=true]: a site, and with
    [children] the sites whose records live in its zone. *)
Definition complete_adoption (siteID : Z) (children : bool) : tx DNSStore unit :=
  update_sites (λ s, (st_ID s =? siteID) || children && parent_mode_child siteID s)
    (λ s, s <| st_AdoptionCompleted := true |>).

Definition set_template_revision (zoneID revision : Z) : tx DNSStore unit :=
  update_zones (λ z, zr_ID z =? zoneID) (λ z, z <| zr_TemplateRevision := revision |>).

(** ** One record back to the template *)

Definition scan_null : error := errors_New "sql: Scan error: converting NULL to int64 is unsupported".

Definition RestoreRecord (river : bool) (now siteID recordID : Z) : tx DNSStore unit :=
  fail_if negb river with errors_New "DNS queue is not configured" ;;
  let! zone := tx_query (zoneForSiteTx siteID) in
  let zoneID := zone_ID (zs_View zone) in
  let! row := tx_query (λ db, query_row (rows_where (λ r,
      (rec_ID r =? recordID) && (rec_ZoneID r =? zoneID) && negb (String.eqb (rec_TemplateRecordKey r) "")
      && ((rec_OwnerSiteID r =? siteID) || (siteID =? zs_SiteID zone))) (db_Records db))) in
  fail_if rec_OwnerSiteID row =? 0 with scan_null ;;
  let! template := tx_query activeTemplate in
  match List.find (λ t, String.eqb (trec_StableKey t) (rec_TemplateRecordKey row)) (tpl_Records template) with
  | None => tx_fail (errors_New "this record no longer exists in the active template")
  | Some wanted =>
    let! expanded := tx_lift (expandTemplateRecord wanted (expansionForSite zone (rec_OwnerSiteID row))) in
    match expanded with
    | None => tx_fail (errors_New "template record is unavailable for this zone")
    | Some expanded =>
      let! _ := update_records (λ r, (rec_ID r =? recordID) && (rec_ZoneID r =? zoneID))
          (λ r, (store_rdata expanded r) <| rec_Origin := "template" |>
                  <| rec_TemplateRevision := tpl_Revision template |> <| rec_LocallyModified := false |>) in
      let! _ := refreshZoneTemplateStatusTx zoneID in
      enqueueZoneTx now zoneID false
    end
  end.

(** ** Mode and settings of a zone *)

Fixpoint upstream_primaries (values : list string) : result (list string) :=
  match values with
  | [] => Ok []
  | value :: rest =>
    let value := trim_space value in
    if String.eqb value "" then upstream_primaries rest
    else match parse_ip value with
         | None => Err (errors_New ("invalid upstream primary " +:+ quote value))
         | Some _ => let* rest := upstream_primaries rest in Ok (value :: rest)
         end
  end.

Definition SetZoneMode (river : bool) (now siteID : Z) (input : DNSZoneModeInput) : tx DNSStore unit :=
  fail_if negb river with errors_New "DNS queue is not configured" ;;
  let mode := to_lower (trim_space (zmode_Mode input)) in
  fail_if negb (one_of mode ["primary"; "secondary"; "disabled"])
    with errors_New "zone mode must be primary, secondary, or disabled" ;;
  let! primaries := tx_lift (upstream_primaries (zmode_UpstreamPrimaries input)) in
  fail_if String.eqb mode "secondary" && (Z.of_nat (length primaries) =? 0)
    with errors_New "a secondary zone requires at least one upstream primary" ;;
  let primaries := if negb (String.eqb mode "secondary") then [] else primaries in
  let! zone := tx_query (zoneForSiteTx siteID) in
  fail_if negb (zs_SiteID zone =? siteID)
    with errors_New "authoritative zone mode must be changed from the parent domain" ;;
  fail_if negb (zmode_ExpectedRevision input =? zone_DesiredRevision (zs_View zone)) with ErrStalePreview ;;
  let zoneID := zone_ID (zs_View zone) in
  let! _ := update_zones (λ z, zr_ID z =? zoneID)
      (λ z, z <| zr_Mode := mode |> <| zr_UpstreamPrimaries := primaries |>) in
  enqueueZoneTx now zoneID false.

Definition lift_option {A} (f : A → result unit) (o : option A) : result unit :=
  match o with
  | Some a => f a
  | None => Ok ()
  end.

Definition SetZoneSOA (river : bool) (now siteID expectedRevision : Z) (settings : option DNSSOASettings)
    (transferCIDRs : option (list string)) : tx DNSStore unit :=
  fail_if negb river with errors_New "DNS queue is not configured" ;;
  let! _ := tx_lift (lift_option validateSOA settings) in
  let! cidrs := tx_lift (match transferCIDRs with
                         | Some values => let* cidrs := validateCIDRs values in Ok (Some cidrs)
                         | None => Ok None
                         end) in
  let! zone := tx_query (zoneForSiteTx siteID) in
  fail_if negb (zs_SiteID zone =? siteID)
    with errors_New "SOA and transfer settings must be changed from the parent domain" ;;
  fail_if negb (zone_DesiredRevision (zs_View zone) =? expectedRevision) with ErrStalePreview ;;
  let zoneID := zone_ID (zs_View zone) in
  let! _ := update_zones (λ z, zr_ID z =? zoneID)
      (λ z, z <| zr_SOAOverride := settings |> <| zr_TransferCIDRs := cidrs |>) in
  let! _ := refreshZoneTemplateStatusTx zoneID in
  enqueueZoneTx now zoneID false.

(** ** A subdomain's own zone, or its parent's *)

Definition moveDNSDeletionsTx (fromZone toZone owner : Z) : tx DNSStore unit :=
  tx_write (λ db,
    let is_moved '(zone, site, _) := (zone =? fromZone) && (site =? owner) in
    let moved := rows_where is_moved (db_Deletions db) in
    let kept := rows_delete is_moved (db_Deletions db) in
    db <| db_Deletions := foldl (λ rows '(_, site, key),
            if bool_decide ((toZone, site, key) ∈ rows) then rows else rows ++ [(toZone, site, key)]) kept moved |>).

Definition record_id_le (a b : DNSRecord) : Prop := rec_ID a ≤ rec_ID b.
#[export] Instance record_id_le_dec : RelDecision record_id_le := λ a b, decide (rec_ID a ≤ rec_ID b).

Definition movable (zoneID ownerSiteID : Z) (record : DNSRecord) : bool :=
  (rec_ZoneID record =? zoneID) && (rec_OwnerSiteID record =? ownerSiteID)
  && negb (String.eqb (rec_Origin record) "system"
           && (String.eqb (rec_Type record) "NS" || String.eqb (rec_Host record) "ns1")).

Definition loadMovableDNSRecords (zoneID ownerSiteID : Z) (db : DNSStore) : list DNSRecord :=
  merge_sort record_id_le (rows_where (movable zoneID ownerSiteID) (db_Records db)).

Definition move_conflict (where_ : string) (e : error) : error :=
  Error (error_text ErrConflict +:+ ": moving records into the " +:+ where_ +:+ " zone: " +:+ error_text e)
    (error_chain ErrConflict).

(** A record of the parent zone as the child zone names it; a host outside the
    child's names stays behind. *)
Definition host_in_child (label : string) (record : DNSRecord) : option DNSRecord :=
  let host := rec_Host record in
  if String.eqb host label then Some (record <| rec_Host := "@" |>)
  else if has_suffix host ("." +:+ label) then Some (record <| rec_Host := trim_suffix host ("." +:+ label) |>)
  else None.

Definition host_in_parent (label : string) (record : DNSRecord) : DNSRecord :=
  record <| rec_Host := if String.eqb (rec_Host record) "@" then label else rec_Host record +:+ "." +:+ label |>.

Definition move_record (toZone : Z) (record : DNSRecord) : tx DNSStore unit :=
  let! _ := update_records (λ r, rec_ID r =? rec_ID record)
      (λ r, r <| rec_ZoneID := toZone |> <| rec_Host := rec_Host record |>) in
  tx_ret ().

Definition move_records (where_ : string) (toZone : Z) (existing moved : list DNSRecord) : tx DNSStore unit :=
  match validateDNSRecordSet (existing ++ moved) with
  | Err err => tx_fail (move_conflict where_ err)
  | Ok _ => tx_each (move_record toZone) moved
  end.

Definition set_site_mode (siteID : Z) (mode : string) : tx DNSStore unit :=
  update_sites (λ s, st_ID s =? siteID)
    (λ s, s <| st_DNSZoneMode := mode |> <| st_AdoptionCompleted := true |>).

Definition domain_taken (id : Z) (domain : string) (zones : list ZoneRow) : bool :=
  existsb (λ z, negb (zr_ID z =? id) && String.eqb (zr_Domain z) domain) zones.

(** The child's zone row: the one it had, or a new one. *)
Definition child_zone (now siteID ownerID parentZoneID : Z) (domain address ipv6 childMode : string)
    (templateRevision : Z) : tx DNSStore Z :=
  let! db := tx_read (λ db, db) in
  match rows_where (λ z, zr_SiteID z =? siteID) (db_Zones db) with
  | z :: _ => tx_ret (zr_ID z)
  | [] =>
    fail_if domain_taken 0 domain (db_Zones db) with unique_violation ;;
    let id := db_ZoneSeq db in
    let row := mkZoneRow id ownerID siteID parentZoneID domain address ipv6 now "pending" childMode [] None None
                 templateRevision "pending" 1 0 "" "" in
    let! _ := tx_write (λ db, (db <| db_Zones := db_Zones db ++ [row] |>) <| db_ZoneSeq := id + 1 |>) in
    tx_ret id
  end.

Definition moveToSeparateZoneTx (now siteID parentZoneID ownerID : Z) (domain label address ipv6 : string)
    : tx DNSStore unit :=
  let! template := tx_query activeTemplate in
  let childMode := if String.eqb (tpl_ZoneStatus template) "disabled" then "disabled" else "primary" in
  let! childZoneID := child_zone now siteID ownerID parentZoneID domain address ipv6 childMode (tpl_Revision template) in
  let! zones := tx_read db_Zones in
  fail_if domain_taken childZoneID domain zones with unique_violation ;;
  let! _ := update_zones (λ z, zr_ID z =? childZoneID)
      (λ z, z <| zr_OwnerUserID := ownerID |> <| zr_Domain := domain |> <| zr_Address := address |>
              <| zr_IPv6Address := ipv6 |> <| zr_Mode := childMode |> <| zr_ParentZoneID := parentZoneID |>
              <| zr_Status := "pending" |> <| zr_TemplateStatus := "pending" |> <| zr_LastError := "" |>) in
  let! records := tx_read (loadMovableDNSRecords parentZoneID siteID) in
  let! childBeforeMove := tx_query (zoneByID childZoneID) in
  let transformed := (λ r, r <| rec_ZoneID := childZoneID |>) <$> omap (host_in_child label) records in
  let! _ := move_records "child" childZoneID (zs_Records childBeforeMove) transformed in
  let! _ := set_site_mode siteID "separate" in
  let! _ := moveDNSDeletionsTx parentZoneID childZoneID siteID in
  let! child := tx_query (zoneByID childZoneID) in
  let! _ := applyZonePlanMutationsTx childZoneID (tpl_Revision template) (compareZone template child) in
  let! _ := set_template_revision childZoneID (tpl_Revision template) in
  let! _ := refreshZoneTemplateStatusTx childZoneID in
  let! _ := refreshZoneTemplateStatusTx parentZoneID in
  enqueueTwoZonesTx now parentZoneID childZoneID false.

Definition moveToParentZoneTx (now siteID parentZoneID : Z) (label : string) : tx DNSStore unit :=
  let! child := tx_query (λ db, query_row (rows_where (λ z, zr_SiteID z =? siteID) (db_Zones db))) in
  let childZoneID := zr_ID child in
  let! records := tx_read (loadMovableDNSRecords childZoneID siteID) in
  let! parent := tx_query (zoneByID parentZoneID) in
  let transformed := (λ r, (host_in_parent label r) <| rec_ZoneID := parentZoneID |>) <$> records in
  let! _ := move_records "parent" parentZoneID (zs_Records parent) transformed in
  let! _ := set_site_mode siteID "parent" in
  let! _ := update_zones (λ z, zr_ID z =? childZoneID)
      (λ z, z <| zr_Mode := "disabled" |> <| zr_TemplateStatus := "pending" |>) in
  let! _ := moveDNSDeletionsTx childZoneID parentZoneID siteID in
  let! _ := refreshZoneTemplateStatusTx parentZoneID in
  enqueueTwoZonesTx now parentZoneID childZoneID false.

Definition SetSubdomainZoneMode (river : bool) (now siteID expectedRevision : Z) (mode : string) : tx DNSStore unit :=
  fail_if negb river with errors_New "DNS queue is not configured" ;;
  let mode := to_lower (trim_space mode) in
  fail_if negb (one_of mode ["parent"; "separate"])
    with errors_New "subdomain zone mode must be parent or separate" ;;
  let! site := tx_query (λ db, query_row (rows_where (λ s, st_ID s =? siteID) (db_Sites db))) in
  fail_if st_ParentSiteID site =? 0 with errors_New "standalone domains cannot use a parent DNS zone" ;;
  if String.eqb (st_DNSZoneMode site) mode then tx_ret ()
  else
    let! zones := tx_read db_Zones in
    match rows_where (λ z, zr_SiteID z =? st_ParentSiteID site) zones with
    | [] => tx_fail (errors_New "the parent domain does not have an authoritative DNS zone")
    | parent :: _ =>
      let domain := st_Domain site in
      let label := trim_suffix domain ("." +:+ zr_Domain parent) in
      fail_if String.eqb label domain || String.eqb label ""
        with errors_New "site is not a subdomain of its selected parent" ;;
      let! current := tx_query (λ db,
          if String.eqb (st_DNSZoneMode site) "separate"
          then let* zone := query_row (rows_where (λ z, zr_SiteID z =? siteID) (db_Zones db)) in Ok (zr_DesiredRevision zone)
          else Ok (zr_DesiredRevision parent)) in
      fail_if negb (current =? expectedRevision) with ErrStalePreview ;;
      if String.eqb mode "separate"
      then moveToSeparateZoneTx now siteID (zr_ID parent) (zr_OwnerUserID parent) domain label
             (zr_Address parent) (zr_IPv6Address parent)
      else moveToParentZoneTx now siteID (zr_ID parent) label
    end.

(** ** Starting over from the template *)

Definition ResetZone (now siteID : Z) (confirmation : string) : tx DNSStore unit :=
  let! before := tx_query (zoneForSiteTx siteID) in
  fail_if negb (String.eqb confirmation (zone_Domain (zs_View before)))
    with errors_New "confirmation must match the zone name" ;;
  let! zone := tx_query (zoneForSiteTx siteID) in
  let! template := tx_query activeTemplate in
  let zoneID := zone_ID (zs_View zone) in
  let authoritativeZone := zs_SiteID zone =? siteID in
  let! _ := tx_write (λ db, db <| db_Deletions := rows_delete
      (λ '(z, site, _), (z =? zoneID) && (authoritativeZone || (site =? siteID))) (db_Deletions db) |>) in
  let! _ := delete_records (λ r, (rec_ZoneID r =? zoneID) && negb (String.eqb (rec_Origin r) "system")
                               && (authoritativeZone || (rec_OwnerSiteID r =? siteID))) in
  let! zone := tx_query (zoneByID zoneID) in
  let plan := if authoritativeZone then compareWholeZone template zone
              else compareZone template (set_SiteID zone siteID) in
  let! _ := applyZonePlanMutationsTx zoneID (tpl_Revision template) plan in
  let! _ := complete_adoption siteID authoritativeZone in
  let! _ := (if authoritativeZone then set_template_revision zoneID (tpl_Revision template) else tx_ret ()) in
  let! _ := refreshZoneTemplateStatusTx zoneID in
  enqueueZoneTx now zoneID false.

End Zones.
