(* ===== verification/DNSSync.v ===== *)
(** * Synchronisation runs

    Previewing a template on the zones, confirming the preview and applying it:
    the preview and apply handlers of [manager.go], the worker of [jobs.go], and
    the answers of the zone worker ([provision/phase6_repository.go]). The
    handlers return the database they leave also when they fail, because some
    commit a change and then report an error. [fingerprint] stands for the
    SHA-256 of the plan's JSON, [token] for the random bytes of a preview. *)

From S2P Require Import Prelude Tx Tables GoStr Site DNSTypes DNSRecord DNSPlan DNSTables DNSTemplateStore DNSZoneStore.

(** What [zonePlanFingerprint] hashes. *)
Record fingerprintData := mkFingerprintData {
  fp_Add : list DNSRecord;
  fp_Update : gmap Z DNSRecord;
  fp_Remove : list Z;
  fp_Adopt : gmap Z DNSRecord;
  fp_Settings : bool;
  fp_Retry : bool;
  fp_Services : gmap Z (option DNSServiceState);
}.

Section Sync.
Context `{GoUnicode} `{GoMapOrder} `{Collation}.
Context (fingerprint : fingerprintData → string).

Definition zonePlanFingerprint (plan : zonePlan) (zone : zoneSnapshot) : string :=
  fingerprint (mkFingerprintData (plan_add plan) (plan_update plan) (plan_remove plan) (plan_adopt plan)
    (plan_settingsChanged plan) (plan_retryConvergence plan)
    ((exp_Services <$> zs_SubdomainSite zone) ∪ {[zs_SiteID zone := zs_Services zone]})).

(** ** Previews *)

Fixpoint load_zones (ids : list Z) (db : DNSStore) : result (list zoneSnapshot) :=
  match ids with
  | [] => Ok []
  | id :: rest => let* zone := zoneByID id db in let* zones := load_zones rest db in Ok (zone :: zones)
  end.

Definition zone_ids (zoneID : Z) (db : DNSStore) : list Z :=
  merge_sort Z.le (zr_ID <$> rows_where (λ z, (zoneID =? 0) || (zr_ID z =? zoneID)) (db_Zones db)).

Definition zonesForSync (scope : string) (zoneID : Z) (db : DNSStore) : result (list zoneSnapshot) :=
  let* zones := load_zones (zone_ids zoneID db) db in
  Ok (filter (λ zone, String.eqb scope "unmodified" && String.eqb (zone_TemplateStatus (zs_View zone)) "customized" = false)
        zones).

Definition insert_run (run : SyncRun) : tx DNSStore Z :=
  let! db := tx_read (λ db, db) in
  fail_if existsb (λ r, String.eqb (sr_PreviewToken r) (sr_PreviewToken run)) (db_Runs db) with unique_violation ;;
  let id := db_RunSeq db in
  let! _ := tx_write (λ db, (db <| db_Runs := db_Runs db ++ [run <| sr_ID := id |>] |>) <| db_RunSeq := id + 1 |>) in
  tx_ret id.

Definition insert_item (item : SyncItem) : tx DNSStore unit :=
  let! db := tx_read (λ db, db) in
  fail_if existsb (λ i, (si_RunID i =? si_RunID item) && (si_ZoneID i =? si_ZoneID item)) (db_Items db) with unique_violation ;;
  tx_write (λ db, (db <| db_Items := db_Items db ++ [item <| si_ID := db_ItemSeq db |>] |>)
                    <| db_ItemSeq := db_ItemSeq db + 1 |>).

Definition new_run (template : DNSTemplateRevision) (scope token : string) (zoneID actorID total changed : Z)
    (adopt : bool) : SyncRun :=
  mkSyncRun 0 (tpl_Revision template) scope zoneID "preview" token (tpl_OptimisticRevision template) ""
    (stored_number (nullableID actorID)) total changed 0 "" adopt.

Definition new_item (runID : Z) (zone : zoneSnapshot) (plan : zonePlan) : SyncItem :=
  mkSyncItem 0 runID (zone_ID (zs_View zone)) (zs_SiteID zone) (zone_DesiredRevision (zs_View zone)) None
    (plan_item plan) (zonePlanFingerprint plan zone).

(** The run as the handlers return it. *)
Definition run_view (runID : Z) (run : SyncRun) (items : list DNSSyncItem) : DNSSyncRun :=
  zero_DNSSyncRun <| run_ID := runID |> <| run_TemplateRevision := sr_TemplateRevision run |>
    <| run_Scope := sr_Scope run |> <| run_Status := "preview" |> <| run_PreviewToken := sr_PreviewToken run |>
    <| run_ExpectedStateRevision := sr_ExpectedStateRevision run |> <| run_AdoptMatching := sr_AdoptMatching run |>
    <| run_ChangedZones := sr_ChangedZones run |> <| run_Items := items |>.

Definition adopting (adopt : bool) (zone : zoneSnapshot) : zoneSnapshot := zone <| zs_AdoptMatching := adopt |>.

Definition zone_item (zone : zoneSnapshot) (plan : zonePlan) : DNSSyncItem :=
  (plan_item plan) <| item_ZoneID := zone_ID (zs_View zone) |> <| item_Domain := zone_Domain (zs_View zone) |>.

Definition changed_zones (plans : list zonePlan) : Z :=
  Z.of_nat (length (filter (λ p, String.eqb (item_Outcome (plan_item p)) "unchanged" = false) plans)).

(** [random] is the hexadecimal text of the token's random bytes. *)
Definition PreviewWithAdoption (random : string) (actorID : Z) (scope : string) (zoneID : Z) (adopt : bool)
    : tx DNSStore DNSSyncRun :=
  fail_if negb (one_of scope ["unmodified"; "all"; "zone"]) with errors_New "synchronization scope is invalid" ;;
  fail_if String.eqb scope "zone" && (zoneID <=? 0) with errors_New "zone is required" ;;
  let! template := tx_query activeTemplate in
  let! zones := tx_query (zonesForSync scope zoneID) in
  let token := "dns_" +:+ random in
  let zones := adopting adopt <$> zones in
  let plans := compareWholeZone template <$> zones in
  let run := new_run template scope token (stored_number (nullableID zoneID)) actorID
               (Z.of_nat (length zones)) 0 adopt in
  let! runID := insert_run run in
  let! _ := tx_each (λ zoneplan, insert_item (new_item runID (fst zoneplan) (snd zoneplan))) (zip zones plans) in
  let changed := changed_zones plans in
  let! _ := update_runs (λ r, sr_ID r =? runID) (λ r, r <| sr_ChangedZones := changed |>) in
  tx_ret (run_view runID (run <| sr_ChangedZones := changed |>) (zip_with zone_item zones plans)).

Definition Preview (random : string) (actorID : Z) (scope : string) (zoneID : Z) : tx DNSStore DNSSyncRun :=
  PreviewWithAdoption random actorID scope zoneID false.

Definition previewSiteZone (random : string) (actorID : Z) (zone : zoneSnapshot) : tx DNSStore DNSSyncRun :=
  let! template := tx_query activeTemplate in
  let plan := compareZone template zone in
  let item := (zone_item zone plan) <| item_OwnerSiteID := zs_SiteID zone |> in
  let changed := if negb (String.eqb (item_Outcome item) "unchanged") then 1 else 0 in
  let run := new_run template "zone" ("dns_" +:+ random) (zone_ID (zs_View zone)) actorID 1 changed (zs_AdoptMatching zone) in
  let! runID := insert_run run in
  let! _ := insert_item (new_item runID zone plan) in
  tx_ret ((run_view runID run [item]) <| run_TotalZones := 1 |>).

(** The snapshot of a zone for a site that is not its authoritative one. *)
Definition site_snapshot (zone : zoneSnapshot) (siteID : Z) (adopt : bool) : zoneSnapshot :=
  (set_SiteID zone siteID) <| zs_AdoptMatching := adopt |>
    <| zs_Services := match zs_SubdomainSite zone !! siteID with Some e => exp_Services e | None => None end |>.

Definition ApplyZoneWithAdoption (random : string) (actorID siteID : Z) (adopt : bool) : tx DNSStore DNSSyncRun :=
  let! zone := tx_query (zoneForSiteTx siteID) in
  if negb (zs_SiteID zone =? siteID) then previewSiteZone random actorID (site_snapshot zone siteID adopt)
  else PreviewWithAdoption random actorID "zone" (zone_ID (zs_View zone)) adopt.

Definition ApplyZone (random : string) (actorID siteID : Z) : tx DNSStore DNSSyncRun :=
  ApplyZoneWithAdoption random actorID siteID false.

Definition run_by_id (runID : Z) (db : DNSStore) : result SyncRun :=
  query_row (rows_where (λ r, sr_ID r =? runID) (db_Runs db)).

Definition run_items (runID : Z) (db : DNSStore) : list SyncItem :=
  rows_where (λ i, si_RunID i =? runID) (db_Items db).

(** [COALESCE((SELECT owner_site_id FROM ... LIMIT 1), otherwise)]. *)
Definition run_owner (runID otherwise : Z) (db : DNSStore) : Z :=
  match run_items runID db with
  | item :: _ => if si_OwnerSiteID item =? 0 then otherwise else si_OwnerSiteID item
  | [] => otherwise
  end.

Definition RetryPreview (random : string) (actorID runID : Z) : tx DNSStore DNSSyncRun :=
  let! run := tx_query (run_by_id runID) in
  let! ownerSiteID := tx_read (run_owner runID 0) in
  if negb (String.eqb (sr_Scope run) "zone") then PreviewWithAdoption random actorID (sr_Scope run) 0 (sr_AdoptMatching run)
  else
    fail_if sr_TargetZoneID run =? 0 with errors_New "the previous DNS synchronization target no longer exists" ;;
    let! zone := tx_query (zoneByID (sr_TargetZoneID run)) in
    if (0 <? ownerSiteID) && negb (ownerSiteID =? zs_SiteID zone)
    then previewSiteZone random actorID (site_snapshot zone ownerSiteID (sr_AdoptMatching run))
    else PreviewWithAdoption random actorID "zone" (sr_TargetZoneID run) (sr_AdoptMatching run).

(** ** Confirmation *)

(** The zones of a run that changed since its preview. *)
Definition moved_on (runID : Z) (db : DNSStore) : list SyncItem :=
  filter (λ i, existsb (λ z, (zr_ID z =? si_ZoneID i)
                        && negb (zr_DesiredRevision z =? si_ExpectedZoneRevision i)) (db_Zones db) = true)
    (run_items runID db).

Definition stale_run (runID : Z) (reason : string) : tx DNSStore unit :=
  update_runs (λ r, sr_ID r =? runID) (λ r, r <| sr_Status := "stale" |> <| sr_LastError := reason |>).

(** The body of the transaction; the error it returns after a commit, if any. *)
Definition apply_preview_tx (actorID runID : Z) (token confirmation : string) : tx DNSStore (option error) :=
  let! run := tx_query (run_by_id runID) in
  let! current := tx_read db_OptimisticRevision in
  if negb (String.eqb (sr_Status run) "preview") || negb (String.eqb (sr_PreviewToken run) token)
     || negb (sr_ExpectedStateRevision run =? current) then
    let! _ := stale_run runID (error_text ErrStalePreview) in
    tx_ret (Some ErrStalePreview)
  else
    let! changed := tx_read (moved_on runID) in
    if 0 <? Z.of_nat (length changed) then
      let! _ := stale_run runID "A zone changed after this preview" in
      tx_ret (Some ErrStalePreview)
    else
      let! _ := update_runs (λ r, sr_ID r =? runID)
          (λ r, r <| sr_Status := "pending" |> <| sr_Confirmation := confirmation |>
                  <| sr_ActorUserID := stored_number (nullableID actorID) |>) in
      let! _ := insert_job (SyncTemplateArgs runID) in
      tx_ret None.

Definition ApplyPreview (river : bool) (actorID runID : Z) (token confirmation : string) (db : DNSStore)
    : result unit * DNSStore :=
  if negb river then (Err (errors_New "DNS synchronization queue is not configured"), db)
  else if negb (String.eqb confirmation "APPLY DNS TEMPLATE")
  then (Err (errors_New ("confirmation must be " +:+ quote "APPLY DNS TEMPLATE")), db)
  else match run_tx (apply_preview_tx actorID runID token confirmation) db with
  | (Ok None, db') => (Ok (), db')
  | (Ok (Some e), db') => (Err e, db')
  | (Err e, db') => (Err e, db')
  end.

Definition ApplySitePreview (river : bool) (actorID siteID runID : Z) (token confirmation : string) (db : DNSStore)
    : result unit * DNSStore :=
  match zoneForSiteTx siteID db with
  | Err e => (Err e, db)
  | Ok zone =>
    match run_by_id runID db with
    | Err e => (Err e, db)
    | Ok run =>
      let owner := match zone_by_id (sr_TargetZoneID run) db with
                   | Ok z => run_owner runID (zr_SiteID z) db
                   | Err _ => run_owner runID 0 db
                   end in
      if owner =? 0 then (Err scan_null, db)
      else if negb (String.eqb (sr_Scope run) "zone") || (sr_TargetZoneID run =? 0)
         || negb (sr_TargetZoneID run =? zone_ID (zs_View zone)) || negb (owner =? siteID)
      then (Err (errors_New "DNS synchronization preview does not belong to this site"), db)
      else ApplyPreview river actorID runID token confirmation db
    end
  end.

(** ** The worker *)

Definition boundedError (e : error) : string := String.substring 0 1000 (error_text e).

Definition set_item (runID zoneID : Z) (f : SyncItem → SyncItem) : tx DNSStore unit :=
  update_items (λ i, (si_RunID i =? runID) && (si_ZoneID i =? zoneID)) f.

Definition outcome_detail (outcome detail : string) (i : SyncItem) : SyncItem :=
  i <| si_Counts := (si_Counts i) <| item_Outcome := outcome |> <| item_Detail := detail |> |>.

Definition planned_counts (plan : zonePlan) (i : SyncItem) : SyncItem :=
  let c := plan_item plan in
  i <| si_Counts := (si_Counts i) <| item_Outcome := item_Outcome c |> <| item_AddedCount := item_AddedCount c |>
         <| item_UpdatedCount := item_UpdatedCount c |> <| item_RemovedCount := item_RemovedCount c |>
         <| item_OverrideCount := item_OverrideCount c |> <| item_ConflictCount := item_ConflictCount c |>
         <| item_Detail := item_Detail c |> <| item_AdoptedCount := item_AdoptedCount c |> |>.

Definition plan_changes (plan : zonePlan) : bool :=
  plan_settingsChanged plan || plan_retryConvergence plan
  || (0 <? Z.of_nat (length (plan_add plan)) + Z.of_nat (size (plan_update plan))
           + Z.of_nat (size (plan_adopt plan)) + Z.of_nat (length (plan_remove plan))).

Definition stale_plan : error :=
  Error (error_text ErrStalePreview +:+ ": service defaults or record ownership changed; preview again")
    (error_chain ErrStalePreview).

(** The snapshot [applyZonePlan] plans for, and whether it is a child site's. *)
Definition apply_snapshot (zone : zoneSnapshot) (ownerSiteID : Z) (adopt : bool) : zoneSnapshot * bool :=
  let authoritativeSiteID := zs_SiteID zone in
  let zone := if 0 <? ownerSiteID then set_SiteID zone ownerSiteID else zone in
  let zone := zone <| zs_AdoptMatching := adopt |> in
  let partialOwnerApply := (0 <? ownerSiteID) && negb (ownerSiteID =? authoritativeSiteID) in
  (if partialOwnerApply
   then zone <| zs_Services := match zs_SubdomainSite zone !! ownerSiteID with Some e => exp_Services e | None => None end |>
   else zone, partialOwnerApply).

Definition applyZonePlan (now runID : Z) (scope : string) (template : DNSTemplateRevision)
    (zoneID ownerSiteID : Z) (adopt : bool) : tx DNSStore unit :=
  let! row := tx_query (zone_by_id zoneID) in
  let! item := tx_query (λ db, query_row (rows_where (λ i, si_ZoneID i =? zoneID) (run_items runID db))) in
  if negb (zr_DesiredRevision row =? si_ExpectedZoneRevision item) then
    set_item runID zoneID (outcome_detail "failed" "Zone changed after the synchronization preview")
  else if String.eqb scope "unmodified" && String.eqb (zr_TemplateStatus row) "customized" then
    set_item runID zoneID (outcome_detail "unchanged" "Skipped because this zone has local customizations")
  else
    let! zone := tx_query (zoneByID zoneID) in
    let authoritativeSiteID := zs_SiteID zone in
    let '(zone, partialOwnerApply) := apply_snapshot zone ownerSiteID adopt in
    let plan := zonePlanForApply template zone partialOwnerApply in
    fail_if negb (String.eqb (si_PlanFingerprint item) (zonePlanFingerprint plan zone)) with stale_plan ;;
    let! _ := applyZonePlanMutationsTx zoneID (tpl_Revision template) plan in
    let! _ := complete_adoption (if partialOwnerApply then zs_SiteID zone else authoritativeSiteID) (negb partialOwnerApply) in
    let! _ := (if negb partialOwnerApply then set_template_revision zoneID (tpl_Revision template) else tx_ret ()) in
    let! _ := refreshZoneTemplateStatusTx zoneID in
    if negb (plan_changes plan) then set_item runID zoneID (planned_counts plan)
    else
      let! desiredRevision := bump_zone now zoneID in
      let! _ := set_item runID zoneID (λ i, (planned_counts plan i) <| si_DesiredRevision := Some desiredRevision |>) in
      let! _ := EnqueueMailDNSRecheckTx [zoneID] in
      insert_job (ConfigureDNSZoneArgs zoneID desiredRevision true).

Definition pending_item (i : SyncItem) : bool :=
  bool_decide (is_Some (si_DesiredRevision i)) && negb (one_of (item_Outcome (si_Counts i)) ["applied"; "failed"]).
Definition failed_item (i : SyncItem) : bool := String.eqb (item_Outcome (si_Counts i)) "failed".
Definition count_items (p : SyncItem → bool) (items : list SyncItem) : Z := Z.of_nat (length (rows_where p items)).

Definition refreshRunStatus (runID : Z) : tx DNSStore unit :=
  let! items := tx_read (run_items runID) in
  let pending := count_items pending_item items in
  let failed := count_items failed_item items in
  if 0 <? pending
  then update_runs (λ r, sr_ID r =? runID) (λ r, r <| sr_Status := "running" |> <| sr_FailedZones := failed |>)
  else
    let status := if 0 <? failed then "partial" else "active" in
    update_runs (λ r, sr_ID r =? runID) (λ r, r <| sr_Status := status |> <| sr_FailedZones := failed |>).

(** One zone of the run: its own transaction, and the item marked when it fails. *)
Definition apply_target (now runID : Z) (scope : string) (template : DNSTemplateRevision) (adopt : bool)
    (db : DNSStore) (target : Z * Z) : DNSStore :=
  match run_tx (applyZonePlan now runID scope template (fst target) (snd target) adopt) db with
  | (Ok _, db') => db'
  | (Err e, db') => snd (run_tx (set_item runID (fst target) (outcome_detail "failed" (boundedError e))) db')
  end.

Definition target_le (a b : Z * Z) : Prop := fst a ≤ fst b.
#[export] Instance target_le_dec : RelDecision target_le := λ a b, decide (fst a ≤ fst b).

Definition run_targets (runID : Z) (db : DNSStore) : list (Z * Z) :=
  merge_sort target_le ((λ i, (si_ZoneID i, si_OwnerSiteID i)) <$> run_items runID db).

Definition applyRun (now runID : Z) (db : DNSStore) : result unit * DNSStore :=
  match run_by_id runID db with
  | Err e => (Err e, db)
  | Ok run =>
    if one_of (sr_Status run) ["active"; "partial"] then (Ok (), db)
    else if negb (one_of (sr_Status run) ["pending"; "running"])
    then (Err (errors_New ("DNS synchronization run " +:+ itoa runID +:+ " is " +:+ sr_Status run)), db)
    else match activeTemplate db with
    | Err e => (Err e, db)
    | Ok template =>
      if negb (tpl_OptimisticRevision template =? sr_ExpectedStateRevision run)
      then (Ok (), snd (run_tx (stale_run runID (error_text ErrStalePreview)) db))
      else
        let db := snd (run_tx (update_runs (λ r, sr_ID r =? runID)
                    (λ r, r <| sr_Status := "running" |> <| sr_LastError := "" |>)) db) in
        let db := foldl (apply_target now runID (sr_Scope run) template (sr_AdoptMatching run)) db (run_targets runID db) in
        run_tx (refreshRunStatus runID) db
    end
  end.

(** ** What the zone worker reports *)

Definition ErrDNSRevisionStale : error :=
  sentinel "ErrDNSRevisionStale" "DNS zone changed while an older revision was applying".

Definition run_status (items : list SyncItem) : string :=
  if 0 <? count_items pending_item items then "running"
  else if 0 <? count_items failed_item items then "partial" else "active".

Definition refreshDNSSyncRunsTx (zoneID : Z) : tx DNSStore unit :=
  let! items := tx_read db_Items in
  update_runs (λ r, existsb (λ i, (si_RunID i =? sr_ID r) && (si_ZoneID i =? zoneID)) items)
    (λ r, let own := rows_where (λ i, si_RunID i =? sr_ID r) items in
          r <| sr_Status := run_status own |> <| sr_FailedZones := count_items failed_item own |>).

(** The items of a zone that wait for a revision up to [desiredRevision]. *)
Definition waiting_item (zoneID desiredRevision : Z) (i : SyncItem) : bool :=
  (si_ZoneID i =? zoneID)
  && match si_DesiredRevision i with Some d => d <=? desiredRevision | None => false end
  && negb (one_of (item_Outcome (si_Counts i)) ["applied"; "failed"]).

Definition current_revision (id desiredRevision : Z) (z : ZoneRow) : bool :=
  (zr_ID z =? id) && ((desiredRevision =? 0) || (zr_DesiredRevision z =? desiredRevision)).

(** [result] carries the path, the serial and the revision the agent applied. *)
Definition MarkDNSActive (id : Z) (zonePath : string) (serial desiredRevision : Z) : tx DNSStore unit :=
  let! zones := tx_read db_Zones in
  fail_if Z.of_nat (length (rows_where (current_revision id desiredRevision) zones)) =? 0 with ErrDNSRevisionStale ;;
  let! _ := update_zones (current_revision id desiredRevision)
      (λ z, z <| zr_Status := "active" |> <| zr_ZonePath := zonePath |> <| zr_Serial := serial |>
              <| zr_AppliedRevision := desiredRevision |>
              <| zr_TemplateStatus := if String.eqb (zr_TemplateStatus z) "pending" then "in_sync" else zr_TemplateStatus z |>
              <| zr_LastError := "" |>) in
  if 0 <? desiredRevision then
    let! _ := update_items (waiting_item id desiredRevision)
        (λ i, i <| si_Counts := (si_Counts i) <| item_Outcome := "applied" |> |>) in
    refreshDNSSyncRunsTx id
  else tx_ret ().

Definition MarkDNSFailed (id : Z) (message : string) : tx DNSStore unit :=
  update_zones (λ z, zr_ID z =? id) (λ z, z <| zr_Status := "failed" |> <| zr_LastError := message |>).

Definition MarkDNSRevisionFailed (id desiredRevision : Z) (message : string) : tx DNSStore unit :=
  let! zones := tx_read db_Zones in
  fail_if Z.of_nat (length (rows_where (current_revision id desiredRevision) zones)) =? 0 with ErrDNSRevisionStale ;;
  let! _ := update_zones (current_revision id desiredRevision)
      (λ z, z <| zr_Status := "failed" |> <| zr_TemplateStatus := "failed" |> <| zr_LastError := message |>) in
  if 0 <? desiredRevision then
    let! _ := update_items (waiting_item id desiredRevision) (outcome_detail "failed" message) in
    refreshDNSSyncRunsTx id
  else tx_ret ().

End Sync.
