(* ===== verification/DNSEdit.v ===== *)
(** * Records entered by hand

    The record editor of [provision/phase6_repository.go]: its own validation
    ([normalizeDNSRecord]), saving and deleting a record, and the convergence
    step these edits queue ([enqueueDNSZoneTx]). *)

From S2P Require Import Prelude Tx Tables GoStr Regex Net Site DNSTypes DNSRecord DNSPlan DNSTables.
From Stdlib Require Import Ascii.

(** The pattern is compiled in place; it has two groups, so a successful
    [FindStringSubmatch] has three elements. *)
Definition controlCAARE : re :=
  r_seq [r_range 1 3 (RCls is_digit); r_plus (RCls c_space);
         r_alts [r_lit "issue"; r_lit "issuewild"; r_lit "iodef"]; r_plus (RCls c_space);
         RCls is_dquote; r_plus (RCls (λ c, negb (is_dquote c || is_crlf c))); RCls is_dquote].

Definition controlDNSOwnerRE : re :=
  RAlt (r_byte "@")
    (RCat (RCls (c_or c_alnum (c_any "_")))
          (r_opt (RCat (RStar (RCls (c_or c_alnum (c_any "._-")))) (RCls (c_or c_alnum (c_any "_-")))))).

Definition controlDSRE : re :=
  r_seq [r_range 1 5 (RCls is_digit); r_plus (RCls c_space);
         r_range 1 3 (RCls is_digit); r_plus (RCls c_space);
         RCls (c_any "124"); r_plus (RCls c_space); r_plus (RCls c_hex)].

(** [len(re.FindStringSubmatch(value))] of a pattern with [groups] groups. *)
Definition submatch_length (groups : Z) (r : re) (value : string) : Z :=
  if re_match r value then groups + 1 else 0.

Section Editor.
Context `{GoUnicode}.

Definition canonicalDNSRecordTarget (value : string) : string :=
  trim_suffix (to_lower (trim_space value)) ".".

Definition validControlSRVOwner (host : string) : bool :=
  match split_on "." (to_lower (trim_space host)) with
  | l0 :: l1 :: _ => (1 <? str_len l0) && (1 <? str_len l1) && has_prefix l0 "_" && has_prefix l1 "_"
  | _ => false
  end.

Definition control_label (label : string) : bool :=
  negb (String.eqb label "" || (63 <? str_len label) || has_prefix label "-" || has_suffix label "-").

Definition validControlDNSOwnerLabels (host : string) : bool :=
  if String.eqb host "@" then true else forallb control_label (split_on "." host).

(** The cases of the type switch. *)
Definition control_address (v4 : bool) (record : DNSRecord) : result DNSRecord :=
  match parse_ip (rec_Value record) with
  | Some ip =>
    return_if negb (Bool.eqb (bool_decide (is_Some (to4 ip))) v4)
      with errors_New (if v4 then "A record requires an IPv4 address" else "AAAA record requires an IPv6 address") ;;
    Ok (clearRecordFields record)
  | None => Err (errors_New (if v4 then "A record requires an IPv4 address" else "AAAA record requires an IPv6 address"))
  end.

(** A target in canonical form, which must be a domain. *)
Definition control_target (message : string) (record : DNSRecord) : result DNSRecord :=
  let record := record <| rec_Value := canonicalDNSRecordTarget (rec_Value record) |> in
  return_if negb (is_ok (ValidateDomain (rec_Value record))) with errors_New message ;;
  Ok record.

Definition control_cname (record : DNSRecord) : result DNSRecord :=
  return_if String.eqb (rec_Host record) "@"
    with errors_New "a CNAME record cannot be created at the zone apex" ;;
  let* record := control_target "CNAME requires a fully qualified domain" record in
  Ok (clearRecordFields record).

Definition control_mx (record : DNSRecord) : result DNSRecord :=
  let* record := control_target "MX requires a fully qualified domain" record in
  return_if (rec_Priority record <? 0) || (65535 <? rec_Priority record) with errors_New "MX priority is invalid" ;;
  Ok (record <| rec_Weight := 0 |> <| rec_Port := 0 |>).

Definition control_ns (record : DNSRecord) : result DNSRecord :=
  let* record := control_target "NS requires a fully qualified domain" record in
  Ok (clearRecordFields record).

Definition control_srv (record : DNSRecord) : result DNSRecord :=
  return_if negb (validControlSRVOwner (rec_Host record))
    with errors_New "SRV host must use the _service._protocol form" ;;
  let* record := control_target "SRV requires a fully qualified target" record in
  return_if (rec_Priority record <? 0) || (65535 <? rec_Priority record) || (rec_Weight record <? 0)
            || (65535 <? rec_Weight record) || (rec_Port record <? 1) || (65535 <? rec_Port record)
    with errors_New "SRV priority, weight, or port is invalid" ;;
  Ok record.

Definition control_caa (record : DNSRecord) : result DNSRecord :=
  return_if negb (submatch_length 2 controlCAARE (rec_Value record) =? 2)
    with errors_New ("CAA value must be: flags tag " +:+ dquote +:+ "value" +:+ dquote) ;;
  return_if 255 <? atoi_or_zero (nth 0 (fields_of (rec_Value record)) "")
    with errors_New "CAA flags must be between 0 and 255" ;;
  Ok (clearRecordFields record).

Definition control_ds (record : DNSRecord) : result DNSRecord :=
  return_if negb (submatch_length 4 controlDSRE (rec_Value record) =? 5)
    with errors_New "DS value must contain key-tag algorithm digest-type digest" ;;
  let group i := nth i (fields_of (rec_Value record)) "" in
  let keyTag := atoi_or_zero (group 0%nat) in
  let algorithm := atoi_or_zero (group 1%nat) in
  return_if (65535 <? keyTag) || (algorithm <? 1) || (255 <? algorithm)
    with errors_New "DS key tag or algorithm is invalid" ;;
  return_if negb (str_len (group 3%nat) =? ds_digest_length (atoi_or_zero (group 2%nat)))
    with errors_New "DS digest length does not match its digest type" ;;
  Ok (clearRecordFields record).

Definition control_txt (record : DNSRecord) : result DNSRecord :=
  return_if String.eqb (rec_Value record) "" || (4096 <? str_len (rec_Value record))
    with errors_New "TXT value must contain 1 to 4096 characters" ;;
  Ok (clearRecordFields record).

Definition control_by_type (record : DNSRecord) : result DNSRecord :=
  let type_is t := String.eqb (rec_Type record) t in
  if type_is "A" then control_address true record
  else if type_is "AAAA" then control_address false record
  else if type_is "CNAME" then control_cname record
  else if type_is "MX" then control_mx record
  else if type_is "NS" then control_ns record
  else if type_is "SRV" then control_srv record
  else if type_is "CAA" then control_caa record
  else if type_is "DS" then control_ds record
  else if type_is "TXT" then control_txt record
  else Err (errors_New ("unsupported DNS record type " +:+ quote (rec_Type record))).

(** Host, type and value as the checks see them; the TTL gets its default after
    the first check. *)
Definition control_trim (record : DNSRecord) : DNSRecord :=
  let record := record <| rec_Host := to_lower (trim_space (rec_Host record)) |> in
  let record := if String.eqb (rec_Host record) "" then record <| rec_Host := "@" |> else record in
  let record := record <| rec_Type := to_upper (trim_space (rec_Type record)) |> in
  record <| rec_Value := trim_space (rec_Value record) |>.

Definition host_blank (host : string) : bool :=
  contains_byte (λ c, is_crlf c || (code c =? 0) || (code c =? 32) || (code c =? 9)) host.

Definition normalizeDNSRecord (domain : string) (record : DNSRecord) : result DNSRecord :=
  let record := control_trim record in
  return_if host_blank (rec_Host record) || has_control (rec_Value record)
    with errors_New "DNS records cannot contain whitespace or control-character injection" ;;
  let record := if rec_TTL record =? 0 then record <| rec_TTL := 3600 |> else record in
  return_if (rec_TTL record <? 60) || (86400 <? rec_TTL record)
    with errors_New "DNS TTL must be between 60 and 86400" ;;
  return_if (253 <? str_len (rec_Host record)) || negb (re_match controlDNSOwnerRE (rec_Host record))
            || negb (validControlDNSOwnerLabels (rec_Host record))
    with errors_New "DNS host is invalid" ;;
  let* _ := if negb (String.eqb (rec_Host record) "@") && negb (contains (rec_Host record) "_")
            then result_wrap "invalid DNS host: " (ValidateDomain (rec_Host record +:+ "." +:+ domain))
            else Ok () in
  control_by_type record.

(** ** Saving and deleting *)

Definition ensureDNSRecordCompatibility (zoneID : Z) (record : DNSRecord) (db : DNSStore) : result unit :=
  let clashing := rows_where (λ r, (rec_ZoneID r =? zoneID)
      && String.eqb (to_lower (rec_Host r)) (to_lower (rec_Host record)) && negb (rec_ID r =? rec_ID record)
      && (String.eqb (rec_Type r) "CNAME" || String.eqb (rec_Type record) "CNAME")) (db_Records db) in
  return_if 0 <? Z.of_nat (length clashing)
    with errors_New "a CNAME cannot coexist with another record at the same host" ;;
  Ok ().

Definition nextProvisionDNSSerial (now previous : Z) (format : string) : result Z :=
  let* serial :=
    if String.eqb format "date-counter" then
      let base := date_base now in
      if (base <=? previous) && (previous <? base + 99) then Ok (previous + 1)
      else if (base + 99 <=? previous) && (previous <? base + 100)
           then Err (errors_New "the DNS serial date counter is exhausted for today")
      else if base <? previous then Ok (previous + 1)
      else Ok base
    else if now <=? previous then Ok (previous + 1) else Ok now in
  return_if (serial <? 1) || (4294967295 <? serial)
    with errors_New "the next DNS serial exceeds the RFC 1982 32-bit range" ;;
  Ok serial.

Definition zone_format (zone : ZoneRow) (revision : DNSTemplateRevision) : string :=
  match zr_SOAOverride zone with
  | Some soa => soa_SerialFormat soa
  | None => soa_SerialFormat (tpl_SOA revision)
  end.

(** [markCustomized] is absent in the calls of the editor, which means true. *)
Definition enqueueDNSZoneTx (now zoneID : Z) (markCustomized : option bool) : tx DNSStore unit :=
  let! zone := tx_query (zone_by_id zoneID) in
  let! revision := tx_query (λ db, query_row (rows_where (λ t, tpl_Revision t =? zr_TemplateRevision zone) (db_Revisions db))) in
  let! serial := tx_lift (nextProvisionDNSSerial now (zr_Serial zone) (zone_format zone revision)) in
  let desiredRevision := zr_DesiredRevision zone + 1 in
  let customized := default true markCustomized in
  let! _ := update_zones (λ z, zr_ID z =? zoneID)
      (λ z, z <| zr_Serial := serial |> <| zr_DesiredRevision := desiredRevision |> <| zr_Status := "pending" |>
              <| zr_TemplateStatus := if customized then "customized" else zr_TemplateStatus z |>
              <| zr_LastError := "" |>) in
  insert_job (ConfigureDNSZoneArgs zoneID desiredRevision false).

(** A record of a site that lives in its parent's zone. *)
Definition host_of_site (siteDomain domain : string) (record : DNSRecord) : result DNSRecord :=
  if String.eqb siteDomain domain then Ok record
  else
    let label := trim_suffix siteDomain ("." +:+ domain) in
    return_if String.eqb label siteDomain || String.eqb label ""
      with errors_New "site is not inside its selected parent DNS zone" ;;
    Ok (record <| rec_Host := if String.eqb (rec_Host record) "@" then label
                              else rec_Host record +:+ "." +:+ label |>).

(** The rows a site may edit: its own, or all of its zone. *)
Definition editable (zone : ZoneRow) (siteID recordID : Z) (r : DNSRecord) : bool :=
  (rec_ID r =? recordID) && (rec_ZoneID r =? zr_ID zone) && negb (String.eqb (rec_Origin r) "system")
  && ((rec_OwnerSiteID r =? siteID) || (siteID =? zr_SiteID zone)).

Definition edited_row (wanted r : DNSRecord) : DNSRecord :=
  (store_rdata wanted r)
    <| rec_LocallyModified := if String.eqb (rec_Origin r) "template" then true else rec_LocallyModified r |>.

Definition custom_row (zoneID siteID : Z) (record : DNSRecord) : DNSRecord :=
  (store_rdata record zero_DNSRecord)
    <| rec_ZoneID := zoneID |> <| rec_OwnerSiteID := siteID |> <| rec_Origin := "custom" |>.

Definition UpsertDNSRecord (configured : bool) (now siteID : Z) (record : DNSRecord) : tx DNSStore unit :=
  fail_if negb configured with errors_New "DNS record repository is not configured" ;;
  let! serving := tx_query (serving_zone siteID) in
  let zone := snd serving in
  let! record := tx_lift (normalizeDNSRecord (zr_Domain zone) record) in
  let! record := tx_lift (host_of_site (st_Domain (fst serving)) (zr_Domain zone) record) in
  let! _ := tx_query (ensureDNSRecordCompatibility (zr_ID zone) record) in
  let! _ := (if 0 <? rec_ID record then
      let! affected := update_records (editable zone siteID (rec_ID record)) (edited_row record) in
      fail_if affected =? 0 with ErrNoRows ;; tx_ret ()
    else insert_record (custom_row (zr_ID zone) siteID record)) in
  let! _ := EnqueueMailDNSRecheckTx [zr_ID zone] in
  enqueueDNSZoneTx now (zr_ID zone) None.

(** [dns_template_deletions] remembers the template records a person removed. *)
Definition preserve_deletion (zone : ZoneRow) (siteID recordID : Z) : tx DNSStore unit :=
  tx_write (λ db,
    let deleted := rows_where (λ r, (rec_ID r =? recordID) && (rec_ZoneID r =? zr_ID zone)
        && String.eqb (rec_Origin r) "template" && negb (String.eqb (rec_TemplateRecordKey r) "")
        && ((rec_OwnerSiteID r =? siteID) || (siteID =? zr_SiteID zone))) (db_Records db) in
    db <| db_Deletions := foldl (λ rows r,
        let row := (zr_ID zone, if rec_OwnerSiteID r =? 0 then zr_SiteID zone else rec_OwnerSiteID r, rec_TemplateRecordKey r) in
        if bool_decide (row ∈ rows) then rows else rows ++ [row]) (db_Deletions db) deleted |>).

Definition DeleteDNSRecord (configured : bool) (now siteID recordID : Z) : tx DNSStore unit :=
  fail_if negb configured with errors_New "DNS record repository is not configured" ;;
  let! serving := tx_query (serving_zone siteID) in
  let zone := snd serving in
  let! _ := preserve_deletion zone siteID recordID in
  let! affected := delete_records (editable zone siteID recordID) in
  fail_if affected =? 0 with ErrNoRows ;;
  let! _ := EnqueueMailDNSRecheckTx [zr_ID zone] in
  enqueueDNSZoneTx now (zr_ID zone) None.

End Editor.
