(* ===== verification/DNSProvision.v ===== *)
(** * New zones and automatic records

    What [internal/control/provision] does for a site's DNS without being asked
    record by record: the zone of a site and its first records ([ConfigureDNS],
    [instantiateDNSTemplateTx] and [ensureSystemDNSRecordsTx] of
    phase6_repository.go), the convergence of service records
    (dns_service_convergence.go, dns_services.go), and the address of a new
    subdomain in its parent's zone (subdomain_dns.go). *)

From S2P Require Import Prelude Tx Tables GoStr Net Site DNSTypes DNSRecord DNSPlan DNSTables DNSZoneStore DNSEdit.

Section Provision.
Context `{GoUnicode} `{GoMapOrder}.

(** ** Service records *)

(** The columns [loadDNSRecordsTx] selects. *)
Definition selected_record (r : DNSRecord) : DNSRecord :=
  r <| rec_ZoneID := 0 |> <| rec_Weight := 0 |> <| rec_Port := 0 |> <| rec_TemplateRevision := 0 |>
    <| rec_LocallyModified := false |>.

Definition loadDNSRecordsTx (zoneID : Z) (db : DNSStore) : list DNSRecord :=
  selected_record <$> merge_sort record_id_le (zone_records zoneID db).

(** The row of a service record; a key that is empty is NULL. *)
Definition service_row (zoneID siteID : Z) (r : DNSRecord) : DNSRecord :=
  zero_DNSRecord <| rec_ZoneID := zoneID |> <| rec_OwnerSiteID := siteID |> <| rec_Host := rec_Host r |>
    <| rec_Type := rec_Type r |> <| rec_Value := rec_Value r |>
    <| rec_Priority := stored_number (nullablePriority (rec_Type r) (rec_Priority r)) |> <| rec_TTL := rec_TTL r |>
    <| rec_Origin := "system" |> <| rec_TemplateRecordKey := rec_TemplateRecordKey r |>.

Definition insertServiceDNSRecordsTx (zoneID siteID : Z) (add : list DNSRecord) (remove : list Z) : tx DNSStore unit :=
  let! _ := tx_each (λ id,
      let! _ := delete_records (λ r, (rec_ID r =? id) && (rec_ZoneID r =? zoneID) && String.eqb (rec_Origin r) "system") in
      tx_ret ()) remove in
  tx_each (λ r, insert_record_or_nothing (service_row zoneID siteID r)) add.

Definition deletion_kept (db : DNSStore) (zoneID siteID : Z) (key : string) : bool :=
  existsb (λ '(zone, site, k), (zone =? zoneID) && (site =? siteID) && String.eqb k key) (db_Deletions db).

(** The backward loops that drop what was deleted by hand. *)
Definition unsuppressed (db : DNSStore) (zoneID siteID : Z) (base : string → string) (desired : list DNSRecord)
    : list DNSRecord :=
  filter (λ r, deletion_kept db zoneID siteID (base (rec_Host r) +:+ "-a") = false) desired.

Definition owned_endpoint (siteID : Z) (r : DNSRecord) : bool :=
  ((rec_OwnerSiteID r =? siteID) || (rec_OwnerSiteID r =? 0)) && IsEndpointDNSRecord r.

Definition system_ns_row (zoneID ownerSiteID : Z) (domain : string) : DNSRecord :=
  zero_DNSRecord <| rec_ZoneID := zoneID |> <| rec_OwnerSiteID := ownerSiteID |> <| rec_Host := "@" |>
    <| rec_Type := "NS" |> <| rec_Value := "ns1." +:+ domain |> <| rec_TTL := 3600 |> <| rec_Origin := "system" |>.

Definition ensureSystemDNSRecordsTx (zoneID ownerSiteID : Z) (domain address : string) : tx DNSStore unit :=
  let! db := tx_read (λ db, db) in
  let! _ := (if existsb (λ r, (rec_ZoneID r =? zoneID) && String.eqb (rec_Type r) "NS") (db_Records db)
                || deletion_kept db zoneID ownerSiteID "primary-ns"
             then tx_ret () else insert_record_or_nothing (system_ns_row zoneID ownerSiteID domain)) in
  let! db := tx_read (λ db, db) in
  let records := loadDNSRecordsTx zoneID db in
  let services := LoadDNSServiceFlags ownerSiteID db in
  let desired := unsuppressed db zoneID ownerSiteID (λ host, host)
      (DNSServiceDefaults domain address "" records (svc_FTPS services) (svc_Webmail services)) in
  let '(add, remove, _) := PlanServiceDNSRecords records desired (owned_endpoint ownerSiteID) in
  insertServiceDNSRecordsTx zoneID ownerSiteID add remove.

(** ** The template, record by record *)

Definition template_id_le (a b : DNSTemplateRecord) : Prop := trec_ID a ≤ trec_ID b.
#[export] Instance template_id_le_dec : RelDecision template_id_le := λ a b, decide (trec_ID a ≤ trec_ID b).

(** The records of the revision that were not deleted by hand, by their numbers. *)
Definition wanted_template_records (db : DNSStore) (zoneID ownerSiteID templateID : Z) : list DNSTemplateRecord :=
  filter (λ t, deletion_kept db zoneID ownerSiteID (trec_StableKey t) = false)
    (merge_sort template_id_le (mjoin (tpl_Records <$> rows_where (λ t, tpl_ID t =? templateID) (db_Revisions db)))).

(** [COALESCE(NULLIF(hostname,''),domain)]. *)
Definition server_hostname (db : DNSStore) (domain : string) : string :=
  match db_Hostname db with
  | Some hostname => if String.eqb hostname "" then domain else hostname
  | None => domain
  end.

Definition out_of_scope (scope subdomain : string) : bool :=
  String.eqb scope "root" && negb (String.eqb subdomain "") || String.eqb scope "subdomain" && String.eqb subdomain "".

(** A host of the template beneath a subdomain. *)
Definition beneath (subdomain host : string) : string :=
  if String.eqb subdomain "" then host
  else if String.eqb host "@" then subdomain
  else if negb (String.eqb host subdomain) && negb (has_suffix host ("." +:+ subdomain)) then host +:+ "." +:+ subdomain
  else host.

(** Placeholders are replaced as in the template component: the same map, the same
    two patterns. *)
Definition instantiated_record (values : expansionContext) (t : DNSTemplateRecord) : DNSRecord :=
  zero_DNSRecord <| rec_Host := beneath (ctx_subdomain values) (expandPlaceholders (trec_HostTemplate t) values) |>
    <| rec_Type := trec_Type t |> <| rec_Value := expandPlaceholders (trec_ValueTemplate t) values |>
    <| rec_Priority := trec_Priority t |> <| rec_Weight := trec_Weight t |> <| rec_Port := trec_Port t |>
    <| rec_TTL := trec_TTL t |>.

Definition template_row (zoneID ownerSiteID templateRevision : Z) (key : string) (record : DNSRecord) : DNSRecord :=
  (store_rdata record zero_DNSRecord) <| rec_ZoneID := zoneID |> <| rec_OwnerSiteID := ownerSiteID |>
    <| rec_Origin := "template" |> <| rec_TemplateRecordKey := key |> <| rec_TemplateRevision := templateRevision |>.

Definition expand_failed (key : string) (e : error) : error := wrapf ("expand DNS template record " +:+ key +:+ ": ") e.

Definition instantiate_record (zoneID ownerSiteID templateRevision : Z) (values : expansionContext)
    (t : DNSTemplateRecord) : tx DNSStore unit :=
  if out_of_scope (trec_Scope t) (ctx_subdomain values) then tx_ret ()
  else if contains (trec_ValueTemplate t) "<ipv6." && String.eqb (ctx_ipv6 values) "" then tx_ret ()
  else
    let key := trec_StableKey t in
    match normalizeDNSRecord (ctx_domain values) (instantiated_record values t) with
    | Err e => tx_fail (expand_failed key e)
    | Ok record =>
      let! db := tx_read (λ db, db) in
      match ensureDNSRecordCompatibility zoneID record db with
      | Err e => tx_fail (expand_failed key e)
      | Ok _ => insert_record_or_nothing (template_row zoneID ownerSiteID templateRevision key record)
      end
    end.

Definition instantiateDNSTemplateTx (zoneID ownerSiteID templateID templateRevision : Z)
    (domain subdomain address ipv6 : string) : tx DNSStore unit :=
  let! db := tx_read (λ db, db) in
  tx_each (instantiate_record zoneID ownerSiteID templateRevision
             (mkExpansionContext domain subdomain (server_hostname db domain) address ipv6))
    (wanted_template_records db zoneID ownerSiteID templateID).

(** ** The zone of a site *)

Definition selectActiveSiteByDomainForUpdate (domain : string) (db : DNSStore) : result DNSSite :=
  match rows_where (λ s, String.eqb (st_Domain s) domain && String.eqb (st_Status s) "active") (db_Sites db) with
  | [] => Err (errors_New ("active site " +:+ quote domain +:+ " was not found"))
  | site :: _ => Ok site
  end.

Definition active_revision (db : DNSStore) : result DNSTemplateRevision :=
  query_row (rows_where (λ t, tpl_ID t =? db_ActiveRevisionID db) (db_Revisions db)).

(** [INSERT INTO dns_zones ... ON CONFLICT (domain) DO UPDATE ... RETURNING id]; the
    sequence advances either way. *)
Definition upsert_zone (serial ownerID siteID : Z) (domain address mode : string) (templateRevision : Z) : tx DNSStore Z :=
  let! zones := tx_read db_Zones in
  let! id := tx_read db_ZoneSeq in
  match rows_where (λ z, String.eqb (zr_Domain z) domain) zones with
  | z :: _ =>
    let! _ := update_zones (λ y, zr_ID y =? zr_ID z)
        (λ y, y <| zr_Address := address |> <| zr_Serial := serial |> <| zr_Status := "pending" |>
                <| zr_DesiredRevision := zr_DesiredRevision y + 1 |> <| zr_LastError := "" |>) in
    let! _ := tx_write (λ db, db <| db_ZoneSeq := id + 1 |>) in
    tx_ret (zr_ID z)
  | [] =>
    let row := mkZoneRow id ownerID siteID 0 domain address "" serial "pending" mode [] None None templateRevision
                 "pending" 1 0 "" "" in
    let! _ := tx_write (λ db, (db <| db_Zones := db_Zones db ++ [row] |>) <| db_ZoneSeq := id + 1 |>) in
    tx_ret id
  end.

(** The parent's zone, for a site that lives in it: the zone's row and the site's
    label. A site whose parent has no zone gets its own. *)
Definition parent_zone (site : DNSSite) : tx DNSStore (option (ZoneRow * string)) :=
  if String.eqb (st_DNSZoneMode site) "parent" && negb (st_ParentSiteID site =? 0) then
    let! db := tx_read (λ db, db) in
    match rows_where (λ z, (zr_SiteID z =? st_ParentSiteID site)
            && existsb (λ parent, st_ID parent =? st_ParentSiteID site) (db_Sites db)) (db_Zones db) with
    | zone :: _ => tx_ret (Some (zone, trim_suffix (st_Domain site) ("." +:+ zr_Domain zone)))
    | [] =>
      let! _ := update_sites (λ s, st_ID s =? st_ID site) (λ s, s <| st_DNSZoneMode := "separate" |>) in
      tx_ret None
    end
  else tx_ret None.

Definition own_zone (now ownerID : Z) (site : DNSSite) (address : string) : tx DNSStore Z :=
  let! template := tx_query active_revision in
  let mode := if String.eqb (tpl_ZoneStatus template) "disabled" then "disabled" else "primary" in
  let! id := upsert_zone now ownerID (st_ID site) (st_Domain site) address mode (tpl_Revision template) in
  let! _ := instantiateDNSTemplateTx id (st_ID site) (tpl_ID template) (tpl_Revision template) (st_Domain site) "" address "" in
  let! _ := ensureSystemDNSRecordsTx id (st_ID site) (st_Domain site) address in
  tx_ret id.

Definition in_parent_zone (site : DNSSite) (address : string) (zone : ZoneRow) (subdomain : string) : tx DNSStore Z :=
  let! template := tx_query active_revision in
  let! _ := instantiateDNSTemplateTx (zr_ID zone) (st_ID site) (tpl_ID template) (tpl_Revision template) (zr_Domain zone)
              subdomain address "" in
  let! _ := (if String.eqb subdomain "" then ensureSystemDNSRecordsTx (zr_ID zone) (st_ID site) (zr_Domain zone) address
             else tx_ret ()) in
  tx_ret (zr_ID zone).

Definition not_ipv4 (address : string) : bool :=
  match parse_ip address with
  | Some ip => negb (bool_decide (is_Some (to4 ip)))
  | None => true
  end.

Definition ConfigureDNS (database river : bool) (now ownerID : Z) (domain address : string) : tx DNSStore Z :=
  fail_if not_ipv4 address with errors_New ("invalid dns address " +:+ quote address) ;;
  fail_if negb database with errors_New "database is not configured" ;;
  fail_if negb river with errors_New "river client is not configured" ;;
  let! site := tx_query (selectActiveSiteByDomainForUpdate domain) in
  let! parent := parent_zone site in
  let! id := (match parent with
              | None => own_zone now ownerID site address
              | Some placed => in_parent_zone site address (fst placed) (snd placed)
              end) in
  let! _ := update_sites (λ s, st_ID s =? st_ID site) (λ s, s <| st_AdoptionCompleted := true |>) in
  let! _ := enqueueDNSZoneTx now id (Some false) in
  tx_ret id.

(** ** Service records, converged *)

(** A site that is not being removed, and the zone that serves it. *)
Definition served_site (siteID : Z) (db : DNSStore) : option (DNSSite * ZoneRow) :=
  match serving_zone siteID db with
  | Ok (site, zone) => if String.eqb (st_RemovalState site) "none" then Some (site, zone) else None
  | Err _ => None
  end.

Definition reconcile_plan (siteID : Z) (zone : ZoneRow) (prefix : string) (db : DNSStore) : list DNSRecord * list Z :=
  let current := loadDNSRecordsTx (zr_ID zone) db in
  let services := LoadDNSServiceFlags siteID db in
  let desired := unsuppressed db (zr_ID zone) siteID (λ host, trim_suffix host ("." +:+ prefix))
      (DNSServiceDefaults (zr_Domain zone) (zr_Address zone) prefix current (svc_FTPS services) (svc_Webmail services)) in
  fst (PlanServiceDNSRecords current desired (owned_endpoint siteID)).

Definition ReconcileSiteDNS (river : bool) (now siteID : Z) : tx DNSStore unit :=
  fail_if negb river with errors_New "DNS service queue is not configured" ;;
  let! served := tx_read (served_site siteID) in
  match served with
  | None => tx_ret ()
  | Some served =>
    let site := fst served in
    let zone := snd served in
    if negb (String.eqb (zr_Mode zone) "primary") then tx_ret ()
    else
      let prefix := if String.eqb (st_Domain site) (zr_Domain zone) then ""
                    else trim_suffix (st_Domain site) ("." +:+ zr_Domain zone) in
      fail_if negb (String.eqb (st_Domain site) (zr_Domain zone)) && String.eqb prefix (st_Domain site)
        with errors_New "service domain is outside its DNS zone" ;;
      let! plan := tx_read (reconcile_plan siteID zone prefix) in
      if Z.of_nat (length (fst plan)) + Z.of_nat (length (snd plan)) =? 0 then tx_ret ()
      else
        let! _ := insertServiceDNSRecordsTx (zr_ID zone) siteID (fst plan) (snd plan) in
        enqueueDNSZoneTx now (zr_ID zone) (Some false)
  end.

Definition site_id_le (a b : Z) : Prop := a ≤ b.
#[export] Instance site_id_le_dec : RelDecision site_id_le := λ a b, decide (a ≤ b).

Definition subscription_sites (subscriptionID : Z) (db : DNSStore) : list Z :=
  merge_sort site_id_le (st_ID <$> rows_where
    (λ s, (st_SubscriptionID s =? subscriptionID) && String.eqb (st_RemovalState s) "none") (db_Sites db)).

(** One transaction per site; the first that fails ends the loop. *)
Fixpoint reconcile_sites (river : bool) (now : Z) (ids : list Z) (db : DNSStore) : result unit * DNSStore :=
  match ids with
  | [] => (Ok (), db)
  | id :: rest =>
    match run_tx (ReconcileSiteDNS river now id) db with
    | (Ok _, db) => reconcile_sites river now rest db
    | (Err e, db) => (Err e, db)
    end
  end.

Definition ReconcileSubscriptionDNS (river : bool) (now subscriptionID : Z) (db : DNSStore) : result unit * DNSStore :=
  reconcile_sites river now (subscription_sites subscriptionID db) db.

(** ** The address of a subdomain *)

Definition not_ipv6 (address : string) : bool :=
  match parse_ip address with
  | Some ip => bool_decide (is_Some (to4 ip))
  | None => true
  end.

Definition address_record (label type value : string) : DNSRecord :=
  zero_DNSRecord <| rec_Host := label |> <| rec_Type := type |> <| rec_Value := value |> <| rec_TTL := 3600 |>.

(** Whether the wanted record is there already; another answer is a conflict. *)
Fixpoint find_answer (label : string) (desired : DNSRecord) (found : bool) (existing : list DNSRecord) : result bool :=
  match existing with
  | [] => Ok found
  | record :: rest =>
    if negb (String.eqb (rec_Host record) label) then find_answer label desired found rest
    else
      return_if String.eqb (rec_Type record) "CNAME"
        with errors_New ("DNS conflict: " +:+ label +:+ " already has a CNAME record") ;;
      if String.eqb (rec_Type record) (rec_Type desired) then
        return_if negb (equal_fold (rec_Value record) (rec_Value desired))
          with errors_New ("DNS conflict: " +:+ label +:+ " already has a different " +:+ rec_Type desired +:+ " record") ;;
        find_answer label desired true rest
      else find_answer label desired found rest
  end.

Fixpoint missing_records (label : string) (existing wanted : list DNSRecord) : result (list DNSRecord) :=
  match wanted with
  | [] => Ok []
  | desired :: rest =>
    let* found := find_answer label desired false existing in
    let* others := missing_records label existing rest in
    Ok (if (found : bool) then others else desired :: others)
  end.

Definition missingSubdomainAddressRecords (existing : list DNSRecord) (label address ipv6 : string)
    : result (list DNSRecord) :=
  return_if not_ipv4 address with errors_New "the parent DNS zone has no valid server IPv4 address" ;;
  return_if negb (String.eqb ipv6 "") && not_ipv6 ipv6
    with errors_New "the parent DNS zone has no valid server IPv6 address" ;;
  let wanted := address_record label "A" address ::
                (if String.eqb ipv6 "" then [] else [address_record label "AAAA" ipv6]) in
  let* missing := missing_records label existing wanted in
  return_if String.eqb ipv6 "" && existsb (λ r, String.eqb (rec_Host r) label && String.eqb (rec_Type r) "AAAA") existing
    with errors_New ("DNS conflict: " +:+ label +:+ " has an IPv6 address but this server does not") ;;
  Ok missing.

(** The columns and rows of the zone at the label. *)
Definition label_records (zoneID : Z) (label : string) (db : DNSStore) : list DNSRecord :=
  (λ r, zero_DNSRecord <| rec_Host := rec_Host r |> <| rec_Type := rec_Type r |> <| rec_Value := rec_Value r |>) <$>
  rows_where (λ r, (rec_ZoneID r =? zoneID) && String.eqb (rec_Host r) label
                   && one_of (rec_Type r) ["A"; "AAAA"; "CNAME"]) (db_Records db).

Definition system_address_row (zoneID siteID : Z) (r : DNSRecord) : DNSRecord :=
  zero_DNSRecord <| rec_ZoneID := zoneID |> <| rec_OwnerSiteID := siteID |> <| rec_Host := rec_Host r |>
    <| rec_Type := rec_Type r |> <| rec_Value := rec_Value r |> <| rec_TTL := rec_TTL r |> <| rec_Origin := "system" |>.

(** [COALESCE(zone.soa_override->>'serial_format',revision.serial_format,'unix')]. *)
Definition serial_format (zone : ZoneRow) (db : DNSStore) : string :=
  match zr_SOAOverride zone, rows_where (λ t, tpl_Revision t =? zr_TemplateRevision zone) (db_Revisions db) with
  | Some soa, _ => soa_SerialFormat soa
  | None, revision :: _ => soa_SerialFormat (tpl_SOA revision)
  | None, [] => "unix"
  end.

Definition configure_address (now siteID : Z) (site : DNSSite) (zone : ZoneRow) : tx DNSStore unit :=
  let label := trim_suffix (st_Domain site) ("." +:+ zr_Domain zone) in
  fail_if String.eqb label (st_Domain site) || String.eqb label "" || contains label "."
    with errors_New "subdomain does not belong to its parent DNS zone" ;;
  let! existing := tx_read (label_records (zr_ID zone) label) in
  let! missing := tx_lift (missingSubdomainAddressRecords existing label (zr_Address zone) (zr_IPv6Address zone)) in
  match missing with
  | [] => tx_ret ()
  | _ =>
    let! _ := tx_each (λ r, insert_record_or_nothing (system_address_row (zr_ID zone) siteID r)) missing in
    let! format := tx_read (serial_format zone) in
    let! serial := tx_lift (nextProvisionDNSSerial now (zr_Serial zone) format) in
    let desiredRevision := zr_DesiredRevision zone + 1 in
    let! _ := update_zones (λ z, zr_ID z =? zr_ID zone)
        (λ z, z <| zr_Serial := serial |> <| zr_DesiredRevision := desiredRevision |> <| zr_Status := "pending" |>
                <| zr_LastError := "" |>) in
    insert_job (ConfigureDNSZoneArgs (zr_ID zone) desiredRevision false)
  end.

Definition AutoConfigureSubdomainDNS (configured : bool) (now siteID : Z) : tx DNSStore unit :=
  fail_if negb configured with errors_New "subdomain DNS repository is not configured" ;;
  let! sites := tx_read db_Sites in
  match rows_where (λ s, (st_ID s =? siteID) && String.eqb (st_Status s) "active") sites with
  | [] => tx_fail (wrapf "load active subdomain: " ErrNoRows)
  | site :: _ =>
    if (st_ParentSiteID site =? 0) || negb (String.eqb (st_DNSZoneMode site) "parent") then tx_ret ()
    else
      let! zones := tx_read db_Zones in
      match rows_where (λ z, zr_SiteID z =? st_ParentSiteID site) zones with
      | [] => tx_ret ()
      | zone :: _ =>
        if negb (String.eqb (zr_Mode zone) "primary") then tx_ret () else configure_address now siteID site zone
      end
  end.

End Provision.
