(* ===== verification/DNSEditProps.v ===== *)
(** * Properties of the record editor

    The editor's validation against the template's ([DNSRecord]): for every type
    but CAA and DS they accept the same records with the same result; CAA records
    are refused whatever they hold. *)

From S2P Require Import Prelude Tx Tables GoStr Regex Net Site DNSTypes DNSRecord DNSPlan DNSTables DNSEdit.
From Stdlib Require Import Ascii.

Section EditorLemmas.
Context `{GoUnicode}.

Lemma control_label_valid label : control_label label = valid_label label.
Proof. unfold control_label, valid_label. by rewrite <- !orb_assoc, !negb_orb, !andb_assoc. Qed.

Lemma validControlDNSOwnerLabels_eq host : validControlDNSOwnerLabels host = validDNSOwnerLabels host.
Proof.
  unfold validControlDNSOwnerLabels, validDNSOwnerLabels. destruct (String.eqb host "@"); [done|].
  induction (split_on "." host) as [|l ls IH]; [done|]. simpl. by rewrite IH, control_label_valid.
Qed.

Lemma control_host_valid host :
  host_valid host = true ↔
  host_blank host = false ∧ (253 <? str_len host) || negb (re_match controlDNSOwnerRE host)
    || negb (validControlDNSOwnerLabels host) = false.
Proof.
  unfold host_valid, host_blank. rewrite validControlDNSOwnerLabels_eq.
  change controlDNSOwnerRE with dnsOwnerRE.
  rewrite !andb_true_iff, !orb_false_iff, !negb_true_iff, !negb_false_iff, Z.leb_le, Z.ltb_ge. tauto.
Qed.

Lemma normalizeDNSRecord_Ok domain r r' :
  normalizeDNSRecord domain r = Ok r' ↔
  record_guards domain (trim_record r) ∧ control_by_type (trim_record r) = Ok r'.
Proof.
  assert (trim_record r = (if rec_TTL (control_trim r) =? 0 then (control_trim r) <| rec_TTL := 3600 |>
                           else control_trim r)) as Et by reflexivity.
  assert (rec_Host (control_trim r) = rec_Host (trim_record r) ∧ rec_Value (control_trim r) = rec_Value (trim_record r))
    as [Eh Ev] by (rewrite Et; destruct (rec_TTL (control_trim r) =? 0); done).
  unfold normalizeDNSRecord, record_guards. cbv zeta. rewrite <- Et, Eh, Ev. set (t := trim_record r).
  run_iff. rewrite (control_host_valid (rec_Host t)), (orb_false_iff (host_blank _)), orb_false_iff, !Z.ltb_ge.
  rewrite name_guard_Ok. tauto.
Qed.

(** ** The cases of the type switch *)

Lemma is_ok_unit (r : result unit) : is_ok r = true ↔ r = Ok ().
Proof. destruct r as [[]|]; simpl; naive_solver. Qed.

Lemma control_address_eq v4 t r : control_address v4 t = Ok r ↔ normalize_address v4 t = Ok r.
Proof.
  unfold control_address, normalize_address. destruct (parse_ip (rec_Value t)) as [ip|]; run_iff.
  - rewrite !negb_false_iff, bool_decide_eq_true, eqb_true_iff. naive_solver.
  - rewrite negb_false_iff, bool_decide_eq_true. naive_solver.
Qed.

Lemma control_target_Ok message t r :
  control_target message t = Ok r ↔
  validateTarget (rec_Value t) = Ok () ∧ r = t <| rec_Value := canonicalTarget (rec_Value t) |>.
Proof.
  unfold control_target. rewrite fail_when_Ok, negb_false_iff, is_ok_unit, validateTarget_Ok. naive_solver.
Qed.

Lemma control_cname_eq t r : control_cname t = Ok r ↔ normalize_cname t = Ok r.
Proof.
  unfold control_cname, normalize_cname. rewrite !fail_when_Ok, result_seq_Ok, result_wrap_Ok, result_bind_Ok.
  setoid_rewrite control_target_Ok. naive_solver.
Qed.

Lemma port_range_ltb z : port_range z = true ↔ (z <? 0) || (65535 <? z) = false.
Proof. rewrite port_range_spec, orb_false_iff, !Z.ltb_ge. tauto. Qed.

Lemma control_mx_eq t r : rec_Type t = "MX" → control_mx t = Ok r ↔ normalize_mx_ns t = Ok r.
Proof.
  intros Ht. unfold control_mx, normalize_mx_ns. rewrite result_seq_Ok, result_wrap_Ok, result_bind_Ok.
  setoid_rewrite control_target_Ok. setoid_rewrite fail_when_Ok.
  cbn -[canonicalTarget validateTarget port_range Z.ltb]. rewrite Ht. cbn -[canonicalTarget validateTarget port_range Z.ltb].
  rewrite fail_when_Ok, negb_false_iff, port_range_ltb. split.
  - intros (a & [Hv ->] & Hp & E). done.
  - intros (Hv & Hp & E). eexists. split; [split; [done|reflexivity]|]. done.
Qed.

Lemma control_ns_eq t r : rec_Type t = "NS" → control_ns t = Ok r ↔ normalize_mx_ns t = Ok r.
Proof.
  intros Ht. unfold control_ns, normalize_mx_ns. rewrite result_seq_Ok, result_wrap_Ok, result_bind_Ok.
  setoid_rewrite control_target_Ok. cbn -[canonicalTarget validateTarget]. rewrite Ht.
  cbn -[canonicalTarget validateTarget]. split.
  - intros (a & [Hv ->] & E). done.
  - intros (Hv & E). eexists. split; [split; [done|reflexivity]|]. done.
Qed.

Lemma control_srv_eq t r : control_srv t = Ok r ↔ normalize_srv t = Ok r.
Proof.
  unfold control_srv, normalize_srv. run_iff. rewrite result_bind_Ok, result_wrap_Ok.
  setoid_rewrite control_target_Ok. setoid_rewrite fail_when_Ok.
  change (validControlSRVOwner (rec_Host t)) with (validSRVOwner (rec_Host t)).
  rewrite !orb_false_iff, !negb_false_iff, !port_range_ltb, !orb_false_iff. split.
  - intros (Ho & a & [Hv ->] & Hp & E). cbn -[canonicalTarget Z.ltb] in Hp, E. rewrite !orb_false_iff in Hp. tauto.
  - intros (Ho & Hp & Hv & E). split; [done|]. eexists. split; [split; [done|reflexivity]|].
    cbn -[canonicalTarget Z.ltb]. rewrite !orb_false_iff. tauto.
Qed.

Lemma control_by_type_eq t r :
  rec_Type t ≠ "CAA" → rec_Type t ≠ "DS" → control_by_type t = Ok r ↔ normalize_by_type t = Ok r.
Proof.
  intros Hcaa%String.eqb_neq Hds%String.eqb_neq. unfold control_by_type, normalize_by_type.
  rewrite Hcaa, Hds.
  destruct (String.eqb (rec_Type t) "A"); [apply control_address_eq|].
  destruct (String.eqb (rec_Type t) "AAAA"); [apply control_address_eq|].
  destruct (String.eqb (rec_Type t) "CNAME"); [apply control_cname_eq|].
  destruct (String.eqb (rec_Type t) "MX") eqn:Emx; [apply String.eqb_eq in Emx; by apply control_mx_eq|].
  destruct (String.eqb (rec_Type t) "NS") eqn:Ens; [apply String.eqb_eq in Ens; by apply control_ns_eq|].
  cbn [orb]. destruct (String.eqb (rec_Type t) "SRV") eqn:Es; [|by destruct (String.eqb (rec_Type t) "TXT")].
  apply String.eqb_eq in Es. rewrite Es. cbn -[control_srv normalize_srv]. apply control_srv_eq.
Qed.

Lemma trim_record_type r : rec_Type (trim_record r) = to_upper (trim_space (rec_Type r)).
Proof.
  unfold trim_record. cbn -[to_lower to_upper trim_space].
  destruct (String.eqb (to_lower _) ""); cbn -[to_lower to_upper trim_space]; by destruct (rec_TTL r =? 0).
Qed.

Lemma submatch_length_not_groups groups r value : 0 < groups → (submatch_length groups r value =? groups) = false.
Proof. intros Hg. unfold submatch_length. apply Z.eqb_neq. destruct (re_match r value); lia. Qed.

(** The type of a record as the editor reads it. *)
Definition editor_type (r : DNSRecord) : string := to_upper (trim_space (rec_Type r)).

(** * Properties *)

(** The editor and the template validate records alike: but for CAA and DS, a
    record is accepted by [normalizeDNSRecord] exactly when [normalizeRecord]
    accepts it, and both leave the same normal form. *)
Theorem editor_agrees_with_template (domain : string) (r r' : DNSRecord) :
  editor_type r ≠ "CAA" → editor_type r ≠ "DS" →
  normalizeDNSRecord domain r = Ok r' ↔ normalizeRecord domain r = Ok r'.
Proof.
  unfold editor_type. intros Hcaa Hds. rewrite normalizeDNSRecord_Ok, normalizeRecord_Ok, control_by_type_eq; [done|..];
    by rewrite trim_record_type.
Qed.

(** The editor refuses every CAA record: its pattern has two groups, so a
    match has three submatches, and the code asks for two. *)
Theorem caa_always_refused (domain : string) (r : DNSRecord) :
  editor_type r = "CAA" → is_ok (normalizeDNSRecord domain r) = false.
Proof.
  unfold editor_type. intros Ht. destruct (normalizeDNSRecord domain r) as [r'|] eqn:E; [|done]. exfalso.
  apply normalizeDNSRecord_Ok in E as [_ E]. unfold control_by_type in E.
  rewrite trim_record_type, Ht in E. change (control_caa (trim_record r) = Ok r') in E. unfold control_caa in E.
  rewrite submatch_length_not_groups in E by lia. discriminate E.
Qed.

End EditorLemmas.

(** * Witnesses *)

Module EditSamples.

Definition record (type value : string) : DNSRecord :=
  zero_DNSRecord <| rec_Host := "@" |> <| rec_Type := type |> <| rec_Value := value |> <| rec_TTL := 300 |>.

Definition mail : DNSRecord := (record " mx " "Mail.Example.com.") <| rec_Priority := 10 |>.
Definition mail_normal : DNSRecord := (record "MX" "mail.example.com") <| rec_Priority := 10 |>.

Definition caa : DNSRecord := record "CAA" ("0 issue " +:+ dquote +:+ "letsencrypt.org" +:+ dquote).

End EditSamples.

Lemma editor_agrees_with_template_witness :
  @normalizeDNSRecord ascii_only "example.com" EditSamples.mail = Ok EditSamples.mail_normal.
Proof.
  apply (@editor_agrees_with_template ascii_only "example.com" EditSamples.mail EditSamples.mail_normal);
    [vm_compute; discriminate..|vm_compute; reflexivity].
Defined.

(** The refused record is one the template accepts. *)
Lemma caa_always_refused_witness :
  is_ok (@normalizeDNSRecord ascii_only "example.com" EditSamples.caa) = false ∧
  @normalizeRecord ascii_only "example.com" EditSamples.caa = Ok EditSamples.caa.
Proof.
  split; [|vm_compute; reflexivity]. apply (@caa_always_refused ascii_only "example.com" EditSamples.caa).
  vm_compute. reflexivity.
Defined.
