(* ===== verification/DNSStoreFacts.v ===== *)
(** * What the shared statements do

    Lemmas on the rows of [DNSTables], and the relation [Frame]: the zones whose
    records a transaction may change. Both are what the theorems about the
    handlers are built from. *)

From S2P Require Import Prelude Tx Tables GoStr Site DNSTypes DNSRecord DNSPlan DNSTables DNSTemplateStore.

Lemma zone_by_id_Ok id db z : zone_by_id id db = Ok z → z ∈ db_Zones db ∧ zr_ID z = id.
Proof. unfold zone_by_id. intros [? ?%Z.eqb_eq]%query_where_Ok. done. Qed.

Lemma append_record_rows record db :
  db_Records (append_record record db) = db_Records db ++ [record <| rec_ID := db_RecordSeq db |>].
Proof. reflexivity. Qed.

(** ** Frames *)

(** What a zone is configured to be, apart from its records. *)
Definition zone_config (z : ZoneRow) :=
  (zr_SiteID z, zr_Domain z, zr_Address z, zr_IPv6Address z, zr_Mode z, zr_UpstreamPrimaries z, zr_SOAOverride z,
   zr_TransferCIDRs z).

Definition config_of (id : Z) (s : DNSStore) :=
  match zone_by_id id s with
  | Ok z => Some (zone_config z)
  | Err _ => None
  end.

(** A row is active only if it was, at the same desired revision. *)
Definition activates (z z' : ZoneRow) : Prop :=
  zr_Status z' = "active" → zr_Status z = "active" ∧ zr_DesiredRevision z' = zr_DesiredRevision z.

(** [Frame zs s s']: only the zones [zs] may have changed records or configuration;
    a zone keeps its row, its desired revision never decreases, and it is not made
    active; jobs are only added. *)
Record Frame (zs : list Z) (s s' : DNSStore) : Prop := {
  fr_records : ∀ id, id ∉ zs → zone_records id s' = zone_records id s;
  fr_config : ∀ id, id ∉ zs → config_of id s' = config_of id s;
  fr_zones : ∀ id z, zone_by_id id s = Ok z → ∃ z', zone_by_id id s' = Ok z' ∧
    zr_DesiredRevision z ≤ zr_DesiredRevision z';
  fr_active : ∀ id z', zone_by_id id s' = Ok z' → zr_Status z' = "active" →
    ∃ z, zone_by_id id s = Ok z ∧ activates z z';
  fr_jobs : ∀ job, job ∈ db_Jobs s → job ∈ db_Jobs s';
}.

#[export] Instance Frame_preorder zs : PreOrder (Frame zs).
Proof.
  split.
  - intros s. split; [done|done| | |done].
    + intros id z Hz. by exists z.
    + intros id z Hz _. exists z. split; [done|]. by intros ?.
  - intros s1 s2 s3 [Hr Hc Hz Ha Hj] [Hr' Hc' Hz' Ha' Hj']. split.
    + intros id Hid. by rewrite Hr', Hr.
    + intros id Hid. by rewrite Hc', Hc.
    + intros id z (z2 & H2 & ?)%Hz. apply Hz' in H2 as (z3 & H3 & ?). exists z3. split; [done|lia].
    + intros id z3 H3 E3. destruct (Ha' _ _ H3 E3) as (z2 & H2 & A2). destruct (A2 E3) as [E2 D2].
      destruct (Ha _ _ H2 E2) as (z1 & H1 & A1). exists z1. split; [done|]. intros _.
      destruct (A1 E2) as [E1 D1]. split; [done|congruence].
    + auto.
Qed.

Lemma Frame_weaken zs zs' s s' : (∀ id, id ∈ zs → id ∈ zs') → Frame zs s s' → Frame zs' s s'.
Proof. intros Hsub [Hr Hc Hz Ha Hj]. split; [| |done..]; intros id Hid; [apply Hr|apply Hc]; auto. Qed.

(** The same zones, with other records. *)
Lemma Frame_records zs s s' :
  db_Zones s' = db_Zones s → (∀ id, id ∉ zs → zone_records id s' = zone_records id s) →
  (∀ job, job ∈ db_Jobs s → job ∈ db_Jobs s') → Frame zs s s'.
Proof.
  intros Ez Hr Hj. assert (∀ id, zone_by_id id s' = zone_by_id id s) as E by (intros id; unfold zone_by_id; by rewrite Ez).
  split; [done| | | |done].
  - intros id _. unfold config_of. by rewrite E.
  - intros id z Hz. exists z. by rewrite E.
  - intros id z Hz _. exists z. rewrite <- E. split; [done|]. by intros ?.
Qed.

(** A change of the other tables. *)
Lemma Frame_same zs s s' :
  db_Records s' = db_Records s → db_Zones s' = db_Zones s → db_Jobs s' = db_Jobs s → Frame zs s s'.
Proof.
  intros Er Ez Ej. apply Frame_records; [done| |by rewrite Ej]. intros id _. unfold zone_records. by rewrite Er.
Qed.

(** What an update of a zone must keep. *)
Definition zone_kept (zs : list Z) (z z' : ZoneRow) : Prop :=
  zr_ID z' = zr_ID z ∧ zr_DesiredRevision z ≤ zr_DesiredRevision z' ∧ activates z z' ∧
  (zr_ID z ∈ zs ∨ zone_config z' = zone_config z).

Section FrameFacts.
Context (zs : list Z).

Lemma frame_zones_updated s p f :
  (∀ id z, zone_by_id id s = Ok z → p z = true → zone_kept zs z (f z)) → (∀ z, zr_ID (f z) = zr_ID z) →
  Frame zs s (s <| db_Zones := rows_update p f (db_Zones s) |>).
Proof.
  intros Hf Hid. set (g := λ z, if p z then f z else z).
  assert (∀ id, zone_by_id id (s <| db_Zones := rows_update p f (db_Zones s) |>)
                = match zone_by_id id s with Ok z => Ok (g z) | Err e => Err e end) as E.
  { intros id. unfold zone_by_id. cbn. rewrite rows_where_update by (intros r _; by rewrite Hid).
    by destruct (rows_where _ (db_Zones s)). }
  assert (∀ id z, zone_by_id id s = Ok z → zr_ID z = id ∧ zone_kept zs z (g z)) as Hg.
  { intros id z Hz. split; [by apply zone_by_id_Ok in Hz as [_ ?]|]. unfold g.
    destruct (p z) eqn:Ep; [by eapply Hf|]. repeat split; [lia|done..|by right]. }
  split; [done| | | |done].
  - intros id Hout. unfold config_of. rewrite E. destruct (zone_by_id id s) as [z|] eqn:Ez; [|done].
    destruct (Hg _ _ Ez) as (<- & _ & _ & _ & [Hin| ->]); done.
  - intros id z Hz. exists (g z). rewrite E, Hz. split; [done|]. by destruct (Hg _ _ Hz) as (_ & _ & ? & _).
  - intros id z'. rewrite E. destruct (zone_by_id id s) as [z|] eqn:Ez; [|done]. intros [= <-] _. exists z.
    split; [done|]. by destruct (Hg _ _ Ez) as (_ & _ & _ & ? & _).
Qed.

(** The update of the zone [id], whose row is known. *)
Lemma frame_zones_by_id s f id :
  (∀ z, zone_by_id id s = Ok z → zone_kept zs z (f z)) → (∀ z, zr_ID (f z) = zr_ID z) →
  Frame zs s (s <| db_Zones := rows_update (λ z, zr_ID z =? id) f (db_Zones s) |>).
Proof.
  intros Hf Hid. apply frame_zones_updated; [|done]. intros id' z Hz E%Z.eqb_eq.
  apply zone_by_id_Ok in Hz as Hzid. destruct Hzid as [_ Hzid]. apply Hf. congruence.
Qed.

Lemma frame_records_jobs jobs s s' :
  Frame zs s s' → Frame zs s (s' <| db_Jobs := db_Jobs s' ++ jobs |>).
Proof.
  intros [Hr Hc Hz Ha Hj]. split; [exact Hr|exact Hc|exact Hz|exact Ha|]. intros job Hin%Hj. cbn. apply elem_of_app. by left.
Qed.

Lemma frame_update_zones p f :
  (∀ z, p z = true → zone_kept zs z (f z)) → (∀ z, zr_ID (f z) = zr_ID z) → steps (Frame zs) (update_zones p f).
Proof. intros Hf Hid. apply steps_write. intros s. apply frame_zones_updated; [by eauto|done]. Qed.

Lemma frame_records s rows :
  (∀ id, id ∉ zs → rows_where (λ r, rec_ZoneID r =? id) rows = zone_records id s) →
  Frame zs s (s <| db_Records := rows |>).
Proof. intros Hr. by apply Frame_records. Qed.

Lemma frame_update_records p f s a s' :
  (∀ r, r ∈ db_Records s → p r = true → rec_ZoneID r ∈ zs ∧ rec_ZoneID (f r) ∈ zs) →
  update_records p f s = Ok (a, s') → Frame zs s s'.
Proof.
  intros Hf Hu. unfold update_records in Hu. tx_ok. apply frame_records. intros id Hid. unfold zone_records.
  set (p' := λ r, p r && bool_decide (rec_ZoneID r ∈ zs ∧ rec_ZoneID (f r) ∈ zs)).
  assert (rows_update p f (db_Records s) = rows_update p' f (db_Records s)) as ->.
  { unfold rows_update. apply list_fmap_ext. intros i r Hl. apply list_elem_of_lookup_2 in Hl. unfold p'.
    destruct (p r) eqn:Ep; [|done]. by rewrite bool_decide_eq_true_2 by auto. }
  apply rows_where_update_other. intros r Hr. unfold p' in Hr. bool_split.
  split; apply Z.eqb_neq; naive_solver.
Qed.

(** The same when the condition names the zone. *)
Lemma frame_update_records_zone p f :
  (∀ r, p r = true → rec_ZoneID r ∈ zs ∧ rec_ZoneID (f r) ∈ zs) → steps (Frame zs) (update_records p f).
Proof. intros Hf s a s' Hu. eapply frame_update_records; [|exact Hu]. auto. Qed.

Lemma frame_delete_records p :
  (∀ r, p r = true → rec_ZoneID r ∈ zs) → steps (Frame zs) (delete_records p).
Proof.
  intros Hp s a s' Hd. unfold delete_records in Hd. tx_ok. apply frame_records. intros id Hid.
  apply rows_where_delete_other. intros r Hr. apply Z.eqb_neq. naive_solver.
Qed.

Lemma frame_append record s : rec_ZoneID record ∈ zs → Frame zs s (append_record record s).
Proof.
  intros Hz. apply Frame_records; [done| |done].
  intros id Hid. unfold zone_records. rewrite append_record_rows, rows_where_app.
  unfold rows_where at 2. rewrite filter_cons_False; [by rewrite app_nil_r|].
  change (rec_ZoneID record =? id ≠ true). intros E%Z.eqb_eq. naive_solver.
Qed.

Lemma frame_insert_record record : rec_ZoneID record ∈ zs → steps (Frame zs) (insert_record record).
Proof. intros Hz s a s' Hi. unfold insert_record in Hi. tx_ok. by apply frame_append. Qed.

Lemma frame_insert_record_or_nothing record :
  rec_ZoneID record ∈ zs → steps (Frame zs) (insert_record_or_nothing record).
Proof.
  intros Hz s a s' Hi. unfold insert_record_or_nothing in Hi. tx_ok.
  destruct (existsb _ _); tx_ok; [by apply Frame_same|by apply frame_append].
Qed.

Lemma frame_insert_job job : steps (Frame zs) (insert_job job).
Proof. apply steps_write. intros s. apply Frame_records; [done..|]. intros j Hj. cbn. apply elem_of_app. by left. Qed.

Lemma frame_update_sites p f : steps (Frame zs) (update_sites p f).
Proof. apply steps_write. intros s. by apply Frame_same. Qed.
Lemma frame_update_items p f : steps (Frame zs) (update_items p f).
Proof. apply steps_write. intros s. by apply Frame_same. Qed.
Lemma frame_update_runs p f : steps (Frame zs) (update_runs p f).
Proof. apply steps_write. intros s. by apply Frame_same. Qed.

Lemma frame_query {A} (f : DNSStore → result A) : steps (Frame zs) (tx_query f).
Proof. apply steps_query, _. Qed.
End FrameFacts.

#[export] Hint Resolve frame_insert_job frame_update_sites frame_update_items frame_update_runs frame_query : tx_steps.

(** An update of a zone that keeps what a frame keeps; the last part holds by the
    configuration, or because the condition names a zone of the frame. *)
Ltac keep_zone :=
  let z := fresh "z" in let Hz := fresh "Hz" in
  intros z Hz; split; [reflexivity|]; split; [cbn; lia|]; split;
    [unfold activates; cbn; solve [discriminate | by intros ?]|];
    first [right; reflexivity | left; apply Z.eqb_eq in Hz; rewrite Hz; cbn; solve [repeat constructor]].
