(* ===== verification/DNSConverge.v ===== *)
(** * Every change of a zone's records is converged

    A handler that changes records of a zone raises the zone's desired revision
    in the same transaction and queues the job that applies that revision, so no
    change waits for the next edit to reach the name server. *)

From S2P Require Import Prelude Tx Tables GoStr Site DNSTypes DNSRecord DNSPlan DNSTables DNSTemplateStore DNSZoneStore DNSSync DNSEdit DNSProvision DNSStoreFacts.

(** The zone's desired revision rose, and the job of its last revision is queued. *)
Definition raised (zid : Z) (s s' : DNSStore) : Prop :=
  ∃ z' bulk, zone_by_id zid s' = Ok z' ∧
    (∀ z, zone_by_id zid s = Ok z → zr_DesiredRevision z < zr_DesiredRevision z') ∧
    ConfigureDNSZoneArgs zid (zr_DesiredRevision z') bulk ∈ db_Jobs s'.

(** What a zone is, in the tables: its configuration and its records. *)
Definition zone_data (zid : Z) (s : DNSStore) := (config_of zid s, zone_records zid s).

Definition converges (s s' : DNSStore) : Prop :=
  ∀ zid, zone_data zid s' ≠ zone_data zid s → raised zid s s'.

(** A transaction that converges, and keeps what a [Frame] keeps. *)
Record Evolves (s s' : DNSStore) : Prop := {
  ev_evolves : converges s s';
  ev_frame : ∃ zs, Frame zs s s';
}.

Record Bumped (zid : Z) (s s' : DNSStore) : Prop := {
  bu_frame : Frame [] s s';
  bu_others : ∀ id, id ≠ zid → zone_by_id id s' = zone_by_id id s;
  bu_raised : raised zid s s';
}.

Lemma Evolves_bumped zs s s1 s' :
  Frame zs s s1 → (∀ zid, zid ∈ zs → raised zid s1 s') → Frame [] s1 s' → Evolves s s'.
Proof.
  intros Hf Hb Hf'. split.
  - intros zid Hne. unfold zone_data in Hne.
    rewrite (fr_records _ _ _ Hf'), (fr_config _ _ _ Hf') in Hne by apply not_elem_of_nil.
    destruct (decide (zid ∈ zs)) as [Hin|Hout];
      [|by rewrite (fr_records _ _ _ Hf), (fr_config _ _ _ Hf) in Hne].
    destruct (Hb zid Hin) as (z' & bulk & Hz' & Hlt & Hjob). exists z', bulk. split; [done|]. split; [|done].
    intros z Hz. destruct (fr_zones _ _ _ Hf _ _ Hz) as (z1 & Hz1 & Hle). specialize (Hlt _ Hz1). lia.
  - exists zs. etransitivity; [exact Hf|]. eapply Frame_weaken; [|exact Hf']. by intros id ?%elem_of_nil.
Qed.

Lemma Evolves_frame s s' : Frame [] s s' → Evolves s s'.
Proof.
  intros Hf. split; [|by exists []]. intros zid Hne. unfold zone_data in Hne.
  by rewrite (fr_records _ _ _ Hf), (fr_config _ _ _ Hf) in Hne by apply not_elem_of_nil.
Qed.

Section Converge.
Context `{GoUnicode} `{GoMapOrder} `{Collation}.

Lemma zone_update_others s p f id :
  (∀ z, p z = true → zr_ID z ≠ id ∧ zr_ID (f z) ≠ id) →
  zone_by_id id (s <| db_Zones := rows_update p f (db_Zones s) |>) = zone_by_id id s.
Proof.
  intros Hp. unfold zone_by_id. cbn. rewrite rows_where_update_other; [done|].
  intros z [? ?]%Hp. split; by apply Z.eqb_neq.
Qed.

Lemma zone_update_this s p f id z :
  (∀ z, zr_ID (f z) = zr_ID z) → zone_by_id id s = Ok z →
  zone_by_id id (s <| db_Zones := rows_update p f (db_Zones s) |>) = Ok (if p z then f z else z).
Proof. intros Hf Hz. unfold zone_by_id in *. cbn. apply query_where_update; [|done]. intros r _. by rewrite Hf. Qed.

Lemma update_zones_run p f s a s' :
  update_zones p f s = Ok (a, s') → s' = s <| db_Zones := rows_update p f (db_Zones s) |>.
Proof. unfold update_zones. intros Hu. tx_ok. done. Qed.

(** The update that raises the desired revision. *)
Lemma bump_zone_spec now zid s rev s1 :
  bump_zone now zid s = Ok (rev, s1) →
  Frame [] s s1 ∧ (∀ id, id ≠ zid → zone_by_id id s1 = zone_by_id id s) ∧
  ∃ z', zone_by_id zid s1 = Ok z' ∧ rev = zr_DesiredRevision z' ∧
    ∀ z, zone_by_id zid s = Ok z → zr_DesiredRevision z < zr_DesiredRevision z'.
Proof.
  intros Hb. unfold bump_zone in Hb. db_ok.
    match goal with E : update_zones _ ?g s = _ |- _ => set (f := g) in *; apply update_zones_run in E; subst end.
    match goal with E : zone_by_id _ ?s2 = Ok ?w |- _ => rename w into z'; set (s1 := s2) in * end.
    split; [|split].
    - assert (steps (Frame []) (update_zones (λ z, zr_ID z =? zid) f)) as Hs
        by (apply frame_update_zones; [unfold f; keep_zone|done]).
      by apply (Hs s () s1).
    - intros id Hid. apply zone_update_others. intros z Hz%Z.eqb_eq. unfold f. cbn. split; congruence.
    - exists z'. split; [done|]. split; [done|]. intros z Hz.
      apply (zone_update_this s (λ z, zr_ID z =? zid) f) in Hz as Hz1; [|done].
      change (zone_by_id zid s1 = Ok (if zr_ID z =? zid then f z else z)) in Hz1.
      assert (z' = if zr_ID z =? zid then f z else z) as -> by congruence.
      apply zone_by_id_Ok in Hz as [_ <-]. rewrite Z.eqb_refl. unfold f. cbn. lia.
Qed.

Lemma raise_then_job now zid bulk s a s' :
  (let! revision := bump_zone now zid in insert_job (ConfigureDNSZoneArgs zid revision bulk)) s = Ok (a, s') →
  Bumped zid s s'.
Proof.
  intros Hrun. apply tx_bind_Ok in Hrun as (rev & s1 & Hb & Hj).
  apply bump_zone_spec in Hb as (Hf & Ho & z' & Hz' & -> & Hlt).
  unfold insert_job in Hj. tx_ok. split.
  - etransitivity; [exact Hf|]. by apply (frame_insert_job [] (ConfigureDNSZoneArgs zid (zr_DesiredRevision z') bulk) s1 ()).
  - intros id Hid. change (zone_by_id id s1 = zone_by_id id s). auto.
  - exists z', bulk. split; [done|]. split; [done|]. cbn. apply elem_of_app. right. constructor.
Qed.

Lemma EnqueueMail_frame ids : steps (Frame []) (EnqueueMailDNSRecheckTx ids).
Proof.
  unfold EnqueueMailDNSRecheckTx. tx_steps. apply steps_write. intros s. by apply Frame_same.
Qed.

Lemma EnqueueMail_zones ids s a s' : EnqueueMailDNSRecheckTx ids s = Ok (a, s') → db_Zones s' = db_Zones s.
Proof. unfold EnqueueMailDNSRecheckTx. intros Hm. tx_ok. destruct (0 <? _); [unfold insert_job in Hm|]; tx_ok; done. Qed.

(** ** The two ways a handler ends *)

Lemma enqueueZoneTx_raised now zid bulk s a s' :
  enqueueZoneTx now zid bulk s = Ok (a, s') → Frame [] s s' ∧ raised zid s s'.
Proof.
  unfold enqueueZoneTx. intros Hrun. apply tx_bind_Ok in Hrun as (u & s1 & Hm & Hrun).
  pose proof (EnqueueMail_zones _ _ _ _ Hm) as Ez. apply EnqueueMail_frame in Hm.
  apply raise_then_job in Hrun as [Hf _ (z' & b & Hz' & Hlt & Hjob)].
  split; [by etransitivity|]. exists z', b. split; [done|]. split; [|done].
  intros z Hz. apply Hlt. unfold zone_by_id in *. by rewrite Ez.
Qed.

Lemma enqueueTwoZonesTx_raised now zid1 zid2 bulk s a s' :
  enqueueTwoZonesTx now zid1 zid2 bulk s = Ok (a, s') →
  Frame [] s s' ∧ ∀ zid, zid ∈ [zid1; zid2] → raised zid s s'.
Proof.
  unfold enqueueTwoZonesTx. intros Hrun. apply tx_bind_Ok in Hrun as (u & s1 & Hm & Hrun).
  pose proof (EnqueueMail_zones _ _ _ _ Hm) as Ez. apply EnqueueMail_frame in Hm. cbn [tx_each] in Hrun.
  apply tx_bind_Ok in Hrun as (u1 & s2 & Hb1%raise_then_job & Hrun).
  apply tx_bind_Ok in Hrun as (u2 & s3 & Hb2%raise_then_job & Hrun). unfold tx_ret in Hrun. tx_ok.
  destruct Hb1 as [Hf1 Ho1 (z1 & b1 & Hz1 & Hlt1 & Hj1)], Hb2 as [Hf2 Ho2 (z2 & b2 & Hz2 & Hlt2 & Hj2)].
  assert (∀ id z, zone_by_id id s = Ok z → zone_by_id id s1 = Ok z) as Hs1
    by (intros id z; unfold zone_by_id; by rewrite Ez).
  split; [by do 2 (etransitivity; [eassumption|])|].
  assert (raised zid2 s s3) as Hr2.
  { exists z2, b2. split; [done|]. split; [|done]. intros z Hz%Hs1.
    destruct (fr_zones _ _ _ Hf1 _ _ Hz) as (y & Hy%Hlt2 & Hle). lia. }
  intros zid [->|[->|[]%elem_of_nil]%elem_of_cons]%elem_of_cons; [|done].
  destruct (decide (zid1 = zid2)) as [->|Hne]; [done|].
  exists z1, b1. rewrite Ho2 by done. split; [done|]. split; [auto|]. by apply (fr_jobs _ _ _ Hf2).
Qed.

Lemma enqueueDNSZoneTx_raised now zid mark s a s' :
  enqueueDNSZoneTx now zid mark s = Ok (a, s') → Frame [] s s' ∧ raised zid s s'.
Proof.
  unfold enqueueDNSZoneTx. intros Hrun. apply tx_bind_Ok in Hrun as (z & s0 & [Hz ->]%tx_query_Ok & Hrun).
  db_ok.
  match goal with E : update_zones ?p ?f s = _ |- _ =>
    set (g := f) in *; set (q := p) in *; apply update_zones_run in E; subst end.
  unfold insert_job in *. tx_ok. split.
  - assert (Frame [] s (s <| db_Zones := rows_update q g (db_Zones s) |>)) as Hf.
    { apply (frame_zones_by_id [] s g zid); [|done]. intros y Hy. assert (y = z) as -> by congruence.
      split; [done|]. split; [unfold g; cbn; lia|]. split; [discriminate|by right]. }
    exact (frame_records_jobs [] [ConfigureDNSZoneArgs zid (zr_DesiredRevision z + 1) false] s _ Hf).
  - exists (g z), false. split.
    + apply zone_by_id_Ok in Hz as Hid. destruct Hid as [_ Hid].
      etransitivity; [exact (zone_update_this s q g zid z (λ _, eq_refl) Hz)|]. unfold q. by rewrite Hid, Z.eqb_refl.
    + split; [intros y Hy; rewrite Hz in Hy; injection Hy as <-; unfold g; cbn; lia|].
      cbn. apply elem_of_app. right. constructor.
Qed.

End Converge.

(** ** The handlers *)

Section Handlers.
Context `{GoUnicode} `{GoMapOrder} `{Collation}.
Context (fingerprint : fingerprintData → string).

Definition raises (zs : list Z) (s s' : DNSStore) : Prop :=
  Frame [] s s' ∧ ∀ zid, zid ∈ zs → raised zid s s'.

Lemma ends_evolves {A} zs (m : tx DNSStore A) s a s' :
  ends (Frame zs) (raises zs) m → m s = Ok (a, s') → Evolves s s'.
Proof. intros Hm (s1 & Hf & Hb & Hr)%Hm. by eapply Evolves_bumped. Qed.

Lemma raises_enqueueZone now zid bulk : ends (Frame [zid]) (raises [zid]) (enqueueZoneTx now zid bulk).
Proof.
  apply ends_last; [apply _|]. intros s a s' [Hf Hr]%enqueueZoneTx_raised. split; [done|].
  by intros ? ->%list_elem_of_singleton.
Qed.

Lemma raises_enqueueDNSZone now zid mark : ends (Frame [zid]) (raises [zid]) (enqueueDNSZoneTx now zid mark).
Proof.
  apply ends_last; [apply _|]. intros s a s' [Hf Hr]%enqueueDNSZoneTx_raised. split; [done|].
  by intros ? ->%list_elem_of_singleton.
Qed.

Lemma frame_refresh zs zid : steps (Frame zs) (refreshZoneTemplateStatusTx zid).
Proof.
  unfold refreshZoneTemplateStatusTx. apply steps_bind; [apply _|apply steps_read, _|]. intros db.
  destruct (rows_where _ _); [apply steps_ret, _|]. apply frame_update_zones; [keep_zone|done].
Qed.

Lemma frame_mail zs ids : steps (Frame zs) (EnqueueMailDNSRecheckTx ids).
Proof.
  intros s a s' Hm%EnqueueMail_frame. eapply Frame_weaken; [|exact Hm]. by intros id ?%elem_of_nil.
Qed.

Lemma frame_template_revision zs zid revision : steps (Frame zs) (set_template_revision zid revision).
Proof. apply frame_update_zones; [keep_zone|done]. Qed.

Lemma frame_complete_adoption zs siteID children : steps (Frame zs) (complete_adoption siteID children).
Proof. apply frame_update_sites. Qed.

Lemma frame_mutations zid revision plan : steps (Frame [zid]) (applyZonePlanMutationsTx zid revision plan).
Proof.
  assert (zid ∈ [zid]) as Hin by constructor.
  unfold applyZonePlanMutationsTx. tx_steps.
  - apply frame_delete_records. intros r Hr. unfold plan_deletes in Hr. bool_split. by subst.
  - apply frame_insert_record_or_nothing. unfold plan_insert. by destruct (String.eqb _ "system").
  - apply frame_update_records_zone. intros r Hr. unfold plan_updates in Hr. bool_split. by subst.
  - apply frame_update_records_zone. intros r Hr. unfold plan_adopts in Hr. bool_split. by subst.
Qed.

Lemma frame_write_deletions zs f :
  steps (Frame zs) (tx_write (λ db, db <| db_Deletions := f db |>)).
Proof. apply steps_write. intros s. by apply Frame_same. Qed.

End Handlers.

#[export] Hint Resolve frame_refresh frame_mail frame_template_revision frame_complete_adoption
  frame_mutations frame_write_deletions raises_enqueueZone raises_enqueueDNSZone : tx_steps.

(** The condition of a statement names the zone. *)
Ltac in_zone :=
  repeat split; cbn -[elem_of];
  match goal with E : rec_ZoneID ?r = _ |- rec_ZoneID ?r ∈ _ => rewrite E; constructor end.

Section Edits.
Context `{GoUnicode} `{GoMapOrder} `{Collation}.
Context (fingerprint : fingerprintData → string).

Lemma upsert_evolves configured now siteID record s a s' :
  UpsertDNSRecord configured now siteID record s = Ok (a, s') → Evolves s s'.
Proof.
  unfold UpsertDNSRecord. destruct (negb configured); [done|].
  intros (serving & s0 & [_ ->]%tx_query_Ok & Hrun)%tx_bind_Ok. cbv zeta in Hrun. revert Hrun.
  apply (ends_evolves [zr_ID (snd serving)]).
  assert (zr_ID (snd serving) ∈ [zr_ID (snd serving)]) as Hin by constructor. tx_ends.
  - apply frame_update_records_zone. intros r Hr. unfold editable in Hr. bool_split. in_zone.
  - apply frame_insert_record. done.
Qed.

Lemma delete_evolves configured now siteID recordID s a s' :
  DeleteDNSRecord configured now siteID recordID s = Ok (a, s') → Evolves s s'.
Proof.
  unfold DeleteDNSRecord. destruct (negb configured); [done|].
  intros (serving & s0 & [_ ->]%tx_query_Ok & Hrun)%tx_bind_Ok. cbv zeta in Hrun. revert Hrun.
  apply (ends_evolves [zr_ID (snd serving)]).
  assert (zr_ID (snd serving) ∈ [zr_ID (snd serving)]) as Hin by constructor. tx_ends.
  apply frame_delete_records. intros r Hr. unfold editable in Hr. bool_split. in_zone.
Qed.

Lemma restore_evolves river now siteID recordID s a s' :
  RestoreRecord river now siteID recordID s = Ok (a, s') → Evolves s s'.
Proof.
  unfold RestoreRecord. destruct (negb river); [done|].
  intros (zone & s0 & [_ ->]%tx_query_Ok & Hrun)%tx_bind_Ok. cbv zeta in Hrun. revert Hrun.
  set (zid := zone_ID (zs_View zone)). apply (ends_evolves [zid]).
  assert (zid ∈ [zid]) as Hin by constructor. tx_ends.
  apply frame_update_records_zone. intros r Hr. bool_split. in_zone.
Qed.

Lemma mode_evolves river now siteID input s a s' :
  SetZoneMode river now siteID input s = Ok (a, s') → Evolves s s'.
Proof.
  unfold SetZoneMode. destruct (negb river); [done|]. cbv zeta. destruct (negb _); [done|].
  intros (primaries & s0 & [_ ->]%tx_lift_Ok & Hrun)%tx_bind_Ok. destruct (_ && _); [done|].
  apply tx_bind_Ok in Hrun as (zone & s0 & [_ ->]%tx_query_Ok & Hrun). revert Hrun.
  apply (ends_evolves [zone_ID (zs_View zone)]). tx_ends.
  apply frame_update_zones; [keep_zone|done].
Qed.

Lemma soa_evolves river now siteID expected settings cidrs s a s' :
  SetZoneSOA river now siteID expected settings cidrs s = Ok (a, s') → Evolves s s'.
Proof.
  unfold SetZoneSOA. destruct (negb river); [done|].
  intros (u & s0 & [_ ->]%tx_lift_Ok & Hrun)%tx_bind_Ok.
  apply tx_bind_Ok in Hrun as (v & s0 & [_ ->]%tx_lift_Ok & Hrun).
  apply tx_bind_Ok in Hrun as (zone & s0 & [_ ->]%tx_query_Ok & Hrun). revert Hrun.
  apply (ends_evolves [zone_ID (zs_View zone)]). tx_ends.
  apply frame_update_zones; [keep_zone|done].
Qed.

Lemma reset_evolves now siteID confirmation s a s' :
  ResetZone now siteID confirmation s = Ok (a, s') → Evolves s s'.
Proof.
  unfold ResetZone. intros (before & s0 & [_ ->]%tx_query_Ok & Hrun)%tx_bind_Ok. destruct (negb _); [done|].
  apply tx_bind_Ok in Hrun as (zone & s0 & [_ ->]%tx_query_Ok & Hrun).
  apply tx_bind_Ok in Hrun as (template & s0 & [_ ->]%tx_query_Ok & Hrun). cbv zeta in Hrun. revert Hrun.
  set (zid := zone_ID (zs_View zone)). apply (ends_evolves [zid]).
  assert (zid ∈ [zid]) as Hin by constructor. tx_ends.
  apply frame_delete_records. intros r Hr. bool_split. in_zone.
Qed.

(** ** Moving a subdomain between zones *)

(** The rows of the moved records lie in the two zones. *)
Definition rows_in (zs : list Z) (moved : list DNSRecord) (s : DNSStore) : Prop :=
  ∀ r row, r ∈ moved → row ∈ db_Records s → rec_ID row = rec_ID r → rec_ZoneID row ∈ zs.

Lemma frame_move_records where_ toZone existing moved zs s a s' :
  toZone ∈ zs → rows_in zs moved s → move_records where_ toZone existing moved s = Ok (a, s') → Frame zs s s'.
Proof.
  intros Hto. unfold move_records. destruct (validateDNSRecordSet _); [|done].
  assert (∀ l s a s', (∀ r, r ∈ l → r ∈ moved) → rows_in zs moved s →
    tx_each (move_record toZone) l s = Ok (a, s') → Frame zs s s') as Hloop; [|intros; eapply Hloop; eauto].
  clear s a s'. intros l. induction l as [|r l IH]; intros s a s' Hl Hin Hrun; cbn [tx_each] in Hrun; [by tx_ok|].
  apply tx_bind_Ok in Hrun as (u & s1 & Hm & Hrun). unfold move_record in Hm.
  apply tx_bind_Ok in Hm as (n & s2 & Hm & Hret). unfold tx_ret in Hret. tx_ok.
  assert (Frame zs s s2) as Hf.
  { eapply frame_update_records; [|exact Hm]. intros row Hrow Hid%Z.eqb_eq. cbn.
    split; [|done]. apply (Hin r row); [|done|done]. apply Hl. constructor. }
  etransitivity; [exact Hf|]. eapply IH; [| |exact Hrun].
  - intros x Hx. apply Hl. by constructor.
  - intros x row Hx Hrow Hid. unfold update_records in Hm. tx_ok. cbn in Hrow.
    apply rows_update_elem in Hrow as (row0 & Hrow0 & ->).
    destruct (rec_ID row0 =? rec_ID r); [done|]. by apply (Hin x).
Qed.

Lemma movable_rows_in zs zoneID owner s (moved : list DNSRecord) :
  NoDup (rec_ID <$> db_Records s) → zoneID ∈ zs →
  (∀ r, r ∈ moved → ∃ r0, r0 ∈ loadMovableDNSRecords zoneID owner s ∧ rec_ID r = rec_ID r0) →
  rows_in zs moved s.
Proof.
  intros Hnd Hz Hm r row (r0 & Hr0 & E)%Hm Hrow Hid. unfold loadMovableDNSRecords in Hr0.
  rewrite merge_sort_Permutation in Hr0. apply rows_where_elem in Hr0 as [Hmov Hr0].
  assert (row = r0) as -> by (eapply NoDup_fmap_elem; [exact Hnd|done|done|congruence]).
  unfold movable in Hmov. bool_split. by subst.
Qed.

Lemma raises_two now zid1 zid2 bulk :
  ends (Frame [zid1; zid2]) (raises [zid1; zid2]) (enqueueTwoZonesTx now zid1 zid2 bulk).
Proof. apply ends_last; [apply _|]. intros s a s' ?%enqueueTwoZonesTx_raised. done. Qed.

Lemma frame_append_zone zs row seq s :
  zr_ID row ∈ zs → zr_Status row ≠ "active" →
  Frame zs s ((s <| db_Zones := db_Zones s ++ [row] |>) <| db_ZoneSeq := seq |>).
Proof.
  intros Hin Hpending. set (s' := _ <| db_ZoneSeq := seq |>).
  assert (∀ id z, zone_by_id id s = Ok z → zone_by_id id s' = Ok z) as Hold.
  { intros id z. unfold zone_by_id. cbn. rewrite rows_where_app. by destruct (rows_where _ (db_Zones s)). }
  assert (∀ id z, zone_by_id id s' = Ok z → zone_by_id id s = Ok z ∨ z = row ∧ id = zr_ID row) as Hnew.
  { intros id z Hz. destruct (zone_by_id id s) as [z0|e] eqn:Ez; [left; rewrite (Hold _ _ Ez) in Hz; congruence|right].
    apply zone_by_id_Ok in Hz as Hzid. destruct Hzid as [_ Hzid]. unfold zone_by_id in Hz, Ez. cbn in Hz.
    rewrite rows_where_app in Hz. destruct (rows_where _ (db_Zones s)); [|done]. cbn [app] in Hz.
    apply query_row_Ok, rows_where_elem in Hz as [_ ->%list_elem_of_singleton]. done. }
  split; [done| | | |done].
  - intros id Hout. unfold config_of. destruct (zone_by_id id s) as [z|] eqn:Ez; [by rewrite (Hold _ _ Ez)|].
    destruct (zone_by_id id s') as [z|] eqn:Ez'; [|done]. destruct (Hnew _ _ Ez') as [?|[_ ->]]; [congruence|done].
  - intros id z Hz. exists z. split; [by apply Hold|lia].
  - intros id z Hz Ea. destruct (Hnew _ _ Hz) as [?|[-> _]]; [|done]. exists z. split; [done|]. by intros ?.
Qed.

(** The statements between the move and the jobs. *)
Ltac close_frames :=
  first [ apply raises_two | apply frame_update_sites
        | apply frame_update_zones; [keep_zone|done]
        | apply steps_write; intros; by apply Frame_same ].

Lemma parent_evolves now siteID parentZoneID label s a s' :
  NoDup (rec_ID <$> db_Records s) →
  moveToParentZoneTx now siteID parentZoneID label s = Ok (a, s') → Evolves s s'.
Proof.
  intros Hnd. unfold moveToParentZoneTx. intros (child & s0 & [_ ->]%tx_query_Ok & Hrun)%tx_bind_Ok.
  cbv zeta in Hrun. apply tx_bind_Ok in Hrun as (records & s0 & Hload & Hrun). unfold tx_read in Hload. injection Hload as <- <-.
  apply tx_bind_Ok in Hrun as (parent & s0 & [_ ->]%tx_query_Ok & Hrun).
  apply tx_bind_Ok in Hrun as (u & s1 & Hmove & Hrun).
  assert (Frame [parentZoneID; zr_ID child] s s1) as Hf.
  { eapply frame_move_records; [constructor| |exact Hmove]. apply (movable_rows_in _ (zr_ID child) siteID); [done| |].
    - do 2 constructor.
    - intros r (r0 & -> & Hr0)%list_elem_of_fmap. by exists r0. }
  match type of Hrun with ?m s1 = _ =>
    assert (ends (Frame [parentZoneID; zr_ID child]) (raises [parentZoneID; zr_ID child]) m) as He end.
  { tx_ends; close_frames. }
  apply He in Hrun as (s2 & Hf2 & Hb & Hr). eapply Evolves_bumped; [by etransitivity|exact Hr|exact Hb].
Qed.

Lemma separate_evolves now siteID parentZoneID ownerID domain label address ipv6 s a s' :
  NoDup (rec_ID <$> db_Records s) →
  moveToSeparateZoneTx now siteID parentZoneID ownerID domain label address ipv6 s = Ok (a, s') → Evolves s s'.
Proof.
  intros Hnd. unfold moveToSeparateZoneTx. intros (template & s0 & [_ ->]%tx_query_Ok & Hrun)%tx_bind_Ok.
  cbv zeta in Hrun. apply tx_bind_Ok in Hrun as (childID & s1 & Hchild & Hrun).
  set (zs := [parentZoneID; childID]).
  assert (Frame zs s s1 ∧ db_Records s1 = db_Records s) as [Hf1 Er1].
  { clear Hrun. unfold child_zone in Hchild. tx_ok. destruct (rows_where _ _); [|by tx_ok]. tx_ok.
    split; [apply frame_append_zone; [unfold zs; do 2 constructor|discriminate]|done]. }
  apply tx_bind_Ok in Hrun as (zones & s2 & Hz & Hrun). unfold tx_read in Hz. injection Hz as <- <-.
  destruct (domain_taken _ _ _); [done|].
  apply tx_bind_Ok in Hrun as (u & s2 & Hu & Hrun).
  assert (Frame zs s1 s2 ∧ db_Records s2 = db_Records s1) as [Hf2 Er2].
  { split; [|apply update_zones_run in Hu as ->; done].
    match type of Hu with update_zones ?p ?f _ = _ => apply (frame_update_zones zs p f) in Hu; [done| |done] end.
    unfold zs. keep_zone. }
  apply tx_bind_Ok in Hrun as (records & s3 & Hload & Hrun). unfold tx_read in Hload. injection Hload as <- <-.
  apply tx_bind_Ok in Hrun as (before & s3 & [_ ->]%tx_query_Ok & Hrun).
  apply tx_bind_Ok in Hrun as (u2 & s3 & Hmove & Hrun).
  assert (Frame zs s2 s3) as Hf3.
  { eapply frame_move_records; [|..|exact Hmove]; [do 2 constructor|]. apply (movable_rows_in _ parentZoneID siteID).
    - by rewrite Er2, Er1.
    - constructor.
    - intros r (r1 & -> & Hr1)%list_elem_of_fmap. apply list_elem_of_omap in Hr1 as (r0 & Hr0 & Hh).
      exists r0. split; [exact Hr0|]. unfold host_in_child in Hh. repeat case_match; by simplify_eq. }
  match type of Hrun with ?m s3 = _ => assert (ends (Frame zs) (raises zs) m) as He end.
  { tx_ends; try close_frames.
    intros x b x' Hm%frame_mutations. eapply Frame_weaken; [|exact Hm].
    intros id Hid%list_elem_of_singleton. rewrite Hid. do 2 constructor. }
  destruct (He _ _ _ Hrun) as (s4 & Hf4 & Hb & Hr).
  eapply Evolves_bumped; [|exact Hr|exact Hb]. by repeat (etransitivity; [eassumption|]).
Qed.

Lemma subdomain_evolves river now siteID expected mode s a s' :
  NoDup (rec_ID <$> db_Records s) →
  SetSubdomainZoneMode river now siteID expected mode s = Ok (a, s') → Evolves s s'.
Proof.
  intros Hnd. unfold SetSubdomainZoneMode. destruct (negb river); [done|]. cbv zeta. destruct (negb _); [done|].
  intros (site & s0 & [_ ->]%tx_query_Ok & Hrun)%tx_bind_Ok. destruct (_ =? 0); [done|].
  destruct (String.eqb (st_DNSZoneMode site) _); [unfold tx_ret in Hrun; tx_ok; by apply Evolves_frame, Frame_same|].
  apply tx_bind_Ok in Hrun as (zones & s0 & Hz & Hrun). unfold tx_read in Hz. injection Hz as <- <-.
  destruct (rows_where _ _) as [|parent rest]; [done|]. destruct (_ || _); [done|].
  apply tx_bind_Ok in Hrun as (current & s0 & [_ ->]%tx_query_Ok & Hrun). destruct (negb _); [done|].
  destruct (String.eqb _ "separate"); [by eapply separate_evolves|by eapply parent_evolves].
Qed.

(** ** Applying a synchronisation *)

Lemma mutations_nothing zid revision plan s a s' :
  plan_changes plan = false → applyZonePlanMutationsTx zid revision plan s = Ok (a, s') → s' = s.
Proof.
  unfold plan_changes. intros Hp. bool_split.
  assert (plan_add plan = [] ∧ plan_remove plan = [] ∧ plan_update plan = ∅ ∧ plan_adopt plan = ∅) as (Ea & Er & Eu & Ed).
  { assert (length (plan_add plan) = 0%nat ∧ length (plan_remove plan) = 0%nat ∧ size (plan_update plan) = 0%nat
            ∧ size (plan_adopt plan) = 0%nat) as (?%length_zero_iff_nil & ?%length_zero_iff_nil & ?%map_size_empty_iff & ?%map_size_empty_iff)
      by lia. done. }
  unfold applyZonePlanMutationsTx. rewrite Ea, Er, Eu, Ed, map_to_list_empty.
  assert (∀ B, @map_order _ B [] = []) as Hnil by (intros B; apply Permutation_nil; symmetry; apply map_order_perm).
  rewrite !Hnil. cbn. unfold tx_bind, tx_ret. intros Hr.
  change (0 <? Z.of_nat 0) with false in Hr. cbn in Hr. congruence.
Qed.

(** The job is queued after two more statements. *)
Lemma raises_apply_tail now zid (item : Z → SyncItem → SyncItem) runID :
  ends (Frame [zid]) (raises [zid])
    (let! desiredRevision := bump_zone now zid in
     let! _ := set_item runID zid (item desiredRevision) in
     let! _ := EnqueueMailDNSRecheckTx [zid] in
     insert_job (ConfigureDNSZoneArgs zid desiredRevision true)).
Proof.
  apply ends_last; [apply _|]. intros s a s' (rev & s1 & Hb & Hrun)%tx_bind_Ok.
  apply bump_zone_spec in Hb as (Hf & _ & z' & Hz' & -> & Hlt).
  apply tx_bind_Ok in Hrun as (u & s2 & Hi & Hrun). apply tx_bind_Ok in Hrun as (v & s3 & Hm & Hj).
  assert (Frame [] s1 s2 ∧ db_Zones s2 = db_Zones s1) as [Hf2 Ez2].
  { split; [by eapply frame_update_items|]. unfold set_item, update_items, tx_write in Hi. by injection Hi as _ <-. }
  apply EnqueueMail_zones in Hm as Ez3. apply EnqueueMail_frame in Hm as Hf3.
  apply (frame_insert_job []) in Hj as Hf4. unfold insert_job, tx_write in Hj. injection Hj as _ <-. split.
  - by repeat (etransitivity; [eassumption|]).
  - intros zid' ->%list_elem_of_singleton. exists z', true. split; [|split; [done|]].
    + unfold zone_by_id in *. cbn. by rewrite Ez3, Ez2.
    + cbn. apply elem_of_app. right. constructor.
Qed.

Lemma apply_evolves now runID scope template zid owner adopt s a s' :
  applyZonePlan fingerprint now runID scope template zid owner adopt s = Ok (a, s') → Evolves s s'.
Proof.
  unfold applyZonePlan. intros (row & s0 & [_ ->]%tx_query_Ok & Hrun)%tx_bind_Ok.
  apply tx_bind_Ok in Hrun as (item & s0 & [_ ->]%tx_query_Ok & Hrun).
  destruct (negb _); [unfold set_item, update_items in Hrun; tx_ok; by apply Evolves_frame, Frame_same|].
  destruct (_ && _); [unfold set_item, update_items in Hrun; tx_ok; by apply Evolves_frame, Frame_same|].
  apply tx_bind_Ok in Hrun as (zone & s0 & [_ ->]%tx_query_Ok & Hrun). cbv zeta in Hrun.
  destruct (apply_snapshot zone owner adopt) as [snapshot partial]. destruct (negb _); [done|].
  set (plan := zonePlanForApply template snapshot partial) in Hrun.
  apply tx_bind_Ok in Hrun as (u & s1 & Hm & Hrun).
  destruct (plan_changes plan) eqn:Echanges.
  - apply frame_mutations in Hm. cbn [negb] in Hrun.
    match type of Hrun with ?m s1 = _ => assert (ends (Frame [zid]) (raises [zid]) m) as He end.
    { do 3 (apply ends_bind; [apply _|tx_steps|intros ?]).
      apply (raises_apply_tail now zid (λ d i, (planned_counts plan i) <| si_DesiredRevision := Some d |>)). }
    apply He in Hrun as (s2 & Hf & Hb & Hr). eapply Evolves_bumped; [by etransitivity|exact Hr|exact Hb].
  - apply mutations_nothing in Hm as ->; [|done]. cbn [negb] in Hrun.
    match type of Hrun with ?m s = _ => assert (steps (Frame []) m) as Hs end.
    { tx_steps; auto with tx_steps. }
    by apply Evolves_frame, (Hs _ _ _ Hrun).
Qed.

(** ** Zones and records made without being asked *)

Lemma frame_upsert_zone serial ownerID siteID domain address mode revision s id s' :
  upsert_zone serial ownerID siteID domain address mode revision s = Ok (id, s') → Frame [id] s s'.
Proof.
  unfold upsert_zone. intros (zones & s0 & Hz & Hrun)%tx_bind_Ok. unfold tx_read in Hz. injection Hz as <- <-.
  apply tx_bind_Ok in Hrun as (next & s0 & Hn & Hrun). unfold tx_read in Hn. injection Hn as <- <-.
  destruct (rows_where _ (db_Zones s)) as [|z zs]; cbv zeta in Hrun.
  - tx_ok. apply frame_append_zone; [constructor|discriminate].
  - apply tx_bind_Ok in Hrun as (u & s1 & Hu & Hrun). tx_ok. transitivity s1; [|by apply Frame_same].
    match type of Hu with update_zones ?p ?f _ = _ => apply (frame_update_zones [zr_ID z] p f) in Hu; [done| |done] end.
    keep_zone.
Qed.

Lemma frame_instantiate zid owner templateID revision domain subdomain address ipv6 :
  steps (Frame [zid]) (instantiateDNSTemplateTx zid owner templateID revision domain subdomain address ipv6).
Proof.
  unfold instantiateDNSTemplateTx, instantiate_record. tx_steps.
  destruct (normalizeDNSRecord _ _); [|apply steps_fail]. tx_steps.
  destruct (ensureDNSRecordCompatibility _ _ _); [|apply steps_fail].
  apply frame_insert_record_or_nothing. constructor.
Qed.

Lemma frame_insert_services zid siteID add remove :
  steps (Frame [zid]) (insertServiceDNSRecordsTx zid siteID add remove).
Proof.
  unfold insertServiceDNSRecordsTx. tx_steps.
  - apply frame_delete_records. intros r Hr. bool_split. in_zone.
  - apply frame_insert_record_or_nothing. constructor.
Qed.
Hint Resolve frame_instantiate frame_insert_services : tx_steps.

Lemma frame_ensure zid siteID domain address : steps (Frame [zid]) (ensureSystemDNSRecordsTx zid siteID domain address).
Proof.
  unfold ensureSystemDNSRecordsTx. tx_steps. apply frame_insert_record_or_nothing. constructor.
Qed.
Hint Resolve frame_ensure : tx_steps.

Lemma frame_own_zone now ownerID site address s id s' :
  own_zone now ownerID site address s = Ok (id, s') → Frame [id] s s'.
Proof.
  unfold own_zone. intros (template & s0 & [_ ->]%tx_query_Ok & Hrun)%tx_bind_Ok. cbv zeta in Hrun.
  apply tx_bind_Ok in Hrun as (id' & s1 & Hz%frame_upsert_zone & Hrun).
  assert (id' = id) as -> by by repeat (apply tx_bind_Ok in Hrun as (? & ? & _ & Hrun); try injection Hrun as [= ->]).
  etransitivity; [exact Hz|].
  match type of Hrun with ?m s1 = _ => assert (steps (Frame [id]) m) as Hs by tx_steps end. by apply Hs in Hrun.
Qed.

Lemma frame_in_parent_zone site address zone subdomain s id s' :
  in_parent_zone site address zone subdomain s = Ok (id, s') → Frame [id] s s'.
Proof.
  intros Hrun. assert (id = zr_ID zone) as ->.
  { unfold in_parent_zone in Hrun. by repeat (apply tx_bind_Ok in Hrun as (? & ? & _ & Hrun); try injection Hrun as [= ->]). }
  assert (steps (Frame [zr_ID zone]) (in_parent_zone site address zone subdomain)) as Hs by (unfold in_parent_zone; tx_steps).
  by apply Hs in Hrun.
Qed.

Lemma frame_parent_zone zs site : steps (Frame zs) (parent_zone site).
Proof. unfold parent_zone. tx_steps. destruct (rows_where _ _); tx_steps. Qed.

Lemma configure_evolves database river now ownerID domain address s a s' :
  ConfigureDNS database river now ownerID domain address s = Ok (a, s') → Evolves s s'.
Proof.
  unfold ConfigureDNS. destruct (not_ipv4 address); [done|].
  destruct (negb database); [done|]. destruct (negb river); [done|].
  intros (site & s0 & [_ ->]%tx_query_Ok & Hrun)%tx_bind_Ok.
  apply tx_bind_Ok in Hrun as (parent & s1 & Hparent & Hrun). apply tx_bind_Ok in Hrun as (id & s2 & Hzone & Hrun).
  apply (frame_parent_zone [id]) in Hparent.
  assert (Frame [id] s1 s2) as Hf by (destruct parent as [placed|]; [by eapply frame_in_parent_zone|by eapply frame_own_zone]).
  apply tx_bind_Ok in Hrun as (u & s3 & Hs%(frame_update_sites [id]) & Hrun).
  apply tx_bind_Ok in Hrun as (v & s4 & [Hb Hr]%enqueueDNSZoneTx_raised & Hret). injection Hret as _ <-.
  eapply (Evolves_bumped [id]); [|by intros zid ->%list_elem_of_singleton|exact Hb].
  by repeat (etransitivity; [eassumption|]).
Qed.

Lemma reconcile_evolves river now siteID s a s' : ReconcileSiteDNS river now siteID s = Ok (a, s') → Evolves s s'.
Proof.
  unfold ReconcileSiteDNS. destruct (negb river); [done|].
  intros (served & s0 & Hread & Hrun)%tx_bind_Ok. unfold tx_read in Hread. injection Hread as <- <-.
  destruct (served_site siteID s) as [[site zone]|]; [|injection Hrun as _ <-; by apply Evolves_frame, Frame_same].
  cbv zeta in Hrun. cbn [fst snd] in Hrun.
  destruct (negb (String.eqb (zr_Mode zone) _)); [injection Hrun as _ <-; by apply Evolves_frame, Frame_same|].
  destruct (negb _ && _); [done|].
  apply tx_bind_Ok in Hrun as (plan & s0 & Hread & Hrun). unfold tx_read in Hread. injection Hread as _ <-.
  destruct (_ =? 0); [injection Hrun as _ <-; by apply Evolves_frame, Frame_same|].
  revert Hrun. apply (ends_evolves [zr_ID zone]). tx_ends.
Qed.

(** The row that was read is the row that is written. *)
Lemma raise_read_row zone serial s :
  zone_by_id (zr_ID zone) s = Ok zone →
  let s' := s <| db_Zones := rows_update (λ z, zr_ID z =? zr_ID zone)
      (λ z, z <| zr_Serial := serial |> <| zr_DesiredRevision := zr_DesiredRevision zone + 1 |> <| zr_Status := "pending" |>
              <| zr_LastError := "" |>) (db_Zones s) |> in
  Frame [] s s' ∧ zone_by_id (zr_ID zone) s' = Ok (zone <| zr_Serial := serial |>
      <| zr_DesiredRevision := zr_DesiredRevision zone + 1 |> <| zr_Status := "pending" |> <| zr_LastError := "" |>).
Proof.
  intros Hz. cbv zeta. split.
  - apply frame_zones_by_id; [|done]. intros y Hy. assert (y = zone) as -> by congruence.
    split; [done|]. split; [cbn; lia|]. split; [discriminate|by right].
  - unfold zone_by_id in *. cbn. erewrite query_where_update; [|by intros r Hr|exact Hz]. by rewrite Z.eqb_refl.
Qed.

Definition same_zones (s s' : DNSStore) : Prop := db_Zones s' = db_Zones s.
#[export] Instance same_zones_preorder : PreOrder same_zones.
Proof. split; [by intros s|]. intros s1 s2 s3 ? ?. unfold same_zones in *. congruence. Qed.

Lemma zones_insert_or_nothing record : steps same_zones (insert_record_or_nothing record).
Proof. intros s a s' Hi. unfold insert_record_or_nothing in Hi. tx_ok. by destruct (existsb _ _); tx_ok. Qed.

Lemma address_evolves now siteID site zone s a s' :
  zone_by_id (zr_ID zone) s = Ok zone → configure_address now siteID site zone s = Ok (a, s') → Evolves s s'.
Proof.
  intros Hz. unfold configure_address. cbv zeta. destruct (_ || _); [done|].
  intros (existing & s0 & Hread & Hrun)%tx_bind_Ok. unfold tx_read in Hread. injection Hread as _ <-.
  apply tx_bind_Ok in Hrun as (missing & s0 & [_ ->]%tx_lift_Ok & Hrun).
  destruct missing as [|r rest]; [injection Hrun as _ <-; by apply Evolves_frame, Frame_same|].
  apply tx_bind_Ok in Hrun as (u & s1 & Hi & Hrun).
  assert (db_Zones s1 = db_Zones s) as Ez.
  { revert Hi. apply (steps_each same_zones). intros x. apply zones_insert_or_nothing. }
  assert (Frame [zr_ID zone] s s1) as Hf.
  { revert Hi. apply (steps_each (Frame [zr_ID zone])). intros x. apply frame_insert_record_or_nothing. constructor. }
  apply tx_bind_Ok in Hrun as (format & s0 & Hread & Hrun). unfold tx_read in Hread. injection Hread as _ <-.
  apply tx_bind_Ok in Hrun as (serial & s0 & [_ ->]%tx_lift_Ok & Hrun).
  apply tx_bind_Ok in Hrun as (v & s2 & ->%update_zones_run & Hj).
  destruct (raise_read_row zone serial s1) as [Hf2 Hz2]; [unfold zone_by_id in *; by rewrite Ez|].
  set (s2 := _ <| db_Zones := _ |>) in *. apply (frame_insert_job []) in Hj as Hf3. unfold insert_job in Hj. tx_ok.
  eapply (Evolves_bumped [zr_ID zone]); [exact Hf| |etransitivity; [exact Hf2|exact Hf3]].
  intros zid ->%list_elem_of_singleton. eexists _, false. split; [exact Hz2|]. split.
  - intros y Hy. assert (zone_by_id (zr_ID zone) s1 = Ok zone) by (unfold zone_by_id in *; by rewrite Ez).
    assert (y = zone) as -> by congruence. cbn. lia.
  - cbn. apply elem_of_app. right. constructor.
Qed.

(** Nothing to do, or the address of the site under its parent's zone. *)
Lemma auto_cases configured now siteID s a s' :
  NoDup (zr_ID <$> db_Zones s) → AutoConfigureSubdomainDNS configured now siteID s = Ok (a, s') →
  s' = s ∨ ∃ site zone, zone_by_id (zr_ID zone) s = Ok zone ∧ configure_address now siteID site zone s = Ok (a, s').
Proof.
  intros Hnd. unfold AutoConfigureSubdomainDNS. destruct (negb configured); [done|].
  intros (sites & s0 & Hread & Hrun)%tx_bind_Ok. unfold tx_read in Hread. injection Hread as <- <-.
  destruct (rows_where _ (db_Sites s)) as [|site rest]; [done|].
  destruct (_ || _); [injection Hrun as _ <-; by left|].
  apply tx_bind_Ok in Hrun as (zones & s0 & Hread & Hrun). unfold tx_read in Hread. injection Hread as <- <-.
  destruct (rows_where _ (db_Zones s)) as [|zone more] eqn:Ezones; [injection Hrun as _ <-; by left|].
  destruct (negb _); [injection Hrun as _ <-; by left|]. right. exists site, zone. split; [|done].
  apply query_unique; [done| |done].
  assert (zone ∈ zone :: more) as Hin by constructor. rewrite <- Ezones in Hin. by apply rows_where_elem in Hin as [_ ?].
Qed.

Lemma auto_evolves configured now siteID s a s' :
  NoDup (zr_ID <$> db_Zones s) → AutoConfigureSubdomainDNS configured now siteID s = Ok (a, s') → Evolves s s'.
Proof.
  intros Hnd [->|(site & zone & Hz & Hrun)]%auto_cases; [by apply Evolves_frame, Frame_same| |done].
  by eapply address_evolves.
Qed.

End Edits.

(** * Properties *)

(** A handler that may change the records of a zone, with its arguments. *)
Inductive ZoneEdit :=
| EditUpsert (now siteID : Z) (record : DNSRecord)
| EditDelete (now siteID recordID : Z)
| EditRestore (now siteID recordID : Z)
| EditReset (now siteID : Z) (confirmation : string)
| EditMode (now siteID : Z) (input : DNSZoneModeInput)
| EditSOA (now siteID expected : Z) (settings : option DNSSOASettings) (cidrs : option (list string))
| EditSubdomain (now siteID expected : Z) (mode : string)
| EditConfigure (now ownerID : Z) (domain address : string)
| EditReconcile (now siteID : Z)
| EditSubdomainAddress (now siteID : Z)
| EditApply (now runID : Z) (scope : string) (template : DNSTemplateRevision) (zoneID ownerSiteID : Z) (adopt : bool).

Definition run_edit `{GoUnicode} `{GoMapOrder} `{Collation} (fingerprint : fingerprintData → string)
    (e : ZoneEdit) : tx DNSStore unit :=
  match e with
  | EditUpsert now siteID record => UpsertDNSRecord true now siteID record
  | EditDelete now siteID recordID => DeleteDNSRecord true now siteID recordID
  | EditRestore now siteID recordID => RestoreRecord true now siteID recordID
  | EditReset now siteID confirmation => ResetZone now siteID confirmation
  | EditMode now siteID input => SetZoneMode true now siteID input
  | EditSOA now siteID expected settings cidrs => SetZoneSOA true now siteID expected settings cidrs
  | EditSubdomain now siteID expected mode => SetSubdomainZoneMode true now siteID expected mode
  | EditConfigure now ownerID domain address => let! _ := ConfigureDNS true true now ownerID domain address in tx_ret ()
  | EditReconcile now siteID => ReconcileSiteDNS true now siteID
  | EditSubdomainAddress now siteID => AutoConfigureSubdomainDNS true now siteID
  | EditApply now runID scope template zoneID ownerSiteID adopt =>
      applyZonePlan fingerprint now runID scope template zoneID ownerSiteID adopt
  end.

Lemma edit_evolves `{GoUnicode} `{GoMapOrder} `{Collation} (fingerprint : fingerprintData → string) e s a s' :
  NoDup (rec_ID <$> db_Records s) → NoDup (zr_ID <$> db_Zones s) → run_edit fingerprint e s = Ok (a, s') → Evolves s s'.
Proof.
  intros Hrec Hzones E. destruct e; cbn [run_edit] in E;
    [by eapply upsert_evolves|by eapply delete_evolves|by eapply restore_evolves|by eapply reset_evolves
    |by eapply mode_evolves|by eapply soa_evolves|by eapply subdomain_evolves| |by eapply reconcile_evolves
    |by eapply auto_evolves|by eapply apply_evolves].
  apply tx_bind_Ok in E as (id & s1 & E & Hret). injection Hret as _ <-. by eapply configure_evolves.
Qed.

(** C3. No change of DNS data is left behind. Whatever a handler does to a zone
    (the edited zone, or the parent and the child when a subdomain moves), its
    records or its configuration, the same transaction raises that zone's desired
    revision and queues the job that carries exactly the raised revision; and a
    handler that fails changes nothing. *)
Theorem zone_edits_converge `{GoUnicode} `{GoMapOrder} `{Collation} (fingerprint : fingerprintData → string)
    (e : ZoneEdit) (s : DNSStore) :
  NoDup (rec_ID <$> db_Records s) → NoDup (zr_ID <$> db_Zones s) →
  let outcome := run_tx (run_edit fingerprint e) s in
  if is_ok (fst outcome) then converges s (snd outcome) else snd outcome = s.
Proof.
  intros Hrec Hzones. cbv zeta. unfold run_tx. destruct (run_edit fingerprint e s) as [[[] s']|err] eqn:E; [|done]. cbn [is_ok fst snd].
  apply edit_evolves in E as [? _]; done.
Qed.

(** * Witnesses *)

Module StoreSamples.

#[export] Instance byte_order : Collation := String.leb.

Definition revision : DNSTemplateRevision :=
  zero_DNSTemplateRevision <| tpl_ID := 1 |> <| tpl_Revision := 1 |>
    <| tpl_SOA := mkDNSSOASettings "ns1.<domain>" "hostmaster.<domain>" "unix" 3600 3600 900 604800 300 |>
    <| tpl_ZoneStatus := "active" |> <| tpl_SubdomainPolicy := "parent" |>
    <| tpl_Records := [mkDNSTemplateRecord 1 "apex-a" "all" "@" "A" "<ip.web>" 0 0 0 3600;
                       mkDNSTemplateRecord 2 "www-a" "root" "www" "A" "<ip.web>" 0 0 0 3600] |>.

Definition zone : ZoneRow :=
  mkZoneRow 10 7 100 0 "example.com" "192.0.2.1" "" 1000 "active" "primary" [] None None 1 "in_sync" 5 5 "" "".

Definition site : DNSSite := mkDNSSite 100 1 "example.com" 0 "parent" true "active" "none".
Definition shop : DNSSite := mkDNSSite 101 1 "shop.example.com" 100 "parent" true "active" "none".

Definition row id host type value key : DNSRecord :=
  zero_DNSRecord <| rec_ID := id |> <| rec_ZoneID := 10 |> <| rec_OwnerSiteID := 100 |> <| rec_Host := host |>
    <| rec_Type := type |> <| rec_Value := value |> <| rec_TTL := 3600 |> <| rec_Origin := "template" |>
    <| rec_TemplateRecordKey := key |> <| rec_TemplateRevision := 1 |>.

Definition records : list DNSRecord :=
  [row 1 "@" "A" "192.0.2.1" "apex-a"; row 2 "www" "A" "192.0.2.1" "www-a";
   (row 3 "shop" "A" "192.0.2.1" "apex-a") <| rec_OwnerSiteID := 101 |>].

Definition db : DNSStore :=
  mkDNSStore 1 1 1 [revision] [zone] records [] [site; shop] [] [] [mkMailDomain 100 true false "in_sync" ""]
    (Some "panel.example.com") [] [] 2 3 11 4 1 1 [] 0.

Definition edit : ZoneEdit :=
  EditUpsert 2000 100 (zero_DNSRecord <| rec_Host := "blog" |> <| rec_Type := "A" |> <| rec_Value := "192.0.2.9" |>).

Definition move : ZoneEdit := EditSubdomain 2000 101 5 "separate".

Definition after (e : ZoneEdit) : DNSStore :=
  snd (run_tx (@run_edit ascii_only insertion_order byte_order (λ _, "") e) db).

End StoreSamples.

(** The edit succeeds, adds a record, and queues revision 6 of the zone; the move
    of the subdomain changes two zones and queues both. *)
Lemma zone_edits_converge_witness :
  raised 10 StoreSamples.db (StoreSamples.after StoreSamples.edit) ∧
  raised 11 StoreSamples.db (StoreSamples.after StoreSamples.move) ∧
  db_Jobs (StoreSamples.after StoreSamples.move) =
    [ConfigureMailArgs; ConfigureDNSZoneArgs 10 6 false; ConfigureDNSZoneArgs 11 2 false].
Proof.
  assert (NoDup (rec_ID <$> db_Records StoreSamples.db)) as Hnd by (apply (bool_decide_unpack _); vm_compute; done).
  assert (NoDup (zr_ID <$> db_Zones StoreSamples.db)) as Hzones by (apply (bool_decide_unpack _); vm_compute; done).
  pose proof (@zone_edits_converge ascii_only insertion_order StoreSamples.byte_order (λ _, "") StoreSamples.edit
      StoreSamples.db Hnd Hzones) as Hedit.
  pose proof (@zone_edits_converge ascii_only insertion_order StoreSamples.byte_order (λ _, "") StoreSamples.move
      StoreSamples.db Hnd Hzones) as Hmove.
  cbv zeta in Hedit, Hmove.
  assert (is_ok (fst (run_tx (@run_edit ascii_only insertion_order StoreSamples.byte_order (λ _, "") StoreSamples.edit)
    StoreSamples.db)) = true) as E1 by (vm_compute; reflexivity).
  assert (is_ok (fst (run_tx (@run_edit ascii_only insertion_order StoreSamples.byte_order (λ _, "") StoreSamples.move)
    StoreSamples.db)) = true) as E2 by (vm_compute; reflexivity).
  rewrite E1 in Hedit. rewrite E2 in Hmove.
  split; [|split; [|vm_compute; reflexivity]].
  - apply Hedit. vm_compute. discriminate.
  - apply Hmove. vm_compute. discriminate.
Defined.
