(* ===== verification/DNSInvariant.v ===== *)
(** * The invariant of the DNS tables

    What holds of the tables in every state the handlers, the synchronisation
    worker and the zone worker can reach: the keys are unique, no two records
    say the same thing, and a zone never counts more revisions applied than were
    asked for. *)

From S2P Require Import Prelude Tx Tables GoStr Site DNSTypes DNSRecord DNSPlan DNSTables DNSTemplateStore DNSZoneStore DNSSync DNSEdit DNSProvision DNSStoreFacts DNSConverge.

Definition item_key (i : SyncItem) : Z * Z := (si_RunID i, si_ZoneID i).

Record StoreOk (s : DNSStore) : Prop := {
  ok_records : keys_ok rec_ID (db_Records s) (db_RecordSeq s);
  ok_distinct : ∀ r r', r ∈ db_Records s → r' ∈ db_Records s → rec_ID r ≠ rec_ID r' → collides r r' = false;
  ok_zones : keys_ok zr_ID (db_Zones s) (db_ZoneSeq s);
  ok_runs : keys_ok sr_ID (db_Runs s) (db_RunSeq s);
  ok_items : NoDup (item_key <$> db_Items s);
  ok_item_runs : Forall (λ i, si_RunID i < db_RunSeq s) (db_Items s);
  ok_applied : Forall (λ z, 0 ≤ zr_DesiredRevision z ∧ zr_AppliedRevision z ≤ zr_DesiredRevision z) (db_Zones s);
}.

Definition Keeps (s s' : DNSStore) : Prop := StoreOk s → StoreOk s'.

#[export] Instance Keeps_preorder : PreOrder Keeps.
Proof. split; [by intros s Hs|]. intros s1 s2 s3 H12 H23 Hs. auto. Qed.

(** ** Statements *)

Section Statements.

Lemma collides_sym a b : collides a b = collides b a.
Proof.
  unfold collides, same_identity, same_template_key.
  rewrite (Z.eqb_sym (rec_ZoneID a)), (String.eqb_sym (rec_Host a)), (String.eqb_sym (rec_Type a)),
    (String.eqb_sym (rec_Value a)), (Z.eqb_sym (rec_Priority a)), (Z.eqb_sym (rec_Weight a)),
    (Z.eqb_sym (rec_Port a)), (Z.eqb_sym (rec_OwnerSiteID a) (rec_OwnerSiteID b)),
    (String.eqb_sym (rec_TemplateRecordKey a) (rec_TemplateRecordKey b)).
  f_equal. destruct (String.eqb (rec_Origin a) "template") eqn:Ea, (String.eqb (rec_Origin b) "template"); cbn; [|done..].
  destruct (rec_ZoneID b =? rec_ZoneID a), (Z.eqb_spec (rec_OwnerSiteID b) (rec_OwnerSiteID a)) as [->|];
    rewrite ?andb_false_r; cbn; try done.
  destruct (String.eqb_spec (rec_TemplateRecordKey b) (rec_TemplateRecordKey a)) as [->|]; rewrite ?andb_false_r; done.
Qed.

(** Other tables: those with no invariant. *)
Lemma keeps_write f :
  (∀ s, db_Records (f s) = db_Records s ∧ db_RecordSeq (f s) = db_RecordSeq s ∧ db_Zones (f s) = db_Zones s ∧
        db_ZoneSeq (f s) = db_ZoneSeq s ∧ db_Runs (f s) = db_Runs s ∧ db_RunSeq (f s) = db_RunSeq s ∧
        db_Items (f s) = db_Items s) → steps Keeps (tx_write f).
Proof.
  intros Hf. apply steps_write. intros s. destruct (Hf s) as (E1 & E2 & E3 & E4 & E5 & E6 & E7).
  intros []. by split; rewrite ?E1, ?E2, ?E3, ?E4, ?E5, ?E6, ?E7.
Qed.

Lemma zones_updated s p f :
  (∀ z, p z = true → zr_ID (f z) = zr_ID z) →
  (∀ z, z ∈ db_Zones s → p z = true → 0 ≤ zr_DesiredRevision z ∧ zr_AppliedRevision z ≤ zr_DesiredRevision z →
        0 ≤ zr_DesiredRevision (f z) ∧ zr_AppliedRevision (f z) ≤ zr_DesiredRevision (f z)) →
  StoreOk s → StoreOk (s <| db_Zones := rows_update p f (db_Zones s) |>).
Proof.
  intros Hid Hf []. split; cbn; try done.
  - destruct ok_zones0 as [Hnd Hlt]. split; [by rewrite fmap_rows_update|].
    apply Forall_forall. intros r (r0 & Hr0 & ->)%rows_update_elem. rewrite Forall_forall in Hlt.
    destruct (p r0) eqn:Ep; rewrite ?Hid; auto.
  - rewrite Forall_forall in *. intros r (r0 & Hr0 & ->)%rows_update_elem.
    destruct (p r0) eqn:Ep; [apply Hf|]; auto.
Qed.

Lemma keeps_update_zones p f :
  (∀ z, p z = true → zr_ID (f z) = zr_ID z) →
  (∀ z, p z = true → 0 ≤ zr_DesiredRevision z ∧ zr_AppliedRevision z ≤ zr_DesiredRevision z →
        0 ≤ zr_DesiredRevision (f z) ∧ zr_AppliedRevision (f z) ≤ zr_DesiredRevision (f z)) →
  steps Keeps (update_zones p f).
Proof. intros Hid Hf. apply steps_write. intros s Hs. apply zones_updated; auto. Qed.

Lemma keeps_update_sites p f : steps Keeps (update_sites p f).
Proof. by apply keeps_write. Qed.

Lemma keeps_insert_job job : steps Keeps (insert_job job).
Proof. by apply keeps_write. Qed.

Lemma keeps_update_runs p f : (∀ r, sr_ID (f r) = sr_ID r) → steps Keeps (update_runs p f).
Proof. intros Hf. apply steps_write. intros s []. split; cbn; try done. by apply keys_update. Qed.

Lemma keeps_update_items p f :
  (∀ i, item_key (f i) = item_key i) → steps Keeps (update_items p f).
Proof.
  intros Hf. apply steps_write. intros s []. split; cbn; try done.
  - by rewrite fmap_rows_update by auto.
  - apply Forall_forall. intros r (r0 & Hr0 & ->)%rows_update_elem. rewrite Forall_forall in ok_item_runs0.
    destruct (p r0); [|auto]. assert (si_RunID (f r0) = si_RunID r0) as -> by (specialize (Hf r0); unfold item_key in Hf; congruence).
    auto.
Qed.

Lemma keeps_delete_records p : steps Keeps (delete_records p).
Proof.
  intros s a s' Hd []. unfold delete_records in Hd. tx_ok. split; cbn; try done; [by apply keys_delete|].
  intros r r' [_ Hr]%rows_delete_elem [_ Hr']%rows_delete_elem. auto.
Qed.

Lemma keeps_append record s : existsb (collides record) (db_Records s) = false → Keeps s (append_record record s).
Proof.
  intros Hnew []. assert (∀ r, r ∈ db_Records s → collides record r = false) as Hn.
  { intros r Hr. apply not_true_iff_false. intros Hc. apply not_true_iff_false in Hnew. apply Hnew.
    apply existsb_exists. exists r. split; [by apply list_elem_of_In|done]. }
  split; cbn; try done; [by apply keys_append|].
  intros r r' [Hr| ->%list_elem_of_singleton]%elem_of_app [Hr'| ->%list_elem_of_singleton]%elem_of_app Hne;
    [auto| | |done].
  - rewrite collides_sym. by apply Hn.
  - by apply Hn.
Qed.

Lemma keeps_insert_record record : steps Keeps (insert_record record).
Proof. intros s a s' Hi. unfold insert_record in Hi. tx_ok. by apply keeps_append. Qed.

Lemma keeps_insert_or_nothing record : steps Keeps (insert_record_or_nothing record).
Proof.
  intros s a s' Hi. unfold insert_record_or_nothing in Hi. tx_ok. destruct (existsb _ _) eqn:E; tx_ok.
  - intros []. split; cbn; try done. by apply keys_next.
  - by apply keeps_append.
Qed.

(** One row by its identifier. *)
Lemma keeps_update_records p f id :
  (∀ r, p r = true → rec_ID r = id) → (∀ r, rec_ID (f r) = rec_ID r) → steps Keeps (update_records p f).
Proof.
  intros Hp Hf s a s' Hu []. unfold update_records in Hu. tx_ok. split; cbn; try done; [by apply keys_update|].
  assert (∀ r r', r ∈ db_Records s → r' ∈ db_Records s → p r = true → rec_ID r' ≠ rec_ID r → collides (f r) r' = false) as Hc.
  { intros r r' Hr Hr' Hpr Hne. apply not_true_iff_false. intros Hcol. apply not_true_iff_false in E. apply E.
    apply existsb_exists. exists r. split; [by apply list_elem_of_In|]. rewrite Hpr. cbn. apply existsb_exists.
    exists r'. split; [by apply list_elem_of_In|]. rewrite Hcol, andb_true_r. by apply negb_true_iff, Z.eqb_neq. }
  intros r r' (r0 & Hr & ->)%rows_update_elem (r0' & Hr' & ->)%rows_update_elem.
  destruct (p r0) eqn:Ep, (p r0') eqn:Ep'; rewrite ?Hf; intros Hne; [|by apply Hc| |auto].
  - by rewrite (Hp _ Ep), (Hp _ Ep') in Hne.
  - rewrite collides_sym. apply Hc; [done..|congruence].
Qed.

Lemma keeps_insert_run run : steps Keeps (insert_run run).
Proof.
  intros s a s' Hi []. unfold insert_run in Hi. tx_ok. split; cbn; try done; [by apply keys_append|].
  eapply Forall_impl; [exact ok_item_runs0|]. cbn. lia.
Qed.

Lemma keeps_query {A} (f : DNSStore → result A) : steps Keeps (tx_query f).
Proof. apply steps_query, _. Qed.

End Statements.

#[export] Hint Resolve keeps_update_sites keeps_insert_job keeps_delete_records keeps_insert_record
  keeps_insert_or_nothing keeps_insert_run keeps_query : tx_steps.

(** ** Handlers *)

Section Handlers.
Context `{GoUnicode} `{GoMapOrder} `{Collation}.
Context (fingerprint : fingerprintData → string).

Lemma keeps_refresh zid : steps Keeps (refreshZoneTemplateStatusTx zid).
Proof. unfold refreshZoneTemplateStatusTx. tx_steps. destruct (rows_where _ _); tx_steps. by apply keeps_update_zones. Qed.

Lemma keeps_mail ids : steps Keeps (EnqueueMailDNSRecheckTx ids).
Proof. unfold EnqueueMailDNSRecheckTx. tx_steps; by apply keeps_write. Qed.

Lemma keeps_bump now zid : steps Keeps (bump_zone now zid).
Proof. unfold bump_zone. tx_steps. apply keeps_update_zones; [done|]. cbn. lia. Qed.

Lemma keeps_complete_adoption siteID children : steps Keeps (complete_adoption siteID children).
Proof. apply keeps_update_sites. Qed.

Lemma keeps_template_revision zid revision : steps Keeps (set_template_revision zid revision).
Proof. by apply keeps_update_zones. Qed.

Lemma keeps_mutations zid revision plan : steps Keeps (applyZonePlanMutationsTx zid revision plan).
Proof.
  unfold applyZonePlanMutationsTx. tx_steps; eapply keeps_update_records; try done; intros r Hr;
    [unfold plan_updates in Hr|unfold plan_adopts in Hr]; bool_split; eassumption.
Qed.

Hint Resolve keeps_refresh keeps_mail keeps_bump keeps_complete_adoption keeps_template_revision keeps_mutations : tx_steps.

Lemma keeps_enqueueZone now zid bulk : steps Keeps (enqueueZoneTx now zid bulk).
Proof. unfold enqueueZoneTx. tx_steps. Qed.

Lemma keeps_enqueueTwo now zid1 zid2 bulk : steps Keeps (enqueueTwoZonesTx now zid1 zid2 bulk).
Proof. unfold enqueueTwoZonesTx. tx_steps. Qed.

Lemma keeps_enqueueDNS now zid mark : steps Keeps (enqueueDNSZoneTx now zid mark).
Proof.
  unfold enqueueDNSZoneTx. intros s a s' (zone & s0 & [Hzone ->]%tx_query_Ok & Hrun)%tx_bind_Ok.
  apply tx_bind_Ok in Hrun as (revision & s0 & [_ ->]%tx_query_Ok & Hrun).
  apply tx_bind_Ok in Hrun as (serial & s0 & [_ ->]%tx_lift_Ok & Hrun). cbv zeta in Hrun.
  apply tx_bind_Ok in Hrun as (u & s1 & Hu%update_zones_run & Hjob%keeps_insert_job).
  apply zone_by_id_Ok in Hzone as [Hzone Hid]. intros Hs. apply Hjob. subst s1. apply zones_updated; [done| |done].
  intros z Hz Hzid%Z.eqb_eq. rewrite (keys_same _ _ _ _ _ (ok_zones _ Hs) Hz Hzone); [cbn; lia|congruence].
Qed.

Lemma keeps_preserve zone siteID recordID : steps Keeps (preserve_deletion zone siteID recordID).
Proof. by apply keeps_write. Qed.

Lemma keeps_move_deletions z1 z2 owner : steps Keeps (moveDNSDeletionsTx z1 z2 owner).
Proof. by apply keeps_write. Qed.

Lemma keeps_move_records where_ zid existing moved : steps Keeps (move_records where_ zid existing moved).
Proof.
  unfold move_records, move_record. destruct (validateDNSRecordSet _); [|apply steps_fail]. tx_steps.
  match goal with |- steps _ (update_records (λ r, rec_ID r =? rec_ID ?x) _) =>
    apply keeps_update_records with (id := rec_ID x); [by intros r ?%Z.eqb_eq|done] end.
Qed.

Lemma keeps_child_zone now siteID ownerID parent domain address ipv6 mode revision :
  steps Keeps (child_zone now siteID ownerID parent domain address ipv6 mode revision).
Proof.
  intros s a s' Hrun. unfold child_zone in Hrun.
  apply tx_bind_Ok in Hrun as (db & s0 & Hread & Hrun). unfold tx_read in Hread. injection Hread as <- <-.
  destruct (rows_where _ (db_Zones s)) as [|z zs]; [|by tx_ok]. cbv zeta in Hrun. tx_ok.
  intros []. split; cbn; try done; [by apply keys_append|].
  apply Forall_app. split; [done|]. apply Forall_singleton. cbn. lia.
Qed.

Hint Resolve keeps_enqueueZone keeps_enqueueTwo keeps_enqueueDNS keeps_preserve keeps_move_deletions
  keeps_move_records keeps_child_zone : tx_steps.

Lemma keeps_upsert configured now siteID record : steps Keeps (UpsertDNSRecord configured now siteID record).
Proof.
  unfold UpsertDNSRecord. tx_steps. eapply keeps_update_records; [|done].
  intros r Hr. unfold editable in Hr. bool_split. eassumption.
Qed.

Lemma keeps_delete configured now siteID recordID : steps Keeps (DeleteDNSRecord configured now siteID recordID).
Proof. unfold DeleteDNSRecord. tx_steps. Qed.

Lemma keeps_restore river now siteID recordID : steps Keeps (RestoreRecord river now siteID recordID).
Proof.
  unfold RestoreRecord. tx_steps. eapply keeps_update_records; [|done]. intros r Hr. bool_split. eassumption.
Qed.

Lemma keeps_reset now siteID confirmation : steps Keeps (ResetZone now siteID confirmation).
Proof. unfold ResetZone. tx_steps. by apply keeps_write. Qed.

Lemma keeps_mode river now siteID input : steps Keeps (SetZoneMode river now siteID input).
Proof. unfold SetZoneMode. tx_steps. by apply keeps_update_zones. Qed.

Lemma keeps_soa river now siteID expected settings cidrs :
  steps Keeps (SetZoneSOA river now siteID expected settings cidrs).
Proof. unfold SetZoneSOA. tx_steps. by apply keeps_update_zones. Qed.

Lemma keeps_subdomain river now siteID expected mode :
  steps Keeps (SetSubdomainZoneMode river now siteID expected mode).
Proof.
  unfold SetSubdomainZoneMode, moveToSeparateZoneTx, moveToParentZoneTx, set_site_mode.
  tx_steps; try (destruct (rows_where _ _)); tx_steps; by apply keeps_update_zones.
Qed.

(** *** New zones and automatic records *)

Lemma keeps_upsert_zone serial ownerID siteID domain address mode revision :
  steps Keeps (upsert_zone serial ownerID siteID domain address mode revision).
Proof.
  unfold upsert_zone. intros s a s' (zones & s0 & Hz & Hrun)%tx_bind_Ok. unfold tx_read in Hz. injection Hz as <- <-.
  apply tx_bind_Ok in Hrun as (next & s0 & Hn & Hrun). unfold tx_read in Hn. injection Hn as <- <-.
  destruct (rows_where _ (db_Zones s)) as [|z zs]; cbv zeta in Hrun.
  - tx_ok. intros []. split; cbn; try done; [by apply keys_append|].
    apply Forall_app. split; [done|]. apply Forall_singleton. cbn. lia.
  - apply tx_bind_Ok in Hrun as (u & s1 & Hu & Hrun). tx_ok. intros Hs.
    assert (db_ZoneSeq s1 = db_ZoneSeq s) as Eseq by (apply update_zones_run in Hu as ->; done).
    assert (StoreOk s1) as [].
    { revert Hs. change (Keeps s s1). revert Hu. apply keeps_update_zones; [done|]. cbn. lia. }
    rewrite Eseq in *. split; cbn; try done. by apply keys_next.
Qed.

Lemma keeps_instantiate zid owner templateID revision domain subdomain address ipv6 :
  steps Keeps (instantiateDNSTemplateTx zid owner templateID revision domain subdomain address ipv6).
Proof.
  unfold instantiateDNSTemplateTx, instantiate_record. tx_steps.
  destruct (normalizeDNSRecord _ _); [|apply steps_fail]. tx_steps.
  destruct (ensureDNSRecordCompatibility _ _ _); [|apply steps_fail]. tx_steps.
Qed.

Lemma keeps_insert_services zid siteID add remove : steps Keeps (insertServiceDNSRecordsTx zid siteID add remove).
Proof. unfold insertServiceDNSRecordsTx. tx_steps. Qed.
Hint Resolve keeps_upsert_zone keeps_instantiate keeps_insert_services : tx_steps.

Lemma keeps_ensure zid siteID domain address : steps Keeps (ensureSystemDNSRecordsTx zid siteID domain address).
Proof. unfold ensureSystemDNSRecordsTx. tx_steps. Qed.
Hint Resolve keeps_ensure : tx_steps.

Lemma keeps_configure database river now ownerID domain address :
  steps Keeps (ConfigureDNS database river now ownerID domain address).
Proof.
  unfold ConfigureDNS, parent_zone, own_zone, in_parent_zone. tx_steps. destruct (rows_where _ _); tx_steps.
Qed.

Lemma keeps_reconcile river now siteID : steps Keeps (ReconcileSiteDNS river now siteID).
Proof. unfold ReconcileSiteDNS. tx_steps. Qed.

Lemma keeps_address now siteID site zone s a s' :
  zone_by_id (zr_ID zone) s = Ok zone → configure_address now siteID site zone s = Ok (a, s') → Keeps s s'.
Proof.
  intros Hz. unfold configure_address. cbv zeta. destruct (_ || _); [done|].
  intros (existing & s0 & Hread & Hrun)%tx_bind_Ok. unfold tx_read in Hread. injection Hread as _ <-.
  apply tx_bind_Ok in Hrun as (missing & s0 & [_ ->]%tx_lift_Ok & Hrun).
  destruct missing as [|r rest]; [by injection Hrun as _ <-|].
  apply tx_bind_Ok in Hrun as (u & s1 & Hi & Hrun).
  assert (zone_by_id (zr_ID zone) s1 = Ok zone) as Hz1.
  { assert (same_zones s s1) as Ez by (revert Hi; apply (steps_each same_zones); intros x; apply zones_insert_or_nothing).
    unfold zone_by_id in *. by rewrite Ez. }
  assert (Keeps s s1) as Hk by (revert Hi; apply (steps_each Keeps); intros x; apply keeps_insert_or_nothing).
  apply tx_bind_Ok in Hrun as (format & s0 & Hread & Hrun). unfold tx_read in Hread. injection Hread as _ <-.
  apply tx_bind_Ok in Hrun as (serial & s0 & [_ ->]%tx_lift_Ok & Hrun).
  apply tx_bind_Ok in Hrun as (v & s2 & ->%update_zones_run & Hj%keeps_insert_job).
  apply zone_by_id_Ok in Hz1 as [Hin _]. intros Hs%Hk. apply Hj, zones_updated; [done| |done].
  intros y Hy Hid%Z.eqb_eq. rewrite (keys_same _ _ _ _ _ (ok_zones _ Hs) Hy Hin Hid). cbn. lia.
Qed.

Lemma keeps_auto configured now siteID : steps Keeps (AutoConfigureSubdomainDNS configured now siteID).
Proof.
  intros s a s' Hrun Hs. apply auto_cases in Hrun as [->|(site & zone & Hz & Hrun)]; [done| |apply (ok_zones _ Hs)].
  by apply (keeps_address _ _ _ _ _ _ _ Hz Hrun).
Qed.

Lemma keeps_apply now runID scope template zid owner adopt :
  steps Keeps (applyZonePlan fingerprint now runID scope template zid owner adopt).
Proof. unfold applyZonePlan, set_item. tx_steps; by apply keeps_update_items. Qed.

Lemma keeps_insertRevision actorID template : steps Keeps (insertRevisionTx actorID template).
Proof. unfold insertRevisionTx. tx_steps. by apply keeps_write. Qed.

Lemma keeps_activate id : steps Keeps (activate_revision id).
Proof. by apply keeps_write. Qed.

Lemma keeps_mark : steps Keeps markZonesOutOfSyncTx.
Proof. by apply keeps_update_zones. Qed.
Hint Resolve keeps_insertRevision keeps_activate keeps_mark : tx_steps.

Lemma keeps_createRevision actorID expected mutate : steps Keeps (createRevision actorID expected mutate).
Proof. unfold createRevision. tx_steps. Qed.

Lemma keeps_resetTemplate actorID expected : steps Keeps (ResetTemplate actorID expected).
Proof. unfold ResetTemplate. tx_steps. Qed.
End Handlers.

(** ** Runs *)

Definition KeepsRun (runID : Z) (s s' : DNSStore) : Prop :=
  StoreOk s ∧ runID < db_RunSeq s → StoreOk s' ∧ runID < db_RunSeq s'.

#[export] Instance KeepsRun_preorder runID : PreOrder (KeepsRun runID).
Proof. split; [by intros s Hs|]. intros s1 s2 s3 H12 H23 Hs. auto. Qed.

Section RunHandlers.
Context `{GoUnicode} `{GoMapOrder} `{Collation}.
Context (fingerprint : fingerprintData → string).

Lemma insert_run_bind {A} run (k : Z → tx DNSStore A) :
  (∀ id, steps (KeepsRun id) (k id)) → steps Keeps (tx_bind (insert_run run) k).
Proof.
  intros Hk s a s' (id & s1 & Hi & Hrun)%tx_bind_Ok Hs. pose proof (keeps_insert_run run _ _ _ Hi Hs) as Hs1.
  eapply Hk; [exact Hrun|]. split; [done|]. unfold insert_run in Hi. tx_ok. cbn. lia.
Qed.

Lemma insert_item_keeps item : steps (KeepsRun (si_RunID item)) (insert_item item).
Proof.
  intros s a s' Hi [Hs Hlt]. unfold insert_item in Hi. tx_ok. split; [|done].
  destruct Hs. split; cbn; try done.
  - rewrite fmap_app. apply NoDup_app. split_and!; [done| |apply NoDup_singleton].
    intros key (i & -> & Hin)%list_elem_of_fmap Hkey%list_elem_of_singleton.
    apply not_true_iff_false in E. apply E. apply existsb_exists. exists i.
    split; [by apply list_elem_of_In|]. injection Hkey as <- <-. by rewrite !Z.eqb_refl.
  - apply Forall_app. split; [done|]. by apply Forall_singleton.
Qed.

Lemma update_runs_keeps runID p f : (∀ r, sr_ID (f r) = sr_ID r) → steps (KeepsRun runID) (update_runs p f).
Proof.
  intros Hf s a s' Hu [Hs Hlt]. split; [by eapply keeps_update_runs|]. unfold update_runs in Hu. tx_ok. done.
Qed.

(** A body down to the insertion of its run. *)
Ltac to_insert_run :=
  repeat (cbv zeta; lazymatch goal with
  | |- steps _ (tx_bind (insert_run _) _) => fail
  | |- steps _ (tx_bind _ _) => apply steps_bind; [apply _|tx_steps|intros ?]
  | |- steps _ (if ?b then tx_fail _ else _) => destruct b; [solve [apply steps_fail; apply _]|]
  end).

Lemma keeps_previewWith random actorID scope zid adopt :
  steps Keeps (PreviewWithAdoption fingerprint random actorID scope zid adopt).
Proof.
  unfold PreviewWithAdoption. to_insert_run. apply insert_run_bind. intros runID. tx_steps.
  - apply (insert_item_keeps (new_item fingerprint runID _ _)).
  - by apply update_runs_keeps.
Qed.

Lemma keeps_previewSite random actorID zone : steps Keeps (previewSiteZone fingerprint random actorID zone).
Proof.
  unfold previewSiteZone. to_insert_run. apply insert_run_bind. intros runID. tx_steps.
  apply (insert_item_keeps (new_item fingerprint runID _ _)).
Qed.
Hint Resolve keeps_previewWith keeps_previewSite : tx_steps.

Lemma keeps_applyZone random actorID siteID adopt :
  steps Keeps (ApplyZoneWithAdoption fingerprint random actorID siteID adopt).
Proof. unfold ApplyZoneWithAdoption. tx_steps. Qed.

Lemma keeps_retry random actorID runID : steps Keeps (RetryPreview fingerprint random actorID runID).
Proof. unfold RetryPreview. tx_steps. Qed.

Lemma keeps_applyPreview river actorID runID token confirmation s :
  Keeps s (snd (ApplyPreview river actorID runID token confirmation s)).
Proof.
  unfold ApplyPreview. destruct (negb river); [by intros Hs|]. destruct (negb _); [by intros Hs|].
  assert (steps Keeps (apply_preview_tx actorID runID token confirmation)) as Htx.
  { unfold apply_preview_tx, stale_run. tx_steps; by apply keeps_update_runs. }
  unfold run_tx. destruct (apply_preview_tx _ _ _ _ s) as [[[e|] s']|e] eqn:E; [by eapply Htx| |by intros Hs].
  by eapply Htx.
Qed.

Lemma keeps_applySitePreview river actorID siteID runID token confirmation s :
  Keeps s (snd (ApplySitePreview river actorID siteID runID token confirmation s)).
Proof.
  unfold ApplySitePreview. destruct (zoneForSiteTx siteID s); [|by intros Hs].
  destruct (run_by_id runID s); [|by intros Hs]. cbv zeta.
  destruct (_ =? 0); [by intros Hs|]. destruct (_ || _); [by intros Hs|]. apply keeps_applyPreview.
Qed.

Lemma keeps_applyRun now runID s : Keeps s (snd (applyRun fingerprint now runID s)).
Proof.
  unfold applyRun. destruct (run_by_id runID s) as [run|]; [|by intros Hs].
  destruct (one_of _ _); [by intros Hs|]. destruct (negb _); [by intros Hs|].
  destruct (activeTemplate s) as [template|]; [|by intros Hs].
  destruct (negb _); [by apply (steps_run Keeps), keeps_update_runs|].
  assert (∀ s, Keeps s (snd (run_tx (refreshRunStatus runID) s))) as Hend.
  { intros s0. apply (steps_run Keeps). unfold refreshRunStatus. tx_steps; by apply keeps_update_runs. }
  etransitivity; [|apply Hend]. clear Hend.
  set (mark := update_runs _ _). assert (Keeps s (snd (run_tx mark s))) as Hmark
    by by apply (steps_run Keeps), keeps_update_runs.
  etransitivity; [exact Hmark|]. generalize (run_targets runID (snd (run_tx mark s))) as targets. intros targets.
  generalize (snd (run_tx mark s)) as db.
  induction targets as [|t targets IH]; intros db; [by intros Hs|]. cbn [foldl]. etransitivity; [|apply IH].
  unfold apply_target, run_tx. destruct (applyZonePlan _ _ _ _ _ _ _ _ db) as [[a db']|e] eqn:E; [by eapply keeps_apply|].
  destruct (set_item _ _ _ db) as [[u db']|e'] eqn:Ei; [|by intros Hs]. cbn [snd]. revert Ei. by apply keeps_update_items.
Qed.

(** ** The zone worker's answers *)

Lemma keeps_refreshRuns zid : steps Keeps (refreshDNSSyncRunsTx zid).
Proof. unfold refreshDNSSyncRunsTx. tx_steps. by apply keeps_update_runs. Qed.
Hint Resolve keeps_refreshRuns : tx_steps.

Lemma keeps_active id path serial revision : steps Keeps (MarkDNSActive id path serial revision).
Proof.
  unfold MarkDNSActive. tx_steps; [|by apply keeps_update_items].
  apply keeps_update_zones; [done|]. intros z Hz [Hd Ha]. unfold current_revision in Hz. cbn. bool_split.
  destruct (revision =? 0) eqn:E; cbn in *; lia.
Qed.

Lemma keeps_failed id message : steps Keeps (MarkDNSFailed id message).
Proof. by apply keeps_update_zones. Qed.

Lemma keeps_revisionFailed id revision message : steps Keeps (MarkDNSRevisionFailed id revision message).
Proof. unfold MarkDNSRevisionFailed. tx_steps; [by apply keeps_update_zones|by apply keeps_update_items]. Qed.

End RunHandlers.

(** ** Reachable states *)

(** What may happen next: an edit of a zone, an edit of the template, a preview,
    its confirmation, the synchronisation worker, the zone worker, or a change of
    the tables other components own. *)
Inductive DNSOperation :=
| OpZone (e : ZoneEdit)
| OpTemplate (actorID expected : Z) (mutate : DNSTemplateRevision → result DNSTemplateRevision)
| OpResetTemplate (actorID expected : Z)
| OpPreview (random : string) (actorID : Z) (scope : string) (zoneID : Z) (adopt : bool)
| OpApplyZone (random : string) (actorID siteID : Z) (adopt : bool)
| OpRetry (random : string) (actorID runID : Z)
| OpConfirm (actorID runID : Z) (token confirmation : string)
| OpConfirmSite (actorID siteID runID : Z) (token confirmation : string)
| OpRun (now runID : Z)
| OpActive (id : Z) (path : string) (serial revision : Z)
| OpFailed (id : Z) (message : string)
| OpRevisionFailed (id revision : Z) (message : string)
| OpOthers (sites : list DNSSite) (ftp : list FTPAccount) (webmail : list WebmailHost) (mail : list MailDomain)
    (hostname : option string) (jobs : list Job) (clock : Z).

Section Reachable.
Context `{GoUnicode} `{GoMapOrder} `{Collation}.
Context (fingerprint : fingerprintData → string).

Definition perform (op : DNSOperation) (s : DNSStore) : DNSStore :=
  match op with
  | OpZone e => snd (run_tx (run_edit fingerprint e) s)
  | OpTemplate actorID expected mutate => snd (run_tx (createRevision actorID expected mutate) s)
  | OpResetTemplate actorID expected => snd (run_tx (ResetTemplate actorID expected) s)
  | OpPreview random actorID scope zoneID adopt =>
      snd (run_tx (PreviewWithAdoption fingerprint random actorID scope zoneID adopt) s)
  | OpApplyZone random actorID siteID adopt => snd (run_tx (ApplyZoneWithAdoption fingerprint random actorID siteID adopt) s)
  | OpRetry random actorID runID => snd (run_tx (RetryPreview fingerprint random actorID runID) s)
  | OpConfirm actorID runID token confirmation => snd (ApplyPreview true actorID runID token confirmation s)
  | OpConfirmSite actorID siteID runID token confirmation => snd (ApplySitePreview true actorID siteID runID token confirmation s)
  | OpRun now runID => snd (applyRun fingerprint now runID s)
  | OpActive id path serial revision => snd (run_tx (MarkDNSActive id path serial revision) s)
  | OpFailed id message => snd (run_tx (MarkDNSFailed id message) s)
  | OpRevisionFailed id revision message => snd (run_tx (MarkDNSRevisionFailed id revision message) s)
  | OpOthers sites ftp webmail mail hostname jobs clock =>
      s <| db_Sites := sites |> <| db_FTPAccounts := ftp |> <| db_WebmailHosts := webmail |>
        <| db_MailDomains := mail |> <| db_Hostname := hostname |> <| db_Jobs := jobs |> <| db_Clock := clock |>
  end.

Inductive reachable (s : DNSStore) : DNSStore → Prop :=
| reachable_start : reachable s s
| reachable_step s' op : reachable s s' → reachable s (perform op s').

Lemma perform_keeps op s : Keeps s (perform op s).
Proof.
  destruct op as [e| | | | | | | | | | | |]; cbn [perform]; try (apply (steps_run Keeps)).
  - destruct e; cbn [run_edit].
    + apply keeps_upsert.
    + apply keeps_delete.
    + apply keeps_restore.
    + apply keeps_reset.
    + apply keeps_mode.
    + apply keeps_soa.
    + apply keeps_subdomain.
    + apply steps_bind; [apply _|apply keeps_configure|intros id; apply steps_ret, _].
    + apply keeps_reconcile.
    + apply keeps_auto.
    + apply keeps_apply.
  - apply keeps_createRevision.
  - apply keeps_resetTemplate.
  - apply keeps_previewWith.
  - apply keeps_applyZone.
  - apply keeps_retry.
  - apply keeps_applyPreview.
  - apply keeps_applySitePreview.
  - apply keeps_applyRun.
  - apply keeps_active.
  - apply keeps_failed.
  - apply keeps_revisionFailed.
  - intros []. by split.
Qed.
End Reachable.

(** C4. The tables stay sound. From a database whose tables are sound, no
    sequence of edits, previews, confirmations, runs and worker reports, in
    whatever order and with whatever arguments, failed ones included, reaches one
    with a duplicated key, two records of the same zone, name, type and data (or
    two of the same template record and owner), an item of a run that does not
    exist, or a zone with more revisions applied than asked for. *)
Theorem dns_tables_invariant `{GoUnicode} `{GoMapOrder} `{Collation} (fingerprint : fingerprintData → string)
    (s s' : DNSStore) :
  StoreOk s → reachable fingerprint s s' → StoreOk s'.
Proof. intros Hs Hreach. induction Hreach as [|s' op _ IH]; [done|]. by apply perform_keeps. Qed.

(** * Witness *)

Lemma StoreSamples_ok : StoreOk StoreSamples.db.
Proof.
  split; try (apply (bool_decide_unpack _); vm_compute; done).
  intros r r' Hr Hr' Hne.
  assert (Forall (λ r, Forall (λ r', rec_ID r ≠ rec_ID r' → collides r r' = false) (db_Records StoreSamples.db))
    (db_Records StoreSamples.db)) as Hall by (apply (bool_decide_unpack _); vm_compute; done).
  rewrite Forall_forall in Hall. specialize (Hall r Hr). rewrite Forall_forall in Hall. by apply Hall.
Qed.

(** An edit, a preview of the template, its confirmation and its run. *)
Lemma dns_tables_invariant_witness :
  let perform := @perform ascii_only insertion_order StoreSamples.byte_order (λ _, "") in
  let s' := perform (OpRun 3000 1) (perform (OpConfirm 1 1 "dns_0f" "APPLY DNS TEMPLATE")
              (perform (OpPreview "0f" 1 "all" 0 false) (perform (OpZone StoreSamples.edit) StoreSamples.db))) in
  length (db_Records s') = 4%nat ∧ sr_Status <$> db_Runs s' = ["active"] ∧ StoreOk s'.
Proof.
  cbv zeta. split; [vm_compute; reflexivity|]. split; [vm_compute; reflexivity|].
  apply (@dns_tables_invariant ascii_only insertion_order StoreSamples.byte_order (λ _, "") StoreSamples.db _ StoreSamples_ok).
  repeat apply reachable_step. apply reachable_start.
Defined.
