(* ===== verification/DNSGuards.v ===== *)
(** * What a synchronisation run may change

    A run touches a zone only under the guards its preview recorded, executes
    exactly a plan that was previewed, and loses no record a user owns, whatever
    happens to the other zones of the run. *)

From S2P Require Import Prelude Tx Tables GoStr Site DNSTypes DNSRecord DNSPlan DNSTables DNSTemplateStore DNSZoneStore DNSSync DNSStoreFacts DNSConverge.

(** A record a user made or edited, and what a resolver is told by a record. *)
Definition protected_record (r : DNSRecord) : Prop := rec_Origin r = "custom" ∨ rec_LocallyModified r = true.

Definition same_data (r r' : DNSRecord) : Prop :=
  rec_ID r' = rec_ID r ∧ rec_ZoneID r' = rec_ZoneID r ∧ rec_Host r' = rec_Host r ∧ rec_Type r' = rec_Type r ∧
  rec_Value r' = rec_Value r ∧ rec_Priority r' = rec_Priority r ∧ rec_Weight r' = rec_Weight r ∧
  rec_Port r' = rec_Port r ∧ rec_TTL r' = rec_TTL r.

#[export] Instance same_data_preorder : PreOrder same_data.
Proof. split; [by repeat split|]. unfold same_data. intros x y z Hxy Hyz. intuition congruence. Qed.

(** ** Executing a plan *)

(** Records outside the zone and records of users stay as they are. *)
Definition UserRowsStay (zid : Z) (s s' : DNSStore) : Prop :=
  ∀ r, r ∈ db_Records s → rec_ZoneID r ≠ zid ∨ protected_record r → r ∈ db_Records s'.

(** Records outside the zone stay, and no record loses its data. *)
Definition DataStays (zid : Z) (s s' : DNSStore) : Prop :=
  ∀ r, r ∈ db_Records s → ∃ r', r' ∈ db_Records s' ∧ same_data r r' ∧ (rec_ZoneID r ≠ zid → r' = r).

Definition SameRecords (s s' : DNSStore) : Prop := db_Records s' = db_Records s.

#[export] Instance UserRowsStay_preorder zid : PreOrder (UserRowsStay zid).
Proof. split; [by intros s r|]. intros s1 s2 s3 H12 H23 r Hr Hu. auto. Qed.

#[export] Instance DataStays_preorder zid : PreOrder (DataStays zid).
Proof.
  split; [intros s r Hr; exists r; split_and!; [done|reflexivity|done]|].
  intros s1 s2 s3 H12 H23 r (r2 & (r3 & Hr3 & Hd3 & Hs3)%H23 & Hd2 & Hs2)%H12.
  exists r3. split_and!; [done|by etransitivity|]. intros Hz. rewrite Hs3, Hs2 by (rewrite ?(Hs2 Hz); done). done.
Qed.

#[export] Instance SameRecords_preorder : PreOrder SameRecords.
Proof. split; [done|]. unfold SameRecords. intros s1 s2 s3 H12 H23. congruence. Qed.

Section Mutations.
Context `{GoUnicode} `{GoMapOrder} `{Collation}.

Lemma delete_records_Ok p s a s' : delete_records p s = Ok (a, s') → s' = s <| db_Records := rows_delete p (db_Records s) |>.
Proof. unfold delete_records. intros Hd. tx_ok. done. Qed.

Lemma update_records_Ok p f s a s' :
  update_records p f s = Ok (a, s') → s' = s <| db_Records := rows_update p f (db_Records s) |>.
Proof. unfold update_records. intros Hu. tx_ok. done. Qed.

Lemma stays_delete zid ids : steps (UserRowsStay zid) (delete_records (plan_deletes zid ids)).
Proof.
  intros s a s' ->%delete_records_Ok r Hr Hu. apply rows_delete_elem. split; [|done].
  apply not_true_iff_false. unfold plan_deletes. intros Hp. bool_split.
  destruct Hu as [Hz|[Hc|Hm]]; [done| |congruence].
  match goal with Ho : one_of _ _ = true |- _ => rewrite Hc in Ho; discriminate Ho end.
Qed.

Lemma stays_insert zid record : steps (UserRowsStay zid) (insert_record_or_nothing record).
Proof.
  intros s a s' Hi r Hr _. unfold insert_record_or_nothing in Hi. tx_ok.
  destruct (existsb _ _); tx_ok; [done|]. rewrite append_record_rows. apply elem_of_app. by left.
Qed.

Lemma stays_update zid id f : steps (UserRowsStay zid) (update_records (plan_updates zid id) f).
Proof.
  intros s a s' ->%update_records_Ok r Hr Hu. apply rows_update_elem. exists r. split; [done|].
  destruct (plan_updates zid id r) eqn:Hp; [|done]. exfalso. unfold plan_updates in Hp. bool_split.
  destruct Hu as [Hz|[Hc|Hm]]; congruence.
Qed.

Lemma data_adopt zid id revision wanted :
  steps (DataStays zid) (update_records (plan_adopts zid id) (plan_adopt_row revision wanted)).
Proof.
  intros s a s' ->%update_records_Ok r Hr.
  exists (if plan_adopts zid id r then plan_adopt_row revision wanted r else r). split_and!.
  - apply rows_update_elem. by exists r.
  - destruct (plan_adopts zid id r); [by repeat split|reflexivity].
  - intros Hz. destruct (plan_adopts zid id r) eqn:Hp; [|done]. unfold plan_adopts in Hp. by bool_split.
Qed.

(** The statements of a plan, in two halves. *)
Lemma mutations_stay zid revision plan s a s' :
  applyZonePlanMutationsTx zid revision plan s = Ok (a, s') →
  ∃ s1, UserRowsStay zid s s1 ∧ DataStays zid s1 s'.
Proof.
  unfold applyZonePlanMutationsTx. intros Hrun.
  apply tx_bind_Ok in Hrun as (u1 & s1 & Hd & Hrun). apply tx_bind_Ok in Hrun as (u2 & s2 & Ha & Hrun).
  apply tx_bind_Ok in Hrun as (u3 & s3 & Hu & Hrun). exists s3. split.
  - transitivity s1; [|transitivity s2].
    + clear -Hd. revert s u1 s1 Hd.
      change (steps (UserRowsStay zid) (if 0 <? Z.of_nat (length (plan_remove plan))
             then let! _ := delete_records (plan_deletes zid (plan_remove plan)) in tx_ret () else tx_ret ())).
      tx_steps. apply stays_delete.
    + clear -Ha. revert s1 u2 s2 Ha. apply (steps_each (UserRowsStay zid)). intros r. apply stays_insert.
    + clear -Hu. revert s2 u3 s3 Hu. apply (steps_each (UserRowsStay zid)). intros r. tx_steps. apply stays_update.
  - clear -Hrun. revert s3 a s' Hrun. apply (steps_each (DataStays zid)). intros r. tx_steps. apply data_adopt.
Qed.

End Mutations.

(** ** Applying a zone *)

(** What a run planned for its zones, as its items record it. *)
Definition planned_items (s : DNSStore) : list (Z * Z * Z * string) :=
  (λ i, (si_RunID i, si_ZoneID i, si_ExpectedZoneRevision i, si_PlanFingerprint i)) <$> db_Items s.

(** Beside the zone [zid]: other zones keep their rows, the items their plans. *)
Record Aside (zid : Z) (s s' : DNSStore) : Prop := {
  as_zones : ∀ id, id ≠ zid → zone_by_id id s' = zone_by_id id s;
  as_items : planned_items s' = planned_items s;
}.

#[export] Instance Aside_preorder zid : PreOrder (Aside zid).
Proof.
  split; [done|]. intros s1 s2 s3 [Hz Hi] [Hz' Hi']. split; [|congruence].
  intros id Hid. by rewrite Hz', Hz.
Qed.

Section Apply.
Context `{GoUnicode} `{GoMapOrder} `{Collation}.
Context (fingerprint : fingerprintData → string).

Lemma aside_write zid f :
  (∀ s, db_Zones (f s) = db_Zones s ∧ db_Items (f s) = db_Items s) → steps (Aside zid) (tx_write f).
Proof.
  intros Hf. apply steps_write. intros s. destruct (Hf s) as [Hz Hi].
  split; [|by unfold planned_items; rewrite Hi]. intros id _. unfold zone_by_id. by rewrite Hz.
Qed.

Lemma aside_update_records zid p f : steps (Aside zid) (update_records p f).
Proof. unfold update_records. tx_steps. by apply aside_write. Qed.
Lemma aside_delete_records zid p : steps (Aside zid) (delete_records p).
Proof. unfold delete_records. tx_steps. by apply aside_write. Qed.
Lemma aside_insert_record zid r : steps (Aside zid) (insert_record_or_nothing r).
Proof. unfold insert_record_or_nothing. tx_steps; by apply aside_write. Qed.

Lemma aside_update_zones zid p f :
  (∀ z, p z = true → zr_ID z = zid ∧ zr_ID (f z) = zid) → steps (Aside zid) (update_zones p f).
Proof.
  intros Hp. apply steps_write. intros s. split; [|done]. intros id Hid. apply zone_update_others.
  intros z Hz. destruct (Hp z Hz) as [-> ->]. split; congruence.
Qed.

Lemma aside_update_items zid p f :
  (∀ i, si_RunID (f i) = si_RunID i ∧ si_ZoneID (f i) = si_ZoneID i
        ∧ si_ExpectedZoneRevision (f i) = si_ExpectedZoneRevision i ∧ si_PlanFingerprint (f i) = si_PlanFingerprint i) →
  steps (Aside zid) (update_items p f).
Proof.
  intros Hf. apply steps_write. intros s. split; [done|]. unfold planned_items. cbn. apply fmap_rows_update.
  intros i _. destruct (Hf i) as (-> & -> & -> & ->). done.
Qed.

Lemma aside_set_item_detail zid runID id outcome detail :
  steps (Aside zid) (set_item runID id (outcome_detail outcome detail)).
Proof. by apply aside_update_items. Qed.
Lemma aside_set_item_counts zid runID id plan : steps (Aside zid) (set_item runID id (planned_counts plan)).
Proof. by apply aside_update_items. Qed.

Lemma aside_refresh zid : steps (Aside zid) (refreshZoneTemplateStatusTx zid).
Proof.
  unfold refreshZoneTemplateStatusTx. tx_steps. destruct (rows_where _ _); tx_steps.
  apply aside_update_zones. by intros z ?%Z.eqb_eq.
Qed.

Lemma aside_mail zid ids : steps (Aside zid) (EnqueueMailDNSRecheckTx ids).
Proof. unfold EnqueueMailDNSRecheckTx, insert_job. tx_steps; by apply aside_write. Qed.

Lemma aside_bump zid now : steps (Aside zid) (bump_zone now zid).
Proof.
  unfold bump_zone. tx_steps; try apply steps_query, _. apply aside_update_zones. by intros z ?%Z.eqb_eq.
Qed.

Lemma aside_mutations zid revision plan : steps (Aside zid) (applyZonePlanMutationsTx zid revision plan).
Proof.
  unfold applyZonePlanMutationsTx.
  tx_steps; first [apply aside_delete_records|apply aside_insert_record|apply aside_update_records].
Qed.

End Apply.

#[export] Hint Resolve aside_set_item_detail aside_set_item_counts aside_refresh aside_mail aside_bump aside_mutations : tx_steps.

Section ApplyZone.
Context `{GoUnicode} `{GoMapOrder} `{Collation}.
Context (fingerprint : fingerprintData → string).

Lemma same_write f : (∀ s, db_Records (f s) = db_Records s) → steps SameRecords (tx_write f).
Proof. intros Hf. by apply steps_write. Qed.
Lemma same_update_items p f : steps SameRecords (update_items p f). Proof. by apply same_write. Qed.
Lemma same_update_zones p f : steps SameRecords (update_zones p f). Proof. by apply same_write. Qed.
Lemma same_update_sites p f : steps SameRecords (update_sites p f). Proof. by apply same_write. Qed.
Lemma same_update_runs p f : steps SameRecords (update_runs p f). Proof. by apply same_write. Qed.
Lemma same_refresh zid : steps SameRecords (refreshZoneTemplateStatusTx zid).
Proof. unfold refreshZoneTemplateStatusTx. tx_steps. destruct (rows_where _ _); tx_steps. apply same_update_zones. Qed.
Lemma same_mail ids : steps SameRecords (EnqueueMailDNSRecheckTx ids).
Proof. unfold EnqueueMailDNSRecheckTx, insert_job. tx_steps; by apply same_write. Qed.
Lemma same_bump now zid : steps SameRecords (bump_zone now zid).
Proof. unfold bump_zone. tx_steps; try apply steps_query, _. apply same_update_zones. Qed.
Lemma same_job job : steps SameRecords (insert_job job).
Proof. by apply same_write. Qed.

Lemma aside_apply now runID scope template zid owner adopt :
  steps (Aside zid) (applyZonePlan fingerprint now runID scope template zid owner adopt).
Proof.
  unfold applyZonePlan. tx_steps;
    try first [apply steps_query, _|by apply aside_update_items|by apply aside_write
          |apply aside_update_zones; by intros ? ?%Z.eqb_eq].
Qed.

(** A zone is applied under its guards, with the plan of its item. *)
Lemma apply_inv now runID scope template zid owner adopt s a s' :
  applyZonePlan fingerprint now runID scope template zid owner adopt s = Ok (a, s') →
  SameRecords s s' ∨ ∃ row item snapshot partial s1,
    zone_by_id zid s = Ok row ∧ item ∈ run_items runID s ∧ si_ZoneID item = zid ∧
    zr_DesiredRevision row = si_ExpectedZoneRevision item ∧
    si_PlanFingerprint item = zonePlanFingerprint fingerprint (zonePlanForApply template snapshot partial) snapshot ∧
    applyZonePlanMutationsTx zid (tpl_Revision template) (zonePlanForApply template snapshot partial) s = Ok ((), s1) ∧
    SameRecords s1 s'.
Proof.
  unfold applyZonePlan. intros (row & s0 & [Hrow ->]%tx_query_Ok & Hrun)%tx_bind_Ok.
  apply tx_bind_Ok in Hrun as (item & s0 & [Hitem ->]%tx_query_Ok & Hrun).
  apply query_where_Ok in Hitem as [Hitem Hzid%Z.eqb_eq].
  destruct (negb (zr_DesiredRevision row =? si_ExpectedZoneRevision item)) eqn:Erev;
    [left; revert Hrun; apply same_update_items|].
  destruct (_ && _); [left; revert Hrun; apply same_update_items|].
  apply tx_bind_Ok in Hrun as (zone & s0 & [_ ->]%tx_query_Ok & Hrun). cbv zeta in Hrun.
  destruct (apply_snapshot zone owner adopt) as [snapshot partial].
  destruct (negb (String.eqb _ _)) eqn:Efp; [done|]. apply negb_false_iff, String.eqb_eq in Efp.
  apply negb_false_iff, Z.eqb_eq in Erev.
  apply tx_bind_Ok in Hrun as ([] & s1 & Hm & Hrun). right.
  exists row, item, snapshot, partial, s1. split_and!; try done.
  match type of Hrun with ?m s1 = _ => assert (steps SameRecords m) as Hs end; [|by apply Hs in Hrun].
  tx_steps; first [apply same_update_sites|apply same_update_zones|apply same_refresh|apply same_update_items
    |apply same_bump|apply same_mail|apply same_job|apply steps_ret, _].
Qed.

End ApplyZone.
#[export] Hint Resolve aside_apply : tx_steps.

(** ** The zones of a run *)

Section Run.
Context `{GoUnicode} `{GoMapOrder} `{Collation}.
Context (fingerprint : fingerprintData → string).

(** The zone [zid] went from [s] to [s'] by the plan of its item in the run,
    and under the zone revision of that item. *)
Definition applied_as_planned (runID : Z) (template : DNSTemplateRevision) (zid : Z) (s s' : DNSStore) : Prop :=
  ∃ row item snapshot partial s1,
    zone_by_id zid s = Ok row ∧ item ∈ run_items runID s ∧ si_ZoneID item = zid ∧
    zr_DesiredRevision row = si_ExpectedZoneRevision item ∧
    si_PlanFingerprint item = zonePlanFingerprint fingerprint (zonePlanForApply template snapshot partial) snapshot ∧
    applyZonePlanMutationsTx zid (tpl_Revision template) (zonePlanForApply template snapshot partial) s = Ok ((), s1) ∧
    SameRecords s1 s'.

Lemma frame_apply now runID scope template zid owner adopt :
  steps (Frame [zid]) (applyZonePlan fingerprint now runID scope template zid owner adopt).
Proof.
  unfold applyZonePlan, set_item.
  tx_steps; try first [apply frame_mutations|apply frame_complete_adoption|apply frame_template_revision
    |apply frame_refresh|apply frame_mail|apply frame_update_items].
  intros s r s' (Hf & _)%bump_zone_spec. eapply Frame_weaken; [|exact Hf]. by intros id ?%elem_of_nil.
Qed.

Section Targets.
Context (now runID : Z) (scope : string) (template : DNSTemplateRevision) (adopt : bool).
Let step := apply_target fingerprint now runID scope template adopt.

Lemma target_step db target : let db' := step db target in
  Frame [fst target] db db' ∧ Aside (fst target) db db' ∧
  (SameRecords db db' ∨ applied_as_planned runID template (fst target) db db').
Proof.
  cbv zeta. unfold step, apply_target, run_tx.
  destruct (applyZonePlan _ _ _ _ _ _ _ _ db) as [[a db']|e] eqn:E.
  - split_and!; [by eapply frame_apply|by eapply aside_apply|by eapply apply_inv].
  - destruct (set_item _ _ _ db) as [[u db']|e'] eqn:Ei; cbn [snd]; [|split_and!; [done|done|by left]].
    split_and!; [|by eapply aside_set_item_detail|left; by eapply same_update_items].
    by eapply (frame_update_items [fst target]).
Qed.

(** A zone whose turn does not come keeps its records and its row. *)
Lemma run_others zid targets : zid ∉ fst <$> targets → ∀ db,
  zone_records zid (foldl step db targets) = zone_records zid db.
Proof.
  induction targets as [|t targets IH]; intros Hzid db; [done|]. cbn [foldl]. cbn in Hzid.
  apply not_elem_of_cons in Hzid as [Hne Hzid]. rewrite (IH Hzid).
  destruct (target_step db t) as (Hf & _). apply (fr_records _ _ _ Hf). set_solver.
Qed.

Lemma run_this zid targets : NoDup (fst <$> targets) → ∀ db,
  let db' := foldl step db targets in
  zone_records zid db' ≠ zone_records zid db →
  ∃ db1 db2, zone_records zid db1 = zone_records zid db ∧ zone_by_id zid db1 = zone_by_id zid db ∧
    planned_items db1 = planned_items db ∧ applied_as_planned runID template zid db1 db2 ∧
    zone_records zid db' = zone_records zid db2.
Proof.
  cbv zeta. induction targets as [|t targets IH]; intros Hnd db Hchanged; [done|]. cbn [foldl] in *. cbn in Hnd.
  apply NoDup_cons in Hnd as [Ht Hnd]. destruct (target_step db t) as (Hf & Ha & Hd).
  destruct (decide (zid = fst t)) as [->|Hne].
  - rewrite run_others in * by done. destruct Hd as [Hs|Hp]; [by unfold zone_records in Hchanged; rewrite Hs in Hchanged|].
    by exists db, (step db t).
  - assert (zone_records zid (step db t) = zone_records zid db) as Er by (apply (fr_records _ _ _ Hf); set_solver).
    rewrite <- Er in Hchanged. destruct (IH Hnd _ Hchanged) as (db1 & db2 & Hrec & Hrow & Hplan & Happ & Hend).
    exists db1, db2. split_and!; [congruence| | |done|done].
    + rewrite Hrow. by apply (as_zones _ _ _ Ha).
    + rewrite Hplan. apply (as_items _ _ _ Ha).
Qed.

(** Every record a user owned is there with its data; the ones of zones still
    to come are as they were. *)
Lemma run_keeps_data targets : NoDup (fst <$> targets) → ∀ db r,
  r ∈ db_Records db → protected_record r →
  ∃ r', r' ∈ db_Records (foldl step db targets) ∧ same_data r r' ∧ (rec_ZoneID r ∉ fst <$> targets → r' = r).
Proof.
  induction targets as [|t targets IH]; intros Hnd db r Hr Hu; [by exists r|]. cbn [foldl]. cbn in Hnd.
  apply NoDup_cons in Hnd as [Ht Hnd]. destruct (target_step db t) as (_ & _ & Hd).
  assert (∃ r1, r1 ∈ db_Records (step db t) ∧ same_data r r1 ∧ (rec_ZoneID r ≠ fst t → r1 = r)) as (r1 & Hr1 & Hd1 & Hs1).
  { destruct Hd as [Hs|(row & item & snapshot & partial & s1 & _ & _ & _ & _ & _ & Hm & Hs)]; [by exists r; rewrite Hs|].
    apply mutations_stay in Hm as (s2 & Hrows & Hdata). rewrite Hs. destruct (Hdata r) as (r1 & ? & ? & ?); [auto|]. by exists r1. }
  destruct (decide (rec_ZoneID r = fst t)) as [Hz|Hz].
  - assert (zone_records (rec_ZoneID r) (foldl step (step db t) targets) = zone_records (rec_ZoneID r) (step db t)) as Eq
      by (apply run_others; congruence).
    exists r1. split_and!; [|done|]; [|intros Hout; set_solver].
    assert (r1 ∈ zone_records (rec_ZoneID r) (step db t)) as Hin.
    { apply rows_where_elem. split; [|done]. apply Z.eqb_eq. apply Hd1. }
    rewrite <- Eq in Hin. by apply rows_where_elem in Hin as [_ Hin].
  - rewrite (Hs1 Hz) in *. destruct (IH Hnd _ _ Hr1 Hu) as (r2 & Hr2 & Hd2 & Hs2).
    exists r2. split_and!; [done|done|]. intros Hout. apply Hs2. set_solver.
Qed.
End Targets.
End Run.

Section RunWhole.
Context `{GoUnicode} `{GoMapOrder} `{Collation}.
Context (fingerprint : fingerprintData → string).

Lemma run_targets_zones runID s : fst <$> run_targets runID s ≡ₚ si_ZoneID <$> run_items runID s.
Proof. unfold run_targets. rewrite merge_sort_Permutation, <- list_fmap_compose. done. Qed.

(** A run either leaves the data alone, or is pending for the current template
    and works on its zones one by one. *)
Lemma applyRun_cases now runID s : let s' := snd (applyRun fingerprint now runID s) in
  SameRecords s s' ∨
  ∃ run template s1, run_by_id runID s = Ok run ∧ activeTemplate s = Ok template ∧
    one_of (sr_Status run) ["pending"; "running"] = true ∧
    tpl_OptimisticRevision template = sr_ExpectedStateRevision run ∧
    db_Records s1 = db_Records s ∧ db_Zones s1 = db_Zones s ∧ db_Items s1 = db_Items s ∧
    SameRecords (foldl (apply_target fingerprint now runID (sr_Scope run) template (sr_AdoptMatching run)) s1
                   (run_targets runID s)) s'.
Proof.
  cbv zeta. unfold applyRun. destruct (run_by_id runID s) as [run|e] eqn:Er; [|by left].
  destruct (one_of _ ["active"; "partial"]); [by left|].
  destruct (one_of _ ["pending"; "running"]) eqn:Ep; [|by left]. cbn [negb].
  destruct (activeTemplate s) as [template|e] eqn:Et; [|by left].
  destruct (tpl_OptimisticRevision template =? _) eqn:Eo; [|by left]. cbn [negb].
  right. set (s1 := snd (run_tx (update_runs _ _) s)). exists run, template, s1. apply Z.eqb_eq in Eo.
  split_and!; try done. change (run_targets runID s1) with (run_targets runID s). apply (steps_run SameRecords).
  unfold refreshRunStatus. tx_steps; apply same_update_runs.
Qed.
End RunWhole.

(** * Properties *)

(** C2. No synchronisation loses a user's record. Whatever zones a run covers,
    in whatever state its worker finds them and whether their turn succeeds or
    fails, every record that was custom or edited locally is still in its zone
    with the same name, type, value, numbers and lifetime. *)
Theorem apply_run_keeps_user_records `{GoUnicode} `{GoMapOrder} `{Collation} (fingerprint : fingerprintData → string)
    (now runID : Z) (s : DNSStore) (r : DNSRecord) :
  NoDup (si_ZoneID <$> run_items runID s) →
  r ∈ db_Records s → protected_record r →
  ∃ r', r' ∈ db_Records (snd (applyRun fingerprint now runID s)) ∧ same_data r r'.
Proof.
  intros Hnd Hr Hu. pose proof (applyRun_cases fingerprint now runID s) as Hc. cbv zeta in Hc.
  destruct Hc as [->|(run & template & s1 & _ & _ & _ & _ & Er & _ & _ & Es)]; [by exists r|].
  rewrite <- run_targets_zones in Hnd. rewrite <- Er in Hr. rewrite Es.
  edestruct (run_keeps_data fingerprint now runID) as (r' & Hr' & Hd & _); [exact Hnd|exact Hr|exact Hu|].
  by exists r'.
Qed.

(** C22. Nothing is applied that was not previewed. If a run changes the records
    of a zone, then the run was confirmed (pending, or resumed) for the revision
    of the template that is active, the zone still has the revision at which its
    item was previewed, and its new records are exactly those left by executing
    one plan whose fingerprint is the one the preview recorded. *)
Theorem apply_run_as_previewed `{GoUnicode} `{GoMapOrder} `{Collation} (fingerprint : fingerprintData → string)
    (now runID zid : Z) (s : DNSStore) :
  NoDup (si_ZoneID <$> run_items runID s) →
  let s' := snd (applyRun fingerprint now runID s) in
  zone_records zid s' ≠ zone_records zid s →
  ∃ run template zone item, run_by_id runID s = Ok run ∧ one_of (sr_Status run) ["pending"; "running"] = true ∧
    activeTemplate s = Ok template ∧ tpl_OptimisticRevision template = sr_ExpectedStateRevision run ∧
    zone_by_id zid s = Ok zone ∧ (runID, zid, zr_DesiredRevision zone, item) ∈ planned_items s ∧
    ∃ snapshot partial s1 s2, zone_records zid s1 = zone_records zid s ∧
      zonePlanFingerprint fingerprint (zonePlanForApply template snapshot partial) snapshot = item ∧
      applyZonePlanMutationsTx zid (tpl_Revision template) (zonePlanForApply template snapshot partial) s1 = Ok ((), s2) ∧
      zone_records zid s' = zone_records zid s2.
Proof.
  intros Hnd s' Hchanged. pose proof (applyRun_cases fingerprint now runID s) as Hc. cbv zeta in Hc. fold s' in Hc.
  clearbody s'. destruct Hc as [Hsame|(run & template & s0 & Hrun & Ht & Hst & Hopt & Er & Ez & Ei & Es)].
  { unfold zone_records in Hchanged. by rewrite Hsame in Hchanged. }
  rewrite <- run_targets_zones in Hnd.
  assert (zone_records zid s0 = zone_records zid s) as Er0 by (unfold zone_records; by rewrite Er).
  assert (zone_records zid s' = zone_records zid (foldl (apply_target fingerprint now runID (sr_Scope run) template
    (sr_AdoptMatching run)) s0 (run_targets runID s))) as Es' by (unfold zone_records; by rewrite Es).
  rewrite Es', <- Er0 in Hchanged.
  destruct (run_this fingerprint now runID _ _ _ zid _ Hnd s0 Hchanged)
    as (s1 & s3 & Hrec & Hrow & Hplan & (row & item & snapshot & partial & s2 & Hz & Hi & Hzi & Hrev & Hfp & Hm & Hs) & Hend).
  exists run, template, row, (si_PlanFingerprint item). split_and!; try done.
  - rewrite Hrow in Hz. unfold zone_by_id in *. by rewrite <- Ez.
  - replace (planned_items s) with (planned_items s1) by (rewrite Hplan; unfold planned_items; by rewrite Ei).
    apply rows_where_elem in Hi as [Hi%Z.eqb_eq Hin]. apply list_elem_of_fmap. exists item.
    split; [by rewrite Hi, Hzi, Hrev|done].
  - exists snapshot, partial, s1, s2. split_and!; [congruence|done|done|].
    rewrite Es', Hend. unfold zone_records. by rewrite Hs.
Qed.

(** * Witnesses *)

Module RunSamples.
Import StoreSamples.

Definition fingerprint (plan : fingerprintData) : string := itoa (Z.of_nat (length (fp_Add plan))).

Definition token : string := "dns_" +:+ "0f".

(** The user's record, a new template record, its preview and its confirmation. *)
Definition edited : DNSStore := after edit.
Definition template_edit : DNSTemplateRecord := mkDNSTemplateRecord 0 "ftp-a" "root" "ftp" "A" "<ip.web>" 0 0 0 3600.
Definition revised : DNSStore :=
  snd (run_tx (@UpsertTemplateRecord ascii_only insertion_order byte_order "" 1 0 1 template_edit) edited).
Definition previewed : DNSStore :=
  snd (run_tx (@PreviewWithAdoption ascii_only insertion_order byte_order fingerprint "0f" 1 "all" 0 false) revised).
Definition confirmed : DNSStore :=
  snd (@ApplyPreview ascii_only true 1 1 token "APPLY DNS TEMPLATE" previewed).
Definition applied : DNSStore :=
  snd (@applyRun ascii_only insertion_order byte_order fingerprint 3000 1 confirmed).

Definition custom : DNSRecord :=
  default zero_DNSRecord (head (rows_where (λ r, String.eqb (rec_Host r) "blog") (db_Records confirmed))).
End RunSamples.

Lemma apply_run_keeps_user_records_witness :
  rec_Host RunSamples.custom = "blog" ∧
  ∃ r', r' ∈ db_Records RunSamples.applied ∧ same_data RunSamples.custom r'.
Proof.
  split; [vm_compute; reflexivity|].
  apply (@apply_run_keeps_user_records ascii_only insertion_order StoreSamples.byte_order RunSamples.fingerprint 3000 1
    RunSamples.confirmed RunSamples.custom).
  - apply (bool_decide_unpack _). vm_compute. done.
  - apply (bool_decide_unpack _). vm_compute. done.
  - left. vm_compute. reflexivity.
Defined.

Lemma apply_run_as_previewed_witness :
  zone_records 10 RunSamples.applied ≠ zone_records 10 RunSamples.confirmed ∧
  ∃ run, run_by_id 1 RunSamples.confirmed = Ok run ∧ one_of (sr_Status run) ["pending"; "running"] = true.
Proof.
  assert (zone_records 10 RunSamples.applied ≠ zone_records 10 RunSamples.confirmed) as Hne by (vm_compute; discriminate).
  split; [exact Hne|].
  assert (NoDup (si_ZoneID <$> run_items 1 RunSamples.confirmed)) as Hnd by (apply (bool_decide_unpack _); vm_compute; done).
  destruct (@apply_run_as_previewed ascii_only insertion_order StoreSamples.byte_order RunSamples.fingerprint 3000 1 10
    RunSamples.confirmed Hnd Hne) as (run & _ & _ & _ & Hrun & Hst & _).
  exact (ex_intro _ run (conj Hrun Hst)).
Defined.
