(* ===== verification/DNSRuns.v ===== *)
(** * The life of a synchronisation run

    A preview is confirmed at most once, only by its token and only while what it
    showed still holds; and what was shown is then what the worker does. *)

From S2P Require Import Prelude Tx Tables GoStr Site DNSTypes DNSRecord DNSPlan DNSTables DNSTemplateStore DNSZoneStore DNSSync DNSStoreFacts DNSConverge DNSInvariant DNSGuards.

(** Only the run tables and the queue differ. *)
Definition OnlyRuns (s s' : DNSStore) : Prop :=
  s' = s <| db_Runs := db_Runs s' |> <| db_RunSeq := db_RunSeq s' |> <| db_Items := db_Items s' |>
         <| db_ItemSeq := db_ItemSeq s' |> <| db_Jobs := db_Jobs s' |>.

#[export] Instance OnlyRuns_preorder : PreOrder OnlyRuns.
Proof. split; [by intros []|]. intros s1 s2 s3 H12 H23. rewrite H23, H12. by destruct s1. Qed.

Section Runs.
Context `{GoUnicode} `{GoMapOrder} `{Collation}.
Context (fingerprint : fingerprintData → string).

Lemma run_updated runID p f s run :
  (∀ r, sr_ID (f r) = sr_ID r) → run_by_id runID s = Ok run →
  run_by_id runID (s <| db_Runs := rows_update p f (db_Runs s) |>) = Ok (if p run then f run else run).
Proof.
  intros Hf Hr. unfold run_by_id in *. cbn. apply query_where_update; [|done]. intros r _. by rewrite Hf.
Qed.

Lemma run_by_id_Ok runID s run : run_by_id runID s = Ok run → sr_ID run = runID.
Proof. by intros [_ ?%Z.eqb_eq]%query_where_Ok. Qed.

(** The transaction of a confirmation, on its two outcomes. *)
Lemma confirm_Ok actorID runID token confirmation s s' :
  apply_preview_tx actorID runID token confirmation s = Ok (None, s') →
  ∃ run, run_by_id runID s = Ok run ∧ sr_Status run = "preview" ∧ sr_PreviewToken run = token ∧
    sr_ExpectedStateRevision run = db_OptimisticRevision s ∧ moved_on runID s = [] ∧
    run_by_id runID s' = Ok (run <| sr_Status := "pending" |> <| sr_Confirmation := confirmation |>
                                 <| sr_ActorUserID := stored_number (nullableID actorID) |>) ∧
    db_Jobs s' = db_Jobs s ++ [SyncTemplateArgs runID] ∧ OnlyRuns s s'.
Proof.
  unfold apply_preview_tx. intros (run & s0 & [Hrun ->]%tx_query_Ok & Htx)%tx_bind_Ok.
  apply tx_bind_Ok in Htx as (current & s0 & Hread & Htx). unfold tx_read in Hread. injection Hread as <- <-.
  destruct (_ || _) eqn:Eg.
  { apply tx_bind_Ok in Htx as (u & s1 & _ & Htx). unfold tx_ret in Htx. discriminate Htx. }
  apply orb_false_iff in Eg as [[Est Etok]%orb_false_iff Eexp].
  apply negb_false_iff in Est, Etok, Eexp. apply String.eqb_eq in Est, Etok. apply Z.eqb_eq in Eexp.
  apply tx_bind_Ok in Htx as (changed & s0 & Hread & Htx). unfold tx_read in Hread. injection Hread as <- <-.
  destruct (0 <? _) eqn:Elen.
  { apply tx_bind_Ok in Htx as (u & s1 & _ & Htx). unfold tx_ret in Htx. discriminate Htx. }
  apply tx_bind_Ok in Htx as (u & s1 & Hu & Htx). unfold update_runs, tx_write in Hu. injection Hu as _ <-.
  unfold insert_job in Htx. tx_ok. exists run. split_and!; try done.
  - apply Z.ltb_ge in Elen. destruct (moved_on runID s); [done|]. cbn [length] in Elen. lia.
  - apply run_by_id_Ok in Hrun as Hid.
    match goal with |- run_by_id _ ?s2 = Ok ?result => change (run_by_id runID (s <| db_Runs := rows_update
      (λ r, sr_ID r =? runID) (λ r, r <| sr_Status := "pending" |> <| sr_Confirmation := confirmation |>
        <| sr_ActorUserID := stored_number (nullableID actorID) |>) (db_Runs s) |>) = Ok result) end.
    rewrite (run_updated _ _ _ _ run); [by rewrite Hid, Z.eqb_refl|done|done].
Qed.

Lemma confirm_refused actorID runID token confirmation s run :
  run_by_id runID s = Ok run → sr_Status run ≠ "preview" →
  ∃ s', apply_preview_tx actorID runID token confirmation s = Ok (Some ErrStalePreview, s') ∧
    run_by_id runID s' = Ok (run <| sr_Status := "stale" |> <| sr_LastError := error_text ErrStalePreview |>) ∧
    db_Jobs s' = db_Jobs s ∧ OnlyRuns s s'.
Proof.
  intros Hrun Hst. apply String.eqb_neq in Hst. unfold apply_preview_tx, tx_bind, tx_query, tx_read, stale_run, update_runs, tx_write, tx_ret.
  rewrite Hrun, Hst. cbn [negb orb]. eexists. split; [reflexivity|]. split_and!; [|done|done].
  rewrite (run_updated _ _ _ _ run); [|done|done]. apply run_by_id_Ok in Hrun. by rewrite Hrun, Z.eqb_refl.
Qed.

End Runs.

(** C34. A preview is confirmed once. A confirmation that succeeds was made with
    the queue configured, the exact phrase and the preview's token, on a run still
    in preview, with the template revision it was made for and every previewed
    zone at the revision it had; it makes the run pending and queues its job, and
    changes no zone, record or template. Confirming the same run again is refused
    as stale, and turns the run stale: the worker then refuses it and changes
    nothing. *)
Theorem preview_confirmed_once `{GoUnicode} `{GoMapOrder} `{Collation} (fingerprint : fingerprintData → string)
    (river : bool) (actorID runID : Z) (token confirmation : string) (s : DNSStore) :
  let outcome := ApplyPreview river actorID runID token confirmation s in
  let s' := snd outcome in
  fst outcome = Ok () →
  river = true ∧ confirmation = "APPLY DNS TEMPLATE" ∧
  (∃ run, run_by_id runID s = Ok run ∧ sr_Status run = "preview" ∧ sr_PreviewToken run = token ∧
     sr_ExpectedStateRevision run = db_OptimisticRevision s ∧ moved_on runID s = []) ∧
  sr_Status <$> (match run_by_id runID s' with Ok run => Some run | Err _ => None end) = Some "pending" ∧
  db_Jobs s' = db_Jobs s ++ [SyncTemplateArgs runID] ∧ OnlyRuns s s' ∧
  ∀ actorID' token' now, let again := ApplyPreview true actorID' runID token' confirmation s' in
    fst again = Err ErrStalePreview ∧
    sr_Status <$> (match run_by_id runID (snd again) with Ok run => Some run | Err _ => None end) = Some "stale" ∧
    is_ok (fst (applyRun fingerprint now runID (snd again))) = false ∧
    snd (applyRun fingerprint now runID (snd again)) = snd again.
Proof.
  cbv zeta. unfold ApplyPreview at 1. destruct river; [|done]. cbn [negb].
  destruct (String.eqb_spec confirmation "APPLY DNS TEMPLATE") as [->|]; [|done]. cbn [negb].
  unfold run_tx. destruct (apply_preview_tx actorID runID token "APPLY DNS TEMPLATE" s) as [[[e|] s1]|e] eqn:E; [done| |done].
  intros _. assert (snd (ApplyPreview true actorID runID token "APPLY DNS TEMPLATE" s) = s1) as ->
    by (unfold ApplyPreview, run_tx; rewrite E; done).
  apply confirm_Ok in E as (run & Hrun & Hst & Htok & Hexp & Hmoved & Hpending & Hjobs & Honly).
  split_and!; try done; [by exists run|by rewrite Hpending|].
  intros actorID' token' now.
  destruct (confirm_refused actorID' runID token' "APPLY DNS TEMPLATE" s1 _ Hpending) as (s2 & Hagain & Hstale & _ & _); [done|].
  assert (ApplyPreview true actorID' runID token' "APPLY DNS TEMPLATE" s1 = (Err ErrStalePreview, s2)) as ->
    by (unfold ApplyPreview, run_tx; by rewrite Hagain).
  cbn [fst snd]. unfold applyRun. rewrite Hstale. done.
Qed.

(** ** A preview that nothing disturbs *)

Section Undisturbed.
Context `{GoUnicode} `{GoMapOrder} `{Collation}.
Context (fingerprint : fingerprintData → string).

Lemma only_runs_zoneByID s s' id : OnlyRuns s s' → zoneByID id s' = zoneByID id s.
Proof. intros ->. by destruct s. Qed.
Lemma only_runs_zone s s' id : OnlyRuns s s' → zone_by_id id s' = zone_by_id id s.
Proof. intros ->. by destruct s. Qed.
Lemma only_runs_optimistic s s' : OnlyRuns s s' → db_OptimisticRevision s' = db_OptimisticRevision s.
Proof. intros ->. by destruct s. Qed.
Lemma only_runs_zones s s' : OnlyRuns s s' → db_Zones s' = db_Zones s.
Proof. intros ->. by destruct s. Qed.

(** What a snapshot takes from the row of its zone. *)
Lemma zoneByID_row id s zone : zoneByID id s = Ok zone →
  ∃ row, zone_by_id id s = Ok row ∧ zr_ID row = id ∧ zone_ID (zs_View zone) = id ∧
    zone_TemplateStatus (zs_View zone) = zr_TemplateStatus row ∧
    zone_DesiredRevision (zs_View zone) = zr_DesiredRevision row ∧ zs_SiteID zone = zr_SiteID row.
Proof.
  unfold zoneByID. intros (row & Hrow & Hrun)%result_bind_Ok. exists row.
  apply result_bind_Ok in Hrun as (site & _ & Hrun). cbv zeta in Hrun.
  apply result_bind_Ok in Hrun as (template & _ & Hrun). injection Hrun as <-.
  apply zone_by_id_Ok in Hrow as Hid. by destruct Hid as [_ <-].
Qed.

Lemma zonesForSync_elem scope zoneID s zones zone : zonesForSync scope zoneID s = Ok zones → zone ∈ zones →
  zoneByID (zone_ID (zs_View zone)) s = Ok zone ∧
  String.eqb scope "unmodified" && String.eqb (zone_TemplateStatus (zs_View zone)) "customized" = false.
Proof.
  unfold zonesForSync. intros (all & Hall & [= <-])%result_bind_Ok [Hf Hz]%list_elem_of_filter. split; [|done].
  clear Hf. revert all Hall Hz. induction (zone_ids zoneID s) as [|id ids IH]; intros all Hall Hz; cbn [load_zones] in Hall.
  { injection Hall as <-. by apply elem_of_nil in Hz. }
  apply result_bind_Ok in Hall as (z & Hzone & Hall). apply result_bind_Ok in Hall as (rest & Hrest & [= <-]).
  apply elem_of_cons in Hz as [->|Hz]; [|by eapply IH].
  apply zoneByID_row in Hzone as Hrow. by destruct Hrow as (_ & _ & _ & -> & _).
Qed.

(** The items a preview stores. *)
Lemma insert_items_Ok {A} (f : A → SyncItem) l : ∀ s u s', tx_each (λ x, insert_item (f x)) l s = Ok (u, s') →
  OnlyRuns s s' ∧ db_Runs s' = db_Runs s ∧ db_RunSeq s' = db_RunSeq s ∧
  (∀ i, i ∈ db_Items s → i ∈ db_Items s') ∧
  (∀ x, x ∈ l → ∃ id, (f x) <| si_ID := id |> ∈ db_Items s') ∧
  (∀ i, i ∈ db_Items s' → i ∈ db_Items s ∨ ∃ x id, x ∈ l ∧ i = (f x) <| si_ID := id |>).
Proof.
  induction l as [|x l IH]; intros s u s' Hrun; cbn [tx_each] in Hrun.
  { unfold tx_ret in Hrun. injection Hrun as _ <-. split_and!; try done; [by intros x ?%elem_of_nil|by left]. }
  apply tx_bind_Ok in Hrun as (u1 & s1 & Hi & Hrun). apply IH in Hrun as (Ho & Hr & Hseq & Hold & Hnew & Hall).
  unfold insert_item in Hi. tx_ok. split_and!.
  - etransitivity; [|exact Ho]. by destruct s.
  - by rewrite Hr.
  - by rewrite Hseq.
  - intros i Hin. apply Hold. cbn. apply elem_of_app. by left.
  - intros y [->|Hy]%elem_of_cons; [|by apply Hnew]. exists (db_ItemSeq s). apply Hold. cbn. apply elem_of_app. right.
    by apply list_elem_of_singleton.
  - intros i [Hin|(y & id & Hy & ->)]%Hall; [|right; exists y, id; split; [by right|done]].
    cbn in Hin. apply elem_of_app in Hin as [Hin| ->%list_elem_of_singleton]; [by left|].
    right. exists x, (db_ItemSeq s). split; [by left|done].
Qed.

Lemma zip_snapshots {A B C} (f : A → B) (g : B → C) (l : list A) :
  zip (f <$> l) (g <$> (f <$> l)) = (λ x, (f x, g (f x))) <$> l.
Proof. induction l as [|x l IH]; [done|]. cbn. by rewrite IH. Qed.

Lemma zip_with_snapshots {A B C D} (h : B → C → D) (f : A → B) (g : B → C) (l : list A) :
  zip_with h (f <$> l) (g <$> (f <$> l)) = (λ x, h (f x) (g (f x))) <$> l.
Proof. induction l as [|x l IH]; [done|]. cbn. by rewrite IH. Qed.

(** What a preview leaves. *)
Lemma preview_Ok random actorID scope zoneID adopt s run s1 :
  StoreOk s → PreviewWithAdoption fingerprint random actorID scope zoneID adopt s = Ok (run, s1) →
  ∃ template zones row, activeTemplate s = Ok template ∧ zonesForSync scope zoneID s = Ok zones ∧
    let zoneplan zone := (adopting adopt zone, compareWholeZone template (adopting adopt zone)) in
    run_Items run = (λ zone, zone_item (fst (zoneplan zone)) (snd (zoneplan zone))) <$> zones ∧
    run_by_id (run_ID run) s1 = Ok row ∧ sr_Status row = "preview" ∧ sr_PreviewToken row = run_PreviewToken run ∧
    sr_ExpectedStateRevision row = tpl_OptimisticRevision template ∧ OnlyRuns s s1 ∧
    (∀ zone, zone ∈ zones → ∃ id, (new_item fingerprint (run_ID run) (fst (zoneplan zone)) (snd (zoneplan zone)))
                                      <| si_ID := id |> ∈ run_items (run_ID run) s1) ∧
    (∀ i, i ∈ run_items (run_ID run) s1 → ∃ zone id, zone ∈ zones ∧
       i = (new_item fingerprint (run_ID run) (fst (zoneplan zone)) (snd (zoneplan zone))) <| si_ID := id |>).
Proof.
  intros Hs Hrun. pose proof (keeps_previewWith fingerprint random actorID scope zoneID adopt _ _ _ Hrun Hs) as Hs1.
  unfold PreviewWithAdoption in Hrun. destruct (negb _) in Hrun; [done|]. destruct (_ && _) in Hrun; [done|].
  apply tx_bind_Ok in Hrun as (template & s0 & [Ht ->]%tx_query_Ok & Hrun).
  apply tx_bind_Ok in Hrun as (zones & s0 & [Hz ->]%tx_query_Ok & Hrun). cbv zeta in Hrun.
  apply tx_bind_Ok in Hrun as (runID & s2 & Hinsert & Hrun).
  apply tx_bind_Ok in Hrun as (u & s3 & Hitems & Hrun).
  apply tx_bind_Ok in Hrun as (u2 & s4 & Hu & Hrun). unfold tx_ret in Hrun. injection Hrun as <- <-.
  unfold update_runs, tx_write in Hu. injection Hu as _ <-.
  unfold insert_run in Hinsert. tx_ok.
  set (new := new_run template scope _ _ _ _ _ _) in *. rewrite zip_snapshots in Hitems.
  apply insert_items_Ok in Hitems as (Honly & Hruns & _ & _ & Hnew & Hall). cbn [db_Items db_Runs] in *.
  set (f := λ r, r <| sr_ChangedZones := _ |>) in *.
  exists template, zones, (f (new <| sr_ID := db_RunSeq s |>)). cbn [run_ID run_Items run_view].
  split_and!; try done.
  - apply (zip_with_snapshots zone_item).
  - destruct (ok_runs _ Hs1) as [Hnd _]. unfold run_by_id. cbn [db_Runs].
    apply query_unique; [exact Hnd| |done].
    cbn. apply rows_update_elem. exists (new <| sr_ID := db_RunSeq s |>). rewrite Hruns. split; [cbn; set_solver|].
    cbn. by rewrite Z.eqb_refl.
  - transitivity s3; [|by destruct s3]. etransitivity; [|exact Honly]. by destruct s.
  - intros zone Hzone. destruct (Hnew (adopting adopt zone, compareWholeZone template (adopting adopt zone))) as [id Hin].
    { apply list_elem_of_fmap. by exists zone. }
    exists id. apply rows_where_elem. split; [apply Z.eqb_refl|exact Hin].
  - intros i [Hid%Z.eqb_eq Hin]%rows_where_elem. apply Hall in Hin as [Hin|(x & id & (zone & -> & Hzone)%list_elem_of_fmap & ->)].
    + pose proof (ok_item_runs _ Hs) as Hlt. rewrite Forall_forall in Hlt. apply Hlt in Hin. cbn in Hid. lia.
    + by exists zone, id.
Qed.

Lemma activeTemplate_optimistic s template :
  activeTemplate s = Ok template → tpl_OptimisticRevision template = db_OptimisticRevision s.
Proof. unfold activeTemplate. by intros (t & _ & [= <-])%result_bind_Ok. Qed.

Lemma confirm_accepted actorID runID token confirmation s run :
  run_by_id runID s = Ok run → sr_Status run = "preview" → sr_PreviewToken run = token →
  sr_ExpectedStateRevision run = db_OptimisticRevision s → moved_on runID s = [] →
  ∃ s', apply_preview_tx actorID runID token confirmation s = Ok (None, s') ∧
    run_items runID s' = run_items runID s ∧ OnlyRuns s s'.
Proof.
  intros Hrun Hst Htok Hexp Hmoved.
  unfold apply_preview_tx, tx_bind, tx_query, tx_read, update_runs, insert_job, tx_write, tx_ret.
  rewrite Hrun, Hst, Htok, Hexp, Z.eqb_refl, !String.eqb_refl. cbn [negb orb]. rewrite Hmoved. cbn [length].
  eexists. split; [reflexivity|]. split; [done|]. by destruct s.
Qed.

Lemma moved_on_nil runID s :
  (∀ i z, i ∈ run_items runID s → z ∈ db_Zones s → zr_ID z = si_ZoneID i → zr_DesiredRevision z = si_ExpectedZoneRevision i) →
  moved_on runID s = [].
Proof.
  intros Hz. unfold moved_on. destruct (filter _ _) as [|i l] eqn:E; [done|exfalso].
  assert (i ∈ i :: l) as Hin by constructor. rewrite <- E in Hin. apply list_elem_of_filter in Hin as [Hc Hi].
  apply existsb_exists in Hc as (z & Hin & Hc). apply list_elem_of_In in Hin. bool_split.
  match goal with Hne : _ ≠ _ |- _ => destruct Hne end. by apply Hz.
Qed.

(** A run has one item per zone. *)
Lemma run_items_zones runID s : StoreOk s → NoDup (si_ZoneID <$> run_items runID s).
Proof.
  intros Hs. apply (NoDup_fmap_1 (pair runID)). rewrite <- list_fmap_compose.
  replace ((pair runID ∘ si_ZoneID) <$> run_items runID s) with (item_key <$> run_items runID s).
  - eapply sublist_NoDup; [apply (ok_items _ Hs)|]. apply fmap_sublist, sublist_filter.
  - apply list_fmap_ext. intros n i Hi. apply list_elem_of_lookup_2, rows_where_elem in Hi as [Hi%Z.eqb_eq _].
    unfold item_key. cbn. by rewrite Hi.
Qed.

(** The plan a preview shows for a zone. *)
Definition shown_plan (template : DNSTemplateRevision) (adopt : bool) (zone : zoneSnapshot) : zonePlan :=
  compareWholeZone template (adopting adopt zone).

(** The worker, on a zone that is as it was previewed. *)
Lemma apply_undisturbed now runID scope template adopt s s' zone item :
  zoneByID (zone_ID (zs_View zone)) s = Ok zone → OnlyRuns s s' →
  String.eqb scope "unmodified" && String.eqb (zone_TemplateStatus (zs_View zone)) "customized" = false →
  query_row (rows_where (λ i, si_ZoneID i =? zone_ID (zs_View zone)) (run_items runID s')) = Ok item →
  si_ExpectedZoneRevision item = zone_DesiredRevision (zs_View zone) →
  si_PlanFingerprint item = zonePlanFingerprint fingerprint (compareWholeZone template (adopting adopt zone)) (adopting adopt zone) →
  ∃ k, applyZonePlan fingerprint now runID scope template (zone_ID (zs_View zone)) (zs_SiteID zone) adopt s' =
    tx_bind (applyZonePlanMutationsTx (zone_ID (zs_View zone)) (tpl_Revision template)
      (compareWholeZone template (adopting adopt zone))) k s' ∧ ∀ u, steps SameRecords (k u).
Proof.
  intros Hzone Honly Hscope Hitem Hrev Hfp.
  apply zoneByID_row in Hzone as Hrow. destruct Hrow as (row & Hrow & _ & _ & Hstatus & Hdesired & _).
  rewrite <- (only_runs_zoneByID _ s') in Hzone by done. rewrite <- (only_runs_zone _ s') in Hrow by done.
  eexists. unfold applyZonePlan, tx_bind at 1, tx_query at 1. rewrite Hrow.
  unfold tx_bind at 1, tx_query at 1. rewrite Hitem.
  rewrite <- Hdesired, <- Hrev, Z.eqb_refl. cbn [negb]. rewrite <- Hstatus, Hscope.
  unfold tx_bind at 1, tx_query at 1. rewrite Hzone. cbv zeta.
  assert (apply_snapshot zone (zs_SiteID zone) adopt = (adopting adopt zone, false)) as ->.
  { unfold apply_snapshot. rewrite Z.eqb_refl, andb_false_r. destruct (0 <? zs_SiteID zone); [|done].
    by destruct zone as [[]]. }
  change (zonePlanForApply template (adopting adopt zone) false) with (compareWholeZone template (adopting adopt zone)).
  rewrite Hfp, String.eqb_refl. cbn [negb]. split; [reflexivity|].
  intros u. cbv beta. tx_steps; first [apply same_update_sites|apply same_update_zones|apply same_refresh|apply same_update_items
    |apply same_bump|apply same_mail|apply same_job].
Qed.
End Undisturbed.


(** * Witnesses *)

Lemma preview_confirmed_once_witness :
  let confirm := @ApplyPreview ascii_only true 1 1 RunSamples.token "APPLY DNS TEMPLATE" in
  fst (confirm RunSamples.previewed) = Ok () ∧
  fst (confirm (snd (confirm RunSamples.previewed))) = Err ErrStalePreview.
Proof.
  cbv zeta.
  assert (fst (@ApplyPreview ascii_only true 1 1 RunSamples.token "APPLY DNS TEMPLATE" RunSamples.previewed) = Ok ()) as Hok
    by (vm_compute; reflexivity).
  split; [exact Hok|].
  pose proof (@preview_confirmed_once ascii_only insertion_order StoreSamples.byte_order RunSamples.fingerprint true 1 1
    RunSamples.token "APPLY DNS TEMPLATE" RunSamples.previewed Hok) as Honce.
  exact (proj1 (proj2 (proj2 (proj2 (proj2 (proj2 (proj2 Honce))))) 1 RunSamples.token 0)).
Defined.

