(* ===== verification/DNSLocal.v ===== *)
(** * What a person decides about a zone lasts

    A template record a person deleted does not come back with the next
    synchronisation, and the records of a subdomain keep their names when it
    moves between its parent's zone and its own. *)

From S2P Require Import Prelude Tx Tables GoStr Site DNSTypes DNSRecord DNSPlan DNSTables DNSTemplateStore DNSZoneStore DNSSync DNSEdit DNSStoreFacts DNSConverge DNSInvariant.

(** ** Suppressed template records *)

Section Suppressed.
Context `{GoUnicode} `{GoMapOrder}.

(** The plan adds no template record whose owner suppressed its key. *)
Definition respects (keys : gmap Z (gset string)) (plan : zonePlan) : Prop :=
  ∀ r, r ∈ plan_add plan → rec_Origin r = "template" →
    rec_TemplateRecordKey r ∉ default ∅ (keys !! rec_OwnerSiteID r).

Lemma respects_add keys p q : plan_add q = plan_add p → respects keys p → respects keys q.
Proof. unfold respects. by intros ->. Qed.

Lemma compare_settings_add t z p : plan_add (compare_settings t z p) = plan_add p.
Proof. unfold compare_settings. by repeat case_match. Qed.

Lemma compare_removal_add z keys p r : plan_add (compare_removal z keys p r) = plan_add p.
Proof. unfold compare_removal. by repeat case_match. Qed.

Lemma compare_expanded_add z byKey key expanded p :
  plan_add (compare_expanded z byKey key expanded p) = plan_add p ∨
  plan_add (compare_expanded z byKey key expanded p) = plan_add p ++ [expanded].
Proof. unfold compare_expanded. repeat case_match; try (by left); by right. Qed.

Lemma expanded_key record values r :
  expandTemplateRecord record values = Ok (Some r) → rec_TemplateRecordKey r = trec_StableKey record.
Proof.
  unfold expandTemplateRecord. repeat (case_match; [done|]).
  rewrite result_bind_Ok. intros (r' & Hn & [= <-]).
  by apply normalizeRecord_meta in Hn as (_ & -> & _).
Qed.

Lemma compare_template_record_respects t z byKey state record :
  respects (zs_SuppressedKeys z) (fst state) →
  respects (zs_SuppressedKeys z) (fst (compare_template_record t z byKey state record)).
Proof.
  intros Hr. destruct state as [plan keys]. unfold compare_template_record.
  destruct (suppressed z _) eqn:Es; [exact Hr|].
  destruct (expandTemplateRecord _ _) as [[expanded|]|] eqn:E; [|exact Hr|exact Hr].
  apply expanded_key in E. cbn [fst] in *.
  destruct (compare_expanded_add z byKey (trec_StableKey record)
    (expanded <| rec_OwnerSiteID := zs_SiteID z |> <| rec_TemplateRevision := tpl_Revision t |>) plan) as [Ha|Ha].
  - by apply (respects_add _ plan).
  - intros r. rewrite Ha. intros [Hin| ->%list_elem_of_singleton]%elem_of_app Ho; [by apply Hr|].
    cbn. rewrite E. unfold suppressed in Es. by apply bool_decide_eq_false in Es.
Qed.

Lemma adopt_service_add z wanted state i : plan_add (snd (adopt_service z wanted state i)) = plan_add (snd state).
Proof. unfold adopt_service, count_adopted. destruct state. by repeat case_match. Qed.

Lemma withServiceDefaults_add z p r :
  r ∈ plan_add (withServiceDefaults z p) → r ∈ plan_add p ∨ rec_Origin r = "system".
Proof.
  unfold withServiceDefaults. destruct (zs_Services z) as [services|]; [|by left].
  cbv zeta. destruct (wanted_services _ _ _) as [wanted hidden] eqn:Ew.
  assert (∀ r, r ∈ wanted → rec_Origin r = "system") as Hwanted.
  { intros x Hx. unfold wanted_services in Ew. injection Ew as <- _.
    apply list_elem_of_fmap in Hx as (r0 & -> & [_ Hr0]%list_elem_of_filter).
    by apply DNSServiceDefaults_system in Hr0 as (? & _). }
  set (state := if zs_AdoptMatching z then foldl _ _ _ else _).
  assert (plan_add (snd state) = plan_add p) as Hadd.
  { unfold state. destruct (zs_AdoptMatching z); [|done].
    apply (foldl_inv (λ s, plan_add (snd s) = plan_add p)); [|done]. intros i s _ <-. apply adopt_service_add. }
  destruct state as [candidate plan1]. cbn [fst snd] in *.
  destruct (PlanServiceDNSRecords _ _ _) as [[add remove] preserved] eqn:Ep.
  apply PlanServiceDNSRecords_elem in Ep as [Hpadd _]. cbn. rewrite Hadd.
  intros [Hin|Hin]%elem_of_app; [by left|right; auto].
Qed.

Lemma compareZone_respects t z : respects (zs_SuppressedKeys z) (compareZone t z).
Proof.
  unfold compareZone. destruct (foldl _ _ _) as [plan keys] eqn:E.
  assert (respects (zs_SuppressedKeys z) plan) as HT.
  { change plan with (fst (plan, keys)). rewrite <- E.
    apply (foldl_inv (λ s, respects (zs_SuppressedKeys z) (fst s))).
    - intros record s _. apply compare_template_record_respects.
    - intros r. cbn [fst]. rewrite compare_settings_add. by intros ?%elem_of_nil. }
  set (plan' := foldl _ plan _). assert (plan_add plan' = plan_add plan) as Ha.
  { unfold plan'. apply (foldl_inv (λ p, plan_add p = plan_add plan)); [|done].
    intros r p _ <-. apply compare_removal_add. }
  intros r Hin Ho. unfold validateZonePlan in Hin. destruct (validateDNSRecordSet _); cbn in Hin;
    [|by apply elem_of_nil in Hin].
  apply withServiceDefaults_add in Hin as [Hin|Hs]; [|congruence]. rewrite Ha in Hin. by apply HT.
Qed.

Lemma apply_plan_respects t z partial : respects (zs_SuppressedKeys z) (zonePlanForApply t z partial).
Proof.
  destruct partial; cbn [zonePlanForApply]; [apply compareZone_respects|].
  unfold compareWholeZone. intros r Hin Ho. unfold validateZonePlan in Hin.
  destruct (validateDNSRecordSet _); cbn in Hin; [|by apply elem_of_nil in Hin].
  revert r Hin Ho. change (respects (zs_SuppressedKeys z) (foldl (λ combined '(siteID, expansion),
      mergeZonePlan combined (compareZone t (child_snapshot z siteID expansion)))
    (mergeZonePlan empty_plan (compareZone t z)) (sorted_sites z))).
  apply foldl_inv.
  - intros [siteID expansion] p _ Hp r. cbn. intros [Hin|Hin]%elem_of_app Ho; [by apply Hp|].
    exact (compareZone_respects t (child_snapshot z siteID expansion) r Hin Ho).
  - exact (compareZone_respects t z).
Qed.
End Suppressed.

(** ** Deletions are remembered *)

(** The snapshot suppresses what the database remembers as deleted. *)
Lemma suppressed_keys_elem zoneID owner key deletions :
  (zoneID, owner, key) ∈ deletions → key ∈ default ∅ (suppressed_keys zoneID deletions !! owner).
Proof.
  unfold suppressed_keys.
  assert (∀ keys : gmap Z (gset string), (zoneID, owner, key) ∈ deletions ∨ key ∈ default ∅ (keys !! owner) →
    key ∈ default ∅ (foldl (λ suppressed '(zone, owner, key),
      if zone =? zoneID then <[owner := {[key]} ∪ default ∅ (suppressed !! owner)]> suppressed else suppressed)
    keys deletions !! owner)) as Hfold; [|intros Hin; apply Hfold; by left].
  induction deletions as [|[[z o] k] rows IH]; intros keys Hor; cbn [foldl].
  { destruct Hor as [Hin|?]; [by apply elem_of_nil in Hin|done]. }
  apply IH. destruct Hor as [[[= <- <- <-]|Hin]%elem_of_cons|Hk]; [right|by left|right].
  - rewrite Z.eqb_refl, lookup_insert_eq. cbn. set_solver.
  - destruct (z =? zoneID); [|done]. destruct (decide (o = owner)) as [->|Hne].
    + rewrite lookup_insert_eq. cbn. set_solver.
    + by rewrite lookup_insert_ne.
Qed.

Section Deletions.
Context `{GoUnicode} `{GoMapOrder} `{Collation}.

Lemma remembered_fold {A} (f : A → Z * Z * string) deleted : ∀ rows row,
  row ∈ rows ∨ row ∈ f <$> deleted →
  row ∈ foldl (λ rows r, if bool_decide (f r ∈ rows) then rows else rows ++ [f r]) rows deleted.
Proof.
  induction deleted as [|r deleted IH]; intros rows row Hor; cbn [foldl].
  { destruct Hor as [?|Hin]; [done|by apply elem_of_nil in Hin]. }
  apply IH. rewrite fmap_cons, elem_of_cons in Hor. case_bool_decide; [naive_solver|]. rewrite elem_of_app, list_elem_of_singleton. tauto.
Qed.

Definition SameDeletions (s s' : DNSStore) : Prop := db_Deletions s' = db_Deletions s.
#[export] Instance SameDeletions_preorder : PreOrder SameDeletions.
Proof. split; [done|]. unfold SameDeletions. intros s1 s2 s3 H12 H23. congruence. Qed.

(** The row [dns_template_deletions] gets for a record. *)
Definition deletion_row (zone : ZoneRow) (r : DNSRecord) : Z * Z * string :=
  (zr_ID zone, if rec_OwnerSiteID r =? 0 then zr_SiteID zone else rec_OwnerSiteID r, rec_TemplateRecordKey r).

Lemma delete_remembers now siteID recordID s s' site zone r :
  serving_zone siteID s = Ok (site, zone) → DeleteDNSRecord true now siteID recordID s = Ok ((), s') →
  r ∈ db_Records s → editable zone siteID recordID r = true → rec_Origin r = "template" → rec_TemplateRecordKey r ≠ "" →
  deletion_row zone r ∈ db_Deletions s'.
Proof.
  intros Hserving Hrun Hr He Ho Hk. unfold DeleteDNSRecord in Hrun. cbn [negb] in Hrun.
  apply tx_bind_Ok in Hrun as (serving & s0 & [Hs ->]%tx_query_Ok & Hrun).
  rewrite Hserving in Hs. injection Hs as <-. cbn [fst snd] in Hrun. cbv zeta in Hrun.
  apply tx_bind_Ok in Hrun as (u & s1 & Hp & Hrun).
  match type of Hrun with ?m s1 = _ => assert (steps SameDeletions m) as Hsame end.
  { unfold delete_records, EnqueueMailDNSRecheckTx, enqueueDNSZoneTx, update_zones, insert_job.
    tx_steps; first [apply steps_query, _|by apply steps_write]. }
  apply Hsame in Hrun. rewrite Hrun. unfold preserve_deletion, tx_write in Hp. injection Hp as _ <-. cbn.
  apply (remembered_fold (deletion_row zone)). right. apply list_elem_of_fmap. exists r. split; [done|].
  apply rows_where_elem. split; [|done]. unfold editable in He. bool_split.
  match goal with Hor : (_ || _) = true |- _ => rewrite Hor end.
  rewrite Ho, String.eqb_refl, (proj2 (String.eqb_neq _ _) Hk), !(proj2 (Z.eqb_eq _ _)) by done. done.
Qed.
End Deletions.

(** ** Names across a move *)

Section Moves.

(** The absolute name of a record's host in a zone. *)
Definition absolute_name (domain host : string) : string :=
  if String.eqb host "@" then domain else host +:+ "." +:+ domain.

Lemma label_longer host label : host +:+ "." +:+ label ≠ label.
Proof. intros E. apply (f_equal String.length) in E. rewrite !string_length_app in E. cbn in E. lia. Qed.

Lemma host_in_parent_back label r : host_in_child label (host_in_parent label r) = Some r.
Proof.
  unfold host_in_child, host_in_parent. destruct (String.eqb_spec (rec_Host r) "@") as [E|E]; cbn.
  - rewrite String.eqb_refl. destruct r; cbn in *. by subst.
  - rewrite (proj2 (String.eqb_neq _ _)) by apply label_longer.
    rewrite <- string_app_assoc. rewrite string_app_assoc, has_suffix_app, trim_suffix_app. by destruct r.
Qed.

Lemma host_in_child_back label r r' :
  host_in_child label r = Some r' → rec_Host r ≠ "@." +:+ label → host_in_parent label r' = r.
Proof.
  unfold host_in_child, host_in_parent. destruct (String.eqb_spec (rec_Host r) label) as [E|E].
  - intros [= <-] _. cbn. destruct r; cbn in *. by subst.
  - destruct (has_suffix (rec_Host r) ("." +:+ label)) eqn:Es; [|done]. intros [= <-] Hne.
    apply has_suffix_spec in Es as [h Eh]. cbn. rewrite Eh in Hne |- *. rewrite trim_suffix_app.
    destruct (String.eqb_spec h "@") as [->|]; [done|]. destruct r; cbn in *. by subst.
Qed.

Lemma absolute_in_parent domain label host :
  absolute_name domain (if String.eqb host "@" then label else host +:+ "." +:+ label)
  = absolute_name (label +:+ "." +:+ domain) host ∨ label = "@" ∨ host +:+ "." +:+ label = "@".
Proof.
  unfold absolute_name. destruct (String.eqb_spec host "@") as [->|Hne].
  - destruct (String.eqb_spec label "@") as [->|]; [by right; left|by left].
  - destruct (String.eqb_spec (host +:+ "." +:+ label) "@") as [E|]; [by right; right|].
    left. by rewrite !string_app_assoc.
Qed.
End Moves.

(** * Properties *)

(** C35. A deleted template record does not come back. When a person has deleted
    a record the template made, then as long as the deletion is remembered (it is
    in every state of the tables that only adds deletions) no plan of any template
    for that zone, whole or for one of its sites, adds that template record for
    that owner again. *)
Theorem deleted_template_record_stays_deleted `{GoUnicode} `{GoMapOrder} `{Collation} (now siteID recordID : Z)
    (s s' later : DNSStore) (site : DNSSite) (zone : ZoneRow) (r : DNSRecord) :
  serving_zone siteID s = Ok (site, zone) →
  run_tx (DeleteDNSRecord true now siteID recordID) s = (Ok (), s') →
  r ∈ db_Records s → editable zone siteID recordID r = true →
  rec_Origin r = "template" → rec_TemplateRecordKey r ≠ "" →
  db_Deletions s' ⊆ db_Deletions later →
  ∀ snapshot template ownerSiteID adopt added, zoneByID (zr_ID zone) later = Ok snapshot →
    let work := apply_snapshot snapshot ownerSiteID adopt in
    added ∈ plan_add (zonePlanForApply template (fst work) (snd work)) →
    rec_Origin added = "template" →
    (zr_ID zone, rec_OwnerSiteID added, rec_TemplateRecordKey added) ≠ deletion_row zone r.
Proof.
  intros Hserving Hrun Hr He Ho Hk Hlater snapshot template ownerSiteID adopt added Hsnap work Hadded Hao [= Howner Hkey].
  unfold run_tx in Hrun. destruct (DeleteDNSRecord _ _ _ _ s) as [[[] s1]|e] eqn:E; [|done]. injection Hrun as <-.
  pose proof (delete_remembers _ _ _ _ _ _ _ _ Hserving E Hr He Ho Hk) as Hdel. clear E. apply Hlater in Hdel as E.
  apply suppressed_keys_elem in E.
  assert (zs_SuppressedKeys (fst work) = suppressed_keys (zr_ID zone) (db_Deletions later)) as Hkeys.
  { transitivity (zs_SuppressedKeys snapshot).
    - unfold work, apply_snapshot. by destruct (_ && _), (0 <? ownerSiteID).
    - unfold zoneByID in Hsnap. apply result_bind_Ok in Hsnap as (row & Hrow & Hsnap).
      apply result_bind_Ok in Hsnap as (owner & _ & Hsnap). cbv zeta in Hsnap.
      by apply result_bind_Ok in Hsnap as (t & _ & [= <-]). }
  pose proof (apply_plan_respects template (fst work) (snd work) added Hadded Hao) as Hnot.
  by rewrite Hkeys, Howner, Hkey in Hnot.
Qed.

(** A subdomain's records keep their names when it moves. Moving a record of
    the parent zone to the subdomain's own zone and back gives the same record,
    and so does moving a record of the subdomain's zone to the parent zone and
    back; in both zones the record's absolute name is the same; and the records
    that stay behind are those outside the subdomain. *)
Theorem moved_records_keep_names (domain label : string) (r : DNSRecord) :
  label ≠ "@" → rec_Host r ≠ "@." +:+ label →
  let child := label +:+ "." +:+ domain in
  (host_in_child label (host_in_parent label r) = Some r ∧
   absolute_name domain (rec_Host (host_in_parent label r)) = absolute_name child (rec_Host r)) ∧
  match host_in_child label r with
  | Some r' => host_in_parent label r' = r ∧ absolute_name child (rec_Host r') = absolute_name domain (rec_Host r)
  | None => rec_Host r ≠ label ∧ ∀ host, rec_Host r ≠ host +:+ "." +:+ label
  end.
Proof.
  intros Hlabel Hat child.
  assert (∀ r, absolute_name domain (rec_Host (host_in_parent label r)) = absolute_name child (rec_Host r)) as Habs.
  { intros x. destruct (absolute_in_parent domain label (rec_Host x)) as [E|[E|E]]; [exact E|done|].
    exfalso. destruct (rec_Host x) as [|c [|c' h]]; destruct label; done. }
  split; [split; [by apply host_in_parent_back|apply Habs]|].
  destruct (host_in_child label r) as [r'|] eqn:E.
  - apply host_in_child_back in E; [|done]. split; [done|]. by rewrite <- Habs, E.
  - unfold host_in_child in E. destruct (String.eqb_spec (rec_Host r) label) as [|Hne]; [done|].
    destruct (has_suffix _ _) eqn:Es; [done|]. split; [done|]. intros host Eh. rewrite Eh in Es.
    by rewrite has_suffix_app in Es.
Qed.

(** * Witnesses *)

Module DeletionSamples.
Import StoreSamples.
(** The [www] record of the sample site is deleted. *)
Definition deleted : DNSStore := after (EditDelete 2000 100 2).
End DeletionSamples.

Lemma deleted_template_record_witness :
  match @zoneByID insertion_order StoreSamples.byte_order 10 DeletionSamples.deleted with
  | Ok snapshot => ∀ added,
      let work := apply_snapshot snapshot 100 false in
      added ∈ plan_add (@zonePlanForApply ascii_only insertion_order StoreSamples.revision (fst work) (snd work)) →
      rec_Origin added = "template" → (10, rec_OwnerSiteID added, rec_TemplateRecordKey added) ≠ (10, 100, "www-a")
  | Err _ => False
  end.
Proof.
  destruct (@zoneByID insertion_order StoreSamples.byte_order 10 DeletionSamples.deleted) as [snapshot|e] eqn:E;
    [|vm_compute in E; discriminate E].
  intros added. cbv zeta.
  apply (@deleted_template_record_stays_deleted ascii_only insertion_order StoreSamples.byte_order 2000 100 2
    StoreSamples.db DeletionSamples.deleted DeletionSamples.deleted StoreSamples.site StoreSamples.zone
    (StoreSamples.row 2 "www" "A" "192.0.2.1" "www-a")).
  - vm_compute. reflexivity.
  - vm_compute. reflexivity.
  - apply (bool_decide_unpack _). vm_compute. done.
  - vm_compute. reflexivity.
  - vm_compute. reflexivity.
  - discriminate.
  - done.
  - exact E.
Defined.

Lemma moved_records_keep_names_witness :
  let record := zero_DNSRecord <| rec_Host := "www.shop" |> in
  "shop" ≠ "@" ∧ rec_Host <$> host_in_child "shop" record = Some "www" ∧
  absolute_name "shop.example.com" "www" = "www.shop.example.com".
Proof.
  intros record. split; [discriminate|]. split; [vm_compute; reflexivity|].
  assert ("shop" ≠ "@") as Hlabel by discriminate.
  assert (rec_Host record ≠ "@." +:+ "shop") as Hat by discriminate.
  pose proof (proj2 (moved_records_keep_names "example.com" "shop" record Hlabel Hat)) as Hmove.
  exact (proj2 Hmove).
Defined.
