(* ===== verification/DNSTemplateProps.v ===== *)
(** * Properties of the template revisions

    Edits of the template are serialised by the optimistic revision and only
    valid revisions become active; the provider's nameservers are read back as
    they were saved. *)

From S2P Require Import Prelude Tx Tables GoStr Net Site DNSTypes DNSRecord DNSPlan DNSTables DNSTemplateStore DNSStoreFacts DNSConverge.

Section TemplateLemmas.
Context `{GoUnicode} `{GoMapOrder} `{Collation}.

Lemma foldr_max_ge (x : Z) l : ∀ y, y ∈ x :: l → y ≤ foldr Z.max x l.
Proof.
  induction l as [|z l IH]; intros y Hy; cbn [foldr].
  - apply list_elem_of_singleton in Hy as ->. lia.
  - assert (y = z ∨ y ∈ x :: l) as [->|Hin] by set_solver; [lia|]. apply IH in Hin. lia.
Qed.

Lemma next_revision_greater revisions t : t ∈ revisions → tpl_Revision t < next_revision revisions.
Proof.
  intros Ht. unfold next_revision.
  assert (tpl_Revision t ∈ tpl_Revision <$> revisions) as Hin by by apply list_elem_of_fmap_2.
  destruct (tpl_Revision <$> revisions) as [|r rs]; [by apply elem_of_nil in Hin|].
  apply foldr_max_ge in Hin. lia.
Qed.

(** The row a template is stored as. *)
Definition stored_template (actorID : Z) (template : DNSTemplateRevision) (db : DNSStore) : DNSTemplateRevision :=
  mkDNSTemplateRevision (db_RevisionSeq db) (next_revision (db_Revisions db)) (tpl_SOA template)
    (tpl_ZoneStatus template) (tpl_SubdomainPolicy template) (tpl_TransferCIDRs template)
    (imap (λ i, store_template_record (db_TemplateRecordSeq db + Z.of_nat i)) (tpl_Records template))
    (Z.max 0 actorID) (db_Clock db) 0.

Lemma insertRevision_Ok actorID template s id s' :
  insertRevisionTx actorID template s = Ok (id, s') →
  id = db_RevisionSeq s ∧ db_Revisions s' = db_Revisions s ++ [stored_template actorID template s] ∧
  db_OptimisticRevision s' = db_OptimisticRevision s ∧ db_Zones s' = db_Zones s.
Proof.
  unfold insertRevisionTx. intros Hrun. tx_ok. split_and!; [done| |done|done].
  unfold stored_template. replace (Z.max 0 actorID) with (stored_number (nullableID actorID)); [done|].
  unfold nullableID, stored_number. destruct (actorID <=? 0) eqn:E1; cbn; lia.
Qed.

Lemma markZones_Ok s u s' : markZonesOutOfSyncTx s = Ok (u, s') →
  s' = (s <| db_Zones := db_Zones s' |>) ∧ Forall (λ z, zr_TemplateStatus z ≠ "in_sync") (db_Zones s').
Proof.
  unfold markZonesOutOfSyncTx, update_zones, tx_write. intros [= _ <-]. split; [done|].
  apply Forall_forall. intros z (old & _ & ->)%rows_update_elem.
  destruct (String.eqb_spec (zr_TemplateStatus old) "in_sync"); done.
Qed.

(** What a saved edit leaves, and what it read. *)
Lemma createRevision_Ok actorID expected mutate s id s' :
  createRevision actorID expected mutate s = Ok (id, s') →
  db_OptimisticRevision s = expected ∧
  ∃ current template, activeTemplate s = Ok current ∧ mutate current = Ok template ∧
    validateTemplateRevision template = Ok () ∧
    id = db_RevisionSeq s ∧ db_Revisions s' = db_Revisions s ++ [stored_template actorID template s] ∧
    db_ActiveRevisionID s' = id ∧ db_OptimisticRevision s' = expected + 1 ∧
    Forall (λ z, zr_TemplateStatus z ≠ "in_sync") (db_Zones s').
Proof.
  unfold createRevision. intros Hrun.
  apply tx_bind_Ok in Hrun as (r0 & s0 & Hr & Hrun). unfold tx_read in Hr. injection Hr as <- <-.
  destruct (negb _) eqn:E1; [done|]. apply negb_false_iff, Z.eqb_eq in E1.
  apply tx_bind_Ok in Hrun as (current & s0 & [Hcurrent ->]%tx_query_Ok & Hrun).
  destruct (negb _) in Hrun; [done|].
  apply tx_bind_Ok in Hrun as (template & s0 & [Hmutate ->]%tx_lift_Ok & Hrun).
  apply tx_bind_Ok in Hrun as ([] & s0 & [Hvalid ->]%tx_lift_Ok & Hrun).
  apply tx_bind_Ok in Hrun as (new & s1 & (-> & Hrevs & Hopt & Hzones)%insertRevision_Ok & Hrun).
  apply tx_bind_Ok in Hrun as (r & s0 & Hr & Hrun). unfold tx_read in Hr. injection Hr as <- <-.
  destruct (negb _) in Hrun; [done|]. unfold activate_revision in Hrun.
  apply tx_bind_Ok in Hrun as (u & s2 & Hw & Hrun). unfold tx_write in Hw. injection Hw as _ <-.
  apply tx_bind_Ok in Hrun as (u' & s3 & [Heq Hzs]%markZones_Ok & Hrun). unfold tx_ret in Hrun. injection Hrun as <- <-.
  split; [done|]. exists current, template. rewrite Heq. split_and!; try done. cbn. by rewrite Hopt, E1.
Qed.

Lemma createRevision_stale actorID expected mutate s :
  db_OptimisticRevision s ≠ expected → createRevision actorID expected mutate s = Err ErrStalePreview.
Proof.
  intros Hne. unfold createRevision, tx_bind at 1, tx_read at 1.
  destruct (db_OptimisticRevision s =? expected) eqn:E; [by apply Z.eqb_eq in E|done].
Qed.

End TemplateLemmas.

(** * Properties *)

(** C33. Edits of the DNS template are serialised. A saved edit was made on the
    template that was active under the revision its author saw; it appends one
    revision, numbered above every earlier one and holding the validated result
    of the edit, makes it the active one and leaves no zone marked in sync with
    the old one. Every other edit made under the same revision, by whomever, is
    then refused as stale and changes nothing. *)
Theorem template_edits_serialised `{GoUnicode} `{GoMapOrder} `{Collation} (actorID expected id : Z)
    (mutate : DNSTemplateRevision → result DNSTemplateRevision) (s : DNSStore) :
  let outcome := run_tx (createRevision actorID expected mutate) s in
  fst outcome = Ok id →
  let s' := snd outcome in
  (∃ current template, activeTemplate s = Ok current ∧ mutate current = Ok template ∧
     validateTemplateRevision template = Ok () ∧
     db_Revisions s' = db_Revisions s ++ [stored_template actorID template s] ∧
     Forall (λ old, tpl_Revision old < tpl_Revision (stored_template actorID template s)) (db_Revisions s)) ∧
  db_ActiveRevisionID s' = id ∧ db_OptimisticRevision s' = expected + 1 ∧
  Forall (λ z, zr_TemplateStatus z ≠ "in_sync") (db_Zones s') ∧
  ∀ actorID' mutate', run_tx (createRevision actorID' expected mutate') s' = (Err ErrStalePreview, s').
Proof.
  cbv zeta. intros Hrun%run_tx_Ok. set (s' := snd _) in *. clearbody s'.
  apply createRevision_Ok in Hrun as (Hexp & current & template & Hc & Hm & Hv & -> & Hrevs & Hact & Hopt & Hz).
  split_and!; try done.
  - exists current, template. split_and!; try done. apply Forall_forall. intros old Hold. by apply next_revision_greater.
  - intros actorID' mutate'. unfold run_tx. rewrite createRevision_stale; [done|lia].
Qed.

(** ** Provider nameservers *)

(** The records the provider's nameservers leave alone. *)
Definition kept_records (t : DNSTemplateRevision) : list DNSTemplateRecord :=
  filter (λ record, provider_replaces record = false) (tpl_Records t).

Section ProviderLemmas.
Context `{GoUnicode} `{GoMapOrder}.

Lemma nameserver_input_valid d : ValidateDomain d = Ok () → nameserver_input d = d.
Proof. exact (NormalizeDomain_valid d). Qed.

Lemma provider_records_kept records p s :
  filter (λ record, provider_replaces record = false)
    (filter (λ record, provider_replaces record = false) records
       ++ [nameserver_record "primary-ns" p; nameserver_record "secondary-ns" s])
  = filter (λ record, provider_replaces record = false) records.
Proof.
  rewrite filter_app, list_filter_filter. cbn [filter list_filter].
  rewrite !decide_False by done. rewrite app_nil_r. apply list_filter_iff. tauto.
Qed.

Lemma provider_find records p s : p ≠ s →
  List.find (λ record, String.eqb (trec_Type record) "NS" && negb (String.eqb (trec_Scope record) "subdomain")
                        && String.eqb (trec_HostTemplate record) "@" && negb (String.eqb (trec_ValueTemplate record) p))
    (filter (λ record, provider_replaces record = false) records
       ++ [nameserver_record "primary-ns" p; nameserver_record "secondary-ns" s])
  = Some (nameserver_record "secondary-ns" s).
Proof.
  intros Hne. induction records as [|r records IH].
  - cbn. rewrite String.eqb_refl. cbn. by rewrite (proj2 (String.eqb_neq s p)).
  - rewrite filter_cons. destruct (decide (provider_replaces r = false)) as [E|E]; [|done].
    cbn [app List.find]. unfold provider_replaces in E.
    destruct (String.eqb (trec_Type r) "NS"), (String.eqb (trec_HostTemplate r) "@"),
      (String.eqb (trec_Scope r) "subdomain"); try discriminate E; exact IH.
Qed.
End ProviderLemmas.

(** The provider's nameservers survive a save. A template the settings were
    written to shows exactly the two names entered, in normal form; it keeps every
    record that is not a nameserver record of the zone (nor the panel's own
    [ns1] address); and saving what it shows changes nothing. *)
Theorem provider_defaults_roundtrip `{GoUnicode} `{GoMapOrder} (current t : DNSTemplateRevision)
    (input : DNSProviderDefaults) :
  withProviderDefaults current input = Ok t →
  providerDefaults t = mkDNSProviderDefaults (nameserver_input (pdef_PrimaryNameserver input))
                                             (nameserver_input (pdef_SecondaryNameserver input)) ∧
  kept_records t = kept_records current ∧
  withProviderDefaults t (providerDefaults t) = Ok t.
Proof.
  unfold withProviderDefaults at 1. set (p := nameserver_input (pdef_PrimaryNameserver input)).
  set (q := nameserver_input (pdef_SecondaryNameserver input)). intros Hrun.
  apply fail_when_Ok in Hrun as [Hguard Hrun]. cbv zeta in Hrun.
  apply result_bind_Ok in Hrun as ([] & Hvalid & [= <-]).
  apply orb_false_iff in Hguard as [[Hp Hq]%orb_false_iff Hpq]. apply negb_false_iff in Hp, Hq.
  apply String.eqb_neq in Hpq.
  assert (ValidateDomain p = Ok () ∧ ValidateDomain q = Ok ()) as [Hvp Hvq].
  { split; [destruct (ValidateDomain p) as [[]|]|destruct (ValidateDomain q) as [[]|]]; done. }
  set (t := current <| tpl_Records := _ |> <| tpl_SOA := _ |>) in *.
  assert (providerDefaults t = mkDNSProviderDefaults p q) as Hread.
  { unfold providerDefaults, t. cbn -[List.find nameserver_record]. by rewrite provider_find. }
  split_and!; [done|apply provider_records_kept|].
  rewrite Hread. unfold withProviderDefaults. cbn [pdef_PrimaryNameserver pdef_SecondaryNameserver].
  rewrite !nameserver_input_valid, Hvp, Hvq, (proj2 (String.eqb_neq p q)) by done. cbn [is_ok negb orb fail_when].
  assert (filter (λ r, provider_replaces r = false) (tpl_Records t)
    = filter (λ r, provider_replaces r = false) (tpl_Records current)) as -> by apply provider_records_kept.
  change ((let* _ := validateTemplateRevision t in Ok t) = Ok t). by rewrite Hvalid.
Qed.

(** * Witnesses *)

Definition sample_settings : DNSProviderDefaults := mkDNSProviderDefaults " NS1.Provider.net." "ns2.provider.net".

(** A record is added under optimistic revision 1 (the sample database's). *)
Lemma template_edits_serialised_witness :
  let record := mkDNSTemplateRecord 0 "blog-a" "root" "blog" "A" "<ip.web>" 0 0 0 3600 in
  let edit := @createRevision ascii_only insertion_order StoreSamples.byte_order 1 1 (upsert_mutation 0 record) in
  fst (run_tx edit StoreSamples.db) = Ok 2 ∧
  ∀ actorID mutate, run_tx (@createRevision ascii_only insertion_order StoreSamples.byte_order actorID 1 mutate)
      (snd (run_tx edit StoreSamples.db)) = (Err ErrStalePreview, snd (run_tx edit StoreSamples.db)).
Proof.
  intros record edit.
  assert (fst (run_tx edit StoreSamples.db) = Ok 2) as Hrun by (vm_compute; reflexivity).
  split; [exact Hrun|].
  exact (proj2 (proj2 (proj2 (proj2 (@template_edits_serialised ascii_only insertion_order StoreSamples.byte_order 1 1 2
    (upsert_mutation 0 record) StoreSamples.db Hrun))))).
Defined.

Lemma provider_defaults_roundtrip_witness :
  match @withProviderDefaults ascii_only insertion_order StoreSamples.revision sample_settings with
  | Ok t => providerDefaults t = mkDNSProviderDefaults "ns1.provider.net" "ns2.provider.net"
  | Err _ => False
  end.
Proof.
  destruct (@withProviderDefaults ascii_only insertion_order StoreSamples.revision sample_settings) as [t|e] eqn:E.
  - exact (proj1 (@provider_defaults_roundtrip ascii_only insertion_order StoreSamples.revision t sample_settings E)).
  - vm_compute in E. discriminate E.
Defined.
