(* ===== verification/DNSProvisionProps.v ===== *)
(** * Properties of automatic records

    Records made without being asked leave alone what people entered
    ([automatic_records_keep_users]), and a subdomain that was given its address
    answers with it and with nothing else ([subdomain_address_answers]). *)

From S2P Require Import Prelude Tx Tables GoStr Net Site DNSTypes DNSRecord DNSPlan DNSTables DNSZoneStore DNSEdit DNSProvision DNSStoreFacts DNSConverge.

(** ** Records of people *)

(** Every record the system did not make is still there, unchanged. *)
Definition KeepsUsers (s s' : DNSStore) : Prop :=
  ∀ r, r ∈ db_Records s → rec_Origin r ≠ "system" → r ∈ db_Records s'.

#[export] Instance KeepsUsers_preorder : PreOrder KeepsUsers.
Proof. split; [by intros s r|]. intros s1 s2 s3 H12 H23 r Hr Ho. auto. Qed.

Lemma users_write f : (∀ s, db_Records (f s) = db_Records s) → steps KeepsUsers (tx_write f).
Proof. intros Hf. apply steps_write. intros s r. by rewrite Hf. Qed.

Lemma users_update_zones p f : steps KeepsUsers (update_zones p f).
Proof. by apply users_write. Qed.
Lemma users_update_sites p f : steps KeepsUsers (update_sites p f).
Proof. by apply users_write. Qed.
Lemma users_insert_job job : steps KeepsUsers (insert_job job).
Proof. by apply users_write. Qed.
Lemma users_query {A} (f : DNSStore → result A) : steps KeepsUsers (tx_query f).
Proof. apply steps_query, _. Qed.

Lemma users_insert_or_nothing record : steps KeepsUsers (insert_record_or_nothing record).
Proof.
  intros s a s' Hi. unfold insert_record_or_nothing in Hi. tx_ok. destruct (existsb _ _); tx_ok; [by intros r|].
  intros r Hr _. rewrite append_record_rows. apply elem_of_app. by left.
Qed.

Lemma users_delete_system p : (∀ r, p r = true → rec_Origin r = "system") → steps KeepsUsers (delete_records p).
Proof.
  intros Hp s a s' Hd r Hr Ho. unfold delete_records in Hd. tx_ok. apply rows_delete_elem. split; [|done].
  apply not_true_iff_false. intros E. by apply Ho, Hp.
Qed.

#[export] Hint Resolve users_update_zones users_update_sites users_insert_job users_query users_insert_or_nothing : tx_steps.

Section Handlers.
Context `{GoUnicode} `{GoMapOrder}.

Lemma users_enqueue now zid mark : steps KeepsUsers (enqueueDNSZoneTx now zid mark).
Proof. unfold enqueueDNSZoneTx. tx_steps. Qed.

Lemma users_insert_services zid siteID add remove : steps KeepsUsers (insertServiceDNSRecordsTx zid siteID add remove).
Proof.
  unfold insertServiceDNSRecordsTx. tx_steps. apply users_delete_system. intros r Hr. by bool_split.
Qed.
Hint Resolve users_enqueue users_insert_services : tx_steps.

Lemma users_ensure zid siteID domain address : steps KeepsUsers (ensureSystemDNSRecordsTx zid siteID domain address).
Proof. unfold ensureSystemDNSRecordsTx. tx_steps. Qed.

Lemma users_instantiate zid owner templateID revision domain subdomain address ipv6 :
  steps KeepsUsers (instantiateDNSTemplateTx zid owner templateID revision domain subdomain address ipv6).
Proof.
  unfold instantiateDNSTemplateTx, instantiate_record. tx_steps.
  destruct (normalizeDNSRecord _ _); [|apply steps_fail]. tx_steps.
  destruct (ensureDNSRecordCompatibility _ _ _); [|apply steps_fail]. tx_steps.
Qed.

Lemma users_upsert_zone serial ownerID siteID domain address mode revision :
  steps KeepsUsers (upsert_zone serial ownerID siteID domain address mode revision).
Proof. unfold upsert_zone. steps_rows; by apply users_write. Qed.
Hint Resolve users_ensure users_instantiate users_upsert_zone : tx_steps.

Lemma users_configure database river now ownerID domain address :
  steps KeepsUsers (ConfigureDNS database river now ownerID domain address).
Proof.
  unfold ConfigureDNS, parent_zone, own_zone, in_parent_zone. steps_rows.
Qed.

Lemma users_reconcile river now siteID : steps KeepsUsers (ReconcileSiteDNS river now siteID).
Proof. unfold ReconcileSiteDNS. tx_steps. Qed.

Lemma users_address configured now siteID : steps KeepsUsers (AutoConfigureSubdomainDNS configured now siteID).
Proof. unfold AutoConfigureSubdomainDNS, configure_address. steps_rows. Qed.

(** The handlers that make records on their own. *)
Inductive AutoChange :=
| AutoZone (database river : bool) (now ownerID : Z) (domain address : string)
| AutoServices (river : bool) (now siteID : Z)
| AutoAddress (configured : bool) (now siteID : Z).

Definition run_auto (c : AutoChange) : tx DNSStore unit :=
  match c with
  | AutoZone database river now ownerID domain address =>
    let! _ := ConfigureDNS database river now ownerID domain address in tx_ret ()
  | AutoServices river now siteID => ReconcileSiteDNS river now siteID
  | AutoAddress configured now siteID => AutoConfigureSubdomainDNS configured now siteID
  end.

(** C27. Records made without being asked never cost anybody a record: whether
    they succeed or fail, configuring a site's zone from the template, converging
    its service records and giving a subdomain its address leave every record
    that the system did not make itself where it was, with the same contents. *)
Theorem automatic_records_keep_users (c : AutoChange) s :
  KeepsUsers s (snd (run_tx (run_auto c) s)).
Proof.
  apply steps_run; [typeclasses eauto|].
  destruct c; cbn [run_auto]; [|apply users_reconcile|apply users_address].
  pose proof users_configure. tx_steps.
Qed.

(** ** The address of a subdomain *)

Definition same_answer (v w : string) : Prop := v = w ∨ equal_fold v w = true.

(** The addresses of a zone's server, as record types and values. *)
Definition addresses (zone : ZoneRow) : list (string * string) :=
  ("A", zr_Address zone) :: (if String.eqb (zr_IPv6Address zone) "" then [] else [("AAAA", zr_IPv6Address zone)]).

Definition at_label (zoneID : Z) (label : string) (r : DNSRecord) : bool :=
  (rec_ZoneID r =? zoneID) && String.eqb (rec_Host r) label.

Lemma at_label_true zoneID label r : at_label zoneID label r = true ↔ zoneID = rec_ZoneID r ∧ label = rec_Host r.
Proof. unfold at_label. rewrite andb_true_iff, Z.eqb_eq, String.eqb_eq. split; by intros [-> ->]. Qed.

(** The label answers with every address of the zone's server and with nothing else. *)
Record AnswersOnly (zone : ZoneRow) (label : string) (db : DNSStore) : Prop := {
  answers_all type value : (type, value) ∈ addresses zone →
    ∃ r, r ∈ db_Records db ∧ at_label (zr_ID zone) label r = true ∧ rec_Type r = type ∧ same_answer (rec_Value r) value;
  answers_none_else r : r ∈ db_Records db → at_label (zr_ID zone) label r = true →
    one_of (rec_Type r) ["A"; "AAAA"; "CNAME"] = true →
    ∃ value, (rec_Type r, value) ∈ addresses zone ∧ same_answer (rec_Value r) value }.

(** An existing record that leaves room for the wanted one, and one that is it. *)
Definition agrees (label : string) (desired r : DNSRecord) : Prop :=
  rec_Host r = label → rec_Type r ≠ "CNAME" ∧
    (rec_Type r = rec_Type desired → equal_fold (rec_Value r) (rec_Value desired) = true).

Definition answered (label : string) (existing : list DNSRecord) (desired : DNSRecord) : Prop :=
  ∃ r, r ∈ existing ∧ rec_Host r = label ∧ rec_Type r = rec_Type desired ∧
    equal_fold (rec_Value r) (rec_Value desired) = true.

Lemma find_answer_spec label desired existing : ∀ found b,
  find_answer label desired found existing = Ok b →
  Forall (agrees label desired) existing ∧ (b = true → found = true ∨ answered label existing desired).
Proof.
  induction existing as [|r rest IH]; intros found b; cbn [find_answer].
  - intros [= ->]. split; [constructor|by left].
  - assert (∀ f, answered label rest desired → f = true ∨ answered label (r :: rest) desired) as Hin.
    { intros f (x & Hx & Hr). right. exists x. split; [by right|done]. }
    destruct (String.eqb_spec (rec_Host r) label) as [Eh|Eh]; cbn [negb].
    + destruct (String.eqb_spec (rec_Type r) "CNAME") as [Ec|Ec]; [done|]. destruct (String.eqb_spec (rec_Type r) (rec_Type desired)) as [Et|Et].
      * destruct (equal_fold _ _) eqn:Ef; [|done]. cbn [negb]. intros [Hall _]%IH.
        split; [by constructor|]. intros _. right. exists r. split; [by left|done].
      * intros [Hall Hb]%IH. split; [by constructor|]. intros [?|?]%Hb; [by left|auto].
    + intros [Hall Hb]%IH. split; [by constructor|]. intros [?|?]%Hb; [by left|auto].
Qed.

Lemma missing_records_spec label existing wanted missing :
  missing_records label existing wanted = Ok missing →
  missing ⊆ wanted ∧
  ∀ desired, desired ∈ wanted → Forall (agrees label desired) existing ∧
    (desired ∈ missing ∨ answered label existing desired).
Proof.
  revert missing. induction wanted as [|w rest IH]; intros missing; cbn [missing_records].
  - intros [= <-]. split; [done|]. by intros d ?%not_elem_of_nil.
  - destruct (find_answer _ _ _ _) as [found|] eqn:Ef; [|done]. cbn [result_bind].
    destruct (missing_records _ _ _) as [others|]; [|done]. cbn [result_bind]. intros [= <-].
    destruct (IH _ eq_refl) as [Hsub Hall]. apply find_answer_spec in Ef as [Hw Hf]. split.
    + destruct found; set_solver.
    + intros d [->|Hd]%elem_of_cons.
      * split; [done|]. destruct found; [|left; by left]. by destruct (Hf eq_refl); [|right].
      * destruct (Hall _ Hd) as [Ha [Hm|Hm]]; (split; [done|]); [left|by right]. destruct found; set_solver.
Qed.

(** A row inserted where the record is not there already; rows of the system
    collide with a record of the same identity only. *)
Lemma insert_row row s s' :
  insert_record_or_nothing row s = Ok ((), s') → rec_Origin row = "system" →
  db_Records s ⊆ db_Records s' ∧
  (∀ r, r ∈ db_Records s' → r ∈ db_Records s ∨ ∃ id, r = row <| rec_ID := id |>) ∧
  ∃ r, r ∈ db_Records s' ∧ same_identity row r = true.
Proof.
  intros Hi Ho. unfold insert_record_or_nothing in Hi. tx_ok. destruct (existsb _ _) eqn:E; tx_ok.
  - split; [done|split; [by left|]]. apply existsb_exists in E as (r & Hr & Hc). exists r.
    split; [by apply list_elem_of_In|]. unfold collides, same_template_key in Hc. rewrite Ho in Hc.
    by rewrite orb_false_r in Hc.
  - rewrite append_record_rows. split; [set_solver|split].
    + intros r [Hr|Hr%list_elem_of_singleton]%elem_of_app; [by left|right; by eexists].
    + eexists. split; [apply elem_of_app; right; by apply list_elem_of_singleton|].
      unfold same_identity. cbn. by rewrite !Z.eqb_refl, !String.eqb_refl.
Qed.

(** Rows inserted one by one. *)
Lemma insert_each_rows (row : DNSRecord → DNSRecord) l : ∀ s s',
  tx_each (λ r, insert_record_or_nothing (row r)) l s = Ok ((), s') →
  (∀ x, x ∈ l → rec_Origin (row x) = "system") →
  db_Records s ⊆ db_Records s' ∧
  (∀ r, r ∈ db_Records s' → r ∈ db_Records s ∨ ∃ x id, x ∈ l ∧ r = (row x) <| rec_ID := id |>) ∧
  (∀ x, x ∈ l → ∃ r, r ∈ db_Records s' ∧ same_identity (row x) r = true).
Proof.
  induction l as [|x l IH]; intros s s' Hrun Ho; cbn [tx_each] in Hrun.
  { tx_ok. split; [done|split; [by left|by intros x ?%not_elem_of_nil]]. }
  unfold tx_bind in Hrun. destruct (insert_record_or_nothing _ _) as [[[] s1]|] eqn:Hx; [|done].
  destruct (IH _ _ Hrun) as (Hsub & Hnew & Hall); [intros y Hy; by apply Ho, list_elem_of_further|].
  apply insert_row in Hx as (Hsub1 & Hnew1 & r0 & Hr0 & E0); [|apply Ho, list_elem_of_here].
  split; [set_solver|split].
  - intros r [Hr|(y & id & Hy & ->)]%Hnew; [|right; exists y, id; split; [by right|done]].
    apply Hnew1 in Hr as [Hr|[id ->]]; [by left|right; exists x, id; split; [apply list_elem_of_here|done]].
  - intros y [->|Hy]%elem_of_cons; [|by apply Hall].
    exists r0. split; [by apply Hsub|done].
Qed.

Lemma missing_address_spec existing label address ipv6 missing :
  missingSubdomainAddressRecords existing label address ipv6 = Ok missing →
  let wanted := address_record label "A" address ::
                (if String.eqb ipv6 "" then [] else [address_record label "AAAA" ipv6]) in
  missing ⊆ wanted ∧
  (∀ desired, desired ∈ wanted → Forall (agrees label desired) existing ∧
    (desired ∈ missing ∨ answered label existing desired)) ∧
  (ipv6 = "" → ∀ r, r ∈ existing → rec_Host r = label → rec_Type r ≠ "AAAA").
Proof.
  unfold missingSubdomainAddressRecords. rewrite !fail_when_Ok. intros (_ & _ & Hrun). cbv zeta.
  destruct (missing_records _ _ _) as [m|] eqn:Em; [|done]. cbn [result_bind] in Hrun.
  apply fail_when_Ok in Hrun as [Hv6 [= ->]]. apply missing_records_spec in Em as [Hsub Hall].
  split; [done|split; [done|]]. intros -> r Hr Eh Et. apply not_true_iff_false in Hv6. apply Hv6.
  cbn. apply existsb_exists. exists r. split; [by apply list_elem_of_In|].
  by rewrite Eh, Et, !String.eqb_refl.
Qed.

(** The rows at the label that answer for addresses, and what [existing] shows of them. *)
Lemma label_records_elem zid label r db :
  r ∈ db_Records db → at_label zid label r = true → one_of (rec_Type r) ["A"; "AAAA"; "CNAME"] = true →
  ∃ x, x ∈ label_records zid label db ∧ rec_Host x = label ∧ rec_Type x = rec_Type r ∧ rec_Value x = rec_Value r.
Proof.
  unfold at_label, label_records. intros Hr Hl Ht. eexists. split; [apply list_elem_of_fmap; exists r; split; [done|]|].
  - apply rows_where_elem. split; [|done]. by rewrite Ht, andb_true_r.
  - bool_split. cbn. by subst.
Qed.

Lemma label_records_row zid label x db :
  x ∈ label_records zid label db →
  ∃ r, r ∈ db_Records db ∧ at_label zid label r = true ∧ rec_Type x = rec_Type r ∧ rec_Value x = rec_Value r.
Proof.
  unfold label_records. intros (r & -> & [Hp Hr]%rows_where_elem)%list_elem_of_fmap. exists r. bool_split.
  split; [done|]. split; [|done]. unfold at_label. subst. by rewrite Z.eqb_refl, String.eqb_refl.
Qed.

(** The wanted records are the addresses of the zone's server. *)
Lemma wanted_addresses zone label d :
  d ∈ address_record label "A" (zr_Address zone) ::
      (if String.eqb (zr_IPv6Address zone) "" then [] else [address_record label "AAAA" (zr_IPv6Address zone)]) ↔
  ∃ type value, (type, value) ∈ addresses zone ∧ d = address_record label type value.
Proof.
  unfold addresses. split.
  - intros [->|Hd]%elem_of_cons; [eexists _, _; split; [apply list_elem_of_here|done]|].
    destruct (String.eqb _ _); [by apply not_elem_of_nil in Hd|]. apply list_elem_of_singleton in Hd as ->.
    eexists _, _. split; [apply list_elem_of_further, list_elem_of_here|done].
  - intros (type & value & [[= -> ->]|Ha]%elem_of_cons & ->); [apply list_elem_of_here|].
    destruct (String.eqb _ _); [by apply not_elem_of_nil in Ha|]. apply list_elem_of_singleton in Ha as [= -> ->].
    apply list_elem_of_further, list_elem_of_here.
Qed.

Lemma same_identity_answer a b : same_identity a b = true →
  rec_ZoneID a = rec_ZoneID b ∧ rec_Host a = rec_Host b ∧ rec_Type b = rec_Type a ∧ rec_Value b = rec_Value a.
Proof. unfold same_identity. intros Hab. by bool_split. Qed.

Lemma address_answers siteID zone label missing s s' :
  missingSubdomainAddressRecords (label_records (zr_ID zone) label s) label (zr_Address zone) (zr_IPv6Address zone)
    = Ok missing →
  tx_each (λ r, insert_record_or_nothing (system_address_row (zr_ID zone) siteID r)) missing s = Ok ((), s') →
  AnswersOnly zone label s'.
Proof.
  intros (Hsub & Hall & Hv6)%missing_address_spec Hins.
  apply insert_each_rows in Hins as (Hold & Hnew & Hin); [|done].
  setoid_rewrite wanted_addresses in Hall. split.
  - intros type value Ha. destruct (Hall _ (ex_intro _ type (ex_intro _ value (conj Ha eq_refl)))) as [_ [Hm|Hx]].
    + destruct (Hin _ Hm) as (r & Hr & E). exists r. split; [done|]. apply same_identity_answer in E as (Ez & Eh & Et & Ev).
      split; [by apply at_label_true|split; [done|by left]].
    + destruct Hx as (x & Hx & _ & Et & Ef). apply label_records_row in Hx as (r & Hr & Hl & Et' & Ev').
      cbn in Et, Ef. exists r. split; [by apply Hold|]. split; [done|]. split; [congruence|]. right. by rewrite <- Ev'.
  - intros r Hr Hl Ht. apply Hnew in Hr as [Hr|(x & id & Hx & ->)].
    + destruct (label_records_elem _ _ _ _ Hr Hl Ht) as (x & Hx & Eh & Et & Ev). rewrite <- Et, <- Ev in *.
      assert (∀ type value, (type, value) ∈ addresses zone → rec_Type x ≠ "CNAME" ∧
        (rec_Type x = type → equal_fold (rec_Value x) value = true)) as Hagree.
      { intros type value Ha. destruct (Hall _ (ex_intro _ type (ex_intro _ value (conj Ha eq_refl)))) as [Hag _].
        rewrite Forall_forall in Hag. by apply (Hag _ Hx). }
      destruct (Hagree "A" (zr_Address zone) (list_elem_of_here _ _)) as [Hc HA].
      unfold one_of in Ht. apply bool_decide_eq_true in Ht. rewrite !elem_of_cons, elem_of_nil in Ht.
      destruct Ht as [Ht|[Ht|[Ht|[]]]]; [| |done].
      * exists (zr_Address zone). rewrite Ht. split; [apply list_elem_of_here|right; by apply HA].
      * destruct (String.eqb_spec (zr_IPv6Address zone) "") as [E6|E6]; [by destruct (Hv6 E6 x)|].
        assert (("AAAA", zr_IPv6Address zone) ∈ addresses zone) as H6.
        { unfold addresses. apply list_elem_of_further. destruct (String.eqb_spec (zr_IPv6Address zone) ""); [done|].
          apply list_elem_of_here. }
        exists (zr_IPv6Address zone). rewrite Ht. split; [done|right]. by apply (Hagree _ _ H6).
    + apply Hsub, wanted_addresses in Hx as (type & value & Ha & ->). exists value. split; [done|by left].
Qed.

(** The zone that answers for a site by itself, and the site's label in it: the
    primary zone of the parent of an active site that lives in it. *)
Definition address_zone (siteID : Z) (s : DNSStore) : option (ZoneRow * string) :=
  match rows_where (λ x, (st_ID x =? siteID) && String.eqb (st_Status x) "active") (db_Sites s) with
  | [] => None
  | site :: _ =>
    if (st_ParentSiteID site =? 0) || negb (String.eqb (st_DNSZoneMode site) "parent") then None
    else match rows_where (λ z, zr_SiteID z =? st_ParentSiteID site) (db_Zones s) with
         | [] => None
         | zone :: _ => if negb (String.eqb (zr_Mode zone) "primary") then None
                        else Some (zone, trim_suffix (st_Domain site) ("." +:+ zr_Domain zone))
         end
  end.

Lemma records_update_zones p f s s' : update_zones p f s = Ok ((), s') → db_Records s' = db_Records s.
Proof. unfold update_zones. intros Hu. by tx_ok. Qed.

Lemma AnswersOnly_records zone label s s' :
  db_Records s' = db_Records s → AnswersOnly zone label s → AnswersOnly zone label s'.
Proof. intros E [Ha Hn]. split; rewrite E; [apply Ha|apply Hn]. Qed.

(** C28. A subdomain that was given its address answers with it and with nothing
    else: when [AutoConfigureSubdomainDNS] succeeds for an active site that lives
    in its parent's primary zone, every address of that zone's server is an answer
    at the site's label, every A and AAAA record there is one of those addresses,
    and no CNAME stands there. *)
Theorem subdomain_address_answers configured now siteID s s' zone label :
  AutoConfigureSubdomainDNS configured now siteID s = Ok ((), s') →
  address_zone siteID s = Some (zone, label) → AnswersOnly zone label s'.
Proof.
  unfold AutoConfigureSubdomainDNS, address_zone. intros Hrun Hz. tx_ok.
  destruct (rows_where _ (db_Sites s)) as [|site sites]; [done|].
  destruct (_ || _); [done|]. tx_ok. destruct (rows_where _ (db_Zones s)) as [|z zones]; [done|].
  destruct (negb (String.eqb (zr_Mode z) _)); [done|]. injection Hz as -> <-.
  unfold configure_address in Hrun. tx_ok.
  match goal with Em : missingSubdomainAddressRecords _ _ _ _ = Ok ?l |- _ =>
    pose proof (λ s', address_answers siteID _ _ l s s' Em) as Hans; destruct l end.
  { tx_ok. by apply Hans. }
  apply tx_bind_Ok in Hrun as ([] & s1 & Hins & Hrun). tx_ok.
  match goal with Hu : update_zones _ _ _ = Ok (?u, _) |- _ => destruct u; apply records_update_zones in Hu as Er end.
  apply (AnswersOnly_records _ _ s1); [|by apply Hans]. unfold insert_job in Hrun. tx_ok. done.
Qed.
End Handlers.

(** * Witnesses *)

Module AutoSamples.

Definition zone : ZoneRow := StoreSamples.zone <| zr_IPv6Address := "2001:db8::1" |>.
Definition blog : DNSSite := mkDNSSite 102 1 "blog.example.com" 100 "parent" true "active" "none".

(** The parent's zone has an IPv6 address, and the subdomain no record yet. *)
Definition db : DNSStore :=
  (StoreSamples.db <| db_Zones := [zone] |>) <| db_Sites := [StoreSamples.site; StoreSamples.shop; blog] |>.

Definition outcome : result (unit * DNSStore) :=
  @AutoConfigureSubdomainDNS ascii_only true 2000 102 db.

Definition after : DNSStore := match outcome with Ok (_, s) => s | Err _ => db end.

End AutoSamples.

(** Two records are made, revision 6 is queued, and the label answers with both. *)
Lemma subdomain_address_answers_witness :
  @AnswersOnly ascii_only AutoSamples.zone "blog" AutoSamples.after ∧
  length (db_Records AutoSamples.after) = 5%nat ∧
  db_Jobs AutoSamples.after = [ConfigureDNSZoneArgs 10 6 false].
Proof.
  split; [|split; vm_compute; reflexivity].
  apply (@subdomain_address_answers ascii_only true 2000 102 AutoSamples.db AutoSamples.after
    AutoSamples.zone "blog"); vm_compute; reflexivity.
Defined.
