(* ===== verification/DNSAgent.v ===== *)
(** * The agent's DNS zones: validation and rendering

    What the privileged agent checks of a request before it touches the name
    server ([normalizeDNSZoneRequest], [validateDNSRecordAtAgent]) and the zone
    file and configuration it renders ([internal/agent/ops/phase6.go]). *)

From S2P Require Import Prelude GoStr Regex Net Site DNSTypes DNSRecord DNSEdit.
From Stdlib Require Import Ascii.

(** ** Patterns *)

Definition dnsHostRE : re :=
  RAlt (r_byte "@")
    (RCat (RCls (c_or c_alnum (c_any "_")))
          (r_opt (RCat (RStar (RCls (c_or c_alnum (c_any "._-")))) (RCls (c_or c_alnum (c_any "_-")))))).

Definition dnsTargetRE : re :=
  r_seq [RCls c_alnum; r_opt (RCat (RStar (RCls (c_or c_alnum (c_any ".-")))) (RCls c_alnum)); r_opt (r_byte ".")].

(** Two groups. *)
Definition agentCAARE : re :=
  r_seq [r_range 1 3 (RCls is_digit); r_plus (RCls c_space);
         r_alts [r_lit "issue"; r_lit "issuewild"; r_lit "iodef"]; r_plus (RCls c_space);
         RCls is_dquote; r_plus (RCls (λ c, negb (is_dquote c || is_crlf c))); RCls is_dquote].

(** Four groups. *)
Definition agentDSRE : re :=
  r_seq [r_range 1 5 (RCls is_digit); r_plus (RCls c_space);
         r_range 1 3 (RCls is_digit); r_plus (RCls c_space);
         RCls (c_any "124"); r_plus (RCls c_space); r_plus (RCls c_hex)].

Section Agent.
Context `{GoUnicode} `{GoMapOrder}.

(** ** One record *)

Definition agent_host (record : DNSRecord) : string :=
  let host := trim_space (rec_Host record) in
  if String.eqb host "" then "@" else host.

Definition agent_label (label : string) : result unit :=
  return_if String.eqb label "" || (63 <? str_len label) || has_prefix label "-" || has_suffix label "-"
    with errors_New "DNS record host contains an invalid label" ;;
  Ok ().

Definition agent_address (v4 : bool) (value : string) : result unit :=
  let e := errors_New (if v4 then "invalid A record" else "invalid AAAA record") in
  match parse_ip value with
  | Some ip => return_if negb (Bool.eqb (bool_decide (is_Some (to4 ip))) v4) with e ;; Ok ()
  | None => Err e
  end.

Definition agent_target (message value : string) : result unit :=
  return_if (253 <? str_len value) || negb (re_match dnsTargetRE value) with errors_New message ;;
  Ok ().

Definition agent_srv_owner (host : string) : bool :=
  match split_on "." (to_lower host) with
  | l0 :: l1 :: _ => (1 <? str_len l0) && (1 <? str_len l1) && has_prefix l0 "_" && has_prefix l1 "_"
  | _ => false
  end.

Definition agent_srv (record : DNSRecord) (host value : string) : result unit :=
  return_if (rec_Priority record <? 0) || (65535 <? rec_Priority record) || (rec_Weight record <? 0)
            || (65535 <? rec_Weight record) || (rec_Port record <? 1) || (65535 <? rec_Port record)
    with errors_New "SRV priority, weight, or port is invalid" ;;
  return_if negb (agent_srv_owner host) with errors_New "SRV host must use the _service._protocol form" ;;
  agent_target "SRV requires a valid target host" value.

Definition agent_caa (value : string) : result unit :=
  return_if negb (submatch_length 2 agentCAARE value =? 4) with errors_New "invalid CAA record" ;;
  return_if 255 <? atoi_or_zero (nth 0 (fields_of value) "") with errors_New "CAA flags are invalid" ;;
  Ok ().

Definition agent_ds (value : string) : result unit :=
  return_if negb (submatch_length 4 agentDSRE value =? 5) with errors_New "invalid DS record" ;;
  let group i := nth i (fields_of value) "" in
  let keyTag := atoi_or_zero (group 0%nat) in
  let algorithm := atoi_or_zero (group 1%nat) in
  return_if (65535 <? keyTag) || (algorithm <? 1) || (255 <? algorithm)
    with errors_New "DS key tag or algorithm is invalid" ;;
  return_if negb (str_len (group 3%nat) =? ds_digest_length (atoi_or_zero (group 2%nat)))
    with errors_New "invalid DS digest length" ;;
  Ok ().

Definition agent_by_type (record : DNSRecord) (host value : string) : result unit :=
  let type_is t := String.eqb (rec_Type record) t in
  if type_is "A" then agent_address true value
  else if type_is "AAAA" then agent_address false value
  else if type_is "CNAME" then
    return_if String.eqb host "@" with errors_New "a CNAME record cannot be created at the zone apex" ;;
    agent_target "CNAME requires a valid target host" value
  else if type_is "MX" then
    return_if (rec_Priority record <? 0) || (65535 <? rec_Priority record) with errors_New "MX priority is invalid" ;;
    agent_target "MX requires a valid target host" value
  else if type_is "NS" then agent_target "NS requires a valid target host" value
  else if type_is "SRV" then agent_srv record host value
  else if type_is "CAA" then agent_caa value
  else if type_is "DS" then agent_ds value
  else if type_is "TXT" then
    return_if (str_len value =? 0) || (4096 <? str_len value) with errors_New "TXT value length is invalid" ;;
    Ok ()
  else Err (errors_New ("unsupported DNS record type " +:+ quote (rec_Type record))).

Definition validateDNSRecordAtAgent (record : DNSRecord) : result unit :=
  return_if (rec_TTL record <? 60) || (86400 <? rec_TTL record) with errors_New "DNS record TTL is invalid" ;;
  let host := agent_host record in
  return_if (253 <? str_len host) || host_blank host || negb (re_match dnsHostRE host)
    with errors_New ("invalid DNS record host " +:+ quote (rec_Host record)) ;;
  let* _ := for_each agent_label (split_on "." host) in
  let value := trim_space (rec_Value record) in
  return_if has_control value with errors_New "DNS record value contains control characters" ;;
  agent_by_type record host value.

(** ** A request *)

Definition ns1_of (domain : string) : string := "ns1." +:+ domain.

Definition default_soa (domain : string) : DNSSOASettings :=
  mkDNSSOASettings (ns1_of domain) ("hostmaster." +:+ domain) "unix" 3600 3600 900 604800 300.

Definition soa_timings_invalid (soa : DNSSOASettings) : bool :=
  (soa_DefaultTTL soa <? 60) || (86400 <? soa_DefaultTTL soa)
  || (soa_RefreshSeconds soa <? 300) || (86400 <? soa_RefreshSeconds soa)
  || (soa_RetrySeconds soa <? 60) || (86400 <? soa_RetrySeconds soa)
  || (soa_ExpireSeconds soa <? 86400) || (2419200 <? soa_ExpireSeconds soa)
  || (soa_MinimumTTL soa <? 60) || (86400 <? soa_MinimumTTL soa).

(** The types seen at each host, and how many records it has. *)
Record hostRecords := mkHostRecords { hr_types : gset string; hr_count : Z }.

Definition request_host (record : DNSRecord) : string :=
  let host := to_lower (trim_space (rec_Host record)) in
  if String.eqb host "" then "@" else host.
Definition request_type (record : DNSRecord) : string := to_upper (trim_space (rec_Type record)).

Fixpoint records_by_host (hosts : gmap string hostRecords) (records : list DNSRecord)
    : result (gmap string hostRecords) :=
  match records with
  | [] => Ok hosts
  | record :: rest =>
    return_if String.eqb (request_type record) "CNAME" && String.eqb (request_host record) "@"
      with errors_New "a CNAME record cannot be created at the zone apex" ;;
    let seen := default (mkHostRecords ∅ 0) (hosts !! request_host record) in
    records_by_host
      (<[request_host record := mkHostRecords ({[request_type record]} ∪ hr_types seen) (hr_count seen + 1)]> hosts)
      rest
  end.

Definition check_host (entry : string * hostRecords) : result unit :=
  let '(host, seen) := entry in
  return_if bool_decide ("CNAME" ∈ hr_types seen) && ((1 <? Z.of_nat (size (hr_types seen))) || (1 <? hr_count seen))
    with errors_New ("CNAME record at " +:+ quote host +:+ " cannot coexist with another record") ;;
  Ok ().

(** The fields in their canonical form and the defaults; [now] is the clock. *)
Definition zone_request_defaults (req : ConfigureDNSZoneReq) (defaultZoneDir : string) (now : Z)
    : ConfigureDNSZoneReq :=
  let mode := to_lower (trim_space (dzr_Mode req)) in
  req <| dzr_Domain := NormalizeDomain (dzr_Domain req) |>
      <| dzr_Address := trim_space (dzr_Address req) |>
      <| dzr_IPv6Address := trim_space (dzr_IPv6Address req) |>
      <| dzr_Mode := if String.eqb mode "" then "primary" else mode |>
      <| dzr_ZoneDir := if String.eqb (dzr_ZoneDir req) "" then defaultZoneDir else dzr_ZoneDir req |>
      <| dzr_Serial := if dzr_Serial req =? 0 then now else dzr_Serial req |>.

Definition zone_address_invalid (address : string) : bool :=
  match parse_ip address with
  | Some ip => negb (bool_decide (is_Some (to4 ip)))
  | None => true
  end.

Definition zone_ipv6_invalid (address : string) : bool :=
  match parse_ip address with
  | Some ip => bool_decide (is_Some (to4 ip))
  | None => true
  end.

Definition zone_soa (soa : DNSSOASettings) (domain : string) : DNSSOASettings :=
  if String.eqb (soa_PrimaryNameserver soa) "" then default_soa domain else soa.

Definition check_soa_name (entry : string * string) : result unit :=
  let '(name, value) := entry in
  result_wrap ("invalid SOA " +:+ name +:+ ": ") (ValidateDomain (trim_suffix (trim_space value) ".")).

Definition normalizeDNSZoneRequest (req : ConfigureDNSZoneReq) (defaultZoneDir : string) (now : Z)
    : result ConfigureDNSZoneReq :=
  let req := zone_request_defaults req defaultZoneDir now in
  let primary := String.eqb (dzr_Mode req) "primary" in
  let* _ := ValidateDomain (dzr_Domain req) in
  return_if negb (one_of (dzr_Mode req) ["primary"; "secondary"; "disabled"])
    with errors_New ("invalid DNS zone mode " +:+ quote (dzr_Mode req)) ;;
  return_if primary && zone_address_invalid (dzr_Address req)
    with errors_New ("invalid dns address " +:+ quote (dzr_Address req)) ;;
  return_if negb (String.eqb (dzr_IPv6Address req) "") && zone_ipv6_invalid (dzr_IPv6Address req)
    with errors_New ("invalid DNS IPv6 address " +:+ quote (dzr_IPv6Address req)) ;;
  return_if String.eqb (dzr_Mode req) "secondary" && bool_decide (dzr_UpstreamPrimaries req = [])
    with errors_New "secondary DNS zones require an upstream primary" ;;
  let* _ := for_each (λ primary,
      return_if negb (bool_decide (is_Some (parse_ip (trim_space primary))))
        with errors_New ("invalid upstream primary " +:+ quote primary) ;; Ok ()) (dzr_UpstreamPrimaries req) in
  let* _ := for_each (λ value,
      return_if negb (bool_decide (is_Some (parse_cidr (trim_space value))))
        with errors_New ("invalid transfer CIDR " +:+ quote value) ;; Ok ()) (dzr_TransferCIDRs req) in
  let req := req <| dzr_SOA := zone_soa (dzr_SOA req) (dzr_Domain req) |> in
  let* _ := for_each check_soa_name
      (map_order [("primary nameserver", soa_PrimaryNameserver (dzr_SOA req));
                  ("responsible mailbox", soa_ResponsibleMailbox (dzr_SOA req))]) in
  return_if soa_timings_invalid (dzr_SOA req) with errors_New "invalid SOA timing values" ;;
  return_if negb primary && negb (bool_decide (dzr_Records req = []))
    with errors_New "non-primary DNS zones cannot carry authoritative records" ;;
  let req := if String.eqb (dzr_Mode req) "disabled" then req <| dzr_Records := [] |> else req in
  return_if primary && negb (bool_decide (is_Some (parse_ip (dzr_Address req))))
    with errors_New ("invalid dns address " +:+ quote (dzr_Address req)) ;;
  let* _ := for_each validateDNSRecordAtAgent (dzr_Records req) in
  let* hosts := records_by_host ∅ (dzr_Records req) in
  let* _ := for_each check_host (map_order (map_to_list hosts)) in
  Ok req.

End Agent.
