(* ===== verification/DNSRender.v ===== *)
(** * The zone file and the name server configuration

    The text the agent writes for a zone ([RenderDNSZone],
    [RenderDNSZoneIncludeRequest], [RenderDNSAggregateInclude] of
    [internal/agent/ops/phase6.go]), and a reader of the RFC 1035
    character-strings a TXT record is made of. *)

From S2P Require Import Prelude GoStr Regex Site DNSTypes DNSRecord DNSEdit DNSAgent.
From Stdlib Require Import Ascii.

Definition backslash : ascii := chr 92.
Definition escaped_quote : string := String backslash dquote.

(** ** Text data *)

(** [for size > 1 && escaped[size-1] == '\\' { size-- }]. *)
Fixpoint back_off (escaped : string) (size : nat) : nat :=
  match size with
  | S p => if (1 <? size)%nat && bool_decide (String.get p escaped = Some backslash)
           then back_off escaped p else size
  | O => O
  end.

(** The loop takes at least one byte each time: the length of the text is fuel
    enough ([txt_chunks_concat]). *)
Fixpoint txt_chunks (fuel : nat) (escaped : string) : list string :=
  match fuel with
  | O => []
  | S fuel =>
    if String.eqb escaped "" then []
    else
      let size := back_off escaped (Nat.min 255 (String.length escaped)) in
      string_take size escaped :: txt_chunks fuel (string_drop size escaped)
  end.

Definition quoted (s : string) : string := dquote +:+ s +:+ dquote.

Definition renderTXTValue (value : string) : string :=
  let escaped := replace_all value dquote escaped_quote in
  if str_len escaped <=? 255 then quoted escaped
  else join " " (quoted <$> txt_chunks (String.length escaped) escaped).

(** ** The zone file *)

Definition soa_name (value : string) : string := trim_suffix value ".".

Definition zone_header (req : ConfigureDNSZoneReq) : string :=
  let soa := dzr_SOA req in
  let line s := s +:+ newline in
  line ("$ORIGIN " +:+ dzr_Domain req +:+ ".") +:+
  line ("$TTL " +:+ itoa (soa_DefaultTTL soa)) +:+
  line ("@ IN SOA " +:+ soa_name (soa_PrimaryNameserver soa) +:+ ". " +:+ soa_name (soa_ResponsibleMailbox soa) +:+ ". (") +:+
  line ("    " +:+ itoa (dzr_Serial req)) +:+
  line ("    " +:+ itoa (soa_RefreshSeconds soa)) +:+
  line ("    " +:+ itoa (soa_RetrySeconds soa)) +:+
  line ("    " +:+ itoa (soa_ExpireSeconds soa)) +:+
  line ("    " +:+ itoa (soa_MinimumTTL soa)) +:+
  line ")".

Definition rendered_value (record : DNSRecord) : string :=
  let value := trim_space (rec_Value record) in
  if one_of (rec_Type record) ["CNAME"; "MX"; "NS"; "SRV"]
  then if has_suffix value "." then value else value +:+ "."
  else if String.eqb (rec_Type record) "TXT" then renderTXTValue value else value.

(** One line of the zone file, without its end. *)
Definition record_line (record : DNSRecord) : string :=
  let prefix := agent_host record +:+ " " +:+ itoa (rec_TTL record) +:+ " IN " in
  let value := rendered_value record in
  if String.eqb (rec_Type record) "MX" then prefix +:+ "MX " +:+ itoa (rec_Priority record) +:+ " " +:+ value
  else if String.eqb (rec_Type record) "SRV"
  then prefix +:+ "SRV " +:+ itoa (rec_Priority record) +:+ " " +:+ itoa (rec_Weight record) +:+ " "
       +:+ itoa (rec_Port record) +:+ " " +:+ value
  else prefix +:+ rec_Type record +:+ " " +:+ value.

Definition lines_text (lines : list string) : string :=
  foldr (λ line rest, line +:+ newline +:+ rest) "" lines.

Definition RenderDNSZone (req : ConfigureDNSZoneReq) : string :=
  zone_header req +:+ lines_text (record_line <$> dzr_Records req).

(** ** The name server's configuration *)

Section Include.
Context `{GoUnicode}.

Definition indented (values : list string) : string :=
  foldr (λ value rest, "        " +:+ value +:+ ";" +:+ newline +:+ rest) "" values.

Definition RenderDNSZoneIncludeRequest (req : ConfigureDNSZoneReq) (zonePath : string) : string :=
  "zone " +:+ quote (dzr_Domain req) +:+ " {" +:+ newline +:+
  (if String.eqb (dzr_Mode req) "secondary"
   then "    type slave;" +:+ newline +:+ "    masters {" +:+ newline +:+
        indented (dzr_UpstreamPrimaries req) +:+ "    };" +:+ newline
   else "    type master;" +:+ newline +:+ "    file " +:+ quote zonePath +:+ ";" +:+ newline +:+
        (if bool_decide (dzr_TransferCIDRs req = [])
         then "    allow-transfer { none; };" +:+ newline
         else "    allow-transfer {" +:+ newline +:+ indented (dzr_TransferCIDRs req) +:+ "    };" +:+ newline)) +:+
  "};" +:+ newline.

Definition RenderDNSZoneInclude (domain zonePath : string) : string :=
  RenderDNSZoneIncludeRequest
    (zero_ConfigureDNSZoneReq <| dzr_Domain := domain |> <| dzr_Mode := "primary" |>) zonePath.
End Include.

Definition RenderDNSAggregateInclude (paths : list string) : string :=
  "// Generated by nakpanel. Include this file from /etc/bind/named.conf.local." +:+ newline +:+
  foldr (λ path rest, "include " +:+ dquote +:+ path +:+ dquote +:+ ";" +:+ newline +:+ rest) "" paths.

(** ** Reading text data back

    RFC 1035, section 5.1: a character-string in quotes ends at the next quote
    that is not escaped; a backslash before a digit starts a decimal code of three
    digits, and before another byte stands for that byte. *)

Definition decimal_code (a b c : ascii) : option ascii :=
  if is_digit a && is_digit b && is_digit c then
    let v := (code a - 48) * 100 + (code b - 48) * 10 + (code c - 48) in
    if v <? 256 then Some (chr (Z.to_N v)) else None
  else None.

(** The contents of a character-string after its opening quote, and what follows
    its closing quote. *)
Fixpoint read_quoted (s : string) : option (string * string) :=
  match s with
  | EmptyString => None
  | String c s' =>
    if is_dquote c then Some ("", s')
    else if Ascii.eqb c backslash then
      match s' with
      | EmptyString => None
      | String d s1 =>
        if is_digit d then
          match s1 with
          | String e (String f s2) =>
            match decimal_code d e f, read_quoted s2 with
            | Some b, Some (text, rest) => Some (String b text, rest)
            | _, _ => None
            end
          | _ => None
          end
        else match read_quoted s1 with
             | Some (text, rest) => Some (String d text, rest)
             | None => None
             end
      end
    else match read_quoted s' with
         | Some (text, rest) => Some (String c text, rest)
         | None => None
         end
  end.

(** The character-strings of a TXT record, one space apart, to the end of the
    line; a string is read from at least two bytes, so the length is fuel enough. *)
Fixpoint read_strings (fuel : nat) (s : string) : option (list string) :=
  match fuel, s with
  | S fuel, String c s' =>
    if is_dquote c then
      match read_quoted s' with
      | Some (text, EmptyString) => Some [text]
      | Some (text, String d rest) =>
        if Ascii.eqb d " " then
          match read_strings fuel rest with
          | Some texts => Some (text :: texts)
          | None => None
          end
        else None
      | None => None
      end
    else None
  | _, _ => None
  end.

Definition read_txt (s : string) : option (list string) := read_strings (String.length s) s.

Example txt_with_quotes :
  read_txt (renderTXTValue ("say " +:+ dquote +:+ "hi" +:+ dquote)) = Some ["say " +:+ dquote +:+ "hi" +:+ dquote].
Proof. vm_compute. reflexivity. Qed.
