(* ===== verification/DNSAgentProps.v ===== *)
(** * What the agent accepts

    The agent checks every request again. Its checks against the control plane's:
    whatever the record editor, the template or the planner accepts, the agent
    accepts ([agent_accepts_control_records], [agent_accepts_valid_zone]), but for
    CAA records, which it refuses always ([caa_zone_refused]). *)

From S2P Require Import Prelude Tx Tables GoStr Regex Net Site DNSTypes DNSRecord DNSPlan DNSTables DNSEdit DNSEditProps DNSAgent.
From Stdlib Require Import Ascii.

(** ** Targets *)

Lemma c_lower_alnum_alnum c : c_lower_alnum c = true → c_alnum c = true.
Proof.
  unfold c_lower_alnum, c_alnum, c_or. rewrite !orb_true_iff. tauto.
Qed.

Lemma label_ends c s : label_inner c = true → has_prefix (String c s) "-" = false → c_alnum c = true.
Proof.
  rewrite prefix_byte. unfold label_inner, c_or. rewrite orb_true_iff.
  intros [Hc|Hc] Hne; [by apply c_lower_alnum_alnum|congruence].
Qed.

(** A domain starts and ends with a letter or a digit. *)
Lemma domain_first `{GoUnicode} c s : ValidateDomain (String c s) = Ok () → c_alnum c = true.
Proof.
  intros (_ & _ & _ & Hl)%ValidateDomain_inv. simpl in Hl. destruct (Ascii.eqb_spec c ".") as [->|Hne].
  - apply Forall_cons in Hl as [[[Hlen _] _] _]. simpl in Hlen. lia.
  - pose proof (split_on_nonempty "." s). destruct (split_on "." s) as [|w ws]; [done|].
    apply Forall_cons in Hl as [(_ & Hall & Hp & _) _]. simpl in Hall. bool_split. by eapply label_ends.
Qed.

Lemma split_on_last_part sep s c :
  Ascii.eqb c sep = false → ∃ ws w, split_on sep (s +:+ String c "") = ws ++ [w +:+ String c ""].
Proof.
  intros Hc. induction s as [|d s (ws & w & IH)]; simpl.
  - rewrite Hc. by exists [], "".
  - rewrite IH. destruct (Ascii.eqb d sep).
    + by exists ("" :: ws), w.
    + destruct ws as [|x ws]; cbn; [by exists [], (String d w)|by exists (String d x :: ws), w].
Qed.

Lemma domain_last `{GoUnicode} s c : ValidateDomain (s +:+ String c "") = Ok () → c_alnum c = true.
Proof.
  intros Hd. pose proof (domain_no_trailing_dot _ Hd) as Hdot.
  change "." with (String "." "") in Hdot. rewrite suffix_byte in Hdot.
  apply ValidateDomain_inv in Hd as (_ & _ & _ & Hl).
  destruct (split_on_last_part "." s c) as (ws & w & E); [by rewrite Ascii.eqb_sym|].
  rewrite E in Hl. apply Forall_app in Hl as [_ [(_ & Hall & _ & Hs) _]%Forall_cons].
  rewrite suffix_byte in Hs. rewrite string_forall_app in Hall. simpl in Hall. bool_split.
  match goal with Hi : label_inner c = true |- _ =>
    unfold label_inner, c_or in Hi; apply orb_true_iff in Hi as [Hi|Hi]; [by apply c_lower_alnum_alnum|congruence] end.
Qed.

Lemma domain_matches_target `{GoUnicode} v :
  ValidateDomain v = Ok () → (253 <? str_len v) || negb (re_match dnsTargetRE v) = false.
Proof.
  intros Hv. assert (str_len v ≤ 253) as Hlen by (by apply ValidateDomain_inv in Hv as [[_ ?] _]).
  rewrite (proj2 (Z.ltb_ge _ _) Hlen). cbn [orb]. apply negb_false_iff, re_match_spec.
  assert (∀ c, label_inner c = true → c_or c_alnum (c_any ".-") c = true) as Hin.
  { intros c. unfold label_inner, c_or, c_any. rewrite !orb_true_iff. intros [?%c_lower_alnum_alnum|<-%Ascii.eqb_eq]; [|by right].
    unfold c_alnum, c_or in *. rewrite !orb_true_iff in *. tauto. }
  pose proof (domain_bytes _ _ Hin eq_refl Hv) as Hb.
  destruct v as [|c s]; [by apply ValidateDomain_inv in Hv as [[? _] _]|].
  pose proof (domain_first _ _ Hv) as Hc.
  apply in_cat_spec. exists (String c ""), s. split; [done|]. split; [apply in_cls_spec; eauto|].
  apply in_cat_spec. destruct (string_snoc_cases s) as [->|(m & d & ->)].
  { exists "", "". split; [done|]. split; apply in_opt_spec; by right. }
  exists (m +:+ String d ""), "". rewrite string_app_nil_r. split; [done|]. split.
  - apply in_opt_spec. left. apply in_cat_spec. exists m, (String d ""). split; [done|].
    change (String c (m +:+ String d "")) with (String c m +:+ String d "") in Hv, Hb.
    rewrite string_forall_app in Hb. simpl in Hb. bool_split.
    split; [by apply in_star_cls|]. apply in_cls_spec. exists d. split; [done|]. by eapply domain_last.
  - apply in_opt_spec. by right.
Qed.

(** ** Records *)

Section Records.
Context `{GoUnicode} `{GoMapOrder}.

Lemma agent_target_domain message v : ValidateDomain v = Ok () → agent_target message v = Ok ().
Proof. intros Hv. unfold agent_target. by rewrite domain_matches_target. Qed.

Lemma agent_labels host : validDNSOwnerLabels host = true → for_each agent_label (split_on "." host) = Ok ().
Proof.
  unfold validDNSOwnerLabels. destruct (String.eqb_spec host "@") as [->|_]; [reflexivity|]. intros Hl.
  apply for_each_Ok, Forall_forall. intros l Hin. rewrite forallb_forall in Hl.
  specialize (Hl l). rewrite <- list_elem_of_In in Hl. specialize (Hl Hin). unfold agent_label.
  rewrite fail_when_Ok. split; [|done]. unfold valid_label in Hl. bool_split.
  rewrite !orb_false_iff, Z.ltb_ge, String.eqb_neq. done.
Qed.

Lemma host_valid_nonempty host : host_valid host = true → host ≠ "".
Proof. intros Hh ->. vm_compute in Hh. discriminate Hh. Qed.

(** The guards of the control plane imply the agent's. *)
Lemma agent_guards domain r :
  record_guards domain r → trim_space (rec_Value r) = rec_Value r →
  validateDNSRecordAtAgent r = Ok () ↔ agent_by_type r (rec_Host r) (rec_Value r) = Ok ().
Proof.
  intros (Httl & Hhost & Hval & _) Htrim.
  assert (agent_host r = rec_Host r) as Eh.
  { unfold agent_host. rewrite trim_space_solid by (by apply host_valid_solid).
    by rewrite (proj2 (String.eqb_neq _ _) (host_valid_nonempty _ Hhost)). }
  unfold validateDNSRecordAtAgent. cbv zeta. rewrite Eh, Htrim, Hval.
  rewrite (proj2 (Z.ltb_ge _ _)), (proj2 (Z.ltb_ge _ _)) by lia. cbn [orb fail_when].
  pose proof Hhost as Hh. unfold host_valid in Hh. change dnsOwnerRE with dnsHostRE in Hh.
  fold (host_blank (rec_Host r)) in Hh. bool_split.
  rewrite (proj2 (Z.ltb_ge _ _)) by lia.
  match goal with E : host_blank _ = false |- _ => rewrite E end.
  match goal with E : re_match dnsHostRE _ = true |- _ => rewrite E end.
  rewrite agent_labels by done. reflexivity.
Qed.

(** The type switch, on a record the control plane's switch leaves as it is. *)
Lemma agent_type_accepted domain r :
  CanonicalRecord domain r → normalize_by_type r = Ok r → string_forall is_solid (rec_Host r) = true →
  rec_Type r ≠ "CAA" → rec_Type r ≠ "DS" →
  agent_by_type r (rec_Host r) (rec_Value r) = Ok ().
Proof.
  intros Hcan Hagain Hsolid Hcaa Hds. destruct Hcan as [Hty _ _ _ _ Hp Hs Ht Ha Hapex Htext].
  assert (∀ m, rec_Type r ∈ target_types → agent_target m (rec_Value r) = Ok ()) as Htarget
    by (intros m Hin; by apply agent_target_domain, Ht).
  unfold record_types in Hty. rewrite !elem_of_cons, elem_of_nil in Hty.
  unfold agent_by_type.
  destruct Hty as [E|[E|[E|[E|[E|[E|[E|[E|[E|[]]]]]]]]]]; try congruence; rewrite E in *;
    cbn -[agent_target agent_srv str_len].
  - destruct Ha as (ip & Hip & Hv4); [set_solver|]. unfold agent_address. rewrite Hip.
    rewrite bool_decide_eq_true_2 by (by apply Hv4). reflexivity.
  - destruct Ha as (ip & Hip & Hv4); [set_solver|]. unfold agent_address. rewrite Hip.
    rewrite bool_decide_eq_false_2; [reflexivity|]. intros Hsome. by apply Hv4 in Hsome.
  - rewrite (proj2 (String.eqb_neq _ _) (Hapex eq_refl)). cbn [fail_when]. apply Htarget. set_solver.
  - change (0 ≤ rec_Priority r ≤ 65535) in Hp. rewrite !(proj2 (Z.ltb_ge _ _)) by lia. cbn [orb fail_when]. apply Htarget. set_solver.
  - apply Htarget. set_solver.
  - specialize (Htext eq_refl). rewrite (proj2 (Z.eqb_neq _ _)), (proj2 (Z.ltb_ge _ _)) by lia. reflexivity.
  - change (0 ≤ rec_Priority r ≤ 65535) in Hp.
    change (0 ≤ rec_Weight r ≤ 65535 ∧ 1 ≤ rec_Port r ≤ 65535) in Hs. unfold agent_srv. rewrite !(proj2 (Z.ltb_ge _ _)) by lia. cbn [orb fail_when].
    assert (agent_srv_owner (rec_Host r) = true) as ->; [|cbn [negb fail_when]; apply Htarget; set_solver].
    revert Hagain. unfold normalize_by_type. rewrite E. cbn -[normalize_srv]. unfold normalize_srv. run_iff.
    intros [Ho _]. bool_split. unfold validSRVOwner in *. by rewrite trim_space_solid in * by done.
Qed.

Lemma normalized_value_trimmed domain r r' : normalizeRecord domain r = Ok r' → trim_space (rec_Value r') = rec_Value r'.
Proof.
  intros [_ Hs%normalize_by_type_Ok]%normalizeRecord_Ok. pose proof (sw_value _ _ Hs) as Hv.
  destruct (one_of _ target_types).
  - apply trim_space_solid, domain_solid. by destruct Hv.
  - rewrite Hv. destruct (trim_record_fields r) as (_ & _ & Ev & _). rewrite Ev. apply trim_space_idem.
Qed.

Lemma agent_accepts_template domain r r' :
  normalizeRecord domain r = Ok r' → rec_Type r' ≠ "CAA" → rec_Type r' ≠ "DS" → validateDNSRecordAtAgent r' = Ok ().
Proof.
  intros Hn Hcaa Hds. pose proof (normalized_value_trimmed _ _ _ Hn) as Htrim.
  apply normalizeRecord_Ok in Hn as [Hg Hs%normalize_by_type_Ok].
  pose proof (switched_guards _ _ _ Hs Hg) as Hg'. pose proof (switched_canonical _ _ _ Hg Hs) as Hcan.
  apply (agent_guards domain); [done|done|]. eapply agent_type_accepted; try done; [apply (sw_again _ _ Hs)|].
  apply host_valid_solid. by destruct Hg' as (_ & ? & _).
Qed.

(** The editor's own cases, on trimmed records. *)
Lemma ds_accepted domain t r :
  rec_Type t = "DS" → record_guards domain t → trim_space (rec_Value t) = rec_Value t →
  control_ds t = Ok r → validateDNSRecordAtAgent r = Ok ().
Proof.
  intros Ht Hg Htrim Hc. unfold control_ds in Hc.
  apply fail_when_Ok in Hc as [Hm Hc]. cbv zeta in Hc. apply fail_when_Ok in Hc as [Hk Hc].
  apply fail_when_Ok in Hc as [Hd [= <-]].
  apply (agent_guards domain); [exact Hg|exact Htrim|]. unfold agent_by_type. cbn -[agent_ds].
  rewrite Ht. cbn -[agent_ds]. unfold agent_ds. change agentDSRE with controlDSRE.
  rewrite Hm. cbn [fail_when]. cbv zeta. rewrite Hk. cbn [fail_when]. by rewrite Hd.
Qed.

Lemma control_caa_refuses t : is_ok (control_caa t) = false.
Proof. unfold control_caa. by rewrite submatch_length_not_groups by lia. Qed.

Lemma agent_accepts_edited domain r r' : normalizeDNSRecord domain r = Ok r' → validateDNSRecordAtAgent r' = Ok ().
Proof.
  intros Hn. pose proof Hn as [Hg Hc]%normalizeDNSRecord_Ok.
  assert (trim_space (rec_Value (trim_record r)) = rec_Value (trim_record r)) as Htrim.
  { destruct (trim_record_fields r) as (_ & _ & Ev & _). rewrite Ev. apply trim_space_idem. }
  assert (rec_Type (trim_record r) ≠ "CAA" → rec_Type (trim_record r) ≠ "DS" → normalizeRecord domain r = Ok r') as Htpl.
  { intros Hcaa Hds. apply normalizeRecord_Ok. split; [done|]. by apply control_by_type_eq. }
  revert Hg Hc Htrim Htpl. generalize (trim_record r). clear Hn. intros t Hg Hc Htrim Htpl.
  destruct (decide (rec_Type t = "DS")) as [Hds|Hds].
  { unfold control_by_type in Hc. rewrite Hds in Hc. by eapply ds_accepted. }
  destruct (decide (rec_Type t = "CAA")) as [Hcaa|Hcaa].
  { exfalso. unfold control_by_type in Hc. rewrite Hcaa in Hc. pose proof (control_caa_refuses t) as Hno.
    change (control_caa t = Ok r') in Hc. by rewrite Hc in Hno. }
  specialize (Htpl Hcaa Hds). apply control_by_type_eq, normalize_by_type_Ok in Hc as Hs; [|done..].
  pose proof (switched_host _ _ Hs) as (_ & Ety & _). eapply agent_accepts_template; [done|congruence..].
Qed.

(** ** The records of a request *)

Definition at_host (host : string) (records : list DNSRecord) : list DNSRecord :=
  filter (λ r, request_host r = host) records.

Definition host_summary (records : list DNSRecord) : hostRecords :=
  mkHostRecords (list_to_set (request_type <$> records)) (Z.of_nat (length records)).

Definition hosts_ok (hosts : gmap string hostRecords) (seen : list DNSRecord) : Prop :=
  ∀ host, hosts !! host =
    if bool_decide (host ∈ request_host <$> seen) then Some (host_summary (at_host host seen)) else None.

Lemma at_host_absent host seen : host ∉ request_host <$> seen → at_host host seen = [].
Proof.
  intros Hnot. unfold at_host. induction seen as [|r seen IH]; [done|].
  rewrite fmap_cons, not_elem_of_cons in Hnot. rewrite filter_cons, decide_False; naive_solver.
Qed.

Lemma summary_snoc records r :
  host_summary (records ++ [r]) =
  mkHostRecords ({[request_type r]} ∪ hr_types (host_summary records)) (hr_count (host_summary records) + 1).
Proof.
  unfold host_summary. rewrite fmap_app, list_to_set_app_L, length_app. cbn. f_equal; [set_solver|lia].
Qed.

Lemma hosts_ok_snoc hosts seen r : hosts_ok hosts seen →
  let old := default (mkHostRecords ∅ 0) (hosts !! request_host r) in
  hosts_ok (<[request_host r := mkHostRecords ({[request_type r]} ∪ hr_types old) (hr_count old + 1)]> hosts) (seen ++ [r]).
Proof.
  intros HI old host. assert (old = host_summary (at_host (request_host r) seen)) as ->.
  { unfold old. rewrite HI. case_bool_decide; [done|]. by rewrite at_host_absent. }
  rewrite <- summary_snoc. unfold at_host. rewrite fmap_app, filter_app.
  destruct (decide (request_host r = host)) as [<-|Hne].
  - rewrite lookup_insert_eq, bool_decide_eq_true_2 by set_solver.
    by rewrite filter_cons, decide_True, filter_nil.
  - rewrite lookup_insert_ne, HI by done. rewrite filter_cons, decide_False, filter_nil, app_nil_r by done.
    rewrite (bool_decide_ext (host ∈ request_host <$> seen) (host ∈ (request_host <$> seen) ++ (request_host <$> [r]))); [done|].
    simpl. rewrite elem_of_app, list_elem_of_singleton. naive_solver.
Qed.

Lemma records_by_host_run hosts seen records :
  hosts_ok hosts seen →
  (∀ r, r ∈ records → request_type r = "CNAME" → request_host r ≠ "@") →
  ∃ hosts', records_by_host hosts records = Ok hosts' ∧ hosts_ok hosts' (seen ++ records).
Proof.
  revert hosts seen. induction records as [|r rest IH]; intros hosts seen HI Hapex.
  - exists hosts. by rewrite app_nil_r.
  - cbn [records_by_host]. assert (String.eqb (request_type r) "CNAME" && String.eqb (request_host r) "@" = false) as ->.
    { apply andb_false_iff. rewrite !String.eqb_neq. destruct (decide (request_type r = "CNAME")); [right|by left].
      apply Hapex; [constructor|done]. }
    cbn [fail_when]. destruct (IH _ _ (hosts_ok_snoc _ _ r HI)) as (hosts' & Hrun & HI').
    { intros x Hx. apply Hapex. by constructor. }
    exists hosts'. split; [exact Hrun|]. by rewrite <- app_assoc in HI'.
Qed.

(** No record beside a CNAME passes the check over the hosts. *)
Lemma check_hosts_run hosts records :
  hosts_ok hosts records →
  (∀ r, r ∈ records → request_type r = "CNAME" → at_host (request_host r) records = [r]) →
  for_each check_host (map_order (map_to_list hosts)) = Ok ().
Proof.
  intros HI Halone. rewrite for_each_map_order. apply for_each_Ok, Forall_forall.
  intros [host seen] Hin%elem_of_map_to_list. rewrite (HI host) in Hin. case_bool_decide; [|done].
  injection Hin as <-. unfold check_host. apply fail_when_Ok. split; [|done].
  destruct (bool_decide ("CNAME" ∈ hr_types (host_summary (at_host host records)))) eqn:E; [|done].
  apply bool_decide_eq_true in E. cbn in E. apply elem_of_list_to_set, list_elem_of_fmap in E as (r & Ety & Hr).
  apply list_elem_of_filter in Hr as [<- Hr]. rewrite Halone by done.
  unfold host_summary. cbn [fmap list_fmap list_to_set hr_types hr_count length].
  assert (size (list_to_set [request_type r] : gset string) = 1%nat) as Hsize
    by (cbn; by rewrite union_empty_r_L, size_singleton).
  cbn [andb]. change ((λ x, request_type x) r) with (request_type r). cbn [list_to_set foldr].
  cbn in Hsize |- *. by rewrite Hsize.
Qed.

End Records.

(** ** Requests *)

(** A primary zone whose own settings the agent can serve. *)
Record ServableZone `{GoUnicode} (req : ConfigureDNSZoneReq) : Prop := {
  sz_mode : dzr_Mode req = "primary";
  sz_domain : ValidateDomain (dzr_Domain req) = Ok ();
  sz_address : zone_address_invalid (trim_space (dzr_Address req)) = false;
  sz_ipv6 : trim_space (dzr_IPv6Address req) = "" ∨ zone_ipv6_invalid (trim_space (dzr_IPv6Address req)) = false;
  sz_primaries : Forall (λ p, is_Some (parse_ip (trim_space p))) (dzr_UpstreamPrimaries req);
  sz_cidrs : Forall (λ c, is_Some (parse_cidr (trim_space c))) (dzr_TransferCIDRs req);
  sz_names : Forall (λ name, ValidateDomain (trim_suffix (trim_space name) ".") = Ok ())
               [soa_PrimaryNameserver (dzr_SOA req); soa_ResponsibleMailbox (dzr_SOA req)];
  sz_timings : soa_timings_invalid (dzr_SOA req) = false;
}.

(** What the control plane puts in a zone: records its editor or its template
    validation returned. *)
Inductive Accepted `{GoUnicode} (domain : string) (r : DNSRecord) : Prop :=
| accepted_edit r0 : normalizeDNSRecord domain r0 = Ok r → Accepted domain r
| accepted_template r0 :
    normalizeRecord domain r0 = Ok r → rec_Type r ≠ "CAA" → rec_Type r ≠ "DS" → Accepted domain r.

Section Requests.
Context `{GoUnicode} `{GoMapOrder}.

Lemma accepted_by_agent domain r : Accepted domain r → validateDNSRecordAtAgent r = Ok ().
Proof. intros [r0 Hr|r0 Hr Hcaa Hds]; [by eapply agent_accepts_edited|by eapply agent_accepts_template]. Qed.

Lemma agent_host_apex r : validateDNSRecordAtAgent r = Ok () → rec_Type r = "CNAME" → agent_host r ≠ "@".
Proof.
  unfold validateDNSRecordAtAgent. intros Hr Ht. cbv zeta in Hr.
  apply fail_when_Ok in Hr as [_ Hr]. apply fail_when_Ok in Hr as [_ Hr].
  apply result_seq_Ok in Hr as [_ Hr]. apply fail_when_Ok in Hr as [_ Hr].
  unfold agent_by_type in Hr. rewrite Ht in Hr. cbn -[agent_target] in Hr.
  apply fail_when_Ok in Hr as [Hne _]. by bool_split.
Qed.

Lemma zone_soa_named soa domain :
  ValidateDomain (trim_suffix (trim_space (soa_PrimaryNameserver soa)) ".") = Ok () → zone_soa soa domain = soa.
Proof.
  intros Hn. unfold zone_soa. destruct (String.eqb_spec (soa_PrimaryNameserver soa) "") as [E|]; [|done].
  rewrite E in Hn. vm_compute in Hn. discriminate Hn.
Qed.

Lemma request_accepted req dir now :
  ServableZone req →
  Forall (λ r, validateDNSRecordAtAgent r = Ok ()) (dzr_Records req) →
  (∀ r, r ∈ dzr_Records req → request_type r = "CNAME" → request_host r ≠ "@") →
  (∀ r, r ∈ dzr_Records req → request_type r = "CNAME" → at_host (request_host r) (dzr_Records req) = [r]) →
  normalizeDNSZoneRequest req dir now = Ok (zone_request_defaults req dir now).
Proof.
  intros [Hmode Hdom Hip Hip6 Hprim Hcidr Hnames Htimes] Hrec Hapex Halone.
  apply Forall_cons in Hnames as Hn1. destruct Hn1 as [Hn1 [Hn2 _]%Forall_cons].
  destruct (records_by_host_run ∅ [] (dzr_Records req)) as (hosts & Hhosts & HI); [|done|].
  { intros host. by rewrite bool_decide_eq_false_2 by apply not_elem_of_nil. }
  unfold normalizeDNSZoneRequest, zone_request_defaults. cbv zeta. rewrite Hmode.
  change (to_lower (trim_space "primary")) with "primary". cbn -[ValidateDomain parse_ip parse_cidr trim_space zone_address_invalid zone_ipv6_invalid to_lower NormalizeDomain for_each check_soa_name soa_timings_invalid zone_soa validateDNSRecordAtAgent records_by_host].
  rewrite NormalizeDomain_valid, Hdom by done. cbn [result_bind]. rewrite Hip.
  assert (negb (String.eqb (trim_space (dzr_IPv6Address req)) "") && zone_ipv6_invalid (trim_space (dzr_IPv6Address req)) = false) as ->.
  { destruct Hip6 as [-> | ->]; [reflexivity|apply andb_false_r]. }
  rewrite (zone_soa_named _ _ Hn1).
  assert (for_each check_soa_name (map_order [("primary nameserver", soa_PrimaryNameserver (dzr_SOA req));
            ("responsible mailbox", soa_ResponsibleMailbox (dzr_SOA req))]) = Ok ()) as Hsoa.
  { rewrite for_each_map_order. apply for_each_Ok. repeat constructor; unfold check_soa_name; by rewrite result_wrap_Ok. }
  assert (bool_decide (is_Some (parse_ip (trim_space (dzr_Address req)))) = true) as Hsome.
  { unfold zone_address_invalid in Hip. apply bool_decide_eq_true. by destruct (parse_ip _). }
  rewrite Hsoa, Htimes, Hsome, (proj2 (for_each_Ok validateDNSRecordAtAgent _) Hrec), Hhosts. cbn [result_bind negb fail_when].
  rewrite (check_hosts_run _ _ HI Halone). run_iff. cbn [result_bind].
  split; [reflexivity|]. split; [|split; [|by destruct req]]; apply for_each_Ok.
  - eapply Forall_impl; [exact Hprim|]. intros p Hp. cbn. by rewrite bool_decide_eq_true_2.
  - eapply Forall_impl; [exact Hcidr|]. intros c Hc. cbn. by rewrite bool_decide_eq_true_2.
Qed.

(** On accepted records the agent's host and type are the planner's. *)
Lemma accepted_host domain r : Accepted domain r →
  host_valid (rec_Host r) = true ∧ rec_Type r ∈ record_types.
Proof.
  assert (∀ t, record_guards domain t → Switched t r → host_valid (rec_Host r) = true ∧ rec_Type r ∈ record_types) as Hsw.
  { intros t Hg Hs. pose proof (switched_host _ _ Hs) as (-> & -> & _). split; [by destruct Hg as (_ & ? & _)|apply (sw_type _ _ Hs)]. }
  assert (∀ t, record_guards domain t → rec_Type t = "DS" → control_ds t = Ok r →
            host_valid (rec_Host r) = true ∧ rec_Type r ∈ record_types) as Hds.
  { intros t Hg Ht Hc. unfold control_ds in Hc. cbv zeta in Hc. rewrite !fail_when_Ok in Hc.
    destruct Hc as (_ & _ & _ & [= <-]). split; [by destruct Hg as (_ & ? & _)|]. cbn. rewrite Ht. set_solver. }
  intros [r0 Hn|r0 Hn Hcaa Hne].
  - apply normalizeDNSRecord_Ok in Hn as [Hg Hc]. revert Hg Hc. generalize (trim_record r0). intros t Hg Hc.
    destruct (decide (rec_Type t = "DS")) as [Ht|Ht].
    { unfold control_by_type in Hc. rewrite Ht in Hc. by eapply Hds. }
    destruct (decide (rec_Type t = "CAA")) as [Ht'|Ht'].
    { exfalso. unfold control_by_type in Hc. rewrite Ht' in Hc. pose proof (control_caa_refuses t) as Hno.
      change (control_caa t = Ok r) in Hc. by rewrite Hc in Hno. }
    apply control_by_type_eq, normalize_by_type_Ok in Hc; [by eapply Hsw|done..].
  - apply normalizeRecord_Ok in Hn as [Hg Hs%normalize_by_type_Ok]. by eapply Hsw.
Qed.

Lemma accepted_owner domain r : Accepted domain r →
  request_host r = owner_host r ∧ (owner_host r = "@" → agent_host r = "@") ∧
  request_type r = owner_type r ∧ request_type r = rec_Type r.
Proof.
  intros [Hh Hty]%accepted_host.
  assert (trim_space (rec_Host r) = rec_Host r) as Et by (apply trim_space_solid; by apply host_valid_solid).
  assert (to_lower (rec_Host r) = string_map lower_byte (rec_Host r)) as El
    by (apply to_lower_ascii, is_ascii_solid; by apply host_valid_solid).
  unfold request_host, owner_host, request_type, owner_type, agent_host. rewrite Et, El.
  split; [|split; [|split; [done|by apply record_type_upper]]].
  - destruct (String.eqb_spec (string_map lower_byte (rec_Host r)) "") as [E|]; [|done]. exfalso.
    apply (host_valid_nonempty _ Hh). by destruct (rec_Host r).
  - destruct (rec_Host r) as [|c [|d s]]; cbn; [done| |done]. intros [= E].
    assert (c = "@"%char) as ->; [|done]. revert E. clear. destruct c as [[] [] [] [] [] [] [] []]; vm_compute; congruence.
Qed.

Lemma NoDup_single {A} (l : list A) x : NoDup l → x ∈ l → (∀ y, y ∈ l → y = x) → l = [x].
Proof.
  intros Hnd Hx Hall. destruct l as [|y [|z l]]; [by apply elem_of_nil in Hx| |].
  - by rewrite (Hall y) by constructor.
  - apply NoDup_cons in Hnd as [Hy _]. destruct Hy.
    rewrite (Hall y), (Hall z) by (repeat constructor). constructor.
Qed.

Lemma at_host_owner domain host records :
  (∀ r, r ∈ records → Accepted domain r) → at_host host records = at_owner host records.
Proof.
  unfold at_host, at_owner. induction records as [|r records IH]; intros Hacc; [done|].
  rewrite !filter_cons, IH by (intros x Hx; apply Hacc; by constructor).
  destruct (accepted_owner domain r) as (-> & _); [apply Hacc; constructor|done].
Qed.

Lemma valid_zone_accepted req dir now :
  ServableZone req → Forall (Accepted (dzr_Domain req)) (dzr_Records req) → WellFormedSet (dzr_Records req) →
  normalizeDNSZoneRequest req dir now = Ok (zone_request_defaults req dir now).
Proof.
  intros Hz Hacc Hset. pose proof Hacc as Hacc'. rewrite Forall_forall in Hacc'.
  apply request_accepted; [done| | |].
  - eapply Forall_impl; [exact Hacc|]. intros r. apply accepted_by_agent.
  - intros r Hr Ht Happ. apply Hacc' in Hr as Ha. destruct (accepted_owner _ _ Ha) as (Eh & Hat & _ & Ety).
    rewrite Eh in Happ. apply accepted_by_agent, agent_host_apex in Ha; [by auto|congruence].
  - intros r Hr Ht. destruct (accepted_owner _ _ (Hacc' _ Hr)) as (Eh & _ & Ety & _).
    rewrite Eh, (at_host_owner (dzr_Domain req)) by done. destruct Hset as [Hnd _ Hc].
    apply NoDup_single; [by apply NoDup_filter, (NoDup_fmap_1 record_identity)|by apply at_owner_elem|].
    intros x [Ho Hx]%at_owner_elem. apply Hc; [done|done| |done].
    unfold is_cname. apply String.eqb_eq. congruence.
Qed.

(** What an accepted request looks like. *)
Record Normalized (req req' : ConfigureDNSZoneReq) (dir : string) (now : Z) : Prop := {
  nr_shape : req' = (zone_request_defaults req dir now)
               <| dzr_SOA := zone_soa (dzr_SOA req) (NormalizeDomain (dzr_Domain req)) |>;
  nr_domain : ValidateDomain (dzr_Domain req') = Ok ();
  nr_mode : dzr_Mode req' ∈ ["primary"; "secondary"; "disabled"];
  nr_names : Forall (λ name, ValidateDomain (trim_suffix (trim_space name) ".") = Ok ())
               [soa_PrimaryNameserver (dzr_SOA req'); soa_ResponsibleMailbox (dzr_SOA req')];
  nr_records : Forall (λ r, validateDNSRecordAtAgent r = Ok ()) (dzr_Records req');
  nr_primary : dzr_Records req' ≠ [] → dzr_Mode req' = "primary";
}.

Lemma normalizeDNSZoneRequest_Ok req dir now req' :
  normalizeDNSZoneRequest req dir now = Ok req' → Normalized req req' dir now.
Proof.
  unfold normalizeDNSZoneRequest. cbv zeta. set (d := zone_request_defaults req dir now).
  rewrite result_seq_Ok. intros (Hdom & Hr). rewrite !fail_when_Ok in Hr. destruct Hr as (Hmode & _ & _ & _ & Hr).
  rewrite !result_seq_Ok in Hr. destruct Hr as (_ & _ & Hnames & Hr). rewrite !fail_when_Ok in Hr.
  destruct Hr as (_ & Hnon & _ & Hr). rewrite result_seq_Ok in Hr. destruct Hr as (Hrec & Hr).
  rewrite result_bind_Ok in Hr. destruct Hr as (hosts & _ & Hr). rewrite result_seq_Ok in Hr. destruct Hr as (_ & Hr).
  rewrite for_each_map_order, for_each_Ok in Hnames.
  assert (one_of (dzr_Mode d) ["primary"; "secondary"; "disabled"] = true) as Hm by by apply negb_false_iff.
  unfold one_of in Hm. apply bool_decide_eq_true in Hm.
  assert (dzr_Records req ≠ [] → dzr_Mode d = "primary") as Hprim.
  { intros Hne. destruct (String.eqb_spec (dzr_Mode d) "primary") as [|Hno]; [done|]. cbn [negb andb] in Hnon.
    apply negb_false_iff, bool_decide_eq_true in Hnon. by destruct Hne. }
  set (soa := zone_soa (dzr_SOA d) (dzr_Domain d)) in *.
  assert ((if String.eqb (dzr_Mode d) "disabled" then (d <| dzr_SOA := soa |>) <| dzr_Records := [] |> else d <| dzr_SOA := soa |>)
    = d <| dzr_SOA := soa |>) as E.
  { destruct (String.eqb_spec (dzr_Mode d) "disabled") as [Hd|]; [|done].
    assert (dzr_Records d = []) as Hnil; [|rewrite <- Hnil; by destruct d].
    change (dzr_Records d) with (dzr_Records req). destruct (dzr_Records req); [done|].
    rewrite Hprim in Hd by done. discriminate Hd. }
  change (dzr_Mode (d <| dzr_SOA := soa |>)) with (dzr_Mode d) in *. rewrite E in Hrec, Hr. injection Hr as <-.
  apply Forall_cons in Hnames as [Hn1 [Hn2 _]%Forall_cons]. unfold check_soa_name in Hn1, Hn2. rewrite result_wrap_Ok in Hn1, Hn2.
  split; [reflexivity|exact Hdom|exact Hm|by repeat constructor|by apply for_each_Ok|exact Hprim].
Qed.

Lemma agent_refuses_caa r : rec_Type r = "CAA" → is_ok (validateDNSRecordAtAgent r) = false.
Proof.
  intros Ht. destruct (validateDNSRecordAtAgent r) as [[]|e] eqn:E; [|done]. exfalso.
  unfold validateDNSRecordAtAgent in E. cbv zeta in E. rewrite !fail_when_Ok, result_seq_Ok, fail_when_Ok in E.
  destruct E as (_ & _ & _ & _ & E). unfold agent_by_type in E. rewrite Ht in E.
  change (agent_caa (trim_space (rec_Value r)) = Ok ()) in E. unfold agent_caa in E.
  rewrite fail_when_Ok in E. destruct E as [E _]. unfold submatch_length in E.
  by destruct (re_match agentCAARE _).
Qed.

(** * Properties *)


(** A CAA record takes its whole zone down: the agent's pattern has two
    groups and the code asks for four submatches, so a request with a CAA record,
    whatever else it holds, is refused. *)
Theorem caa_zone_refused (req : ConfigureDNSZoneReq) (dir : string) (now : Z) (r : DNSRecord) :
  r ∈ dzr_Records req → rec_Type r = "CAA" → is_ok (normalizeDNSZoneRequest req dir now) = false.
Proof.
  intros Hr Ht. destruct (normalizeDNSZoneRequest req dir now) as [req'|e] eqn:E; [|done]. exfalso.
  apply normalizeDNSZoneRequest_Ok in E as [Eshape _ _ _ Hrec _]. rewrite Eshape in Hrec. cbn in Hrec.
  rewrite Forall_forall in Hrec. apply Hrec in Hr. pose proof (agent_refuses_caa _ Ht) as Hno. by rewrite Hr in Hno.
Qed.

End Requests.

(** * Witnesses *)

Module AgentSamples.

Definition soa : DNSSOASettings :=
  mkDNSSOASettings "ns1.example.com" "hostmaster.example.com" "unix" 3600 3600 900 604800 300.

Definition text : DNSRecord :=
  (EditSamples.record "TXT" ("say " +:+ dquote +:+ "hi" +:+ dquote)) <| rec_Host := "_dmarc" |>.

Definition service : DNSRecord :=
  (EditSamples.record "SRV" "sip.example.com") <| rec_Host := "_sip._tcp" |>
    <| rec_Priority := 1 |> <| rec_Weight := 2 |> <| rec_Port := 5060 |>.

Definition request : ConfigureDNSZoneReq :=
  zero_ConfigureDNSZoneReq <| dzr_SiteID := 100 |> <| dzr_ZoneID := 10 |> <| dzr_DesiredRevision := 6 |>
    <| dzr_Domain := "example.com" |> <| dzr_Address := "192.0.2.1" |> <| dzr_Serial := 2000 |>
    <| dzr_Mode := "primary" |> <| dzr_TransferCIDRs := ["192.0.2.0/24"] |> <| dzr_SOA := soa |>
    <| dzr_Records := [EditSamples.mail_normal; text; service] |>.

Definition request_with_caa : ConfigureDNSZoneReq :=
  request <| dzr_Records := [EditSamples.mail_normal; EditSamples.caa] |>.

Lemma request_servable : @ServableZone ascii_only request.
Proof.
  split.
  - reflexivity.
  - vm_compute. reflexivity.
  - vm_compute. reflexivity.
  - left. vm_compute. reflexivity.
  - constructor.
  - apply Forall_singleton. eexists. vm_compute. reflexivity.
  - apply Forall_cons. split; [vm_compute; reflexivity|]. apply Forall_singleton. vm_compute. reflexivity.
  - vm_compute. reflexivity.
Qed.

Lemma sample_records_accepted : Forall (@Accepted ascii_only "example.com") (dzr_Records request).
Proof.
  apply Forall_cons. split; [|apply Forall_cons; split; [|apply Forall_singleton]].
  - apply accepted_edit with (r0 := EditSamples.mail). vm_compute. reflexivity.
  - apply accepted_template with (r0 := text); [vm_compute; reflexivity|discriminate..].
  - apply accepted_edit with (r0 := service). vm_compute. reflexivity.
Qed.

End AgentSamples.


(** The template accepts the record that brings the zone down. *)
Lemma caa_zone_refused_witness :
  @normalizeRecord ascii_only "example.com" EditSamples.caa = Ok EditSamples.caa ∧
  is_ok (@normalizeDNSZoneRequest ascii_only insertion_order AgentSamples.request_with_caa "/zones" 3000) = false.
Proof.
  split; [vm_compute; reflexivity|].
  apply (@caa_zone_refused ascii_only insertion_order AgentSamples.request_with_caa "/zones" 3000 EditSamples.caa);
    [do 2 constructor|reflexivity].
Defined.
