(* ===== verification/DNSRenderProps.v ===== *)
(** * What the rendered zone says

    A request the agent accepts renders to a zone file with one line per record,
    whatever the records hold ([one_line_per_record]); and the text of a TXT
    record reads back as it was entered ([txt_roundtrip]), unless it holds a
    backslash, which is not escaped ([DNSFindings]). *)

From S2P Require Import Prelude Tx Tables GoStr Regex Net Site DNSTypes DNSRecord DNSPlan DNSTables DNSEdit DNSEditProps DNSAgent DNSRender DNSAgentProps.
From Stdlib Require Import Ascii.

(** ** Escaping *)

Definition escape (v : string) : string := replace_all v dquote escaped_quote.

Lemma escape_nil : escape "" = "".
Proof. reflexivity. Qed.

Lemma escape_cons c v :
  escape (String c v) = if is_dquote c then escaped_quote +:+ escape v else String c (escape v).
Proof.
  unfold escape, replace_all, dquote. cbn [replace_from]. rewrite prefix_byte.
  replace (Ascii.eqb (chr 34) c) with (is_dquote c).
  - destruct (is_dquote c); [|done]. f_equal.
  - destruct (is_dquote c) eqn:E; symmetry.
    + apply Ascii.eqb_eq. unfold is_dquote in E. apply Z.eqb_eq in E. by apply code_inj.
    + apply Ascii.eqb_neq. intros <-. discriminate E.
Qed.

Lemma escape_quote v : escape (String (chr 34) v) = escaped_quote +:+ escape v.
Proof. exact (escape_cons (chr 34) v). Qed.

Lemma escape_app v w : escape (v +:+ w) = escape v +:+ escape w.
Proof.
  induction v as [|c v IH]; [done|]. rewrite string_app_cons, !escape_cons, IH.
  destruct (is_dquote c); [by rewrite string_app_assoc|done].
Qed.

Lemma escape_length v : (String.length v ≤ String.length (escape v))%nat.
Proof.
  induction v as [|c v IH]; [done|]. rewrite escape_cons. destruct (is_dquote c);
    [rewrite string_length_app|]; cbn [String.length]; [change (String.length escaped_quote) with 2%nat|]; lia.
Qed.

Definition no_backslash (v : string) : Prop := contains_byte (Ascii.eqb backslash) v = false.

Lemma no_backslash_app v w : no_backslash (v +:+ w) ↔ no_backslash v ∧ no_backslash w.
Proof.
  unfold no_backslash. rewrite !contains_byte_forall, !negb_false_iff, string_forall_app, andb_true_iff. done.
Qed.

Lemma no_backslash_cons c v : no_backslash (String c v) ↔ c ≠ backslash ∧ no_backslash v.
Proof. unfold no_backslash. cbn [contains_byte]. rewrite orb_false_iff, Ascii.eqb_neq. naive_solver. Qed.

(** What follows a piece of escaped text is read from where it ends. *)
Lemma read_quoted_escape v rest :
  no_backslash v → read_quoted (escape v +:+ dquote +:+ rest) = Some (v, rest).
Proof.
  induction v as [|c v IH]; intros Hv; [done|]. apply no_backslash_cons in Hv as [Hc Hv].
  rewrite escape_cons. destruct (is_dquote c) eqn:Eq.
  - assert (c = chr 34) as -> by (unfold is_dquote in Eq; apply Z.eqb_eq in Eq; by apply code_inj).
    unfold escaped_quote, dquote. rewrite !string_app_assoc, !string_app_cons. cbn [read_quoted].
    change (is_dquote backslash) with false. rewrite Ascii.eqb_refl. cbn [read_quoted].
    change (is_digit (chr 34)) with false. cbv match.
    change (String (chr 34) ("" +:+ rest)) with (dquote +:+ rest). rewrite string_app_nil_l. by rewrite IH.
  - rewrite string_app_cons. cbn [read_quoted]. rewrite Eq, (proj2 (Ascii.eqb_neq _ _) Hc). by rewrite IH.
Qed.

(** ** Cutting the text into strings *)

(** A cut falls between two bytes of the text, or inside an escaped quote. *)
Lemma escape_cut v n :
  (n ≤ String.length (escape v))%nat →
  ∃ v1 v2, v = v1 +:+ v2 ∧
    (String.length (escape v1) = n ∨
     (∃ w, v2 = dquote +:+ w ∧ n = S (String.length (escape v1)))).
Proof.
  revert n. induction v as [|c v IH]; intros n Hn.
  { exists "", "". split; [done|]. left. rewrite escape_nil in *. simpl in *. lia. }
  destruct n as [|n]; [by exists "", (String c v); split; [|left]|].
  rewrite escape_cons in Hn. destruct (is_dquote c) eqn:Eq.
  - assert (c = chr 34) as -> by (unfold is_dquote in Eq; apply Z.eqb_eq in Eq; by apply code_inj).
    destruct n as [|n].
    + exists "", (String (chr 34) v). split; [done|]. right. by exists v.
    + rewrite string_length_app in Hn. simpl in Hn. destruct (IH n) as (v1 & v2 & -> & Hcut); [lia|].
      exists (String (chr 34) v1), v2. split; [done|]. rewrite escape_quote, string_length_app.
      change (String.length escaped_quote) with 2%nat. cbn [Nat.add].
      destruct Hcut as [<-|(w & -> & ->)]; [by left|right; by exists w].
  - simpl in Hn. destruct (IH n) as (v1 & v2 & -> & Hcut); [lia|].
    exists (String c v1), v2. split; [done|]. rewrite escape_cons, Eq. simpl.
    destruct Hcut as [<-|(w & -> & ->)]; [by left|right; by exists w].
Qed.

Lemma get_app_r s t n : String.get (String.length s + n) (s +:+ t) = String.get n t.
Proof. induction s as [|c s IH]; [done|]. exact IH. Qed.

(** Escaped text never ends in a backslash. *)
Lemma escape_last v n rest :
  no_backslash v → String.length (escape v) = S n → String.get n (escape v +:+ rest) ≠ Some backslash.
Proof.
  intros Hv Hn. destruct (string_snoc v) as [->|(w & c & ->)]; [done|].
  apply no_backslash_app in Hv as [_ [Hc _]%no_backslash_cons].
  rewrite escape_app, string_length_app in Hn. rewrite escape_app, string_app_assoc, escape_cons in *.
  destruct (is_dquote c) eqn:Eq; rewrite escape_nil in *.
  - simpl in Hn. replace n with (String.length (escape w) + 1)%nat by lia. rewrite get_app_r. intros E. discriminate E.
  - simpl in Hn. replace n with (String.length (escape w) + 0)%nat by lia. rewrite get_app_r. intros [= E]. done.
Qed.

Lemma back_off_stay s p : (p = 0%nat ∨ String.get p s ≠ Some backslash) → back_off s (S p) = S p.
Proof.
  intros Hp. cbn [back_off]. destruct Hp as [->|Hp]; [done|]. by rewrite (bool_decide_eq_false_2 _ Hp), andb_false_r.
Qed.

Lemma back_off_step s p :
  (0 < p)%nat → String.get p s = Some backslash → back_off s (S p) = back_off s p.
Proof.
  intros Hp Hg. cbn [back_off]. rewrite (bool_decide_eq_true_2 _ Hg), andb_true_r.
  by rewrite (proj2 (Nat.ltb_lt _ _)) by lia.
Qed.

(** The first string of the loop is the escape of a non-empty prefix. *)
Lemma first_chunk v :
  no_backslash v → v ≠ "" →
  let size := back_off (escape v) (Nat.min 255 (String.length (escape v))) in
  ∃ v1 v2, v = v1 +:+ v2 ∧ v1 ≠ "" ∧ size = String.length (escape v1) ∧ (size ≤ 255)%nat.
Proof.
  intros Hv Hne size. unfold size. clear size. set (e := escape v). set (n := Nat.min 255 (String.length e)).
  assert (0 < n)%nat as Hpos.
  { unfold n, e. pose proof (escape_length v) as Hl. destruct v as [|c v]; [done|]. cbn [String.length] in Hl. lia. }
  assert (n ≤ String.length e ∧ n ≤ 255 ∧ (n < String.length e → n = 255))%nat as (Hn & Hn255 & Hcap) by (unfold n; lia).
  clearbody n.
  destruct (escape_cut v n Hn) as (v1 & v2 & Ev & Hcut). rewrite Ev in Hv. apply no_backslash_app in Hv as [Hv1 _].
  assert (e = escape v1 +:+ escape v2) as Ee by (unfold e; by rewrite Ev, escape_app).
  assert (∀ m, String.length (escape v1) = S m → back_off e (S m) = S m) as Hstay.
  { intros m Hm. apply back_off_stay. right. rewrite Ee. by apply escape_last. }
  destruct Hcut as [Hlen|(w & Ew & Hlen)].
  - exists v1, v2. split; [done|]. destruct n as [|m]; [lia|].
    split; [intros ->; discriminate Hlen|]. rewrite Hstay by done. split; [done|lia].
  - assert (escape v2 = escaped_quote +:+ escape w) as Ev2 by (rewrite Ew; exact (escape_quote w)).
    assert (n < String.length e)%nat as Hlt.
    { rewrite Ee, Ev2, !string_length_app, Hlen. simpl. lia. }
    specialize (Hcap Hlt).
    assert (0 < String.length (escape v1))%nat as Hl1 by lia.
    exists v1, v2. split; [done|]. split; [intros ->; cbn in Hl1; lia|].
    rewrite Hlen, back_off_step; [|lia|].
    + destruct (String.length (escape v1)) as [|m] eqn:Em; [lia|]. rewrite Hstay by done. split; [done|lia].
    + rewrite Ee, <- (Nat.add_0_r (String.length _)), get_app_r, Ev2. reflexivity.
Qed.

Fixpoint string_concat (l : list string) : string :=
  match l with [] => "" | s :: l => s +:+ string_concat l end.

Lemma chunks_escape fuel v :
  no_backslash v → (String.length (escape v) ≤ fuel)%nat →
  ∃ vs, txt_chunks fuel (escape v) = escape <$> vs ∧ string_concat vs = v ∧
    Forall (λ w, no_backslash w ∧ (String.length (escape w) ≤ 255)%nat) vs.
Proof.
  revert v. induction fuel as [|fuel IH]; intros v Hv Hlen.
  { exists []. assert (v = "") as ->; [|done]. pose proof (escape_length v) as Hl. destruct v; [done|]. cbn [String.length] in Hl. lia. }
  destruct (string_snoc v) as [->|Hsnoc]; [by exists []|].
  assert (v ≠ "") as Hne by (destruct Hsnoc as (t & c & ->); by destruct t).
  destruct (first_chunk v Hv Hne) as (v1 & v2 & Ev & Hne1 & Hsize & Hle).
  cbn [txt_chunks]. destruct (String.eqb_spec (escape v) "") as [E|_].
  { pose proof (escape_length v) as Hl. rewrite E in Hl. destruct v; [done|]. cbn [String.length] in Hl. lia. }
  cbv zeta. rewrite Hsize. rewrite Ev, escape_app, string_take_app, string_drop_app.
  rewrite Ev in Hv. apply no_backslash_app in Hv as [Hv1 Hv2].
  rewrite Ev, escape_app, string_length_app in Hlen.
  assert (0 < String.length (escape v1))%nat as Hpos.
  { pose proof (escape_length v1) as Hl. destruct v1; [done|]. cbn [String.length] in Hl. lia. }
  destruct (IH v2 Hv2) as (vs & -> & <- & Hall); [lia|]. exists (v1 :: vs). split; [done|]. split; [done|].
  constructor; [|done]. split; [done|]. by rewrite <- Hsize.
Qed.

(** ** Reading the strings *)

Lemma read_strings_quoted fuel v vs :
  Forall no_backslash (v :: vs) → (S (length vs) ≤ fuel)%nat →
  read_strings fuel (join " " (quoted <$> (escape <$> v :: vs))) = Some (v :: vs).
Proof.
  revert v fuel. induction vs as [|w vs IH]; intros v fuel Hall Hfuel; (destruct fuel as [|fuel]; [lia|]);
    apply Forall_cons in Hall as [Hv Hvs].
  - cbn [fmap list_fmap join]. unfold quoted. unfold dquote at 1. rewrite string_app_cons, string_app_nil_l.
    cbn [read_strings]. change (is_dquote (chr 34)) with true. cbv match.
    rewrite <- (string_app_nil_r dquote), read_quoted_escape by done. reflexivity.
  - change (join " " (quoted <$> (escape <$> v :: w :: vs)))
      with (quoted (escape v) +:+ " " +:+ join " " (quoted <$> (escape <$> w :: vs))).
    unfold quoted at 1. unfold dquote at 1. rewrite !string_app_assoc, string_app_cons, string_app_nil_l.
    cbn [read_strings]. change (is_dquote (chr 34)) with true. cbv match.
    rewrite read_quoted_escape by done. rewrite string_app_cons, string_app_nil_l, Ascii.eqb_refl.
    rewrite IH; [done|done|simpl in Hfuel; lia].
Qed.

Lemma join_length vs : (length vs ≤ String.length (join " " (quoted <$> vs)))%nat.
Proof.
  induction vs as [|v vs IH]; [done|].
  assert (1 ≤ String.length (quoted v))%nat as Hq by (unfold quoted; rewrite !string_length_app; change (String.length dquote) with 1%nat; lia).
  destruct vs as [|w vs]; [exact Hq|].
  change (join " " (quoted <$> v :: w :: vs)) with (quoted v +:+ " " +:+ join " " (quoted <$> w :: vs)).
  rewrite !string_length_app. change (length (v :: w :: vs)) with (S (length (w :: vs))). lia.
Qed.

Lemma renderTXTValue_strings v :
  no_backslash v →
  ∃ vs, renderTXTValue v = join " " (quoted <$> (escape <$> vs)) ∧ vs ≠ [] ∧ string_concat vs = v ∧
    Forall (λ w, no_backslash w ∧ (String.length (escape w) ≤ 255)%nat) vs.
Proof.
  intros Hv. unfold renderTXTValue. cbv zeta. fold (escape v). destruct (Z.leb_spec (str_len (escape v)) 255) as [Hle|Hgt].
  - exists [v]. split; [done|]. split; [done|]. split; [apply string_app_nil_r|]. apply Forall_singleton.
    split; [done|]. unfold str_len in Hle. lia.
  - destruct (chunks_escape (String.length (escape v)) v Hv) as (vs & -> & Hc & Hall); [lia|].
    exists vs. split; [done|]. split; [|done]. intros ->. cbn in Hc. subst v. vm_compute in Hgt. discriminate Hgt.
Qed.

(** ** Lines *)

Notation clean s := (has_control s = false).

Definition control_byte (c : ascii) : bool := is_crlf c || (code c =? 0).

Lemma clean_forall s : clean s ↔ string_forall (λ c, negb (control_byte c)) s = true.
Proof. unfold has_control. rewrite contains_byte_forall, negb_false_iff. done. Qed.

Lemma clean_app s t : clean (s +:+ t) ↔ clean s ∧ clean t.
Proof. rewrite !clean_forall, string_forall_app, andb_true_iff. done. Qed.

Lemma clean_take n s : clean s → clean (string_take n s).
Proof.
  rewrite !clean_forall. revert n. induction s as [|c s IH]; intros [|n]; simpl; [done..|].
  intros Hs. bool_split. rewrite IH by done. by rewrite andb_true_r, negb_true_iff.
Qed.

Lemma clean_drop n s : clean s → clean (string_drop n s).
Proof.
  rewrite !clean_forall. revert s. induction n as [|n IH]; intros [|c s]; simpl; [done..|].
  intros Hs. bool_split. by apply IH.
Qed.

Lemma clean_escape v : clean v → clean (escape v).
Proof.
  induction v as [|c v IH]; [done|]. rewrite escape_cons. intros Hc.
  change (String c v) with (String c "" +:+ v) in Hc. apply clean_app in Hc as [Hc Hv].
  destruct (is_dquote c); [rewrite clean_app; split; [reflexivity|by apply IH]|].
  change (String c (escape v)) with (String c "" +:+ escape v). rewrite clean_app. split; [done|by apply IH].
Qed.

Lemma clean_chunks fuel s : clean s → Forall (λ w, clean w) (txt_chunks fuel s).
Proof.
  revert s. induction fuel as [|fuel IH]; intros s Hs; [constructor|]. cbn [txt_chunks].
  destruct (String.eqb s ""); [constructor|]. constructor; [by apply clean_take|by apply IH, clean_drop].
Qed.

Lemma clean_quoted s : clean s → clean (quoted s).
Proof. intros Hs. unfold quoted. rewrite !clean_app. done. Qed.

Lemma clean_join l : Forall (λ w, clean w) l → clean (join " " l).
Proof.
  induction l as [|w [|x l] IH]; intros Hall; [done|by apply Forall_cons in Hall as [? _]|].
  apply Forall_cons in Hall as [Hw Hl]. change (join " " (w :: x :: l)) with (w +:+ " " +:+ join " " (x :: l)).
  rewrite !clean_app. split; [done|]. split; [done|]. by apply IH.
Qed.

Lemma clean_txt v : clean v → clean (renderTXTValue v).
Proof.
  intros Hv%clean_escape. unfold renderTXTValue. cbv zeta. fold (escape v).
  destruct (str_len (escape v) <=? 255); [by apply clean_quoted|].
  apply clean_join, Forall_fmap. apply (Forall_impl (λ w, clean w)); [by apply clean_chunks|]. intros w. apply clean_quoted.
Qed.

Lemma clean_pretty_N_go x s : clean s → clean (pretty_N_go x s).
Proof.
  revert s. induction (N.lt_wf_0 x) as [x _ IH]. intros s Hs.
  destruct (decide (0 < x)%N) as [Hx|Hx]; [|by assert (x = 0%N) as -> by lia].
  rewrite pretty_N_go_step by done. apply IH; [by apply N.div_lt|].
  generalize (x `mod` 10)%N. intros d. change (String (pretty_N_char d) s) with (String (pretty_N_char d) "" +:+ s).
  rewrite clean_app. split; [|done]. unfold pretty_N_char. by repeat case_match.
Qed.

Lemma clean_itoa z : clean (itoa z).
Proof.
  assert (∀ n : N, clean (pretty n)) as HN.
  { intros n. unfold pretty, pretty_N. case_decide; [done|]. by apply clean_pretty_N_go. }
  unfold itoa, pretty, pretty_Z. destruct z as [|p|p]; [done|apply (HN (Npos p))|].
  change (clean ("-" +:+ pretty (Npos p))). rewrite clean_app. split; [done|apply HN].
Qed.

Section Lines.
Context `{GoUnicode} `{GoMapOrder}.

Lemma agent_type_known r host value : agent_by_type r host value = Ok () → rec_Type r ∈ record_types.
Proof.
  unfold agent_by_type. intros Hr.
  repeat match type of Hr with (if ?b then _ else _) = _ => destruct b eqn:?E end; bool_split;
    try discriminate Hr; unfold record_types; set_solver.
Qed.

(** The parts of a record the agent accepts. *)
Lemma accepted_parts r : validateDNSRecordAtAgent r = Ok () →
  clean (agent_host r) ∧ clean (trim_space (rec_Value r)) ∧ rec_Type r ∈ record_types.
Proof.
  unfold validateDNSRecordAtAgent. cbv zeta. rewrite !fail_when_Ok, result_seq_Ok, fail_when_Ok.
  intros (_ & Hhost & _ & Hval & Htype%agent_type_known). split; [|done].
  apply orb_false_iff in Hhost as [Hhost _]. apply orb_false_iff in Hhost as [_ Hblank].
  unfold host_blank in Hblank. revert Hblank. rewrite contains_byte_forall, negb_false_iff, clean_forall.
  apply string_forall_impl. intros c. unfold control_byte. rewrite !negb_orb, !andb_true_iff. tauto.
Qed.

Lemma clean_value r : clean (trim_space (rec_Value r)) → clean (rendered_value r).
Proof.
  intros Hv. unfold rendered_value. cbv zeta. destruct (one_of _ _).
  - destruct (has_suffix _ _); [done|]. by rewrite clean_app.
  - destruct (String.eqb _ _); [by apply clean_txt|done].
Qed.

Lemma clean_line r : validateDNSRecordAtAgent r = Ok () → clean (record_line r).
Proof.
  intros (Hhost & Hval%clean_value & Hty)%accepted_parts.
  assert (clean (rec_Type r)) as Ht.
  { unfold record_types in Hty. rewrite !elem_of_cons, elem_of_nil in Hty.
    repeat (destruct Hty as [->|Hty]; [reflexivity|]). done. }
  pose proof clean_itoa. unfold record_line. cbv zeta.
  destruct (String.eqb _ "MX"); [|destruct (String.eqb _ "SRV")]; rewrite !clean_app; repeat split; auto.
Qed.

Lemma newline_free s : clean s → string_forall (λ c, negb (Ascii.eqb c "010")) s = true.
Proof.
  rewrite clean_forall. apply string_forall_impl. intros c. destruct (Ascii.eqb_spec c "010") as [->|]; done.
Qed.

(** Lines that hold no newline are the pieces of their text. *)
Lemma split_lines text lines :
  Forall (λ line, clean line) lines →
  split_on "010" (text +:+ newline +:+ lines_text lines) = split_on "010" text ++ lines ++ [""].
Proof.
  intros Hall. unfold newline. rewrite string_app_cons, string_app_nil_l. change (chr 10) with "010"%char.
  rewrite split_on_sep. f_equal. induction Hall as [|line lines Hl _ IH]; [done|].
  cbn [lines_text foldr]. unfold newline. rewrite string_app_cons, string_app_nil_l. change (chr 10) with "010"%char.
  rewrite split_on_sep, split_on_free by by apply newline_free. exact (f_equal (cons line) IH).
Qed.

(** The header, without the end of its last line. *)
Definition zone_header_text (req : ConfigureDNSZoneReq) : string :=
  let soa := dzr_SOA req in
  let line s := s +:+ newline in
  line ("$ORIGIN " +:+ dzr_Domain req +:+ ".") +:+
  line ("$TTL " +:+ itoa (soa_DefaultTTL soa)) +:+
  line ("@ IN SOA " +:+ soa_name (soa_PrimaryNameserver soa) +:+ ". " +:+ soa_name (soa_ResponsibleMailbox soa) +:+ ". (") +:+
  line ("    " +:+ itoa (dzr_Serial req)) +:+
  line ("    " +:+ itoa (soa_RefreshSeconds soa)) +:+
  line ("    " +:+ itoa (soa_RetrySeconds soa)) +:+
  line ("    " +:+ itoa (soa_ExpireSeconds soa)) +:+
  line ("    " +:+ itoa (soa_MinimumTTL soa)) +:+ ")".

Lemma zone_header_split req : zone_header req = zone_header_text req +:+ newline.
Proof. unfold zone_header, zone_header_text. cbv zeta. rewrite !string_app_assoc. done. Qed.

End Lines.

(** * Properties *)

(** C30. One line per record. In the zone file of a request the agent accepts, the
    lines after the header are exactly the lines of the records, in order, each
    without a newline, a carriage return or a NUL in it: nothing a record holds
    adds a line to the zone. *)
Theorem one_line_per_record `{GoUnicode} `{GoMapOrder} (req req' : ConfigureDNSZoneReq) (dir : string) (now : Z) :
  normalizeDNSZoneRequest req dir now = Ok req' →
  split_on "010" (RenderDNSZone req')
    = split_on "010" (zone_header_text req') ++ (record_line <$> dzr_Records req') ++ [""] ∧
  Forall (λ r, has_control (record_line r) = false) (dzr_Records req').
Proof.
  intros Hn%normalizeDNSZoneRequest_Ok. pose proof (nr_records _ _ _ _ Hn) as Hrec.
  assert (Forall (λ r, clean (record_line r)) (dzr_Records req')) as Hall.
  { eapply Forall_impl; [exact Hrec|]. intros r. apply clean_line. }
  split; [|done]. unfold RenderDNSZone. rewrite zone_header_split, string_app_assoc. by apply split_lines, Forall_fmap.
Qed.

(** Text survives the zone file. Unless it holds a backslash, the value of a
    TXT record is rendered as character-strings of at most 255 bytes, which a
    reader of the RFC 1035 syntax reads back to the value: quotes are escaped, and
    a long text is never cut inside an escaped quote. *)
Theorem txt_roundtrip (value : string) :
  no_backslash value →
  ∃ texts, read_txt (renderTXTValue value) = Some texts ∧ string_concat texts = value ∧
    Forall (λ text, str_len text ≤ 255) texts.
Proof.
  intros Hv. destruct (renderTXTValue_strings value Hv) as (vs & -> & Hne & Hc & Hall). exists vs.
  split; [|split; [done|]].
  - destruct vs as [|v vs]; [done|]. unfold read_txt. apply read_strings_quoted.
    + eapply Forall_impl; [exact Hall|]. by intros w [? _].
    + pose proof (join_length (escape <$> v :: vs)) as Hl. by rewrite length_fmap in Hl.
  - eapply Forall_impl; [exact Hall|]. intros w [_ Hw]. cbn. pose proof (escape_length w). unfold str_len. lia.
Qed.

(** * Witnesses *)

Module RenderSamples.

(** A long key: 300 quotes. *)
Definition long_text : string := Nat.iter 300 (String (chr 34)) "".

Definition normalized : ConfigureDNSZoneReq := AgentSamples.request <| dzr_ZoneDir := "/zones" |>.

End RenderSamples.

Lemma one_line_per_record_witness :
  length (split_on "010" (RenderDNSZone RenderSamples.normalized)) = 13%nat ∧
  Forall (λ r, has_control (record_line r) = false) (dzr_Records RenderSamples.normalized).
Proof.
  destruct (@one_line_per_record ascii_only insertion_order AgentSamples.request RenderSamples.normalized "/zones" 3000)
    as [Hsplit Hall]; [vm_compute; reflexivity|]. split; [|exact Hall]. rewrite Hsplit. vm_compute. reflexivity.
Defined.

Lemma txt_roundtrip_witness :
  ∃ texts, read_txt (renderTXTValue RenderSamples.long_text) = Some texts ∧
    length texts = 3%nat ∧ string_concat texts = RenderSamples.long_text.
Proof.
  destruct (txt_roundtrip RenderSamples.long_text) as (texts & Hread & Hc & _); [vm_compute; reflexivity|].
  exists texts. split; [exact Hread|]. split; [|exact Hc].
  assert (read_txt (renderTXTValue RenderSamples.long_text) =
          Some [string_take 127 RenderSamples.long_text; string_take 127 RenderSamples.long_text;
                string_take 46 RenderSamples.long_text]) as E by (vm_compute; reflexivity).
  rewrite Hread in E. injection E as ->. reflexivity.
Defined.
