(* ===== verification/Files.v ===== *)
(** * The agent's files

    The file system as the agent's operations use it, and the helpers of
    [internal/agent/ops/create_site.go] they share: atomic writes, snapshots and
    their restoration. The outcome of a system call is decided by the environment:
    an operation is proved for every way its calls may fail. *)

From S2P Require Import Prelude GoStr Site.
From Stdlib Require Import Ascii.

(** ** Nodes, directories, outcomes *)

(** A regular file (contents, mode, whether the agent owns it) or a symbolic link. *)
Inductive node :=
| Regular (data : string) (mode : Z) (owned : bool)
| Symlink (target : string).

#[export] Instance node_eq_dec : EqDecision node.
Proof. solve_decision. Defined.

(** Files by their path, the directories that exist, and the files the name
    server last loaded. *)
Record Host := mkHost {
  host_files : gmap string node;
  host_dirs : gset string;
  host_loaded : option (gmap string node);
}.

#[export] Instance eta_Host : Eta Host := λ h, mkHost (host_files h) (host_dirs h) (host_loaded h).

(** How an atomic write goes: done; refused before the rename, with or without its
    directory made; or renamed into place but reported as failed. *)
Inductive WriteOutcome :=
| Written
| Refused (made : bool) (e : error)
| Unsynced (e : error).

(** The outcomes of the calls that may fail; the flag is true once an operation is
    undoing what it did. *)
Record Environment := {
  env_write : bool → string → WriteOutcome;
  env_remove : bool → string → option error;
  env_symlink : bool → string → option error;
  env_unreadable : string → option error;
  env_list : string → option error;
  env_follow : gmap string node → string → result string;
}.

Definition ErrNotExist : error := sentinel "fs.ErrNotExist" "file does not exist".

(** ** Paths *)

Definition filepath_Join (dir name : string) : string :=
  if String.eqb dir "" then filepath_Clean name else filepath_Clean (dir +:+ "/" +:+ name).

(** The directories of a path: what precedes each of its separators. *)
Fixpoint path_parents (before path : string) : list string :=
  match path with
  | EmptyString => []
  | String c rest =>
    if Ascii.eqb c "/" then before :: path_parents (before +:+ "/") rest
    else path_parents (before +:+ String c "") rest
  end.

(** ** Effects: the state is kept when a computation fails *)

Definition io (A : Type) : Type := Host → result A * Host.

Definition io_ret {A} (a : A) : io A := λ h, (Ok a, h).
Definition io_fail {A} (e : error) : io A := λ h, (Err e, h).
Definition io_lift {A} (r : result A) : io A := λ h, (r, h).
Definition io_bind {A B} (m : io A) (k : A → io B) : io B :=
  λ h, match m h with
       | (Ok a, h') => k a h'
       | (Err e, h') => (Err e, h')
       end.

Declare Scope io_scope.
Delimit Scope io_scope with io.
Notation "'do!' x ':=' m 'in' k" := (io_bind m (λ x, k))
  (at level 10, x pattern, m at level 100, k at level 200) : io_scope.
Open Scope io_scope.

Fixpoint io_each {A} (body : A → io unit) (l : list A) : io unit :=
  match l with
  | [] => io_ret ()
  | x :: l' => do! _ := body x in io_each body l'
  end.

(** [if err := ...; err != nil { return fmt.Errorf("prefix: %w", err) }]. *)
Definition io_wrap {A} (prefix : string) (m : io A) : io A :=
  λ h, let '(r, h') := m h in (result_wrap prefix r, h').

Section Calls.
Context (env : Environment).

(** ** Calls *)

Definition make_dirs (path : string) (h : Host) : Host :=
  h <| host_dirs := list_to_set (path_parents "" path) ∪ host_dirs h |>.

Definition put_file (path : string) (n : node) (h : Host) : Host :=
  h <| host_files := <[path := n]> (host_files h) |>.

Definition writeFileAtomic (undo : bool) (path data : string) (mode : Z) : io unit := λ h,
  match env_write env undo path with
  | Written => (Ok (), put_file path (Regular data mode true) (make_dirs path h))
  | Refused made e => (Err e, if made then make_dirs path h else h)
  | Unsynced e => (Err e, put_file path (Regular data mode true) (make_dirs path h))
  end.

Definition os_Remove (undo : bool) (path : string) : io unit := λ h,
  match env_remove env undo path with
  | Some e => (Err e, h)
  | None => if bool_decide (is_Some (host_files h !! path))
            then (Ok (), h <| host_files := delete path (host_files h) |>)
            else (Err ErrNotExist, h)
  end.

(** [if err := os.Remove(path); err != nil && !os.IsNotExist(err) { return err }]. *)
Definition remove_if_present (undo : bool) (path : string) : io unit := λ h,
  match os_Remove undo path h with
  | (Err e, h') => if errors_Is e "fs.ErrNotExist" then (Ok (), h') else (Err e, h')
  | done => done
  end.

Definition os_Symlink (undo : bool) (target path : string) : io unit := λ h,
  match env_symlink env undo path with
  | Some e => (Err e, make_dirs path h)
  | None => (Ok (), put_file path (Symlink target) (make_dirs path h))
  end.

Definition os_Lstat (path : string) (h : Host) : result (option node) :=
  match env_unreadable env path with
  | Some e => Err e
  | None => Ok (host_files h !! path)
  end.

(** [os.ReadFile] follows a link. *)
Definition os_ReadFile (path : string) (h : Host) : result string :=
  match env_unreadable env path, host_files h !! path with
  | Some e, _ => Err e
  | None, Some (Regular data _ _) => Ok data
  | None, Some (Symlink _) => env_follow env (host_files h) path
  | None, None => Err ErrNotExist
  end.

(** The name of an entry of a directory that is not itself a directory. *)
Definition entry_name (dir path : string) : option string :=
  let prefix := trim_right_slash (filepath_Clean dir) +:+ "/" in
  if has_prefix path prefix then
    let name := string_drop (String.length prefix) path in
    if String.eqb name "" || contains name "/" then None else Some name
  else None.

Definition os_ReadDir (dir : string) (h : Host) : result (list string) :=
  match env_list env dir with
  | Some e => Err e
  | None =>
    if bool_decide (trim_right_slash (filepath_Clean dir) ∈ host_dirs h)
    then Ok (omap (entry_name dir) (map_to_list (host_files h)).*1)
    else Err ErrNotExist
  end.

(** ** Snapshots *)

Definition fileSnapshot : Type := string * option node.

Fixpoint snapshot_paths (seen : gset string) (paths : list string) (h : Host) : result (list fileSnapshot) :=
  match paths with
  | [] => Ok []
  | path :: rest =>
    if bool_decide (path ∈ seen) then snapshot_paths seen rest h
    else
      let* found := os_Lstat path h in
      let* others := snapshot_paths ({[path]} ∪ seen) rest h in
      Ok ((path, found) :: others)
  end.

Definition snapshotFiles (paths : list string) (h : Host) : result (list fileSnapshot) :=
  snapshot_paths ∅ paths h.

Definition restore_one (undo : bool) (item : fileSnapshot) : io unit :=
  let '(path, found) := item in
  match found with
  | None => remove_if_present undo path
  | Some (Symlink target) =>
    do! _ := remove_if_present undo path in os_Symlink undo target path
  | Some (Regular data mode _) => writeFileAtomic undo path data mode
  end.

Definition restoreSnapshots (undo : bool) (items : list fileSnapshot) : io unit :=
  io_each (restore_one undo) items.

(** ** Identity files *)

(** [readIdentityFile]: a regular file of the agent's, mode 0600, of at most 64
    KiB, which [decode] reads. *)
Definition readIdentityFile {A} (decode : string → result A) (path : string) (h : Host) : result A :=
  match env_unreadable env path, host_files h !! path with
  | Some e, _ => Err e
  | None, None => Err ErrNotExist
  | None, Some (Symlink _) => Err (errors_New "too many levels of symbolic links")
  | None, Some (Regular data mode owned) =>
    return_if negb (mode =? 384) || negb owned with errors_New "unsafe website identity record permissions" ;;
    return_if 65536 <? str_len data with errors_New "website identity record is too large" ;;
    decode data
  end.

End Calls.
