(* ===== verification/FilesProps.v ===== *)
(** * Facts on the agent's files

    Paths and directory listings, and what restoring a snapshot leaves. *)

From S2P Require Import Prelude GoStr Site Files.
From Stdlib Require Import Ascii.

(** ** Paths in a directory *)

Definition plain_name (name : string) : Prop :=
  name ≠ "" ∧ name ≠ "." ∧ name ≠ ".." ∧ string_forall (λ b, negb (Ascii.eqb b "/")) name = true.

(** The path of a directory, without its last separator. *)
Definition dir_key (dir : string) : string := trim_right_slash (filepath_Clean dir).

Definition in_dir (dir name : string) : string := dir_key dir +:+ "/" +:+ name.

Lemma split_on_name x name :
  string_forall (λ b, negb (Ascii.eqb b "/")) name = true →
  split_on "/" (x +:+ "/" +:+ name) = split_on "/" x ++ [name].
Proof.
  intros Hn. change ("/" +:+ name) with (String "/" name).
  induction x as [|c x IH].
  - rewrite string_app_nil_l. cbn [split_on]. rewrite Ascii.eqb_refl.
    assert (split_on "/" name = [name]) as ->; [|done].
    clear -Hn. induction name as [|c s IH]; [done|]. cbn [string_forall split_on] in *.
    apply andb_true_iff in Hn as [Hc%negb_true_iff Hs]. by rewrite Hc, IH.
  - rewrite string_app_cons. cbn [split_on]. rewrite IH. destruct (Ascii.eqb c "/"); [done|].
    pose proof (split_on_nonempty "/" x). by destruct (split_on "/" x).
Qed.

Lemma flat_snoc cs c : flat (cs ++ [c]) = flat cs +:+ "/" +:+ c.
Proof.
  induction cs as [|d cs IH]; [cbn; by rewrite string_app_nil_r|].
  cbn [app flat]. by rewrite IH, !string_app_assoc.
Qed.

Lemma rooted_nonempty dir : path_rooted dir = true → dir ≠ "".
Proof. by intros Hr ->. Qed.

Lemma join_in_dir dir name :
  path_rooted dir = true → plain_name name → filepath_Join dir name = in_dir dir name.
Proof.
  intros Hr (Hne & Hdot & Hdots & Hslash). unfold filepath_Join, in_dir, dir_key.
  rewrite (proj2 (String.eqb_neq _ _)) by (by apply rooted_nonempty).
  assert (path_rooted (dir +:+ "/" +:+ name) = true) as Hr'.
  { unfold path_rooted in *. apply has_prefix_spec in Hr as [t ->]. apply has_prefix_spec.
    exists (t +:+ "/" +:+ name). by rewrite string_app_assoc. }
  assert (clean_components true (dir +:+ "/" +:+ name) = clean_components true dir ++ [name]) as Ec.
  { unfold clean_components. rewrite split_on_name by done. rewrite foldl_app. cbn [foldl].
    unfold clean_step at 1. rewrite !(proj2 (String.eqb_neq _ _)) by done. reflexivity. }
  rewrite clean_rooted_string, Ec by done. rewrite flat_join by (by destruct (clean_components true dir)).
  by rewrite flat_snoc, dir_string.
Qed.

(** The last component of a path is determined by the path. *)
Lemma in_dir_inj dir dir' name name' :
  plain_name name → plain_name name' → in_dir dir name = in_dir dir' name' →
  dir_key dir = dir_key dir' ∧ name = name'.
Proof.
  intros (_ & _ & _ & Hn) (_ & _ & _ & Hn') E. unfold in_dir in E.
  pose proof (f_equal (split_on "/") E) as Es. rewrite !split_on_name in Es by done.
  apply app_inj_tail in Es as [Es ->]. split; [|done].
  by rewrite <- (split_on_join "/" (dir_key dir)), <- (split_on_join "/" (dir_key dir')), Es.
Qed.

Lemma contains_no_byte c s : string_forall (λ b, negb (Ascii.eqb b c)) s = true → contains s (String c "") = false.
Proof.
  induction s as [|d s IH]; [done|]. cbn [string_forall contains]. intros [Hd%negb_true_iff Hs]%andb_true_iff.
  rewrite prefix_byte, IH by done. by rewrite Ascii.eqb_sym, Hd.
Qed.

Lemma contains_no_byte_inv c s : contains s (String c "") = false → string_forall (λ b, negb (Ascii.eqb b c)) s = true.
Proof.
  induction s as [|d s IH]; [done|]. cbn [string_forall contains]. rewrite prefix_byte.
  intros [Hd Hs]%orb_false_iff. by rewrite Ascii.eqb_sym, Hd, IH.
Qed.

Lemma entry_name_in_dir dir name : plain_name name → entry_name dir (in_dir dir name) = Some name.
Proof.
  intros (Hne & _ & _ & Hs). unfold entry_name, in_dir. fold (dir_key dir). cbv zeta.
  rewrite <- string_app_assoc, has_prefix_app, string_drop_app.
  rewrite (proj2 (String.eqb_neq _ _) Hne). cbn [orb].
  by rewrite contains_no_byte.
Qed.

(** Conversely, an entry is a name under the directory. *)
Lemma entry_name_inv dir path name :
  entry_name dir path = Some name →
  path = in_dir dir name ∧ name ≠ "" ∧ string_forall (λ b, negb (Ascii.eqb b "/")) name = true.
Proof.
  unfold entry_name, in_dir. fold (dir_key dir). cbv zeta. destruct (has_prefix path _) eqn:E; [|done].
  apply has_prefix_spec in E as [t ->]. rewrite string_drop_app. destruct (String.eqb_spec t "") as [|Hne]; [done|].
  destruct (contains t "/") eqn:Es; [done|]. cbn [orb]. intros [= <-]. rewrite string_app_assoc.
  split; [done|]. split; [done|]. by apply contains_no_byte_inv.
Qed.

(** ** Order *)

Lemma string_compare_trans a b c :
  String.leb a b = true → String.leb b c = true → String.leb a c = true.
Proof.
  unfold String.leb. revert b c. induction a as [|x a IH]; intros [|y b] [|z c]; cbn [String.compare]; try done.
  destruct (Ascii.compare x y) eqn:Exy, (Ascii.compare y z) eqn:Eyz; try done.
  - apply Ascii.compare_eq_iff in Exy as ->, Eyz as ->.
    replace (Ascii.compare z z) with Eq by (symmetry; apply N.compare_refl). apply IH.
  - apply Ascii.compare_eq_iff in Exy as ->. by rewrite Eyz.
  - apply Ascii.compare_eq_iff in Eyz as ->. by rewrite Exy.
  - intros _ _. replace (Ascii.compare x z) with Lt; [done|]. symmetry.
    unfold Ascii.compare in *. apply N.compare_lt_iff in Exy, Eyz. apply N.compare_lt_iff. by eapply N.lt_trans.
Qed.

(** ** Undoing *)

Record Recoverable (env : Environment) : Prop := {
  rc_write : ∀ path, env_write env true path = Written;
  rc_remove : ∀ path, env_remove env true path = None;
  rc_symlink : ∀ path, env_symlink env true path = None;
}.

(** The agent owns its files. *)
Definition agent_owned (fs : gmap string node) : Prop :=
  ∀ path data mode owned, fs !! path = Some (Regular data mode owned) → owned = true.

Section Undo.
Context (env : Environment) (Hrc : Recoverable env).

Definition owned_node (found : option node) : Prop :=
  match found with Some (Regular _ _ owned) => owned = true | _ => True end.

Lemma restore_one_files path found h :
  owned_node found →
  ∃ h', restore_one env true (path, found) h = (Ok (), h') ∧
    host_files h' = partial_alter (λ _, found) path (host_files h) ∧ host_loaded h' = host_loaded h.
Proof.
  assert (∀ h, ∃ h', remove_if_present env true path h = (Ok (), h') ∧
            host_files h' = delete path (host_files h) ∧ host_loaded h' = host_loaded h) as Hremove.
  { intros h0. unfold remove_if_present, os_Remove. rewrite (rc_remove _ Hrc). case_bool_decide as Hin.
    - by eexists.
    - exists h0. split; [done|]. split; [|done]. symmetry. apply delete_id. by apply eq_None_not_Some. }
  intros Hown. destruct found as [[data mode owned|target]|]; cbn [restore_one].
  - cbn in Hown. subst owned. unfold writeFileAtomic. rewrite (rc_write _ Hrc). by eexists.
  - destruct (Hremove h) as (h1 & E1 & Ef & El). unfold io_bind. rewrite E1. unfold os_Symlink.
    rewrite (rc_symlink _ Hrc). eexists. split; [done|]. cbn. rewrite Ef, El. split; [|done].
    rewrite insert_delete_eq. done.
  - destruct (Hremove h) as (h1 & E1 & Ef & El). by exists h1.
Qed.

Lemma restore_files items h :
  Forall (λ '(_, found), owned_node found) items →
  ∃ h', restoreSnapshots env true items h = (Ok (), h') ∧ host_loaded h' = host_loaded h ∧
    host_files h' = foldl (λ fs '(path, found), partial_alter (λ _, found) path fs) (host_files h) items.
Proof.
  unfold restoreSnapshots. revert h. induction items as [|[path found] items IH]; intros h Hown; [by exists h|].
  apply Forall_cons in Hown as [Hf Hown]. cbn [io_each foldl].
  destruct (restore_one_files path found h Hf) as (h1 & E1 & Ef & El).
  destruct (IH h1 Hown) as (h2 & E2 & El2 & Ef2). exists h2. unfold io_bind. rewrite E1, E2.
  split; [done|]. split; [congruence|]. by rewrite Ef2, Ef.
Qed.

Lemma snapshot_paths_Ok seen paths h items :
  snapshot_paths env seen paths h = Ok items →
  Forall (λ '(path, found), found = host_files h !! path) items ∧
  (∀ path, path ∈ paths → path ∈ seen ∨ path ∈ items.*1) ∧
  (∀ path, path ∈ items.*1 → path ∈ paths) ∧
  (∀ path, path ∈ items.*1 → env_unreadable env path = None).
Proof.
  revert seen items. induction paths as [|path paths IH]; intros seen items Hs; cbn [snapshot_paths] in Hs.
  - injection Hs as <-. split; [constructor|]. split; [|split]; by intros ? ?%elem_of_nil.
  - case_bool_decide as Hseen.
    + apply IH in Hs as (Hf & Hcov & Hin & Hread). split; [done|]. split; [|split; [|done]].
      * intros q [->|Hq]%elem_of_cons; [by left|auto].
      * intros q Hq%Hin. by constructor.
    + apply result_bind_Ok in Hs as (found & Hfound & Hs). apply result_bind_Ok in Hs as (others & Ho & [= <-]).
      apply IH in Ho as (Hf & Hcov & Hin & Hread). unfold os_Lstat in Hfound.
      destruct (env_unreadable env path) eqn:Eu; [done|]. injection Hfound as <-.
      split; [by constructor|]. cbn. split; [|split].
      * intros q [->|Hq]%elem_of_cons; [right; constructor|]. destruct (Hcov q Hq) as [Hs|]; [|right; by constructor].
        apply elem_of_union in Hs as [->%elem_of_singleton|]; [right; constructor|by left].
      * intros q [->|Hq%Hin]%elem_of_cons; by constructor.
      * intros q [->|Hq]%elem_of_cons; [done|auto].
Qed.

Lemma restored_lookup (fs fs0 : gmap string node) (items : list fileSnapshot) path :
  Forall (λ '(path, found), found = fs0 !! path) items →
  foldl (λ fs '(path, found), partial_alter (λ _, found) path fs) fs items !! path
  = if bool_decide (path ∈ items.*1) then fs0 !! path else fs !! path.
Proof.
  revert fs. induction items as [|[q found] items IH]; intros fs Hf; cbn [foldl].
  - rewrite bool_decide_eq_false_2; [done|]. apply not_elem_of_nil.
  - apply Forall_cons in Hf as [-> Hf]. rewrite IH by done. cbn [fmap list_fmap fst].
    destruct (decide (path ∈ items.*1)) as [Hin|Hout].
    + rewrite !bool_decide_eq_true_2; [done| |done]. by constructor.
    + rewrite (bool_decide_eq_false_2 (path ∈ items.*1)) by done. destruct (decide (path = q)) as [->|Hne].
      * rewrite lookup_partial_alter_eq, bool_decide_eq_true_2; [done|constructor].
      * rewrite lookup_partial_alter_ne, bool_decide_eq_false_2; [done| |done].
        rewrite not_elem_of_cons. done.
Qed.

(** Restoring a snapshot undoes every change to its paths. *)
Lemma snapshot_restores paths h0 h items :
  agent_owned (host_files h0) → snapshotFiles env paths h0 = Ok items →
  (∀ path, path ∉ paths → host_files h !! path = host_files h0 !! path) →
  ∃ h', restoreSnapshots env true items h = (Ok (), h') ∧ host_files h' = host_files h0 ∧
    host_loaded h' = host_loaded h.
Proof.
  intros Hown (Hf & Hcov & Hin & _)%snapshot_paths_Ok Hout.
  destruct (restore_files items h) as (h' & E & El & Efs).
  { eapply Forall_impl; [exact Hf|]. intros [path found] ->. unfold owned_node.
    destruct (host_files h0 !! path) as [[data mode owned|]|] eqn:E; try done. by eapply Hown. }
  exists h'. split; [done|]. split; [|done]. rewrite Efs. apply map_eq. intros path.
  rewrite (restored_lookup _ (host_files h0)) by done. case_bool_decide as Hp; [done|].
  apply Hout. intros Hpath. destruct (Hcov path Hpath) as [?%elem_of_empty|?]; done.
Qed.

End Undo.
