(* ===== verification/DNSApply.v ===== *)
(** * Applying a zone

    The agent's handler ([DNSProvisioner.ConfigureDNSZone] of
    [internal/agent/ops/phase6.go]) and its drift check, with the revision marker
    of [dns_revision.go]: the files are written, checked by the name server's own
    tools and loaded, or put back. *)

From S2P Require Import Prelude GoStr Site DNSTypes DNSRecord DNSEdit DNSAgent DNSRender Files.
From Stdlib Require Import Ascii.

(** ** The revision marker *)

Record dnsAppliedRevision := mkDNSAppliedRevision {
  ar_SiteID : Z;
  ar_SubscriptionID : Z;
  ar_ZoneID : Z;
  ar_Revision : Z;
  ar_Digest : string;
}.

(** [encoding/json] and [crypto/sha256] on the two structs: the JSON text of a
    record (the order the records are digested in) and of a marker, the reading
    of a marker, and the digest of a request's JSON text. *)
Class RevisionCodec := {
  record_json : DNSRecord → string;
  request_digest : ConfigureDNSZoneReq → string;
  marshal_revision : dnsAppliedRevision → string;
  unmarshal_revision : string → result dnsAppliedRevision;
}.

Definition json_le `{RevisionCodec} (a b : DNSRecord) : Prop :=
  String.leb (record_json a) (record_json b) = true.
#[export] Instance json_le_dec `{RevisionCodec} : RelDecision json_le := λ a b, decide (_ = true).

Definition dnsRevisionForRequest `{RevisionCodec} (req : ConfigureDNSZoneReq) : dnsAppliedRevision :=
  let req := req <| dzr_Records := merge_sort json_le (dzr_Records req) |> in
  mkDNSAppliedRevision (dzr_SiteID req) (dzr_SubscriptionID req) (dzr_ZoneID req) (dzr_DesiredRevision req)
    (request_digest req).

(** The comparison with the marker of the revision applied last. *)
Definition check_revision (previous want : dnsAppliedRevision) : result unit :=
  return_if negb (ar_SiteID previous =? ar_SiteID want) || negb (ar_SubscriptionID previous =? ar_SubscriptionID want)
            || negb (ar_ZoneID previous =? ar_ZoneID want) || (ar_Revision want <? ar_Revision previous)
    with errors_New "DNS snapshot is stale or belongs to a previous website" ;;
  return_if (ar_Revision want =? ar_Revision previous) && negb (String.eqb (ar_Digest want) (ar_Digest previous))
    with errors_New "DNS intent changed without advancing its revision" ;;
  Ok ().

(** ** The provisioner *)

Record DNSProvisioner := mkDNSProvisioner {
  dp_zoneDir : string;
  dp_includeDir : string;
  dp_aggregatePath : string;
  dp_reloader : bool;
}.

Definition nonempty (value default : string) : string := if String.eqb value "" then default else value.

Definition NewDNSProvisioner (zoneDir includeDir aggregatePath : string) (reloader : bool) : DNSProvisioner :=
  mkDNSProvisioner (nonempty zoneDir "/etc/bind/nakpanel/zones") (nonempty includeDir "/etc/bind/nakpanel/zones.d")
    (nonempty aggregatePath "/etc/bind/nakpanel/named.conf") reloader.

(** The name server's checks and the reload of its service, on the files there are. *)
Record NameServer := {
  named_checkzone : string → string → gmap string node → option error;
  named_checkconf : string → gmap string node → option error;
  named_reload : bool → gmap string node → option error;
}.

Definition string_le (a b : string) : Prop := String.leb a b = true.
#[export] Instance string_le_dec : RelDecision string_le := λ a b, decide (_ = true).

Section Provisioner.
Context `{GoUnicode} `{GoMapOrder} `{RevisionCodec}.
Context (env : Environment) (named : NameServer) (p : DNSProvisioner).

Definition zone_path (req : ConfigureDNSZoneReq) : string := filepath_Join (dzr_ZoneDir req) ("db." +:+ dzr_Domain req).
Definition include_path (req : ConfigureDNSZoneReq) : string :=
  filepath_Join (dp_includeDir p) (dzr_Domain req +:+ ".conf").
Definition revision_path (req : ConfigureDNSZoneReq) : string :=
  filepath_Join (dp_includeDir p) (dzr_Domain req +:+ ".nakpanel-revision.json").

Definition zone_paths (req : ConfigureDNSZoneReq) : list string :=
  [zone_path req; include_path req; dp_aggregatePath p; revision_path req].

Definition checkDNSAppliedRevision (path : string) (want : dnsAppliedRevision) (h : Host) : result unit :=
  match readIdentityFile env unmarshal_revision path h with
  | Err e => if errors_Is e "fs.ErrNotExist" then Ok () else Err e
  | Ok previous => check_revision previous want
  end.

(** The files the aggregate includes. *)
Definition include_files (h : Host) : result (list string) :=
  let* names := os_ReadDir env (dp_includeDir p) h in
  Ok (merge_sort string_le (filepath_Join (dp_includeDir p) <$> filter (λ name, has_suffix name ".conf" = true) names)).

Definition writeAggregateDNSIncludes : io unit := λ h,
  match include_files h with
  | Err e => (Err (wrapf "read dns include directory: " e), h)
  | Ok paths => io_wrap "write dns aggregate include: "
                  (writeFileAtomic env false (dp_aggregatePath p) (RenderDNSAggregateInclude paths) 420) h
  end.

Definition run_command (prefix : string) (command : gmap string node → option error) : io unit := λ h,
  match command (host_files h) with
  | Some e => (Err (wrapf prefix e), h)
  | None => (Ok (), h)
  end.

Definition validateDNSZone (domain zonePath : string) : io unit :=
  run_command ("named-checkzone " +:+ quote domain +:+ ": ") (named_checkzone named domain zonePath).
Definition validateDNSConfig : io unit :=
  run_command "named-checkconf: " (named_checkconf named (dp_aggregatePath p)).

(** A reload that succeeds loads the files there are. *)
Definition reload_service (undo : bool) : io unit := λ h,
  match named_reload named undo (host_files h) with
  | Some e => (Err e, h)
  | None => (Ok (), h <| host_loaded := Some (host_files h) |>)
  end.

(** The files of the zone, by its mode. *)
Definition write_zone (req : ConfigureDNSZoneReq) : io unit :=
  let zonePath := zone_path req in
  let includePath := include_path req in
  if String.eqb (dzr_Mode req) "disabled" then
    io_each (λ path, io_wrap "disable DNS zone: " (remove_if_present env false path)) [zonePath; includePath]
  else if String.eqb (dzr_Mode req) "secondary" then
    do! _ := io_wrap "remove primary DNS zone file: " (remove_if_present env false zonePath) in
    io_wrap "write secondary DNS include: "
      (writeFileAtomic env false includePath (RenderDNSZoneIncludeRequest req zonePath) 420)
  else
    do! _ := io_wrap "write dns zone: " (writeFileAtomic env false zonePath (RenderDNSZone req) 420) in
    io_wrap "write dns include: "
      (writeFileAtomic env false includePath (RenderDNSZoneIncludeRequest req zonePath) 420).

(** Everything before the reload. *)
Definition stage_zone (req : ConfigureDNSZoneReq) : io unit :=
  do! _ := write_zone req in
  do! _ := writeAggregateDNSIncludes in
  do! _ := (if String.eqb (dzr_Mode req) "primary" then validateDNSZone (dzr_Domain req) (zone_path req) else io_ret ()) in
  validateDNSConfig.

Definition tracked (req : ConfigureDNSZoneReq) : bool :=
  (0 <? dzr_SiteID req) && (0 <? dzr_ZoneID req) && (0 <? dzr_DesiredRevision req).

Definition replace_error {A} (e : error) (m : io A) : io A :=
  λ h, match m h with (Ok a, h') => (Ok a, h') | (Err _, h') => (Err e, h') end.

Definition write_marker (req : ConfigureDNSZoneReq) : io unit :=
  if String.eqb (dzr_Mode req) "disabled" then
    replace_error (errors_New "DNS revision marker could not be removed") (remove_if_present env false (revision_path req))
  else if tracked req then
    replace_error (errors_New "DNS revision marker could not be persisted")
      (writeFileAtomic env false (revision_path req) (marshal_revision (dnsRevisionForRequest req)) 384)
  else io_ret ().

(** The reload and what follows it. *)
Definition commit_zone (req : ConfigureDNSZoneReq) : io unit :=
  do! _ := (if dp_reloader p then reload_service false else io_ret ()) in
  write_marker req.

(** The deferred recovery: errors are ignored. *)
Definition recover (snapshots : list fileSnapshot) (reloadAttempted : bool) (h : Host) : Host :=
  let h := snd (restoreSnapshots env true snapshots h) in
  if reloadAttempted && dp_reloader p then snd (reload_service true h) else h.

Definition zone_result (req : ConfigureDNSZoneReq) : ConfigureDNSZoneResult :=
  let disabled := String.eqb (dzr_Mode req) "disabled" in
  mkConfigureDNSZoneResult (dzr_Domain req) (if disabled then "" else zone_path req)
    (if disabled then "" else include_path req) (dzr_Serial req) (dzr_DesiredRevision req) (dzr_Mode req).

Definition ConfigureDNSZone (now : Z) (req : ConfigureDNSZoneReq) : io ConfigureDNSZoneResult := λ h,
  match normalizeDNSZoneRequest req (dp_zoneDir p) now with
  | Err e => (Err e, h)
  | Ok req =>
    match (if tracked req then checkDNSAppliedRevision (revision_path req) (dnsRevisionForRequest req) h else Ok ()) with
    | Err e => (Err e, h)
    | Ok _ =>
      match snapshotFiles env (zone_paths req) h with
      | Err e => (Err e, h)
      | Ok snapshots =>
        match stage_zone req h with
        | (Err e, h) => (Err e, recover snapshots false h)
        | (Ok _, h) =>
          match commit_zone req h with
          | (Err e, h) => (Err e, recover snapshots (dp_reloader p) h)
          | (Ok _, h) => (Ok (zone_result req), h)
          end
        end
      end
    end
  end.

(** ** Drift *)

(** Whether a file does not hold the wanted text. *)
Definition differs (path want : string) (h : Host) : result bool :=
  match os_ReadFile env path h with
  | Err e => if errors_Is e "fs.ErrNotExist" then Ok true else Err e
  | Ok got => Ok (negb (String.eqb got want))
  end.

Fixpoint any_differs (checks : list (string * string)) (h : Host) : result bool :=
  match checks with
  | [] => Ok false
  | (path, want) :: rest =>
    let* d := differs path want h in
    if (d : bool) then Ok true else any_differs rest h
  end.

Fixpoint any_present (paths : list string) (h : Host) : result bool :=
  match paths with
  | [] => Ok false
  | path :: rest =>
    let* found := os_Lstat env path h in
    if bool_decide (is_Some found) then Ok true else any_present rest h
  end.

Definition DNSZoneDrift (now : Z) (req : ConfigureDNSZoneReq) (h : Host) : result bool :=
  let* req := normalizeDNSZoneRequest req (dp_zoneDir p) now in
  let zonePath := zone_path req in
  let includePath := include_path req in
  if String.eqb (dzr_Mode req) "disabled" then any_present [zonePath; includePath] h
  else
    let* drift := any_differs
      ((includePath, RenderDNSZoneIncludeRequest req zonePath) ::
       (if String.eqb (dzr_Mode req) "primary" then [(zonePath, RenderDNSZone req)] else [])) h in
    if (drift : bool) then Ok true
    else
      let* paths := include_files h in
      differs (dp_aggregatePath p) (RenderDNSAggregateInclude paths) h.

End Provisioner.
