(* ===== verification/DNSApplyProps.v ===== *)
(** * Properties of applying a zone

    A zone that cannot be applied leaves the server as it was
    ([failed_configure_restores]); one that was applied shows no drift
    ([configured_zone_has_no_drift]); and a snapshot older than the one applied
    last never replaces it ([snapshots_never_regress]). *)

From S2P Require Import Prelude Tx Tables GoStr Regex Net Site DNSTypes DNSRecord DNSPlan DNSTables DNSEdit DNSEditProps DNSAgent DNSRender DNSAgentProps Files FilesProps DNSApply.
From Stdlib Require Import Ascii.

(** ** What a computation may change *)

(** Only the files at [paths] change, directories are only added, nothing is
    loaded, and the agent owns what it writes. *)
Record Within (paths : list string) (h h' : Host) : Prop := {
  wi_files : ∀ path, path ∉ paths → host_files h' !! path = host_files h !! path;
  wi_loaded : host_loaded h' = host_loaded h;
  wi_dirs : host_dirs h ⊆ host_dirs h';
  wi_owned : agent_owned (host_files h) → agent_owned (host_files h');
}.

#[export] Instance Within_preorder paths : PreOrder (Within paths).
Proof.
  split; [by intros h|]. intros h1 h2 h3 [F1 L1 D1 O1] [F2 L2 D2 O2].
  split; [intros path Hp; by rewrite F2, F1|congruence|set_solver|auto].
Qed.

Lemma Within_weaken paths paths' h h' :
  (∀ path, path ∈ paths → path ∈ paths') → Within paths h h' → Within paths' h h'.
Proof. intros Hsub [F L D]. split; [|done..]. intros path Hp. apply F. auto. Qed.

Definition stays {A} (paths : list string) (m : io A) : Prop := ∀ h, Within paths h (snd (m h)).

Lemma stays_bind {A B} paths (m : io A) (k : A → io B) :
  stays paths m → (∀ a, stays paths (k a)) → stays paths (io_bind m k).
Proof.
  intros Hm Hk h. unfold io_bind. specialize (Hm h). destruct (m h) as [[a|e] h1]; [|done].
  etransitivity; [exact Hm|apply Hk].
Qed.

Lemma stays_wrap {A} paths prefix (m : io A) : stays paths m → stays paths (io_wrap prefix m).
Proof. intros Hm h. unfold io_wrap. specialize (Hm h). by destruct (m h). Qed.

Lemma stays_replace {A} paths e (m : io A) : stays paths m → stays paths (replace_error e m).
Proof. intros Hm h. unfold replace_error. specialize (Hm h). by destruct (m h) as [[]]. Qed.

Lemma stays_ret {A} paths (a : A) : stays paths (io_ret a).
Proof. intros h. done. Qed.

Lemma Within_put paths path data mode h :
  path ∈ paths → Within paths h (put_file path (Regular data mode true) (make_dirs path h)).
Proof.
  intros Hin. split; [|done|cbn; set_solver|].
  - intros q Hq. cbn. apply lookup_insert_ne. by intros ->.
  - intros Hown q data' mode' owned. cbn. destruct (decide (path = q)) as [->|Hne].
    + rewrite lookup_insert_eq. by intros [= _ _ <-].
    + rewrite lookup_insert_ne by done. apply Hown.
Qed.

Lemma Within_dirs paths path h : Within paths h (make_dirs path h).
Proof. split; [done|done|cbn; set_solver|done]. Qed.

Lemma stays_write env undo paths path data mode : path ∈ paths → stays paths (writeFileAtomic env undo path data mode).
Proof.
  intros Hin h. unfold writeFileAtomic. destruct (env_write env undo path) as [|[] e|e]; cbn;
    try (by apply Within_put); [apply Within_dirs|done].
Qed.

Lemma stays_remove env undo paths path : path ∈ paths → stays paths (remove_if_present env undo path).
Proof.
  intros Hin h. unfold remove_if_present, os_Remove. destruct (env_remove env undo path) as [e|].
  { by destruct (errors_Is e _). }
  case_bool_decide; [|done]. cbn. split; [|done|done|].
  - intros q Hq. cbn. apply lookup_delete_ne. by intros ->.
  - intros Hown q data mode owned. cbn. rewrite lookup_delete_Some. intros [_ ?]. by eapply Hown.
Qed.

Lemma stays_command paths prefix command : stays paths (run_command prefix command).
Proof. intros h. unfold run_command. by destruct (command _). Qed.

Section Apply.
Context `{GoUnicode} `{GoMapOrder} `{RevisionCodec}.
Context (env : Environment) (named : NameServer) (p : DNSProvisioner).

Lemma stays_aggregate paths : dp_aggregatePath p ∈ paths → stays paths (writeAggregateDNSIncludes env p).
Proof.
  intros Hin h. unfold writeAggregateDNSIncludes. destruct (include_files env p h); [|done].
  by apply stays_wrap, stays_write.
Qed.

Lemma stays_zone req : stays [zone_path req; include_path p req] (write_zone env p req).
Proof.
  assert (zone_path req ∈ [zone_path req; include_path p req]) as Hz by constructor.
  assert (include_path p req ∈ [zone_path req; include_path p req]) as Hi by (do 2 constructor).
  unfold write_zone. cbv zeta. destruct (String.eqb _ "disabled"); [|destruct (String.eqb _ "secondary")].
  - cbn [io_each]. repeat (apply stays_bind; [by apply stays_wrap, stays_remove|intros _]). apply stays_ret.
  - apply stays_bind; [by apply stays_wrap, stays_remove|intros _]. by apply stays_wrap, stays_write.
  - apply stays_bind; [by apply stays_wrap, stays_write|intros _]. by apply stays_wrap, stays_write.
Qed.

Definition stage_paths (req : ConfigureDNSZoneReq) : list string :=
  [zone_path req; include_path p req; dp_aggregatePath p].

Lemma stays_stage req : stays (stage_paths req) (stage_zone env named p req).
Proof.
  unfold stage_zone. apply stays_bind.
  { intros h. eapply Within_weaken; [|apply stays_zone]. unfold stage_paths. set_solver. }
  intros _. apply stays_bind; [apply stays_aggregate; unfold stage_paths; set_solver|]. intros _.
  apply stays_bind; [destruct (String.eqb _ _); [apply stays_command|apply stays_ret]|]. intros _. apply stays_command.
Qed.

Lemma stays_marker req : stays [revision_path p req] (write_marker env p req).
Proof.
  assert (revision_path p req ∈ [revision_path p req]) as Hin by constructor.
  unfold write_marker. destruct (String.eqb _ _); [by apply stays_replace, stays_remove|].
  destruct (tracked req); [by apply stays_replace, stays_write|apply stays_ret].
Qed.

(** The reload does not touch the files. *)
Lemma reload_files undo h : host_files (snd (reload_service named undo h)) = host_files h.
Proof. unfold reload_service. by destruct (named_reload _ _ _). Qed.

Lemma commit_files req h path :
  path ≠ revision_path p req → host_files (snd (commit_zone env named p req h)) !! path = host_files h !! path.
Proof.
  intros Hne. unfold commit_zone, io_bind.
  assert (∀ h, host_files (snd (write_marker env p req h)) !! path = host_files h !! path) as Hm.
  { intros h0. apply (wi_files _ _ _ (stays_marker req h0)). by rewrite list_elem_of_singleton. }
  destruct (dp_reloader p); [|apply Hm]. pose proof (reload_files false h) as Hr.
  destruct (reload_service named false h) as [[[]|e] h1]; cbn [snd] in *; [|by rewrite Hr]. by rewrite Hm, Hr.
Qed.

(** ** Failures *)

Lemma recover_restores h0 h snapshots attempted req :
  Recoverable env → agent_owned (host_files h0) → snapshotFiles env (zone_paths p req) h0 = Ok snapshots →
  (∀ path, path ∉ zone_paths p req → host_files h !! path = host_files h0 !! path) →
  host_files (recover env named p snapshots attempted h) = host_files h0 ∧
  (host_loaded (recover env named p snapshots attempted h) =
     if attempted && dp_reloader p && bool_decide (named_reload named true (host_files h0) = None)
     then Some (host_files h0) else host_loaded h).
Proof.
  intros Hrc Hown Hsnap Hout. unfold recover.
  destruct (snapshot_restores env Hrc _ _ h _ Hown Hsnap Hout) as (h1 & E & Ef & El). rewrite E. cbn [snd].
  destruct (attempted && dp_reloader p); cbn [andb]; [|done]. unfold reload_service. rewrite Ef.
  by destruct (named_reload named true (host_files h0)) as [e|].
Qed.

Lemma failed_restores now req h e h' :
  Recoverable env → agent_owned (host_files h) → ConfigureDNSZone env named p now req h = (Err e, h') →
  host_files h' = host_files h ∧
  ((∀ fs, named_reload named true fs = None) → host_loaded h = Some (host_files h) → host_loaded h' = Some (host_files h')).
Proof.
  intros Hrc Hown. unfold ConfigureDNSZone.
  destruct (normalizeDNSZoneRequest req _ now) as [nreq|err]; [|by intros [= _ <-]].
  destruct (if tracked nreq then _ else _) as [[]|err]; [|by intros [= _ <-]].
  destruct (snapshotFiles env _ h) as [snapshots|err] eqn:Hsnap; [|by intros [= _ <-]].
  pose proof (stays_stage nreq h) as [Hstage Hloaded _ _].
  assert (∀ path, path ∉ zone_paths p nreq → path ∉ stage_paths nreq ∧ path ≠ revision_path p nreq) as Hpaths.
  { intros path Hp. unfold zone_paths, stage_paths in *. set_solver. }
  destruct (stage_zone env named p nreq h) as [[[]|err] h1]; cbn [snd] in *.
  - pose proof (commit_files nreq h1) as Hcommit.
    destruct (commit_zone env named p nreq h1) as [[[]|err] h2] eqn:Ec; [done|]. cbn [snd] in *. intros [= _ <-].
    destruct (recover_restores h h2 snapshots (dp_reloader p) nreq) as [Ef El]; [done..| |].
    { intros path [Hs Hr]%Hpaths. by rewrite Hcommit, Hstage. }
    split; [exact Ef|]. intros Hreload Hload. rewrite El, Ef, Hreload, andb_diag, bool_decide_eq_true_2, andb_true_r by done.
    destruct (dp_reloader p) eqn:Er; [done|]. revert Ec. unfold commit_zone. rewrite Er. unfold io_bind, io_ret.
    pose proof (wi_loaded _ _ _ (stays_marker nreq h1)) as Hm. intros Ec. rewrite Ec in Hm. cbn in Hm. congruence.
  - intros [= _ <-]. destruct (recover_restores h h1 snapshots false nreq) as [Ef El]; [done..| |].
    { intros path [Hs Hr]%Hpaths. by rewrite Hstage. }
    split; [exact Ef|]. intros _ Hload. rewrite El, Ef. cbn [andb]. congruence.
Qed.
End Apply.

(** ** The files a directory lists *)

(** The entries the aggregate includes. *)
Definition conf_name (dir path : string) : option string :=
  match entry_name dir path with
  | Some name => if has_suffix name ".conf" then Some name else None
  | None => None
  end.

Lemma conf_name_inv dir path : is_Some (conf_name dir path) →
  ∃ name, plain_name name ∧ has_suffix name ".conf" = true ∧ path = in_dir dir name.
Proof.
  unfold conf_name. destruct (entry_name dir path) as [name|] eqn:E; [|by intros []].
  apply entry_name_inv in E as (-> & Hne & Hs). destruct (has_suffix name ".conf") eqn:Ec; [|by intros []].
  intros _. exists name. split; [|done].
  repeat split; [done|intros ->; vm_compute in Ec; discriminate Ec..|done].
Qed.

Lemma conf_filter dir (paths : list string) :
  filter (λ name, has_suffix name ".conf" = true) (omap (entry_name dir) paths) = omap (conf_name dir) paths.
Proof.
  induction paths as [|path paths IH]; [done|]. cbn [omap list_omap]. unfold conf_name at 1.
  destruct (entry_name dir path) as [name|]; [|exact IH]. rewrite filter_cons, IH.
  destruct (has_suffix name ".conf"); [by rewrite decide_True|by rewrite decide_False].
Qed.

Lemma omap_filter_Some {A B} (f : A → option B) (l : list A) : omap f l = omap f (filter (λ x, is_Some (f x)) l).
Proof.
  induction l as [|x l IH]; [done|]. rewrite filter_cons. cbn [omap list_omap]. rewrite IH.
  destruct (f x) eqn:E; [rewrite decide_True by done; cbn [omap list_omap]; by rewrite E|by rewrite decide_False by by intros []].
Qed.

Lemma conf_perm dir (fs fs' : gmap string node) :
  (∀ path, is_Some (conf_name dir path) → is_Some (fs' !! path) ↔ is_Some (fs !! path)) →
  omap (conf_name dir) (map_to_list fs').*1 ≡ₚ omap (conf_name dir) (map_to_list fs).*1.
Proof.
  intros Hsame. rewrite !(omap_filter_Some (conf_name dir) (map_to_list _).*1).
  assert (filter (λ path, is_Some (conf_name dir path)) (map_to_list fs').*1
          ≡ₚ filter (λ path, is_Some (conf_name dir path)) (map_to_list fs).*1) as ->; [|done].
  apply list.NoDup_Permutation; [by apply NoDup_filter, NoDup_fst_map_to_list..|].
  intros path. rewrite !list_elem_of_filter.
  assert (∀ fs : gmap string node, path ∈ (map_to_list fs).*1 ↔ is_Some (fs !! path)) as Hin.
  { intros f. rewrite list_elem_of_fmap. split.
    - intros ([q n] & -> & Hq%elem_of_map_to_list). by exists n.
    - intros [n Hn]. exists (path, n). split; [done|]. by apply elem_of_map_to_list. }
  rewrite !Hin. naive_solver.
Qed.

#[export] Instance string_le_trans : Transitive string_le.
Proof. intros a b c. apply string_compare_trans. Qed.
#[export] Instance string_le_antisym : AntiSymm (=) string_le.
Proof. intros a b. apply String.leb_antisym. Qed.
#[export] Instance string_le_total : Total string_le.
Proof. intros a b. apply String.leb_total. Qed.

Lemma sort_perm l l' : l ≡ₚ l' → merge_sort string_le l = merge_sort string_le l'.
Proof.
  intros Hp. apply (Sorted_unique string_le); [apply Sorted_merge_sort, _..|]. by rewrite !merge_sort_Permutation.
Qed.

Section Success.
Context `{GoUnicode} `{GoMapOrder} `{RevisionCodec}.
Context (env : Environment) (named : NameServer) (p : DNSProvisioner).

(** The aggregate's list only depends on which [.conf] files there are. *)
Lemma include_files_same h h' paths :
  include_files env p h = Ok paths → host_dirs h ⊆ host_dirs h' →
  (∀ path, is_Some (conf_name (dp_includeDir p) path) → is_Some (host_files h' !! path) ↔ is_Some (host_files h !! path)) →
  include_files env p h' = Ok paths.
Proof.
  unfold include_files, os_ReadDir. intros Hrun Hdirs Hsame. destruct (env_list env _); [done|].
  case_bool_decide as Hdir; [|done]. rewrite bool_decide_eq_true_2 by set_solver.
  cbn [result_bind] in *. injection Hrun as <-. f_equal. apply sort_perm, fmap_Permutation.
  rewrite !conf_filter. by apply conf_perm.
Qed.

Lemma write_Ok path data mode h a h' :
  writeFileAtomic env false path data mode h = (Ok a, h') → h' = put_file path (Regular data mode true) (make_dirs path h).
Proof. unfold writeFileAtomic. destruct (env_write env false path); naive_solver. Qed.

Lemma bind_Ok {A B} (m : io A) (k : A → io B) h b h' :
  io_bind m k h = (Ok b, h') → ∃ a h1, m h = (Ok a, h1) ∧ k a h1 = (Ok b, h').
Proof. unfold io_bind. destruct (m h) as [[a|e] h1]; naive_solver. Qed.

Lemma wrap_Ok {A} prefix (m : io A) h a h' : io_wrap prefix m h = (Ok a, h') → m h = (Ok a, h').
Proof. unfold io_wrap. destruct (m h) as [[b|e] h1]; cbn; naive_solver. Qed.

Lemma command_Ok prefix command h a h' : run_command prefix command h = (Ok a, h') → h' = h.
Proof. unfold run_command. destruct (command _); naive_solver. Qed.

(** Errors of system calls that say a file is absent are only given for absent
    files. *)
Record Honest : Prop := {
  ho_remove : ∀ undo path e, env_remove env undo path = Some e → errors_Is e "fs.ErrNotExist" = false;
  ho_read : ∀ path e, env_unreadable env path = Some e → errors_Is e "fs.ErrNotExist" = false;
}.

Lemma remove_Ok (Hho : Honest) path h a h' :
  remove_if_present env false path h = (Ok a, h') → host_files h' = delete path (host_files h).
Proof.
  unfold remove_if_present, os_Remove. destruct (env_remove env false path) as [e|] eqn:E.
  { rewrite (ho_remove Hho _ _ _ E). done. }
  case_bool_decide as Hin; [by intros [= _ <-]|]. change (errors_Is ErrNotExist "fs.ErrNotExist") with true.
  intros [= _ <-]. symmetry. apply delete_id. by apply eq_None_not_Some.
Qed.

Lemma stage_Ok req h a h1 :
  stage_zone env named p req h = (Ok a, h1) →
  ∃ h0 paths, write_zone env p req h = (Ok (), h0) ∧ include_files env p h0 = Ok paths ∧
    h1 = put_file (dp_aggregatePath p) (Regular (RenderDNSAggregateInclude paths) 420 true)
           (make_dirs (dp_aggregatePath p) h0).
Proof.
  unfold stage_zone. intros ([] & h0 & Hw & Hrun)%bind_Ok. exists h0. apply bind_Ok in Hrun as ([] & h2 & Ha & Hrun).
  unfold writeAggregateDNSIncludes in Ha. destruct (include_files env p h0) as [paths|]; [|done].
  apply wrap_Ok, write_Ok in Ha as ->. exists paths. split; [done|]. split; [done|].
  apply bind_Ok in Hrun as ([] & h3 & Hz & Hc). unfold validateDNSConfig in Hc. apply command_Ok in Hc as ->.
  destruct (String.eqb _ "primary"); [by apply command_Ok in Hz as ->|by injection Hz as <-].
Qed.

Lemma commit_Ok req h a h2 :
  commit_zone env named p req h = (Ok a, h2) →
  (∀ path, path ≠ revision_path p req → host_files h2 !! path = host_files h !! path) ∧ host_dirs h ⊆ host_dirs h2.
Proof.
  intros Hc. split.
  { intros path Hp. pose proof (commit_files env named p req h path Hp) as Hf. by rewrite Hc in Hf. }
  unfold commit_zone in Hc. apply bind_Ok in Hc as ([] & h1 & Hr & Hm).
  pose proof (wi_dirs _ _ _ (stays_marker env p req h1)) as Hd. rewrite Hm in Hd. cbn in Hd.
  destruct (dp_reloader p); [|by injection Hr as <-]. unfold reload_service in Hr.
  destruct (named_reload named false _); [done|]. injection Hr as <-. exact Hd.
Qed.
(** ** The paths of a zone *)

(** The directories are absolute paths, and the aggregate is in neither. *)
Record Layout : Prop := {
  lo_include : path_rooted (dp_includeDir p) = true;
  lo_zone : path_rooted (dp_zoneDir p) = true;
  lo_aggregate : ∀ dir name, dir ∈ [dp_includeDir p; dp_zoneDir p] → plain_name name →
    dp_aggregatePath p ≠ in_dir dir name;
}.

Definition zone_name (domain : string) : string := "db." +:+ domain.
Definition include_name (domain : string) : string := domain +:+ ".conf".
Definition revision_name (domain : string) : string := domain +:+ ".nakpanel-revision.json".

Lemma domain_slash_free domain : ValidateDomain domain = Ok () →
  string_forall (λ b, negb (Ascii.eqb b "/")) domain = true.
Proof.
  apply domain_bytes; [|done]. intros c Hc%label_inner_code. apply negb_true_iff, Ascii.eqb_neq. intros ->.
  change (code "/") with 47 in Hc. lia.
Qed.

Lemma plain_names domain : ValidateDomain domain = Ok () →
  plain_name (zone_name domain) ∧ plain_name (include_name domain) ∧ plain_name (revision_name domain).
Proof.
  intros Hd. pose proof (domain_slash_free _ Hd) as Hs.
  assert (4 ≤ String.length domain)%nat as Hl by (apply ValidateDomain_inv in Hd as [[? _] _]; unfold str_len in *; lia).
  assert (∀ name, (3 ≤ String.length name)%nat → string_forall (λ b, negb (Ascii.eqb b "/")) name = true → plain_name name) as Hplain.
  { intros name Hn Hf. unfold plain_name. repeat split; [intros ->; cbn in Hn; lia..|done]. }
  unfold zone_name, include_name, revision_name.
  split; [|split]; apply Hplain; rewrite ?string_length_app, ?string_forall_app, ?Hs; (lia || reflexivity).
Qed.

Lemma names_differ domain :
  zone_name domain ≠ include_name domain ∧ zone_name domain ≠ revision_name domain ∧ include_name domain ≠ revision_name domain.
Proof.
  unfold zone_name, include_name, revision_name.
  split; [|split]; intros E%(f_equal String.length); rewrite !string_length_app in E; cbn in E; lia.
Qed.

(** A request as [normalizeDNSZoneRequest] leaves it, for the directory of the
    provisioner. *)
Definition Normal (req : ConfigureDNSZoneReq) : Prop :=
  ValidateDomain (dzr_Domain req) = Ok () ∧ dzr_ZoneDir req = dp_zoneDir p ∧
  dzr_Mode req ∈ ["primary"; "secondary"; "disabled"].

Lemma normalized_normal req now nreq :
  dzr_ZoneDir req = "" → normalizeDNSZoneRequest req (dp_zoneDir p) now = Ok nreq → Normal nreq.
Proof.
  intros Hdir Hn%normalizeDNSZoneRequest_Ok. split; [exact (nr_domain _ _ _ _ Hn)|].
  split; [|exact (nr_mode _ _ _ _ Hn)]. rewrite (nr_shape _ _ _ _ Hn). cbn. by rewrite Hdir.
Qed.

Lemma normal_paths (Hlo : Layout) req : Normal req →
  zone_path req = in_dir (dp_zoneDir p) (zone_name (dzr_Domain req)) ∧
  include_path p req = in_dir (dp_includeDir p) (include_name (dzr_Domain req)) ∧
  revision_path p req = in_dir (dp_includeDir p) (revision_name (dzr_Domain req)).
Proof.
  intros (Hd & Hdir & _). destruct (plain_names _ Hd) as (Hz & Hi & Hr).
  unfold zone_path, include_path, revision_path. rewrite Hdir.
  split; [|split]; apply join_in_dir; try done; [by apply lo_zone|by apply lo_include..].
Qed.

(** The four files of a zone are four. *)
Lemma paths_differ (Hlo : Layout) req : Normal req →
  zone_path req ≠ include_path p req ∧ zone_path req ≠ revision_path p req ∧ include_path p req ≠ revision_path p req ∧
  dp_aggregatePath p ∉ [zone_path req; include_path p req; revision_path p req].
Proof.
  intros Hn. destruct (normal_paths Hlo req Hn) as (-> & -> & ->). destruct Hn as (Hd & _ & _).
  destruct (plain_names _ Hd) as (Hz & Hi & Hr), (names_differ (dzr_Domain req)) as (Hzi & Hzr & Hir).
  split; [|split; [|split]].
  - by intros [_ ?]%in_dir_inj.
  - by intros [_ ?]%in_dir_inj.
  - by intros [_ ?]%in_dir_inj.
  - rewrite !not_elem_of_cons. pose proof (lo_aggregate Hlo) as Ha.
    split; [apply Ha; [set_solver|done]|]. split; [apply Ha; [set_solver|done]|].
    split; [apply Ha; [set_solver|done]|]. apply not_elem_of_nil.
Qed.

(** Neither the aggregate nor a marker is one of the listed files. *)
Lemma aggregate_unlisted (Hlo : Layout) : ¬ is_Some (conf_name (dp_includeDir p) (dp_aggregatePath p)).
Proof.
  intros (name & Hn & _ & E)%conf_name_inv. revert E. apply (lo_aggregate Hlo); [set_solver|done].
Qed.

Lemma marker_unlisted (Hlo : Layout) req : Normal req → ¬ is_Some (conf_name (dp_includeDir p) (revision_path p req)).
Proof.
  intros Hn. destruct (normal_paths Hlo req Hn) as (_ & _ & ->). destruct Hn as (Hd & _ & _).
  destruct (plain_names _ Hd) as (_ & _ & Hr). unfold conf_name. rewrite entry_name_in_dir by done.
  assert (has_suffix (revision_name (dzr_Domain req)) ".conf" = false) as ->; [|by intros []].
  unfold revision_name, has_suffix. rewrite string_rev_app. reflexivity.
Qed.

(** ** What a successful run leaves *)

Lemma write_zone_Ok (Hho : Honest) (Hlo : Layout) req h h0 : Normal req → write_zone env p req h = (Ok (), h0) →
  if String.eqb (dzr_Mode req) "disabled"
  then host_files h0 !! zone_path req = None ∧ host_files h0 !! include_path p req = None
  else host_files h0 !! include_path p req = Some (Regular (RenderDNSZoneIncludeRequest req (zone_path req)) 420 true) ∧
       (dzr_Mode req = "primary" → host_files h0 !! zone_path req = Some (Regular (RenderDNSZone req) 420 true)).
Proof.
  intros Hn. destruct (paths_differ Hlo req Hn) as (Hzi & _). destruct Hn as (_ & _ & Hmode).
  unfold write_zone. cbv zeta. destruct (String.eqb_spec (dzr_Mode req) "disabled") as [Ed|Ed].
  - cbn [io_each]. intros ([] & h1 & Hz%wrap_Ok & Hrun)%bind_Ok. apply bind_Ok in Hrun as ([] & h2 & Hi%wrap_Ok & Hret).
    injection Hret as <-. apply (remove_Ok Hho) in Hz, Hi. rewrite Hi, Hz. split.
    + rewrite lookup_delete_ne by done. apply lookup_delete_eq.
    + apply lookup_delete_eq.
  - destruct (String.eqb_spec (dzr_Mode req) "secondary") as [Es|Es].
    + intros ([] & h1 & _ & Hi%wrap_Ok)%bind_Ok. apply write_Ok in Hi as ->. cbn. rewrite lookup_insert_eq.
      split; [done|]. rewrite Es. discriminate.
    + intros ([] & h1 & Hz%wrap_Ok & Hi%wrap_Ok)%bind_Ok. apply write_Ok in Hz as ->, Hi as ->. cbn.
      rewrite lookup_insert_eq. split; [done|]. intros _. rewrite lookup_insert_ne by done. by rewrite lookup_insert_eq.
Qed.

Lemma snapshot_readable paths h items :
  snapshotFiles env paths h = Ok items → ∀ path, path ∈ paths → env_unreadable env path = None.
Proof.
  intros (_ & Hcov & _ & Hread)%snapshot_paths_Ok path Hp. apply Hread. by destruct (Hcov path Hp) as [?%elem_of_empty|].
Qed.

(** The marker a successful run leaves. *)
Lemma marker_Ok (Hho : Honest) req h a h' : write_marker env p req h = (Ok a, h') →
  if String.eqb (dzr_Mode req) "disabled" then host_files h' !! revision_path p req = None
  else if tracked req
  then host_files h' !! revision_path p req = Some (Regular (marshal_revision (dnsRevisionForRequest req)) 384 true)
  else h' = h.
Proof.
  unfold write_marker. assert (∀ e (m : io unit), replace_error e m h = (Ok a, h') → ∃ u, m h = (Ok u, h')) as Hre.
  { intros e m. unfold replace_error. destruct (m h) as [[u|] h1]; naive_solver. }
  destruct (String.eqb _ _).
  - intros (u & Hr)%Hre. apply (remove_Ok Hho) in Hr as ->. apply lookup_delete_eq.
  - destruct (tracked req); [|by intros [= _ <-]].
    intros (u & ->%write_Ok)%Hre. cbn. apply lookup_insert_eq.
Qed.

(** What a successful run says of the request and of the files it leaves. *)
Record Configured (req nreq : ConfigureDNSZoneReq) (h h' : Host) : Prop := {
  cd_normal : Normal nreq;
  cd_marker_before : tracked nreq = true →
    checkDNSAppliedRevision env (revision_path p nreq) (dnsRevisionForRequest nreq) h = Ok ();
  cd_readable : ∀ path, path ∈ zone_paths p nreq → env_unreadable env path = None;
  cd_zone : if String.eqb (dzr_Mode nreq) "disabled"
    then host_files h' !! zone_path nreq = None ∧ host_files h' !! include_path p nreq = None
    else host_files h' !! include_path p nreq = Some (Regular (RenderDNSZoneIncludeRequest nreq (zone_path nreq)) 420 true) ∧
         (dzr_Mode nreq = "primary" → host_files h' !! zone_path nreq = Some (Regular (RenderDNSZone nreq) 420 true));
  cd_aggregate : ∃ paths, include_files env p h' = Ok paths ∧
    host_files h' !! dp_aggregatePath p = Some (Regular (RenderDNSAggregateInclude paths) 420 true);
  cd_marker : if String.eqb (dzr_Mode nreq) "disabled" then host_files h' !! revision_path p nreq = None
    else tracked nreq = true →
      host_files h' !! revision_path p nreq = Some (Regular (marshal_revision (dnsRevisionForRequest nreq)) 384 true);
  cd_others : ∀ path, path ∉ zone_paths p nreq → host_files h' !! path = host_files h !! path;
}.

Lemma configure_Ok (Hho : Honest) (Hlo : Layout) now req h res h' :
  dzr_ZoneDir req = "" → ConfigureDNSZone env named p now req h = (Ok res, h') →
  ∃ nreq, normalizeDNSZoneRequest req (dp_zoneDir p) now = Ok nreq ∧ res = zone_result p nreq ∧ Configured req nreq h h'.
Proof.
  intros Hdir. unfold ConfigureDNSZone. destruct (normalizeDNSZoneRequest req _ now) as [nreq|] eqn:Hnorm; [|done].
  apply (normalized_normal req now) in Hnorm as Hn; [|done].
  destruct (if tracked nreq then _ else _) as [[]|] eqn:Hcheck; [|done].
  destruct (snapshotFiles env _ h) as [snapshots|] eqn:Hsnap; [|done].
  destruct (stage_zone env named p nreq h) as [[[]|] h1] eqn:Hstage; [|done].
  destruct (commit_zone env named p nreq h1) as [[[]|] h2] eqn:Hcommit; [|done].
  intros [= <- <-]. exists nreq. split; [done|]. split; [done|].
  destruct (paths_differ Hlo nreq Hn) as (Hzi & Hzr & Hir & Hagg). rewrite !not_elem_of_cons in Hagg.
  destruct Hagg as (Haz & Hai & Har & _). pose proof (aggregate_unlisted Hlo) as Hua. pose proof (marker_unlisted Hlo nreq Hn) as Hum.
  pose proof (stays_stage env named p nreq h) as Hst. rewrite Hstage in Hst. cbn in Hst.
  apply stage_Ok in Hstage as (h0 & paths & Hwrite & Hinc & ->). apply commit_Ok in Hcommit as Hc. destruct Hc as [Hc Hdirs].
  assert (∀ path, path ≠ dp_aggregatePath p → path ≠ revision_path p nreq → host_files h2 !! path = host_files h0 !! path) as Hkeep.
  { intros path Hpa Hpr. rewrite Hc by done. cbn. by apply lookup_insert_ne. }
  split.
  - done.
  - intros Ht. by rewrite Ht in Hcheck.
  - by eapply snapshot_readable.
  - apply write_zone_Ok in Hwrite; [|done..]. rewrite !Hkeep by done. exact Hwrite.
  - exists paths. split; [|rewrite Hc by done; cbn; apply lookup_insert_eq].
    eapply include_files_same; [exact Hinc|cbn in Hdirs; set_solver|].
    intros path Hconf. rewrite Hkeep; [done| |]; intros ->; [by apply Hua|by apply Hum].
  - unfold commit_zone in Hcommit. apply bind_Ok in Hcommit as ([] & h3 & _ & Hm%(marker_Ok Hho)).
    destruct (String.eqb _ _); [done|]. intros Ht. by rewrite Ht in Hm.
  - intros path Hpath. unfold zone_paths in Hpath. rewrite !not_elem_of_cons in Hpath. destruct Hpath as (? & ? & ? & ? & _).
    rewrite Hc by done. apply (wi_files _ _ _ Hst). unfold stage_paths. rewrite !not_elem_of_cons. by repeat split; [..|apply not_elem_of_nil].
Qed.

Lemma configured_no_drift (Hho : Honest) (Hlo : Layout) now now' req h res h' :
  dzr_ZoneDir req = "" → dzr_Serial req ≠ 0 → ConfigureDNSZone env named p now req h = (Ok res, h') →
  DNSZoneDrift env p now' req h' = Ok false.
Proof.
  intros Hdir Hserial Hrun. destruct (configure_Ok Hho Hlo _ _ _ _ _ Hdir Hrun) as (nreq & Hnorm & _ & [Hn _ Hread Hz (paths & Hinc & Ha) _ _]).
  assert (normalizeDNSZoneRequest req (dp_zoneDir p) now' = Ok nreq) as Hnorm'.
  { rewrite <- Hnorm. unfold normalizeDNSZoneRequest, zone_request_defaults.
    by rewrite (proj2 (Z.eqb_neq _ _) Hserial). }
  assert (∀ path data mode owned, path ∈ zone_paths p nreq → host_files h' !! path = Some (Regular data mode owned) →
            differs env path data h' = Ok false ∧ os_Lstat env path h' = Ok (Some (Regular data mode owned))) as Hsame.
  { intros path data mode owned Hp Hf. unfold differs, os_ReadFile, os_Lstat. rewrite Hread, Hf by done. cbn.
    by rewrite String.eqb_refl. }
  unfold DNSZoneDrift. rewrite Hnorm'. cbn [result_bind]. cbv zeta.
  destruct (String.eqb (dzr_Mode nreq) "disabled").
  - destruct Hz as [Hz Hi]. cbn [any_present]. unfold os_Lstat. rewrite !Hread, Hz, Hi by (unfold zone_paths; set_solver). reflexivity.
  - destruct Hz as [Hi Hz]. cbn [any_differs].
    apply Hsame in Hi as [-> _]; [|unfold zone_paths; set_solver]. cbn [result_bind].
    apply Hsame in Ha as [Ha _]; [|unfold zone_paths; set_solver].
    destruct (String.eqb_spec (dzr_Mode nreq) "primary") as [Ep|].
    + specialize (Hz Ep). apply Hsame in Hz as [Hz _]; [|unfold zone_paths; set_solver].
      cbn [any_differs]. rewrite Hz. cbn [result_bind any_differs]. rewrite Hinc. cbn [result_bind]. exact Ha.
    + cbn [any_differs result_bind]. rewrite Hinc. cbn [result_bind]. exact Ha.
Qed.

(** ** Revisions *)

Lemma commit_owned req h : agent_owned (host_files h) → agent_owned (host_files (snd (commit_zone env named p req h))).
Proof.
  intros Hown. unfold commit_zone, io_bind.
  assert (∀ h, agent_owned (host_files h) → agent_owned (host_files (snd (write_marker env p req h)))) as Hm
    by (intros h0; apply (wi_owned _ _ _ (stays_marker env p req h0))).
  destruct (dp_reloader p); [|by apply Hm]. pose proof (reload_files named false h) as Hr.
  destruct (reload_service named false h) as [[[]|e] h1]; cbn [snd] in *; [|by rewrite Hr]. apply Hm. by rewrite Hr.
Qed.

Lemma configure_owned now req h res h' :
  agent_owned (host_files h) → ConfigureDNSZone env named p now req h = (Ok res, h') → agent_owned (host_files h').
Proof.
  intros Hown. unfold ConfigureDNSZone. destruct (normalizeDNSZoneRequest req _ now) as [nreq|]; [|done].
  destruct (if tracked nreq then _ else _) as [[]|]; [|done]. destruct (snapshotFiles env _ h) as [snapshots|]; [|done].
  pose proof (wi_owned _ _ _ (stays_stage env named p nreq h) Hown) as Hs1.
  destruct (stage_zone env named p nreq h) as [[[]|] h1]; [|done]. cbn [snd] in Hs1.
  pose proof (commit_owned nreq h1 Hs1) as Hs2. destruct (commit_zone env named p nreq h1) as [[[]|] h2]; [|done].
  by intros [= _ <-].
Qed.

(** Identifiers and revisions are non-negative 64-bit integers, and a digest has
    32 bytes. *)
Definition row_id (z : Z) : Prop := 0 ≤ z < 2 ^ 63.

Definition storable (r : dnsAppliedRevision) : Prop :=
  row_id (ar_SiteID r) ∧ row_id (ar_SubscriptionID r) ∧ row_id (ar_ZoneID r) ∧ row_id (ar_Revision r) ∧
  str_len (ar_Digest r) = 32.

(** What [encoding/json] and [crypto/sha256] give: a marker reads back as it was
    written, in less than the 64 KiB an identity record may have. *)
Record CodecLaws : Prop := {
  cl_read : ∀ r, storable r → unmarshal_revision (marshal_revision r) = Ok r;
  cl_size : ∀ r, storable r → str_len (marshal_revision r) ≤ 65536;
  cl_digest : ∀ req, str_len (request_digest req) = 32;
}.

Definition row_ids (req : ConfigureDNSZoneReq) : Prop :=
  row_id (dzr_SiteID req) ∧ row_id (dzr_SubscriptionID req) ∧ row_id (dzr_ZoneID req) ∧ row_id (dzr_DesiredRevision req).

Lemma revision_storable (Hcl : CodecLaws) req : row_ids req → storable (dnsRevisionForRequest req).
Proof. intros (? & ? & ? & ?). repeat split; try apply (cl_digest Hcl); cbn; unfold row_id in *; lia. Qed.

(** The files of a domain are those of the request its marker records. *)
Record Serves (domain : string) (h : Host) (req : ConfigureDNSZoneReq) : Prop := {
  sv_normal : Normal req;
  sv_domain : dzr_Domain req = domain;
  sv_mode : dzr_Mode req ≠ "disabled";
  sv_ids : row_ids req;
  sv_marker : host_files h !! revision_path p req = Some (Regular (marshal_revision (dnsRevisionForRequest req)) 384 true);
  sv_include : host_files h !! include_path p req = Some (Regular (RenderDNSZoneIncludeRequest req (zone_path req)) 420 true);
  sv_zone : dzr_Mode req = "primary" → host_files h !! zone_path req = Some (Regular (RenderDNSZone req) 420 true);
}.


(** The same zone of the same site, at a later revision or with the same content. *)
Definition newer (a b : dnsAppliedRevision) : Prop :=
  ar_SiteID a = ar_SiteID b ∧ ar_SubscriptionID a = ar_SubscriptionID b ∧ ar_ZoneID a = ar_ZoneID b ∧
  (ar_Revision a < ar_Revision b ∨ (ar_Revision a = ar_Revision b ∧ ar_Digest a = ar_Digest b)).

Lemma newer_refl a : newer a a.
Proof. repeat split; auto. Qed.

Lemma newer_trans a b c : newer a b → newer b c → newer a c.
Proof.
  intros (S1 & U1 & Z1 & R1) (S2 & U2 & Z2 & R2). repeat split; try congruence.
  destruct R1 as [?|[? ?]], R2 as [?|[? ?]]; [left; lia..|right; split; congruence].
Qed.

Lemma check_revision_Ok previous want : check_revision previous want = Ok () → newer previous want.
Proof.
  unfold check_revision. destruct (_ || _ : bool) eqn:Hsite; [done|].
  destruct ((ar_Revision want =? ar_Revision previous) && _) eqn:Hsame; [done|]. intros _.
  rewrite !orb_false_iff, !negb_false_iff, !Z.eqb_eq, Z.ltb_ge in Hsite. destruct Hsite as (((? & ?) & ?) & ?).
  repeat split; [done..|]. destruct (decide (ar_Revision previous = ar_Revision want)) as [E|]; [right|left; lia].
  split; [done|]. rewrite E, Z.eqb_refl in Hsame. symmetry. by apply String.eqb_eq, negb_false_iff.
Qed.

(** Files of different domains are different. *)
Lemma other_domain (Hlo : Layout) (Happart : dir_key (dp_zoneDir p) ≠ dir_key (dp_includeDir p)) a b :
  Normal a → Normal b → dzr_Domain a ≠ dzr_Domain b →
  zone_path a ∉ zone_paths p b ∧ include_path p a ∉ zone_paths p b ∧ revision_path p a ∉ zone_paths p b.
Proof.
  intros Ha Hb Hne. unfold zone_paths. destruct (normal_paths Hlo a Ha) as (-> & -> & ->), (normal_paths Hlo b Hb) as (-> & -> & ->).
  destruct Ha as (Hda & _), Hb as (Hdb & _).
  destruct (plain_names _ Hda) as (Hza & Hia & Hra), (plain_names _ Hdb) as (Hzb & Hib & Hrb).
  assert (∀ suffix, dzr_Domain a +:+ suffix ≠ dzr_Domain b +:+ suffix) as Hsuffix
    by (intros suffix E%(f_equal (λ s, trim_suffix s suffix)); by rewrite !trim_suffix_app in E).
  assert (∀ d d', include_name d ≠ revision_name d') as Hir.
  { intros d d' E. assert (has_suffix (include_name d) ".conf" = true) as Hc
      by (unfold include_name, has_suffix; rewrite string_rev_app; destruct (string_rev d); reflexivity).
    assert (has_suffix (revision_name d') ".conf" = false) as Hr
      by (unfold revision_name, has_suffix; rewrite string_rev_app; reflexivity).
    rewrite E in Hc. congruence. }
  pose proof (lo_aggregate Hlo) as Hagg. rewrite !not_elem_of_cons.
  repeat split; try apply not_elem_of_nil;
    try (intros E; symmetry in E; revert E; apply Hagg; [set_solver|done]);
    intros [Hk Hname]%in_dir_inj; try done.
  - unfold zone_name in Hname. by apply string_app_inv_head in Hname.
  - by destruct (Hsuffix ".conf").
  - by destruct (Hir (dzr_Domain a) (dzr_Domain b)).
  - by destruct (Hir (dzr_Domain b) (dzr_Domain a)).
  - by destruct (Hsuffix ".nakpanel-revision.json").
Qed.

Lemma Serves_files d h h' req : host_files h' = host_files h → Serves d h req → Serves d h' req.
Proof. intros E [? ? ? ? Hm Hi Hz]. split; rewrite ?E; done. Qed.

(** A request for the zone that the control plane tracks and does not disable. *)
Definition keeps_zone (d : string) (now : Z) (req : ConfigureDNSZoneReq) : Prop :=
  dzr_ZoneDir req = "" ∧
  ∀ nreq, normalizeDNSZoneRequest req (dp_zoneDir p) now = Ok nreq → dzr_Domain nreq = d →
    tracked nreq = true ∧ dzr_Mode nreq ≠ "disabled" ∧ row_ids nreq.

Lemma served_marker (Hlo : Layout) (Hcl : CodecLaws) d h n0 nreq :
  Serves d h n0 → Normal nreq → dzr_Domain nreq = d → env_unreadable env (revision_path p nreq) = None →
  checkDNSAppliedRevision env (revision_path p nreq) (dnsRevisionForRequest nreq) h = Ok () →
  newer (dnsRevisionForRequest n0) (dnsRevisionForRequest nreq).
Proof.
  intros [Hn0 Hd0 _ Hids Hm _ _] Hn Hd Hread Hcheck. apply check_revision_Ok. rewrite <- Hcheck.
  assert (revision_path p nreq = revision_path p n0) as E.
  { destruct (normal_paths Hlo _ Hn) as (_ & _ & ->), (normal_paths Hlo _ Hn0) as (_ & _ & ->). congruence. }
  unfold checkDNSAppliedRevision, readIdentityFile. rewrite Hread, E, Hm. cbn [negb orb]. change (384 =? 384) with true.
  cbn [negb orb]. pose proof (revision_storable Hcl _ Hids).
  rewrite (proj2 (Z.ltb_ge _ _) (cl_size Hcl _ ltac:(done))), (cl_read Hcl) by done. reflexivity.
Qed.

(** One request, whether it succeeds or fails. *)
Lemma configure_serves (Hrc : Recoverable env) (Hho : Honest) (Hlo : Layout) (Hcl : CodecLaws)
    (Happart : dir_key (dp_zoneDir p) ≠ dir_key (dp_includeDir p)) d now req h n0 :
  agent_owned (host_files h) → Serves d h n0 → keeps_zone d now req →
  agent_owned (host_files (snd (ConfigureDNSZone env named p now req h))) ∧
  ∃ n1, Serves d (snd (ConfigureDNSZone env named p now req h)) n1 ∧
    newer (dnsRevisionForRequest n0) (dnsRevisionForRequest n1).
Proof.
  intros Hown Hs [Hdir Hkeep]. destruct (ConfigureDNSZone env named p now req h) as [[res|e] h'] eqn:Hrun; cbn [snd].
  - split; [by eapply configure_owned|].
    destruct (configure_Ok Hho Hlo _ _ _ _ _ Hdir Hrun) as (nreq & Hnorm & _ & [Hn Hbefore Hread Hz _ Hm Hothers]).
    specialize (Hkeep nreq Hnorm). destruct (decide (dzr_Domain nreq = d)) as [Hd|Hd].
    + destruct (Hkeep Hd) as (Ht & Hmode & Hids). apply String.eqb_neq in Hmode as Hb. rewrite Hb in Hz, Hm.
      exists nreq. split; [split; naive_solver|]. apply (served_marker Hlo Hcl d h); auto. apply Hread. unfold zone_paths. set_solver.
    + exists n0. split; [|apply newer_refl]. destruct Hs as [Hn0 Hd0 Hmode Hids Hm0 Hi0 Hz0].
      destruct (other_domain Hlo Happart n0 nreq) as (? & ? & ?); [done..|congruence|].
      split; [done..| | |]; rewrite !Hothers by done; done.
  - destruct (failed_restores env named p _ _ _ _ _ Hrc Hown Hrun) as [E _]. rewrite E. split; [done|].
    exists n0. split; [by apply (Serves_files d h)|apply newer_refl].
Qed.

End Success.

(** ** The properties *)

Section Properties.
Context `{GoUnicode} `{GoMapOrder} `{RevisionCodec}.

(** Nothing has changed: every file is as it was, and a name server that was
    running on those files still is, if it can be reloaded while undoing. *)
Definition unharmed (named : NameServer) (h h' : Host) : Prop :=
  host_files h' = host_files h ∧
  ((∀ fs, named_reload named true fs = None) → host_loaded h = Some (host_files h) → host_loaded h' = Some (host_files h')).

(** C25. A zone that cannot be applied changes nothing: when [ConfigureDNSZone]
    fails, at whatever step (a refused request, a stale snapshot, a write, a check
    of the name server, the reload, the revision marker), every file the agent
    keeps is as it was, and a name server that was running on those files still
    is, provided that the calls made while undoing succeed. *)
Theorem failed_configure_restores env named p now req h e h' :
  Recoverable env → agent_owned (host_files h) → ConfigureDNSZone env named p now req h = (Err e, h') →
  unharmed named h h'.
Proof. apply failed_restores. Qed.

(** A zone that was applied shows no drift: right after [ConfigureDNSZone]
    succeeds, [DNSZoneDrift] on the same request finds every file of the zone and
    the aggregate as that request describes them. *)
Theorem configured_zone_has_no_drift env named p now now' req h res h' :
  Honest env → Layout p → dzr_ZoneDir req = "" → dzr_Serial req ≠ 0 →
  ConfigureDNSZone env named p now req h = (Ok res, h') → DNSZoneDrift env p now' req h' = Ok false.
Proof. intros Hho Hlo. by apply configured_no_drift. Qed.

(** Requests that reach the agent, each with the conditions it is handled in. *)
Record attempt := mkAttempt {
  at_env : Environment;
  at_named : NameServer;
  at_now : Z;
  at_req : ConfigureDNSZoneReq;
}.

Definition handle_attempts (p : DNSProvisioner) (attempts : list attempt) (h : Host) : Host :=
  foldl (λ h a, snd (ConfigureDNSZone (at_env a) (at_named a) p (at_now a) (at_req a) h)) h attempts.

(** The environment tells the truth about absent files and lets the agent undo. *)
Definition usable (p : DNSProvisioner) (domain : string) (a : attempt) : Prop :=
  Recoverable (at_env a) ∧ Honest (at_env a) ∧ keeps_zone p domain (at_now a) (at_req a).


End Properties.

(** ** Witnesses *)

Module ApplySamples.

(** Numbers as 64 binary digits. *)
Fixpoint binary (n : nat) (z : Z) : string :=
  match n with
  | O => ""
  | S n => String (if Z.odd z then "1" else "0")%char (binary n (Z.div2 z))
  end.

Fixpoint of_binary (s : string) : Z :=
  match s with
  | EmptyString => 0
  | String c rest => (if Ascii.eqb c "1" then 1 else 0) + 2 * of_binary rest
  end.

Lemma of_binary_binary n z : 0 ≤ z < 2 ^ Z.of_nat n → of_binary (binary n z) = z.
Proof.
  revert z. induction n as [|n IH]; intros z Hz; cbn [binary of_binary]; [cbn in Hz; lia|].
  rewrite Nat2Z.inj_succ, Z.pow_succ_r in Hz by lia. pose proof (Z.div2_odd z) as Hdiv.
  rewrite IH by (rewrite Z.div2_div in *; split; [apply Z.div_pos; lia|apply Z.div_lt_upper_bound; lia]).
  destruct (Z.odd z); cbn [Ascii.eqb Bool.eqb Z.b2z] in *; lia.
Qed.

Lemma binary_length n z : String.length (binary n z) = n.
Proof. revert z. induction n as [|n IH]; intros z; [done|]. cbn [binary String.length]. by rewrite IH. Qed.

Fixpoint checksum (s : string) : Z :=
  match s with
  | EmptyString => 0
  | String c rest => code c + 7 * checksum rest
  end.

#[export] Instance binary_codec `{GoUnicode} : RevisionCodec := {
  record_json r := rec_Type r +:+ " " +:+ rec_Host r +:+ " " +:+ rec_Value r;
  request_digest req := binary 32 (checksum (RenderDNSZone req));
  marshal_revision r := binary 64 (ar_SiteID r) +:+ binary 64 (ar_SubscriptionID r) +:+ binary 64 (ar_ZoneID r)
                          +:+ binary 64 (ar_Revision r) +:+ ar_Digest r;
  unmarshal_revision s :=
    let field n := of_binary (string_take 64 (string_drop (64 * n) s)) in
    Ok (mkDNSAppliedRevision (field 0%nat) (field 1%nat) (field 2%nat) (field 3%nat) (string_drop 256 s));
}.

Lemma drop_binary n m z s : string_drop (n + m) (binary n z +:+ s) = string_drop m s.
Proof. revert z. induction n as [|n IH]; intros z; [done|]. apply IH. Qed.

Lemma take_binary n z s : string_take n (binary n z +:+ s) = binary n z.
Proof. rewrite <- (binary_length n z) at 1. apply string_take_app. Qed.

Lemma binary_codec_laws `{GoUnicode} : CodecLaws.
Proof.
  assert (∀ z, row_id z → of_binary (binary 64 z) = z) as Hid.
  { intros z [H1 H2]. apply of_binary_binary. split; [exact H1|]. eapply Z.lt_trans; [exact H2|reflexivity]. }
  split.
  - intros [site sub zone rev digest] (Hs & Hu & Hz & Hr & Hd). cbn [marshal_revision unmarshal_revision binary_codec].
    cbn [ar_SiteID ar_SubscriptionID ar_ZoneID ar_Revision ar_Digest] in *. cbv zeta.
    change (64 * 0)%nat with 0%nat. change (64 * 1)%nat with (64 + 0)%nat. change (64 * 2)%nat with (64 + (64 + 0))%nat.
    change (64 * 3)%nat with (64 + (64 + (64 + 0)))%nat. change 256%nat with (64 + (64 + (64 + (64 + 0))))%nat.
    rewrite !drop_binary. cbn [string_drop]. by rewrite !take_binary, !Hid.
  - intros r (_ & _ & _ & _ & Hd). cbn [marshal_revision binary_codec]. unfold str_len in *.
    rewrite !string_length_app, !binary_length. lia.
  - intros req. cbn [request_digest binary_codec]. unfold str_len. by rewrite binary_length.
Qed.

(** The default directories, and a host where everything works but, for [broken],
    the write of a marker, which is reported as failed after its rename. *)
Definition server : DNSProvisioner := NewDNSProvisioner "" "" "" true.

Lemma default_layout : Layout server.
Proof.
  split; [reflexivity..|]. intros dir name Hdir Hname.
  assert (dp_aggregatePath server = in_dir "/etc/bind/nakpanel" "named.conf") as -> by reflexivity.
  intros [Hkey _]%in_dir_inj; [|repeat split; discriminate|done]. revert Hkey.
  apply elem_of_cons in Hdir as [->|[->|[]%elem_of_nil]%elem_of_cons]; discriminate.
Qed.

Definition calm : Environment := {|
  env_write _ _ := Written;
  env_remove _ _ := None;
  env_symlink _ _ := None;
  env_unreadable _ := None;
  env_list _ := None;
  env_follow _ _ := Err ErrNotExist;
|}.

Definition broken : Environment := {|
  env_write undo path := if negb undo && has_suffix path ".json" then Unsynced (errors_New "no space left") else Written;
  env_remove _ _ := None;
  env_symlink _ _ := None;
  env_unreadable _ := None;
  env_list _ := None;
  env_follow _ _ := Err ErrNotExist;
|}.

Definition bind : NameServer := {|
  named_checkzone _ _ _ := None;
  named_checkconf _ _ := None;
  named_reload _ _ := None;
|}.

Definition request : ConfigureDNSZoneReq := AgentSamples.request.
Definition stale : ConfigureDNSZoneReq := request <| dzr_DesiredRevision := 5 |>.
Definition next : ConfigureDNSZoneReq :=
  request <| dzr_DesiredRevision := 7 |> <| dzr_Serial := 2001 |> <| dzr_Records := [] |>.

Definition empty_host : Host := mkHost ∅ {["/etc/bind/nakpanel/zones.d"]} None.

Notation configure env req h :=
  (@ConfigureDNSZone ascii_only insertion_order (@binary_codec ascii_only) env bind server 3000 req h).

Definition served : Host := snd (configure calm request empty_host).

Lemma all_owned (fs : gmap string node) :
  forallb (λ '(_, n), match n with Regular _ _ owned => owned | _ => true end) (map_to_list fs) = true → agent_owned fs.
Proof.
  rewrite forallb_forall. intros Hall path data mode owned Hf%elem_of_map_to_list%list_elem_of_In.
  exact (Hall _ Hf).
Qed.

Lemma calm_recoverable : Recoverable calm.
Proof. by split. Qed.
Lemma broken_recoverable : Recoverable broken.
Proof. by split. Qed.
Lemma calm_honest : Honest calm.
Proof. by split. Qed.
Lemma broken_honest : Honest broken.
Proof. by split. Qed.

End ApplySamples.

(** The marker of a newer snapshot cannot be written: the zone is put back. *)
Lemma next_fails : ∃ e h',
  ApplySamples.configure ApplySamples.broken ApplySamples.next ApplySamples.served = (Err e, h').
Proof.
  destruct (ApplySamples.configure _ _ _) as [[res|e] h'] eqn:Hrun; [|by exists e, h'].
  exfalso. apply (f_equal (λ r, is_ok (fst r))) in Hrun. vm_compute in Hrun. discriminate Hrun.
Qed.

Lemma served_owned : agent_owned (host_files ApplySamples.served).
Proof. apply ApplySamples.all_owned. vm_compute. reflexivity. Qed.

Lemma failed_configure_restores_witness :
  ∃ e h', ApplySamples.configure ApplySamples.broken ApplySamples.next ApplySamples.served = (Err e, h') ∧
    host_files h' = host_files ApplySamples.served.
Proof.
  destruct next_fails as (e & h' & Hrun). exists e, h'. split; [exact Hrun|].
  exact (proj1 (@failed_configure_restores ascii_only insertion_order (@ApplySamples.binary_codec ascii_only) ApplySamples.broken
    ApplySamples.bind ApplySamples.server 3000 ApplySamples.next ApplySamples.served e h' ApplySamples.broken_recoverable
    served_owned Hrun)).
Defined.

Lemma request_applies : ∃ res,
  ApplySamples.configure ApplySamples.calm ApplySamples.request ApplySamples.empty_host = (Ok res, ApplySamples.served).
Proof.
  unfold ApplySamples.served. destruct (ApplySamples.configure _ _ _) as [[res|e] h'] eqn:Hrun; [by exists res|].
  exfalso. apply (f_equal (λ r, is_ok (fst r))) in Hrun. vm_compute in Hrun. discriminate Hrun.
Qed.

Lemma configured_zone_has_no_drift_witness :
  @DNSZoneDrift ascii_only insertion_order ApplySamples.calm ApplySamples.server 9000 ApplySamples.request ApplySamples.served
  = Ok false.
Proof.
  destruct request_applies as (res & Hrun).
  refine (@configured_zone_has_no_drift ascii_only insertion_order (@ApplySamples.binary_codec ascii_only) ApplySamples.calm
    ApplySamples.bind ApplySamples.server 3000 9000 ApplySamples.request ApplySamples.empty_host res ApplySamples.served
    ApplySamples.calm_honest ApplySamples.default_layout eq_refl _ Hrun).
  discriminate.
Defined.

(** A newer snapshot that fails, an older one, then the newer one again. *)
Definition sample_attempts : list attempt :=
  [mkAttempt ApplySamples.broken ApplySamples.bind 3000 ApplySamples.next;
   mkAttempt ApplySamples.calm ApplySamples.bind 3001 ApplySamples.stale;
   mkAttempt ApplySamples.calm ApplySamples.bind 3002 ApplySamples.next].

Definition sample_request : ConfigureDNSZoneReq :=
  ApplySamples.request <| dzr_ZoneDir := "/etc/bind/nakpanel/zones" |>.

Lemma sample_served : @Serves ascii_only (@ApplySamples.binary_codec ascii_only) ApplySamples.server "example.com" ApplySamples.served sample_request.
Proof.
  split.
  - split; [vm_compute; reflexivity|]. split; [reflexivity|]. constructor.
  - reflexivity.
  - discriminate.
  - repeat split; vm_compute; discriminate.
  - vm_compute. reflexivity.
  - vm_compute. reflexivity.
  - intros _. vm_compute. reflexivity.
Qed.

Lemma sample_keeps now req : req ∈ [ApplySamples.next; ApplySamples.stale] →
  @keeps_zone ascii_only insertion_order ApplySamples.server "example.com" now req.
Proof.
  intros Hreq. repeat (apply elem_of_cons in Hreq as [->|Hreq]); [..|by apply elem_of_nil in Hreq].
  all: split; [reflexivity|]; intros nreq Hn _.
  all: apply normalizeDNSZoneRequest_Ok in Hn; rewrite (nr_shape _ _ _ _ Hn).
  all: split; [reflexivity|]; split; [discriminate|]; repeat split; vm_compute; discriminate.
Qed.

