(* ===== verification/DNSWorker.v ===== *)
(** * The zone worker

    The job that carries a zone from the tables to the name server: the request it
    reads ([LoadDNSZoneRequest] of [provision/phase6_repository.go]) and the worker
    itself ([ConfigureDNSZoneWorker.Work] of [provision/phase6_jobs.go]), which calls
    the agent and reports. Then the system as a whole: the tables, the agent's host
    and any number of workers, step by step, in any order. *)

From S2P Require Import Prelude Tx Tables GoStr Site DNSTypes DNSRecord DNSPlan DNSTables DNSSync DNSEdit DNSConverge DNSInvariant DNSAgent DNSRender Files FilesProps DNSApply DNSApplyProps.
From stdpp Require Import relations.
Open Scope Z_scope.

Section Worker.
Context `{GoUnicode} `{GoMapOrder} `{Collation} `{RevisionCodec}.

(** ** The request of a zone

    Two queries outside a transaction: the zone's row first, its records later. *)

(** The loop over the map of placeholders. *)
Definition fill_soa (domain hostname : string) (soa : DNSSOASettings) : DNSSOASettings :=
  foldl (λ soa '(placeholder, value),
      soa <| soa_PrimaryNameserver := replace_all (soa_PrimaryNameserver soa) placeholder value |>
          <| soa_ResponsibleMailbox := replace_all (soa_ResponsibleMailbox soa) placeholder value |>)
    soa (map_order [("<domain>", domain); ("<hostname>", hostname)]).

Definition load_row (id : Z) (db : DNSStore) : result ConfigureDNSZoneReq :=
  let* zone := zone_by_id id db in
  let* site := query_row (rows_where (λ s, (st_ID s =? zr_SiteID zone) && String.eqb (st_RemovalState s) "none") (db_Sites db)) in
  let* revision := query_row (rows_where (λ t, tpl_Revision t =? zr_TemplateRevision zone) (db_Revisions db)) in
  let hostname := zone_hostname db zone in
  Ok (mkConfigureDNSZoneReq (zr_SiteID zone) (st_SubscriptionID site) (zr_ID zone) (zr_DesiredRevision zone)
        (zr_Domain zone) (zr_Address zone) (zr_IPv6Address zone) (zr_Serial zone) "" (zr_Mode zone)
        (zr_UpstreamPrimaries zone) (default (tpl_TransferCIDRs revision) (zr_TransferCIDRs zone))
        (fill_soa (zr_Domain zone) hostname (default (tpl_SOA revision) (zr_SOAOverride zone))) []).

(** A zone that is not primary carries no records. *)
Definition load_records (id : Z) (req : ConfigureDNSZoneReq) (db : DNSStore) : ConfigureDNSZoneReq :=
  req <| dzr_Records := if String.eqb (dzr_Mode req) "primary" then merge_sort record_le (zone_records id db) else [] |>.

(** The tables as the first and as the second query find them. *)
Definition LoadDNSZoneRequest (id : Z) (row records : DNSStore) : result ConfigureDNSZoneReq :=
  let* req := load_row id row in
  Ok (load_records id req records).

(** ** One job *)

(** What the worker writes when it has its answer. *)
Definition report (id : Z) (req : ConfigureDNSZoneReq) (answer : result ConfigureDNSZoneResult) (db : DNSStore)
    : result unit * DNSStore :=
  match answer with
  | Err e => (Err e, snd (run_tx (MarkDNSRevisionFailed id (dzr_DesiredRevision req) (error_text e)) db))
  | Ok result => run_tx (MarkDNSActive id (dzres_ZonePath result) (dzres_Serial result) (dzr_DesiredRevision req)) db
  end.

(** A job that nothing else interrupts. *)
Definition Work (env : Environment) (named : NameServer) (p : DNSProvisioner) (now id : Z) (db : DNSStore) (h : Host)
    : result unit * DNSStore * Host :=
  match LoadDNSZoneRequest id db db with
  | Err e => (Err e, db, h)
  | Ok req =>
    let '(answer, h) := ConfigureDNSZone env named p now req h in
    let '(outcome, db) := report id req answer db in
    (outcome, db, h)
  end.

(** ** The system

    Workers run side by side and may be interrupted at any point: the rows and the
    requests they hold are kept here, and may be used again or never. *)
Record System := mkSystem {
  sys_db : DNSStore;
  sys_host : Host;
  sys_rows : list (Z * ConfigureDNSZoneReq);
  sys_requests : list (Z * ConfigureDNSZoneReq);
  sys_answers : list (Z * ConfigureDNSZoneReq * result ConfigureDNSZoneResult);
}.

Definition reports_active (op : DNSOperation) : bool :=
  match op with
  | OpActive _ _ _ _ => true
  | _ => false
  end.

(** Keys come from sequences and revisions start at 1, in columns of 64 bits. *)
Definition stored_ids (req : ConfigureDNSZoneReq) : Prop := row_ids req ∧ tracked req = true.

Context (fingerprint : fingerprintData → string) (p : DNSProvisioner).

(** A handler, a synchronisation or another component changes the tables; a worker
    reads a row, then the records; the agent is called, whatever its system calls
    do, and its answer may be lost on the way back; a worker reports. *)
Inductive sys_step (s : System) : System → Prop :=
| step_tables op :
    reports_active op = false →
    sys_step s (mkSystem (perform fingerprint op (sys_db s)) (sys_host s) (sys_rows s) (sys_requests s) (sys_answers s))
| step_row id req :
    load_row id (sys_db s) = Ok req → stored_ids req →
    sys_step s (mkSystem (sys_db s) (sys_host s) ((id, req) :: sys_rows s) (sys_requests s) (sys_answers s))
| step_records id req :
    (id, req) ∈ sys_rows s →
    sys_step s (mkSystem (sys_db s) (sys_host s) (sys_rows s) ((id, load_records id req (sys_db s)) :: sys_requests s)
      (sys_answers s))
| step_agent id req env named now answer host lost :
    (id, req) ∈ sys_requests s → Recoverable env → Honest env →
    ConfigureDNSZone env named p now req (sys_host s) = (answer, host) →
    sys_step s (mkSystem (sys_db s) host (sys_rows s) (sys_requests s)
      ((id, req, match lost with Some e => Err e | None => answer end) :: sys_answers s))
| step_report id req answer :
    (id, req, answer) ∈ sys_answers s →
    sys_step s (mkSystem (snd (report id req answer (sys_db s))) (sys_host s) (sys_rows s) (sys_requests s) (sys_answers s)).

Definition sys_reachable (s s' : System) : Prop := rtc sys_step s s'.

End Worker.
