(* ===== verification/DNSServed.v ===== *)
(** * An active zone is served

    The system's main promise about DNS ([active_zone_is_served]): when a zone's row
    says active, the files the name server reads are those of the zone as the tables
    have it now, whatever happened before. The proof is an invariant of the system's
    steps; what a handler may do to a zone is the preorder [Moves]. *)

From S2P Require Import Prelude Tx Tables GoStr Site DNSTypes DNSRecord DNSPlan DNSTables DNSTemplateStore DNSZoneStore DNSSync DNSEdit DNSProvision DNSStoreFacts DNSConverge DNSInvariant DNSAgent DNSRender DNSAgentProps Files FilesProps DNSApply DNSApplyProps DNSWorker.
From stdpp Require Import relations.
Open Scope Z_scope.

(** ** What happens to a zone *)

(** A zone keeps its row, and unless its desired revision rises it keeps its
    configuration and its records. *)
Definition kept_zones (s s' : DNSStore) : Prop :=
  ∀ id z, zone_by_id id s = Ok z → ∃ z', zone_by_id id s' = Ok z' ∧
    zr_DesiredRevision z ≤ zr_DesiredRevision z' ∧
    (zr_DesiredRevision z' = zr_DesiredRevision z →
       zone_config z' = zone_config z ∧ zone_records id s' = zone_records id s).

(** And it is not made active. *)
Record Moves (s s' : DNSStore) : Prop := {
  mv_zones : kept_zones s s';
  mv_active : ∀ id z', zone_by_id id s' = Ok z' → zr_Status z' = "active" →
    ∃ z, zone_by_id id s = Ok z ∧ activates z z';
}.

#[export] Instance Moves_preorder : PreOrder Moves.
Proof.
  split.
  - intros s. split; [intros id z Hz; exists z; split; [done|]; split; [lia|done]|].
    intros id z Hz _. exists z. split; [done|]. by intros ?.
  - intros s1 s2 s3 [Hz Ha] [Hz' Ha']. split.
    + intros id z (z2 & H2 & L2 & E2)%Hz. apply Hz' in H2 as (z3 & H3 & L3 & E3). exists z3.
      split; [done|]. split; [lia|]. intros E.
      destruct E2 as [C2 R2]; [lia|]. destruct E3 as [C3 R3]; [lia|]. split; congruence.
    + intros id z3 H3 E3. destruct (Ha' _ _ H3 E3) as (z2 & H2 & A2). destruct (A2 E3) as [E2 D2].
      destruct (Ha _ _ H2 E2) as (z1 & H1 & A1). exists z1. split; [done|]. intros _.
      destruct (A1 E2) as [E1 D1]. split; [done|congruence].
Qed.

Lemma Evolves_moves s s' : Evolves s s' → Moves s s'.
Proof.
  intros [Hc [zs Hf]]. split; [|by apply (fr_active _ _ _ Hf)].
  intros id z Hz. destruct (fr_zones _ _ _ Hf _ _ Hz) as (z' & Hz' & Hle). exists z'. split; [done|]. split; [done|].
  intros E. destruct (decide (zone_config z' = zone_config z ∧ zone_records id s' = zone_records id s)) as [|Hne]; [done|].
  exfalso. destruct (Hc id) as (z2 & bulk & Hz2 & Hlt & _).
  - unfold zone_data, config_of. rewrite Hz, Hz'. intros [= E1 E2 E3 E4 E5 E6 E7 E8 E9]. apply Hne. split; [|done].
    unfold zone_config. congruence.
  - specialize (Hlt _ Hz). assert (z2 = z') as -> by congruence. lia.
Qed.

Lemma Frame_moves s s' : Frame [] s s' → Moves s s'.
Proof. intros Hf. by apply Evolves_moves, Evolves_frame. Qed.

Lemma moves_same s s' : db_Records s' = db_Records s → db_Zones s' = db_Zones s → Moves s s'.
Proof.
  intros Er Ez. assert (∀ id, zone_by_id id s' = zone_by_id id s) as E by (intros id; unfold zone_by_id; by rewrite Ez).
  split.
  - intros id z Hz. exists z. rewrite E. split; [done|]. split; [lia|]. intros _. unfold zone_records. by rewrite Er.
  - intros id z Hz _. rewrite E in Hz. exists z. split; [done|]. by intros ?.
Qed.

Lemma moves_write f :
  (∀ s, db_Records (f s) = db_Records s ∧ db_Zones (f s) = db_Zones s) → steps Moves (tx_write f).
Proof. intros Hf. apply steps_write. intros s. by apply moves_same; apply Hf. Qed.

Lemma moves_update_zones p f :
  (∀ z, p z = true → zone_kept [] z (f z)) → (∀ z, zr_ID (f z) = zr_ID z) → steps Moves (update_zones p f).
Proof. intros Hf Hid s a s' Hu. apply Frame_moves. revert Hu. by apply frame_update_zones. Qed.

Lemma moves_update_runs p f : steps Moves (update_runs p f).
Proof. by apply moves_write. Qed.
Lemma moves_update_items p f : steps Moves (update_items p f).
Proof. by apply moves_write. Qed.
Lemma moves_insert_job job : steps Moves (insert_job job).
Proof. by apply moves_write. Qed.
Lemma moves_query {A} (f : DNSStore → result A) : steps Moves (tx_query f).
Proof. apply steps_query, _. Qed.

Lemma moves_insert_run run : steps Moves (insert_run run).
Proof. unfold insert_run. tx_steps. by apply moves_write. Qed.
Lemma moves_insert_item item : steps Moves (insert_item item).
Proof. unfold insert_item. tx_steps. by apply moves_write. Qed.

#[export] Hint Resolve moves_update_runs moves_update_items moves_insert_job moves_query moves_insert_run
  moves_insert_item : tx_steps.

Section Handlers.
Context `{GoUnicode} `{GoMapOrder} `{Collation}.
Context (fingerprint : fingerprintData → string).

Lemma moves_insertRevision actorID template : steps Moves (insertRevisionTx actorID template).
Proof. unfold insertRevisionTx. tx_steps. by apply moves_write. Qed.
Lemma moves_activate id : steps Moves (activate_revision id).
Proof. by apply moves_write. Qed.
Lemma moves_mark : steps Moves markZonesOutOfSyncTx.
Proof. apply moves_update_zones; [keep_zone|done]. Qed.
Hint Resolve moves_insertRevision moves_activate moves_mark : tx_steps.

Lemma moves_createRevision actorID expected mutate : steps Moves (createRevision actorID expected mutate).
Proof. unfold createRevision. tx_steps. Qed.
Lemma moves_resetTemplate actorID expected : steps Moves (ResetTemplate actorID expected).
Proof. unfold ResetTemplate. tx_steps. Qed.

Lemma moves_previewWith random actorID scope zid adopt :
  steps Moves (PreviewWithAdoption fingerprint random actorID scope zid adopt).
Proof. unfold PreviewWithAdoption. tx_steps. Qed.
Lemma moves_previewSite random actorID zone : steps Moves (previewSiteZone fingerprint random actorID zone).
Proof. unfold previewSiteZone. tx_steps. Qed.
Hint Resolve moves_previewWith moves_previewSite : tx_steps.
Lemma moves_applyZone random actorID siteID adopt : steps Moves (ApplyZoneWithAdoption fingerprint random actorID siteID adopt).
Proof. unfold ApplyZoneWithAdoption. tx_steps. Qed.
Lemma moves_retry random actorID runID : steps Moves (RetryPreview fingerprint random actorID runID).
Proof. unfold RetryPreview. tx_steps. Qed.

Lemma moves_applyPreview river actorID runID token confirmation s :
  Moves s (snd (ApplyPreview river actorID runID token confirmation s)).
Proof.
  unfold ApplyPreview. destruct (negb river); [done|]. destruct (negb _); [done|].
  assert (steps Moves (apply_preview_tx actorID runID token confirmation)) as Htx
    by (unfold apply_preview_tx, stale_run; tx_steps).
  unfold run_tx. destruct (apply_preview_tx _ _ _ _ s) as [[[e|] s']|e] eqn:E; [by eapply Htx|by eapply Htx|done].
Qed.

Lemma moves_applySitePreview river actorID siteID runID token confirmation s :
  Moves s (snd (ApplySitePreview river actorID siteID runID token confirmation s)).
Proof.
  unfold ApplySitePreview. destruct (zoneForSiteTx siteID s); [|done]. destruct (run_by_id runID s); [|done]. cbv zeta.
  destruct (_ =? 0); [done|]. destruct (_ || _); [done|]. apply moves_applyPreview.
Qed.

Lemma moves_run_target now runID scope template adopt targets s :
  Moves s (foldl (apply_target fingerprint now runID scope template adopt) s targets).
Proof.
  revert s. induction targets as [|t targets IH]; intros s; [done|]. cbn [foldl]. etransitivity; [|apply IH].
  unfold apply_target, run_tx. destruct (applyZonePlan _ _ _ _ _ _ _ _ s) as [[a s']|e] eqn:E.
  - by eapply Evolves_moves, apply_evolves.
  - destruct (set_item _ _ _ s) as [[u s']|e'] eqn:Ei; [|done]. cbn [snd]. revert Ei. unfold set_item. apply moves_update_items.
Qed.

Lemma moves_applyRun now runID s : Moves s (snd (applyRun fingerprint now runID s)).
Proof.
  unfold applyRun. destruct (run_by_id runID s) as [run|]; [|done]. destruct (one_of _ _); [done|].
  destruct (negb _); [done|]. destruct (activeTemplate s) as [template|]; [|done].
  destruct (negb _); [apply (steps_run Moves), moves_update_runs|].
  assert (∀ s, Moves s (snd (run_tx (refreshRunStatus runID) s))) as Hend.
  { intros s0. apply (steps_run Moves). unfold refreshRunStatus. tx_steps. }
  etransitivity; [|apply Hend]. set (mark := update_runs _ _).
  etransitivity; [exact (steps_run Moves mark s (moves_update_runs _ _))|]. apply moves_run_target.
Qed.

Lemma moves_failed id message : steps Moves (MarkDNSFailed id message).
Proof. apply moves_update_zones; [keep_zone|done]. Qed.

Lemma moves_refreshRuns id : steps Moves (refreshDNSSyncRunsTx id).
Proof. unfold refreshDNSSyncRunsTx. tx_steps. Qed.

Lemma moves_revisionFailed id revision message : steps Moves (MarkDNSRevisionFailed id revision message).
Proof.
  unfold MarkDNSRevisionFailed. tx_steps; [|apply moves_refreshRuns]. apply moves_update_zones; [keep_zone|done].
Qed.

Lemma perform_moves op s : StoreOk s → reports_active op = false → Moves s (perform fingerprint op s).
Proof.
  intros Hs Hop. destruct op; cbn [perform] in *; try done; [|try (apply (steps_run Moves))..].
  - unfold run_tx. destruct (run_edit fingerprint e s) as [[a s']|err] eqn:E; [|done]. cbn [snd].
    eapply Evolves_moves, edit_evolves; [apply (ok_records _ Hs)|apply (ok_zones _ Hs)|exact E].
  - apply moves_createRevision.
  - apply moves_resetTemplate.
  - apply moves_previewWith.
  - apply moves_applyZone.
  - apply moves_retry.
  - apply moves_applyPreview.
  - apply moves_applySitePreview.
  - apply moves_applyRun.
  - apply moves_failed.
  - apply moves_revisionFailed.
  - by apply moves_same.
Qed.
End Handlers.

(** ** The invariant *)

Section Served.
Context `{GoUnicode} `{GoMapOrder} `{Collation} `{RevisionCodec}.
Context (fingerprint : fingerprintData → string) (p : DNSProvisioner).

(** A mode as the agent reads it. *)
Definition agent_mode (mode : string) : string :=
  let mode := to_lower (trim_space mode) in if String.eqb mode "" then "primary" else mode.

(** The records a request for the zone carries. *)
Definition table_records (id : Z) (mode : string) (db : DNSStore) : list DNSRecord :=
  if String.eqb mode "primary" then merge_sort record_le (zone_records id db) else [].

(** The host serves the zone: its files are those of a request that says of the zone
    what its row and its records say, at the row's desired revision. *)
Definition served_as (z : ZoneRow) (db : DNSStore) (h : Host) : Prop :=
  ∃ req, Serves p (NormalizeDomain (zr_Domain z)) h req ∧
    dzr_ZoneID req = zr_ID z ∧ dzr_DesiredRevision req = zr_DesiredRevision z ∧
    dzr_Mode req = agent_mode (zr_Mode z) ∧ dzr_UpstreamPrimaries req = zr_UpstreamPrimaries z ∧
    dzr_Records req = table_records (zr_ID z) (zr_Mode z) db.

(** What a worker holds of a zone is no newer than the zone, and true of it as long
    as the zone's revision has not risen. *)
Definition row_current (id : Z) (req : ConfigureDNSZoneReq) (db : DNSStore) : Prop :=
  dzr_ZoneID req = id ∧ dzr_ZoneDir req = "" ∧ stored_ids req ∧
  ∃ z, zone_by_id id db = Ok z ∧ dzr_DesiredRevision req ≤ zr_DesiredRevision z ∧
    (dzr_DesiredRevision req = zr_DesiredRevision z →
       dzr_Domain req = zr_Domain z ∧ dzr_Mode req = zr_Mode z ∧ dzr_UpstreamPrimaries req = zr_UpstreamPrimaries z).

Definition request_current (id : Z) (req : ConfigureDNSZoneReq) (db : DNSStore) : Prop :=
  row_current id req db ∧
  ∀ z, zone_by_id id db = Ok z → dzr_DesiredRevision req = zr_DesiredRevision z →
    dzr_Records req = table_records id (zr_Mode z) db.

Record SystemOk (s : System) : Prop := {
  so_store : StoreOk (sys_db s);
  so_owned : agent_owned (host_files (sys_host s));
  so_rows : ∀ id req, (id, req) ∈ sys_rows s → row_current id req (sys_db s);
  so_requests : ∀ id req, (id, req) ∈ sys_requests s → request_current id req (sys_db s);
  so_answers : ∀ id req answer, (id, req, answer) ∈ sys_answers s →
    (id, req) ∈ sys_requests s ∧
    (is_ok answer = true → ∀ z, zone_by_id id (sys_db s) = Ok z → dzr_DesiredRevision req = zr_DesiredRevision z →
       agent_mode (zr_Mode z) ≠ "disabled" → served_as z (sys_db s) (sys_host s));
  so_active : ∀ id z, zone_by_id id (sys_db s) = Ok z → zr_Status z = "active" →
    agent_mode (zr_Mode z) ≠ "disabled" → served_as z (sys_db s) (sys_host s);
}.

(** *** The tables move on *)

Lemma row_current_moves id req db db' : kept_zones db db' → row_current id req db → row_current id req db'.
Proof.
  intros Hz (Hid & Hdir & Hids & z & Hrow & Hle & Hcur). split; [done|]. split; [done|]. split; [done|].
  destruct (Hz _ _ Hrow) as (z' & Hrow' & Hle' & Hsame). exists z'. split; [done|]. split; [lia|].
  intros E. destruct Hsame as [Hconfig _]; [lia|]. destruct Hcur as (? & ? & ?); [lia|].
  unfold zone_config in Hconfig. injection Hconfig as ? ? ? ? ? ? ? ?. split_and!; congruence.
Qed.

Lemma request_current_moves id req db db' : kept_zones db db' → request_current id req db → request_current id req db'.
Proof.
  intros Hm [Hrow Hrec]. split; [by eapply row_current_moves|]. intros z' Hz' E.
  destruct Hrow as (_ & _ & _ & z & Hz & Hle & _). destruct (Hm _ _ Hz) as (z2 & Hz2 & Hle2 & Hsame).
  assert (z2 = z') as -> by congruence. destruct Hsame as [Hconfig Hrecords]; [lia|].
  unfold table_records. rewrite (Hrec z Hz) by lia. unfold table_records. rewrite Hrecords.
  unfold zone_config in Hconfig. injection Hconfig as ? ? ? ? -> ? ? ?. done.
Qed.

(** A zone that keeps its revision is served if it was. *)
Lemma served_moves id z z' db db' h :
  kept_zones db db' → zone_by_id id db = Ok z → zone_by_id id db' = Ok z' → zr_DesiredRevision z' = zr_DesiredRevision z →
  served_as z db h → served_as z' db' h.
Proof.
  intros Hm Hz Hz' E (req & Hs & Hid & Hrev & Hmode & Hprim & Hrec).
  destruct (Hm _ _ Hz) as (z2 & Hz2 & _ & Hsame). assert (z2 = z') as -> by congruence.
  destruct (Hsame E) as [Hconfig Hrecords].
  apply zone_by_id_Ok in Hz as [_ Hzid]. apply zone_by_id_Ok in Hz' as [_ Hzid'].
  unfold zone_config in Hconfig. injection Hconfig as _ Hdom _ _ Em Ep _ _.
  exists req. rewrite Hdom, Em, Ep, Hzid'. split_and!; try congruence.
  unfold table_records. rewrite Hrecords. rewrite Hrec, Hzid. done.
Qed.

Lemma disabled_moves id z z' db db' :
  kept_zones db db' → zone_by_id id db = Ok z → zone_by_id id db' = Ok z' → zr_DesiredRevision z' = zr_DesiredRevision z →
  zr_Mode z' = zr_Mode z.
Proof.
  intros Hm Hz Hz' E. destruct (Hm _ _ Hz) as (z2 & Hz2 & _ & Hsame). assert (z2 = z') as -> by congruence.
  destruct (Hsame E) as [Hconfig _]. unfold zone_config in Hconfig. by injection Hconfig.
Qed.

Lemma tables_step s db' :
  SystemOk s → kept_zones (sys_db s) db' → StoreOk db' →
  (∀ id z, zone_by_id id db' = Ok z → zr_Status z = "active" → agent_mode (zr_Mode z) ≠ "disabled" →
     served_as z db' (sys_host s)) →
  SystemOk (mkSystem db' (sys_host s) (sys_rows s) (sys_requests s) (sys_answers s)).
Proof.
  intros [Hstore Hown Hrows Hreqs Hans _] Hm Hstore' Hact'. split; cbn; [done|done|..|exact Hact'].
  - intros id req Hin. by eapply row_current_moves, Hrows.
  - intros id req Hin. by eapply request_current_moves, Hreqs.
  - intros id req answer Hin. destruct (Hans _ _ _ Hin) as [Hreq Hserved]. split; [done|].
    intros Hok z' Hz' E Hmode. destruct (Hreqs _ _ Hreq) as [(_ & _ & _ & z & Hz & Hle & _) _].
    destruct (Hm _ _ Hz) as (z2 & Hz2 & Hle2 & _). assert (z2 = z') as -> by congruence.
    assert (zr_DesiredRevision z' = zr_DesiredRevision z) as Er by lia.
    eapply served_moves; [exact Hm|exact Hz|exact Hz'|exact Er|]. apply (Hserved Hok _ Hz); [lia|].
    by rewrite <- (disabled_moves _ _ _ _ _ Hm Hz Hz' Er).
Qed.
Lemma moves_step s db' :
  SystemOk s → Moves (sys_db s) db' → StoreOk db' →
  SystemOk (mkSystem db' (sys_host s) (sys_rows s) (sys_requests s) (sys_answers s)).
Proof.
  intros Hs [Hm Ha] Hstore'. apply tables_step; [done..|]. intros id z' Hz' Hactive Hmode.
  destruct (Ha _ _ Hz' Hactive) as (z & Hz & Hact). destruct (Hact Hactive) as [Ez Er].
  eapply served_moves; [exact Hm|exact Hz|exact Hz'|exact Er|]. apply (so_active _ Hs _ _ Hz Ez).
  by rewrite <- (disabled_moves _ _ _ _ _ Hm Hz Hz' Er).
Qed.

(** *** The worker reads *)

Lemma row_step id req db : load_row id db = Ok req → stored_ids req → row_current id req db.
Proof.
  unfold load_row. rewrite result_bind_Ok. intros (zone & Hz & Hl) Hids. rewrite result_bind_Ok in Hl.
  destruct Hl as (site & _ & Hl). rewrite result_bind_Ok in Hl. destruct Hl as (revision & _ & [= <-]).
  split; [by apply zone_by_id_Ok in Hz as [_ ?]|]. split; [done|]. split; [done|]. exists zone. cbn. split; [done|]. split; [lia|done].
Qed.

Lemma records_step id req db : row_current id req db → request_current id (load_records id req db) db.
Proof.
  intros Hrow. split; [exact Hrow|]. intros z Hz E. destruct Hrow as (_ & _ & _ & z0 & Hz0 & _ & Hcur).
  assert (z0 = z) as -> by congruence. destruct (Hcur E) as (_ & Hmode & _). cbn. by rewrite Hmode.
Qed.

(** *** The agent answers *)

Lemma normalized_fields req nreq now :
  normalizeDNSZoneRequest req (dp_zoneDir p) now = Ok nreq →
  dzr_ZoneID nreq = dzr_ZoneID req ∧ dzr_DesiredRevision nreq = dzr_DesiredRevision req ∧
  dzr_Domain nreq = NormalizeDomain (dzr_Domain req) ∧ dzr_Mode nreq = agent_mode (dzr_Mode req) ∧
  dzr_UpstreamPrimaries nreq = dzr_UpstreamPrimaries req ∧ dzr_Records nreq = dzr_Records req ∧
  (stored_ids req → stored_ids nreq).
Proof. intros Hn%normalizeDNSZoneRequest_Ok. by rewrite (nr_shape _ _ _ _ Hn). Qed.

(** What a successful call leaves serves the request. *)
Lemma configured_serves env req nreq h h' :
  Configured env p req nreq h h' → stored_ids nreq → dzr_Mode nreq ≠ "disabled" → Serves p (dzr_Domain nreq) h' nreq.
Proof.
  intros [Hn _ _ Hz _ Hm _] [Hids Ht] Hmode. apply String.eqb_neq in Hmode as E. rewrite E in Hz, Hm.
  destruct Hz. by split; auto.
Qed.

Context (Hlo : Layout p) (Hcl : CodecLaws) (Happart : dir_key (dp_zoneDir p) ≠ dir_key (dp_includeDir p)).

Lemma agent_answers env named now id req db h answer h' z :
  Recoverable env → Honest env → agent_owned (host_files h) → request_current id req db →
  ConfigureDNSZone env named p now req h = (answer, h') → zone_by_id (zr_ID z) db = Ok z →
  agent_mode (zr_Mode z) ≠ "disabled" → served_as z db h → served_as z db h'.
Proof.
  intros Hrc Hho Hown [(Hid & Hdir & Hids & z1 & Hz1 & Hle & Hcur) Hrec] Hrun Hz Hmode (req0 & Hs & Hid0 & Hrev0 & Hfields).
  destruct answer as [res|e].
  2: { destruct (failed_restores env named p _ _ _ _ _ Hrc Hown Hrun) as [E _]. exists req0. split; [|done].
       by apply (Serves_files p _ h). }
  destruct (configure_Ok env named p Hho Hlo _ _ _ _ _ Hdir Hrun) as (nreq & Hnorm & _ & Hconf).
  destruct (normalized_fields _ _ _ Hnorm) as (Eid & Erev & Edom & Emode & Eprim & Erec & Hids').
  destruct (decide (dzr_Domain nreq = NormalizeDomain (zr_Domain z))) as [Hdom|Hdom].
  - assert (newer (dnsRevisionForRequest req0) (dnsRevisionForRequest nreq)) as (_ & _ & Ezone & Hnew).
    { apply (served_marker env p Hlo Hcl _ _ _ _ Hs); [exact (cd_normal _ _ _ _ _ _ Hconf)|done|..].
      - apply (cd_readable _ _ _ _ _ _ Hconf). unfold zone_paths. set_solver.
      - apply (cd_marker_before _ _ _ _ _ _ Hconf). by apply Hids'. }
    cbn in Ezone, Hnew. assert (id = zr_ID z) as -> by congruence. assert (z1 = z) as -> by congruence.
    assert (dzr_DesiredRevision req = zr_DesiredRevision z) as Er by lia. destruct (Hcur Er) as (_ & Em & Ep).
    exists nreq. rewrite <- Hdom, Emode, Eprim, Erec, (Hrec _ Hz Er), Em, Ep.
    split; [|split_and!; congruence]. eapply configured_serves; [exact Hconf|by apply Hids'|]. by rewrite Emode, Em.
  - exists req0. split; [|done]. destruct Hconf as [Hn _ _ _ _ _ Hothers]. destruct Hs as [Hn0 Hd0 Hm0 Hi0 Hmk Hinc Hzf].
    destruct (other_domain p Hlo Happart req0 nreq) as (? & ? & ?); [done..|congruence|].
    split; [done..| | |]; rewrite !Hothers by done; done.
Qed.

Lemma answer_serves env named now id req db h res h' z :
  Honest env → request_current id req db → ConfigureDNSZone env named p now req h = (Ok res, h') →
  zone_by_id id db = Ok z → dzr_DesiredRevision req = zr_DesiredRevision z → agent_mode (zr_Mode z) ≠ "disabled" →
  served_as z db h'.
Proof.
  intros Hho [(Hid & Hdir & Hids & z1 & Hz1 & Hle & Hcur) Hrec] Hrun Hz Er Hmode.
  assert (z1 = z) as -> by congruence. destruct (Hcur Er) as (Ed & Em & Ep).
  destruct (configure_Ok env named p Hho Hlo _ _ _ _ _ Hdir Hrun) as (nreq & Hnorm & _ & Hconf).
  destruct (normalized_fields _ _ _ Hnorm) as (Eid & Erev & Edom & Emode & Eprim & Erec & Hids').
  apply zone_by_id_Ok in Hz as Hzid. destruct Hzid as [_ Hzid].
  exists nreq. rewrite Emode, Eprim, Erec, (Hrec _ Hz Er), Em, Ep, Hzid, <- Ed, <- Edom.
  split; [|split_and!; congruence]. eapply configured_serves; [exact Hconf|by apply Hids'|]. by rewrite Emode, Em.
Qed.
(** *** The worker reports *)

Lemma active_run id path serial revision db a db' :
  MarkDNSActive id path serial revision db = Ok (a, db') →
  db_Records db' = db_Records db ∧
  ∃ f, db_Zones db' = rows_update (current_revision id revision) f (db_Zones db) ∧
    ∀ z, zr_ID (f z) = zr_ID z ∧ zr_DesiredRevision (f z) = zr_DesiredRevision z ∧ zone_config (f z) = zone_config z.
Proof.
  unfold MarkDNSActive. intros (zones & s0 & Hread & Hrun)%tx_bind_Ok. unfold tx_read in Hread. injection Hread as <- <-.
  destruct (_ =? 0); [done|]. apply tx_bind_Ok in Hrun as (u & s1 & ->%update_zones_run & Hrun).
  match type of Hrun with _ (?d <| db_Zones := rows_update _ ?g _ |>) = _ => set (f := g) in *; set (s1 := d <| db_Zones := _ |>) in * end.
  assert (db_Records db' = db_Records s1 ∧ db_Zones db' = db_Zones s1) as [Er Ez].
  { destruct (0 <? revision); [|by injection Hrun as _ <-].
    apply tx_bind_Ok in Hrun as (v & s2 & Hi & Hr). unfold update_items, tx_write in Hi. injection Hi as _ <-.
    unfold refreshDNSSyncRunsTx in Hr. apply tx_bind_Ok in Hr as (db1 & s3 & Hread & Hr). unfold tx_read in Hread.
    injection Hread as <- <-. unfold update_runs, tx_write in Hr. by injection Hr as _ <-. }
  rewrite Er, Ez. split; [done|]. exists f. by split.
Qed.

Lemma report_step s id req answer :
  SystemOk s → (id, req, answer) ∈ sys_answers s →
  SystemOk (mkSystem (snd (report id req answer (sys_db s))) (sys_host s) (sys_rows s) (sys_requests s) (sys_answers s)).
Proof.
  intros Hs Hin. destruct answer as [res|e]; cbn [report snd].
  2: { apply moves_step; [done| |].
       - apply (steps_run Moves), moves_revisionFailed.
       - apply (steps_run Keeps); [apply keeps_revisionFailed|apply Hs]. }
  unfold run_tx. destruct (MarkDNSActive _ _ _ _ _) as [[a db']|e] eqn:E; [|by apply moves_step; [|cbn|apply Hs]].
  cbn [snd]. assert (StoreOk db') as Hstore' by (eapply keeps_active; [exact E|apply Hs]).
  apply active_run in E as (Er & f & Ez & Hf).
  assert (∀ i, zone_by_id i db' = match zone_by_id i (sys_db s) with
            | Ok z => Ok (if current_revision id (dzr_DesiredRevision req) z then f z else z) | Err e => Err e end) as Hrow.
  { intros i. unfold zone_by_id. rewrite Ez, rows_where_update by (intros r _; by rewrite (proj1 (Hf r))).
    by destruct (rows_where _ (db_Zones (sys_db s))). }
  assert (kept_zones (sys_db s) db') as Hm.
  { intros i z Hz. eexists. rewrite Hrow, Hz. split; [reflexivity|]. destruct (Hf z) as (_ & Hd & Hc).
    unfold zone_records. rewrite Er. destruct (current_revision _ _ z); [|split; [lia|done]].
    rewrite Hd, Hc. split; [lia|done]. }
  apply tables_step; [done..|]. intros i z' Hz' Ha Hmode. destruct (zone_by_id i (sys_db s)) as [z|] eqn:Hz;
    rewrite Hrow, Hz in Hz'; [|done]. injection Hz' as E.
  assert (zone_by_id i db' = Ok z') as Hz' by (rewrite Hrow, Hz; by f_equal).
  assert (zr_DesiredRevision z' = zr_DesiredRevision z) as Erev by (rewrite <- E; destruct (current_revision _ _ z); [apply Hf|done]).
  assert (agent_mode (zr_Mode z) ≠ "disabled") as Hmode' by by rewrite <- (disabled_moves _ _ _ _ _ Hm Hz Hz' Erev).
  eapply served_moves; [exact Hm|exact Hz|exact Hz'|exact Erev|].
  destruct (current_revision id (dzr_DesiredRevision req) z) eqn:Ecur; [|subst z'; by eapply so_active].
  unfold current_revision in Ecur. apply andb_true_iff in Ecur as [Eid%Z.eqb_eq Ecur].
  apply zone_by_id_Ok in Hz as Hzid. destruct Hzid as [_ Hzid]. assert (i = id) as -> by congruence.
  destruct (so_answers _ Hs _ _ _ Hin) as [Hreq Hserved]. apply (Hserved eq_refl _ Hz); [|done].
  destruct (so_requests _ Hs _ _ Hreq) as [(_ & _ & [_ Ht] & _) _]. unfold tracked in Ht.
  apply andb_true_iff in Ht as [_ Ht%Z.ltb_lt]. apply orb_true_iff in Ecur as [E0%Z.eqb_eq|E0%Z.eqb_eq]; lia.
Qed.

(** ** Every step *)

Lemma system_step s s' : SystemOk s → sys_step fingerprint p s s' → SystemOk s'.
Proof.
  intros Hs Hstep. destruct Hstep as [op Hop|id req Hload Hids|id req Hin|id req env named now answer host lost Hin Hrc Hho Hrun|id req answer Hin].
  - apply moves_step; [done|apply perform_moves; [apply Hs|done]|apply perform_keeps, Hs].
  - destruct Hs as [Hstore Hown Hrows Hreqs Hans Hact]. split; cbn; [done|done| |done..].
    intros i r [[= -> ->]|Hin]%elem_of_cons; [by apply row_step|auto].
  - destruct Hs as [Hstore Hown Hrows Hreqs Hans Hact]. split; cbn; [done|done|done| | |done].
    + intros i r [[= -> ->]|Hin']%elem_of_cons; [by apply records_step, Hrows|auto].
    + intros i r answer Hin'. destruct (Hans _ _ _ Hin') as [? ?]. split; [by constructor|done].
  - destruct Hs as [Hstore Hown Hrows Hreqs Hans Hact].
    assert (∀ z, zone_by_id (zr_ID z) (sys_db s) = Ok z → agent_mode (zr_Mode z) ≠ "disabled" →
      served_as z (sys_db s) (sys_host s) → served_as z (sys_db s) host) as Hkeep.
    { intros z Hz Hmode. eapply agent_answers; [exact Hrc|exact Hho|exact Hown|by apply Hreqs|exact Hrun|done..]. }
    assert (∀ i z, zone_by_id i (sys_db s) = Ok z → zone_by_id (zr_ID z) (sys_db s) = Ok z) as Hself
      by (intros i z Hz; apply zone_by_id_Ok in Hz as Hzid; destruct Hzid as [_ ->]; done).
    split; cbn; [done| |done|done| |].
    + destruct answer as [res|e]; [by eapply configure_owned|].
      destruct (failed_restores env named p _ _ _ _ _ Hrc Hown Hrun) as [-> _]. done.
    + intros i r a [[= -> -> ->]|Hin']%elem_of_cons.
      * split; [done|]. intros Hok z Hz E Hmode. destruct lost; [done|]. destruct answer as [res|]; [|done].
        eapply answer_serves; [exact Hho|by apply Hreqs|exact Hrun|done..].
      * destruct (Hans _ _ _ Hin') as [? Hserved]. split; [done|]. intros Hok z Hz E Hmode.
        apply Hkeep; [by eapply Hself|done|]. by apply Hserved.
    + intros i z Hz Ha Hmode. apply Hkeep; [by eapply Hself|done|]. by eapply Hact.
  - by apply report_step.
Qed.

(** The tables are sound, no zone is said to be active, no worker runs, and the
    agent owns its files. *)
Definition system_start (s : System) : Prop :=
  StoreOk (sys_db s) ∧ Forall (λ z, zr_Status z ≠ "active") (db_Zones (sys_db s)) ∧
  agent_owned (host_files (sys_host s)) ∧ sys_rows s = [] ∧ sys_requests s = [] ∧ sys_answers s = [].

Lemma start_ok s : system_start s → SystemOk s.
Proof.
  intros (Hstore & Hinactive & Hown & Er & Eq & Ea). split; [done|done|..]; rewrite ?Er, ?Eq, ?Ea.
  - by intros id req ?%elem_of_nil.
  - by intros id req ?%elem_of_nil.
  - by intros id req answer ?%elem_of_nil.
  - intros id z [Hz _]%zone_by_id_Ok Ha. rewrite Forall_forall in Hinactive. by destruct (Hinactive z Hz).
Qed.

Lemma reachable_ok s s' : SystemOk s → sys_reachable fingerprint p s s' → SystemOk s'.
Proof. intros Hs Hreach. revert Hs. induction Hreach as [|s1 s2 s3 Hstep _ IH]; [done|]. intros Hs. eapply IH, system_step; done. Qed.

End Served.

(** C1. What the tables call active is what the name server is given. Let handlers
    edit zones and templates, synchronisations run, and any number of workers read
    rows and records, call the agent and report, interleaved in any order, with
    calls that fail part-way, answers that are lost and requests sent twice. Whenever
    a zone's row then says active (and its mode is not disabled), the host's files of
    its domain, the zone file, the name server's configuration and the revision
    marker, are those of one request: it has the row's revision, mode and upstream
    servers, and exactly the records the table holds for the zone at this moment. *)
Theorem active_zone_is_served `{GoUnicode} `{GoMapOrder} `{Collation} `{RevisionCodec}
    (fingerprint : fingerprintData → string) (p : DNSProvisioner) (s0 s : System) (id : Z) (z : ZoneRow) :
  Layout p → CodecLaws → dir_key (dp_zoneDir p) ≠ dir_key (dp_includeDir p) →
  system_start s0 → sys_reachable fingerprint p s0 s →
  zone_by_id id (sys_db s) = Ok z → zr_Status z = "active" → agent_mode (zr_Mode z) ≠ "disabled" →
  served_as p z (sys_db s) (sys_host s).
Proof.
  intros Hlo Hcl Happart Hstart Hreach Hz Ha Hmode.
  assert (SystemOk p s) as Hs by (eapply reachable_ok; [done..|by apply start_ok|exact Hreach]).
  by eapply so_active.
Qed.

(** * Witness

    A record is added, a worker reads the zone, the agent applies it, and the worker
    reports. *)

Module ServedSamples.
Import StoreSamples.

Definition codec : RevisionCodec := @ApplySamples.binary_codec ascii_only.
Definition fingerprint : fingerprintData → string := λ _, "".

Definition installed : DNSStore := db <| db_Zones := [zone <| zr_Status := "pending" |>] |>.
Definition after_edit : DNSStore :=
  @perform ascii_only insertion_order byte_order fingerprint (OpZone edit) installed.

Definition row : ConfigureDNSZoneReq :=
  match @load_row insertion_order 10 after_edit with Ok req => req | Err _ => zero_ConfigureDNSZoneReq end.
Definition request : ConfigureDNSZoneReq := @load_records byte_order 10 row after_edit.

Definition run : result ConfigureDNSZoneResult * Host :=
  @ConfigureDNSZone ascii_only insertion_order codec ApplySamples.calm ApplySamples.bind ApplySamples.server 3000 request
    ApplySamples.empty_host.

Definition start : System := mkSystem installed ApplySamples.empty_host [] [] [].
Definition edited : System := mkSystem after_edit ApplySamples.empty_host [] [] [].
Definition reading : System := mkSystem after_edit ApplySamples.empty_host [(10, row)] [] [].
Definition requested : System := mkSystem after_edit ApplySamples.empty_host [(10, row)] [(10, request)] [].
Definition answered : System := mkSystem after_edit (snd run) [(10, row)] [(10, request)] [(10, request, fst run)].
Definition reported : System :=
  mkSystem (snd (report 10 request (fst run) after_edit)) (snd run) [(10, row)] [(10, request)] [(10, request, fst run)].

Definition reached (s s' : System) : Prop :=
  @sys_reachable ascii_only insertion_order byte_order codec fingerprint ApplySamples.server s s'.

Lemma start_sound : system_start start.
Proof.
  destruct StoreSamples_ok as [? ? ? ? ? ? ?]. split; [|split; [|split; [|done]]].
  - split; try done; (apply (bool_decide_unpack _); vm_compute; done).
  - apply Forall_singleton. discriminate.
  - intros path data mode owned Hf. cbn in Hf. by rewrite lookup_empty in Hf.
Qed.

Lemma row_loaded : @load_row insertion_order 10 after_edit = Ok row.
Proof. vm_compute. reflexivity. Qed.

Lemma row_stored : stored_ids row.
Proof. split; [|vm_compute; reflexivity]. repeat split; vm_compute; discriminate. Qed.

(** The steps of a state given by its parts. *)
Section Steps.
Context `{GoUnicode} `{GoMapOrder} `{Collation} `{RevisionCodec} (f : fingerprintData → string) (p : DNSProvisioner).
Context (db : DNSStore) (h : Host) (rows reqs : list (Z * ConfigureDNSZoneReq))
  (answers : list (Z * ConfigureDNSZoneReq * result ConfigureDNSZoneResult)).

Lemma parts_row id req :
  load_row id db = Ok req → stored_ids req →
  sys_step f p (mkSystem db h rows reqs answers) (mkSystem db h ((id, req) :: rows) reqs answers).
Proof. intros Hl Hi. exact (step_row f p (mkSystem db h rows reqs answers) id req Hl Hi). Qed.

Lemma parts_records id req :
  (id, req) ∈ rows →
  sys_step f p (mkSystem db h rows reqs answers) (mkSystem db h rows ((id, load_records id req db) :: reqs) answers).
Proof. intros Hin. exact (step_records f p (mkSystem db h rows reqs answers) id req Hin). Qed.

Lemma parts_agent id req env named now answer h' :
  (id, req) ∈ reqs → Recoverable env → Honest env → ConfigureDNSZone env named p now req h = (answer, h') →
  sys_step f p (mkSystem db h rows reqs answers) (mkSystem db h' rows reqs ((id, req, answer) :: answers)).
Proof. intros Hin Hrc Hho Hrun. exact (step_agent f p (mkSystem db h rows reqs answers) id req env named now answer h' None Hin Hrc Hho Hrun). Qed.

Lemma parts_report id req answer :
  (id, req, answer) ∈ answers →
  sys_step f p (mkSystem db h rows reqs answers) (mkSystem (snd (report id req answer db)) h rows reqs answers).
Proof. intros Hin. exact (step_report f p (mkSystem db h rows reqs answers) id req answer Hin). Qed.
End Steps.

Notation step s s' :=
  (@sys_step ascii_only insertion_order byte_order codec fingerprint ApplySamples.server s s') (only parsing).

Lemma step_edit : step start edited.
Proof. exact (@step_tables ascii_only insertion_order byte_order codec fingerprint ApplySamples.server start (OpZone edit) eq_refl). Qed.

Lemma step_read : step edited reading.
Proof. unfold edited, reading. apply (parts_row _ _ _ _ _ _ _ _ _ row_loaded row_stored). Qed.

Lemma step_request : step reading requested.
Proof. unfold reading, requested, request. apply parts_records. constructor. Qed.

Lemma step_answer : step requested answered.
Proof.
  unfold requested, answered. apply (parts_agent _ _ _ _ _ _ _ 10 request ApplySamples.calm ApplySamples.bind 3000).
  - constructor.
  - exact ApplySamples.calm_recoverable.
  - exact ApplySamples.calm_honest.
  - unfold run. apply surjective_pairing.
Qed.

Lemma step_reported : step answered reported.
Proof. unfold answered, reported. apply parts_report. constructor. Qed.

Lemma start_reaches : reached start reported.
Proof.
  eapply rtc_l; [exact step_edit|]. eapply rtc_l; [exact step_read|]. eapply rtc_l; [exact step_request|].
  eapply rtc_l; [exact step_answer|]. apply rtc_once. exact step_reported.
Qed.
End ServedSamples.

Lemma active_zone_is_served_witness :
  match zone_by_id 10 (sys_db ServedSamples.reported) with
  | Ok z => zr_Status z = "active" ∧ zr_DesiredRevision z = 6 ∧
      length (zone_records 10 (sys_db ServedSamples.reported)) = 4%nat ∧
      @served_as ascii_only StoreSamples.byte_order ServedSamples.codec ApplySamples.server z
        (sys_db ServedSamples.reported) (sys_host ServedSamples.reported)
  | Err _ => False
  end.
Proof.
  destruct (zone_by_id 10 (sys_db ServedSamples.reported)) as [z|e] eqn:Hz; [|vm_compute in Hz; discriminate Hz].
  assert (zr_Status z = "active" ∧ zr_DesiredRevision z = 6 ∧ zr_Mode z = "primary") as (Ha & Hrev & Hmode)
    by (vm_compute in Hz; injection Hz as <-; auto).
  split; [exact Ha|]. split; [exact Hrev|]. split; [vm_compute; reflexivity|].
  refine (@active_zone_is_served ascii_only insertion_order StoreSamples.byte_order ServedSamples.codec
    ServedSamples.fingerprint ApplySamples.server ServedSamples.start ServedSamples.reported 10 z ApplySamples.default_layout
    (@ApplySamples.binary_codec_laws ascii_only) _ ServedSamples.start_sound ServedSamples.start_reaches Hz Ha _).
  - vm_compute. discriminate.
  - rewrite Hmode. vm_compute. discriminate.
Defined.
