(* ===== verification/DNSFindings.v ===== *)
(** * Sequences the code does not carry out as meant

    Concrete executions of the model, each ending where the code's own purpose
    does not: kept as regression examples for the day they are repaired. *)

From S2P Require Import Prelude Tx Tables GoStr Site DNSTypes DNSRecord DNSPlan DNSTables DNSTemplateStore DNSZoneStore DNSSync DNSEditProps DNSProvision DNSAgent DNSRender DNSConverge DNSInvariant Files DNSApply DNSApplyProps.

Import StoreSamples.

(** ** Exchanging the provider's nameservers

    The two nameserver records of a zone exchange their values. The plan is two
    updates of one row each, and whichever runs first meets the other row's value:
    the zone never takes the new template, in any order of the map. *)

Module Nameservers.

Definition provider_zone : ZoneRow := zone.
Definition settings primary secondary : DNSProviderDefaults := mkDNSProviderDefaults primary secondary.

Definition provided (template : DNSTemplateRevision) (input : DNSProviderDefaults) : DNSTemplateRevision :=
  match @withProviderDefaults ascii_only insertion_order template input with Ok t => t | Err _ => template end.

Definition before : DNSTemplateRevision := provided revision (settings "ns1.provider.net" "ns2.provider.net").
Definition exchanged : DNSTemplateRevision := provided before (settings "ns2.provider.net" "ns1.provider.net").

Definition plan_of (template : DNSTemplateRevision) (db : DNSStore) : zonePlan :=
  match @zoneByID insertion_order byte_order 10 db with
  | Ok snapshot => @compareWholeZone ascii_only insertion_order template snapshot
  | Err _ => empty_plan
  end.

(** The sample zone with the records of the first settings. *)
Definition served : DNSStore :=
  snd (run_tx (@applyZonePlanMutationsTx insertion_order 10 1 (plan_of before db)) db).

Definition apply_exchange (order : GoMapOrder) : result unit :=
  fst (run_tx (@applyZonePlanMutationsTx order 10 2 (plan_of exchanged served)) served).
End Nameservers.

Lemma exchanged_nameservers_never_apply :
  (rec_Value <$> rows_where (λ r, String.eqb (rec_Type r) "NS") (db_Records Nameservers.served))
    = ["ns1.provider.net"; "ns2.provider.net"] ∧
  size (plan_update (Nameservers.plan_of Nameservers.exchanged Nameservers.served)) = 2%nat ∧
  item_Outcome (plan_item (Nameservers.plan_of Nameservers.exchanged Nameservers.served)) = "updated" ∧
  Nameservers.apply_exchange insertion_order = Err unique_violation ∧
  Nameservers.apply_exchange reverse_order = Err unique_violation.
Proof. vm_compute. split_and!; reflexivity. Qed.

(** ** A preview that a finished zone uses up

    An edit queues revision 6 of the zone. Before the zone worker is done the
    administrator previews the template; then the worker reports revision 6. The
    report marks the previewed run active although it was never confirmed, and
    its confirmation is refused as stale although nothing has changed. *)

Module Overtaken.
Definition fingerprint (plan : fingerprintData) : string := itoa (Z.of_nat (length (fp_Add plan))).
Definition edited : DNSStore := after edit.
Definition previewed : DNSStore :=
  @perform ascii_only insertion_order byte_order fingerprint (OpPreview "0f" 1 "all" 0 false) edited.
Definition reported : DNSStore :=
  @perform ascii_only insertion_order byte_order fingerprint (OpActive 10 "/etc/bind/example.com" 2000 6) previewed.
Definition confirm (db : DNSStore) : result unit :=
  fst (@ApplyPreview ascii_only true 1 1 "dns_0f" "APPLY DNS TEMPLATE" db).
End Overtaken.

Lemma reported_zone_uses_up_preview :
  sr_Status <$> db_Runs Overtaken.previewed = ["preview"] ∧ Overtaken.confirm Overtaken.previewed = Ok () ∧
  zr_DesiredRevision <$> db_Zones Overtaken.reported = zr_DesiredRevision <$> db_Zones Overtaken.previewed ∧
  sr_Status <$> db_Runs Overtaken.reported = ["active"] ∧ Overtaken.confirm Overtaken.reported = Err ErrStalePreview.
Proof. vm_compute. split_and!; reflexivity. Qed.

(** ** Text that ends in a backslash

    Quotation marks are escaped in the zone file, backslashes are not: a value that
    ends in one escapes the closing quotation mark, and one before a quotation mark
    closes the string early. Both are accepted on the way to the zone file. *)

Module Backslash.
Definition text (value : string) : DNSRecord := EditSamples.record "TXT" value.
Definition at_end : string := "C:" +:+ String backslash "".
Definition before_quote : string := "a" +:+ escaped_quote +:+ "b".
End Backslash.

Lemma backslash_breaks_zone_file :
  Forall (λ value,
      @normalizeRecord ascii_only "example.com" (Backslash.text value) = Ok (Backslash.text value) ∧
      @validateDNSRecordAtAgent ascii_only (Backslash.text value) = Ok () ∧
      read_txt (renderTXTValue value) = None)
    [Backslash.at_end; Backslash.before_quote].
Proof. repeat (apply Forall_cons; split); [vm_compute; auto..|constructor]. Qed.

(** ** A digest type with a leading zero

    The template reads the digest type of a DS record as a number, the agent as one
    digit: the template's zone is refused as a whole. *)

Module DigestType.
Definition ds : DNSRecord :=
  (EditSamples.record "DS" "12345 8 01 0123456789abcdef0123456789abcdef01234567") <| rec_Host := "child" |>.
End DigestType.

Lemma digest_type_disagrees :
  @normalizeRecord ascii_only "example.com" DigestType.ds = Ok DigestType.ds ∧
  @validateDNSRecordAtAgent ascii_only DigestType.ds = Err (errors_New "invalid DS record").
Proof. vm_compute. auto. Qed.

(** ** A serial that goes backwards

    Configuring a site whose zone exists already writes the time as its serial
    whatever the zone's format. A zone that counts by date is then behind what its
    secondaries have: 2026010101 is followed by seconds since 1970. *)

Module Reconfigured.
Definition dated : DNSStore := db <| db_Zones := [zone <| zr_Serial := 2026010101 |>] |>.
Definition configured : result Z * DNSStore :=
  run_tx (@ConfigureDNS ascii_only insertion_order true true 1767225600 7 "example.com" "192.0.2.1") dated.
End Reconfigured.

Lemma reconfigured_serial_goes_back :
  fst Reconfigured.configured = Ok 10 ∧
  zr_Serial <$> db_Zones Reconfigured.dated = [2026010101] ∧
  zr_Serial <$> db_Zones (snd Reconfigured.configured) = [1767225601] ∧
  (zr_DesiredRevision <$> db_Zones (snd Reconfigured.configured)) = [7].
Proof. vm_compute. auto. Qed.

(** ** A template with a CAA record

    The template accepts CAA records, the code that instantiates a template for a
    new site does not: no site can be configured while such a template is active. *)

Module CAATemplate.
Definition caa : DNSTemplateRecord := mkDNSTemplateRecord 3 "apex-caa" "all" "@" "CAA" ("0 issue " +:+ dquote +:+ "ca.example" +:+ dquote) 0 0 0 3600.
Definition active : DNSStore :=
  (db <| db_Revisions := [revision <| tpl_Records := tpl_Records revision ++ [caa] |>] |>) <| db_Zones := [] |>
    <| db_Records := [] |>.
End CAATemplate.

Lemma caa_template_blocks_new_zones :
  is_ok (@validateTemplateRecord ascii_only insertion_order CAATemplate.caa) = true ∧
  is_ok (fst (run_tx (@ConfigureDNS ascii_only insertion_order true true 2000 7 "example.com" "192.0.2.1") CAATemplate.active)) = false.
Proof. vm_compute. auto. Qed.

(** ** A disabled zone that comes back

    Disabling a zone removes its files and its revision marker with them. A request
    of an older revision that arrives late finds no marker to compare with, and the
    disabled zone is served again. *)

Module ComesBack.
Import ApplySamples.
Definition disable : ConfigureDNSZoneReq := next <| dzr_Mode := "disabled" |>.
Definition disabled : Host := snd (configure calm disable served).
Definition returned : Host := snd (configure calm request disabled).
End ComesBack.

Lemma disabled_zone_comes_back :
  is_ok (fst (@ConfigureDNSZone ascii_only insertion_order (@ApplySamples.binary_codec ascii_only) ApplySamples.calm ApplySamples.bind
    ApplySamples.server 3000 ComesBack.disable ApplySamples.served)) = true ∧
  dzr_DesiredRevision ApplySamples.request < dzr_DesiredRevision ComesBack.disable ∧
  host_files ComesBack.disabled !! "/etc/bind/nakpanel/zones/db.example.com" = None ∧
  host_files ComesBack.returned !! "/etc/bind/nakpanel/zones/db.example.com" =
    host_files ApplySamples.served !! "/etc/bind/nakpanel/zones/db.example.com" ∧
  bool_decide (is_Some (host_files ComesBack.returned !! "/etc/bind/nakpanel/zones/db.example.com")) = true.
Proof. vm_compute. auto 10. Qed.
