(* ===== verification/OpsTypes.v ===== *)
(** * Operations: data

    The types of internal/control/operations (model.go, verification.go,
    conditions.go) and the tables the package keeps, as the migrations define
    them. A key or a number that is NULL is 0, as the queries read it
    ([COALESCE]); a time that may be NULL is an option. Times are nanoseconds
    since 1970; what the database rounds them to is not modelled. *)

From S2P Require Import Prelude Tx Tables GoStr Site.

Definition ErrNotFound : error := sentinel "operations.ErrNotFound" "operation resource not found".
Definition ErrConflict : error := sentinel "operations.ErrConflict" "operation state conflict".
Definition ErrInvalid : error := sentinel "operations.ErrInvalid" "invalid operation input".

(** ** Resources and states *)

(** What an operation, an issue or an event is about. *)
Record Resource := mkResource {
  res_Kind : string;
  res_ID : Z;
}.

#[export] Instance eta_Resource : Eta Resource := λ r,
  mkResource (res_Kind r) (res_ID r).

#[export] Instance Resource_eq_dec : EqDecision Resource.
Proof. solve_decision. Defined.

Definition ResourceServer : string := "server".
Definition ResourceSite : string := "site".
Definition ResourceSubscription : string := "subscription".
Definition ResourceCustomer : string := "customer".
Definition ResourceUser : string := "user".

Definition Resource_Valid (r : Resource) : bool :=
  if String.eqb (res_Kind r) ResourceServer then res_ID r =? 0
  else if one_of (res_Kind r) [ResourceSite; ResourceSubscription; ResourceCustomer; ResourceUser] then 0 <? res_ID r
  else false.

Definition same_resource (a b : Resource) : bool := String.eqb (res_Kind a) (res_Kind b) && (res_ID a =? res_ID b).

Definition StateQueued : string := "queued".
Definition StateRunning : string := "running".
Definition StateWaitingRetry : string := "waiting_retry".
Definition StateSucceeded : string := "succeeded".
Definition StateFailed : string := "failed".
Definition StateCancelled : string := "cancelled".

Definition Terminal (s : string) : bool := one_of s [StateSucceeded; StateFailed; StateCancelled].

(** ** Operations and attempts *)

(** A row of [operations]; the target of the struct is only shown. *)
Record Operation := mkOperation {
  op_ID : Z;
  op_Key : string;
  op_Kind : string;
  op_Resource : Resource;
  op_Title : string;
  op_Trigger : string;
  op_State : string;
  op_Stage : string;
  op_IntentRevision : Z;
}.

#[export] Instance eta_Operation : Eta Operation := λ r,
  mkOperation (op_ID r) (op_Key r) (op_Kind r) (op_Resource r) (op_Title r) (op_Trigger r) (op_State r)
    (op_Stage r) (op_IntentRevision r).

(** The input of [CreateOperation]. *)
Record NewOperation := mkNewOperation {
  no_Key : string;
  no_Kind : string;
  no_Title : string;
  no_Trigger : string;
  no_Resource : Resource;
  no_IntentRevision : Z;
}.

#[export] Instance eta_NewOperation : Eta NewOperation := λ r,
  mkNewOperation (no_Key r) (no_Kind r) (no_Title r) (no_Trigger r) (no_Resource r)
    (no_IntentRevision r).

(** A row of [operation_attempts]; [at_RiverAttempt] is set by the recorder, 1 by default. *)
Record Attempt := mkAttempt {
  at_ID : Z;
  at_OperationID : Z;
  at_Number : Z;
  at_RiverJobID : Z;
  at_RiverAttempt : Z;
  at_State : string;
  at_ErrorCode : string;
  at_StartedAt : Z;
  at_FinishedAt : option Z;
}.

#[export] Instance eta_Attempt : Eta Attempt := λ r,
  mkAttempt (at_ID r) (at_OperationID r) (at_Number r) (at_RiverJobID r) (at_RiverAttempt r)
    (at_State r) (at_ErrorCode r) (at_StartedAt r) (at_FinishedAt r).

(** ** Issues, events and conditions *)

(** Fences a receipt against a newer occurrence or intent. *)
Record VerificationToken := mkVerificationToken {
  vt_IssueID : Z;
  vt_Generation : Z;
  vt_LatestEventID : Z;
  vt_IntentRevision : Z;
}.

#[export] Instance eta_VerificationToken : Eta VerificationToken := λ r,
  mkVerificationToken (vt_IssueID r) (vt_Generation r) (vt_LatestEventID r) (vt_IntentRevision r).

(** What an independent probe proved. *)
Record VerificationReceipt := mkVerificationReceipt {
  vr_Token : VerificationToken;
  vr_IntentHash : string;
  vr_Source : string;
  vr_SourceID : Z;
  vr_Checksum : string;
  vr_SizeBytes : Z;
  vr_ObservedAt : Z;
  vr_Summary : string;
}.

#[export] Instance eta_VerificationReceipt : Eta VerificationReceipt := λ r,
  mkVerificationReceipt (vr_Token r) (vr_IntentHash r) (vr_Source r) (vr_SourceID r) (vr_Checksum r)
    (vr_SizeBytes r) (vr_ObservedAt r) (vr_Summary r).

(** A row of [issues]. The receipt is kept as JSON, from which it is read back. *)
Record Issue := mkIssue {
  is_ID : Z;
  is_Resource : Resource;
  is_Kind : string;
  is_Condition : string;
  is_Severity : string;
  is_Title : string;
  is_Summary : string;
  is_State : string;
  is_Generation : Z;
  is_Occurrences : Z;
  is_LatestEventID : Z;
  is_IntentRevision : Z;
  is_OperationID : Z;
  is_PreviousIssueID : Z;
  is_ObservedAt : Z;
  is_AcknowledgedBy : Z;
  is_AcknowledgedAt : option Z;
  is_ResolvedAt : option Z;
  is_LastCheckAt : option Z;
  is_LastCheckStatus : string;
  is_Verification : option VerificationReceipt;
}.

#[export] Instance eta_Issue : Eta Issue := λ r,
  mkIssue (is_ID r) (is_Resource r) (is_Kind r) (is_Condition r) (is_Severity r) (is_Title r)
    (is_Summary r) (is_State r) (is_Generation r) (is_Occurrences r) (is_LatestEventID r)
    (is_IntentRevision r) (is_OperationID r) (is_PreviousIssueID r) (is_ObservedAt r)
    (is_AcknowledgedBy r) (is_AcknowledgedAt r) (is_ResolvedAt r) (is_LastCheckAt r)
    (is_LastCheckStatus r) (is_Verification r).

(** The input of [ObserveIssueTx]; a zero time is [IsZero]. *)
Record Observation := mkObservation {
  ob_EventKey : string;
  ob_Resource : Resource;
  ob_Kind : string;
  ob_Condition : string;
  ob_Severity : string;
  ob_Title : string;
  ob_Summary : string;
  ob_IntentRevision : Z;
  ob_OperationID : Z;
  ob_ObservedAt : option Z;
}.

#[export] Instance eta_Observation : Eta Observation := λ r,
  mkObservation (ob_EventKey r) (ob_Resource r) (ob_Kind r) (ob_Condition r) (ob_Severity r)
    (ob_Title r) (ob_Summary r) (ob_IntentRevision r) (ob_OperationID r) (ob_ObservedAt r).

(** The input of [ObserveConditionTx]. *)
Record ConditionSample := mkConditionSample {
  cs_Resource : Resource;
  cs_Kind : string;
  cs_Condition : string;
  cs_Signature : string;
  cs_Unhealthy : bool;
  cs_Severity : string;
  cs_Title : string;
  cs_Summary : string;
  cs_IntentRevision : Z;
  cs_ObservedAt : option Z;
}.

#[export] Instance eta_ConditionSample : Eta ConditionSample := λ r,
  mkConditionSample (cs_Resource r) (cs_Kind r) (cs_Condition r) (cs_Signature r) (cs_Unhealthy r)
    (cs_Severity r) (cs_Title r) (cs_Summary r) (cs_IntentRevision r) (cs_ObservedAt r).

(** A row of [operation_condition_observations]. *)
Record ConditionRow := mkConditionRow {
  co_Resource : Resource;
  co_Kind : string;
  co_Condition : string;
  co_Signature : string;
  co_Unhealthy : bool;
  co_Generation : Z;
  co_ObservedAt : Z;
}.

#[export] Instance eta_ConditionRow : Eta ConditionRow := λ r,
  mkConditionRow (co_Resource r) (co_Kind r) (co_Condition r) (co_Signature r) (co_Unhealthy r)
    (co_Generation r) (co_ObservedAt r).

(** A row of [operation_events]. *)
Record EventRow := mkEventRow {
  ev_ID : Z;
  ev_Key : string;
  ev_Resource : Resource;
  ev_Kind : string;
  ev_OperationID : Z;
  ev_IssueID : Z;
  ev_RecipientUserID : Z;
  ev_Summary : string;
  ev_FeedCursor : option Z;
  ev_DispatchedAt : option Z;
}.

#[export] Instance eta_EventRow : Eta EventRow := λ r,
  mkEventRow (ev_ID r) (ev_Key r) (ev_Resource r) (ev_Kind r) (ev_OperationID r) (ev_IssueID r)
    (ev_RecipientUserID r) (ev_Summary r) (ev_FeedCursor r) (ev_DispatchedAt r).

(** ** Notifications and mail *)

(** A row of [notifications]. *)
Record NotificationRow := mkNotificationRow {
  nt_ID : Z;
  nt_RecipientUserID : Z;
  nt_CustomerID : Z;
  nt_ResellerID : Z;
  nt_SubscriptionID : Z;
  nt_IssueID : Z;
  nt_OperationID : Z;
  nt_Kind : string;
  nt_Severity : string;
  nt_Title : string;
  nt_Body : string;
  nt_DedupeKey : string;
  nt_ResolvedAt : option Z;
}.

#[export] Instance eta_NotificationRow : Eta NotificationRow := λ r,
  mkNotificationRow (nt_ID r) (nt_RecipientUserID r) (nt_CustomerID r) (nt_ResellerID r)
    (nt_SubscriptionID r) (nt_IssueID r) (nt_OperationID r) (nt_Kind r) (nt_Severity r) (nt_Title r)
    (nt_Body r) (nt_DedupeKey r) (nt_ResolvedAt r).

(** A row of [notification_receipts]. *)
Record ReceiptRow := mkReceiptRow {
  rc_NotificationID : Z;
  rc_UserID : Z;
  rc_ReadAt : Z;
  rc_ArchivedAt : option Z;
}.

#[export] Instance eta_ReceiptRow : Eta ReceiptRow := λ r,
  mkReceiptRow (rc_NotificationID r) (rc_UserID r) (rc_ReadAt r) (rc_ArchivedAt r).

(** A row of [notification_preferences]. *)
Record PreferenceRow := mkPreferenceRow {
  pf_UserID : Z;
  pf_EmailMode : string;
}.

#[export] Instance eta_PreferenceRow : Eta PreferenceRow := λ r,
  mkPreferenceRow (pf_UserID r) (pf_EmailMode r).

(** The row of [notification_delivery_policy]. *)
Record PolicyRow := mkPolicyRow {
  po_Enabled : bool;
  po_UpdatedAt : Z;
}.

#[export] Instance eta_PolicyRow : Eta PolicyRow := λ r,
  mkPolicyRow (po_Enabled r) (po_UpdatedAt r).

(** A row of [notification_email_batches]. *)
Record EmailBatch := mkEmailBatch {
  eb_ID : Z;
  eb_BatchKey : string;
  eb_RecipientUserID : Z;
  eb_Mode : string;
  eb_Status : string;
  eb_Attempts : Z;
  eb_NextAttemptAt : Z;
  eb_AcceptedAt : option Z;
  eb_LastError : string;
  eb_UpdatedAt : Z;
}.

#[export] Instance eta_EmailBatch : Eta EmailBatch := λ r,
  mkEmailBatch (eb_ID r) (eb_BatchKey r) (eb_RecipientUserID r) (eb_Mode r) (eb_Status r)
    (eb_Attempts r) (eb_NextAttemptAt r) (eb_AcceptedAt r) (eb_LastError r) (eb_UpdatedAt r).

(** A row of [notification_email_items]. *)
Record EmailItem := mkEmailItem {
  ei_BatchID : Z;
  ei_NotificationID : Z;
  ei_UserID : Z;
}.

#[export] Instance eta_EmailItem : Eta EmailItem := λ r,
  mkEmailItem (ei_BatchID r) (ei_NotificationID r) (ei_UserID r).

(** ** Who owns what

    The columns of [users], [reseller_accounts], [customers], [subscriptions] and
    [sites] that decide who may see a resource. *)

(** A row of [users]. *)
Record UserRow := mkUserRow {
  us_ID : Z;
  us_Role : string;
  us_Email : string;
  us_LoginDisabled : bool;
}.

#[export] Instance eta_UserRow : Eta UserRow := λ r,
  mkUserRow (us_ID r) (us_Role r) (us_Email r) (us_LoginDisabled r).

(** A row of [reseller_accounts]. *)
Record ResellerRow := mkResellerRow {
  rs_ID : Z;
  rs_LoginUserID : Z;
}.

#[export] Instance eta_ResellerRow : Eta ResellerRow := λ r,
  mkResellerRow (rs_ID r) (rs_LoginUserID r).

(** A row of [customers]; [cu_ResellerID] is 0 for a customer of the provider. *)
Record CustomerRow := mkCustomerRow {
  cu_ID : Z;
  cu_LoginUserID : Z;
  cu_ResellerID : Z;
}.

#[export] Instance eta_CustomerRow : Eta CustomerRow := λ r,
  mkCustomerRow (cu_ID r) (cu_LoginUserID r) (cu_ResellerID r).

(** A row of [subscriptions]. *)
Record SubscriptionRow := mkSubscriptionRow {
  sb_ID : Z;
  sb_CustomerID : Z;
}.

#[export] Instance eta_SubscriptionRow : Eta SubscriptionRow := λ r,
  mkSubscriptionRow (sb_ID r) (sb_CustomerID r).

(** A row of [sites]. *)
Record SiteRow := mkSiteRow {
  sw_ID : Z;
  sw_SubscriptionID : Z;
}.

#[export] Instance eta_SiteRow : Eta SiteRow := λ r,
  mkSiteRow (sw_ID r) (sw_SubscriptionID r).

(** The accounts. *)
Record Accounts := mkAccounts {
  ac_Users : list UserRow;
  ac_Resellers : list ResellerRow;
  ac_Customers : list CustomerRow;
  ac_Subscriptions : list SubscriptionRow;
  ac_Sites : list SiteRow;
}.

#[export] Instance eta_Accounts : Eta Accounts := λ r,
  mkAccounts (ac_Users r) (ac_Resellers r) (ac_Customers r) (ac_Subscriptions r) (ac_Sites r).

(** ** The database *)

(** The tables of the package, the accounts and the sequences. *)
Record OpsStore := mkOpsStore {
  os_Operations : list Operation;
  os_Attempts : list Attempt;
  os_Issues : list Issue;
  os_Conditions : list ConditionRow;
  os_Events : list EventRow;
  os_FeedCursor : Z;
  os_Notifications : list NotificationRow;
  os_Receipts : list ReceiptRow;
  os_Preferences : list PreferenceRow;
  os_Policy : PolicyRow;
  os_Batches : list EmailBatch;
  os_Items : list EmailItem;
  os_Accounts : Accounts;
  os_OperationSeq : Z;
  os_AttemptSeq : Z;
  os_IssueSeq : Z;
  os_EventSeq : Z;
  os_NotificationSeq : Z;
  os_BatchSeq : Z;
}.

#[export] Instance eta_OpsStore : Eta OpsStore := λ r,
  mkOpsStore (os_Operations r) (os_Attempts r) (os_Issues r) (os_Conditions r) (os_Events r)
    (os_FeedCursor r) (os_Notifications r) (os_Receipts r) (os_Preferences r) (os_Policy r)
    (os_Batches r) (os_Items r) (os_Accounts r) (os_OperationSeq r) (os_AttemptSeq r) (os_IssueSeq r)
    (os_EventSeq r) (os_NotificationSeq r) (os_BatchSeq r).

(** ** Validation *)

Definition validText (s : string) (max : Z) : bool :=
  negb (String.eqb (trim_space s) "") && (str_len s <=? max) && negb (contains s nul).

Definition Observation_validate (o : Observation) : result unit :=
  return_if negb (Resource_Valid (ob_Resource o)) || negb (validText (ob_EventKey o) 256) || negb (validText (ob_Kind o) 80)
            || negb (validText (ob_Condition o) 160) || negb (validText (ob_Title o) 200) || (2000 <? str_len (ob_Summary o))
            || (ob_IntentRevision o <? 0) || (ob_OperationID o <? 0) || bool_decide (ob_ObservedAt o = None)
    with ErrInvalid ;;
  return_if negb (one_of (ob_Severity o) ["info"; "warning"; "critical"]) with ErrInvalid ;;
  Ok ().
