(* ===== verification/OpsScope.v ===== *)
(** * Operations: who may see what

    The SQL predicates of scope.go, as functions of the accounts: what a user may
    see of a resource ([resourcePredicate]), of a notification
    ([NotificationVisibilitySQL]), and the resource filter of queries.go. *)

From S2P Require Import Prelude Tx Tables GoStr Site OpsTypes.

(** The session's user ([auth.SessionUser], [auth.Role]). *)
Record SessionUser := mkSessionUser { su_ID : Z; su_Role : string }.

Definition RoleAdmin : string := "admin".
Definition RoleReseller : string := "reseller".
Definition RoleClient : string := "client".

Definition Role_Valid (r : string) : bool := one_of r [RoleAdmin; RoleReseller; RoleClient].

Definition actor_invalid (a : SessionUser) : bool := negb (Role_Valid (su_Role a)) || (su_ID a <=? 0).

(** Equality of keys; a key that is NULL equals none. *)
Definition key_is (key id : Z) : bool := negb (key =? 0) && (key =? id).

(** [EXISTS(SELECT 1 FROM users viewer WHERE viewer.id=$u AND viewer.role=$r)]. *)
Definition viewer_exists (ac : Accounts) (u : Z) (r : string) : bool :=
  existsb (λ viewer, key_is (us_ID viewer) u && String.eqb (us_Role viewer) r) (ac_Users ac).

(** The customer's login, or the login of the customer's reseller. *)
Definition owns_customer (ac : Accounts) (u : Z) (r : string) (c : CustomerRow) : bool :=
  String.eqb r RoleClient && key_is (cu_LoginUserID c) u
  || String.eqb r RoleReseller
     && existsb (λ x, key_is (cu_ResellerID c) (rs_ID x) && key_is (rs_LoginUserID x) u) (ac_Resellers ac).

Definition subscription_of (ac : Accounts) (id customer : Z) : bool :=
  existsb (λ s, key_is (sb_ID s) id && key_is (sb_CustomerID s) customer) (ac_Subscriptions ac).

Definition site_of (ac : Accounts) (id customer : Z) : bool :=
  existsb (λ s, key_is (sw_ID s) id && subscription_of ac (sw_SubscriptionID s) customer) (ac_Sites ac).

(** The resource belongs to the customer. *)
Definition belongs_to (ac : Accounts) (r : Resource) (c : CustomerRow) : bool :=
  String.eqb (res_Kind r) ResourceCustomer && key_is (cu_ID c) (res_ID r)
  || String.eqb (res_Kind r) ResourceSubscription && subscription_of ac (res_ID r) (cu_ID c)
  || String.eqb (res_Kind r) ResourceSite && site_of ac (res_ID r) (cu_ID c).

Definition resourcePredicate (ac : Accounts) (u : Z) (role : string) (r : Resource) : bool :=
  viewer_exists ac u role &&
  (String.eqb (res_Kind r) ResourceUser && (res_ID r =? u)
   || negb (String.eqb (res_Kind r) ResourceUser) && String.eqb role RoleAdmin
   || one_of (res_Kind r) [ResourceSite; ResourceSubscription; ResourceCustomer]
      && existsb (λ c, belongs_to ac r c && owns_customer ac u role c) (ac_Customers ac)).

Definition CanView (ac : Accounts) (actor : SessionUser) (r : Resource) : bool :=
  if actor_invalid actor || negb (Resource_Valid r) then false
  else resourcePredicate ac (su_ID actor) (su_Role actor) r.

(** ** Notifications *)

(** A customer that the user administers, owns or resells to. *)
Definition customer_audience (ac : Accounts) (u : Z) (role : string) (c : CustomerRow) : bool :=
  String.eqb role RoleAdmin || owns_customer ac u role c.

Definition notificationAudience (ac : Accounts) (u : Z) (role : string) (n : NotificationRow) : bool :=
  viewer_exists ac u role &&
  (if negb (nt_SubscriptionID n =? 0) then
     existsb (λ s, key_is (nt_SubscriptionID n) (sb_ID s)
       && existsb (λ c, key_is (sb_CustomerID s) (cu_ID c) && customer_audience ac u role c) (ac_Customers ac)) (ac_Subscriptions ac)
   else if negb (nt_CustomerID n =? 0) then
     existsb (λ c, key_is (nt_CustomerID n) (cu_ID c) && customer_audience ac u role c) (ac_Customers ac)
   else if negb (nt_ResellerID n =? 0) then
     String.eqb role RoleAdmin
     || String.eqb role RoleReseller
        && existsb (λ x, key_is (nt_ResellerID n) (rs_ID x) && key_is (rs_LoginUserID x) u) (ac_Resellers ac)
   else if negb (nt_RecipientUserID n =? 0) then nt_RecipientUserID n =? u
   else String.eqb role RoleAdmin).

(** The issue a notification tells about. *)
Definition notification_issue (issues : list Issue) (n : NotificationRow) : option Issue :=
  match rows_where (λ i, key_is (nt_IssueID n) (is_ID i)) issues with
  | i :: _ => Some i
  | [] => None
  end.

Definition NotificationVisibility (s : OpsStore) (u : Z) (role : string) (n : NotificationRow) : bool :=
  if nt_IssueID n =? 0 then notificationAudience (os_Accounts s) u role n
  else existsb (λ i, key_is (nt_IssueID n) (is_ID i) && resourcePredicate (os_Accounts s) u role (is_Resource i)) (os_Issues s).

(** The resource of a notification, for filters: its issue's, or the account it is
    addressed to. *)
Definition notification_scope (s : OpsStore) (n : NotificationRow) : Resource :=
  match notification_issue (os_Issues s) n with
  | Some i => is_Resource i
  | None =>
    if negb (nt_SubscriptionID n =? 0) then mkResource ResourceSubscription (nt_SubscriptionID n)
    else if negb (nt_CustomerID n =? 0) then mkResource ResourceCustomer (nt_CustomerID n)
    else if negb (nt_RecipientUserID n =? 0) then mkResource ResourceUser (nt_RecipientUserID n)
    else mkResource ResourceServer 0
  end.

(** ** The filter of a resource

    A subscription includes its sites, a customer its subscriptions and sites. *)
Definition resourceFilter (ac : Accounts) (filter row : Resource) : bool :=
  if String.eqb (res_Kind filter) "" then true
  else if String.eqb (res_Kind filter) ResourceSubscription then
    same_resource row filter
    || String.eqb (res_Kind row) ResourceSite
       && existsb (λ x, key_is (sw_ID x) (res_ID row) && key_is (sw_SubscriptionID x) (res_ID filter)) (ac_Sites ac)
  else if String.eqb (res_Kind filter) ResourceCustomer then
    same_resource row filter
    || String.eqb (res_Kind row) ResourceSubscription && subscription_of ac (res_ID row) (res_ID filter)
    || String.eqb (res_Kind row) ResourceSite && site_of ac (res_ID row) (res_ID filter)
  else same_resource row filter.
