(* ===== verification/OpsStore.v ===== *)
(** * Operations: issues, operations and their attempts

    The handlers of store.go, conditions.go and verification.go. [clock] is the
    database's [now()], the start of the transaction; [now] is [time.Now()]. *)

From S2P Require Import Prelude Tx Tables GoStr GoTime Site OpsTypes OpsScope.

(** ** Statements *)

Definition update_issues (p : Issue → bool) (f : Issue → Issue) : tx OpsStore Z :=
  let! rows := tx_read os_Issues in
  let! _ := tx_write (λ s, s <| os_Issues := rows_update p f (os_Issues s) |>) in
  tx_ret (Z.of_nat (length (rows_where p rows))).

Definition update_operations (p : Operation → bool) (f : Operation → Operation) : tx OpsStore unit :=
  tx_write (λ s, s <| os_Operations := rows_update p f (os_Operations s) |>).

Definition update_attempts (p : Attempt → bool) (f : Attempt → Attempt) : tx OpsStore unit :=
  tx_write (λ s, s <| os_Attempts := rows_update p f (os_Attempts s) |>).

Definition update_events (p : EventRow → bool) (f : EventRow → EventRow) : tx OpsStore unit :=
  tx_write (λ s, s <| os_Events := rows_update p f (os_Events s) |>).

Definition new_event (key : string) (resource : Resource) (kind : string) (operationID issueID : Z) (summary : string) : EventRow :=
  mkEventRow 0 key resource kind operationID issueID 0 summary None None.

(** [INSERT INTO operation_events ... ON CONFLICT(event_key) DO NOTHING RETURNING id]. *)
Definition insert_event (event : EventRow) : tx OpsStore (option Z) :=
  let! s := tx_read (λ s, s) in
  let id := os_EventSeq s in
  let! _ := tx_write (λ s, s <| os_EventSeq := id + 1 |>) in
  if existsb (λ e, String.eqb (ev_Key e) (ev_Key event)) (os_Events s) then tx_ret None
  else
    let! _ := tx_write (λ s, s <| os_Events := os_Events s ++ [event <| ev_ID := id |>] |>) in
    tx_ret (Some id).

Definition issue_by_id (id : Z) (s : OpsStore) : result Issue :=
  query_row (rows_where (λ i, is_ID i =? id) (os_Issues s)).

(** The condition an issue is about ([issues_open_condition_idx]). *)
Definition is_about (resource : Resource) (kind condition : string) (i : Issue) : bool :=
  same_resource (is_Resource i) resource && String.eqb (is_Kind i) kind && String.eqb (is_Condition i) condition.

Definition open_issue (resource : Resource) (kind condition : string) (i : Issue) : bool :=
  is_about resource kind condition i && bool_decide (is_ResolvedAt i = None).

(** [(SELECT id FROM issues WHERE ... AND resolved_at IS NOT NULL ORDER BY id DESC LIMIT 1)]. *)
Definition previous_issue (resource : Resource) (kind condition : string) (issues : list Issue) : Z :=
  foldl (λ best i, if is_about resource kind condition i && bool_decide (is_Some (is_ResolvedAt i))
                   then Z.max best (is_ID i) else best) 0 issues.

(** [CASE WHEN issues.acknowledged_at IS NULL THEN 'open' ELSE 'acknowledged' END]. *)
Definition reopened_state (i : Issue) : string :=
  match is_AcknowledgedAt i with None => "open" | Some _ => "acknowledged" end.

Definition issue_row (id : Z) (o : Observation) (eventID observedAt previous : Z) : Issue :=
  mkIssue id (ob_Resource o) (ob_Kind o) (ob_Condition o) (ob_Severity o) (ob_Title o) (ob_Summary o) "open" 1 1 eventID
    (ob_IntentRevision o) (ob_OperationID o) previous observedAt 0 None None None "unknown" None.

(** The [DO UPDATE] of the observation. *)
Definition occurs_again (o : Observation) (eventID observedAt : Z) (i : Issue) : Issue :=
  i <| is_Severity := ob_Severity o |> <| is_Title := ob_Title o |> <| is_Summary := ob_Summary o |>
    <| is_Generation := is_Generation i + 1 |> <| is_Occurrences := is_Occurrences i + 1 |>
    <| is_LatestEventID := eventID |> <| is_IntentRevision := ob_IntentRevision o |>
    <| is_OperationID := if ob_OperationID o =? 0 then is_OperationID i else ob_OperationID o |>
    <| is_ObservedAt := Z.max (is_ObservedAt i) observedAt |> <| is_LastCheckStatus := "unknown" |>
    <| is_State := reopened_state i |>.

(** [INSERT INTO issues ... ON CONFLICT ... DO UPDATE ... RETURNING ...]; [again] is
    the [DO UPDATE]. *)
Definition upsert_issue (o : Observation) (eventID observedAt : Z) (again : Issue → Issue) : tx OpsStore Issue :=
  let! s := tx_read (λ s, s) in
  let id := os_IssueSeq s in
  let mine := open_issue (ob_Resource o) (ob_Kind o) (ob_Condition o) in
  let! _ := tx_write (λ s, s <| os_IssueSeq := id + 1 |>) in
  match rows_where mine (os_Issues s) with
  | i :: _ =>
    let! _ := update_issues (λ x, is_ID x =? is_ID i) again in
    tx_ret (again i)
  | [] =>
    let row := issue_row id o eventID observedAt
                 (previous_issue (ob_Resource o) (ob_Kind o) (ob_Condition o) (os_Issues s)) in
    let! _ := tx_write (λ s, s <| os_Issues := os_Issues s ++ [row] |>) in
    tx_ret row
  end.

(** ** Observations *)

Definition ObserveIssueTx (o : Observation) : tx OpsStore Issue :=
  let! _ := tx_lift (Observation_validate o) in
  let observedAt := default 0 (ob_ObservedAt o) in
  let! eventID := insert_event (new_event (ob_EventKey o) (ob_Resource o) "issue.observed" (ob_OperationID o) 0 (ob_Summary o)) in
  match eventID with
  | None =>
    let! event := tx_query (λ s, query_row (rows_where (λ e, String.eqb (ev_Key e) (ob_EventKey o)) (os_Events s))) in
    fail_if negb (same_resource (ev_Resource event) (ob_Resource o)) || (ev_IssueID event =? 0) with ErrConflict ;;
    let! i := tx_query (issue_by_id (ev_IssueID event)) in
    fail_if negb (String.eqb (is_Kind i) (ob_Kind o)) || negb (String.eqb (is_Condition i) (ob_Condition o)) with ErrConflict ;;
    tx_ret i
  | Some eventID =>
    let! i := upsert_issue o eventID observedAt (occurs_again o eventID observedAt) in
    let! _ := update_events (λ e, ev_ID e =? eventID) (λ e, e <| ev_IssueID := is_ID i |>) in
    tx_ret i
  end.

Definition ObserveIssue (o : Observation) (s : OpsStore) : result Issue * OpsStore := run_tx (ObserveIssueTx o) s.

(** The row of a condition after the [ON CONFLICT ... DO UPDATE], and its generation. *)
Definition condition_about (c : ConditionSample) (r : ConditionRow) : bool :=
  same_resource (co_Resource r) (cs_Resource c) && String.eqb (co_Kind r) (cs_Kind c)
  && String.eqb (co_Condition r) (cs_Condition c).

Definition condition_changed (c : ConditionSample) (r : ConditionRow) : bool :=
  negb (String.eqb (co_Signature r) (cs_Signature c)) || negb (eqb (co_Unhealthy r) (cs_Unhealthy c)).

Definition condition_sampled (c : ConditionSample) (observedAt : Z) (r : ConditionRow) : ConditionRow :=
  r <| co_Generation := co_Generation r + (if condition_changed c r then 1 else 0) |>
    <| co_Signature := cs_Signature c |> <| co_Unhealthy := cs_Unhealthy c |> <| co_ObservedAt := observedAt |>.

Definition upsert_condition (c : ConditionSample) (observedAt : Z) : tx OpsStore Z :=
  let! rows := tx_read os_Conditions in
  match rows_where (condition_about c) rows with
  | r :: _ =>
    let! _ := tx_write (λ s, s <| os_Conditions := rows_update (condition_about c) (condition_sampled c observedAt) (os_Conditions s) |>) in
    tx_ret (co_Generation (condition_sampled c observedAt r))
  | [] =>
    let row := mkConditionRow (cs_Resource c) (cs_Kind c) (cs_Condition c) (cs_Signature c) (cs_Unhealthy c) 1 observedAt in
    let! _ := tx_write (λ s, s <| os_Conditions := os_Conditions s ++ [row] |>) in
    tx_ret 1
  end.

Definition condition_key (c : ConditionSample) (generation : Z) : string :=
  "condition:" +:+ res_Kind (cs_Resource c) +:+ ":" +:+ itoa (res_ID (cs_Resource c)) +:+ ":" +:+ cs_Kind c +:+ ":"
  +:+ cs_Condition c +:+ ":" +:+ itoa generation +:+ ":" +:+ cs_Signature c.

Definition sample_invalid (c : ConditionSample) : bool :=
  negb (Resource_Valid (cs_Resource c)) || negb (validText (cs_Kind c) 80) || negb (validText (cs_Condition c) 160)
  || negb (validText (cs_Signature c) 200) || bool_decide (cs_ObservedAt c = None).

Definition sample_observation (c : ConditionSample) (key : string) : Observation :=
  mkObservation key (cs_Resource c) (cs_Kind c) (cs_Condition c) (cs_Severity c) (cs_Title c) (cs_Summary c)
    (cs_IntentRevision c) 0 (cs_ObservedAt c).

(** A healthy sample asks for verification; it does not resolve the issue. *)
Definition condition_recovered (c : ConditionSample) (key : string) : tx OpsStore unit :=
  let! s := tx_read (λ s, s) in
  match rows_where (open_issue (cs_Resource c) (cs_Kind c) (cs_Condition c)) (os_Issues s) with
  | [] => tx_ret ()
  | i :: _ =>
    let! eventID := insert_event (new_event key (cs_Resource c) "condition.changed" 0 (is_ID i)
                                    "Resource state changed; recovery verification is required") in
    match eventID with
    | None => tx_ret ()
    | Some eventID =>
      let! _ := update_issues (λ x, is_ID x =? is_ID i)
          (λ x, x <| is_Generation := is_Generation x + 1 |> <| is_LatestEventID := eventID |>
                  <| is_IntentRevision := cs_IntentRevision c |> <| is_LastCheckStatus := "unknown" |>) in
      tx_ret ()
    end
  end.

Definition ObserveConditionTx (c : ConditionSample) : tx OpsStore unit :=
  fail_if sample_invalid c with ErrInvalid ;;
  let observedAt := default 0 (cs_ObservedAt c) in
  let! generation := upsert_condition c observedAt in
  let key := condition_key c generation in
  if cs_Unhealthy c then
    let! i := ObserveIssueTx (sample_observation c key) in
    let! _ := update_issues (λ x, is_ID x =? is_ID i) (λ x, x <| is_ObservedAt := Z.max (is_ObservedAt x) observedAt |>) in
    tx_ret ()
  else condition_recovered c key.

(** ** Acknowledgement *)

Definition AcknowledgeIssue (clock : Z) (actor : SessionUser) (id : Z) : tx OpsStore unit :=
  fail_if actor_invalid actor with ErrNotFound ;;
  let! s := tx_read (λ s, s) in
  match rows_where (λ i, (is_ID i =? id) && bool_decide (is_ResolvedAt i = None)
                         && resourcePredicate (os_Accounts s) (su_ID actor) (su_Role actor) (is_Resource i)) (os_Issues s) with
  | [] => tx_fail ErrNotFound
  | i :: _ =>
    let! _ := update_issues (λ x, is_ID x =? is_ID i)
        (λ x, x <| is_AcknowledgedBy := if is_AcknowledgedBy x =? 0 then su_ID actor else is_AcknowledgedBy x |>
                <| is_AcknowledgedAt := Some (default clock (is_AcknowledgedAt x)) |>
                <| is_State := if String.eqb (is_State x) "checking" then is_State x else "acknowledged" |>) in
    let! _ := insert_event (new_event ("issue:" +:+ itoa id +:+ ":acknowledged") (is_Resource i) "issue.acknowledged" 0 id
                              "Issue acknowledged; recovery is still required.") in
    tx_ret ()
  end.

(** ** Verification *)

(** [FOR UPDATE]. *)
Definition IssueForUpdateTx (id : Z) : tx OpsStore Issue :=
  tx_query (λ s, match issue_by_id id s with Ok i => Ok i | Err _ => Err ErrNotFound end).

(** The issue as it was loaded, still open. *)
Definition unchanged_since (id generation latestEventID : Z) (i : Issue) : bool :=
  (is_ID i =? id) && (is_Generation i =? generation) && (is_LatestEventID i =? latestEventID)
  && bool_decide (is_ResolvedAt i = None).

Definition SetCheckingTx (clock : Z) (i : Issue) (revision : Z) : tx OpsStore VerificationToken :=
  fail_if revision <? 0 with ErrInvalid ;;
  let! n := update_issues (unchanged_since (is_ID i) (is_Generation i) (is_LatestEventID i))
      (λ x, x <| is_State := "checking" |> <| is_LastCheckStatus := "checking" |> <| is_LastCheckAt := Some clock |>
              <| is_IntentRevision := revision |>) in
  fail_if negb (n =? 1) with ErrConflict ;;
  tx_ret (mkVerificationToken (is_ID i) (is_Generation i) (is_LatestEventID i) revision).

Definition VerificationFailedTx (clock : Z) (token : VerificationToken) : tx OpsStore unit :=
  let! n := update_issues
      (λ x, unchanged_since (vt_IssueID token) (vt_Generation token) (vt_LatestEventID token) x
            && (is_IntentRevision x =? vt_IntentRevision token))
      (λ x, x <| is_State := reopened_state x |> <| is_LastCheckStatus := "unknown" |> <| is_LastCheckAt := Some clock |>) in
  fail_if negb (n =? 1) with ErrConflict ;;
  tx_ret ().

(** [hex.DecodeString]: an even number of hexadecimal digits. *)
Definition is_hex_digit c : bool := is_digit c || in_range 97 102 c || in_range 65 70 c.
Definition hex_decodes (s : string) : bool := Z.even (str_len s) && string_forall is_hex_digit s.

Definition receipt_invalid (now : Z) (r : VerificationReceipt) : bool :=
  let token := vr_Token r in
  (vt_IssueID token <=? 0) || (vt_Generation token <=? 0) || (vt_LatestEventID token <=? 0)
  || negb (str_len (vr_IntentHash r) =? 64) || (5 * minute <? now - vr_ObservedAt r)
  || (now + minute <? vr_ObservedAt r) || negb (validText (vr_Summary r) 400) || negb (hex_decodes (vr_IntentHash r)).

Definition source_invalid (r : VerificationReceipt) : bool :=
  if String.eqb (vr_Source r) "archive_checksum" then
    (vr_SourceID r <=? 0) || (vr_SizeBytes r <=? 0) || negb (str_len (vr_Checksum r) =? 64) || negb (hex_decodes (vr_Checksum r))
  else if String.eqb (vr_Source r) "smtp_acceptance" then vr_SourceID r <=? 0
  else negb (one_of (vr_Source r) ["local_tls"; "local_hosting"; "mail_runtime"; "webmail_https"]).

Definition expectedSource (kind : string) : list string :=
  if String.eqb kind "backup" then ["archive_checksum"]
  else if String.eqb kind "tls" then ["local_tls"]
  else if String.eqb kind "hosting" then ["local_hosting"]
  else if String.eqb kind "mail" then ["mail_runtime"; "webmail_https"]
  else if String.eqb kind "notification_delivery" then ["smtp_acceptance"]
  else [].

(** The receipt is about the issue as it stands. *)
Definition receipt_current (r : VerificationReceipt) (i : Issue) : bool :=
  let token := vr_Token r in
  (is_Generation i =? vt_Generation token) && (is_LatestEventID i =? vt_LatestEventID token)
  && (is_IntentRevision i =? vt_IntentRevision token) && (is_ObservedAt i <=? vr_ObservedAt r).

(** A batch that was accepted, for this user, at this time. *)
Definition smtp_accepted (r : VerificationReceipt) (i : Issue) (s : OpsStore) : bool :=
  existsb (λ b, (eb_ID b =? vr_SourceID r) && (eb_RecipientUserID b =? res_ID (is_Resource i))
                && String.eqb (eb_Status b) "accepted" && bool_decide (eb_AcceptedAt b = Some (vr_ObservedAt r))) (os_Batches s).

Definition resolved_by (clock : Z) (r : VerificationReceipt) (i : Issue) : Issue :=
  i <| is_State := "resolved" |> <| is_ResolvedAt := Some clock |> <| is_Verification := Some r |>
    <| is_LastCheckStatus := "verified" |> <| is_LastCheckAt := Some (vr_ObservedAt r) |>.

Definition verified_key (i : Issue) : string :=
  "issue:" +:+ itoa (is_ID i) +:+ ":verified:" +:+ itoa (is_Generation i) +:+ ":" +:+ itoa (is_LatestEventID i).

Definition resolve_issue (clock : Z) (r : VerificationReceipt) (i : Issue) : tx OpsStore unit :=
  let! _ := update_issues (λ x, is_ID x =? is_ID i) (resolved_by clock r) in
  let! _ := tx_write (λ s, s <| os_Notifications :=
      rows_update (λ n, (nt_IssueID n =? is_ID i) && bool_decide (nt_ResolvedAt n = None))
        (λ n, n <| nt_ResolvedAt := Some clock |>) (os_Notifications s) |>) in
  let! _ := insert_event (new_event (verified_key i) (is_Resource i) "issue.resolved" (is_OperationID i) (is_ID i) (vr_Summary r)) in
  tx_ret ().

Definition ResolveVerifiedTx (now clock : Z) (r : VerificationReceipt) (currentHash : string) (currentRevision : Z) : tx OpsStore unit :=
  fail_if receipt_invalid now r || source_invalid r with ErrInvalid ;;
  fail_if negb (String.eqb (vr_IntentHash r) currentHash) || negb (vt_IntentRevision (vr_Token r) =? currentRevision)
    with ErrConflict ;;
  let! i := IssueForUpdateTx (vt_IssueID (vr_Token r)) in
  fail_if negb (receipt_current r i) with ErrConflict ;;
  fail_if negb (one_of (vr_Source r) (expectedSource (is_Kind i))) with ErrInvalid ;;
  let! s := tx_read (λ s, s) in
  fail_if String.eqb (vr_Source r) "smtp_acceptance"
          && (negb (String.eqb (res_Kind (is_Resource i)) ResourceUser) || negb (smtp_accepted r i s)) with ErrInvalid ;;
  match is_ResolvedAt i with
  | Some _ => tx_ret ()
  | None => resolve_issue clock r i
  end.

(** ** Operations *)

Definition operation_invalid (input : NewOperation) : bool :=
  negb (Resource_Valid (no_Resource input)) || negb (validText (no_Key input) 256) || negb (validText (no_Kind input) 80)
  || negb (validText (no_Title input) 200) || (no_IntentRevision input <? 0)
  || negb (one_of (no_Trigger input) ["manual"; "scheduled"; "reconciliation"; "recovery"; "system"]).

(** One statement, outside a transaction. *)
Definition CreateOperation (input : NewOperation) (s : OpsStore) : result Operation * OpsStore :=
  if operation_invalid input then (Err ErrInvalid, s)
  else
    let id := os_OperationSeq s in
    let s1 := s <| os_OperationSeq := id + 1 |> in
    let '(o, s2) :=
      match rows_where (λ o, String.eqb (op_Key o) (no_Key input)) (os_Operations s) with
      | o :: _ => (o, s1)
      | [] =>
        let o := mkOperation id (no_Key input) (no_Kind input) (no_Resource input) (no_Title input) (no_Trigger input)
                   StateQueued "" (no_IntentRevision input) in
        (o, s1 <| os_Operations := os_Operations s1 ++ [o] |>)
      end in
    if negb (same_resource (op_Resource o) (no_Resource input)) || negb (String.eqb (op_Kind o) (no_Kind input))
       || negb (op_IntentRevision o =? no_IntentRevision input)
    then (Err ErrConflict, s2) else (Ok o, s2).

Definition max_number (attempts : list Attempt) : Z := foldr (λ a n, Z.max (at_Number a) n) 0 attempts.

(** [INSERT INTO operation_attempts ... SELECT $1,COALESCE(max(number),0)+1,$2 ...]; one
    attempt per execution of a job ([operation_attempts_source_execution]). *)
Definition insert_attempt (clock opID riverID : Z) : tx OpsStore Attempt :=
  let! s := tx_read (λ s, s) in
  let a := mkAttempt (os_AttemptSeq s) opID (max_number (rows_where (λ a, at_OperationID a =? opID) (os_Attempts s)) + 1)
             riverID 1 StateRunning "" clock None in
  fail_if existsb (λ x, (at_RiverJobID x =? riverID) && (at_RiverAttempt x =? 1)) (os_Attempts s) with unique_violation ;;
  let! _ := tx_write (λ s, (s <| os_Attempts := os_Attempts s ++ [a] |>) <| os_AttemptSeq := os_AttemptSeq s + 1 |>) in
  tx_ret a.

Definition operation_by_id (id : Z) (s : OpsStore) : result Operation :=
  query_row (rows_where (λ o, op_ID o =? id) (os_Operations s)).

Definition StartAttempt (clock opID riverID : Z) : tx OpsStore Attempt :=
  fail_if (opID <=? 0) || (riverID <=? 0) with ErrInvalid ;;
  let! _ := tx_query (operation_by_id opID) in
  let! s := tx_read (λ s, s) in
  fail_if existsb (λ a, (at_OperationID a =? opID) && bool_decide (at_FinishedAt a = None)) (os_Attempts s) with ErrConflict ;;
  let! a := insert_attempt clock opID riverID in
  let! _ := update_operations (λ o, op_ID o =? opID) (λ o, o <| op_State := StateRunning |>) in
  tx_ret a.

Definition FinishAttempt (clock id : Z) (state code : string) : tx OpsStore unit :=
  fail_if negb (Terminal state) || (80 <? str_len code) with ErrInvalid ;;
  let! a := tx_query (λ s, query_row (rows_where (λ a, at_ID a =? id) (os_Attempts s))) in
  let! _ := tx_query (operation_by_id (at_OperationID a)) in
  if Terminal (at_State a) then
    fail_if negb (String.eqb (at_State a) state) || negb (String.eqb (at_ErrorCode a) code) with ErrConflict ;;
    tx_ret ()
  else
    let! _ := update_attempts (λ x, at_ID x =? id)
        (λ x, x <| at_State := state |> <| at_ErrorCode := code |> <| at_FinishedAt := Some clock |>) in
    update_operations (λ o, op_ID o =? at_OperationID a) (λ o, o <| op_State := state |>).
