(* ===== verification/OpsNotify.v ===== *)
(** * Operations: the feed, notifications and preferences

    The publication of events and their projection to notifications
    (dispatch.go), the queueing of mail for a notification (delivery_policy.go,
    job_context.go), the receipts of the inbox (store.go, queries.go) and the
    preferences (preferences.go). *)

From S2P Require Import Prelude Tx Tables GoStr GoTime Site OpsTypes OpsScope OpsStore.

(** ** Statements *)

Definition update_notifications (p : NotificationRow → bool) (f : NotificationRow → NotificationRow) : tx OpsStore unit :=
  tx_write (λ s, s <| os_Notifications := rows_update p f (os_Notifications s) |>).

Definition notice (issueID operationID : Z) (kind severity title body dedupe : string) : NotificationRow :=
  mkNotificationRow 0 0 0 0 0 issueID operationID kind severity title body dedupe None.

Definition open_notice (dedupe : string) (n : NotificationRow) : bool :=
  String.eqb (nt_DedupeKey n) dedupe && bool_decide (nt_ResolvedAt n = None).

(** [INSERT INTO notifications ... ON CONFLICT(dedupe_key) WHERE resolved_at IS NULL];
    [update] is what the conflicting row becomes. *)
Definition insert_notice (row : NotificationRow) (update : NotificationRow → NotificationRow) : tx OpsStore unit :=
  let! s := tx_read (λ s, s) in
  let id := os_NotificationSeq s in
  let! _ := tx_write (λ s, s <| os_NotificationSeq := id + 1 |>) in
  if existsb (open_notice (nt_DedupeKey row)) (os_Notifications s)
  then update_notifications (open_notice (nt_DedupeKey row)) update
  else tx_write (λ s, s <| os_Notifications := os_Notifications s ++ [row <| nt_ID := id |>] |>).

(** ** Mail for a notification *)

Definition workerFailureNoticeKinds : list string :=
  ["php_deployment_failed"; "wordpress_operation_failed"; "scheduled_task_failed"; "maintenance_failed"; "server_backup_failed"].

(** The operation of the running job, from the context; 0 outside a job. *)
Definition correlateNotificationTx (jobID id : Z) : tx OpsStore unit :=
  if jobID <=? 0 then tx_ret ()
  else
    let! s := tx_read (λ s, s) in
    match rows_where (λ a, (at_RiverJobID a =? jobID) && bool_decide (at_FinishedAt a = None)
                           && existsb (λ o, op_ID o =? at_OperationID a) (os_Operations s)) (os_Attempts s) with
    | [] => tx_ret ()
    | a :: _ =>
      update_notifications (λ n, (nt_ID n =? id) && one_of (nt_Kind n) workerFailureNoticeKinds)
        (λ n, n <| nt_OperationID := at_OperationID a |>)
    end.

Definition issue_kind (s : OpsStore) (n : NotificationRow) : string :=
  match notification_issue (os_Issues s) n with
  | Some i => is_Kind i
  | None => ""
  end.

(** Who is to be mailed about a notification, and how. *)
Definition wants_mail (s : OpsStore) (n : NotificationRow) (selectedEmail : string) (u : UserRow) (p : PreferenceRow) : bool :=
  (pf_UserID p =? us_ID u) && (String.eqb selectedEmail "" || String.eqb (us_Email u) selectedEmail)
  && negb (us_LoginDisabled u) && negb (String.eqb (pf_EmailMode p) "off")
  && negb (String.eqb (issue_kind s n) "notification_delivery") && po_Enabled (os_Policy s)
  && NotificationVisibility s (us_ID u) (us_Role u) n.

Definition recipients (s : OpsStore) (id : Z) (selectedEmail : string) : list (Z * string) :=
  n ← rows_where (λ n, nt_ID n =? id) (os_Notifications s);
  u ← ac_Users (os_Accounts s);
  p ← rows_where (wants_mail s n selectedEmail u) (os_Preferences s);
  [(us_ID u, pf_EmailMode p)].

Definition batch_key (now id user : Z) (mode : string) : string :=
  if String.eqb mode "digest" then "digest:" +:+ itoa user +:+ ":" +:+ format_date now
  else "immediate:" +:+ itoa user +:+ ":" +:+ itoa id.

Definition batch_due (now : Z) (mode : string) : Z := if String.eqb mode "digest" then next_midnight now else now.

(** [INSERT INTO notification_email_batches ... ON CONFLICT(batch_key) DO UPDATE SET
    batch_key=EXCLUDED.batch_key RETURNING id]. *)
Definition upsert_batch (clock : Z) (key : string) (user : Z) (mode : string) (due : Z) : tx OpsStore Z :=
  let! s := tx_read (λ s, s) in
  let id := os_BatchSeq s in
  let! _ := tx_write (λ s, s <| os_BatchSeq := id + 1 |>) in
  match rows_where (λ b, String.eqb (eb_BatchKey b) key) (os_Batches s) with
  | b :: _ => tx_ret (eb_ID b)
  | [] =>
    let! _ := tx_write (λ s, s <| os_Batches := os_Batches s ++ [mkEmailBatch id key user mode "pending" 0 due None "" clock] |>) in
    tx_ret id
  end.

(** The item of a user's notification, once. *)
Definition insert_email_item (item : EmailItem) : tx OpsStore unit :=
  let! items := tx_read os_Items in
  if existsb (λ x, (ei_NotificationID x =? ei_NotificationID item) && (ei_UserID x =? ei_UserID item)) items then tx_ret ()
  else tx_write (λ s, s <| os_Items := os_Items s ++ [item] |>).

Definition enqueue_for (clock now id : Z) (recipient : Z * string) : tx OpsStore unit :=
  let '(user, mode) := recipient in
  let! batch := upsert_batch clock (batch_key now id user mode) user mode (batch_due now mode) in
  insert_email_item (mkEmailItem batch id user).

Definition EnqueueNotificationForEmailTx (jobID clock now id : Z) (selectedEmail : string) : tx OpsStore unit :=
  let! _ := correlateNotificationTx jobID id in
  let! s := tx_read (λ s, s) in
  tx_each (enqueue_for clock now id) (recipients s id selectedEmail).

Definition EnqueueNotificationTx (jobID clock now id : Z) : tx OpsStore unit :=
  EnqueueNotificationForEmailTx jobID clock now id "".

(** ** Publication *)

(** The event, and the issue it is about. *)
Definition event_incident (eventID : Z) (s : OpsStore) : option (EventRow * Issue) :=
  match rows_where (λ e, ev_ID e =? eventID) (os_Events s) with
  | [] => None
  | e :: _ =>
    match rows_where (λ i, key_is (ev_IssueID e) (is_ID i)) (os_Issues s) with
    | [] => None
    | i :: _ => Some (e, i)
    end
  end.

(** Failure notices of the incident's runs. *)
Definition link_notices (e : EventRow) (i : Issue) : tx OpsStore unit :=
  match is_ResolvedAt i with
  | Some _ => tx_ret ()
  | None =>
    update_notifications
      (λ n, bool_decide (nt_ResolvedAt n = None)
            && (key_is (nt_OperationID n) (ev_OperationID e) || key_is (nt_OperationID n) (is_OperationID i))
            && one_of (nt_Kind n) workerFailureNoticeKinds)
      (λ n, n <| nt_IssueID := is_ID i |>)
  end.

Definition failure_notice (i : Issue) : NotificationRow :=
  notice (is_ID i) (is_OperationID i) "operation_failed" (is_Severity i) (is_Title i) (is_Summary i) ("issue:" +:+ itoa (is_ID i)).

Definition publish_failure (i : Issue) : tx OpsStore unit :=
  let! s := tx_read (λ s, s) in
  if bool_decide (is_Some (is_ResolvedAt i))
     || existsb (λ n, (nt_IssueID n =? is_ID i) && bool_decide (nt_ResolvedAt n = None)) (os_Notifications s)
  then tx_ret ()
  else insert_notice (failure_notice i)
         (λ n, n <| nt_Severity := is_Severity i |> <| nt_Title := is_Title i |> <| nt_Body := is_Summary i |>).

Definition recovery_notice (e : EventRow) (i : Issue) : NotificationRow :=
  notice (is_ID i) (is_OperationID i) "issue_recovered" "info" "Recovery verified" (ev_Summary e)
    ("issue:" +:+ itoa (is_ID i) +:+ ":recovered").

Definition publish_recovery (e : EventRow) (i : Issue) : tx OpsStore unit :=
  if String.eqb (ev_Kind e) "issue.resolved" && bool_decide (is_Some (is_ResolvedAt i))
  then insert_notice (recovery_notice e i) (λ n, n) else tx_ret ().

(** The notifications the event is mailed about. *)
Definition published (e : EventRow) (s : OpsStore) : list Z :=
  nt_ID <$> rows_where (λ n, key_is (ev_IssueID e) (nt_IssueID n) && bool_decide (nt_ResolvedAt n = None)
      && (one_of (ev_Kind e) ["task.failed"; "issue.observed"] && String.eqb (nt_Kind n) "operation_failed"
          || String.eqb (ev_Kind e) "issue.resolved" && String.eqb (nt_Kind n) "issue_recovered")) (os_Notifications s).

Definition projectIncidentTx (jobID clock now eventID : Z) : tx OpsStore unit :=
  let! incident := tx_read (event_incident eventID) in
  let! _ := match incident with
            | None => tx_ret ()
            | Some (e, i) =>
              let! _ := link_notices e i in
              let! _ := publish_failure i in
              publish_recovery e i
            end in
  let! s := tx_read (λ s, s) in
  match rows_where (λ e, ev_ID e =? eventID) (os_Events s) with
  | [] => tx_ret ()
  | e :: _ => tx_each (EnqueueNotificationTx jobID clock now) (published e s)
  end.

(** The events to publish, oldest first; [skipped] says which rows another
    transaction has locked. *)
Definition undispatched (skipped : Z → bool) (limit : Z) (s : OpsStore) : list Z :=
  take (Z.to_nat limit)
    (merge_sort Z.le (ev_ID <$> rows_where (λ e, bool_decide (ev_DispatchedAt e = None) && negb (skipped (ev_ID e))) (os_Events s))).

(** The loop, with the cursor it counts. *)
Fixpoint publish_events (jobID clock now cursor : Z) (ids : list Z) : tx OpsStore Z :=
  match ids with
  | [] => tx_ret cursor
  | id :: rest =>
    let! _ := projectIncidentTx jobID clock now id in
    let! _ := update_events (λ e, ev_ID e =? id)
        (λ e, e <| ev_FeedCursor := Some (cursor + 1) |> <| ev_DispatchedAt := Some clock |>) in
    publish_events jobID clock now (cursor + 1) rest
  end.

Definition DispatchTx (jobID clock now : Z) (skipped : Z → bool) (limit : Z) : tx OpsStore Z :=
  fail_if (limit <=? 0) || (1000 <? limit) with ErrInvalid ;;
  let! cursor := tx_read os_FeedCursor in
  let! ids := tx_read (undispatched skipped limit) in
  let! cursor := publish_events jobID clock now cursor ids in
  let! _ := (if bool_decide (ids = []) then tx_ret () else tx_write (λ s, s <| os_FeedCursor := cursor |>)) in
  tx_ret (Z.of_nat (length ids)).

(** [Work] of the dispatcher. *)
Definition Dispatch (jobID clock now : Z) (skipped : Z → bool) (s : OpsStore) : result Z * OpsStore :=
  run_tx (DispatchTx jobID clock now skipped 200) s.

(** ** Receipts *)

Definition receipt_of (notification user : Z) (r : ReceiptRow) : bool :=
  (rc_NotificationID r =? notification) && (rc_UserID r =? user).

(** [INSERT INTO notification_receipts ... ON CONFLICT ... DO UPDATE]. *)
Definition upsert_receipt (row : ReceiptRow) (update : ReceiptRow → ReceiptRow) : tx OpsStore unit :=
  let! receipts := tx_read os_Receipts in
  let mine := receipt_of (rc_NotificationID row) (rc_UserID row) in
  if existsb mine receipts
  then tx_write (λ s, s <| os_Receipts := rows_update mine update (os_Receipts s) |>)
  else tx_write (λ s, s <| os_Receipts := os_Receipts s ++ [row] |>).

Definition visible_notification (actor : SessionUser) (id : Z) (s : OpsStore) : bool :=
  existsb (λ n, (nt_ID n =? id) && NotificationVisibility s (su_ID actor) (su_Role actor) n) (os_Notifications s).

Definition MarkNotificationRead (clock : Z) (actor : SessionUser) (id : Z) : tx OpsStore unit :=
  fail_if actor_invalid actor with ErrNotFound ;;
  let! s := tx_read (λ s, s) in
  fail_if negb (visible_notification actor id s) with ErrNotFound ;;
  upsert_receipt (mkReceiptRow id (su_ID actor) clock None) (λ r, r).

Definition ArchiveNotification (clock : Z) (actor : SessionUser) (id : Z) : tx OpsStore unit :=
  fail_if actor_invalid actor with ErrNotFound ;;
  let! s := tx_read (λ s, s) in
  fail_if negb (visible_notification actor id s) with ErrNotFound ;;
  upsert_receipt (mkReceiptRow id (su_ID actor) clock (Some clock))
    (λ r, r <| rc_ArchivedAt := Some (default clock (rc_ArchivedAt r)) |>).

(** ** Preferences and policy *)

Definition EmailModes : list string := ["off"; "immediate"; "digest"].

(** The actor's row, while its role is that of the session and it may log in. *)
Definition current_user (actor : SessionUser) (u : UserRow) : bool :=
  (us_ID u =? su_ID actor) && String.eqb (us_Role u) (su_Role actor) && negb (us_LoginDisabled u).

Definition SavePreferences (actor : SessionUser) (mode : string) : tx OpsStore unit :=
  fail_if negb (one_of mode EmailModes) with ErrInvalid ;;
  let! s := tx_read (λ s, s) in
  fail_if negb (existsb (current_user actor) (ac_Users (os_Accounts s))) with ErrNotFound ;;
  if existsb (λ p, pf_UserID p =? su_ID actor) (os_Preferences s)
  then tx_write (λ s, s <| os_Preferences := rows_update (λ p, pf_UserID p =? su_ID actor) (λ p, p <| pf_EmailMode := mode |>) (os_Preferences s) |>)
  else tx_write (λ s, s <| os_Preferences := os_Preferences s ++ [mkPreferenceRow (su_ID actor) mode] |>).

(** The actor is an administrator who may log in. *)
Definition current_admin (actor : SessionUser) (s : OpsStore) : bool :=
  existsb (λ u, current_user actor u && String.eqb (us_Role u) RoleAdmin) (ac_Users (os_Accounts s)).

Definition SaveDeliveryPolicy (clock : Z) (actor : SessionUser) (enabled : bool) : tx OpsStore unit :=
  let! s := tx_read (λ s, s) in
  fail_if negb (current_admin actor s) with ErrNotFound ;;
  tx_write (λ s, s <| os_Policy := mkPolicyRow enabled clock |>).

Definition DeliveryPolicy (actor : SessionUser) (s : OpsStore) : result bool :=
  if current_admin actor s then Ok (po_Enabled (os_Policy s)) else Err ErrNotFound.

(** The newest batch of the user, by the time of its last change. *)
Definition newer_batch (a b : EmailBatch) : bool :=
  (eb_UpdatedAt b <? eb_UpdatedAt a) || (eb_UpdatedAt a =? eb_UpdatedAt b) && (eb_ID b <? eb_ID a).

Definition latest_status (batches : list EmailBatch) : string :=
  match foldl (λ best b, match best with
                         | None => Some b
                         | Some x => if newer_batch b x then Some b else best
                         end) None batches with
  | Some b => eb_Status b
  | None => ""
  end.

Definition with_status (status : string) (batches : list EmailBatch) : bool :=
  existsb (λ b, String.eqb (eb_Status b) status) batches.

Definition delivery_health (smtpConfigured enabled : bool) (mode : string) (batches : list EmailBatch) : string :=
  if negb enabled then "Email is disabled by server policy. Your inbox remains available."
  else if negb smtpConfigured then "Server SMTP is not configured. Your inbox remains available."
  else if String.eqb mode "off" then "Email updates are off. Your inbox remains available."
  else if String.eqb (latest_status batches) "accepted" then
    "Accepted by SMTP most recently. Arrival in the recipient's inbox has not been verified. Previous failed attempts remain in history."
  else if with_status "failed" batches then
    "Email updates need attention. SMTP acceptance could not be confirmed; retries are bounded."
  else if with_status "pending" batches then "Email is queued. Daily digests are sent after 00:00 UTC."
  else if with_status "accepted" batches then "Accepted by SMTP. Arrival in the recipient's inbox has not been verified."
  else "No email has been accepted by SMTP yet.".

Definition email_mode (user : Z) (s : OpsStore) : string :=
  match rows_where (λ p, pf_UserID p =? user) (os_Preferences s) with
  | p :: _ => pf_EmailMode p
  | [] => "off"
  end.

(** The mode and the health of delivery; the two other preferences are constant. *)
Definition Preferences (smtpConfigured : bool) (actor : SessionUser) (s : OpsStore) : result (string * string) :=
  if existsb (current_user actor) (ac_Users (os_Accounts s)) then
    let mode := email_mode (su_ID actor) s in
    Ok (mode, delivery_health smtpConfigured (po_Enabled (os_Policy s)) mode
                (rows_where (λ b, eb_RecipientUserID b =? su_ID actor) (os_Batches s)))
  else Err ErrNotFound.
