(* ===== verification/OpsDelivery.v ===== *)
(** * Operations: delivery of mail

    The mail service of delivery.go. The transport ([EmailTransport]) and SHA-256
    are parameters; PostgreSQL's [left] is one too. The row locks of
    delivery_scope.go, taken before the mail is composed, make the delivery of one
    batch atomic here. *)

From S2P Require Import Prelude Tx Tables GoStr GoTime GoCrypto Site OpsTypes OpsScope OpsStore OpsNotify.
From Stdlib Require Import Ascii.

(** ** The fingerprint of a delivery *)

(** [binary.BigEndian.Uint64(bytes[:8]) & 0x7fffffffffffffff]. *)
Definition revision_of (bytes : list Z) : Z := Z.land (big_endian (take 8 bytes)) 9223372036854775807.

(** ** One batch *)

(** A mail handed to the transport. *)
Record Mail := mkMail { ml_To : string; ml_Subject : string; ml_Body : string }.

(** What is to be done with the next batch that is due. *)
Inductive DeliveryStep :=
| NothingDue
| SkipBatch (batch : Z) (reason : string)
| SendBatch (batch : EmailBatch) (user : UserRow) (mode : string) (mail : Mail).

Section OpsDelivery.
Context `{SHA256}.
Context (pg_left : string → Z → string).

Definition batch_ready (clock : Z) (b : EmailBatch) : bool :=
  one_of (eb_Status b) ["pending"; "failed"] && (eb_Attempts b <? 8) && (eb_NextAttemptAt b <=? clock).

(** [ORDER BY next_attempt_at,id LIMIT 1 FOR UPDATE SKIP LOCKED]. *)
Definition earlier (a b : EmailBatch) : bool :=
  (eb_NextAttemptAt a <? eb_NextAttemptAt b) || (eb_NextAttemptAt a =? eb_NextAttemptAt b) && (eb_ID a <? eb_ID b).

Definition next_batch (clock : Z) (skipped : Z → bool) (batches : list EmailBatch) : option EmailBatch :=
  foldl (λ best b, match best with
                   | None => Some b
                   | Some x => if earlier b x then Some b else best
                   end) None (rows_where (λ b, batch_ready clock b && negb (skipped (eb_ID b))) batches).

Definition summarised_kinds : list string :=
  ["threshold"; "over_limit"; "suspended"; "certificate_expiring"; "login_new_device"; "login_failed_burst"; "operation_failed";
   "issue_recovered"].

Definition mail_summary (n : NotificationRow) : string :=
  if one_of (nt_Kind n) summarised_kinds then pg_left (nt_Body n) 2000
  else "Open Activity to review the affected resource.".

Definition by_id (a b : NotificationRow) : Prop := nt_ID a ≤ nt_ID b.
#[export] Instance by_id_dec : RelDecision by_id := λ a b, decide (nt_ID a ≤ nt_ID b).

(** The notifications of the batch the user may see now. *)
Definition in_batch (s : OpsStore) (batch : Z) (u : UserRow) (n : NotificationRow) : bool :=
  existsb (λ item, (ei_BatchID item =? batch) && (ei_UserID item =? us_ID u) && (ei_NotificationID item =? nt_ID n)) (os_Items s)
  && negb (String.eqb (issue_kind s n) "notification_delivery") && NotificationVisibility s (us_ID u) (us_Role u) n.

Definition batch_notifications (s : OpsStore) (batch : Z) (u : UserRow) : list NotificationRow :=
  merge_sort by_id (rows_where (in_batch s batch u) (os_Notifications s)).

Definition message (n : NotificationRow) : string := join " " (fields (nt_Title n)) +:+ newline +:+ mail_summary n.

Definition mail_body (notifications : list NotificationRow) : string :=
  let messages := message <$> take 50 notifications in
  let total := Z.of_nat (length notifications) in
  let shown := Z.of_nat (length messages) in
  let messages := if shown <? total
    then messages ++ [itoa (total - shown) +:+ " additional updates are available in Activity."] else messages in
  join (newline +:+ newline) messages +:+ newline +:+ newline
  +:+ "Open Activity in Nakpanel for current status. Reading an update does not resolve an issue.".

Definition next_step (clock : Z) (skipped : Z → bool) (s : OpsStore) : result DeliveryStep :=
  match next_batch clock skipped (os_Batches s) with
  | None => Ok NothingDue
  | Some b =>
    let* u := query_row (rows_where (λ u, us_ID u =? eb_RecipientUserID b) (ac_Users (os_Accounts s))) in
    let mode := email_mode (us_ID u) s in
    if negb (po_Enabled (os_Policy s)) || us_LoginDisabled u || negb (String.eqb mode (eb_Mode b)) || String.eqb mode "off"
    then Ok (SkipBatch (eb_ID b) "policy_or_preference_changed")
    else
      match batch_notifications s (eb_ID b) u with
      | [] => Ok (SkipBatch (eb_ID b) "recipient_scope_changed")
      | notifications => Ok (SendBatch b u mode (mkMail (us_Email u) "Nakpanel updates" (mail_body notifications)))
      end
  end.

Definition update_batch (clock id : Z) (f : EmailBatch → EmailBatch) : tx OpsStore unit :=
  tx_write (λ s, s <| os_Batches := rows_update (λ b, eb_ID b =? id) (λ b, (f b) <| eb_UpdatedAt := clock |>) (os_Batches s) |>).

Definition skip_batch (clock id : Z) (reason : string) : tx OpsStore unit :=
  update_batch clock id (λ b, b <| eb_Status := "skipped" |> <| eb_LastError := reason |>).

Definition delivery_fingerprint (profile : string) (policyAt : Z) (u : UserRow) (mode : string) : list Z :=
  sum256 (profile +:+ "|" +:+ format_rfc3339nano policyAt +:+ "|" +:+ itoa (us_ID u) +:+ "|" +:+ us_Role u +:+ "|"
          +:+ us_Email u +:+ "|" +:+ mode).

Definition delivery_delay (attempts : Z) : Z := minute * 2 ^ Z.min attempts 6.

Definition delivery_condition (user : Z) (hash : string) (unhealthy : bool) (revision now : Z) : ConditionSample :=
  mkConditionSample (mkResource ResourceUser user) "notification_delivery" "smtp" hash unhealthy
    (if unhealthy then "warning" else "") (if unhealthy then "Email updates need attention" else "")
    (if unhealthy then "SMTP acceptance could not be confirmed. Your in-app inbox remains available. Delivery retries are bounded." else "")
    (if unhealthy then revision else 0) (Some now).

Definition mail_failed (clock now : Z) (b : EmailBatch) (hash : string) (revision : Z) : tx OpsStore unit :=
  let! _ := update_batch clock (eb_ID b) (λ x, x <| eb_Status := "failed" |> <| eb_Attempts := eb_Attempts x + 1 |>
      <| eb_LastError := "smtp_acceptance_unconfirmed" |> <| eb_NextAttemptAt := now + delivery_delay (eb_Attempts b) |>) in
  ObserveConditionTx (delivery_condition (eb_RecipientUserID b) hash true revision now).

Definition acceptance_receipt (token : VerificationToken) (hash : string) (batch now : Z) : VerificationReceipt :=
  mkVerificationReceipt token hash "smtp_acceptance" batch "" 0 now
    "Accepted by SMTP. Arrival in the recipient's inbox has not been verified.".

(** The issue about the user's mail is checked and resolved in the same transaction. *)
Definition resolve_delivery (clock now user batch : Z) (hash : string) (revision : Z) : tx OpsStore unit :=
  let! s := tx_read (λ s, s) in
  match rows_where (open_issue (mkResource ResourceUser user) "notification_delivery" "smtp") (os_Issues s) with
  | [] => tx_ret ()
  | open :: _ =>
    let! i := IssueForUpdateTx (is_ID open) in
    let! token := SetCheckingTx clock i revision in
    ResolveVerifiedTx now clock (acceptance_receipt token hash batch now) hash revision
  end.

Definition mail_accepted (clock now : Z) (b : EmailBatch) (hash : string) (revision : Z) : tx OpsStore unit :=
  let! _ := update_batch clock (eb_ID b) (λ x, x <| eb_Status := "accepted" |> <| eb_Attempts := eb_Attempts x + 1 |>
      <| eb_LastError := "" |> <| eb_AcceptedAt := Some now |>) in
  let! _ := ObserveConditionTx (delivery_condition (eb_RecipientUserID b) hash false revision now) in
  resolve_delivery clock now (eb_RecipientUserID b) (eb_ID b) hash revision.

(** What follows the call of the transport. *)
Definition after_send (clock now : Z) (profile : string) (b : EmailBatch) (u : UserRow) (mode : string) (sendErr : option error)
    : tx OpsStore unit :=
  let! policy := tx_read os_Policy in
  let fingerprint := delivery_fingerprint profile (po_UpdatedAt policy) u mode in
  let hash := hex_encode fingerprint in
  let revision := revision_of fingerprint in
  match sendErr with
  | Some _ => mail_failed clock now b hash revision
  | None => mail_accepted clock now b hash revision
  end.

(** ** The service *)

(** What a delivery is given: the clocks, the locked rows and the transport, which
    is absent when SMTP is not configured. *)
Record Delivery := mkDelivery {
  dl_Clock : Z;
  dl_Now : Z;
  dl_Profile : string;
  dl_Skipped : Z → bool;
  dl_Send : option (Mail → option error);
}.

(** The result, the mails handed to the transport, and the database. *)
Definition deliverOne (d : Delivery) (s : OpsStore) : result bool * list Mail * OpsStore :=
  match dl_Send d with
  | None => (Ok false, [], s)
  | Some send =>
    match next_step (dl_Clock d) (dl_Skipped d) s with
    | Err e => (Err e, [], s)
    | Ok NothingDue => (Ok false, [], s)
    | Ok (SkipBatch id reason) => (Ok true, [], snd (run_tx (skip_batch (dl_Clock d) id reason) s))
    | Ok (SendBatch b u mode mail) =>
      match run_tx (after_send (dl_Clock d) (dl_Now d) (dl_Profile d) b u mode (send mail)) s with
      | (Ok _, s') => (Ok true, [mail], s')
      | (Err e, s') => (Err e, [mail], s')
      end
    end
  end.

(** [for n := 0; n < 25; n++]. *)
Fixpoint deliver_loop (n : nat) (d : nat → Delivery) (s : OpsStore) : result unit * list Mail * OpsStore :=
  match n with
  | O => (Ok (), [], s)
  | S n =>
    match deliverOne (d n) s with
    | (Err e, mails, s) => (Err e, mails, s)
    | (Ok false, mails, s) => (Ok (), mails, s)
    | (Ok true, mails, s) => let '(r, more, s) := deliver_loop n d s in (r, mails ++ more, s)
    end
  end.

(** Each round has clocks of its own; they are numbered downwards. *)
Definition Deliver (d : nat → Delivery) (s : OpsStore) : result unit * list Mail * OpsStore := deliver_loop 25 d s.

End OpsDelivery.
