(* ===== verification/OpsQueries.v ===== *)
(** * Operations: pages and the feed

    The reads of queries.go and feed.go: filters, counts, the four lists and
    their pages, single issues, operations and notifications, the feed of events,
    and the receipts that are written for a whole list. [ilike] is PostgreSQL's
    ILIKE and [target] the name a resource is shown under (targetSQL), which the
    text search looks into. *)

From S2P Require Import Prelude Tx Tables GoStr GoTime Site OpsTypes OpsScope OpsStore OpsNotify.

(** ** Filters *)

Record Filter := mkFilter {
  fl_ActiveFirst : bool;
  fl_Resource : Resource;
  fl_Before : Z;
  fl_Limit : Z;
  fl_Search : string;
  fl_Status : string;
  fl_Severity : string;
}.

#[export] Instance eta_Filter : Eta Filter := λ f,
  mkFilter (fl_ActiveFirst f) (fl_Resource f) (fl_Before f) (fl_Limit f) (fl_Search f) (fl_Status f) (fl_Severity f).

Definition Filter_validate (f : Filter) : result unit :=
  return_if (fl_Before f <? 0) || (fl_Limit f <? 0) || (200 <? fl_Limit f) || (200 <? str_len (fl_Search f))
            || negb (String.eqb (res_Kind (fl_Resource f)) "") && negb (Resource_Valid (fl_Resource f))
            || fl_ActiveFirst f && (0 <? fl_Before f) with ErrInvalid ;;
  return_if negb (one_of (fl_Status f) [""; "open"; "acknowledged"; "resolved"; "active"; "finished"; "unread"; "all"])
    with ErrInvalid ;;
  return_if negb (one_of (fl_Severity f) [""; "info"; "warning"; "critical"]) with ErrInvalid ;;
  Ok ().

Definition Filter_limit (f : Filter) : Z := if fl_Limit f =? 0 then 50 else fl_Limit f.

(** ** Rows in order *)

(** [ORDER BY id DESC LIMIT n]. *)
Definition newest {R} (id : R → Z) (a b : R) : Prop := id b ≤ id a.
#[export] Instance newest_dec {R} (id : R → Z) : RelDecision (newest id) := λ a b, decide (id b ≤ id a).

Definition newest_first {R} (id : R → Z) (n : Z) (rows : list R) : list R :=
  take (Z.to_nat n) (merge_sort (newest id) rows).

(** [if len(rows) > limit]: the rows of the page, and the last of them. *)
Definition page_rows {R} (limit : Z) (rows : list R) : list R :=
  if limit <? Z.of_nat (length rows) then take (Z.to_nat limit) rows else rows.

Definition next_before {R} (id : R → Z) (limit : Z) (rows : list R) : Z :=
  if limit <? Z.of_nat (length rows)
  then match last (take (Z.to_nat limit) rows) with Some r => id r | None => 0 end else 0.

Section OpsQueries.
Context (ilike : string → string → bool) (target : OpsStore → Resource → string).

Definition pattern (f : Filter) : string := "%" +:+ fl_Search f +:+ "%".
Definition before_ok (f : Filter) (id : Z) : bool := (fl_Before f <=? 0) || (id <? fl_Before f).

(** [rowFilter], with the title and the resource of the row. *)
Definition rowFilter (s : OpsStore) (f : Filter) (id : Z) (resource : Resource) (title : string) : bool :=
  resourceFilter (os_Accounts s) (fl_Resource f) resource && before_ok f id
  && (String.eqb (fl_Search f) "" || ilike title (pattern f) || ilike (target s resource) (pattern f)).

(** ** Lists *)

Definition sees (s : OpsStore) (actor : SessionUser) (r : Resource) : bool :=
  resourcePredicate (os_Accounts s) (su_ID actor) (su_Role actor) r.

Definition issue_selected (s : OpsStore) (actor : SessionUser) (f : Filter) (i : Issue) : bool :=
  let resolved := bool_decide (is_Some (is_ResolvedAt i)) in
  let acknowledged := bool_decide (is_Some (is_AcknowledgedAt i)) in
  sees s actor (is_Resource i) && rowFilter s f (is_ID i) (is_Resource i) (is_Title i)
  && (if String.eqb (fl_Status f) "resolved" then resolved
      else if negb (String.eqb (fl_Status f) "all") then negb resolved else true)
  && (if String.eqb (fl_Status f) "acknowledged" then acknowledged
      else if String.eqb (fl_Status f) "open" then negb acknowledged else true)
  && (String.eqb (fl_Severity f) "" || String.eqb (is_Severity i) (fl_Severity f)).

Definition listIssues (s : OpsStore) (actor : SessionUser) (f : Filter) : list Issue :=
  newest_first is_ID (Filter_limit f + 1) (rows_where (issue_selected s actor f) (os_Issues s)).

Definition ActiveStates : list string := [StateQueued; StateRunning; StateWaitingRetry].

Definition operation_selected (s : OpsStore) (actor : SessionUser) (f : Filter) (o : Operation) : bool :=
  sees s actor (op_Resource o) && rowFilter s f (op_ID o) (op_Resource o) (op_Title o)
  && (if String.eqb (fl_Status f) "active" then one_of (op_State o) ActiveStates
      else if String.eqb (fl_Status f) "finished" then Terminal (op_State o) else true)
  && (negb (fl_ActiveFirst f) || one_of (op_State o) (ActiveStates ++ [StateFailed])).

(** [ORDER BY CASE WHEN state IN (...) THEN 0 ELSE 1 END,id DESC]. *)
Definition active_first (a b : Operation) : Prop :=
  let rank o := if one_of (op_State o) ActiveStates then 0 else 1 in
  rank a < rank b ∨ rank a = rank b ∧ op_ID b ≤ op_ID a.
#[export] Instance active_first_dec : RelDecision active_first.
Proof. intros a b. unfold active_first. apply _. Defined.

Definition listOperations (s : OpsStore) (actor : SessionUser) (f : Filter) : list Operation :=
  let rows := rows_where (operation_selected s actor f) (os_Operations s) in
  if fl_ActiveFirst f then take (Z.to_nat (Filter_limit f + 1)) (merge_sort active_first rows)
  else newest_first op_ID (Filter_limit f + 1) rows.

(** The receipt of the actor for a notification, which may be missing. *)
Definition own_receipt (s : OpsStore) (user : Z) (n : NotificationRow) : option ReceiptRow :=
  match rows_where (receipt_of (nt_ID n) user) (os_Receipts s) with
  | r :: _ => Some r
  | [] => None
  end.

Definition archived (r : option ReceiptRow) : bool :=
  match r with Some r => bool_decide (is_Some (rc_ArchivedAt r)) | None => false end.

(** [notificationSummarySQL], with PostgreSQL's [left]. *)
Definition notification_summary (pg_left : string → Z → string) (n : NotificationRow) : string :=
  if one_of (nt_Kind n) ["threshold"; "over_limit"; "suspended"; "certificate_expiring"; "login_new_device"; "login_failed_burst";
                         "operation_failed"; "issue_recovered"]
  then pg_left (nt_Body n) 2000 else "Open the affected resource to review its current status.".

Context (pg_left : string → Z → string).

Definition sees_notification (s : OpsStore) (actor : SessionUser) (n : NotificationRow) : bool :=
  NotificationVisibility s (su_ID actor) (su_Role actor) n.

Definition notification_selected (s : OpsStore) (actor : SessionUser) (f : Filter) (n : NotificationRow) : bool :=
  let receipt := own_receipt s (su_ID actor) n in
  sees_notification s actor n && resourceFilter (os_Accounts s) (fl_Resource f) (notification_scope s n)
  && negb (archived receipt) && before_ok f (nt_ID n)
  && (negb (String.eqb (fl_Status f) "unread") || bool_decide (receipt = None))
  && (String.eqb (fl_Search f) "" || ilike (nt_Title n) (pattern f) || ilike (notification_summary pg_left n) (pattern f)
      || ilike (target s (notification_scope s n)) (pattern f)).

Definition listNotifications (s : OpsStore) (actor : SessionUser) (f : Filter) : list NotificationRow :=
  newest_first nt_ID (Filter_limit f + 1) (rows_where (notification_selected s actor f) (os_Notifications s)).

(** What is the actor's to read of an event. *)
Definition sees_event (s : OpsStore) (actor : SessionUser) (f : Filter) (e : EventRow) : bool :=
  sees s actor (ev_Resource e) && resourceFilter (os_Accounts s) (fl_Resource f) (ev_Resource e)
  && ((ev_RecipientUserID e =? 0) || (ev_RecipientUserID e =? su_ID actor)).

Definition history_selected (s : OpsStore) (actor : SessionUser) (f : Filter) (e : EventRow) : bool :=
  sees_event s actor f e && before_ok f (ev_ID e) && (String.eqb (fl_Search f) "" || ilike (ev_Summary e) (pattern f)).

Definition listHistory (s : OpsStore) (actor : SessionUser) (f : Filter) : list EventRow :=
  newest_first ev_ID (Filter_limit f + 1) (rows_where (history_selected s actor f) (os_Events s)).

(** ** Counts and pages *)

Record Counts := mkCounts { ct_OpenIssues : Z; ct_ActiveTasks : Z; ct_Unread : Z }.

Definition count_rows {R} (p : R → bool) (rows : list R) : Z := Z.of_nat (length (rows_where p rows)).

Definition counts (s : OpsStore) (actor : SessionUser) (f : Filter) : Counts :=
  let within r := sees s actor r && resourceFilter (os_Accounts s) (fl_Resource f) r in
  mkCounts (count_rows (λ i, bool_decide (is_ResolvedAt i = None) && within (is_Resource i)) (os_Issues s))
    (count_rows (λ o, one_of (op_State o) ActiveStates && within (op_Resource o)) (os_Operations s))
    (count_rows (λ n, bool_decide (own_receipt s (su_ID actor) n = None) && sees_notification s actor n
                 && resourceFilter (os_Accounts s) (fl_Resource f) (notification_scope s n)) (os_Notifications s)).

Inductive View := ViewIssues | ViewTasks | ViewHistory | ViewInbox.

Record Page := mkPage {
  pg_Counts : Counts;
  pg_Cursor : Z;
  pg_NextBefore : Z;
  pg_Issues : list Issue;
  pg_Tasks : list Operation;
  pg_History : list EventRow;
  pg_Notifications : list NotificationRow;
}.

(** A read-only transaction at one snapshot. *)
Definition page_of (s : OpsStore) (actor : SessionUser) (view : View) (f : Filter) : Page :=
  let limit := Filter_limit f in
  let page next issues tasks history notifications :=
    mkPage (counts s actor f) (os_FeedCursor s) next issues tasks history notifications in
  match view with
  | ViewIssues => let rows := listIssues s actor f in page (next_before is_ID limit rows) (page_rows limit rows) [] [] []
  | ViewTasks =>
    let rows := listOperations s actor f in
    page (if fl_ActiveFirst f then 0 else next_before op_ID limit rows) [] (page_rows limit rows) [] []
  | ViewHistory => let rows := listHistory s actor f in page (next_before ev_ID limit rows) [] [] (page_rows limit rows) []
  | ViewInbox =>
    let rows := listNotifications s actor f in page (next_before nt_ID limit rows) [] [] [] (page_rows limit rows)
  end.

Definition view_of (view : string) : option View :=
  if String.eqb view "issues" then Some ViewIssues
  else if String.eqb view "tasks" then Some ViewTasks
  else if String.eqb view "history" then Some ViewHistory
  else if String.eqb view "inbox" then Some ViewInbox
  else None.

Definition Store_Page (s : OpsStore) (actor : SessionUser) (view : string) (f : Filter) : result Page :=
  let* _ := Filter_validate f in
  return_if actor_invalid actor with ErrNotFound ;;
  match view_of view with
  | None => Err ErrInvalid
  | Some view => Ok (page_of s actor view f)
  end.

(** ** Single rows *)

Definition not_found {A} (r : result A) : result A := match r with Ok a => Ok a | Err _ => Err ErrNotFound end.

Definition Store_Issue (s : OpsStore) (actor : SessionUser) (id : Z) : result Issue :=
  not_found (query_row (rows_where (λ i, (is_ID i =? id) && sees s actor (is_Resource i)) (os_Issues s))).

Definition latest_attempt (a b : Attempt) : Prop := at_Number b ≤ at_Number a.
#[export] Instance latest_attempt_dec : RelDecision latest_attempt := λ a b, decide (at_Number b ≤ at_Number a).

Definition Store_Operation (s : OpsStore) (actor : SessionUser) (id : Z) : result (Operation * list Attempt) :=
  let* o := not_found (query_row (rows_where (λ o, (op_ID o =? id) && sees s actor (op_Resource o)) (os_Operations s))) in
  Ok (o, merge_sort latest_attempt (rows_where (λ a, at_OperationID a =? id) (os_Attempts s))).

Definition Store_Notification (s : OpsStore) (actor : SessionUser) (id : Z) (scope : Resource) : result NotificationRow :=
  return_if (id <=? 0) || String.eqb (res_Kind scope) "" && negb (res_ID scope =? 0)
            || negb (String.eqb (res_Kind scope) "") && negb (Resource_Valid scope) with ErrInvalid ;;
  return_if actor_invalid actor with ErrNotFound ;;
  not_found (query_row (rows_where (λ n, (nt_ID n =? id) && sees_notification s actor n
    && resourceFilter (os_Accounts s) scope (notification_scope s n)) (os_Notifications s))).

(** [INSERT ... SELECT ... ON CONFLICT DO NOTHING], row by row. *)
Definition MarkAllNotificationsRead (clock : Z) (actor : SessionUser) (f : Filter) : tx OpsStore unit :=
  let! _ := tx_lift (Filter_validate f) in
  fail_if actor_invalid actor with ErrNotFound ;;
  let! s := tx_read (λ s, s) in
  tx_each (λ n, upsert_receipt (mkReceiptRow (nt_ID n) (su_ID actor) clock None) (λ r, r))
    (rows_where (λ n, sees_notification s actor n && resourceFilter (os_Accounts s) (fl_Resource f) (notification_scope s n))
       (os_Notifications s)).

(** ** The feed *)

Record FeedPage := mkFeedPage { fd_Events : list EventRow; fd_Cursor : Z; fd_More : bool }.

Definition cursor_of (e : EventRow) : Z := default 0 (ev_FeedCursor e).

Definition oldest (a b : EventRow) : Prop := cursor_of a ≤ cursor_of b.
#[export] Instance oldest_dec : RelDecision oldest := λ a b, decide (cursor_of a ≤ cursor_of b).

Definition after_cursor (after : Z) (e : EventRow) : bool :=
  match ev_FeedCursor e with Some c => after <? c | None => false end.

Definition Feed (s : OpsStore) (actor : SessionUser) (after : Z) (f : Filter) : result FeedPage :=
  return_if after <? 0 with ErrInvalid ;;
  let* _ := Filter_validate f in
  let limit := Filter_limit f in
  let rows := take (Z.to_nat (limit + 1))
    (merge_sort oldest (rows_where (λ e, after_cursor after e && sees_event s actor f e) (os_Events s))) in
  let events := page_rows limit rows in
  Ok (mkFeedPage events (match last events with Some e => cursor_of e | None => after end) (limit <? Z.of_nat (length rows))).
End OpsQueries.
