(* ===== verification/OpsSystem.v ===== *)
(** * Operations: the system

    Everything that changes the tables of the package, as one action per
    transaction: its own handlers, the recorder that follows the job queue, and
    what other components write. Runs are sequences of actions, in any order. *)

From S2P Require Import Prelude Tx Tables GoStr GoTime GoCrypto Site OpsTypes OpsScope OpsStore OpsNotify OpsDelivery OpsQueries.

(** ** The recorder

    The trigger on [river_job] (installed by recorder.go, defined in the migration
    operations_recording.sql), from the point where it has found the resource, the
    operation's state and the incident of a job. *)

(** A transition of a job, classified; [rj_Linked] is the operation the job names itself. *)
Record RecordedJob := mkRecordedJob {
  rj_ID : Z;
  rj_Attempt : Z;
  rj_State : string;
  rj_Kind : string;
  rj_Resource : Resource;
  rj_Label : string;
  rj_Trigger : string;
  rj_Revision : Z;
  rj_FailedInDomain : bool;
  rj_Linked : Z;
  rj_AttemptedAt : Z;
  rj_IncidentKind : string;
  rj_IncidentCondition : string;
}.

#[export] Instance eta_RecordedJob : Eta RecordedJob := λ r,
  mkRecordedJob (rj_ID r) (rj_Attempt r) (rj_State r) (rj_Kind r) (rj_Resource r) (rj_Label r)
    (rj_Trigger r) (rj_Revision r) (rj_FailedInDomain r) (rj_Linked r) (rj_AttemptedAt r)
    (rj_IncidentKind r) (rj_IncidentCondition r).

Section OpsSystem.
Context `{SHA256}.
Context (pg_left : string → Z → string).

Definition operation_state (j : RecordedJob) : string :=
  if rj_FailedInDomain j && one_of (rj_State j) ["completed"; "cancelled"] then StateFailed
  else if String.eqb (rj_State j) "running" then StateRunning
  else if String.eqb (rj_State j) "completed" then StateSucceeded
  else if String.eqb (rj_State j) "discarded" then StateFailed
  else if String.eqb (rj_State j) "cancelled" then StateCancelled
  else if String.eqb (rj_State j) "retryable" then StateWaitingRetry
  else StateQueued.

Definition operation_stage (state : string) : string :=
  if String.eqb state StateWaitingRetry then "Waiting for automatic retry"
  else if String.eqb state StateRunning then "Working" else "".

(** The operation the job belongs to, created when it is new. *)
Definition job_operation (j : RecordedJob) : tx OpsStore (Z * Z) :=
  let! s := tx_read (λ s, s) in
  if 0 <? rj_Linked j then
    match rows_where (λ o, (op_ID o =? rj_Linked j) && same_resource (op_Resource o) (rj_Resource j)) (os_Operations s) with
    | [] => tx_fail (errors_New "invalid logical operation reference")
    | o :: _ => tx_ret (op_ID o, op_IntentRevision o)
    end
  else
    let id := os_OperationSeq s in
    let key := "river:" +:+ itoa (rj_ID j) in
    let! _ := tx_write (λ s, s <| os_OperationSeq := id + 1 |>) in
    match rows_where (λ o, String.eqb (op_Key o) key) (os_Operations s) with
    | o :: _ => tx_ret (op_ID o, rj_Revision j)
    | [] =>
      let row := mkOperation id key (rj_Kind j) (rj_Resource j) (rj_Label j) (rj_Trigger j) StateQueued "" (rj_Revision j) in
      let! _ := tx_write (λ s, s <| os_Operations := os_Operations s ++ [row] |>) in
      tx_ret (id, rj_Revision j)
    end.

Definition attempt_state (j : RecordedJob) : string :=
  if String.eqb (rj_State j) "retryable" then StateFailed else operation_state j.

(** [INSERT ... ON CONFLICT(river_job_id,river_attempt) DO UPDATE ... WHERE finished_at IS NULL]. *)
Definition record_attempt (clock opID : Z) (j : RecordedJob) : tx OpsStore unit :=
  let! _ := update_attempts
      (λ a, (at_OperationID a =? opID) && bool_decide (at_FinishedAt a = None) && (at_RiverJobID a =? rj_ID j)
            && (at_RiverAttempt a <? rj_Attempt j))
      (λ a, a <| at_State := StateFailed |> <| at_ErrorCode := "interrupted" |> <| at_FinishedAt := Some clock |>) in
  let! s := tx_read (λ s, s) in
  let state := attempt_state j in
  let code := if String.eqb state StateFailed then "worker_failed" else "" in
  let finished := if Terminal state then Some clock else None in
  let execution a := (at_RiverJobID a =? rj_ID j) && (at_RiverAttempt a =? Z.max (rj_Attempt j) 1) in
  let! _ := tx_write (λ s, s <| os_AttemptSeq := os_AttemptSeq s + 1 |>) in
  if existsb execution (os_Attempts s) then
    update_attempts (λ a, execution a && bool_decide (at_FinishedAt a = None))
      (λ a, a <| at_State := state |> <| at_ErrorCode := code |> <| at_FinishedAt := finished |>
              <| at_StartedAt := if String.eqb (at_State a) StateQueued then rj_AttemptedAt j else at_StartedAt a |>)
  else
    let row := mkAttempt (os_AttemptSeq s) opID (max_number (rows_where (λ a, at_OperationID a =? opID) (os_Attempts s)) + 1)
                 (rj_ID j) (Z.max (rj_Attempt j) 1) state code (rj_AttemptedAt j) finished in
    fail_if bool_decide (finished = None)
            && existsb (λ a, (at_OperationID a =? opID) && bool_decide (at_FinishedAt a = None)) (os_Attempts s)
      with unique_violation ;;
    tx_write (λ s, s <| os_Attempts := os_Attempts s ++ [row] |>).

Definition outcome_text (state : string) : string :=
  if String.eqb state StateSucceeded then " completed"
  else if String.eqb state StateFailed then " failed"
  else if String.eqb state StateCancelled then " cancelled"
  else if String.eqb state StateWaitingRetry then " is waiting to retry"
  else if String.eqb state StateRunning then " started" else " queued".

Definition job_event (opID : Z) (j : RecordedJob) : EventRow :=
  new_event ("job:" +:+ itoa (rj_ID j) +:+ ":" +:+ itoa (rj_Attempt j) +:+ ":" +:+ rj_State j) (rj_Resource j)
    ("task." +:+ operation_state j) opID 0 (rj_Label j +:+ outcome_text (operation_state j)).

(** What the failure of a job observes, as an observation: the incident. *)
Definition job_failure (opID revision clock : Z) (j : RecordedJob) : Observation :=
  mkObservation "" (rj_Resource j) (rj_IncidentKind j) (rj_IncidentCondition j) "critical" (rj_Label j +:+ " needs attention")
    "The operation failed. Review its prerequisites and current resource settings." revision opID (Some clock).

Definition failed_again (o : Observation) (eventID clock : Z) (i : Issue) : Issue :=
  (occurs_again o eventID clock i) <| is_ObservedAt := clock |>.

(** Any other transition only tells the open incident that something happened. *)
Definition job_progress (opID eventID : Z) (j : RecordedJob) : tx OpsStore unit :=
  let! s := tx_read (λ s, s) in
  match rows_where (open_issue (rj_Resource j) (rj_IncidentKind j) (rj_IncidentCondition j)) (os_Issues s) with
  | [] => tx_ret ()
  | i :: _ =>
    let! _ := update_issues (λ x, is_ID x =? is_ID i)
        (λ x, x <| is_Generation := is_Generation x + 1 |> <| is_LatestEventID := eventID |> <| is_OperationID := opID |>
                <| is_LastCheckStatus := "unknown" |>) in
    update_events (λ e, ev_ID e =? eventID) (λ e, e <| ev_IssueID := is_ID i |>)
  end.

Definition record_event (clock opID revision : Z) (j : RecordedJob) : tx OpsStore unit :=
  let! eventID := insert_event (job_event opID j) in
  match eventID with
  | None => tx_ret ()
  | Some eventID =>
    if negb (String.eqb (operation_state j) StateFailed) then job_progress opID eventID j
    else
      let o := job_failure opID revision clock j in
      let! i := upsert_issue o eventID clock (failed_again o eventID clock) in
      update_events (λ e, ev_ID e =? eventID) (λ e, e <| ev_IssueID := is_ID i |>)
  end.

Definition record_job (clock : Z) (j : RecordedJob) : tx OpsStore unit :=
  let! found := job_operation j in
  let opID := fst found in
  let! _ := update_operations (λ o, op_ID o =? opID)
      (λ o, o <| op_State := operation_state j |> <| op_Stage := operation_stage (operation_state j) |>) in
  let! _ := (if (rj_Attempt j =? 0) || one_of (rj_State j) ["running"; "completed"; "discarded"; "cancelled"; "retryable"]
             then record_attempt clock opID j else tx_ret ()) in
  record_event clock opID (snd found) j.

(** ** Actions *)

Inductive OpsAction :=
| ActObserve (o : Observation)
| ActCondition (c : ConditionSample)
| ActAcknowledge (clock : Z) (actor : SessionUser) (id : Z)
| ActCheck (clock id revision : Z)
| ActResolve (now clock : Z) (receipt : VerificationReceipt) (hash : string) (revision : Z)
| ActVerificationFailed (clock : Z) (token : VerificationToken)
| ActCreate (input : NewOperation)
| ActStart (clock opID riverID : Z)
| ActFinish (clock id : Z) (state code : string)
| ActDispatch (jobID clock now : Z) (skipped : Z → bool) (limit : Z)
| ActRead (clock : Z) (actor : SessionUser) (id : Z)
| ActReadAll (clock : Z) (actor : SessionUser) (f : Filter)
| ActArchive (clock : Z) (actor : SessionUser) (id : Z)
| ActPreferences (actor : SessionUser) (mode : string)
| ActPolicy (clock : Z) (actor : SessionUser) (enabled : bool)
| ActDeliver (d : Delivery)
| ActRecord (clock : Z) (j : RecordedJob)
| ActNotify (row : NotificationRow) (jobID clock now : Z) (email : string)
| ActResolveNotice (clock : Z) (dedupe : string)
| ActAccounts (accounts : Accounts).

(** A worker that checks an issue: [IssueForUpdateTx] and [SetCheckingTx]. *)
Definition check_issue (clock id revision : Z) : tx OpsStore VerificationToken :=
  let! i := IssueForUpdateTx id in
  SetCheckingTx clock i revision.

(** Another component publishes a notice of its own, and mails it. *)
Definition notify (row : NotificationRow) (jobID clock now : Z) (email : string) : tx OpsStore unit :=
  let! id := tx_read os_NotificationSeq in
  let! _ := insert_notice (row <| nt_IssueID := 0 |> <| nt_ResolvedAt := None |>) (λ n, n) in
  EnqueueNotificationForEmailTx jobID clock now id email.

Definition ignore {A} (m : tx OpsStore A) (s : OpsStore) : OpsStore := snd (run_tx m s).

Definition act (a : OpsAction) (s : OpsStore) : OpsStore :=
  match a with
  | ActObserve o => ignore (ObserveIssueTx o) s
  | ActCondition c => ignore (ObserveConditionTx c) s
  | ActAcknowledge clock actor id => ignore (AcknowledgeIssue clock actor id) s
  | ActCheck clock id revision => ignore (check_issue clock id revision) s
  | ActResolve now clock r hash revision => ignore (ResolveVerifiedTx now clock r hash revision) s
  | ActVerificationFailed clock token => ignore (VerificationFailedTx clock token) s
  | ActCreate input => snd (CreateOperation input s)
  | ActStart clock opID riverID => ignore (StartAttempt clock opID riverID) s
  | ActFinish clock id state code => ignore (FinishAttempt clock id state code) s
  | ActDispatch jobID clock now skipped limit => ignore (DispatchTx jobID clock now skipped limit) s
  | ActRead clock actor id => ignore (MarkNotificationRead clock actor id) s
  | ActReadAll clock actor f => ignore (MarkAllNotificationsRead clock actor f) s
  | ActArchive clock actor id => ignore (ArchiveNotification clock actor id) s
  | ActPreferences actor mode => ignore (SavePreferences actor mode) s
  | ActPolicy clock actor enabled => ignore (SaveDeliveryPolicy clock actor enabled) s
  | ActDeliver d => snd (deliverOne pg_left d s)
  | ActRecord clock j => ignore (record_job clock j) s
  | ActNotify row jobID clock now email => ignore (notify row jobID clock now email) s
  | ActResolveNotice clock dedupe =>
    ignore (update_notifications (open_notice dedupe) (λ n, n <| nt_ResolvedAt := Some clock |>)) s
  | ActAccounts accounts => s <| os_Accounts := accounts |>
  end.

Definition run_actions (actions : list OpsAction) (s : OpsStore) : OpsStore := foldl (λ s a, act a s) s actions.
End OpsSystem.
