(* ===== verification/OpsInvariant.v ===== *)
(** * The invariant of the operations tables

    What holds of the tables of internal/control/operations whatever happens, in
    whatever order: their keys, and what the code relies on beyond them. An issue
    is open once per condition, an operation has at most one attempt that has not
    finished, an event is recorded once, a user is mailed a notification in one
    batch, and a resolved issue carries a receipt made for its last occurrence. *)

From S2P Require Import Prelude Tx Tables GoStr GoTime GoCrypto Site OpsTypes OpsScope OpsStore OpsNotify OpsDelivery OpsQueries OpsSystem.

(** ** Rows *)

Definition token_of (i : Issue) : VerificationToken :=
  mkVerificationToken (is_ID i) (is_Generation i) (is_LatestEventID i) (is_IntentRevision i).

(** The receipt of a resolved issue: made by a source that can tell, for the
    occurrence and the intent the issue was left with. *)
Definition verified (i : Issue) : Prop :=
  ∃ r, is_Verification i = Some r ∧ vr_Token r = token_of i ∧ one_of (vr_Source r) (expectedSource (is_Kind i)) = true.

Record issue_ok (i : Issue) : Prop := {
  io_state : is_State i = "resolved" ↔ is_Some (is_ResolvedAt i);
  io_generation : 0 < is_Generation i;
  io_occurrences : 0 < is_Occurrences i;
  io_verified : is_Some (is_ResolvedAt i) → verified i;
}.

Definition unresolved (i : Issue) : bool := bool_decide (is_ResolvedAt i = None).
Definition condition_of (i : Issue) : Resource * string * string := (is_Resource i, is_Kind i, is_Condition i).

Definition running (a : Attempt) : bool := bool_decide (at_FinishedAt a = None).
Definition attempt_ok (a : Attempt) : Prop := (at_FinishedAt a = None ↔ Terminal (at_State a) = false) ∧ 0 < at_Number a.

Definition pending_notice (n : NotificationRow) : bool := bool_decide (nt_ResolvedAt n = None).

Record batch_ok (b : EmailBatch) : Prop := {
  bo_accepted : eb_Status b = "accepted" ↔ is_Some (eb_AcceptedAt b);
  bo_attempts : 0 ≤ eb_Attempts b ≤ 8;
}.

(** ** Tables *)

Record OpsOk (s : OpsStore) : Prop := {
  oo_operations : keys_ok op_ID (os_Operations s) (os_OperationSeq s);
  oo_operation_keys : NoDup (op_Key <$> os_Operations s);
  oo_attempts : keys_ok at_ID (os_Attempts s) (os_AttemptSeq s);
  oo_one_running : unique_where at_ID running at_OperationID (os_Attempts s);
  oo_numbers : NoDup ((λ a, (at_OperationID a, at_Number a)) <$> os_Attempts s);
  oo_attempt : Forall attempt_ok (os_Attempts s);
  oo_issues : keys_ok is_ID (os_Issues s) (os_IssueSeq s);
  oo_one_open : unique_where is_ID unresolved condition_of (os_Issues s);
  oo_issue : Forall issue_ok (os_Issues s);
  oo_events : keys_ok ev_ID (os_Events s) (os_EventSeq s);
  oo_event_keys : NoDup (ev_Key <$> os_Events s);
  oo_notifications : keys_ok nt_ID (os_Notifications s) (os_NotificationSeq s);
  oo_one_notice : unique_where nt_ID pending_notice nt_DedupeKey (os_Notifications s);
  oo_receipts : NoDup ((λ r, (rc_NotificationID r, rc_UserID r)) <$> os_Receipts s);
  oo_preferences : NoDup (pf_UserID <$> os_Preferences s);
  oo_batches : keys_ok eb_ID (os_Batches s) (os_BatchSeq s);
  oo_batch_keys : NoDup (eb_BatchKey <$> os_Batches s);
  oo_batch : Forall batch_ok (os_Batches s);
  oo_items : NoDup ((λ i, (ei_NotificationID i, ei_UserID i)) <$> os_Items s);
}.

Definition Preserves (s s' : OpsStore) : Prop := OpsOk s → OpsOk s'.

#[export] Instance Preserves_preorder : PreOrder Preserves.
Proof. split; [by intros s Hs|]. intros s1 s2 s3 H12 H23 Hs. auto. Qed.

(** A change of one table: the invariants of the others are as they were. *)
Ltac other_tables := intros []; split; cbn; try done.

(** ** Statements *)

Lemma same_resource_spec a b : same_resource a b = true ↔ a = b.
Proof.
  unfold same_resource. rewrite andb_true_iff, String.eqb_eq, Z.eqb_eq. destruct a, b; cbn. split; [by intros [-> ->]|by intros [= -> ->]].
Qed.

Lemma is_about_spec resource kind condition i : is_about resource kind condition i = true ↔ condition_of i = (resource, kind, condition).
Proof.
  unfold is_about, condition_of. rewrite !andb_true_iff, same_resource_spec, !String.eqb_eq. split; [by intros [[-> ->] ->]|by intros [= -> -> ->]].
Qed.

Lemma open_issue_spec resource kind condition i :
  open_issue resource kind condition i = true ↔ condition_of i = (resource, kind, condition) ∧ unresolved i = true.
Proof. unfold open_issue. by rewrite andb_true_iff, is_about_spec. Qed.

Lemma keeps_tables f :
  (∀ s, os_Operations (f s) = os_Operations s ∧ os_OperationSeq (f s) = os_OperationSeq s ∧
        os_Attempts (f s) = os_Attempts s ∧ os_AttemptSeq (f s) = os_AttemptSeq s ∧
        os_Issues (f s) = os_Issues s ∧ os_IssueSeq (f s) = os_IssueSeq s ∧
        os_Events (f s) = os_Events s ∧ os_EventSeq (f s) = os_EventSeq s ∧
        os_Notifications (f s) = os_Notifications s ∧ os_NotificationSeq (f s) = os_NotificationSeq s ∧
        os_Receipts (f s) = os_Receipts s ∧ os_Preferences (f s) = os_Preferences s ∧
        os_Batches (f s) = os_Batches s ∧ os_BatchSeq (f s) = os_BatchSeq s ∧ os_Items (f s) = os_Items s) →
  steps Preserves (tx_write f).
Proof.
  intros Hf. apply steps_write. intros s. destruct (Hf s) as (E1&E2&E3&E4&E5&E6&E7&E8&E9&E10&E11&E12&E13&E14&E15).
  intros []. by split; rewrite ?E1, ?E2, ?E3, ?E4, ?E5, ?E6, ?E7, ?E8, ?E9, ?E10, ?E11, ?E12, ?E13, ?E14, ?E15.
Qed.

Lemma preserves_update_operations p f :
  (∀ o, op_ID (f o) = op_ID o ∧ op_Key (f o) = op_Key o) → steps Preserves (update_operations p f).
Proof.
  intros Hf. apply steps_write. intros s. other_tables.
  - apply keys_update; [apply Hf|done].
  - rewrite fmap_rows_update; [done|]. intros o _. apply Hf.
Qed.

Lemma preserves_update_events p f :
  (∀ e, ev_ID (f e) = ev_ID e ∧ ev_Key (f e) = ev_Key e) → steps Preserves (update_events p f).
Proof.
  intros Hf. apply steps_write. intros s. other_tables.
  - apply keys_update; [apply Hf|done].
  - rewrite fmap_rows_update; [done|]. intros e _. apply Hf.
Qed.

Lemma preserves_update_notifications p f :
  (∀ n, nt_ID (f n) = nt_ID n ∧ nt_DedupeKey (f n) = nt_DedupeKey n ∧ (pending_notice (f n) = true → pending_notice n = true)) →
  steps Preserves (update_notifications p f).
Proof.
  intros Hf. apply steps_write. intros s. other_tables.
  - apply keys_update; [apply Hf|done].
  - apply unique_where_update; [|done]. intros n _ _. destruct (Hf n) as (? & ? & ?). auto.
Qed.

Lemma preserves_insert_event event : steps Preserves (insert_event event).
Proof.
  intros s a s' Hi. unfold insert_event in Hi. tx_ok. destruct (existsb _ _) eqn:E; tx_ok; other_tables.
  - by apply keys_next.
  - by apply keys_append.
  - apply NoDup_append; [|done]. cbn. intros (e & Ek & He)%list_elem_of_fmap.
    rewrite existsb_false in E. apply E in He. rewrite Ek, String.eqb_refl in He. done.
Qed.

(** ** Issues *)

(** What an update of an open issue does: it stays open and about the same. *)
Record Touches (f : Issue → Issue) : Prop := {
  tc_id i : is_ID (f i) = is_ID i;
  tc_condition i : condition_of (f i) = condition_of i;
  tc_resolved i : is_ResolvedAt (f i) = is_ResolvedAt i;
  tc_state i : is_State (f i) = is_State i ∨ is_State (f i) ≠ "resolved";
  tc_generation i : is_Generation i ≤ is_Generation (f i);
  tc_occurrences i : is_Occurrences i ≤ is_Occurrences (f i);
}.

Ltac touches := split; intros ?; cbn; try (unfold reopened_state; repeat case_match); auto; try lia.

Lemma touched_ok f i : Touches f → unresolved i = true → issue_ok i → issue_ok (f i).
Proof.
  intros [] Hu%bool_decide_eq_true [Hst Hg Ho _].
  assert (is_State i ≠ "resolved") as Hne by (intros [x Hx]%Hst; congruence).
  split.
  - rewrite tc_resolved0, Hu. split; [|by intros [? ?]]. destruct (tc_state0 i); congruence.
  - specialize (tc_generation0 i). lia.
  - specialize (tc_occurrences0 i). lia.
  - rewrite tc_resolved0, Hu. by intros [? ?].
Qed.

Lemma issues_updated p f s :
  (∀ i, i ∈ os_Issues s → p i = true → is_ID (f i) = is_ID i ∧ condition_of (f i) = condition_of i ∧
        (unresolved (f i) = true → unresolved i = true) ∧ (issue_ok i → issue_ok (f i))) →
  OpsOk s → OpsOk (s <| os_Issues := rows_update p f (os_Issues s) |>).
Proof.
  intros Hf. other_tables.
  - destruct oo_issues0 as [Hnd Hlt]. split.
    + unfold rows_update. rewrite <- list_fmap_compose.
      erewrite list_fmap_ext; [exact Hnd|]. intros k i Hi. cbn. destruct (p i) eqn:E; [|done].
      apply list_elem_of_lookup_2 in Hi. by apply Hf.
    + apply Forall_update; [|done]. intros i Hi E. by destruct (Hf _ Hi E) as [-> _].
  - apply unique_where_update; [|done]. intros i Hi E. by destruct (Hf _ Hi E) as (? & ? & ? & _).
  - apply Forall_update; [|done]. intros i Hi E. by destruct (Hf _ Hi E) as (_ & _ & _ & ?).
Qed.

(** The update of the row found open. *)
Lemma open_updated i f s :
  Touches f → i ∈ os_Issues s → unresolved i = true → OpsOk s →
  OpsOk (s <| os_Issues := rows_update (λ x, is_ID x =? is_ID i) f (os_Issues s) |>).
Proof.
  intros Ht Hi Hu Hs. apply issues_updated; [|done]. intros x Hx E%Z.eqb_eq.
  assert (x = i) as -> by (eapply keys_same; [apply Hs|done..]).
  split; [apply Ht|]. split; [apply Ht|]. split; [done|]. by apply touched_ok.
Qed.

(** An update whose condition asks for open issues. *)
Lemma open_selected p f s :
  Touches f → (∀ i, p i = true → unresolved i = true) → OpsOk s →
  OpsOk (s <| os_Issues := rows_update p f (os_Issues s) |>).
Proof.
  intros Ht Hp Hs. apply issues_updated; [|done]. intros i _ E. apply Hp in E.
  split; [apply Ht|]. split; [apply Ht|]. split; [done|]. by apply touched_ok.
Qed.

Lemma update_issues_Ok p f s n s' :
  update_issues p f s = Ok (n, s') →
  s' = s <| os_Issues := rows_update p f (os_Issues s) |> ∧ n = Z.of_nat (length (rows_where p (os_Issues s))).
Proof. unfold update_issues. intros Hu. by tx_ok. Qed.

(** An observation, while an issue about the condition is open and when none is. *)
Lemma preserves_upsert_issue o eventID observedAt again :
  Touches again → steps Preserves (upsert_issue o eventID observedAt again).
Proof.
  intros Ht s a s' Hu Hs. unfold upsert_issue in Hu. tx_ok.
  destruct (rows_where _ _) as [|i rest] eqn:E; tx_ok.
  - assert (∀ i, i ∈ os_Issues s → open_issue (ob_Resource o) (ob_Kind o) (ob_Condition o) i = false) as Hnone.
    { intros i Hi. apply not_true_iff_false. intros Ho. assert (i ∈ []) as []%elem_of_nil by (rewrite <- E; by apply rows_where_elem). }
    revert Hs. other_tables.
    + by apply keys_append.
    + apply unique_where_append; [|done]. intros _ i Hi Hopen Ek. specialize (Hnone _ Hi).
      rewrite (proj2 (open_issue_spec _ _ _ _)) in Hnone; [done|]. by rewrite Ek.
    + apply Forall_append; [|done]. split; cbn; [split; [done|by intros [? ?]]|lia|lia|by intros [? ?]].
  - apply update_issues_Ok in Hu as [-> _] || match goal with Hx : update_issues _ _ _ = Ok _ |- _ => apply update_issues_Ok in Hx as [-> _] end.
    assert (i ∈ os_Issues s ∧ unresolved i = true) as [Hi Hun].
    { assert (i ∈ i :: rest) as Hin by constructor. rewrite <- E in Hin. apply rows_where_elem in Hin as [Ho Hin].
      apply open_issue_spec in Ho as [_ ?]. done. }
    apply (open_updated i again (s <| os_IssueSeq := os_IssueSeq s + 1 |>)); try done.
    revert Hs. other_tables. by apply keys_next.
Qed.

Lemma preserves_query {A} (f : OpsStore → result A) : steps Preserves (tx_query f).
Proof. apply steps_query, _. Qed.

#[export] Hint Resolve preserves_insert_event preserves_query : tx_steps.

Section Handlers.
Context `{SHA256}.
Context (pg_left : string → Z → string).

Lemma occurs_again_touches o eventID observedAt : Touches (occurs_again o eventID observedAt).
Proof. touches. Qed.
Lemma failed_again_touches o eventID clock : Touches (failed_again o eventID clock).
Proof. touches. Qed.

Lemma preserves_link_event eventID issueID :
  steps Preserves (update_events (λ e, ev_ID e =? eventID) (λ e, e <| ev_IssueID := issueID |>)).
Proof. by apply preserves_update_events. Qed.
Hint Resolve preserves_link_event : tx_steps.

Lemma preserves_observe o : steps Preserves (ObserveIssueTx o).
Proof.
  pose proof occurs_again_touches. pose proof preserves_upsert_issue. unfold ObserveIssueTx. tx_steps.
Qed.

(** A time of an issue that may be resolved. *)
Lemma preserves_observed_at id observedAt :
  steps Preserves (update_issues (λ x, is_ID x =? id) (λ x, x <| is_ObservedAt := Z.max (is_ObservedAt x) observedAt |>)).
Proof.
  intros s a s' [-> _]%update_issues_Ok. intros Hs. apply issues_updated; [|done]. intros i _ _.
  split_and!; [done..|]. by intros [].
Qed.

Lemma preserves_upsert_condition c observedAt : steps Preserves (upsert_condition c observedAt).
Proof. unfold upsert_condition. steps_rows; by apply keeps_tables. Qed.

Lemma found_open resource kind condition rows i rest :
  rows_where (open_issue resource kind condition) rows = i :: rest → i ∈ rows ∧ unresolved i = true.
Proof.
  intros E. assert (i ∈ i :: rest) as Hin by constructor. rewrite <- E in Hin.
  apply rows_where_elem in Hin as [Ho Hin]. by apply open_issue_spec in Ho as [_ ?].
Qed.

Lemma insert_event_issues event s r s' : insert_event event s = Ok (r, s') → os_Issues s' = os_Issues s.
Proof. unfold insert_event. intros Hi. tx_ok. destruct (existsb _ _); by tx_ok. Qed.

Lemma preserves_touch_open i f : Touches f → ∀ s n s',
  update_issues (λ x, is_ID x =? is_ID i) f s = Ok (n, s') → i ∈ os_Issues s → unresolved i = true → Preserves s s'.
Proof. intros Ht s n s' [-> _]%update_issues_Ok Hi Hu Hs. by apply open_updated. Qed.

Lemma preserves_recovered c key : steps Preserves (condition_recovered c key).
Proof.
  intros s a s' Hr. unfold condition_recovered in Hr. tx_ok. destruct (rows_where _ _) as [|i rest] eqn:E; [by tx_ok|].
  apply found_open in E as [Hi Hu]. apply tx_bind_Ok in Hr as (r & s1 & He & Hr).
  assert (i ∈ os_Issues s1) as Hi1 by (by rewrite (insert_event_issues _ _ _ _ He)).
  apply preserves_insert_event in He. destruct r as [eventID|]; tx_ok; [|done].
  etransitivity; [exact He|]. eapply preserves_touch_open; [|done..]. touches.
Qed.

Lemma preserves_condition c : steps Preserves (ObserveConditionTx c).
Proof.
  pose proof preserves_observe. pose proof preserves_observed_at. pose proof preserves_upsert_condition.
  pose proof preserves_recovered. unfold ObserveConditionTx. tx_steps.
Qed.

Lemma preserves_acknowledge clock actor id : steps Preserves (AcknowledgeIssue clock actor id).
Proof.
  intros s a s' Hr. unfold AcknowledgeIssue in Hr. tx_ok. destruct (rows_where _ _) as [|i rest] eqn:Erows; tx_ok.
  assert (i ∈ i :: rest) as Hin by constructor. rewrite <- Erows in Hin. apply rows_where_elem in Hin as [Ho Hi]. bool_split.
  match goal with Hu : update_issues _ _ _ = _, He : insert_event _ _ = _ |- _ =>
    apply preserves_insert_event in He; etransitivity; [|exact He]; eapply preserves_touch_open; [|exact Hu|done|] end.
  - split; intros y; cbn; auto; [|lia..]. destruct (String.eqb (is_State y) "checking"); auto.
  - unfold unresolved. by apply bool_decide_eq_true.
Qed.

Lemma preserves_check clock id revision : steps Preserves (check_issue clock id revision).
Proof.
  intros s a s' Hr. unfold check_issue, SetCheckingTx, IssueForUpdateTx in Hr. tx_ok.
  match goal with Hq : tx_query _ _ = _ |- _ => apply tx_query_Ok in Hq as [_ ->] end.
  match goal with Hu : update_issues _ _ _ = _ |- _ => apply update_issues_Ok in Hu as [-> _] end.
  intros Hs. apply open_selected; [touches| |done]. unfold unchanged_since, unresolved. intros y Hy. bool_split.
  by apply bool_decide_eq_true.
Qed.

Lemma preserves_failed clock token : steps Preserves (VerificationFailedTx clock token).
Proof.
  intros s a s' Hr. unfold VerificationFailedTx in Hr. tx_ok.
  match goal with Hu : update_issues _ _ _ = _ |- _ => apply update_issues_Ok in Hu as [-> _] end.
  intros Hs. apply open_selected; [touches| |done]. unfold unchanged_since, unresolved. intros y Hy. bool_split.
  by apply bool_decide_eq_true.
Qed.

(** ** Resolution *)

Lemma issue_by_id_Ok id s i : issue_by_id id s = Ok i → i ∈ os_Issues s ∧ is_ID i = id.
Proof. unfold issue_by_id. by intros [? ?%Z.eqb_eq]%query_where_Ok. Qed.

Lemma IssueForUpdate_Ok id s i s' : IssueForUpdateTx id s = Ok (i, s') → s' = s ∧ i ∈ os_Issues s ∧ is_ID i = id.
Proof.
  unfold IssueForUpdateTx. intros [Hq ->]%tx_query_Ok. destruct (issue_by_id id s) as [j|] eqn:E; [|done].
  injection Hq as ->. apply issue_by_id_Ok in E. done.
Qed.

(** A receipt that passes is about the issue as it stands. *)
Lemma receipt_current_token r i :
  receipt_current r i = true → is_ID i = vt_IssueID (vr_Token r) → vr_Token r = token_of i.
Proof.
  unfold receipt_current, token_of. cbv zeta. intros Hr Hid. bool_split. destruct (vr_Token r); cbn in *. congruence.
Qed.

Lemma resolved_ok clock r i :
  issue_ok i → vr_Token r = token_of i → one_of (vr_Source r) (expectedSource (is_Kind i)) = true → issue_ok (resolved_by clock r i).
Proof.
  intros [_ Hg Ho _] Ht Hsrc. split; cbn; [|done|done|].
  - split; [by eexists|done].
  - intros _. by exists r.
Qed.

Lemma preserves_resolve_issue clock r i s s' :
  resolve_issue clock r i s = Ok ((), s') → i ∈ os_Issues s → vr_Token r = token_of i →
  one_of (vr_Source r) (expectedSource (is_Kind i)) = true → Preserves s s'.
Proof.
  intros Hr Hi Ht Hsrc Hs. unfold resolve_issue in Hr. apply tx_bind_Ok in Hr as (n & s1 & [-> _]%update_issues_Ok & Hr).
  assert (OpsOk (s <| os_Issues := rows_update (λ x, is_ID x =? is_ID i) (resolved_by clock r) (os_Issues s) |>)) as Hs1.
  { apply issues_updated; [|done]. intros x Hx E%Z.eqb_eq.
    assert (x = i) as -> by (eapply keys_same; [apply Hs|done..]).
    split_and!; [done|done|done|]. intros Hok. by apply resolved_ok. }
  revert Hs1. revert Hr. match goal with |- ?body ?s1 = _ → _ => assert (steps Preserves body) as Hrest end; [|by apply Hrest].
  tx_steps. by apply (preserves_update_notifications _ (λ n, n <| nt_ResolvedAt := Some clock |>)).
Qed.

Lemma preserves_resolve now clock r hash revision : steps Preserves (ResolveVerifiedTx now clock r hash revision).
Proof.
  intros s a s' Hr. unfold ResolveVerifiedTx in Hr. tx_ok.
  match goal with Hi : IssueForUpdateTx _ _ = _ |- _ => apply IssueForUpdate_Ok in Hi as (-> & Hi & Hid) end. tx_ok.
  match goal with Hr : match is_ResolvedAt ?i with _ => _ end _ = _ |- _ => destruct (is_ResolvedAt i); tx_ok; [by intros ?|]; destruct a end.
  bool_split. eapply preserves_resolve_issue; [exact Hr|done| |done]. by apply receipt_current_token.
Qed.

(** ** Operations and attempts *)

Lemma create_ok input s : OpsOk s → OpsOk (snd (CreateOperation input s)).
Proof.
  intros Hs. unfold CreateOperation. destruct (operation_invalid input); [done|]. cbv zeta.
  destruct (rows_where _ _) as [|o rest] eqn:E.
  - assert (OpsOk (s <| os_OperationSeq := os_OperationSeq s + 1 |> <| os_Operations := os_Operations s ++
      [mkOperation (os_OperationSeq s) (no_Key input) (no_Kind input) (no_Resource input) (no_Title input) (no_Trigger input)
         StateQueued "" (no_IntentRevision input)] |>)); [|by case_match].
    revert Hs. other_tables.
    + by apply keys_append.
    + apply NoDup_append; [|done]. cbn. intros (o & Ek & Ho)%list_elem_of_fmap.
      assert (o ∈ []) as []%elem_of_nil. rewrite <- E. apply rows_where_elem. split; [|done]. by rewrite Ek, String.eqb_refl.
  - assert (OpsOk (s <| os_OperationSeq := os_OperationSeq s + 1 |>)); [|by case_match].
    revert Hs. other_tables. by apply keys_next.
Qed.

Lemma max_number_ge attempts a : a ∈ attempts → at_Number a ≤ max_number attempts.
Proof.
  unfold max_number. induction attempts as [|x l IH]; [by intros ?%elem_of_nil|].
  cbn [foldr]. intros [->|Ha]%elem_of_cons; [|apply IH in Ha]; lia.
Qed.

Lemma max_number_nonneg attempts : 0 ≤ max_number attempts.
Proof. unfold max_number. induction attempts; cbn; lia. Qed.

(** A new attempt of an operation, with the next number. *)
Lemma attempts_append s a :
  OpsOk s → at_ID a = os_AttemptSeq s → attempt_ok a →
  at_Number a = max_number (rows_where (λ x, at_OperationID x =? at_OperationID a) (os_Attempts s)) + 1 →
  (running a = true → ∀ x, x ∈ os_Attempts s → running x = true → at_OperationID x ≠ at_OperationID a) →
  OpsOk ((s <| os_Attempts := os_Attempts s ++ [a] |>) <| os_AttemptSeq := os_AttemptSeq s + 1 |>).
Proof.
  intros Hs Hid Ha Hn Hrun. revert Hs. other_tables.
  - by apply keys_append.
  - by apply unique_where_append.
  - apply NoDup_append; [|done]. intros (x & [= Eo En] & Hx)%list_elem_of_fmap.
    assert (at_Number x ≤ max_number (rows_where (λ x, at_OperationID x =? at_OperationID a) (os_Attempts s))) as Hle
      by (apply max_number_ge, rows_where_elem; split; [by apply Z.eqb_eq|done]).
    lia.
  - by apply Forall_append.
Qed.

Lemma attempts_updated p f s :
  (∀ a, a ∈ os_Attempts s → p a = true → at_ID (f a) = at_ID a ∧ at_OperationID (f a) = at_OperationID a ∧
        at_Number (f a) = at_Number a ∧ (running (f a) = true → running a = true) ∧ (attempt_ok a → attempt_ok (f a))) →
  OpsOk s → OpsOk (s <| os_Attempts := rows_update p f (os_Attempts s) |>).
Proof.
  intros Hf. assert (∀ {B} (g : Attempt → B), (∀ a, a ∈ os_Attempts s → p a = true → g (f a) = g a) →
    g <$> rows_update p f (os_Attempts s) = g <$> os_Attempts s) as Hfmap.
  { intros B g Hg. unfold rows_update. rewrite <- list_fmap_compose. apply list_fmap_ext. intros k a Ha. cbn.
    destruct (p a) eqn:E; [|done]. apply list_elem_of_lookup_2 in Ha. auto. }
  other_tables.
  - destruct oo_attempts0 as [Hnd Hlt]. split; [rewrite Hfmap; [done|]; intros a Ha E; by apply Hf|].
    apply Forall_update; [|done]. intros a Ha E. by destruct (Hf _ Ha E) as [-> _].
  - apply unique_where_update; [|done]. intros a Ha E. by destruct (Hf _ Ha E) as (? & ? & _ & ? & _).
  - rewrite Hfmap; [done|]. intros a Ha E. by destruct (Hf _ Ha E) as (_ & -> & -> & _).
  - apply Forall_update; [|done]. intros a Ha E. by apply Hf.
Qed.

Lemma running_spec a : running a = true ↔ at_FinishedAt a = None.
Proof. unfold running. by rewrite bool_decide_eq_true. Qed.

Lemma preserves_start clock opID riverID : steps Preserves (StartAttempt clock opID riverID).
Proof.
  intros s a s' Hr. unfold StartAttempt, insert_attempt in Hr. tx_ok.
  match goal with Hq : tx_query _ _ = _ |- _ => apply tx_query_Ok in Hq as [_ ->] end.
  match goal with Hu : update_operations _ _ _ = Ok (?u, _) |- _ => apply preserves_update_operations in Hu; [|done] end.
  etransitivity; [|eassumption]. intros Hs. apply attempts_append; try done.
  - split; [by split|]. cbn. pose proof (max_number_nonneg (rows_where (λ a, at_OperationID a =? opID) (os_Attempts s))). lia.
  - cbn. intros _ y Hy Hrun Eo.
    match goal with Hn : existsb (λ a, (at_OperationID a =? opID) && _) _ = false |- _ => rewrite existsb_false in Hn; apply Hn in Hy end.
    apply running_spec in Hrun. rewrite Eo, Z.eqb_refl, Hrun in Hy. done.
Qed.

Lemma preserves_finish clock id state code : steps Preserves (FinishAttempt clock id state code).
Proof.
  intros s a s' Hr. unfold FinishAttempt in Hr. tx_ok. bool_split.
  repeat match goal with Hq : tx_query _ _ = _ |- _ => apply tx_query_Ok in Hq as [? ->] end.
  destruct (Terminal (at_State _)) eqn:Et; tx_ok; [done|].
  apply preserves_update_operations in Hr; [|done]. etransitivity; [|exact Hr].
  match goal with Hu : update_attempts _ _ _ = _ |- _ => unfold update_attempts in Hu; tx_ok end.
  intros Hs. apply attempts_updated; [|done]. intros y Hy _. split_and!; [done..| |].
  - rewrite !running_spec. by cbn.
  - intros [_ Hn]. split; [|done]. cbn. split; congruence.
Qed.

(** ** The recorder *)

Lemma preserves_job_operation j : steps Preserves (job_operation j).
Proof.
  intros s a s' Hr. unfold job_operation in Hr. tx_ok. destruct (0 <? rj_Linked j).
  { destruct (rows_where _ _); by tx_ok. }
  tx_ok. destruct (rows_where _ _) as [|o rest] eqn:E; tx_ok; other_tables.
  - by apply keys_append.
  - apply NoDup_append; [|done]. cbn. intros (o & Ek & Ho)%list_elem_of_fmap.
    assert (o ∈ []) as []%elem_of_nil. rewrite <- E. apply rows_where_elem. split; [|done]. by rewrite Ek, String.eqb_refl.
  - by apply keys_next.
Qed.

Lemma attempt_ok_finished a state code clock :
  attempt_ok a → attempt_ok (a <| at_State := state |> <| at_ErrorCode := code |>
    <| at_FinishedAt := if Terminal state then Some clock else None |>).
Proof. intros [_ Hn]. split; [|done]. cbn. by destruct (Terminal state). Qed.

Lemma preserves_record_attempt clock opID j : steps Preserves (record_attempt clock opID j).
Proof.
  intros s a s' Hr. unfold record_attempt in Hr. apply tx_bind_Ok in Hr as ([] & s1 & Hu & Hr).
  transitivity s1.
  { unfold update_attempts in Hu. tx_ok. intros Hs. apply attempts_updated; [|done]. intros y _ _. split_and!; [done..| |].
    - rewrite !running_spec. by cbn.
    - intros Hy. by apply (attempt_ok_finished y StateFailed "interrupted" clock). }
  clear Hu s. rename s1 into s. tx_ok. destruct (existsb _ _) eqn:E.
  - unfold update_attempts in Hr. tx_ok. cbn. intros Hs.
    match goal with |- OpsOk (?s1 <| os_Attempts := rows_update ?p ?f _ |>) => apply (attempts_updated p f s1) end.
    + intros y _ Hy. bool_split. split_and!; [done..| |].
      * by rewrite !running_spec.
      * intros Hok. by apply (attempt_ok_finished y (attempt_state j)
          (if String.eqb (attempt_state j) StateFailed then "worker_failed" else "") clock) in Hok.
    + revert Hs. other_tables. by apply keys_next.
  - tx_ok. intros Hs. match goal with |- OpsOk (?s0 <| os_Attempts := _ ++ [?row] |>) => pose (new := row) end.
    apply (attempts_append s new) in Hs; [by destruct Hs; split|done| |done|].
    + split; cbn; [by destruct (Terminal (attempt_state j))|].
      pose proof (max_number_nonneg (rows_where (λ a, at_OperationID a =? opID) (os_Attempts s))). lia.
    + intros Hnew y Hy Hrun Eo. apply running_spec in Hnew. cbn in Hnew, Eo.
      match goal with E0 : bool_decide _ && _ = false |- _ => rewrite Hnew in E0; cbn in E0; rewrite existsb_false in E0; apply E0 in Hy end.
      apply running_spec in Hrun. rewrite Eo, Z.eqb_refl, Hrun in Hy. done.
Qed.

Lemma preserves_job_progress opID eventID j : steps Preserves (job_progress opID eventID j).
Proof.
  intros s a s' Hr. unfold job_progress in Hr. tx_ok. destruct (rows_where _ _) as [|i rest] eqn:E; [by tx_ok|].
  apply found_open in E as [Hi Hu]. tx_ok. apply preserves_link_event in Hr. etransitivity; [|exact Hr].
  eapply preserves_touch_open; [|eassumption|done..]. touches.
Qed.

Lemma preserves_record clock j : steps Preserves (record_job clock j).
Proof.
  pose proof preserves_job_operation. pose proof preserves_record_attempt. pose proof preserves_job_progress.
  pose proof preserves_upsert_issue. pose proof failed_again_touches. pose proof preserves_update_operations.
  unfold record_job, record_event. tx_steps.
Qed.

(** ** Notifications and mail *)

Lemma preserves_insert_notice row f :
  nt_ResolvedAt row = None →
  (∀ n, nt_ID (f n) = nt_ID n ∧ nt_DedupeKey (f n) = nt_DedupeKey n ∧ nt_ResolvedAt (f n) = nt_ResolvedAt n) →
  steps Preserves (insert_notice row f).
Proof.
  intros Hrow Hf s a s' Hi. unfold insert_notice in Hi. tx_ok. destruct (existsb _ _) eqn:E.
  - apply preserves_update_notifications in Hi.
    + etransitivity; [|exact Hi]. other_tables. by apply keys_next.
    + intros n. destruct (Hf n) as (? & ? & Hr). split_and!; [done..|]. unfold pending_notice. by rewrite Hr.
  - tx_ok. other_tables.
    + by apply keys_append.
    + apply unique_where_append; [|done]. cbn. intros _ n Hn Hp Ek. rewrite existsb_false in E. apply E in Hn.
      unfold open_notice in Hn. rewrite Ek, String.eqb_refl in Hn. unfold pending_notice in Hp. by rewrite Hp in Hn.
Qed.

Lemma preserves_correlate jobID id : steps Preserves (correlateNotificationTx jobID id).
Proof. unfold correlateNotificationTx. pose proof preserves_update_notifications. steps_rows. Qed.

Lemma preserves_upsert_batch clock key user mode due : steps Preserves (upsert_batch clock key user mode due).
Proof.
  intros s a s' Hr. unfold upsert_batch in Hr. tx_ok. destruct (rows_where _ _) as [|b rest] eqn:E; tx_ok; other_tables.
  - by apply keys_append.
  - apply NoDup_append; [|done]. cbn. intros (b & Ek & Hb)%list_elem_of_fmap.
    assert (b ∈ []) as []%elem_of_nil. rewrite <- E. apply rows_where_elem. split; [|done]. by rewrite Ek, String.eqb_refl.
  - apply Forall_append; [|done]. split; cbn; [split; [done|by intros [? ?]]|lia].
  - by apply keys_next.
Qed.

Lemma preserves_insert_item item : steps Preserves (insert_email_item item).
Proof.
  intros s a s' Hr. unfold insert_email_item in Hr. tx_ok. destruct (existsb _ _) eqn:E; tx_ok; [done|]. other_tables.
  apply NoDup_append; [|done]. intros (x & [= En Eu] & Hx)%list_elem_of_fmap. rewrite existsb_false in E. apply E in Hx.
  by rewrite En, Eu, !Z.eqb_refl in Hx.
Qed.

Lemma preserves_enqueue jobID clock now id email : steps Preserves (EnqueueNotificationForEmailTx jobID clock now id email).
Proof.
  pose proof preserves_correlate. pose proof preserves_upsert_batch. pose proof preserves_insert_item.
  unfold EnqueueNotificationForEmailTx, enqueue_for. tx_steps.
Qed.

Lemma preserves_project jobID clock now eventID : steps Preserves (projectIncidentTx jobID clock now eventID).
Proof.
  pose proof preserves_enqueue. pose proof preserves_insert_notice. pose proof preserves_update_notifications.
  unfold projectIncidentTx, link_notices, publish_failure, publish_recovery, EnqueueNotificationTx. steps_rows.
Qed.

Lemma preserves_publish jobID clock now ids : ∀ cursor, steps Preserves (publish_events jobID clock now cursor ids).
Proof.
  pose proof preserves_project. pose proof preserves_update_events.
  induction ids as [|id ids IH]; intros cursor; cbn [publish_events]; tx_steps.
Qed.

Lemma preserves_dispatch jobID clock now skipped limit : steps Preserves (DispatchTx jobID clock now skipped limit).
Proof. pose proof preserves_publish. unfold DispatchTx. tx_steps; by apply keeps_tables. Qed.

Lemma preserves_upsert_receipt row f :
  (∀ r, rc_NotificationID (f r) = rc_NotificationID r ∧ rc_UserID (f r) = rc_UserID r) →
  steps Preserves (upsert_receipt row f).
Proof.
  intros Hf s a s' Hr. unfold upsert_receipt in Hr. tx_ok. destruct (existsb _ _) eqn:E; tx_ok; other_tables.
  - rewrite fmap_rows_update; [done|]. intros r _. by destruct (Hf r) as [-> ->].
  - apply NoDup_append; [|done]. intros (r & [= En Eu] & Hr)%list_elem_of_fmap. rewrite existsb_false in E. apply E in Hr.
    unfold receipt_of in Hr. by rewrite En, Eu, !Z.eqb_refl in Hr.
Qed.

Lemma preserves_preferences actor mode : steps Preserves (SavePreferences actor mode).
Proof.
  intros s a s' Hr. unfold SavePreferences in Hr. tx_ok. destruct (existsb (λ p, pf_UserID p =? _) _) eqn:Ep; tx_ok; other_tables.
  - by rewrite fmap_rows_update.
  - apply NoDup_append; [|done]. cbn. intros (p & Eu & Hp)%list_elem_of_fmap. rewrite existsb_false in Ep. apply Ep in Hp.
    by rewrite Eu, Z.eqb_refl in Hp.
Qed.

(** ** Delivery *)

Lemma batches_updated s clock id f :
  (∀ b, b ∈ os_Batches s → eb_ID b = id → eb_ID (f b) = eb_ID b ∧ eb_BatchKey (f b) = eb_BatchKey b ∧ (batch_ok b → batch_ok (f b))) →
  ∀ s', update_batch clock id f s = Ok ((), s') → Preserves s s'.
Proof.
  intros Hf s' Hu. unfold update_batch in Hu. tx_ok. other_tables.
  - destruct oo_batches0 as [Hnd Hlt]. split.
    + unfold rows_update. rewrite <- list_fmap_compose. erewrite list_fmap_ext; [exact Hnd|]. intros k b Hb. cbn.
      destruct (Z.eqb_spec (eb_ID b) id) as [E|]; [|done]. apply list_elem_of_lookup_2 in Hb. by apply Hf.
    + apply Forall_update; [|done]. intros b Hb E%Z.eqb_eq. cbn. by destruct (Hf _ Hb E) as [-> _].
  - unfold rows_update. rewrite <- list_fmap_compose. erewrite list_fmap_ext; [exact oo_batch_keys0|]. intros k b Hb. cbn.
    destruct (Z.eqb_spec (eb_ID b) id) as [E|]; [|done]. apply list_elem_of_lookup_2 in Hb. by apply Hf.
  - apply Forall_update; [|done]. intros b Hb E%Z.eqb_eq Hok. destruct (Hf _ Hb E) as (_ & _ & Hf'). by destruct (Hf' Hok).
Qed.

Lemma next_batch_ready clock skipped batches b :
  next_batch clock skipped batches = Some b → b ∈ batches ∧ batch_ready clock b = true.
Proof.
  unfold next_batch. intros Hb.
  assert (b ∈ rows_where (λ b, batch_ready clock b && negb (skipped (eb_ID b))) batches) as [Hr Hin]%rows_where_elem.
  { revert Hb. generalize (rows_where (λ b, batch_ready clock b && negb (skipped (eb_ID b))) batches). intros rows.
    assert (∀ best, foldl (λ best b, match best with None => Some b | Some x => if earlier b x then Some b else best end) best rows = Some b →
      b ∈ rows ∨ best = Some b) as Hfold; [|by intros [?|?]%Hfold].
    induction rows as [|x rows IH]; intros best; cbn [foldl]; [by right|].
    intros [Hin|Hbest]%IH; [left; by right|]. destruct best as [y|]; [|injection Hbest as ->; left; by left].
    destruct (earlier x y); [injection Hbest as ->; left; by left|by right]. }
  bool_split. done.
Qed.

Lemma next_step_batch clock skipped s b u mode mail :
  next_step pg_left clock skipped s = Ok (SendBatch b u mode mail) → b ∈ os_Batches s ∧ batch_ready clock b = true.
Proof.
  unfold next_step. destruct (next_batch clock skipped (os_Batches s)) as [b'|] eqn:E; [|done].
  apply next_batch_ready in E. destruct (query_row _) as [u'|]; [|done]. cbn [result_bind]. case_match; [done|].
  case_match; [done|]. by intros [= -> _ _ _].
Qed.

Lemma next_step_skip clock skipped s id reason :
  next_step pg_left clock skipped s = Ok (SkipBatch id reason) →
  ∃ b, b ∈ os_Batches s ∧ batch_ready clock b = true ∧ id = eb_ID b.
Proof.
  unfold next_step. destruct (next_batch clock skipped (os_Batches s)) as [b|] eqn:E; [|done].
  apply next_batch_ready in E as [Hb Hr]. destruct (query_row _) as [u'|]; [|done]. cbn [result_bind].
  case_match; [by intros [= <- _]; exists b|]. case_match; [by intros [= <- _]; exists b|done].
Qed.

(** A batch that is ready has not been accepted, and has attempts left. *)
Lemma ready_facts clock b : batch_ready clock b = true → batch_ok b → eb_AcceptedAt b = None ∧ 0 ≤ eb_Attempts b < 8.
Proof.
  unfold batch_ready, one_of. intros Hr [Ha Hn]. bool_split. split; [|lia].
  destruct (eb_AcceptedAt b) eqn:E; [|done]. destruct Ha as [_ Ha]. rewrite Ha in * by done. set_solver.
Qed.

(** The update of a batch that was found ready. *)
Lemma ready_updated clock now b f s s' :
  b ∈ os_Batches s → batch_ready now b = true →
  eb_ID (f b) = eb_ID b → eb_BatchKey (f b) = eb_BatchKey b →
  (eb_AcceptedAt b = None → 0 ≤ eb_Attempts b < 8 → batch_ok (f b)) →
  update_batch clock (eb_ID b) f s = Ok ((), s') → Preserves s s'.
Proof.
  intros Hb Hr Hid Hkey Hf Hu Hs. eapply batches_updated; [|exact Hu|exact Hs]. intros x Hx E.
  assert (x = b) as -> by (eapply keys_same; [apply Hs|done..]). split_and!; [done..|].
  intros Hok. destruct (ready_facts _ _ Hr Hok). by apply Hf.
Qed.

Lemma preserves_resolve_delivery clock now user batch hash revision :
  steps Preserves (resolve_delivery clock now user batch hash revision).
Proof.
  intros s a s' Hr. unfold resolve_delivery in Hr. tx_ok. destruct (rows_where _ _) as [|i rest]; [by tx_ok|].
  apply tx_bind_Ok in Hr as (j & s1 & Hi & Hr). apply tx_bind_Ok in Hr as (token & s2 & Ht & Hr).
  transitivity s2; [|by eapply preserves_resolve].
  apply (preserves_check clock (is_ID i) revision s token s2). unfold check_issue. apply tx_bind_Ok. eauto.
Qed.

Lemma preserves_after_send clock now skipped profile b u mode mail sendErr s a s' :
  next_step pg_left clock skipped s = Ok (SendBatch b u mode mail) →
  after_send clock now profile b u mode sendErr s = Ok (a, s') → Preserves s s'.
Proof.
  intros [Hb Hr]%next_step_batch Ha. unfold after_send in Ha. tx_ok. cbv zeta in Ha.
  destruct sendErr; unfold mail_failed, mail_accepted in Ha; apply tx_bind_Ok in Ha as ([] & s1 & Hu & Ha); transitivity s1.
  - refine (ready_updated _ _ _ _ _ _ Hb Hr _ _ _ Hu); [done|done|]. intros E Hn. split; cbn; [|lia].
    rewrite E. split; [done|by intros [? ?]].
  - by eapply preserves_condition.
  - refine (ready_updated _ _ _ _ _ _ Hb Hr _ _ _ Hu); [done|done|]. intros E Hn. split; cbn; [|lia].
    split; [by eexists|done].
  - apply tx_bind_Ok in Ha as (u' & s2 & Hc & Ha). transitivity s2; [by eapply preserves_condition|].
    by eapply preserves_resolve_delivery.
Qed.

Lemma preserves_deliver d s : OpsOk s → OpsOk (snd (deliverOne pg_left d s)).
Proof.
  intros Hs. unfold deliverOne. destruct (dl_Send d) as [send|]; [|done].
  destruct (next_step _ _ _ _) as [[|id reason|b u mode mail]|] eqn:E; [done| | |done]; cbn [snd].
  - apply next_step_skip in E as (b & Hb & Hr & ->). unfold run_tx.
    destruct (skip_batch _ _ _ s) as [[[] s']|e] eqn:Es; cbn; [|done].
    revert Hs. refine (ready_updated _ _ _ _ _ _ Hb Hr _ _ _ Es); [done|done|]. intros E Hn. split; cbn; [|lia].
    rewrite E. split; [done|by intros [? ?]].
  - unfold run_tx. destruct (after_send _ _ _ _ _ _ _ s) as [[a s']|e] eqn:Ea; cbn; [|done].
    by eapply preserves_after_send.
Qed.

(** ** All actions *)

Lemma preserves_notify row jobID clock now email : steps Preserves (notify row jobID clock now email).
Proof.
  pose proof preserves_enqueue. unfold notify. tx_steps. by apply preserves_insert_notice.
Qed.

Lemma preserves_read_all clock actor f : steps Preserves (MarkAllNotificationsRead clock actor f).
Proof. pose proof preserves_upsert_receipt. unfold MarkAllNotificationsRead. tx_steps. Qed.

Lemma preserves_ignore {A} (m : tx OpsStore A) s : steps Preserves m → OpsOk s → OpsOk (ignore m s).
Proof. intros Hm. by apply (steps_run Preserves). Qed.

Lemma act_preserves a s : OpsOk s → OpsOk (act pg_left a s).
Proof.
  intros Hs. destruct a; cbn [act];
    first [by apply create_ok | by apply preserves_deliver | idtac]; try (apply preserves_ignore; [|done]).
  - apply preserves_observe.
  - apply preserves_condition.
  - apply preserves_acknowledge.
  - apply preserves_check.
  - apply preserves_resolve.
  - apply preserves_failed.
  - apply preserves_start.
  - apply preserves_finish.
  - apply preserves_dispatch.
  - pose proof preserves_upsert_receipt. unfold MarkNotificationRead. tx_steps.
  - apply preserves_read_all.
  - pose proof preserves_upsert_receipt. unfold ArchiveNotification. tx_steps.
  - apply preserves_preferences.
  - unfold SaveDeliveryPolicy. tx_steps. by apply keeps_tables.
  - apply preserves_record.
  - apply preserves_notify.
  - by apply preserves_update_notifications.
  - revert Hs. by other_tables.
Qed.

(** C5. The operations tables stay consistent whatever happens to them: from any
    consistent state, and after any sequence of observations, checks, jobs,
    attempts, publications, deliveries and account changes, keys are unique, a
    condition has at most one open issue, an operation at most one attempt that
    has not finished, an event key one event, a notification one mail batch per
    user; batches are tried at most 8 times, an attempt has ended exactly when its
    state is final, and an issue is resolved exactly when it carries a receipt
    that one of the sources entitled to its kind made for the occurrence, the
    event and the intent it ended with. *)
Theorem ops_tables_invariant actions s : OpsOk s → OpsOk (run_actions pg_left actions s).
Proof.
  unfold run_actions. revert s. induction actions as [|a actions IH]; intros s Hs; [done|].
  cbn [foldl]. by apply IH, act_preserves.
Qed.
End Handlers.

(** * Witnesses *)

Module OpsSamples.

(** A digest for the samples: the sum of the bytes, 32 times. *)
Fixpoint byte_sum (s : string) : Z :=
  match s with
  | EmptyString => 0
  | String c rest => code c + byte_sum rest
  end.

Definition sample_sum (s : string) : list Z := replicate 32 (byte_sum s `mod` 256).

Lemma sample_sum_bytes s : Forall (λ b, 0 ≤ b < 256) (sample_sum s).
Proof. apply Forall_replicate, Z.mod_pos_bound. lia. Qed.

#[export] Instance sample_sha256 : SHA256 := {|
  sum256 := sample_sum;
  sum256_length _ := eq_refl;
  sum256_bytes := sample_sum_bytes;
|}.

Definition left_bytes (s : string) (n : Z) : string := string_take (Z.to_nat n) s.

(** An administrator, and a customer with a subscription and a site. *)
Definition accounts : Accounts :=
  mkAccounts [mkUserRow 1 "admin" "root@example.com" false; mkUserRow 2 "client" "owner@example.com" false] []
    [mkCustomerRow 5 2 0] [mkSubscriptionRow 6 5] [mkSiteRow 7 6].

Definition empty : OpsStore :=
  mkOpsStore [] [] [] [] [] 0 [] [] [mkPreferenceRow 2 "immediate"] (mkPolicyRow true 1000) [] [] accounts 1 1 1 1 1 1.

Definition site : Resource := mkResource ResourceSite 7.
Definition hash : string := string_take 64 "00112233445566778899aabbccddeeff00112233445566778899aabbccddeeff".

Definition failure : Observation :=
  mkObservation "tls:7:1" site "tls" "certificate" "critical" "Certificate expired" "Renewal failed." 3 0 (Some 2000).
Definition receipt : VerificationReceipt :=
  mkVerificationReceipt (mkVerificationToken 1 1 1 3) hash "local_tls" 0 "" 0 4000 "Certificate valid.".
Definition sent : Delivery := mkDelivery 5000 5000 "smtp" (λ _, false) (Some (λ _, None)).

(** A certificate expires, its owner is told, it is renewed and verified. *)
Definition history : list OpsAction :=
  [ActObserve failure; ActDispatch 0 3000 3000 (λ _, false) 200; ActDeliver sent; ActCheck 3500 1 3;
   ActResolve 4000 4000 receipt hash 3; ActDispatch 0 4500 4500 (λ _, false) 200; ActDeliver sent].

Definition after : OpsStore := @run_actions sample_sha256 left_bytes history empty.

Lemma empty_ok : OpsOk empty.
Proof.
  split; cbn; try (split; [apply NoDup_nil_2|apply Forall_nil_2]); try apply NoDup_nil_2; try apply Forall_nil_2;
    try (by intros ? ? ?%elem_of_nil).
  apply NoDup_singleton.
Qed.
End OpsSamples.

(** The issue is resolved, both mails went out, and both events were published. *)
Lemma ops_tables_invariant_witness :
  OpsOk OpsSamples.after ∧
  is_State <$> os_Issues OpsSamples.after = ["resolved"] ∧
  eb_Status <$> os_Batches OpsSamples.after = ["accepted"; "accepted"] ∧
  os_FeedCursor OpsSamples.after = 2.
Proof.
  split; [|vm_compute; auto].
  apply (@ops_tables_invariant OpsSamples.sample_sha256 OpsSamples.left_bytes OpsSamples.history OpsSamples.empty).
  exact OpsSamples.empty_ok.
Defined.
