(* ===== verification/OpsFeedProps.v ===== *)
(** * The feed of events

    Events are published once, each under a cursor of its own, and stay as they
    were; what is published later gets a later cursor ([FeedOk], [Grows]). Every
    operation keeps it so ([actions_feed]). *)

From S2P Require Import Prelude Tx Tables GoStr GoTime GoCrypto Site OpsTypes OpsScope OpsStore OpsNotify OpsDelivery OpsQueries OpsSystem OpsInvariant.

(** ** Published events *)

Definition is_published (e : EventRow) : Prop := is_Some (ev_FeedCursor e).

(** [clock] cursors have been given out, each to one event. *)
Record FeedOk (events : list EventRow) (clock : Z) : Prop := {
  fo_dispatched : Forall (λ e, is_Some (ev_FeedCursor e) ↔ is_Some (ev_DispatchedAt e)) events;
  fo_clock : 0 ≤ clock;
  fo_range : ∀ e c, e ∈ events → ev_FeedCursor e = Some c → 1 ≤ c ≤ clock;
  fo_unique : ∀ e e', e ∈ events → e' ∈ events → is_published e → ev_FeedCursor e = ev_FeedCursor e' → e = e';
  fo_all : ∀ c, 1 ≤ c ≤ clock → ∃ e, e ∈ events ∧ ev_FeedCursor e = Some c;
}.

(** What was published stays as it was, and what is published now comes later. *)
Record Grows (events : list EventRow) (clock : Z) (events' : list EventRow) (clock' : Z) : Prop := {
  gr_keep : ∀ e, e ∈ events → is_published e → e ∈ events';
  gr_old : ∀ e c, e ∈ events' → ev_FeedCursor e = Some c → c ≤ clock → e ∈ events;
  gr_clock : clock ≤ clock';
}.

Lemma grows_refl events clock : Grows events clock events clock.
Proof. split; auto. lia. Qed.

Lemma grows_trans e1 c1 e2 c2 e3 c3 : Grows e1 c1 e2 c2 → Grows e2 c2 e3 c3 → Grows e1 c1 e3 c3.
Proof.
  intros [K1 O1 C1] [K2 O2 C2]. split; [auto| |lia]. intros e c He Ec Hc. eapply O1; [|done..]. eapply O2; [done..|lia].
Qed.

(** ** Events come and change before they are published *)

Lemma feed_append events clock e :
  ev_FeedCursor e = None → ev_DispatchedAt e = None → FeedOk events clock → FeedOk (events ++ [e]) clock.
Proof.
  intros Hc Hd [H1 H2 H3 H4 H5]. split; [|done| | |].
  - apply Forall_append; [|done]. rewrite Hc, Hd. done.
  - intros x c [Hx| ->%list_elem_of_singleton]%elem_of_app; [by apply H3|congruence].
  - intros x y [Hx| ->%list_elem_of_singleton]%elem_of_app [Hy| ->%list_elem_of_singleton]%elem_of_app Hp E; [by apply H4| | |done].
    + rewrite Hc in E. unfold is_published in Hp. rewrite E in Hp. by destruct Hp.
    + unfold is_published in Hp. rewrite Hc in Hp. by destruct Hp.
  - intros c Hcl. destruct (H5 c Hcl) as (x & Hx & Ec). exists x. split; [|done]. apply elem_of_app. by left.
Qed.

Lemma grows_append events clock e : ev_FeedCursor e = None → Grows events clock (events ++ [e]) clock.
Proof.
  intros Hc. split; [|intros x c|lia].
  - intros x Hx _. apply elem_of_app. by left.
  - intros [Hx| ->%list_elem_of_singleton]%elem_of_app Ec _; [done|congruence].
Qed.

(** An update of events that are not published leaves the feed alone. *)
Definition unpublished_update (p : EventRow → bool) (f : EventRow → EventRow) (events : list EventRow) : Prop :=
  ∀ e, e ∈ events → p e = true → ev_FeedCursor e = None ∧ ev_FeedCursor (f e) = None ∧ ev_DispatchedAt (f e) = ev_DispatchedAt e.

Lemma update_published p f events e :
  unpublished_update p f events → is_published e → e ∈ rows_update p f events ↔ e ∈ events.
Proof.
  intros Hu [c Hc]. rewrite rows_update_elem. split.
  - intros (x & Hx & ->). destruct (p x) eqn:E; [|done]. destruct (Hu _ Hx E) as (_ & Hf & _). congruence.
  - intros He. exists e. split; [done|]. destruct (p e) eqn:E; [|done]. destruct (Hu _ He E) as (Hn & _). congruence.
Qed.

Lemma feed_update p f events clock :
  unpublished_update p f events → FeedOk events clock → FeedOk (rows_update p f events) clock.
Proof.
  intros Hu [H1 H2 H3 H4 H5]. split; [|done| | |].
  - apply Forall_update; [|done]. intros e He Ep _. rewrite Forall_forall in H1. apply H1 in He as He1.
    destruct (Hu _ He Ep) as (Hn & Hf & Hd). rewrite Hf, Hd. rewrite <- Hn. done.
  - intros e c He Ec. apply update_published in He; [|done|by eexists]. by eapply H3.
  - intros e e' He He' Hp E. assert (is_published e') by (unfold is_published in *; by rewrite <- E).
    apply update_published in He; [|done..]. apply update_published in He'; [|done..]. auto.
  - intros c Hc. destruct (H5 c Hc) as (e & He & Ec). exists e. split; [|done]. apply update_published; [done|by eexists|done].
Qed.

Lemma grows_update p f events clock : unpublished_update p f events → Grows events clock (rows_update p f events) clock.
Proof.
  intros Hu. split; [|intros e c|lia].
  - intros e He Hp. by apply update_published.
  - intros He Ec _. apply update_published in He; [done..|by eexists].
Qed.

(** Publishing one event: the next cursor. *)
Definition publish_row (clock cursor : Z) (e : EventRow) : EventRow :=
  e <| ev_FeedCursor := Some cursor |> <| ev_DispatchedAt := Some clock |>.

Lemma publish_one (events : list EventRow) now cursor id e0 :
  NoDup (ev_ID <$> events) → e0 ∈ events → ev_ID e0 = id → ev_FeedCursor e0 = None → FeedOk events cursor →
  let events' := rows_update (λ e, ev_ID e =? id) (publish_row now (cursor + 1)) events in
  FeedOk events' (cursor + 1) ∧ Grows events cursor events' (cursor + 1).
Proof.
  intros Hnd He0 Hid Hc0 [H1 H2 H3 H4 H5] events'.
  assert (∀ e, e ∈ events' ↔ e = publish_row now (cursor + 1) e0 ∨ e ∈ events ∧ ev_ID e ≠ id) as Hel.
  { intros e. unfold events'. rewrite rows_update_elem. split.
    - intros (x & Hx & ->). destruct (Z.eqb_spec (ev_ID x) id) as [E|E]; [|by right].
      left. f_equal. eapply NoDup_fmap_elem; [exact Hnd|done|done|congruence].
    - intros [->|[He Hne]]; [exists e0; split; [done|]; by rewrite Hid, Z.eqb_refl|].
      exists e. split; [done|]. by destruct (Z.eqb_spec (ev_ID e) id). }
  assert (∀ e, e ∈ events → is_published e → ev_ID e ≠ id) as Hother.
  { intros e He Hp Eid. assert (e = e0) as -> by (eapply NoDup_fmap_elem; [exact Hnd|done|done|congruence]).
    unfold is_published in Hp. rewrite Hc0 in Hp. by destruct Hp. }
  split; split.
  - apply Forall_forall. intros e [->|[He _]]%Hel; [by cbn|]. rewrite Forall_forall in H1. by apply H1.
  - lia.
  - intros e c [->|[He _]]%Hel Ec; [cbn in Ec; injection Ec as <-; lia|]. pose proof (H3 _ _ He Ec). lia.
  - intros e e' [->|[He Hne]]%Hel [->|[He' Hne']]%Hel Hp E; [done| | |by apply H4].
    + cbn in E. symmetry in E. pose proof (H3 _ _ He' E). lia.
    + cbn in E. pose proof (H3 _ _ He E). lia.
  - intros c Hc. destruct (decide (c = cursor + 1)) as [->|Hne].
    + exists (publish_row now (cursor + 1) e0). split; [apply Hel; by left|done].
    + destruct (H5 c ltac:(lia)) as (e & He & Ec). exists e. split; [|done]. apply Hel. right. split; [done|].
      apply Hother; [done|by eexists].
  - intros e He Hp. apply Hel. right. auto.
  - intros e c [->|[He _]]%Hel Ec Hle; [cbn in Ec; injection Ec as <-; lia|done].
  - lia.
Qed.

(** ** Handlers *)

(** The events with their numbers, and the feed. *)
Definition Feeds (s s' : OpsStore) : Prop :=
  keys_ok ev_ID (os_Events s) (os_EventSeq s) → FeedOk (os_Events s) (os_FeedCursor s) →
  keys_ok ev_ID (os_Events s') (os_EventSeq s') ∧ FeedOk (os_Events s') (os_FeedCursor s') ∧
  Grows (os_Events s) (os_FeedCursor s) (os_Events s') (os_FeedCursor s').

#[export] Instance Feeds_preorder : PreOrder Feeds.
Proof.
  split.
  - intros s Hk Hf. split_and!; [done..|apply grows_refl].
  - intros s1 s2 s3 H12 H23 Hk Hf. destruct (H12 Hk Hf) as (Hk2 & Hf2 & G12). destruct (H23 Hk2 Hf2) as (Hk3 & Hf3 & G23).
    split_and!; [done..|]. by eapply grows_trans.
Qed.

(** The events are left alone. *)
Definition Quiet (s s' : OpsStore) : Prop :=
  os_Events s' = os_Events s ∧ os_EventSeq s' = os_EventSeq s ∧ os_FeedCursor s' = os_FeedCursor s.

#[export] Instance Quiet_preorder : PreOrder Quiet.
Proof. split; [by split|]. intros s1 s2 s3 (?&?&?) (?&?&?). split_and!; congruence. Qed.

Lemma quiet_feeds s s' : Quiet s s' → Feeds s s'.
Proof. intros (E1 & E2 & E3) Hk Hf. rewrite E1, E2, E3. split_and!; [done..|apply grows_refl]. Qed.

Lemma quiet_write f : (∀ s, Quiet s (f s)) → steps Quiet (tx_write f).
Proof. apply steps_write. Qed.

Lemma quiet_query {A} (f : OpsStore → result A) : steps Quiet (tx_query f).
Proof. apply steps_query, _. Qed.

Lemma quiet_update_issues p f : steps Quiet (update_issues p f).
Proof. intros s n s' [-> _]%update_issues_Ok. done. Qed.
Lemma quiet_update_operations p f : steps Quiet (update_operations p f).
Proof. by apply quiet_write. Qed.
Lemma quiet_update_attempts p f : steps Quiet (update_attempts p f).
Proof. by apply quiet_write. Qed.
Lemma quiet_update_notifications p f : steps Quiet (update_notifications p f).
Proof. by apply quiet_write. Qed.
#[export] Hint Resolve quiet_query quiet_update_issues quiet_update_operations quiet_update_attempts quiet_update_notifications : tx_steps.

(** Bodies of statements that do not touch events. *)
Ltac quiet := steps_rows; try (apply quiet_write; intros; split_and!; reflexivity).

Lemma quiet_upsert_issue o eventID observedAt again : steps Quiet (upsert_issue o eventID observedAt again).
Proof. unfold upsert_issue. quiet. Qed.
Lemma quiet_upsert_condition c observedAt : steps Quiet (upsert_condition c observedAt).
Proof. unfold upsert_condition. quiet. Qed.
Lemma quiet_insert_notice row f : steps Quiet (insert_notice row f).
Proof. unfold insert_notice. quiet. Qed.
Lemma quiet_upsert_batch clock key user mode due : steps Quiet (upsert_batch clock key user mode due).
Proof. unfold upsert_batch. quiet. Qed.
Lemma quiet_insert_item item : steps Quiet (insert_email_item item).
Proof. unfold insert_email_item. quiet. Qed.
Lemma quiet_upsert_receipt row f : steps Quiet (upsert_receipt row f).
Proof. unfold upsert_receipt. quiet. Qed.
Lemma quiet_update_batch clock id f : steps Quiet (update_batch clock id f).
Proof. by apply quiet_write. Qed.
#[export] Hint Resolve quiet_upsert_issue quiet_upsert_condition quiet_insert_notice quiet_upsert_batch quiet_insert_item
  quiet_upsert_receipt quiet_update_batch : tx_steps.

Lemma quiet_enqueue jobID clock now id email : steps Quiet (EnqueueNotificationForEmailTx jobID clock now id email).
Proof. unfold EnqueueNotificationForEmailTx, correlateNotificationTx, enqueue_for. quiet. Qed.
#[export] Hint Resolve quiet_enqueue : tx_steps.

Lemma quiet_project jobID clock now eventID : steps Quiet (projectIncidentTx jobID clock now eventID).
Proof. unfold projectIncidentTx, link_notices, publish_failure, publish_recovery, EnqueueNotificationTx. quiet. Qed.

Lemma quiet_start clock opID riverID : steps Quiet (StartAttempt clock opID riverID).
Proof. unfold StartAttempt, insert_attempt. quiet. Qed.
Lemma quiet_finish clock id state code : steps Quiet (FinishAttempt clock id state code).
Proof. unfold FinishAttempt. quiet. Qed.
Lemma quiet_job_operation j : steps Quiet (job_operation j).
Proof. unfold job_operation. quiet. Qed.
Lemma quiet_record_attempt clock opID j : steps Quiet (record_attempt clock opID j).
Proof. unfold record_attempt. quiet. Qed.
Lemma quiet_set_checking clock i revision : steps Quiet (SetCheckingTx clock i revision).
Proof. unfold SetCheckingTx. quiet. Qed.

(** A new event, and its issue, which is found while the event is new. *)
Definition unpublished_event (e : EventRow) : Prop := ev_FeedCursor e = None ∧ ev_DispatchedAt e = None.

Lemma new_event_unpublished key resource kind operationID issueID summary :
  unpublished_event (new_event key resource kind operationID issueID summary).
Proof. by split. Qed.

Lemma insert_event_Ok event s r s' :
  insert_event event s = Ok (r, s') →
  os_FeedCursor s' = os_FeedCursor s ∧ os_EventSeq s' = os_EventSeq s + 1 ∧
  match r with
  | None => os_Events s' = os_Events s
  | Some id => id = os_EventSeq s ∧ os_Events s' = os_Events s ++ [event <| ev_ID := id |>]
  end.
Proof. unfold insert_event. intros Hi. tx_ok. by destruct (existsb _ _); tx_ok. Qed.

Lemma feeds_insert_event event : unpublished_event event → steps Feeds (insert_event event).
Proof.
  intros [Hc Hd] s r s' Hi Hk Hf. apply insert_event_Ok in Hi as (-> & -> & Hr). destruct r as [id|].
  - destruct Hr as [-> ->]. split_and!; [by apply keys_append|by apply feed_append|by apply grows_append].
  - rewrite Hr. split_and!; [by apply keys_next|done|apply grows_refl].
Qed.

Lemma link_after_insert event s id s1 s2 s3 f :
  insert_event event s = Ok (Some id, s1) → unpublished_event event → Quiet s1 s2 →
  update_events (λ e, ev_ID e =? id) f s2 = Ok ((), s3) →
  (∀ e, ev_ID (f e) = ev_ID e ∧ ev_FeedCursor (f e) = ev_FeedCursor e ∧ ev_DispatchedAt (f e) = ev_DispatchedAt e) →
  Feeds s s3.
Proof.
  intros Hi [Hc Hd] (E1 & E2 & E3) Hu Hlink Hk Hf. pose proof (feeds_insert_event event (conj Hc Hd) _ _ _ Hi Hk Hf) as (Hk1 & Hf1 & G1).
  apply insert_event_Ok in Hi as (_ & _ & -> & Ee). unfold update_events in Hu. tx_ok. cbn. rewrite E1, E2, E3.
  assert (unpublished_update (λ e, ev_ID e =? os_EventSeq s) f (os_Events s1)) as Hun.
  { intros e He E%Z.eqb_eq. destruct (Hlink e) as (_ & -> & Hd'). rewrite Ee in He.
    apply elem_of_app in He as [He| ->%list_elem_of_singleton]; [|done].
    destruct Hk as [_ Hlt]. rewrite Forall_forall in Hlt. apply Hlt in He. lia. }
  split_and!; [|by apply feed_update|eapply grows_trans; [exact G1|by apply grows_update]].
  apply keys_update; [apply Hlink|done].
Qed.

Lemma feeds_quiet {A} (m : tx OpsStore A) : steps Quiet m → steps Feeds m.
Proof. intros Hm s a s' Hr. by eapply quiet_feeds, Hm. Qed.

Lemma feeds_query {A} (f : OpsStore → result A) : steps Feeds (tx_query f).
Proof. apply steps_query, _. Qed.
#[export] Hint Resolve feeds_query : tx_steps.

(** Statements that are left: new events, and those that leave events alone. *)
Ltac feeds := steps_rows; try first
  [by apply feeds_insert_event | by apply feeds_quiet; eauto with tx_steps | by apply feeds_quiet, quiet_write].

Lemma feeds_observe o : steps Feeds (ObserveIssueTx o).
Proof.
  intros s a s' Hr. unfold ObserveIssueTx in Hr. apply tx_bind_Ok in Hr as (u & s0 & Hv & Hr). apply tx_lift_Ok in Hv as [_ ->].
  apply tx_bind_Ok in Hr as (r & s1 & Hi & Hr). destruct r as [eventID|].
  - apply tx_bind_Ok in Hr as (i & s2 & Hu & Hr). apply tx_bind_Ok in Hr as ([] & s3 & Hl & Hr). tx_ok.
    apply quiet_upsert_issue in Hu. eapply (link_after_insert _ _ _ _ _ _ _ Hi); [done|exact Hu|exact Hl|done].
  - apply feeds_insert_event in Hi; [|done]. etransitivity; [exact Hi|]. revert Hr.
    match goal with |- ?body s1 = _ → _ => assert (steps Feeds body) as Hbody; [|by apply Hbody] end. tx_steps.
Qed.

Lemma feeds_recovered c key : steps Feeds (condition_recovered c key).
Proof. unfold condition_recovered. feeds. Qed.

Lemma feeds_condition c : steps Feeds (ObserveConditionTx c).
Proof. pose proof feeds_observe. pose proof feeds_recovered. unfold ObserveConditionTx. feeds. Qed.

Lemma feeds_acknowledge clock actor id : steps Feeds (AcknowledgeIssue clock actor id).
Proof. unfold AcknowledgeIssue. feeds. Qed.

Lemma feeds_resolve now clock r hash revision : steps Feeds (ResolveVerifiedTx now clock r hash revision).
Proof. unfold ResolveVerifiedTx, IssueForUpdateTx, resolve_issue. feeds. Qed.

Lemma feeds_record_event clock opID revision j : steps Feeds (record_event clock opID revision j).
Proof.
  intros s [] s' Hr. unfold record_event in Hr. apply tx_bind_Ok in Hr as (r & s1 & Hi & Hr).
  destruct r as [eventID|]; [|tx_ok; exact (feeds_insert_event _ (new_event_unpublished _ _ _ _ _ _) _ _ _ Hi)]. destruct (negb _).
  - unfold job_progress in Hr. tx_ok. destruct (rows_where _ _) as [|i rest]; 
      [tx_ok; exact (feeds_insert_event _ (new_event_unpublished _ _ _ _ _ _) _ _ _ Hi)|].
    apply tx_bind_Ok in Hr as (n & s2 & Hu & Hr). apply quiet_update_issues in Hu.
    by apply (link_after_insert _ _ _ _ _ _ _ Hi (new_event_unpublished _ _ _ _ _ _) Hu Hr).
  - apply tx_bind_Ok in Hr as (i & s2 & Hu & Hr). apply quiet_upsert_issue in Hu.
    by apply (link_after_insert _ _ _ _ _ _ _ Hi (new_event_unpublished _ _ _ _ _ _) Hu Hr).
Qed.

Lemma feeds_record clock j : steps Feeds (record_job clock j).
Proof.
  pose proof quiet_job_operation. pose proof quiet_record_attempt. pose proof feeds_record_event. unfold record_job. feeds.
Qed.

(** ** Publication *)

(** The events to publish: each is there, once, and not published. *)
Definition to_publish (ids : list Z) (events : list EventRow) : Prop :=
  NoDup ids ∧ ∀ id, id ∈ ids → ∃ e, e ∈ events ∧ ev_ID e = id ∧ ev_FeedCursor e = None.

Lemma publish_loop jobID clock now ids : ∀ cursor s cursor' s',
  publish_events jobID clock now cursor ids s = Ok (cursor', s') →
  keys_ok ev_ID (os_Events s) (os_EventSeq s) → FeedOk (os_Events s) cursor → to_publish ids (os_Events s) →
  keys_ok ev_ID (os_Events s') (os_EventSeq s') ∧ FeedOk (os_Events s') cursor' ∧
  Grows (os_Events s) cursor (os_Events s') cursor' ∧ os_FeedCursor s' = os_FeedCursor s ∧ cursor' = cursor + Z.of_nat (length ids).
Proof.
  induction ids as [|id ids IH]; intros cursor s cursor' s' Hr Hk Hf [Hnd Hids]; cbn [publish_events] in Hr.
  { tx_ok. split_and!; [done..|apply grows_refl|done|cbn; lia]. }
  apply tx_bind_Ok in Hr as ([] & s1 & Hp & Hr). apply quiet_project in Hp as (E1 & E2 & E3).
  apply tx_bind_Ok in Hr as ([] & s2 & Hu & Hr). unfold update_events in Hu. tx_ok.
  apply NoDup_cons in Hnd as [Hnew Hnd]. destruct (Hids id (list_elem_of_here _ _)) as (e0 & He0 & Eid & Ec0).
  destruct (publish_one (os_Events s1) clock cursor id e0) as [Hf2 G2]; [rewrite E1; by apply Hk|by rewrite E1|done|done|by rewrite E1|].
  apply IH in Hr as (Hk3 & Hf3 & G3 & E4 & E5); [| |exact Hf2|].
  - split_and!; [done|done| |cbn in E4; congruence|cbn [length]; lia]. rewrite E1 in G2. cbn in G3. rewrite E1 in G3.
    by eapply grows_trans.
  - cbn. apply keys_update; [done|]. by rewrite E1, E2.
  - split; [done|]. intros id' Hid'. destruct (Hids id') as (e & He & Ee & Ec); [by apply list_elem_of_further|].
    exists e. split; [|done]. cbn. apply rows_update_elem. exists e. split; [by rewrite E1|].
    destruct (Z.eqb_spec (ev_ID e) id) as [Heq|]; [|done]. exfalso. apply Hnew. congruence.
Qed.

Lemma undispatched_to_publish skipped limit s :
  keys_ok ev_ID (os_Events s) (os_EventSeq s) → FeedOk (os_Events s) (os_FeedCursor s) →
  to_publish (undispatched skipped limit s) (os_Events s).
Proof.
  intros [Hnd _] Hf. unfold undispatched. set (rows := rows_where _ (os_Events s)). split.
  - eapply sublist_NoDup; [|apply sublist_take]. rewrite merge_sort_Permutation.
    eapply sublist_NoDup; [exact Hnd|]. apply fmap_sublist, sublist_filter.
  - intros id (k & Hid%list_elem_of_lookup_2 & _)%elem_of_take.
    rewrite merge_sort_Permutation in Hid. apply list_elem_of_fmap in Hid as (e & -> & [Hp He]%rows_where_elem).
    exists e. split; [done|]. split; [done|]. bool_split.
    pose proof (fo_dispatched _ _ Hf) as Hd. rewrite Forall_forall in Hd. specialize (Hd _ He).
    destruct (ev_FeedCursor e) eqn:E; [|done]. destruct Hd as [[t Ht] _]; [by eexists|]. congruence.
Qed.

Lemma feeds_dispatch jobID clock now skipped limit : steps Feeds (DispatchTx jobID clock now skipped limit).
Proof.
  intros s n s' Hr Hk Hf. unfold DispatchTx in Hr. tx_ok.
  pose proof (undispatched_to_publish skipped limit s Hk Hf) as Hpub.
  match goal with Hp : publish_events _ _ _ _ _ _ = Ok (?c, ?s1) |- _ =>
    destruct (publish_loop _ _ _ _ _ _ _ _ Hp Hk Hf Hpub) as (Hk1 & Hf1 & G1 & E1 & E2) end.
  case_bool_decide as Eids; tx_ok; cbn; [|done].
  rewrite Eids in E2. cbn in E2. rewrite Z.add_0_r in E2. subst. rewrite E1. done.
Qed.

(** ** All actions *)

Section Actions.
Context `{SHA256}.
Context (pg_left : string → Z → string).

Lemma feeds_after_send clock now profile b u mode sendErr : steps Feeds (after_send clock now profile b u mode sendErr).
Proof.
  pose proof feeds_condition. pose proof feeds_resolve. pose proof quiet_set_checking.
  unfold after_send, mail_failed, mail_accepted, resolve_delivery, IssueForUpdateTx. feeds.
Qed.

Lemma feeds_run {A} (m : tx OpsStore A) s : steps Feeds m → Feeds s (ignore m s).
Proof. apply (steps_run Feeds). Qed.

Lemma feeds_deliver d s : Feeds s (snd (deliverOne pg_left d s)).
Proof.
  unfold deliverOne. destruct (dl_Send d) as [send|]; [|done].
  destruct (next_step _ _ _ _) as [[|id reason|b u mode mail]|]; [done| | |done]; cbn [snd].
  - apply (steps_run Feeds). apply feeds_quiet, quiet_update_batch.
  - pose proof (feeds_run (after_send (dl_Clock d) (dl_Now d) (dl_Profile d) b u mode (send mail)) s (feeds_after_send _ _ _ _ _ _ _)) as Hs.
    unfold ignore in Hs. by destruct (run_tx _ _) as [[?|?] ?].
Qed.

Lemma quiet_create input s : Quiet s (snd (CreateOperation input s)).
Proof.
  unfold CreateOperation. destruct (operation_invalid input); [done|]. cbv zeta.
  destruct (rows_where _ _); by destruct (_ || _).
Qed.

Lemma act_feeds a s : Feeds s (act pg_left a s).
Proof.
  destruct a; cbn [act]; first [by apply quiet_feeds, quiet_create | apply feeds_deliver | idtac];
    try (apply feeds_run).
  - apply feeds_observe.
  - apply feeds_condition.
  - apply feeds_acknowledge.
  - pose proof quiet_set_checking. unfold check_issue, IssueForUpdateTx. feeds.
  - apply feeds_resolve.
  - unfold VerificationFailedTx. feeds.
  - apply feeds_quiet, quiet_start.
  - apply feeds_quiet, quiet_finish.
  - apply feeds_dispatch.
  - unfold MarkNotificationRead. feeds.
  - unfold MarkAllNotificationsRead. feeds.
  - unfold ArchiveNotification. feeds.
  - unfold SavePreferences. feeds.
  - unfold SaveDeliveryPolicy. feeds.
  - apply feeds_record.
  - unfold notify. feeds.
  - feeds.
  - by apply quiet_feeds.
Qed.

Lemma actions_feed actions s : Feeds s (run_actions pg_left actions s).
Proof.
  unfold run_actions. revert s. induction actions as [|a actions IH]; intros s; [done|].
  cbn [foldl]. transitivity (act pg_left a s); [apply act_feeds|apply IH].
Qed.
End Actions.
