(* ===== verification/OpsReads.v ===== *)
(** * Operations read page by page

    A reader of the feed that comes back with the cursor it was given misses
    nothing and sees nothing twice ([feed_resumes]); the pages of a list enumerate
    its rows ([pages_enumerate]). *)

From S2P Require Import Prelude Tx Tables Paging GoStr GoTime GoCrypto Site OpsTypes OpsScope OpsStore OpsNotify OpsDelivery OpsQueries OpsSystem OpsInvariant OpsFeedProps.

Lemma filter_limit_range f : Filter_validate f = Ok () → 1 ≤ Filter_limit f ≤ 200.
Proof.
  unfold Filter_validate, Filter_limit. intros Hv. run_ok. bool_split. destruct (Z.eqb_spec (fl_Limit f) 0); lia.
Qed.

(** What a query with a limit shows, for the rows in order. *)
Lemma page_rows_take {R} (limit : Z) (rows : list R) :
  0 ≤ limit →
  page_rows limit (take (Z.to_nat (limit + 1)) rows) =
    if bool_decide (Z.to_nat limit < length rows)%nat then take (Z.to_nat limit) rows else rows.
Proof.
  intros Hl. unfold page_rows. rewrite length_take. case_bool_decide.
  - rewrite (proj2 (Z.ltb_lt _ _)) by lia. rewrite take_take. f_equal. lia.
  - rewrite (proj2 (Z.ltb_ge _ _)) by lia. rewrite take_ge by lia. done.
Qed.

Lemma more_take {R} (limit : Z) (rows : list R) :
  0 ≤ limit →
  (limit <? Z.of_nat (length (take (Z.to_nat (limit + 1)) rows))) = bool_decide (Z.to_nat limit < length rows)%nat.
Proof. intros Hl. rewrite length_take. case_bool_decide; [apply Z.ltb_lt|apply Z.ltb_ge]; lia. Qed.

(** ** Reading the feed *)

(** The events of a filter that are the actor's to read, after a cursor. *)
Definition feed_rows (s : OpsStore) (actor : SessionUser) (f : Filter) (after : Z) : list EventRow :=
  rows_where (λ e, after_cursor after e && sees_event s actor f e) (os_Events s).

(** A client reads pages until there is no more, each from the cursor of the last. *)
Fixpoint drain (fuel : nat) (s : OpsStore) (actor : SessionUser) (f : Filter) (after : Z) : result (list EventRow * Z) :=
  match fuel with
  | O => Ok ([], after)
  | S fuel =>
    let* p := Feed s actor after f in
    if fd_More p
    then let* rest := drain fuel s actor f (fd_Cursor p) in Ok (fd_Events p ++ fst rest, snd rest)
    else Ok (fd_Events p, fd_Cursor p)
  end.

Definition last_cursor (after : Z) (events : list EventRow) : Z :=
  match last events with Some e => cursor_of e | None => after end.

(** A page of the feed, in terms of the rows to read. *)
Lemma feed_page s actor f after (limit := Z.to_nat (Filter_limit f)) (rows := feed_rows s actor f after) :
  0 ≤ after → Filter_validate f = Ok () →
  let events := if has_more limit rows then one_page cursor_of limit rows else sorted cursor_of rows in
  Feed s actor after f = Ok (mkFeedPage events (last_cursor after events) (has_more limit rows)).
Proof.
  intros Hafter Hv. unfold Feed. rewrite (proj2 (Z.ltb_ge after 0)) by lia. cbn [fail_when]. rewrite Hv. cbn [result_bind].
  pose proof (filter_limit_range _ Hv). change (merge_sort oldest ?l) with (sorted cursor_of l).
  fold (feed_rows s actor f after). rewrite page_rows_take, more_take by lia.
  unfold has_more, one_page. rewrite (Permutation_length (sorted_perm cursor_of (feed_rows s actor f after))).
  fold limit rows. done.
Qed.

Lemma feed_rows_elem s actor f after e :
  e ∈ feed_rows s actor f after ↔
    e ∈ os_Events s ∧ is_published e ∧ after < cursor_of e ∧ sees_event s actor f e = true.
Proof.
  unfold feed_rows, after_cursor, is_published, cursor_of. rewrite rows_where_elem, andb_true_iff.
  destruct (ev_FeedCursor e); cbn; [rewrite Z.ltb_lt; naive_solver eauto|]. split; [naive_solver|].
  by intros (_ & [? ?] & _).
Qed.

Lemma feed_rows_later s actor f after k :
  after ≤ k → rows_where (λ e, k <? cursor_of e) (feed_rows s actor f after) = feed_rows s actor f k.
Proof.
  intros Hk. unfold feed_rows, rows_where. rewrite list_filter_filter. apply list_filter_iff. intros e.
  unfold after_cursor, cursor_of. destruct (ev_FeedCursor e) as [c|]; cbn; [|naive_solver].
  rewrite andb_true_iff, Z.ltb_lt, andb_true_iff, !Z.ltb_lt. naive_solver lia.
Qed.

Lemma feed_rows_unique s actor f after :
  NoDup (ev_ID <$> os_Events s) → FeedOk (os_Events s) (os_FeedCursor s) → NoDup (cursor_of <$> feed_rows s actor f after).
Proof.
  intros Hk Hf. apply NoDup_fmap_2_strong.
  - intros e e' (He & Hp & _)%feed_rows_elem (He' & Hp' & _)%feed_rows_elem E.
    apply (fo_unique _ _ Hf); [done..|]. unfold cursor_of, is_published in *.
    destruct Hp as [c Ec], Hp' as [c' Ec']. rewrite Ec, Ec' in *. cbn in E. congruence.
  - eapply sublist_NoDup; [|apply sublist_filter]. by eapply NoDup_fmap_1.
Qed.

(** Reading to the end gives all rows in order, and the cursor of the last. *)
Lemma drain_all fuel : ∀ s actor f after,
  NoDup (ev_ID <$> os_Events s) → FeedOk (os_Events s) (os_FeedCursor s) → Filter_validate f = Ok () → 0 ≤ after →
  (length (feed_rows s actor f after) < fuel)%nat →
  let events := sorted cursor_of (feed_rows s actor f after) in
  drain fuel s actor f after = Ok (events, last_cursor after events).
Proof.
  induction fuel as [|fuel IH]; intros s actor f after Hk Hf Hv Hafter Hlen events; [lia|].
  cbn [drain]. rewrite feed_page by done. cbn [result_bind fd_More fd_Events fd_Cursor].
  pose proof (filter_limit_range _ Hv) as Hlimit. set (limit := Z.to_nat (Filter_limit f)) in *.
  pose proof (feed_rows_unique s actor f after Hk Hf) as Hnd.
  destruct (has_more limit _) eqn:Em; [|done].
  destruct (last (one_page cursor_of limit (feed_rows s actor f after))) as [r|] eqn:El;
    [|by apply last_page in El; [|lia|done]].
  assert (r ∈ feed_rows s actor f after) as Hr by by eapply last_page_elem.
  pose proof Hr as (_ & _ & Hlt & _)%feed_rows_elem.
  unfold last_cursor at 1 2. rewrite El. rewrite IH; [|done..|lia|].
  - cbn [result_bind fst snd]. assert (events = one_page cursor_of limit (feed_rows s actor f after) ++
      sorted cursor_of (feed_rows s actor f (cursor_of r))) as ->.
    { unfold events. rewrite <- (feed_rows_later s actor f after (cursor_of r)) by lia. by apply next_page. }
    f_equal. f_equal. unfold last_cursor. rewrite last_app. destruct (last (sorted _ _)); [done|]. by rewrite El.
  - rewrite <- (feed_rows_later s actor f after (cursor_of r)) by lia.
    pose proof (length_rows_where_lt (λ x, cursor_of r <? cursor_of x) _ r Hr (Z.ltb_irrefl _)). lia.
Qed.

Lemma cursor_range events clock e : FeedOk events clock → e ∈ events → is_published e → cursor_of e ≤ clock.
Proof. intros Hf He [c Ec]. pose proof (fo_range _ _ Hf _ _ He Ec). unfold cursor_of. rewrite Ec. cbn. lia. Qed.

(** What was read at one time and what is read later from the cursor then given. *)
Lemma feed_rows_split s0 s1 actor f after :
  NoDup (ev_ID <$> os_Events s0) → NoDup (ev_ID <$> os_Events s1) →
  FeedOk (os_Events s0) (os_FeedCursor s0) → FeedOk (os_Events s1) (os_FeedCursor s1) →
  Grows (os_Events s0) (os_FeedCursor s0) (os_Events s1) (os_FeedCursor s1) → os_Accounts s1 = os_Accounts s0 →
  let first := sorted cursor_of (feed_rows s0 actor f after) in
  after ≤ last_cursor after first ∧
  sorted cursor_of (feed_rows s1 actor f after) = first ++ sorted cursor_of (feed_rows s1 actor f (last_cursor after first)).
Proof.
  intros Hk0 Hk1 Hf0 Hf1 Hg Ha first.
  assert (∀ e, sees_event s1 actor f e = sees_event s0 actor f e) as Hsees.
  { intros e. unfold sees_event, sees. by rewrite Ha. }
  set (c := last_cursor after first).
  assert (after ≤ c ∧ (c = after ∨ c ≤ os_FeedCursor s0) ∧ ∀ e, e ∈ feed_rows s0 actor f after → cursor_of e ≤ c) as (Hc & Hclock & Hmax).
  { unfold c, last_cursor. destruct (last first) as [r|] eqn:El.
    - assert (r ∈ feed_rows s0 actor f after) as (Hel & Hpub & Hr & _)%feed_rows_elem by by apply (sorted_elem cursor_of), last_elem.
      split_and!; [lia|by right; eapply cursor_range|]. intros e He. apply (last_largest cursor_of _ _ (sorted_sorted _ _) El). by apply (sorted_elem cursor_of).
    - split_and!; [done|by left|]. intros e He. apply last_None in El. assert (e ∈ first) as Hx by by apply (sorted_elem cursor_of).
      rewrite El in Hx. by apply elem_of_nil in Hx. }
  split; [done|].
  rewrite <- (rows_where_True (λ _, true) (feed_rows s1 actor f after)) by done.
  pose proof (feed_rows_unique s1 actor f after Hk1 Hf1) as Hnd1.
  rewrite (sorted_split cursor_of c (λ _, true)) by done. cbn [andb]. rewrite feed_rows_later by done. f_equal.
  apply (sorted_unique cursor_of (le_key cursor_of)); [done| | |apply sorted_sorted..].
  - rewrite sorted_perm. eapply sublist_NoDup; [exact Hnd1|]. apply fmap_sublist, sublist_filter.
  - rewrite !sorted_perm. apply list.NoDup_Permutation.
    + eapply sublist_NoDup; [eapply NoDup_fmap_1, Hnd1|]. apply sublist_filter.
    + unfold first. rewrite sorted_perm. by eapply NoDup_fmap_1, feed_rows_unique.
    + intros e. unfold first. rewrite rows_where_elem, (sorted_elem cursor_of), !feed_rows_elem, Hsees. split.
      * intros (Hle & He & Hp & Hlt & Hs). split_and!; [|done..]. bool_split. destruct Hclock as [->|Hclock]; [lia|].
        pose proof Hp as [k Ek]. eapply (gr_old _ _ _ _ Hg); [done|exact Ek|]. unfold cursor_of in *. rewrite Ek in *. cbn in *. lia.
      * intros (He & Hp & Hlt & Hs). split_and!; [|by apply (gr_keep _ _ _ _ Hg)|done..].
        apply Z.leb_le, Hmax, feed_rows_elem. done.
Qed.

Section FeedActions.
Context `{SHA256} (pg_left : string → Z → string).

(** C6. A reader of the feed that comes back with the cursor it was given misses
    nothing and sees nothing twice: it reads to the end now and, whatever the
    operations do meanwhile, from its cursor to the end later, and has what one
    reading from the start would give it then: every published event of the filter
    that is its to read, once, in the order of publication. *)
Theorem feed_resumes actions s0 (s1 := run_actions pg_left actions s0) actor f after fuel0 fuel1 :
  OpsOk s0 → FeedOk (os_Events s0) (os_FeedCursor s0) → os_Accounts s1 = os_Accounts s0 →
  Filter_validate f = Ok () → 0 ≤ after →
  (length (os_Events s0) < fuel0)%nat → (length (os_Events s1) < fuel1)%nat →
  ∃ first rest cursor cursor',
    drain fuel0 s0 actor f after = Ok (first, cursor) ∧
    drain fuel1 s1 actor f cursor = Ok (rest, cursor') ∧
    drain fuel1 s1 actor f after = Ok (first ++ rest, cursor') ∧
    StronglySorted (λ e e', cursor_of e < cursor_of e') (first ++ rest) ∧
    (∀ e, e ∈ first ++ rest ↔
       e ∈ os_Events s1 ∧ is_published e ∧ after < cursor_of e ∧ sees_event s1 actor f e = true).
Proof.
  intros Hs0 Hf0 Ha Hv Hafter Hfuel0 Hfuel1.
  pose proof (oo_events _ Hs0) as Hk0. destruct (actions_feed pg_left actions s0 Hk0 Hf0) as (Hk1 & Hf1 & Hg). fold s1 in Hk1, Hf1, Hg.
  destruct Hk0 as [Hk0 _], Hk1 as [Hk1 _].
  assert (∀ s k, (length (feed_rows s actor f k) ≤ length (os_Events s))%nat) as Hlen.
  { intros s k. unfold feed_rows, rows_where. apply length_filter. }
  destruct (feed_rows_split s0 s1 actor f after Hk0 Hk1 Hf0 Hf1 Hg Ha) as [Hc Hsplit].
  set (first := sorted cursor_of (feed_rows s0 actor f after)) in *. set (cursor := last_cursor after first) in *.
  set (rest := sorted cursor_of (feed_rows s1 actor f cursor)) in *.
  exists first, rest, cursor, (last_cursor cursor rest). split_and!.
  - apply drain_all; [done..|]. specialize (Hlen s0 after). lia.
  - apply drain_all; [done..|lia|]. specialize (Hlen s1 cursor). lia.
  - rewrite drain_all; [|done..|specialize (Hlen s1 after); lia]. rewrite Hsplit. f_equal. f_equal.
    unfold last_cursor at 1 2. rewrite last_app. by destruct (last rest).
  - rewrite <- Hsplit. apply sorted_strict. by apply feed_rows_unique.
  - intros e. by rewrite <- Hsplit, (sorted_elem cursor_of), feed_rows_elem.
Qed.
End FeedActions.

(** ** Pages of a list *)

(** The query for a page, in terms of the numbers of the rows. *)
Lemma newest_ids {R} (id : R → Z) n (rows : list R) :
  NoDup (id <$> rows) → id <$> newest_first id n rows = take (Z.to_nat n) (sorted Z.opp (id <$> rows)).
Proof.
  intros Hnd. unfold newest_first. rewrite fmap_take. f_equal.
  assert (id <$> merge_sort (newest id) rows ≡ₚ id <$> rows) as Hp by by rewrite merge_sort_Permutation.
  apply (sorted_unique Z.opp (le_key Z.opp)); [done| |by rewrite Hp, sorted_perm| |apply sorted_sorted].
  - rewrite Hp. by apply NoDup_fmap_2_strong; [intros ? ? _ _ ?; lia|].
  - apply (StronglySorted_fmap id (newest id)); [intros a b; unfold newest, le_key; lia|].
    apply StronglySorted_merge_sort.
    + intros a b c. unfold newest. lia.
    + intros a b. unfold newest. lia.
Qed.

Lemma page_rows_ids {R} (id : R → Z) limit rows : id <$> page_rows limit rows = page_rows limit (id <$> rows).
Proof. unfold page_rows. rewrite length_fmap. case_match; [by rewrite fmap_take|done]. Qed.

Lemma next_before_ids {R} (id : R → Z) limit rows : next_before id limit rows = next_before (λ z, z) limit (id <$> rows).
Proof.
  unfold next_before. rewrite length_fmap. case_match; [|done]. rewrite <- fmap_take, fmap_last. by destruct (last _).
Qed.

Section Pages.
Context (ilike : string → string → bool) (target : OpsStore → Resource → string) (pg_left : string → Z → string).

(** The numbers of the rows a filter selects for the actor. *)
Definition selected (s : OpsStore) (actor : SessionUser) (v : View) (f : Filter) : list Z :=
  match v with
  | ViewIssues => is_ID <$> rows_where (issue_selected ilike target s actor f) (os_Issues s)
  | ViewTasks => op_ID <$> rows_where (operation_selected ilike target s actor f) (os_Operations s)
  | ViewHistory => ev_ID <$> rows_where (history_selected ilike s actor f) (os_Events s)
  | ViewInbox => nt_ID <$> rows_where (notification_selected ilike target pg_left s actor f) (os_Notifications s)
  end.

Definition page_ids (v : View) (p : Page) : list Z :=
  match v with
  | ViewIssues => is_ID <$> pg_Issues p
  | ViewTasks => op_ID <$> pg_Tasks p
  | ViewHistory => ev_ID <$> pg_History p
  | ViewInbox => nt_ID <$> pg_Notifications p
  end.

Definition before (b : Z) (f : Filter) : Filter := f <| fl_Before := b |>.

(** A client reads pages until there is no next one. *)
Fixpoint read_pages (fuel : nat) (s : OpsStore) (actor : SessionUser) (view : string) (v : View) (f : Filter) : result (list Z) :=
  match fuel with
  | O => Ok []
  | S fuel =>
    let* p := Store_Page ilike target pg_left s actor view f in
    if pg_NextBefore p =? 0 then Ok (page_ids v p)
    else let* rest := read_pages fuel s actor view v (before (pg_NextBefore p) f) in Ok (page_ids v p ++ rest)
  end.

Lemma selected_unique s actor v f : OpsOk s → NoDup (selected s actor v f).
Proof.
  intros Hs. destruct v; cbn; (eapply sublist_NoDup; [|apply fmap_sublist, sublist_filter]).
  - apply (oo_issues _ Hs).
  - apply (oo_operations _ Hs).
  - apply (oo_events _ Hs).
  - apply (oo_notifications _ Hs).
Qed.

Lemma where_before {R} (id : R → Z) (p q : R → bool) b (rows : list R) :
  (∀ r, p r = q r && ((b <=? 0) || (id r <? b))) →
  id <$> rows_where p rows = rows_where (λ z, (b <=? 0) || (z <? b)) (id <$> rows_where q rows).
Proof.
  intros Hp. unfold rows_where. induction rows as [|r rows IH]; [done|]. rewrite !filter_cons.
  pose proof (Hp r) as Er. destruct (q r); cbn [andb] in Er; [|by rewrite decide_False, decide_False by congruence].
  rewrite (decide_True (P := true = true)), fmap_cons, filter_cons by done.
  destruct ((b <=? 0) || (id r <? b)); [rewrite !decide_True by done|rewrite !decide_False by congruence; done].
  rewrite fmap_cons. by rewrite IH.
Qed.

(** The rows before one are those of the filter without a bound. *)
Lemma selected_before s actor v f b :
  selected s actor v (before b f) = rows_where (λ z, (b <=? 0) || (z <? b)) (selected s actor v (before 0 f)).
Proof.
  destruct v; cbn [selected]; apply where_before; intros r.
  - unfold issue_selected, rowFilter, before_ok. cbn. destruct (_ || _); rewrite ?andb_true_r, ?andb_false_r; cbn; rewrite ?andb_true_r, ?andb_false_r; done.
  - unfold operation_selected, rowFilter, before_ok. cbn. destruct (_ || _); rewrite ?andb_true_r, ?andb_false_r; done.
  - unfold history_selected, before_ok. cbn. destruct (_ || _); rewrite ?andb_true_r, ?andb_false_r; done.
  - unfold notification_selected, before_ok. cbn. destruct (_ || _); rewrite ?andb_true_r, ?andb_false_r; done.
Qed.
(** A page and where the next one begins, for the numbers selected. *)
Definition ids_page (limit : nat) (ids : list Z) : list Z :=
  if has_more limit ids then one_page Z.opp limit ids else sorted Z.opp ids.
Definition ids_next (limit : nat) (ids : list Z) : Z :=
  if has_more limit ids then default 0 (last (one_page Z.opp limit ids)) else 0.

Lemma newest_page {R} (id : R → Z) limit (rows : list R) (l := newest_first id (limit + 1) rows) (ids := id <$> rows) :
  0 ≤ limit → NoDup ids →
  id <$> page_rows limit l = ids_page (Z.to_nat limit) ids ∧ next_before id limit l = ids_next (Z.to_nat limit) ids.
Proof.
  intros Hl Hnd. rewrite page_rows_ids, next_before_ids. unfold l. rewrite newest_ids by done. fold ids.
  rewrite page_rows_take by done. unfold next_before. rewrite more_take by done. unfold ids_page, ids_next, has_more, one_page.
  rewrite (Permutation_length (sorted_perm Z.opp ids)). case_bool_decide; [|done]. rewrite take_take.
  replace (Z.to_nat limit `min` Z.to_nat (limit + 1))%nat with (Z.to_nat limit) by lia. split; [done|].
  by destruct (last _).
Qed.

Lemma store_page s actor view v f (limit := Z.to_nat (Filter_limit f)) (ids := selected s actor v f) :
  OpsOk s → actor_invalid actor = false → view_of view = Some v → Filter_validate f = Ok () → fl_ActiveFirst f = false →
  ∃ p, Store_Page ilike target pg_left s actor view f = Ok p ∧
    page_ids v p = ids_page limit ids ∧ pg_NextBefore p = ids_next limit ids.
Proof.
  intros Hs Ha Hview Hv Hactive. pose proof (filter_limit_range _ Hv). exists (page_of ilike target pg_left s actor v f).
  unfold Store_Page. rewrite Hv. cbn [result_bind]. rewrite Ha, Hview. cbn [fail_when]. split; [done|].
  pose proof (selected_unique s actor v f Hs) as Hnd. subst ids limit.
  destruct v; cbn [page_of page_ids pg_Issues pg_Tasks pg_History pg_Notifications pg_NextBefore selected] in *.
  - apply newest_page; [lia|done].
  - unfold listOperations. rewrite Hactive. apply newest_page; [lia|done].
  - apply newest_page; [lia|done].
  - apply newest_page; [lia|done].
Qed.

Lemma filter_before f b : Filter_validate f = Ok () → fl_ActiveFirst f = false → 0 ≤ b → Filter_validate (before b f) = Ok ().
Proof.
  intros Hv Ha Hb. unfold Filter_validate in *. change (fl_Before (before b f)) with b.
  change (fl_ActiveFirst (before b f)) with (fl_ActiveFirst f). rewrite Ha in *. rewrite (proj2 (Z.ltb_ge b 0)) by lia.
  destruct (fl_Before f <? 0); [discriminate Hv|exact Hv].
Qed.

Lemma selected_bounded s actor v f :
  selected s actor v f = rows_where (λ z, (fl_Before f <=? 0) || (z <? fl_Before f)) (selected s actor v (before 0 f)).
Proof. rewrite <- selected_before. by destruct f. Qed.

Lemma selected_next s actor v f b' :
  0 < b' → fl_Before f ≤ 0 ∨ b' < fl_Before f →
  rows_where (λ z, - b' <? - z) (selected s actor v f) = selected s actor v (before b' f).
Proof.
  intros Hb' Hb. rewrite (selected_bounded s actor v f), (selected_before s actor v f b').
  unfold rows_where. rewrite list_filter_filter. apply list_filter_iff. intros z.
  rewrite !orb_true_iff, !Z.leb_le, !Z.ltb_lt. lia.
Qed.

Lemma selected_bound s actor v f z : z ∈ selected s actor v f → fl_Before f ≤ 0 ∨ z < fl_Before f.
Proof.
  rewrite selected_bounded. intros [Hz _]%rows_where_elem. rewrite orb_true_iff, Z.leb_le, Z.ltb_lt in Hz. lia.
Qed.

Lemma read_pages_all fuel : ∀ s actor view v f,
  OpsOk s → actor_invalid actor = false → view_of view = Some v → Filter_validate f = Ok () → fl_ActiveFirst f = false →
  (∀ id, id ∈ selected s actor v f → 0 < id) → (length (selected s actor v f) < fuel)%nat →
  read_pages fuel s actor view v f = Ok (sorted Z.opp (selected s actor v f)).
Proof.
  induction fuel as [|fuel IH]; intros s actor view v f Hs Ha Hview Hv Hactive Hpos Hlen; [lia|].
  destruct (store_page s actor view v f Hs Ha Hview Hv Hactive) as (p & Hp & Hids & Hnext).
  cbn [read_pages]. rewrite Hp. cbn [result_bind]. rewrite Hids, Hnext. unfold ids_next, ids_page.
  set (limit := Z.to_nat (Filter_limit f)) in *. set (ids := selected s actor v f) in *.
  pose proof (filter_limit_range _ Hv). destruct (has_more limit ids) eqn:Em; [|done].
  destruct (last (one_page Z.opp limit ids)) as [r|] eqn:El; [|by apply (last_page Z.opp) in El; [|lia|done]].
  pose proof (last_page_elem Z.opp _ _ _ El) as Hr. pose proof (Hpos _ Hr). cbn [default from_option id].
  rewrite (proj2 (Z.eqb_neq r 0)) by lia.
  assert (NoDup (Z.opp <$> ids)) as Hnd.
  { apply NoDup_fmap_2_strong; [intros ? ? _ _ ?; lia|]. by apply selected_unique. }
  pose proof (selected_next s actor v f r ltac:(lia) (selected_bound s actor v f r Hr)) as Hsel. fold ids in Hsel.
  rewrite IH; rewrite <- ?Hsel; [|done..|by apply filter_before; [..|lia]|done| |].
  - cbn [result_bind]. by rewrite <- (next_page Z.opp limit ids r Hnd El).
  - intros id [_ Hid]%rows_where_elem. by apply Hpos.
  - pose proof (length_rows_where_lt (λ z, - r <? - z) ids r Hr (Z.ltb_irrefl _)). lia.
Qed.

(** C18. The pages of a list enumerate it: a client that reads page after page,
    each from where the last one says the next begins, reads every row the filter
    selects for it, each once, the newest first. *)
Theorem pages_enumerate s actor view v f fuel :
  OpsOk s → actor_invalid actor = false → view_of view = Some v → Filter_validate f = Ok () → fl_ActiveFirst f = false →
  (∀ id, id ∈ selected s actor v f → 0 < id) → (length (selected s actor v f) < fuel)%nat →
  ∃ ids, read_pages fuel s actor view v f = Ok ids ∧ ids ≡ₚ selected s actor v f ∧ StronglySorted Z.gt ids.
Proof.
  intros. eexists. split_and!; [by apply read_pages_all|apply sorted_perm|].
  rewrite <- (list_fmap_id (sorted _ _)). eapply (StronglySorted_fmap id); [|apply (sorted_strict Z.opp)]; [cbn; lia|].
  apply NoDup_fmap_2_strong; [intros ? ? _ _ ?; lia|]. by apply selected_unique.
Qed.
End Pages.

(** * Witnesses *)

Module OpsReadSamples.
Import OpsSamples.

Definition halfway : OpsStore := @run_actions sample_sha256 left_bytes (take 3 history) empty.
Definition later : OpsStore := @run_actions sample_sha256 left_bytes (drop 3 history) halfway.
Definition admin : SessionUser := mkSessionUser 1 "admin".
Definition one_at_a_time : Filter := mkFilter false (mkResource "" 0) 0 1 "" "" "".
Definition everything : Filter := mkFilter false (mkResource "" 0) 0 0 "" "all" "".

Lemma reached actions : OpsOk (@run_actions sample_sha256 left_bytes actions empty).
Proof.
  unfold run_actions. pose proof empty_ok as Hs. revert Hs.
  generalize empty as s. induction actions as [|a actions IH]; intros s Hs; [done|]. cbn [foldl]. by apply IH, act_preserves.
Qed.

Lemma empty_feed : FeedOk (os_Events empty) (os_FeedCursor empty).
Proof.
  split; cbn; [constructor|lia|by intros ? ? ?%elem_of_nil|by intros ? ? ?%elem_of_nil|lia].
Qed.

Lemma halfway_feed : FeedOk (os_Events halfway) (os_FeedCursor halfway).
Proof. by destruct (@actions_feed sample_sha256 left_bytes (take 3 history) empty (oo_events _ empty_ok) empty_feed) as (_ & Hf & _). Qed.
End OpsReadSamples.

(** One event is read at the first visit, the other at the second. *)
Lemma feed_resumes_witness :
  match drain 9 OpsReadSamples.halfway OpsReadSamples.admin OpsReadSamples.one_at_a_time 0 with
  | Ok (first, cursor) => ev_FeedCursor <$> first = [Some 1] ∧ cursor = 1
  | Err _ => False
  end ∧
  ∃ first rest cursor cursor',
    drain 9 OpsReadSamples.halfway OpsReadSamples.admin OpsReadSamples.one_at_a_time 0 = Ok (first, cursor) ∧
    drain 9 OpsReadSamples.later OpsReadSamples.admin OpsReadSamples.one_at_a_time cursor = Ok (rest, cursor') ∧
    drain 9 OpsReadSamples.later OpsReadSamples.admin OpsReadSamples.one_at_a_time 0 = Ok (first ++ rest, cursor').
Proof.
  split; [vm_compute; auto|].
  destruct (@feed_resumes OpsSamples.sample_sha256 OpsSamples.left_bytes (drop 3 OpsSamples.history) OpsReadSamples.halfway
    OpsReadSamples.admin OpsReadSamples.one_at_a_time 0 9 9) as (first & rest & cursor & cursor' & H1 & H2 & H3 & _).
  - exact (OpsReadSamples.reached (take 3 OpsSamples.history)).
  - exact OpsReadSamples.halfway_feed.
  - vm_compute; reflexivity.
  - vm_compute; reflexivity.
  - lia.
  - vm_compute; lia.
  - vm_compute; lia.
  - exists first, rest, cursor, cursor'. exact (conj H1 (conj H2 H3)).
Defined.

(** The history of the two events, in two pages. *)
Lemma pages_enumerate_witness :
  ∃ ids, read_pages (λ _ _, true) (λ _ _, "") OpsSamples.left_bytes 9 OpsSamples.after OpsReadSamples.admin "history" ViewHistory
           OpsReadSamples.one_at_a_time = Ok ids ∧ ids = [2; 1].
Proof.
  destruct (pages_enumerate (λ _ _, true) (λ _ _, "") OpsSamples.left_bytes OpsSamples.after OpsReadSamples.admin "history" ViewHistory
    OpsReadSamples.one_at_a_time 9) as (ids & Hids & _).
  - exact (OpsReadSamples.reached OpsSamples.history).
  - reflexivity.
  - reflexivity.
  - vm_compute; reflexivity.
  - reflexivity.
  - assert (Forall (λ id, 0 < id) (selected (λ _ _, true) (λ _ _, "") OpsSamples.left_bytes OpsSamples.after OpsReadSamples.admin
      ViewHistory OpsReadSamples.one_at_a_time)) as Hall by (vm_compute; repeat constructor).
    intros id Hid. exact (proj1 (Forall_forall _ _) Hall id Hid).
  - vm_compute; lia.
  - exists ids. split; [exact Hids|].
    assert (read_pages (λ _ _, true) (λ _ _, "") OpsSamples.left_bytes 9 OpsSamples.after OpsReadSamples.admin "history" ViewHistory
           OpsReadSamples.one_at_a_time = Ok [2; 1]) as E by (vm_compute; reflexivity).
    rewrite Hids in E. by injection E.
Defined.
