(* ===== verification/OpsDeliveryProps.v ===== *)
(** * Mail is bounded and only for those who may read it

    A batch is tried at most 8 times and is left alone once it is settled
    ([deliveries_bounded]); what is sent goes to a user with an account and the
    preference for it, about what the user may see ([mail_only_to_viewers]). *)

From S2P Require Import Prelude Tx Tables GoStr GoTime GoCrypto Site OpsTypes OpsScope OpsStore OpsNotify OpsDelivery OpsQueries OpsSystem OpsInvariant.

(** ** What is left to be tried *)

Definition unsettled (b : EmailBatch) : bool := one_of (eb_Status b) ["pending"; "failed"].
Definition remaining (b : EmailBatch) : Z := if unsettled b then Z.max 0 (8 - eb_Attempts b) else 0.
Definition work (batches : list EmailBatch) : Z := foldr (λ b n, remaining b + n) 0 batches.

Lemma remaining_nonneg b : 0 ≤ remaining b.
Proof. unfold remaining. destruct (unsettled b); lia. Qed.

Lemma remaining_closed b : unsettled b = false → remaining b = 0.
Proof. unfold remaining. by intros ->. Qed.

Lemma work_nonneg batches : 0 ≤ work batches.
Proof. unfold work. induction batches as [|b batches IH]; cbn; [lia|]. pose proof (remaining_nonneg b). lia. Qed.

Lemma work_app l1 l2 : work (l1 ++ l2) = work l1 + work l2.
Proof. unfold work. induction l1 as [|b l1 IH]; cbn; [done|]. lia. Qed.

Lemma work_update id f batches b :
  NoDup (eb_ID <$> batches) → b ∈ batches → eb_ID b = id →
  work (rows_update (λ b, eb_ID b =? id) f batches) = work batches - remaining b + remaining (f b).
Proof.
  intros Hnd Hb Hid. subst id. unfold rows_update. induction batches as [|x batches IH]; [by apply elem_of_nil in Hb|].
  rewrite fmap_cons in Hnd. apply NoDup_cons in Hnd as [Hnew Hnd]. rewrite fmap_cons. cbn [work foldr].
  apply elem_of_cons in Hb as [->|Hb].
  - rewrite Z.eqb_refl.
    assert ((λ y, if eb_ID y =? eb_ID x then f y else y) <$> batches = batches) as ->; [|unfold work; lia].
    rewrite <- (list_fmap_id batches) at 2. apply list_fmap_ext. intros k y Hy. cbn.
    destruct (Z.eqb_spec (eb_ID y) (eb_ID x)) as [E|]; [|done].
    exfalso. apply Hnew. rewrite <- E. eapply list_elem_of_fmap_2, list_elem_of_lookup_2, Hy.
  - destruct (Z.eqb_spec (eb_ID x) (eb_ID b)) as [E|].
    { exfalso. apply Hnew. rewrite E. by apply list_elem_of_fmap_2. }
    specialize (IH Hnd Hb). unfold work in *. lia.
Qed.

(** ** Everything but delivery only adds batches *)

Definition Appends (s s' : OpsStore) : Prop :=
  ∃ added, os_Batches s' = os_Batches s ++ added ∧ Forall (λ b, eb_Attempts b = 0) added.

#[export] Instance Appends_preorder : PreOrder Appends.
Proof.
  split.
  - intros s. exists []. by rewrite app_nil_r.
  - intros s1 s2 s3 (l & E1 & H1) (l' & E2 & H2). exists (l ++ l'). rewrite E2, E1, app_assoc. split; [done|]. by apply Forall_app.
Qed.

Lemma same_batches s s' : os_Batches s' = os_Batches s → Appends s s'.
Proof. intros E. exists []. by rewrite E, app_nil_r. Qed.

Lemma appends_write f : (∀ s, os_Batches (f s) = os_Batches s) → steps Appends (tx_write f).
Proof. intros Hf. apply steps_write. intros s. by apply same_batches. Qed.

Lemma appends_query {A} (f : OpsStore → result A) : steps Appends (tx_query f).
Proof. apply steps_query, _. Qed.

Lemma appends_update_issues p f : steps Appends (update_issues p f).
Proof. intros s n s' [-> _]%update_issues_Ok. by apply same_batches. Qed.

Lemma appends_upsert_batch clock key user mode due : steps Appends (upsert_batch clock key user mode due).
Proof.
  intros s a s' Hr. unfold upsert_batch in Hr. tx_ok. destruct (rows_where _ _); tx_ok; [|by apply same_batches].
  eexists. split; [done|]. by constructor.
Qed.
#[export] Hint Resolve appends_query appends_update_issues appends_upsert_batch : tx_steps.

(** Bodies whose statements do not touch batches. *)
Ltac appends := steps_rows; try (apply appends_write; intros; reflexivity).

Lemma appends_observe o : steps Appends (ObserveIssueTx o).
Proof. unfold ObserveIssueTx, insert_event, upsert_issue, update_events. appends. Qed.

Lemma appends_condition c : steps Appends (ObserveConditionTx c).
Proof.
  pose proof appends_observe.
  unfold ObserveConditionTx, condition_recovered, upsert_condition, insert_event, upsert_issue, update_events. appends.
Qed.

Lemma appends_resolve now clock r hash revision : steps Appends (ResolveVerifiedTx now clock r hash revision).
Proof. unfold ResolveVerifiedTx, IssueForUpdateTx, resolve_issue, insert_event, update_events. appends. Qed.

Lemma appends_enqueue jobID clock now id email : steps Appends (EnqueueNotificationForEmailTx jobID clock now id email).
Proof. unfold EnqueueNotificationForEmailTx, correlateNotificationTx, enqueue_for, update_notifications, insert_email_item. appends. Qed.
#[export] Hint Resolve appends_observe appends_condition appends_resolve appends_enqueue : tx_steps.

Lemma appends_project jobID clock now eventID : steps Appends (projectIncidentTx jobID clock now eventID).
Proof.
  unfold projectIncidentTx, link_notices, publish_failure, publish_recovery, EnqueueNotificationTx, insert_notice, update_notifications.
  appends.
Qed.

Lemma appends_publish jobID clock now ids : ∀ cursor, steps Appends (publish_events jobID clock now cursor ids).
Proof.
  pose proof appends_project. induction ids as [|id ids IH]; intros cursor; cbn [publish_events]; unfold update_events; appends.
Qed.

Lemma appends_record clock j : steps Appends (record_job clock j).
Proof.
  unfold record_job, job_operation, record_attempt, record_event, job_progress, insert_event, upsert_issue, update_operations,
    update_attempts, update_events. appends.
Qed.

Lemma appends_receipt row f : steps Appends (upsert_receipt row f).
Proof. unfold upsert_receipt. appends. Qed.
#[export] Hint Resolve appends_publish appends_record appends_receipt : tx_steps.

Lemma appends_run {A} (m : tx OpsStore A) s : steps Appends m → Appends s (ignore m s).
Proof. apply steps_run, _. Qed.

(** An action that is not a delivery. *)
Definition is_delivery (a : OpsAction) : bool := match a with ActDeliver _ => true | _ => false end.

(** ** What a step costs *)

Record Spends (n : Z) (s s' : OpsStore) : Prop := {
  sp_settled : ∀ b, b ∈ os_Batches s → remaining b = 0 → b ∈ os_Batches s';
  sp_work : n + work (os_Batches s') + 8 * Z.of_nat (length (os_Batches s)) ≤ work (os_Batches s) + 8 * Z.of_nat (length (os_Batches s'));
}.

Lemma spends_trans n m s1 s2 s3 : Spends n s1 s2 → Spends m s2 s3 → Spends (n + m) s1 s3.
Proof. intros [K1 W1] [K2 W2]. split; [auto|lia]. Qed.

Lemma spends_refl s : Spends 0 s s.
Proof. split; [done|lia]. Qed.

Lemma appends_spends s s' : Appends s s' → Spends 0 s s'.
Proof.
  intros (added & E & Hadded). split; rewrite E.
  - intros b Hb _. apply elem_of_app. by left.
  - rewrite work_app, length_app, Nat2Z.inj_add. assert (work added ≤ 8 * Z.of_nat (length added)); [|lia].
    clear E. unfold work. induction Hadded as [|b l Hb Hl IH]; cbn [foldr length]; [lia|].
    assert (remaining b ≤ 8); [|lia]. unfold remaining. rewrite Hb. destruct (unsettled b); lia.
Qed.

(** The update of a batch that was found ready costs an attempt. *)
Lemma update_spends clock now b f s s' :
  OpsOk s → b ∈ os_Batches s → batch_ready now b = true → eb_ID (f b) = eb_ID b →
  (1 ≤ 8 - eb_Attempts b → remaining (f b) ≤ 7 - eb_Attempts b) →
  update_batch clock (eb_ID b) f s = Ok ((), s') → Spends 1 s s'.
Proof.
  intros Hs Hb Hready Hid Hf Hu. unfold update_batch in Hu. tx_ok. destruct (oo_batches _ Hs) as [Hnd _].
  unfold batch_ready in Hready. bool_split.
  assert (unsettled b = true) as Hopen by done.
  assert (remaining b = 8 - eb_Attempts b) as Er by (unfold remaining; rewrite Hopen; lia).
  split; cbn.
  - intros x Hx E0. apply rows_update_elem. exists x. split; [done|]. destruct (Z.eqb_spec (eb_ID x) (eb_ID b)) as [E|]; [|done].
    assert (x = b) as -> by (eapply NoDup_fmap_elem; [exact Hnd|done..]). lia.
  - rewrite (work_update _ _ _ b Hnd Hb eq_refl). unfold rows_update. rewrite length_fmap.
    change (remaining ((f b) <| eb_UpdatedAt := clock |>)) with (remaining (f b)). lia.
Qed.

Section Deliveries.
Context `{SHA256}.
Context (pg_left : string → Z → string).

Lemma act_appends a s : is_delivery a = false → Appends s (act pg_left a s).
Proof.
  destruct a; cbn [act is_delivery]; intros Ha; try discriminate Ha; try (apply appends_run).
  - apply appends_observe.
  - apply appends_condition.
  - unfold AcknowledgeIssue, insert_event. appends.
  - unfold check_issue, IssueForUpdateTx, SetCheckingTx. appends.
  - apply appends_resolve.
  - unfold VerificationFailedTx. appends.
  - unfold CreateOperation. destruct (operation_invalid input); [done|]. cbv zeta.
    destruct (rows_where _ _); destruct (_ || _); done || by apply same_batches.
  - unfold StartAttempt, insert_attempt, update_operations. appends.
  - unfold FinishAttempt, update_attempts, update_operations. appends.
  - unfold DispatchTx. appends.
  - unfold MarkNotificationRead. appends.
  - unfold MarkAllNotificationsRead. appends.
  - unfold ArchiveNotification. appends.
  - unfold SavePreferences. appends.
  - unfold SaveDeliveryPolicy. appends.
  - apply appends_record.
  - unfold notify, insert_notice, update_notifications. appends.
  - unfold update_notifications. appends.
  - by apply same_batches.
Qed.

Lemma appends_resolve_delivery clock now user batch hash revision :
  steps Appends (resolve_delivery clock now user batch hash revision).
Proof. unfold resolve_delivery, IssueForUpdateTx, SetCheckingTx. appends. Qed.

Lemma after_send_spends clock now skipped profile b u mode mail sendErr s a s' :
  OpsOk s → next_step pg_left clock skipped s = Ok (SendBatch b u mode mail) →
  after_send clock now profile b u mode sendErr s = Ok (a, s') → Spends 1 s s'.
Proof.
  intros Hs [Hb Hready]%next_step_batch Ha. unfold after_send in Ha. tx_ok. cbv zeta in Ha.
  destruct sendErr; unfold mail_failed, mail_accepted in Ha; apply tx_bind_Ok in Ha as ([] & s1 & Hu & Ha);
    change 1 with (1 + 0); apply (spends_trans 1 0 s s1).
  - refine (update_spends _ _ _ _ _ _ Hs Hb Hready _ _ Hu); [done|]. unfold remaining. cbn -[Z.max Z.sub Z.add].
    destruct (unsettled _); lia.
  - apply appends_spends. by eapply appends_condition.
  - refine (update_spends _ _ _ _ _ _ Hs Hb Hready _ _ Hu); [done|]. intros Hleft. rewrite remaining_closed by reflexivity. lia.
  - apply appends_spends. apply tx_bind_Ok in Ha as (x & s2 & Hc & Ha).
    transitivity s2; [by eapply appends_condition|by eapply appends_resolve_delivery].
Qed.

(** A round that goes on has used up an attempt. *)
Definition round (d : Delivery) (s : OpsStore) : Z :=
  match deliverOne pg_left d s with (Ok true, _, _) => 1 | _ => 0 end.

Lemma deliver_spends d s : OpsOk s → Spends (round d s) s (snd (deliverOne pg_left d s)).
Proof.
  intros Hs. unfold round, deliverOne. destruct (dl_Send d) as [send|]; [|apply spends_refl].
  destruct (next_step _ _ _ _) as [[|id reason|b u mode mail]|] eqn:E; [apply spends_refl| | |apply spends_refl]; cbn [snd].
  - apply next_step_skip in E as (b & Hb & Hready & ->). unfold skip_batch, run_tx.
    refine (update_spends _ _ _ _ _ _ Hs Hb Hready _ _ eq_refl); [done|]. intros Hleft. rewrite remaining_closed by reflexivity. lia.
  - unfold run_tx. destruct (after_send _ _ _ _ _ _ _ s) as [[a s']|e] eqn:Ea; cbn; [|apply spends_refl].
    by eapply after_send_spends.
Qed.

(** The rounds of a sequence of actions that went on. *)
Fixpoint rounds (actions : list OpsAction) (s : OpsStore) : Z :=
  match actions with
  | [] => 0
  | a :: actions => (match a with ActDeliver d => round d s | _ => 0 end) + rounds actions (act pg_left a s)
  end.

Lemma act_spends a s : OpsOk s → Spends (match a with ActDeliver d => round d s | _ => 0 end) s (act pg_left a s).
Proof.
  intros Hs. destruct (is_delivery a) eqn:Ed; [destruct a; try discriminate Ed; by apply deliver_spends|].
  destruct a; try discriminate Ed; by apply appends_spends, act_appends.
Qed.

Lemma run_spends actions : ∀ s, OpsOk s → Spends (rounds actions s) s (run_actions pg_left actions s).
Proof.
  unfold run_actions. induction actions as [|a actions IH]; intros s Hs; [apply spends_refl|].
  cbn [rounds foldl]. eapply spends_trans; [by apply act_spends|]. by apply IH, act_preserves.
Qed.

(** C8. Mail ends: whatever happens to the tables, the rounds of the mail service
    that go on (a batch skipped, accepted, or failed and put off) are at most the
    attempts that were left and 8 for each batch made since, and a batch that was
    accepted, skipped or tried 8 times is never touched again. *)
Theorem deliveries_bounded actions s (s' := run_actions pg_left actions s) :
  OpsOk s →
  rounds actions s + work (os_Batches s') ≤
    work (os_Batches s) + 8 * (Z.of_nat (length (os_Batches s')) - Z.of_nat (length (os_Batches s))) ∧
  0 ≤ work (os_Batches s') ∧
  ∀ b, b ∈ os_Batches s → remaining b = 0 → b ∈ os_Batches s'.
Proof.
  intros Hs. destruct (run_spends actions s Hs) as [Hsettled Hwork]. fold s' in Hsettled, Hwork.
  split_and!; [lia|apply work_nonneg|exact Hsettled].
Qed.

(** ** Who is sent what *)

(** The mails of a round. *)
Definition mails (d : Delivery) (s : OpsStore) : list Mail := snd (fst (deliverOne pg_left d s)).

Definition visible_to (s : OpsStore) (u : UserRow) (n : NotificationRow) : bool :=
  NotificationVisibility s (us_ID u) (us_Role u) n.

Lemma mails_step d s :
  mails d s = match dl_Send d with
              | Some _ => match next_step pg_left (dl_Clock d) (dl_Skipped d) s with
                          | Ok (SendBatch _ _ _ mail) => [mail]
                          | _ => []
                          end
              | None => []
              end.
Proof.
  unfold mails, deliverOne. destruct (dl_Send d); [|done]. destruct (next_step _ _ _ _) as [[]|]; [done..| |done].
  by destruct (run_tx _ _) as [[]].
Qed.

(** The notifications of a batch are those the user may see. *)
Lemma batch_visible s ns batch u :
  rows_where (visible_to s u) ns = rows_where (visible_to s u) (os_Notifications s) →
  batch_notifications (s <| os_Notifications := ns |>) batch u = batch_notifications s batch u.
Proof.
  intros Hns. unfold batch_notifications. f_equal.
  change (os_Notifications (s <| os_Notifications := ns |>)) with ns. assert (∀ rows, rows_where (in_batch s batch u) rows =
    rows_where (λ n, existsb (λ item, (ei_BatchID item =? batch) && (ei_UserID item =? us_ID u) && (ei_NotificationID item =? nt_ID n)) (os_Items s)
                     && negb (String.eqb (issue_kind s n) "notification_delivery")) (rows_where (visible_to s u) rows)) as Hsplit.
  { intros rows. unfold rows_where. rewrite list_filter_filter. apply list_filter_iff. intros n.
    unfold in_batch, visible_to. rewrite !andb_true_iff. tauto. }
  change (in_batch (s <| os_Notifications := ns |>) batch u) with (in_batch s batch u).
  by rewrite !Hsplit, Hns.
Qed.

Lemma next_step_send clock skipped s b u mode mail :
  next_step pg_left clock skipped s = Ok (SendBatch b u mode mail) →
  (b ∈ os_Batches s ∧ batch_ready clock b = true) ∧ (u ∈ ac_Users (os_Accounts s) ∧ us_ID u = eb_RecipientUserID b) ∧
  (us_LoginDisabled u = false ∧ po_Enabled (os_Policy s) = true) ∧
  (email_mode (us_ID u) s = eb_Mode b ∧ eb_Mode b ≠ "off") ∧ ml_To mail = us_Email u ∧
  ∀ ns, rows_where (visible_to s u) ns = rows_where (visible_to s u) (os_Notifications s) →
    next_step pg_left clock skipped (s <| os_Notifications := ns |>) = Ok (SendBatch b u mode mail).
Proof.
  intros Hn. split; [by eapply next_step_batch|]. unfold next_step in Hn.
  destruct (next_batch clock skipped (os_Batches s)) as [b'|] eqn:Eb; [|done].
  destruct (query_row _) as [u'|] eqn:Eu; [|done]. cbn [result_bind] in Hn.
  destruct (_ || _) eqn:Eskip; [done|]. destruct (batch_notifications s (eb_ID b') u') as [|n rest] eqn:En; [done|].
  injection Hn as -> -> <- <-. pose proof Eu as [Hu Hid]%query_where_Ok. apply Z.eqb_eq in Hid.
  split; [done|].
  assert ((us_LoginDisabled u = false ∧ po_Enabled (os_Policy s) = true) ∧ (email_mode (us_ID u) s = eb_Mode b ∧ eb_Mode b ≠ "off"))
    as [Hmay Hmode] by (bool_split; split_and!; congruence).
  split; [exact Hmay|]. split; [exact Hmode|]. split; [done|]. intros ns Hns. unfold next_step.
  change (os_Batches (s <| os_Notifications := ns |>)) with (os_Batches s).
  change (os_Accounts (s <| os_Notifications := ns |>)) with (os_Accounts s).
  change (os_Policy (s <| os_Notifications := ns |>)) with (os_Policy s).
  change (email_mode ?u (s <| os_Notifications := ns |>)) with (email_mode u s).
  rewrite Eb, Eu. cbn [result_bind]. rewrite Eskip, batch_visible by done. by rewrite En.
Qed.

(** C7. A mail goes only to those who may read it: its address is that of the
    batch's user, who has an account that can log in and asked for this kind of
    mail while mail is enabled; and what it says depends on nothing but the
    notifications this user may see now: with the others changed at will, added
    or removed, the same mail is sent. *)
Theorem mail_only_to_viewers d s mail :
  mail ∈ mails d s →
  ∃ b u,
    (b ∈ os_Batches s ∧ batch_ready (dl_Clock d) b = true) ∧ (u ∈ ac_Users (os_Accounts s) ∧ us_ID u = eb_RecipientUserID b) ∧
    (us_LoginDisabled u = false ∧ po_Enabled (os_Policy s) = true) ∧
    (email_mode (us_ID u) s = eb_Mode b ∧ eb_Mode b ≠ "off") ∧ ml_To mail = us_Email u ∧
    ∀ ns, rows_where (visible_to s u) ns = rows_where (visible_to s u) (os_Notifications s) →
      mails d (s <| os_Notifications := ns |>) = [mail].
Proof.
  rewrite mails_step. destruct (dl_Send d) as [send|] eqn:Es; [|by intros ?%elem_of_nil].
  destruct (next_step _ _ _ s) as [[| |b u mode m]|] eqn:En; try (by intros ?%elem_of_nil).
  intros ->%list_elem_of_singleton. apply next_step_send in En as (H1 & H2 & H3 & H4 & H5 & Hns).
  exists b, u. split_and!; [apply H1|apply H1|apply H2|apply H2|apply H3|apply H3|apply H4|apply H4|exact H5|].
  intros ns Hsame. rewrite mails_step, Es. by rewrite Hns.
Qed.
End Deliveries.

(** * Witnesses *)

Module OpsDeliverySamples.
Import OpsSamples.

Definition actions (l : list OpsAction) : OpsStore := @run_actions sample_sha256 left_bytes l empty.

(** The failure has been published, and its mail is due. *)
Definition due : OpsStore := actions (take 2 history).

Definition refused : Delivery := mkDelivery 5000 5000 "smtp" (λ _, false) (Some (λ _, Some ErrConflict)).
End OpsDeliverySamples.

(** Two batches are made and accepted, in two rounds. *)
Lemma deliveries_bounded_witness :
  @rounds OpsSamples.sample_sha256 OpsSamples.left_bytes OpsSamples.history OpsSamples.empty = 2 ∧
  @rounds OpsSamples.sample_sha256 OpsSamples.left_bytes OpsSamples.history OpsSamples.empty + work (os_Batches OpsSamples.after)
    ≤ work (os_Batches OpsSamples.empty) +
      8 * (Z.of_nat (length (os_Batches OpsSamples.after)) - Z.of_nat (length (os_Batches OpsSamples.empty))).
Proof.
  split; [vm_compute; reflexivity|].
  exact (proj1 (@deliveries_bounded OpsSamples.sample_sha256 OpsSamples.left_bytes OpsSamples.history OpsSamples.empty OpsSamples.empty_ok)).
Defined.

(** The owner of the site is mailed about its certificate. *)
Lemma mail_only_to_viewers_witness :
  match @mails OpsSamples.sample_sha256 OpsSamples.left_bytes OpsSamples.sent OpsDeliverySamples.due with
  | [m] => ml_To m = "owner@example.com" ∧
      ∃ b u, b ∈ os_Batches OpsDeliverySamples.due ∧ us_ID u = eb_RecipientUserID b ∧ ml_To m = us_Email u
  | _ => False
  end.
Proof.
  destruct (@mails OpsSamples.sample_sha256 OpsSamples.left_bytes OpsSamples.sent OpsDeliverySamples.due) as [|m [|]] eqn:E;
    [vm_compute in E; discriminate E| |vm_compute in E; discriminate E].
  split; [vm_compute in E; by injection E as <-|].
  destruct (@mail_only_to_viewers OpsSamples.sample_sha256 OpsSamples.left_bytes OpsSamples.sent OpsDeliverySamples.due m)
    as (b & u & Hb & Hu & _ & _ & Hto & _); [rewrite E; apply list_elem_of_here|].
  exists b, u. exact (conj (proj1 Hb) (conj (proj2 Hu) Hto)).
Defined.
