(* ===== verification/LoginTypes.v ===== *)
(** * Sign-in: tables and statements

    The tables of users.sql and of the production-security migration, and the
    statements of internal/control/store/authstore.go, http/login_security.go,
    operator/security_recovery.go and provisioningapi/sso.go over them. [clock]
    is the database's [now()]. *)

From S2P Require Import Prelude Tx Tables GoStr GoTime GoCrypto Password Auth Keyring Site OpsTypes OpsScope OpsStore OpsNotify.
From Stdlib Require Import Ascii.

(** ** Rows *)

(** A row of [users]. *)
Record Account := mkAccount {
  au_ID : Z;
  au_Email : string;
  au_PasswordHash : string;
  au_Role : string;
  au_LoginDisabled : bool;
}.

(** Rows of [customers], [reseller_accounts] and [reseller_subscriptions]. *)
Record CustomerStatus := mkCustomerStatus { cs_ID : Z; cs_LoginUserID : Z; cs_Status : string }.
Record ResellerStatus := mkResellerStatus { rls_ID : Z; rls_LoginUserID : Z; rls_Status : string }.
Record ResellerPlan := mkResellerPlan { rp_ResellerID : Z; rp_Status : string }.

(** A row of [sessions]. *)
Record SessionRow := mkSessionRow {
  se_TokenHash : string;
  se_UserID : Z;
  se_ExpiresAt : Z;
  se_IPAddress : string;
  se_UserAgent : string;
  se_CreatedAt : Z;
  se_AuthenticatedAt : option Z;
  se_LastSeenAt : Z;
  se_RevokedAt : option Z;
}.

(** A row of [user_totp]. *)
Record TOTPRow := mkTOTPRow {
  tt_UserID : Z;
  tt_Envelope : Envelope;
  tt_ConfirmedAt : option Z;
  tt_LastUsedStep : Z;
}.

(** A row of [user_recovery_codes]. *)
Record RecoveryRow := mkRecoveryRow {
  rv_ID : Z;
  rv_UserID : Z;
  rv_CodeHash : string;
  rv_UsedAt : option Z;
}.

(** A row of [login_challenges]. *)
Record ChallengeRow := mkChallengeRow {
  lc_TokenHash : string;
  lc_UserID : Z;
  lc_ExpiresAt : Z;
  lc_Attempts : Z;
  lc_IPAddress : string;
  lc_UserAgent : string;
}.

(** A row of [login_attempts]. *)
Record LoginAttempt := mkLoginAttempt {
  la_Email : string;
  la_IPAddress : string;
  la_Stage : string;
  la_Succeeded : bool;
  la_AttemptedAt : Z;
}.

(** Rows of [customer_login_tokens], [billing_accounts] and [subscriptions]. *)
Record LoginToken := mkLoginToken {
  lt_ID : Z;
  lt_BillingAccountID : Z;
  lt_UserID : Z;
  lt_TokenHash : list Z;
  lt_ExpiresAt : Z;
  lt_UsedAt : option Z;
}.
Record BillingAccount := mkBillingAccount {
  ba_ID : Z;
  ba_PublicID : string;
  ba_ExternalRef : string;
  ba_SubscriptionID : Z;
  ba_State : string;
}.
Record SubscriptionStatus := mkSubscriptionStatus { ss_ID : Z; ss_CustomerID : Z; ss_Status : string }.

(** A value of the metadata of an audit event, a row of [audit_events]. *)
Inductive meta := Text (s : string) | Int (z : Z) | Bool (b : bool).

Record AuditEvent := mkAuditEvent {
  ae_ActorLabel : string;
  ae_ActorUserID : Z;
  ae_Action : string;
  ae_TargetType : string;
  ae_TargetID : Z;
  ae_Metadata : gmap string meta;
}.

Record LoginStore := mkLoginStore {
  ls_Users : list Account;
  ls_Customers : list CustomerStatus;
  ls_Resellers : list ResellerStatus;
  ls_ResellerPlans : list ResellerPlan;
  ls_Sessions : list SessionRow;
  ls_TOTP : list TOTPRow;
  ls_RecoveryCodes : list RecoveryRow;
  ls_RecoverySeq : Z;
  ls_Challenges : list ChallengeRow;
  ls_Attempts : list LoginAttempt;
  ls_RequireTOTPAdmin : option bool;
  ls_Tokens : list LoginToken;
  ls_TokenSeq : Z;
  ls_Billing : list BillingAccount;
  ls_Subscriptions : list SubscriptionStatus;
  ls_Audit : list AuditEvent;
  ls_Ops : OpsStore;
}.

#[export] Instance eta_Account : Eta Account := λ r,
  mkAccount (au_ID r) (au_Email r) (au_PasswordHash r) (au_Role r) (au_LoginDisabled r).
#[export] Instance eta_SessionRow : Eta SessionRow := λ r,
  mkSessionRow (se_TokenHash r) (se_UserID r) (se_ExpiresAt r) (se_IPAddress r) (se_UserAgent r) (se_CreatedAt r)
    (se_AuthenticatedAt r) (se_LastSeenAt r) (se_RevokedAt r).
#[export] Instance eta_TOTPRow : Eta TOTPRow := λ r,
  mkTOTPRow (tt_UserID r) (tt_Envelope r) (tt_ConfirmedAt r) (tt_LastUsedStep r).
#[export] Instance eta_RecoveryRow : Eta RecoveryRow := λ r,
  mkRecoveryRow (rv_ID r) (rv_UserID r) (rv_CodeHash r) (rv_UsedAt r).
#[export] Instance eta_ChallengeRow : Eta ChallengeRow := λ r,
  mkChallengeRow (lc_TokenHash r) (lc_UserID r) (lc_ExpiresAt r) (lc_Attempts r) (lc_IPAddress r) (lc_UserAgent r).
#[export] Instance eta_LoginToken : Eta LoginToken := λ r,
  mkLoginToken (lt_ID r) (lt_BillingAccountID r) (lt_UserID r) (lt_TokenHash r) (lt_ExpiresAt r) (lt_UsedAt r).
#[export] Instance eta_LoginStore : Eta LoginStore := λ r,
  mkLoginStore (ls_Users r) (ls_Customers r) (ls_Resellers r) (ls_ResellerPlans r) (ls_Sessions r) (ls_TOTP r)
    (ls_RecoveryCodes r) (ls_RecoverySeq r) (ls_Challenges r) (ls_Attempts r) (ls_RequireTOTPAdmin r) (ls_Tokens r) (ls_TokenSeq r)
    (ls_Billing r) (ls_Subscriptions r) (ls_Audit r) (ls_Ops r).

(** ** Users (role.go); the roles are those of [OpsScope] *)

Record User := mkUser { ur_ID : Z; ur_Email : string; ur_PasswordHash : string; ur_Role : string }.
Record SessionUser := mkSessionUser {
  su_ID : Z;
  su_Email : string;
  su_Role : string;
  su_AuthenticatedAt : option Z;
  su_LastSeenAt : Z;
}.

Definition ErrUserNotFound : error := sentinel "auth.ErrUserNotFound" "user not found".
Definition ErrSessionNotFound : error := sentinel "auth.ErrSessionNotFound" "session not found".

(** The condition of [FindUserByEmail] and [GetSessionUser] on a user. *)
Definition may_sign_in (s : LoginStore) (u : Account) : bool :=
  negb (au_LoginDisabled u)
  && (String.eqb (au_Role u) "admin"
      || (String.eqb (au_Role u) "client"
          && existsb (λ c, (cs_LoginUserID c =? au_ID u) && String.eqb (cs_Status c) "active") (ls_Customers s))
      || (String.eqb (au_Role u) "reseller"
          && existsb (λ r, (rls_LoginUserID r =? au_ID u) && String.eqb (rls_Status r) "active"
                           && existsb (λ p, (rp_ResellerID p =? rls_ID r) && String.eqb (rp_Status p) "active") (ls_ResellerPlans s))
               (ls_Resellers s))).

(** ** Statements *)

Section Statements.
Context `{GoUnicode}.

Definition find_user (email : string) (s : LoginStore) : result Account :=
  query_row (rows_where (λ u, String.eqb (to_lower (au_Email u)) (to_lower email) && may_sign_in s u) (ls_Users s)).

(** [AuthStore.FindUserByEmail]. *)
Definition FindUserByEmail (email : string) (s : LoginStore) : result User :=
  match find_user email s with
  | Err e => Err (if errors_Is e "sql.ErrNoRows" then ErrUserNotFound else wrapf "find user by email: " e)
  | Ok u =>
    return_if negb (Role_Valid (au_Role u)) with errors_New ("invalid user role " +:+ quote (au_Role u));;
    Ok (mkUser (au_ID u) (au_Email u) (au_PasswordHash u) (au_Role u))
  end.

Definition user_by_id (id : Z) (s : LoginStore) : result Account := query_row (rows_where (λ u, au_ID u =? id) (ls_Users s)).
Definition user_by_email (email : string) (s : LoginStore) : result Account :=
  query_row (rows_where (λ u, String.eqb (au_Email u) email) (ls_Users s)).

(** Sessions, by their token's hash. *)
Definition update_sessions (p : SessionRow → bool) (f : SessionRow → SessionRow) : tx LoginStore Z :=
  let! rows := tx_read ls_Sessions in
  let! _ := tx_write (λ s, s <| ls_Sessions := rows_update p f (ls_Sessions s) |>) in
  tx_ret (Z.of_nat (length (rows_where p rows))).

Definition delete_sessions (p : SessionRow → bool) : tx LoginStore unit :=
  tx_write (λ s, s <| ls_Sessions := rows_delete p (ls_Sessions s) |>).

Definition is_session (tokenHash : string) (r : SessionRow) : bool := String.eqb (se_TokenHash r) tokenHash.

(** [INSERT INTO sessions ... ON CONFLICT (token_hash) DO UPDATE]: both leave the same row. *)
Definition CreateSession (clock : Z) (tokenHash : string) (userID expiresAt : Z) (ip agent : string) : tx LoginStore unit :=
  let row := mkSessionRow tokenHash userID expiresAt ip agent clock (Some clock) clock None in
  let! rows := tx_read ls_Sessions in
  if existsb (is_session tokenHash) rows
  then let! _ := update_sessions (is_session tokenHash) (λ _, row) in tx_ret ()
  else tx_write (λ s, s <| ls_Sessions := ls_Sessions s ++ [row] |>).

Definition session_user_rows (tokenHash : string) (now : Z) (s : LoginStore) : list (SessionRow * Account) :=
  r ← rows_where (λ r, is_session tokenHash r && (now <? se_ExpiresAt r) && bool_decide (se_RevokedAt r = None)) (ls_Sessions s);
  u ← rows_where (λ u, (au_ID u =? se_UserID r) && may_sign_in s u) (ls_Users s);
  [(r, u)].

(** [AuthStore.GetSession]. *)
Definition GetSession (tokenHash : string) (now : Z) (s : LoginStore) : result SessionUser :=
  match session_user_rows tokenHash now s with
  | [] => Err ErrSessionNotFound
  | (r, u) :: _ =>
    return_if negb (Role_Valid (au_Role u))
      with Error ("invalid session user role " +:+ quote (au_Role u) +:+ ": " +:+ error_text ErrSessionNotFound) (error_chain ErrSessionNotFound);;
    Ok (mkSessionUser (au_ID u) (au_Email u) (au_Role u) (se_AuthenticatedAt r) (se_LastSeenAt r))
  end.

Definition MarkSessionReauthenticated (clock : Z) (tokenHash : string) : tx LoginStore Z :=
  update_sessions (λ r, is_session tokenHash r && (clock <? se_ExpiresAt r) && bool_decide (se_RevokedAt r = None))
    (λ r, r <| se_AuthenticatedAt := Some clock |> <| se_LastSeenAt := clock |>).

Definition DeleteSession (tokenHash : string) : tx LoginStore unit := delete_sessions (is_session tokenHash).

Definition delete_other_sessions (userID : Z) (tokenHash : string) : tx LoginStore unit :=
  delete_sessions (λ r, (se_UserID r =? userID) && negb (is_session tokenHash r)).

Definition delete_user_sessions (userID : Z) : tx LoginStore unit := delete_sessions (λ r, se_UserID r =? userID).

(** [SELECT EXISTS (SELECT 1 FROM sessions ... interval '90 days')]. *)
Definition known_address (clock userID : Z) (ip tokenHash : string) (s : LoginStore) : bool :=
  existsb (λ r, (se_UserID r =? userID) && String.eqb (se_IPAddress r) ip && negb (is_session tokenHash r)
                && (clock - 90 * day <? se_CreatedAt r)) (ls_Sessions s).

(** The second factor, one row for a user. *)
Definition is_totp (userID : Z) (r : TOTPRow) : bool := tt_UserID r =? userID.

Definition select_totp (userID : Z) (s : LoginStore) : result TOTPRow := query_row (rows_where (is_totp userID) (ls_TOTP s)).

Definition update_totp (p : TOTPRow → bool) (f : TOTPRow → TOTPRow) : tx LoginStore Z :=
  let! rows := tx_read ls_TOTP in
  let! _ := tx_write (λ s, s <| ls_TOTP := rows_update p f (ls_TOTP s) |>) in
  tx_ret (Z.of_nat (length (rows_where p rows))).

Definition upsert_totp (userID : Z) (envelope : Envelope) : tx LoginStore unit :=
  let! rows := tx_read ls_TOTP in
  if existsb (is_totp userID) rows
  then let! _ := update_totp (is_totp userID)
                   (λ r, r <| tt_Envelope := envelope |> <| tt_ConfirmedAt := None |> <| tt_LastUsedStep := 0 |>) in tx_ret ()
  else tx_write (λ s, s <| ls_TOTP := ls_TOTP s ++ [mkTOTPRow userID envelope None 0] |>).

Definition confirm_totp (clock userID step : Z) : tx LoginStore unit :=
  let! _ := update_totp (is_totp userID) (λ r, r <| tt_ConfirmedAt := Some clock |> <| tt_LastUsedStep := step |>) in tx_ret ().

Definition advance_totp (userID step : Z) : tx LoginStore Z :=
  update_totp (λ r, is_totp userID r && (tt_LastUsedStep r <? step)) (λ r, r <| tt_LastUsedStep := step |>).

Definition delete_totp (userID : Z) : tx LoginStore unit :=
  tx_write (λ s, s <| ls_TOTP := rows_delete (is_totp userID) (ls_TOTP s) |>).

(** Recovery codes. *)
Definition delete_codes (userID : Z) : tx LoginStore unit :=
  tx_write (λ s, s <| ls_RecoveryCodes := rows_delete (λ r, rv_UserID r =? userID) (ls_RecoveryCodes s) |>).

Definition insert_code (userID : Z) (hash : string) : tx LoginStore unit :=
  tx_write (λ s, s <| ls_RecoveryCodes := ls_RecoveryCodes s ++ [mkRecoveryRow (ls_RecoverySeq s) userID hash None] |>
                   <| ls_RecoverySeq := ls_RecoverySeq s + 1 |>).

Definition replace_codes (userID : Z) (hashes : list string) : tx LoginStore unit :=
  let! _ := delete_codes userID in
  tx_each (insert_code userID) hashes.

Definition unused_codes (userID : Z) (s : LoginStore) : list RecoveryRow :=
  rows_where (λ r, (rv_UserID r =? userID) && bool_decide (rv_UsedAt r = None)) (ls_RecoveryCodes s).

Definition use_code (clock id : Z) : tx LoginStore Z :=
  let unused := λ r, (rv_ID r =? id) && bool_decide (rv_UsedAt r = None) in
  let! rows := tx_read ls_RecoveryCodes in
  let! _ := tx_write (λ s, s <| ls_RecoveryCodes := rows_update unused (λ r, r <| rv_UsedAt := Some clock |>) (ls_RecoveryCodes s) |>) in
  tx_ret (Z.of_nat (length (rows_where unused rows))).

(** Challenges. *)
Definition loginChallengeTTL : Z := 5 * minute.
Definition is_challenge (tokenHash : string) (r : ChallengeRow) : bool := String.eqb (lc_TokenHash r) tokenHash.

Definition delete_challenges (p : ChallengeRow → bool) : tx LoginStore unit :=
  tx_write (λ s, s <| ls_Challenges := rows_delete p (ls_Challenges s) |>).

Definition insert_challenge (clock : Z) (tokenHash : string) (userID : Z) (ip agent : string) : tx LoginStore unit :=
  let! rows := tx_read ls_Challenges in
  fail_if existsb (is_challenge tokenHash) rows with unique_violation;;
  tx_write (λ s, s <| ls_Challenges := ls_Challenges s ++ [mkChallengeRow tokenHash userID (clock + loginChallengeTTL) 0 ip agent] |>).

Definition select_challenge (clock : Z) (tokenHash : string) (s : LoginStore) : result ChallengeRow :=
  query_row (rows_where (λ r, is_challenge tokenHash r && (clock <? lc_ExpiresAt r)) (ls_Challenges s)).

Definition bump_challenge (tokenHash : string) : tx LoginStore Z :=
  let! row := tx_query (λ s, query_row (rows_where (is_challenge tokenHash) (ls_Challenges s))) in
  let! _ := tx_write (λ s, s <| ls_Challenges := rows_update (is_challenge tokenHash)
                                  (λ r, r <| lc_Attempts := lc_Attempts r + 1 |>) (ls_Challenges s) |>) in
  tx_ret (lc_Attempts row + 1).

(** The throttle's rows. *)
Definition loginFailWindow : Z := 15 * minute.

Definition insert_login_attempt (clock : Z) (email ip stage : string) (succeeded : bool) : tx LoginStore unit :=
  tx_write (λ s, s <| ls_Attempts := ls_Attempts s ++ [mkLoginAttempt email ip stage succeeded clock] |>).

Definition prune_attempts (clock : Z) : tx LoginStore unit :=
  tx_write (λ s, s <| ls_Attempts := rows_delete (λ a, la_AttemptedAt a <? clock - day) (ls_Attempts s) |>).

Definition recent_failures (clock : Z) (p : LoginAttempt → bool) (s : LoginStore) : Z :=
  Z.of_nat (length (rows_where (λ a, p a && negb (la_Succeeded a) && (clock - loginFailWindow <? la_AttemptedAt a)) (ls_Attempts s))).

Definition count_failures (clock : Z) (email ip : string) (s : LoginStore) : Z * Z :=
  (recent_failures clock (λ a, String.eqb (la_Email a) email) s, recent_failures clock (λ a, String.eqb (la_IPAddress a) ip) s).

(** Audit events. *)
Definition insert_audit (event : AuditEvent) : tx LoginStore unit := tx_write (λ s, s <| ls_Audit := ls_Audit s ++ [event] |>).

(** [s.auditTx] of the operator's service. *)
Definition auditTx (label action targetType : string) (targetID : Z) (metadata : gmap string meta) : tx LoginStore unit :=
  insert_audit (mkAuditEvent label 0 action targetType targetID metadata).

(** The statements of the operations tables. *)
Definition on_ops {A} (m : tx OpsStore A) : tx LoginStore A :=
  λ s, match m (ls_Ops s) with
       | Ok (a, o) => Ok (a, s <| ls_Ops := o |>)
       | Err e => Err e
       end.

(** [insertLoginNotification]: its transaction. *)
Definition login_notification (clock now : Z) (kind severity title body dedupe : string) (recipient : Z) : tx LoginStore unit :=
  on_ops (
    let! _ := insert_notice ((notice 0 0 kind severity title body dedupe) <| nt_RecipientUserID := recipient |>)
                (λ n, n <| nt_Body := body |>) in
    let! row := tx_query (λ o, query_row (rows_where (open_notice dedupe) (os_Notifications o))) in
    EnqueueNotificationTx 0 clock now (nt_ID row)).

(** The transactions of the recovery commands. *)
Definition password_reset (label email : string) (userID : Z) (hash : string) : tx LoginStore unit :=
  let! _ := tx_write (λ s, s <| ls_Users := rows_update (λ u, au_ID u =? userID) (λ u, u <| au_PasswordHash := hash |>) (ls_Users s) |>) in
  let! _ := delete_user_sessions userID in
  auditTx label "user.password_reset" "user" userID {["email" := Text email]}.

Definition totp_removal (label email : string) (userID : Z) : tx LoginStore unit :=
  let! _ := delete_totp userID in
  let! _ := delete_codes userID in
  let! _ := delete_challenges (λ r, lc_UserID r =? userID) in
  let! _ := delete_user_sessions userID in
  auditTx label "user.totp_disabled_by_operator" "user" userID {["email" := Text email]}.

Definition codes_regeneration (label email : string) (userID : Z) (hashes : list string) : tx LoginStore unit :=
  let! _ := replace_codes userID hashes in
  auditTx label "user.recovery_codes_regenerated_by_operator" "user" userID {["email" := Text email]}.

Definition lockout_removal (label email : string) : tx LoginStore unit :=
  let! _ := tx_write (λ s, s <| ls_Attempts := rows_delete (λ a, String.eqb (la_Email a) email) (ls_Attempts s) |>) in
  let! users := tx_read (λ s, rows_where (λ u, String.eqb (au_Email u) email) (ls_Users s)) in
  let! _ := delete_challenges (λ r, existsb (λ u, au_ID u =? lc_UserID r) users) in
  auditTx label "user.lockout_cleared" "user" 0 {["email" := Text email]}.

Definition session_revocation (label email : string) : tx LoginStore Z :=
  let! user := tx_query (λ s, query_row (rows_where (λ u, String.eqb (to_lower (au_Email u)) (to_lower (trim_space email))) (ls_Users s))) in
  let! rows := tx_read (λ s, rows_where (λ r, se_UserID r =? au_ID user) (ls_Sessions s)) in
  let! _ := delete_user_sessions (au_ID user) in
  let! _ := auditTx label "session.user_revoked" "user" (au_ID user)
              {["email" := Text (to_lower (trim_space email)); "count" := Int (Z.of_nat (length rows))]} in
  tx_ret (Z.of_nat (length rows)).

Definition settings_update (label : string) (requireTOTPAdmin : bool) : tx LoginStore unit :=
  let! _ := tx_write (λ s, s <| ls_RequireTOTPAdmin := Some requireTOTPAdmin |>) in
  auditTx label "security.settings_updated" "security" 0 {["require_totp_admin" := Bool requireTOTPAdmin]}.

(** The exchange of a billing panel's token for a session: its transaction. *)
Inductive exchange := NotFound | Forbidden | Exchanged (userID : Z).

Definition token_rows (clock : Z) (digest : list Z) (s : LoginStore) : list (LoginToken * Account) :=
  t ← rows_where (λ t, bool_decide (lt_TokenHash t = digest) && bool_decide (lt_UsedAt t = None) && (clock <? lt_ExpiresAt t)) (ls_Tokens s);
  b ← rows_where (λ b, (ba_ID b =? lt_BillingAccountID t) && negb (one_of (ba_State b) ["terminating"; "terminated"])) (ls_Billing s);
  _ ← rows_where (λ r, (ss_ID r =? ba_SubscriptionID b) && one_of (ss_Status r) ["active"; "suspended"]) (ls_Subscriptions s);
  u ← rows_where (λ u, (au_ID u =? lt_UserID t) && negb (au_LoginDisabled u)) (ls_Users s);
  [(t, u)].

Definition token_exchange (clock : Z) (digest : list Z) : tx LoginStore exchange :=
  let! rows := tx_read (token_rows clock digest) in
  match rows with
  | [] => tx_ret NotFound
  | (t, u) :: _ =>
    if negb (String.eqb (au_Role u) "client") then tx_ret Forbidden
    else
      let! _ := tx_write (λ s, s <| ls_Tokens := rows_update (λ r, (lt_ID r =? lt_ID t) && bool_decide (lt_UsedAt r = None))
                                       (λ r, r <| lt_UsedAt := Some clock |>) (ls_Tokens s) |>) in
      tx_ret (Exchanged (lt_UserID t))
  end.

(** A login link for the customer of a billing account: what is read, and its transaction. *)
Definition link_rows (ref : string) (s : LoginStore) : list (Z * Z * string * string) :=
  b ← rows_where (λ b, String.eqb (ba_PublicID b) ref || String.eqb (ba_ExternalRef b) ref) (ls_Billing s);
  r ← rows_where (λ r, ss_ID r =? ba_SubscriptionID b) (ls_Subscriptions s);
  c ← rows_where (λ c, cs_ID c =? ss_CustomerID r) (ls_Customers s);
  [(ba_ID b, cs_LoginUserID c, ss_Status r, ba_State b)].

Definition token_issue (clock accountID userID : Z) (digest : list Z) : tx LoginStore unit :=
  let! _ := tx_write (λ s, s <| ls_Tokens := rows_update (λ t, (lt_BillingAccountID t =? accountID) && bool_decide (lt_UsedAt t = None))
                                   (λ t, t <| lt_UsedAt := Some clock |>) (ls_Tokens s) |>) in
  let! rows := tx_read ls_Tokens in
  fail_if existsb (λ t, bool_decide (lt_TokenHash t = digest)) rows with unique_violation;;
  tx_write (λ s, s <| ls_Tokens := ls_Tokens s ++ [mkLoginToken (ls_TokenSeq s) accountID userID digest (clock + 5 * minute) None] |>
                   <| ls_TokenSeq := ls_TokenSeq s + 1 |>).
End Statements.
