(* ===== verification/Login.v ===== *)
(** * Sign-in: programs, their steps and the system of threads

    A handler is a tree of questions to its environment: statements of the
    database (which may fail, before or after they took effect), the clock, the
    random source, the log and the limiter of repeated passwords. Requests run as
    threads whose questions interleave. What the environment answered is kept as
    a history of facts, by thread and for the whole system. *)

From S2P Require Import Prelude Tx Programs Tables GoStr GoTime GoCrypto Password Auth Keyring OpsTypes OpsStore OpsNotify LoginTypes.
From Stdlib Require Import Ascii.

(** ** Statements, each one transaction *)

Inductive statement : Type → Type :=
| InsertAttempt (email ip stage : string) (succeeded : bool) : statement unit
| PruneAttempts : statement unit
| CountFailures (email ip : string) : statement (Z * Z)
| InsertAudit (event : AuditEvent) : statement unit
| SelectSettings : statement bool
| SeedSettings : statement unit
| UpdateSettings (label : string) (requireTOTPAdmin : bool) : statement unit
| SelectTOTP (userID : Z) : statement TOTPRow
| UpsertTOTP (userID : Z) (envelope : Envelope) : statement unit
| ConfirmTOTP (userID step : Z) : statement unit
| AdvanceTOTP (userID step : Z) : statement Z
| DeleteTOTP (userID : Z) : statement unit
| DeleteCodes (userID : Z) : statement unit
| ReplaceCodes (userID : Z) (hashes : list string) : statement unit
| SelectCodes (userID : Z) : statement (list RecoveryRow)
| UseCode (id : Z) : statement Z
| CountCodes (userID : Z) : statement Z
| InsertChallenge (tokenHash : string) (userID : Z) (ip agent : string) : statement unit
| PruneChallenges : statement unit
| SelectChallenge (tokenHash : string) : statement ChallengeRow
| BumpChallenge (tokenHash : string) : statement Z
| DeleteChallenge (tokenHash : string) : statement unit
| InsertNotification (kind severity title body dedupe : string) (recipient : Z) : statement unit
| KnownAddress (userID : Z) (ip tokenHash : string) : statement bool
| FindUser (email : string) : statement User
| SelectUser (userID : Z) : statement Account
| InsertSession (tokenHash : string) (userID expiresAt : Z) (ip agent : string) : statement unit
| SelectSession (tokenHash : string) (now : Z) : statement SessionUser
| RemoveSession (tokenHash : string) : statement unit
| RemoveOtherSessions (userID : Z) (tokenHash : string) : statement unit
| MarkReauthenticated (tokenHash : string) : statement Z
| LookupUser (email : string) : statement Account
| Enrolled (userID : Z) : statement bool
| ResetPassword (label email : string) (userID : Z) (hash : string) : statement unit
| RemoveTOTP (label email : string) (userID : Z) : statement unit
| RegenerateCodes (label email : string) (userID : Z) (hashes : list string) : statement unit
| RemoveLockout (label email : string) : statement unit
| RevokeSessions (label email : string) : statement Z
| ExchangeToken (digest : list Z) : statement exchange
| SelectBilling (ref : string) : statement (Z * Z * string * string)
| IssueToken (accountID userID : Z) (digest : list Z) : statement unit.

Section Perform.
Context `{GoUnicode}.

Definition perform (clock now : Z) {B} (q : statement B) : tx LoginStore B :=
  match q in statement B return tx LoginStore B with
  | InsertAttempt email ip stage succeeded => insert_login_attempt clock email ip stage succeeded
  | PruneAttempts => prune_attempts clock
  | CountFailures email ip => tx_read (count_failures clock email ip)
  | InsertAudit event => insert_audit event
  | SelectSettings => tx_query (λ s, match ls_RequireTOTPAdmin s with Some b => Ok b | None => Err ErrNoRows end)
  | SeedSettings => tx_write (λ s, match ls_RequireTOTPAdmin s with Some _ => s | None => s <| ls_RequireTOTPAdmin := Some false |> end)
  | UpdateSettings label b => settings_update label b
  | SelectTOTP userID => tx_query (select_totp userID)
  | UpsertTOTP userID envelope => upsert_totp userID envelope
  | ConfirmTOTP userID step => confirm_totp clock userID step
  | AdvanceTOTP userID step => advance_totp userID step
  | DeleteTOTP userID => delete_totp userID
  | DeleteCodes userID => delete_codes userID
  | ReplaceCodes userID hashes => replace_codes userID hashes
  | SelectCodes userID => tx_read (unused_codes userID)
  | UseCode id => use_code clock id
  | CountCodes userID => tx_read (λ s, Z.of_nat (length (unused_codes userID s)))
  | InsertChallenge tokenHash userID ip agent => insert_challenge clock tokenHash userID ip agent
  | PruneChallenges => delete_challenges (λ r, lc_ExpiresAt r <? clock)
  | SelectChallenge tokenHash => tx_query (select_challenge clock tokenHash)
  | BumpChallenge tokenHash => bump_challenge tokenHash
  | DeleteChallenge tokenHash => delete_challenges (is_challenge tokenHash)
  | InsertNotification kind severity title body dedupe recipient =>
    login_notification clock now kind severity title body dedupe recipient
  | KnownAddress userID ip tokenHash => tx_read (known_address clock userID ip tokenHash)
  | FindUser email => tx_query (FindUserByEmail email)
  | SelectUser userID => tx_query (user_by_id userID)
  | InsertSession tokenHash userID expiresAt ip agent => CreateSession clock tokenHash userID expiresAt ip agent
  | SelectSession tokenHash now => tx_query (GetSession tokenHash now)
  | RemoveSession tokenHash => DeleteSession tokenHash
  | RemoveOtherSessions userID tokenHash => delete_other_sessions userID tokenHash
  | MarkReauthenticated tokenHash => MarkSessionReauthenticated clock tokenHash
  | LookupUser email => tx_query (user_by_email email)
  | Enrolled userID => tx_read (λ s, existsb (λ r, is_totp userID r && bool_decide (is_Some (tt_ConfirmedAt r))) (ls_TOTP s))
  | ResetPassword label email userID hash => password_reset label email userID hash
  | RemoveTOTP label email userID => totp_removal label email userID
  | RegenerateCodes label email userID hashes => codes_regeneration label email userID hashes
  | RemoveLockout label email => lockout_removal label email
  | RevokeSessions label email => session_revocation label email
  | ExchangeToken digest => token_exchange clock digest
  | SelectBilling ref => tx_query (λ s, query_row (link_rows ref s))
  | IssueToken accountID userID digest => token_issue clock accountID userID digest
  end.
End Perform.

(** ** Questions to the environment *)

Inductive query : Type → Type :=
| Now : query Z
| RandRead (n : nat) : query (result (list Z))
| LogPrint (line : string) : query unit
| ReauthAllowed (key : string) (now : Z) : query Z
| ReauthFailed (key : string) (now : Z) : query (Z * bool)
| ReauthReset (key : string) : query unit
| Exec {B} (st : statement B) : query (result B).

Record world := mkWorld {
  w_DB : LoginStore;
  w_Limiter : reauthLimiter;
  w_Log : list string;
}.

#[export] Instance eta_world : Eta world := λ w, mkWorld (w_DB w) (w_Limiter w) (w_Log w).

Record input := mkInput { in_clock : Z; in_now : Z; in_bytes : list Z; in_fault : fault }.

(** The first [n] bytes of the input, zeros after them. *)
Definition random_bytes (n : nat) (bytes : list Z) : list Z := (λ b, b `mod` 256) <$> take n (bytes ++ replicate n 0).

Section Exec.
Context `{GoUnicode}.

Definition exec (i : input) {B} (q : query B) (w : world) : B * world :=
  match q in query B return B * world with
  | Now => (in_now i, w)
  | RandRead n => (match in_fault i with Works => Ok (random_bytes n (in_bytes i)) | _ => Err (errors_New "crypto/rand: read failed") end, w)
  | LogPrint line => ((), w <| w_Log := w_Log w ++ [line] |>)
  | ReauthAllowed key now => let '(wait, l) := allowed key now (w_Limiter w) in (wait, w <| w_Limiter := l |>)
  | ReauthFailed key now => let '(n, locked, l) := failed key now (w_Limiter w) in ((n, locked), w <| w_Limiter := l |>)
  | ReauthReset key => ((), w <| w_Limiter := reset key (w_Limiter w) |>)
  | Exec st =>
    let '(r, s) := with_fault (in_fault i) (perform (in_clock i) (in_now i) st) (w_DB w) in
    (r, w <| w_DB := s |>)
  end.
End Exec.

(** ** Programs *)

Notation prog := (Programs.prog query).

Definition db {B} (st : statement B) : prog (result B) := ask (Exec st).

(** ** What a thread has learned *)

Inductive fact :=
| FailuresRead (email ip : string) (counts : option (Z * Z))
| FoundUser (email : string) (u : User)
| ReadTOTP (userID : Z) (row : option TOTPRow)
| ReplacedTOTP (userID : Z)
| RemovedTOTP (userID : Z)
| ReplacedCodes (userID : Z)
| AdvancedStep (userID step : Z)
| ReadCodes (userID : Z) (rows : list RecoveryRow)
| UsedCode (id : Z)
| StartedChallenge (tokenHash : string) (userID : Z)
| ReadChallenge (tokenHash : string) (row : ChallengeRow)
| Bumped (tokenHash : string) (attempts : Z)
| MintedSession (tokenHash : string) (userID : Z)
| ReadSession (tokenHash : string) (u : SessionUser)
| Reauthenticated (tokenHash : string)
| IssuedToken (digest : list Z) (userID : Z)
| TokenExchanged (digest : list Z) (userID : Z).

Definition facts_of {B} (st : statement B) : result B → list fact :=
  match st in statement B return result B → list fact with
  | CountFailures email ip => λ r, [FailuresRead email ip (match r with Ok counts => Some counts | Err _ => None end)]
  | FindUser email => λ r, match r with Ok u => [FoundUser email u] | Err _ => [] end
  | SelectTOTP userID => λ r,
    match r with
    | Ok row => [ReadTOTP userID (Some row)]
    | Err e => if errors_Is e "sql.ErrNoRows" then [ReadTOTP userID None] else []
    end
  | UpsertTOTP userID _ | ConfirmTOTP userID _ => λ _, [ReplacedTOTP userID]
  | DeleteTOTP userID => λ _, [RemovedTOTP userID]
  | RemoveTOTP _ _ userID => λ _, [RemovedTOTP userID; ReplacedCodes userID]
  | DeleteCodes userID | ReplaceCodes userID _ | RegenerateCodes _ _ userID _ => λ _, [ReplacedCodes userID]
  | AdvanceTOTP userID step => λ r, match r with Ok n => if n =? 1 then [AdvancedStep userID step] else [] | Err _ => [] end
  | SelectCodes userID => λ r, match r with Ok rows => [ReadCodes userID rows] | Err _ => [] end
  | UseCode id => λ r, match r with Ok n => if n =? 1 then [UsedCode id] else [] | Err _ => [] end
  | InsertChallenge tokenHash userID _ _ => λ _, [StartedChallenge tokenHash userID]
  | SelectChallenge tokenHash => λ r, match r with Ok row => [ReadChallenge tokenHash row] | Err _ => [] end
  | BumpChallenge tokenHash => λ r, match r with Ok n => [Bumped tokenHash n] | Err _ => [] end
  | InsertSession tokenHash userID _ _ _ => λ _, [MintedSession tokenHash userID]
  | SelectSession tokenHash _ => λ r, match r with Ok u => [ReadSession tokenHash u] | Err _ => [] end
  | MarkReauthenticated tokenHash => λ _, [Reauthenticated tokenHash]
  | IssueToken _ userID digest => λ _, [IssuedToken digest userID]
  | ExchangeToken digest => λ r, match r with Ok (Exchanged userID) => [TokenExchanged digest userID] | _ => [] end
  | _ => λ _, []
  end.

Definition learned {B} (q : query B) : B → list fact :=
  match q in query B return B → list fact with
  | Exec st => facts_of st
  | _ => λ _, []
  end.

(** ** The system *)

Section System.
Context `{GoUnicode} {call outcome : Type} (start : call → prog outcome).

Record thread := mkThread { th_Call : call; th_Prog : prog outcome; th_History : list fact }.
Record system := mkSystem { sy_World : world; sy_Threads : list thread; sy_Log : list fact }.

(** A request arrives, a thread asks its next question, or another part of the
    panel changes the tables sign-in only reads, as they are in [s]. *)
Inductive event := Start (c : call) | Step (t : nat) (i : input) | Elsewhere (s : LoginStore).

Definition elsewhere (s' s : LoginStore) : LoginStore :=
  s <| ls_Users := ls_Users s' |> <| ls_Customers := ls_Customers s' |> <| ls_Resellers := ls_Resellers s' |>
    <| ls_ResellerPlans := ls_ResellerPlans s' |> <| ls_Billing := ls_Billing s' |>
    <| ls_Subscriptions := ls_Subscriptions s' |> <| ls_Ops := ls_Ops s' |>.

Definition step_thread (i : input) (th : thread) (w : world) : thread * list fact * world :=
  match th_Prog th with
  | Done _ => (th, [], w)
  | Ask q k =>
    let '(r, w) := exec i q w in
    (mkThread (th_Call th) (k r) (th_History th ++ learned q r), learned q r, w)
  end.

Definition step (s : system) (e : event) : system :=
  match e with
  | Start c => mkSystem (sy_World s) (sy_Threads s ++ [mkThread c (start c) []]) (sy_Log s)
  | Elsewhere s' => mkSystem ((sy_World s) <| w_DB := elsewhere s' (w_DB (sy_World s)) |>) (sy_Threads s) (sy_Log s)
  | Step t i =>
    match sy_Threads s !! t with
    | None => s
    | Some th =>
      let '(th, fs, w) := step_thread i th (sy_World s) in
      mkSystem w (<[t := th]> (sy_Threads s)) (sy_Log s ++ fs)
    end
  end.

Definition run (events : list event) (s : system) : system := foldl step s events.
End System.

Arguments thread call outcome : clear implicits.
Arguments system call outcome : clear implicits.
