(* ===== verification/LoginHandlers.v ===== *)
(** * Sign-in: the handlers

    http/login_security.go, the logout and reauthentication handlers of
    http/server.go and http/server_admin.go, operator/security_recovery.go, and
    the login links of provisioningapi (sso.go, accounts.go). The page of a QR
    code is left to the class [QRCode]. Diagnostic log lines are left out; the
    line fail2ban reads is not. *)

From S2P Require Import Prelude Tx Programs Tables GoStr GoTime GoCrypto Password Auth Keyring Site OpsTypes LoginTypes Login.
From Stdlib Require Import Ascii.

(** ** Requests and responses *)

(** A request; a form that does not parse is absent. *)
Record Request := mkRequest {
  rq_Form : option (gmap string string);
  rq_Query : gmap string string;
  rq_Cookies : gmap string string;
  rq_Header : gmap string (list string);
  rq_RemoteAddr : string;
  rq_UserAgent : string;
}.

(** [r.Form.Get]: empty where there is none. *)
Definition form_get (r : Request) (key : string) : string := default "" (default ∅ (rq_Form r) !! key).
Definition query_get (r : Request) (key : string) : string := default "" (rq_Query r !! key).

Record Cookie := mkCookie { ck_Name : string; ck_Value : string; ck_MaxAge : Z; ck_Expires : option Z }.

Record TwoFactorView := mkTwoFactorView {
  tv_CSRFToken : string;
  tv_Enrolled : bool;
  tv_Pending : bool;
  tv_Secret : string;
  tv_OTPAuthURI : string;
  tv_QRDataURI : string;
  tv_RecoveryCodes : list string;
  tv_RecoveryUnused : Z;
  tv_RecentAuth : bool;
  tv_Error : string;
}.

Inductive body :=
| Plain (text : string)
| Redirected (target : string)
| Located (target : string)
| JSONError (text : string)
| JSONOk
| TOTPChallengePage (csrf message : string)
| TwoFactorPage (user : SessionUser) (view : TwoFactorView).

Record Response := mkResponse { re_Status : Z; re_Body : body; re_Cookies : list Cookie }.

Definition http_Error (text : string) (status : Z) : Response := mkResponse status (Plain text) [].
Definition redirect (cookies : list Cookie) (target : string) : Response := mkResponse 303 (Redirected target) cookies.
Definition page (b : body) : Response := mkResponse 200 b [].
Definition writeSPAError (status : Z) (text : string) : Response := mkResponse status (JSONError text) [].

(** The parts of [Server] the handlers use, and the base of login links: the
    public URL, where it is an https URL with a host and no user. *)
Record Server := mkServer {
  sv_SecurityDB : bool;
  sv_Keyring : option Keyring;
  sv_Workspace : bool;
  sv_ActorLabel : string;
  sv_PublicBase : option string;
}.

(** [qrcode.Encode], as the bytes of the picture. *)
Class QRCode := { qr_encode : string → result (list Z) }.

(** [base64.StdEncoding], with padding. *)
Definition base64_padded (bytes : list Z) : string :=
  base64_encode bytes +:+ (if length bytes mod 3 =? 1 then "==" else if length bytes mod 3 =? 2 then "=" else "")%nat.

(** ** Addresses and the log *)

(** [net.SplitHostPort]: its host. *)
Definition without (c : ascii) (s : string) : bool := negb (contains_byte (Ascii.eqb c) s).

Definition split_host (hostport : string) : option string :=
  let '(port', host', found) := cut_on ":" (string_rev hostport) in
  let host := string_rev host' in
  let port := string_rev port' in
  if negb found then None
  else if has_prefix hostport "[" then
    let '(inner, rest, closed) := cut_on "]" (string_drop 1 hostport) in
    if negb closed || negb (String.eqb rest (":" +:+ port)) then None
    else if without "[" inner && without "[" rest && without "]" rest then Some inner else None
  else if without ":" host && without "[" hostport && without "]" hostport then Some host else None.

Definition clientIP (r : Request) : string :=
  match split_host (rq_RemoteAddr r) with
  | Some host => host
  | None => trim_space (rq_RemoteAddr r)
  end.

(** The bytes of the first rune of a text: one where it is not valid UTF-8. *)
Definition is_cont : ascii → bool := in_range 128 191.

Definition rune_len (s : string) : nat :=
  match s with
  | String a (String b (String c (String d _))) =>
    if in_range 194 223 a && is_cont b then 2
    else if (in_range 224 224 a && in_range 160 191 b || in_range 225 236 a && is_cont b
             || in_range 237 237 a && in_range 128 159 b || in_range 238 239 a && is_cont b) && is_cont c then 3
    else if (in_range 240 240 a && in_range 144 191 b || in_range 241 243 a && is_cont b
             || in_range 244 244 a && in_range 128 143 b) && is_cont c && is_cont d then 4
    else 1
  | String a (String b (String c _)) =>
    if in_range 194 223 a && is_cont b then 2
    else if (in_range 224 224 a && in_range 160 191 b || in_range 225 236 a && is_cont b
             || in_range 237 237 a && in_range 128 159 b || in_range 238 239 a && is_cont b) && is_cont c then 3
    else 1
  | String a (String b _) => if in_range 194 223 a && is_cont b then 2 else 1
  | _ => 1
  end.

Definition log_safe (c : ascii) : bool :=
  is_lower c || is_upper c || is_digit c || existsb (Ascii.eqb c) ["@"; "."; "-"; "_"; "+"]%char.

(** The rest of a rune is skipped; the loop ends after [room] bytes are written. *)
Fixpoint sanitize_from (skip room : nat) (s : string) : string :=
  match s with
  | EmptyString => ""
  | String c rest =>
    match skip with
    | S skip => sanitize_from skip room rest
    | O =>
      match room with
      | O => ""
      | S room => String (if log_safe c then c else "?"%char) (sanitize_from (rune_len s - 1) room rest)
      end
    end
  end.

Definition sanitizeLogField (value : string) : string := sanitize_from 0 120 value.

Section Handlers.
Context `{GoUnicode, SHA256, HMAC_SHA1, Argon2, AESGCM, QRCode}.
Context (sv : Server).

Definition logAuthFailure (email ip : string) : prog unit :=
  ask (LogPrint ("nakpanel-auth: login failed for " +:+ quote (sanitizeLogField email) +:+ " from " +:+ ip)).

Definition loginChallengeCookieName : string := "nakpanel_challenge".
Definition SessionCookieName : string := "nakpanel_session".
Definition loginChallengeMaxAttempts : Z := 5.
Definition loginFailEmailLimit : Z := 10.
Definition loginFailIPLimit : Z := 20.
Definition totpIssuer : string := "nakpanel".

Definition clear_cookie (name : string) : Cookie := mkCookie name "" (-1) None.
Definition clearChallengeCookie : Cookie := clear_cookie loginChallengeCookieName.
Definition clearSessionCookie : Cookie := clear_cookie SessionCookieName.
Definition setChallengeCookie (token : string) : Cookie := mkCookie loginChallengeCookieName token 300 None.

(** The cookie of a name; an empty value counts where the code says so. *)
Definition cookie (r : Request) (name : string) : option string := rq_Cookies r !! name.

Definition csrfToken (r : Request) : string :=
  match cookie r SessionCookieName with
  | None => ""
  | Some v => if String.eqb v "" then "" else hex_encode (sum256 ("nakpanel-csrf-v1:" +:+ v))
  end.

Definition challengeCSRFToken (value : string) : string := hex_encode (sum256 ("nakpanel-csrf-2fa-v1:" +:+ value)).

(** ** The throttle, audit and settings *)

Definition recordLoginAttempt (email ip stage : string) (succeeded : bool) : prog unit :=
  if negb (sv_SecurityDB sv) then Done ()
  else
    do! r := db (InsertAttempt email ip stage succeeded) in
    match r with
    | Err _ => Done ()
    | Ok _ => do! _ := db PruneAttempts in Done ()
    end.

Definition loginThrottled (email ip : string) : prog bool :=
  if negb (sv_SecurityDB sv) then Done false
  else
    do! r := db (CountFailures email ip) in
    match r with
    | Err _ => Done false
    | Ok (emailFails, ipFails) => Done ((loginFailEmailLimit <=? emailFails) || (loginFailIPLimit <=? ipFails))
    end.

Definition auditAuth (action : string) (userID : Z) (email : string) (metadata : gmap string meta) : prog unit :=
  if negb (sv_SecurityDB sv) then Done ()
  else
    let metadata := if 0 <? userID then <["user_id" := Int userID]> metadata else metadata in
    let label := trim_space email in
    let label := if String.eqb label "" then "unknown" else label in
    do! _ := db (InsertAudit (mkAuditEvent label 0 action "auth" 0 metadata)) in Done ().

Definition securitySettings : prog bool :=
  if negb (sv_SecurityDB sv) then Done false
  else do! r := db SelectSettings in Done (match r with Ok b => b | Err _ => false end).

(** ** The second factor's rows *)

Record userTOTPRecord := mkUserTOTPRecord { ut_Envelope : Envelope; ut_Confirmed : bool; ut_LastUsedStep : Z }.

Definition totpAAD (userID : Z) : list Z := string_bytes ("user-totp:" +:+ itoa userID).

Definition totp_record (row : TOTPRow) : userTOTPRecord :=
  mkUserTOTPRecord (tt_Envelope row) (bool_decide (is_Some (tt_ConfirmedAt row))) (tt_LastUsedStep row).

Definition getUserTOTP (userID : Z) : prog (result (option userTOTPRecord)) :=
  if negb (sv_SecurityDB sv) then Done (Err (errors_New "TOTP storage is unavailable"))
  else
    do! r := db (SelectTOTP userID) in
    Done (match r with
          | Ok row => Ok (Some (totp_record row))
          | Err e => if errors_Is e "sql.ErrNoRows" then Ok None else Err e
          end).

Definition openTOTPSecret (record : userTOTPRecord) (userID : Z) : result (list Z) :=
  match sv_Keyring sv with
  | None => Err (errors_New "the secret keyring is not configured")
  | Some k => Open (Some k) (ut_Envelope record) (totpAAD userID)
  end.

Definition upsertProvisionalTOTP (userID : Z) (secret : list Z) : prog (result unit) :=
  match sv_Keyring sv, sv_SecurityDB sv with
  | Some k, true =>
    do! dataKey := ask (RandRead 32) in
    do! wrapNonce := ask (RandRead 12) in
    do! valueNonce := ask (RandRead 12) in
    match Seal (Some k) secret (totpAAD userID) dataKey wrapNonce valueNonce with
    | Err e => Done (Err e)
    | Ok envelope => db (UpsertTOTP userID envelope)
    end
  | _, _ => Done (Err (errors_New "two-factor authentication requires the secret keyring"))
  end.

Definition confirmTOTP (userID acceptedStep : Z) : prog (result unit) := db (ConfirmTOTP userID acceptedStep).

Definition advanceTOTPStep (userID acceptedStep : Z) : prog (result bool) :=
  do! r := db (AdvanceTOTP userID acceptedStep) in
  Done (match r with Ok affected => Ok (affected =? 1) | Err e => Err e end).

Definition deleteTOTP (userID : Z) : prog (result unit) :=
  do! r := db (DeleteTOTP userID) in
  match r with
  | Err e => Done (Err e)
  | Ok _ => db (DeleteCodes userID)
  end.

(** [auth.GenerateRecoveryCodes]. *)
Fixpoint generate_codes (count : nat) : prog (result (list string)) :=
  match count with
  | O => Done (Ok [])
  | S count =>
    do! raw := ask (RandRead (recoveryCodeHalf * 2)) in
    match raw with
    | Err e => Done (Err e)
    | Ok raw =>
      do! codes := generate_codes count in
      Done (match codes with Ok codes => Ok (recovery_code raw :: codes) | Err e => Err e end)
    end
  end.

(** The hashes of the codes, in their order. *)
Fixpoint hash_codes (codes : list string) : prog (result (list string)) :=
  match codes with
  | [] => Done (Ok [])
  | code :: codes =>
    do! salt := ask (RandRead (Z.to_nat (pp_SaltLength DefaultPasswordParams))) in
    match (let* salt := result_wrap "read password salt: " salt in HashPassword (NormalizeRecoveryCode code) DefaultPasswordParams salt) with
    | Err e => Done (Err e)
    | Ok hash =>
      do! hashes := hash_codes codes in
      Done (match hashes with Ok hashes => Ok (hash :: hashes) | Err e => Err e end)
    end
  end.

(** Fresh codes, their hashes, and the transaction that stores them. *)
Definition fresh_codes (store : list string → statement unit) : prog (result (list string)) :=
  do! codes := generate_codes (Z.to_nat RecoveryCodeCount) in
  match codes with
  | Err e => Done (Err e)
  | Ok codes =>
    do! hashes := hash_codes codes in
    match hashes with
    | Err e => Done (Err e)
    | Ok hashes =>
      do! r := db (store hashes) in
      Done (match r with Ok _ => Ok codes | Err e => Err e end)
    end
  end.

Definition replaceRecoveryCodes (userID : Z) : prog (result (list string)) := fresh_codes (ReplaceCodes userID).

(** The loop over the unused codes; [n] is how many there are. *)
Fixpoint consume_from (normalized : string) (n : Z) (candidates : list RecoveryRow) : prog (result (Z * bool)) :=
  match candidates with
  | [] => Done (Ok (n, false))
  | c :: rest =>
    match VerifyPassword normalized (rv_CodeHash c) with
    | Ok true =>
      do! r := db (UseCode (rv_ID c)) in
      match r with
      | Err e => Done (Err e)
      | Ok affected => if affected =? 1 then Done (Ok (n - 1, true)) else consume_from normalized n rest
      end
    | _ => consume_from normalized n rest
    end
  end.

Definition consumeRecoveryCode (userID : Z) (code : string) : prog (result (Z * bool)) :=
  let normalized := NormalizeRecoveryCode code in
  if String.eqb normalized "" then Done (Ok (0, false))
  else
    do! rows := db (SelectCodes userID) in
    match rows with
    | Err e => Done (Err e)
    | Ok candidates => consume_from normalized (Z.of_nat (length candidates)) candidates
    end.

Definition countRecoveryCodes (userID : Z) : prog Z :=
  if negb (sv_SecurityDB sv) then Done 0
  else do! n := db (CountCodes userID) in Done (match n with Ok n => n | Err _ => 0 end).

(** ** Challenges *)

Definition createLoginChallenge (userID : Z) (ip agent : string) : prog (result string) :=
  do! raw := ask (RandRead 32) in
  match raw with
  | Err e => Done (Err e)
  | Ok raw =>
    let token := base64url_encode raw in
    do! r := db (InsertChallenge (TokenHash token) userID ip (user_agent agent)) in
    match r with
    | Err e => Done (Err e)
    | Ok _ => do! _ := db PruneChallenges in Done (Ok token)
    end
  end.

Definition loadLoginChallenge (token : string) : prog (option ChallengeRow) :=
  if negb (sv_SecurityDB sv) || String.eqb token "" then Done None
  else do! r := db (SelectChallenge (TokenHash token)) in Done (match r with Ok row => Some row | Err _ => None end).

Definition bumpChallengeAttempts (tokenHash : string) : prog Z :=
  do! r := db (BumpChallenge tokenHash) in Done (match r with Ok n => n | Err _ => loginChallengeMaxAttempts + 1 end).

Definition deleteLoginChallenge (tokenHash : string) : prog unit := do! _ := db (DeleteChallenge tokenHash) in Done ().

(** ** Alerts *)

Definition insertLoginNotification (kind severity title text dedupe : string) (recipient : Z) : prog unit :=
  do! _ := db (InsertNotification kind severity title text dedupe recipient) in Done ().

Definition alertNewDevice (userID : Z) (email ip tokenHash : string) : prog unit :=
  if negb (sv_SecurityDB sv) || String.eqb ip "" then Done ()
  else
    do! known := db (KnownAddress userID ip tokenHash) in
    match known with
    | Ok false =>
      insertLoginNotification "login_new_device" "info" "New sign-in address"
        ("Account " +:+ email +:+ " signed in from " +:+ ip +:+ ", an address it has not used in the last 90 days.")
        ("login_new_device:" +:+ itoa userID +:+ ":" +:+ ip) userID
    | _ => Done ()
    end.

(** [now.UTC().Format("2006-01-02-15")]. *)
Definition format_hour (t : Z) : string := format_date t +:+ "-" +:+ padded 2 (t `mod` day / (60 * minute)).

Definition alertFailedBurst (email ip : string) : prog unit :=
  if negb (sv_SecurityDB sv) then Done ()
  else
    do! now := ask Now in
    insertLoginNotification "login_failed_burst" "warning" "Login failure burst"
      ("Repeated failed logins for " +:+ email +:+ " (latest from " +:+ ip +:+ "); further attempts are being throttled.")
      ("login_failed_burst:" +:+ email +:+ ":" +:+ format_hour now) 0.

(** ** Sessions *)

(** [SessionManager.Create]: the token and when it expires. *)
Definition sessions_Create (userID : Z) (ip agent : string) : prog (result (string * Z)) :=
  do! raw := ask (RandRead (Z.to_nat session_token_bytes)) in
  match raw with
  | Err e => Done (Err e)
  | Ok raw =>
    let token := base64url_encode raw in
    do! now := ask Now in
    do! r := db (InsertSession (TokenHash token) userID (now + session_ttl) ip (user_agent agent)) in
    Done (match r with Ok _ => Ok (token, now + session_ttl) | Err e => Err e end)
  end.

Definition sessions_Authenticate (token : string) : prog (result SessionUser) :=
  if String.eqb token "" then Done (Err ErrSessionNotFound)
  else
    do! now := ask Now in
    db (SelectSession (TokenHash token) now).

Definition sessions_Delete (token : string) : prog (result unit) :=
  if String.eqb token "" then Done (Ok ()) else db (RemoveSession (TokenHash token)).

Definition sessions_MarkReauthenticated (token : string) : prog (result unit) :=
  if String.eqb token "" then Done (Err ErrSessionNotFound)
  else
    do! r := db (MarkReauthenticated (TokenHash token)) in
    Done (match r with
          | Err e => Err e
          | Ok updated => if updated =? 1 then Ok () else Err ErrSessionNotFound
          end).

(** [strings.FieldsFunc] at commas, semicolons and spaces. *)
Fixpoint purposes_from (word : string) (s : string) : list string :=
  match s with
  | EmptyString => [string_rev word]
  | String c s =>
    if existsb (Ascii.eqb c) [","; ";"; " "]%char then string_rev word :: purposes_from "" s
    else purposes_from (String c word) s
  end.

Definition isPrefetchRequest (r : Request) : bool :=
  existsb (λ header, existsb (λ value, existsb (String.eqb "prefetch") (purposes_from "" (to_lower value)))
                       (default [] (rq_Header r !! header))) ["Sec-Purpose"; "Purpose"].

Definition header_get (r : Request) (name : string) : string := default "" (default [] (rq_Header r !! name) !! 0%nat).

(** The user of the session, or the response that was written. *)
Definition currentUser (r : Request) (missingSession : option Response) : prog (SessionUser + Response) :=
  let failure cookies :=
    let response :=
      if String.eqb (header_get r "X-Nakpanel-Fragment") "main" || isPrefetchRequest r then mkResponse 401 (Located "/login") []
      else default (redirect [] "/login") missingSession in
    inr (mkResponse (re_Status response) (re_Body response) (cookies ++ re_Cookies response)) in
  match cookie r SessionCookieName with
  | None => Done (failure [])
  | Some token =>
    do! user := sessions_Authenticate token in
    match user with
    | Ok user => Done (inl user)
    | Err e =>
      if negb (errors_Is e "auth.ErrSessionNotFound") && negb (isPrefetchRequest r)
      then Done (inr (http_Error "Session authentication is unavailable" 503))
      else Done (failure (if errors_Is e "auth.ErrSessionNotFound" && negb (isPrefetchRequest r) then [clearSessionCookie] else []))
    end
  end.
End Handlers.
