(* ===== verification/LoginFlow.v ===== *)
(** * Sign-in: the flows

    The handlers built from [LoginHandlers]: the login form and its second step,
    enrolment and removal of a second factor, repeated passwords and logout, the
    operator's recovery commands, and the billing panel's login links. *)

From S2P Require Import Prelude Tx Programs Tables GoStr GoTime GoCrypto Password Auth Keyring Site OpsTypes OpsScope LoginTypes Login LoginHandlers.
From Stdlib Require Import Ascii.

Section Flows.
Context `{GoUnicode, SHA256, HMAC_SHA1, Argon2, AESGCM, QRCode}.
Context (sv : Server).

(** ** The login form *)

Definition loginFailure (email ip stage : string) : prog Response :=
  do! _ := recordLoginAttempt sv email ip stage false in
  do! _ := logAuthFailure email ip in
  do! _ := auditAuth sv "auth.login_failed" 0 email {["ip" := Text ip; "stage" := Text stage]} in
  Done (http_Error "Invalid email or password" 401).

(** The session of a user who has proved who they are. *)
Definition finishLogin (r : Request) (cookies : list Cookie) (userID : Z) (email role ip agent : string) (usedTOTP : bool) : prog Response :=
  do! session := sessions_Create userID ip agent in
  match session with
  | Err _ => Done (mkResponse 500 (Plain "Could not create session") cookies)
  | Ok (token, expiresAt) =>
    let cookies := cookies ++ [mkCookie SessionCookieName token 0 (Some expiresAt)] in
    do! _ := auditAuth sv "auth.login_succeeded" userID email {["ip" := Text ip; "totp" := Bool usedTOTP]} in
    do! _ := alertNewDevice sv userID email ip (TokenHash token) in
    let legacy := String.eqb (form_get r "legacy") "1" || String.eqb (query_get r "legacy") "1" in
    let target := if legacy then "/?legacy=1" else "/dashboard" in
    if String.eqb role "admin" && negb usedTOTP then
      do! requireTOTP := securitySettings sv in
      if requireTOTP then
        do! record := getUserTOTP sv userID in
        Done (redirect cookies (match record with Ok (Some _) => target | _ => "/account/2fa" end))
      else Done (redirect cookies target)
    else Done (redirect cookies target)
  end.

(** The password is verified against the stored hash, or, to the same cost,
    against a dummy, whose verification has no effect. *)
Definition handleLogin (r : Request) : prog Response :=
  match rq_Form r with
  | None => Done (http_Error "Invalid login form" 400)
  | Some _ =>
    let email := to_lower (trim_space (form_get r "email")) in
    let password := form_get r "password" in
    let ip := clientIP r in
    let agent := rq_UserAgent r in
    do! throttled := loginThrottled sv email ip in
    if throttled : bool then
      do! _ := logAuthFailure email ip in
      do! _ := auditAuth sv "auth.login_locked" 0 email {["ip" := Text ip]} in
      do! _ := alertFailedBurst sv email ip in
      Done (http_Error "Too many login attempts; try again later" 429)
    else
      do! user := db (FindUser email) in
      match user with
      | Err _ => loginFailure email ip "password"
      | Ok user =>
        if negb (Role_Valid (ur_Role user)) then Done (http_Error "Invalid account role" 500)
        else
          match VerifyPassword password (ur_PasswordHash user) with
          | Ok true =>
            do! _ := recordLoginAttempt sv email ip "password" true in
            do! record := getUserTOTP sv (ur_ID user) in
            match record with
            | Err _ => Done (http_Error "Verification is unavailable" 503)
            | Ok record =>
              if match record with Some record => ut_Confirmed record | None => false end then
                do! token := createLoginChallenge (ur_ID user) ip agent in
                match token with
                | Err _ => Done (http_Error "Could not start the verification step" 500)
                | Ok token =>
                  Done (redirect [setChallengeCookie token]
                    ("/login/2fa" +:+ if String.eqb (form_get r "legacy") "1" then "?legacy=1" else ""))
                end
              else finishLogin r [] (ur_ID user) email (ur_Role user) ip agent false
            end
          | _ => loginFailure email ip "password"
          end
      end
  end.

(** ** The second step *)

Definition to_login : Response := redirect [] "/login".
Definition abandon : Response := redirect [clearChallengeCookie] "/login".

Definition handleTOTPChallengeForm (r : Request) : prog Response :=
  match cookie r loginChallengeCookieName with
  | None => Done to_login
  | Some value =>
    if String.eqb value "" then Done to_login
    else
      do! challenge := loadLoginChallenge sv value in
      match challenge with
      | None => Done abandon
      | Some _ => Done (page (TOTPChallengePage (challengeCSRFToken value) ""))
      end
  end.

(** A failed challenge: recorded, logged and audited. *)
Definition challengeFailure (userID : Z) (email ip stage reason : string) : prog unit :=
  do! _ := recordLoginAttempt sv email ip stage false in
  do! _ := logAuthFailure email ip in
  auditAuth sv "auth.totp_challenge_failed" userID email {["ip" := Text ip; "reason" := Text reason]}.

(** The challenge with a recovery code. *)
Definition challengeRecovery (r : Request) (value : string) (challenge : ChallengeRow) (email role ip recoveryCode : string) : prog Response :=
  do! consumed := consumeRecoveryCode (lc_UserID challenge) recoveryCode in
  match consumed with
  | Err _ => Done (http_Error "Verification is unavailable" 500)
  | Ok (_, false) =>
    do! _ := challengeFailure (lc_UserID challenge) email ip "recovery" "recovery_code" in
    Done (page (TOTPChallengePage (challengeCSRFToken value) "That recovery code is not valid."))
  | Ok (remaining, true) =>
    do! _ := recordLoginAttempt sv email ip "recovery" true in
    do! _ := auditAuth sv "auth.recovery_code_used" (lc_UserID challenge) email {["ip" := Text ip; "remaining" := Int remaining]} in
    do! _ := (if remaining <=? 2 then
                insertLoginNotification "login_new_device" "warning" "Recovery codes running low"
                  ("Account " +:+ email +:+ " has " +:+ itoa remaining +:+
                   " unused two-factor recovery codes left. Generate a fresh set from Account Security.")
                  ("login_new_device:recovery-low:" +:+ itoa (lc_UserID challenge)) (lc_UserID challenge)
              else Done ()) in
    do! _ := deleteLoginChallenge (lc_TokenHash challenge) in
    finishLogin r [clearChallengeCookie] (lc_UserID challenge) email role ip (lc_UserAgent challenge) true
  end.

(** A code of the authenticator, used up by the step it is accepted at. *)
Definition checkTOTP (userID : Z) (code : string) (record : userTOTPRecord) (secret : list Z) : prog bool :=
  do! now := ask Now in
  let '(acceptedStep, valid) := VerifyTOTP secret code now (ut_LastUsedStep record) in
  if valid then
    do! advanced := advanceTOTPStep userID acceptedStep in
    Done (match advanced with Ok advanced => advanced | Err _ => false end)
  else Done false.

Definition challengeCode (r : Request) (value : string) (challenge : ChallengeRow) (email role ip code : string) : prog Response :=
  do! record := getUserTOTP sv (lc_UserID challenge) in
  match record with
  | Ok (Some record) =>
    if negb (ut_Confirmed record) then Done abandon
    else
      match openTOTPSecret sv record (lc_UserID challenge) with
      | Err _ => Done (http_Error "Verification is unavailable" 500)
      | Ok secret =>
        do! valid := checkTOTP (lc_UserID challenge) code record secret in
        if valid : bool then
          do! _ := recordLoginAttempt sv email ip "totp" true in
          do! _ := deleteLoginChallenge (lc_TokenHash challenge) in
          finishLogin r [clearChallengeCookie] (lc_UserID challenge) email role ip (lc_UserAgent challenge) true
        else
          do! _ := challengeFailure (lc_UserID challenge) email ip "totp" "code" in
          Done (page (TOTPChallengePage (challengeCSRFToken value) "That code is not valid. Codes are single-use and expire quickly."))
      end
  | _ => Done abandon
  end.

Definition handleTOTPChallenge (r : Request) : prog Response :=
  match rq_Form r, cookie r loginChallengeCookieName with
  | None, _ => Done (http_Error "Invalid form" 400)
  | Some _, None => Done to_login
  | Some _, Some value =>
    if String.eqb value "" then Done to_login
    else
      do! challenge := loadLoginChallenge sv value in
      match challenge with
      | None => Done abandon
      | Some challenge =>
        let challenge := challenge <| lc_TokenHash := TokenHash value |> in
        let ip := clientIP r in
        do! account := db (SelectUser (lc_UserID challenge)) in
        match account with
        | Err _ => Done abandon
        | Ok account =>
          do! attempts := bumpChallengeAttempts (lc_TokenHash challenge) in
          if loginChallengeMaxAttempts <? attempts then
            do! _ := deleteLoginChallenge (lc_TokenHash challenge) in
            do! _ := challengeFailure (lc_UserID challenge) (au_Email account) ip "totp" "attempts" in
            Done abandon
          else
            let recoveryCode := trim_space (form_get r "recovery_code") in
            if negb (String.eqb recoveryCode "")
            then challengeRecovery r value challenge (au_Email account) (au_Role account) ip recoveryCode
            else challengeCode r value challenge (au_Email account) (au_Role account) ip (trim_space (form_get r "code"))
        end
      end
  end.

(** ** Enrolment *)

(** The handlers behind a fresh password: [k] is the rest, for the session's user. *)
Definition requireRecentAuth (r : Request) (k : SessionUser → prog Response) : prog Response :=
  do! user := currentUser r None in
  match user with
  | inr response => Done response
  | inl user =>
    do! now := ask Now in
    if RecentlyAuthenticated now (su_AuthenticatedAt user) (10 * minute) then k user
    else Done (http_Error "Recent authentication is required; confirm your password under Tools & Settings first." 428)
  end.

Definition is_confirmed (record : option userTOTPRecord) : bool :=
  match record with Some record => ut_Confirmed record | None => false end.

Definition handleTwoFactorPage (r : Request) : prog Response :=
  do! user := currentUser r None in
  match user with
  | inr response => Done response
  | inl user =>
    do! record := getUserTOTP sv (su_ID user) in
    match record with
    | Err _ => Done (http_Error "Two-factor state is unavailable" 500)
    | Ok record =>
      do! unused := countRecoveryCodes sv (su_ID user) in
      do! now := ask Now in
      Done (page (TwoFactorPage user
        (mkTwoFactorView (csrfToken r) (is_confirmed record) (bool_decide (is_Some record) && negb (is_confirmed record)) "" "" "" []
           unused (RecentlyAuthenticated now (su_AuthenticatedAt user) (10 * minute)) "")))
    end
  end.

Definition handleTwoFactorSetup (r : Request) : prog Response :=
  requireRecentAuth r (λ user,
    do! record := getUserTOTP sv (su_ID user) in
    if match record with Ok record => is_confirmed record | Err _ => false end
    then Done (http_Error "Two-factor authentication is already enabled; disable it first (which requires a current code or a recovery code) before enrolling a new authenticator." 409)
    else
      do! secret := ask (RandRead (Z.to_nat TOTPSecretSize)) in
      match secret with
      | Err _ => Done (http_Error "Could not generate a secret" 500)
      | Ok secret =>
        do! stored := upsertProvisionalTOTP sv (su_ID user) secret in
        match stored with
        | Err e => Done (http_Error (error_text e) 500)
        | Ok _ =>
          let uri := OTPAuthURI totpIssuer (su_Email user) secret in
          let picture := match qr_encode uri with Ok png => "data:image/png;base64," +:+ base64_padded png | Err _ => "" end in
          Done (page (TwoFactorPage user
            (mkTwoFactorView (csrfToken r) false true (FormatTOTPSecret secret) uri picture [] 0 true "")))
        end
      end).

(** Any other session of the user predates the change. *)
Definition drop_other_sessions (r : Request) (userID : Z) : prog unit :=
  match cookie r SessionCookieName with
  | None => Done ()
  | Some value => do! _ := db (RemoveOtherSessions userID (TokenHash value)) in Done ()
  end.

Definition enrolled_view (r : Request) (codes : list string) : TwoFactorView :=
  mkTwoFactorView (csrfToken r) true false "" "" "" codes (Z.of_nat (length codes)) true "".

Definition handleTwoFactorActivate (r : Request) : prog Response :=
  requireRecentAuth r (λ user,
    match rq_Form r with
    | None => Done (http_Error "Invalid form" 400)
    | Some _ =>
      do! record := getUserTOTP sv (su_ID user) in
      match record with
      | Ok (Some record) =>
        match openTOTPSecret sv record (su_ID user) with
        | Err _ => Done (http_Error "Two-factor state is unavailable" 500)
        | Ok secret =>
          do! now := ask Now in
          let '(acceptedStep, valid) := VerifyTOTP secret (form_get r "code") now (ut_LastUsedStep record) in
          if negb valid then
            Done (page (TwoFactorPage user
              (mkTwoFactorView (csrfToken r) false true (FormatTOTPSecret secret) (OTPAuthURI totpIssuer (su_Email user) secret) "" [] 0 true
                 "That code did not match. Scan the QR code again and enter the current code.")))
          else
            do! confirmed := confirmTOTP (su_ID user) acceptedStep in
            match confirmed with
            | Err _ => Done (http_Error "Could not activate two-factor authentication" 500)
            | Ok _ =>
              do! codes := replaceRecoveryCodes (su_ID user) in
              match codes with
              | Err _ => Done (http_Error "Could not generate recovery codes" 500)
              | Ok codes =>
                do! _ := drop_other_sessions r (su_ID user) in
                do! _ := auditAuth sv "auth.totp_enrolled" (su_ID user) (su_Email user) ∅ in
                Done (page (TwoFactorPage user (enrolled_view r codes)))
              end
            end
        end
      | _ => Done (http_Error "Start enrollment first" 400)
      end
    end).

(** The proof that removes a second factor: a current code, or else a recovery code. *)
Definition prove_factor (r : Request) (userID : Z) (record : userTOTPRecord) : prog bool :=
  let code := trim_space (form_get r "code") in
  do! verified :=
    (if String.eqb code "" then Done false
     else match openTOTPSecret sv record userID with
          | Err _ => Done false
          | Ok secret => checkTOTP userID code record secret
          end) in
  if verified : bool then Done true
  else
    do! consumed := consumeRecoveryCode userID (form_get r "recovery_code") in
    Done (match consumed with Ok (_, consumed) => consumed | Err _ => false end).

Definition handleTwoFactorDisable (r : Request) : prog Response :=
  requireRecentAuth r (λ user,
    match rq_Form r with
    | None => Done (http_Error "Invalid form" 400)
    | Some _ =>
      do! record := getUserTOTP sv (su_ID user) in
      match record with
      | Ok (Some record) =>
        if negb (ut_Confirmed record) then Done (http_Error "Two-factor authentication is not enabled" 400)
        else
          do! verified := prove_factor r (su_ID user) record in
          if negb verified
          then Done (http_Error "A current authenticator code or recovery code is required to disable two-factor authentication" 403)
          else
            do! deleted := deleteTOTP (su_ID user) in
            match deleted with
            | Err _ => Done (http_Error "Could not disable two-factor authentication" 500)
            | Ok _ =>
              do! _ := drop_other_sessions r (su_ID user) in
              do! _ := auditAuth sv "auth.totp_disabled" (su_ID user) (su_Email user) ∅ in
              Done (redirect [] "/account/2fa")
            end
      | _ => Done (http_Error "Two-factor authentication is not enabled" 400)
      end
    end).

Definition handleTwoFactorRecoveryCodes (r : Request) : prog Response :=
  requireRecentAuth r (λ user,
    match rq_Form r with
    | None => Done (http_Error "Invalid form" 400)
    | Some _ =>
      do! record := getUserTOTP sv (su_ID user) in
      match record with
      | Ok (Some record) =>
        if negb (ut_Confirmed record) then Done (http_Error "Two-factor authentication is not enabled" 400)
        else
          match openTOTPSecret sv record (su_ID user) with
          | Err _ => Done (http_Error "Two-factor state is unavailable" 500)
          | Ok secret =>
            do! now := ask Now in
            let '(acceptedStep, valid) := VerifyTOTP secret (form_get r "code") now (ut_LastUsedStep record) in
            if negb valid then Done (http_Error "A current authenticator code is required to regenerate recovery codes" 403)
            else
              do! advanced := advanceTOTPStep (su_ID user) acceptedStep in
              match advanced with
              | Err _ => Done (http_Error "Could not regenerate recovery codes" 500)
              | Ok false => Done (http_Error "That authenticator code was already used; wait for the next one" 403)
              | Ok true =>
                do! codes := replaceRecoveryCodes (su_ID user) in
                match codes with
                | Err _ => Done (http_Error "Could not regenerate recovery codes" 500)
                | Ok codes =>
                  do! _ := auditAuth sv "auth.recovery_codes_regenerated" (su_ID user) (su_Email user) ∅ in
                  Done (page (TwoFactorPage user (enrolled_view r codes)))
                end
              end
          end
      | _ => Done (http_Error "Two-factor authentication is not enabled" 400)
      end
    end).

(** ** Logout and repeated passwords *)

Definition handleLogout (r : Request) : prog Response :=
  do! _ := match cookie r SessionCookieName with
           | None => Done ()
           | Some value => do! _ := sessions_Delete value in Done ()
           end in
  Done (redirect [clearSessionCookie] "/login").

(** [s.recordAudit], for an event about no customer and no subscription. *)
Definition recordAudit (actor : SessionUser) (action target : string) (targetID : Z) (metadata : gmap string meta) : prog unit :=
  if negb (sv_Workspace sv) then Done ()
  else do! _ := db (InsertAudit (mkAuditEvent "" (su_ID actor) action target targetID metadata)) in Done ().

Definition reauth_form_ok (r : Request) : bool :=
  bool_decide (map_Forall (λ key _, one_of key ["password"; "csrf_token"] = true) (default ∅ (rq_Form r))).

Definition handleServerReauthenticate (r : Request) : prog Response :=
  let missing := writeSPAError 401 "Session could not be reauthenticated" in
  do! user := currentUser r (Some missing) in
  match user, cookie r SessionCookieName with
  | inr response, _ => Done response
  | inl _, None => Done missing
  | inl user, Some token =>
    if String.eqb (trim_space token) "" then Done missing
    else
      let sessionKey := TokenHash token in
      do! now := ask Now in
      do! retryAfter := ask (ReauthAllowed sessionKey now) in
      if 0 <? retryAfter then Done (writeSPAError 429 "Too many failed attempts; try again later")
      else if bool_decide (rq_Form r = None) || negb (reauth_form_ok r) then Done (writeSPAError 400 "Invalid reauthentication request")
      else
        do! account := db (FindUser (su_Email user)) in
        match account with
        | Err _ => Done (writeSPAError 401 "Password verification failed")
        | Ok account =>
          match VerifyPassword (form_get r "password") (ur_PasswordHash account) with
          | Ok true =>
            do! marked := sessions_MarkReauthenticated token in
            match marked with
            | Err _ => Done missing
            | Ok _ =>
              do! _ := ask (ReauthReset sessionKey) in
              do! _ := recordAudit user "server.reauthenticated" "session" 0 ∅ in
              Done (mkResponse 200 JSONOk [])
            end
          | _ =>
            do! now := ask Now in
            do! (attempt, locked) := ask (ReauthFailed sessionKey now) in
            do! _ := recordAudit user "server.reauthentication_failed" "session" 0 {["attempt" := Int attempt; "locked" := Bool locked]} in
            Done (if locked : bool then writeSPAError 429 "Too many failed attempts; try again later"
                  else writeSPAError 401 "Password verification failed")
          end
        end
  end.

(** ** Login links *)

Definition http_NotFound : Response := http_Error "404 page not found" 404.

Definition handleSSOExchange (method path : string) (r : Request) : prog Response :=
  let raw := trim_prefix path "/sso/customer/" in
  if negb (String.eqb method "GET") || negb (sv_SecurityDB sv) then Done http_NotFound
  else if negb (has_prefix raw "sso_") || (str_len raw <? 40) then Done http_NotFound
  else
    do! exchanged := db (ExchangeToken (sum256 raw)) in
    match exchanged with
    | Err _ => Done (http_Error "Could not create session" 500)
    | Ok NotFound => Done http_NotFound
    | Ok Forbidden => Done (http_Error "Forbidden" 403)
    | Ok (Exchanged userID) =>
      do! session := sessions_Create userID (clientIP r) (rq_UserAgent r) in
      Done (match session with
            | Err _ => http_Error "Could not create session" 500
            | Ok (token, expiresAt) => redirect [mkCookie SessionCookieName token 0 (Some expiresAt)] "/dashboard"
            end)
    end.

Definition accountError (text : string) : error := sentinel "accountError" text.

Definition LoginLink (ref : string) : prog (result string) :=
  match sv_PublicBase sv with
  | None => Done (Err (accountError "NAKPANEL_PUBLIC_URL is not safely configured"))
  | Some base =>
    do! row := db (SelectBilling ref) in
    match row with
    | Err _ => Done (Err (accountError "account was not found"))
    | Ok (accountID, userID, lifecycle, state) =>
      if (userID =? 0) || String.eqb lifecycle "cancelled" || one_of state ["terminating"; "terminated"]
      then Done (Err (accountError "account cannot create a login link"))
      else
        do! random := ask (RandRead 32) in
        match random with
        | Err e => Done (Err e)
        | Ok random =>
          let raw := "sso_" +:+ base64url_encode random in
          do! issued := db (IssueToken accountID userID (sum256 raw)) in
          Done (match issued with Ok _ => Ok (base +:+ "/sso/customer/" +:+ raw) | Err e => Err e end)
        end
    end
  end.

(** ** The operator's commands *)

(** [lookupUserID]: of the address in lower case, without spaces around it. *)
Definition lookupUserID (email : string) : prog (result Z) :=
  let email := to_lower (trim_space email) in
  do! account := db (LookupUser email) in
  Done (match account with
        | Ok account => Ok (au_ID account)
        | Err e => if errors_Is e "sql.ErrNoRows" then Err (errors_New ("user " +:+ email +:+ " does not exist")) else Err e
        end).

Definition SetUserPassword (email password : string) : prog (result unit) :=
  if str_len password <? 12 then Done (Err (errors_New "password must contain at least 12 characters"))
  else
    do! userID := lookupUserID email in
    match userID with
    | Err e => Done (Err e)
    | Ok userID =>
      do! salt := ask (RandRead (Z.to_nat (pp_SaltLength DefaultPasswordParams))) in
      match (let* salt := result_wrap "read password salt: " salt in HashPassword password DefaultPasswordParams salt) with
      | Err e => Done (Err e)
      | Ok hash => db (ResetPassword (sv_ActorLabel sv) email userID hash)
      end
    end.

Definition DisableUserTOTP (email : string) : prog (result unit) :=
  do! userID := lookupUserID email in
  match userID with
  | Err e => Done (Err e)
  | Ok userID => db (RemoveTOTP (sv_ActorLabel sv) email userID)
  end.

Definition RegenerateRecoveryCodes (email : string) : prog (result (list string)) :=
  do! userID := lookupUserID email in
  match userID with
  | Err e => Done (Err e)
  | Ok userID =>
    do! enrolled := db (Enrolled userID) in
    match enrolled with
    | Err e => Done (Err e)
    | Ok false => Done (Err (errors_New ("user " +:+ email +:+ " does not have two-factor authentication enabled")))
    | Ok true => fresh_codes (RegenerateCodes (sv_ActorLabel sv) email userID)
    end
  end.

Definition UnlockUserLogin (email : string) : prog (result unit) :=
  db (RemoveLockout (sv_ActorLabel sv) (to_lower (trim_space email))).

Definition RevokeUserSessions (email : string) : prog (result Z) := db (RevokeSessions (sv_ActorLabel sv) email).

Definition GetSecuritySettings : prog (result bool) :=
  do! settings := db SelectSettings in
  match settings with
  | Ok requireTOTPAdmin => Done (Ok requireTOTPAdmin)
  | Err e =>
    if errors_Is e "sql.ErrNoRows" then
      do! seeded := db SeedSettings in
      Done (match seeded with Ok _ => Ok false | Err e => Err e end)
    else Done (Err e)
  end.

Definition SetSecuritySettings (requireTOTPAdmin : option bool) : prog (result bool) :=
  do! current := GetSecuritySettings in
  match current with
  | Err e => Done (Err e)
  | Ok current =>
    let current := default current requireTOTPAdmin in
    do! updated := db (UpdateSettings (sv_ActorLabel sv) current) in
    Done (match updated with Ok _ => Ok current | Err e => Err e end)
  end.

(** ** Everything that is called *)

Inductive call :=
| Login (r : Request)
| ChallengeForm (r : Request)
| Challenge (r : Request)
| TwoFactor (r : Request)
| Setup (r : Request)
| Activate (r : Request)
| Disable (r : Request)
| RecoveryCodes (r : Request)
| Logout (r : Request)
| Reauthenticate (r : Request)
| SSO (method path : string) (r : Request)
| Link (ref : string)
| OperatorPassword (email password : string)
| OperatorTOTP (email : string)
| OperatorCodes (email : string)
| OperatorUnlock (email : string)
| OperatorRevoke (email : string)
| OperatorSettings (requireTOTPAdmin : option bool).

Inductive outcome :=
| Answered (response : Response)
| Returned (r : result unit)
| ReturnedText (r : result string)
| ReturnedCodes (r : result (list string))
| ReturnedCount (r : result Z)
| ReturnedSettings (r : result bool).

Definition finishes {A} (p : prog A) (wrap : A → outcome) : prog outcome := do! a := p in Done (wrap a).

Definition start (c : call) : prog outcome :=
  match c with
  | Login r => finishes (handleLogin r) Answered
  | ChallengeForm r => finishes (handleTOTPChallengeForm r) Answered
  | Challenge r => finishes (handleTOTPChallenge r) Answered
  | TwoFactor r => finishes (handleTwoFactorPage r) Answered
  | Setup r => finishes (handleTwoFactorSetup r) Answered
  | Activate r => finishes (handleTwoFactorActivate r) Answered
  | Disable r => finishes (handleTwoFactorDisable r) Answered
  | RecoveryCodes r => finishes (handleTwoFactorRecoveryCodes r) Answered
  | Logout r => finishes (handleLogout r) Answered
  | Reauthenticate r => finishes (handleServerReauthenticate r) Answered
  | SSO method path r => finishes (handleSSOExchange method path r) Answered
  | Link ref => finishes (LoginLink ref) ReturnedText
  | OperatorPassword email password => finishes (SetUserPassword email password) Returned
  | OperatorTOTP email => finishes (DisableUserTOTP email) Returned
  | OperatorCodes email => finishes (RegenerateRecoveryCodes email) ReturnedCodes
  | OperatorUnlock email => finishes (UnlockUserLogin email) Returned
  | OperatorRevoke email => finishes (RevokeUserSessions email) ReturnedCount
  | OperatorSettings b => finishes (SetSecuritySettings b) ReturnedSettings
  end.
End Flows.
