(* ===== verification/LoginProps.v ===== *)
(** * Sign-in: what the threads prove before they act

    The logic of [Programs] for sign-in: [wp c h p Q] says that the program [p] of a
    call [c], whatever it is answered, learns every fact only when that is [due],
    and ends with [Q]. It is proved of every handler, and carried to every
    interleaving. *)

From S2P Require Import Prelude Tx Programs Tables GoStr GoTime GoCrypto Password Auth Keyring Site OpsTypes OpsScope LoginTypes Login LoginHandlers LoginFlow.

Create HintDb quiet.

Section Proofs.
Context `{GoUnicode, SHA256, HMAC_SHA1, Argon2, AESGCM, QRCode}.
Context (sv : Server).

(** ** Proofs of identity *)

Implicit Types (c : call) (h : list fact) (u : Z).

(** The password of a login request is that of an account the database returned. *)
Definition password_proved c h u : Prop :=
  ∃ r user, c = Login r ∧ FoundUser (to_lower (trim_space (form_get r "email"))) user ∈ h ∧ ur_ID user = u ∧
    VerifyPassword (form_get r "password") (ur_PasswordHash user) = Ok true.

(** The account had no confirmed second factor when the database was asked. *)
Definition no_factor h u : Prop :=
  ReadTOTP u None ∈ h ∨ ∃ row, ReadTOTP u (Some row) ∈ h ∧ tt_ConfirmedAt row = None.

(** A code of the user's authenticator was accepted at a step that the thread used up. *)
Definition code_proved h u (code : string) : Prop :=
  ∃ row secret now step, ReadTOTP u (Some row) ∈ h ∧ openTOTPSecret sv (totp_record row) u = Ok secret ∧
    VerifyTOTP secret code now (tt_LastUsedStep row) = (step, true) ∧ AdvancedStep u step ∈ h.

(** A recovery code of the user, which the thread used up. *)
Definition recovery_proved h u (code : string) : Prop :=
  ∃ rows row, ReadCodes u rows ∈ h ∧ row ∈ rows ∧
    VerifyPassword (NormalizeRecoveryCode code) (rv_CodeHash row) = Ok true ∧ UsedCode (rv_ID row) ∈ h.

Definition factor_proved (r : Request) h u : Prop :=
  code_proved h u (trim_space (form_get r "code")) ∨ recovery_proved h u (trim_space (form_get r "recovery_code")).

(** The second step: of a challenge of the user, within its attempts. *)
Definition challenge_proved c h u : Prop :=
  ∃ r value row n, c = Challenge r ∧ cookie r loginChallengeCookieName = Some value ∧
    ReadChallenge (TokenHash value) row ∈ h ∧ lc_UserID row = u ∧ Bumped (TokenHash value) n ∈ h ∧ n ≤ loginChallengeMaxAttempts ∧
    factor_proved r h u.

Definition token_proved c h u : Prop :=
  ∃ method path r, c = SSO method path r ∧ TokenExchanged (sum256 (trim_prefix path "/sso/customer/")) u ∈ h.

Definition signed_in c h u : Prop :=
  password_proved c h u ∧ no_factor h u ∨ challenge_proved c h u ∨ token_proved c h u.

(** A session of the user whose password was given in the last ten minutes. *)
Definition recent_session (r : Request) h u : Prop :=
  ∃ token user now, cookie r SessionCookieName = Some token ∧ ReadSession (TokenHash token) user ∈ h ∧ su_ID user = u ∧
    RecentlyAuthenticated now (su_AuthenticatedAt user) (10 * minute) = true.

(** The attempt of a challenge that is about to be judged was counted. *)
Definition counted c h : Prop :=
  ∀ r, c = Challenge r → ∃ value n, cookie r loginChallengeCookieName = Some value ∧ Bumped (TokenHash value) n ∈ h ∧ n ≤ loginChallengeMaxAttempts.

Definition removal_proved c h u : Prop :=
  (∃ email, c = OperatorTOTP email) ∨
  ∃ r, c = Disable r ∧ recent_session r h u ∧ (code_proved h u (trim_space (form_get r "code")) ∨ recovery_proved h u (form_get r "recovery_code")).

Definition codes_proved c h u : Prop :=
  (∃ email, c = OperatorTOTP email ∨ c = OperatorCodes email) ∨
  (∃ r, c = Activate r ∧ recent_session r h u ∧ ∃ row secret now step,
     ReadTOTP u (Some row) ∈ h ∧ openTOTPSecret sv (totp_record row) u = Ok secret ∧
     VerifyTOTP secret (form_get r "code") now (tt_LastUsedStep row) = (step, true)) ∨
  (∃ r, c = RecoveryCodes r ∧ recent_session r h u ∧ code_proved h u (form_get r "code")) ∨
  (∃ r, c = Disable r ∧ RemovedTOTP u ∈ h).

Definition password_repeated c h (tokenHash : string) : Prop :=
  ∃ r token user account, c = Reauthenticate r ∧ cookie r SessionCookieName = Some token ∧ TokenHash token = tokenHash ∧
    ReadSession tokenHash user ∈ h ∧ FoundUser (su_Email user) account ∈ h ∧
    VerifyPassword (form_get r "password") (ur_PasswordHash account) = Ok true.

(** The throttle let a login through: the failures it read are below the limits,
    or the database could not be asked. *)
Definition not_throttled c h (email : string) : Prop :=
  ∀ r, c = Login r → email = to_lower (trim_space (form_get r "email")) ∧
    (sv_SecurityDB sv = false ∨ FailuresRead email (clientIP r) None ∈ h ∨
     ∃ emailFails ipFails, FailuresRead email (clientIP r) (Some (emailFails, ipFails)) ∈ h ∧
       emailFails < loginFailEmailLimit ∧ ipFails < loginFailIPLimit).

(** What must be known before a fact is caused. *)
Definition due c h (f : fact) : Prop :=
  match f with
  | FoundUser email _ => not_throttled c h email
  | IssuedToken _ _ => ∃ ref, c = Link ref
  | MintedSession _ u => signed_in c h u
  | StartedChallenge _ u => password_proved c h u ∧ ∃ row, ReadTOTP u (Some row) ∈ h ∧ is_Some (tt_ConfirmedAt row)
  | ReadTOTP _ _ | ReadCodes _ _ => counted c h
  | RemovedTOTP u => removal_proved c h u
  | ReplacedTOTP u => ∃ r, (c = Setup r ∨ c = Activate r) ∧ recent_session r h u
  | ReplacedCodes u => codes_proved c h u
  | Reauthenticated tokenHash => password_repeated c h tokenHash
  | _ => True
  end.

(** ** The logic *)

(** Everything a thread learns must be due. *)
Definition asks c h B (q : query B) (P : B → Prop) : Prop := ∀ r, Forall (due c h) (learned q r) ∧ P r.
#[local] Arguments asks c h B q P /.

#[export] Instance asks_mono : MonotoneRule asks.
Proof. intros c h B q P P' HP Hq r. destruct (Hq r). auto. Qed.

#[local] Notation wp := (Programs.wp (@learned) asks).
#[local] Notation quiet := (Programs.quiet (@learned) asks).

Lemma wp_db {B} c h (st : statement B) (Q : list fact → result B → Prop) :
  (∀ r, Forall (due c h) (facts_of st r)) → (∀ r, Q (h ++ facts_of st r) r) → wp c h (db st) Q.
Proof. cbn. intros Hd HQ r. split; [apply Hd|apply HQ]. Qed.

Lemma quiet_ask {B} (q : query B) : (∀ c h r, Forall (due c h) (learned q r)) → quiet (ask q).
Proof. intros Hd c h r. split; [apply Hd|done]. Qed.

(** ** More is known later *)

Ltac later := unfold subseteq, list_subseteq; intros Hsub; naive_solver.

Lemma password_proved_later c h h' u : h ⊆ h' → password_proved c h u → password_proved c h' u.
Proof. unfold password_proved. later. Qed.

Lemma no_factor_later h h' u : h ⊆ h' → no_factor h u → no_factor h' u.
Proof. unfold no_factor. later. Qed.

Lemma code_proved_later h h' u code : h ⊆ h' → code_proved h u code → code_proved h' u code.
Proof. intros Hsub (row & secret & now & step & Hr & Ho & Hv & Ha). exists row, secret, now, step. auto. Qed.

Lemma recovery_proved_later h h' u code : h ⊆ h' → recovery_proved h u code → recovery_proved h' u code.
Proof. intros Hsub (rows & row & Hr & Hin & Hv & Hu). exists rows, row. auto. Qed.

Lemma factor_proved_later r h h' u : h ⊆ h' → factor_proved r h u → factor_proved r h' u.
Proof. intros Hsub [Hc|Hr]; [left; by eapply code_proved_later|right; by eapply recovery_proved_later]. Qed.

Lemma challenge_proved_later c h h' u : h ⊆ h' → challenge_proved c h u → challenge_proved c h' u.
Proof.
  intros Hsub (r & value & row & n & -> & Hc & Hr & Hu & Hb & Hn & Hf). exists r, value, row, n.
  repeat (split; [by auto|]). by eapply factor_proved_later.
Qed.

Lemma signed_in_later c h h' u : h ⊆ h' → signed_in c h u → signed_in c h' u.
Proof.
  intros Hsub [[Hp Hn]|[Hc|Ht]].
  - left. split; [by eapply password_proved_later|by eapply no_factor_later].
  - right. left. by eapply challenge_proved_later.
  - right. right. destruct Ht as (method & path & r & -> & Ht). exists method, path, r. auto.
Qed.

Lemma recent_session_later r h h' u : h ⊆ h' → recent_session r h u → recent_session r h' u.
Proof. intros Hsub (token & user & now & Hc & Hs & Hu & Hr). exists token, user, now. auto. Qed.

Lemma counted_later c h h' : h ⊆ h' → counted c h → counted c h'.
Proof. intros Hsub Hc r Er. destruct (Hc r Er) as (value & n & Hv & Hb & Hn). exists value, n. auto. Qed.

Lemma not_throttled_later c h h' email : h ⊆ h' → not_throttled c h email → not_throttled c h' email.
Proof.
  intros Hsub Hn r Er. destruct (Hn r Er) as [He [Hs|[Hf|(a & b & Hf & Hab)]]]; (split; [done|]).
  - by left.
  - right. left. auto.
  - right. right. exists a, b. auto.
Qed.

Lemma removal_proved_later c h h' u : h ⊆ h' → removal_proved c h u → removal_proved c h' u.
Proof.
  intros Hsub [Ho|(r & -> & Hs & Hf)]; [by left|]. right. exists r. split; [done|]. split; [by eapply recent_session_later|].
  destruct Hf as [Hc|Hr]; [left; by eapply code_proved_later|right; by eapply recovery_proved_later].
Qed.

Lemma codes_proved_later c h h' u : h ⊆ h' → codes_proved c h u → codes_proved c h' u.
Proof.
  intros Hsub [Ho|[(r & -> & Hs & row & secret & now & step & Hr & Hv)|[(r & -> & Hs & Hc)|(r & -> & Hr)]]].
  - by left.
  - right. left. exists r. split; [done|]. split; [by eapply recent_session_later|]. exists row, secret, now, step. auto.
  - right. right. left. exists r. split; [done|]. split; [by eapply recent_session_later|by eapply code_proved_later].
  - right. right. right. exists r. auto.
Qed.

Lemma due_later c h h' f : h ⊆ h' → due c h f → due c h' f.
Proof.
  intros Hsub. destruct f; cbn; try done; try by apply counted_later.
  - by apply not_throttled_later.
  - intros (r & Hc & Hs). exists r. split; [done|]. by eapply recent_session_later.
  - by apply removal_proved_later.
  - by apply codes_proved_later.
  - intros [Hp (row & Hr & Hc)]. split; [by eapply password_proved_later|]. exists row. auto.
  - by apply signed_in_later.
  - intros (r & token & user & account & -> & Hc & Ht & Hs & Hf & Hv). exists r, token, user, account. auto 10.
Qed.

(** ** The parts of the handlers *)

Ltac quiet := repeat match goal with
  | |- quiet (if ?b then _ else _) => destruct b
  | |- quiet (match ?x with _ => _ end) => destruct x
  | |- quiet (Done _) => apply quiet_done
  | |- quiet (prog_bind _ _) => apply quiet_bind; [|intros ?]
  | |- quiet (ask _) => apply quiet_ask; intros; cbn; repeat case_match; repeat constructor
  | |- quiet (db _) => apply quiet_ask; intros; cbn; repeat case_match; repeat constructor
  end; auto with quiet.

Lemma quiet_recordLoginAttempt email ip stage b : quiet (recordLoginAttempt sv email ip stage b).
Proof. unfold recordLoginAttempt. quiet. Qed.
Lemma quiet_logAuthFailure email ip : quiet (logAuthFailure email ip).
Proof. unfold logAuthFailure. quiet. Qed.
Lemma quiet_auditAuth action u email metadata : quiet (auditAuth sv action u email metadata).
Proof. unfold auditAuth. quiet. Qed.
Lemma quiet_securitySettings : quiet (securitySettings sv).
Proof. unfold securitySettings. quiet. Qed.
Lemma quiet_insertLoginNotification kind severity title text dedupe u : quiet (insertLoginNotification kind severity title text dedupe u).
Proof. unfold insertLoginNotification. quiet. Qed.

#[local] Hint Resolve quiet_recordLoginAttempt quiet_logAuthFailure quiet_auditAuth quiet_securitySettings
  quiet_insertLoginNotification : quiet.

Lemma quiet_alertNewDevice u email ip tokenHash : quiet (alertNewDevice sv u email ip tokenHash).
Proof. unfold alertNewDevice. quiet. Qed.
Lemma quiet_alertFailedBurst email ip : quiet (alertFailedBurst sv email ip).
Proof. unfold alertFailedBurst. quiet. Qed.
Lemma quiet_deleteLoginChallenge tokenHash : quiet (deleteLoginChallenge tokenHash).
Proof. unfold deleteLoginChallenge. quiet. Qed.
Lemma quiet_countRecoveryCodes u : quiet (countRecoveryCodes sv u).
Proof. unfold countRecoveryCodes. quiet. Qed.
Lemma quiet_generate_codes n : quiet (generate_codes n).
Proof. induction n; cbn [generate_codes]; quiet. Qed.
Lemma quiet_hash_codes codes : quiet (hash_codes codes).
Proof. induction codes; cbn [hash_codes]; quiet. Qed.
Lemma quiet_loginFailure email ip stage : quiet (loginFailure sv email ip stage).
Proof. unfold loginFailure. quiet. Qed.
Lemma quiet_challengeFailure u email ip stage reason : quiet (challengeFailure sv u email ip stage reason).
Proof. unfold challengeFailure. quiet. Qed.
Lemma quiet_drop_other_sessions r u : quiet (drop_other_sessions r u).
Proof. unfold drop_other_sessions. quiet. Qed.
Lemma quiet_recordAudit user action target id metadata : quiet (recordAudit sv user action target id metadata).
Proof. unfold recordAudit. quiet. Qed.
Lemma quiet_lookupUserID email : quiet (lookupUserID email).
Proof. unfold lookupUserID. quiet. Qed.
Lemma quiet_GetSecuritySettings : quiet GetSecuritySettings.
Proof. unfold GetSecuritySettings. quiet. Qed.

#[local] Hint Resolve quiet_alertNewDevice quiet_alertFailedBurst quiet_deleteLoginChallenge quiet_countRecoveryCodes
  quiet_generate_codes quiet_hash_codes quiet_loginFailure quiet_challengeFailure quiet_drop_other_sessions quiet_recordAudit
  quiet_lookupUserID quiet_GetSecuritySettings : quiet.

(** What the parts of a handler establish. *)
Lemma wp_getUserTOTP c h u :
  counted c h →
  wp c h (getUserTOTP sv u) (λ h' r, match r with
    | Ok (Some record) => ∃ row, record = totp_record row ∧ ReadTOTP u (Some row) ∈ h'
    | Ok None => ReadTOTP u None ∈ h'
    | Err _ => True
    end).
Proof.
  intros Hc. unfold getUserTOTP. destruct (negb _); [done|]. cbn. intros [row|e].
  - split; [by repeat constructor|]. exists row. set_solver.
  - destruct (errors_Is e "sql.ErrNoRows"); split; try done; [by repeat constructor|set_solver].
Qed.

Lemma wp_advanceTOTPStep c h u step :
  wp c h (advanceTOTPStep u step) (λ h' r, r = Ok true → AdvancedStep u step ∈ h').
Proof.
  unfold advanceTOTPStep. cbn. intros [n|e]; [|by split]. destruct (n =? 1); split; try done; [by repeat constructor|set_solver].
Qed.

Lemma wp_checkTOTP c h u code row secret :
  ReadTOTP u (Some row) ∈ h → openTOTPSecret sv (totp_record row) u = Ok secret →
  wp c h (checkTOTP u code (totp_record row) secret) (λ h' b, b = true → code_proved h' u code).
Proof.
  intros Hr Ho. unfold checkTOTP. apply wp_quiet; [quiet|]. intros h1 now I1.
  destruct (VerifyTOTP secret code now _) as [step []] eqn:Ev; [|by cbn].
  eapply wp_seq; [apply wp_advanceTOTPStep|]. intros h2 [[]|] I2 Ha; cbn; try done. intros _.
  exists row, secret, now, step. auto.
Qed.

Lemma wp_consume_from c h u normalized n candidates rows :
  ReadCodes u rows ∈ h → candidates ⊆ rows →
  wp c h (consume_from normalized n candidates) (λ h' r, ∀ m, r = Ok (m, true) →
    ∃ rows row, ReadCodes u rows ∈ h' ∧ row ∈ rows ∧ VerifyPassword normalized (rv_CodeHash row) = Ok true ∧ UsedCode (rv_ID row) ∈ h').
Proof.
  revert h. induction candidates as [|x candidates IH]; intros h Hr Hsub; [by cbn|]. cbn [consume_from].
  assert (candidates ⊆ rows) as Hsub' by set_solver.
  destruct (VerifyPassword _ _) as [[]|] eqn:Ev; [|by apply IH..].
  apply wp_bind. cbn. intros [n'|e]; [|by split]. destruct (n' =? 1).
  - split; [by repeat constructor|]. intros m _. exists rows, x. split; [set_solver|]. split; [set_solver|]. split; [done|set_solver].
  - split; [by constructor|]. apply IH; [set_solver|done].
Qed.

Lemma wp_consumeRecoveryCode c h u code :
  counted c h →
  wp c h (consumeRecoveryCode u code) (λ h' r, ∀ m, r = Ok (m, true) → recovery_proved h' u code).
Proof.
  intros Hc. unfold consumeRecoveryCode. destruct (String.eqb _ ""); [by cbn|]. apply wp_bind. cbn. intros [rows|e]; [|by split].
  split; [by repeat constructor|]. apply (wp_consume_from _ _ _ _ _ _ rows); [set_solver|done].
Qed.

Lemma wp_fresh_codes c h u store :
  (∀ hashes r, facts_of (store hashes) r = [ReplacedCodes u]) → codes_proved c h u →
  wp c h (fresh_codes store) (λ _ _, True).
Proof.
  intros Hf Hp. unfold fresh_codes. apply wp_quiet; [quiet|]. intros h1 [codes|e] I1; [|done].
  apply wp_quiet; [quiet|]. intros h2 [hashes|e] I2; [|done]. apply wp_bind. apply wp_db; [|done].
  intros r. rewrite Hf. constructor; [|done]. eapply codes_proved_later; [|exact Hp]. set_solver.
Qed.

Lemma wp_sessions_Create c h u ip agent : signed_in c h u → wp c h (sessions_Create u ip agent) (λ _ _, True).
Proof.
  intros Hs. unfold sessions_Create. apply wp_quiet; [quiet|]. intros h1 [raw|e] I1; [|done].
  apply wp_quiet; [quiet|]. intros h2 now I2. apply wp_bind. apply wp_db; [|done].
  intros r. cbn. constructor; [|done]. eapply signed_in_later; [|exact Hs]. set_solver.
Qed.

Lemma wp_currentUser c h r missing :
  wp c h (currentUser r missing) (λ h' res, ∀ user, res = inl user →
    ∃ token, cookie r SessionCookieName = Some token ∧ ReadSession (TokenHash token) user ∈ h').
Proof.
  unfold currentUser. destruct (cookie r SessionCookieName) as [token|]; [|by cbn].
  apply wp_seq with (λ h' res, ∀ user, res = Ok user → ReadSession (TokenHash token) user ∈ h').
  - unfold sessions_Authenticate. destruct (String.eqb token ""); [by cbn|]. cbn. intros now. split; [done|].
    intros [user|e]; (split; [by repeat constructor|]); [intros user' [= <-]; set_solver|done].
  - intros h' [user|e] I1 Hr.
    + cbn. intros user' [= <-]. exists token. auto.
    + destruct (_ && _); by cbn.
Qed.

Lemma wp_recent c h r (k : SessionUser → prog Response) :
  (∀ h' user, h ⊆ h' → recent_session r h' (su_ID user) → wp c h' (k user) (λ _ _, True)) →
  wp c h (requireRecentAuth r k) (λ _ _, True).
Proof.
  intros Hk. unfold requireRecentAuth. eapply wp_seq; [apply wp_currentUser|]. intros h1 [user|response] I1 Hu; [|by cbn].
  apply wp_quiet; [quiet|]. intros h2 now I2. destruct (RecentlyAuthenticated now _ _) eqn:Er; [|by cbn].
  destruct (Hu user eq_refl) as (token & Hc & Hs). apply Hk; [set_solver|]. exists token, user, now. auto.
Qed.

Lemma counted_other c h : (∀ r, c ≠ Challenge r) → counted c h.
Proof. intros Hc r ->. by destruct (Hc r). Qed.

(** The rest of a login. *)
Lemma wp_finishLogin c h r cookies u email role ip agent used :
  signed_in c h u → (used = false → ∀ r, c ≠ Challenge r) →
  wp c h (finishLogin sv r cookies u email role ip agent used) (λ _ _, True).
Proof.
  intros Hs Hused. unfold finishLogin. eapply wp_seq; [by apply wp_sessions_Create|]. intros h1 [[token expires]|e] I1 _; [|by cbn].
  do 2 (apply wp_quiet; [quiet|]; intros ? ? ?). cbv zeta. destruct (String.eqb role "admin" && negb used) eqn:E; [|by cbn].
  apply andb_prop in E as [_ ->%negb_true_iff]. apply wp_quiet; [quiet|]. intros h2 [] I2; [|by cbn].
  eapply wp_seq; [apply wp_getUserTOTP, counted_other, Hused; done|]. by intros.
Qed.

(** A challenge is started for who gave the password. *)
Lemma wp_createLoginChallenge c h u ip agent :
  due c h (StartedChallenge "" u) → wp c h (createLoginChallenge u ip agent) (λ _ _, True).
Proof.
  intros Hd. unfold createLoginChallenge. apply wp_quiet; [quiet|]. intros h1 [raw|e] I1; [|by cbn].
  apply wp_bind. apply wp_db; intros result.
  - cbn [facts_of]. constructor; [|done]. exact (due_later _ _ _ (StartedChallenge "" u) I1 Hd).
  - destruct result; [|by cbn]. by apply wp_quiet; [quiet|].
Qed.

Lemma wp_loginThrottled c h email ip :
  wp c h (loginThrottled sv email ip) (λ h' b, b = false →
    sv_SecurityDB sv = false ∨ FailuresRead email ip None ∈ h' ∨
    ∃ a b, FailuresRead email ip (Some (a, b)) ∈ h' ∧ a < loginFailEmailLimit ∧ b < loginFailIPLimit).
Proof.
  unfold loginThrottled. destruct (sv_SecurityDB sv); cbn; [|by left]. intros [[a b]|e]; cbn.
  - split; [by repeat constructor|]. intros [Ha%Z.leb_gt Hb%Z.leb_gt]%orb_false_iff. right. right. exists a, b. set_solver.
  - split; [by repeat constructor|]. intros _. right. left. set_solver.
Qed.

Lemma finds_elsewhere c h email user : (∀ r, c ≠ Login r) → due c h (FoundUser email user).
Proof. intros Hc r ->. by destruct (Hc r). Qed.

Lemma wp_handleLogin r : wp (Login r) [] (handleLogin sv r) (λ _ _, True).
Proof.
  unfold handleLogin. destruct (rq_Form r) as [form|]; [|by cbn]. cbv zeta.
  set (email := to_lower _). set (password := form_get r "password").
  eapply wp_seq; [apply wp_loginThrottled|]. intros h1 [] _ Hthrottle.
  { repeat (apply wp_quiet; [quiet|]; intros ? ? ?). by cbn. }
  apply wp_bind. apply wp_db.
  { intros [user|e]; [|by constructor]. constructor; [|done]. intros r' [= <-]. by auto. }
  intros [user|e]; [|apply quiet_loginFailure].
  destruct (negb (Role_Valid _)); [by cbn|]. destruct (VerifyPassword password _) as [[]|] eqn:Ev; try apply quiet_loginFailure.
  assert (password_proved (Login r) (h1 ++ [FoundUser email user]) (ur_ID user)) as Hp.
  { exists r, user. repeat (split; [set_solver|]). done. }
  apply wp_quiet; [quiet|]. intros h2 _ I2. apply (password_proved_later _ _ _ _ I2) in Hp.
  eapply wp_seq; [by apply wp_getUserTOTP, counted_other|]. intros h3 [record|e] I3 Hr; [|by cbn].
  apply (password_proved_later _ _ _ _ I3) in Hp.
  destruct record as [record|]; cbn -[finishLogin createLoginChallenge].
  - destruct Hr as (row & -> & Hr). cbn [ut_Confirmed totp_record]. case_bool_decide as Hconf.
    + eapply wp_seq; [apply wp_createLoginChallenge; split; [done|by exists row]|]. intros h4 [token|e] _ _; by cbn.
    + apply wp_finishLogin; [|done]. left. split; [done|]. right. exists row. split; [done|].
      destruct (tt_ConfirmedAt row); [by destruct Hconf|done].
  - apply wp_finishLogin; [|done]. left. split; [done|]. by left.
Qed.

(** The second step, after its attempt was counted. *)
Section SecondStep.
Context (r : Request) (value : string) (row : ChallengeRow).

Definition second_step h : Prop :=
  cookie r loginChallengeCookieName = Some value ∧ ReadChallenge (TokenHash value) row ∈ h ∧
  ∃ n, Bumped (TokenHash value) n ∈ h ∧ n ≤ loginChallengeMaxAttempts.

Lemma second_step_later h h' : h ⊆ h' → second_step h → second_step h'.
Proof. intros Hsub (Hc & Hr & n & Hb & Hn). split; [done|]. split; [auto|]. exists n. auto. Qed.

Lemma second_step_counted h : second_step h → counted (Challenge r) h.
Proof. intros (Hc & _ & n & Hb & Hn) r' [= <-]. by exists value, n. Qed.

Lemma second_step_proved h : second_step h → factor_proved r h (lc_UserID row) → signed_in (Challenge r) h (lc_UserID row).
Proof. intros (Hc & Hr & n & Hb & Hn) Hf. right. left. by exists r, value, row, n. Qed.

Lemma wp_finish h email role ip agent :
  second_step h → factor_proved r h (lc_UserID row) →
  wp (Challenge r) h (finishLogin sv r [clearChallengeCookie] (lc_UserID row) email role ip agent true) (λ _ _, True).
Proof. intros Hs Hf. apply wp_finishLogin; [by apply second_step_proved|done]. Qed.

Lemma wp_challengeRecovery h challenge email role ip :
  second_step h → lc_UserID challenge = lc_UserID row →
  wp (Challenge r) h (challengeRecovery sv r value challenge email role ip (trim_space (form_get r "recovery_code"))) (λ _ _, True).
Proof.
  intros Hs Eu. unfold challengeRecovery. rewrite Eu.
  eapply wp_seq; [by apply wp_consumeRecoveryCode, second_step_counted|]. intros h1 [[m []]|e] I1 Hr; [|by apply wp_quiet; [quiet|]|by cbn].
  specialize (Hr m eq_refl). apply (second_step_later _ _ I1) in Hs.
  do 4 (apply wp_quiet; [quiet|]; intros ? ? ?). apply wp_finish; [eapply second_step_later; [|done]; set_solver|].
  right. eapply recovery_proved_later; [|done]. set_solver.
Qed.

Lemma wp_challengeCode h challenge email role ip :
  second_step h → lc_UserID challenge = lc_UserID row →
  wp (Challenge r) h (challengeCode sv r value challenge email role ip (trim_space (form_get r "code"))) (λ _ _, True).
Proof.
  intros Hs Eu. unfold challengeCode. rewrite Eu.
  eapply wp_seq; [by apply wp_getUserTOTP, second_step_counted|]. intros h1 [[record|]|e] I1 Hr; [|by cbn..].
  destruct Hr as (totp & -> & Hr). destruct (negb _); [by cbn|]. destruct (openTOTPSecret sv _ _) as [secret|] eqn:Eo; [|by cbn].
  eapply wp_seq; [by apply wp_checkTOTP|]. intros h2 [] I2 Hc; [|by apply wp_quiet; [quiet|]].
  do 2 (apply wp_quiet; [quiet|]; intros ? ? ?). apply wp_finish; [eapply second_step_later; [|done]; set_solver|].
  left. eapply code_proved_later; [|by apply Hc]. set_solver.
Qed.
End SecondStep.

Lemma wp_handleTOTPChallenge r : wp (Challenge r) [] (handleTOTPChallenge sv r) (λ _ _, True).
Proof.
  unfold handleTOTPChallenge. destruct (rq_Form r) as [form|]; [|by cbn].
  destruct (cookie r loginChallengeCookieName) as [value|] eqn:Ec; [|by cbn]. destruct (String.eqb value ""); [by cbn|].
  eapply wp_seq with (λ h' row, ∀ row', row = Some row' → ReadChallenge (TokenHash value) row' ∈ h').
  { unfold loadLoginChallenge. destruct (_ || _); [by cbn|]. cbn. intros [row|e]; [|done].
    split; [by repeat constructor|]. intros row' [= <-]. set_solver. }
  intros h1 [row|] _ Hrow; [|by cbn]. specialize (Hrow row eq_refl). cbv zeta.
  apply wp_bind. apply wp_db; [intros [account|e]; by repeat constructor|]. intros [account|e]; [|by cbn].
  eapply wp_seq with (λ h' n, n ≤ loginChallengeMaxAttempts → Bumped (TokenHash value) n ∈ h').
  { unfold bumpChallengeAttempts. cbn. intros [n|e]; [split; [by repeat constructor|set_solver]|]. split; [done|lia]. }
  intros h2 n I2 Hn. destruct (loginChallengeMaxAttempts <? n) eqn:En.
  { do 2 (apply wp_quiet; [quiet|]; intros ? ? ?). by cbn. }
  apply Z.ltb_ge in En. assert (second_step r value row h2) as Hs.
  { split; [done|]. split; [set_solver|]. exists n. auto. }
  destruct (negb _); [by eapply wp_challengeRecovery|by eapply wp_challengeCode].
Qed.

Lemma wp_handleTOTPChallengeForm c r : wp c [] (handleTOTPChallengeForm sv r) (λ _ _, True).
Proof. unfold handleTOTPChallengeForm, loadLoginChallenge. destruct (cookie _ _) as [value|]; [|by cbn]. cbn. 
  repeat case_match; cbn; try done. intros [row|e]; by repeat constructor.
Qed.

(** Enrolment. *)
Lemma wp_handleTwoFactorPage c r : (∀ r, c ≠ Challenge r) → wp c [] (handleTwoFactorPage sv r) (λ _ _, True).
Proof.
  intros Hc. unfold handleTwoFactorPage. eapply wp_seq; [apply wp_currentUser|]. intros h1 [user|response] _ _; [|by cbn].
  eapply wp_seq; [by apply wp_getUserTOTP, counted_other|]. intros h2 [record|e] _ _; [|by cbn].
  do 2 (apply wp_quiet; [quiet|]; intros ? ? ?). by cbn.
Qed.

Lemma wp_handleTwoFactorSetup r : wp (Setup r) [] (handleTwoFactorSetup sv r) (λ _ _, True).
Proof.
  unfold handleTwoFactorSetup. apply wp_recent. intros h1 user _ Hs.
  eapply wp_seq; [by apply wp_getUserTOTP, counted_other|]. intros h2 record I2 _.
  destruct (match record with Ok _ => _ | Err _ => _ end); [by cbn|].
  apply wp_quiet; [quiet|]. intros h3 [secret|e] I3; [|by cbn].
  eapply wp_seq with (λ _ _, True); [|by intros h4 [] _ _; cbn].
  unfold upsertProvisionalTOTP. destruct (sv_Keyring sv), (sv_SecurityDB sv); try by cbn.
  do 3 (apply wp_quiet; [quiet|]; intros ? ? ?). destruct (Seal _ _ _ _ _ _); [|by cbn].
  apply wp_db; [|done]. intros result. cbn. constructor; [|done]. exists r. split; [by left|].
  eapply recent_session_later; [|done]. set_solver.
Qed.

Lemma wp_handleTwoFactorActivate r : wp (Activate r) [] (handleTwoFactorActivate sv r) (λ _ _, True).
Proof.
  unfold handleTwoFactorActivate. apply wp_recent. intros h1 user _ Hs. destruct (rq_Form r) as [form|]; [|by cbn].
  eapply wp_seq; [by apply wp_getUserTOTP, counted_other|]. intros h2 [[record|]|e] I2 Hr; [|by cbn..].
  destruct Hr as (totp & -> & Hr). destruct (openTOTPSecret sv _ _) as [secret|] eqn:Eo; [|by cbn].
  apply wp_quiet; [quiet|]. intros h3 now I3. destruct (VerifyTOTP secret _ _ _) as [step []] eqn:Ev; [|by cbn]. cbn [negb].
  apply (recent_session_later _ _ h3) in Hs; [|set_solver].
  apply wp_bind. apply wp_db.
  { intros result. constructor; [|done]. exists r. auto. }
  intros [[]|e]; [|by cbn]. eapply wp_seq; [apply (wp_fresh_codes _ _ (su_ID user)); [done|]|].
  { right. left. exists r. split; [done|]. split; [eapply recent_session_later; [|done]; set_solver|].
    exists totp, secret, now, step. set_solver. }
  intros h4 [codes|e] _ _; [|by cbn]. do 2 (apply wp_quiet; [quiet|]; intros ? ? ?). by cbn.
Qed.

Lemma wp_prove_factor c h r u row :
  counted c h → ReadTOTP u (Some row) ∈ h →
  wp c h (prove_factor sv r u (totp_record row)) (λ h' b, b = true →
    code_proved h' u (trim_space (form_get r "code")) ∨ recovery_proved h' u (form_get r "recovery_code")).
Proof.
  intros Hc Hr. unfold prove_factor. eapply wp_seq with (λ h' b, b = true → code_proved h' u (trim_space (form_get r "code"))).
  - destruct (String.eqb _ ""); [by cbn|]. destruct (openTOTPSecret sv _ _) eqn:Eo; [by apply wp_checkTOTP|by cbn].
  - intros h1 [] I1 Hcode; [cbn; auto|]. eapply wp_seq; [by eapply wp_consumeRecoveryCode, counted_later|].
    intros h2 [[m b]|e] _ Hrec; cbn; [|done]. intros ->. right. by eapply Hrec.
Qed.

Lemma wp_handleTwoFactorDisable r : wp (Disable r) [] (handleTwoFactorDisable sv r) (λ _ _, True).
Proof.
  unfold handleTwoFactorDisable. apply wp_recent. intros h1 user _ Hs. destruct (rq_Form r) as [form|]; [|by cbn].
  eapply wp_seq; [by apply wp_getUserTOTP, counted_other|]. intros h2 [[record|]|e] I2 Hr; [|by cbn..].
  destruct Hr as (totp & -> & Hr). destruct (negb _); [by cbn|].
  eapply wp_seq; [by apply wp_prove_factor; [apply counted_other|]|]. intros h3 [] I3 Hf; [|by cbn]. cbn [negb].
  specialize (Hf eq_refl). apply (recent_session_later _ _ h3) in Hs; [|set_solver].
  eapply wp_seq with (λ _ _, True).
  { unfold deleteTOTP. apply wp_bind. apply wp_db.
    - intros result. constructor; [|done]. right. by exists r.
    - intros [[]|e]; [|by cbn]. apply wp_db; [|done]. intros result. constructor; [|done]. right. right. right. exists r. set_solver. }
  intros h4 [[]|e] _ _; [|by cbn]. do 2 (apply wp_quiet; [quiet|]; intros ? ? ?). by cbn.
Qed.

Lemma wp_handleTwoFactorRecoveryCodes r : wp (RecoveryCodes r) [] (handleTwoFactorRecoveryCodes sv r) (λ _ _, True).
Proof.
  unfold handleTwoFactorRecoveryCodes. apply wp_recent. intros h1 user _ Hs. destruct (rq_Form r) as [form|]; [|by cbn].
  eapply wp_seq; [by apply wp_getUserTOTP, counted_other|]. intros h2 [[record|]|e] I2 Hr; [|by cbn..].
  destruct Hr as (totp & -> & Hr). destruct (negb _); [by cbn|]. destruct (openTOTPSecret sv _ _) as [secret|] eqn:Eo; [|by cbn].
  apply wp_quiet; [quiet|]. intros h3 now I3. destruct (VerifyTOTP secret _ _ _) as [step []] eqn:Ev; [|by cbn]. cbn [negb].
  eapply wp_seq; [apply wp_advanceTOTPStep|]. intros h4 [[]|e] I4 Ha; [|by cbn..].
  eapply wp_seq; [apply (wp_fresh_codes _ _ (su_ID user)); [done|]|].
  { right. right. left. exists r. split; [done|]. split; [eapply recent_session_later; [|done]; set_solver|].
    exists totp, secret, now, step. split; [set_solver|]. auto. }
  intros h5 [codes|e] _ _; [|by cbn]. apply wp_quiet; [quiet|]. by intros.
Qed.

(** Repeated passwords, links and the operator. *)
Lemma wp_handleServerReauthenticate r : wp (Reauthenticate r) [] (handleServerReauthenticate sv r) (λ _ _, True).
Proof.
  unfold handleServerReauthenticate. eapply wp_seq; [apply wp_currentUser|]. intros h1 [user|response] _ Hu; [|by cbn].
  destruct (Hu user eq_refl) as (token & Ec & Hs). rewrite Ec. destruct (String.eqb (trim_space token) ""); [by cbn|]. cbv zeta.
  apply wp_quiet; [quiet|]. intros h2 now I2. apply wp_quiet; [quiet|]. intros h3 wait I3.
  destruct (0 <? wait); [by cbn|]. destruct (_ || _); [by cbn|].
  apply wp_bind. apply wp_db.
  { intros [account|e]; [|by constructor]. constructor; [by apply finds_elsewhere|done]. }
  intros [account|e]; [|by cbn]. destruct (VerifyPassword _ _) as [[]|] eqn:Ev.
  - eapply wp_seq with (λ _ _, True).
    + unfold sessions_MarkReauthenticated. destruct (String.eqb token ""); [by cbn|]. apply wp_bind. apply wp_db; [|by cbn].
      intros result. constructor; [|done]. exists r, token, user, account. repeat (split; [set_solver|]). done.
    + intros h4 [[]|e] _ _; [|by cbn]. do 2 (apply wp_quiet; [quiet|]; intros ? ? ?). by cbn.
  - apply wp_quiet; [quiet|]. intros h4 later _. apply wp_quiet; [quiet|]. intros h5 [attempt locked] _.
    apply wp_quiet; [quiet|]. by intros.
  - apply wp_quiet; [quiet|]. intros h4 later _. apply wp_quiet; [quiet|]. intros h5 [attempt locked] _.
    apply wp_quiet; [quiet|]. by intros.
Qed.

Lemma wp_handleSSOExchange method path r : wp (SSO method path r) [] (handleSSOExchange sv method path r) (λ _ _, True).
Proof.
  unfold handleSSOExchange. destruct (_ || _); [by cbn|]. destruct (_ || _); [by cbn|].
  apply wp_bind. apply wp_db; [intros [[]|]; by repeat constructor|]. intros [[| |u]|e]; try by cbn.
  eapply wp_seq; [apply wp_sessions_Create|by cbn]. right. right. exists method, path, r. set_solver.
Qed.

Lemma wp_LoginLink ref : wp (Link ref) [] (LoginLink sv ref) (λ _ _, True).
Proof.
  unfold LoginLink. destruct (sv_PublicBase sv); [|by cbn]. apply wp_quiet; [quiet|]. intros h1 [[[[a u] lifecycle] state]|e] _; [|by cbn].
  destruct (_ || _); [by cbn|]. apply wp_quiet; [quiet|]. intros h2 [random|e] _; [|by cbn].
  apply wp_bind. apply wp_db; [|by cbn]. intros result. constructor; [by exists ref|done].
Qed.
Lemma quiet_SetUserPassword email password : quiet (SetUserPassword sv email password).
Proof. unfold SetUserPassword. quiet. Qed.
Lemma quiet_SetSecuritySettings b : quiet (SetSecuritySettings sv b).
Proof. unfold SetSecuritySettings. quiet. Qed.

Lemma wp_DisableUserTOTP email : wp (OperatorTOTP email) [] (DisableUserTOTP sv email) (λ _ _, True).
Proof.
  unfold DisableUserTOTP. apply wp_quiet; [quiet|]. intros h1 [u|e] _; [|by cbn].
  apply wp_db; [|done]. intros result. constructor; [left; eauto|]. constructor; [left; eauto|done].
Qed.

Lemma wp_RegenerateRecoveryCodes email : wp (OperatorCodes email) [] (RegenerateRecoveryCodes sv email) (λ _ _, True).
Proof.
  unfold RegenerateRecoveryCodes. apply wp_quiet; [quiet|]. intros h1 [u|e] _; [|by cbn].
  apply wp_quiet; [quiet|]. intros h2 [[]|e] _; [|by cbn..]. apply (wp_fresh_codes _ _ u); [done|]. left. eauto.
Qed.

(** Every call learns what is due, whatever it is answered. *)
Lemma wp_start c : wp c [] (start sv c) (λ _ _, True).
Proof.
  destruct c; unfold start, finishes; (eapply wp_seq with (λ _ _, True); [|by cbn]).
  - apply wp_handleLogin.
  - apply wp_handleTOTPChallengeForm.
  - apply wp_handleTOTPChallenge.
  - by apply wp_handleTwoFactorPage.
  - apply wp_handleTwoFactorSetup.
  - apply wp_handleTwoFactorActivate.
  - apply wp_handleTwoFactorDisable.
  - apply wp_handleTwoFactorRecoveryCodes.
  - unfold handleLogout, sessions_Delete. apply wp_quiet; [quiet|by cbn].
  - apply wp_handleServerReauthenticate.
  - apply wp_handleSSOExchange.
  - apply wp_LoginLink.
  - apply quiet_SetUserPassword.
  - apply wp_DisableUserTOTP.
  - apply wp_RegenerateRecoveryCodes.
  - by apply quiet_ask.
  - by apply quiet_ask.
  - apply quiet_SetSecuritySettings.
Qed.
End Proofs.
