(* ===== verification/LoginSafe.v ===== *)
(** * Sign-in: what holds in every interleaving

    The proofs of [LoginProps] carried to the system of threads, and the rows
    that tie the threads together: a session was minted, a challenge started and
    a login token issued by a thread that is known. *)

From S2P Require Import Prelude Tx Programs Tables GoStr GoTime GoCrypto Password Auth Keyring Site OpsTypes LoginTypes Login LoginHandlers LoginFlow LoginProps.

Section Safe.
Context `{GoUnicode, SHA256, HMAC_SHA1, Argon2, AESGCM, QRCode}.
Context (sv : Server).

(** The system before its first request, with what its tables hold. *)
Definition at_start (w : world) : system call outcome := mkSystem w [] [].
Definition after (w : world) (events : list (event (call:=call))) : system call outcome := run (start sv) events (at_start w).

(** ** Threads *)

Definition thread_ok (th : thread call outcome) : Prop :=
  wp (@learned) (asks sv) (th_Call th) (th_History th) (th_Prog th) (λ _ _, True) ∧
  Forall (due sv (th_Call th) (th_History th)) (th_History th).

Lemma step_thread_ok i th w : thread_ok th → thread_ok (step_thread i th w).1.1.
Proof.
  destruct th as [c p h]. intros [Hwp Hdue]. unfold step_thread. cbn in *. destruct p as [a|B q k]; [done|].
  destruct (exec i q w) as [r w'] eqn:E. cbn in *. destruct (Hwp r) as [Hq Hk]. split; [done|]. cbn.
  apply Forall_app. split; (eapply Forall_impl; [eassumption|]); intros f; apply due_later; set_solver.
Qed.

(** What a step does: to the world, one thread and the log. *)
Lemma step_cases (P : system call outcome → Prop) s e :
  (∀ c, P (mkSystem (sy_World s) (sy_Threads s ++ [mkThread c (start sv c) []]) (sy_Log s))) →
  (∀ s', P (mkSystem ((sy_World s) <| w_DB := elsewhere s' (w_DB (sy_World s)) |>) (sy_Threads s) (sy_Log s))) →
  (∀ t i th, sy_Threads s !! t = Some th → let '(th', fs, w) := step_thread i th (sy_World s) in
     P (mkSystem w (<[t := th']> (sy_Threads s)) (sy_Log s ++ fs))) →
  P s → P (step (start sv) s e).
Proof.
  intros Hstart Helse Hstep Hs. destruct e as [c|t i|s']; cbn; [apply Hstart| |apply Helse].
  destruct (sy_Threads s !! t) as [th|] eqn:E; [|done]. specialize (Hstep t i th E).
  by destruct (step_thread i th (sy_World s)) as [[th' fs] w].
Qed.

Lemma after_ind (P : system call outcome → Prop) w events :
  P (at_start w) → (∀ s e, P s → P (step (start sv) s e)) → P (after w events).
Proof.
  intros Hp0 Hs. unfold after, run. generalize dependent (at_start w). induction events as [|e events IH]; intros s Hp; [done|].
  cbn. by apply IH, Hs.
Qed.

Lemma threads_ok w events : Forall thread_ok (sy_Threads (after w events)).
Proof.
  apply after_ind; [constructor|]. intros s e Hs. apply step_cases; [..|done]; cbn; [|done|].
  - intros c. apply Forall_app. split; [done|]. constructor; [|done]. split; [apply wp_start|constructor].
  - intros t i th Ht. pose proof (step_thread_ok i th (sy_World s)) as Hok.
    destruct (step_thread i th (sy_World s)) as [[th' fs] w']. apply Forall_insert; [done|]. apply Hok.
    by eapply Forall_lookup_1.
Qed.

(** A thread that learned a fact knew what was due. *)
Lemma fact_due w events t th f :
  sy_Threads (after w events) !! t = Some th → f ∈ th_History th → due sv (th_Call th) (th_History th) f.
Proof.
  intros Ht Hf. pose proof (threads_ok w events) as Hok. eapply Forall_lookup_1 in Hok as [_ Hd]; [|exact Ht].
  rewrite Forall_forall in Hd. by apply Hd.
Qed.

(** The log is what the threads learned. *)
Lemma log_threads w events f : f ∈ sy_Log (after w events) → ∃ t th, sy_Threads (after w events) !! t = Some th ∧ f ∈ th_History th.
Proof.
  apply (after_ind (λ s, f ∈ sy_Log s → ∃ t th, sy_Threads s !! t = Some th ∧ f ∈ th_History th)); [by intros ?%elem_of_nil|].
  intros s e IH. apply step_cases; [..|done]; cbn; [|done|].
  - intros c (t & th & Ht & Hf)%IH. exists t, th. split; [|done]. by apply lookup_app_l_Some.
  - intros t i th Ht. unfold step_thread. destruct th as [c p h]. cbn. destruct p as [a|B q k].
    + rewrite app_nil_r. intros Hf. rewrite list_insert_id by done. auto.
    + destruct (exec i q (sy_World s)) as [r w'] eqn:E. cbn. rewrite elem_of_app. intros [Hf|Hf].
      * destruct (IH Hf) as (t' & th' & Ht' & Hf'). destruct (decide (t' = t)) as [->|Hne].
        -- rewrite Ht in Ht'. injection Ht' as <-. eexists t, _. rewrite list_lookup_insert_eq by by eapply lookup_lt_Some.
           split; [done|]. cbn in *. set_solver.
        -- exists t', th'. by rewrite list_lookup_insert_ne.
      * eexists t, _. rewrite list_lookup_insert_eq by by eapply lookup_lt_Some. split; [done|]. cbn. set_solver.
Qed.

(** ** Rows and the facts they are evidence of *)

Definition session_fact (r : SessionRow) : fact := MintedSession (se_TokenHash r) (se_UserID r).
Definition challenge_fact (r : ChallengeRow) : fact := StartedChallenge (lc_TokenHash r) (lc_UserID r).
Definition token_fact (t : LoginToken) : fact := IssuedToken (lt_TokenHash t) (lt_UserID t).

Definition evidence (s : LoginStore) : list fact :=
  (session_fact <$> ls_Sessions s) ++ (challenge_fact <$> ls_Challenges s) ++ (token_fact <$> ls_Tokens s).

Definition Evident (fs : list fact) (s s' : LoginStore) : Prop := evidence s' ⊆ evidence s ++ fs.

#[local] Instance Evident_preorder fs : PreOrder (Evident fs).
Proof. split; unfold Evident; [intros s; set_solver|]. intros s1 s2 s3 I1 I2 f Hf. specialize (I1 f). set_solver. Qed.

Lemma fmap_update {A} (k : A → fact) p f (rows : list A) fs :
  (∀ r, k (f r) = k r ∨ k (f r) ∈ fs) → k <$> rows_update p f rows ⊆ (k <$> rows) ++ fs.
Proof.
  intros Hk x (r & -> & (r0 & Hr & ->)%rows_update_elem)%list_elem_of_fmap. rewrite elem_of_app, list_elem_of_fmap.
  destruct (p r0); [|eauto]. destruct (Hk r0) as [->|]; eauto.
Qed.

Lemma fmap_delete {A} (k : A → fact) p (rows : list A) : k <$> rows_delete p rows ⊆ k <$> rows.
Proof. intros x (r & -> & [_ Hr]%rows_delete_elem)%list_elem_of_fmap. by apply list_elem_of_fmap_2. Qed.

Lemma evident_rows fs s s' :
  session_fact <$> ls_Sessions s' ⊆ (session_fact <$> ls_Sessions s) ++ fs →
  challenge_fact <$> ls_Challenges s' ⊆ (challenge_fact <$> ls_Challenges s) ++ fs →
  token_fact <$> ls_Tokens s' ⊆ (token_fact <$> ls_Tokens s) ++ fs → Evident fs s s'.
Proof.
  unfold Evident, evidence. intros Is Ic It x. specialize (Is x). specialize (Ic x). specialize (It x).
  rewrite !elem_of_app in *. tauto.
Qed.

Ltac evident_table :=
  cbn -[fmap]; match goal with
  | |- ?l ⊆ ?l ++ _ => set_solver
  | |- _ <$> rows_update _ _ _ ⊆ _ => apply fmap_update; intros; cbn; first [by left | right; set_solver]
  | |- _ <$> rows_delete _ _ ⊆ _ => etransitivity; [apply fmap_delete|set_solver]
  | |- _ <$> (_ ++ _) ⊆ _ => rewrite fmap_app; set_solver
  end.

Ltac evident := intros; apply evident_rows; evident_table.

Lemma steps_on_ops {A} fs (m : tx OpsStore A) : steps (Evident fs) (on_ops m).
Proof. intros s a s'. unfold on_ops. destruct (m (ls_Ops s)) as [[b o]|e]; [|done]. intros [= _ <-]. evident. Qed.

(** The rows a statement brings, whatever it answers. *)
Definition caused {B} (st : statement B) : list fact :=
  match st with
  | InsertSession tokenHash u _ _ _ => [MintedSession tokenHash u]
  | InsertChallenge tokenHash u _ _ => [StartedChallenge tokenHash u]
  | IssueToken _ u digest => [IssuedToken digest u]
  | _ => []
  end.

Lemma perform_evident clock now {B} (st : statement B) : steps (Evident (caused st)) (perform clock now st).
Proof.
  destruct st; unfold perform, caused;
    unfold CreateSession, MarkSessionReauthenticated, DeleteSession, delete_other_sessions, upsert_totp, confirm_totp, advance_totp,
      delete_totp, use_code, insert_challenge, bump_challenge, insert_login_attempt, prune_attempts, login_notification,
      password_reset, totp_removal, codes_regeneration, replace_codes, lockout_removal, session_revocation, settings_update, token_exchange, token_issue,
      delete_user_sessions, delete_sessions, update_sessions, update_totp, delete_codes, insert_code, delete_challenges, auditTx, insert_audit;
    steps_rows; try (apply steps_query; typeclasses eauto); try (apply steps_on_ops); try (apply steps_write; evident).
  apply steps_write. intros s. destruct (ls_RequireTOTPAdmin s); [done|]. evident.
Qed.

(** ** What is read is evidence *)

Lemma read_challenge clock now tokenHash s row s' :
  run_tx (perform clock now (SelectChallenge tokenHash)) s = (Ok row, s') → StartedChallenge tokenHash (lc_UserID row) ∈ evidence s.
Proof.
  unfold run_tx. cbn. unfold tx_query, select_challenge. destruct (query_row _) as [row'|] eqn:E; [|done]. intros [= -> _].
  apply query_where_Ok in E as [Hr [Ht%String.eqb_eq _]%andb_prop]. unfold evidence. rewrite !elem_of_app. right. left.
  rewrite <- Ht. by apply (list_elem_of_fmap_2 challenge_fact).
Qed.

(** The token an exchange is about, and what the exchange does to it. *)
Lemma exchanged_row clock now digest s u s' :
  run_tx (perform clock now (ExchangeToken digest)) s = (Ok (Exchanged u), s') →
  ∃ t, t ∈ ls_Tokens s ∧ lt_TokenHash t = digest ∧ lt_UsedAt t = None ∧ lt_UserID t = u ∧
    s' = s <| ls_Tokens := rows_update (λ r, (lt_ID r =? lt_ID t) && bool_decide (lt_UsedAt r = None))
                             (λ r, r <| lt_UsedAt := Some clock |>) (ls_Tokens s) |>.
Proof.
  unfold run_tx. cbn. unfold token_exchange, tx_bind, tx_read. destruct (token_rows clock digest s) as [|[t a] rows] eqn:E; [done|].
  destruct (negb _); [done|]. cbn. intros [= <- <-].
  assert ((t, a) ∈ token_rows clock digest s) as Hin by (rewrite E; by left).
  unfold token_rows in Hin. apply list_elem_of_bind in Hin as (t' & Hin & Ht').
  apply list_elem_of_bind in Hin as (b & Hin & _). apply list_elem_of_bind in Hin as (sub & Hin & _).
  apply list_elem_of_bind in Hin as (u' & Hin & _). apply list_elem_of_singleton in Hin as [= -> ->].
  apply rows_where_elem in Ht' as [[[Hd Hu]%andb_prop _]%andb_prop Ht']. apply bool_decide_eq_true in Hd, Hu.
  by exists t'.
Qed.

Lemma read_token clock now digest s u s' :
  run_tx (perform clock now (ExchangeToken digest)) s = (Ok (Exchanged u), s') → IssuedToken digest u ∈ evidence s.
Proof.
  intros (t & Ht & <- & _ & <- & _)%exchanged_row. unfold evidence. rewrite !elem_of_app. right. right.
  by apply (list_elem_of_fmap_2 token_fact).
Qed.

(** The challenge or the login token that was read is of the user it was made for. *)
Definition grounded (known : list fact) (f : fact) : Prop :=
  match f with
  | ReadChallenge tokenHash row => StartedChallenge tokenHash (lc_UserID row) ∈ known
  | TokenExchanged digest u => IssuedToken digest u ∈ known
  | _ => True
  end.

Lemma caused_learned {B} (st : statement B) r : caused st ⊆ facts_of st r.
Proof. unfold caused. destruct st; cbn; try done; set_solver. Qed.

Lemma exec_evident i {B} (q : query B) w : evidence (w_DB (exec i q w).2) ⊆ evidence (w_DB w) ++ learned q (exec i q w).1.
Proof.
  destruct q as [|n|line|key now|key now|key|B st]; cbn; try (set_solver); [by case_match; set_solver|by repeat case_match; set_solver|].
  pose proof (steps_run _ _ (w_DB w) (perform_evident (in_clock i) (in_now i) st)) as Hs. unfold Evident in Hs.
  destruct (with_fault _ _ _) as [r s'] eqn:E. cbn. pose proof (caused_learned st r) as Hc.
  assert (evidence s' ⊆ evidence (w_DB w) ++ caused st) as Hs'.
  { destruct (in_fault i); cbn in E; [by rewrite E in Hs|by injection E as <- <-; apply list_subseteq_app_l|by injection E as <- <-]. }
  etransitivity; [exact Hs'|]. apply list_subseteq_app_iff_l. split; [by apply list_subseteq_app_l|by apply list_subseteq_app_r].
Qed.

Lemma exec_grounded i {B} (q : query B) w : Forall (grounded (evidence (w_DB w))) (learned q (exec i q w).1).
Proof.
  destruct q as [|n|line|key now|key now|key|B st]; cbn; try constructor.
  destruct (with_fault _ _ _) as [r s'] eqn:E. cbn.
  assert (∀ b, r = Ok b → run_tx (perform (in_clock i) (in_now i) st) (w_DB w) = (Ok b, s')) as Hr.
  { intros b ->. destruct (in_fault i); cbn in E; [done|discriminate|by destruct (run_tx _ _)]. }
  destruct st; cbn [facts_of]; try (destruct r; cbn; repeat case_match; repeat constructor); cbn; try done.
  - eapply read_challenge. by apply Hr.
  - subst. eapply read_token. by apply Hr.
Qed.

Lemma subseteq_grow {A} (a b c l l' : list A) : a ⊆ b ++ l → c ⊆ a ++ l' → c ⊆ b ++ (l ++ l').
Proof. set_solver. Qed.

Lemma subseteq_known {A} (a b l l' : list A) : a ⊆ b ++ l → a ⊆ b ++ (l ++ l').
Proof. set_solver. Qed.

(** The tables hold what they held, and what the threads brought. *)
Definition tied (w : world) (s : system call outcome) : Prop :=
  evidence (w_DB (sy_World s)) ⊆ evidence (w_DB w) ++ sy_Log s ∧
  Forall (grounded (evidence (w_DB w) ++ sy_Log s)) (sy_Log s) ∧
  (∀ t th, sy_Threads s !! t = Some th → th_History th ⊆ sy_Log s).

Lemma grounded_later known known' f : known ⊆ known' → grounded known f → grounded known' f.
Proof. intros Hsub. destruct f; cbn; auto. Qed.

Lemma after_tied w events : tied w (after w events).
Proof.
  apply after_ind; [split; [cbn; set_solver|split; [constructor|intros t th Ht; discriminate Ht]]|].
  intros s e (He & Hg & Hh). apply step_cases; [..|done].
  - intros c. split; [done|]. split; [done|]. cbn. intros t th [Ht|[_ Ht]]%lookup_app_Some; [by eapply Hh|].
    apply list_lookup_singleton_Some in Ht as [_ <-]. cbn. set_solver.
  - intros s'. by split.
  - intros t i th Ht. unfold step_thread. destruct th as [c p h]. cbn [th_Prog]. destruct p as [a|B q k].
    + rewrite app_nil_r, list_insert_id by done. by split.
    + pose proof (exec_evident i q (sy_World s)) as Hev. pose proof (exec_grounded i q (sy_World s)) as Hgr.
      destruct (exec i q (sy_World s)) as [r w'] eqn:E. cbn [fst snd sy_World sy_Threads sy_Log] in *. split; [by eapply subseteq_grow|]. split.
      * apply Forall_app. split; (eapply Forall_impl; [eassumption|]); intros f; apply grounded_later; by apply subseteq_known.
      * intros t' th' Ht'. cbn [sy_Threads sy_Log] in *. destruct (decide (t' = t)) as [->|Hne].
        -- rewrite list_lookup_insert_eq in Ht' by by eapply lookup_lt_Some. injection Ht' as <-. cbn.
           specialize (Hh _ _ Ht). cbn in Hh. clear -Hh. set_solver.
        -- rewrite list_lookup_insert_ne in Ht' by done. specialize (Hh _ _ Ht'). clear -Hh. set_solver.
Qed.

(** ** Sessions *)

(** How a thread came to mint a session of a user. *)
Inductive entered (s : system call outcome) (th : thread call outcome) (u : Z) : Prop :=
| by_password : password_proved (th_Call th) (th_History th) u → no_factor (th_History th) u → entered s th u
| by_second_step r value t' th' :
    th_Call th = Challenge r → cookie r loginChallengeCookieName = Some value →
    challenge_proved sv (th_Call th) (th_History th) u →
    sy_Threads s !! t' = Some th' → StartedChallenge (TokenHash value) u ∈ th_History th' →
    password_proved (th_Call th') (th_History th') u → entered s th u
| by_link method path r t' th' ref :
    th_Call th = SSO method path r → TokenExchanged (sum256 (trim_prefix path "/sso/customer/")) u ∈ th_History th →
    sy_Threads s !! t' = Some th' → IssuedToken (sum256 (trim_prefix path "/sso/customer/")) u ∈ th_History th' →
    th_Call th' = Link ref → entered s th u.

(** C12. Every session was proved: in any interleaving of requests and commands,
    with any statements failing or losing their answers, a session in the table
    was minted by a thread that verified the user's password when the user had
    no confirmed second factor; or by one that used up a code or a recovery code
    of the user, in an attempt that was counted, for a challenge that another
    thread started after it verified the user's password; or by one that used up
    a login token which a login link was issued with. *)
Theorem sessions_are_proved w events row :
  ls_Sessions (w_DB w) = [] → ls_Challenges (w_DB w) = [] → ls_Tokens (w_DB w) = [] →
  row ∈ ls_Sessions (w_DB (sy_World (after w events))) →
  ∃ t th, sy_Threads (after w events) !! t = Some th ∧ entered (after w events) th (se_UserID row).
Proof.
  intros Es Ec Et Hrow. assert (evidence (w_DB w) = []) as E0 by (unfold evidence; by rewrite Es, Ec, Et).
  destruct (after_tied w events) as (He & Hg & Hh). rewrite E0 in He, Hg. cbn in He, Hg.
  assert (session_fact row ∈ sy_Log (after w events)) as Hlog.
  { apply He. unfold evidence. rewrite elem_of_app. left. by apply list_elem_of_fmap_2. }
  apply log_threads in Hlog as (t & th & Ht & Hf). exists t, th. split; [done|].
  rewrite Forall_forall in Hg. pose proof (fact_due w events t th _ Ht Hf) as [[Hp Hn]|[Hc|Hl]].
  - by apply by_password.
  - pose proof Hc as (r & value & challenge & n & Ecall & Ecookie & Hr & Hu & _).
    pose proof (Hg _ (Hh _ _ Ht _ Hr)) as (t' & th' & Ht' & Hs)%log_threads. rewrite Hu in Hs.
    eapply by_second_step; [done..|]. by apply (fact_due w events t' th' _ Ht' Hs).
  - destruct Hl as (method & path & r & Ecall & Hr).
    pose proof (Hg _ (Hh _ _ Ht _ Hr)) as (t' & th' & Ht' & Hs)%log_threads.
    pose proof (fact_due w events t' th' _ Ht' Hs) as [ref Href]. by eapply by_link.
Qed.


(** A throttled login looks at no account: a login request that reached the
    account read failures below both limits just before, unless the database
    could not be asked. *)
Theorem throttled_logins_stop w events t th r email user :
  sy_Threads (after w events) !! t = Some th → th_Call th = Login r → FoundUser email user ∈ th_History th →
  sv_SecurityDB sv = false ∨ FailuresRead email (clientIP r) None ∈ th_History th ∨
  ∃ emailFails ipFails, FailuresRead email (clientIP r) (Some (emailFails, ipFails)) ∈ th_History th ∧
    emailFails < 10 ∧ ipFails < 20.
Proof. intros Ht Ec Hf. apply (fact_due _ _ _ _ _ Ht) in Hf. by destruct (Hf r Ec). Qed.
End Safe.
