(* ===== verification/LoginOnce.v ===== *)
(** * Sign-in: factors are used once, and guesses are counted

    What the rows remember of used codes, steps and tokens, and how many guesses
    a challenge admits, in every interleaving. *)

From S2P Require Import Prelude Tx Programs Tables GoStr GoTime GoCrypto Password Auth Keyring Site OpsTypes LoginTypes Login LoginHandlers LoginFlow LoginProps LoginSafe.

Section Once.
Context `{GoUnicode, SHA256, HMAC_SHA1, Argon2, AESGCM, QRCode}.
Context (sv : Server).

Ltac unfold_statements :=
  unfold CreateSession, MarkSessionReauthenticated, DeleteSession, delete_other_sessions, upsert_totp, confirm_totp, advance_totp,
    use_code, insert_challenge, bump_challenge, insert_login_attempt, prune_attempts, login_notification,
    password_reset, totp_removal, codes_regeneration, replace_codes, lockout_removal, session_revocation, settings_update, delete_totp,
    token_exchange, token_issue, delete_user_sessions, delete_sessions, update_sessions, update_totp, delete_codes, insert_code,
    delete_challenges, auditTx, insert_audit.

(** ** Steps of the authenticator *)

(** The user's steps from [b] on are not used up. *)
Definition floor (u b : Z) (s : LoginStore) : Prop := ∀ r, r ∈ ls_TOTP s → tt_UserID r = u → b ≤ tt_LastUsedStep r.
Definition Raises (u : Z) (s s' : LoginStore) : Prop := ∀ b, floor u b s → floor u b s'.

#[local] Instance Raises_preorder u : PreOrder (Raises u).
Proof. split; [by intros s b|]. intros s1 s2 s3 I1 I2 b Hb. by apply I2, I1. Qed.

Lemma raises_same u s s' : ls_TOTP s' = ls_TOTP s → Raises u s s'.
Proof. unfold Raises, floor. by intros ->. Qed.

Lemma raises_update u p f s :
  (∀ r, p r = true → tt_UserID (f r) = tt_UserID r ∧ (tt_UserID r = u → tt_LastUsedStep r ≤ tt_LastUsedStep (f r))) →
  Raises u s (s <| ls_TOTP := rows_update p f (ls_TOTP s) |>).
Proof.
  intros Hf b Hb r (r0 & Hr & ->)%rows_update_elem Hu. specialize (Hb r0 Hr).
  destruct (p r0) eqn:Ep; [|by apply Hb]. destruct (Hf r0 Ep) as [Eu Hle]. rewrite Eu in Hu. specialize (Hle Hu). specialize (Hb Hu). lia.
Qed.

Lemma raises_delete u p s : Raises u s (s <| ls_TOTP := rows_delete p (ls_TOTP s) |>).
Proof. intros b Hb r [_ Hr]%rows_delete_elem. by apply Hb. Qed.

Lemma raises_insert u r s : tt_UserID r ≠ u → Raises u s (s <| ls_TOTP := ls_TOTP s ++ [r] |>).
Proof. intros Hne b Hb r' [Hr|Hr]%elem_of_app; [by apply Hb|]. apply list_elem_of_singleton in Hr as ->. done. Qed.

Lemma steps_raises_ops {A} u (m : tx OpsStore A) : steps (Raises u) (on_ops m).
Proof. intros s a s'. unfold on_ops. destruct (m (ls_Ops s)) as [[b o]|e]; [|done]. intros [= _ <-]. by apply raises_same. Qed.

Ltac raises :=
  match goal with
  | |- steps _ (tx_query _) => apply steps_query; typeclasses eauto
  | |- steps _ (on_ops _) => apply steps_raises_ops
  | |- steps _ (tx_write _) => apply steps_write; intros; first [by apply raises_same | by apply raises_delete | idtac]
  end.

Lemma raises_seed u b s :
  Raises u s (match ls_RequireTOTPAdmin s with Some _ => s | None => s <| ls_RequireTOTPAdmin := b |> end).
Proof. destruct (ls_RequireTOTPAdmin s); [done|]. by apply raises_same. Qed.

Lemma perform_raises u clock now {B} (st : statement B) :
  (∀ r, ReplacedTOTP u ∉ facts_of st r) → steps (Raises u) (perform clock now st).
Proof.
  intros Hr. destruct st; unfold perform; unfold_statements; steps_rows; try raises; try apply raises_seed.
  - apply raises_update. intros r E%Z.eqb_eq. cbn. split; [done|]. intros Eu. destruct (Hr (Ok ())). subst. by left.
  - apply raises_insert. cbn. intros ->. destruct (Hr (Ok ())). by left.
  - apply raises_update. intros r E%Z.eqb_eq. cbn. split; [done|]. intros Eu. destruct (Hr (Ok ())). subst. by left.
  - apply raises_update. intros r [_ ?%Z.ltb_lt]%andb_prop. cbn. split; [done|lia].
Qed.

(** A step that was advanced to is above the user's, and then theirs. *)
Lemma advance_above clock now u step s s' :
  run_tx (perform clock now (AdvanceTOTP u step)) s = (Ok 1, s') → (∀ b, floor u b s → b < step) ∧ floor u step s'.
Proof.
  unfold run_tx. cbn. set (p := λ r, is_totp u r && (tt_LastUsedStep r <? step)). intros [= Hn <-]. split.
  - intros b Hb. destruct (rows_where p (ls_TOTP s)) as [|r rows] eqn:E; [done|].
    assert (r ∈ rows_where p (ls_TOTP s)) as [[Hu%Z.eqb_eq Hlt%Z.ltb_lt]%andb_prop Hr]%rows_where_elem by (rewrite E; by left).
    specialize (Hb r Hr Hu). lia.
  - intros r (r0 & Hr & ->)%rows_update_elem. unfold p, is_totp. destruct (_ =? u) eqn:Eu; cbn.
    + destruct (_ <? step) eqn:El; cbn; [done|]. intros _. by apply Z.ltb_ge.
    + by intros Hu%Z.eqb_eq; rewrite Eu in Hu.
Qed.

(** ** Recovery codes *)

Definition codes_ok (s : LoginStore) : Prop := ∀ r, r ∈ ls_RecoveryCodes s → rv_ID r < ls_RecoverySeq s.
Definition spent (id : Z) (s : LoginStore) : Prop :=
  id < ls_RecoverySeq s ∧ ∀ r, r ∈ ls_RecoveryCodes s → rv_ID r = id → is_Some (rv_UsedAt r).

Definition Spends (s s' : LoginStore) : Prop := (codes_ok s → codes_ok s') ∧ ∀ id, spent id s → spent id s'.

#[local] Instance Spends_preorder : PreOrder Spends.
Proof. split; [by intros s; split|]. intros s1 s2 s3 [I1 J1] [I2 J2]. split; auto. Qed.

Lemma spends_same s s' : ls_RecoveryCodes s' = ls_RecoveryCodes s → ls_RecoverySeq s' = ls_RecoverySeq s → Spends s s'.
Proof. unfold Spends, codes_ok, spent. by intros -> ->. Qed.

Lemma spends_delete p s : Spends s (s <| ls_RecoveryCodes := rows_delete p (ls_RecoveryCodes s) |>).
Proof.
  split; [intros Hok r [_ Hr]%rows_delete_elem; by apply Hok|]. intros id [Hid Hs]. split; [done|].
  intros r [_ Hr]%rows_delete_elem. by apply Hs.
Qed.

Lemma spends_use p clock s :
  Spends s (s <| ls_RecoveryCodes := rows_update p (λ r, r <| rv_UsedAt := Some clock |>) (ls_RecoveryCodes s) |>).
Proof.
  split.
  - intros Hok r (r0 & Hr & ->)%rows_update_elem. specialize (Hok r0 Hr). by destruct (p r0).
  - intros id [Hid Hs]. split; [done|]. intros r (r0 & Hr & ->)%rows_update_elem. destruct (p r0); [by eexists|by apply Hs].
Qed.

Lemma spends_insert u hash s :
  Spends s (s <| ls_RecoveryCodes := ls_RecoveryCodes s ++ [mkRecoveryRow (ls_RecoverySeq s) u hash None] |>
              <| ls_RecoverySeq := ls_RecoverySeq s + 1 |>).
Proof.
  split.
  - intros Hok r [Hr|Hr]%elem_of_app; cbn; [specialize (Hok r Hr); lia|]. apply list_elem_of_singleton in Hr as ->. cbn. lia.
  - intros id [Hid Hs]. split; [cbn; lia|]. intros r [Hr|Hr]%elem_of_app; [by apply Hs|].
    apply list_elem_of_singleton in Hr as ->. cbn. lia.
Qed.

Lemma spends_seed b s : Spends s (match ls_RequireTOTPAdmin s with Some _ => s | None => s <| ls_RequireTOTPAdmin := b |> end).
Proof. destruct (ls_RequireTOTPAdmin s); [done|]. by apply spends_same. Qed.

Lemma steps_spends_ops {A} (m : tx OpsStore A) : steps Spends (on_ops m).
Proof. intros s a s'. unfold on_ops. destruct (m (ls_Ops s)) as [[b o]|e]; [|done]. intros [= _ <-]. by apply spends_same. Qed.

Lemma perform_spends clock now {B} (st : statement B) : steps Spends (perform clock now st).
Proof.
  destruct st; unfold perform; unfold_statements; steps_rows;
    first [apply steps_query; typeclasses eauto | apply steps_spends_ops
          | apply steps_write; intros; first [by apply spends_same|apply spends_seed|apply spends_delete|apply spends_use|apply spends_insert]].
Qed.

(** A code that was used up could be, and cannot be again. *)
Lemma use_once clock now id s s' :
  codes_ok s → run_tx (perform clock now (UseCode id)) s = (Ok 1, s') → ¬ spent id s ∧ spent id s'.
Proof.
  intros Hok. unfold run_tx. cbn. set (p := λ r, (rv_ID r =? id) && _). intros [= Hn <-].
  destruct (rows_where p (ls_RecoveryCodes s)) as [|r rows] eqn:E; [done|].
  assert (r ∈ rows_where p (ls_RecoveryCodes s)) as [[Hid%Z.eqb_eq Hu%bool_decide_eq_true]%andb_prop Hr]%rows_where_elem by (rewrite E; by left).
  split.
  - intros [_ Hs]. specialize (Hs r Hr Hid). rewrite Hu in Hs. by destruct Hs.
  - split; [rewrite <- Hid; by apply Hok|]. intros r' (r0 & Hr0 & ->)%rows_update_elem. unfold p.
    destruct (rv_ID r0 =? id) eqn:Eid; cbn; [|by intros ?%Z.eqb_eq; rewrite Eid in *].
    case_bool_decide as Hnone; cbn; [by eexists|]. intros _. by apply not_eq_None_Some.
Qed.

(** ** Login tokens *)

Definition tokens_ok (s : LoginStore) : Prop := NoDup (lt_TokenHash <$> ls_Tokens s).
Definition redeemed (digest : list Z) (s : LoginStore) : Prop :=
  digest ∈ lt_TokenHash <$> ls_Tokens s ∧ ∀ t, t ∈ ls_Tokens s → lt_TokenHash t = digest → is_Some (lt_UsedAt t).

Definition Redeems (s s' : LoginStore) : Prop := (tokens_ok s → tokens_ok s') ∧ ∀ digest, redeemed digest s → redeemed digest s'.

#[local] Instance Redeems_preorder : PreOrder Redeems.
Proof. split; [by intros s; split|]. intros s1 s2 s3 [I1 J1] [I2 J2]. split; auto. Qed.

Lemma redeems_same s s' : ls_Tokens s' = ls_Tokens s → Redeems s s'.
Proof. unfold Redeems, tokens_ok, redeemed. by intros ->. Qed.

Lemma redeems_seed b s : Redeems s (match ls_RequireTOTPAdmin s with Some _ => s | None => s <| ls_RequireTOTPAdmin := b |> end).
Proof. destruct (ls_RequireTOTPAdmin s); [done|]. by apply redeems_same. Qed.

Lemma use_tokens_hashes p clock rows :
  lt_TokenHash <$> rows_update p (λ t, t <| lt_UsedAt := Some clock |>) rows = lt_TokenHash <$> rows.
Proof. unfold rows_update. rewrite <- list_fmap_compose. apply list_fmap_ext. intros i t _. cbn. by destruct (p t). Qed.

Lemma redeems_use p clock s : Redeems s (s <| ls_Tokens := rows_update p (λ t, t <| lt_UsedAt := Some clock |>) (ls_Tokens s) |>).
Proof.
  split; [unfold tokens_ok; cbn -[fmap]; by rewrite use_tokens_hashes|]. intros digest [Hin Hs].
  split; [cbn -[fmap]; by rewrite use_tokens_hashes|]. intros t (t0 & Ht & ->)%rows_update_elem. destruct (p t0); [by eexists|by apply Hs].
Qed.

Lemma redeems_insert t s :
  existsb (λ t', bool_decide (lt_TokenHash t' = lt_TokenHash t)) (ls_Tokens s) = false →
  Redeems s (s <| ls_Tokens := ls_Tokens s ++ [t] |> <| ls_TokenSeq := ls_TokenSeq s + 1 |>).
Proof.
  intros Hnew. assert (lt_TokenHash t ∉ lt_TokenHash <$> ls_Tokens s) as Hfresh.
  { intros (t' & E & Ht')%list_elem_of_fmap. apply not_true_iff_false in Hnew. apply Hnew, existsb_exists.
    exists t'. split; [by apply list_elem_of_In|]. by apply bool_decide_eq_true. }
  split.
  - unfold tokens_ok. cbn -[fmap]. rewrite fmap_app. intros Hnd. apply NoDup_app. split; [done|]. split; [|apply NoDup_singleton].
    intros x Hx [= ->]%list_elem_of_singleton. done.
  - intros digest [Hin Hs]. split; [cbn -[fmap]; rewrite fmap_app; apply elem_of_app; by left|].
    intros t' [Ht|Ht]%elem_of_app E; [by apply Hs|]. apply list_elem_of_singleton in Ht as ->. by rewrite E in Hfresh.
Qed.

Lemma steps_redeems_ops {A} (m : tx OpsStore A) : steps Redeems (on_ops m).
Proof. intros s a s'. unfold on_ops. destruct (m (ls_Ops s)) as [[b o]|e]; [|done]. intros [= _ <-]. by apply redeems_same. Qed.

Lemma steps_redeems_issue clock accountID u digest : steps Redeems (token_issue clock accountID u digest).
Proof.
  unfold token_issue. apply steps_bind; [typeclasses eauto|apply steps_write; intros; apply redeems_use|]. intros _ s a s'.
  unfold tx_bind, tx_read. destruct (existsb _ _) eqn:E; [done|]. intros [= _ <-]. by apply redeems_insert.
Qed.

Lemma perform_redeems clock now {B} (st : statement B) : steps Redeems (perform clock now st).
Proof.
  destruct st; unfold perform; try apply steps_redeems_issue; unfold_statements; steps_rows;
    first [apply steps_query; typeclasses eauto | apply steps_redeems_ops
          | apply steps_write; intros; first [by apply redeems_same|apply redeems_seed|apply redeems_use]].
Qed.

Lemma exchange_once clock now digest u s s' :
  tokens_ok s → run_tx (perform clock now (ExchangeToken digest)) s = (Ok (Exchanged u), s') → ¬ redeemed digest s ∧ redeemed digest s'.
Proof.
  intros Hok (t & Ht & Hd & Hu & _ & ->)%exchanged_row. split.
  - intros [_ Hs]. specialize (Hs t Ht Hd). rewrite Hu in Hs. by destruct Hs.
  - split; [cbn -[fmap]; rewrite use_tokens_hashes, <- Hd; by apply list_elem_of_fmap_2|].
    intros t' (t0 & Ht0 & ->)%rows_update_elem. case_bool_decide as Hnone; rewrite ?andb_false_r; [|intros _; by apply not_eq_None_Some].
    rewrite andb_true_r. destruct (lt_ID t0 =? lt_ID t) eqn:Eid; [by eexists|]. intros E0.
    assert (t0 = t) as -> by (eapply (NoDup_fmap_elem lt_TokenHash); [exact Hok|done|done|by rewrite E0]).
    by rewrite Z.eqb_refl in Eid.
Qed.

(** ** Once, in every interleaving *)

(** What the rows remember of the log. *)
Record remembered (s : LoginStore) (log : list fact) : Prop := {
  rem_codes : codes_ok s;
  rem_tokens : tokens_ok s;
  rem_spent : ∀ id, UsedCode id ∈ log → spent id s;
  rem_redeemed : ∀ digest u, TokenExchanged digest u ∈ log → redeemed digest s;
  rem_floor : ∀ i u b, log !! i = Some (AdvancedStep u b) → (∀ k, (i < k)%nat → log !! k ≠ Some (ReplacedTOTP u)) → floor u b s;
}.

(** Two facts of the log that were possible one after the other. *)
Definition once (log : list fact) (i j : nat) : Prop :=
  (∀ id, log !! i = Some (UsedCode id) → log !! j ≠ Some (UsedCode id)) ∧
  (∀ digest u u', log !! i = Some (TokenExchanged digest u) → log !! j ≠ Some (TokenExchanged digest u')) ∧
  (∀ u a b, log !! i = Some (AdvancedStep u a) → log !! j = Some (AdvancedStep u b) →
     (∀ k, (i < k < j)%nat → log !! k ≠ Some (ReplacedTOTP u)) → a < b).

(** The facts that tell of a factor are a statement's only ones. *)
Definition about_factor (f : fact) : bool :=
  match f with UsedCode _ | TokenExchanged _ _ | AdvancedStep _ _ => true | _ => false end.

Lemma facts_single {B} (st : statement B) r f : f ∈ facts_of st r → about_factor f = true → facts_of st r = [f].
Proof.
  intros Hf Ha. destruct st; cbn in *; try (by apply elem_of_nil in Hf); repeat case_match;
    repeat (apply elem_of_cons in Hf as [->|Hf]); try done; by apply elem_of_nil in Hf.
Qed.

Lemma replaced_always {B} (st : statement B) r r' u : ReplacedTOTP u ∈ facts_of st r → ReplacedTOTP u ∈ facts_of st r'.
Proof.
  intros Hf. destruct st; cbn in *; try done; exfalso; repeat case_match;
    repeat (apply elem_of_cons in Hf as [?|Hf]); try done; by apply elem_of_nil in Hf.
Qed.

Lemma remembered_grow s s' log fs :
  remembered s log → Spends s s' → Redeems s s' → (∀ u, ReplacedTOTP u ∉ fs → Raises u s s') →
  (∀ id, UsedCode id ∈ fs → spent id s') → (∀ digest u, TokenExchanged digest u ∈ fs → redeemed digest s') →
  (∀ u b, AdvancedStep u b ∈ fs → floor u b s') → remembered s' (log ++ fs).
Proof.
  intros [Hc Ht Hs Hr Hf] [Sc Ss] [Rt Rr] Ra Fc Ft Fs. split; [by apply Sc|by apply Rt|..].
  - intros id [Hin|Hin]%elem_of_app; auto.
  - intros digest u [Hin|Hin]%elem_of_app; eauto.
  - intros i u b Hi Hno. apply lookup_app_Some in Hi as [Hi|[_ Hi%list_elem_of_lookup_2]]; [|by apply Fs].
    pose proof (lookup_lt_Some _ _ _ Hi) as Hlt. apply Ra.
    + intros (k & Hk)%list_elem_of_lookup. apply (Hno (length log + k)%nat); [lia|]. rewrite lookup_app_r by lia.
      by replace (length log + k - length log)%nat with k by lia.
    + eapply Hf; [exact Hi|]. intros k Hk E. apply (Hno k Hk). by apply lookup_app_l_Some.
Qed.

(** What may be learned next. *)
Definition fresh_fact (log : list fact) (f : fact) : Prop :=
  match f with
  | UsedCode id => UsedCode id ∉ log
  | TokenExchanged digest _ => ∀ u, TokenExchanged digest u ∉ log
  | AdvancedStep u b => ∀ i a, log !! i = Some (AdvancedStep u a) → (∀ k, (i < k)%nat → log !! k ≠ Some (ReplacedTOTP u)) → a < b
  | _ => True
  end.

(** A factor that an answer tells of was used by the statement that was run. *)
Lemma told {B} clock now (st : statement B) s s' log r f :
  remembered s log → run_tx (perform clock now st) s = (r, s') → f ∈ facts_of st r → about_factor f = true →
  fresh_fact log f ∧ match f with UsedCode id => spent id s' | TokenExchanged digest _ => redeemed digest s'
                     | AdvancedStep u b => floor u b s' | _ => True end.
Proof.
  intros [Hc Ht Hs Hr Hfl] Hrun Hf Ha. destruct f; try discriminate Ha; clear Ha;
    destruct st; cbn in Hf; try (by apply elem_of_nil in Hf); repeat case_match;
    repeat (apply elem_of_cons in Hf as [Hf|Hf]; [try discriminate Hf|]); try (by apply elem_of_nil in Hf); simplify_eq/=.
  - match goal with E : (_ =? 1) = true |- _ => apply Z.eqb_eq in E; subst end.
    apply (advance_above clock now) in Hrun as [Hab Hfloor]. split; [|done]. intros i a Hi Hno. apply Hab. by eapply Hfl.
  - match goal with E : (_ =? 1) = true |- _ => apply Z.eqb_eq in E; subst end.
    apply (use_once clock now) in Hrun as [Hnew Hspent]; [|done]. split; [|done]. intros Hin. by apply Hnew, Hs.
  - apply (exchange_once clock now) in Hrun as [Hnew Hred]; [|done]. split; [|done]. intros u Hin. by eapply Hnew, Hr.
Qed.

Lemma err_tells_nothing {B} (st : statement B) e f : f ∈ facts_of st (Err e) → about_factor f = false.
Proof.
  intros Hf. destruct st; cbn in Hf; try (by apply elem_of_nil in Hf); repeat case_match;
    repeat (apply elem_of_cons in Hf as [->|Hf]); try done; by apply elem_of_nil in Hf.
Qed.

Lemma with_fault_told {B} i (st : statement B) s s' log r :
  remembered s log → with_fault (in_fault i) (perform (in_clock i) (in_now i) st) s = (r, s') →
  remembered s' (log ++ facts_of st r) ∧ Forall (fresh_fact log) (facts_of st r).
Proof.
  intros Hrem Hr. set (m := perform (in_clock i) (in_now i) st) in *.
  assert (s' = s ∨ s' = (run_tx m s).2) as Hs' by (destruct (in_fault i); cbn in Hr; [right; by rewrite Hr|left; by simplify_eq|right; by simplify_eq]).
  assert (∀ f, f ∈ facts_of st r → about_factor f = true → run_tx m s = (r, s')) as Hrun.
  { intros f Hf Ha. destruct (in_fault i); cbn in Hr; [done|injection Hr as <- _..]; apply err_tells_nothing in Hf; by rewrite Ha in Hf. }
  assert (∀ f, f ∈ facts_of st r → about_factor f = true → _) as Htold
    by (intros f Hf Ha; exact (told _ _ st s s' log r f Hrem (Hrun f Hf Ha) Hf Ha)).
  split.
  - apply (remembered_grow s); [done|..].
    + destruct Hs' as [->| ->]; [done|]. apply steps_run; [typeclasses eauto|apply perform_spends].
    + destruct Hs' as [->| ->]; [done|]. apply steps_run; [typeclasses eauto|apply perform_redeems].
    + intros u Hno. destruct Hs' as [->| ->]; [done|]. apply steps_run; [typeclasses eauto|]. apply perform_raises.
      intros r' Hin. by apply Hno, (replaced_always st r').
    + intros id Hin. by apply (Htold _ Hin).
    + intros digest u Hin. by apply (Htold _ Hin).
    + intros u b Hin. by apply (Htold _ Hin).
  - apply Forall_forall. intros f Hf. destruct (about_factor f) eqn:Ha; [by apply Htold|by destruct f].
Qed.

Lemma once_grow log fs i j :
  (∀ i j, (i < j)%nat → once log i j) → (∀ f, f ∈ fs → about_factor f = true → fs = [f]) → Forall (fresh_fact log) fs →
  (i < j)%nat → once (log ++ fs) i j.
Proof.
  intros Hlog Hone Hfresh Hij. rewrite Forall_forall in Hfresh. destruct (decide (j < length log)%nat) as [Hj|Hj].
  { specialize (Hlog i j Hij) as (Hu & Ht & Ha). unfold once. rewrite !lookup_app_l by lia. split; [done|]. split; [done|].
    intros u a b Hi Hb Hno. eapply Ha; [done..|]. intros k Hk E. apply (Hno k Hk). by apply lookup_app_l_Some. }
  assert (∀ f, (log ++ fs) !! j = Some f → about_factor f = true →
            fresh_fact log f ∧ j = length log ∧ (log ++ fs) !! i = log !! i) as Hlast.
  { intros f Hf Ha. rewrite lookup_app_r in Hf by lia. pose proof (list_elem_of_lookup_2 _ _ _ Hf) as Hin.
    specialize (Hone f Hin Ha) as ->. apply lookup_lt_Some in Hf. cbn in Hf. assert (j = length log) as -> by lia.
    split; [by apply Hfresh|]. split; [done|]. by rewrite lookup_app_l by lia. }
  split; [|split].
  - intros id Hi E. destruct (Hlast _ E eq_refl) as (Hfr & _ & Ei). rewrite Ei in Hi. by apply Hfr, (list_elem_of_lookup_2 _ i).
  - intros digest u u' Hi E. destruct (Hlast _ E eq_refl) as (Hfr & _ & Ei). rewrite Ei in Hi. by apply (Hfr u), (list_elem_of_lookup_2 _ i).
  - intros u a b Hi E Hno. destruct (Hlast _ E eq_refl) as (Hfr & Ej & Ei). rewrite Ei in Hi. apply (Hfr i a Hi).
    intros k Hk E'. apply (Hno k); [|by apply lookup_app_l_Some]. apply lookup_lt_Some in E'. lia.
Qed.

Lemma after_once w events :
  codes_ok (w_DB w) → tokens_ok (w_DB w) →
  remembered (w_DB (sy_World (after sv w events))) (sy_Log (after sv w events)) ∧
  ∀ i j, (i < j)%nat → once (sy_Log (after sv w events)) i j.
Proof.
  intros Hc Ht. apply after_ind.
  { split; [split; [done|done|..]|]; cbn; [by intros ? ?%elem_of_nil|by intros ? ? ?%elem_of_nil|done|]. intros i j _. by repeat split. }
  intros s e [Hrem Hone]. apply step_cases; [done| | |done].
  - intros s'. split; [|done]. destruct Hrem as [R1 R2 R3 R4 R5]. by split.
  - intros t i th _. unfold step_thread. destruct th as [c p h]. cbn [th_Prog]. destruct p as [a|B q k].
    + cbn. by rewrite app_nil_r.
    + destruct (exec i q (sy_World s)) as [r w'] eqn:E. cbn [sy_World sy_Log].
      assert (remembered (w_DB w') (sy_Log s ++ learned q r) ∧ Forall (fresh_fact (sy_Log s)) (learned q r) ∧
              ∀ f, f ∈ learned q r → about_factor f = true → learned q r = [f]) as (Hrem' & Hfresh & Hsingle).
      { destruct q as [|n|line|key now|key now|key|B st]; cbn in E |- *; rewrite ?app_nil_r;
          try (first [injection E as _ <-|repeat case_match; simplify_eq/=]; split; [done|split; [constructor|by intros f ?%elem_of_nil]]).
        destruct (with_fault _ _ _) as [r' s'] eqn:Ef. simplify_eq/=. apply with_fault_told with (log := sy_Log s) in Ef as [? ?]; [|done].
        split; [done|]. split; [done|]. apply facts_single. }
      split; [done|]. intros i' j'. by apply once_grow.
Qed.


(** ** Guesses *)

(** The attempts that the challenge of a token still admits. *)
Definition room (tokenHash : string) (r : ChallengeRow) : Z :=
  if is_challenge tokenHash r then Z.max 0 (loginChallengeMaxAttempts - lc_Attempts r) else 0.
Definition total (f : ChallengeRow → Z) (rows : list ChallengeRow) : Z := foldr (λ r n, f r + n) 0 rows.
Definition remaining (tokenHash : string) (s : LoginStore) : Z := total (room tokenHash) (ls_Challenges s).

Definition is_start (tokenHash : string) (f : fact) : bool :=
  match f with StartedChallenge h _ => String.eqb h tokenHash | _ => false end.
Definition is_guess (tokenHash : string) (f : fact) : bool :=
  match f with Bumped h n => String.eqb h tokenHash && (n <=? loginChallengeMaxAttempts) | _ => false end.

(** How many facts of a kind. *)
Definition tally (p : fact → bool) (log : list fact) : Z := Z.of_nat (length (rows_where p log)).

Lemma tally_app p l l' : tally p (l ++ l') = tally p l + tally p l'.
Proof. unfold tally. rewrite rows_where_app, length_app. lia. Qed.

Lemma tally_nil p : tally p [] = 0.
Proof. done. Qed.

Lemma tally_one p f : tally p [f] = if p f then 1 else 0.
Proof. unfold tally, rows_where. rewrite filter_cons, filter_nil. destruct (p f); by case_decide. Qed.

Lemma tally_nonneg p l : 0 ≤ tally p l.
Proof. unfold tally. lia. Qed.

Lemma room_nonneg h r : 0 ≤ room h r.
Proof. unfold room. destruct (is_challenge h r); lia. Qed.

Lemma total_app f rows rows' : total f (rows ++ rows') = total f rows + total f rows'.
Proof. unfold total. induction rows as [|r rows IH]; cbn; [done|]. rewrite IH. lia. Qed.

Lemma total_one f r : total f [r] = f r.
Proof. unfold total. cbn. lia. Qed.

Lemma total_delete h p rows : total (room h) (rows_delete p rows) ≤ total (room h) rows.
Proof.
  unfold rows_delete, total. induction rows as [|r rows IH]; [done|]. rewrite filter_cons. pose proof (room_nonneg h r).
  case_decide; cbn [foldr]; lia.
Qed.

(** An attempt takes at most its own room. *)
Definition attempted (r : ChallengeRow) : ChallengeRow := r <| lc_Attempts := lc_Attempts r + 1 |>.

Lemma room_attempted h h' r : room h (if is_challenge h' r then attempted r else r) ≤ room h r.
Proof. unfold room, attempted, is_challenge. destruct (String.eqb _ h') eqn:E; [|done]. cbn. destruct (String.eqb _ h); lia. Qed.

Lemma total_attempted h h' rows : total (room h) (rows_update (is_challenge h') attempted rows) ≤ total (room h) rows.
Proof. unfold rows_update, total. induction rows as [|r rows IH]; cbn; [done|]. pose proof (room_attempted h h' r). lia. Qed.

(** The attempt that was counted within the limit took its room. *)
Lemma total_bumped h rows r rest :
  rows_where (is_challenge h) rows = r :: rest → lc_Attempts r + 1 ≤ loginChallengeMaxAttempts →
  total (room h) (rows_update (is_challenge h) attempted rows) + 1 ≤ total (room h) rows.
Proof.
  induction rows as [|x rows IH]; [done|]. unfold rows_where, rows_update, total in *. rewrite filter_cons. cbn [fmap list_fmap foldr]. intros E Hr.
  pose proof (room_attempted h h x) as Hx. pose proof (total_attempted h h rows) as Hrest. unfold rows_update, total in Hrest.
  case_decide as Hc.
  - injection E as -> _. rewrite Hc in Hx |- *. unfold room, attempted, is_challenge in *. cbn in *. rewrite Hc in Hx |- *. lia.
  - specialize (IH E Hr). lia.
Qed.

(** A statement leaves no more room, but for a challenge it starts. *)
Definition Narrows (h : string) (s s' : LoginStore) : Prop := remaining h s' ≤ remaining h s.

#[local] Instance Narrows_preorder h : PreOrder (Narrows h).
Proof. split; unfold Narrows; [by intros s|]. intros s1 s2 s3. lia. Qed.

Lemma narrows_same h s s' : ls_Challenges s' = ls_Challenges s → Narrows h s s'.
Proof. unfold Narrows, remaining. by intros ->. Qed.

Lemma narrows_delete h p s : Narrows h s (s <| ls_Challenges := rows_delete p (ls_Challenges s) |>).
Proof. apply total_delete. Qed.

Lemma narrows_insert h row s : room h row = 0 → Narrows h s (s <| ls_Challenges := ls_Challenges s ++ [row] |>).
Proof. intros Hz. unfold Narrows, remaining. cbn -[total]. rewrite total_app, total_one. lia. Qed.

Lemma narrows_attempt h h' s : Narrows h s (s <| ls_Challenges := rows_update (is_challenge h') attempted (ls_Challenges s) |>).
Proof. apply total_attempted. Qed.

Lemma narrows_seed h b s : Narrows h s (match ls_RequireTOTPAdmin s with Some _ => s | None => s <| ls_RequireTOTPAdmin := b |> end).
Proof. destruct (ls_RequireTOTPAdmin s); [done|]. by apply narrows_same. Qed.

Lemma steps_narrows_ops {A} h (m : tx OpsStore A) : steps (Narrows h) (on_ops m).
Proof. intros s a s'. unfold on_ops. destruct (m (ls_Ops s)) as [[b o]|e]; [|done]. intros [= _ <-]. by apply narrows_same. Qed.

Definition starts (h : string) {B} (st : statement B) : bool :=
  match st with InsertChallenge h' _ _ _ => String.eqb h' h | _ => false end.

Lemma perform_narrows h clock now {B} (st : statement B) :
  starts h st = false → steps (Narrows h) (perform clock now st).
Proof.
  intros Hne. destruct st; unfold perform; unfold_statements; steps_rows;
    try first [apply steps_query; typeclasses eauto | apply steps_narrows_ops
          | apply steps_write; intros; first [by apply narrows_same|apply narrows_seed|apply narrows_delete|apply narrows_attempt]].
  apply steps_write. intros s. apply narrows_insert. unfold room, is_challenge. cbn in Hne |- *. by rewrite Hne.
Qed.

(** A challenge that is started brings five attempts. *)
Lemma start_brings h u ip agent clock now s :
  remaining h (run_tx (perform clock now (InsertChallenge h u ip agent)) s).2 ≤ remaining h s + loginChallengeMaxAttempts.
Proof.
  unfold run_tx. cbn -[remaining]. unfold insert_challenge, tx_bind, tx_read.
  destruct (existsb _ _); cbn -[remaining]; [unfold loginChallengeMaxAttempts; lia|].
  unfold remaining. cbn -[total]. rewrite total_app, total_one. unfold room. destruct (is_challenge h _); cbn; unfold loginChallengeMaxAttempts; lia.
Qed.

(** An attempt that was counted within the limit used one up. *)
Lemma bump_takes h clock now s n s' :
  run_tx (perform clock now (BumpChallenge h)) s = (Ok n, s') → n ≤ loginChallengeMaxAttempts → remaining h s' + 1 ≤ remaining h s.
Proof.
  unfold run_tx. cbn -[remaining]. unfold bump_challenge, tx_bind, tx_query, query_row.
  destruct (rows_where (is_challenge h) (ls_Challenges s)) as [|r rest] eqn:E; [done|]. cbn -[remaining]. intros [= <- <-] Hn.
  by eapply total_bumped.
Qed.

(** The guesses a statement tells of, and the challenges it starts. *)
Lemma fault_counted h i {B} (st : statement B) s r s' :
  with_fault (in_fault i) (perform (in_clock i) (in_now i) st) s = (r, s') →
  tally (is_guess h) (facts_of st r) + remaining h s' ≤ remaining h s + loginChallengeMaxAttempts * tally (is_start h) (facts_of st r).
Proof.
  intros Hr. set (m := perform (in_clock i) (in_now i) st) in *.
  assert (s' = s ∨ s' = (run_tx m s).2) as Hs' by (destruct (in_fault i); cbn in Hr; [right; by rewrite Hr|left; by simplify_eq|right; by simplify_eq]).
  assert (0 ≤ loginChallengeMaxAttempts * tally (is_start h) (facts_of st r)) as Hst
    by (pose proof (tally_nonneg (is_start h) (facts_of st r)); unfold loginChallengeMaxAttempts; lia).
  destruct (starts h st) eqn:Es.
  - destruct st; try discriminate Es. apply String.eqb_eq in Es as ->. cbn [facts_of]. rewrite !tally_one. cbn [is_guess is_start].
    rewrite String.eqb_refl.
    destruct Hs' as [->| ->]; [unfold loginChallengeMaxAttempts; lia|].
    pose proof (start_brings h userID ip agent (in_clock i) (in_now i) s) as Hb. fold m in Hb. lia.
  - assert (Narrows h s s') as Hn.
    { destruct Hs' as [->| ->]; [done|]. apply steps_run; [typeclasses eauto|]. by apply perform_narrows. }
    unfold Narrows in Hn. destruct (decide (tally (is_guess h) (facts_of st r) = 0)) as [Ez|Hg]; [lia|].
    assert (∃ n, r = r ∧ facts_of st r = [Bumped h n] ∧ n ≤ loginChallengeMaxAttempts ∧ remaining h s' + 1 ≤ remaining h s) as (n & _ & Ef & _ & Hle).
    { clear Hst Hn Hs'. destruct st; cbn in Hg; try done; repeat case_match; try done; rewrite ?tally_one, ?tally_nil in Hg; cbn in Hg; try done.
      destruct (String.eqb tokenHash h) eqn:Eh; [|done]. apply String.eqb_eq in Eh as ->. destruct (a <=? _) eqn:Ea; [|done].
      apply Z.leb_le in Ea. exists a. split; [done|]. split; [done|]. split; [done|].
      destruct (in_fault i); cbn in Hr; try discriminate Hr. by eapply (bump_takes h (in_clock i) (in_now i)). }
    rewrite Ef in Hst |- *. rewrite tally_one. destruct (is_guess h _); lia.
Qed.

Lemma after_counted w events h :
  tally (is_guess h) (sy_Log (after sv w events)) + remaining h (w_DB (sy_World (after sv w events)))
    ≤ remaining h (w_DB w) + loginChallengeMaxAttempts * tally (is_start h) (sy_Log (after sv w events)).
Proof.
  apply after_ind; [cbn [at_start sy_Log sy_World]; rewrite !tally_nil; lia|]. intros s e IH. apply step_cases; [done|done| |done].
  intros t i th _. unfold step_thread. destruct th as [c p h']. cbn [th_Prog]. destruct p as [a|B q k]; [cbn [sy_Log sy_World]; by rewrite app_nil_r|].
  destruct (exec i q (sy_World s)) as [r w'] eqn:E. cbn [sy_Log sy_World].
  assert (tally (is_guess h) (learned q r) + remaining h (w_DB w') ≤
          remaining h (w_DB (sy_World s)) + loginChallengeMaxAttempts * tally (is_start h) (learned q r)) as Hq.
  { destruct q as [|n|line|key now|key now|key|B st]; cbn [exec learned] in E |- *; rewrite ?tally_nil;
      try (first [injection E as _ <-|repeat case_match; simplify_eq/=]; cbn -[remaining]; lia).
    destruct (with_fault _ _ _) as [r' s'] eqn:Ef. injection E as -> <-. cbn -[remaining tally facts_of]. by apply (fault_counted h) in Ef. }
  rewrite !tally_app. lia.
Qed.

(** The log has every thread's facts. *)
Definition told_by (p : fact → bool) (ths : list (thread call outcome)) : Z := foldr (λ th n, tally p (th_History th) + n) 0 ths.

Lemma total_insert p ths t c pr h pr' fs :
  ths !! t = Some (mkThread c pr h) → told_by p (<[t := mkThread c pr' (h ++ fs)]> ths) = told_by p ths + tally p fs.
Proof.
  unfold told_by. revert t. induction ths as [|th ths IH]; intros t Ht; [done|]. destruct t as [|t].
  - injection Ht as ->. cbn [foldr th_History]. change (<[0%nat := ?y]> (?x :: ths)) with (y :: ths). cbn [foldr th_History]. rewrite tally_app. lia.
  - change (<[S t := ?y]> (th :: ths)) with (th :: <[t := y]> ths). cbn [foldr]. rewrite (IH t Ht). lia.
Qed.

Lemma after_tally w events p :
  told_by p (sy_Threads (after sv w events)) = tally p (sy_Log (after sv w events)).
Proof.
  apply after_ind; [done|]. intros s e IH. apply step_cases; [|done| |done]; cbn [sy_Threads sy_Log].
  - intros c. unfold told_by in *. rewrite foldr_app. cbn [foldr th_History]. by rewrite tally_nil.
  - intros t i th Ht. unfold step_thread. destruct th as [c pr h]. cbn [th_Prog]. destruct pr as [a|B q k].
    { cbn [sy_Threads sy_Log]. by rewrite app_nil_r, list_insert_id. }
    destruct (exec i q (sy_World s)) as [r w'] eqn:E. cbn [sy_Threads sy_Log th_Call th_History]. rewrite tally_app, <- IH.
    by erewrite total_insert by exact Ht.
Qed.

(** A request that had a factor of its challenge judged. *)
Definition judged (tokenHash : string) (th : thread call outcome) : Prop :=
  ∃ r value u, th_Call th = Challenge r ∧ cookie r loginChallengeCookieName = Some value ∧ TokenHash value = tokenHash ∧
    ((∃ row, ReadTOTP u row ∈ th_History th) ∨ ∃ rows, ReadCodes u rows ∈ th_History th).

Lemma judged_guess w events t th h :
  sy_Threads (after sv w events) !! t = Some th → judged h th → 1 ≤ tally (is_guess h) (th_History th).
Proof.
  intros Ht (r & value & u & Ec & Ev & <- & Hf).
  assert (counted (th_Call th) (th_History th)) as Hc by (destruct Hf as [[row Hf]|[rows Hf]]; by apply (fact_due sv w events t th _ Ht Hf)).
  destruct (Hc r Ec) as (value' & n & Ev' & Hb & Hn). rewrite Ev in Ev'. injection Ev' as <-.
  assert (Bumped (TokenHash value) n ∈ rows_where (is_guess (TokenHash value)) (th_History th)) as Hin.
  { apply rows_where_elem. split; [|done]. cbn. rewrite String.eqb_refl. by apply Z.leb_le. }
  unfold tally. destruct (rows_where _ _); [by apply elem_of_nil in Hin|cbn; lia].
Qed.

Lemma told_at_least p ts ths :
  NoDup ts → (∀ t, t ∈ ts → ∃ th, ths !! t = Some th ∧ 1 ≤ tally p (th_History th)) → Z.of_nat (length ts) ≤ told_by p ths.
Proof.
  revert ths. induction ts as [|t ts IH]; intros ths Hnd Hts.
  { clear. unfold told_by. induction ths as [|th ths IH]; cbn; [done|]. pose proof (tally_nonneg p (th_History th)). cbn in IH. lia. }
  apply NoDup_cons in Hnd as [Hnew Hnd]. destruct (Hts t) as ([c pr h] & Ht & Hp); [by left|].
  set (ths' := <[t := mkThread c pr []]> ths).
  assert (told_by p ths = told_by p ths' + tally p h) as ->.
  { rewrite <- (total_insert p ths' t c pr [] pr h); [|by apply list_lookup_insert_eq, (lookup_lt_Some _ _ _ Ht)].
    unfold ths'. by rewrite list_insert_insert_eq, list_insert_id. }
  assert (Z.of_nat (length ts) ≤ told_by p ths') as Hle.
  { apply IH; [done|]. intros t' Ht'. destruct (Hts t') as (th & Hth & Hp'); [by right|]. exists th.
    unfold ths'. rewrite list_lookup_insert_ne by (intros ->; done). done. }
  cbn [length th_History] in *. lia.
Qed.

(** C15. A challenge admits five guesses: in any interleaving, the number of
    requests that have a code or a recovery code of one challenge judged is at
    most what the challenge had left, and five for each time it is started
    (which a fresh random token is once). *)
Theorem challenge_guesses_bounded w events tokenHash ts :
  NoDup ts → (∀ t, t ∈ ts → ∃ th, sy_Threads (after sv w events) !! t = Some th ∧ judged tokenHash th) →
  Z.of_nat (length ts) ≤ remaining tokenHash (w_DB w) + 5 * tally (is_start tokenHash) (sy_Log (after sv w events)).
Proof.
  intros Hnd Hts. pose proof (after_counted w events tokenHash) as Hc. unfold loginChallengeMaxAttempts in Hc.
  rewrite <- (after_tally w events (is_guess tokenHash)) in Hc.
  assert (Z.of_nat (length ts) ≤ told_by (is_guess tokenHash) (sy_Threads (after sv w events))) as Hle.
  { apply told_at_least; [done|]. intros t Ht. destruct (Hts t Ht) as (th & Hth & Hj). exists th. split; [done|]. by eapply judged_guess. }
  assert (0 ≤ remaining tokenHash (w_DB (sy_World (after sv w events)))) as Hpos.
  { unfold remaining, total. clear. induction (ls_Challenges _) as [|r rows IH]; [done|]. pose proof (room_nonneg tokenHash r). cbn [foldr]. lia. }
  lia.
Qed.
End Once.
