(* ===== verification/LoginSamples.v ===== *)
(** * Sign-in: samples

    A panel with an administrator, who signs in with a password, enrols an
    authenticator and signs in with it, and a customer who follows a login link:
    the runs at which the theorems of [LoginSafe] and [LoginOnce] are instantiated. *)

From S2P Require Import Prelude Tx Programs Tables GoStr GoTime GoCrypto Password Auth Keyring Site OpsTypes LoginTypes Login LoginHandlers LoginFlow LoginProps LoginSafe LoginOnce.

Module LoginSamples.
Definition sample_sum (s : string) : list Z := take 32 (rev (string_bytes s) ++ replicate 32 0).

Lemma string_bytes_bounds s : Forall (λ b, 0 ≤ b < 256) (string_bytes s).
Proof. induction s as [|c s IH]; constructor; [|done]. unfold code. pose proof (Ascii.N_ascii_bounded c). lia. Qed.

Lemma sample_sum_length s : length (sample_sum s) = 32%nat.
Proof. unfold sample_sum. rewrite length_take, length_app, length_replicate. lia. Qed.

Lemma login_sum_bytes s : Forall (λ b, 0 ≤ b < 256) (sample_sum s).
Proof. apply Forall_take, Forall_app. split; [apply Forall_rev, string_bytes_bounds|apply Forall_replicate; lia]. Qed.

#[export] Instance sample_sha256 : SHA256 := {|
  sum256 := sample_sum;
  sum256_length := sample_sum_length;
  sum256_bytes := login_sum_bytes;
|}.

(** The message backwards, so that steps close to each other have different codes. *)
Definition sample_mac (key message : list Z) : list Z := take 20 (rev ((λ b, b `mod` 256) <$> message) ++ replicate 20 0).

Lemma sample_mac_length k m : length (sample_mac k m) = 20%nat.
Proof. unfold sample_mac. rewrite length_take, length_app, length_replicate. lia. Qed.

Lemma sample_mac_bytes k m : Forall (λ b, 0 ≤ b < 256) (sample_mac k m).
Proof.
  apply Forall_take, Forall_app. split; [|apply Forall_replicate; lia]. apply Forall_rev, Forall_fmap, Forall_forall.
  intros b _. cbn. by apply Z.mod_pos_bound.
Qed.

#[export] Instance sample_hmac : HMAC_SHA1 := {|
  hmac_sha1 := sample_mac;
  hmac_sha1_length := sample_mac_length;
  hmac_sha1_bytes := sample_mac_bytes;
|}.

#[export] Instance sample_qr : QRCode := {| qr_encode := λ _, Ok [] |}.

#[export] Existing Instance ascii_only.
Export PasswordSamples KeyringSamples.

Definition server : Server := mkServer true (Some old_ring) true "root" (Some "https://panel.example").

Definition password_hash : string := match HashPassword "correct horse" TestPasswordParams (replicate 16 7) with Ok h => h | Err _ => "" end.

Definition ops : OpsStore :=
  mkOpsStore [] [] [] [] [] 0 [] [] [] (mkPolicyRow true 1000) [] [] (mkAccounts [] [] [] [] []) 1 1 1 1 1 1.

(** An administrator, and the customer of a billing account. *)
Definition tables : LoginStore :=
  mkLoginStore [mkAccount 1 "root@example.com" password_hash "admin" false; mkAccount 2 "owner@example.com" password_hash "client" false]
    [mkCustomerStatus 5 2 "active"] [] [] [] [] [] 1 [] [] (Some false) [] 1 [mkBillingAccount 9 "acc_9" "ext-9" 6 "active"]
    [mkSubscriptionStatus 6 5 "active"] [] ops.

Definition panel : world := mkWorld tables ∅ [].

Definition noon : Z := 1700000000 * second.
Definition works (t n : Z) : input := mkInput t t (replicate 32 n) Works.

(** Enough steps for any of the sample requests. *)
Definition finish (thread : nat) (t n : Z) : list (event (call:=call)) := replicate 70 (Step thread (works t n)).

(** What the sample requests have as a token, from their random bytes. *)
Definition token (n : Z) : string := base64url_encode (replicate 32 n).

Definition request (form cookies : gmap string string) : Request := mkRequest (Some form) ∅ cookies ∅ "192.0.2.7:50000" "browser".
Definition with_session (n : Z) (form : gmap string string) : Request := request form {[SessionCookieName := token n]}.

Definition login : Request := request {["email" := "Root@example.com "; "password" := "correct horse"]} ∅.
Definition wrong_login : Request := request {["email" := "root@example.com"; "password" := "guess"]} ∅.

(** The code of the enrolled secret at a time. *)
Definition code_at (t : Z) : string := TOTPCode (replicate 20 3) (TOTPStep t).

Definition second_step (n : Z) (code : string) : Request :=
  request {["code" := code]} {[loginChallengeCookieName := token n]}.

(** The password, enrolment, activation, and then a sign-in with both factors. *)
Definition enrolment : list (event (call:=call)) :=
  Start (Login login) :: finish 0 noon 1 ++
  Start (Setup (with_session 1 ∅)) :: finish 1 (noon + minute) 3 ++
  Start (Activate (with_session 1 {["code" := code_at (noon + minute)]})) :: finish 2 (noon + minute) 4.

Definition both_factors : list (event (call:=call)) :=
  enrolment ++
  Start (Login login) :: finish 3 (noon + 2 * minute) 5 ++
  Start (Challenge (second_step 5 (code_at (noon + 2 * minute)))) :: finish 4 (noon + 2 * minute) 6.

Definition outcome_of (s : system call outcome) (t : nat) : option Response :=
  match sy_Threads s !! t with
  | Some th => match th_Prog th with Done (Answered r) => Some r | _ => None end
  | None => None
  end.
End LoginSamples.
