(* ===== verification/LoginFindings.v ===== *)
(** * Sign-in: executions the code gets wrong, and the theorems at the samples

    The first part applies the theorems of [LoginSafe] and [LoginOnce] to the runs
    of [LoginSamples]. The second part has runs in which a handler does not do
    what its comments say. *)

From S2P Require Import Prelude Tx Programs Tables GoStr GoTime GoCrypto Password Auth Keyring Site OpsTypes LoginTypes Login LoginHandlers LoginFlow LoginProps LoginSafe LoginOnce LoginSamples.
Import LoginSamples.

(** ** The theorems at the samples *)

Definition last_session : SessionRow :=
  mkSessionRow (TokenHash (token 6)) 1 (noon + 2 * minute + session_ttl) "192.0.2.7" "browser" (noon + 2 * minute)
    (Some (noon + 2 * minute)) (noon + 2 * minute) None.

Lemma sessions_are_proved_witness :
  ∃ t th, sy_Threads (after server panel both_factors) !! t = Some th ∧
    entered server (after server panel both_factors) th (se_UserID last_session).
Proof.
  apply (sessions_are_proved server panel both_factors last_session); [reflexivity..|].
  apply (list_elem_of_lookup_2 _ 1). vm_compute. reflexivity.
Defined.

(** The administrator removes the factor again. *)
Definition removal : list (event (call:=call)) :=
  both_factors ++ Start (Disable (with_session 6 {["code" := code_at (noon + 4 * minute)]})) :: finish 5 (noon + 4 * minute) 7.

Definition thread_at (t : nat) (events : list (event (call:=call))) : thread call outcome :=
  default (mkThread (OperatorUnlock "") (Done (Returned (Ok ()))) []) (sy_Threads (after server panel events) !! t).

Lemma thread_there t events :
  Nat.ltb t (length (sy_Threads (after server panel events))) = true → sy_Threads (after server panel events) !! t = Some (thread_at t events).
Proof. intros Ht%Nat.ltb_lt. unfold thread_at. by destruct (lookup_lt_is_Some_2 _ _ Ht) as [th ->]. Qed.

Definition removes (u : Z) (f : fact) : bool := match f with RemovedTOTP u' => u' =? u | _ => false end.

Lemma removes_in u h : existsb (removes u) h = true → RemovedTOTP u ∈ h.
Proof. intros (f & Hf & Hr)%existsb_exists. destruct f; try done. apply Z.eqb_eq in Hr as ->. by apply list_elem_of_In. Qed.


Lemma throttled_logins_stop_witness :
  sv_SecurityDB server = false ∨ FailuresRead "root@example.com" (clientIP login) None ∈ th_History (thread_at 3 both_factors) ∨
  ∃ emailFails ipFails, FailuresRead "root@example.com" (clientIP login) (Some (emailFails, ipFails)) ∈ th_History (thread_at 3 both_factors) ∧
    emailFails < 10 ∧ ipFails < 20.
Proof.
  apply (throttled_logins_stop server panel both_factors 3 (thread_at 3 both_factors) login "root@example.com"
           (mkUser 1 "root@example.com" password_hash "admin")); [apply thread_there; vm_compute; reflexivity|vm_compute; reflexivity|].
  apply (list_elem_of_lookup_2 _ 1). vm_compute. reflexivity.
Defined.

(** A code of a step that was used, given again. *)
Definition replay : list (event (call:=call)) :=
  both_factors ++
  Start (Login login) :: finish 5 (noon + 2 * minute) 8 ++
  Start (Challenge (second_step 8 (code_at (noon + 2 * minute)))) :: finish 6 (noon + 2 * minute) 9.


Lemma challenge_guesses_bounded_witness :
  Z.of_nat (length [4%nat]) ≤ remaining (TokenHash (token 5)) (w_DB panel) + 5 * tally (is_start (TokenHash (token 5))) (sy_Log (after server panel both_factors)).
Proof.
  apply (challenge_guesses_bounded server panel both_factors (TokenHash (token 5)) [4%nat]); [repeat constructor; by intros ?%elem_of_nil|].
  intros t ->%list_elem_of_singleton. exists (thread_at 4 both_factors).
  split; [apply thread_there; vm_compute; reflexivity|].
  exists (second_step 5 (code_at (noon + 2 * minute))), (token 5), 1. split; [vm_compute; reflexivity|]. split; [vm_compute; reflexivity|].
  split; [vm_compute; reflexivity|]. left. eexists. apply (list_elem_of_lookup_2 _ 2). vm_compute. reflexivity.
Defined.

(** ** Executions the code gets wrong *)

Definition refused (t : Z) : input := mkInput t t [] Refused.

Definition minted (s : system call outcome) (tokenHash : string) : bool :=
  existsb (λ r, String.eqb (se_TokenHash r) tokenHash) (ls_Sessions (w_DB (sy_World s))).

(** Enrolment is started again while the read of the old factor fails: the
    confirmed factor is dropped without a proof, and the password alone signs in.
    The comment of the handler says that this is what the check is for. *)
Definition reenrolment : list (event (call:=call)) :=
  enrolment ++
  Start (Setup (with_session 1 ∅)) :: replicate 3 (Step 3 (works (noon + 2 * minute) 5)) ++
  Step 3 (refused (noon + 2 * minute)) :: finish 3 (noon + 2 * minute) 5 ++
  Start (Login login) :: finish 4 (noon + 3 * minute) 6.

Theorem setup_fails_open :
  tt_ConfirmedAt <$> ls_TOTP (w_DB (sy_World (after server panel enrolment))) = [Some (noon + minute)] ∧
  tt_ConfirmedAt <$> ls_TOTP (w_DB (sy_World (after server panel reenrolment))) = [None] ∧
  minted (after server panel reenrolment) (TokenHash (token 6)) = true.
Proof. vm_compute. repeat split. Qed.

(** A challenge started with the old password is finished after the operator has
    replaced the password, which revokes every session. *)
Definition stale_challenge : list (event (call:=call)) :=
  enrolment ++
  Start (Login login) :: finish 3 (noon + 2 * minute) 5 ++
  Start (OperatorPassword "root@example.com" "another password") :: finish 4 (noon + 2 * minute) 6 ++
  Start (Challenge (second_step 5 (code_at (noon + 2 * minute)))) :: finish 5 (noon + 2 * minute) 7.

Theorem password_reset_keeps_challenges :
  VerifyPassword "correct horse" (au_PasswordHash (nth 0 (ls_Users (w_DB (sy_World (after server panel stale_challenge)))) (mkAccount 0 "" "" "" false))) = Ok false ∧
  (se_TokenHash <$> ls_Sessions (w_DB (sy_World (after server panel stale_challenge)))) = [TokenHash (token 7)].
Proof. vm_compute. repeat split. Qed.

(** Two activations of one enrolment: the slower one puts the last used step
    back, and a code that signed in signs in a second time. *)
Definition slow_activation : list (event (call:=call)) :=
  Start (Login login) :: finish 0 noon 1 ++
  Start (Setup (with_session 1 ∅)) :: finish 1 (noon + minute) 3 ++
  Start (Activate (with_session 1 {["code" := code_at (noon + minute)]})) :: replicate 5 (Step 2 (works (noon + minute) 4)) ++
  Start (Activate (with_session 1 {["code" := code_at (noon + minute)]})) :: finish 3 (noon + minute) 4 ++
  Start (Login login) :: finish 4 (noon + 2 * minute) 5 ++
  Start (Challenge (second_step 5 (code_at (noon + 2 * minute)))) :: finish 5 (noon + 2 * minute) 6 ++
  finish 2 (noon + 2 * minute) 4 ++
  Start (Login login) :: finish 6 (noon + 2 * minute) 8 ++
  Start (Challenge (second_step 8 (code_at (noon + 2 * minute)))) :: finish 7 (noon + 2 * minute) 9.

Definition advances (s : system call outcome) : list Z :=
  omap (λ f, match f with AdvancedStep _ step => Some step | _ => None end) (sy_Log s).

Theorem slow_activation_reopens_a_step :
  advances (after server panel slow_activation) = [TOTPStep (noon + 2 * minute); TOTPStep (noon + 2 * minute)] ∧
  minted (after server panel slow_activation) (TokenHash (token 9)) = true.
Proof. vm_compute. repeat split. Qed.

(** Challenges that were started in advance are judged whatever the throttle
    says: after eleven failures, when no login is admitted, a guess still is. *)
Definition guesses (first count : nat) (n : Z) : list (event (call:=call)) :=
  i ← seq first count; Start (Challenge (second_step n "000000")) :: finish i (noon + 2 * minute) 4.

Definition hoarded_challenges : list (event (call:=call)) :=
  enrolment ++
  Start (Login login) :: finish 3 (noon + 2 * minute) 5 ++
  Start (Login login) :: finish 4 (noon + 2 * minute) 6 ++
  Start (Login login) :: finish 5 (noon + 2 * minute) 7 ++
  guesses 6 5 5 ++ guesses 11 5 6 ++ guesses 16 1 7 ++
  Start (Login login) :: finish 17 (noon + 2 * minute) 8 ++
  Start (Challenge (second_step 7 (code_at (noon + 2 * minute)))) :: finish 18 (noon + 2 * minute) 9.

Theorem challenges_ignore_the_throttle :
  (re_Status <$> outcome_of (after server panel hoarded_challenges) 17) = Some 429 ∧
  minted (after server panel hoarded_challenges) (TokenHash (token 9)) = true.
Proof. vm_compute. repeat split. Qed.
