(* ===== verification/RemovalTypes.v ===== *)
(** * Website removal: types and tables

    internal/types/site_removal.go, and the tables the removal of websites
    (internal/control/provision/site_removal_*.go) reads and writes, with the
    triggers of the domain-removal migration that guard them. A zero key is NULL. *)

From S2P Require Import Prelude Tx Tables GoStr GoCrypto DNSTypes DNSTables.
From Stdlib Require Import Ascii.

(** ** What is approved *)

Definition RemovalWaiting : string := "waiting".
Definition RemovalStopServices : string := "stop_services".
Definition RemovalHosting : string := "remove_hosting".
Definition RemovalShared : string := "reconcile_shared".
Definition RemovalFinalize : string := "finalize".
Definition RemovalCompleted : string := "completed".

Record SiteRemovalSite := mkSiteRemovalSite {
  rs_SiteID : Z;
  rs_SubscriptionID : Z;
  rs_CustomerID : Z;
  rs_ParentSiteID : Z;
  rs_Username : string;
  rs_Domain : string;
  rs_PHPVersion : string;
}.

Record SiteRemovalResource := mkSiteRemovalResource {
  rr_ID : Z;
  rr_SiteID : Z;
  rr_ParentID : Z;
  rr_Revision : Z;
  rr_Kind : string;
  rr_Name : string;
  rr_IntentDigest : string;
  rr_Mode : string;
  rr_ArchivePath : string;
  rr_SHA256 : string;
  rr_DatabaseNames : list string;
}.

Record SiteRemovalDatabase := mkSiteRemovalDatabase {
  rd_ID : Z;
  rd_SiteID : Z;
  rd_SubscriptionID : Z;
  rd_Name : string;
  rd_Principal : string;
  rd_Provenance : string;
  rd_DeletionEligible : bool;
  rd_IneligibleReason : string;
  rd_RecoveryBackupID : Z;
}.

Record SiteRemovalSnapshot := mkSiteRemovalSnapshot {
  sn_SchemaVersion : Z;
  sn_Sites : list SiteRemovalSite;
  sn_Resources : list SiteRemovalResource;
  sn_Databases : list SiteRemovalDatabase;
  sn_Backups : list SiteRemovalResource;
  sn_Dependencies : list string;
}.

#[export] Instance SiteRemovalSite_eq : EqDecision SiteRemovalSite.
Proof. solve_decision. Defined.
#[export] Instance SiteRemovalResource_eq : EqDecision SiteRemovalResource.
Proof. solve_decision. Defined.
#[export] Instance SiteRemovalDatabase_eq : EqDecision SiteRemovalDatabase.
Proof. solve_decision. Defined.
#[export] Instance SiteRemovalSnapshot_eq : EqDecision SiteRemovalSnapshot.
Proof. solve_decision. Defined.

#[export] Instance eta_SiteRemovalDatabase : Eta SiteRemovalDatabase := λ r,
  mkSiteRemovalDatabase (rd_ID r) (rd_SiteID r) (rd_SubscriptionID r) (rd_Name r) (rd_Principal r) (rd_Provenance r)
    (rd_DeletionEligible r) (rd_IneligibleReason r) (rd_RecoveryBackupID r).
#[export] Instance eta_SiteRemovalSnapshot : Eta SiteRemovalSnapshot := λ r,
  mkSiteRemovalSnapshot (sn_SchemaVersion r) (sn_Sites r) (sn_Resources r) (sn_Databases r) (sn_Backups r) (sn_Dependencies r).

(** [removalSelectedSites]. *)
Definition removalSelectedSites (snapshot : SiteRemovalSnapshot) : list Z := rs_SiteID <$> sn_Sites snapshot.

(** ** JSON, as [encoding/json] writes the snapshot

    Text is valid UTF-8, as the database holds it. *)

Definition json_byte (c : ascii) : string :=
  if Ascii.eqb c (chr 34) then "\" +:+ dquote
  else if Ascii.eqb c "\" then "\\"
  else if Ascii.eqb c (chr 8) then "\b" else if Ascii.eqb c (chr 12) then "\f"
  else if Ascii.eqb c (chr 10) then "\n" else if Ascii.eqb c (chr 13) then "\r" else if Ascii.eqb c (chr 9) then "\t"
  else if (code c <? 32) || contains_byte (Ascii.eqb c) "<>&" then "\u00" +:+ hex_byte (code c)
  else String c EmptyString.

Fixpoint json_bytes (s : string) : string :=
  match s with
  | EmptyString => EmptyString
  | String c1 s1 =>
    let plain := json_byte c1 +:+ json_bytes s1 in
    match s1 with
    | String c2 (String c3 s3) =>
      if (code c1 =? 226) && (code c2 =? 128) && (code c3 =? 168) then "\u2028" +:+ json_bytes s3
      else if (code c1 =? 226) && (code c2 =? 128) && (code c3 =? 169) then "\u2029" +:+ json_bytes s3
      else plain
    | _ => plain
    end
  end.

Definition json_string (s : string) : string := dquote +:+ json_bytes s +:+ dquote.

(** A string in the text of a [jsonb] value of PostgreSQL. *)
Definition jsonb_byte (c : ascii) : string := if contains_byte (Ascii.eqb c) "<>&" then String c EmptyString else json_byte c.
Fixpoint jsonb_bytes (s : string) : string :=
  match s with EmptyString => EmptyString | String c s => jsonb_byte c +:+ jsonb_bytes s end.
Definition jsonb_string (s : string) : string := dquote +:+ jsonb_bytes s +:+ dquote.
Definition json_bool (b : bool) : string := if b then "true" else "false".
Definition json_array {A} (f : A → string) (l : list A) : string := "[" +:+ join "," (f <$> l) +:+ "]".

(** A field, and one that is left out when it is empty. *)
Definition field (name value : string) : list string := [json_string name +:+ ":" +:+ value].
Definition number_field (name : string) (z : Z) : list string := if z =? 0 then [] else field name (itoa z).
Definition text_field (name s : string) : list string := if String.eqb s "" then [] else field name (json_string s).
Definition array_field {A} (name : string) (f : A → string) (l : list A) : list string :=
  match l with [] => [] | _ => field name (json_array f l) end.
Definition json_object (fields : list (list string)) : string := "{" +:+ join "," (concat fields) +:+ "}".

Definition site_json (r : SiteRemovalSite) : string :=
  json_object [field "site_id" (itoa (rs_SiteID r)); field "subscription_id" (itoa (rs_SubscriptionID r));
    field "customer_id" (itoa (rs_CustomerID r)); number_field "parent_site_id" (rs_ParentSiteID r);
    field "username" (json_string (rs_Username r)); field "domain" (json_string (rs_Domain r));
    field "php_version" (json_string (rs_PHPVersion r))].

Definition resource_json (r : SiteRemovalResource) : string :=
  json_object [field "id" (itoa (rr_ID r)); number_field "site_id" (rr_SiteID r); number_field "parent_id" (rr_ParentID r);
    number_field "revision" (rr_Revision r); field "kind" (json_string (rr_Kind r)); text_field "name" (rr_Name r);
    text_field "intent_digest" (rr_IntentDigest r); text_field "mode" (rr_Mode r);
    text_field "archive_path" (rr_ArchivePath r); text_field "sha256" (rr_SHA256 r);
    array_field "database_names" json_string (rr_DatabaseNames r)].

Definition database_json (r : SiteRemovalDatabase) : string :=
  json_object [field "id" (itoa (rd_ID r)); field "site_id" (itoa (rd_SiteID r));
    field "subscription_id" (itoa (rd_SubscriptionID r)); field "name" (json_string (rd_Name r));
    field "principal" (json_string (rd_Principal r)); text_field "provenance" (rd_Provenance r);
    field "deletion_eligible" (json_bool (rd_DeletionEligible r)); text_field "ineligible_reason" (rd_IneligibleReason r);
    number_field "recovery_backup_id" (rd_RecoveryBackupID r)].

Definition snapshot_json (sn : SiteRemovalSnapshot) : string :=
  json_object [field "schema_version" (itoa (sn_SchemaVersion sn));
    field "sites" (match sn_Sites sn with [] => "null" | sites => json_array site_json sites end);
    array_field "resources" resource_json (sn_Resources sn); array_field "databases" database_json (sn_Databases sn);
    array_field "backups" resource_json (sn_Backups sn); array_field "dependencies" json_string (sn_Dependencies sn)].

(** ** [SiteRemovalSnapshot.Digest] *)

Definition site_le (a b : SiteRemovalSite) : Prop := rs_SiteID a ≤ rs_SiteID b.
Definition database_le (a b : SiteRemovalDatabase) : Prop := rd_ID a ≤ rd_ID b.
#[export] Instance site_le_dec : RelDecision site_le := λ a b, decide (_ ≤ _).
#[export] Instance database_le_dec : RelDecision database_le := λ a b, decide (_ ≤ _).

Definition then_by (c d : comparison) : comparison := match c with Eq => d | c => c end.

Definition resource_compare (a b : SiteRemovalResource) : comparison :=
  then_by (String.compare (rr_Kind a) (rr_Kind b)) (then_by (Z.compare (rr_ID a) (rr_ID b))
  (then_by (Z.compare (rr_SiteID a) (rr_SiteID b)) (then_by (Z.compare (rr_ParentID a) (rr_ParentID b))
  (then_by (String.compare (rr_Name a) (rr_Name b)) (then_by (Z.compare (rr_Revision a) (rr_Revision b))
  (then_by (String.compare (rr_Mode a) (rr_Mode b)) (String.compare (rr_IntentDigest a) (rr_IntentDigest b)))))))).

Definition resource_le (a b : SiteRemovalResource) : Prop := resource_compare a b ≠ Gt.
#[export] Instance resource_le_dec : RelDecision resource_le := λ a b, decide (_ ≠ _).

Definition text_le (a b : string) : Prop := String.leb a b = true.
#[export] Instance text_le_dec : RelDecision text_le := λ a b, decide (_ = true).

Definition sorted_snapshot (sn : SiteRemovalSnapshot) : SiteRemovalSnapshot :=
  mkSiteRemovalSnapshot (sn_SchemaVersion sn) (merge_sort site_le (sn_Sites sn)) (merge_sort resource_le (sn_Resources sn))
    (merge_sort database_le (sn_Databases sn)) (merge_sort resource_le (sn_Backups sn))
    (merge_sort text_le (sn_Dependencies sn)).

Definition Digest `{SHA256} (sn : SiteRemovalSnapshot) : string := hex_encode (sum256 (snapshot_json (sorted_snapshot sn))).

(** ** Operations *)

Record SiteRemovalOperation := mkSiteRemovalOperation {
  ro_ID : Z;
  ro_RequestID : string;
  ro_SiteID : Z;
  ro_SubscriptionID : Z;
  ro_CustomerID : Z;
  ro_ActorUserID : Z;
  ro_ActorLabel : string;
  ro_Domain : string;
  ro_ParentSiteID : Z;
  ro_Snapshot : SiteRemovalSnapshot;
  ro_DeleteDatabaseIDs : list Z;
  ro_Revision : Z;
  ro_State : string;
  ro_Stage : string;
  ro_Checkpoints : list string;
  ro_LastError : string;
}.

#[export] Instance eta_SiteRemovalOperation : Eta SiteRemovalOperation := λ r,
  mkSiteRemovalOperation (ro_ID r) (ro_RequestID r) (ro_SiteID r) (ro_SubscriptionID r) (ro_CustomerID r)
    (ro_ActorUserID r) (ro_ActorLabel r) (ro_Domain r) (ro_ParentSiteID r) (ro_Snapshot r) (ro_DeleteDatabaseIDs r)
    (ro_Revision r) (ro_State r) (ro_Stage r) (ro_Checkpoints r) (ro_LastError r).

Record RemoveSiteReq := mkRemoveSiteReq {
  rq_SiteID : Z;
  rq_RequestID : string;
  rq_PreviewDigest : string;
  rq_ConfirmDomain : string;
  rq_AcknowledgePermanent : bool;
  rq_IncludeChildren : bool;
  rq_DeleteDatabaseIDs : list Z;
}.

Record TeardownSiteReq := mkTeardownSiteReq {
  td_OperationID : Z;
  td_Revision : Z;
  td_SubscriptionID : Z;
  td_Snapshot : SiteRemovalSnapshot;
  td_Stage : string;
  td_DeleteDatabaseIDs : list Z;
}.

Record TeardownSiteResult := mkTeardownSiteResult {
  tr_OperationID : Z;
  tr_Revision : Z;
  tr_Checkpoints : list string;
}.

(** Who asks: [auth.SessionUser], as far as removals look at it. *)
Record Actor := mkActor { ac_ID : Z; ac_Email : string; ac_Role : string }.

Record SiteRemovalPreview := mkSiteRemovalPreview {
  pv_SiteID : Z;
  pv_SubscriptionID : Z;
  pv_CustomerID : Z;
  pv_ParentSiteID : Z;
  pv_PrimarySiteID : Z;
  pv_Domain : string;
  pv_Kind : string;
  pv_Allowed : bool;
  pv_BlockedReasons : list string;
  pv_Snapshot : SiteRemovalSnapshot;
  pv_Digest : string;
  pv_Operation : option SiteRemovalOperation;
}.

(** [types.DatabaseAdminTarget] and [types.TrackedDatabaseState]: what the agent
    is asked about a database, and what it finds. *)
Record DatabaseAdminTarget := mkDatabaseAdminTarget { dt_DatabaseID : Z; dt_Name : string; dt_Principal : string }.

Record TrackedDatabaseState := mkTrackedDatabaseState {
  ts_DatabaseID : Z;
  ts_Name : string;
  ts_Principal : string;
  ts_OwnershipVerified : bool;
  ts_PrincipalShared : bool;
  ts_LastError : string;
}.

(** ** Tables *)

Record WebSite := mkWebSite {
  ws_ID : Z;
  ws_SubscriptionID : Z;
  ws_CustomerID : Z;
  ws_ParentSiteID : Z;
  ws_SystemAccountID : Z;
  ws_Username : string;
  ws_Domain : string;
  ws_PHPVersion : string;
  ws_DocumentRoot : string;
  ws_RemovalState : string;
  ws_RemovalRevision : Z;
  ws_CreatedAt : Z;
}.

#[export] Instance eta_WebSite : Eta WebSite := λ r,
  mkWebSite (ws_ID r) (ws_SubscriptionID r) (ws_CustomerID r) (ws_ParentSiteID r) (ws_SystemAccountID r) (ws_Username r)
    (ws_Domain r) (ws_PHPVersion r) (ws_DocumentRoot r) (ws_RemovalState r) (ws_RemovalRevision r) (ws_CreatedAt r).

Record Subscription := mkSubscription { sb_ID : Z; sb_CustomerID : Z; sb_PrimarySiteID : Z; sb_Status : string }.
Record Customer := mkCustomer { cm_ID : Z; cm_LoginUserID : Z; cm_Status : string; cm_ResellerID : Z }.
Record Reseller := mkReseller { re_ID : Z; re_LoginUserID : Z; re_Status : string }.
(** A row of [reseller_subscriptions]; one of [billing_accounts]. *)
Record Allocation := mkAllocation { al_ResellerID : Z; al_Status : string }.
Record Billing := mkBilling { bl_SubscriptionID : Z; bl_ProvisioningState : string }.
Record SystemAccount := mkSystemAccount { sa_ID : Z; sa_SubscriptionID : Z; sa_Username : string; sa_HomePath : string }.

Record Database := mkDatabase {
  da_ID : Z;
  da_SiteID : Z;
  da_SubscriptionID : Z;
  da_Engine : string;
  da_Name : string;
  da_User : string;
  da_Status : string;
  da_LastError : string;
  da_CreatedAt : Z;
}.

#[export] Instance eta_Database : Eta Database := λ r,
  mkDatabase (da_ID r) (da_SiteID r) (da_SubscriptionID r) (da_Engine r) (da_Name r) (da_User r) (da_Status r)
    (da_LastError r) (da_CreatedAt r).

Record Backup := mkBackup {
  bk_ID : Z;
  bk_SiteID : Z;
  bk_SubscriptionID : Z;
  bk_TargetName : string;
  bk_ArchivePath : string;
  bk_SHA256 : string;
  bk_DatabaseNames : list string;
  bk_Status : string;
  bk_LastError : string;
  bk_CreatedAt : Z;
}.

#[export] Instance eta_Backup : Eta Backup := λ r,
  mkBackup (bk_ID r) (bk_SiteID r) (bk_SubscriptionID r) (bk_TargetName r) (bk_ArchivePath r) (bk_SHA256 r)
    (bk_DatabaseNames r) (bk_Status r) (bk_LastError r) (bk_CreatedAt r).

Record Secret := mkSecret { se_ID : Z; se_Scope : string; se_Name : string }.

(** The tables whose rows belong to a website, directly or through a parent row. *)
Inductive table :=
| PHPApplications | PHPWorkers | PHPDeployments | PHPEnvironmentBindings | WordPressInstances
| GitRepositories | GitDeployments | ApplicationInstances | ApplicationGenerations | ApplicationSecretBindings
| ScheduledTasks | ScheduledTaskRuns | StagingOperations | FTPAccounts | SFTPAccessIdentities | ProtectedDirectories
| MailDomains | Mailboxes | MailAliases | MailImports | WebmailHosts
| SiteRuntimeGenerations | SiteWebStatistics | SitePolicyOverrides.

#[export] Instance table_eq : EqDecision table.
Proof. solve_decision. Defined.

(** A row of one of them, with the columns removals look at. [ow_ParentID] is the
    key of the parent row ([application_id], [repository_id], [task_id],
    [mail_domain_id], [mailbox_id]), of the target of a staging operation, or of
    the database of a WordPress instance. [ow_Revision] is the desired revision,
    the generation, or the time of the last update in microseconds; [ow_Name] the
    name, host name, domain, local part, path or direction; [ow_Value] the plain
    value of a binding, the root of an SFTP identity or the text key of an import. *)
Record OwnedRow := mkOwnedRow {
  ow_Table : table;
  ow_ID : Z;
  ow_SiteID : Z;
  ow_ParentID : Z;
  ow_SubscriptionID : Z;
  ow_SecretID : Z;
  ow_Revision : Z;
  ow_Name : string;
  ow_Value : string;
  ow_DatabaseManaged : bool;
  ow_CreatedAt : Z;
}.

#[export] Instance OwnedRow_eq : EqDecision OwnedRow.
Proof. solve_decision. Defined.

#[export] Instance eta_OwnedRow : Eta OwnedRow := λ r,
  mkOwnedRow (ow_Table r) (ow_ID r) (ow_SiteID r) (ow_ParentID r) (ow_SubscriptionID r) (ow_SecretID r) (ow_Revision r)
    (ow_Name r) (ow_Value r) (ow_DatabaseManaged r) (ow_CreatedAt r).

Record RemovalTarget := mkRemovalTarget { rt_OperationID : Z; rt_SiteID : Z; rt_Released : bool }.

#[export] Instance eta_RemovalTarget : Eta RemovalTarget := λ r, mkRemovalTarget (rt_OperationID r) (rt_SiteID r) (rt_Released r).

(** ** Jobs *)

(** The arguments the fence and the scope of a removal look at; [fa_OperationID]
    also is the operation of a [remove_site] job, whose revision is [fa_Revision].
    [fa_Sites] are the sites of a [reconcile_system] job. *)
Record removalFenceArgs := mkFenceArgs {
  fa_SiteID : Z;
  fa_ApplicationID : Z;
  fa_InstanceID : Z;
  fa_ZoneID : Z;
  fa_WebmailID : Z;
  fa_BackupID : Z;
  fa_DatabaseID : Z;
  fa_RunID : Z;
  fa_OperationID : Z;
  fa_Revision : Z;
  fa_Domain : string;
  fa_ImportID : string;
  fa_Sites : list Z;
}.

(** A row of [river_job]; arguments that are no JSON, or too long, are [None]. *)
Record JobRow := mkJobRow { jb_ID : Z; jb_Kind : string; jb_Args : option removalFenceArgs; jb_State : string; jb_CreatedAt : Z }.

#[export] Instance eta_JobRow : Eta JobRow := λ r, mkJobRow (jb_ID r) (jb_Kind r) (jb_Args r) (jb_State r) (jb_CreatedAt r).

Record RemovalAudit := mkRemovalAudit {
  ra_ActorUserID : Z;
  ra_ActorLabel : string;
  ra_CustomerID : Z;
  ra_SubscriptionID : Z;
  ra_Action : string;
  ra_TargetID : Z;
  ra_Metadata : list (string * string);
}.

(** ** The database *)

Record RemovalStore := mkRemovalStore {
  rm_Sites : list WebSite;
  rm_Subscriptions : list Subscription;
  rm_Customers : list Customer;
  rm_Resellers : list Reseller;
  rm_Allocations : list Allocation;
  rm_Billing : list Billing;
  rm_Accounts : list SystemAccount;
  rm_Databases : list Database;
  rm_Backups : list Backup;
  rm_Secrets : list Secret;
  rm_Owned : list OwnedRow;
  rm_Operations : list SiteRemovalOperation;
  rm_Targets : list RemovalTarget;
  rm_Jobs : list JobRow;
  rm_Audit : list RemovalAudit;
  rm_DNS : DNSStore;
  rm_SiteSeq : Z;
  rm_OperationSeq : Z;
  rm_JobSeq : Z;
}.

#[export] Instance eta_RemovalStore : Eta RemovalStore := λ s,
  mkRemovalStore (rm_Sites s) (rm_Subscriptions s) (rm_Customers s) (rm_Resellers s) (rm_Allocations s) (rm_Billing s)
    (rm_Accounts s) (rm_Databases s) (rm_Backups s) (rm_Secrets s) (rm_Owned s) (rm_Operations s) (rm_Targets s) (rm_Jobs s)
    (rm_Audit s) (rm_DNS s) (rm_SiteSeq s) (rm_OperationSeq s) (rm_JobSeq s).
