(* ===== verification/RemovalPreview.v ===== *)
(** * Website removal: the preview

    internal/control/provision/site_removal_preview.go and the access policy of
    internal/control/workspace (site_removal.go, store.go): what would be removed
    with a website, and what stands in the way. The answers of the agent are
    arguments. *)

From S2P Require Import Prelude Tx Tables GoStr GoCrypto Site DNSTypes DNSTables OpsTypes RemovalTypes.
From Stdlib Require Import Ascii.

Definition ErrForbidden : error := sentinel "provision.ErrForbidden" "forbidden".

(** The parts of [SiteRemovalService] that are configured: the host name of the
    panel, and whether there is an agent to ask for the server's certificate
    dependencies and for the state of databases. *)
Record SiteRemovalOptions := mkSiteRemovalOptions {
  opt_PanelHostname : string;
  opt_Dependencies : bool;
  opt_DatabaseInspector : bool;
}.

(** What the agent answers. *)
Record Answers := mkAnswers {
  an_Dependencies : result (list string);
  an_Inspect : list DatabaseAdminTarget → result (list TrackedDatabaseState);
}.

(** ** Rows *)

Section Rows.
Context `{GoUnicode} `{SHA256}.
Implicit Types (s : RemovalStore) (ids : list Z).

(** [SELECT EXISTS(...)]. *)
Definition has_rows {A} (rows : list A) : bool := match rows with [] => false | _ => true end.

Definition chosen ids (id : Z) : bool := negb (id =? 0) && bool_decide (id ∈ ids).
Definition sites_by ids s : list WebSite := rows_where (λ w, bool_decide (ws_ID w ∈ ids)) (rm_Sites s).
Definition site_by_id (id : Z) s : list WebSite := rows_where (λ w, ws_ID w =? id) (rm_Sites s).
Definition owned (t : table) s : list OwnedRow := rows_where (λ r, bool_decide (ow_Table r = t)) (rm_Owned s).
Definition parent_row (t : table) (r : OwnedRow) s : list OwnedRow := rows_where (λ p, ow_ID p =? ow_ParentID r) (owned t s).

Definition operation_by_id (id : Z) s : result SiteRemovalOperation :=
  match rows_where (λ o, ro_ID o =? id) (rm_Operations s) with o :: _ => Ok o | [] => Err ErrForbidden end.

Definition operation_by_request (requestID : string) s : result SiteRemovalOperation :=
  match rows_where (λ o, String.eqb (ro_RequestID o) requestID) (rm_Operations s) with o :: _ => Ok o | [] => Err ErrForbidden end.

(** ** Access *)

(** An account that manages a customer: its own login, or its reseller's. *)
Definition reseller_active (r : Reseller) s : bool :=
  String.eqb (re_Status r) "active" &&
  existsb (λ a, (al_ResellerID a =? re_ID r) && String.eqb (al_Status a) "active") (rm_Allocations s).

Definition reseller_of (c : Customer) s : list Reseller := rows_where (λ r, re_ID r =? cm_ResellerID c) (rm_Resellers s).

Definition canRemoveSite (actor : Actor) (siteID : Z) s : bool :=
  if siteID <=? 0 then false
  else if String.eqb (ac_Role actor) "admin" then true
  else if negb (String.eqb (ac_Role actor) "client") && negb (String.eqb (ac_Role actor) "reseller") then false
  else
    has_rows (
      w ← site_by_id siteID s;
      sub ← rows_where (λ sub, sb_ID sub =? ws_SubscriptionID w) (rm_Subscriptions s);
      c ← rows_where (λ c, cm_ID c =? sb_CustomerID sub) (rm_Customers s);
      if (String.eqb (ac_Role actor) "client" && (cm_LoginUserID c =? ac_ID actor) && String.eqb (cm_Status c) "active"
          && String.eqb (sb_Status sub) "active"
          && ((cm_ResellerID c =? 0) || existsb (λ r, reseller_active r s) (reseller_of c s)))
         || (String.eqb (ac_Role actor) "reseller" && existsb (λ r, (re_LoginUserID r =? ac_ID actor) && reseller_active r s) (reseller_of c s))
      then [()] else []).

Definition CanManageSubscription (actor : Actor) (subscriptionID : Z) s : bool :=
  if String.eqb (ac_Role actor) "admin" then true
  else if (negb (String.eqb (ac_Role actor) "client") && negb (String.eqb (ac_Role actor) "reseller")) || (subscriptionID <=? 0) then false
  else
    has_rows (
      sub ← rows_where (λ sub, sb_ID sub =? subscriptionID) (rm_Subscriptions s);
      c ← rows_where (λ c, cm_ID c =? sb_CustomerID sub) (rm_Customers s);
      if (String.eqb (ac_Role actor) "client" && (cm_LoginUserID c =? ac_ID actor))
         || (String.eqb (ac_Role actor) "reseller" && existsb (λ r, (re_LoginUserID r =? ac_ID actor) && reseller_active r s) (reseller_of c s))
      then [()] else []).

(** ** The website and what is beneath it *)

(** A row of the recursive query: a website, the keys above it and its own, and
    whether its key was among those above it. *)
Definition descendant : Type := WebSite * list Z * bool.

Definition next_level (level : list descendant) s : list descendant :=
  '(w, path, cycle) ← level;
  if cycle : bool then []
  else (λ child, (child, path ++ [ws_ID child], bool_decide (ws_ID child ∈ path)))
         <$> rows_where (λ child, negb (ws_ParentSiteID child =? 0) && (ws_ParentSiteID child =? ws_ID w)) (rm_Sites s).

Fixpoint descend (fuel : nat) (level : list descendant) s : list descendant :=
  match fuel with
  | O => []
  | S fuel => match level with [] => [] | _ => level ++ descend fuel (next_level level s) s end
  end.

Definition descendant_le (a b : descendant) : Prop := ws_ID a.1.1 ≤ ws_ID b.1.1.
#[local] Instance descendant_le_dec : RelDecision descendant_le := λ a b, decide (_ ≤ _).

(** A path without a cycle has no key twice, so it ends among the sites there are. *)
Definition removal_tree (siteID : Z) s : list descendant :=
  merge_sort descendant_le
    (descend (length (rm_Sites s) + 2) ((λ w, (w, [ws_ID w], false)) <$> site_by_id siteID s) s).

Definition account_of (w : WebSite) s : string * string :=
  match rows_where (λ a, (sa_ID a =? ws_SystemAccountID w) && (sa_SubscriptionID a =? ws_SubscriptionID w)) (rm_Accounts s) with
  | a :: _ => (sa_HomePath a, sa_Username a)
  | [] => ("", "")
  end.

Definition removal_site (w : WebSite) : SiteRemovalSite :=
  mkSiteRemovalSite (ws_ID w) (ws_SubscriptionID w) (ws_CustomerID w) (ws_ParentSiteID w) (ws_Username w) (ws_Domain w) (ws_PHPVersion w).

Definition legacy_reason : string := "This website has a legacy or nonstandard account root. Migrate it before removal.".

Definition legacy_root (w : WebSite) s : bool :=
  let '(accountHome, accountUser) := account_of w s in
  negb (String.eqb (ws_Username w) accountUser) || negb (String.eqb accountHome ("/home/" +:+ accountUser))
  || negb (String.eqb (ws_DocumentRoot w) (accountHome +:+ "/domains/" +:+ ws_Domain w +:+ "/public_html")).

(** The loop over the rows: the sites, and the reasons they add. *)
Fixpoint load_sites (subscriptionID customerID : Z) (rows : list descendant) s : result (list SiteRemovalSite * list string) :=
  match rows with
  | [] => Ok ([], [])
  | (w, _, cycle) :: rows =>
    return_if cycle || negb (ws_SubscriptionID w =? subscriptionID) || negb (ws_CustomerID w =? customerID)
      || negb (is_ok (ValidateDomain (ws_Domain w))) || negb (String.eqb (NormalizeDomain (ws_Domain w)) (ws_Domain w))
      with errors_New "website descendants have inconsistent ownership or identity" ;;
    let* rest := load_sites subscriptionID customerID rows s in
    Ok (removal_site w :: fst rest, (if legacy_root w s then [legacy_reason] else []) ++ snd rest)
  end.

Definition primary_reason : string := "The subscription primary website cannot be individually removed.".

(** The loop that compares the sites with the primary one and with their root. *)
Fixpoint check_sites (preview_site primary : Z) (domain : string) (sites : list SiteRemovalSite) : result (list string) :=
  match sites with
  | [] => Ok []
  | current :: sites =>
    return_if negb (rs_SiteID current =? preview_site) && negb (has_suffix (rs_Domain current) ("." +:+ domain))
      with errors_New "website descendants do not match their parent domain" ;;
    let* rest := check_sites preview_site primary domain sites in
    Ok ((if rs_SiteID current =? primary then [primary_reason] else []) ++ rest)
  end.

(** ** Dependencies of the server *)

Definition dependency_rows s : list string :=
  let template := rows_where (λ t, tpl_ID t =? db_ActiveRevisionID (rm_DNS s)) (db_Revisions (rm_DNS s)) in
  remove_dups (option_list (db_Hostname (rm_DNS s))
    ++ ((λ t, soa_PrimaryNameserver (tpl_SOA t)) <$> template)
    ++ (t ← template; trec_ValueTemplate <$> rows_where (λ r, String.eqb (trec_Type r) "NS" && negb (contains (trec_ValueTemplate r) "$")) (tpl_Records t))).

Definition dependency_reason (dep : string) : string :=
  "This website or its DNS zone is required by server services (" +:+ dep +:+ ").".

(** The loop over the host names the server needs: those that are domains, each
    once, and the reasons they add. *)
Fixpoint load_dependencies (seen : list string) (sites : list SiteRemovalSite) (dependencies : list string) : list string * list string :=
  match dependencies with
  | [] => ([], [])
  | dep :: rest =>
    let dep := NormalizeDomain (trim_suffix dep ".") in
    if String.eqb dep "" || negb (is_ok (ValidateDomain dep)) || bool_decide (dep ∈ seen) then load_dependencies seen sites rest
    else
      let '(deps, reasons) := load_dependencies (dep :: seen) sites rest in
      (dep :: deps,
       ((λ _, dependency_reason dep) <$> rows_where (λ current, String.eqb (rs_Domain current) dep || has_suffix dep ("." +:+ rs_Domain current)) sites)
       ++ reasons)
  end.
End Rows.

(** ** Resources *)

Section Resources.
Context `{GoUnicode} `{SHA256}.
Implicit Types (s : RemovalStore) (ids : list Z).

(** The text of [jsonb_build_array(record_type,value,priority,ttl,owner_site_id)]. *)
Definition nullable (z : Z) : string := if z =? 0 then "null" else itoa z.

Definition intent_text (r : DNSRecord) : string :=
  "[" +:+ join ", " [jsonb_string (rec_Type r); jsonb_string (rec_Value r);
    match nullablePriority (rec_Type r) (rec_Priority r) with Some z => itoa z | None => "null" end;
    itoa (rec_TTL r); nullable (rec_OwnerSiteID r)] +:+ "]".

Definition intent_digest (text : string) : string := hex_encode (sum256 text).

Definition resource (kind : string) (id siteID parentID revision : Z) (name : string) : SiteRemovalResource :=
  mkSiteRemovalResource id siteID parentID revision kind name "" "" "" "" [].

(** The rows of a table with their website, the rows of a child table with the row
    of their parent, and the mail domains of the chosen websites. *)
Definition of_site ids (t : table) s : list OwnedRow := rows_where (λ r, chosen ids (ow_SiteID r)) (owned t s).

Definition of_parent ids (t parent : table) s : list (OwnedRow * OwnedRow) :=
  r ← owned t s; p ← rows_where (λ p, chosen ids (ow_SiteID p)) (parent_row parent r s); [(r, p)].

Definition mail_domain_of (d : OwnedRow) (w : WebSite) : bool :=
  (ow_SubscriptionID d =? ws_SubscriptionID w)
  && ((ow_SiteID d =? ws_ID w) || ((ow_SiteID d =? 0) && String.eqb (ow_Name d) (ws_Domain w))).

Definition mail_domains ids s : list (OwnedRow * WebSite) :=
  d ← owned MailDomains s; w ← rows_where (mail_domain_of d) (sites_by ids s); [(d, w)].

Definition mail_addresses ids (t : table) s : list (OwnedRow * OwnedRow * WebSite) :=
  r ← owned t s; d ← parent_row MailDomains r s; w ← rows_where (mail_domain_of d) (sites_by ids s); [(r, d, w)].

Definition sftp_of (i : OwnedRow) (w : WebSite) : bool :=
  (ow_SubscriptionID i =? ws_SubscriptionID w)
  && (String.eqb (ow_Value i) ("domains/" +:+ ws_Domain w) || has_prefix (ow_Value i) ("domains/" +:+ ws_Domain w +:+ "/")).

Definition address (r d : OwnedRow) : string := to_lower (ow_Name r) +:+ "@" +:+ ow_Name d.

(** The records a removal touches: those of a chosen website, in a zone of one, or
    at the name of one in a zone of its subscription above it. *)
Definition at_name (zone : ZoneRow) (record : DNSRecord) (w : WebSite) : bool :=
  has_suffix (ws_Domain w) ("." +:+ zr_Domain zone)
  && String.eqb (rec_Host record) (trim_suffix (ws_Domain w) ("." +:+ zr_Domain zone)).

Definition dns_record_resource (record : DNSRecord) (zone : ZoneRow) (selected : Z) : SiteRemovalResource :=
  mkSiteRemovalResource (rec_ID record)
    (if negb (rec_OwnerSiteID record =? 0) then rec_OwnerSiteID record else if negb (selected =? 0) then selected else zr_SiteID zone)
    (zr_ID zone) 0 "dns_record" (rec_Host record) (intent_digest (intent_text record)) "" "" "" [].

Definition dns_records ids s : list SiteRemovalResource :=
  remove_dups (
    record ← db_Records (rm_DNS s);
    zone ← rows_where (λ z, zr_ID z =? rec_ZoneID record) (db_Zones (rm_DNS s));
    zone_site ← site_by_id (zr_SiteID zone) s;
    let selected := rows_where (λ w, (ws_SubscriptionID w =? ws_SubscriptionID zone_site) && at_name zone record w) (sites_by ids s) in
    match selected with
    | [] => if chosen ids (rec_OwnerSiteID record) || chosen ids (zr_SiteID zone) then [dns_record_resource record zone 0] else []
    | _ => dns_record_resource record zone ∘ ws_ID <$> selected
    end).

Definition dns_zone_resource (z : ZoneRow) : SiteRemovalResource :=
  mkSiteRemovalResource (zr_ID z) (zr_SiteID z) (zr_ParentZoneID z) (zr_DesiredRevision z) "dns_zone" (zr_Domain z) "" (zr_Mode z) "" "" [].

Definition plain (kind : string) (revision named : bool) (r : OwnedRow) : SiteRemovalResource :=
  resource kind (ow_ID r) (ow_SiteID r) 0 (if revision then ow_Revision r else 0) (if named then ow_Name r else "").

Definition child (kind : string) (revision named : bool) '(r, p) : SiteRemovalResource :=
  resource kind (ow_ID r) (ow_SiteID p) (ow_ID p) (if revision then ow_Revision r else 0) (if named then ow_Name r else "").

Definition loadRemovalResources ids s : list SiteRemovalResource :=
  (plain "php_application" true false <$> of_site ids PHPApplications s)
  ++ (child "php_worker" true true <$> of_parent ids PHPWorkers PHPApplications s)
  ++ (child "php_deployment" false false <$> of_parent ids PHPDeployments PHPApplications s)
  ++ ((λ '(r, p), resource "php_environment" (ow_ID r) (ow_SiteID p) (ow_SecretID r) (ow_Revision r) (ow_Name r))
        <$> of_parent ids PHPEnvironmentBindings PHPApplications s)
  ++ ((λ r, resource "wordpress" (ow_ID r) (ow_SiteID r) (ow_SecretID r) (ow_Revision r) "") <$> of_site ids WordPressInstances s)
  ++ (plain "git" false false <$> of_site ids GitRepositories s)
  ++ (child "git_deployment" false false <$> of_parent ids GitDeployments GitRepositories s)
  ++ (plain "application" true true <$> of_site ids ApplicationInstances s)
  ++ (child "application_generation" true false <$> of_parent ids ApplicationGenerations ApplicationInstances s)
  ++ ((λ '(r, p), resource "application_secret" (ow_SecretID r) (ow_SiteID p) (ow_ID p) 0 (ow_Name r))
        <$> of_parent ids ApplicationSecretBindings ApplicationInstances s)
  ++ (plain "task" false true <$> of_site ids ScheduledTasks s)
  ++ ((λ r, resource "staging" (ow_ID r) (ow_SiteID r) (ow_ParentID r) 0 (ow_Name r))
        <$> rows_where (λ r, chosen ids (ow_SiteID r) || chosen ids (ow_ParentID r)) (owned StagingOperations s))
  ++ (plain "ftp" false true <$> of_site ids FTPAccounts s)
  ++ (i ← owned SFTPAccessIdentities s; w ← rows_where (sftp_of i) (sites_by ids s);
      [resource "sftp_identity" (ow_ID i) (ws_ID w) (ow_SubscriptionID i) 0 (ow_Name i)])
  ++ (plain "protected_directory" false true <$> of_site ids ProtectedDirectories s)
  ++ ((λ '(d, w), resource "mail_domain" (ow_ID d) (ws_ID w) 0 0 (ow_Name d)) <$> mail_domains ids s)
  ++ ((λ '(r, d, w), resource "mailbox" (ow_ID r) (ws_ID w) (ow_ID d) 0 (address r d)) <$> mail_addresses ids Mailboxes s)
  ++ ((λ '(r, d, w), resource "mail_alias" (ow_ID r) (ws_ID w) (ow_ID d) 0 (address r d)) <$> mail_addresses ids MailAliases s)
  ++ (plain "webmail" false true <$> of_site ids WebmailHosts s)
  ++ (dns_zone_resource <$> rows_where (λ z, chosen ids (zr_SiteID z)) (db_Zones (rm_DNS s)))
  ++ dns_records ids s
  ++ (plain "runtime_generation" true false <$> of_site ids SiteRuntimeGenerations s)
  ++ ((λ r, resource "statistics" (ow_SiteID r) (ow_SiteID r) 0 (ow_Revision r) "") <$> of_site ids SiteWebStatistics s)
  ++ ((λ r, resource "site_policy" (ow_SiteID r) (ow_SiteID r) 0 (ow_Revision r) "") <$> of_site ids SitePolicyOverrides s).

(** ** Databases and backups *)

Definition dsn_names : list string := ["DATABASE_URL"; "DB_URL"; "DATABASE_DSN"; "DB_DSN"; "PDO_DSN"; "MYSQL_DSN"; "MYSQL_URL"].

(** A binding of an application outside the chosen websites that may name the database. *)
Definition may_reference (d : Database) (b : OwnedRow) : bool :=
  String.eqb (ow_Value b) (da_Name d)
  || (negb (String.eqb (ow_Value b) "") && one_of (to_upper (ow_Name b)) dsn_names)
  || (negb (ow_SecretID b =? 0) && one_of (to_upper (ow_Name b)) (dsn_names ++ ["DB_DATABASE"; "DB_NAME"])).

Definition outside_application ids (d : Database) s : bool :=
  existsb (λ b, may_reference d b &&
    existsb (λ app, (ow_SubscriptionID app =? da_SubscriptionID d) && negb (chosen ids (ow_SiteID app)))
      (parent_row PHPApplications b s)) (owned PHPEnvironmentBindings s).

Definition is_sha256 (text : string) : bool :=
  (String.length text =? 64)%nat && string_forall (λ c, is_digit c || in_range 97 102 c) text.

Definition newest_first (a b : Backup) : Prop := bk_CreatedAt b ≤ bk_CreatedAt a.
#[local] Instance newest_first_dec : RelDecision newest_first := λ a b, decide (_ ≤ _).

Definition recovery_backup (d : Database) s : Z :=
  match merge_sort newest_first (rows_where (λ b, (bk_SubscriptionID b =? da_SubscriptionID d) && String.eqb (bk_Status b) "active"
      && one_of (da_Name d) (bk_DatabaseNames b) && is_sha256 (bk_SHA256 b) && negb (String.eqb (bk_ArchivePath b) "")) (rm_Backups s)) with
  | b :: _ => bk_ID b
  | [] => 0
  end.

Definition removal_database ids s (d : Database) : SiteRemovalDatabase :=
  let instances := rows_where (λ i, ow_ParentID i =? da_ID d) (owned WordPressInstances s) in
  let shared := existsb (λ other, String.eqb (da_User other) (da_User d) && negb (da_ID other =? da_ID d)) (rm_Databases s) in
  let external := existsb (λ i, negb (ow_DatabaseManaged i)) instances in
  let managed := existsb ow_DatabaseManaged instances in
  let recovery := recovery_backup d s in
  let reason :=
    if shared then "This database principal is shared."
    else if external then "Externally discovered WordPress data must be retained."
    else if outside_application ids d s then "Another application may reference this database; retain it."
    else if managed && (recovery =? 0) then "Create a verified recovery backup before deleting this Toolkit database."
    else "" in
  mkSiteRemovalDatabase (da_ID d) (da_SiteID d) (da_SubscriptionID d) (da_Name d) (da_User d)
    (if external then "external_wordpress" else if managed then "wordpress_toolkit" else "panel")
    (String.eqb reason "") reason recovery.

Definition row_id_le (a b : Database) : Prop := da_ID a ≤ da_ID b.
#[local] Instance row_id_le_dec : RelDecision row_id_le := λ a b, decide (_ ≤ _).
Definition backup_id_le (a b : Backup) : Prop := bk_ID a ≤ bk_ID b.
#[local] Instance backup_id_le_dec : RelDecision backup_id_le := λ a b, decide (_ ≤ _).

Definition last_state (id : Z) (states : list TrackedDatabaseState) : option TrackedDatabaseState :=
  last (rows_where (λ st, ts_DatabaseID st =? id) states).

Definition keep (reason : string) (d : SiteRemovalDatabase) : SiteRemovalDatabase :=
  d <| rd_DeletionEligible := false |> <| rd_IneligibleReason := reason |>.

Definition verify_database (states : list TrackedDatabaseState) (d : SiteRemovalDatabase) : SiteRemovalDatabase :=
  if negb (rd_DeletionEligible d) then d
  else
    match last_state (rd_ID d) states with
    | None => keep "Database ownership could not be verified; this database will be kept." d
    | Some st =>
      if negb (ts_OwnershipVerified st) || negb (String.eqb (ts_Name st) (rd_Name d))
         || negb (String.eqb (ts_Principal st) (rd_Principal d)) || negb (String.eqb (ts_LastError st) "")
      then keep "Database ownership could not be verified; this database will be kept." d
      else if ts_PrincipalShared st then keep "This database principal has other grants; this database will be kept." d
      else d
    end.

Definition verifyRemovalDatabases (opts : SiteRemovalOptions) (answers : Answers) (databases : list SiteRemovalDatabase) : list SiteRemovalDatabase :=
  let targets := (λ d, mkDatabaseAdminTarget (rd_ID d) (rd_Name d) (rd_Principal d)) <$> rows_where rd_DeletionEligible databases in
  if negb (opt_DatabaseInspector opts) || negb (has_rows targets) then databases
  else verify_database (match an_Inspect answers targets with Ok states => states | Err _ => [] end) <$> databases.

Definition backup_resource (b : Backup) : SiteRemovalResource :=
  mkSiteRemovalResource (bk_ID b) (bk_SiteID b) (bk_SubscriptionID b) 0 "backup" (bk_TargetName b) "" (bk_Status b)
    (bk_ArchivePath b) (bk_SHA256 b) (bk_DatabaseNames b).

Definition loadRemovalData (opts : SiteRemovalOptions) (answers : Answers) ids s : list SiteRemovalDatabase * list SiteRemovalResource :=
  let databases := verifyRemovalDatabases opts answers
    (removal_database ids s <$> merge_sort row_id_le (rows_where (λ d, chosen ids (da_SiteID d)) (rm_Databases s))) in
  let recovery := rows_where (Z.ltb 0) (rd_RecoveryBackupID <$> databases) in
  (databases,
   backup_resource <$> merge_sort backup_id_le (rows_where (λ b, chosen ids (bk_SiteID b) || bool_decide (bk_ID b ∈ recovery)) (rm_Backups s))).

(** ** The preview *)

Definition valid_parent (w : WebSite) s : bool :=
  existsb (λ parent, (ws_SubscriptionID parent =? ws_SubscriptionID w) && (ws_CustomerID parent =? ws_CustomerID w)
    && (ws_SystemAccountID parent =? ws_SystemAccountID w) && has_suffix (ws_Domain w) ("." +:+ ws_Domain parent))
    (site_by_id (ws_ParentSiteID w) s).

(** Zones below those of the chosen websites, and records of theirs in another
    subscription. *)
Definition dependent_zone ids s : bool :=
  existsb (λ zone, negb (chosen ids (zr_SiteID zone)) &&
    existsb (λ above, chosen ids (zr_SiteID above) && (zr_ID above =? zr_ParentZoneID zone)) (db_Zones (rm_DNS s)))
    (db_Zones (rm_DNS s)).

Definition foreign_record ids (subscriptionID : Z) s : bool :=
  existsb (λ record, chosen ids (rec_OwnerSiteID record) &&
    existsb (λ zone, (zr_ID zone =? rec_ZoneID record) &&
      existsb (λ w, negb (ws_SubscriptionID w =? subscriptionID)) (site_by_id (zr_SiteID zone) s)) (db_Zones (rm_DNS s)))
    (db_Records (rm_DNS s)).

Definition resource_reasons ids (dependencies : list string) (r : SiteRemovalResource) : list string :=
  (if String.eqb (rr_Kind r) "dns_record" && negb (bool_decide (rr_SiteID r ∈ ids))
   then ["This DNS zone contains records owned by another website. Move them before removal."] else [])
  ++ (if String.eqb (rr_Kind r) "webmail" && one_of (rr_Name r) dependencies
      then ["This webmail hostname is required by server services."] else []).

(** The operation that holds a website whose removal has started. *)
Definition current_removal (siteID : Z) s : result SiteRemovalOperation :=
  match rows_where (λ t, (rt_SiteID t =? siteID) && negb (rt_Released t)) (rm_Targets s) with
  | t :: _ => operation_by_id (rt_OperationID t) s
  | [] => Err ErrForbidden
  end.

Definition preview (opts : SiteRemovalOptions) (answers : Answers) (siteID : Z) s : result SiteRemovalPreview :=
  match (w ← site_by_id siteID s; sub ← rows_where (λ sub, sb_ID sub =? ws_SubscriptionID w) (rm_Subscriptions s); [(w, sub)]) with
  | [] => Err ErrForbidden
  | (w, sub) :: _ =>
    return_if (0 <? ws_ParentSiteID w) && negb (valid_parent w s)
      with errors_New "website parent has inconsistent ownership or identity" ;;
    let* operation :=
      (if negb (String.eqb (ws_RemovalState w) "none") then
         match current_removal siteID s with
         | Ok op => Ok (Some op)
         | Err _ => Err (errors_New "website removal reservation is inconsistent")
         end
       else Ok None) in
    let* loaded := load_sites (ws_SubscriptionID w) (ws_CustomerID w) (removal_tree siteID s) s in
    let '(sites, legacy) := loaded in
    let ids := rs_SiteID <$> sites in
    let* primary := check_sites siteID (sb_PrimarySiteID sub) (ws_Domain w) sites in
    let* hosts :=
      (if opt_Dependencies opts then
         match an_Dependencies answers with
         | Ok hosts => Ok hosts
         | Err _ => Err (errors_New "server certificate dependencies cannot be verified; retry after the agent is available")
         end
       else Ok []) in
    let '(deps, required) := load_dependencies [] sites (opt_PanelHostname opts :: hosts ++ dependency_rows s) in
    let deps := merge_sort text_le deps in
    let resources := loadRemovalResources ids s in
    let '(databases, backups) := loadRemovalData opts answers ids s in
    let reasons :=
      (if bool_decide (is_Some operation) then ["Removal has already started. Open the existing operation."] else [])
      ++ legacy ++ primary ++ required
      ++ (if dependent_zone ids s then ["Another website depends on this DNS zone. Move its DNS before removal."] else [])
      ++ (if foreign_record ids (ws_SubscriptionID w) s
          then ["Website-owned DNS records are in another subscription. Repair their ownership before removal."] else [])
      ++ (r ← resources; resource_reasons ids deps r) in
    let snapshot := mkSiteRemovalSnapshot 1 sites resources databases backups deps in
    Ok (mkSiteRemovalPreview (ws_ID w) (ws_SubscriptionID w) (ws_CustomerID w) (ws_ParentSiteID w) (sb_PrimarySiteID sub)
          (ws_Domain w) (if 0 <? ws_ParentSiteID w then "subdomain" else "website") (negb (has_rows reasons)) reasons
          snapshot (Digest snapshot) operation)
  end.
End Resources.
