(* ===== verification/RemovalFence.v ===== *)
(** * Website removal: the fence before jobs, and the jobs of a removal

    internal/control/provision/site_job_fence.go, site_job_scope.go and
    site_removal_lease.go: which jobs work on a website, how a job finds the
    website it works on and stops when its removal has started, and which waiting
    jobs a removal cancels. *)

From S2P Require Import Prelude Tx Tables GoStr GoCrypto Site DNSTypes DNSTables OpsTypes RemovalTypes RemovalPreview.

Definition removalJobClassification : list (string * string) :=
  [("dispatch_operation_events", "node"); ("sweep_operations", "node"); ("verify_operation_issue", "shared");
   ("verify_operation_archive", "shared");
   ("create_site", "target"); ("issue_cert", "target"); ("install_custom_cert", "target"); ("set_hosting_state", "target");
   ("create_backup", "target"); ("restore_backup", "target"); ("configure_webmail", "target");
   ("configure_dns_zone", "target"); ("create_database", "target");
   ("deploy_php_release", "target"); ("rollback_php_release", "target"); ("reconcile_php_application", "target");
   ("reconcile_php_workers", "target");
   ("wordpress_operation", "target"); ("cleanup_wordpress_removal", "target"); ("converge_application", "target");
   ("run_scheduled_task", "target"); ("run_staging_operation", "target");
   ("generate_web_statistics", "target"); ("maintenance_prune_site_backups", "target");
   ("maintenance_delete_backup", "target"); ("system_database_mutation", "target"); ("mail_import", "target");
   ("reconcile_system", "shared"); ("converge_subscription", "shared"); ("converge_pending_subscriptions", "shared");
   ("configure_mail", "shared"); ("reconcile_applications", "shared");
   ("sync_dns_template", "shared"); ("sync_plan_subscriptions", "shared"); ("sync_addon_subscriptions", "shared");
   ("collect_subscription_usage", "shared");
   ("migrate_subscription_account", "shared"); ("cleanup_legacy_homes", "shared"); ("sweep_legacy_account_cleanup", "shared");
   ("sweep_legacy_account_migrations", "shared");
   ("sweep_scheduled_tasks", "shared"); ("sweep_wordpress", "shared"); ("sweep_php_applications", "shared");
   ("sweep_php_runtimes", "shared"); ("sweep_web_statistics", "shared");
   ("maintenance_renew_certs", "shared"); ("maintenance_scheduled_backups", "shared"); ("maintenance_prune_backups", "shared");
   ("maintenance_reconcile", "shared"); ("maintenance_mail_queue_sweep", "shared");
   ("finalize_billing_account", "shared"); ("teardown_billing_account", "shared");
   ("system_refresh_inventory", "node"); ("system_control_service", "node"); ("system_apply_fail2ban", "node");
   ("system_stage_firewall", "node"); ("system_apply_updates", "node"); ("system_host_power", "node");
   ("sweep_billing_webhooks", "node"); ("deliver_billing_webhook", "node"); ("deliver_notifications", "node");
   ("server_backup", "node"); ("server_backup_prune", "node"); ("server_backup_sweep", "node");
   ("remove_site", "removal"); ("sweep_site_removals", "shared"); ("expire_mail_import_previews", "shared")].

Definition job_class (kind : string) : string :=
  match rows_where (λ '(k, _), String.eqb k kind) removalJobClassification with (_, class) :: _ => class | [] => "" end.

Definition is_target (kind : string) : bool := String.eqb (job_class kind) "target".

Definition serverSnapshotSensitiveJob (kind : string) : bool :=
  one_of kind ["server_backup"; "converge_subscription"; "reconcile_system"; "migrate_subscription_account"; "teardown_billing_account"]
  || is_target kind.

(** ** The website of a job *)

(** The queries of the fence, with the key they are asked with. *)
Inductive FenceQuery :=
| FenceSite (id : Z)
| FenceDomain (domain : string)
| FenceImport (id : string)
| FenceBackupSite (id : Z)
| FenceWebmail (id : Z)
| FenceZone (id : Z)
| FencePHP (id : Z)
| FenceWordPress (id : Z)
| FenceApplication (id : Z)
| FenceStaging (id : Z)
| FenceRun (id : Z)
| FenceDatabase (id : Z)
| FenceBackup (id : Z).

Definition site_kinds : list string :=
  ["create_site"; "issue_cert"; "install_custom_cert"; "set_hosting_state"; "generate_web_statistics"; "maintenance_prune_site_backups"].
Definition php_kinds : list string := ["deploy_php_release"; "rollback_php_release"; "reconcile_php_application"; "reconcile_php_workers"].

Definition removalFenceQuery (kind : string) (args : removalFenceArgs) : option FenceQuery :=
  if String.eqb kind "mail_import" then Some (FenceImport (fa_ImportID args))
  else if one_of kind site_kinds then Some (FenceSite (fa_SiteID args))
  else if one_of kind ["create_backup"; "restore_backup"] then
    Some (if 0 <? fa_SiteID args then FenceSite (fa_SiteID args) else FenceBackupSite (fa_BackupID args))
  else if String.eqb kind "configure_webmail" then Some (FenceWebmail (fa_WebmailID args))
  else if String.eqb kind "configure_dns_zone" then Some (FenceZone (fa_ZoneID args))
  else if one_of kind php_kinds then Some (FencePHP (fa_ApplicationID args))
  else if one_of kind ["wordpress_operation"; "cleanup_wordpress_removal"] then Some (FenceWordPress (fa_InstanceID args))
  else if String.eqb kind "converge_application" then Some (FenceApplication (fa_ApplicationID args))
  else if String.eqb kind "run_staging_operation" then Some (FenceStaging (fa_OperationID args))
  else if String.eqb kind "run_scheduled_task" then Some (FenceRun (fa_RunID args))
  else if one_of kind ["create_database"; "system_database_mutation"] then Some (FenceDatabase (fa_DatabaseID args))
  else if String.eqb kind "maintenance_delete_backup" then Some (FenceBackup (fa_BackupID args))
  else None.

(** A missing key: an empty text, or a number that is not positive. *)
Definition missing (q : FenceQuery) : bool :=
  match q with
  | FenceDomain text | FenceImport text => String.eqb text ""
  | FenceSite id | FenceBackupSite id | FenceWebmail id | FenceZone id | FencePHP id | FenceWordPress id
  | FenceApplication id | FenceStaging id | FenceRun id | FenceDatabase id | FenceBackup id => id <=? 0
  end.

(** The query that is asked in the end: a job without the key of its website may
    have its domain. *)
Definition fence_query (kind : string) (args : removalFenceArgs) : option FenceQuery :=
  match removalFenceQuery kind args with
  | None => None
  | Some q =>
    if negb (missing q) then Some q
    else match q with
         | FenceSite _ => if String.eqb (fa_Domain args) "" then None else Some (FenceDomain (fa_Domain args))
         | _ => None
         end
  end.

Section Fence.
Context `{GoUnicode} `{SHA256}.
Implicit Types (s : RemovalStore).

(** What a query finds: the websites it joins, and the time it reads. *)
Definition joined (sites : list WebSite) : list (list WebSite * Z) := (λ w, ([w], ws_CreatedAt w)) <$> sites.

Definition by_key (t : table) (id : Z) s : list OwnedRow := rows_where (λ r, ow_ID r =? id) (owned t s).

(** The row of a website that may be absent ([LEFT JOIN]). *)
Definition maybe_site (id created : Z) s : list (list WebSite * Z) := [(if id =? 0 then [] else site_by_id id s, created)].

Definition fence_rows (q : FenceQuery) s : list (list WebSite * Z) :=
  match q with
  | FenceSite id => joined (site_by_id id s)
  | FenceDomain domain => joined (rows_where (λ w, String.eqb (ws_Domain w) domain) (rm_Sites s))
  | FenceImport id => i ← rows_where (λ r, String.eqb (ow_Value r) id) (owned MailImports s);
      box ← parent_row Mailboxes i s; domain ← parent_row MailDomains box s; joined (site_by_id (ow_SiteID domain) s)
  | FenceBackupSite id => b ← rows_where (λ b, bk_ID b =? id) (rm_Backups s); joined (site_by_id (bk_SiteID b) s)
  | FenceWebmail id => h ← by_key WebmailHosts id s; joined (site_by_id (ow_SiteID h) s)
  | FenceZone id => z ← rows_where (λ z, zr_ID z =? id) (db_Zones (rm_DNS s)); joined (site_by_id (zr_SiteID z) s)
  | FencePHP id => app ← by_key PHPApplications id s; joined (site_by_id (ow_SiteID app) s)
  | FenceWordPress id => i ← by_key WordPressInstances id s; joined (site_by_id (ow_SiteID i) s)
  | FenceApplication id => app ← by_key ApplicationInstances id s; joined (site_by_id (ow_SiteID app) s)
  | FenceStaging id => o ← by_key StagingOperations id s; source ← site_by_id (ow_SiteID o) s;
      target ← site_by_id (ow_ParentID o) s; [([source; target], ow_CreatedAt o)]
  | FenceRun id => r ← by_key ScheduledTaskRuns id s; task ← parent_row ScheduledTasks r s; maybe_site (ow_SiteID task) (ow_CreatedAt task) s
  | FenceDatabase id => d ← rows_where (λ d, da_ID d =? id) (rm_Databases s); maybe_site (da_SiteID d) (da_CreatedAt d) s
  | FenceBackup id => b ← rows_where (λ b, bk_ID b =? id) (rm_Backups s); maybe_site (bk_SiteID b) (bk_CreatedAt b) s
  end.

(** The websites a job works on. *)
Definition query_sites (q : FenceQuery) s : list Z := ('(sites, _) ← fence_rows q s; ws_ID <$> sites).

Definition job_sites (kind : string) (args : removalFenceArgs) s : list Z :=
  match fence_query kind args with Some q => query_sites q s | None => [] end.

(** The row that is read, the only one of its key: the state of the removal, and
    the time. *)
Definition fence_row (q : FenceQuery) s : result (string * Z) :=
  match fence_rows q s with
  | [] => Err ErrNoRows
  | ((_, created) :: _) as rows =>
    Ok (match rows_where (λ w, negb (String.eqb (ws_RemovalState w) "none")) (concat (fst <$> rows)) with
        | w :: _ => ws_RemovalState w
        | [] => "none"
        end, created)
  end.

(** A backup that a removal holds as evidence is not deleted. *)
Definition backup_reserved (id : Z) s : bool :=
  existsb (λ o, negb (String.eqb (ro_State o) "completed") && existsb (λ b, rr_ID b =? id) (sn_Backups (ro_Snapshot o)))
    (rm_Operations s).

(** ** The jobs of a removal *)

Definition resource_ids (kind : string) (snapshot : SiteRemovalSnapshot) : list Z :=
  rr_ID <$> rows_where (λ r, String.eqb (rr_Kind r) kind) (sn_Resources snapshot).

(** The rules of [TargetSiteJobScope]: kinds, the key of the job, and the keys of
    the snapshot it is looked up in. *)
Definition scope_rules (snapshot : SiteRemovalSnapshot) : list (list string * (removalFenceArgs → Z) * list Z) :=
  [(php_kinds, fa_ApplicationID, resource_ids "php_application" snapshot);
   (["wordpress_operation"; "cleanup_wordpress_removal"], fa_InstanceID, resource_ids "wordpress" snapshot);
   (["converge_application"], fa_ApplicationID, resource_ids "application" snapshot);
   (["configure_webmail"], fa_WebmailID, resource_ids "webmail" snapshot);
   (["configure_dns_zone"], fa_ZoneID, resource_ids "dns_zone" snapshot);
   (["create_database"; "system_database_mutation"], fa_DatabaseID, rd_ID <$> sn_Databases snapshot);
   (["restore_backup"], fa_BackupID,
     rr_ID <$> rows_where (λ b, bool_decide (rr_SiteID b ∈ removalSelectedSites snapshot)) (sn_Backups snapshot));
   (["maintenance_delete_backup"], fa_BackupID, rr_ID <$> sn_Backups snapshot);
   (["run_staging_operation"], fa_OperationID, resource_ids "staging" snapshot)].

(** The websites of a mail import, and the task of a run. *)
Definition import_of ids (id : string) s : bool :=
  has_rows (i ← rows_where (λ r, String.eqb (ow_Value r) id) (owned MailImports s);
    box ← parent_row Mailboxes i s; rows_where (λ d, chosen ids (ow_SiteID d)) (parent_row MailDomains box s)).

Definition run_of (tasks : list Z) (id : Z) s : bool :=
  has_rows (rows_where (λ r, bool_decide (ow_ParentID r ∈ tasks)) (by_key ScheduledTaskRuns id s)).

Definition TargetSiteJobScope (snapshot : SiteRemovalSnapshot) (kind : string) (args : removalFenceArgs) s : bool :=
  let siteIDs := removalSelectedSites snapshot in
  let domains := rs_Domain <$> sn_Sites snapshot in
  (one_of kind ["create_site"; "issue_cert"; "install_custom_cert"; "set_hosting_state"; "create_backup"; "restore_backup";
                "generate_web_statistics"; "maintenance_prune_site_backups"] && bool_decide (fa_SiteID args ∈ siteIDs))
  || (String.eqb kind "mail_import" && import_of siteIDs (fa_ImportID args) s)
  || (one_of kind ["issue_cert"; "install_custom_cert"; "configure_webmail"; "create_backup"; "restore_backup"; "configure_dns_zone"]
      && one_of (fa_Domain args) domains)
  || (String.eqb kind "reconcile_system" && match fa_Sites args with [id] => bool_decide (id ∈ siteIDs) | _ => false end)
  || existsb (λ '(kinds, key, ids), one_of kind kinds && bool_decide (key args ∈ (ids : list Z))) (scope_rules snapshot)
  || (String.eqb kind "run_scheduled_task" && run_of (resource_ids "task" snapshot) (fa_RunID args) s).

Definition in_scope (snapshot : SiteRemovalSnapshot) (j : JobRow) s : bool :=
  match jb_Args j with Some args => TargetSiteJobScope snapshot (jb_Kind j) args s | None => false end.
End Fence.
