(* ===== verification/RemovalStore.v ===== *)
(** * Website removal: transactions

    The transactions of internal/control/provision/site_removal_store.go,
    site_removal_jobs.go, site_removal_finalize.go and site_removal_shared.go. *)

From S2P Require Import Prelude Tx Tables GoStr GoTime GoCrypto Regex Site DNSTypes DNSRecord DNSTables DNSEdit OpsTypes RemovalTypes RemovalPreview RemovalFence.
From Stdlib Require Import Ascii.

Definition ErrRemovalPreviewChanged : error :=
  sentinel "provision.ErrRemovalPreviewChanged" "website removal preview changed; review its current impact before confirming".
Definition ErrSubscriptionTerminating : error := errors_New "billing account teardown has started".

Section Transactions.
Context `{GoUnicode} `{SHA256}.
Implicit Types (s : RemovalStore) (op : SiteRemovalOperation).

(** ** Shared statements *)

(** [UPDATE sites SET removal_state=...]: the columns the DNS components read are
    of the same table. *)
Definition mirror_removal (ids : list Z) (state : string) (d : DNSStore) : DNSStore :=
  d <| db_Sites := rows_update (λ w, bool_decide (st_ID w ∈ ids)) (λ w, w <| st_RemovalState := state |>) (db_Sites d) |>.

Definition set_removal (p : WebSite → bool) (state : string) (f : WebSite → WebSite) : tx RemovalStore unit :=
  tx_write (λ s, s <| rm_DNS := mirror_removal (ws_ID <$> rows_where p (rm_Sites s)) state (rm_DNS s) |>
                   <| rm_Sites := rows_update p (λ w, (f w) <| ws_RemovalState := state |>) (rm_Sites s) |>).

Definition update_operations (p : SiteRemovalOperation → bool) (f : SiteRemovalOperation → SiteRemovalOperation) : tx RemovalStore Z :=
  let! rows := tx_read rm_Operations in
  let! _ := tx_write (λ s, s <| rm_Operations := rows_update p f rows |>) in
  tx_ret (Z.of_nat (length (rows_where p rows))).

(** [quota.LockSubscriptionMutationTx]: what is left of it when transactions do
    not interleave. *)
Definition LockSubscriptionMutationTx (subscriptionID : Z) : tx RemovalStore unit :=
  fail_if subscriptionID <=? 0 with errors_New "subscription id is required" ;;
  let! rows := tx_read (λ s, rows_where (λ b, bl_SubscriptionID b =? subscriptionID) (rm_Billing s)) in
  match rows with
  | [] => tx_ret ()
  | b :: _ => fail_if one_of (bl_ProvisioningState b) ["terminating"; "terminated"] with ErrSubscriptionTerminating ;; tx_ret ()
  end.

(** A job of River, unless an unfinished one of the kind has the same arguments. *)
Definition remove_args (operationID revision : Z) : removalFenceArgs :=
  mkFenceArgs 0 0 0 0 0 0 0 0 operationID revision "" "" [].

Definition live_states : list string := ["available"; "pending"; "running"; "retryable"; "scheduled"].

Definition is_removal_job (operationID revision : Z) (j : JobRow) : bool :=
  String.eqb (jb_Kind j) "remove_site" &&
  match jb_Args j with Some args => (fa_OperationID args =? operationID) && (fa_Revision args =? revision) | None => false end.

Definition new_job (clock : Z) (kind : string) (args : removalFenceArgs) : tx RemovalStore unit :=
  tx_write (λ s, s <| rm_Jobs := rm_Jobs s ++ [mkJobRow (rm_JobSeq s) kind (Some args) "available" clock] |>
                   <| rm_JobSeq := rm_JobSeq s + 1 |>).

Definition insert_removal_job (clock operationID revision : Z) : tx RemovalStore unit :=
  let! jobs := tx_read rm_Jobs in
  if existsb (λ j, is_removal_job operationID revision j && one_of (jb_State j) live_states) jobs then tx_ret ()
  else new_job clock "remove_site" (remove_args operationID revision).

Definition removalAudit (actorID : Z) (email : string) op (action : string) (metadata : list (string * string)) : tx RemovalStore unit :=
  tx_write (λ s, s <| rm_Audit := rm_Audit s ++
    [mkRemovalAudit actorID email (ro_CustomerID op) (ro_SubscriptionID op) action (ro_ID op) metadata] |>).

(** ** A request *)

Definition sameRemovalRequest op (req : RemoveSiteReq) : result SiteRemovalOperation :=
  let selected := merge_sort Z.le (rq_DeleteDatabaseIDs req) in
  if negb (ro_SiteID op =? rq_SiteID req) || negb (String.eqb (ro_Domain op) (rq_ConfirmDomain req))
     || negb (bool_decide (selected = ro_DeleteDatabaseIDs op))
     || ((1 <? Z.of_nat (length (sn_Sites (ro_Snapshot op)))) && negb (rq_IncludeChildren req))
  then Err (errors_New "removal request identity is already bound to another approved choice")
  else Ok op.

(** The loop over the chosen databases, in order. *)
Fixpoint check_selection (databases : list SiteRemovalDatabase) (previous : option Z) (selected : list Z) : result unit :=
  match selected with
  | [] => Ok ()
  | id :: selected =>
    return_if (id <=? 0) || bool_decide (previous = Some id) with errors_New "invalid database removal selection" ;;
    return_if negb (existsb (λ d, (rd_ID d =? id) && rd_DeletionEligible d) databases)
      with errors_New "selected database must be retained" ;;
    check_selection databases (Some id) selected
  end.

Definition actor_label (actor : Actor) : string :=
  let label := trim_space (ac_Email actor) in
  if String.eqb label "" then "user:" +:+ itoa (ac_ID actor) else label.

(** The indexes of the two tables: a request is one operation, a website has one
    that is not completed, and is the target of one that is not released. *)
Definition insert_operation (actor : Actor) (req : RemoveSiteReq) (pv : SiteRemovalPreview) (selected : list Z) : tx RemovalStore SiteRemovalOperation :=
  let! s := tx_read (λ s, s) in
  fail_if existsb (λ o, String.eqb (ro_RequestID o) (rq_RequestID req)
      || ((ro_SiteID o =? pv_SiteID pv) && negb (String.eqb (ro_State o) "completed"))) (rm_Operations s) with unique_violation ;;
  let op := mkSiteRemovalOperation (rm_OperationSeq s) (rq_RequestID req) (pv_SiteID pv) (pv_SubscriptionID pv) (pv_CustomerID pv)
    (ac_ID actor) (actor_label actor) (pv_Domain pv) (pv_ParentSiteID pv) (pv_Snapshot pv) selected 1 "queued" "waiting" [] "" in
  let! _ := tx_write (λ s, s <| rm_Operations := rm_Operations s ++ [op] |> <| rm_OperationSeq := rm_OperationSeq s + 1 |>) in
  tx_ret op.

Definition insert_target (operationID siteID : Z) : tx RemovalStore unit :=
  let! targets := tx_read rm_Targets in
  fail_if existsb (λ t, (rt_SiteID t =? siteID) && (negb (rt_Released t) || (rt_OperationID t =? operationID))) targets
    with unique_violation ;;
  tx_write (λ s, s <| rm_Targets := targets ++ [mkRemovalTarget operationID siteID false] |>).

Definition reserve_site (operationID revision siteID : Z) : tx RemovalStore unit :=
  let! _ := insert_target operationID siteID in
  set_removal (λ w, (ws_ID w =? siteID) && String.eqb (ws_RemovalState w) "none") "queued"
    (λ w, w <| ws_RemovalRevision := revision |>).

Definition count_text {A} (l : list A) : string := itoa (Z.of_nat (length l)).

(** The transaction of [RemoveSiteFor]. *)
Definition reserve (opts : SiteRemovalOptions) (answers : Answers) (clock : Z) (actor : Actor) (req : RemoveSiteReq) (subscriptionID : Z)
    : tx RemovalStore SiteRemovalOperation :=
  let! _ := LockSubscriptionMutationTx subscriptionID in
  let! existing := tx_read (operation_by_request (rq_RequestID req)) in
  match existing with
  | Ok existing => tx_lift (sameRemovalRequest existing req)
  | Err _ =>
    let! allowed := tx_read (canRemoveSite actor (rq_SiteID req)) in
    fail_if negb allowed with ErrForbidden ;;
    let! pv := tx_query (preview opts answers (rq_SiteID req)) in
    fail_if negb (pv_SubscriptionID pv =? subscriptionID) with ErrRemovalPreviewChanged ;;
    fail_if negb (pv_Allowed pv) with errors_New (join " " (pv_BlockedReasons pv)) ;;
    fail_if negb (String.eqb (pv_Digest pv) (rq_PreviewDigest req)) with ErrRemovalPreviewChanged ;;
    fail_if negb (String.eqb (rq_ConfirmDomain req) (pv_Domain pv))
      with errors_New ("type " +:+ pv_Domain pv +:+ " to confirm permanent removal") ;;
    fail_if (1 <? Z.of_nat (length (sn_Sites (pv_Snapshot pv)))) && negb (rq_IncludeChildren req)
      with errors_New "acknowledge removal of the listed child domains" ;;
    let selected := merge_sort Z.le (rq_DeleteDatabaseIDs req) in
    let! _ := tx_lift (check_selection (sn_Databases (pv_Snapshot pv)) None selected) in
    let! op := insert_operation actor req pv selected in
    let ids := merge_sort Z.le (removalSelectedSites (pv_Snapshot pv)) in
    let! _ := tx_each (reserve_site (ro_ID op) (ro_Revision op)) ids in
    let! _ := insert_removal_job clock (ro_ID op) (ro_Revision op) in
    let! _ := removalAudit (ac_ID actor) (ac_Email actor) op "site.removal_requested"
      [("sites", count_text ids); ("databases_deleted", count_text selected);
       ("databases_retained", itoa (Z.of_nat (length (sn_Databases (pv_Snapshot pv))) - Z.of_nat (length selected)));
       ("backups_retained", count_text (sn_Backups (pv_Snapshot pv)))] in
    tx_ret op
  end.

(** The transaction of [RetrySiteRemovalFor]. *)
Definition target_of (targets : list RemovalTarget) op (w : WebSite) : bool :=
  existsb (λ t, (rt_OperationID t =? ro_ID op) && (rt_SiteID t =? ws_ID w) && negb (rt_Released t)) targets.

Definition retry (clock : Z) (actor : Actor) (id subscriptionID : Z) : tx RemovalStore SiteRemovalOperation :=
  let! _ := LockSubscriptionMutationTx subscriptionID in
  let! op := tx_query (operation_by_id id) in
  if String.eqb (ro_State op) "completed" then tx_ret op
  else
    let! allowed := tx_read (canRemoveSite actor (ro_SiteID op)) in
    fail_if negb allowed with ErrForbidden ;;
    fail_if negb (String.eqb (ro_State op) "failed") with errors_New "only failed website removals can be retried" ;;
    let! _ := update_operations (λ o, ro_ID o =? id)
      (λ o, o <| ro_State := "queued" |> <| ro_Revision := ro_Revision o + 1 |> <| ro_LastError := "" |>) in
    let! op := tx_query (operation_by_id id) in
    let! targets := tx_read rm_Targets in
    let! _ := set_removal (target_of targets op) "queued" (λ w, w <| ws_RemovalRevision := ro_Revision op |>) in
    let! _ := insert_removal_job clock (ro_ID op) (ro_Revision op) in
    let! _ := removalAudit (ac_ID actor) (ac_Email actor) op "site.removal_retried" [] in
    tx_ret op.

(** ** The worker *)

Definition drain_jobs op : tx RemovalStore unit :=
  tx_write (λ s, s <| rm_Jobs := rows_update
    (λ j, one_of (jb_State j) ["available"; "pending"; "scheduled"; "retryable"] && in_scope (ro_Snapshot op) j s)
    (λ j, j <| jb_State := "cancelled" |>) (rm_Jobs s) |>).

Definition running_jobs op s : Z :=
  Z.of_nat (length (rows_where (λ j, String.eqb (jb_State j) "running" && in_scope (ro_Snapshot op) j s) (rm_Jobs s))).

Definition mark_waiting op : tx RemovalStore unit :=
  let! _ := update_operations (λ o, (ro_ID o =? ro_ID op) && (ro_Revision o =? ro_Revision op) && negb (String.eqb (ro_State o) "completed"))
    (λ o, o <| ro_State := "waiting" |> <| ro_Stage := "waiting" |>) in
  tx_ret ().

(** [ARRAY(SELECT DISTINCT ... ORDER BY ...)]. *)
Definition merge_checkpoints (old new : list string) : list string := merge_sort text_le (remove_dups (old ++ new)).

Definition advanceRemoval op (stage : string) (checkpoints : list string) : tx RemovalStore unit :=
  let! _ := LockSubscriptionMutationTx (ro_SubscriptionID op) in
  let! count := update_operations
    (λ o, (ro_ID o =? ro_ID op) && (ro_Revision o =? ro_Revision op) && one_of (ro_State o) ["queued"; "waiting"; "running"])
    (λ o, o <| ro_State := "running" |> <| ro_Stage := stage |>
            <| ro_Checkpoints := merge_checkpoints (ro_Checkpoints o) checkpoints |> <| ro_LastError := "" |>) in
  fail_if negb (count =? 1) with errors_New "website removal operation changed" ;;
  set_removal (λ w, bool_decide (ws_ID w ∈ removalSelectedSites (ro_Snapshot op))) "removing" id.

Definition failure_message (stage : string) : string :=
  "Website removal could not complete " +:+ stage +:+ ". Correct the service issue and retry this operation; retained data is unchanged.".

(** The transaction of [failRemoval]: whether there was an operation to fail. *)
Definition fail_removal op (stage : string) : tx RemovalStore bool :=
  let! _ := LockSubscriptionMutationTx (ro_SubscriptionID op) in
  let! count := update_operations (λ o, (ro_ID o =? ro_ID op) && (ro_Revision o =? ro_Revision op) && negb (String.eqb (ro_State o) "completed"))
    (λ o, o <| ro_State := "failed" |> <| ro_Stage := stage |> <| ro_LastError := failure_message stage |>) in
  if count =? 0 then tx_ret false
  else
    let! _ := set_removal (λ w, bool_decide (ws_ID w ∈ removalSelectedSites (ro_Snapshot op))) "failed" id in
    let! _ := removalAudit (ro_ActorUserID op) (ro_ActorLabel op) op "site.removal_failed" [("stage", stage)] in
    tx_ret true.

(** ** The records of removed websites in zones that stay *)

Definition shared_intent : string := "shared-dns-intent".

Definition on_dns {A} (m : tx DNSStore A) : tx RemovalStore A :=
  λ s, match m (rm_DNS s) with
       | Ok (a, d) => Ok (a, s <| rm_DNS := d |>)
       | Err e => Err e
       end.

(** One approved record: the zone it was taken from, unless it stays. *)
Definition remove_approved (selected : list Z) (r : SiteRemovalResource) : tx RemovalStore (list Z) :=
  let! rows := tx_read (λ s,
    record ← rows_where (λ record, (rec_ID record =? rr_ID r) && (rec_ZoneID record =? rr_ParentID r)) (db_Records (rm_DNS s));
    zone ← rows_where (λ z, zr_ID z =? rec_ZoneID record) (db_Zones (rm_DNS s)); [(record, zone)]) in
  match rows with
  | [] => tx_ret []
  | (record, zone) :: _ =>
    fail_if negb (String.eqb (intent_digest (intent_text record)) (rr_IntentDigest r))
      with errors_New "approved DNS record changed before removal" ;;
    if bool_decide (zr_SiteID zone ∈ selected) || negb (String.eqb (zr_Mode zone) "primary") then tx_ret []
    else
      let! _ := on_dns (delete_records (λ record, (rec_ID record =? rr_ID r) && (rec_ZoneID record =? rr_ParentID r))) in
      tx_ret [rr_ParentID r]
  end.

Fixpoint remove_records (selected : list Z) (resources : list SiteRemovalResource) : tx RemovalStore (list Z) :=
  match resources with
  | [] => tx_ret []
  | r :: resources =>
    let! changed := remove_approved selected r in
    let! rest := remove_records selected resources in
    tx_ret (changed ++ rest)
  end.

Definition touch_zone (now zoneID : Z) : tx DNSStore unit :=
  let! zone := tx_query (zone_by_id zoneID) in
  let! revision := tx_query (λ db, query_row (rows_where (λ t, tpl_Revision t =? zr_TemplateRevision zone) (db_Revisions db))) in
  let! serial := tx_lift (nextProvisionDNSSerial now (zr_Serial zone) (zone_format zone revision)) in
  update_zones (λ z, zr_ID z =? zoneID)
    (λ z, z <| zr_Serial := serial |> <| zr_DesiredRevision := zr_DesiredRevision z + 1 |>
            <| zr_Status := "pending" |> <| zr_LastError := "" |>).

Definition prepareDNS `{GoMapOrder} (now : Z) op : tx RemovalStore unit :=
  let! _ := LockSubscriptionMutationTx (ro_SubscriptionID op) in
  let! current := tx_query (operation_by_id (ro_ID op)) in
  fail_if negb (ro_Revision current =? ro_Revision op) || String.eqb (ro_State current) "completed"
    || negb (String.eqb (Digest (ro_Snapshot current)) (Digest (ro_Snapshot op)))
    with errors_New "website removal shared intent changed" ;;
  if one_of shared_intent (ro_Checkpoints current) then tx_ret ()
  else
    let! changed := remove_records (removalSelectedSites (ro_Snapshot op))
      (rows_where (λ r, String.eqb (rr_Kind r) "dns_record") (sn_Resources (ro_Snapshot op))) in
    let! _ := tx_each (λ zoneID, on_dns (touch_zone now zoneID)) (map_order (remove_dups changed)) in
    let! _ := update_operations (λ o, ro_ID o =? ro_ID op) (λ o, o <| ro_Checkpoints := ro_Checkpoints o ++ [shared_intent] |>) in
    tx_ret ().

(** ** The end *)

Definition final_checkpoints : list string :=
  [RemovalStopServices; RemovalHosting; RemovalShared; "surviving-access"; "surviving-mail"; RemovalFinalize].

Definition database_checkpoint (id : Z) : string := "database-removed:" +:+ itoa id.
Definition principal_checkpoint (id : Z) : string := "database-principal-removed:" +:+ itoa id.

Definition removalSecretIDs (ids : list Z) op s : list Z :=
  let bound (t parent : table) := ow_SecretID ∘ fst <$> of_parent ids t parent s in
  let bindings := bound PHPEnvironmentBindings PHPApplications ++ bound ApplicationSecretBindings ApplicationInstances
    ++ (ow_SecretID <$> of_site ids WordPressInstances s) in
  remove_dups (rows_where (λ id, negb (id =? 0)) bindings)
  ++ (d ← rows_where (λ d, bool_decide (rd_ID d ∈ ro_DeleteDatabaseIDs op) && one_of (principal_checkpoint (rd_ID d)) (ro_Checkpoints op))
            (sn_Databases (ro_Snapshot op));
      se_ID <$> take 1 (rows_where (λ x, String.eqb (se_Scope x) "database" && String.eqb (se_Name x) ("provision-" +:+ itoa (rd_ID d))) (rm_Secrets s))).

(** Rows of the tables that belong to the websites, and of what belongs to those. *)
Definition delete_owned (p : OwnedRow → bool) : tx RemovalStore unit :=
  tx_write (λ s, s <| rm_Owned := rows_delete p (rm_Owned s) |>).

Definition owned_by (ids : list Z) (t : table) (r : OwnedRow) : bool := bool_decide (ow_Table r = t) && chosen ids (ow_SiteID r).

(** A row whose parent is among [parents], of [DELETE ... WHERE application_id IN (...)]
    and of [ON DELETE CASCADE]. *)
Definition child_of (t : table) (parents : list OwnedRow) (r : OwnedRow) : bool :=
  bool_decide (ow_Table r = t) && bool_decide (ow_ParentID r ∈ ow_ID <$> parents).

Definition child_tables : list (table * table) :=
  [(PHPDeployments, PHPApplications); (PHPWorkers, PHPApplications); (PHPEnvironmentBindings, PHPApplications);
   (ApplicationGenerations, ApplicationInstances); (ApplicationSecretBindings, ApplicationInstances);
   (GitDeployments, GitRepositories); (ScheduledTaskRuns, ScheduledTasks); (Mailboxes, MailDomains); (MailAliases, MailDomains)].

Definition delete_with_children (p : OwnedRow → bool) : tx RemovalStore unit :=
  tx_write (λ s, let gone := rows_where p (rm_Owned s) in
    s <| rm_Owned := rows_delete (λ r, p r ||
      existsb (λ '(t, parent), child_of t (rows_where (λ q, bool_decide (ow_Table q = parent)) gone) r) child_tables) (rm_Owned s) |>).

Definition delete_resource op (r : SiteRemovalResource) : tx RemovalStore unit :=
  if String.eqb (rr_Kind r) "mail_domain" then
    delete_with_children (λ d, bool_decide (ow_Table d = MailDomains) && (ow_ID d =? rr_ID r)
      && (ow_SubscriptionID d =? ro_SubscriptionID op) && String.eqb (ow_Name d) (rr_Name r))
  else if String.eqb (rr_Kind r) "sftp_identity" then
    delete_owned (λ i, bool_decide (ow_Table i = SFTPAccessIdentities) && (ow_ID i =? rr_ID r) && (ow_SubscriptionID i =? ro_SubscriptionID op))
  else tx_ret ().

Definition delete_database op (d : SiteRemovalDatabase) : tx RemovalStore unit :=
  if negb (bool_decide (rd_ID d ∈ ro_DeleteDatabaseIDs op)) then tx_ret ()
  else
    fail_if negb (one_of (database_checkpoint (rd_ID d)) (ro_Checkpoints op)) with errors_New "selected database cleanup has not completed" ;;
    tx_write (λ s, s <| rm_Databases := rows_delete (λ row, (da_ID row =? rd_ID d) && (da_SiteID row =? rd_SiteID d)
        && (da_SubscriptionID row =? ro_SubscriptionID op)) (rm_Databases s) |>).

Definition no_credential : string :=
  "Website removed before database setup completed and no recoverable credential is available. Create a new database.".

Definition create_args (id : Z) : removalFenceArgs := mkFenceArgs 0 0 0 0 0 0 id 0 0 0 "" "" [].

Definition requeue_database (clock : Z) (d : Database) : tx RemovalStore unit :=
  let! secrets := tx_read rm_Secrets in
  if existsb (λ x, String.eqb (se_Scope x) "database" && String.eqb (se_Name x) ("provision-" +:+ itoa (da_ID d))) secrets then
    let! jobs := tx_read rm_Jobs in
    if existsb (λ j, String.eqb (jb_Kind j) "create_database" && one_of (jb_State j) live_states
        && match jb_Args j with Some args => fa_DatabaseID args =? da_ID d | None => false end) jobs then tx_ret ()
    else new_job clock "create_database" (create_args (da_ID d))
  else
    tx_write (λ s, s <| rm_Databases := rows_update (λ row, da_ID row =? da_ID d)
      (λ row, row <| da_Status := "failed" |> <| da_LastError := no_credential |>) (rm_Databases s) |>).

Definition requeueKeptPendingDatabases (clock : Z) op (ids : list Z) : tx RemovalStore unit :=
  let! items := tx_read (λ s, rows_where (λ d, chosen ids (da_SiteID d) && (da_SubscriptionID d =? ro_SubscriptionID op)
      && String.eqb (da_Status d) "pending") (rm_Databases s)) in
  tx_each (requeue_database clock) items.

Definition lost_backup : string := "Website removed before the backup completed; no recovery point is available.".

Definition detach_databases op (ids : list Z) : tx RemovalStore unit :=
  tx_write (λ s, s <| rm_Databases := rows_update (λ d, chosen ids (da_SiteID d) && (da_SubscriptionID d =? ro_SubscriptionID op))
    (λ d, d <| da_SiteID := 0 |>) (rm_Databases s) |>).

Definition detach_backups op (ids : list Z) : tx RemovalStore unit :=
  tx_write (λ s, s <| rm_Backups := rows_update (λ b, chosen ids (bk_SiteID b) && (bk_SubscriptionID b =? ro_SubscriptionID op))
    (λ b, let b := b <| bk_SiteID := 0 |> in
       if String.eqb (bk_Status b) "pending" then b <| bk_Status := "failed" |> <| bk_LastError := lost_backup |> else b) (rm_Backups s) |>).

(** [DELETE FROM sites] with the keys that cascade and those that become NULL. *)
Definition cascade_site (id : Z) s : RemovalStore :=
  let d := rm_DNS s in
  let zones := zr_ID <$> rows_where (λ z, zr_SiteID z =? id) (db_Zones d) in
  let d := d <| db_Zones := rows_delete (λ z, zr_SiteID z =? id) (db_Zones d) |>
             <| db_Records := rows_delete (λ r, bool_decide (rec_ZoneID r ∈ zones) || (rec_OwnerSiteID r =? id)) (db_Records d) |>
             <| db_Sites := rows_delete (λ w, st_ID w =? id) (db_Sites d) |> in
  let gone r := (ow_SiteID r =? id) && negb (bool_decide (ow_Table r = MailDomains)) || (bool_decide (ow_Table r = StagingOperations) && (ow_ParentID r =? id)) in
  let gone_rows := rows_where gone (rm_Owned s) in
  s <| rm_DNS := d |>
    <| rm_Owned := rows_update (λ r, bool_decide (ow_Table r = MailDomains) && (ow_SiteID r =? id)) (λ r, r <| ow_SiteID := 0 |>)
         (rows_delete (λ r, gone r || existsb (λ '(t, parent), child_of t (rows_where (λ q, bool_decide (ow_Table q = parent)) gone_rows) r) child_tables) (rm_Owned s)) |>
    <| rm_Databases := rows_update (λ row, da_SiteID row =? id) (λ row, row <| da_SiteID := 0 |>) (rm_Databases s) |>
    <| rm_Backups := rows_update (λ row, bk_SiteID row =? id) (λ row, row <| bk_SiteID := 0 |>) (rm_Backups s) |>
    <| rm_Sites := rows_update (λ w, ws_ParentSiteID w =? id) (λ w, w <| ws_ParentSiteID := 0 |>) (rm_Sites s) |>.

Definition is_target_row (item : SiteRemovalSite) (w : WebSite) : bool :=
  (ws_ID w =? rs_SiteID item) && (ws_SubscriptionID w =? rs_SubscriptionID item) && (ws_CustomerID w =? rs_CustomerID item)
  && String.eqb (ws_Domain w) (rs_Domain item) && negb (String.eqb (ws_RemovalState w) "none").

Definition delete_site (item : SiteRemovalSite) : tx RemovalStore unit :=
  let! sites := tx_read rm_Sites in
  fail_if negb (Z.of_nat (length (rows_where (is_target_row item) sites)) =? 1) with errors_New "website removal target identity changed" ;;
  let! _ := tx_write (λ s, s <| rm_Sites := rows_delete (is_target_row item) (rm_Sites s) |>) in
  tx_write (cascade_site (rs_SiteID item)).

(** Children before their parents. *)
Definition dots (domain : string) : nat := pred (length (split_on "." domain)).
Definition deeper_first (a b : SiteRemovalSite) : Prop := (dots (rs_Domain b) ≤ dots (rs_Domain a))%nat.
#[local] Instance deeper_first_dec : RelDecision deeper_first := λ a b, decide (_ ≤ _)%nat.

Definition binds_secrets (t : table) : bool :=
  bool_decide (t = PHPEnvironmentBindings) || bool_decide (t = ApplicationSecretBindings) || bool_decide (t = WordPressInstances).

Definition delete_secrets (ids : list Z) : tx RemovalStore unit :=
  tx_write (λ s, s <| rm_Secrets := rows_delete (λ x, bool_decide (se_ID x ∈ ids)
    && negb (existsb (λ r, (ow_SecretID r =? se_ID x)
         && binds_secrets (ow_Table r)) (rm_Owned s))) (rm_Secrets s) |>).

Definition release_targets op : tx RemovalStore unit :=
  tx_write (λ s, s <| rm_Targets := rows_update (λ t, rt_OperationID t =? ro_ID op) (λ t, t <| rt_Released := true |>) (rm_Targets s) |>).

(** The subscriptions a removal locks: its own, and those of the websites its staging
    operations join. *)
Definition removal_subscriptions op s : list Z :=
  remove_dups (merge_sort Z.le (ro_SubscriptionID op ::
    (r ← rows_where (λ r, String.eqb (rr_Kind r) "staging") (sn_Resources (ro_Snapshot op));
     remove_dups (ws_SubscriptionID <$> sites_by [rr_SiteID r; rr_ParentID r] s)))).

(** The transaction of [Finalize], after its checks, and with them. *)
Definition clear_rows (clock : Z) op (ids : list Z) : tx RemovalStore unit :=
  let! _ := delete_with_children (owned_by ids PHPApplications) in
  let! _ := delete_owned (owned_by ids WordPressInstances) in
  let! _ := delete_with_children (owned_by ids ApplicationInstances) in
  let! _ := delete_with_children (owned_by ids GitRepositories) in
  let! _ := delete_with_children (owned_by ids ScheduledTasks) in
  let! _ := delete_owned (λ r, bool_decide (ow_Table r = StagingOperations) && (chosen ids (ow_SiteID r) || chosen ids (ow_ParentID r))) in
  let! _ := tx_each (delete_resource op) (sn_Resources (ro_Snapshot op)) in
  let! _ := tx_each (delete_database op) (sn_Databases (ro_Snapshot op)) in
  let! _ := requeueKeptPendingDatabases clock op ids in
  let! _ := detach_databases op ids in
  detach_backups op ids.

Definition clear_tables (clock : Z) op (secretIDs : list Z) : tx RemovalStore unit :=
  let ids := removalSelectedSites (ro_Snapshot op) in
  let! _ := clear_rows clock op ids in
  let! _ := tx_each delete_site (merge_sort deeper_first (sn_Sites (ro_Snapshot op))) in
  let! _ := delete_secrets secretIDs in
  let! _ := release_targets op in
  let! _ := update_operations (λ o, ro_ID o =? ro_ID op)
    (λ o, o <| ro_State := "completed" |> <| ro_Stage := "completed" |> <| ro_LastError := "" |>) in
  removalAudit (ro_ActorUserID op) (ro_ActorLabel op) op "site.removal_completed"
    [("sites_removed", count_text ids);
     ("databases_retained", itoa (Z.of_nat (length (sn_Databases (ro_Snapshot op))) - Z.of_nat (length (ro_DeleteDatabaseIDs op))));
     ("backups_retained", count_text (sn_Backups (ro_Snapshot op)))].

Definition finalize (clock operationID revision : Z) : tx RemovalStore unit :=
  let! op := tx_query (operation_by_id operationID) in
  let! s := tx_read (λ s, s) in
  let! _ := tx_each LockSubscriptionMutationTx (removal_subscriptions op s) in
  fail_if negb (ro_Revision op =? revision) with errors_New "website removal revision changed" ;;
  if String.eqb (ro_State op) "completed" then tx_ret ()
  else
    fail_if negb (String.eqb (ro_State op) "running")
      with errors_New "retry this failed or interrupted website removal before finalization" ;;
    fail_if negb (forallb (λ stage, one_of stage (ro_Checkpoints op)) final_checkpoints)
      with errors_New "website removal services have not completed" ;;
    clear_tables clock op (removalSecretIDs (removalSelectedSites (ro_Snapshot op)) op s).
End Transactions.
