(* ===== verification/RemovalSystem.v ===== *)
(** * Website removal: handlers, workers and the system they run in

    The handlers of site_removal_store.go, the workers of site_removal_jobs.go,
    the convergence of site_removal_shared.go and the fence of site_job_fence.go
    as programs: trees of statements, locks and calls of the agent. The system runs
    requests and jobs side by side, statement by statement, while other components
    change the tables under the eyes of the triggers. *)

From S2P Require Import Prelude Tx Programs Tables GoStr GoCrypto Regex Site DNSTypes DNSTables OpsTypes DNSAgent DNSWorker RemovalTypes RemovalPreview RemovalFence RemovalStore.
From Stdlib Require Import Ascii.

(** ** Statements, each one transaction *)

Inductive statement : Type → Type :=
| ReadByRequest (requestID : string) : statement SiteRemovalOperation
| ReadOperation (id : Z) : statement SiteRemovalOperation
| ReadManages (actor : Actor) (subscriptionID : Z) : statement bool
| ReadCustomer (subscriptionID : Z) : statement Z
| ReadMayRemove (actor : Actor) (siteID : Z) : statement bool
| ReadSubscription (siteID : Z) : statement Z
| Reserve (actor : Actor) (req : RemoveSiteReq) (subscriptionID : Z) : statement SiteRemovalOperation
| Retry (actor : Actor) (id subscriptionID : Z) : statement SiteRemovalOperation
| CancelJobs (op : SiteRemovalOperation) : statement unit
| CountRunning (op : SiteRemovalOperation) : statement Z
| MarkWaiting (op : SiteRemovalOperation) : statement unit
| Advance (op : SiteRemovalOperation) (stage : string) (checkpoints : list string) : statement unit
| FailOperation (op : SiteRemovalOperation) (stage : string) : statement bool
| FinalizeTx (id revision : Z) : statement unit
| PrepareDNS (op : SiteRemovalOperation) : statement unit
| ReadZone (id : Z) : statement (Z * string)
| LoadZoneRow (id : Z) : statement ConfigureDNSZoneReq
| LoadZoneRecords (id : Z) (req : ConfigureDNSZoneReq) : statement ConfigureDNSZoneReq
| MarkZone (id revision : Z) : statement Z
| ListOperations : statement (list Z)
| ReadActiveJob (id revision : Z) : statement bool
| ReadLatestJob (id revision : Z) : statement string
| InsertRemoval (id revision : Z) : statement unit
| ReadReserved (backupID : Z) : statement bool
| ReadFence (q : FenceQuery) : statement (string * Z).

Section Perform.
Context `{GoUnicode} `{GoMapOrder} `{Collation} `{SHA256}.
Context (opts : SiteRemovalOptions).

Definition mark_zone (id revision : Z) : tx DNSStore Z :=
  let! zones := tx_read (λ d, rows_where (λ z, (zr_ID z =? id) && (zr_DesiredRevision z =? revision)) (db_Zones d)) in
  let! _ := update_zones (λ z, (zr_ID z =? id) && (zr_DesiredRevision z =? revision))
    (λ z, z <| zr_Status := "active" |> <| zr_AppliedRevision := revision |> <| zr_LastError := "" |>) in
  tx_ret (Z.of_nat (length zones)).

Definition op_id_le (a b : SiteRemovalOperation) : Prop := ro_ID a ≤ ro_ID b.
#[local] Instance op_id_le_dec : RelDecision op_id_le := λ a b, decide (_ ≤ _).

Definition open_operations (s : RemovalStore) : list Z :=
  ro_ID <$> take 100 (merge_sort op_id_le (rows_where (λ o, one_of (ro_State o) ["queued"; "waiting"; "running"]) (rm_Operations s))).

Definition perform (answers : Answers) (clock now : Z) {B} (q : statement B) : tx RemovalStore B :=
  match q in statement B return tx RemovalStore B with
  | ReadByRequest requestID => tx_query (operation_by_request requestID)
  | ReadOperation id => tx_query (operation_by_id id)
  | ReadManages actor subscriptionID => tx_read (CanManageSubscription actor subscriptionID)
  | ReadCustomer subscriptionID => tx_query (λ s, query_row (sb_CustomerID <$> rows_where (λ b, sb_ID b =? subscriptionID) (rm_Subscriptions s)))
  | ReadMayRemove actor siteID => tx_read (canRemoveSite actor siteID)
  | ReadSubscription siteID => tx_query (λ s, query_row (ws_SubscriptionID <$> site_by_id siteID s))
  | Reserve actor req subscriptionID => reserve opts answers clock actor req subscriptionID
  | Retry actor id subscriptionID => retry clock actor id subscriptionID
  | CancelJobs op => drain_jobs op
  | CountRunning op => tx_read (running_jobs op)
  | MarkWaiting op => mark_waiting op
  | Advance op stage checkpoints => advanceRemoval op stage checkpoints
  | FailOperation op stage => fail_removal op stage
  | FinalizeTx id revision => finalize clock id revision
  | PrepareDNS op => prepareDNS now op
  | ReadZone id => tx_query (λ s, query_row ((λ z, (zr_SiteID z, zr_Mode z)) <$> rows_where (λ z, zr_ID z =? id) (db_Zones (rm_DNS s))))
  | LoadZoneRow id => tx_query (λ s, load_row id (rm_DNS s))
  | LoadZoneRecords id req => tx_read (λ s, load_records id req (rm_DNS s))
  | MarkZone id revision => on_dns (mark_zone id revision)
  | ListOperations => tx_read open_operations
  | ReadActiveJob id revision => tx_read (λ s, existsb (λ j, is_removal_job id revision j && one_of (jb_State j) live_states) (rm_Jobs s))
  | ReadLatestJob id revision => tx_query (λ s, query_row (jb_State <$> rev (rows_where (is_removal_job id revision) (rm_Jobs s))))
  | InsertRemoval id revision => insert_removal_job clock id revision
  | ReadReserved backupID => tx_read (backup_reserved backupID)
  | ReadFence q => tx_query (fence_row q)
  end.
End Perform.

(** ** Questions to the environment *)

(** How a job ends: [nil], an error, [river.JobCancel] or [river.JobSnooze]. *)
Inductive JobResult := Completed | Failed (e : error) | Cancelled (e : error) | Snoozed (seconds : Z).

Inductive query : Type → Type :=
| Exec {B} (st : statement B) : query (result B)
| AcquireGate (shared : bool) : query (result unit)
| ReleaseGate (shared : bool) : query unit
| TryLock (id : Z) : query (result bool)
| Unlock (id : Z) : query unit
| RemoveStaging (op : SiteRemovalOperation) : query (result unit)
| TeardownSite (req : TeardownSiteReq) : query (result TeardownSiteResult)
| ConfigureZone (req : ConfigureDNSZoneReq) : query (result unit)
| ConvergeAccess (subscriptionID : Z) : query (result unit)
| ConvergeMail : query (result unit)
| Body (kind : string) (args : option removalFenceArgs) : query JobResult.

Notation prog := (Programs.prog query).

Definition db {B} (st : statement B) : prog (result B) := ask (Exec st).

Declare Scope removal_scope.
Delimit Scope removal_scope with removal.
Open Scope removal_scope.

(** [if err != nil { return ..., err }] after a statement of a handler. *)
Notation "'try' x ':=' p 'in' k" := (prog_bind p (λ r, match r with Err e => Done (Err e) | Ok x => k end))
  (at level 10, x name, p at level 100, k at level 200) : removal_scope.

(** The same in a worker. *)
Notation "'work' x ':=' p 'in' k" := (prog_bind p (λ r, match r with Err e => Done (Failed e) | Ok x => k end))
  (at level 10, x name, p at level 100, k at level 200) : removal_scope.

Section Programs.
Context `{GoUnicode} `{GoMapOrder} `{Collation} `{SHA256}.

(** Whether the worker has shared services to converge. *)
Context (shared_services : bool).

(** ** Requests *)

Definition hex_digit_re : re := RCls (c_or is_digit (in_range 97 102)).
Definition removalRequestIDPattern : re := r_times 32 hex_digit_re.

Definition authorizeOperation (actor : Actor) (op : SiteRemovalOperation) : prog (result SiteRemovalOperation) :=
  try allowed := db (ReadManages actor (ro_SubscriptionID op)) in
  if negb allowed then Done (Err ErrForbidden)
  else if String.eqb (ac_Role actor) "admin" then Done (Ok op)
  else
    try customerID := db (ReadCustomer (ro_SubscriptionID op)) in
    Done (if customerID =? ro_CustomerID op then Ok op else Err ErrForbidden).

Definition SiteRemovalFor (actor : Actor) (id : Z) : prog (result SiteRemovalOperation) :=
  try op := db (ReadOperation id) in authorizeOperation actor op.

Definition SiteRemovalByRequestFor (actor : Actor) (requestID : string) : prog (result SiteRemovalOperation) :=
  if negb (re_match removalRequestIDPattern requestID) then Done (Err ErrForbidden)
  else try op := db (ReadByRequest requestID) in authorizeOperation actor op.

Definition authorizeSite (actor : Actor) (siteID : Z) : prog (result unit) :=
  try allowed := db (ReadMayRemove actor siteID) in
  Done (if negb allowed then Err ErrForbidden else Ok ()).

Definition RemoveSiteFor (actor : Actor) (req : RemoveSiteReq) : prog (result SiteRemovalOperation) :=
  if negb (re_match removalRequestIDPattern (rq_RequestID req)) || (rq_SiteID req <=? 0)
  then Done (Err (errors_New "valid removal request identity is required"))
  else if negb (rq_AcknowledgePermanent req) then Done (Err (errors_New "acknowledge that website removal is permanent"))
  else
    do! existing := SiteRemovalByRequestFor actor (rq_RequestID req) in
    match existing with
    | Ok existing => Done (sameRemovalRequest existing req)
    | Err e =>
      if negb (errors_Is e "provision.ErrForbidden") then Done (Err e)
      else
        try _ := authorizeSite actor (rq_SiteID req) in
        do! subscriptionID := db (ReadSubscription (rq_SiteID req)) in
        match subscriptionID with
        | Err _ => Done (Err ErrForbidden)
        | Ok subscriptionID => db (Reserve actor req subscriptionID)
        end
    end.

Definition RetrySiteRemovalFor (actor : Actor) (id : Z) : prog (result SiteRemovalOperation) :=
  try op := SiteRemovalFor actor id in
  if String.eqb (ro_State op) "completed" then Done (Ok op)
  else db (Retry actor id (ro_SubscriptionID op)).

(** ** The worker *)

Definition failRemoval (op : SiteRemovalOperation) (stage : string) : prog JobResult :=
  work failed := db (FailOperation op stage) in
  Done (if failed : bool then Cancelled (errors_New (failure_message stage)) else Completed).

Definition drainSiteJobs (op : SiteRemovalOperation) : prog (result bool) :=
  try _ := db (CancelJobs op) in
  try count := db (CountRunning op) in
  if negb (count =? 0) then Done (Ok false)
  else
    do! removed := ask (RemoveStaging op) in
    Done (match removed with Ok _ => Ok true | Err e => Err e end).

(** The zones whose records were removed, as far as they stay and are primary. *)
Fixpoint converge_zones (selected : list Z) (zones : list Z) : prog (result (list string)) :=
  match zones with
  | [] => Done (Ok [])
  | id :: zones =>
    try zone := db (ReadZone id) in
    if bool_decide (fst zone ∈ selected) || negb (String.eqb (snd zone) "primary") then converge_zones selected zones
    else
      try row := db (LoadZoneRow id) in
      try req := db (LoadZoneRecords id row) in
      try _ := ask (ConfigureZone (req <| dzr_SiteID := fst zone |>)) in
      try count := db (MarkZone id (dzr_DesiredRevision req)) in
      if negb (count =? 1) then Done (Err (errors_New "DNS intent changed during removal convergence"))
      else
        try rest := converge_zones selected zones in
        Done (Ok (("parent-dns:" +:+ itoa id +:+ ":" +:+ itoa (dzr_DesiredRevision req)) :: rest))
  end.

Definition Converge (op : SiteRemovalOperation) : prog (result TeardownSiteResult) :=
  try _ := db (PrepareDNS op) in
  try checkpoints := converge_zones (removalSelectedSites (ro_Snapshot op))
    (map_order (remove_dups (rr_ParentID <$> rows_where (λ r, String.eqb (rr_Kind r) "dns_record") (sn_Resources (ro_Snapshot op))))) in
  try _ := ask (ConvergeAccess (ro_SubscriptionID op)) in
  try _ := ask ConvergeMail in
  Done (Ok (mkTeardownSiteResult (ro_ID op) (ro_Revision op) (checkpoints ++ ["surviving-access"; "surviving-mail"]))).

Definition Finalize (id revision : Z) : prog (result unit) :=
  try _ := db (ReadOperation id) in db (FinalizeTx id revision).

Definition teardown_req (op : SiteRemovalOperation) (stage : string) : TeardownSiteReq :=
  mkTeardownSiteReq (ro_ID op) (ro_Revision op) (ro_SubscriptionID op) (ro_Snapshot op) stage (ro_DeleteDatabaseIDs op).

(** The answer is to this operation and revision. *)
Definition answers_to (op : SiteRemovalOperation) (r : TeardownSiteResult) : bool :=
  (tr_OperationID r =? ro_ID op) && (tr_Revision r =? ro_Revision op).

(** The loop over the stages, and what follows it. *)
Fixpoint run_stages (op : SiteRemovalOperation) (stages : list string) : prog JobResult :=
  match stages with
  | [] =>
    do! done := Finalize (ro_ID op) (ro_Revision op) in
    match done with Err _ => failRemoval op RemovalFinalize | Ok _ => Done Completed end
  | stage :: stages =>
    work _ := db (Advance op stage []) in
    do! answer := ask (TeardownSite (teardown_req op stage)) in
    match answer with
    | Err _ => failRemoval op stage
    | Ok answer =>
      if negb (answers_to op answer) || negb (one_of stage (tr_Checkpoints answer)) then failRemoval op stage
      else
        work _ := db (Advance op stage (tr_Checkpoints answer)) in
        if String.eqb stage RemovalShared then
          do! converged := Converge op in
          match converged with
          | Err _ => failRemoval op stage
          | Ok converged =>
            if negb (answers_to op converged) then failRemoval op stage
            else work _ := db (Advance op stage (tr_Checkpoints converged)) in run_stages op stages
          end
        else run_stages op stages
    end
  end.

Definition removal_stages : list string := [RemovalStopServices; RemovalHosting; RemovalShared; RemovalFinalize].

Definition remove_locked (id revision : Z) : prog JobResult :=
  do! read := db (ReadOperation id) in
  match read with
  | Err e => Done (if errors_Is e "sql.ErrNoRows" then Completed else Failed e)
  | Ok op =>
    if negb (ro_Revision op =? revision) || one_of (ro_State op) ["completed"; "failed"] then Done Completed
    else
      work ready := drainSiteJobs op in
      if negb ready then work _ := db (MarkWaiting op) in Done (Snoozed 2)
      else if negb shared_services then failRemoval op RemovalShared
      else
        work _ := db (Advance op RemovalStopServices []) in
        run_stages op removal_stages
  end.

(** [RemoveSiteWorker.Work]: the gate of server snapshots, the lock of the
    operation, and their release. *)
Definition remove_work (id revision : Z) : prog JobResult :=
  work _ := ask (AcquireGate true) in
  do! locked := ask (TryLock id) in
  do! outcome :=
    (match locked with
     | Err e => Done (Failed e)
     | Ok false => Done (Snoozed 1)
     | Ok true => do! outcome := remove_locked id revision in do! _ := ask (Unlock id) in Done outcome
     end) in
  do! _ := ask (ReleaseGate true) in
  Done outcome.

(** ** The sweep *)

Definition sweep_one (id : Z) : prog (result unit) :=
  try op := db (ReadOperation id) in
  try active := db (ReadActiveJob id (ro_Revision op)) in
  if active : bool then Done (Ok ())
  else
    do! latest := db (ReadLatestJob id (ro_Revision op)) in
    match latest with
    | Err e => if errors_Is e "sql.ErrNoRows" then db (InsertRemoval id (ro_Revision op)) else Done (Err e)
    | Ok latest =>
      if one_of latest ["cancelled"; "discarded"] then
        do! failed := failRemoval op (ro_Stage op) in
        Done (match failed with Failed e => Err e | _ => Ok () end)
      else db (InsertRemoval id (ro_Revision op))
    end.

Fixpoint sweep_all (ids : list Z) : prog JobResult :=
  match ids with
  | [] => Done Completed
  | id :: ids => work _ := sweep_one id in sweep_all ids
  end.

Definition sweep_work : prog JobResult :=
  work ids := db ListOperations in sweep_all ids.

(** ** The fence *)

Definition fence_scoped (kind : string) (args : option removalFenceArgs) (created_at : Z) (inner : prog JobResult) : prog JobResult :=
  match args with
  | None => Done (Cancelled (errors_New "invalid scoped job identity"))
  | Some args =>
    work protected :=
      (if String.eqb kind "maintenance_delete_backup" && (0 <? fa_BackupID args) then db (ReadReserved (fa_BackupID args)) else Done (Ok false)) in
    if protected : bool then Done (Cancelled (errors_New "backup is reserved as website removal recovery evidence"))
    else
      match fence_query kind args with
      | None => Done (Cancelled (errors_New "scoped job identity is unavailable"))
      | Some q =>
        do! row := db (ReadFence q) in
        match row with
        | Err e =>
          if errors_Is e "sql.ErrNoRows"
          then Done (Cancelled (errors_New "scoped resource is missing or website removal has started"))
          else Done (Failed e)
        | Ok (state, created) =>
          if negb (String.eqb state "none") || (negb (created_at =? 0) && (created_at <? created))
          then Done (Cancelled (errors_New "scoped resource is missing or website removal has started"))
          else inner
        end
      end
  end.

(** [SiteJobFence.Work]. *)
Definition fence_work (kind : string) (args : option removalFenceArgs) (created_at : Z) (inner : prog JobResult) : prog JobResult :=
  let scoped := if is_target kind then fence_scoped kind args created_at inner else inner in
  if serverSnapshotSensitiveJob kind then
    let shared := negb (String.eqb kind "server_backup") in
    work _ := ask (AcquireGate shared) in
    do! outcome := scoped in
    do! _ := ask (ReleaseGate shared) in
    Done outcome
  else scoped.

(** A job of River: what its kind does behind the fence. *)
Definition run_job (j : JobRow) : prog JobResult :=
  fence_work (jb_Kind j) (jb_Args j) (jb_CreatedAt j)
    (match jb_Args j with
     | Some args =>
       if String.eqb (jb_Kind j) "remove_site" then remove_work (fa_OperationID args) (fa_Revision args)
       else if String.eqb (jb_Kind j) "sweep_site_removals" then sweep_work
       else ask (Body (jb_Kind j) (jb_Args j))
     | None => ask (Body (jb_Kind j) None)
     end).
End Programs.

(** ** What other components do to the tables

    The triggers of the migration refuse a change of a row that belongs, before or
    after it, to a website whose removal has started. Foreign keys hold, keys come
    from sequences and are not used again, and nobody but the removal writes the
    state of a removal. *)

Section Changes.
Context `{GoUnicode}.
Implicit Types (s : RemovalStore).

Definition split_part2 (root : string) : string := match split_on "/" root with _ :: part :: _ => part | _ => "" end.

(** The websites of a domain in a subscription. *)
Definition named_sites (subscriptionID : Z) (domain : string) s : list Z :=
  ws_ID <$> rows_where (λ w, (ws_SubscriptionID w =? subscriptionID) && String.eqb (ws_Domain w) domain) (rm_Sites s).

Definition parent_sites (t : table) (r : OwnedRow) s : list Z := ow_SiteID <$> parent_row t r s.

(** [nakpanel_removal_site_ids]: imports of mail have no trigger. *)
Definition nakpanel_removal_site_ids (r : OwnedRow) s : list Z :=
  match ow_Table r with
  | StagingOperations => [ow_SiteID r; ow_ParentID r]
  | Mailboxes | MailAliases => d ← parent_row MailDomains r s; named_sites (ow_SubscriptionID d) (ow_Name d) s
  | MailDomains => named_sites (ow_SubscriptionID r) (ow_Name r) s
  | SFTPAccessIdentities => if has_prefix (ow_Value r) "domains/" then named_sites (ow_SubscriptionID r) (split_part2 (ow_Value r)) s else []
  | PHPDeployments | PHPEnvironmentBindings | PHPWorkers => parent_sites PHPApplications r s
  | ApplicationGenerations | ApplicationSecretBindings => parent_sites ApplicationInstances r s
  | GitDeployments => parent_sites GitRepositories r s
  | ScheduledTaskRuns => parent_sites ScheduledTasks r s
  | MailImports => []
  | _ => [ow_SiteID r]
  end.

(** [nakpanel_guard_site_removal], for the websites of the old and of the new row. *)
Definition free_of_removal (ids : list Z) s : bool :=
  forallb (λ w, String.eqb (ws_RemovalState w) "none") (rows_where (λ w, bool_decide (ws_ID w ∈ ids)) (rm_Sites s)).

Definition site_exists (id : Z) s : bool := (id =? 0) || has_rows (site_by_id id s).

(** A mail domain of a website has the website's domain and subscription. *)
Definition mail_domain_fits (r : OwnedRow) s : bool :=
  negb (bool_decide (ow_Table r = MailDomains)) || (ow_SiteID r =? 0)
  || bool_decide (ow_SiteID r ∈ named_sites (ow_SubscriptionID r) (ow_Name r) s).

(** The key of a new import is the key of no job. *)
Definition new_import (r : OwnedRow) s : bool :=
  negb (bool_decide (ow_Table r = MailImports))
  || forallb (λ j, match jb_Args j with Some args => negb (String.eqb (fa_ImportID args) (ow_Value r)) | None => true end) (rm_Jobs s).

Definition row_allowed (r : option OwnedRow) s : bool :=
  match r with None => true | Some r => free_of_removal (nakpanel_removal_site_ids r s) s end.

Definition new_row_allowed (old new : option OwnedRow) s : bool :=
  match new with
  | None => true
  | Some r => site_exists (ow_SiteID r) s && (negb (bool_decide (ow_Table r = StagingOperations)) || site_exists (ow_ParentID r) s)
      && mail_domain_fits r s && (bool_decide (old = Some r) || new_import r s)
  end.

(** The row at a place is replaced or deleted; past the end, one is inserted. *)
Definition put {A} (n : nat) (new : option A) (l : list A) : list A := take n l ++ option_list new ++ drop (S n) l.

(** The columns of a website that no other component changes. *)
Definition same_identity (old new : WebSite) : bool :=
  (ws_ID old =? ws_ID new) && String.eqb (ws_RemovalState old) (ws_RemovalState new)
  && (ws_RemovalRevision old =? ws_RemovalRevision new) && (ws_CreatedAt old =? ws_CreatedAt new)
  && (ws_SubscriptionID old =? ws_SubscriptionID new) && String.eqb (ws_Domain old) (ws_Domain new)
  && (ws_ParentSiteID old =? ws_ParentSiteID new).

(** The sites of zones under removal stay as they are. *)
Definition zones_kept (d' : DNSStore) s : bool :=
  forallb (λ z, free_of_removal [zr_SiteID z] s || existsb (λ z', (zr_ID z' =? zr_ID z) && (zr_SiteID z' =? zr_SiteID z)) (db_Zones (rm_DNS s)))
    (db_Zones d').

Inductive change :=
| ChangeOwned (n : nat) (new : option OwnedRow)
| InsertSite (w : WebSite)
| UpdateSite (n : nat) (w : WebSite)
| DeleteSite (n : nat)
| ChangeDatabase (n : nat) (new : option Database)
| ChangeBackup (n : nat) (new : option Backup)
| ChangeDNS (d : DNSStore)
| ChangeAccounts (s' : RemovalStore)
| QueueJob (clock : Z) (kind : string) (args : option removalFenceArgs)
| ChangeJob (n : nat) (state : option string).

Definition database_site (d : option Database) : list Z := match d with Some d => [da_SiteID d] | None => [] end.
Definition backup_site (b : option Backup) : list Z := match b with Some b => [bk_SiteID b] | None => [] end.

Definition apply_change (c : change) s : RemovalStore :=
  match c with
  | ChangeOwned n new =>
    let old := rm_Owned s !! n in
    if row_allowed old s && row_allowed new s && new_row_allowed old new s then s <| rm_Owned := put n new (rm_Owned s) |> else s
  | InsertSite w =>
    if free_of_removal [ws_ParentSiteID w] s
    then s <| rm_Sites := rm_Sites s ++ [(w <| ws_ID := rm_SiteSeq s |>) <| ws_RemovalState := "none" |>] |> <| rm_SiteSeq := rm_SiteSeq s + 1 |>
    else s
  | UpdateSite n w =>
    match rm_Sites s !! n with
    | Some old =>
      if same_identity old w && free_of_removal [ws_ID old; ws_ParentSiteID old] s
      then s <| rm_Sites := put n (Some w) (rm_Sites s) |> else s
    | None => s
    end
  | DeleteSite n =>
    match rm_Sites s !! n with
    | Some old =>
      if free_of_removal [ws_ID old; ws_ParentSiteID old] s then cascade_site (ws_ID old) (s <| rm_Sites := put n None (rm_Sites s) |>) else s
    | None => s
    end
  | ChangeDatabase n new =>
    let old := rm_Databases s !! n in
    if free_of_removal (database_site old ++ database_site new) s && forallb (λ id, site_exists id s) (database_site new)
    then s <| rm_Databases := put n new (rm_Databases s) |> else s
  | ChangeBackup n new =>
    let old := rm_Backups s !! n in
    if free_of_removal (backup_site old ++ backup_site new) s && forallb (λ id, site_exists id s) (backup_site new)
       && match old with Some b => negb (backup_reserved (bk_ID b) s) | None => true end
    then s <| rm_Backups := put n new (rm_Backups s) |> else s
  | ChangeDNS d => if zones_kept d s then s <| rm_DNS := d |> else s
  | ChangeAccounts s' =>
    s <| rm_Subscriptions := rm_Subscriptions s' |> <| rm_Customers := rm_Customers s' |> <| rm_Resellers := rm_Resellers s' |>
      <| rm_Allocations := rm_Allocations s' |> <| rm_Billing := rm_Billing s' |> <| rm_Accounts := rm_Accounts s' |>
      <| rm_Secrets := rm_Secrets s' |> <| rm_Audit := rm_Audit s ++ rm_Audit s' |>
  | QueueJob clock kind args =>
    if String.eqb kind "remove_site" then s
    else s <| rm_Jobs := rm_Jobs s ++ [mkJobRow (rm_JobSeq s) kind args "available" clock] |> <| rm_JobSeq := rm_JobSeq s + 1 |>
  | ChangeJob n state =>
    match rm_Jobs s !! n with
    | Some j =>
      if String.eqb (jb_State j) "running" then s
      else match state with
           | None => s <| rm_Jobs := put n None (rm_Jobs s) |>
           | Some state => if String.eqb state "running" then s else s <| rm_Jobs := put n (Some (j <| jb_State := state |>)) (rm_Jobs s) |>
           end
    | None => s
    end
  end.
End Changes.

(** ** What a thread has learned *)

(** An operation as it was read; that no job of the snapshot was running; that the
    website of a job was not under removal; that the agent finished a stage. *)
Inductive fact :=
| Stored (op : SiteRemovalOperation)
| Drained (op : SiteRemovalOperation)
| Passed (q : FenceQuery)
| Finished (req : TeardownSiteReq).

Definition facts_of {B} (st : statement B) : result B → list fact :=
  match st in statement B return result B → list fact with
  | ReadOperation _ => λ r, match r with Ok op => [Stored op] | Err _ => [] end
  | CountRunning op => λ r, match r with Ok count => if count =? 0 then [Drained op] else [] | Err _ => [] end
  | ReadFence q => λ r, match r with Ok (state, _) => if String.eqb state "none" then [Passed q] else [] | Err _ => [] end
  | _ => λ _, []
  end.

(** The answer of the agent to a stage of an operation. *)
Definition finishes (req : TeardownSiteReq) (r : TeardownSiteResult) : bool :=
  (tr_OperationID r =? td_OperationID req) && (tr_Revision r =? td_Revision req) && one_of (td_Stage req) (tr_Checkpoints r).

Definition learned {B} (q : query B) : B → list fact :=
  match q in query B return B → list fact with
  | Exec st => facts_of st
  | TeardownSite req => λ r, match r with Ok r => if finishes req r then [Finished req] else [] | Err _ => [] end
  | _ => λ _, []
  end.

(** ** The system *)

(** The tables; the gate of server snapshots, shared by so many or held alone; and
    the locks of operations. *)
Record world := mkWorld { w_DB : RemovalStore; w_Shared : nat; w_Alone : bool; w_Locks : list Z }.

#[export] Instance eta_world : Eta world := λ w, mkWorld (w_DB w) (w_Shared w) (w_Alone w) (w_Locks w).

(** What the environment answers: the clocks of the database and of the panel, the
    agent, and how the body of another job ends. *)
Record input := mkInput {
  in_clock : Z;
  in_now : Z;
  in_fault : fault;
  in_answers : Answers;
  in_teardown : result TeardownSiteResult;
  in_call : result unit;
  in_body : JobResult;
}.

Section Exec.
Context `{GoUnicode} `{GoMapOrder} `{Collation} `{SHA256}.
Context (opts : SiteRemovalOptions).

(** An answer, or [None] while a lock is waited for. *)
Definition exec (i : input) {B} (q : query B) (w : world) : option (B * world) :=
  match q in query B return option (B * world) with
  | Exec st =>
    let '(r, s) := with_fault (in_fault i) (perform opts (in_answers i) (in_clock i) (in_now i) st) (w_DB w) in
    Some (r, w <| w_DB := s |>)
  | AcquireGate shared =>
    match in_fault i with
    | Works =>
      if w_Alone w || (negb shared && (0 <? w_Shared w)%nat) then None
      else Some (Ok (), if shared then w <| w_Shared := S (w_Shared w) |> else w <| w_Alone := true |>)
    | _ => Some (Err connection_error, w)
    end
  | ReleaseGate shared => Some ((), if shared then w <| w_Shared := pred (w_Shared w) |> else w <| w_Alone := false |>)
  | TryLock id =>
    match in_fault i with
    | Works =>
      if bool_decide (id ∈ w_Locks w) then Some (Ok false, w) else Some (Ok true, w <| w_Locks := id :: w_Locks w |>)
    | _ => Some (Err connection_error, w)
    end
  | Unlock id => Some ((), w <| w_Locks := filter (λ id', id' ≠ id) (w_Locks w) |>)
  | RemoveStaging _ => Some (in_call i, w)
  | TeardownSite _ => Some (in_teardown i, w)
  | ConfigureZone _ => Some (in_call i, w)
  | ConvergeAccess _ => Some (in_call i, w)
  | ConvergeMail => Some (in_call i, w)
  | Body _ _ => Some (in_body i, w)
  end.

Context (shared_services : bool).

(** A request, a job, and a job that River has settled; what a request answers, and
    how a job ends. *)
Inductive call :=
| Remove (actor : Actor) (req : RemoveSiteReq)
| RetryRemoval (actor : Actor) (id : Z)
| Run (j : JobRow)
| Over.

Inductive outcome := Answered (r : result SiteRemovalOperation) | Ended (r : JobResult).

Definition start (c : call) : prog outcome :=
  match c with
  | Remove actor req => do! r := RemoveSiteFor actor req in Done (Answered r)
  | RetryRemoval actor id => do! r := RetrySiteRemovalFor actor id in Done (Answered r)
  | Run j => do! r := run_job shared_services j in Done (Ended r)
  | Over => Done (Ended Completed)
  end.

Record thread := mkThread { th_Call : call; th_Prog : prog outcome; th_History : list fact }.
Record system := mkSystem { sy_World : world; sy_Threads : list thread }.

(** A request arrives; River takes an available job; a thread takes its next step;
    River settles a job that has ended; another component changes the tables. *)
Inductive event :=
| Request (c : call)
| Fetch (n : nat)
| Step (t : nat) (i : input)
| Settle (t : nat) (state : string)
| Elsewhere (c : change).

Definition is_request (c : call) : bool := match c with Run _ | Over => false | _ => true end.

(** The states a job may be left in. *)
Definition settled_state (r : JobResult) (state : string) : bool :=
  match r with
  | Completed => String.eqb state "completed"
  | Failed _ => one_of state ["retryable"; "discarded"; "available"]
  | Cancelled _ => String.eqb state "cancelled"
  | Snoozed _ => one_of state ["scheduled"; "available"]
  end.

Definition set_job (id : Z) (state : string) (s : RemovalStore) : RemovalStore :=
  s <| rm_Jobs := rows_update (λ j, jb_ID j =? id) (λ j, j <| jb_State := state |>) (rm_Jobs s) |>.

Definition step (s : system) (e : event) : system :=
  match e with
  | Request c => if is_request c then mkSystem (sy_World s) (sy_Threads s ++ [mkThread c (start c) []]) else s
  | Fetch n =>
    match rm_Jobs (w_DB (sy_World s)) !! n with
    | Some j =>
      if String.eqb (jb_State j) "available"
      then mkSystem ((sy_World s) <| w_DB := set_job (jb_ID j) "running" (w_DB (sy_World s)) |>) (sy_Threads s ++ [mkThread (Run j) (start (Run j)) []])
      else s
    | None => s
    end
  | Step t i =>
    match sy_Threads s !! t with
    | Some th =>
      match th_Prog th with
      | Done _ => s
      | Ask q k =>
        match exec i q (sy_World s) with
        | None => s
        | Some (r, w) => mkSystem w (<[t := mkThread (th_Call th) (k r) (th_History th ++ learned q r)]> (sy_Threads s))
        end
      end
    | None => s
    end
  | Settle t state =>
    match sy_Threads s !! t with
    | Some (mkThread (Run j) (Done (Ended r)) h) =>
      if settled_state r state
      then mkSystem ((sy_World s) <| w_DB := set_job (jb_ID j) state (w_DB (sy_World s)) |>)
             (<[t := mkThread Over (Done (Ended r)) h]> (sy_Threads s))
      else s
    | _ => s
    end
  | Elsewhere c => mkSystem ((sy_World s) <| w_DB := apply_change c (w_DB (sy_World s)) |>) (sy_Threads s)
  end.

Definition run (events : list event) (s : system) : system := foldl step s events.
Definition idle (s : RemovalStore) : system := mkSystem (mkWorld s 0 false []) [].
End Exec.
