(* ===== verification/RemovalFacts.v ===== *)
(** * Website removal: what the statements leave alone

    A relation all statements of a removal keep to: rows are deleted, detached from
    a website or updated in place, but none comes to belong to a website it did not
    belong to, no website is opened again, and approved operations stay as they were
    approved. What finds the websites of a job is stable along it. *)

From S2P Require Import Prelude Tx Programs Tables GoStr GoCrypto Site DNSTypes DNSTables DNSEdit OpsTypes DNSAgent DNSWorker RemovalTypes RemovalPreview RemovalFence RemovalStore RemovalSystem.

(** ** Rows that come from rows *)

Section From.
Context {A : Type} (R : A → A → Prop) `{!PreOrder R}.

Definition from (l l' : list A) : Prop := ∀ x', x' ∈ l' → ∃ x, x ∈ l ∧ R x x'.

#[export] Instance from_preorder : PreOrder from.
Proof.
  split.
  - intros l x Hx. exists x. split; [done|reflexivity].
  - intros l1 l2 l3 H1 H2 x3 (x2 & (x1 & Hx1 & R12)%H1 & R23)%H2. exists x1. split; [done|]. by etransitivity.
Qed.

Lemma from_update p f l : (∀ r, p r = true → R r (f r)) → from l (rows_update p f l).
Proof. intros Hf x' (x & Hx & ->)%rows_update_elem. exists x. split; [done|]. destruct (p x) eqn:E; [by apply Hf|reflexivity]. Qed.

Lemma from_delete p l : from l (rows_delete p l).
Proof. intros x [_ Hx]%rows_delete_elem. exists x. split; [done|reflexivity]. Qed.
End From.

Definition site_kept (w w' : WebSite) : Prop :=
  ws_ID w' = ws_ID w ∧ ws_SubscriptionID w' = ws_SubscriptionID w ∧ ws_Domain w' = ws_Domain w ∧
  (ws_RemovalState w ≠ "none" → ws_RemovalState w' ≠ "none").

(** The website stays, or there is none any more. *)
Definition detached (site site' : Z) : Prop := site' = site ∨ site' = 0.

Definition owned_kept (r r' : OwnedRow) : Prop :=
  ow_Table r' = ow_Table r ∧ ow_ID r' = ow_ID r ∧ ow_ParentID r' = ow_ParentID r ∧ ow_SubscriptionID r' = ow_SubscriptionID r ∧
  ow_Name r' = ow_Name r ∧ ow_Value r' = ow_Value r ∧ detached (ow_SiteID r) (ow_SiteID r').
Definition database_kept (d d' : Database) : Prop := da_ID d' = da_ID d ∧ detached (da_SiteID d) (da_SiteID d').
Definition backup_kept (b b' : Backup) : Prop := bk_ID b' = bk_ID b ∧ detached (bk_SiteID b) (bk_SiteID b').
Definition zone_kept (z z' : ZoneRow) : Prop := zr_ID z' = zr_ID z ∧ zr_SiteID z' = zr_SiteID z.

Definition ZonesKept (d d' : DNSStore) : Prop := from zone_kept (db_Zones d) (db_Zones d').

(** What was approved. *)
Definition op_kept (o o' : SiteRemovalOperation) : Prop :=
  ro_ID o' = ro_ID o ∧ ro_RequestID o' = ro_RequestID o ∧ ro_SiteID o' = ro_SiteID o ∧ ro_SubscriptionID o' = ro_SubscriptionID o ∧
  ro_CustomerID o' = ro_CustomerID o ∧ ro_Domain o' = ro_Domain o ∧ ro_Snapshot o' = ro_Snapshot o ∧
  ro_DeleteDatabaseIDs o' = ro_DeleteDatabaseIDs o ∧ ro_Revision o ≤ ro_Revision o'.

Ltac kept_preorder :=
  split; [intros ?; intuition lia|intros ???; intuition (congruence || lia)].

#[export] Instance detached_preorder : PreOrder detached.
Proof. unfold detached. kept_preorder. Qed.
#[export] Instance site_kept_preorder : PreOrder site_kept.
Proof. unfold site_kept. kept_preorder. Qed.
#[export] Instance owned_kept_preorder : PreOrder owned_kept.
Proof. unfold owned_kept, detached. kept_preorder. Qed.
#[export] Instance database_kept_preorder : PreOrder database_kept.
Proof. unfold database_kept, detached. kept_preorder. Qed.
#[export] Instance backup_kept_preorder : PreOrder backup_kept.
Proof. unfold backup_kept, detached. kept_preorder. Qed.
#[export] Instance zone_kept_preorder : PreOrder zone_kept.
Proof. unfold zone_kept. kept_preorder. Qed.
#[export] Instance ZonesKept_preorder : PreOrder ZonesKept.
Proof. unfold ZonesKept. split; [by intros d|]. intros d1 d2 d3 H1 H2. by transitivity (db_Zones d2). Qed.
#[export] Instance op_kept_preorder : PreOrder op_kept.
Proof. unfold op_kept. kept_preorder. Qed.

(** Running jobs are left running. *)
Definition jobs_kept (s s' : RemovalStore) : Prop :=
  (∀ j, j ∈ rm_Jobs s → jb_State j = "running" → j ∈ rm_Jobs s') ∧
  (keys_ok jb_ID (rm_Jobs s) (rm_JobSeq s) → keys_ok jb_ID (rm_Jobs s') (rm_JobSeq s')).

(** [grow]: an operation may have been added. *)
Record Quiet (grow : bool) (s s' : RemovalStore) : Prop := mkQuiet {
  quiet_sites : from site_kept (rm_Sites s) (rm_Sites s');
  quiet_owned : from owned_kept (rm_Owned s) (rm_Owned s');
  quiet_databases : from database_kept (rm_Databases s) (rm_Databases s');
  quiet_backups : from backup_kept (rm_Backups s) (rm_Backups s');
  quiet_zones : from zone_kept (db_Zones (rm_DNS s)) (db_Zones (rm_DNS s'));
  quiet_operations : ∀ o, o ∈ rm_Operations s → ∃ o', o' ∈ rm_Operations s' ∧ op_kept o o';
  quiet_from : grow = false → from op_kept (rm_Operations s) (rm_Operations s');
  quiet_jobs : jobs_kept s s';
  quiet_site_keys : NoDup (ws_ID <$> rm_Sites s) → NoDup (ws_ID <$> rm_Sites s');
  quiet_sequence : rm_SiteSeq s' = rm_SiteSeq s;
}.

#[export] Instance Quiet_preorder grow : PreOrder (Quiet grow).
Proof.
  split.
  - intros s. split; try reflexivity; [intros o Ho; exists o; split; [done|reflexivity]|split; auto|done].
  - intros s1 s2 s3 [S1 O1 D1 B1 Z1 P1 F1 [J1 K1] N1 Q1] [S2 O2 D2 B2 Z2 P2 F2 [J2 K2] N2 Q2]. split.
    + by transitivity (rm_Sites s2).
    + by transitivity (rm_Owned s2).
    + by transitivity (rm_Databases s2).
    + by transitivity (rm_Backups s2).
    + by transitivity (db_Zones (rm_DNS s2)).
    + intros o (o2 & (o3 & H3 & K3)%P2 & K)%P1. exists o3. split; [done|]. by transitivity o2.
    + intros Eg. transitivity (rm_Operations s2); auto.
    + split; auto.
    + auto.
    + congruence.
Qed.

Lemma Quiet_grow grow s s' : Quiet false s s' → Quiet grow s s'.
Proof. intros [S1 O1 D1 B1 Z1 P1 F1 J1 N1 Q1]. split; auto. Qed.

(** ** Statements *)

#[local] Hint Extern 4 (steps (Quiet _) (tx_query _)) => apply steps_query; typeclasses eauto : tx_steps.

Section Statements.
Context `{GoUnicode} `{GoMapOrder} `{Collation} `{SHA256}.
Context (grow : bool).
Implicit Types (s : RemovalStore) (op : SiteRemovalOperation).

(** A statement that writes some of the tables. *)
Ltac quiet_tables :=
  intros s; split; cbn -[rows_update rows_delete fmap];
  try first [reflexivity
    |by (intros o Ho; exists o; split; [exact Ho|reflexivity])
    |by (intros _; reflexivity)
    |exact id
    |by (split; [intros j Hj _; exact Hj|intros Hk; exact Hk])
    |apply from_delete; typeclasses eauto].

Lemma quiet_removal_operations p f : (∀ o, op_kept o (f o)) → steps (Quiet grow) (update_operations p f).
Proof.
  intros Hf. unfold update_operations. intros s n s' Hr. db_ok. split; cbn; try first [reflexivity|exact id].
  - intros o Ho. exists (if p o then f o else o). split; [|destruct (p o); [apply Hf|reflexivity]].
    apply rows_update_elem. eauto.
  - intros _. apply from_update; [typeclasses eauto|]. intros o _. apply Hf.
  - split; auto.
Qed.

Lemma quiet_set_removal p state f :
  state ≠ "none" → (∀ w, ws_ID (f w) = ws_ID w ∧ ws_SubscriptionID (f w) = ws_SubscriptionID w ∧ ws_Domain (f w) = ws_Domain w) →
  steps (Quiet grow) (set_removal p state f).
Proof.
  intros Hs Hf. apply steps_write. quiet_tables.
  - apply from_update; [typeclasses eauto|]. intros w _. destruct (Hf w) as (? & ? & ?). unfold site_kept. cbn. auto.
  - rewrite fmap_rows_update; [done|]. intros w _. by destruct (Hf w).
Qed.

Lemma quiet_new_job clock kind args : steps (Quiet grow) (new_job clock kind args).
Proof.
  apply steps_write. quiet_tables. split; [intros j Hj _; cbn; apply elem_of_app; by left|]. cbn. by apply keys_append.
Qed.

Lemma quiet_audit actorID email op action metadata : steps (Quiet grow) (removalAudit actorID email op action metadata).
Proof. apply steps_write. quiet_tables. Qed.

Lemma quiet_lock id : steps (Quiet grow) (LockSubscriptionMutationTx id).
Proof. unfold LockSubscriptionMutationTx. steps_rows. Qed.

Lemma quiet_drain op : steps (Quiet grow) (drain_jobs op).
Proof.
  apply steps_write. quiet_tables. split; cbn; [|intros Hk; apply keys_update; [done|exact Hk]].
  intros j Hj Hs. apply rows_update_elem. exists j. split; [done|]. by rewrite Hs.
Qed.

Lemma quiet_on_dns {A} (m : tx DNSStore A) : steps ZonesKept m → steps (Quiet grow) (on_dns m).
Proof.
  intros Hm s a s'. unfold on_dns. destruct (m (rm_DNS s)) as [[b d]|e] eqn:E; [|done]. intros [= <- <-].
  pose proof (Hm _ _ _ E) as Hd. revert s E Hd. intros s E Hd. split; cbn; try first [reflexivity|exact id]; [done| |].
  - intros o Ho. exists o. split; [done|reflexivity].
  - split; auto.
Qed.

Lemma zones_update p f : (∀ z, zone_kept z (f z)) → steps ZonesKept (update_zones p f).
Proof. intros Hf. apply steps_write. intros d. cbn. apply from_update; [typeclasses eauto|]. intros. apply Hf. Qed.

#[local] Hint Resolve quiet_lock quiet_new_job quiet_audit quiet_drain : tx_steps.
#[local] Hint Extern 4 (steps (Quiet grow) (update_operations _ _)) =>
  apply quiet_removal_operations; intros ?; unfold op_kept; cbn; intuition lia : tx_steps.
#[local] Hint Extern 4 (steps (Quiet grow) (set_removal _ _ _)) => apply quiet_set_removal; [done|by intros ?] : tx_steps.

(** ** The transactions *)

Lemma quiet_insert_removal_job clock id revision : steps (Quiet grow) (insert_removal_job clock id revision).
Proof. unfold insert_removal_job. tx_steps. Qed.

Lemma quiet_insert_target id siteID : steps (Quiet grow) (insert_target id siteID).
Proof. unfold insert_target. tx_steps. apply steps_write. quiet_tables. Qed.
#[local] Hint Resolve quiet_insert_removal_job quiet_insert_target : tx_steps.

Lemma quiet_reserve_site id revision siteID : steps (Quiet grow) (reserve_site id revision siteID).
Proof. unfold reserve_site. tx_steps. Qed.
#[local] Hint Resolve quiet_reserve_site : tx_steps.

Lemma quiet_retry clock actor id subscriptionID : steps (Quiet grow) (retry clock actor id subscriptionID).
Proof. unfold retry. tx_steps. Qed.

Lemma quiet_mark_waiting op : steps (Quiet grow) (mark_waiting op).
Proof. unfold mark_waiting. tx_steps. Qed.

Lemma quiet_advance op stage checkpoints : steps (Quiet grow) (advanceRemoval op stage checkpoints).
Proof. unfold advanceRemoval. tx_steps. Qed.

Lemma quiet_fail op stage : steps (Quiet grow) (fail_removal op stage).
Proof. unfold fail_removal. tx_steps. Qed.

#[local] Hint Extern 4 (steps ZonesKept (tx_query _)) => apply steps_query; typeclasses eauto : tx_steps.
#[local] Hint Extern 4 (steps ZonesKept (update_zones _ _)) => apply zones_update; by intros ? : tx_steps.

Lemma quiet_touch_zone now id : steps (Quiet grow) (on_dns (touch_zone now id)).
Proof. apply quiet_on_dns. unfold touch_zone. tx_steps. Qed.

Lemma quiet_mark_zone id revision : steps (Quiet grow) (on_dns (mark_zone id revision)).
Proof. apply quiet_on_dns. unfold mark_zone. tx_steps. Qed.

Lemma quiet_delete_records p : steps (Quiet grow) (on_dns (delete_records p)).
Proof. apply quiet_on_dns. unfold delete_records. tx_steps. apply steps_write. intros d. unfold ZonesKept. cbn. reflexivity. Qed.
#[local] Hint Resolve quiet_touch_zone quiet_mark_zone quiet_delete_records : tx_steps.

Lemma quiet_remove_records selected resources : steps (Quiet grow) (remove_records selected resources).
Proof.
  induction resources as [|r resources IH]; cbn; tx_steps. unfold remove_approved. steps_rows.
Qed.
#[local] Hint Resolve quiet_remove_records : tx_steps.

Lemma quiet_prepareDNS now op : steps (Quiet grow) (prepareDNS now op).
Proof. unfold prepareDNS. tx_steps. Qed.

(** ** The end *)

Lemma quiet_delete_owned p : steps (Quiet grow) (delete_owned p).
Proof. apply steps_write. quiet_tables. Qed.

Lemma quiet_delete_with_children p : steps (Quiet grow) (delete_with_children p).
Proof. apply steps_write. quiet_tables. Qed.
#[local] Hint Resolve quiet_delete_owned quiet_delete_with_children : tx_steps.

Lemma quiet_delete_resource op r : steps (Quiet grow) (delete_resource op r).
Proof. unfold delete_resource. tx_steps. Qed.

Lemma quiet_delete_database op d : steps (Quiet grow) (delete_database op d).
Proof. unfold delete_database. tx_steps. apply steps_write. quiet_tables. Qed.

Lemma quiet_requeue_database clock d : steps (Quiet grow) (requeue_database clock d).
Proof.
  unfold requeue_database. tx_steps. apply steps_write. quiet_tables. apply from_update; [typeclasses eauto|].
  intros r _. by split; [|left].
Qed.
#[local] Hint Resolve quiet_delete_resource quiet_delete_database quiet_requeue_database : tx_steps.

Lemma quiet_requeue clock op ids : steps (Quiet grow) (requeueKeptPendingDatabases clock op ids).
Proof. unfold requeueKeptPendingDatabases. tx_steps. Qed.

Lemma quiet_detach_databases op ids : steps (Quiet grow) (detach_databases op ids).
Proof.
  apply steps_write. quiet_tables. apply from_update; [typeclasses eauto|]. intros d _. split; [done|by right].
Qed.

Lemma quiet_detach_backups op ids : steps (Quiet grow) (detach_backups op ids).
Proof.
  apply steps_write. quiet_tables. apply from_update; [typeclasses eauto|]. intros b _.
  destruct (String.eqb (bk_Status b) "pending"); (split; [done|by right]).
Qed.

Lemma quiet_cascade_site id s : Quiet grow s (cascade_site id s).
Proof.
  unfold cascade_site. revert s. quiet_tables.
  - apply from_update; [typeclasses eauto|]. by intros w _.
  - etransitivity; [apply from_delete; typeclasses eauto|]. apply from_update; [typeclasses eauto|].
    intros r _. unfold owned_kept. cbn. repeat (split; [done|]). by right.
  - apply from_update; [typeclasses eauto|]. intros d _. split; [done|by right].
  - apply from_update; [typeclasses eauto|]. intros b _. split; [done|by right].
  - by rewrite fmap_rows_update.
Qed.

Lemma quiet_delete_site item : steps (Quiet grow) (delete_site item).
Proof.
  unfold delete_site. tx_steps; apply steps_write; [quiet_tables|]; [|intros s; apply quiet_cascade_site].
  intros Hnd. eapply sublist_NoDup; [exact Hnd|]. apply fmap_sublist, rows_delete_sublist.
Qed.

Lemma quiet_delete_secrets ids : steps (Quiet grow) (delete_secrets ids).
Proof. apply steps_write. quiet_tables. Qed.

Lemma quiet_release_targets op : steps (Quiet grow) (release_targets op).
Proof. apply steps_write. quiet_tables. Qed.
#[local] Hint Resolve quiet_requeue quiet_detach_databases quiet_detach_backups quiet_delete_site quiet_delete_secrets quiet_release_targets : tx_steps.

Lemma quiet_clear_rows clock op ids : steps (Quiet grow) (clear_rows clock op ids).
Proof. unfold clear_rows. tx_steps. Qed.
#[local] Hint Resolve quiet_clear_rows : tx_steps.

Lemma quiet_clear_tables clock op secretIDs : steps (Quiet grow) (clear_tables clock op secretIDs).
Proof. unfold clear_tables. tx_steps. Qed.
#[local] Hint Resolve quiet_clear_tables : tx_steps.

Lemma quiet_finalize clock id revision : steps (Quiet grow) (finalize clock id revision).
Proof. unfold finalize. tx_steps. Qed.
End Statements.

#[local] Hint Resolve quiet_lock quiet_new_job quiet_audit quiet_drain quiet_insert_removal_job quiet_insert_target quiet_reserve_site
  quiet_finalize quiet_prepareDNS quiet_fail quiet_advance quiet_mark_waiting quiet_retry quiet_mark_zone : tx_steps.

(** A request adds an operation. *)
Definition grows {B} (st : statement B) : bool := match st with Reserve _ _ _ => true | _ => false end.

Section Perform.
Context `{GoUnicode} `{GoMapOrder} `{Collation} `{SHA256}.

Lemma quiet_insert_operation actor req pv selected : steps (Quiet true) (insert_operation actor req pv selected).
Proof.
  unfold insert_operation. tx_steps. apply steps_write. intros s. split; cbn; try first [reflexivity|exact id].
  - intros o Ho. exists o. split; [apply elem_of_app; by left|reflexivity].
  - done.
  - split; auto.
Qed.

#[local] Hint Resolve quiet_insert_operation : tx_steps.

Lemma quiet_reserve opts answers clock actor req subscriptionID : steps (Quiet true) (reserve opts answers clock actor req subscriptionID).
Proof.
  unfold reserve. tx_steps. destruct a0; tx_steps.
Qed.

#[local] Hint Resolve quiet_reserve : tx_steps.

Lemma quiet_perform opts answers clock now {B} (st : statement B) : steps (Quiet (grows st)) (perform opts answers clock now st).
Proof.
  destruct st; cbn [perform grows]; tx_steps.
Qed.
End Perform.
