(* ===== verification/RemovalSound.v ===== *)
(** * Website removal: what is approved stays covered

    The websites a job works on, described by the rows that lead to them; the
    snapshot of an approved operation covers every such row of its websites, which
    are closed; and nothing, no statement of a removal and no change of another
    component, makes a new way into a closed website. *)

From S2P Require Import Prelude Tx Programs Tables GoStr GoCrypto Site DNSTypes DNSTables DNSEdit OpsTypes DNSAgent DNSWorker RemovalTypes RemovalPreview RemovalFence RemovalStore RemovalSystem RemovalFacts.

Section Sound.
Context `{GoUnicode} `{GoMapOrder} `{Collation} `{SHA256}.
Implicit Types (s : RemovalStore) (w : WebSite) (sn : SiteRemovalSnapshot) (q : FenceQuery).

(** ** The rows that lead to a website *)

Lemma owned_elem t r s : r ∈ owned t s ↔ ow_Table r = t ∧ r ∈ rm_Owned s.
Proof. unfold owned. rewrite rows_where_elem, bool_decide_eq_true. done. Qed.

Lemma parent_row_elem t r p s : p ∈ parent_row t r s ↔ ow_ID p = ow_ParentID r ∧ p ∈ owned t s.
Proof. unfold parent_row. rewrite rows_where_elem, Z.eqb_eq. done. Qed.

Lemma by_key_elem t id r s : r ∈ by_key t id s ↔ ow_ID r = id ∧ r ∈ owned t s.
Proof. unfold by_key. rewrite rows_where_elem, Z.eqb_eq. done. Qed.

Lemma site_by_id_elem id w s : w ∈ site_by_id id s ↔ ws_ID w = id ∧ w ∈ rm_Sites s.
Proof. unfold site_by_id. rewrite rows_where_elem, Z.eqb_eq. done. Qed.

Definition exists_site (id : Z) s : Prop := ∃ w, w ∈ rm_Sites s ∧ ws_ID w = id.

Definition reaches q w s : Prop :=
  match q with
  | FenceSite id => ws_ID w = id
  | FenceDomain domain => ws_Domain w = domain
  | FenceImport id => ∃ i box d, i ∈ owned MailImports s ∧ ow_Value i = id ∧ box ∈ parent_row Mailboxes i s ∧
      d ∈ parent_row MailDomains box s ∧ ow_SiteID d = ws_ID w
  | FenceBackupSite id | FenceBackup id => ∃ b, b ∈ rm_Backups s ∧ bk_ID b = id ∧ bk_SiteID b = ws_ID w
  | FenceWebmail id => ∃ r, r ∈ by_key WebmailHosts id s ∧ ow_SiteID r = ws_ID w
  | FenceZone id => ∃ z, z ∈ db_Zones (rm_DNS s) ∧ zr_ID z = id ∧ zr_SiteID z = ws_ID w
  | FencePHP id => ∃ r, r ∈ by_key PHPApplications id s ∧ ow_SiteID r = ws_ID w
  | FenceWordPress id => ∃ r, r ∈ by_key WordPressInstances id s ∧ ow_SiteID r = ws_ID w
  | FenceApplication id => ∃ r, r ∈ by_key ApplicationInstances id s ∧ ow_SiteID r = ws_ID w
  | FenceStaging id => ∃ r, r ∈ by_key StagingOperations id s ∧ (ow_SiteID r = ws_ID w ∨ ow_ParentID r = ws_ID w) ∧
      exists_site (ow_SiteID r) s ∧ exists_site (ow_ParentID r) s
  | FenceRun id => ∃ r task, r ∈ by_key ScheduledTaskRuns id s ∧ task ∈ parent_row ScheduledTasks r s ∧ ow_SiteID task = ws_ID w
  | FenceDatabase id => ∃ d, d ∈ rm_Databases s ∧ da_ID d = id ∧ da_SiteID d = ws_ID w
  end.

(** The rows of a query that hold a website. *)
Definition leads w (rows : list (list WebSite * Z)) : Prop := ∃ row, row ∈ rows ∧ w ∈ row.1.

Lemma leads_bind {A} w (l : list A) (f : A → list (list WebSite * Z)) : leads w (l ≫= f) ↔ ∃ y, y ∈ l ∧ leads w (f y).
Proof.
  unfold leads. split.
  - intros (row & (y & Hr & Hy)%list_elem_of_bind & Hw). eauto.
  - intros (y & Hy & row & Hr & Hw). exists row. split; [|done]. apply list_elem_of_bind. eauto.
Qed.

Lemma leads_single w sites created : leads w [(sites, created)] ↔ w ∈ sites.
Proof.
  unfold leads. split; [intros (row & ->%list_elem_of_singleton & Hw); done|].
  intros Hw. eexists. split; [apply list_elem_of_singleton; reflexivity|done].
Qed.

Lemma leads_joined w sites : leads w (joined sites) ↔ w ∈ sites.
Proof.
  unfold joined. split.
  - intros (row & (w' & -> & Hw')%list_elem_of_fmap & Hw). cbn in Hw. apply list_elem_of_singleton in Hw. by subst.
  - intros Hw. exists ([w], ws_CreatedAt w). split; [apply list_elem_of_fmap; eauto|cbn; set_solver].
Qed.

Lemma leads_maybe w id created s : ws_ID w ≠ 0 → leads w (maybe_site id created s) ↔ ws_ID w = id ∧ w ∈ rm_Sites s.
Proof.
  intros Hw. unfold maybe_site. rewrite leads_single. destruct (id =? 0) eqn:E; [|apply site_by_id_elem].
  apply Z.eqb_eq in E. split; [by intros ?%elem_of_nil|intros []; congruence].
Qed.

Lemma where_elem {A} (p : A → bool) rows r : r ∈ rows_where p rows ↔ p r = true ∧ r ∈ rows.
Proof. apply rows_where_elem. Qed.

Ltac leads_rows := repeat setoid_rewrite leads_bind; repeat first [setoid_rewrite leads_joined | setoid_rewrite leads_maybe; [|done]];
  repeat setoid_rewrite site_by_id_elem; repeat setoid_rewrite where_elem; repeat setoid_rewrite Z.eqb_eq.

Lemma fence_rows_spec q w s : ws_ID w ≠ 0 → leads w (fence_rows q s) ↔ w ∈ rm_Sites s ∧ reaches q w s.
Proof.
  intros Hw. destruct q; cbn [fence_rows reaches].
  - leads_rows. naive_solver.
  - leads_rows. rewrite String.eqb_eq. naive_solver.
  - leads_rows. setoid_rewrite String.eqb_eq. naive_solver.
  - leads_rows. naive_solver.
  - leads_rows. naive_solver.
  - leads_rows. naive_solver.
  - leads_rows. naive_solver.
  - leads_rows. naive_solver.
  - leads_rows. naive_solver.
  - rewrite leads_bind. setoid_rewrite leads_bind. setoid_rewrite leads_bind. setoid_rewrite leads_single.
    setoid_rewrite site_by_id_elem. setoid_rewrite elem_of_cons. setoid_rewrite list_elem_of_singleton.
    unfold exists_site. split.
    + intros (r & Hr & source & [Es Hs] & target & [Et Ht] & [->| ->]); split; try done; exists r; naive_solver.
    + intros [Hin (r & Hr & [E|E] & (source & Hs & Es) & (target & Ht & Et))]; exists r; (split; [done|]).
      * exists w. split; [done|]. exists target. auto.
      * exists source. split; [done|]. exists w. auto.
  - leads_rows. naive_solver.
  - leads_rows. naive_solver.
  - leads_rows. naive_solver.
Qed.

Lemma query_sites_spec q X s : X ≠ 0 → X ∈ query_sites q s ↔ ∃ w, w ∈ rm_Sites s ∧ ws_ID w = X ∧ reaches q w s.
Proof.
  intros HX. unfold query_sites. rewrite list_elem_of_bind. split.
  - intros ([sites created] & Hin & Hrow). apply list_elem_of_fmap in Hin as (w & -> & Hw). exists w.
    destruct (proj1 (fence_rows_spec q w s HX)) as [? ?]; [by exists (sites, created)|done].
  - intros (w & Hw & <- & Hr). destruct (proj2 (fence_rows_spec q w s HX) (conj Hw Hr)) as ([sites created] & Hrow & Hin).
    exists (sites, created). split; [|done]. apply list_elem_of_fmap. eauto.
Qed.

(** The fence lets a job through only when none of its websites is closed. *)
Lemma fence_row_open q s created w :
  fence_row q s = Ok ("none", created) → w ∈ rm_Sites s → ws_ID w ≠ 0 → reaches q w s → ws_RemovalState w = "none".
Proof.
  intros Hf Hw H0w Hr. destruct (proj2 (fence_rows_spec q w s H0w) (conj Hw Hr)) as (row & Hrow & Hin).
  unfold fence_row in Hf. destruct (fence_rows q s) as [|[w0 c0] rows]; [done|].
  destruct (decide (ws_RemovalState w = "none")) as [|Hn]; [done|]. exfalso.
  assert (w ∈ rows_where (λ w, negb (String.eqb (ws_RemovalState w) "none")) (concat (fst <$> (w0, c0) :: rows))) as Hin'.
  { apply rows_where_elem. split; [by apply negb_true_iff, String.eqb_neq|]. apply list_elem_of_In, in_concat.
    exists row.1. split; [|by apply list_elem_of_In]. apply list_elem_of_In, list_elem_of_fmap. eauto. }
  cbn -[rows_where] in Hf, Hin'. destruct (rows_where _ _) as [|w1 found] eqn:Ef; [by apply elem_of_nil in Hin'|].
  injection Hf as Hf _.
  assert (w1 ∈ w1 :: found) as Hw1 by constructor. rewrite <- Ef in Hw1. apply rows_where_elem in Hw1 as [Hw1 _].
  by rewrite Hf in Hw1.
Qed.

(** ** What a snapshot covers *)

Definition kind_of (t : table) : option string :=
  match t with
  | PHPApplications => Some "php_application"
  | WordPressInstances => Some "wordpress"
  | ApplicationInstances => Some "application"
  | WebmailHosts => Some "webmail"
  | ScheduledTasks => Some "task"
  | StagingOperations => Some "staging"
  | _ => None
  end.

(** A row is of a website, directly or as the target of a staging operation. *)
Definition belongs (r : OwnedRow) w : Prop :=
  ow_SiteID r = ws_ID w ∨ (ow_Table r = StagingOperations ∧ ow_ParentID r = ws_ID w).

Definition own_backups sn : list Z :=
  rr_ID <$> rows_where (λ b, bool_decide (rr_SiteID b ∈ removalSelectedSites sn)) (sn_Backups sn).

(** Every row that leads to a chosen website is in the snapshot. *)
Record covers sn s : Prop := mkCovers {
  covers_owned : ∀ w r k, w ∈ rm_Sites s → ws_ID w ∈ removalSelectedSites sn → r ∈ rm_Owned s → belongs r w →
    kind_of (ow_Table r) = Some k → ow_ID r ∈ resource_ids k sn;
  covers_databases : ∀ w d, w ∈ rm_Sites s → ws_ID w ∈ removalSelectedSites sn → d ∈ rm_Databases s → da_SiteID d = ws_ID w →
    da_ID d ∈ rd_ID <$> sn_Databases sn;
  covers_backups : ∀ w b, w ∈ rm_Sites s → ws_ID w ∈ removalSelectedSites sn → b ∈ rm_Backups s → bk_SiteID b = ws_ID w →
    bk_ID b ∈ own_backups sn;
  covers_zones : ∀ w z, w ∈ rm_Sites s → ws_ID w ∈ removalSelectedSites sn → z ∈ db_Zones (rm_DNS s) → zr_SiteID z = ws_ID w →
    zr_ID z ∈ resource_ids "dns_zone" sn;
}.

(** A job says which website or which row it works on: by its key, not by a domain,
    and a backup to be made by its website. *)
Definition carries_key (kind : string) (args : removalFenceArgs) : bool :=
  match fence_query kind args with
  | Some (FenceDomain _) => false
  | Some (FenceBackupSite _) => negb (String.eqb kind "create_backup")
  | _ => true
  end.

Lemma scope_by_rule sn kind args s kinds key ids :
  (kinds, key, ids) ∈ scope_rules sn → kind ∈ kinds → key args ∈ ids → TargetSiteJobScope sn kind args s = true.
Proof.
  intros Hrule Hk Hid. unfold TargetSiteJobScope. apply orb_true_iff. left. apply orb_true_iff. right.
  apply existsb_exists. eexists. split; [by apply list_elem_of_In|]. cbn.
  apply andb_true_iff. split; [by apply one_of_elem|by apply bool_decide_eq_true].
Qed.

Lemma scope_by_site sn kind args s :
  kind ∈ ["create_site"; "issue_cert"; "install_custom_cert"; "set_hosting_state"; "create_backup"; "restore_backup";
          "generate_web_statistics"; "maintenance_prune_site_backups"] →
  fa_SiteID args ∈ removalSelectedSites sn → TargetSiteJobScope sn kind args s = true.
Proof.
  intros Hk%one_of_elem Hs. unfold TargetSiteJobScope. rewrite Hk, (bool_decide_eq_true_2 _ Hs). done.
Qed.

Ltac rule n := eapply scope_by_rule; [apply (list_elem_of_lookup_2 _ n); reflexivity|first [assumption|apply one_of_elem; reflexivity]|].

(** A job that reaches a chosen website is in the scope of the removal. *)
Lemma reached_in_scope sn kind args q w s :
  covers sn s → fence_query kind args = Some q → carries_key kind args = true →
  w ∈ rm_Sites s → ws_ID w ≠ 0 → ws_ID w ∈ removalSelectedSites sn → reaches q w s → TargetSiteJobScope sn kind args s = true.
Proof.
  intros [Co Cd Cb Cz] Hq Hkey Hw H0w Hsn Hr. unfold carries_key in Hkey. rewrite Hq in Hkey.
  assert (removalFenceQuery kind args = Some q) as Hf.
  { unfold fence_query in Hq. destruct (removalFenceQuery kind args) as [q0|]; [|done].
    destruct (missing q0); cbn in Hq; [|done]. destruct q0; try done. destruct (String.eqb _ _); [done|]. by injection Hq as <-. }
  assert (∀ t k id, kind_of t = Some k → (∃ r, r ∈ by_key t id s ∧ ow_SiteID r = ws_ID w) → id ∈ resource_ids k sn) as Hown.
  { intros t k id Hk (r & [<- [<- Hin]%owned_elem]%by_key_elem & Hs). by eapply Co; [..|left|]. }
  unfold removalFenceQuery in Hf. repeat match type of Hf with
  | (if String.eqb ?a ?b then _ else _) = _ => destruct (String.eqb_spec a b) as [->|]
  | (if one_of ?a ?l then _ else _) = _ => let E := fresh "Hk" in destruct (one_of a l) eqn:E; [apply one_of_elem in E|clear E]
  end; try discriminate Hf; injection Hf as <-; cbn [reaches] in Hr.
  - destruct Hr as (i & box & d & [Ti Hi]%owned_elem & Ei & Hb & Hd & Es). unfold TargetSiteJobScope.
    assert (import_of (removalSelectedSites sn) (fa_ImportID args) s = true) as ->; [|by rewrite !orb_true_r].
    unfold import_of, has_rows. destruct (_ ≫= _) eqn:E; [|done]. exfalso.
    apply not_elem_of_nil with d. rewrite <- E. apply list_elem_of_bind. exists i. split.
    + apply list_elem_of_bind. exists box. split; [|done]. apply rows_where_elem. split; [|done].
      unfold chosen. rewrite Es. apply andb_true_iff. split; [by apply negb_true_iff, Z.eqb_neq|by apply bool_decide_eq_true].
    + apply rows_where_elem. rewrite String.eqb_eq. split; [done|]. by apply owned_elem.
  - apply scope_by_site; [|by rewrite <- Hr]. clear -Hk. unfold site_kinds in Hk. set_solver.
  - destruct (0 <? fa_SiteID args) eqn:E; cbn in Hr.
    + apply scope_by_site; [|by rewrite <- Hr]. clear -Hk. set_solver.
    + apply elem_of_cons in Hk as [->|Hk]; [done|]. apply list_elem_of_singleton in Hk as ->.
      destruct Hr as (b & Hb & Eb & Es). rule 6%nat. rewrite <- Eb. by eapply Cb.
  - rule 3%nat. by apply (Hown WebmailHosts).
  - destruct Hr as (z & Hz & Ez & Es). rule 4%nat. rewrite <- Ez. by eapply Cz.
  - rule 0%nat. by apply (Hown PHPApplications).
  - rule 1%nat. by apply (Hown WordPressInstances).
  - rule 2%nat. by apply (Hown ApplicationInstances).
  - destruct Hr as (r & [Ei [Et Hr]%owned_elem]%by_key_elem & Es & _). rule 8%nat. rewrite <- Ei. eapply Co; [done..| |by rewrite Et].
    destruct Es as [Es|Es]; [by left|by right].
  - destruct Hr as (r & task & Hr & [Ei [Et Ht]%owned_elem]%parent_row_elem & Es). unfold TargetSiteJobScope.
    assert (run_of (resource_ids "task" sn) (fa_RunID args) s = true) as ->; [|by rewrite !orb_true_r].
    unfold run_of, has_rows. destruct (rows_where _ _) eqn:E; [|done]. exfalso.
    apply not_elem_of_nil with r. rewrite <- E. apply rows_where_elem. split; [|done]. apply bool_decide_eq_true.
    rewrite <- Ei. eapply Co; [done..|by left|by rewrite Et].
  - destruct Hr as (d & Hd & Ed & Es). rule 5%nat. rewrite <- Ed. by eapply Cd.
  - destruct Hr as (b & Hb & Eb & Es). rule 7%nat. rewrite <- Eb. eapply Cb in Hb as Hin; [|done..].
    unfold own_backups in Hin. apply list_elem_of_fmap in Hin as (r & -> & [_ Hr]%rows_where_elem). by apply list_elem_of_fmap_2.
Qed.

(** ** Along the statements of removals *)

Lemma quiet_owned_back grow s s' t r' : Quiet grow s s' → r' ∈ owned t s' → ∃ r, r ∈ owned t s ∧ owned_kept r r'.
Proof.
  intros Hq [Et Hr]%owned_elem. destruct (quiet_owned _ _ _ Hq _ Hr) as (r & Hin & Hk). exists r. split; [|done].
  apply owned_elem. split; [|done]. destruct Hk as [<- _]. done.
Qed.

Lemma detached_back site site' : detached site site' → site' ≠ 0 → site = site'.
Proof. unfold detached. intuition congruence. Qed.

Lemma exists_back grow s s' id : Quiet grow s s' → exists_site id s' → exists_site id s.
Proof.
  intros Hq (w' & Hw' & <-). destruct (quiet_sites _ _ _ Hq _ Hw') as (w & Hw & E & _). exists w. split; [done|congruence].
Qed.

Lemma quiet_by_key_back grow s s' t id r' : Quiet grow s s' → r' ∈ by_key t id s' → ∃ r, r ∈ by_key t id s ∧ owned_kept r r'.
Proof.
  intros Hq [Ei Hr]%by_key_elem. destruct (quiet_owned_back _ _ _ _ _ Hq Hr) as (r & Hin & Hk). exists r. split; [|done].
  apply by_key_elem. split; [|done]. destruct Hk as (_ & Hid & _). congruence.
Qed.

Lemma quiet_parent_back grow s s' t c c' p' : Quiet grow s s' → owned_kept c c' → p' ∈ parent_row t c' s' → ∃ p, p ∈ parent_row t c s ∧ owned_kept p p'.
Proof.
  intros Hq Hc [Ei Hr]%parent_row_elem. destruct (quiet_owned_back _ _ _ _ _ Hq Hr) as (r & Hin & Hk). exists r. split; [|done].
  apply parent_row_elem. split; [|done]. destruct Hk as (_ & Hid & _), Hc as (_ & _ & Hp & _). congruence.
Qed.

Lemma owned_site_back r r' : owned_kept r r' → ow_SiteID r' ≠ 0 → ow_SiteID r = ow_SiteID r'.
Proof. intros (_ & _ & _ & _ & _ & _ & Hd). by apply detached_back. Qed.

Lemma quiet_row_back grow s s' t id w w' :
  Quiet grow s s' → site_kept w w' → ws_ID w' ≠ 0 →
  (∃ r', r' ∈ by_key t id s' ∧ ow_SiteID r' = ws_ID w') → ∃ r, r ∈ by_key t id s ∧ ow_SiteID r = ws_ID w.
Proof.
  intros Hq (Ew & _) Hne (r' & Hr' & Es). destruct (quiet_by_key_back _ _ _ _ _ _ Hq Hr') as (r & Hr & Hk). exists r. split; [done|].
  rewrite (owned_site_back _ _ Hk); congruence.
Qed.

(** A website that is reached was reached before. *)
Lemma reaches_back grow q w w' s s' : Quiet grow s s' → site_kept w w' → ¬ exists_site 0 s' → ws_ID w' ≠ 0 → reaches q w' s' → reaches q w s.
Proof.
  intros Hq Hw Hno Hne. pose proof Hw as (Ew & _ & Ed & _).
  destruct q; cbn [reaches]; try (by apply (quiet_row_back _ _ _ _ _ _ _ Hq Hw Hne)).
  - congruence.
  - congruence.
  - intros (i' & box' & d' & Hi' & Ei & Hb' & Hd' & Es).
    destruct (quiet_owned_back _ _ _ _ _ Hq Hi') as (i & Hi & Ki). destruct (quiet_parent_back _ _ _ _ _ _ _ Hq Ki Hb') as (box & Hb & Kb).
    destruct (quiet_parent_back _ _ _ _ _ _ _ Hq Kb Hd') as (d & Hd & Kd). exists i, box, d. split_and!; try done.
    + destruct Ki as (_ & _ & _ & _ & _ & Hv & _). congruence.
    + rewrite (owned_site_back _ _ Kd); congruence.
  - intros (b' & Hb' & Eb & Es). destruct (quiet_backups _ _ _ Hq _ Hb') as (b & Hb & Ei & Kb%detached_back); [|congruence].
    exists b. split_and!; congruence.
  - intros (z' & Hz' & Ez & Es). destruct (quiet_zones _ _ _ Hq _ Hz') as (z & Hz & Ei & Kz). exists z. split_and!; congruence.
  - intros (r' & Hr' & Es & Esource & Etarget). destruct (quiet_by_key_back _ _ _ _ _ _ Hq Hr') as (r & Hr & Kr).
    pose proof (exists_back _ _ _ _ Hq Esource) as Hsource. pose proof (exists_back _ _ _ _ Hq Etarget) as Htarget.
    assert (ow_SiteID r = ow_SiteID r') as Ks by (apply (owned_site_back _ _ Kr); intros E0; by rewrite E0 in Esource).
    destruct Kr as (_ & _ & Kp & _). exists r. rewrite <- Ew, Ks, <- Kp. auto.
  - intros (r' & task' & Hr' & Ht' & Es). destruct (quiet_by_key_back _ _ _ _ _ _ Hq Hr') as (r & Hr & Kr).
    destruct (quiet_parent_back _ _ _ _ _ _ _ Hq Kr Ht') as (task & Ht & Kt). exists r, task. split_and!; try done.
    rewrite (owned_site_back _ _ Kt); congruence.
  - intros (d' & Hd' & Ed' & Es). destruct (quiet_databases _ _ _ Hq _ Hd') as (d & Hd & Ei & Kd%detached_back); [|congruence].
    exists d. split_and!; congruence.
  - intros (b' & Hb' & Eb & Es). destruct (quiet_backups _ _ _ Hq _ Hb') as (b & Hb & Ei & Kb%detached_back); [|congruence].
    exists b. split_and!; congruence.
Qed.

(** ** The invariant of the tables *)

Definition closed (ids : list Z) s : Prop := ∀ w, w ∈ rm_Sites s → ws_ID w ∈ ids → ws_RemovalState w ≠ "none".

(** What an operation is approved for: websites there were, all that leads to them. *)
Definition approved sn s : Prop := (∀ id, id ∈ removalSelectedSites sn → 0 < id < rm_SiteSeq s) ∧ covers sn s.

(** The chosen databases may be deleted. *)
Definition well_chosen (o : SiteRemovalOperation) : Prop :=
  ∀ id, id ∈ ro_DeleteDatabaseIDs o → ∃ d, d ∈ sn_Databases (ro_Snapshot o) ∧ rd_ID d = id ∧ rd_DeletionEligible d = true.

Record sound s : Prop := mkSound {
  sound_sequence : 0 < rm_SiteSeq s;
  sound_keys : NoDup (ws_ID <$> rm_Sites s);
  sound_sites : ∀ w, w ∈ rm_Sites s → 0 < ws_ID w < rm_SiteSeq s;
  sound_owned : ∀ r, r ∈ rm_Owned s → ow_SiteID r < rm_SiteSeq s ∧ (ow_Table r = StagingOperations → ow_ParentID r < rm_SiteSeq s);
  sound_mail : ∀ d w, d ∈ owned MailDomains s → w ∈ rm_Sites s → ow_SiteID d = ws_ID w →
    ow_SubscriptionID d = ws_SubscriptionID w ∧ ow_Name d = ws_Domain w;
  sound_jobs : keys_ok jb_ID (rm_Jobs s) (rm_JobSeq s);
  sound_operations : ∀ o, o ∈ rm_Operations s → approved (ro_Snapshot o) s ∧ closed (removalSelectedSites (ro_Snapshot o)) s;
  sound_choices : ∀ o, o ∈ rm_Operations s → well_chosen o;
}.

Lemma sound_no_zero s : sound s → ¬ exists_site 0 s.
Proof. intros Hs (w & Hw & E). apply (sound_sites _ Hs) in Hw. lia. Qed.

Lemma closed_quiet grow ids s s' : Quiet grow s s' → closed ids s → closed ids s'.
Proof.
  intros Hq Hc w' Hw' Hid. destruct (quiet_sites _ _ _ Hq _ Hw') as (w & Hw & E & _ & _ & Hk). apply Hk, Hc; [done|congruence].
Qed.

Lemma belongs_back r r' w w' : owned_kept r r' → site_kept w w' → ws_ID w' ≠ 0 → belongs r' w' → belongs r w.
Proof.
  intros Hr (Ew & _) Hne [Es|[Et Ep]].
  - left. rewrite (owned_site_back _ _ Hr); congruence.
  - right. destruct Hr as (E & _ & Hp & _). split; congruence.
Qed.

Lemma covers_quiet grow sn s s' : Quiet grow s s' → ¬ exists_site 0 s' → covers sn s → covers sn s'.
Proof.
  intros Hq Hno [Co Cd Cb Cz].
  assert (∀ w', w' ∈ rm_Sites s' → ws_ID w' ≠ 0 ∧ ∃ w, w ∈ rm_Sites s ∧ site_kept w w') as Hw.
  { intros w' Hw'. split; [intros E; apply Hno; by exists w'|]. by apply (quiet_sites _ _ _ Hq). }
  split.
  - intros w' r' k (Hne & w & Hin & Kw)%Hw Hsn Hr' Hb Hk. destruct (quiet_owned _ _ _ Hq _ Hr') as (r & Hr & Kr).
    pose proof (belongs_back _ _ _ _ Kr Kw Hne Hb) as Hb0. destruct Kr as (Et & -> & _). destruct Kw as (Ew & _).
    apply (Co w); try done; congruence.
  - intros w' d' (Hne & w & Hin & Ew & _)%Hw Hsn Hd' Es. destruct (quiet_databases _ _ _ Hq _ Hd') as (d & Hd & -> & Kd%detached_back); [|congruence].
    apply (Cd w); congruence.
  - intros w' d' (Hne & w & Hin & Ew & _)%Hw Hsn Hd' Es. destruct (quiet_backups _ _ _ Hq _ Hd') as (d & Hd & -> & Kd%detached_back); [|congruence].
    apply (Cb w); congruence.
  - intros w' d' (Hne & w & Hin & Ew & _)%Hw Hsn Hd' Es. destruct (quiet_zones _ _ _ Hq _ Hd') as (d & Hd & -> & Kd).
    apply (Cz w); congruence.
Qed.

Lemma approved_quiet grow sn s s' : Quiet grow s s' → ¬ exists_site 0 s' → approved sn s → approved sn s'.
Proof.
  intros Hq Hno [Hid Hc]. split; [|by eapply covers_quiet]. rewrite (quiet_sequence _ _ _ Hq). exact Hid.
Qed.

(** Statements keep the invariant, as far as new operations are approved. *)
Lemma sound_quiet grow s s' :
  sound s → Quiet grow s s' →
  (∀ o', o' ∈ rm_Operations s' → (∃ o, o ∈ rm_Operations s ∧ op_kept o o') ∨
    approved (ro_Snapshot o') s ∧ closed (removalSelectedSites (ro_Snapshot o')) s' ∧ well_chosen o') →
  sound s'.
Proof.
  intros [Hseq Hkeys Hsites Howned Hmail Hjobs Hops Hch] Hq Hnew. pose proof (quiet_sequence _ _ _ Hq) as Es.
  assert (∀ w', w' ∈ rm_Sites s' → 0 < ws_ID w' < rm_SiteSeq s') as Hsites'.
  { intros w' Hw'. destruct (quiet_sites _ _ _ Hq _ Hw') as (w & Hw & -> & _). rewrite Es. auto. }
  assert (¬ exists_site 0 s') as Hno by (intros (w & Hw & E); apply Hsites' in Hw; lia).
  split; [by rewrite Es|by apply (quiet_site_keys _ _ _ Hq)|done| | |by apply (quiet_jobs _ _ _ Hq)| |].
  - intros r' Hr'. destruct (quiet_owned _ _ _ Hq _ Hr') as (r & (Hs & Ht)%Howned & Et & _ & Ep & _ & _ & _ & [-> | ->]);
      rewrite Es, Ep, Et; auto.
  - intros d' w' Hd' Hw' E. destruct (quiet_owned_back _ _ _ _ _ Hq Hd') as (d & Hd & Kd). destruct (quiet_sites _ _ _ Hq _ Hw') as (w & Hw & Ew & Eu & Ed & _).
    assert (ow_SiteID d = ws_ID w) as Edw. { rewrite (owned_site_back _ _ Kd); [congruence|]. rewrite E. apply Hsites' in Hw'. lia. }
    destruct (Hmail d w Hd Hw Edw). destruct Kd as (_ & _ & _ & ? & ? & _). split; congruence.
  - intros o' Ho'. destruct (Hnew o' Ho') as [(o & Ho & Ko)|(Ha & Hc & _)].
    + destruct (Hops o Ho) as [Ha Hc]. destruct Ko as (_ & _ & _ & _ & _ & _ & -> & _).
      split; [by eapply approved_quiet|by eapply closed_quiet].
    + split; [by eapply approved_quiet|done].
  - intros o' Ho'. destruct (Hnew o' Ho') as [(o & Ho & Ko)|(_ & _ & Hw)]; [|done].
    destruct Ko as (_ & _ & _ & _ & _ & _ & Esn & Edel & _). unfold well_chosen. rewrite Esn, Edel. by apply Hch.
Qed.
End Sound.
