(* ===== verification/RemovalApprove.v ===== *)
(** * Website removal: what a preview approves

    The snapshot of a preview holds the website and all websites beneath it, and
    everything that leads to them; a request reserves exactly that. *)

From S2P Require Import Prelude Tx Programs Tables GoStr GoCrypto Site DNSTypes DNSTables DNSEdit OpsTypes DNSAgent DNSWorker RemovalTypes RemovalPreview RemovalFence RemovalStore RemovalSystem RemovalFacts RemovalSound.

Section Tree.
Context `{GoUnicode} `{GoMapOrder} `{Collation} `{SHA256}.
Implicit Types (s : RemovalStore) (w : WebSite).

(** ** The recursive query *)

(** [b] is the key of a website whose parent is [a]. *)
Definition parent_of s (a b : Z) : Prop := a ≠ 0 ∧ ∃ w, w ∈ rm_Sites s ∧ ws_ID w = b ∧ ws_ParentSiteID w = a.

Definition level_at (n : nat) (level : list descendant) s : list descendant := Nat.iter n (λ level, next_level level s) level.

Lemma next_level_elem level w path cycle s :
  (w, path, cycle) ∈ next_level level s ↔
  ∃ w0 path0, (w0, path0, false) ∈ level ∧ w ∈ rm_Sites s ∧ ws_ParentSiteID w = ws_ID w0 ∧ ws_ID w0 ≠ 0 ∧
    path = path0 ++ [ws_ID w] ∧ cycle = bool_decide (ws_ID w ∈ path0).
Proof.
  unfold next_level. rewrite list_elem_of_bind. split.
  - intros ([[w0 path0] cycle0] & Hin & Hl). destruct cycle0; [by apply elem_of_nil in Hin|].
    apply list_elem_of_fmap in Hin as (w1 & [= <- -> ->] & [Hp Hw]%rows_where_elem).
    apply andb_true_iff in Hp as [Hz%negb_true_iff%Z.eqb_neq Hp%Z.eqb_eq]. exists w0, path0. split_and!; try done; congruence.
  - intros (w0 & path0 & Hl & Hw & Hp & Hz & -> & ->). exists (w0, path0, false). split; [|done].
    apply list_elem_of_fmap. exists w. split; [done|]. apply rows_where_elem. split; [|done].
    apply andb_true_iff. split; [apply negb_true_iff, Z.eqb_neq; congruence|by apply Z.eqb_eq].
Qed.

Lemma level_at_succ n level s : level_at (S n) level s = next_level (level_at n level s) s.
Proof. done. Qed.

Lemma level_at_shift n level s : level_at (S n) level s = level_at n (next_level level s) s.
Proof. unfold level_at. by rewrite Nat.iter_succ_r. Qed.

Lemma level_at_nil n s : level_at n [] s = [].
Proof. induction n as [|n IH]; [done|]. by rewrite level_at_succ, IH. Qed.

Lemma descend_elem fuel level s d : d ∈ descend fuel level s ↔ ∃ n, (n < fuel)%nat ∧ d ∈ level_at n level s.
Proof.
  revert level. induction fuel as [|fuel IH]; intros level; cbn.
  - split; [by intros ?%elem_of_nil|]. intros (n & ? & _). lia.
  - destruct level as [|d0 level].
    + split; [by intros ?%elem_of_nil|]. intros (n & _ & Hd). by rewrite level_at_nil in Hd.
    + rewrite elem_of_app, IH. split.
      * intros [Hd|(n & Hn & Hd)]; [exists 0%nat; split; [lia|done]|]. exists (S n). split; [lia|by rewrite level_at_shift].
      * intros ([|n] & Hn & Hd); [by left|]. right. exists n. split; [lia|by rewrite level_at_shift in Hd].
Qed.

(** What a row of the query is: a website that is reached along a path of keys,
    without a key twice unless a cycle was found. *)
Lemma level_spec root n w path cycle s :
  (w, path, cycle) ∈ level_at n ((λ w, (w, [ws_ID w], false)) <$> site_by_id root s) s →
  w ∈ rm_Sites s ∧ length path = S n ∧ path ⊆ (ws_ID <$> rm_Sites s) ∧ (cycle = false → NoDup path) ∧ rtc (parent_of s) root (ws_ID w).
Proof.
  revert w path cycle. induction n as [|n IH]; intros w path cycle.
  - intros (w0 & [= -> -> ->] & [Ew Hw]%site_by_id_elem)%list_elem_of_fmap. split_and!; [done|done| | |].
    + intros x ->%list_elem_of_singleton. by apply list_elem_of_fmap_2.
    + intros _. apply NoDup_singleton.
    + by rewrite Ew.
  - rewrite level_at_succ, next_level_elem. intros (w0 & path0 & Hl & Hw & Hp & Hz & -> & ->).
    destruct (IH _ _ _ Hl) as (Hw0 & Hlen & Hsub & Hnd & Hr). split_and!; [done| | | |].
    + rewrite length_app, Hlen. cbn. lia.
    + intros x [Hx| ->%list_elem_of_singleton]%elem_of_app; [by apply Hsub|by apply list_elem_of_fmap_2].
    + intros Hc%bool_decide_eq_false. apply NoDup_app. split_and!; [by apply Hnd| |apply NoDup_singleton].
      by intros x Hx ->%list_elem_of_singleton.
    + eapply rtc_r; [exact Hr|]. split; [done|]. by exists w.
Qed.

(** The levels end before the fuel does. *)
Lemma level_bound root n w path s :
  (w, path, false) ∈ level_at n ((λ w, (w, [ws_ID w], false)) <$> site_by_id root s) s → (S n ≤ length (rm_Sites s))%nat.
Proof.
  intros (_ & <- & Hsub & Hnd & _)%level_spec. rewrite <- (length_fmap ws_ID (rm_Sites s)).
  apply submseteq_length, NoDup_submseteq; [by apply Hnd|]. exact Hsub.
Qed.

Lemma removal_tree_elem root s d :
  d ∈ removal_tree root s ↔
  ∃ n, (n < length (rm_Sites s) + 2)%nat ∧ d ∈ level_at n ((λ w, (w, [ws_ID w], false)) <$> site_by_id root s) s.
Proof. unfold removal_tree. rewrite merge_sort_Permutation. apply descend_elem. Qed.

(** Without a cycle the query finds every website beneath. *)
Lemma removal_tree_complete root s id :
  (∃ w, w ∈ rm_Sites s ∧ ws_ID w = root) → (∀ d, d ∈ removal_tree root s → d.2 = false) →
  rtc (parent_of s) root id → ∃ w path, (w, path, false) ∈ removal_tree root s ∧ ws_ID w = id.
Proof.
  intros (w0 & Hw0 & Ew0) Hc Hr.
  cut (∃ n w path, (w, path, false) ∈ level_at n ((λ w, (w, [ws_ID w], false)) <$> site_by_id root s) s ∧ ws_ID w = id).
  { intros (n & w & path & Hd & Ew). exists w, path. split; [|done]. apply removal_tree_elem. exists n. split; [|done].
    apply level_bound in Hd. lia. }
  revert id Hr. apply rtc_ind_r; [|intros a b Hr Hp IH].
  - exists 0%nat, w0, [root]. split; [|done]. apply list_elem_of_fmap. exists w0. rewrite Ew0. split; [done|]. by apply site_by_id_elem.
  - destruct IH as (n & w & path & Hd & Ew), Hp as (Hz & w1 & Hw1 & E1 & Ep).
    assert ((w1, path ++ [b], bool_decide (b ∈ path)) ∈ level_at (S n) ((λ w, (w, [ws_ID w], false)) <$> site_by_id root s) s) as Hd1.
    { rewrite level_at_succ, next_level_elem. exists w, path. rewrite E1. split_and!; try done; congruence. }
    exists (S n), w1, (path ++ [b]). split; [|done].
    enough (bool_decide (b ∈ path) = false) as E by by rewrite E in Hd1.
    apply (Hc (w1, path ++ [b], bool_decide (b ∈ path))), removal_tree_elem. exists (S n). split; [|done]. apply level_bound in Hd. lia.
Qed.
End Tree.

Section Preview.
Context `{GoUnicode} `{GoMapOrder} `{Collation} `{SHA256}.
Implicit Types (s : RemovalStore) (w : WebSite) (sn : SiteRemovalSnapshot).

(** ** The snapshot of a preview *)

Lemma load_sites_spec subscriptionID customerID rows s sites reasons :
  load_sites subscriptionID customerID rows s = Ok (sites, reasons) →
  sites = (λ d, removal_site d.1.1) <$> rows ∧
  ∀ d, d ∈ rows → d.2 = false ∧ ws_SubscriptionID d.1.1 = subscriptionID ∧ ws_CustomerID d.1.1 = customerID.
Proof.
  revert sites reasons. induction rows as [|[[w path] cycle] rows IH]; intros sites reasons; cbn.
  - intros [= <- _]. split; [done|]. by intros d ?%elem_of_nil.
  - destruct (cycle || _ || _ || _ || _) eqn:E; [done|]. destruct (load_sites _ _ rows s) as [[rest more]|]; [|done]. cbn.
    intros [= <- _]. destruct (IH rest more eq_refl) as [-> Hall]. split; [done|].
    rewrite !orb_false_iff, !negb_false_iff, !Z.eqb_eq in E. destruct_and! E.
    intros d [->|Hd]%elem_of_cons; [done|]. by apply Hall.
Qed.

(** What a preview is made of. *)
Lemma preview_spec opts answers siteID s pv :
  preview opts answers siteID s = Ok pv →
  let sn := pv_Snapshot pv in let ids := removalSelectedSites sn in
  (∃ w, w ∈ rm_Sites s ∧ ws_ID w = siteID ∧ pv_SiteID pv = siteID ∧ pv_SubscriptionID pv = ws_SubscriptionID w ∧ pv_Domain pv = ws_Domain w) ∧
  sn_Sites sn = (λ d, removal_site d.1.1) <$> removal_tree siteID s ∧
  (∀ d, d ∈ removal_tree siteID s → d.2 = false ∧ ws_SubscriptionID d.1.1 = pv_SubscriptionID pv) ∧
  sn_Resources sn = loadRemovalResources ids s ∧
  sn_Databases sn = fst (loadRemovalData opts answers ids s) ∧ sn_Backups sn = snd (loadRemovalData opts answers ids s) ∧
  pv_Digest pv = Digest sn.
Proof.
  unfold preview. destruct (_ ≫= _) as [|[w sub] rest] eqn:E; [done|].
  assert (w ∈ rm_Sites s ∧ ws_ID w = siteID) as [Hw Ew].
  { assert ((w, sub) ∈ (w, sub) :: rest) as Hin by constructor. rewrite <- E in Hin.
    apply list_elem_of_bind in Hin as (w' & Hin & [Ew Hw]%site_by_id_elem). apply list_elem_of_bind in Hin as (sub' & Hin & _).
    apply list_elem_of_singleton in Hin as [= -> ->]. done. }
  destruct ((0 <? ws_ParentSiteID w) && _); [done|].
  destruct (if negb (String.eqb (ws_RemovalState w) "none") then _ else _) as [operation|]; [|done]. cbn [result_bind].
  destruct (load_sites _ _ _ _) as [[sites legacy]|] eqn:El; [|done]. cbn [result_bind].
  apply load_sites_spec in El as [Esites Hall].
  destruct (check_sites _ _ _ _) as [primary|]; [|done]. cbn [result_bind].
  destruct (if opt_Dependencies opts then _ else _) as [hosts|]; [|done]. cbn [result_bind].
  destruct (load_dependencies _ _ _) as [deps required]. destruct (loadRemovalData _ _ _ _) as [databases backups] eqn:Ed.
  intros [= <-]. unfold removalSelectedSites. cbn -[fmap loadRemovalData loadRemovalResources Digest]. rewrite Ed. split_and!; try done.
  - exists w. auto.
  - intros d Hd. destruct (Hall d Hd) as (? & ? & ?). auto.
Qed.

(** The websites of the snapshot are websites there are. *)
Lemma preview_sites_exist opts answers siteID s pv id :
  preview opts answers siteID s = Ok pv → id ∈ removalSelectedSites (pv_Snapshot pv) → exists_site id s.
Proof.
  intros (_ & Es & _)%preview_spec Hid. unfold removalSelectedSites in Hid. rewrite Es, <- list_fmap_compose in Hid.
  apply list_elem_of_fmap in Hid as ([[w path] cycle] & -> & (n & _ & Hd)%removal_tree_elem). cbn.
  apply level_spec in Hd as (Hw & _). by exists w.
Qed.

Lemma chosen_true ids id : id ≠ 0 → id ∈ ids → chosen ids id = true.
Proof. intros Hne Hin. apply andb_true_iff. split; [by apply negb_true_iff, Z.eqb_neq|by apply bool_decide_eq_true]. Qed.

Lemma resource_elem k sn r : r ∈ sn_Resources sn → rr_Kind r = k → rr_ID r ∈ resource_ids k sn.
Proof. intros Hr <-. apply list_elem_of_fmap_2, rows_where_elem. split; [apply String.eqb_refl|done]. Qed.

Lemma of_site_elem ids t r s : r ∈ rm_Owned s → ow_Table r = t → chosen ids (ow_SiteID r) = true → r ∈ of_site ids t s.
Proof. intros Hr Ht Hc. apply rows_where_elem. split; [done|]. by apply owned_elem. Qed.

Lemma verify_keeps_ids opts answers databases : rd_ID <$> verifyRemovalDatabases opts answers databases = rd_ID <$> databases.
Proof.
  unfold verifyRemovalDatabases. destruct (_ || _); [done|]. rewrite <- list_fmap_compose. apply list_fmap_ext. intros i d _. cbn.
  unfold verify_database. repeat match goal with |- context [if ?b then _ else _] => destruct b; [done|] | |- context [match ?m with Some _ => _ | None => _ end] => destruct m end; done.
Qed.

(** The n-th part of a concatenation. *)
Tactic Notation "part" integer(n) := do n (apply elem_of_app; right); apply elem_of_app; left.

(** The resources hold every row that leads to one of the websites. *)
Lemma resources_cover ids sn s r k (Hres : sn_Resources sn = loadRemovalResources ids s) w :
  ws_ID w ≠ 0 → ws_ID w ∈ ids → r ∈ rm_Owned s → belongs r w → kind_of (ow_Table r) = Some k → ow_ID r ∈ resource_ids k sn.
Proof.
  intros Hne Hid Hr Hb Hk. destruct (decide (ow_Table r = StagingOperations)) as [Et|Et].
  - rewrite Et in Hk. injection Hk as <-.
    apply (resource_elem _ _ (resource "staging" (ow_ID r) (ow_SiteID r) (ow_ParentID r) 0 (ow_Name r))); [|done].
    rewrite Hres. unfold loadRemovalResources. part 11.
    apply (list_elem_of_fmap_2' _ _ r); [|done]. apply rows_where_elem. split; [|by apply owned_elem].
    apply orb_true_iff. destruct Hb as [Eb|[_ Eb]]; [left|right]; rewrite Eb; by apply chosen_true.
  - destruct Hb as [Eb|[Es _]]; [|done]. assert (chosen ids (ow_SiteID r) = true) as Hc by (rewrite Eb; by apply chosen_true).
    destruct (ow_Table r) eqn:Et0; try discriminate Hk; try done; injection Hk as <-.
    all: pose proof (of_site_elem ids _ r s Hr Et0 Hc) as Hin.
    + apply (resource_elem _ _ (plain "php_application" true false r)); [|done]. rewrite Hres. unfold loadRemovalResources. part 0. by apply list_elem_of_fmap_2.
    + apply (resource_elem _ _ (resource "wordpress" (ow_ID r) (ow_SiteID r) (ow_SecretID r) (ow_Revision r) "")); [|done].
      rewrite Hres. unfold loadRemovalResources. part 4. by apply (list_elem_of_fmap_2' _ _ r).
    + apply (resource_elem _ _ (plain "application" true true r)); [|done]. rewrite Hres. unfold loadRemovalResources. part 7. by apply list_elem_of_fmap_2.
    + apply (resource_elem _ _ (plain "task" false true r)); [|done]. rewrite Hres. unfold loadRemovalResources. part 10. by apply list_elem_of_fmap_2.
    + apply (resource_elem _ _ (plain "webmail" false true r)); [|done]. rewrite Hres. unfold loadRemovalResources. part 18. by apply list_elem_of_fmap_2.
Qed.

Lemma preview_approved opts answers siteID s pv : sound s → preview opts answers siteID s = Ok pv → approved (pv_Snapshot pv) s.
Proof.
  intros Hs Hp. pose proof (λ id, preview_sites_exist _ _ _ _ _ id Hp) as Hex.
  apply preview_spec in Hp as (_ & _ & _ & Hres & Hdbs & Hbacks & _).
  assert (∀ w, w ∈ rm_Sites s → ws_ID w ∈ removalSelectedSites (pv_Snapshot pv) → ws_ID w ≠ 0 ∧ chosen (removalSelectedSites (pv_Snapshot pv)) (ws_ID w) = true) as Hw.
  { intros w Hw%(sound_sites _ Hs) Hid. split; [lia|]. apply chosen_true; [lia|done]. }
  split; [intros id (w & Hin%(sound_sites _ Hs) & <-)%Hex; lia|]. split.
  - intros w r k Hin Hid Hr Hb Hk. destruct (Hw w Hin Hid) as [Hne _]. by eapply resources_cover.
  - intros w d Hin Hid Hd Es. rewrite Hdbs. unfold loadRemovalData. cbn [fst]. rewrite verify_keeps_ids, <- list_fmap_compose.
    apply (list_elem_of_fmap_2' _ _ d); [|done]. rewrite merge_sort_Permutation. apply rows_where_elem. rewrite Es. split; [by apply Hw|done].
  - intros w b Hin Hid Hb Es. apply (list_elem_of_fmap_2' _ _ (backup_resource b)); [|done]. apply rows_where_elem. split.
    { apply bool_decide_eq_true. cbn. by rewrite Es. }
    rewrite Hbacks. unfold loadRemovalData. cbn [snd]. apply (list_elem_of_fmap_2' _ _ b); [|done]. rewrite merge_sort_Permutation.
    apply rows_where_elem. split; [|done]. apply orb_true_iff. left. rewrite Es. by apply Hw.
  - intros w z Hin Hid Hz Es. apply (resource_elem _ _ (dns_zone_resource z)); [|done]. rewrite Hres. unfold loadRemovalResources.
    part 19. apply list_elem_of_fmap_2, rows_where_elem. split; [|done]. rewrite Es. by apply Hw.
Qed.
End Preview.

Section Reserve.
Context `{GoUnicode} `{GoMapOrder} `{Collation} `{SHA256}.
Implicit Types (s : RemovalStore) (op : SiteRemovalOperation).

(** ** Requests *)

Lemma lock_same id s a s' : LockSubscriptionMutationTx id s = Ok (a, s') → s' = s.
Proof.
  unfold LockSubscriptionMutationTx. intros Hr. db_ok. destruct (rows_where _ _) as [|b rows]; db_ok; done.
Qed.

(** The operations are left as they are. *)
Definition SameOperations s s' : Prop := rm_Operations s' = rm_Operations s.

#[local] Instance SameOperations_preorder : PreOrder SameOperations.
Proof. unfold SameOperations. split; [done|]. intros s1 s2 s3. congruence. Qed.

Lemma same_reserve_site id revision siteID : steps SameOperations (reserve_site id revision siteID).
Proof. unfold reserve_site, insert_target, set_removal. tx_steps; by apply steps_write. Qed.

Lemma same_insert_removal_job clock id revision : steps SameOperations (insert_removal_job clock id revision).
Proof. unfold insert_removal_job, new_job. tx_steps; by apply steps_write. Qed.

(** A reserved website is closed. *)
Lemma reserve_site_closed id revision siteID s a s' : reserve_site id revision siteID s = Ok (a, s') → closed [siteID] s'.
Proof.
  unfold reserve_site, set_removal. intros Hr. db_ok. intros w Hw Hid. cbn in Hw.
  apply rows_update_elem in Hw as (w0 & _ & ->). destruct (_ && _) eqn:E; [done|]. apply list_elem_of_singleton in Hid.
  rewrite Hid, Z.eqb_refl in E. cbn in E. by apply String.eqb_neq.
Qed.

Lemma reserve_sites_closed id revision ids s a s' : tx_each (reserve_site id revision) ids s = Ok (a, s') → closed ids s'.
Proof.
  revert s. induction ids as [|x ids IH]; intros s; cbn; [by intros _ w _ ?%elem_of_nil|].
  intros ([] & s1 & Hx & Hr)%tx_bind_Ok w Hw [<-|Hid]%elem_of_cons; [|by eapply IH].
  apply reserve_site_closed in Hx. eapply (closed_quiet false [ws_ID w] s1); [|exact Hx|done|by apply list_elem_of_singleton].
  eapply (steps_each (Quiet false)); [|exact Hr]. intros y. apply quiet_reserve_site.
Qed.

Lemma check_selection_spec databases previous selected :
  check_selection databases previous selected = Ok () →
  ∀ id, id ∈ selected → ∃ d, d ∈ databases ∧ rd_ID d = id ∧ rd_DeletionEligible d = true.
Proof.
  revert previous. induction selected as [|x selected IH]; intros previous; cbn; [by intros _ id ?%elem_of_nil|].
  destruct (_ || _); [done|]. destruct (existsb _ databases) eqn:E; cbn; [|done]. intros Hr id [->|Hid]%elem_of_cons; [|by eapply IH].
  apply existsb_exists in E as (d & Hd%list_elem_of_In & [He%Z.eqb_eq Hd']%andb_true_iff). by exists d.
Qed.

(** A request that succeeds is a request that was known, or approves what the
    preview of this moment shows. *)
Lemma reserve_spec opts answers clock actor req subscriptionID s op s' :
  reserve opts answers clock actor req subscriptionID s = Ok (op, s') →
  (s' = s ∧ op ∈ rm_Operations s) ∨
  ∃ pv, preview opts answers (rq_SiteID req) s = Ok pv ∧ pv_Allowed pv = true ∧ pv_Digest pv = rq_PreviewDigest req ∧
    pv_Domain pv = rq_ConfirmDomain req ∧ canRemoveSite actor (rq_SiteID req) s = true ∧
    rm_Operations s' = rm_Operations s ++ [op] ∧ ro_Snapshot op = pv_Snapshot pv ∧ ro_RequestID op = rq_RequestID req ∧
    check_selection (sn_Databases (pv_Snapshot pv)) None (ro_DeleteDatabaseIDs op) = Ok () ∧
    closed (removalSelectedSites (ro_Snapshot op)) s'.
Proof.
  unfold reserve. intros ([] & s0 & ->%lock_same & Hr)%tx_bind_Ok. apply tx_bind_Ok in Hr as (existing & s1 & [= <- <-] & Hr).
  destruct (operation_by_request _ s) as [o|] eqn:Eo.
  - left. apply tx_lift_Ok in Hr as [Hr ->]. split; [done|]. unfold sameRemovalRequest in Hr. destruct (_ || _); [done|].
    injection Hr as <-. unfold operation_by_request in Eo. destruct (rows_where _ _) as [|o' rows] eqn:E; [done|].
    injection Eo as ->. assert (o ∈ o :: rows) as Hin by constructor. rewrite <- E in Hin. by apply rows_where_elem in Hin as [_ Hin].
  - right. apply tx_bind_Ok in Hr as (allowed & s1 & [= <- <-] & Hr). destruct (canRemoveSite _ _ s) eqn:Ec; [|done]. cbn [negb] in Hr.
    apply tx_bind_Ok in Hr as (pv & s1 & [Hp ->]%tx_query_Ok & Hr).
    destruct (negb (_ =? _)) eqn:Esub; [done|]. destruct (pv_Allowed pv) eqn:Eal; [|done]. cbn [negb] in Hr.
    destruct (String.eqb_spec (pv_Digest pv) (rq_PreviewDigest req)) as [Ed|]; [|done]. cbn [negb] in Hr.
    destruct (String.eqb_spec (rq_ConfirmDomain req) (pv_Domain pv)) as [Ecd|]; [|done]. cbn [negb] in Hr.
    destruct (_ && _); [done|]. apply tx_bind_Ok in Hr as ([] & s1 & [Hsel ->]%tx_lift_Ok & Hr).
    apply tx_bind_Ok in Hr as (o & s1 & Hins & Hr). apply tx_bind_Ok in Hr as ([] & s2 & Heach & Hr).
    apply tx_bind_Ok in Hr as ([] & s3 & Hjob & Hr). apply tx_bind_Ok in Hr as ([] & s4 & Haudit & Hr). injection Hr as <- <-.
    assert (rm_Operations s1 = rm_Operations s ++ [o] ∧ ro_Snapshot o = pv_Snapshot pv ∧ ro_RequestID o = rq_RequestID req ∧
      ro_DeleteDatabaseIDs o = merge_sort Z.le (rq_DeleteDatabaseIDs req)) as (Eops & Esn & Erq & Edel).
    { unfold insert_operation in Hins. db_ok. done. }
    exists pv. split_and!; try done.
    + injection Haudit as <-. cbn. rewrite (same_insert_removal_job _ _ _ _ _ _ Hjob).
      rewrite (steps_each SameOperations _ _ (λ x, same_reserve_site _ _ x) _ _ _ Heach). done.
    + by rewrite Edel.
    + rewrite Esn. apply reserve_sites_closed in Heach.
      eapply (closed_quiet false _ s3); [by eapply quiet_audit|]. eapply (closed_quiet false _ s2); [by eapply quiet_insert_removal_job|].
      intros w Hw Hid. apply Heach; [done|]. by rewrite merge_sort_Permutation.
Qed.

(** ** Statements keep the tables sound *)

Lemma sound_perform opts answers clock now {B} (st : statement B) s a s' :
  sound s → perform opts answers clock now st s = Ok (a, s') → sound s'.
Proof.
  intros Hs Hr. pose proof (quiet_perform _ _ _ _ st _ _ _ Hr) as Hq. eapply sound_quiet; [exact Hs|exact Hq|].
  destruct st; try (intros o' Ho'; left; by apply (quiet_from _ _ _ Hq)). cbn in Hr.
  apply reserve_spec in Hr as [[-> _]|(pv & Hp & _ & _ & _ & _ & Eops & Esn & _ & Hsel & Hc)]; intros o' Ho'.
  - left. exists o'. split; [done|reflexivity].
  - rewrite Eops in Ho'. apply elem_of_app in Ho' as [Ho'| ->%list_elem_of_singleton]; [left; exists o'; split; [done|reflexivity]|].
    right. split; [rewrite Esn; by eapply preview_approved|]. split; [done|]. intros id Hid. rewrite Esn. by eapply check_selection_spec.
Qed.
End Reserve.
