(* ===== verification/RemovalChanges.v ===== *)
(** * Website removal: what other components do to the tables

    The triggers keep the tables sound: no change of another component opens a
    website, moves a row to a closed one, or makes a job that is there reach one. *)

From S2P Require Import Prelude Tx Programs Tables GoStr GoCrypto Site DNSTypes DNSTables DNSEdit OpsTypes DNSAgent DNSWorker RemovalTypes RemovalPreview RemovalFence RemovalStore RemovalSystem RemovalFacts RemovalSound.

(** ** A row at a place *)

Section Put.
Context {A : Type}.
Implicit Types (l : list A).

Lemma put_elem n new l x : x ∈ put n new l → x ∈ l ∨ new = Some x.
Proof.
  unfold put. rewrite !elem_of_app. intros [Hx|[Hx|Hx]].
  - left. eapply elem_of_sublist; [exact Hx|apply sublist_take].
  - right. destruct new; cbn in Hx; [by apply list_elem_of_singleton in Hx as ->|by apply elem_of_nil in Hx].
  - left. eapply elem_of_sublist; [exact Hx|apply sublist_drop].
Qed.

Lemma put_keep n new l x y : l !! n = Some y → x ∈ l → x ≠ y → x ∈ put n new l.
Proof.
  intros Hn Hx Hne. unfold put. rewrite !elem_of_app. apply list_elem_of_lookup in Hx as [m Hm].
  destruct (lt_eq_lt_dec m n) as [[Hlt| ->]|Hgt].
  - left. apply (list_elem_of_lookup_2 _ m). by rewrite lookup_take_lt.
  - congruence.
  - right. right. apply (list_elem_of_lookup_2 _ (m - S n)). rewrite lookup_drop. by replace (S n + (m - S n))%nat with m by lia.
Qed.

Lemma put_insert n x y l : l !! n = Some y → put n (Some x) l = <[n := x]> l.
Proof. intros Hn. unfold put. cbn. symmetry. apply insert_take_drop. by eapply lookup_lt_Some. Qed.

Lemma put_delete n l : sublist (put n None l) l.
Proof.
  unfold put. cbn. rewrite <- delete_take_drop. apply sublist_delete.
Qed.
End Put.

Section Changes.
Context `{GoUnicode} `{GoMapOrder} `{Collation} `{SHA256}.
Implicit Types (s : RemovalStore) (w : WebSite) (q : FenceQuery).

Lemma free_open ids s w : free_of_removal ids s = true → w ∈ rm_Sites s → ws_ID w ∈ ids → ws_RemovalState w = "none".
Proof.
  unfold free_of_removal. intros Hf Hw Hid. rewrite forallb_forall in Hf. apply String.eqb_eq, Hf, list_elem_of_In, rows_where_elem.
  split; [by apply bool_decide_eq_true|done].
Qed.

(** A key of a job. *)
Definition job_key (id : string) s : Prop := ∃ j args, j ∈ rm_Jobs s ∧ jb_Args j = Some args ∧ fa_ImportID args = id.

Definition of_job q s : Prop := match q with FenceImport id => job_key id s | _ => True end.

(** What is reached among the closed websites was reached before. *)
Definition ways_kept s s' : Prop :=
  ∀ q w', of_job q s → w' ∈ rm_Sites s' → ws_RemovalState w' ≠ "none" → reaches q w' s' →
  ∃ w, w ∈ rm_Sites s ∧ ws_ID w = ws_ID w' ∧ reaches q w s.

Lemma ways_quiet grow s s' : sound s' → Quiet grow s s' → ways_kept s s'.
Proof.
  intros Hs' Hq q w' _ Hw' _ Hr. destruct (quiet_sites _ _ _ Hq _ Hw') as (w & Hw & Kw). exists w. split; [done|].
  split; [by destruct Kw as [-> _]|]. eapply reaches_back; [exact Hq|exact Kw|by apply sound_no_zero| |done].
  apply (sound_sites _ Hs') in Hw'. lia.
Qed.

(** ** A row of a website *)

Section Owned.
Context (s : RemovalStore) (n : nat) (new : option OwnedRow).
Context (Hs : sound s) (Hnew : row_allowed new s = true) (Hold : new_row_allowed (rm_Owned s !! n) new s = true).

Let s' : RemovalStore := s <| rm_Owned := put n new (rm_Owned s) |>.

Lemma owned_back t r : r ∈ owned t s' → r ∈ owned t s ∨ (new = Some r ∧ ow_Table r = t).
Proof.
  intros [Ht Hr]%owned_elem. cbn in Hr. apply put_elem in Hr as [Hr|Hr]; [left; by apply owned_elem|by right].
Qed.

Lemma new_row_open w r : new = Some r → w ∈ rm_Sites s → ws_ID w ∈ nakpanel_removal_site_ids r s → ws_RemovalState w = "none".
Proof. intros -> Hw Hid. by eapply free_open. Qed.

Lemma new_row_facts r : new = Some r →
  site_exists (ow_SiteID r) s = true ∧ (ow_Table r = StagingOperations → site_exists (ow_ParentID r) s = true) ∧
  mail_domain_fits r s = true ∧ (rm_Owned s !! n = Some r ∨ new_import r s = true).
Proof.
  intros E. rewrite E in Hold. cbn in Hold. apply andb_true_iff in Hold as [[[Hsite Hpar]%andb_true_iff Hm]%andb_true_iff Hi].
  split_and!; [done| |done|].
  - intros Et. rewrite (bool_decide_eq_true_2 _ Et) in Hpar. done.
  - apply orb_true_iff in Hi as [Hi%bool_decide_eq_true|Hi]; auto.
Qed.

Lemma site_exists_lt id : site_exists id s = true → id < rm_SiteSeq s.
Proof.
  pose proof (sound_sequence _ Hs). unfold site_exists. intros [->%Z.eqb_eq|Hr]%orb_true_iff; [done|].
  destruct (site_by_id id s) as [|w rows] eqn:E; [done|]. assert (w ∈ w :: rows) as Hw by constructor. rewrite <- E in Hw.
  apply site_by_id_elem in Hw as [<- Hw%(sound_sites _ Hs)]. lia.
Qed.

(** The new row belongs to no closed website. *)
Lemma new_row_not_of r w k : new = Some r → w ∈ rm_Sites s → belongs r w → kind_of (ow_Table r) = Some k → ws_RemovalState w = "none".
Proof.
  intros Hr Hw Hb Hk. eapply new_row_open; [exact Hr|done|]. unfold nakpanel_removal_site_ids.
  destruct (ow_Table r) eqn:Et; try discriminate Hk; destruct Hb as [<-|[E <-]]; try congruence; set_solver.
Qed.

Lemma named_site w d : w ∈ rm_Sites s → d ∈ owned MailDomains s → ow_SiteID d = ws_ID w → ws_ID w ∈ named_sites (ow_SubscriptionID d) (ow_Name d) s.
Proof.
  intros Hw Hd E. destruct (sound_mail _ Hs d w Hd Hw E) as [-> ->]. apply list_elem_of_fmap_2, rows_where_elem.
  by rewrite Z.eqb_refl, String.eqb_refl.
Qed.

Lemma by_key_back t id w k :
  kind_of t = Some k → w ∈ rm_Sites s → ws_RemovalState w ≠ "none" →
  ∀ r, r ∈ by_key t id s' → belongs r w → r ∈ by_key t id s.
Proof.
  intros Hk Hw Hc r [Ei [Hr|[Hr Et]]%owned_back]%by_key_elem Hb; [by apply by_key_elem|]. destruct Hc.
  eapply new_row_not_of; [done..|by rewrite Et].
Qed.

Lemma parent_back t r p : p ∈ parent_row t r s' → p ∈ parent_row t r s ∨ (new = Some p ∧ ow_Table p = t).
Proof. intros [Ei [Hp|Hp]%owned_back]%parent_row_elem; [left; by apply parent_row_elem|by right]. Qed.

(** A row that is found through another table is no row of this one. *)
Lemma parent_other t r r0 p : new = Some r0 → ow_Table r0 ≠ t → p ∈ parent_row t r s' → p ∈ parent_row t r s.
Proof. intros E Hne [Hp|[Hp Et]]%parent_back; [done|]. rewrite E in Hp. injection Hp as ->. done. Qed.

Lemma import_back id w : job_key id s → w ∈ rm_Sites s → ws_RemovalState w ≠ "none" → reaches (FenceImport id) w s' → reaches (FenceImport id) w s.
Proof.
  intros Hid Hw Hc (i & box & d & Hi & Ei & Hb & Hd & Es).
  assert (i ∈ owned MailImports s) as Hi0.
  { apply owned_back in Hi as [|[Hr Et]]; [done|]. destruct (new_row_facts i Hr) as (_ & _ & _ & [Hl|Hn]).
    { apply owned_elem. split; [done|]. by eapply list_elem_of_lookup_2. }
    exfalso. unfold new_import in Hn. rewrite (bool_decide_eq_true_2 _ Et) in Hn. cbn in Hn. destruct Hid as (j & args & Hj & Ea & Eid).
    rewrite forallb_forall in Hn. specialize (Hn j (proj1 (list_elem_of_In _ _) Hj)). rewrite Ea, Ei, Eid in Hn.
    by rewrite String.eqb_refl in Hn. }
  apply parent_back in Hb as [Hb|[Hr Et]].
  - apply parent_back in Hd as [Hd|[Hr Et]]; [by exists i, box, d|]. destruct Hc.
    destruct (new_row_facts d Hr) as (_ & _ & Hm & _). unfold mail_domain_fits in Hm. rewrite (bool_decide_eq_true_2 _ Et) in Hm. cbn in Hm.
    apply orb_true_iff in Hm as [Hz%Z.eqb_eq|Hm%bool_decide_eq_true]; [apply (sound_sites _ Hs) in Hw; lia|].
    eapply new_row_open; [exact Hr|done|]. unfold nakpanel_removal_site_ids. by rewrite Et, <- Es.
  - destruct Hc. assert (d ∈ parent_row MailDomains box s) as [Ed Hd0]%parent_row_elem by (eapply parent_other; [exact Hr|by rewrite Et|done]).
    eapply new_row_open; [exact Hr|done|]. unfold nakpanel_removal_site_ids. rewrite Et. apply list_elem_of_bind. exists d.
    split; [by apply named_site|by apply parent_row_elem].
Qed.

Lemma run_back id w : w ∈ rm_Sites s → ws_RemovalState w ≠ "none" → reaches (FenceRun id) w s' → reaches (FenceRun id) w s.
Proof.
  intros Hw Hc (r & task & [Er Hr]%by_key_elem & Ht & Es). apply owned_back in Hr as [Hr|[Hr Et]].
  - apply parent_back in Ht as [Ht|[Hr' Et]]; [exists r, task; split_and!; [by apply by_key_elem|done|done]|].
    destruct Hc. eapply (new_row_not_of task w "task"); [done|done|by left|by rewrite Et].
  - destruct Hc. assert (task ∈ parent_row ScheduledTasks r s) as Ht0 by (eapply parent_other; [exact Hr|by rewrite Et|done]).
    eapply new_row_open; [exact Hr|done|]. unfold nakpanel_removal_site_ids. rewrite Et. unfold parent_sites.
    rewrite <- Es. by apply list_elem_of_fmap_2.
Qed.

Lemma ways_owned : ways_kept s s'.
Proof.
  intros q w Hq Hw Hc Hr. cbn in Hw. exists w. split; [done|]. split; [done|].
  destruct q; try exact Hr; [by apply import_back|..|by apply run_back].
  all: cbn [reaches] in *; destruct Hr as (r & Hr & Hb); exists r.
  - split; [|done]. eapply by_key_back in Hr; [done..|by left]. 
  - split; [|done]. eapply by_key_back in Hr; [done..|by left].
  - split; [|done]. eapply by_key_back in Hr; [done..|by left].
  - split; [|done]. eapply by_key_back in Hr; [done..|by left].
  - split; [|done]. destruct Hb as [Hb _]. eapply by_key_back; [done..|]. destruct Hb as [Hb|Hb]; [by left|right].
    apply by_key_elem in Hr as [_ [Et _]%owned_elem]. done.
Qed.

Lemma sound_owned_change : sound s'.
Proof.
  destruct Hs as [Hseq Hkeys Hsites Howned Hmail Hjobs Hops Hch]. split; [done|done|done| | |done| |done].
  - intros r Hr. cbn in Hr. apply put_elem in Hr as [Hr|Hr]; [by apply Howned|].
    destruct (new_row_facts r Hr) as (Hsite & Hpar & _). split; [by apply site_exists_lt|intros Et; by apply site_exists_lt, Hpar].
  - intros d w Hd Hw E. apply owned_back in Hd as [Hd|[Hr Et]]; [by apply Hmail|]. cbn in Hw.
    destruct (new_row_facts d Hr) as (_ & _ & Hm & _). unfold mail_domain_fits in Hm. rewrite (bool_decide_eq_true_2 _ Et) in Hm. cbn in Hm.
    apply orb_true_iff in Hm as [Hz%Z.eqb_eq|Hm%bool_decide_eq_true]; [apply Hsites in Hw; lia|].
    unfold named_sites in Hm. apply list_elem_of_fmap in Hm as (w1 & E1 & [Hp Hw1]%rows_where_elem).
    apply andb_true_iff in Hp as [Hp1%Z.eqb_eq Hp2%String.eqb_eq].
    assert (w1 = w) as -> by (eapply (NoDup_fmap_elem ws_ID); [exact Hkeys|done|done|congruence]). done.
  - intros o Ho. destruct (Hops o Ho) as [[Hid [Co Cd Cb Cz]] Hc]. split; [|done]. split; [done|]. split; [|done|done|done].
    intros w r k Hw Hsn Hr Hb Hk. cbn in Hr. apply put_elem in Hr as [Hr|Hr]; [by eapply Co|].
    destruct (Hc w Hw Hsn). by eapply new_row_not_of.
Qed.
End Owned.

(** ** The other tables *)

Definition safe_change s s' : Prop := sound s' ∧ ways_kept s s'.

Lemma safe_refl s : sound s → safe_change s s.
Proof. intros Hs. split; [done|]. intros q w _ Hw _ Hr. by exists w. Qed.

Lemma safe_quiet s s' : sound s → Quiet false s s' → safe_change s s'.
Proof.
  intros Hs Hq. assert (sound s') as Hs'; [|split; [done|by eapply ways_quiet]].
  eapply sound_quiet; [done..|]. intros o Ho. left. by apply (quiet_from _ _ _ Hq).
Qed.

(** A row with a website, inserted or changed. *)
Lemma safe_database n new s :
  sound s → free_of_removal (database_site (rm_Databases s !! n) ++ database_site new) s = true →
  safe_change s (s <| rm_Databases := put n new (rm_Databases s) |>).
Proof.
  intros Hs Hf. assert (∀ d w, new = Some d → w ∈ rm_Sites s → da_SiteID d = ws_ID w → ws_RemovalState w = "none") as Hopen.
  { intros d w -> Hw E. eapply free_open; [exact Hf|done|]. rewrite <- E. apply elem_of_app. right. cbn. set_solver. }
  split.
  - destruct Hs as [Hseq Hkeys Hsites Howned Hmail Hjobs Hops Hch]. split; try done.
    intros o Ho. destruct (Hops o Ho) as [[Hid [Co Cd Cb Cz]] Hc]. split; [|done]. split; [done|]. split; [done| |done|done].
    intros w d Hw Hsn Hd E. cbn in Hd. apply put_elem in Hd as [Hd|Hd]; [by eapply Cd|]. destruct (Hc w Hw Hsn). by eapply Hopen.
  - intros q w Hq Hw Hc Hr. exists w. split; [done|]. split; [done|]. destruct q; try exact Hr.
    destruct Hr as (d & Hd & Ei & Es). cbn in Hd. apply put_elem in Hd as [Hd|Hd]; [by exists d|]. destruct Hc. by eapply Hopen.
Qed.

Lemma safe_backup n new s :
  sound s → free_of_removal (backup_site (rm_Backups s !! n) ++ backup_site new) s = true →
  safe_change s (s <| rm_Backups := put n new (rm_Backups s) |>).
Proof.
  intros Hs Hf. assert (∀ b w, new = Some b → w ∈ rm_Sites s → bk_SiteID b = ws_ID w → ws_RemovalState w = "none") as Hopen.
  { intros b w -> Hw E. eapply free_open; [exact Hf|done|]. rewrite <- E. apply elem_of_app. right. cbn. set_solver. }
  split.
  - destruct Hs as [Hseq Hkeys Hsites Howned Hmail Hjobs Hops Hch]. split; try done.
    intros o Ho. destruct (Hops o Ho) as [[Hid [Co Cd Cb Cz]] Hc]. split; [|done]. split; [done|]. split; [done|done| |done].
    intros w b Hw Hsn Hb E. cbn in Hb. apply put_elem in Hb as [Hb|Hb]; [by eapply Cb|]. destruct (Hc w Hw Hsn). by eapply Hopen.
  - intros q w Hq Hw Hc Hr. exists w. split; [done|]. split; [done|]. destruct q; try exact Hr.
    all: destruct Hr as (b & Hb & Ei & Es); cbn in Hb; apply put_elem in Hb as [Hb|Hb]; [by exists b|]; destruct Hc; by eapply Hopen.
Qed.

Lemma safe_zones d s : sound s → zones_kept d s = true → safe_change s (s <| rm_DNS := d |>).
Proof.
  intros Hs Hk. assert (∀ z w, z ∈ db_Zones d → w ∈ rm_Sites s → zr_SiteID z = ws_ID w → ws_RemovalState w ≠ "none" →
    ∃ z', z' ∈ db_Zones (rm_DNS s) ∧ zr_ID z' = zr_ID z ∧ zr_SiteID z' = zr_SiteID z) as Hz.
  { intros z w Hz Hw E Hc. unfold zones_kept in Hk. rewrite forallb_forall in Hk.
    specialize (Hk z (proj1 (list_elem_of_In _ _) Hz)). apply orb_true_iff in Hk as [Hk|Hk].
    - destruct Hc. eapply free_open; [exact Hk|done|]. rewrite E. set_solver.
    - apply existsb_exists in Hk as (z' & Hz'%list_elem_of_In & [E1%Z.eqb_eq E2%Z.eqb_eq]%andb_true_iff). by exists z'. }
  split.
  - destruct Hs as [Hseq Hkeys Hsites Howned Hmail Hjobs Hops Hch]. split; try done.
    intros o Ho. destruct (Hops o Ho) as [[Hid [Co Cd Cb Cz]] Hc]. split; [|done]. split; [done|]. split; [done|done|done|].
    intros w z Hw Hsn Hin E. destruct (Hz z w Hin Hw E (Hc w Hw Hsn)) as (z' & Hz' & Ei & Es). rewrite <- Ei. eapply Cz; [done..|congruence].
  - intros q w Hq Hw Hc Hr. exists w. split; [done|]. split; [done|]. destruct q; try exact Hr.
    destruct Hr as (z & Hin & Ei & Es). destruct (Hz z w Hin Hw Es Hc) as (z' & Hz' & Ei' & Es'). exists z'. split_and!; congruence.
Qed.

(** A new website has a key of its own. *)
Lemma safe_insert_site w0 s :
  sound s → ws_ID w0 = rm_SiteSeq s → ws_RemovalState w0 = "none" →
  safe_change s (s <| rm_Sites := rm_Sites s ++ [w0] |> <| rm_SiteSeq := rm_SiteSeq s + 1 |>).
Proof.
  intros Hs Ei Est. assert (∀ id, id < rm_SiteSeq s → exists_site id (s <| rm_Sites := rm_Sites s ++ [w0] |> <| rm_SiteSeq := rm_SiteSeq s + 1 |>) → exists_site id s) as Hex.
  { intros id Hid (w & [Hw| ->%list_elem_of_singleton]%elem_of_app & E); [by exists w|lia]. }
  split.
  - destruct Hs as [Hseq Hkeys Hsites Howned Hmail Hjobs Hops Hch]. split; cbn -[fmap]; try done.
    + lia.
    + apply NoDup_append; [|done]. intros (w & E & Hw%Hsites)%list_elem_of_fmap. lia.
    + intros w [Hw%Hsites| ->%list_elem_of_singleton]%elem_of_app; lia.
    + intros r Hr. destruct (Howned r Hr) as [? Hp]. split; [lia|]. intros Et%Hp. lia.
    + intros d w Hd [Hw| ->%list_elem_of_singleton]%elem_of_app E; [by apply Hmail|]. apply owned_elem in Hd as [_ [Hd _]%Howned]. lia.
    + intros o Ho. destruct (Hops o Ho) as [[Hid [Co Cd Cb Cz]] Hc].
      assert (∀ w, w ∈ rm_Sites s ++ [w0] → ws_ID w ∈ removalSelectedSites (ro_Snapshot o) → w ∈ rm_Sites s) as Hold.
      { intros w [Hw| ->%list_elem_of_singleton]%elem_of_app Hsn; [done|]. apply Hid in Hsn. lia. }
      split; [|by intros w Hw Hsn; apply Hc; [apply Hold|]]. split; [intros id Hin%Hid; cbn; lia|].
      split; cbn; intros w x Hw Hsn; [intros|..]; [eapply Co|apply (Cd w)|apply (Cb w)|apply (Cz w)]; try done; by apply Hold.
  - intros q w Hq Hw Hc Hr. cbn in Hw. apply elem_of_app in Hw as [Hw| ->%list_elem_of_singleton]; [|done]. exists w. split; [done|]. split; [done|].
    destruct q; try exact Hr. destruct Hr as (r & Hr & Hb & Hsource & Htarget). exists r.
    apply by_key_elem in Hr as [Eid [Et Hr]%owned_elem]. destruct (sound_owned _ Hs r Hr) as [Hl Hp].
    split_and!; [apply by_key_elem; split; [done|by apply owned_elem]|done|apply Hex; [done|exact Hsource]|apply Hex; [by apply Hp|exact Htarget]].
Qed.

Lemma fmap_put {B} (f : WebSite → B) n x y (l : list WebSite) : l !! n = Some y → f x = f y → f <$> put n (Some x) l = f <$> l.
Proof.
  intros Hn E. rewrite (put_insert _ _ _ _ Hn), list_fmap_insert, list_insert_id; [done|]. by rewrite list_lookup_fmap, Hn, E.
Qed.

Lemma same_tables s s' :
  rm_Sites s' = rm_Sites s → rm_Owned s' = rm_Owned s → rm_Databases s' = rm_Databases s → rm_Backups s' = rm_Backups s →
  rm_DNS s' = rm_DNS s → rm_Operations s' = rm_Operations s → jobs_kept s s' → rm_SiteSeq s' = rm_SiteSeq s → Quiet false s s'.
Proof.
  intros Es Eo Ed Eb Ez Eops Hj Eq. split; rewrite ?Es, ?Eo, ?Ed, ?Eb, ?Ez, ?Eops; try done.
  intros o Ho. exists o. split; [done|reflexivity].
Qed.

Lemma quiet_update_site n old w s :
  rm_Sites s !! n = Some old → same_identity old w = true → Quiet false s (s <| rm_Sites := put n (Some w) (rm_Sites s) |>).
Proof.
  intros Hn Hid. unfold same_identity in Hid. rewrite !andb_true_iff, !Z.eqb_eq, !String.eqb_eq in Hid. destruct_and! Hid.
  split; cbn -[fmap]; try done.
  - intros w' [Hw'|[= <-]]%put_elem; [exists w'; split; [done|reflexivity]|]. exists old. split; [by eapply list_elem_of_lookup_2|].
    unfold site_kept. split_and!; congruence.
  - intros o Ho. exists o. split; [done|reflexivity].
  - by rewrite (fmap_put _ _ _ _ _ Hn).
Qed.

Lemma quiet_drop_site n s : Quiet false s (s <| rm_Sites := put n None (rm_Sites s) |>).
Proof.
  split; cbn -[fmap]; try done.
  - intros w' [Hw'|]%put_elem; [exists w'; split; [done|reflexivity]|done].
  - intros o Ho. exists o. split; [done|reflexivity].
  - intros Hnd. eapply sublist_NoDup; [exact Hnd|]. apply fmap_sublist, put_delete.
Qed.

Lemma quiet_put_job n j new s :
  rm_Jobs s !! n = Some j → jb_State j ≠ "running" → (∀ j', new = Some j' → jb_ID j' = jb_ID j) →
  Quiet false s (s <| rm_Jobs := put n new (rm_Jobs s) |>).
Proof.
  intros Hn Hst Hid. apply same_tables; try done. split; cbn.
  - intros j0 Hj0 Hr. eapply put_keep; [done..|congruence].
  - intros [Hnd Hlt]. split.
    + destruct new as [j'|].
      * rewrite (put_insert _ _ _ _ Hn), list_fmap_insert, list_insert_id; [done|]. by rewrite list_lookup_fmap, Hn, (Hid j' eq_refl).
      * eapply sublist_NoDup; [exact Hnd|]. apply fmap_sublist, put_delete.
    + rewrite Forall_forall in *. intros j' [Hj'|E]%put_elem; [by apply Hlt|]. rewrite (Hid j' E). eapply Hlt, list_elem_of_lookup_2, Hn.
Qed.

(** No change of another component opens a way to a closed website. *)
Lemma safe_apply c s : sound s → safe_change s (apply_change c s).
Proof.
  intros Hs. destruct c as [n new|w|n w|n|n new|n new|d|s1|clock kind args|n state]; unfold apply_change.
  - destruct (_ && _) eqn:E; [|by apply safe_refl]. apply andb_true_iff in E as [[_ Hnew]%andb_true_iff Hold].
    split; [by apply sound_owned_change|by apply ways_owned].
  - destruct (free_of_removal _ _); [|by apply safe_refl]. by apply safe_insert_site.
  - destruct (rm_Sites s !! n) as [old|] eqn:En; [|by apply safe_refl]. destruct (_ && _) eqn:E; [|by apply safe_refl].
    apply andb_true_iff in E as [Hid _]. apply safe_quiet; [done|]. by eapply quiet_update_site.
  - destruct (rm_Sites s !! n) as [old|] eqn:En; [|by apply safe_refl]. destruct (free_of_removal _ _); [|by apply safe_refl].
    apply safe_quiet; [done|]. etransitivity; [apply (quiet_drop_site n)|apply quiet_cascade_site].
  - destruct (_ && _) eqn:E; [|by apply safe_refl]. apply andb_true_iff in E as [Hf _]. by apply safe_database.
  - destruct (_ && _) eqn:E; [|by apply safe_refl]. apply andb_true_iff in E as [[Hf _]%andb_true_iff _]. by apply safe_backup.
  - destruct (zones_kept d s) eqn:E; [|by apply safe_refl]. by apply safe_zones.
  - apply safe_quiet; [done|]. apply same_tables; done.
  - destruct (String.eqb kind "remove_site"); [by apply safe_refl|]. apply safe_quiet; [done|]. apply same_tables; try done.
    split; cbn; [intros j Hj _; apply elem_of_app; by left|]. by apply keys_append.
  - destruct (rm_Jobs s !! n) as [j|] eqn:En; [|by apply safe_refl]. destruct (String.eqb_spec (jb_State j) "running") as [|Hne]; [by apply safe_refl|].
    destruct state as [state|]; [destruct (String.eqb state "running"); [by apply safe_refl|]|].
    + apply safe_quiet; [done|]. eapply quiet_put_job; [done..|]. by intros j' [= <-].
    + apply safe_quiet; [done|]. by eapply quiet_put_job.
Qed.
End Changes.
