(* ===== verification/RemovalSafe.v ===== *)
(** * Website removal: what holds in every interleaving

    First the logic of [Programs] for removals: [wp c h p Q] says that the program
    [p] of a call [c], whatever it is answered, asks every question only when that
    is [due], and ends with [Q]. Then requests, jobs and the changes of other components,
    statement by statement: no job is at work on a website while its services are
    torn down, and the stages come in their order. *)

From S2P Require Import Prelude Tx Programs Tables GoStr GoCrypto Site DNSTypes DNSTables OpsTypes DNSAgent DNSWorker RemovalTypes RemovalPreview RemovalFence RemovalStore RemovalSystem RemovalFacts RemovalSound RemovalApprove RemovalChanges.

(** ** What threads know before they act *)

Create HintDb removal_idle.

Section Logic.
Context `{GoUnicode} `{GoMapOrder} `{Collation} `{SHA256}.
Context (shared_services : bool).
Implicit Types (c : call) (h : list fact) (op : SiteRemovalOperation).

(** The stages before one, and all of them. *)
Definition finished_before h op (stage : string) : Prop :=
  ∃ done rest, removal_stages = done ++ stage :: rest ∧ ∀ st, st ∈ done → Finished (teardown_req op st) ∈ h.

Definition finished_all h op : Prop := ∀ st, st ∈ removal_stages → Finished (teardown_req op st) ∈ h.

(** An operation that was read and whose jobs were drained. *)
Definition prepared h op : Prop := Stored op ∈ h ∧ Drained op ∈ h.

(** What must be known before a question is asked: a service is torn down only
    when no job is at work and the stages before were finished; the tables are
    cleared only when all were; a job works only behind the fence. *)
Definition due c h {B} (q : query B) : Prop :=
  match q with
  | Exec st =>
    match st with
    | CountRunning op => Stored op ∈ h
    | Advance op _ _ => prepared h op
    | FinalizeTx id revision => ∃ op, prepared h op ∧ ro_ID op = id ∧ ro_Revision op = revision ∧ finished_all h op
    | PrepareDNS op => prepared h op ∧ Finished (teardown_req op RemovalShared) ∈ h
    | ReadFence q => ∃ j args, c = Run j ∧ jb_Args j = Some args ∧ fence_query (jb_Kind j) args = Some q
    | _ => True
    end
  | RemoveStaging op => prepared h op
  | TeardownSite req => ∃ op, prepared h op ∧ req = teardown_req op (td_Stage req) ∧ finished_before h op (td_Stage req)
  | Body kind args =>
    ∃ j, c = Run j ∧ kind = jb_Kind j ∧ args = jb_Args j ∧
      (is_target kind = true → ∃ a q, args = Some a ∧ fence_query kind a = Some q ∧ Passed q ∈ h)
  | _ => True
  end.

(** Every question must be due. *)
Definition asks c h B (q : query B) (P : B → Prop) : Prop := due c h q ∧ ∀ r, P r.

#[export] Instance asks_mono : MonotoneRule asks.
Proof. intros c h B q P P' HP [Hd Hr]. split; [done|]. intros r. apply HP, Hr. Qed.

#[local] Notation wp := (Programs.wp (@learned) asks).
#[local] Notation quiet := (Programs.quiet (@learned) asks).

(** A question and its answer. *)
Lemma wp_ask {B C} c h (q : query B) (k : B → prog C) Q :
  due c h q → (∀ r, wp c (h ++ learned q r) (k r) Q) → wp c h (prog_bind (ask q) k) Q.
Proof. intros Hd Hk. split; [done|]. exact Hk. Qed.

Lemma idle_ask {B} (q : query B) : (∀ c h, due c h q) → quiet (ask q).
Proof. intros Hd c h. split; [apply Hd|done]. Qed.

Lemma wp_quiet_any {A} c h (p : prog A) : quiet p → wp c h p (λ _ _, True).
Proof. intros Hp. apply Hp. Qed.
End Logic.

#[local] Notation wp := (Programs.wp (@learned) asks).
#[local] Notation quiet := (Programs.quiet (@learned) asks).

#[export] Hint Extern 4 (quiet (ask _)) => apply idle_ask; by intros ?? : removal_idle.
#[export] Hint Extern 4 (quiet (db _)) => apply idle_ask; by intros ?? : removal_idle.

(** Decompose a program that asks nothing that must be due. *)
Ltac idle_steps :=
  repeat (cbv zeta; match goal with
  | |- quiet (prog_bind _ _) => apply quiet_bind; [|intros ?]
  | |- quiet (Done _) => apply quiet_done
  | |- quiet (if ?b then _ else _) => destruct b
  | |- quiet (match ?m with Ok _ => _ | Err _ => _ end) => destruct m
  | |- quiet (match ?m with Some _ => _ | None => _ end) => destruct m
  | |- quiet (let '(_, _) := ?x in _) => destruct x
  | |- quiet _ => solve [eauto with removal_idle]
  end).

Section Programs.
Context `{GoUnicode} `{GoMapOrder} `{Collation} `{SHA256}.
Context (shared_services : bool).
Implicit Types (c : call) (h : list fact) (op : SiteRemovalOperation).

(** ** Programs *)

Lemma idle_authorizeOperation actor op : quiet (authorizeOperation actor op).
Proof. unfold authorizeOperation. idle_steps. Qed.
#[local] Hint Resolve idle_authorizeOperation : removal_idle.

Lemma idle_RemoveSiteFor actor req : quiet (RemoveSiteFor actor req).
Proof. unfold RemoveSiteFor, SiteRemovalByRequestFor, authorizeSite. idle_steps. Qed.

Lemma idle_RetrySiteRemovalFor actor id : quiet (RetrySiteRemovalFor actor id).
Proof. unfold RetrySiteRemovalFor, SiteRemovalFor. idle_steps. Qed.

Lemma idle_failRemoval op stage : quiet (failRemoval op stage).
Proof. unfold failRemoval. idle_steps. Qed.

Lemma idle_converge_zones selected zones : quiet (converge_zones selected zones).
Proof. induction zones as [|id zones IH]; cbn [converge_zones]; idle_steps. Qed.
#[local] Hint Resolve idle_failRemoval idle_converge_zones : removal_idle.

Lemma idle_sweep : quiet sweep_work.
Proof.
  unfold sweep_work. idle_steps. rename a into ids. induction ids as [|id ids IH]; cbn [sweep_all]; idle_steps.
  all: unfold sweep_one; idle_steps.
Qed.

Lemma prepared_later h h' op : h ⊆ h' → prepared h op → prepared h' op.
Proof. intros Hsub []. split; by apply Hsub. Qed.

(** The drain, when it succeeds, found no job at work. *)
Lemma wp_drain c h op : Stored op ∈ h → wp c h (drainSiteJobs op) (λ h' r, r = Ok true → prepared h' op).
Proof.
  intros Hs. unfold drainSiteJobs, db. apply wp_ask; [done|]. intros [[]|e]; [|done]. apply wp_ask; [cbn; set_solver|].
  intros [count|e]; [|done]. destruct (count =? 0) eqn:E; cbn -[wp]; rewrite ?E; [|done].
  split; [split; set_solver|]. intros [[]|e]; cbn; [|done]. split; set_solver.
Qed.

Lemma wp_converge c h op :
  prepared h op → Finished (teardown_req op RemovalShared) ∈ h → wp c h (Converge op) (λ _ _, True).
Proof.
  intros Hp Hf. unfold Converge, db. apply wp_ask; [done|]. intros [[]|e]; [|done].
  apply wp_quiet; [apply idle_converge_zones|]. intros h1 [checkpoints|e] Hsub; [|done].
  apply wp_quiet_any. idle_steps.
Qed.

Lemma finished_later h h' op (done : list string) : h ⊆ h' → (∀ st, st ∈ done → Finished (teardown_req op st) ∈ h) → ∀ st, st ∈ done → Finished (teardown_req op st) ∈ h'.
Proof. intros Hsub Hf st Hst. by apply Hsub, Hf. Qed.

(** The stages in their order, and the end after all of them. *)
Lemma wp_stages c op done stages h :
  removal_stages = done ++ stages → prepared h op → (∀ st, st ∈ done → Finished (teardown_req op st) ∈ h) →
  wp c h (run_stages op stages) (λ _ _, True).
Proof.
  revert done h. induction stages as [|stage stages IH]; intros done h Es Hp Hd; cbn [run_stages].
  - rewrite app_nil_r in Es. unfold Finalize, db. apply wp_bind, wp_ask; [done|]. intros [o|e].
    + split; [|intros [[]|e]; [done|apply wp_quiet_any, idle_failRemoval]]. exists op. split; [by eapply prepared_later; [|exact Hp]; set_solver|].
      split; [done|]. split; [done|]. intros st Hst. rewrite Es in Hst. apply elem_of_app. left. by apply Hd.
    + apply wp_quiet_any, idle_failRemoval.
  - unfold db. apply wp_ask; [done|]. intros [[]|e]; [|done]. set (h1 := h ++ _).
    assert (h ⊆ h1) as Hsub by (unfold h1; set_solver).
    apply wp_ask. { exists op. split; [by eapply prepared_later|]. split; [done|]. exists done, stages. split; [done|]. by eapply finished_later. }
    intros [answer|e]; [|apply wp_quiet_any, idle_failRemoval].
    destruct (negb (answers_to op answer) || _) eqn:Ea; [apply wp_quiet_any, idle_failRemoval|].
    apply orb_false_iff in Ea as [Ea%negb_false_iff Ec%negb_false_iff].
    assert (finishes (teardown_req op stage) answer = true) as Ef. { unfold finishes. cbn. unfold answers_to in Ea. by rewrite Ea, Ec. }
    cbn [learned]. rewrite Ef. set (h2 := h1 ++ _). assert (Finished (teardown_req op stage) ∈ h2) as Hfin by (unfold h2; set_solver).
    assert (h ⊆ h2) as Hsub2 by (unfold h2; set_solver). clearbody h2. clear h1 Hsub.
    assert (∀ h', h2 ⊆ h' → wp c h' (run_stages op stages) (λ _ _, True)) as Hrest.
    { intros h' Hsub. apply (IH (done ++ [stage])); [by rewrite <- app_assoc|eapply prepared_later; [|exact Hp]; set_solver|].
      intros st [Hst| ->%list_elem_of_singleton]%elem_of_app; [|by apply Hsub]. apply Hsub, Hsub2. by apply Hd. }
    apply wp_ask; [by eapply prepared_later|]. intros [[]|e]; [|done].
    destruct (String.eqb_spec stage RemovalShared) as [->|_]; [|apply Hrest; set_solver].
    eapply wp_seq; [apply wp_converge; [eapply prepared_later; [|exact Hp]|]; set_solver|].
    intros h3 [converged|e] Hsub3 _; [|apply wp_quiet_any, idle_failRemoval].
    destruct (negb (answers_to op converged)); [apply wp_quiet_any, idle_failRemoval|].
    apply wp_ask; [eapply prepared_later; [|exact Hp]; set_solver|]. intros [[]|e]; [|done]. apply Hrest. set_solver.
Qed.

Lemma wp_remove_locked c h id revision : wp c h (remove_locked shared_services id revision) (λ _ _, True).
Proof.
  unfold remove_locked, db. apply wp_ask; [done|]. intros [op|e]; [|done]. cbn [learned facts_of].
  destruct (_ || _); [done|]. eapply wp_seq; [apply wp_drain; set_solver|]. intros h1 [ready|e] Hsub Hp; [|done].
  destruct ready; cbn [negb]; [|by apply wp_ask; [|intros [[]|e]]]. specialize (Hp eq_refl).
  destruct shared_services; cbn [negb]; [|apply wp_quiet_any, idle_failRemoval].
  apply wp_ask; [done|]. intros [[]|e]; [|done]. apply (wp_stages _ _ []); [done| |by intros st ?%elem_of_nil].
  eapply prepared_later; [|exact Hp]. set_solver.
Qed.

Lemma wp_remove_work c h id revision : wp c h (remove_work shared_services id revision) (λ _ _, True).
Proof.
  unfold remove_work. apply wp_ask; [done|]. intros [[]|e]; [|done]. apply wp_ask; [done|]. intros locked.
  apply wp_seq with (λ _ _, True); [|intros h1 r Hsub _; by apply wp_ask; [|intros []]].
  destruct locked as [[]|e]; [|done|done]. eapply wp_seq; [apply wp_remove_locked|]. intros h1 r Hsub _. by apply wp_ask; [|intros []].
Qed.

(** A job works behind the fence of its website. *)
Lemma wp_fence j h inner :
  (∀ h', (is_target (jb_Kind j) = true → ∃ a q, jb_Args j = Some a ∧ fence_query (jb_Kind j) a = Some q ∧ Passed q ∈ h') →
    wp (Run j) h' inner (λ _ _, True)) →
  wp (Run j) h (fence_work (jb_Kind j) (jb_Args j) (jb_CreatedAt j) inner) (λ _ _, True).
Proof.
  intros Hinner. unfold fence_work.
  assert (∀ h, wp (Run j) h (if is_target (jb_Kind j) then fence_scoped (jb_Kind j) (jb_Args j) (jb_CreatedAt j) inner else inner) (λ _ _, True)) as Hscoped.
  { intros h1. destruct (is_target (jb_Kind j)) eqn:Et; [|by apply Hinner]. unfold fence_scoped.
    destruct (jb_Args j) as [args|] eqn:Ea; [|done]. apply wp_quiet.
    { destruct (_ && _); [|apply quiet_done]. apply idle_ask. by intros ??. }
    intros h2 [[]|e] Hsub; [done| |done]. destruct (fence_query (jb_Kind j) args) as [q|] eqn:Eq; [|done].
    unfold db. apply wp_ask; [by exists j, args|]. intros [[state created]|e]; [|by destruct (errors_Is _ _)].
    destruct (String.eqb_spec state "none") as [->|]; [|done]. cbn [negb orb]. destruct (_ && _); [done|].
    apply Hinner. intros _. exists args, q. split_and!; [done..|]. cbn. set_solver. }
  destruct (serverSnapshotSensitiveJob _); [|apply Hscoped].
  apply wp_ask; [done|]. intros [[]|e]; [|done]. eapply wp_seq; [apply Hscoped|]. intros h1 r Hsub _. by apply wp_ask; [|intros []].
Qed.

Lemma wp_call c : is_request c = true ∨ (∃ j, c = Run j) → wp c [] (start shared_services c) (λ _ _, True).
Proof.
  intros Hc. destruct c as [actor req|actor id|j|]; cbn [start].
  - apply wp_quiet_any. apply quiet_bind; [apply idle_RemoveSiteFor|]. intros. apply quiet_done.
  - apply wp_quiet_any. apply quiet_bind; [apply idle_RetrySiteRemovalFor|]. intros. apply quiet_done.
  - apply wp_bind. eapply wp_mono; [|by intros]. unfold run_job. apply wp_fence. intros h Hpass.
    assert (∀ args, args = jb_Args j → wp (Run j) h (ask (Body (jb_Kind j) args)) (λ _ _, True)) as Hbody.
    { intros args ->. split; [|done]. exists j. split_and!; [done..|]. exact Hpass. }
    destruct (jb_Args j) as [args|] eqn:Ea; [|by apply Hbody]. destruct (String.eqb _ "remove_site"); [apply wp_remove_work|].
    destruct (String.eqb _ "sweep_site_removals"); [apply wp_quiet_any, idle_sweep|]. by apply Hbody.
  - done.
Qed.
End Programs.

(** ** The invariant *)

Section Safe.
Context `{GoUnicode} `{GoMapOrder} `{Collation} `{SHA256}.
Context (opts : SiteRemovalOptions) (shared_services : bool).
Implicit Types (s : RemovalStore) (y : system) (op : SiteRemovalOperation) (th : thread) (q : FenceQuery).

(** ** Steps of the tables *)

(** What every event does to the tables, as far as facts depend on them. *)
Record goes s s' : Prop := mkGoes {
  goes_sound : sound s';
  goes_ways : ways_kept s s';
  goes_operations : ∀ o, o ∈ rm_Operations s → ∃ o', o' ∈ rm_Operations s' ∧ op_kept o o';
}.

Definition running_kept s s' : Prop := ∀ j, j ∈ rm_Jobs s → jb_State j = "running" → j ∈ rm_Jobs s'.

Lemma goes_refl s : sound s → goes s s.
Proof. intros Hs. destruct (safe_refl s Hs). split; [done..|]. intros o Ho. exists o. split; [done|reflexivity]. Qed.

Lemma goes_perform answers clock now f {B} (st : statement B) s :
  sound s → let s' := snd (with_fault f (perform opts answers clock now st) s) in goes s s' ∧ running_kept s s'.
Proof.
  intros Hs. assert (goes s (snd (run_tx (perform opts answers clock now st) s)) ∧ running_kept s (snd (run_tx (perform opts answers clock now st) s))) as Hrun.
  { unfold run_tx. destruct (perform _ _ _ _ st s) as [[a s']|e] eqn:E; cbn; [|split; [by apply goes_refl|by intros j]].
    pose proof (quiet_perform _ _ _ _ st _ _ _ E) as Hq. pose proof (sound_perform _ _ _ _ st _ _ _ Hs E) as Hs'.
    split; [|exact (proj1 (quiet_jobs _ _ _ Hq))]. split; [done|by eapply ways_quiet|by apply (quiet_operations _ _ _ Hq)]. }
  destruct f; cbn; [done|split; [by apply goes_refl|by intros j]|done].
Qed.

Lemma apply_change_keeps c s : rm_Operations (apply_change c s) = rm_Operations s ∧ running_kept s (apply_change c s).
Proof.
  assert (running_kept s s) as Hrefl by by intros j.
  destruct c as [n new|w|n w|n|n new|n new|d|s1|clock kind args|n state]; unfold apply_change; repeat case_match; try (by split).
  - split; [done|]. intros j Hj _. cbn. apply elem_of_app. by left.
  - split; [done|]. intros j0 Hj Hr. cbn. eapply put_keep; [done..|]. intros ->.
    match goal with E : String.eqb _ "running" = false |- _ => apply String.eqb_neq in E; done end.
  - split; [done|]. intros j0 Hj Hr. cbn. eapply put_keep; [done..|]. intros ->.
    match goal with E : String.eqb _ "running" = false |- _ => apply String.eqb_neq in E; done end.
Qed.

Lemma goes_change c s : sound s → goes s (apply_change c s) ∧ running_kept s (apply_change c s).
Proof.
  intros Hs. destruct (apply_change_keeps c s) as [Eo Hk], (safe_apply c s Hs) as [Hs' Hw]. split; [|done]. split; [done..|].
  intros o Ho. exists o. rewrite Eo. split; [done|reflexivity].
Qed.

(** Jobs do not lead anywhere. *)
Lemma goes_set_job id state s : sound s → goes s (set_job id state s).
Proof.
  intros [Hseq Hkeys Hsites Howned Hmail Hjobs Hops Hch]. split.
  - split; cbn; try done; [by apply keys_update|]. intros o Ho. destruct (Hops o Ho) as [[Hid [Co Cd Cb Cz]] Hc].
    split; [|done]. split; [done|]. by split.
  - intros q w _ Hw _ Hr. exists w. split; [done|]. split; [done|]. destruct q; exact Hr.
  - intros o Ho. exists o. split; [done|reflexivity].
Qed.

(** ** Jobs behind the fence *)

(** A job that has passed the fence and is not settled, with the key it passed by. *)
Definition passed th (args : removalFenceArgs) q : Prop :=
  ∃ j, th_Call th = Run j ∧ jb_Args j = Some args ∧ fence_query (jb_Kind j) args = Some q ∧
    carries_key (jb_Kind j) args = true ∧ Passed q ∈ th_History th.

Definition passes (threads : list thread) (args : removalFenceArgs) q : Prop := ∃ th, th ∈ threads ∧ passed th args q.

Definition stored op s : Prop := ∃ o, o ∈ rm_Operations s ∧ op_kept op o.

(** No job at work reaches a website of the operation. *)
Definition drained op s (threads : list thread) : Prop :=
  ∀ args q w, passes threads args q → w ∈ rm_Sites s → ws_ID w ∈ removalSelectedSites (ro_Snapshot op) → ¬ reaches q w s.

Definition known s (threads : list thread) (f : fact) : Prop :=
  match f with
  | Stored op => stored op s
  | Drained op => stored op s ∧ drained op s threads
  | Passed _ | Finished _ => True
  end.

(** The row of a job at work. *)
Definition working j s : Prop :=
  ∃ row, row ∈ rm_Jobs s ∧ jb_ID row = jb_ID j ∧ jb_Kind row = jb_Kind j ∧ jb_Args row = jb_Args j ∧ jb_State row = "running".

Definition all_working s (threads : list thread) : Prop := ∀ th j, th ∈ threads → th_Call th = Run j → working j s.

(** A key that leads to no closed website. *)
Definition open_query q s : Prop := ∀ w, w ∈ rm_Sites s → reaches q w s → ws_RemovalState w = "none".

Lemma stored_closed op s : sound s → stored op s → closed (removalSelectedSites (ro_Snapshot op)) s ∧ covers (ro_Snapshot op) s.
Proof.
  intros Hs (o & Ho & _ & _ & _ & _ & _ & _ & Esn & _). rewrite <- Esn. destruct (sound_operations _ Hs o Ho) as [[_ Hc] Hcl]. done.
Qed.

(** Facts stay true. *)
Lemma known_later s s' threads threads' f :
  goes s s' → all_working s threads →
  (∀ args q, passes threads' args q → passes threads args q ∨ open_query q s') →
  known s threads f → known s' threads' f.
Proof.
  intros [Hs' Hways Hops] Hwork Hpass.
  assert (∀ op, stored op s → stored op s') as Hst.
  { intros op (o & Ho & Ko). destruct (Hops o Ho) as (o' & Ho' & Ko'). exists o'. split; [done|]. by etransitivity. }
  destruct f as [op|op|q|req]; cbn; [apply Hst| |done|done]. intros [Hop Hd]. split; [by apply Hst|]. intros args q w' Hp Hw' Hid Hr.
  destruct (stored_closed op s' Hs' (Hst op Hop)) as [Hcl _]. specialize (Hcl w' Hw' Hid).
  destruct (Hpass args q Hp) as [Hp0|Ho]; [|by apply Hcl, Ho].
  assert (of_job q s) as Hjob.
  { destruct q; try done. destruct Hp0 as (th & Hth & j & Ec & Ea & Eq & _). destruct (Hwork th j Hth Ec) as (row & Hrow & _ & _ & Er & _).
    exists row, args. split; [done|]. split; [congruence|]. unfold fence_query in Eq.
    destruct (removalFenceQuery (jb_Kind j) args) as [q0|] eqn:Eq0; [|done].
    assert (q0 = FenceImport id) as ->. { destruct (negb (missing q0)); [congruence|]. destruct q0; try done. by destruct (String.eqb _ _). }
    unfold removalFenceQuery in Eq0. repeat case_match; congruence. }
  destruct (Hways q w' Hjob Hw' Hcl Hr) as (w & Hw & Ew & Hr0). eapply Hd; [exact Hp0|exact Hw|by rewrite Ew|done].
Qed.

(** ** What is learned is true *)

(** A drained operation has no job at work. *)
Lemma drain_spec op s threads :
  sound s → stored op s → all_working s threads → running_jobs op s = 0 → drained op s threads.
Proof.
  intros Hs Hop Hwork Hcount args q w (th & Hth & j & Ec & Ea & Eq & Hkey & _) Hw Hid Hr.
  destruct (stored_closed op s Hs Hop) as [_ Hcov]. destruct (Hwork th j Hth Ec) as (row & Hrow & _ & Ek & Er & Est).
  unfold running_jobs in Hcount. destruct (rows_where _ (rm_Jobs s)) as [|row' rows] eqn:E; [|cbn in Hcount; lia].
  apply (not_elem_of_nil row). rewrite <- E. apply rows_where_elem. split; [|done]. rewrite Est. cbn. unfold in_scope. rewrite Er, Ea, Ek.
  eapply reached_in_scope; try done. apply (sound_sites _ Hs) in Hw. lia.
Qed.

Lemma fault_Ok {B} f (m : tx RemovalStore B) s a s' : with_fault f m s = (Ok a, s') → m s = Ok (a, s').
Proof. destruct f; cbn; [|done|done]. unfold run_tx. destruct (m s) as [[b s1]|e]; [|done]. by intros [= <- <-]. Qed.

Lemma learned_known c h i {B} (q : query B) (w w' : world) (r : B) threads :
  exec opts i q w = Some (r, w') → due c h q → sound (w_DB w) → all_working (w_DB w) threads →
  (∀ f, f ∈ h → known (w_DB w) threads f) →
  ∀ f, f ∈ learned q r → known (w_DB w') threads f ∧ ∀ q0, f = Passed q0 → open_query q0 (w_DB w').
Proof.
  intros He Hd Hs Hwork Hk f Hf. destruct q; cbn [learned] in Hf; try (by apply elem_of_nil in Hf).
  - cbn in He. destruct (with_fault _ _ _) as [r0 s'] eqn:E. injection He as <- <-. cbn.
    destruct st; cbn [facts_of] in Hf; try (by apply elem_of_nil in Hf).
    + destruct r0 as [op|e]; [|by apply elem_of_nil in Hf]. apply list_elem_of_singleton in Hf as ->.
      apply fault_Ok in E. cbn in E. apply tx_query_Ok in E as [E ->]. split; [|done]. cbn. unfold operation_by_id in E.
      destruct (rows_where _ _) as [|o rows] eqn:Er; [done|]. injection E as <-.
      assert (o ∈ o :: rows) as Hin by constructor. rewrite <- Er in Hin. apply rows_where_elem in Hin as [_ Hin]. by exists o.
    + destruct r0 as [count|e]; [|by apply elem_of_nil in Hf]. destruct (count =? 0) eqn:Ec; [|by apply elem_of_nil in Hf].
      apply list_elem_of_singleton in Hf as ->. apply fault_Ok in E. cbn in E. unfold tx_read in E. injection E as E <-.
      split; [|done]. cbn. assert (stored op (w_DB w)) as Hop by apply (Hk _ Hd). split; [done|].
      apply drain_spec; try done. rewrite E. by apply Z.eqb_eq.
    + destruct r0 as [[state created]|e]; [|by apply elem_of_nil in Hf]. destruct (String.eqb_spec state "none") as [->|]; [|by apply elem_of_nil in Hf].
      apply list_elem_of_singleton in Hf as ->. apply fault_Ok in E. cbn in E. apply tx_query_Ok in E as [E ->]. split; [done|].
      intros q0 [= <-] w0 Hw0 Hr. eapply fence_row_open; [exact E|done| |done]. apply (sound_sites _ Hs) in Hw0. lia.
  - destruct r as [r|e]; [|by apply elem_of_nil in Hf]. destruct (finishes _ _); [|by apply elem_of_nil in Hf].
    apply list_elem_of_singleton in Hf as ->. split; [done|]. done.
Qed.

(** ** The invariant of the system *)

Definition tables_of y : RemovalStore := w_DB (sy_World y).

Record inv y : Prop := mkInv {
  inv_sound : sound (tables_of y);
  inv_wp : ∀ th, th ∈ sy_Threads y → wp (th_Call th) (th_History th) (th_Prog th) (λ _ _, True);
  inv_known : ∀ th f, th ∈ sy_Threads y → f ∈ th_History th → known (tables_of y) (sy_Threads y) f;
  inv_working : all_working (tables_of y) (sy_Threads y);
  inv_distinct : ∀ t1 t2 th1 th2 j1 j2, sy_Threads y !! t1 = Some th1 → sy_Threads y !! t2 = Some th2 →
    th_Call th1 = Run j1 → th_Call th2 = Run j2 → jb_ID j1 = jb_ID j2 → t1 = t2;
}.

Lemma passed_call th th' args q :
  th_Call th' = th_Call th → (∀ q0, Passed q0 ∈ th_History th' → Passed q0 ∈ th_History th) → passed th' args q → passed th args q.
Proof. intros Ec Hh (j & Hj & Ha & Eq & Hkey & Hp). exists j. split_and!; [congruence|done..|by apply Hh]. Qed.

Lemma exec_goes i {B} (q : query B) (w w' : world) (r : B) :
  exec opts i q w = Some (r, w') → sound (w_DB w) → goes (w_DB w) (w_DB w') ∧ running_kept (w_DB w) (w_DB w').
Proof.
  intros He Hs. assert (goes (w_DB w) (w_DB w) ∧ running_kept (w_DB w) (w_DB w)) as Hrefl by (split; [by apply goes_refl|by intros j]).
  destruct q; cbn in He; try (by injection He as _ <-; destruct w).
  - destruct (with_fault _ _ _) as [r0 s'] eqn:E. injection He as _ <-. cbn.
    change s' with (snd (r0, s')). rewrite <- E. by apply goes_perform.
  - destruct (in_fault i); [|by injection He as _ <-..]. destruct (_ || _); [done|]. injection He as _ <-. by destruct shared.
  - injection He as _ <-. by destruct shared.
  - destruct (in_fault i); [|by injection He as _ <-..]. destruct (bool_decide _); by injection He as _ <-.
Qed.

Lemma inv_step_thread y t i th {B} (q : query B) (k : B → prog outcome) r w' :
  inv y → sy_Threads y !! t = Some th → th_Prog th = Ask q k → exec opts i q (sy_World y) = Some (r, w') →
  inv (mkSystem w' (<[t := mkThread (th_Call th) (k r) (th_History th ++ learned q r)]> (sy_Threads y))).
Proof.
  intros [Hs Hwp Hk Hwork Hdist] Ht Ep He. set (th' := mkThread _ _ _). set (threads' := <[t := th']> _).
  assert (th ∈ sy_Threads y) as Hin by by eapply list_elem_of_lookup_2. pose proof (Hwp th Hin) as Hth. rewrite Ep in Hth. destruct Hth as [Hdue Hnext].
  destruct (exec_goes _ _ _ _ _ He Hs) as [Hgo Hrun].
  pose proof (learned_known _ _ _ _ _ _ _ _ He Hdue Hs Hwork (λ f, Hk th f Hin)) as Hnew.
  assert (∀ x, x ∈ threads' → x = th' ∨ x ∈ sy_Threads y) as Hback.
  { intros x [n Hn]%list_elem_of_lookup. destruct (decide (n = t)) as [->|Hne].
    - unfold threads' in Hn. rewrite list_lookup_insert_eq in Hn by by eapply lookup_lt_Some. injection Hn as <-. by left.
    - unfold threads' in Hn. rewrite list_lookup_insert_ne in Hn by done. right. by eapply list_elem_of_lookup_2. }
  assert (∀ args q0, passes threads' args q0 → passes (sy_Threads y) args q0 ∨ open_query q0 (w_DB w')) as Hpass.
  { intros args q0 (x & [->|Hx]%Hback & Hp); [|left; by exists x]. destruct Hp as (j & Ec & Ea & Eq & Hkey & Hp).
    cbn in Hp. apply elem_of_app in Hp as [Hp|Hp]; [left; exists th; split; [done|]; by exists j|right]. by eapply (Hnew _ Hp). }
  assert (all_working (w_DB w') (sy_Threads y)) as Hwork'.
  { intros x j Hx Ec. destruct (Hwork x j Hx Ec) as (row & Hrow & Ei & Ek & Ea & Est). exists row. split_and!; try done. by apply Hrun. }
  split; unfold tables_of; cbn.
  - apply Hgo.
  - intros x [->|Hx]%Hback; [apply Hnext|by apply Hwp].
  - intros x f [->|Hx]%Hback Hf.
    + cbn in Hf. apply elem_of_app in Hf as [Hf|Hf].
      * eapply known_later; [exact Hgo|exact Hwork|exact Hpass|by apply (Hk th)].
      * eapply (known_later (w_DB w') (w_DB w')); [apply goes_refl, Hgo|exact Hwork'|exact Hpass|by apply Hnew].
    + eapply known_later; [exact Hgo|exact Hwork|exact Hpass|by apply (Hk x)].
  - intros x j [->|Hx]%Hback Ec; [by apply (Hwork' th)|by apply (Hwork' x)].
  - assert (∀ n x j, threads' !! n = Some x → th_Call x = Run j → ∃ x0, sy_Threads y !! n = Some x0 ∧ th_Call x0 = Run j) as Hold.
    { intros n x j Hn Ec. destruct (decide (n = t)) as [->|Hne].
      - unfold threads' in Hn. rewrite list_lookup_insert_eq in Hn by by eapply lookup_lt_Some. injection Hn as <-. by exists th.
      - unfold threads' in Hn. rewrite list_lookup_insert_ne in Hn by done. by exists x. }
    intros t1 t2 th1 th2 j1 j2 H1' H2' E1 E2 Ei. destruct (Hold _ _ _ H1' E1) as (x1 & Hx1 & Ex1), (Hold _ _ _ H2' E2) as (x2 & Hx2 & Ex2). by eapply Hdist.
Qed.

(** A thread joins. *)
Lemma inv_join w' y c :
  inv y → goes (tables_of y) (w_DB w') → all_working (w_DB w') (sy_Threads y) →
  (is_request c = true ∨ ∃ j, c = Run j ∧ working j (w_DB w') ∧ ∀ th j', th ∈ sy_Threads y → th_Call th = Run j' → jb_ID j' ≠ jb_ID j) →
  inv (mkSystem w' (sy_Threads y ++ [mkThread c (start shared_services c) []])).
Proof.
  intros [Hs Hwp Hk Hwork Hdist] Hgo Hwork' Hc. set (th0 := mkThread c _ []).
  assert (∀ x, x ∈ sy_Threads y ++ [th0] → x ∈ sy_Threads y ∨ x = th0) as Hback by (intros x; rewrite elem_of_app, list_elem_of_singleton; done).
  split; unfold tables_of; cbn.
  - apply Hgo.
  - intros x [Hx| ->]%Hback; [by apply Hwp|]. apply wp_call. destruct Hc as [|(j & -> & _)]; [by left|right; by exists j].
  - intros x f [Hx| ->]%Hback Hf; [|by apply elem_of_nil in Hf]. eapply known_later; [exact Hgo|exact Hwork| |by apply (Hk x)].
    intros args q (z & [Hz| ->]%Hback & Hp); [left; by exists z|]. destruct Hp as (j & _ & _ & _ & _ & Hp). by apply elem_of_nil in Hp.
  - intros x j [Hx| ->]%Hback Ec; [by apply (Hwork' x)|]. cbn in Ec. subst c. destruct Hc as [|(j' & [= ->] & Hw & _)]; [done|]. exact Hw.
  - intros t1 t2 th1 th2 j1 j2 Hl1 Hl2 E1 E2 Ei.
    assert (∀ n x j, (sy_Threads y ++ [th0]) !! n = Some x → th_Call x = Run j → sy_Threads y !! n = Some x ∨ (n = length (sy_Threads y) ∧ c = Run j)) as Hl.
    { intros n x j Hn Ec. apply lookup_app_Some in Hn as [Hn|[Hge Hn]]; [by left|]. right. apply list_lookup_singleton_Some in Hn as [Hn <-].
      split; [lia|exact Ec]. }
    assert (∀ n x j, sy_Threads y !! n = Some x → th_Call x = Run j → ∀ j', c = Run j' → jb_ID j ≠ jb_ID j') as Hnew.
    { intros n x j Hn Ec j' ->. destruct Hc as [|(j'' & [= <-] & _ & Hne)]; [done|]. eapply Hne; [|exact Ec]. by eapply list_elem_of_lookup_2. }
    destruct (Hl _ _ _ Hl1 E1) as [Ha|[-> Ha]], (Hl _ _ _ Hl2 E2) as [Hb|[-> Hb]]; [by eapply Hdist| | |done].
    + by destruct (Hnew _ _ _ Ha E1 _ Hb).
    + by destruct (Hnew _ _ _ Hb E2 _ Ha).
Qed.

Lemma working_set_job id state j s : state = "running" ∨ jb_ID j ≠ id → working j s → working j (set_job id state s).
Proof.
  intros Hc (row & Hrow & Ei & Ek & Ea & Est). exists (if jb_ID row =? id then row <| jb_State := state |> else row).
  split; [apply rows_update_elem; by exists row|]. destruct (jb_ID row =? id) eqn:E; cbn; [|done]. apply Z.eqb_eq in E.
  split_and!; try done. destruct Hc; congruence.
Qed.

Lemma inv_fetch n j y :
  inv y → rm_Jobs (tables_of y) !! n = Some j → jb_State j = "available" →
  inv (mkSystem ((sy_World y) <| w_DB := set_job (jb_ID j) "running" (tables_of y) |>) (sy_Threads y ++ [mkThread (Run j) (start shared_services (Run j)) []])).
Proof.
  intros Hi Hn Est. pose proof (inv_sound _ Hi) as Hs. assert (j ∈ rm_Jobs (tables_of y)) as Hj by by eapply list_elem_of_lookup_2.
  apply inv_join; cbn; [done|by apply goes_set_job| |right; exists j; split; [done|]; split].
  - intros th j' Hth Ec. apply working_set_job; [by left|]. by apply (inv_working _ Hi th).
  - exists (j <| jb_State := "running" |>). split; [|done]. apply rows_update_elem. exists j. by rewrite Z.eqb_refl.
  - intros th j' Hth Ec E. destruct (inv_working _ Hi th j' Hth Ec) as (row & Hrow & Ei & _ & _ & Er).
    assert (row = j) as -> by (eapply keys_same; [apply (sound_jobs _ Hs)|done|done|congruence]). congruence.
Qed.

(** A job is settled. *)
Lemma inv_settle t j r h state y :
  inv y → sy_Threads y !! t = Some (mkThread (Run j) (Done (Ended r)) h) →
  inv (mkSystem ((sy_World y) <| w_DB := set_job (jb_ID j) state (tables_of y) |>) (<[t := mkThread Over (Done (Ended r)) h]> (sy_Threads y))).
Proof.
  intros Hi Ht. pose proof Hi as [Hs Hwp Hk Hwork Hdist]. set (th' := mkThread Over _ h).
  assert (∀ n x, <[t := th']> (sy_Threads y) !! n = Some x → x = th' ∨ (n ≠ t ∧ sy_Threads y !! n = Some x)) as Hback.
  { intros n x Hn. destruct (decide (n = t)) as [->|Hne].
    - rewrite list_lookup_insert_eq in Hn by by eapply lookup_lt_Some. injection Hn as <-. by left.
    - rewrite list_lookup_insert_ne in Hn by done. by right. }
  pose proof (goes_set_job (jb_ID j) state _ Hs) as Hgo.
  assert (∀ f, f ∈ h ∨ (∃ x, x ∈ sy_Threads y ∧ f ∈ th_History x) → known (set_job (jb_ID j) state (tables_of y)) (<[t := th']> (sy_Threads y)) f) as Hknown.
  { intros f Hf. eapply known_later; [exact Hgo|exact Hwork| |].
    - intros args q (z & [m Hm]%list_elem_of_lookup & Hp). left. apply Hback in Hm as [->|[_ Hm]]; [by destruct Hp as (? & ? & _)|].
      exists z. split; [by eapply list_elem_of_lookup_2|done].
    - destruct Hf as [Hf|(x & Hx & Hf)]; [|by apply (Hk x)]. eapply (Hk (mkThread (Run j) (Done (Ended r)) h)); [|done]. by eapply list_elem_of_lookup_2. }
  split; unfold tables_of; cbn.
  - apply Hgo.
  - intros x [n Hn]%list_elem_of_lookup. apply Hback in Hn as [->|[_ Hn]]; [done|]. apply Hwp. by eapply list_elem_of_lookup_2.
  - intros x f [n Hn]%list_elem_of_lookup Hf. apply Hknown. apply Hback in Hn as [->|[_ Hn]]; [by left|right]. exists x.
    split; [by eapply list_elem_of_lookup_2|done].
  - intros x j' [n Hn]%list_elem_of_lookup Ec. apply Hback in Hn as [->|[Hne Hn]]; [done|]. apply working_set_job.
    + right. intros E. by eapply Hne, Hdist.
    + eapply Hwork; [|exact Ec]. by eapply list_elem_of_lookup_2.
  - intros t1 t2 th1 th2 j1 j2 Hl1 Hl2 E1 E2 Ei. apply Hback in Hl1 as [->|[_ Hl1]]; [done|]. apply Hback in Hl2 as [->|[_ Hl2]]; [done|].
    by eapply Hdist.
Qed.

Lemma inv_elsewhere c y : inv y → inv (mkSystem ((sy_World y) <| w_DB := apply_change c (tables_of y) |>) (sy_Threads y)).
Proof.
  intros [Hs Hwp Hk Hwork Hdist]. destruct (goes_change c _ Hs) as [Hgo Hrun]. split; unfold tables_of; cbn; [apply Hgo|done| | |done].
  - intros x f Hx Hf. eapply known_later; [exact Hgo|exact Hwork| |by apply (Hk x)]. by left.
  - intros x j Hx Ec. destruct (Hwork x j Hx Ec) as (row & Hrow & Ei & Ek & Ea & Est). exists row. split_and!; try done. by apply Hrun.
Qed.

Lemma inv_step y e : inv y → inv (step opts shared_services y e).
Proof.
  intros Hi. destruct e as [c|n|t i|t state|c]; cbn [step].
  - destruct (is_request c) eqn:Ec; [|done]. apply inv_join; [done|apply goes_refl, Hi|apply Hi|by left].
  - destruct (rm_Jobs _ !! n) as [j|] eqn:En; [|done]. destruct (String.eqb_spec (jb_State j) "available") as [Est|]; [|done]. by eapply inv_fetch.
  - destruct (sy_Threads y !! t) as [th|] eqn:Et; [|done]. destruct (th_Prog th) as [a|B q k] eqn:Ep; [done|].
    destruct (exec opts i q (sy_World y)) as [[r w']|] eqn:E; [|done]. by eapply inv_step_thread.
  - destruct (sy_Threads y !! t) as [[[actor req|actor id|j|] [[r|r]|B q k] h]|] eqn:Et; try done.
    destruct (settled_state r state); [|done]. by apply inv_settle.
  - by apply inv_elsewhere.
Qed.

Lemma inv_run events s : sound s → inv (run opts shared_services events (idle s)).
Proof.
  intros Hs. unfold run. assert (inv (idle s)) as Hi.
  { split; unfold tables_of; cbn; [done|by intros th ?%elem_of_nil|by intros th f ?%elem_of_nil|by intros th j ?%elem_of_nil|done]. }
  generalize dependent (idle s). induction events as [|e events IH]; intros y Hi; [done|]. cbn. by apply IH, inv_step.
Qed.
End Safe.
