(* ===== verification/RemovalFinal.v ===== *)
(** * Website removal: what is retained, and the end of an operation

    No statement of a removal loses a backup, and none deletes a database but the
    end of an operation that chose it, after the agent has removed it. After a
    removal has ended nothing is left of its websites, and other websites are as
    they were. *)

From S2P Require Import Prelude Tx Programs Tables GoStr GoTime GoCrypto Site DNSTypes DNSTables DNSEdit OpsTypes DNSAgent DNSWorker RemovalTypes RemovalPreview RemovalFence RemovalStore RemovalSystem RemovalFacts RemovalSound RemovalApprove.

(** ** What is retained *)

(** The database is the same, of the same website or of none. *)
Definition same_database (d d' : Database) : Prop :=
  da_ID d' = da_ID d ∧ da_SubscriptionID d' = da_SubscriptionID d ∧ da_Engine d' = da_Engine d ∧ da_Name d' = da_Name d ∧
  da_User d' = da_User d ∧ detached (da_SiteID d) (da_SiteID d').

(** The backup is the same; one that was to be made yet has failed. *)
Definition same_backup (b b' : Backup) : Prop :=
  bk_ID b' = bk_ID b ∧ bk_SubscriptionID b' = bk_SubscriptionID b ∧ bk_TargetName b' = bk_TargetName b ∧
  bk_ArchivePath b' = bk_ArchivePath b ∧ bk_SHA256 b' = bk_SHA256 b ∧ bk_DatabaseNames b' = bk_DatabaseNames b ∧
  (bk_Status b' = bk_Status b ∨ bk_Status b = "pending" ∧ bk_Status b' = "failed") ∧ detached (bk_SiteID b) (bk_SiteID b').

#[export] Instance same_database_preorder : PreOrder same_database.
Proof. unfold same_database, detached. split; [intros ?; intuition|intros ???; intuition congruence]. Qed.
#[export] Instance same_backup_preorder : PreOrder same_backup.
Proof.
  unfold same_backup. split.
  - intros b. split_and!; try done; by left.
  - intros b1 b2 b3 (E1 & E2 & E3 & E4 & E5 & E6 & Es & Ed) (F1 & F2 & F3 & F4 & F5 & F6 & Fs & Fd).
    split_and!; try congruence; [intuition congruence|by etransitivity].
Qed.

Section Keeps.
Context (P : Z → Prop).

(** Backups stay, and databases but those of [P]. *)
Record Keeps (s s' : RemovalStore) : Prop := mkKeeps {
  keeps_backups : ∀ b, b ∈ rm_Backups s → ∃ b', b' ∈ rm_Backups s' ∧ same_backup b b';
  keeps_databases : ∀ d, d ∈ rm_Databases s → P (da_ID d) ∨ ∃ d', d' ∈ rm_Databases s' ∧ same_database d d';
}.

#[export] Instance Keeps_preorder : PreOrder Keeps.
Proof.
  split.
  - intros s. split; [intros b Hb; exists b; split; [done|reflexivity]|]. intros d Hd. right. exists d. split; [done|reflexivity].
  - intros s1 s2 s3 [B1 D1] [B2 D2]. split.
    + intros b (b2 & (b3 & Hb3 & K)%B2 & K2)%B1. exists b3. split; [done|]. by etransitivity.
    + intros d [Hp|(d2 & Hd2 & K2)]%D1; [by left|]. destruct (D2 d2 Hd2) as [Hp|(d3 & Hd3 & K3)].
      * left. destruct K2 as [E _]. by rewrite <- E.
      * right. exists d3. split; [done|]. by etransitivity.
Qed.

Lemma keeps_same s s' : rm_Backups s' = rm_Backups s → rm_Databases s' = rm_Databases s → Keeps s s'.
Proof.
  intros Eb Ed. split; rewrite ?Eb, ?Ed; [intros b Hb; exists b; split; [done|reflexivity]|]. intros d Hd. right. exists d. split; [done|reflexivity].
Qed.

Lemma keeps_update_databases p f s : (∀ d, same_database d (f d)) → Keeps s (s <| rm_Databases := rows_update p f (rm_Databases s) |>).
Proof.
  intros Hf. split; cbn -[rows_update]; [intros b Hb; exists b; split; [done|reflexivity]|]. intros d Hd. right.
  exists (if p d then f d else d). split; [apply rows_update_elem; eauto|]. destruct (p d); [done|reflexivity].
Qed.

Lemma keeps_update_backups p f s : (∀ b, same_backup b (f b)) → Keeps s (s <| rm_Backups := rows_update p f (rm_Backups s) |>).
Proof.
  intros Hf. split; cbn -[rows_update]; [|intros d Hd; right; exists d; split; [done|reflexivity]]. intros b Hb.
  exists (if p b then f b else b). split; [apply rows_update_elem; eauto|]. destruct (p b); [done|reflexivity].
Qed.

Context `{GoUnicode} `{GoMapOrder} `{Collation} `{SHA256}.
Implicit Types (op : SiteRemovalOperation).

#[local] Hint Extern 5 (steps Keeps (tx_write _)) => apply steps_write; intros ?; by apply keeps_same : tx_steps.
#[local] Hint Extern 4 (steps Keeps (tx_query _)) => apply steps_query; typeclasses eauto : tx_steps.
#[local] Hint Extern 4 (steps Keeps (update_operations _ _)) => unfold update_operations; tx_steps : tx_steps.
#[local] Hint Extern 4 (steps Keeps (set_removal _ _ _)) => unfold set_removal; tx_steps : tx_steps.
#[local] Hint Extern 4 (steps Keeps (removalAudit _ _ _ _ _)) => unfold removalAudit; tx_steps : tx_steps.
#[local] Hint Extern 4 (steps Keeps (new_job _ _ _)) => unfold new_job; tx_steps : tx_steps.
#[local] Hint Extern 4 (steps Keeps (drain_jobs _)) => unfold drain_jobs; tx_steps : tx_steps.
#[local] Hint Extern 4 (steps Keeps (insert_removal_job _ _ _)) => unfold insert_removal_job; tx_steps : tx_steps.
#[local] Hint Extern 4 (steps Keeps (delete_owned _)) => unfold delete_owned; tx_steps : tx_steps.
#[local] Hint Extern 4 (steps Keeps (delete_with_children _)) => unfold delete_with_children; tx_steps : tx_steps.
#[local] Hint Extern 4 (steps Keeps (delete_secrets _)) => unfold delete_secrets; tx_steps : tx_steps.
#[local] Hint Extern 4 (steps Keeps (release_targets _)) => unfold release_targets; tx_steps : tx_steps.

Lemma keeps_lock id : steps Keeps (LockSubscriptionMutationTx id).
Proof. unfold LockSubscriptionMutationTx. steps_rows. Qed.
#[local] Hint Resolve keeps_lock : tx_steps.

Lemma keeps_on_dns {A} (m : tx DNSStore A) : steps Keeps (on_dns m).
Proof. intros s a s'. unfold on_dns. destruct (m (rm_DNS s)) as [[b d]|e]; [|done]. intros [= _ <-]. by apply keeps_same. Qed.
#[local] Hint Resolve keeps_on_dns : tx_steps.

Lemma keeps_reserve_site id revision siteID : steps Keeps (reserve_site id revision siteID).
Proof. unfold reserve_site, insert_target. tx_steps. Qed.

Lemma keeps_insert_operation actor req pv selected : steps Keeps (insert_operation actor req pv selected).
Proof. unfold insert_operation. tx_steps. Qed.
#[local] Hint Resolve keeps_reserve_site keeps_insert_operation : tx_steps.

Lemma keeps_reserve opts answers clock actor req subscriptionID : steps Keeps (reserve opts answers clock actor req subscriptionID).
Proof. unfold reserve. tx_steps. destruct a0; tx_steps. Qed.

Lemma keeps_remove_records selected resources : steps Keeps (remove_records selected resources).
Proof. induction resources as [|r resources IH]; cbn; tx_steps. unfold remove_approved. steps_rows. Qed.
#[local] Hint Resolve keeps_remove_records : tx_steps.

Lemma keeps_delete_resource op r : steps Keeps (delete_resource op r).
Proof. unfold delete_resource. tx_steps. Qed.

Lemma keeps_requeue_database clock d : steps Keeps (requeue_database clock d).
Proof.
  unfold requeue_database. tx_steps. apply steps_write. intros s. apply keeps_update_databases. intros r.
  unfold same_database. cbn. repeat (split; [done|]). reflexivity.
Qed.
#[local] Hint Resolve keeps_delete_resource keeps_requeue_database : tx_steps.

Lemma keeps_requeue clock op ids : steps Keeps (requeueKeptPendingDatabases clock op ids).
Proof. unfold requeueKeptPendingDatabases. tx_steps. Qed.

Lemma keeps_detach_databases op ids : steps Keeps (detach_databases op ids).
Proof.
  apply steps_write. intros s. apply keeps_update_databases. intros d. unfold same_database, detached. cbn. intuition.
Qed.

Lemma keeps_detach_backups op ids : steps Keeps (detach_backups op ids).
Proof.
  apply steps_write. intros s. apply keeps_update_backups. intros b. cbv zeta.
  destruct (String.eqb_spec (bk_Status (b <| bk_SiteID := 0 |>)) "pending"); unfold same_backup, detached; cbn in *; split_and!; auto.
Qed.

Lemma keeps_cascade_site id s : Keeps s (cascade_site id s).
Proof.
  set (s1 := s <| rm_Databases := rows_update (λ row, da_SiteID row =? id) (λ row, row <| da_SiteID := 0 |>) (rm_Databases s) |>).
  transitivity s1; [apply keeps_update_databases; intros d; unfold same_database, detached; cbn; intuition|].
  transitivity (s1 <| rm_Backups := rows_update (λ row, bk_SiteID row =? id) (λ row, row <| bk_SiteID := 0 |>) (rm_Backups s) |>).
  - apply (keeps_update_backups _ _ s1). intros b. unfold same_backup, detached. cbn. intuition.
  - by apply keeps_same.
Qed.

Lemma keeps_delete_site item : steps Keeps (delete_site item).
Proof. unfold delete_site. tx_steps. apply steps_write. intros s. apply keeps_cascade_site. Qed.

Lemma keeps_delete_database op d :
  (∀ id, id ∈ ro_DeleteDatabaseIDs op → one_of (database_checkpoint id) (ro_Checkpoints op) = true → P id) → steps Keeps (delete_database op d).
Proof.
  intros HP. unfold delete_database. destruct (bool_decide _) eqn:Ed; cbn; [|tx_steps]. apply bool_decide_eq_true in Ed.
  destruct (one_of _ _) eqn:Ec; cbn; [|tx_steps]. apply steps_write. intros s.
  split; cbn -[rows_delete]; [intros b Hb; exists b; split; [done|reflexivity]|]. intros row Hrow.
  destruct (((da_ID row =? rd_ID d) && (da_SiteID row =? rd_SiteID d)) && (da_SubscriptionID row =? ro_SubscriptionID op)) eqn:E.
  - left. apply andb_true_iff in E as [[E%Z.eqb_eq _]%andb_true_iff _]. rewrite E. by apply HP.
  - right. exists row. split; [by apply rows_delete_elem|reflexivity].
Qed.

#[local] Hint Resolve keeps_reserve keeps_requeue keeps_detach_databases keeps_detach_backups keeps_delete_site : tx_steps.

Lemma keeps_clear_tables clock op secretIDs :
  (∀ id, id ∈ ro_DeleteDatabaseIDs op → one_of (database_checkpoint id) (ro_Checkpoints op) = true → P id) → steps Keeps (clear_tables clock op secretIDs).
Proof. intros HP. unfold clear_tables, clear_rows. tx_steps. by apply keeps_delete_database. Qed.

(** The statements that do not end an operation. *)
Lemma keeps_statement opts answers clock now {B} (st : statement B) :
  match st with FinalizeTx _ _ => False | _ => True end → steps Keeps (perform opts answers clock now st).
Proof.
  intros Hst. destruct st; try done; cbn [perform]; unfold retry, mark_waiting, advanceRemoval, fail_removal, prepareDNS; tx_steps.
Qed.
End Keeps.

Section Perform.
Context `{GoUnicode} `{GoMapOrder} `{Collation} `{SHA256}.
Implicit Types (s : RemovalStore) (op : SiteRemovalOperation).

(** The end of an operation: it was over already, or its checks hold and its tables
    are cleared. *)
Lemma finalize_spec clock id revision s a s' :
  finalize clock id revision s = Ok (a, s') →
  ∃ op, op ∈ rm_Operations s ∧ operation_by_id id s = Ok op ∧ ro_Revision op = revision ∧
    (ro_State op = "completed" ∧ s' = s ∨
     ro_State op = "running" ∧ (∀ stage, stage ∈ final_checkpoints → stage ∈ ro_Checkpoints op) ∧
     clear_tables clock op (removalSecretIDs (removalSelectedSites (ro_Snapshot op)) op s) s = Ok (a, s')).
Proof.
  unfold finalize. intros (op & s0 & [Eop ->]%tx_query_Ok & Hr)%tx_bind_Ok. apply tx_bind_Ok in Hr as (s0 & s1 & [= <- <-] & Hr).
  apply tx_bind_Ok in Hr as ([] & s1 & Hlock & Hr). exists op.
  assert (s = s1) as <-.
  { eapply (steps_each eq LockSubscriptionMutationTx); [|exact Hlock]. intros x s2 [] s3 Hs. symmetry. by eapply lock_same. }
  split. { unfold operation_by_id in Eop. destruct (rows_where _ _) as [|o rows] eqn:E; [done|]. injection Eop as <-.
    assert (o ∈ o :: rows) as Hin by constructor. rewrite <- E in Hin. by apply rows_where_elem in Hin as [_ Hin]. }
  destruct (Z.eqb_spec (ro_Revision op) revision) as [Erev|]; [|done]. cbn [negb] in Hr. split; [done|]. split; [done|].
  destruct (String.eqb_spec (ro_State op) "completed") as [Est|_]; [left; by injection Hr as <-|right].
  destruct (String.eqb_spec (ro_State op) "running") as [Est|]; [|done]. cbn [negb] in Hr. split; [done|].
  destruct (forallb _ final_checkpoints) eqn:Ef; [|done]. split; [|exact Hr]. intros stage Hst. rewrite forallb_forall in Ef.
  specialize (Ef stage (proj1 (list_elem_of_In _ _) Hst)). unfold one_of in Ef. by apply bool_decide_eq_true in Ef.
Qed.

(** A database is deleted by an operation at its end that chose it, when the agent
    has said that it is removed. *)
Definition removed_by op (id : Z) : Prop :=
  id ∈ ro_DeleteDatabaseIDs op ∧ database_checkpoint id ∈ ro_Checkpoints op ∧ ro_State op = "running" ∧
  ∀ stage, stage ∈ final_checkpoints → stage ∈ ro_Checkpoints op.

Lemma keeps_perform opts answers clock now {B} (st : statement B) s a s' :
  perform opts answers clock now st s = Ok (a, s') → Keeps (λ id, ∃ op, op ∈ rm_Operations s ∧ removed_by op id) s s'.
Proof.
  intros Hr. destruct st; try (by eapply keeps_statement; [|exact Hr]).
  cbn [perform] in Hr. apply finalize_spec in Hr as (op & Hop & _ & _ & [[_ ->]|(Est & Hst & Hr)]); [reflexivity|].
  eapply keeps_clear_tables; [|exact Hr]. intros x Hx Hc. exists op. split; [done|]. split_and!; try done.
  unfold one_of in Hc. by apply bool_decide_eq_true in Hc.
Qed.

Lemma keeps_exec opts i {B} (q : query B) (w w' : world) (r : B) :
  exec opts i q w = Some (r, w') → Keeps (λ id, ∃ op, op ∈ rm_Operations (w_DB w) ∧ removed_by op id) (w_DB w) (w_DB w').
Proof.
  intros He. destruct q; cbn in He; try (by injection He as _ <-; destruct w).
  - destruct (with_fault _ _ _) as [r0 s'] eqn:E. injection He as _ <-. cbn. change s' with (snd (r0, s')). rewrite <- E.
    destruct (in_fault i); cbn; [|reflexivity|]; unfold run_tx; destruct (perform _ _ _ _ st _) as [[a s1]|e] eqn:Ep; try reflexivity;
      by eapply keeps_perform.
  - destruct (in_fault i); [|by injection He as _ <-..]. destruct (_ || _); [done|]. injection He as _ <-. by destruct shared.
  - injection He as _ <-. by destruct shared.
  - destruct (in_fault i); [|by injection He as _ <-..]. destruct (bool_decide _); by injection He as _ <-.
Qed.
End Perform.

(** ** What is gone *)

Lemma steps_each_in {S A} (R : S → S → Prop) `{!PreOrder R} (body : A → tx S unit) l :
  (∀ x, x ∈ l → steps R (body x)) → steps R (tx_each body l).
Proof.
  induction l as [|x l IH]; intros Hb; [by apply steps_ret|]. apply steps_bind; [done|apply Hb; constructor|].
  intros _. apply IH. intros y Hy. apply Hb. by constructor.
Qed.

(** ** Nothing is left *)

Section Gone.
Context `{GoUnicode} `{GoMapOrder} `{Collation} `{SHA256}.
Implicit Types (s : RemovalStore) (op : SiteRemovalOperation).

(** No row is of a website. *)
Record gone (id : Z) s : Prop := mkGone {
  gone_site : ∀ w, w ∈ rm_Sites s → ws_ID w ≠ id;
  gone_owned : ∀ r, r ∈ rm_Owned s → ow_SiteID r ≠ id;
  gone_databases : ∀ d, d ∈ rm_Databases s → da_SiteID d ≠ id;
  gone_backups : ∀ b, b ∈ rm_Backups s → bk_SiteID b ≠ id;
  gone_zones : ∀ z, z ∈ db_Zones (rm_DNS s) → zr_SiteID z ≠ id;
}.

Lemma gone_quiet grow id s s' : id ≠ 0 → Quiet grow s s' → gone id s → gone id s'.
Proof.
  intros Hid Hq [Gs Go Gd Gb Gz]. split.
  - intros w' Hw'. destruct (quiet_sites _ _ _ Hq _ Hw') as (w & Hw & E & _). rewrite E. auto.
  - intros r' Hr'. destruct (quiet_owned _ _ _ Hq _ Hr') as (r & Hr & _ & _ & _ & _ & _ & _ & [-> | ->]); auto.
  - intros d' Hd'. destruct (quiet_databases _ _ _ Hq _ Hd') as (d & Hd & _ & [-> | ->]); auto.
  - intros b' Hb'. destruct (quiet_backups _ _ _ Hq _ Hb') as (b & Hb & _ & [-> | ->]); auto.
  - intros z' Hz'. destruct (quiet_zones _ _ _ Hq _ Hz') as (z & Hz & _ & ->). auto.
Qed.

Lemma update_other {A} (key : A → Z) f (id : Z) (rows : list A) x :
  (∀ r, key (f r) = 0) → id ≠ 0 → x ∈ rows_update (λ r, key r =? id) f rows → key x ≠ id.
Proof.
  intros Hf Hid (r & _ & ->)%rows_update_elem. destruct (Z.eqb_spec (key r) id) as [_|Hne]; [|done]. rewrite Hf. auto.
Qed.

Lemma cascade_gone id s : id ≠ 0 → (∀ w, w ∈ rm_Sites s → ws_ID w ≠ id) → gone id (cascade_site id s).
Proof.
  intros Hid Hno. unfold cascade_site. split; cbn -[rows_update rows_delete rows_where child_tables].
  - intros w (w0 & Hw0 & ->)%rows_update_elem. destruct (_ =? _); cbn; auto.
  - intros r (r0 & [Hg Hr0]%rows_delete_elem & ->)%rows_update_elem. apply orb_false_iff in Hg as [[Hg _]%orb_false_iff _].
    destruct (bool_decide (ow_Table r0 = MailDomains)) eqn:Et; cbn in *; [destruct (ow_SiteID r0 =? id) eqn:E; [cbn; auto|by apply Z.eqb_neq]|].
    rewrite andb_true_r in Hg. by apply Z.eqb_neq.
  - intros d. by apply (update_other da_SiteID).
  - intros b. by apply (update_other bk_SiteID).
  - intros z [Hz _]%rows_delete_elem. by apply Z.eqb_neq.
Qed.

Lemma delete_site_gone item s a s' :
  NoDup (ws_ID <$> rm_Sites s) → rs_SiteID item ≠ 0 → delete_site item s = Ok (a, s') → gone (rs_SiteID item) s'.
Proof.
  intros Hnd Hid. unfold delete_site. intros Hr. db_ok. apply cascade_gone; [done|]. cbn.
  intros w [Hp Hw]%rows_delete_elem Ew. destruct (rows_where (is_target_row item) (rm_Sites s)) as [|w1 rows] eqn:E1; [done|].
  assert (w1 ∈ w1 :: rows) as Hin by constructor. rewrite <- E1 in Hin. apply rows_where_elem in Hin as [Hp1 Hw1].
  assert (ws_ID w1 = rs_SiteID item) as Ew1. { unfold is_target_row in Hp1. rewrite !andb_true_iff, Z.eqb_eq in Hp1. tauto. }
  assert (w = w1) as -> by (eapply (NoDup_fmap_elem ws_ID); [exact Hnd|done|done|congruence]). congruence.
Qed.

Lemma delete_sites_gone items s a s' :
  NoDup (ws_ID <$> rm_Sites s) → tx_each delete_site items s = Ok (a, s') →
  ∀ item, item ∈ items → rs_SiteID item ≠ 0 → gone (rs_SiteID item) s'.
Proof.
  revert s. induction items as [|x items IH]; intros s Hnd; cbn; [by intros _ item ?%elem_of_nil|].
  intros ([] & s1 & Hx & Hr)%tx_bind_Ok item Hitem Hid. pose proof (quiet_delete_site false _ _ _ _ Hx) as Hq.
  apply elem_of_cons in Hitem as [->|Hitem]; [|eapply IH; [by apply (quiet_site_keys _ _ _ Hq)|done..]].
  apply delete_site_gone in Hx; [|done..]. eapply (gone_quiet false); [done| |exact Hx].
  eapply (steps_each (Quiet false)); [|exact Hr]. intros y. apply quiet_delete_site.
Qed.

(** The tables when they are cleared. *)
Lemma clear_tables_spec clock op secretIDs s a s' :
  NoDup (ws_ID <$> rm_Sites s) → clear_tables clock op secretIDs s = Ok (a, s') →
  (∀ id, id ∈ removalSelectedSites (ro_Snapshot op) → id ≠ 0 → gone id s') ∧
  (∀ o, o ∈ rm_Operations s' → ro_ID o = ro_ID op → ro_State o = "completed") ∧
  (∀ t, t ∈ rm_Targets s' → rt_OperationID t = ro_ID op → rt_Released t = true).
Proof.
  intros Hnd. unfold clear_tables. intros ([] & s1 & Hrows & Hr)%tx_bind_Ok. apply tx_bind_Ok in Hr as ([] & s2 & Hsites & Hr).
  apply tx_bind_Ok in Hr as ([] & s3 & Hsecrets & Hr). split_and!.
  - intros id Hid Hne. apply list_elem_of_fmap in Hid as (item & -> & Hitem).
    apply (gone_quiet false _ s2); [done|..].
    + etransitivity; [by eapply quiet_delete_secrets|]. revert Hr. generalize s3 a s'.
      match goal with |- ∀ s a s', ?m s = _ → _ => cut (steps (Quiet false) m); [by intros Hst s4 a4 s4'; apply Hst|] end.
      tx_steps; [apply quiet_release_targets|apply quiet_removal_operations; intros o; unfold op_kept; cbn; intuition lia|apply quiet_audit].
    + eapply delete_sites_gone; [|exact Hsites|by rewrite merge_sort_Permutation|done].
      apply (quiet_site_keys false s); [|done]. by eapply quiet_clear_rows.
  - unfold update_operations, removalAudit in Hr. db_ok. cbn -[rows_update]. intros o (o0 & _ & ->)%rows_update_elem E.
    destruct (ro_ID o0 =? ro_ID op) eqn:E0; [done|]. by apply Z.eqb_neq in E0.
  - unfold release_targets, update_operations, removalAudit in Hr. db_ok. cbn -[rows_update]. intros t (t0 & _ & ->)%rows_update_elem E.
    destruct (rt_OperationID t0 =? ro_ID op) eqn:E0; [done|]. by apply Z.eqb_neq in E0.
Qed.
End Gone.

(** ** Others are spared *)

Section Spares.
Context `{GoUnicode} `{GoMapOrder} `{Collation} `{SHA256}.
Context (ids : list Z).
Implicit Types (s : RemovalStore) (op : SiteRemovalOperation).

(** The tables whose rows are of one website, and belong to it alone. *)
Definition of_one_site (t : table) : bool :=
  negb (existsb (λ '(child, _), bool_decide (child = t)) child_tables)
  && negb (bool_decide (t ∈ [MailDomains; SFTPAccessIdentities; StagingOperations])).

(** Other websites stay, without a parent that is removed, and so do their rows. *)
Record Spares s s' : Prop := mkSpares {
  spares_sites : ∀ w, w ∈ rm_Sites s → ws_ID w ∉ ids →
    w ∈ rm_Sites s' ∨ ws_ParentSiteID w ∈ ids ∧ (w <| ws_ParentSiteID := 0 |>) ∈ rm_Sites s';
  spares_owned : ∀ r, r ∈ rm_Owned s → of_one_site (ow_Table r) = true → ow_SiteID r ∉ ids → r ∈ rm_Owned s';
}.

Context (Hzero : 0 ∉ ids).

#[local] Instance Spares_preorder : PreOrder Spares.
Proof.
  split; [intros s; split; auto|]. intros s1 s2 s3 [S1 O1] [S2 O2]. split; [|auto].
  intros w Hw Hid. destruct (S1 w Hw Hid) as [Hw2|[Hp Hw2]]; [by apply S2|]. right. split; [done|].
  destruct (S2 _ Hw2 Hid) as [Hw3|[Hp3 _]]; [done|]. by destruct Hzero.
Qed.

Lemma spares_same s s' : rm_Sites s' = rm_Sites s → rm_Owned s' = rm_Owned s → Spares s s'.
Proof. intros Es Eo. split; rewrite ?Es, ?Eo; auto. Qed.

Lemma child_spared t r parents : child_of t parents r = true → (∃ p, (t, p) ∈ child_tables) → of_one_site (ow_Table r) = false.
Proof.
  unfold child_of. intros [Et%bool_decide_eq_true _]%andb_true_iff (p & Hp). unfold of_one_site. apply andb_false_iff. left.
  apply negb_false_iff, existsb_exists. exists (t, p). split; [by apply list_elem_of_In|]. by apply bool_decide_eq_true.
Qed.

Lemma children_spared r gone_rows :
  existsb (λ '(t, parent), child_of t (rows_where (λ q, bool_decide (ow_Table q = parent)) gone_rows) r) child_tables = true →
  of_one_site (ow_Table r) = false.
Proof. intros ([t p] & Hin%list_elem_of_In & Hc)%existsb_exists. eapply child_spared; [exact Hc|by exists p]. Qed.

#[local] Hint Extern 5 (steps Spares (tx_write _)) => apply steps_write; intros ?; by apply spares_same : tx_steps.
#[local] Hint Extern 4 (steps Spares (update_operations _ _)) => unfold update_operations; tx_steps : tx_steps.
#[local] Hint Extern 4 (steps Spares (removalAudit _ _ _ _ _)) => unfold removalAudit; tx_steps : tx_steps.
#[local] Hint Extern 4 (steps Spares (new_job _ _ _)) => unfold new_job; tx_steps : tx_steps.
#[local] Hint Extern 4 (steps Spares (delete_secrets _)) => unfold delete_secrets; tx_steps : tx_steps.
#[local] Hint Extern 4 (steps Spares (release_targets _)) => unfold release_targets; tx_steps : tx_steps.
#[local] Hint Extern 4 (steps Spares (detach_databases _ _)) => unfold detach_databases; tx_steps : tx_steps.
#[local] Hint Extern 4 (steps Spares (detach_backups _ _)) => unfold detach_backups; tx_steps : tx_steps.

(** What a deletion may reach. *)
Definition reachable_row (r : OwnedRow) : Prop := of_one_site (ow_Table r) = false ∨ ow_SiteID r ∈ ids.

Lemma spares_delete_owned p : (∀ r, p r = true → reachable_row r) → steps Spares (delete_owned p).
Proof.
  intros Hp. apply steps_write. intros s. split; cbn -[rows_delete]; [by left|]. intros r Hr Ho Hid. apply rows_delete_elem. split; [|done].
  apply not_true_iff_false. intros [Ht|Hin]%Hp; [by rewrite Ho in Ht|done].
Qed.

Lemma spares_delete_with_children p : (∀ r, p r = true → reachable_row r) → steps Spares (delete_with_children p).
Proof.
  intros Hp. apply steps_write. intros s. split; cbn -[rows_delete child_tables]; [by left|]. intros r Hr Ho Hid. apply rows_delete_elem. split; [|done].
  apply orb_false_iff. split; apply not_true_iff_false; [intros [Ht|Hin]%Hp; [by rewrite Ho in Ht|done]|].
  intros Hc%children_spared. by rewrite Ho in Hc.
Qed.

Lemma owned_by_reachable t r : owned_by ids t r = true → reachable_row r.
Proof. intros [_ [_ Hid%bool_decide_eq_true]%andb_true_iff]%andb_true_iff. by right. Qed.

Lemma table_reachable t r p : bool_decide (ow_Table r = t) && p = true → of_one_site t = false → reachable_row r.
Proof. intros [<-%bool_decide_eq_true _]%andb_true_iff Ho. by left. Qed.

Lemma spares_delete_resource op r : steps Spares (delete_resource op r).
Proof.
  unfold delete_resource. tx_steps.
  - apply spares_delete_with_children. intros x Hx. rewrite <- !andb_assoc in Hx. by eapply table_reachable.
  - apply spares_delete_owned. intros x Hx. rewrite <- !andb_assoc in Hx. by eapply table_reachable.
Qed.

Lemma spares_delete_database op d : steps Spares (delete_database op d).
Proof. unfold delete_database. tx_steps. Qed.

Lemma spares_requeue clock op : steps Spares (requeueKeptPendingDatabases clock op ids).
Proof. unfold requeueKeptPendingDatabases, requeue_database. tx_steps. Qed.
#[local] Hint Resolve spares_delete_resource spares_delete_database spares_requeue : tx_steps.

Lemma spares_cascade id s : id ∈ ids → Spares s (cascade_site id s).
Proof.
  intros Hid. unfold cascade_site. split; cbn -[rows_update rows_delete rows_where child_tables].
  - intros w Hw _. destruct (ws_ParentSiteID w =? id) eqn:E.
    + right. apply Z.eqb_eq in E as Ep. split; [by rewrite Ep|]. apply rows_update_elem. exists w. by rewrite E.
    + left. apply rows_update_elem. exists w. by rewrite E.
  - intros r Hr Ho Hout. apply rows_update_elem. exists r. split.
    + apply rows_delete_elem. split; [|done]. rewrite !orb_false_iff. split_and!.
      * apply andb_false_iff. left. apply Z.eqb_neq. intros E. by rewrite E in Hout.
      * apply andb_false_iff. left. apply bool_decide_eq_false. intros E. by rewrite E in Ho.
      * apply not_true_iff_false. intros Hc%children_spared. by rewrite Ho in Hc.
    + destruct (bool_decide (ow_Table r = MailDomains)) eqn:Et; [|done]. apply bool_decide_eq_true in Et. by rewrite Et in Ho.
Qed.

Lemma spares_delete_site item : rs_SiteID item ∈ ids → steps Spares (delete_site item).
Proof.
  intros Hid. unfold delete_site. tx_steps; apply steps_write; [|intros s; by apply spares_cascade]. intros s.
  split; cbn -[rows_delete]; [|auto]. intros w Hw Hout. left. apply rows_delete_elem. split; [|done].
  apply not_true_iff_false. intros Ht. unfold is_target_row in Ht. rewrite !andb_true_iff, !Z.eqb_eq in Ht. destruct_and! Ht. congruence.
Qed.

Lemma spares_clear_tables clock op secretIDs :
  ids = removalSelectedSites (ro_Snapshot op) → steps Spares (clear_tables clock op secretIDs).
Proof.
  intros Eids. unfold clear_tables, clear_rows. rewrite <- Eids. set (delete_sites := tx_each delete_site _).
  assert (steps Spares delete_sites) as Hsites.
  { apply steps_each_in; [typeclasses eauto|]. intros item Hitem. apply spares_delete_site. rewrite Eids.
    rewrite merge_sort_Permutation in Hitem. by apply list_elem_of_fmap_2. }
  tx_steps.
  all: try (apply spares_delete_with_children; intros ?; apply owned_by_reachable).
  - apply spares_delete_owned. intros ?. apply owned_by_reachable.
  - apply spares_delete_owned. intros x Hx. by eapply table_reachable.
Qed.
End Spares.
