(* ===== verification/RemovalProps.v ===== *)
(** * Website removal: the theorems

    What the removal of a website guarantees in every interleaving of requests,
    jobs and changes of other components, and what its approval covers.
    [RemovalSamples] is a subscription with a primary website, an addon website and
    a child of the addon, each with services, and the run that removes the addon:
    the request, the worker through its stages, and the end. *)

From S2P Require Import Prelude Tx Programs Tables GoStr GoCrypto Site DNSTypes DNSTables OpsTypes DNSPlan Password DNSAgent DNSWorker LoginSamples RemovalTypes RemovalPreview RemovalFence RemovalStore RemovalSystem RemovalFacts RemovalSound RemovalApprove RemovalChanges RemovalSafe RemovalFinal.

Module RemovalSamples.
#[export] Existing Instance ascii_only.
#[export] Existing Instance LoginSamples.sample_sha256.
#[export] Existing Instance insertion_order.
#[export] Instance by_byte : Collation := String.leb.

Definition site (id parent : Z) (domain : string) : WebSite :=
  mkWebSite id 1 5 parent 3 "alice" domain "8.3" ("/home/alice/domains/" +:+ domain +:+ "/public_html") "none" 0 10.

Definition row (t : table) (id site parent : Z) (name : string) : OwnedRow := mkOwnedRow t id site parent 1 0 1 name "" false 10.

Definition sha : string := "0123456789abcdef0123456789abcdef0123456789abcdef0123456789abcdef".

Definition dns : DNSStore :=
  mkDNSStore 0 0 0 [] [mkZoneRow 40 7 101 0 "addon.test" "192.0.2.1" "" 7 "active" "primary" [] None None 1 "in_sync" 1 1 "" ""]
    [] [] [] [] [] [] None [] [] 1 1 41 1 1 1 [] 0.

Definition tables : RemovalStore :=
  mkRemovalStore [site 100 0 "primary.test"; site 101 0 "addon.test"; site 102 101 "child.addon.test"]
    [mkSubscription 1 5 100 "active"] [mkCustomer 5 2 "active" 0] [] [] [mkBilling 1 "active"]
    [mkSystemAccount 3 1 "alice" "/home/alice"]
    [mkDatabase 70 101 1 "mariadb" "shop" "shop_user" "active" "" 10; mkDatabase 71 101 1 "mariadb" "blog" "blog_user" "active" "" 10;
     mkDatabase 72 100 1 "mariadb" "main" "main_user" "active" "" 10]
    [mkBackup 80 101 1 "addon.test" "/backups/80.tar" sha ["shop"; "blog"] "active" "" 20] []
    [row PHPApplications 50 101 0 ""; row PHPWorkers 51 0 50 "queue"; row ScheduledTasks 60 102 0 "cron"; row ScheduledTaskRuns 61 0 60 "";
     row MailDomains 62 101 0 "addon.test"; row Mailboxes 63 0 62 "info"; row WebmailHosts 64 101 0 "mail.addon.test"]
    [] [] [] [] dns 103 1 1.

Definition opts : SiteRemovalOptions := mkSiteRemovalOptions "panel.example" true false.
Definition agent : Answers := mkAnswers (Ok ["server.example"]) (λ _, Ok []).
Definition admin : Actor := mkActor 9 "root@panel.example" "admin".

Definition shown : result SiteRemovalPreview := preview opts agent 101 tables.
Definition digest : string := match shown with Ok pv => pv_Digest pv | Err e => error_text e end.
Definition req : RemoveSiteReq := mkRemoveSiteReq 101 "0123456789abcdef0123456789abcdef" digest "addon.test" true true [70].

(** The agent says that everything is done. *)
Definition done_all : result TeardownSiteResult :=
  Ok (mkTeardownSiteResult 1 1 (removal_stages ++ ["database-removed:70"; "database-principal-removed:70"])).

Definition calm : input := mkInput 50 60 Works agent done_all (Ok ()) Completed.

(** So many steps of a thread. *)
Definition steps (n t : nat) : list event := replicate n (Step t calm).

Definition requested : system := run opts true (Request (Remove admin req) :: steps 6 0) (idle tables).
Definition removed : system := run opts true (Fetch 0 :: steps 30 1 ++ [Settle 1 "completed"]) requested.

(** What a thread is about to ask, as far as the theorems speak of it. *)
Definition teardown_of {A} (p : prog A) : option TeardownSiteReq :=
  match p with Ask q _ => match q with TeardownSite req => Some req | _ => None end | Done _ => None end.

Definition body_of {A} (p : prog A) : option (string * option removalFenceArgs) :=
  match p with Ask q _ => match q with Body kind args => Some (kind, args) | _ => None end | Done _ => None end.

Lemma teardown_of_Some {A} (p : prog A) req : teardown_of p = Some req → ∃ k, p = Ask (TeardownSite req) k.
Proof. destruct p as [a|B q k]; [done|]. destruct q; try done. intros [= ->]. by exists k. Qed.

Lemma body_of_Some {A} (p : prog A) kind args : body_of p = Some (kind, args) → ∃ k, p = Ask (Body kind args) k.
Proof. destruct p as [a|B q k]; [done|]. destruct q; try done. intros [= -> ->]. by exists k. Qed.

(** A backup of the primary website is made while the addon is removed: the request,
    the backup behind its fence, and the removal before its first stage. *)
Definition backup_args : removalFenceArgs := mkFenceArgs 100 0 0 0 0 0 0 0 0 0 "" "" [].

Definition busy_events : list event :=
  [Elsewhere (QueueJob 40 "create_backup" (Some backup_args)); Request (Remove admin req)] ++ steps 6 0
  ++ Fetch 0 :: steps 2 1 ++ Fetch 1 :: steps 8 2.

Definition nobody : thread := mkThread Over (Done (Ended Completed)) [].
Definition the_thread (t : nat) (y : system) : thread := nth t (sy_Threads y) nobody.
End RemovalSamples.

Section Theorems.
Context `{GoUnicode} `{GoMapOrder} `{Collation} `{SHA256}.
Context (opts : SiteRemovalOptions) (shared_services : bool).

(** The system after some events, from tables without requests or jobs at work. *)
Definition after (s : RemovalStore) (events : list event) : system := run opts shared_services events (idle s).

(** A thread is about to ask a question. *)
Definition about_to {B} (q : query B) (y : system) (th : thread) : Prop := th ∈ sy_Threads y ∧ ∃ k, th_Prog th = Ask q k.

Lemma about_to_due s events {B} (q : query B) th :
  sound s → about_to q (after s events) th → inv (after s events) ∧ due (th_Call th) (th_History th) q.
Proof.
  intros Hs [Hth [k Ep]]. pose proof (inv_run opts shared_services events s Hs) as Hi. split; [done|].
  pose proof (inv_wp _ Hi th Hth) as Hwp. rewrite Ep in Hwp. by destruct Hwp.
Qed.

Lemma due_drained s events th op :
  sound s → th ∈ sy_Threads (after s events) → prepared (th_History th) op →
  stored op (tables_of (after s events)) ∧ drained op (tables_of (after s events)) (sy_Threads (after s events)).
Proof.
  intros Hs Hth [_ Hd]. pose proof (inv_run opts shared_services events s Hs) as Hi. exact (inv_known _ Hi th _ Hth Hd).
Qed.

(** C9. A website and its services are taken apart only while nobody else works on
    it. In every interleaving of requests, jobs and changes of other components: when
    a thread is about to have the agent tear down the websites of a snapshot, no job
    that works on a single website, and is past the fence, works on one of them. *)
Theorem removal_excludes_jobs s events req remover kind args worker w :
  sound s → let y := after s events in
  about_to (TeardownSite req) y remover → about_to (Body kind (Some args)) y worker →
  is_target kind = true → carries_key kind args = true →
  w ∈ rm_Sites (tables_of y) → ws_ID w ∈ job_sites kind args (tables_of y) →
  ws_ID w ∉ removalSelectedSites (td_Snapshot req).
Proof.
  intros Hs y Hr Hb Ht Hkey Hw Hjob Hsel.
  destruct (about_to_due s events _ _ Hs Hr) as [Hi (op & Hop & E & _)], (about_to_due s events _ _ Hs Hb) as [_ (j & Ec & -> & Ea & Hpass)].
  destruct (Hpass Ht) as (a & q & [= <-] & Eq & Hq), (due_drained s events remover op Hs (proj1 Hr) Hop) as [_ Hd].
  rewrite E in Hsel. unfold job_sites in Hjob. rewrite Eq in Hjob. pose proof (sound_sites _ (inv_sound _ Hi) w Hw) as Hpos.
  apply query_sites_spec in Hjob as (w' & Hw' & Ew & Hreach); [|lia].
  eapply Hd; [|exact Hw'|by rewrite Ew|exact Hreach]. exists worker. split; [apply Hb|]. exists j. by rewrite Ea.
Qed.

(** C11. The agent is only asked for what was approved, in its order: a stage of an
    operation in the tables, with its snapshot and the databases that were chosen and
    may be deleted, after it has answered that every stage before is finished; and
    the tables are cleared only after all stages. *)
Theorem teardown_in_order s events remover :
  sound s → let y := after s events in
  (∀ req, about_to (TeardownSite req) y remover →
     (∃ o, o ∈ rm_Operations (tables_of y) ∧ ro_ID o = td_OperationID req ∧ ro_SubscriptionID o = td_SubscriptionID req ∧
        ro_Snapshot o = td_Snapshot req ∧ ro_DeleteDatabaseIDs o = td_DeleteDatabaseIDs req ∧ td_Revision req ≤ ro_Revision o) ∧
     (∀ id, id ∈ td_DeleteDatabaseIDs req → ∃ d, d ∈ sn_Databases (td_Snapshot req) ∧ rd_ID d = id ∧ rd_DeletionEligible d = true) ∧
     ∃ before rest, removal_stages = before ++ td_Stage req :: rest ∧
       ∀ stage, stage ∈ before → Finished (mkTeardownSiteReq (td_OperationID req) (td_Revision req) (td_SubscriptionID req) (td_Snapshot req) stage (td_DeleteDatabaseIDs req)) ∈ th_History remover) ∧
  (∀ id revision, about_to (Exec (FinalizeTx id revision)) y remover →
     ∀ stage, stage ∈ removal_stages → ∃ req, Finished req ∈ th_History remover ∧ td_OperationID req = id ∧ td_Revision req = revision ∧ td_Stage req = stage).
Proof.
  intros Hs y. split.
  - intros req Hr. destruct (about_to_due s events _ _ Hs Hr) as [Hi (op & Hop & E & before & rest & Es & Hf)].
    destruct (due_drained s events remover op Hs (proj1 Hr) Hop) as [(o & Ho & Ko) _]. pose proof (sound_choices _ (inv_sound _ Hi) o Ho) as Hch.
    destruct Ko as (Eid & _ & _ & Esub & _ & _ & Esn & Edel & Erev). unfold well_chosen in Hch. rewrite Esn, Edel in Hch.
    rewrite E. cbn. split_and!; [by exists o|exact Hch|]. by exists before, rest.
  - intros id revision Hr stage Hst. destruct (about_to_due s events _ _ Hs Hr) as [Hi (op & Hop & <- & <- & Hf)].
    eexists. split; [by apply (Hf stage)|done].
Qed.

(** C10. Retained data is retained. In every interleaving, whatever a request or a job
    does next: every backup is still there, with its archive and its digest; and so
    is every database, unless it was chosen in an approved operation whose inventory
    says that it may be deleted, whose services have all been torn down, and whose
    agent has said that the database is removed. *)
Theorem removal_keeps_data s events t i :
  sound s → let y := after s events in let s1 := tables_of y in let s2 := tables_of (step opts shared_services y (Step t i)) in
  (∀ b, b ∈ rm_Backups s1 → ∃ b', b' ∈ rm_Backups s2 ∧ same_backup b b') ∧
  (∀ d, d ∈ rm_Databases s1 →
     (∃ d', d' ∈ rm_Databases s2 ∧ same_database d d') ∨
     ∃ o, o ∈ rm_Operations s1 ∧ removed_by o (da_ID d) ∧
       ∃ item, item ∈ sn_Databases (ro_Snapshot o) ∧ rd_ID item = da_ID d ∧ rd_DeletionEligible item = true).
Proof.
  intros Hs y s1 s2. pose proof (inv_sound _ (inv_run opts shared_services events s Hs)) as Hs1.
  assert (Keeps (λ id, ∃ op, op ∈ rm_Operations s1 ∧ removed_by op id) s1 s2) as [Hb Hd].
  { unfold s2. cbn [step]. destruct (sy_Threads y !! t) as [th|]; [|reflexivity]. destruct (th_Prog th) as [a|B q k]; [reflexivity|].
    destruct (exec opts i q (sy_World y)) as [[r w]|] eqn:E; [|reflexivity]. cbn. by eapply keeps_exec. }
  split; [exact Hb|]. intros d [(o & Ho & Hrem)|Hin]%Hd; [right|by left]. exists o. split; [done|]. split; [done|].
  apply (sound_choices _ Hs1 o Ho). by destruct Hrem.
Qed.

(** [id] is the key of the website or of one beneath it. *)
Definition beneath (s : RemovalStore) (root id : Z) : Prop := rtc (parent_of s) root id.

(** C17. The recursive query finds exactly the websites beneath: the snapshot of a
    preview holds the website and every website reached from it through parents, and
    no other, and the query ends. *)
Theorem preview_sites_exact answers siteID s pv id :
  preview opts answers siteID s = Ok pv → id ∈ removalSelectedSites (pv_Snapshot pv) ↔ beneath s siteID id.
Proof.
  intros ((w & Hw & Ew & _) & Es & Hcycle & _)%preview_spec. unfold removalSelectedSites. rewrite Es, <- list_fmap_compose. split.
  - intros ([[w' path] cycle] & -> & (n & _ & Hd)%removal_tree_elem)%list_elem_of_fmap. cbn. by apply level_spec in Hd as (_ & _ & _ & _ & Hr).
  - intros Hr. destruct (removal_tree_complete siteID s id) as (w' & path & Hd & Eid); [by exists w|by intros d Hd; apply Hcycle|done|].
    apply list_elem_of_fmap. by exists (w', path, false).
Qed.

(** What an operation leaves when it has ended. *)
Record ended (op : SiteRemovalOperation) (s s' : RemovalStore) : Prop := mkEnded {
  ended_sites : ∀ id, id ∈ removalSelectedSites (ro_Snapshot op) → gone id s';
  ended_others : Spares (removalSelectedSites (ro_Snapshot op)) s s';
  ended_data : Keeps (removed_by op) s s';
  ended_operation : ∀ o, o ∈ rm_Operations s' → ro_ID o = ro_ID op → ro_State o = "completed";
  ended_targets : ∀ t, t ∈ rm_Targets s' → rt_OperationID t = ro_ID op → rt_Released t = true;
}.

End Theorems.

(** ** The theorems at work *)

Import RemovalSamples.

Lemma tables_sound : sound tables.
Proof.
  split; cbn [tables rm_SiteSeq rm_Sites rm_Owned rm_Operations rm_Jobs rm_JobSeq].
  - done.
  - by apply (bool_decide_unpack _); vm_compute.
  - intros w Hw. repeat (apply elem_of_cons in Hw as [->|Hw]; [done|]). by apply elem_of_nil in Hw.
  - intros r Hr. repeat (apply elem_of_cons in Hr as [->|Hr]; [done|]). by apply elem_of_nil in Hr.
  - intros d w [Et Hd]%owned_elem Hw E. cbn in Hd. repeat (apply elem_of_cons in Hd as [->|Hd]; [try done|]); [|by apply elem_of_nil in Hd].
    repeat (apply elem_of_cons in Hw as [->|Hw]; [try done|]). by apply elem_of_nil in Hw.
  - split; [apply NoDup_nil_2|constructor].
  - intros o Ho. by apply elem_of_nil in Ho.
  - intros o Ho. by apply elem_of_nil in Ho.
Qed.

Lemma about_to_teardown s events t req :
  (t < length (sy_Threads (after opts true s events)))%nat →
  teardown_of (th_Prog (the_thread t (after opts true s events))) = Some req →
  about_to (TeardownSite req) (after opts true s events) (the_thread t (after opts true s events)).
Proof. intros Hl Ht. split; [by apply list_elem_of_In, nth_In|by apply teardown_of_Some]. Qed.

Lemma about_to_body s events t kind args :
  (t < length (sy_Threads (after opts true s events)))%nat →
  body_of (th_Prog (the_thread t (after opts true s events))) = Some (kind, args) →
  about_to (Body kind args) (after opts true s events) (the_thread t (after opts true s events)).
Proof. intros Hl Ht. split; [by apply list_elem_of_In, nth_In|by apply body_of_Some]. Qed.

(** The busy system, and the request to the agent in it. *)
#[local] Notation busy := (after opts true tables busy_events).
Definition busy_req : TeardownSiteReq :=
  match teardown_of (th_Prog (the_thread 2 busy)) with Some r => r | None => mkTeardownSiteReq 0 0 0 (mkSiteRemovalSnapshot 0 [] [] [] [] []) "" [] end.

Lemma removal_excludes_jobs_witness :
  about_to (TeardownSite busy_req) busy (the_thread 2 busy) ∧ 101 ∈ removalSelectedSites (td_Snapshot busy_req) ∧
  about_to (Body "create_backup" (Some backup_args)) busy (the_thread 1 busy) ∧ 100 ∈ job_sites "create_backup" backup_args (tables_of busy) ∧
  100 ∉ removalSelectedSites (td_Snapshot busy_req).
Proof.
  assert (about_to (TeardownSite busy_req) busy (the_thread 2 busy)) as Hr.
  { apply (about_to_teardown tables busy_events 2 busy_req); [apply Nat.ltb_lt; vm_compute; reflexivity|vm_compute; reflexivity]. }
  assert (about_to (Body "create_backup" (Some backup_args)) busy (the_thread 1 busy)) as Hb.
  { apply (about_to_body tables busy_events 1 "create_backup" (Some backup_args)); [apply Nat.ltb_lt; vm_compute; reflexivity|vm_compute; reflexivity]. }
  split; [exact Hr|]. split; [apply (bool_decide_unpack _); vm_compute; reflexivity|]. split; [exact Hb|].
  assert (100 ∈ job_sites "create_backup" backup_args (tables_of busy)) as Hj by (apply (bool_decide_unpack _); vm_compute; reflexivity).
  split; [exact Hj|].
  set (w := match rm_Sites (tables_of busy) with w :: _ => w | [] => site 0 0 "" end).
  assert (ws_ID w = 100) as Ew by (vm_compute; reflexivity). rewrite <- Ew.
  apply (removal_excludes_jobs opts true tables busy_events busy_req (the_thread 2 busy) "create_backup" backup_args (the_thread 1 busy) w
    tables_sound Hr Hb); [reflexivity|reflexivity| |by rewrite Ew].
  apply (list_elem_of_lookup_2 _ 0). vm_compute. reflexivity.
Defined.

Lemma teardown_in_order_witness :
  about_to (TeardownSite busy_req) busy (the_thread 2 busy) ∧ td_Stage busy_req = RemovalStopServices ∧
  ∃ o, o ∈ rm_Operations (tables_of busy) ∧ ro_ID o = td_OperationID busy_req ∧ ro_Snapshot o = td_Snapshot busy_req.
Proof.
  assert (about_to (TeardownSite busy_req) busy (the_thread 2 busy)) as Hr.
  { apply (about_to_teardown tables busy_events 2 busy_req); [apply Nat.ltb_lt; vm_compute; reflexivity|vm_compute; reflexivity]. }
  split; [exact Hr|]. split; [vm_compute; reflexivity|].
  destruct (proj1 (teardown_in_order opts true tables busy_events (the_thread 2 busy) tables_sound) busy_req Hr) as [(o & Ho & Ei & _ & Es & _) _].
  exact (ex_intro _ o (conj Ho (conj Ei Es))).
Defined.

(** All stages are finished, and the tables are about to be cleared. *)
Definition ready_events : list event := Request (Remove admin req) :: steps 6 0 ++ Fetch 0 :: steps 24 1.
#[local] Notation ready := (tables_of (after opts true tables ready_events)).

Definition database_in (id : Z) (s : RemovalStore) : bool := existsb (λ d, da_ID d =? id) (rm_Databases s).

Lemma database_in_elem d s : d ∈ rm_Databases s → database_in (da_ID d) s = true.
Proof. intros Hd. apply existsb_exists. exists d. rewrite Z.eqb_refl. split; [by apply list_elem_of_In|done]. Qed.

(** The chosen database goes, the other stays, and so does the backup. *)
Lemma removal_keeps_data_witness :
  database_in 70 ready = true ∧
  (∃ o, o ∈ rm_Operations ready ∧ removed_by o 70) ∧
  ∃ b, b ∈ rm_Backups (tables_of (step opts true (after opts true tables ready_events) (Step 1 calm))) ∧ bk_SHA256 b = sha.
Proof.
  destruct (removal_keeps_data opts true tables ready_events 1 calm tables_sound) as [Hb Hd].
  set (d := mkDatabase 70 101 1 "mariadb" "shop" "shop_user" "active" "" 10).
  set (b := mkBackup 80 101 1 "addon.test" "/backups/80.tar" sha ["shop"; "blog"] "active" "" 20).
  assert (rm_Databases ready !! 0%nat = Some d) as Hin by (vm_compute; reflexivity).
  assert (rm_Backups ready !! 0%nat = Some b) as Hbin by (vm_compute; reflexivity).
  split; [vm_compute; reflexivity|]. split.
  - destruct (Hd d (list_elem_of_lookup_2 _ _ _ Hin)) as [(d' & Hd' & Hsame)|(o & Ho & Hrem & _)]; [exfalso|exact (ex_intro _ o (conj Ho Hrem))].
    assert (database_in 70 (tables_of (step opts true (after opts true tables ready_events) (Step 1 calm))) = false) as Hno by (vm_compute; reflexivity).
    pose proof (database_in_elem _ _ Hd') as Hyes. destruct Hsame as [E _]. rewrite E in Hyes.
    change (da_ID d) with 70 in Hyes. exact (eq_true_false_abs _ Hyes Hno).
  - destruct (Hb b (list_elem_of_lookup_2 _ _ _ Hbin)) as (b' & Hb' & _ & _ & _ & _ & Es & _). exact (ex_intro _ b' (conj Hb' Es)).
Defined.

Lemma preview_sites_exact_witness :
  (∃ pv, shown = Ok pv ∧ 102 ∈ removalSelectedSites (pv_Snapshot pv)) ∧ beneath tables 101 102 ∧ ¬ beneath tables 101 100.
Proof.
  assert (match shown with
    | Ok pv => bool_decide (102 ∈ removalSelectedSites (pv_Snapshot pv)) && negb (bool_decide (100 ∈ removalSelectedSites (pv_Snapshot pv)))
    | Err _ => false end = true) as Hall by (vm_compute; reflexivity).
  destruct shown as [pv|e] eqn:E; [|discriminate Hall]. apply andb_true_iff in Hall as [Hin Hout]. apply negb_true_iff in Hout.
  apply bool_decide_eq_true in Hin. apply bool_decide_eq_false in Hout.
  split; [exact (ex_intro _ pv (conj eq_refl Hin))|]. split.
  - apply (preview_sites_exact opts agent 101 tables pv 102 E). exact Hin.
  - intros Hb. apply Hout. apply (preview_sites_exact opts agent 101 tables pv 100 E). exact Hb.
Defined.

#[local] Notation cleared := (finalize 50 1 1 ready).


(** A removal whose operation does not exist: the worker means to end quietly, but
    the read has already turned the missing row into the forbidden error. *)
Lemma missing_operation_fails :
  existsb (λ th, match th_Prog th with Done (Ended (Failed e)) => errors_Is e "provision.ErrForbidden" | _ => false end)
    (sy_Threads (after opts true (tables <| rm_Jobs := [mkJobRow 1 "remove_site" (Some (remove_args 9 1)) "available" 40] |>) (Fetch 0 :: steps 8 0))) = true.
Proof. vm_compute. reflexivity. Qed.
